(* ===== verification/_CoqProject ===== *)
-Q . S2P
Prelude.v
Bitmap.v
IO.v
Ssl.v
PageTable.v
ListQueue.v
Dest.v
Handshake.v
Stream.v
Apply.v
Protocol.v
SyncQueue.v
RateLimit.v
SaveLoop.v
Control.v
P2mList.v
Vcpu.v
Tail.v
HvmTail.v
Finish.v
LogDirty.v
LogScan.v
LogRange.v
Tmem.v
Suspend.v
SaveFile.v
Checkpoint.v
Relocate.v
Resume.v
HvmContext.v
HvmHandler.v
Layout.v
HvmCpu.v
Vmx.v
CpuMigrate.v
HvmIrq.v
Vpic.v
Vioapic.v
HvmDevices.v
Vpt.v
Vlapic.v
Lapics.v
LapicMigrate.v
PmTimer.v
Pit.v
Hpet.v
HvmLoad.v
