(* ===== verification/Prelude.v ===== *)
(** * Verification of PMigrate: parallel live migration on Xen 4.1.2

    PMigrate changes the migration path of Xen 4.1.2: the memory of a guest is
    sent by several threads over several connections, each received by a
    thread of its own, while the state of CPUs and devices travels on a main
    connection.  This development models that path in the order in which a
    guest passes through it, and proves what makes it correct.

    ** The program and the files

    The source host runs [xl migrate] (tools/libxl/xl_cmdimpl.c), which starts
    [xl migrate-receive] on the target and calls [xc_domain_save]
    (tools/libxc/xc_domain_save.c); the target calls [xc_domain_restore]
    (tools/libxc/xc_domain_restore.c).  The hypervisor of the source logs the
    pages the guest writes (xen/arch/x86/mm/paging.c); for a fully virtualised
    guest the hypervisors also write and read the state of the hardware they
    emulate (xen/common/hvm/save.c and the devices under xen/arch/x86/hvm).

    - [Prelude]: notations of C's bit operations, wrap-around at 32 and 64
      bits, little-endian encodings, blocks of memory, and lemmas about them.
    - [Bitmap]: bitmaps of pages ([test_bit], [set_bit], [clear_bit],
      [hweight32], [count_bits]).
    - [IO]: the loops that move an exact number of bytes over a descriptor
      ([write_exact], the output buffer, [rdexact], [mc_rdexact]); the class
      [ByteSource] states what the parsers rely on, and the stream, the plain
      descriptor and the encrypted connection are its instances.
    - [Ssl]: the encrypted channel of a slave (mc_ssl/mc_ssl.c) over a cipher
      that is a parameter.
    - [PageTable]: [canonicalize_pagetable], [uncanonicalize_pagetable] and the
      translation of frame numbers.
    - [ListQueue], [SyncQueue]: the queues between master and slaves
      (mc_migration_helper.c, mc_queue.c).
    - [Dest]: the list of destinations and the command line of the receiver.
    - [Handshake]: [migrate_domain] and [migrate_receive] as two programs that
      exchange messages, with failures at every point.
    - [Stream]: the messages of a batch of pages ([send_patch]) and their
      parsers ([slave_pagebuf_get_one], [pagebuf_get_one], [pagebuf_get]).
    - [Apply]: [apply_batch] and the loop of [receive_patch].
    - [Protocol]: master, slaves, receivers and guest as a transition system.
    - [RateLimit]: the bandwidth limit of a slave ([mc_ratewrite]).
    - [SaveLoop]: the scan, the iterations and the main loop of the sender.
    - [Control]: the records on the main connection after the memory.
    - [P2mList]: the header with the guest's frame list
      ([map_and_save_p2m_table], [load_p2m_frame_list]).
    - [Vcpu]: the frame numbers in the context of a virtual CPU.
    - [Tail], [HvmTail]: what follows the memory, for paravirtual and fully
      virtualised guests, on both sides.
    - [Finish]: pinning, freeing, the shared info page and the guest's table
      at the end of the restore.
    - [LogDirty], [LogScan], [LogRange]: the hypervisor's trie of dirty pages,
      its scan, the scan of a range (video memory), and its use by several
      processors at once.
    - [Tmem]: transcendent memory in the stream (xc_tmem.c).
    - [Suspend]: the suspension of the guest with its cancellation
      (libxl_dom.c).
    - [SaveFile]: the header with the domain's configuration.
    - [Checkpoint]: the receiver's loop over checkpoints.
    - [Relocate]: moving the root tables of PAE guests below 4 GB.
    - [Resume]: resuming the guest on the source (xc_resume.c,
      [libxl_domain_resume]).
    - [HvmContext]: the records of an HVM context ([hvm_save], [hvm_load], the
      domctls around them) over a table of handlers; [HvmHandler]: what a
      device's handlers promise, as a class, and the handlers built from it.
    - [Layout]: structures as fields of a block; [HvmCpu]: the records of the
      CPUs and of their XSAVE areas (hvm/hvm.c), over a class that states what
      a processor promises; [Vmx]: the VMX functions behind it (vmx/vmx.c);
      [CpuMigrate]: the CPUs of a guest, from one host to the other.
    - [HvmIrq]: the interrupt lines of the guest (hvm/irq.c); [Vpic]: the pair
      of 8259As (vpic.c); [Vioapic]: the I/O APIC (vioapic.c); [HvmDevices]:
      these connected as irq.c connects them, with the table of their handlers.
    - [Vpt]: the virtual platform timers (hvm/vpt.c); [Vlapic]: one local APIC
      (the part of hvm/vlapic.c that works on a page of registers); [Lapics]:
      the APICs of a domain with their timers, interrupts between CPUs, register
      writes, INIT and STARTUP; [LapicMigrate]: their handlers and the way of
      all APICs to another host.
    - [PmTimer]: the ACPI power management timer (hvm/pmtimer.c); [Pit]: the
      interval timer (hvm/i8254.c); [Hpet]: the high precision event timer
      (hvm/hpet.c).
    - [HvmLoad]: the handlers of all these devices in one table.

    Operations keep the names of the source.  State that the code mutates is
    passed explicitly; a [goto out] or [return -1] is [None], a result code or
    a constructor of a result type, as each file says.  A BUG, a division by
    zero or an access outside a block has no result ([Bug]) or, where the
    function has no error result, leaves a value that the invariants exclude: a
    table of counts or channels that is empty ([HvmIrq], [Pit]), a list of
    timers whose flag [list_fault] is set ([Vpt]), a control structure whose
    flag [assert_failed] is set ([Vmx]).  Integers are kept at their width
    where a value can reach its bounds.

    ** What the theorems show

    - Transfer of memory: when the transfer ends, the target has the memory of
      the suspended guest, for every interleaving of master, slaves, receivers
      and guest ([Protocol]); a batch that is written is read back entry by
      entry and page by page ([Stream]) and lands in the frames of its pages
      ([Apply]); page tables survive the change of frames ([PageTable]).
    - Choice of pages: no iteration loses a page, the last one sends exactly
      what is left, it follows the suspension, and the loop ends ([SaveLoop]);
      the log the pages come from behaves as a set, with several processors
      marking pages, and never loses a mark silently ([LogDirty], [LogScan]).
    - State besides memory: round trips of CPU contexts, tails, frame list,
      control records, transcendent memory and configuration ([Vcpu], [Tail],
      [HvmTail], [P2mList], [Control], [Tmem], [SaveFile]); what the end of the
      restore does with them ([Finish]) and with PAE root tables ([Relocate]).
    - Control: the guest never runs on both hosts ([Handshake]); toolstack and
      guest agree on whether it is suspended ([Suspend]); a sender that dies
      leaves the last whole checkpoint in force ([Checkpoint]); a guest whose
      migration failed is resumed as the handshake assumes ([Resume]).
    - Hardware of an HVM guest: the count of asserted inputs of every interrupt
      line is exact after any sequence of operations, no index leaves its table
      ([HvmIrq]); a level interrupt is never dropped by the I/O APIC on a line
      that no event channel takes over, the
      8259As never reach their BUG_ON and acknowledge the interrupt of highest
      priority ([Vpic], [Vioapic], [HvmDevices]); loading a context ends with the
      handlers of eleven types ([HvmLoad]), and a
      saved context restores this hardware ([HvmContext], [HvmDevices]).  The
      CPUs go on with the registers, segments, MSRs, pending event and time
      stamp counter they had, in protected and in real mode, on every processor
      that meets the interface, and VMX does ([HvmCpu], [Vmx], [CpuMigrate]).
      A local APIC nests interrupts by priority ([Vlapic]); messages between
      CPUs reach their destination, an interrupt of lowest priority reaches the
      first of the CPUs of lowest priority in turn, and a guest can make the
      APICs fault in one way only ([Lapics]); lists of timers are exact, no
      timer is linked or unlinked twice and no tick is lost ([Vpt]); APICs
      survive a migration, with the times at which their timers go off
      ([LapicMigrate]).  The ACPI timer
      counts guest time exactly and no change of its highest bit goes unnoticed
      ([PmTimer]); no access makes the interval timer fault or touch a fourth
      channel ([Pit]).  A
      timer of the HPET that is off makes no interrupt, and a running HPET goes
      on after a migration, with its comparators and deadlines ([Hpet]).
    - Channels: exact delivery over short, interrupted and encrypted channels
      ([IO], [Ssl]), queues in order ([ListQueue]), bounded rate ([RateLimit]).
    - Where the code does not do what it means to, a theorem says what it does:
      iterations whose barriers are skipped, a transfer that cannot end,
      records misread after a missed announcement, checkpoints with pages,
      marks outside a scanned range, records of the 8259A that are not checked,
      short records of the XSAVE area, divisors of zero in the record of a
      local APIC, reads behind its page of registers, a timer of
      the HPET that outlives its domain.

    ** Fuel and bounds

    Loops over an index are recursive in the number of turns the source makes.
    Loops without such a bound have fuel, and theorems about their results give
    an amount that is enough: [max_iters + 2] turns of the sender's main loop
    ([save_loop_bounded]), the number of pools plus one in [Tmem], the number
    of checkpoints plus two in [Checkpoint], four allocations for a mark in the
    log.  Descriptors are lists of the kernel's answers; a function that
    reaches the end of the list has not returned.  Page numbers in the log are
    below 2^42, the range its indices distinguish.

    ** What is not modelled

    The cipher, the hypercalls other than those on the log, and the device
    model are parameters, with the behaviour relied on as hypotheses.  Threads
    are created and connections opened by the C library.  Statistics and traces
    change nothing that is sent.  Of the hardware the hypervisor emulates the
    RTC and the MTRRs are not modelled (their handlers are parameters of
    [HvmLoad]); the
    local APICs are a parameter of [Vioapic], and the controllers one of
    [Lapics].  Of VMX only what a migration uses is modelled;
    SVM would be another instance of [HvmFuncs].  The rest of Xen (scheduler,
    drivers, QEMU, firmware, other tools) is not part of the migration path. *)

From stdpp Require Export base tactics numbers list gmap.
From Stdlib Require Export ZArith Lia.

Declare Scope cint_scope.
Delimit Scope cint_scope with cint.
Notation "x .& y" := (Z.land x y) (at level 40, left associativity) : cint_scope.
Notation "x .| y" := (Z.lor x y) (at level 50, left associativity) : cint_scope.
Notation "x .<< n" := (Z.shiftl x n) (at level 32, left associativity) : cint_scope.
Notation "x .>> n" := (Z.shiftr x n) (at level 32, left associativity) : cint_scope.
Open Scope Z_scope.
Open Scope cint_scope.

(** [zlia]: linear arithmetic with division and modulus by constants. *)
Ltac zlia := zify; Z.to_euclidean_division_equations; lia.

(** ** Machine integers *)

Definition u32 (z : Z) : Z := z mod 2 ^ 32.
Definition u64 (z : Z) : Z := z mod 2 ^ 64.
Definition s32 (z : Z) : Z := (z + 2 ^ 31) mod 2 ^ 32 - 2 ^ 31.

(** Complement of a [w]-bit unsigned value ([~x] at width [w]). *)
Definition not_w (w z : Z) : Z := Z.lxor z (Z.ones w).

(** A C condition on an integer. *)
Definition truthy (z : Z) : bool := negb (z =? 0).

Lemma u32_range z : 0 <= u32 z < 2 ^ 32.
Proof. apply Z.mod_pos_bound; lia. Qed.

Lemma u64_range z : 0 <= u64 z < 2 ^ 64.
Proof. apply Z.mod_pos_bound; lia. Qed.

Lemma s32_range z : - 2 ^ 31 <= s32 z < 2 ^ 31.
Proof. unfold s32. pose proof (Z.mod_pos_bound (z + 2 ^ 31) (2 ^ 32)). lia. Qed.

Lemma u32_small z : 0 <= z < 2 ^ 32 -> u32 z = z.
Proof. apply Z.mod_small. Qed.

Lemma u64_small z : 0 <= z < 2 ^ 64 -> u64 z = z.
Proof. apply Z.mod_small. Qed.

Lemma s32_small z : - 2 ^ 31 <= z < 2 ^ 31 -> s32 z = z.
Proof. intros H. unfold s32. rewrite Z.mod_small; lia. Qed.

Lemma truthy_b2z b : truthy (Z.b2z b) = b.
Proof. by destruct b. Qed.

(** ** Bits *)

Create Rewrite HintDb zbits.
#[export] Hint Rewrite Z.land_spec Z.lor_spec Z.lxor_spec Z.ldiff_spec
  Z.testbit_0_l : zbits.
#[export] Hint Rewrite Z.shiftl_spec Z.shiftr_spec Z.lnot_spec using lia : zbits.

(** [zbits]: turn an equality of integers into one of their bits. *)
Ltac zbits :=
  apply Z.bits_inj'; let i := fresh "i" in let Hi := fresh "Hi" in
  intros i Hi; autorewrite with zbits.

Lemma testbit_high z w i : 0 <= z < 2 ^ w -> w <= i -> Z.testbit z i = false.
Proof.
  intros Hz Hi. destruct (decide (z = 0)) as [->|Hz0]; [apply Z.testbit_0_l|].
  apply Z.bits_above_log2; [lia|].
  assert (0 <= w) by (destruct (decide (0 <= w)); [done|]; rewrite Z.pow_neg_r in Hz; lia).
  apply Z.lt_le_trans with w; [|done]. apply Z.log2_lt_pow2; lia.
Qed.

Lemma testbit_ones w i : 0 <= w -> 0 <= i -> Z.testbit (Z.ones w) i = (i <? w).
Proof.
  intros. destruct (Z.ltb_spec i w); [apply Z.ones_spec_low|apply Z.ones_spec_high]; lia.
Qed.

Lemma testbit_pow2 n i : 0 <= n -> 0 <= i -> Z.testbit (1 .<< n) i = (i =? n).
Proof.
  intros. rewrite Z.shiftl_1_l. destruct (Z.eqb_spec i n) as [->|].
  - by apply Z.pow2_bits_true.
  - apply Z.pow2_bits_false; lia.
Qed.

Lemma testbit_not_w w z i :
  0 <= w -> 0 <= i -> Z.testbit (not_w w z) i = xorb (Z.testbit z i) (i <? w).
Proof. intros. unfold not_w. by rewrite Z.lxor_spec, testbit_ones. Qed.

(** A non-negative integer whose bits from [w] up are clear is below [2^w]. *)
Lemma bounded_of_bits z w :
  0 <= w -> 0 <= z -> (forall i, w <= i -> Z.testbit z i = false) -> 0 <= z < 2 ^ w.
Proof.
  intros Hw Hz Hb. split; [done|].
  assert (z = z mod 2 ^ w) as ->; [|apply Z.mod_pos_bound; lia].
  apply Z.bits_inj'. intros i Hi. destruct (decide (i < w)).
  - by rewrite Z.mod_pow2_bits_low.
  - rewrite Z.mod_pow2_bits_high by lia. apply Hb. lia.
Qed.

Lemma land_range x y w : 0 <= w -> 0 <= y < 2 ^ w -> 0 <= x .& y < 2 ^ w.
Proof.
  intros Hw Hy. apply bounded_of_bits; [done| |].
  - apply Z.land_nonneg. lia.
  - intros i Hi. rewrite Z.land_spec, (testbit_high y w) by lia. apply andb_false_r.
Qed.

Lemma lor_range x y w : 0 <= w -> 0 <= x < 2 ^ w -> 0 <= y < 2 ^ w -> 0 <= x .| y < 2 ^ w.
Proof.
  intros Hw Hx Hy. apply bounded_of_bits; [done| |].
  - apply Z.lor_nonneg. lia.
  - intros i Hi. by rewrite Z.lor_spec, (testbit_high x w), (testbit_high y w) by lia.
Qed.

(** Bits of a value split at position [k]. *)
Lemma testbit_split a b k i :
  0 <= k -> 0 <= a < 2 ^ k -> 0 <= i ->
  Z.testbit (a + 2 ^ k * b) i = if i <? k then Z.testbit a i else Z.testbit b (i - k).
Proof.
  intros Hk Ha Hi. destruct (Z.ltb_spec i k).
  - rewrite <- (Z.mod_pow2_bits_low _ k) by lia.
    rewrite Z.mul_comm, Z.mod_add, Z.mod_small by lia. done.
  - replace i with ((i - k) + k) at 1 by lia.
    rewrite <- Z.div_pow2_bits by lia.
    rewrite Z.mul_comm, Z.div_add, Z.div_small by lia. done.
Qed.

(** ** Exhaustive checks over small ranges *)

Lemma forallb_seqZ (P : Z -> bool) n x :
  forallb P (seqZ 0 n) = true -> 0 <= x < n -> P x = true.
Proof.
  intros Hall Hx. rewrite forallb_forall in Hall. apply Hall.
  apply list_elem_of_In, elem_of_seqZ. lia.
Qed.

(** ** Filters *)

Lemma filter_ext_in {A} (P Q : A -> Prop) `{forall x, Decision (P x), forall x, Decision (Q x)} (l : list A) :
  (forall x, x ∈ l -> (P x <-> Q x)) -> filter P l = filter Q l.
Proof.
  induction l as [|x l IH]; intros Hx; [done|]. rewrite !filter_cons, IH by (intros; apply Hx; by right). specialize (Hx x ltac:(by left)).
  destruct (decide (P x)), (decide (Q x)); tauto.
Qed.

Lemma filter_keeps_all {A} (P : A -> Prop) `{forall x, Decision (P x)} (l : list A) : (forall x, x ∈ l -> P x) -> filter P l = l.
Proof.
  induction l as [|x l IH]; intros Hx; [done|]. rewrite filter_cons, IH by (intros; apply Hx; by right). by rewrite decide_True by (apply Hx; by left).
Qed.

(** ** Memory blocks: lists of bytes *)

(** [memcpy(buf + off, src, length src)] into a block that is large enough. *)
Definition write_at (buf : list Z) (off : nat) (src : list Z) : list Z :=
  take off buf ++ src ++ drop (off + length src) buf.

Lemma write_at_length buf off src :
  (off + length src <= length buf)%nat -> length (write_at buf off src) = length buf.
Proof. intros. unfold write_at. rewrite !length_app, length_take, length_drop. lia. Qed.

Lemma write_at_prefix buf off src :
  (off + length src <= length buf)%nat ->
  take (off + length src) (write_at buf off src) = take off buf ++ src.
Proof.
  intros. unfold write_at. rewrite app_assoc, take_app_le.
  - apply take_ge. rewrite length_app, length_take. lia.
  - rewrite length_app, length_take. lia.
Qed.

(** Two adjacent copies are one. *)
Lemma write_at_app buf off a b :
  (off + length a + length b <= length buf)%nat ->
  write_at (write_at buf off a) (off + length a) b = write_at buf off (a ++ b).
Proof.
  intros H. unfold write_at at 1. rewrite write_at_prefix by lia.
  unfold write_at. rewrite length_app, <- !app_assoc. do 3 f_equal.
  rewrite drop_app_ge by (rewrite length_take; lia). rewrite length_take.
  rewrite drop_app_ge by lia. rewrite drop_drop. f_equal. lia.
Qed.

Lemma write_at_nil buf off : write_at buf off [] = buf.
Proof. unfold write_at. cbn [app length]. rewrite Nat.add_0_r. apply take_drop. Qed.

(** A copy that fills the block. *)
Lemma write_at_all buf src : length src = length buf -> write_at buf 0 src = src.
Proof.
  intros H. unfold write_at. rewrite drop_ge by lia. simpl. apply app_nil_r.
Qed.

Lemma take_write_at buf src : 
  (length src <= length buf)%nat -> take (length src) (write_at buf 0 src) = src.
Proof. exact (write_at_prefix buf 0 src). Qed.

(** ** Little-endian encodings *)

Fixpoint le_bytes (n : nat) (z : Z) : list Z :=
  match n with
  | O => []
  | S n' => z mod 256 :: le_bytes n' (z / 256)
  end.

Definition le_val (bs : list Z) : Z := foldr (fun b acc => b + 256 * acc) 0 bs.

Lemma le_bytes_length n z : length (le_bytes n z) = n.
Proof. revert z. induction n; intros z; simpl; auto. Qed.

Lemma le_val_bytes n z : le_val (le_bytes n z) = z mod 256 ^ Z.of_nat n.
Proof.
  revert z. induction n as [|n IH]; intros z.
  - change (256 ^ Z.of_nat 0) with 1. by rewrite Z.mod_1_r.
  - cbn [le_bytes le_val foldr]. fold (le_val (le_bytes n (z / 256))). rewrite IH.
    rewrite Nat2Z.inj_succ, Z.pow_succ_r, Z.rem_mul_r by lia. done.
Qed.

Definition is_byte (b : Z) : Prop := 0 <= b < 256.

Lemma le_bytes_bytes n z : Forall is_byte (le_bytes n z).
Proof.
  revert z. induction n; intros z; simpl; constructor; auto.
  apply Z.mod_pos_bound. lia.
Qed.

Lemma le_bytes_val bs : Forall is_byte bs -> le_bytes (length bs) (le_val bs) = bs.
Proof.
  induction 1 as [|b bs Hb _ IH]; [done|]. cbn [length le_bytes le_val foldr].
  fold (le_val bs). unfold is_byte in Hb.
  rewrite Z.mul_comm, Z.mod_add, Z.mod_small, Z.div_add, Z.div_small by lia.
  by rewrite Z.add_0_l, IH.
Qed.

Lemma le_val_range bs : Forall is_byte bs -> 0 <= le_val bs < 256 ^ Z.of_nat (length bs).
Proof.
  induction 1 as [|b bs Hb _ IH]; [simpl; lia|]. cbn [length le_val foldr].
  fold (le_val bs). rewrite Nat2Z.inj_succ, Z.pow_succ_r by lia. unfold is_byte in Hb. lia.
Qed.

Lemma le_bytes_zero n : le_bytes n 0 = replicate n 0.
Proof. induction n as [|n IH]; [done|]. cbn [le_bytes replicate]. change (0 / 256) with 0. by rewrite IH. Qed.

#[global] Opaque le_bytes.
