(* ===== verification/Bitmap.v ===== *)
(** Bitmaps of the migration sender (tools/libxc/xc_domain_save.c).

    The sender tracks the pages to send, to skip and to fix up in arrays of
    [unsigned long].  This file models the accessors [test_bit], [clear_bit],
    [set_bit], the population counts [hweight32] and [count_bits], and proves
    that the arrays implement sets of page numbers. *)

From S2P Require Import Prelude.

Module Bitmap.

Definition BITS_PER_LONG : Z := 64.

Definition BITS_TO_LONGS (bits : Z) : Z := (bits + BITS_PER_LONG - 1) / BITS_PER_LONG.

(** Size in bytes of a bitmap over the guest's [p2m_size] frames. *)
Definition BITMAP_SIZE (p2m_size : Z) : Z := BITS_TO_LONGS p2m_size * 8.

(** A bitmap is the array of its 64-bit words. *)
Definition BITMAP_ENTRY (nr : Z) (bmap : list Z) : Z :=
  default 0 (bmap !! Z.to_nat (nr / BITS_PER_LONG)).

Definition BITMAP_SHIFT (nr : Z) : Z := nr mod BITS_PER_LONG.

Definition ORDER_LONG : Z := 6.

Definition test_bit (nr : Z) (addr : list Z) : Z :=
  (BITMAP_ENTRY nr addr .>> BITMAP_SHIFT nr) .& 1.

Definition clear_bit (nr : Z) (addr : list Z) : list Z :=
  <[Z.to_nat (nr / BITS_PER_LONG) :=
      BITMAP_ENTRY nr addr .& not_w 64 (1 .<< BITMAP_SHIFT nr)]> addr.

Definition set_bit (nr : Z) (addr : list Z) : list Z :=
  <[Z.to_nat (nr / BITS_PER_LONG) :=
      BITMAP_ENTRY nr addr .| (1 .<< BITMAP_SHIFT nr)]> addr.

(** Hamming weight of a 32-bit word; the additions are at width 32. *)
Definition hweight32 (w : Z) : Z :=
  let res := u32 ((w .& 0x55555555) + ((w .>> 1) .& 0x55555555)) in
  let res := u32 ((res .& 0x33333333) + ((res .>> 2) .& 0x33333333)) in
  let res := u32 ((res .& 0x0F0F0F0F) + ((res .>> 4) .& 0x0F0F0F0F)) in
  let res := u32 ((res .& 0x00FF00FF) + ((res .>> 8) .& 0x00FF00FF)) in
  u32 ((res .& 0x0000FFFF) + ((res .>> 16) .& 0x0000FFFF)).

(** The loop runs over whole words; each word is passed to [hweight32] as an
    [unsigned int]. *)
Definition count_bits (nr : Z) (addr : list Z) : Z :=
  foldl (fun count w => count + hweight32 (u32 w)) 0
        (take (Z.to_nat (nr / (8 * 8))) addr).

(** ** Well-formed bitmaps and the set they denote *)

Record wf_bitmap (size : Z) (b : list Z) : Prop := {
  wf_length : length b = Z.to_nat (BITS_TO_LONGS size);
  wf_words : Forall (fun w => 0 <= w < 2 ^ 64) b
}.

(** Membership of page [n] in the set a bitmap denotes. *)
Definition bit (b : list Z) (n : Z) : bool := truthy (test_bit n b).

Lemma entry_range size b n : wf_bitmap size b -> 0 <= BITMAP_ENTRY n b < 2 ^ 64.
Proof.
  intros [_ Hw]. unfold BITMAP_ENTRY.
  destruct (b !! _) as [w|] eqn:E; simpl; [|lia].
  eapply Forall_lookup_1 in Hw; eauto.
Qed.

Lemma shift_range n : 0 <= BITMAP_SHIFT n < 64.
Proof. apply Z.mod_pos_bound. unfold BITS_PER_LONG. lia. Qed.

Lemma bit_testbit b n : bit b n = Z.testbit (BITMAP_ENTRY n b) (BITMAP_SHIFT n).
Proof.
  unfold bit, test_bit. pose proof (shift_range n).
  replace (_ .& 1) with (Z.b2z (Z.testbit (BITMAP_ENTRY n b) (BITMAP_SHIFT n))).
  - apply truthy_b2z.
  - rewrite Z.testbit_spec' by lia. rewrite <- Z.shiftr_div_pow2 by lia.
    symmetry. apply (Z.land_ones _ 1). lia.
Qed.

Lemma index_range size b n :
  wf_bitmap size b -> 0 <= n < size -> (Z.to_nat (n / BITS_PER_LONG) < length b)%nat.
Proof.
  intros [-> _] Hn. unfold BITS_TO_LONGS, BITS_PER_LONG.
  zlia.
Qed.

Lemma same_word_same_bit m n :
  0 <= m -> 0 <= n ->
  Z.to_nat (m / BITS_PER_LONG) = Z.to_nat (n / BITS_PER_LONG) ->
  BITMAP_SHIFT m = BITMAP_SHIFT n -> m = n.
Proof. unfold BITMAP_SHIFT, BITS_PER_LONG. intros. zlia. Qed.

(** Updating the word of bit [n] affects only that word. *)
Lemma entry_update size b n m x :
  wf_bitmap size b -> 0 <= n < size -> 0 <= m < size ->
  BITMAP_ENTRY m (<[Z.to_nat (n / BITS_PER_LONG) := x]> b) =
  if decide (Z.to_nat (m / BITS_PER_LONG) = Z.to_nat (n / BITS_PER_LONG))
  then x else BITMAP_ENTRY m b.
Proof.
  intros Hwf Hn Hm. unfold BITMAP_ENTRY. case_decide as E.
  - rewrite E, list_lookup_insert_eq; [done|]. by eapply index_range.
  - by rewrite list_lookup_insert_ne.
Qed.

Lemma bit_set_bit size b n m :
  wf_bitmap size b -> 0 <= n < size -> 0 <= m < size ->
  bit (set_bit n b) m = (m =? n) || bit b m.
Proof.
  intros Hwf Hn Hm. rewrite !bit_testbit. unfold set_bit.
  erewrite entry_update by eauto. pose proof (shift_range n). pose proof (shift_range m).
  case_decide as E.
  - rewrite Z.lor_spec, testbit_pow2 by lia.
    assert (BITMAP_ENTRY n b = BITMAP_ENTRY m b) as -> by (unfold BITMAP_ENTRY; by rewrite E).
    destruct (Z.eqb_spec (BITMAP_SHIFT m) (BITMAP_SHIFT n)) as [Es|Es].
    + rewrite (same_word_same_bit m n) by (auto; lia). rewrite Z.eqb_refl. apply orb_true_r.
    + destruct (Z.eqb_spec m n) as [->|]; [done|]. apply orb_false_r.
  - destruct (Z.eqb_spec m n) as [->|]; done.
Qed.

Lemma bit_clear_bit size b n m :
  wf_bitmap size b -> 0 <= n < size -> 0 <= m < size ->
  bit (clear_bit n b) m = negb (m =? n) && bit b m.
Proof.
  intros Hwf Hn Hm. rewrite !bit_testbit. unfold clear_bit.
  erewrite entry_update by eauto. pose proof (shift_range n). pose proof (shift_range m).
  case_decide as E.
  - rewrite Z.land_spec, testbit_not_w, testbit_pow2 by lia.
    assert (BITMAP_ENTRY n b = BITMAP_ENTRY m b) as -> by (unfold BITMAP_ENTRY; by rewrite E).
    replace (BITMAP_SHIFT m <? 64) with true by lia.
    destruct (Z.eqb_spec (BITMAP_SHIFT m) (BITMAP_SHIFT n)) as [Es|Es].
    + rewrite (same_word_same_bit m n) by (auto; lia). rewrite Z.eqb_refl. apply andb_false_r.
    + destruct (Z.eqb_spec m n) as [->|]; [done|]. apply andb_true_r.
  - destruct (Z.eqb_spec m n) as [->|]; done.
Qed.

Lemma set_bit_wf size b n : wf_bitmap size b -> wf_bitmap size (set_bit n b).
Proof.
  intros Hwf. split.
  - unfold set_bit. rewrite length_insert. apply Hwf.
  - apply Forall_insert; [apply Hwf|]. pose proof (shift_range n).
    apply lor_range; [lia|by eapply entry_range|]. rewrite Z.shiftl_1_l.
    split; [lia|]. apply Z.pow_lt_mono_r; lia.
Qed.

Lemma clear_bit_wf size b n : wf_bitmap size b -> wf_bitmap size (clear_bit n b).
Proof.
  intros Hwf. split.
  - unfold clear_bit. rewrite length_insert. apply Hwf.
  - apply Forall_insert; [apply Hwf|]. rewrite Z.land_comm.
    apply land_range; [lia|by eapply entry_range].
Qed.

Create HintDb bitmap.
#[export] Hint Resolve set_bit_wf clear_bit_wf : bitmap.

(** ** Population count *)

(** Reference: the number of set bits among the low [n] bits. *)
Fixpoint popcount (n : nat) (z : Z) : Z :=
  match n with
  | O => 0
  | S n' => Z.b2z (Z.odd z) + popcount n' (z / 2)
  end.

(** One step of the word-parallel count: add each field to its neighbour. *)
Definition fold_step (m k x : Z) : Z := (x .& m) + ((x .>> k) .& m).

Lemma land_split a b c d :
  0 <= a < 256 -> 0 <= c < 256 -> (a + 256 * b) .& (c + 256 * d) = (a .& c) + 256 * (b .& d).
Proof.
  intros Ha Hc. change 256 with (2 ^ 8). apply Z.bits_inj'. intros i Hi.
  rewrite Z.land_spec, !testbit_split by (try apply land_range; lia).
  destruct (i <? 8); by rewrite Z.land_spec.
Qed.

Lemma shift_land_split a b c d k :
  0 <= k <= 8 -> 0 <= a < 256 -> 0 <= c < 2 ^ (8 - k) ->
  ((a + 256 * b) .>> k) .& (c + 256 * d) = ((a .>> k) .& c) + 256 * ((b .>> k) .& d).
Proof.
  intros Hk Ha Hc. change 256 with (2 ^ 8).
  assert (c < 2 ^ 8) by (eapply Z.lt_le_trans; [apply Hc|]; apply Z.pow_le_mono_r; lia).
  apply Z.bits_inj'. intros i Hi.
  rewrite Z.land_spec, Z.shiftr_spec, !testbit_split by (try apply land_range; lia).
  destruct (Z.ltb_spec i 8).
  - rewrite Z.land_spec, Z.shiftr_spec by lia. destruct (Z.ltb_spec (i + k) 8); [done|].
    rewrite (testbit_high c (8 - k)) by lia. by rewrite !andb_false_r.
  - destruct (Z.ltb_spec (i + k) 8); [lia|]. rewrite Z.land_spec, Z.shiftr_spec by lia.
    do 2 f_equal. lia.
Qed.

Lemma fold_step_split a b c d k :
  0 <= k <= 8 -> 0 <= a < 256 -> 0 <= c < 2 ^ (8 - k) ->
  fold_step (c + 256 * d) k (a + 256 * b) = fold_step c k a + 256 * fold_step d k b.
Proof.
  intros Hk Ha Hc. unfold fold_step.
  rewrite shift_land_split, land_split by
    (try (split; [lia|eapply Z.lt_le_trans; [apply Hc|]; apply (Z.pow_le_mono_r 2 (8 - k) 8); lia]); lia).
  lia.
Qed.

(** The three byte-local steps count the bits of each byte. *)
Definition byte_count (a : Z) : Z := fold_step 0x0F 4 (fold_step 0x33 2 (fold_step 0x55 1 a)).

Definition byte_ok (a : Z) : bool :=
  (byte_count a =? popcount 8 a) && (0 <=? byte_count a) && (byte_count a <=? 8)
  && (0 <=? fold_step 0x55 1 a) && (fold_step 0x55 1 a <? 256)
  && (0 <=? fold_step 0x33 2 (fold_step 0x55 1 a))
  && (fold_step 0x33 2 (fold_step 0x55 1 a) <? 256).

Lemma byte_ok_all a : 0 <= a < 256 -> byte_ok a = true.
Proof. apply forallb_seqZ. vm_compute. reflexivity. Qed.

(** The last two steps add up the four byte counts. *)
Definition sum_ok (s0 s1 s2 s3 : Z) : bool :=
  fold_step 0x0000FFFF 16 (fold_step 0x00FF00FF 8 (s0 + 256 * (s1 + 256 * (s2 + 256 * s3))))
  =? s0 + s1 + s2 + s3.

Lemma sum_ok_all s0 s1 s2 s3 :
  0 <= s0 < 9 -> 0 <= s1 < 9 -> 0 <= s2 < 9 -> 0 <= s3 < 9 -> sum_ok s0 s1 s2 s3 = true.
Proof.
  intros H0 H1 H2 H3. revert s3 H3. intros s3. apply forallb_seqZ. revert s2 H2.
  intros s2. apply (forallb_seqZ (fun s2 => forallb (fun s3 => sum_ok s0 s1 s2 s3) (seqZ 0 9))).
  revert s1 H1. intros s1.
  apply (forallb_seqZ (fun s1 => forallb (fun s2 => forallb (fun s3 => sum_ok s0 s1 s2 s3)
           (seqZ 0 9)) (seqZ 0 9))).
  revert s0 H0. intros s0.
  apply (forallb_seqZ (fun s0 => forallb (fun s1 => forallb (fun s2 => forallb (fun s3 =>
           sum_ok s0 s1 s2 s3) (seqZ 0 9)) (seqZ 0 9)) (seqZ 0 9))).
  vm_compute. reflexivity.
Qed.

Lemma popcount_split k n a b :
  0 <= a < 2 ^ Z.of_nat k ->
  popcount (k + n) (a + 2 ^ Z.of_nat k * b) = popcount k a + popcount n b.
Proof.
  revert a. induction k as [|k IH]; intros a Ha.
  - change (Z.of_nat 0) with 0 in *. rewrite Z.pow_0_r in *. cbn [Nat.add popcount].
    rewrite Z.add_0_l. f_equal. lia.
  - rewrite Nat2Z.inj_succ, Z.pow_succ_r in * by lia. cbn [Nat.add popcount].
    rewrite Z.odd_add, <- Z.mul_assoc, Z.odd_mul. simpl (Z.odd 2). rewrite andb_false_l, xorb_false_r.
    rewrite <- Z.add_assoc. f_equal. rewrite <- IH by zlia. f_equal.
    rewrite Z.mul_comm, Z.div_add by lia. done.
Qed.

Lemma hweight32_bytes a0 a1 a2 a3 :
  0 <= a0 < 256 -> 0 <= a1 < 256 -> 0 <= a2 < 256 -> 0 <= a3 < 256 ->
  hweight32 (a0 + 256 * (a1 + 256 * (a2 + 256 * a3))) =
  byte_count a0 + byte_count a1 + byte_count a2 + byte_count a3.
Proof.
  intros H0 H1 H2 H3.
  pose proof (byte_ok_all _ H0) as K0. pose proof (byte_ok_all _ H1) as K1.
  pose proof (byte_ok_all _ H2) as K2. pose proof (byte_ok_all _ H3) as K3.
  unfold byte_ok in *.
  assert (sum_ok (byte_count a0) (byte_count a1) (byte_count a2) (byte_count a3) = true) as Hs
    by (apply sum_ok_all; lia).
  unfold sum_ok in Hs. apply Z.eqb_eq in Hs.
  unfold hweight32.
  change 0x55555555 with (0x55 + 256 * (0x55 + 256 * (0x55 + 256 * 0x55))).
  change 0x33333333 with (0x33 + 256 * (0x33 + 256 * (0x33 + 256 * 0x33))).
  change 0x0F0F0F0F with (0x0F + 256 * (0x0F + 256 * (0x0F + 256 * 0x0F))).
  repeat match goal with |- context [(?x .& ?m) + ((?x .>> ?k) .& ?m)] =>
    change ((x .& m) + ((x .>> k) .& m)) with (fold_step m k x) end.
  rewrite !(fold_step_split _ _ _ _ 1) by lia. rewrite (u32_small (_ + 256 * _)) by lia.
  rewrite !(fold_step_split _ _ _ _ 2) by lia. rewrite (u32_small (_ + 256 * _)) by lia.
  rewrite !(fold_step_split _ _ _ _ 4) by lia.
  fold (byte_count a0) (byte_count a1) (byte_count a2) (byte_count a3).
  rewrite (u32_small (_ + 256 * _)) by lia.
  rewrite (u32_small (fold_step 16711935 8 _)).
  - rewrite Hs. apply u32_small. lia.
  - unfold fold_step. pose proof (land_range (byte_count a0 + 256 * (byte_count a1 + 256 *
      (byte_count a2 + 256 * byte_count a3))) 16711935 24).
    match goal with |- context [?x .>> 8] => pose proof (land_range (x .>> 8) 16711935 24) end.
    lia.
Qed.

Lemma hweight32_popcount w : 0 <= w < 2 ^ 32 -> hweight32 w = popcount 32 w.
Proof.
  intros Hw.
  assert (w = w mod 256 + 256 * (w / 256 mod 256 + 256 * (w / 65536 mod 256
    + 256 * (w / 16777216)))) as E by zlia.
  rewrite E, hweight32_bytes by zlia.
  rewrite (popcount_split 8 24), (popcount_split 8 16), (popcount_split 8 8) by zlia.
  repeat match goal with |- context [byte_count ?a] =>
    let H := fresh in assert (byte_ok a = true) as H by (apply byte_ok_all; zlia);
    unfold byte_ok in H; rewrite !andb_true_iff, Z.eqb_eq in H;
    replace (byte_count a) with (popcount 8 a) by (symmetry; apply H); clear H end.
  lia.
Qed.

(** [count_bits] sums the population counts of the low halves of the words. *)
Lemma count_bits_low nr b :
  count_bits nr b =
  foldr Z.add 0 ((fun w => popcount 32 (u32 w)) <$> take (Z.to_nat (nr / (8 * 8))) b).
Proof.
  unfold count_bits. generalize (take (Z.to_nat (nr / (8 * 8))) b) as l. intros l.
  enough (forall c, foldl (fun count w => count + hweight32 (u32 w)) c l =
    c + foldr Z.add 0 ((fun w => popcount 32 (u32 w)) <$> l)) as H by apply H.
  induction l as [|w l IH]; intros c; cbn [foldl foldr fmap list_fmap]; [lia|].
  rewrite IH, hweight32_popcount by apply u32_range. lia.
Qed.

(** ** Properties *)

(** The bitmaps implement sets of page numbers: setting or clearing
    one page's bit keeps the bitmap well formed and changes the membership of
    that page only. *)
Theorem bitmap_set_clear size b n m :
  wf_bitmap size b -> 0 <= n < size -> 0 <= m < size ->
  wf_bitmap size (set_bit n b) /\ wf_bitmap size (clear_bit n b) /\
  bit (set_bit n b) m = (m =? n) || bit b m /\
  bit (clear_bit n b) m = negb (m =? n) && bit b m.
Proof.
  intros. split_and!; [by apply set_bit_wf|by apply clear_bit_wf| |].
  - by apply (bit_set_bit size).
  - by apply (bit_clear_bit size).
Qed.

Lemma bitmap_set_clear_witness : bit (set_bit 70 [0; 0]) 70 = true.
Proof.
  destruct (bitmap_set_clear 128 [0; 0] 70 70) as (_ & _ & H & _).
  - split; [reflexivity|]. repeat constructor; lia.
  - lia.
  - lia.
  - exact H.
Defined.

(** The SWAR population count equals the number of set bits, for
    every 32-bit word. *)
Theorem hweight32_counts w : 0 <= w < 2 ^ 32 -> hweight32 w = popcount 32 w.
Proof. apply hweight32_popcount. Qed.

Lemma hweight32_counts_witness : hweight32 0xF0F0F0F0 = popcount 32 0xF0F0F0F0.
Proof. apply hweight32_counts. lia. Defined.

(** What [count_bits] counts on a 64-bit build: the low halves of
    the whole words.  The upper 32 pages of each word are not counted, nor the
    pages after the last whole word: 32 set bits go unnoticed in a map of 64
    pages, and 63 in a map of 63 pages. *)
Theorem count_bits_drops nr b :
  count_bits nr b =
    foldr Z.add 0 ((fun w => popcount 32 (w mod 2 ^ 32)) <$> take (Z.to_nat (nr / 64)) b) /\
  count_bits 64 [Z.ones 32 .<< 32] = 0 /\ popcount 64 (Z.ones 32 .<< 32) = 32 /\
  count_bits 63 [Z.ones 63] = 0 /\ popcount 64 (Z.ones 63) = 63.
Proof. split; [apply count_bits_low|]. split_and!; vm_compute; reflexivity. Qed.

End Bitmap.
