(* ===== verification/IO.v ===== *)
(** Transfers over a file descriptor.

    Models the loops that move a given number of bytes over a descriptor
    whose system calls may be short, interrupted or fail: [write_exact] of
    xc_private.c, the output buffer of xc_domain_save.c ([outbuf_init],
    [outbuf_write], [outbuf_flush], [outbuf_hardwrite], [write_buffer]) and
    the readers [rdexact] and [mc_rdexact] of xc_domain_restore.c.

    What the kernel answers is the script of the descriptor: the list of the
    results its system calls will return, in order.  A function that runs to
    the end of the script has not returned ([None]). *)

From S2P Require Import Prelude.

Module IO.

Inductive errno := EINTR | EAGAIN | EIO.

#[global] Instance errno_eq_dec : EqDecision errno.
Proof. solve_decision. Defined.

(** ** Writing *)

(** One answer of [write]: [WOk n] takes up to [n] bytes of what is offered. *)
Inductive wr_result := WOk (n : nat) | WErr (e : errno).

(** A descriptor open for writing: the answers to come and the bytes that
    have been accepted so far. *)
Record ofile := OFile { o_script : list wr_result; o_sent : list Z }.

(** [write_exact]: offer the rest until everything was accepted. *)
Fixpoint write_exact_loop (script : list wr_result) (sent data : list Z)
  : option (Z * ofile) :=
  match data with
  | [] => Some (0, OFile script sent)
  | _ :: _ =>
      match script with
      | [] => None
      | WErr EINTR :: script' => write_exact_loop script' sent data
      | WErr _ :: script' => Some (-1, OFile script' sent)
      | WOk O :: script' => Some (-1, OFile script' sent)
      | WOk n :: script' =>
          write_exact_loop script' (sent ++ take n data) (drop n data)
      end
  end.

Definition write_exact (fd : ofile) (data : list Z) : option (Z * ofile) :=
  write_exact_loop (o_script fd) (o_sent fd) data.

(** ** The output buffer *)

Record outbuf := OutBuf { ob_buf : list Z; ob_size : nat; ob_pos : nat }.

(** [outbuf_init]; [mem] is the block [malloc] returned, if any. *)
Definition outbuf_init (mem : option (list Z)) (size : nat) : Z * outbuf :=
  match mem with
  | None => (-1, OutBuf [] 0 0)
  | Some buf => (0, OutBuf buf size 0)
  end.

Definition outbuf_write (ob : outbuf) (buf : list Z) : Z * outbuf :=
  if decide (ob_size ob - ob_pos ob < length buf)%nat then (-1, ob)
  else (0, OutBuf (write_at (ob_buf ob) (ob_pos ob) buf) (ob_size ob) (ob_pos ob + length buf)).

(** The loop of [outbuf_flush]; [data] is what is left from [ob->buf + cur]. *)
Fixpoint outbuf_flush_loop (script : list wr_result) (sent data : list Z)
  : option (Z * ofile) :=
  match script with
  | [] => None
  | WErr EIO :: script' => Some (-1, OFile script' sent)
  | WErr _ :: script' => outbuf_flush_loop script' sent data
  | WOk n :: script' =>
      if decide (n < length data)%nat
      then outbuf_flush_loop script' (sent ++ take n data) (drop n data)
      else Some (0, OFile script' (sent ++ data))
  end.

Definition outbuf_flush (ob : outbuf) (fd : ofile) : option (Z * outbuf * ofile) :=
  if decide (ob_pos ob = 0%nat) then Some (0, ob, fd)
  else
    match outbuf_flush_loop (o_script fd) (o_sent fd) (take (ob_pos ob) (ob_buf ob)) with
    | None => None
    | Some (rc, fd') =>
        if rc <? 0 then Some (-1, ob, fd')
        else Some (0, OutBuf (ob_buf ob) (ob_size ob) 0, fd')
    end.

(** If there is no room in the buffer, flush it and try again. *)
Definition outbuf_hardwrite (ob : outbuf) (fd : ofile) (buf : list Z)
  : option (Z * outbuf * ofile) :=
  match buf with
  | [] => Some (0, ob, fd)
  | _ :: _ =>
      let '(rc, ob1) := outbuf_write ob buf in
      if rc =? 0 then Some (0, ob1, fd)
      else
        match outbuf_flush ob1 fd with
        | None => None
        | Some (frc, ob2, fd') =>
            if frc <? 0 then Some (-1, ob2, fd')
            else let '(rc2, ob3) := outbuf_write ob2 buf in Some (rc2, ob3, fd')
        end
  end.

(** Start buffering output once checkpoint mode is reached ([dobuf]). *)
Definition write_buffer (dobuf : bool) (ob : outbuf) (fd : ofile) (buf : list Z)
  : option (Z * outbuf * ofile) :=
  if dobuf then outbuf_hardwrite ob fd buf
  else match write_exact fd buf with
       | None => None
       | Some (rc, fd') => Some (rc, ob, fd')
       end.

(** ** Reading *)

(** One answer of [read]: data that arrived, end of file, or an error. *)
Inductive rd_result := RData (bs : list Z) | REof | RErr (e : errno).

(** One answer of [select]: the descriptor is readable, a signal arrived, or
    the heartbeat period elapsed. *)
Inductive sel_result := SelReady | SelEINTR | SelTimeout.

Inductive event := ESel (r : sel_result) | ERead (r : rd_result).

(** What a read of [want] bytes leaves of the data that arrived: the rest
    stays in the socket, which [select] keeps reporting as readable. *)
Definition unread (completed : bool) (bs : list Z) (want : nat) (script : list event)
  : list event :=
  match drop want bs with
  | [] => script
  | rest => (if completed then [ESel SelReady] else []) ++ ERead (RData rest) :: script
  end.

(** [rdexact]: [completed] is [ctx->completed], [armed] says that [select]
    reported data in this round, [offset] the bytes of [buf] filled so far. *)
Fixpoint rdexact_loop (completed armed : bool) (script : list event)
    (buf : list Z) (offset size : nat) : option (Z * list Z * list event) :=
  if decide (offset < size)%nat then
    match script with
    | [] => None
    | ESel r :: script' =>
        if completed && negb armed then
          match r with
          | SelEINTR => rdexact_loop completed false script' buf offset size
          | SelTimeout => Some (-1, buf, script')
          | SelReady => rdexact_loop completed true script' buf offset size
          end
        else None
    | ERead r :: script' =>
        if completed && negb armed then None
        else
          match r with
          | RErr EINTR | RErr EAGAIN => rdexact_loop completed false script' buf offset size
          | RErr EIO | REof | RData [] => Some (-1, buf, script')
          | RData bs =>
              let got := take (size - offset) bs in
              if decide (size - offset <= length bs)%nat
              then Some (0, write_at buf offset got, unread completed bs (size - offset) script')
              else rdexact_loop completed false script' (write_at buf offset got)
                                (offset + length got) size
          end
    end
  else Some (0, buf, script).

Definition rdexact (completed : bool) (script : list event) (buf : list Z) (size : nat)
  : option (Z * list Z * list event) :=
  rdexact_loop completed false script buf 0 size.

(** [mc_rdexact]: the handling of a zero or negative length is commented out,
    so every length is added to [offset], an unsigned 64-bit integer. *)
Fixpoint mc_rdexact_loop (completed armed : bool) (script : list event)
    (buf : list Z) (offset size : Z) : option (Z * list Z * list event) :=
  if offset <? size then
    match script with
    | [] => None
    | ESel r :: script' =>
        if completed && negb armed then
          match r with
          | SelEINTR => mc_rdexact_loop completed false script' buf offset size
          | SelTimeout => Some (-1, buf, script')
          | SelReady => mc_rdexact_loop completed true script' buf offset size
          end
        else None
    | ERead r :: script' =>
        if completed && negb armed then None
        else
          match r with
          | RErr EINTR | RErr EAGAIN => mc_rdexact_loop completed false script' buf offset size
          | RErr EIO => mc_rdexact_loop completed false script' buf (u64 (offset + -1)) size
          | REof => mc_rdexact_loop completed false script' buf offset size
          | RData bs =>
              let want := Z.to_nat (size - offset) in
              let got := take want bs in
              if decide (want <= length bs)%nat
              then Some (0, write_at buf (Z.to_nat offset) got, unread completed bs want script')
              else mc_rdexact_loop completed false script' (write_at buf (Z.to_nat offset) got)
                                   (u64 (offset + Z.of_nat (length got))) size
          end
    end
  else Some (0, buf, script).

Definition mc_rdexact (completed : bool) (script : list event) (buf : list Z) (size : Z)
  : option (Z * list Z * list event) :=
  mc_rdexact_loop completed false script buf 0 size.

(** ** Writers deliver exactly the data *)

Lemma write_exact_loop_sent script sent data rc fd' :
  write_exact_loop script sent data = Some (rc, fd') ->
  (rc = 0 /\ o_sent fd' = sent ++ data) \/
  (rc = -1 /\ exists k, o_sent fd' = sent ++ take k data).
Proof.
  revert sent data. induction script as [|r script IH]; intros sent data;
    (destruct data as [|d data]; [intros [= <- <-]; left; by rewrite app_nil_r|]).
  - done.
  - cbn [write_exact_loop]. destruct r as [[|n]|[| |]]; intros H; simplify_eq;
      try (right; split; [done|]; exists 0%nat; by rewrite app_nil_r).
    + apply IH in H as [[-> H]|[-> [k H]]].
      * left. split; [done|]. by rewrite H, <- app_assoc, take_drop.
      * right. split; [done|]. exists (S n + k)%nat.
        by rewrite H, <- app_assoc, take_take_drop.
    + by apply IH.
Qed.

(** A script on which a writer of [n] bytes completes: no fatal error, and at
    least [n] answers that take something. *)
Fixpoint wr_live (script : list wr_result) (n : nat) : Prop :=
  match n with
  | O => True
  | S n' =>
      match script with
      | [] => False
      | WOk O :: _ | WErr EIO :: _ | WErr EAGAIN :: _ => False
      | WErr EINTR :: script' => wr_live script' n
      | WOk (S _) :: script' => wr_live script' n'
      end
  end.

Lemma wr_live_mono script n m : (m <= n)%nat -> wr_live script n -> wr_live script m.
Proof.
  revert n m. induction script as [|[[|k]|[| |]] script IH]; intros [|n] [|m] Hle; simpl; auto; try lia.
  - intros H. eapply (IH n m); [lia|done].
  - intros H. eapply (IH (S n) (S m)); [lia|done].
Qed.

Lemma wr_live_replicate n k : wr_live (replicate n (WOk (S k))) n.
Proof. induction n; simpl; auto. Qed.

Lemma write_exact_loop_live script sent data n :
  wr_live script (length data + n) ->
  exists script', write_exact_loop script sent data = Some (0, OFile script' (sent ++ data)) /\
    wr_live script' n.
Proof.
  revert sent data. induction script as [|r script IH]; intros sent data;
    (destruct data as [|d data]; [intros Hl; eexists; cbn; by rewrite app_nil_r|]); [done|].
  cbn [write_exact_loop length wr_live Nat.add]. destruct r as [[|k]|[| |]]; try done.
  - intros Hl. destruct (IH (sent ++ take (S k) (d :: data)) (drop (S k) (d :: data))) as (s' & E & Hl').
    { eapply wr_live_mono; [|done]. rewrite length_drop. simpl. lia. }
    exists s'. by rewrite E, <- app_assoc, take_drop.
  - intros Hl. by apply IH.
Qed.

Lemma outbuf_flush_loop_sent script sent data rc fd' :
  outbuf_flush_loop script sent data = Some (rc, fd') ->
  (rc = 0 /\ o_sent fd' = sent ++ data) \/
  (rc = -1 /\ exists k, o_sent fd' = sent ++ take k data).
Proof.
  revert sent data. induction script as [|r script IH]; intros sent data; [done|].
  cbn [outbuf_flush_loop]. destruct r as [n|[| |]]; intros H; simplify_eq; auto.
  - case_decide; simplify_eq; [|by left].
    apply IH in H as [[-> H]|[-> [k H]]].
    + left. split; [done|]. by rewrite H, <- app_assoc, take_drop.
    + right. split; [done|]. exists (n + k)%nat. by rewrite H, <- app_assoc, take_take_drop.
  - right. split; [done|]. exists 0%nat. by rewrite app_nil_r.
Qed.

(** ** The output buffer *)

Record wf_outbuf (ob : outbuf) : Prop := {
  wf_block : length (ob_buf ob) = ob_size ob;
  wf_pos : (ob_pos ob <= ob_size ob)%nat
}.

(** The stream a reader of the descriptor will see once the buffer is flushed. *)
Definition stream (ob : outbuf) (fd : ofile) : list Z :=
  o_sent fd ++ take (ob_pos ob) (ob_buf ob).

Lemma outbuf_write_ok ob buf ob' :
  wf_outbuf ob -> outbuf_write ob buf = (0, ob') ->
  wf_outbuf ob' /\ take (ob_pos ob') (ob_buf ob') = take (ob_pos ob) (ob_buf ob) ++ buf.
Proof.
  intros [Hb Hp]. unfold outbuf_write. case_decide; intros; simplify_eq/=.
  repeat split; simpl; try lia.
  - rewrite write_at_length; lia.
  - rewrite write_at_prefix; [done|lia].
Qed.

Lemma outbuf_write_rc ob buf rc ob' :
  outbuf_write ob buf = (rc, ob') -> (rc = 0) \/ (rc = -1 /\ ob' = ob).
Proof. unfold outbuf_write. case_decide; intros; simplify_eq; auto. Qed.

Lemma outbuf_flush_ok ob fd ob' fd' :
  wf_outbuf ob -> outbuf_flush ob fd = Some (0, ob', fd') ->
  wf_outbuf ob' /\ ob_pos ob' = 0%nat /\ ob_size ob' = ob_size ob /\ o_sent fd' = stream ob fd.
Proof.
  intros [Hb Hp]. unfold outbuf_flush, stream. case_decide as E; intros H; simplify_eq.
  - rewrite E. simpl. by rewrite app_nil_r.
  - destruct (outbuf_flush_loop _ _ _) as [[rc fd1]|] eqn:F; [|done].
    apply outbuf_flush_loop_sent in F as [[-> F]|[-> [k F]]]; simpl in H; simplify_eq/=.
    repeat split; simpl; auto; lia.
Qed.

Lemma outbuf_hardwrite_ok ob fd buf ob' fd' :
  wf_outbuf ob -> outbuf_hardwrite ob fd buf = Some (0, ob', fd') ->
  wf_outbuf ob' /\ stream ob' fd' = stream ob fd ++ buf.
Proof.
  intros Hwf. unfold outbuf_hardwrite. destruct buf as [|b buf].
  { intros. simplify_eq. by rewrite app_nil_r. }
  destruct (outbuf_write ob (b :: buf)) as [rc ob1] eqn:W.
  destruct (outbuf_write_rc _ _ _ _ W) as [->|[-> ->]]; simpl.
  - intros. simplify_eq. apply outbuf_write_ok in W as [Hwf' T]; [|done].
    split; [done|]. unfold stream. by rewrite T, app_assoc.
  - destruct (outbuf_flush ob fd) as [[[frc ob2] fd2]|] eqn:F; [|done].
    destruct (Z.ltb_spec frc 0); [done|].
    destruct (outbuf_write ob2 (b :: buf)) as [rc2 ob3] eqn:W2. intros. simplify_eq.
    assert (frc = 0) as ->.
    { unfold outbuf_flush in F. case_decide; simplify_eq; [done|].
      destruct (outbuf_flush_loop _ _ _) as [[r f]|]; [|done].
      destruct (r <? 0); simplify_eq; lia. }
    apply outbuf_flush_ok in F as (Hwf2 & P2 & _ & S2); [|done].
    apply outbuf_write_ok in W2 as [Hwf3 T]; [|done]. split; [done|].
    unfold stream at 1. by rewrite T, P2, S2.
Qed.

(** ** Readers are independent of how the data arrives in chunks *)

(** The bytes a script delivers before it ends, fails or times out. *)
Fixpoint incoming (completed armed : bool) (script : list event) : list Z :=
  match script with
  | [] => []
  | ESel r :: script' =>
      if completed && negb armed then
        match r with
        | SelEINTR => incoming completed false script'
        | SelTimeout => []
        | SelReady => incoming completed true script'
        end
      else []
  | ERead r :: script' =>
      if completed && negb armed then []
      else
        match r with
        | RErr EINTR | RErr EAGAIN => incoming completed false script'
        | RErr EIO | REof | RData [] => []
        | RData bs => bs ++ incoming completed false script'
        end
  end.

Lemma incoming_unread completed bs n script :
  (n <= length bs)%nat ->
  incoming completed false (unread completed bs n script)
  = drop n bs ++ incoming completed false script.
Proof.
  intros Hn. unfold unread. destruct (drop n bs) as [|b rest]; [done|].
  by destruct completed.
Qed.

Lemma rdexact_loop_ok completed script : forall armed buf offset size,
  (offset <= size <= length buf)%nat -> (armed = true -> offset < size)%nat ->
  (size - offset <= length (incoming completed armed script))%nat ->
  exists script',
    rdexact_loop completed armed script buf offset size =
      Some (0, write_at buf offset (take (size - offset) (incoming completed armed script)),
            script') /\
    incoming completed false script' = drop (size - offset) (incoming completed armed script).
Proof.
  induction script as [|[r|r] script IH]; intros armed buf offset size Hb Ha Hin;
    cbn [rdexact_loop]; (case_decide as Hlt; [|
      replace (size - offset)%nat with 0%nat by lia;
      destruct armed; [lia|]; eexists; split; [|done];
      unfold write_at; rewrite take_0, Nat.add_0_r; simpl; by rewrite take_drop]).
  - simpl in Hin. lia.
  - cbn [incoming] in *. destruct (completed && negb armed); [|simpl in Hin; lia].
    destruct r; [apply IH..|simpl in Hin]; auto; lia.
  - cbn [incoming] in *. destruct (completed && negb armed); [simpl in Hin; lia|].
    destruct r as [[|b bs]| |[| |]]; try (simpl in Hin; lia); try (apply IH; auto; lia).
    set (l := b :: bs) in *. case_decide as Hle.
    + eexists; split.
      * by rewrite (take_app_le l) by lia.
      * rewrite incoming_unread, drop_app_le by lia. done.
    + assert (length l < size - offset)%nat as Hsh by lia.
      rewrite (take_ge l) by lia. rewrite length_app in Hin.
      destruct (IH false (write_at buf offset l) (offset + length l)%nat size) as [s' [E1 E2]];
        [rewrite write_at_length; lia|done|lia|].
      exists s'. rewrite E1, E2, write_at_app by (rewrite length_take; lia).
      rewrite (take_app_ge l), (drop_app_ge l) by lia. by rewrite Nat.sub_add_distr.
Qed.

Lemma rdexact_loop_short completed script : forall armed buf offset size,
  (offset <= size)%nat ->
  (length (incoming completed armed script) < size - offset)%nat ->
  forall rc buf' script',
  rdexact_loop completed armed script buf offset size = Some (rc, buf', script') -> rc = -1.
Proof.
  induction script as [|[r|r] script IH]; intros armed buf offset size Ho Hin rc buf' script';
    cbn [rdexact_loop]; (case_decide as Hlt; [|lia]); [done|..]; cbn [incoming] in *.
  - destruct (completed && negb armed); [|done].
    destruct r; [apply IH; auto..|]. intros; by simplify_eq.
  - destruct (completed && negb armed); [done|].
    destruct r as [[|b bs]| |[| |]]; try (intros; by simplify_eq); try (apply IH; auto).
    rewrite length_app in Hin. case_decide; [lia|].
    rewrite take_ge by lia. apply IH; lia.
Qed.

(** ** Byte sources *)

(** What the parsers of the migration stream rely on: a source delivers, for
    each request of [n] bytes, the next [n] bytes of the stream it stands for,
    and consumes [src_pad n] of them (an encrypted source works on whole
    cipher blocks).  [src_can] are the request sizes it supports and [src_ok]
    is the condition under which it behaves. *)
Class ByteSource (S : Type) := {
  src_pad : nat -> nat;
  src_can : nat -> Prop;
  src_ok : S -> Prop;
  src_rest : S -> list Z;
  src_read : S -> nat -> option (list Z) * S;
  src_pad_le : forall n, (n <= src_pad n)%nat;
  src_read_ok : forall s n, src_ok s -> src_can n -> (src_pad n <= length (src_rest s))%nat ->
    exists s', src_read s n = (Some (take n (src_rest s)), s') /\
               src_ok s' /\ src_rest s' = drop (src_pad n) (src_rest s)
}.

(** The stream itself. *)
#[global] Program Instance list_source : ByteSource (list Z) := {|
  src_pad n := n;
  src_can _ := True;
  src_ok _ := True;
  src_rest s := s;
  src_read s n := if decide (n <= length s)%nat then (Some (take n s), drop n s) else (None, s)
|}.
Next Obligation. done. Qed.
Next Obligation. intros s n _ _ Hn; cbn beta. case_decide; [eauto|done]. Qed.

(** A descriptor read with [rdexact] into a fresh block; [ctx->completed] is
    clear while the first image is received. *)
#[global] Program Instance fd_source : ByteSource (list event) := {|
  src_pad n := n;
  src_can _ := True;
  src_ok _ := True;
  src_rest s := incoming false false s;
  src_read s n :=
    match rdexact false s (replicate n 0) n with
    | Some (rc, buf, s') => if rc =? 0 then (Some buf, s') else (None, s')
    | None => (None, s)
    end
|}.
Next Obligation. done. Qed.
Next Obligation.
  intros s n _ _ Hn; cbn beta in *. unfold rdexact.
  destruct (rdexact_loop_ok false s false (replicate n 0) 0 n) as [s' [E1 E2]];
    [rewrite length_replicate; lia|done|lia|].
  rewrite Nat.sub_0_r in *. rewrite E1. rewrite write_at_all
    by (rewrite length_take, length_replicate; lia). simpl. eauto.
Qed.

(** ** Properties of the writers *)

Lemma outbuf_flush_loop_live script sent data :
  data <> [] -> wr_live script (length data) ->
  exists script', outbuf_flush_loop script sent data = Some (0, OFile script' (sent ++ data)).
Proof.
  revert sent data. induction script as [|r script IH]; intros sent data Hne Hl;
    destruct data as [|d data]; try done.
  cbn [outbuf_flush_loop length wr_live] in *. destruct r as [[|n]|[| |]]; try done.
  - set (l := d :: data) in *. case_decide as Hd; [|eauto].
    destruct (IH (sent ++ take (S n) l) (drop (S n) l)) as [s' E].
    + intros H. apply (f_equal length) in H. rewrite length_drop in H. simpl in *. lia.
    + eapply wr_live_mono; [|exact Hl]. rewrite length_drop. simpl. lia.
    + exists s'. by rewrite E, <- app_assoc, take_drop.
  - by apply IH.
Qed.

Lemma outbuf_flush_live ob fd :
  wf_outbuf ob -> wr_live (o_script fd) (ob_pos ob) ->
  exists ob' fd', outbuf_flush ob fd = Some (0, ob', fd').
Proof.
  intros [Hb Hp] Hl. unfold outbuf_flush. case_decide as E; [eauto|].
  destruct (outbuf_flush_loop_live (o_script fd) (o_sent fd) (take (ob_pos ob) (ob_buf ob)))
    as [script' F].
  - intros H. apply (f_equal length) in H. rewrite length_take in H. simpl in H. lia.
  - rewrite length_take. by replace (ob_pos ob `min` length (ob_buf ob))%nat with (ob_pos ob) by lia.
  - rewrite F. simpl. eauto.
Qed.

Lemma outbuf_hardwrite_live ob fd buf :
  wf_outbuf ob -> (length buf <= ob_size ob)%nat -> wr_live (o_script fd) (ob_pos ob) ->
  exists ob' fd', outbuf_hardwrite ob fd buf = Some (0, ob', fd').
Proof.
  intros Hwf Hsz Hl. unfold outbuf_hardwrite. destruct buf as [|b buf]; [eauto|].
  destruct (outbuf_write ob (b :: buf)) as [rc ob1] eqn:W.
  destruct (outbuf_write_rc _ _ _ _ W) as [->|[-> ->]]; simpl; [eauto|].
  destruct (outbuf_flush_live ob fd Hwf Hl) as (ob2 & fd2 & F). rewrite F. simpl.
  apply outbuf_flush_ok in F as (_ & Hpos & Hsize & _); [|done].
  unfold outbuf_write. rewrite decide_False; [eauto|]. simpl in *. lia.
Qed.

(** Whatever the descriptor's answers (short writes, signals),
    as long as it makes progress, [write_buffer] returns 0 and appends exactly
    its argument to the stream the peer will read, buffered or not: the bytes
    accepted so far followed by the contents of the buffer. *)
Theorem write_buffer_delivers dobuf ob fd buf :
  wf_outbuf ob -> (dobuf = true -> (length buf <= ob_size ob)%nat) ->
  wr_live (o_script fd) (if dobuf then ob_pos ob else length buf) ->
  (dobuf = false -> ob_pos ob = 0%nat) ->
  exists ob' fd', write_buffer dobuf ob fd buf = Some (0, ob', fd') /\
    wf_outbuf ob' /\ stream ob' fd' = stream ob fd ++ buf.
Proof.
  intros Hwf Hsz Hl Hpos. unfold write_buffer. destruct dobuf.
  - destruct (outbuf_hardwrite_live ob fd buf) as (ob' & fd' & E); auto.
    exists ob', fd'. split; [done|]. by apply outbuf_hardwrite_ok.
  - unfold write_exact. destruct (write_exact_loop_live (o_script fd) (o_sent fd) buf 0) as (s' & -> & _);
      [by rewrite Nat.add_0_r|].
    eexists ob, _. split; [done|]. split; [done|].
    unfold stream. rewrite Hpos by done. simpl. by rewrite !app_nil_r.
Qed.

Lemma write_buffer_delivers_witness :
  exists ob' fd',
    write_buffer true (OutBuf [1; 2; 3; 0] 4 3) (OFile [WOk 2; WErr EINTR; WOk 5; WOk 9] []) [7; 8]
    = Some (0, ob', fd') /\ stream ob' fd' = [1; 2; 3; 7; 8].
Proof.
  destruct (write_buffer_delivers true (OutBuf [1; 2; 3; 0] 4 3)
              (OFile [WOk 2; WErr EINTR; WOk 5; WOk 9] []) [7; 8]) as (ob' & fd' & E & _ & H).
  - split; simpl; lia.
  - simpl. lia.
  - exact I.
  - discriminate.
  - exists ob', fd'. split; [exact E|exact H].
Defined.

(** When [write_exact] fails, the peer has received a proper
    prefix of the message, never bytes that are not part of it. *)
Theorem write_exact_prefix fd data rc fd' :
  write_exact fd data = Some (rc, fd') ->
  (rc = 0 /\ o_sent fd' = o_sent fd ++ data) \/
  (rc = -1 /\ exists k, (k < length data)%nat /\ o_sent fd' = o_sent fd ++ take k data).
Proof.
  unfold write_exact. generalize (o_sent fd) as sent. generalize (o_script fd) as script. clear fd.
  intros script. revert data. induction script as [|r script IH]; intros data sent;
    (destruct data as [|d data]; [intros [= <- <-]; left; by rewrite app_nil_r|]); [done|].
  cbn [write_exact_loop]. set (l := d :: data). destruct r as [[|n]|[| |]]; intros H; simplify_eq;
    try (right; split; [done|]; exists 0%nat; split; [simpl; lia|by rewrite app_nil_r]).
  - apply IH in H as [[-> H]|[-> (k & Hk & H)]].
    + left. split; [done|]. by rewrite H, <- app_assoc, take_drop.
    + right. split; [done|]. exists (S n + k)%nat. rewrite length_drop in Hk.
      split; [lia|]. by rewrite H, <- app_assoc, take_take_drop.
  - by apply IH.
Qed.

Lemma write_exact_prefix_witness :
  exists k, (k < 4)%nat /\ [1; 2; 3] = [] ++ take k [1; 2; 3; 4].
Proof.
  destruct (write_exact_prefix (OFile [WOk 3; WErr EIO] []) [1; 2; 3; 4] (-1) (OFile [] [1; 2; 3]))
    as [[H _]|[_ H]]; [reflexivity|discriminate|exact H].
Defined.

(** ** Properties of the readers *)

(** [rdexact] does not depend on how the bytes arrive: however
    they are cut into chunks and interleaved with signals, a request that the
    stream can serve returns 0 with exactly the next [size] bytes and leaves
    the rest; a request the stream ends before never returns 0. *)
Theorem rdexact_chunks completed script buf size :
  (size <= length buf)%nat ->
  let inc := incoming completed false script in
  ((size <= length inc)%nat ->
     exists script', rdexact completed script buf size =
       Some (0, take size inc ++ drop size buf, script') /\
       incoming completed false script' = drop size inc) /\
  ((length inc < size)%nat ->
     forall rc buf' script', rdexact completed script buf size = Some (rc, buf', script') -> rc = -1).
Proof.
  intros Hb inc. unfold rdexact. split.
  - intros Hin. destruct (rdexact_loop_ok completed script false buf 0 size) as (s' & E1 & E2);
      [lia|done|fold inc; lia|]. rewrite Nat.sub_0_r in *. exists s'. rewrite E1, E2. split; [|done].
    unfold write_at. rewrite take_0, length_take. fold inc.
    by replace (0 + size `min` length inc)%nat with size by lia.
  - intros Hin. apply rdexact_loop_short; [lia|]. fold inc. lia.
Qed.

Lemma rdexact_chunks_witness :
  exists script',
    rdexact true [ESel SelEINTR; ESel SelReady; ERead (RData [1; 2]);
                  ESel SelReady; ERead (RErr EAGAIN); ESel SelReady; ERead (RData [3; 4])]
            [0; 0; 0] 3 = Some (0, [1; 2; 3], script') /\
    incoming true false script' = [4].
Proof.
  apply (rdexact_chunks true [ESel SelEINTR; ESel SelReady; ERead (RData [1; 2]);
    ESel SelReady; ERead (RErr EAGAIN); ESel SelReady; ERead (RData [3; 4])] [0; 0; 0] 3); simpl; lia.
Defined.

(** [mc_rdexact], in contrast, reports success on a connection
    that failed: the error's length -1 wraps the unsigned offset past the
    size, and the buffer is returned as it was. *)
Theorem mc_rdexact_hides_errors completed script buf size :
  0 < size < 2 ^ 64 ->
  mc_rdexact completed ((if completed then [ESel SelReady] else []) ++ ERead (RErr EIO) :: script)
             buf size = Some (0, buf, script).
Proof.
  intros Hs. unfold mc_rdexact.
  assert ((u64 (0 + -1) <? size) = false) as E by (change (u64 (0 + -1)) with (2 ^ 64 - 1); lia).
  destruct completed; cbn [app mc_rdexact_loop andb negb];
    replace (0 <? size) with true by lia;
    (destruct script; cbn [mc_rdexact_loop]; by rewrite E).
Qed.

Lemma mc_rdexact_hides_errors_witness :
  mc_rdexact false [ERead (RErr EIO)] [9; 9] 2 = Some (0, [9; 9], []).
Proof. apply (mc_rdexact_hides_errors false [] [9; 9] 2). lia. Defined.

End IO.
