(* ===== verification/Ssl.v ===== *)
(** The encrypted channel of a migration slave.

    Models tools/libxc/mc_ssl/mc_ssl.c ([ssl_encrypt], [read_size_adjust],
    [ssl_decrypt], [ssl_read], [ssl_write]) and the wrappers [ssl_wrexact]
    (xc_domain_save.c) and [ssl_rdexact] (xc_domain_restore.c).

    The cipher itself is OpenSSL's and a parameter of the model: a state, and
    two functions that transform whole blocks.  A function that would write
    or read outside [ssl->ssl_buf] has no result ([None]). *)

From S2P Require Import Prelude IO.

Module Ssl.
Import IO.

Section Wrap.

Context {CS : Type}.
(** [cipher->block_size], and [cipher_crypt] of a context. *)
Variable block_size : nat.
Variable crypt : CS -> list Z -> list Z * CS.
(** The contents of fresh memory from [malloc] and [realloc]. *)
Variable junk : nat -> list Z.

Record ssl_wrap := SslWrap { cc : CS; ssl_buf_len : nat; ssl_buf : list Z }.

(** [realloc] of the working buffer to [size] bytes. *)
Definition resize (ssl : ssl_wrap) (size : nat) : ssl_wrap :=
  SslWrap (cc ssl) size (take size (ssl_buf ssl ++ junk (size - length (ssl_buf ssl)))).

(** [cipher_crypt(cc, ssl_buf, buf, size)]. *)
Definition crypt_into_buf (ssl : ssl_wrap) (buf : list Z) : option ssl_wrap :=
  if decide (length buf <= ssl_buf_len ssl)%nat then
    let '(out, cc') := crypt (cc ssl) buf in
    Some (SslWrap cc' (ssl_buf_len ssl) (write_at (ssl_buf ssl) 0 out))
  else None.

Definition ssl_encrypt (ssl : ssl_wrap) (data : list Z) : option (nat * ssl_wrap) :=
  let size := length data in
  let '(buf, ssl1) :=
    if decide (size < block_size)%nat then
      (data ++ replicate (block_size - size) 0, ssl)
    else if decide (size `mod` block_size <> 0)%nat then
      let tem_size := ((size `div` block_size + 1) * block_size)%nat in
      (data ++ junk (tem_size - size), ssl)
    else
      (data, if decide (ssl_buf_len ssl < size)%nat then resize ssl size else ssl) in
  match crypt_into_buf ssl1 buf with
  | Some ssl2 => Some (length buf, ssl2)
  | None => None
  end.

(** Calculate a new size; resize [ssl_buf] if necessary. *)
Definition read_size_adjust (ssl : ssl_wrap) (size : nat) : nat * ssl_wrap :=
  if decide (size < block_size)%nat then (block_size, ssl)
  else if decide (size `mod` block_size <> 0)%nat then
    (((size `div` block_size + 1) * block_size)%nat, ssl)
  else (size, if decide (ssl_buf_len ssl < size)%nat then resize ssl size else ssl).

(** The result is what [data] holds afterwards: in each branch the first
    [ori_size] bytes of the plain text. *)
Definition ssl_decrypt (ssl : ssl_wrap) (new_size ori_size : nat) : option (list Z * ssl_wrap) :=
  if decide (new_size <= ssl_buf_len ssl)%nat then
    let '(buf, cc') := crypt (cc ssl) (take new_size (ssl_buf ssl)) in
    let ssl' := SslWrap cc' (ssl_buf_len ssl) (ssl_buf ssl) in
    if decide (new_size = block_size) then Some (take ori_size buf, ssl')
    else if decide (ori_size <> new_size) then Some (take ori_size buf, ssl')
    else Some (buf, ssl')
  else None.

(** [ssl_rdexact]: the result of the read is not looked at. *)
Definition ssl_rdexact (completed : bool) (ssl : ssl_wrap) (fd : list event) (size : nat)
  : option (Z * list Z * ssl_wrap * list event) :=
  let '(new_size, ssl1) := read_size_adjust ssl size in
  if decide (new_size <= ssl_buf_len ssl1)%nat then
    match rdexact completed fd (ssl_buf ssl1) new_size with
    | None => None
    | Some (_, buf, fd') =>
        match ssl_decrypt (SslWrap (cc ssl1) (ssl_buf_len ssl1) buf) new_size size with
        | Some (data, ssl2) => Some (0, data, ssl2, fd')
        | None => None
        end
    end
  else None.

(** [ssl_wrexact]: encrypt, then write the whole cipher text; the result of
    the write is not looked at. *)
Definition ssl_wrexact (ssl : ssl_wrap) (fd : ofile) (data : list Z)
  : option (Z * ssl_wrap * ofile) :=
  match ssl_encrypt ssl data with
  | None => None
  | Some (size, ssl') =>
      match write_exact fd (take size (ssl_buf ssl')) with
      | None => None
      | Some (_, fd') => Some (0, ssl', fd')
      end
  end.

(** [ssl_write]: one [write] call. *)
Definition ssl_write (ssl : ssl_wrap) (fd : ofile) (data : list Z)
  : option (Z * ssl_wrap * ofile) :=
  match ssl_encrypt ssl data with
  | None => None
  | Some (size, ssl') =>
      match o_script fd with
      | [] => None
      | WOk n :: script =>
          Some (0, ssl', OFile script (o_sent fd ++ take n (take size (ssl_buf ssl'))))
      | WErr _ :: script => Some (0, ssl', OFile script (o_sent fd))
      end
  end.

(** [ssl_read]: one [read] call of the adjusted size, whatever it returns. *)
Definition ssl_read (ssl : ssl_wrap) (script : list event) (size : nat)
  : option (Z * list Z * ssl_wrap * list event) :=
  let '(new_size, ssl1) := read_size_adjust ssl size in
  if decide (new_size <= ssl_buf_len ssl1)%nat then
    match script with
    | [] => None
    | ESel _ :: _ => None
    | ERead r :: script' =>
        let '(ssl2, rest) :=
          match r with
          | RData bs => (SslWrap (cc ssl1) (ssl_buf_len ssl1)
                           (write_at (ssl_buf ssl1) 0 (take new_size bs)),
                         unread false bs new_size script')
          | _ => (ssl1, script')
          end in
        match ssl_decrypt ssl2 new_size size with
        | Some (data, ssl3) => Some (Z.of_nat size, data, ssl3, rest)
        | None => None
        end
    end
  else None.

(** The padded size of a message of [size] bytes. *)
Definition padded (size : nat) : nat :=
  if decide (size < block_size)%nat then block_size
  else if decide (size `mod` block_size <> 0)%nat
       then ((size `div` block_size + 1) * block_size)%nat
       else size.

Record wf_wrap (ssl : ssl_wrap) : Prop := {
  wf_buf : length (ssl_buf ssl) = ssl_buf_len ssl
}.

(** ** Sizes and memory safety *)

Section Safety.
Context (Hbs : (0 < block_size)%nat) (Hjunk : forall n, length (junk n) = n).
Context (Hcrypt : forall cs x, length (crypt cs x).1 = length x).

Lemma padded_le size : (size <= padded size)%nat.
Proof.
  unfold padded. case_decide; [lia|]. case_decide; [|lia].
  pose proof (Nat.div_mod_eq size block_size). pose proof (Nat.mod_upper_bound size block_size). lia.
Qed.

Lemma padded_mod size : (padded size `mod` block_size = 0)%nat.
Proof.
  unfold padded. case_decide; [by apply Nat.Div0.mod_same|].
  case_decide as E; [apply Nat.Div0.mod_mul|done].
Qed.

Lemma padded_block k : (0 < k)%nat -> padded (k * block_size) = (k * block_size)%nat.
Proof.
  intros Hk. unfold padded. rewrite decide_False by nia.
  rewrite decide_False; [done|]. rewrite Nat.Div0.mod_mul. lia.
Qed.

Lemma resize_wf ssl size : wf_wrap ssl -> (ssl_buf_len ssl < size)%nat -> wf_wrap (resize ssl size).
Proof.
  intros [H] Hlt. split. simpl. rewrite length_take, length_app, Hjunk. lia.
Qed.

(** When the working buffer is large enough for the padded message. *)
Definition fits (ssl : ssl_wrap) (size : nat) : Prop :=
  (padded size <= ssl_buf_len ssl)%nat \/
  ((block_size <= size)%nat /\ (size `mod` block_size = 0)%nat).

(** Encryption stores the cipher text of the message, padded to whole
    blocks, at the start of the working buffer. *)
Lemma ssl_encrypt_ok ssl data :
  wf_wrap ssl -> fits ssl (length data) ->
  exists pad ssl', length (data ++ pad) = padded (length data) /\
    ssl_encrypt ssl data = Some (padded (length data), ssl') /\ wf_wrap ssl' /\
    (padded (length data) <= ssl_buf_len ssl')%nat /\
    take (padded (length data)) (ssl_buf ssl') = (crypt (cc ssl) (data ++ pad)).1 /\
    cc ssl' = (crypt (cc ssl) (data ++ pad)).2 /\ (ssl_buf_len ssl <= ssl_buf_len ssl')%nat.
Proof.
  intros Hwf Hfit.
  assert (exists pad ssl1, length (data ++ pad) = padded (length data) /\ wf_wrap ssl1 /\
    (padded (length data) <= ssl_buf_len ssl1)%nat /\ cc ssl1 = cc ssl /\
    (ssl_buf_len ssl <= ssl_buf_len ssl1)%nat /\
    ssl_encrypt ssl data = match crypt_into_buf ssl1 (data ++ pad) with
      | Some ssl2 => Some (length (data ++ pad), ssl2) | None => None end)
    as (pad & ssl1 & Hl & Hwf1 & Hcap & Hcc & Hgrow & ->).
  { unfold ssl_encrypt, fits in *. unfold padded in *. case_decide.
    - exists (replicate (block_size - length data) 0), ssl.
      rewrite length_app, length_replicate. repeat split; auto; try lia. apply Hwf.
    - case_decide.
      + eexists (junk ((length data `div` block_size + 1) * block_size - length data)), ssl.
        pose proof (Nat.div_mod_eq (length data) block_size).
        pose proof (Nat.mod_upper_bound (length data) block_size).
        split; [rewrite length_app, Hjunk; lia|].
        split; [done|split; [lia|split; [done|split; [lia|reflexivity]]]].
      + exists [], (if decide (ssl_buf_len ssl < length data)%nat
                    then resize ssl (length data) else ssl).
        rewrite app_nil_r. case_decide; repeat split; auto; simpl; try lia;
          try (by apply resize_wf); apply Hwf. }
  exists pad. unfold crypt_into_buf. rewrite Hl, decide_True by done.
  pose proof (Hcrypt (cc ssl1) (data ++ pad)) as Hc.
  destruct (crypt (cc ssl1) (data ++ pad)) as [out cc'] eqn:E. simpl in Hc.
  eexists. split; [done|]. split; [done|]. destruct Hwf1 as [Hb].
  rewrite <- Hcc, E. simpl. rewrite Hl in Hc. repeat split; auto.
  - simpl. rewrite write_at_length; lia.
  - rewrite <- Hc. apply take_write_at. lia.
Qed.

(** Without room for the padded message the cipher text overruns the buffer:
    only a size that is a multiple of the block size makes it grow. *)
Lemma ssl_encrypt_overrun ssl data :
  ~ fits ssl (length data) -> ssl_encrypt ssl data = None.
Proof.
  unfold fits, padded, ssl_encrypt. intros Hn.
  destruct (decide (length data < block_size)%nat); [|destruct (decide (_ <> _))].
  - unfold crypt_into_buf. rewrite length_app, length_replicate.
    rewrite decide_False by lia. done.
  - unfold crypt_into_buf. rewrite length_app, Hjunk. rewrite decide_False; [done|].
    pose proof (Nat.div_mod_eq (length data) block_size).
    pose proof (Nat.mod_upper_bound (length data) block_size). lia.
  - destruct Hn. right. lia.
Qed.

(** Reading a message: the adjusted size is the padded size, and the buffer
    has room for it. *)
Lemma read_size_adjust_ok ssl size :
  wf_wrap ssl -> fits ssl size ->
  exists ssl', read_size_adjust ssl size = (padded size, ssl') /\ wf_wrap ssl' /\
    cc ssl' = cc ssl /\ (padded size <= ssl_buf_len ssl')%nat /\
    (ssl_buf_len ssl <= ssl_buf_len ssl')%nat.
Proof.
  intros Hwf Hfit. unfold read_size_adjust, fits, padded in *.
  case_decide; [|case_decide].
  - exists ssl. repeat split; auto; try lia. apply Hwf.
  - exists ssl. repeat split; auto; try lia. apply Hwf.
  - exists (if decide (ssl_buf_len ssl < size)%nat then resize ssl size else ssl).
    case_decide; repeat split; auto; simpl; try lia; try (by apply resize_wf); apply Hwf.
Qed.

Lemma ssl_decrypt_ok ssl new_size size :
  wf_wrap ssl -> (size <= new_size <= ssl_buf_len ssl)%nat ->
  ssl_decrypt ssl new_size size =
    Some (take size (crypt (cc ssl) (take new_size (ssl_buf ssl))).1,
          SslWrap (crypt (cc ssl) (take new_size (ssl_buf ssl))).2 (ssl_buf_len ssl) (ssl_buf ssl)).
Proof.
  intros [Hb] Hs. unfold ssl_decrypt. rewrite decide_True by lia.
  pose proof (Hcrypt (cc ssl) (take new_size (ssl_buf ssl))) as Hl. rewrite length_take in Hl.
  destruct (crypt _ _) as [buf cc']. simpl in *.
  case_decide; [done|]. case_decide; [done|]. subst size. by rewrite take_ge by lia.
Qed.

(** Reading a message of [size] bytes from a descriptor that delivers the
    cipher text. *)
Lemma ssl_rdexact_ok completed ssl fd size :
  wf_wrap ssl -> fits ssl size ->
  (padded size <= length (incoming completed false fd))%nat ->
  exists ssl' fd',
    ssl_rdexact completed ssl fd size =
      Some (0, take size (crypt (cc ssl) (take (padded size) (incoming completed false fd))).1,
            ssl', fd') /\
    cc ssl' = (crypt (cc ssl) (take (padded size) (incoming completed false fd))).2 /\
    wf_wrap ssl' /\ (ssl_buf_len ssl <= ssl_buf_len ssl')%nat /\
    incoming completed false fd' = drop (padded size) (incoming completed false fd).
Proof.
  intros Hwf Hfit Hin. unfold ssl_rdexact, rdexact.
  destruct (read_size_adjust_ok _ _ Hwf Hfit) as (ssl1 & -> & Hwf1 & Hcc & Hcap & Hmono).
  rewrite decide_True by done. destruct Hwf1 as [Hb].
  destruct (rdexact_loop_ok completed fd false (ssl_buf ssl1) 0 (padded size)) as (fd' & E1 & E2);
    [lia|done|lia|]. rewrite Nat.sub_0_r in *. rewrite E1.
  set (inc := take (padded size) (incoming completed false fd)).
  assert (length inc = padded size) as Hinc by (unfold inc; rewrite length_take; lia).
  assert (length (write_at (ssl_buf ssl1) 0 inc) = ssl_buf_len ssl1) as Hwl
    by (rewrite write_at_length; lia).
  rewrite ssl_decrypt_ok; [|by split|pose proof (padded_le size); simpl; lia]. cbn [cc ssl_buf ssl_buf_len].
  assert (take (padded size) (write_at (ssl_buf ssl1) 0 inc) = inc) as ->.
  { rewrite <- Hinc at 1. apply take_write_at. lia. }
  rewrite Hcc. eexists _, fd'. repeat split; eauto.
Qed.

End Safety.

End Wrap.

Arguments ssl_wrap : clear implicits.

(** ** The channel *)

Section Channel.

Context {CS : Type} (block_size : nat) (enc dec : CS -> list Z -> list Z * CS).
Context (junk : nat -> list Z).
(** The two ends hold cipher contexts in corresponding states. *)
Context (sync : CS -> CS -> Prop).

(** What is used of the cipher: it transforms whole blocks, keeps their
    number, and the decrypting context undoes the encrypting one. *)
Record cipher_laws : Prop := {
  law_block : (0 < block_size)%nat;
  law_junk : forall n, length (junk n) = n;
  law_enc_len : forall cs x, length (enc cs x).1 = length x;
  law_dec_len : forall cs x, length (dec cs x).1 = length x;
  law_sync : forall cs ds x, sync cs ds -> (length x `mod` block_size = 0)%nat ->
    (dec ds (enc cs x).1).1 = x /\ sync (enc cs x).2 (dec ds (enc cs x).1).2;
  law_dec_app : forall cs x y, (length x `mod` block_size = 0)%nat ->
    dec cs (x ++ y) = ((dec cs x).1 ++ (dec (dec cs x).2 y).1, (dec (dec cs x).2 y).2)
}.

Context (laws : cipher_laws).

(** What [ssl_wrexact] puts on the wire is, after decryption, the message
    followed by padding up to a whole number of blocks. *)
Lemma ssl_wrexact_ok ssl fd data n :
  wf_wrap ssl -> fits block_size ssl (length data) ->
  wr_live (o_script fd) (padded block_size (length data) + n) ->
  exists pad ssl' script',
    length (data ++ pad) = padded block_size (length data) /\
    ssl_wrexact block_size enc junk ssl fd data =
      Some (0, ssl', OFile script' (o_sent fd ++ (enc (cc ssl) (data ++ pad)).1)) /\
    cc ssl' = (enc (cc ssl) (data ++ pad)).2 /\ wf_wrap ssl' /\
    (ssl_buf_len ssl <= ssl_buf_len ssl')%nat /\ wr_live script' n.
Proof.
  intros Hwf Hfit Hlive. destruct laws as [Hb Hj He _ _ _].
  destruct (ssl_encrypt_ok block_size enc junk Hb Hj He ssl data Hwf Hfit)
    as (pad & ssl' & Hl & E & Hwf' & Hcap & Htake & Hcc & Hgrow).
  unfold ssl_wrexact. rewrite E, Htake. unfold write_exact.
  destruct (write_exact_loop_live (o_script fd) (o_sent fd) (enc (cc ssl) (data ++ pad)).1 n)
    as (script' & -> & Hl'); [by rewrite He, Hl|].
  exists pad, ssl', script'. split_and!; auto.
Qed.

Lemma padded_aligned n : (padded block_size n `mod` block_size = 0)%nat.
Proof. apply padded_mod. Qed.

(** The encrypted descriptor as a byte source: its stream is the decrypted
    padded stream.  [big] bounds the requests that are not whole blocks; the
    working buffer has to have room for them. *)
Context (big : nat).

#[program] Definition ssl_source : ByteSource (ssl_wrap CS * list event) := {|
  src_pad := padded block_size;
  src_can n := (padded block_size n <= big)%nat \/
               ((block_size <= n)%nat /\ (n `mod` block_size = 0)%nat);
  src_ok s := wf_wrap s.1 /\ (big <= ssl_buf_len s.1)%nat /\
              (length (incoming false false s.2) `mod` block_size = 0)%nat;
  src_rest s := (dec (cc s.1) (incoming false false s.2)).1;
  src_read s n :=
    match ssl_rdexact block_size dec junk false s.1 s.2 n with
    | Some (_, data, ssl', fd') => (Some data, (ssl', fd'))
    | None => (None, s)
    end
|}.
Next Obligation. intros n. apply padded_le, law_block, laws. Qed.
Next Obligation.
  intros [ssl fd] n (Hwf & Hbig & Hmod) Hcan Hn; cbn [fst snd] in *.
  destruct laws as [Hb Hj _ Hd _ Happ]. rewrite Hd in Hn.
  destruct (ssl_rdexact_ok block_size dec junk Hb Hj Hd false ssl fd n) as (ssl' & fd' & -> & Hcc & Hwf' & Hm & Hin');
    [done|unfold fits; destruct Hcan; [left|right]; auto; lia|done|].
  exists (ssl', fd'). cbn [fst snd].
  set (inc := incoming false false fd) in *.
  assert (length (take (padded block_size n) inc) = padded block_size n) as Hlen
    by (rewrite length_take; lia).
  assert (dec (cc ssl) inc = ((dec (cc ssl) (take (padded block_size n) inc)).1 ++
    (dec (dec (cc ssl) (take (padded block_size n) inc)).2 (drop (padded block_size n) inc)).1,
    (dec (dec (cc ssl) (take (padded block_size n) inc)).2 (drop (padded block_size n) inc)).2)) as E.
  { rewrite <- Happ; [by rewrite take_drop|]. rewrite Hlen. apply padded_aligned. }
  pose proof (padded_le block_size Hb n) as Hle.
  split; [|split; [split; [done|split; [lia|]]|]].
  - rewrite E. cbn [fst]. rewrite take_app_le by (rewrite Hd, Hlen; lia). done.
  - rewrite Hin', length_drop. pose proof (padded_aligned n).
    apply Nat.Div0.mod_divides in H as [c1 E1]. apply Nat.Div0.mod_divides in Hmod as [c2 E2].
    rewrite E1, E2, <- Nat.mul_sub_distr_l, Nat.mul_comm. apply Nat.Div0.mod_mul.
  - rewrite E, Hin', Hcc. cbn [fst]. rewrite drop_app_ge by (rewrite Hd, Hlen; lia).
    rewrite Hd, Hlen, Nat.sub_diag. done.
Qed.

(** ** Messages over the channel *)

(** A message sent with [ssl_wrexact] over a descriptor that
    makes progress and read with [ssl_rdexact] arrives unchanged, whatever its
    size modulo the cipher's block size, however the cipher text is cut into
    chunks, and both ends are ready for the next message; what the peer reads
    afterwards is exactly what follows the message's cipher text. *)
Theorem ssl_channel_roundtrip ssl fd rs script data rest :
  wf_wrap ssl -> fits block_size ssl (length data) ->
  wr_live (o_script fd) (padded block_size (length data)) ->
  wf_wrap rs -> fits block_size rs (length data) -> sync (cc ssl) (cc rs) ->
  exists ssl' fd' wire, ssl_wrexact block_size enc junk ssl fd data = Some (0, ssl', fd') /\
    wf_wrap ssl' /\ o_sent fd' = o_sent fd ++ wire /\
    length wire = padded block_size (length data) /\
    (incoming false false script = wire ++ rest ->
     exists rs' script', ssl_rdexact block_size dec junk false rs script (length data) =
         Some (0, data, rs', script') /\
       incoming false false script' = rest /\ wf_wrap rs' /\ sync (cc ssl') (cc rs')).
Proof.
  intros Hwf Hfit Hlive Hrw Hrf Hsync.
  destruct (ssl_wrexact_ok ssl fd data 0 Hwf Hfit ltac:(by rewrite Nat.add_0_r))
    as (pad & ssl' & s' & Hl & E & Hcc & Hwf' & _).
  destruct laws as [Hb Hj He Hd Hsy _].
  eexists ssl', _, (enc (cc ssl) (data ++ pad)).1. split; [exact E|]. split; [done|].
  split; [done|]. assert (length (enc (cc ssl) (data ++ pad)).1 = padded block_size (length data)) as Hlw
    by (by rewrite He, Hl). split; [done|]. intros Hin.
  destruct (ssl_rdexact_ok block_size dec junk Hb Hj Hd false rs script (length data) Hrw Hrf)
    as (rs' & sc' & Er & Hcr & Hwr & _ & Hin'); [rewrite Hin, length_app; lia|].
  rewrite Hin in Er, Hcr, Hin'. rewrite <- Hlw, take_app_length in Er, Hcr.
  rewrite <- Hlw, drop_app_length in Hin'.
  destruct (Hsy (cc ssl) (cc rs) (data ++ pad) Hsync) as [Hdec Hs2];
    [rewrite Hl; apply padded_aligned|].
  exists rs', sc'. split_and!; auto.
  - by rewrite Er, Hdec, take_app_length.
  - by rewrite Hcc, Hcr.
Qed.

End Channel.

(** ** Witness: a stream cipher over 16-byte blocks *)

Definition toy_crypt (cs : Z) (x : list Z) : list Z * Z :=
  (imap (fun i b => Z.lxor b (cs + Z.of_nat i)) x, cs + Z.of_nat (length x)).

Lemma toy_laws : cipher_laws 16 toy_crypt toy_crypt (fun n => replicate n 0) eq.
Proof.
  assert (forall cs x, length (toy_crypt cs x).1 = length x) as Hlen
    by (intros; apply length_imap).
  split; auto; [lia|intros n; apply length_replicate| |].
  - intros cs ds x <- _. split; [|cbn; by rewrite length_imap].
    apply list_eq. intros i. cbn. rewrite !list_lookup_imap.
    destruct (x !! i); simpl; [|done]. f_equal.
    by rewrite Z.lxor_assoc, Z.lxor_nilpotent, Z.lxor_0_r.
  - intros cs x y _. unfold toy_crypt. cbn [fst snd]. rewrite imap_app, length_app. f_equal; [|lia].
    f_equal. apply imap_ext. intros i b _. simpl. f_equal. lia.
Qed.

(** ** Properties *)

Lemma ssl_channel_roundtrip_witness :
  exists ssl' fd' wire,
    ssl_wrexact 16 toy_crypt (fun n => replicate n 0) (SslWrap 5 32 (replicate 32 0))
      (OFile (replicate 32 (WOk 3)) []) [1; 2; 3; 4; 5] = Some (0, ssl', fd') /\
    o_sent fd' = wire /\
    exists rs' script',
      ssl_rdexact 16 toy_crypt (fun n => replicate n 0) false (SslWrap 5 32 (replicate 32 0))
        [ERead (RData (take 7 wire)); ERead (RErr EINTR); ERead (RData (drop 7 wire))] 5 =
        Some (0, [1; 2; 3; 4; 5], rs', script').
Proof.
  destruct (ssl_channel_roundtrip 16 toy_crypt toy_crypt (fun n => replicate n 0) eq toy_laws
    (SslWrap 5 32 (replicate 32 0)) (OFile (replicate 32 (WOk 3)) []) (SslWrap 5 32 (replicate 32 0))
    [ERead (RData (take 7 (imap (fun i b => Z.lxor b (5 + Z.of_nat i)) ([1; 2; 3; 4; 5] ++ replicate 11 0))));
     ERead (RErr EINTR);
     ERead (RData (drop 7 (imap (fun i b => Z.lxor b (5 + Z.of_nat i)) ([1; 2; 3; 4; 5] ++ replicate 11 0))))]
    [1; 2; 3; 4; 5] [])
    as (ssl' & fd' & wire & E & _ & Hs & Hl & H).
  - split. reflexivity.
  - left. vm_compute. lia.
  - exact I || (vm_compute; exact I).
  - split. reflexivity.
  - left. vm_compute. lia.
  - reflexivity.
  - exists ssl', fd', wire. split; [exact E|]. split; [exact Hs|].
    assert (wire = imap (fun i b => Z.lxor b (5 + Z.of_nat i)) ([1; 2; 3; 4; 5] ++ replicate 11 0)) as Ew.
    { vm_compute in E. injection E as _ <-. vm_compute in Hs. subst wire. reflexivity. }
    rewrite <- Ew in H. destruct H as (rs' & sc' & Hr & _).
    + rewrite Ew. vm_compute. reflexivity.
    + exists rs', sc'. exact Hr.
Defined.

(** The working buffer is safe exactly for the messages it
    fits: it grows only for sizes that are a multiple of the block size.  A
    frame list of 1023 pages (8184 bytes) with a 4096-byte buffer makes the
    cipher write past its end. *)
Theorem ssl_encrypt_overruns {CS} (crypt : CS -> list Z -> list Z * CS) junk (ssl : ssl_wrap CS) data :
  (forall n, length (junk n) = n) -> (forall cs x, length (crypt cs x).1 = length x) ->
  wf_wrap ssl ->
  (ssl_encrypt 16 crypt junk ssl data = None <-> ~ fits 16 ssl (length data)) /\
  (length data = (8 * 1023)%nat -> ssl_buf_len ssl = 4096%nat ->
   ssl_encrypt 16 crypt junk ssl data = None).
Proof.
  intros Hj Hc Hwf.
  assert (~ fits 16 ssl (length data) -> ssl_encrypt 16 crypt junk ssl data = None) as Hover
    by (apply ssl_encrypt_overrun; auto; lia).
  split; [split; [|done]|].
  - intros E Hfit. destruct (ssl_encrypt_ok 16 crypt junk ltac:(lia) Hj Hc ssl data Hwf Hfit)
      as (pad & ssl' & _ & E' & _). congruence.
  - intros Hl Hb. apply Hover. unfold fits. rewrite Hl, Hb. vm_compute. intros [H|[_ H]]; [lia|done].
Qed.

Lemma ssl_encrypt_overruns_witness :
  ssl_encrypt 16 toy_crypt (fun n => replicate n 0) (SslWrap 5 4096 (replicate 4096 0))
    (replicate (8 * 1023) 7) = None.
Proof.
  destruct (ssl_encrypt_overruns toy_crypt (fun n => replicate n 0)
    (SslWrap 5 4096 (replicate 4096 0)) (replicate (8 * 1023) 7)) as [_ H].
  - intros n. apply length_replicate.
  - intros cs x. apply length_imap.
  - split. reflexivity.
  - apply H; reflexivity.
Defined.

End Ssl.
