(* ===== verification/PageTable.v ===== *)
(** Page tables in transit.

    During a transfer every page-table page is in canonical form: references
    to machine frames (mfns) are replaced by the guest's pseudo-physical frames
    (pfns).  This file models the sender's [canonicalize_pagetable]
    (xc_domain_save.c), the receiver's [uncanonicalize_pagetable]
    (xc_domain_restore.c), the translation macros they use, and the folding of
    CR3 (xg_save_restore.h).  The tools are 64-bit: [unsigned long] has 8 bytes. *)

From S2P Require Import Prelude.

Module PageTable.

(** ** Constants of xg_private.h, xc_dom.h and public/domctl.h *)

Definition PAGE_SHIFT : Z := 12.
Definition PAGE_SIZE : Z := 4096.
Definition _PAGE_PRESENT : Z := 0x001.
Definition _PAGE_RW : Z := 0x002.
Definition _PAGE_USER : Z := 0x004.
Definition _PAGE_ACCESSED : Z := 0x020.
Definition L2_PAGETABLE_SHIFT : Z := 21.
Definition L2_PAGETABLE_SHIFT_PAE : Z := 21.
Definition L3_PAGETABLE_ENTRIES_PAE : Z := 4.
(** The array [p2m_batch] has room for [MAX_BATCH_SIZE] frames. *)
Definition MAX_BATCH_SIZE : nat := 1024%nat.
Definition INVALID_P2M_ENTRY : Z := 2 ^ 64 - 1.

Definition XEN_DOMCTL_PFINFO_NOTAB : Z := 0x0 .<< 28.
Definition XEN_DOMCTL_PFINFO_L1TAB : Z := 0x1 .<< 28.
Definition XEN_DOMCTL_PFINFO_L2TAB : Z := 0x2 .<< 28.
Definition XEN_DOMCTL_PFINFO_L3TAB : Z := 0x3 .<< 28.
Definition XEN_DOMCTL_PFINFO_L4TAB : Z := 0x4 .<< 28.
Definition XEN_DOMCTL_PFINFO_LTABTYPE_MASK : Z := 0x7 .<< 28.
Definition XEN_DOMCTL_PFINFO_LPINTAB : Z := 0x1 .<< 31.
Definition XEN_DOMCTL_PFINFO_XTAB : Z := 0xf .<< 28.
Definition XEN_DOMCTL_PFINFO_LTAB_MASK : Z := 0xf .<< 28.

(** Masks for PTE to PFN conversions; they depend on [dinfo->guest_width]. *)
Definition MADDR_BITS_X86 (guest_width : Z) : Z := if guest_width =? 8 then 52 else 44.
Definition MFN_MASK_X86 (guest_width : Z) : Z :=
  (1 .<< (MADDR_BITS_X86 guest_width - PAGE_SHIFT)) - 1.
Definition MADDR_MASK_X86 (guest_width : Z) : Z := MFN_MASK_X86 guest_width .<< PAGE_SHIFT.

(** [is_mapped] of xg_save_restore.h. *)
Definition is_mapped (pfn_type : Z) : bool := negb (truthy (pfn_type .& 0x80000000)).

(** ** The sender's translation tables *)

(** [struct save_ctx] with its [struct domain_info_context].  The live tables
    are read by index; [live_p2m] holds the guest's raw entries. *)
Record save_ctx := SaveCtx {
  hvirt_start : Z;
  pt_levels : Z;
  max_mfn : Z;
  live_p2m : Z -> Z;
  live_m2p : Z -> Z;
  m2p_mfn0 : Z;
  guest_width : Z;
  p2m_size : Z
}.

Definition mfn_to_pfn (ctx : save_ctx) (mfn : Z) : Z := live_m2p ctx mfn.

Definition pfn_to_mfn (ctx : save_ctx) (pfn : Z) : Z :=
  if guest_width ctx =? 8 then live_p2m ctx pfn
  else if u32 (live_p2m ctx pfn) =? 0xffffffff then 2 ^ 64 - 1
       else u32 (live_p2m ctx pfn).

(** The frame has a unique mapping in the guest's pseudo-physical map. *)
Definition MFN_IS_IN_PSEUDOPHYS_MAP (ctx : save_ctx) (mfn : Z) : bool :=
  (mfn <? max_mfn ctx) && (mfn_to_pfn ctx mfn <? p2m_size ctx)
  && (pfn_to_mfn ctx (mfn_to_pfn ctx mfn) =? mfn).

(** ** Pages as arrays of entries *)

(** Entry [i] of a page seen as an array of [w]-byte integers. *)
Definition word_at (w : nat) (page : list Z) (i : nat) : Z := le_val (take w (drop (w * i) page)).

Definition pte_width (levels : Z) : nat := if levels =? 2 then 4%nat else 8%nat.

(** The entries of a page, and the page that holds given entries. *)
Definition page_entries (w : nat) (page : list Z) : list Z :=
  word_at w page <$> seq 0 (Z.to_nat PAGE_SIZE / w).

Definition entries_page (w : nat) (es : list Z) : list Z := es ≫= le_bytes w.

(** ** canonicalize_pagetable *)

(** The entries that hold reserved hypervisor mappings, [xen_start] up to
    [xen_end]; they depend on the table's type and on the paging levels. *)
Definition xen_range (ctx : save_ctx) (type : Z) (spage : list Z) : Z * Z :=
  let pte_last := PAGE_SIZE / (if pt_levels ctx =? 2 then 4 else 8) in
  let xen_start := pte_last in
  let xen_end := pte_last in
  let xen_start :=
    if (pt_levels ctx =? 2) && (type =? XEN_DOMCTL_PFINFO_L2TAB)
    then s32 (hvirt_start ctx .>> L2_PAGETABLE_SHIFT) else xen_start in
  let xen_start :=
    if (pt_levels ctx =? 3) && (type =? XEN_DOMCTL_PFINFO_L3TAB)
    then L3_PAGETABLE_ENTRIES_PAE else xen_start in
  (* In PAE only the L2 mapping the top 1GB contains Xen mappings. *)
  let xen_start :=
    if (pt_levels ctx =? 3) && (type =? XEN_DOMCTL_PFINFO_L2TAB) then
      let hstart := (hvirt_start ctx .>> L2_PAGETABLE_SHIFT_PAE) .& 0x1ff in
      let he := word_at 8 spage (Z.to_nat hstart) in
      if ((he .>> PAGE_SHIFT) .& MFN_MASK_X86 (guest_width ctx)) =? m2p_mfn0 ctx then hstart
      else if negb (hvirt_start ctx =? 0xf5800000) then
        (* old L2s from before hole was shrunk... *)
        let hstart := (0xf5800000 .>> L2_PAGETABLE_SHIFT_PAE) .& 0x1ff in
        let he := word_at 8 spage (Z.to_nat hstart) in
        if ((he .>> PAGE_SHIFT) .& MFN_MASK_X86 (guest_width ctx)) =? m2p_mfn0 ctx
        then hstart else xen_start
      else xen_start
    else xen_start in
  if (pt_levels ctx =? 4) && (type =? XEN_DOMCTL_PFINFO_L4TAB) then (256, 272)
  else (xen_start, xen_end).

(** The body of the loop for entry [i]: the canonical entry, and whether the
    entry was found stale. *)
Definition canonicalize_pte (ctx : save_ctx) (type : Z) (xen : Z * Z) (i : Z) (pte : Z)
  : Z * bool :=
  let pte := if (i >=? xen.1) && (i <? xen.2) then 0 else pte in
  if truthy (pte .& _PAGE_PRESENT) then
    let mfn := (pte .>> PAGE_SHIFT) .& MFN_MASK_X86 (guest_width ctx) in
    let '(pfn, race) :=
      if negb (MFN_IS_IN_PSEUDOPHYS_MAP ctx mfn)
      then (0, negb ((type =? XEN_DOMCTL_PFINFO_L2TAB) && (8 >? guest_width ctx)))
      else (mfn_to_pfn ctx mfn, false) in
    let pte := pte .& not_w 64 (MADDR_MASK_X86 (guest_width ctx)) in
    let pte := pte .| u64 (pfn .<< PAGE_SHIFT) in
    let flags := _PAGE_USER .| _PAGE_RW .| _PAGE_ACCESSED in
    let pte :=
      if (pt_levels ctx =? 3) && (type =? XEN_DOMCTL_PFINFO_L3TAB) && truthy (pte .& flags)
      then pte .& not_w 64 flags else pte in
    (pte, race)
  else (pte, false).

(** The entries of the canonical page and the race flag. *)
Definition canonicalize_entries (ctx : save_ctx) (type : Z) (xen : Z * Z) (es : list Z)
  : list (Z * bool) :=
  imap (fun i pte => canonicalize_pte ctx type xen (Z.of_nat i) pte) es.

Definition canonicalize_pagetable (ctx : save_ctx) (type : Z) (spage : list Z) : bool * list Z :=
  let w := pte_width (pt_levels ctx) in
  let r := canonicalize_entries ctx type (xen_range ctx type spage) (page_entries w spage) in
  (existsb snd r, entries_page w (r.*1)).

(** ** uncanonicalize_pagetable *)

(** What [uncanonicalize_pagetable] uses of [struct restore_ctx]: the table
    under construction and the array of frames to allocate. *)
Record p2m_state := P2MState { p2m : list Z; p2m_batch : list Z }.

Definition p2m_get (st : p2m_state) (pfn : Z) : Z := p2m st !!! Z.to_nat pfn.
Definition p2m_set (st : p2m_state) (pfn mfn : Z) : p2m_state :=
  P2MState (<[Z.to_nat pfn := mfn]> (p2m st)) (p2m_batch st).
Definition batch_set (st : p2m_state) (i : nat) (v : Z) : p2m_state :=
  P2MState (p2m st) (<[i := v]> (p2m_batch st)).

Section Uncanonicalize.

(** [dinfo->guest_width] and [dinfo->p2m_size] of the restored guest. *)
Variables (guest_width p2m_size : Z).

Definition pte_pfn (pte : Z) : Z := (pte .>> PAGE_SHIFT) .& MFN_MASK_X86 guest_width.

(** First pass: which frames have to be allocated.  An entry out of range
    ends the function ([false]); what was recorded so far stays. *)
Fixpoint uncanon_pass1 (es : list Z) (st : p2m_state) (nr_mfns : nat) : bool * p2m_state * nat :=
  match es with
  | [] => (true, st, nr_mfns)
  | pte :: es' =>
      if negb (truthy (pte .& _PAGE_PRESENT)) then uncanon_pass1 es' st nr_mfns
      else
        let pfn := pte_pfn pte in
        if pfn >=? p2m_size then (false, st, nr_mfns)
        else if p2m_get st pfn =? INVALID_P2M_ENTRY then
          (* Have a 'valid' PFN without a matching MFN - need to alloc *)
          let st := batch_set st nr_mfns pfn in
          let st := p2m_set st pfn (u64 (p2m_get st pfn - 1)) in
          uncanon_pass1 es' st (S nr_mfns)
        else uncanon_pass1 es' st nr_mfns
  end.

(** Second pass: uncanonicalize each present entry. *)
Fixpoint uncanon_pass2 (es : list Z) (st : p2m_state) (nr_mfns : nat) : list Z * p2m_state :=
  match es with
  | [] => ([], st)
  | pte :: es' =>
      if negb (truthy (pte .& _PAGE_PRESENT)) then
        let '(r, st') := uncanon_pass2 es' st nr_mfns in (pte :: r, st')
      else
        let pfn := pte_pfn pte in
        let '(st, nr_mfns) :=
          if p2m_get st pfn =? INVALID_P2M_ENTRY - 1
          then (p2m_set st pfn (p2m_batch st !!! nr_mfns), S nr_mfns)
          else (st, nr_mfns) in
        let pte := pte .& not_w 64 (MADDR_MASK_X86 guest_width) in
        let pte := pte .| u64 (p2m_get st pfn .<< PAGE_SHIFT) in
        let '(r, st') := uncanon_pass2 es' st nr_mfns in (pte :: r, st')
  end.

(** [xc_domain_populate_physmap_exact]: the hypervisor replaces the first [n]
    frames of the array by fresh machine frames, or fails. *)
Context {A : Type} (populate : A -> list Z -> option (list Z) * A).

Definition uncanonicalize_entries (a : A) (st : p2m_state) (es : list Z)
  : bool * list Z * p2m_state * A :=
  let '(ok, st1, nr_mfns) := uncanon_pass1 es st 0 in
  if negb ok then (false, es, st1, a)
  else
    if decide (nr_mfns = 0%nat) then
      let '(es', st2) := uncanon_pass2 es st1 0 in (true, es', st2, a)
    else
      match populate a (take nr_mfns (p2m_batch st1)) with
      | (None, a') => (false, es, st1, a')
      | (Some mfns, a') =>
          let st2 := P2MState (p2m st1) (write_at (p2m_batch st1) 0 mfns) in
          let '(es', st3) := uncanon_pass2 es st2 0 in (true, es', st3, a')
      end.

Definition uncanonicalize_pagetable (levels : Z) (a : A) (st : p2m_state) (page : list Z)
  : bool * list Z * p2m_state * A :=
  let w := pte_width levels in
  let '(ok, es, st', a') := uncanonicalize_entries a st (page_entries w page) in
  (ok, if ok then entries_page w es else page, st', a').

End Uncanonicalize.

(** ** CR3 folding *)

Definition UNFOLD_CR3 (guest_width c : Z) : Z :=
  if guest_width =? 8 then c .>> 12 else (u32 c .>> 12) .| u32 (u32 c .<< 20).

Definition FOLD_CR3 (guest_width c : Z) : Z :=
  if guest_width =? 8 then u64 (u64 c .<< 12) else u32 (u32 c .<< 12) .| (u32 c .>> 20).

(** ** The frame field of an entry *)

(** Replacing the frame number of an entry, as both directions do. *)
Definition set_frame (gw pte f : Z) : Z :=
  (pte .& not_w 64 (MADDR_MASK_X86 gw)) .| u64 (f .<< PAGE_SHIFT).

(** Frame numbers that fit the field. *)
Definition frame_ok (gw f : Z) : Prop := 0 <= f < 2 ^ (MADDR_BITS_X86 gw - PAGE_SHIFT).

Lemma maddr_bits gw : 44 <= MADDR_BITS_X86 gw <= 52.
Proof. unfold MADDR_BITS_X86. destruct (_ =? _); lia. Qed.

Lemma mfn_mask_ones gw : MFN_MASK_X86 gw = Z.ones (MADDR_BITS_X86 gw - PAGE_SHIFT).
Proof. unfold MFN_MASK_X86. rewrite Z.ones_equiv, Z.shiftl_1_l. lia. Qed.

Lemma testbit_maddr_mask gw i :
  0 <= i -> Z.testbit (MADDR_MASK_X86 gw) i = (12 <=? i) && (i <? MADDR_BITS_X86 gw).
Proof.
  intros Hi. pose proof (maddr_bits gw). unfold MADDR_MASK_X86, PAGE_SHIFT.
  rewrite Z.shiftl_spec, mfn_mask_ones by lia. unfold PAGE_SHIFT.
  destruct (Z.leb_spec 12 i); [|apply Z.testbit_neg_r; lia].
  rewrite testbit_ones by lia. simpl. lia.
Qed.

Lemma set_frame_bit gw pte f i :
  0 <= pte < 2 ^ 64 -> frame_ok gw f -> 0 <= i ->
  Z.testbit (set_frame gw pte f) i =
  if (12 <=? i) && (i <? MADDR_BITS_X86 gw) then Z.testbit f (i - 12) else Z.testbit pte i.
Proof.
  intros Hp Hf Hi. pose proof (maddr_bits gw). unfold set_frame, frame_ok, PAGE_SHIFT in *.
  assert (u64 (f .<< 12) = f .<< 12) as ->.
  { apply u64_small. rewrite Z.shiftl_mul_pow2 by lia. split; [lia|].
    apply Z.lt_le_trans with (2 ^ (MADDR_BITS_X86 gw - 12) * 2 ^ 12); [apply Z.mul_lt_mono_pos_r; lia|].
    rewrite <- Z.pow_add_r by lia. apply Z.pow_le_mono_r; lia. }
  rewrite Z.lor_spec, Z.land_spec, testbit_not_w, testbit_maddr_mask, Z.shiftl_spec by lia.
  destruct (Z.leb_spec 12 i); simpl.
  - destruct (Z.ltb_spec i (MADDR_BITS_X86 gw)); simpl.
    + replace (i <? 64) with true by lia. by rewrite andb_false_r.
    + rewrite (testbit_high f (MADDR_BITS_X86 gw - 12)) by lia. rewrite orb_false_r.
      destruct (Z.ltb_spec i 64); [apply andb_true_r|].
      by rewrite (testbit_high pte 64) by lia.
  - replace (i <? 64) with true by lia. rewrite andb_true_r.
    rewrite (Z.testbit_neg_r f) by lia. apply orb_false_r.
Qed.

Lemma pte_pfn_bit gw pte i :
  0 <= i -> Z.testbit (pte_pfn gw pte) i =
  Z.testbit pte (i + 12) && (i <? MADDR_BITS_X86 gw - 12).
Proof.
  intros Hi. pose proof (maddr_bits gw). unfold pte_pfn, PAGE_SHIFT.
  by rewrite Z.land_spec, Z.shiftr_spec, mfn_mask_ones, testbit_ones by (unfold PAGE_SHIFT; lia).
Qed.

Lemma pte_pfn_ok gw pte : frame_ok gw (pte_pfn gw pte).
Proof.
  pose proof (maddr_bits gw). unfold frame_ok, pte_pfn, PAGE_SHIFT. apply land_range; [lia|].
  rewrite mfn_mask_ones. unfold PAGE_SHIFT. rewrite Z.ones_equiv. lia.
Qed.

(** The frame of an entry after [set_frame]; the other bits are kept. *)
Lemma set_frame_pfn gw pte f :
  0 <= pte < 2 ^ 64 -> frame_ok gw f -> pte_pfn gw (set_frame gw pte f) = f.
Proof.
  intros Hp Hf. pose proof (maddr_bits gw). apply Z.bits_inj'. intros i Hi.
  rewrite pte_pfn_bit, set_frame_bit by (auto; lia). replace (12 <=? i + 12) with true by lia.
  simpl. destruct (Z.ltb_spec i (MADDR_BITS_X86 gw - 12)).
  - replace (i + 12 <? MADDR_BITS_X86 gw) with true by lia. rewrite andb_true_r. f_equal. lia.
  - rewrite andb_false_r. symmetry. unfold frame_ok, PAGE_SHIFT in Hf.
    by apply (testbit_high f (MADDR_BITS_X86 gw - 12)).
Qed.

Lemma set_frame_flags gw pte f i :
  0 <= pte < 2 ^ 64 -> frame_ok gw f -> 0 <= i -> (i < 12 \/ MADDR_BITS_X86 gw <= i) ->
  Z.testbit (set_frame gw pte f) i = Z.testbit pte i.
Proof.
  intros Hp Hf Hi Hr. rewrite set_frame_bit by auto.
  destruct (Z.leb_spec 12 i), (Z.ltb_spec i (MADDR_BITS_X86 gw)); simpl; auto; lia.
Qed.

Lemma set_frame_range gw pte f :
  0 <= pte < 2 ^ 64 -> frame_ok gw f -> 0 <= set_frame gw pte f < 2 ^ 64.
Proof.
  intros Hp Hf. pose proof (maddr_bits gw). apply bounded_of_bits; [lia| |].
  - unfold set_frame. apply Z.lor_nonneg. pose proof (u64_range (f .<< PAGE_SHIFT)).
    split; [apply Z.land_nonneg|]; lia.
  - intros i Hi. rewrite set_frame_flags by (auto; lia). by apply (testbit_high pte 64).
Qed.

Definition present (pte : Z) : bool := truthy (pte .& _PAGE_PRESENT).

Lemma present_bit pte : present pte = Z.testbit pte 0.
Proof.
  unfold present, _PAGE_PRESENT. pose proof (Z.land_ones pte 1 ltac:(lia)) as E.
  change (Z.ones 1) with 1 in E. change (2 ^ 1) with 2 in E.
  rewrite E, <- Z.bit0_mod. apply truthy_b2z.
Qed.

Lemma set_frame_present gw pte f :
  0 <= pte < 2 ^ 64 -> frame_ok gw f -> present (set_frame gw pte f) = present pte.
Proof.
  intros. pose proof (maddr_bits gw). rewrite !present_bit. apply set_frame_flags; auto; lia.
Qed.

(** ** Allocation of missing frames *)

(** A table is an array of 64-bit entries indexed by pfn. *)
Definition tget (m : list Z) (pfn : Z) : Z := m !!! Z.to_nat pfn.
Definition tset (m : list Z) (pfn f : Z) : list Z := <[Z.to_nat pfn := f]> m.

Lemma tget_tset m p q f :
  0 <= p < Z.of_nat (length m) -> 0 <= q ->
  tget (tset m p f) q = if decide (p = q) then f else tget m q.
Proof.
  intros Hp Hq. unfold tget, tset. destruct (decide (p = q)) as [->|].
  - apply list_lookup_total_insert_eq. lia.
  - apply list_lookup_total_insert_ne. lia.
Qed.

Lemma tset_length m p f : length (tset m p f) = length m.
Proof. apply length_insert. Qed.

Lemma tset_comm m p q f g :
  0 <= p -> 0 <= q -> p <> q -> tset (tset m p f) q g = tset (tset m q g) p f.
Proof. intros. apply list_insert_insert_ne. lia. Qed.

Lemma tset_tset m p f g : tset (tset m p f) p g = tset m p g.
Proof. apply list_insert_insert_eq. Qed.

Section Allocate.
Variables (gw size : Z).

(** Every frame a present entry names is in range. *)
Definition in_range (es : list Z) : Prop :=
  Forall (fun pte => present pte = true -> pte_pfn gw pte < size) es.

(** Reference: the pfns without a machine frame that the entries name, in the
    order of their first use. *)
Fixpoint missing (m : list Z) (es : list Z) : list Z :=
  match es with
  | [] => []
  | pte :: es' =>
      if present pte && (tget m (pte_pfn gw pte) =? INVALID_P2M_ENTRY)
      then pte_pfn gw pte :: missing (tset m (pte_pfn gw pte) 0) es'
      else missing m es'
  end.

(** Reference: the table after the missing pfns got frames. *)
Fixpoint assign (m : list Z) (ps fs : list Z) : list Z :=
  match ps, fs with
  | p :: ps', f :: fs' => assign (tset m p f) ps' fs'
  | _, _ => m
  end.

(** Reference: the page with each present entry's pfn replaced by its mfn. *)
Definition localize (m : list Z) (es : list Z) : list Z :=
  (fun pte => if present pte then set_frame gw pte (tget m (pte_pfn gw pte)) else pte) <$> es.

Definition mark (m : list Z) (ps : list Z) : list Z :=
  foldl (fun m p => tset m p (INVALID_P2M_ENTRY - 1)) m ps.

Lemma pte_pfn_nonneg pte : 0 <= pte_pfn gw pte.
Proof. apply pte_pfn_ok. Qed.

Lemma mark_length m ps : length (mark m ps) = length m.
Proof.
  unfold mark. revert m. induction ps as [|p ps IH]; intros m; simpl; [done|].
  by rewrite IH, tset_length.
Qed.

Lemma assign_length m ps fs : length (assign m ps fs) = length m.
Proof.
  revert m fs. induction ps as [|p ps IH]; intros m [|f fs]; simpl; auto.
  by rewrite IH, tset_length.
Qed.

(** [missing] only depends on which entries are invalid. *)
Lemma missing_ext es : forall m1 m2,
  length m1 = length m2 -> Z.of_nat (length m1) = size -> in_range es ->
  (forall p, 0 <= p -> tget m1 p = INVALID_P2M_ENTRY <-> tget m2 p = INVALID_P2M_ENTRY) ->
  missing m1 es = missing m2 es.
Proof.
  induction es as [|pte es IH]; intros m1 m2 Hlen Hsz Hr Heq; [done|]. cbn [missing].
  apply Forall_cons in Hr as [Hp Hr]. pose proof (pte_pfn_nonneg pte) as Hnn.
  assert ((tget m1 (pte_pfn gw pte) =? INVALID_P2M_ENTRY) =
          (tget m2 (pte_pfn gw pte) =? INVALID_P2M_ENTRY)) as ->
    by (apply eq_bool_prop_intro; rewrite !Is_true_true, !Z.eqb_eq; auto).
  destruct (present pte) eqn:Ep; simpl; [|auto].
  destruct (_ =? _) eqn:E2; [|auto]. specialize (Hp eq_refl). f_equal. apply IH; auto.
  - by rewrite !tset_length.
  - by rewrite tset_length.
  - intros q Hq. rewrite !tget_tset by lia. destruct (decide _); [done|auto].
Qed.

Lemma missing_spec es : forall m,
  Z.of_nat (length m) = size -> in_range es ->
  NoDup (missing m es) /\
  forall p, p ∈ missing m es <->
    0 <= p < size /\ tget m p = INVALID_P2M_ENTRY /\
    exists pte, pte ∈ es /\ present pte = true /\ pte_pfn gw pte = p.
Proof.
  induction es as [|pte es IH]; intros m Hsz Hr; cbn [missing].
  { split; [constructor|]. intros p. rewrite elem_of_nil. split; [done|].
    intros (_ & _ & pte & He & _). by rewrite elem_of_nil in He. }
  apply Forall_cons in Hr as [Hp Hr]. pose proof (pte_pfn_nonneg pte) as Hnn.
  destruct (present pte && _) eqn:E.
  - apply andb_true_iff in E as [Ep E]. apply Z.eqb_eq in E. specialize (Hp Ep).
    destruct (IH (tset m (pte_pfn gw pte) 0)) as [Hnd Hin]; [by rewrite tset_length|done|].
    split.
    + constructor; [|done]. rewrite Hin. intros (_ & H & _).
      rewrite tget_tset, decide_True in H by lia. done.
    + intros p. rewrite elem_of_cons, Hin. split.
      * intros [->|(Hb & Hg & pte' & ? & ? & ?)].
        -- repeat split; auto; try lia. exists pte. split; [left|auto].
        -- rewrite tget_tset in Hg by lia. destruct (decide _); [done|].
           split_and!; auto; try lia. exists pte'. split; [by right|auto].
      * intros (Hb & Hg & pte' & [->|Hel]%elem_of_cons & Hpr & Hpf); [by left|].
        destruct (decide (p = pte_pfn gw pte)) as [|Hne]; [by left|right].
        split; [done|]. rewrite tget_tset, decide_False by (auto; lia). eauto.
  - destruct (IH m) as [Hnd Hin]; auto. split; [done|]. intros p. rewrite Hin.
    split; intros (Hb & Hg & pte' & Hel & Hpr & Hpf); split_and!; auto; try lia.
    + exists pte'. split; [by right|auto].
    + apply elem_of_cons in Hel as [->|Hel]; [|eauto].
      rewrite Hpr, Hpf, Hg in E. done.
Qed.

Lemma tget_mark_notin m ps p :
  0 <= p -> Forall (fun q => 0 <= q < Z.of_nat (length m)) ps -> p ∉ ps ->
  tget (mark m ps) p = tget m p.
Proof.
  unfold mark. revert m. induction ps as [|q ps IH]; intros m Hp Hf Hn; simpl; [done|].
  apply Forall_cons in Hf as [Hq Hf]. apply not_elem_of_cons in Hn as [Hne Hn].
  rewrite IH; auto; [|by rewrite tset_length]. rewrite tget_tset, decide_False by (auto; lia). done.
Qed.

Lemma mark_tset m ps p f :
  0 <= p -> Forall (fun q => 0 <= q) ps -> p ∉ ps ->
  mark (tset m p f) ps = tset (mark m ps) p f.
Proof.
  unfold mark. revert m. induction ps as [|q ps IH]; intros m Hp Hf Hn; simpl; [done|].
  apply Forall_cons in Hf as [Hq Hf]. apply not_elem_of_cons in Hn as [Hne Hn].
  rewrite tset_comm by lia. by apply IH.
Qed.

Lemma tget_assign_notin m ps fs p :
  0 <= p -> Forall (fun q => 0 <= q < Z.of_nat (length m)) ps -> p ∉ ps ->
  tget (assign m ps fs) p = tget m p.
Proof.
  revert m fs. induction ps as [|q ps IH]; intros m [|f fs] Hp Hf Hn; simpl; auto.
  apply Forall_cons in Hf as [Hq Hf]. apply not_elem_of_cons in Hn as [Hne Hn].
  rewrite IH; auto; [|by rewrite tset_length]. rewrite tget_tset, decide_False by (auto; lia). done.
Qed.

Lemma tget_assign_at m ps fs i p f :
  NoDup ps -> Forall (fun q => 0 <= q < Z.of_nat (length m)) ps ->
  ps !! i = Some p -> fs !! i = Some f -> tget (assign m ps fs) p = f.
Proof.
  revert m fs i. induction ps as [|q ps IH]; intros m [|g fs] [|i] Hnd Hf Hi Hj; simplify_eq/=;
    apply NoDup_cons in Hnd as [Hn Hnd]; apply Forall_cons in Hf as [Hq Hf].
  - rewrite tget_assign_notin; auto; [|lia|by rewrite tset_length].
    rewrite tget_tset, decide_True by (auto; lia). done.
  - eapply IH; eauto. by rewrite tset_length.
Qed.

Lemma write_at_insert (b : list Z) n x xs :
  (n + S (length xs) <= length b)%nat ->
  write_at (<[n := x]> b) (S n) xs = write_at b n (x :: xs).
Proof.
  intros H. assert (<[n := x]> b = write_at b n [x]) as ->.
  { unfold write_at. rewrite insert_take_drop by lia. do 2 f_equal. simpl. f_equal. lia. }
  change (x :: xs) with ([x] ++ xs). rewrite <- write_at_app by (simpl; lia).
  f_equal. simpl. lia.
Qed.

Lemma missing_range m es :
  Z.of_nat (length m) = size -> in_range es ->
  Forall (fun q => 0 <= q < Z.of_nat (length m)) (missing m es).
Proof.
  intros Hsz Hr. apply Forall_forall. intros p Hp.
  apply (missing_spec es m) in Hp as [? _]; auto. lia.
Qed.

Lemma missing_tset m es p f :
  Z.of_nat (length m) = size -> in_range es -> 0 <= p < size -> f <> INVALID_P2M_ENTRY ->
  missing (tset m p f) es = missing (tset m p 0) es.
Proof.
  intros Hsz Hr Hp Hf. apply missing_ext; rewrite ?tset_length; auto.
  intros q Hq. rewrite !tget_tset by lia. destruct (decide _); [|done]. by split.
Qed.

(** The first pass records the missing pfns and marks them in the table. *)
Lemma uncanon_pass1_ok es : forall m b nr,
  Z.of_nat (length m) = size -> in_range es ->
  (nr + length (missing m es) <= length b)%nat ->
  uncanon_pass1 gw size es (P2MState m b) nr =
    (true, P2MState (mark m (missing m es)) (write_at b nr (missing m es)),
     (nr + length (missing m es))%nat).
Proof.
  induction es as [|pte es IH]; intros m b nr Hsz Hr Hb; cbn [uncanon_pass1 missing].
  { unfold write_at. simpl. by rewrite Nat.add_0_r, take_drop. }
  apply Forall_cons in Hr as [Hp Hr]. pose proof (pte_pfn_nonneg pte) as Hnn.
  fold (present pte). cbn [missing] in Hb. destruct (present pte) eqn:Ep; cbn [negb andb] in *; [|by apply IH].
  specialize (Hp eq_refl). replace (pte_pfn gw pte >=? size) with false by lia.
  change (p2m_get (P2MState m b) (pte_pfn gw pte)) with (tget m (pte_pfn gw pte)).
  destruct (Z.eqb_spec (tget m (pte_pfn gw pte)) INVALID_P2M_ENTRY) as [E|E]; [|by apply IH].
  unfold batch_set, p2m_set, p2m_get. cbn [p2m p2m_batch].
  fold (tget m (pte_pfn gw pte)). rewrite E. change (u64 (INVALID_P2M_ENTRY - 1)) with (INVALID_P2M_ENTRY - 1).
  fold (tset m (pte_pfn gw pte) (INVALID_P2M_ENTRY - 1)). simpl in Hb.
  pose proof (missing_tset m es (pte_pfn gw pte) (INVALID_P2M_ENTRY - 1) Hsz Hr ltac:(lia) ltac:(done)) as Hm.
  rewrite IH; rewrite ?Hm, ?tset_length, ?length_insert; auto; [|lia].
  simpl. rewrite write_at_insert by lia. do 2 f_equal. lia.
Qed.

(** An entry out of range makes it fail. *)
Lemma uncanon_pass1_fail es : forall st nr,
  (uncanon_pass1 gw size es st nr).1.1 = true -> in_range es.
Proof.
  induction es as [|pte es IH]; intros st nr; cbn [uncanon_pass1]; [constructor|].
  fold (present pte). destruct (present pte) eqn:Ep; simpl.
  - destruct (_ >=? _) eqn:E; [done|].
    destruct (_ =? _); intros H%IH; constructor; auto; intros _; lia.
  - intros H%IH. constructor; [by rewrite Ep|done].
Qed.

(** Entries that are neither free nor marked. *)
Definition unmarked (m : list Z) : Prop :=
  forall p, 0 <= p < Z.of_nat (length m) -> tget m p <> INVALID_P2M_ENTRY - 1.

Definition real_frame (f : Z) : Prop := f <> INVALID_P2M_ENTRY /\ f <> INVALID_P2M_ENTRY - 1.

(** The second pass hands the allocated frames out in the same order. *)
Lemma uncanon_pass2_ok es : forall m b nr fs,
  Z.of_nat (length m) = size -> in_range es -> unmarked m ->
  length fs = length (missing m es) -> take (length fs) (drop nr b) = fs ->
  Forall real_frame fs ->
  uncanon_pass2 gw es (P2MState (mark m (missing m es)) b) nr =
    (localize (assign m (missing m es) fs) es, P2MState (assign m (missing m es) fs) b).
Proof.
  induction es as [|pte es IH]; intros m b nr fs Hsz Hr Hun Hlen Hb Hfs; [done|].
  pose proof Hr as Hr0. apply Forall_cons in Hr as [Hp Hr]. pose proof (pte_pfn_nonneg pte) as Hnn.
  pose proof (missing_range m (pte :: es) Hsz Hr0) as Hmr.
  pose proof (missing_spec (pte :: es) m Hsz Hr0) as [Hmnd Hmin].
  cbn [uncanon_pass2 missing localize fmap list_fmap] in *. fold (present pte).
  destruct (present pte) eqn:Ep; cbn [negb andb] in *.
  2: { rewrite (IH m b nr fs) by auto. done. }
  specialize (Hp eq_refl). set (p := pte_pfn gw pte) in *. unfold p2m_get. cbn [p2m].
  destruct (Z.eqb_spec (tget m p) INVALID_P2M_ENTRY) as [E|E].
  - destruct fs as [|f fs]; [done|]. simpl in Hlen.
    apply Forall_cons in Hfs as [[Hf1 Hf2] Hfs]. apply Forall_cons in Hmr as [_ Hmr].
    apply NoDup_cons in Hmnd as [Hni Hmnd].
    assert (drop nr b = f :: drop (S nr) b /\ take (length fs) (drop (S nr) b) = fs) as [Hd Ht].
    { destruct (drop nr b) as [|g r] eqn:Ed; [done|]. simpl in Hb. simplify_eq.
      assert (drop (S nr) b = r) as Hr'.
      { replace (S nr) with (nr + 1)%nat by lia. by rewrite <- drop_drop, Ed. }
      rewrite Hr', H0. auto. }
    assert (b !!! nr = f) as Hbn.
    { apply list_lookup_total_correct. rewrite <- (Nat.add_0_r nr), <- lookup_drop, Hd. done. }
    set (ms := missing (tset m p 0) es) in *.
    assert (missing (tset m p f) es = ms) as Hmf by (by apply missing_tset).
    assert (mark m (p :: ms) = tset (mark m ms) p (INVALID_P2M_ENTRY - 1)) as ->.
    { unfold mark at 1. simpl. fold (mark (tset m p (INVALID_P2M_ENTRY - 1)) ms).
      apply mark_tset; [done| |done]. eapply Forall_impl; [exact Hmr|]. simpl; lia. }
    fold (tget (tset (mark m ms) p (INVALID_P2M_ENTRY - 1)) p).
    rewrite tget_tset by (rewrite ?mark_length; lia). rewrite decide_True by done.
    rewrite Z.eqb_refl. unfold p2m_set. cbn [p2m p2m_batch].
    fold (tset (tset (mark m ms) p (INVALID_P2M_ENTRY - 1)) p (b !!! nr)).
    rewrite tset_tset, Hbn. fold (tget (tset (mark m ms) p f) p).
    rewrite tget_tset by (rewrite ?mark_length; lia). rewrite decide_True by done.
    rewrite <- (mark_tset m ms p f); [|done|eapply Forall_impl; [exact Hmr|]; simpl; lia|done].
    rewrite <- Hmf at 1. rewrite (IH (tset m p f) b (S nr) fs); rewrite ?Hmf, ?tset_length; auto.
    + simpl. rewrite tget_assign_notin; rewrite ?tset_length; auto.
      rewrite tget_tset, decide_True by lia. done.
    + intros q Hq. rewrite tset_length in Hq. rewrite tget_tset by lia.
      destruct (decide _); [done|]. apply Hun. lia.
  - assert (p ∉ missing m es) as Hni by (rewrite Hmin; intros (_ & ? & _); done).
    fold (tget (mark m (missing m es)) p). rewrite tget_mark_notin by auto.
    destruct (Z.eqb_spec (tget m p) (INVALID_P2M_ENTRY - 1)); [by destruct (Hun p); [lia|]|].
    cbn [p2m]. fold (tget (mark m (missing m es)) p). rewrite tget_mark_notin by auto.
    rewrite (IH m b nr fs) by auto. rewrite tget_assign_notin by auto. done.
Qed.

(** ** The whole receiver function *)

Context {A : Type} (populate : A -> list Z -> option (list Z) * A).

(** The hypervisor grants every request with as many distinct usable frames. *)
Definition grants : Prop := forall a ps, (length ps <= MAX_BATCH_SIZE)%nat -> exists fs a',
  NoDup fs /\ populate a ps = (Some fs, a') /\ length fs = length ps /\ Forall (frame_ok gw) fs.

Lemma frame_ok_real f : frame_ok gw f -> real_frame f.
Proof.
  pose proof (maddr_bits gw). unfold frame_ok, real_frame, INVALID_P2M_ENTRY, PAGE_SHIFT.
  assert (2 ^ (MADDR_BITS_X86 gw - 12) <= 2 ^ 40) by (apply Z.pow_le_mono_r; lia). lia.
Qed.

Lemma take_drop_write_at b fs :
  (length fs <= length b)%nat -> take (length fs) (drop 0 (write_at b 0 fs)) = fs.
Proof. intros. rewrite drop_0. by apply take_write_at. Qed.

Lemma missing_length m es : (length (missing m es) <= length es)%nat.
Proof.
  revert m. induction es as [|e es IH]; intros m; simpl; [done|].
  destruct (_ && _); simpl; [specialize (IH (tset m (pte_pfn gw e) 0))|specialize (IH m)]; lia.
Qed.

(** The frames come from one request to the hypervisor. *)
Lemma uncanonicalize_entries_alloc a m b es :
  grants -> Z.of_nat (length m) = size -> in_range es -> unmarked m ->
  length b = MAX_BATCH_SIZE -> (length es <= MAX_BATCH_SIZE)%nat ->
  exists fs b' a', length fs = length (missing m es) /\ Forall (frame_ok gw) fs /\
    uncanonicalize_entries gw size populate a (P2MState m b) es =
    (true, localize (assign m (missing m es) fs) es,
     P2MState (assign m (missing m es) fs) b', a') /\
    NoDup fs /\ length b' = length b.
Proof.
  intros Hg Hsz Hr Hun Hb Hes. pose proof (missing_length m es). unfold uncanonicalize_entries.
  rewrite uncanon_pass1_ok by (auto; lia). simpl.
  case_decide as Hnil.
  - apply length_zero_iff_nil in Hnil.
    assert (write_at b 0 (missing m es) = b) as -> by (rewrite Hnil; apply take_drop).
    rewrite (uncanon_pass2_ok es m b 0 []) by (rewrite ?Hnil; auto; constructor).
    exists [], b, a. rewrite Hnil. split_and!; auto. constructor.
  - destruct (Hg a (missing m es)) as (fs & a' & Hnf & E & Hl & Hfs); [lia|].
    rewrite take_write_at, E by lia. cbn [p2m p2m_batch].
    assert (length (write_at b 0 (missing m es)) = length b) as Hwl by (apply write_at_length; lia).
    rewrite (uncanon_pass2_ok es m _ 0 fs); auto.
    + exists fs, (write_at (write_at b 0 (missing m es)) 0 fs), a'. split_and!; eauto.
      rewrite write_at_length; lia.
    + apply take_drop_write_at. lia.
    + eapply Forall_impl; [exact Hfs|]. apply frame_ok_real.
Qed.

Lemma assign_valid m es fs p :
  Z.of_nat (length m) = size -> in_range es -> length fs = length (missing m es) ->
  Forall (frame_ok gw) fs -> 0 <= p < size ->
  p ∈ missing m es \/ frame_ok gw (tget m p) ->
  frame_ok gw (tget (assign m (missing m es) fs) p).
Proof.
  intros Hsz Hr Hl Hfs Hp Hor. pose proof (missing_range m es Hsz Hr) as Hmr.
  destruct (missing_spec es m Hsz Hr) as [Hnd Hin].
  destruct (decide (p ∈ missing m es)) as [Hm|Hm].
  - apply list_elem_of_lookup in Hm as [i Hi].
    destruct (lookup_lt_is_Some_2 fs i) as [f Hf]; [apply lookup_lt_Some in Hi; lia|].
    rewrite (tget_assign_at m _ fs i p f) by auto. by eapply Forall_lookup_1 in Hfs.
  - rewrite tget_assign_notin by (auto; lia). by destruct Hor.
Qed.

Lemma assign_distinct m es fs p q :
  Z.of_nat (length m) = size -> in_range es -> length fs = length (missing m es) ->
  Forall (frame_ok gw) fs -> NoDup fs -> p ∈ missing m es -> 0 <= q < size ->
  tget m q = INVALID_P2M_ENTRY -> q <> p ->
  tget (assign m (missing m es) fs) q <> tget (assign m (missing m es) fs) p.
Proof.
  intros Hsz Hr Hl Hfs Hnf Hp Hq Hqv Hne. pose proof (missing_range m es Hsz Hr) as Hmr.
  destruct (missing_spec es m Hsz Hr) as [Hnd Hin].
  apply list_elem_of_lookup in Hp as [i Hi].
  destruct (lookup_lt_is_Some_2 fs i) as [f Hf]; [apply lookup_lt_Some in Hi; lia|].
  rewrite (tget_assign_at m _ fs i p f) by auto.
  destruct (decide (q ∈ missing m es)) as [Hm|Hm].
  - apply list_elem_of_lookup in Hm as [j Hj].
    destruct (lookup_lt_is_Some_2 fs j) as [g Hg]; [apply lookup_lt_Some in Hj; lia|].
    rewrite (tget_assign_at m _ fs j q g) by auto. intros E. subst g.
    pose proof (NoDup_lookup fs i j f Hnf Hf Hg). congruence.
  - rewrite tget_assign_notin by (auto; lia). rewrite Hqv.
    eapply Forall_lookup_1 in Hfs; [|exact Hf]. apply frame_ok_real in Hfs as [Hfs _]. congruence.
Qed.

(** A pfn that a present entry names is missing or has a frame. *)
Lemma missing_or_valid m es pte :
  Z.of_nat (length m) = size -> in_range es ->
  (forall p, 0 <= p < size -> tget m p = INVALID_P2M_ENTRY \/ frame_ok gw (tget m p)) ->
  pte ∈ es -> present pte = true -> 0 <= pte_pfn gw pte < size ->
  pte_pfn gw pte ∈ missing m es \/ frame_ok gw (tget m (pte_pfn gw pte)).
Proof.
  intros Hsz Hr Hv Hin Hpr Hp. destruct (Hv _ Hp) as [E|]; [left|by right].
  apply (proj2 (missing_spec es m Hsz Hr)). eauto 6.
Qed.

Lemma valid_unmarked m :
  (forall p, 0 <= p < Z.of_nat (length m) ->
     tget m p = INVALID_P2M_ENTRY \/ frame_ok gw (tget m p)) -> unmarked m.
Proof. intros Hv p Hp. destruct (Hv p Hp) as [->|Hf%frame_ok_real]; [done|apply Hf]. Qed.

End Allocate.

(** ** The sender's entry *)

Definition l3_pae (ctx : save_ctx) (type : Z) : bool :=
  (pt_levels ctx =? 3) && (type =? XEN_DOMCTL_PFINFO_L3TAB).

(** The bits that the sender drops from a PAE L3 entry: RW, USER, ACCESSED. *)
Definition l3_flag (i : Z) : bool := (i =? 1) || (i =? 2) || (i =? 5).

Lemma testbit_l3_flags i :
  0 <= i -> Z.testbit (_PAGE_USER .| _PAGE_RW .| _PAGE_ACCESSED) i = l3_flag i.
Proof.
  intros Hi. change (_PAGE_USER .| _PAGE_RW .| _PAGE_ACCESSED) with ((1 .<< 2) .| (1 .<< 1) .| (1 .<< 5)).
  rewrite !Z.lor_spec, !testbit_pow2 by lia. unfold l3_flag.
  destruct (i =? 1), (i =? 2), (i =? 5); done.
Qed.

(** Dropping flags only when one of them is set is dropping them. *)
Lemma mask_if_set pte flags : 0 <= pte < 2 ^ 64 ->
  (if truthy (pte .& flags) then pte .& not_w 64 flags else pte) = pte .& not_w 64 flags.
Proof.
  intros Hp. unfold truthy. destruct (Z.eqb_spec (pte .& flags) 0) as [E|]; [simpl|done].
  apply Z.bits_inj'. intros i Hi. rewrite Z.land_spec, testbit_not_w by lia.
  assert (Z.testbit (pte .& flags) i = false) as Hb by (rewrite E; apply Z.testbit_0_l).
  rewrite Z.land_spec in Hb. destruct (Z.testbit pte i) eqn:Ei; [|done].
  simpl in Hb. rewrite Hb. simpl. destruct (Z.ltb_spec i 64); [done|].
  rewrite (testbit_high pte 64) in Ei by lia. done.
Qed.

(** Tables of the sender that are consistent with the width of the guest. *)
Record wf_ctx (ctx : save_ctx) : Prop := {
  wf_m2p : forall mfn, 0 <= live_m2p ctx mfn;
  wf_size : 0 < p2m_size ctx <= 2 ^ (MADDR_BITS_X86 (guest_width ctx) - PAGE_SHIFT)
}.

(** The pfn the sender writes for a frame. *)
Definition canon_pfn (ctx : save_ctx) (mfn : Z) : Z :=
  if MFN_IS_IN_PSEUDOPHYS_MAP ctx mfn then mfn_to_pfn ctx mfn else 0.

Lemma canon_pfn_range ctx mfn : wf_ctx ctx -> 0 <= canon_pfn ctx mfn < p2m_size ctx.
Proof.
  intros [Hm Hs]. unfold canon_pfn. destruct (MFN_IS_IN_PSEUDOPHYS_MAP ctx mfn) eqn:E; [|lia].
  unfold MFN_IS_IN_PSEUDOPHYS_MAP in E. pose proof (Hm mfn). unfold mfn_to_pfn in *. lia.
Qed.

Lemma canonicalize_pte_present ctx type xen i pte :
  wf_ctx ctx -> 0 <= pte < 2 ^ 64 -> ((i >=? xen.1) && (i <? xen.2) = false) ->
  present pte = true ->
  let gw := guest_width ctx in
  let mfn := pte_pfn gw pte in
  let '(pte', race) := canonicalize_pte ctx type xen i pte in
  0 <= pte' < 2 ^ 64 /\ present pte' = true /\ pte_pfn gw pte' = canon_pfn ctx mfn /\
  (race = false -> MFN_IS_IN_PSEUDOPHYS_MAP ctx mfn = true \/
                   (type = XEN_DOMCTL_PFINFO_L2TAB /\ gw < 8)) /\
  (forall k, 0 <= k -> k < 12 \/ MADDR_BITS_X86 gw <= k ->
    Z.testbit pte' k = Z.testbit pte k && negb (l3_pae ctx type && l3_flag k)).
Proof.
  intros Hwf Hp Hx Hpr gw mfn. unfold canonicalize_pte. rewrite Hx. fold (present pte). rewrite Hpr.
  fold gw. fold (pte_pfn gw pte). fold mfn.
  pose proof (canon_pfn_range ctx mfn Hwf) as Hcr. destruct Hwf as [Hm Hs]. fold gw in Hs.
  assert (frame_ok gw (canon_pfn ctx mfn)) as Hfo by (unfold frame_ok; lia).
  pose proof (maddr_bits gw) as Hmb.
  set (race := negb ((type =? XEN_DOMCTL_PFINFO_L2TAB) && (8 >? gw))).
  assert ((if negb (MFN_IS_IN_PSEUDOPHYS_MAP ctx mfn) then (0, race) else (mfn_to_pfn ctx mfn, false))
          = (canon_pfn ctx mfn, negb (MFN_IS_IN_PSEUDOPHYS_MAP ctx mfn) && race)) as ->
    by (unfold canon_pfn; by destruct (MFN_IS_IN_PSEUDOPHYS_MAP ctx mfn)).
  fold (set_frame gw pte (canon_pfn ctx mfn)). set (p1 := set_frame gw pte (canon_pfn ctx mfn)).
  pose proof (set_frame_range gw pte _ Hp Hfo) as Hp1. fold p1 in Hp1.
  set (flags := _PAGE_USER .| _PAGE_RW .| _PAGE_ACCESSED).
  assert ((if l3_pae ctx type && truthy (p1 .& flags) then p1 .& not_w 64 flags else p1) =
          if l3_pae ctx type then p1 .& not_w 64 flags else p1) as Hif
    by (destruct (l3_pae ctx type); [by apply mask_if_set|done]).
  unfold l3_pae in Hif. rewrite Hif. fold (l3_pae ctx type). clear Hif.
  set (p2 := if l3_pae ctx type then p1 .& not_w 64 flags else p1).
  assert (forall k, 0 <= k -> Z.testbit p2 k = Z.testbit p1 k && negb (l3_pae ctx type && l3_flag k)) as Hbit.
  { intros k Hk. unfold p2. destruct (l3_pae ctx type); simpl; [|by rewrite andb_true_r].
    rewrite Z.land_spec, testbit_not_w, testbit_l3_flags by lia.
    destruct (Z.ltb_spec k 64); [by destruct (l3_flag k)|].
    by rewrite (testbit_high p1 64) by lia. }
  assert (0 <= p2 < 2 ^ 64) as Hp2.
  { apply bounded_of_bits; [lia| |].
    - unfold p2. destruct (l3_pae ctx type); [apply Z.land_nonneg; lia|lia].
    - intros k Hk. rewrite Hbit, (testbit_high p1 64) by lia. done. }
  split_and!; try lia.
  - rewrite present_bit, Hbit by lia. change (l3_flag 0) with false.
    rewrite andb_false_r. cbn [negb]. rewrite andb_true_r.
    unfold p1. rewrite <- present_bit, set_frame_present; auto.
  - transitivity (pte_pfn gw p1); [|by apply set_frame_pfn].
    apply Z.bits_inj'. intros k Hk. rewrite !pte_pfn_bit, Hbit by lia. f_equal.
    unfold l3_flag. replace (k + 12 =? 1) with false by lia. replace (k + 12 =? 2) with false by lia.
    replace (k + 12 =? 5) with false by lia. simpl. by rewrite andb_false_r, andb_true_r.
  - unfold race. destruct (MFN_IS_IN_PSEUDOPHYS_MAP ctx mfn); [by left|]. simpl. intros Hr.
    right. lia.
  - intros k Hk Hr. rewrite Hbit by lia. unfold p1. by rewrite set_frame_flags.
Qed.

(** ** Pages and their entries *)

#[local] Arguments entries_page : simpl never.

Lemma entries_page_cons w e es : entries_page w (e :: es) = le_bytes w e ++ entries_page w es.
Proof. done. Qed.

Lemma entries_page_length w es : length (entries_page w es) = (length es * w)%nat.
Proof.
  induction es as [|e es IH]; [done|].
  rewrite entries_page_cons, length_app, le_bytes_length, IH. simpl. lia.
Qed.

Lemma word_at_entries_page w es i e :
  es !! i = Some e -> word_at w (entries_page w es) i = e mod 256 ^ Z.of_nat w.
Proof.
  intros Hi. unfold word_at. rewrite <- le_val_bytes. f_equal.
  revert i Hi. induction es as [|e' es IH]; intros [|i] Hi; simplify_eq/=.
  - rewrite Nat.mul_0_r, drop_0, entries_page_cons.
    apply take_app_length'. by rewrite le_bytes_length.
  - rewrite entries_page_cons.
    rewrite drop_app_ge by (rewrite le_bytes_length; lia). rewrite le_bytes_length.
    replace (w * S i - w)%nat with (w * i)%nat by lia. by apply IH.
Qed.

Lemma page_entries_length w page : length (page_entries w page) = (Z.to_nat PAGE_SIZE / w)%nat.
Proof. unfold page_entries. by rewrite length_fmap, length_seq. Qed.

Lemma words_entries_page w es :
  Forall (fun e => 0 <= e < 256 ^ Z.of_nat w) es ->
  word_at w (entries_page w es) <$> seq 0 (length es) = es.
Proof.
  intros Hf. apply list_eq. intros i. rewrite list_lookup_fmap.
  destruct (es !! i) as [e|] eqn:E.
  - rewrite lookup_seq_lt by (by eapply lookup_lt_Some). simpl.
    rewrite (word_at_entries_page w es i e) by done. f_equal.
    apply Z.mod_small. eapply Forall_lookup_1 in Hf; [|done]. done.
  - rewrite lookup_seq_ge; [done|]. by apply lookup_ge_None.
Qed.

Lemma page_entries_entries_page w es :
  length es = (Z.to_nat PAGE_SIZE / w)%nat ->
  Forall (fun e => 0 <= e < 256 ^ Z.of_nat w) es ->
  page_entries w (entries_page w es) = es.
Proof. intros Hl Hf. unfold page_entries. rewrite <- Hl. by apply words_entries_page. Qed.

Lemma canonicalize_pagetable_length ctx type page :
  length (canonicalize_pagetable ctx type page).2 = Z.to_nat PAGE_SIZE.
Proof.
  unfold canonicalize_pagetable. cbn [snd]. rewrite entries_page_length, length_fmap.
  unfold canonicalize_entries. rewrite length_imap, page_entries_length.
  unfold pte_width. by destruct (_ =? _).
Qed.

Lemma page_entries_range w page :
  Forall is_byte page -> Forall (fun e => 0 <= e < 256 ^ Z.of_nat w) (page_entries w page).
Proof.
  intros Hb. apply Forall_fmap, Forall_forall. intros i _. cbn. unfold word_at.
  pose proof (le_val_range (take w (drop (w * i) page)) ltac:(by apply Forall_take, Forall_drop)) as H.
  split; [lia|]. eapply Z.lt_le_trans; [apply H|]. apply Z.pow_le_mono_r; [lia|].
  rewrite length_take. lia.
Qed.

(** ** A whole table from the sender to the receiver *)

Section Migrate.
Context (ctx : save_ctx) (Hctx : wf_ctx ctx).
Context {A : Type} (populate : A -> list Z -> option (list Z) * A).
Let gw := guest_width ctx.
Let size := p2m_size ctx.

Definition in_hole (xen : Z * Z) (i : nat) : bool :=
  (Z.of_nat i >=? xen.1) && (Z.of_nat i <? xen.2).

Lemma canonicalize_pte_absent type xen i pte :
  in_hole xen i = true \/ present pte = false ->
  canonicalize_pte ctx type xen (Z.of_nat i) pte = (if in_hole xen i then 0 else pte, false).
Proof.
  unfold canonicalize_pte. fold (in_hole xen i). intros [->|Hp]; [done|].
  destruct (in_hole xen i); [done|]. fold (present pte). by rewrite Hp.
Qed.

Lemma canonicalize_pte_range type xen i pte :
  0 <= pte < 2 ^ 64 ->
  let p' := (canonicalize_pte ctx type xen (Z.of_nat i) pte).1 in
  0 <= p' < 2 ^ 64 /\ (present p' = true -> pte_pfn gw p' < size).
Proof.
  intros Hp. cbv zeta. destruct (in_hole xen i) eqn:Hh; [|destruct (present pte) eqn:Hpr].
  - rewrite canonicalize_pte_absent, Hh by auto. simpl. split; [lia|done].
  - pose proof (canonicalize_pte_present ctx type xen (Z.of_nat i) pte Hctx Hp Hh Hpr) as H.
    cbv zeta in H. destruct (canonicalize_pte _ _ _ _ _) as [p' r]. destruct H as (H1 & _ & H2 & _).
    simpl. split; [done|]. intros _. unfold gw. rewrite H2. apply canon_pfn_range, Hctx.
  - rewrite canonicalize_pte_absent, Hh by auto. simpl. rewrite Hpr. done.
Qed.

Lemma canonicalize_entries_range type xen es :
  Forall (fun e => 0 <= e < 2 ^ 64) es ->
  let es' := (canonicalize_entries ctx type xen es).*1 in
  Forall (fun e => 0 <= e < 2 ^ 64) es' /\ in_range gw size es'.
Proof.
  intros Hes. cbv zeta. unfold in_range. rewrite <- Forall_and. apply Forall_fmap, Forall_forall.
  intros [p' r] Hin. apply elem_of_lookup_imap in Hin as (i & pte & E & Hi).
  eapply Forall_lookup_1 in Hes; [|done].
  pose proof (canonicalize_pte_range type xen i pte Hes) as H. cbv zeta in H.
  rewrite <- E in H. done.
Qed.

Lemma existsb_false_lookup {B} (f : B -> bool) l i x :
  existsb f l = false -> l !! i = Some x -> f x = false.
Proof.
  revert i. induction l as [|y l IH]; intros [|i] H Hi; simplify_eq/=;
    apply orb_false_iff in H as [? ?]; eauto.
Qed.

(** The pages of a table with 8-byte entries. *)
Lemma pagetable_transfer type a m b spage page' :
  pt_levels ctx <> 2 -> Forall is_byte spage ->
  grants gw populate -> Z.of_nat (length m) = size -> unmarked m -> length b = MAX_BATCH_SIZE ->
  canonicalize_pagetable ctx type spage = (false, page') ->
  exists rpage fs m' b' a',
    uncanonicalize_pagetable gw size populate (pt_levels ctx) a (P2MState m b) page' =
      (true, rpage, P2MState m' b', a') /\
    let es := page_entries 8 spage in
    let ces := (canonicalize_entries ctx type (xen_range ctx type spage) es).*1 in
    existsb snd (canonicalize_entries ctx type (xen_range ctx type spage) es) = false /\
    length fs = length (missing gw m ces) /\ Forall (frame_ok gw) fs /\
    m' = assign m (missing gw m ces) fs /\
    rpage = entries_page 8 (localize gw m' ces).
Proof.
  intros Hlv Hby Hg Hm Hun Hb. unfold canonicalize_pagetable, uncanonicalize_pagetable.
  assert (pte_width (pt_levels ctx) = 8%nat) as ->
    by (unfold pte_width; by rewrite (proj2 (Z.eqb_neq _ _) Hlv)).
  set (es := page_entries 8 spage). set (cs := canonicalize_entries ctx type _ es).
  intros [Hrace <-]%pair_equal_spec.
  pose proof (canonicalize_entries_range type (xen_range ctx type spage) es
    (page_entries_range 8 spage Hby)) as [Hr1 Hr2]. fold cs in Hr1, Hr2.
  assert (length (cs.*1) = 512%nat) as Hl.
  { unfold cs, canonicalize_entries, es. rewrite length_fmap, length_imap, page_entries_length. done. }
  rewrite page_entries_entries_page by (rewrite ?Hl; done).
  destruct (uncanonicalize_entries_alloc gw size populate a m b (cs.*1)) as (fs & b' & a' & H1 & H2 & -> & _);
    auto; [rewrite Hl; unfold MAX_BATCH_SIZE; lia|].
  cbv beta iota. eexists _, fs, _, b', a'. split; [reflexivity|]. split_and!; auto.
Qed.

(** C4. A page-table page that the sender canonicalized without a
    race is rebuilt by the receiver: outside the hypervisor's hole every
    present entry points to the frame that the receiver's table gives to the
    pfn of the frame it pointed to, its other bits are unchanged (PAE L3
    entries lose RW, USER and ACCESSED), an absent entry is unchanged, and
    the hole is cleared.  Without a race the sender's pfn is the one whose
    machine frame was in the entry, L2 tables of 32-bit guests apart. *)
Theorem pagetable_migrates type a m b spage page' :
  pt_levels ctx <> 2 -> Forall is_byte spage ->
  grants gw populate -> Z.of_nat (length m) = size ->
  (forall p, 0 <= p < size -> tget m p = INVALID_P2M_ENTRY \/ frame_ok gw (tget m p)) ->
  length b = MAX_BATCH_SIZE ->
  canonicalize_pagetable ctx type spage = (false, page') ->
  exists rpage st' a',
    uncanonicalize_pagetable gw size populate (pt_levels ctx) a (P2MState m b) page' =
      (true, rpage, st', a') /\
    forall i pte, page_entries 8 spage !! i = Some pte ->
      let out := word_at 8 rpage i in
      let pfn := mfn_to_pfn ctx (pte_pfn gw pte) in
      if in_hole (xen_range ctx type spage) i then out = 0
      else if present pte then
        (MFN_IS_IN_PSEUDOPHYS_MAP ctx (pte_pfn gw pte) = true \/
           (type = XEN_DOMCTL_PFINFO_L2TAB /\ gw < 8)) /\
        (MFN_IS_IN_PSEUDOPHYS_MAP ctx (pte_pfn gw pte) = true ->
           pte_pfn gw out = p2m_get st' pfn /\ pfn_to_mfn ctx pfn = pte_pfn gw pte) /\
        (forall k, 0 <= k -> k < 12 \/ MADDR_BITS_X86 gw <= k ->
           Z.testbit out k = Z.testbit pte k && negb (l3_pae ctx type && l3_flag k))
      else out = pte.
Proof.
  intros Hlv Hby Hg Hm Hval Hb Hc.
  assert (unmarked m) as Hun by (apply (valid_unmarked gw); by rewrite Hm).
  destruct (pagetable_transfer type a m b spage page' Hlv Hby Hg Hm Hun Hb Hc)
    as (rpage & fs & m' & b' & a' & E & Hrace & Hlf & Hfs & Em & Er). cbv zeta in *.
  exists rpage, (P2MState m' b'), a'. split; [done|]. intros i pte Hi.
  pose proof (page_entries_range 8 spage Hby) as Hall. change (256 ^ Z.of_nat 8) with (2 ^ 64) in Hall.
  set (es := page_entries 8 spage) in *. set (xen := xen_range ctx type spage) in *.
  set (ces := (canonicalize_entries ctx type xen es).*1) in *.
  pose proof (canonicalize_entries_range type xen es Hall) as [_ Hr]. cbv zeta in Hr. fold ces in Hr.
  assert (forall p, 0 <= p < size -> p ∈ missing gw m ces \/ frame_ok gw (tget m p) -> frame_ok gw (tget m' p)) as Hm'
    by (intros p Hp Hor; subst m'; by apply (assign_valid gw size)).
  assert (ces !! i = Some (canonicalize_pte ctx type xen (Z.of_nat i) pte).1) as Hci
    by (unfold ces, canonicalize_entries; by rewrite list_lookup_fmap, list_lookup_imap, Hi).
  eapply Forall_lookup_1 in Hall; [|exact Hi]. cbn beta in Hall.
  subst rpage. erewrite word_at_entries_page by
    (unfold localize; rewrite list_lookup_fmap, Hci; reflexivity).
  change (256 ^ Z.of_nat 8) with (2 ^ 64).
  destruct (in_hole xen i) eqn:Hh; [|destruct (present pte) eqn:Hpr];
    [rewrite canonicalize_pte_absent, Hh by auto; done| |
     rewrite canonicalize_pte_absent, Hh by auto; cbn [fst]; rewrite Hpr; apply Z.mod_small; lia].
  pose proof (canonicalize_pte_present ctx type xen (Z.of_nat i) pte Hctx Hall Hh Hpr) as Hcp.
  assert ((canonicalize_pte ctx type xen (Z.of_nat i) pte).2 = false) as Hr2.
  { eapply existsb_false_lookup in Hrace; [exact Hrace|].
    unfold canonicalize_entries. by rewrite list_lookup_imap, Hi. }
  cbv zeta in Hcp. destruct (canonicalize_pte _ _ _ _ _) as [p' r]. cbn [fst snd] in *. subst r.
  destruct Hcp as (Hp' & Hpr' & Hpf & Hmap & Hfl). rewrite Hpr'.
  assert (frame_ok gw (tget m' (pte_pfn gw p'))) as Hfo.
  { apply Hm'; [unfold gw; rewrite Hpf; by apply canon_pfn_range|].
    apply (missing_or_valid gw size m ces p'); auto.
    - by eapply list_elem_of_lookup_2.
    - unfold gw. rewrite Hpf. by apply canon_pfn_range. }
  rewrite Z.mod_small by (by apply set_frame_range).
  split; [auto|split].
  - intros Hin. rewrite set_frame_pfn by done. unfold p2m_get. cbn [p2m]. fold (tget m' (mfn_to_pfn ctx (pte_pfn gw pte))).
    unfold gw in *. rewrite Hpf. unfold canon_pfn. rewrite Hin. split; [done|].
    unfold MFN_IS_IN_PSEUDOPHYS_MAP in Hin. lia.
  - intros k Hk Hor. rewrite set_frame_flags by done. by apply Hfl.
Qed.

End Migrate.

(** A guest with eight frames at machine frames 100..107, and an allocator
    that hands out the frames from 500 up. *)
Definition demo_ctx : save_ctx :=
  SaveCtx 0 4 1000 (fun p => p + 100)
    (fun m => if (100 <=? m) && (m <? 108) then m - 100 else 2 ^ 60) 0 8 8.
Definition demo_populate (a : unit) (ps : list Z) : option (list Z) * unit :=
  (Some (seqZ 500 (Z.of_nat (length ps))), a).
Definition demo_page : list Z :=
  entries_page 8 ([(105 .<< 12) .| 7; 0; (101 .<< 12) .| 3] ++ replicate 509 0).

Lemma demo_ctx_wf : wf_ctx demo_ctx.
Proof.
  split; [|done]. intros mfn. cbn. destruct (_ && _) eqn:E; lia.
Qed.

Lemma demo_grants : grants 8 demo_populate.
Proof.
  intros a ps Hps. eexists _, a. split; [apply NoDup_seqZ|]. split; [done|].
  split; [rewrite length_seqZ; lia|].
  apply Forall_forall. intros p Hp%elem_of_seqZ. unfold frame_ok, MAX_BATCH_SIZE in *.
  change (MADDR_BITS_X86 8 - PAGE_SHIFT) with 40. lia.
Qed.

Lemma demo_page_bytes : Forall is_byte demo_page.
Proof.
  unfold demo_page. generalize ([(105 .<< 12) .| 7; 0; (101 .<< 12) .| 3] ++ replicate 509 0).
  intros es. induction es as [|e es IH]; [constructor|].
  rewrite entries_page_cons. apply Forall_app. split; [apply le_bytes_bytes|done].
Qed.

Lemma pagetable_migrates_witness :
  exists rpage st' a',
    uncanonicalize_pagetable 8 8 demo_populate 4 tt
      (P2MState (replicate 8 INVALID_P2M_ENTRY) (replicate 1024 0))
      (canonicalize_pagetable demo_ctx XEN_DOMCTL_PFINFO_L1TAB demo_page).2
    = (true, rpage, st', a') /\
    pte_pfn 8 (word_at 8 rpage 0) = p2m_get st' 5.
Proof.
  destruct (pagetable_migrates demo_ctx demo_ctx_wf demo_populate XEN_DOMCTL_PFINFO_L1TAB tt
    (replicate 8 INVALID_P2M_ENTRY) (replicate 1024 0) demo_page
    (canonicalize_pagetable demo_ctx XEN_DOMCTL_PFINFO_L1TAB demo_page).2)
    as (rpage & st' & a' & E & H).
  - discriminate.
  - exact demo_page_bytes.
  - exact demo_grants.
  - reflexivity.
  - intros p Hp. left. unfold tget. apply list_lookup_total_correct, lookup_replicate_2.
    change (p2m_size demo_ctx) with 8 in Hp. lia.
  - reflexivity.
  - vm_compute. reflexivity.
  - exists rpage, st', a'. split; [exact E|].
    specialize (H 0%nat ((105 .<< 12) .| 7) ltac:(vm_compute; reflexivity)).
    apply H. vm_compute. reflexivity.
Defined.

(** ** Frames handed out *)

(** The receiver's table after a page-table page: pfns that had a
    frame keep it, a missing pfn that a present entry names gets one of the
    granted frames, two such pfns get different ones, and a pfn that no entry
    names stays unallocated.  Every present entry holds the frame of its pfn. *)
Theorem uncanonicalize_allocates gw size {A} (populate : A -> list Z -> option (list Z) * A) a m b es :
  grants gw populate ->
  Z.of_nat (length m) = size -> in_range gw size es -> unmarked m ->
  length b = MAX_BATCH_SIZE -> (length es <= MAX_BATCH_SIZE)%nat ->
  exists es' st' a',
    uncanonicalize_entries gw size populate a (P2MState m b) es = (true, es', st', a') /\
    es' = localize gw (p2m st') es /\ length (p2m st') = length m /\
    forall p, 0 <= p < size ->
      let named := exists pte, pte ∈ es /\ present pte = true /\ pte_pfn gw pte = p in
      (tget m p <> INVALID_P2M_ENTRY -> p2m_get st' p = tget m p) /\
      (tget m p = INVALID_P2M_ENTRY -> ~ named -> p2m_get st' p = INVALID_P2M_ENTRY) /\
      (tget m p = INVALID_P2M_ENTRY -> named ->
         frame_ok gw (p2m_get st' p) /\
         forall q, 0 <= q < size -> tget m q = INVALID_P2M_ENTRY -> q <> p ->
           p2m_get st' q <> p2m_get st' p).
Proof.
  intros Hg Hsz Hr Hun Hb Hes.
  destruct (uncanonicalize_entries_alloc gw size populate a m b es Hg Hsz Hr Hun Hb Hes)
    as (fs & b' & a' & Hl & Hfs & E & Hnf & _).
  pose proof (missing_range gw size m es Hsz Hr) as Hmr.
  destruct (missing_spec gw size es m Hsz Hr) as [Hnd Hin].
  eexists _, _, a'. split; [exact E|]. cbn [p2m]. split; [done|]. split; [apply assign_length|].
  intros p Hp. unfold p2m_get. cbn [p2m].
  fold (tget (assign m (missing gw m es) fs) p).
  split_and!.
  - intros Hv. apply tget_assign_notin; auto; [lia|]. rewrite Hin. by intros (_ & ? & _).
  - intros Hv Hn. rewrite tget_assign_notin; auto; [lia|]. rewrite Hin. by intros (_ & _ & ?).
  - intros Hv Hnm. assert (p ∈ missing gw m es) as Hmem by (apply Hin; auto).
    split; [apply (assign_valid gw size); auto|].
    intros q Hq Hqv Hne. fold (tget (assign m (missing gw m es) fs) q).
    apply (assign_distinct gw size m es fs p q); auto.
Qed.

Lemma uncanonicalize_allocates_witness :
  exists es' st' a',
    uncanonicalize_entries 8 8 demo_populate tt
      (P2MState (INVALID_P2M_ENTRY :: 77 :: replicate 6 INVALID_P2M_ENTRY) (replicate 1024 0))
      [(1 .<< 12) .| 1; (3 .<< 12) .| 1; (5 .<< 12) .| 1; (3 .<< 12) .| 7] = (true, es', st', a') /\
    p2m_get st' 1 = 77 /\ p2m_get st' 3 <> p2m_get st' 5.
Proof.
  destruct (uncanonicalize_allocates 8 8 demo_populate tt
    (INVALID_P2M_ENTRY :: 77 :: replicate 6 INVALID_P2M_ENTRY) (replicate 1024 0)
    [(1 .<< 12) .| 1; (3 .<< 12) .| 1; (5 .<< 12) .| 1; (3 .<< 12) .| 7])
    as (es' & st' & a' & E & _ & _ & H).
  - exact demo_grants.
  - reflexivity.
  - unfold in_range. repeat constructor; intros _; reflexivity.
  - intros p Hp. change (0 <= p < 8) in Hp.
    assert (p = 0 \/ p = 1 \/ p = 2 \/ p = 3 \/ p = 4 \/ p = 5 \/ p = 6 \/ p = 7) as Hc by lia.
    destruct Hc as [->|[->|[->|[->|[->|[->|[->| ->]]]]]]]; discriminate.
  - reflexivity.
  - unfold MAX_BATCH_SIZE. simpl. lia.
  - exists es', st', a'. split; [exact E|]. split.
    + apply (H 1); [lia|discriminate].
    + apply (H 5); [lia|reflexivity| |lia|reflexivity|discriminate].
      exists ((5 .<< 12) .| 1). split; [|split; reflexivity].
      right. right. left.
Defined.

(** ** A failed call leaves its marks behind *)

(** When a call stops at an entry out of range, the pfns it had
    already marked keep the mark and their place in [p2m_batch] is lost: a
    later call that succeeds resolves pfn 3 to whatever is in [p2m_batch],
    here the pfn number 2 of the failed call, and the following entries are
    shifted: no frame was requested for pfn 3. *)
Theorem uncanonicalize_bailout_leaves_mark :
  let st := P2MState (replicate 8 INVALID_P2M_ENTRY) (replicate 1024 0) in
  let '(ok1, _, st1, _) := uncanonicalize_entries 8 8 demo_populate tt st
    [(2 .<< 12) .| 1; (3 .<< 12) .| 1; (99 .<< 12) .| 1] in
  let '(ok2, es2, st2, _) := uncanonicalize_entries 8 8 demo_populate tt st1
    [(3 .<< 12) .| 1] in
  ok1 = false /\ p2m_get st1 3 = INVALID_P2M_ENTRY - 1 /\
  ok2 = true /\ p2m_get st2 3 = 2 /\ es2 = [(2 .<< 12) .| 1].
Proof. vm_compute. split_and!; reflexivity. Qed.

(** ** CR3 *)

(** A folded page-table base is recovered: for 64-bit guests while
    the frame number fits the 52 bits left by the fold, for 32-bit guests for
    every 32-bit frame number (its high bits wrap to the low end). *)
Lemma fold_unfold_cr3 guest_width c :
  0 <= c < (if guest_width =? 8 then 2 ^ 52 else 2 ^ 32) ->
  UNFOLD_CR3 guest_width (FOLD_CR3 guest_width c) = c.
Proof.
  unfold UNFOLD_CR3, FOLD_CR3. destruct (guest_width =? 8); intros Hc.
  - rewrite (u64_small c) by lia. rewrite u64_small by (rewrite Z.shiftl_mul_pow2; lia).
    rewrite Z.shiftr_shiftl_l by lia. apply Z.shiftl_0_r.
  - rewrite (u32_small c) by lia.
    assert (forall x i, 0 <= i -> Z.testbit (u32 x) i = Z.testbit x i && (i <? 32)) as Hu.
    { intros x i Hi. unfold u32. destruct (Z.ltb_spec i 32).
      - rewrite Z.mod_pow2_bits_low by lia. by rewrite andb_true_r.
      - rewrite Z.mod_pow2_bits_high by lia. by rewrite andb_false_r. }
    apply Z.bits_inj'. intros i Hi.
    repeat (rewrite ?Hu, ?Z.lor_spec, ?Z.shiftr_spec by lia).
    destruct (Z.ltb_spec i 32) as [Hlt|]; [|rewrite (testbit_high c 32 i) by lia].
    + destruct (Z.ltb_spec i 20).
      * rewrite !Z.shiftl_spec by lia. rewrite (Z.testbit_neg_r _ (i - 20)) by lia.
        replace (i + 12 - 12) with i by lia. replace (i + 12 <? 32) with true by lia.
        rewrite (testbit_high c 32 (i + 12 + 20)) by lia.
        by rewrite !andb_true_r, !orb_false_r.
      * replace (i + 12 <? 32) with false by lia. rewrite !andb_false_r. simpl.
        rewrite Z.shiftl_spec by lia. rewrite Hu, Z.lor_spec, Hu, Z.shiftr_spec, Z.shiftl_spec by lia.
        replace (i - 20 + 20) with i by lia. rewrite (Z.testbit_neg_r _ (i - 20 - 12)) by lia.
        replace (i - 20 <? 32) with true by lia. by rewrite !andb_true_r.
    + rewrite !andb_false_r. replace (i + 12 <? 32) with false by lia. by rewrite !andb_false_r.
Qed.

End PageTable.
