(* ===== verification/ListQueue.v ===== *)
(** The linked queues of the migration threads (tools/libxl/mc_migration_helper.c).

    The master and the slaves exchange work through circular doubly linked
    lists with a sentinel head: [send_argu_head] on the sender,
    [recv_pagebuf_head], [apply_queue_head] and [pagebuf_pool] on the receiver.
    Every operation runs from its lock to its unlock, so it is one step.  The
    memory of the list items is a store from addresses to items; an access
    through a pointer that is not allocated has no result ([None]).

    The file proves that the lists implement first-in first-out queues. *)

From S2P Require Import Prelude.

Module ListQueue.

Abbreviation ptr := nat (only parsing).

(** [struct list_item]; the payload pointer is an integer, 0 for [NULL]. *)
Record list_item := ListItem { item : Z; next : ptr; prev : ptr }.

Abbreviation heap := (gmap nat list_item).

Definition set_next (h : heap) (p q : ptr) : option heap :=
  match h !! p with
  | Some n => Some (<[p := ListItem (item n) q (prev n)]> h)
  | None => None
  end.

Definition set_prev (h : heap) (p q : ptr) : option heap :=
  match h !! p with
  | Some n => Some (<[p := ListItem (item n) (next n) q]> h)
  | None => None
  end.

Definition init_list_head (h : heap) (list_head : ptr) : Z * heap :=
  (0, <[list_head := ListItem 0 list_head list_head]> h).

(** Push as first item; [new] is the address [malloc] returned. *)
Definition list_enqueue (h : heap) (head new : ptr) (v : Z) : option heap :=
  hd ← h !! head;
  let h := <[new := ListItem v (next hd) head]> h in
  h ← set_prev h (next hd) new;
  set_next h head new.

(** Take the last item; [Some None] is the return value -1 for an empty list. *)
Definition list_dequeue (h : heap) (head : ptr) : option (option Z * heap) :=
  hd ← h !! head;
  if decide (next hd = head) then Some (None, h)
  else
    let it := prev hd in
    n ← h !! it;
    h ← set_prev h head (prev n);
    h ← set_next h (prev n) head;
    Some (Some (item n), delete it h).

(** ** The global queues *)

Record queues := Queues {
  q_heap : heap;
  send_argu_head : ptr;
  send_argu_head_cnt : Z;
  recv_pagebuf_head : ptr;
  apply_queue_head : ptr;
  pagebuf_pool : ptr
}.

Definition with_heap (q : queues) (h : heap) : queues :=
  Queues h (send_argu_head q) (send_argu_head_cnt q) (recv_pagebuf_head q)
         (apply_queue_head q) (pagebuf_pool q).

Section Ops.
(** [malloc]: an address for a new item. *)
Variable malloc : heap -> ptr.

Definition send_argu_enqueue (q : queues) (argu : Z) : option (Z * queues) :=
  h ← list_enqueue (q_heap q) (send_argu_head q) (malloc (q_heap q)) argu;
  Some (0, Queues h (send_argu_head q) (u64 (send_argu_head_cnt q + 1)) (recv_pagebuf_head q)
                  (apply_queue_head q) (pagebuf_pool q)).

Definition send_argu_dequeue (q : queues) : option (Z * option Z * queues) :=
  '(r, h) ← list_dequeue (q_heap q) (send_argu_head q);
  match r with
  | None => Some (-1, None, q)
  | Some argu =>
      Some (0, Some argu,
        Queues h (send_argu_head q) (u64 (send_argu_head_cnt q - 1)) (recv_pagebuf_head q)
               (apply_queue_head q) (pagebuf_pool q))
  end.

Definition recv_pagebuf_enqueue (q : queues) (pagebuf : Z) : option (Z * queues) :=
  h ← list_enqueue (q_heap q) (recv_pagebuf_head q) (malloc (q_heap q)) pagebuf;
  Some (0, with_heap q h).

Definition recv_pagebuf_dequeue (q : queues) : option (Z * option Z * queues) :=
  '(r, h) ← list_dequeue (q_heap q) (recv_pagebuf_head q);
  match r with
  | None => Some (-1, None, q)
  | Some pagebuf => Some (0, Some pagebuf, with_heap q h)
  end.

Definition apply_enqueue (q : queues) (argu : Z) : option (Z * queues) :=
  h ← list_enqueue (q_heap q) (apply_queue_head q) (malloc (q_heap q)) argu;
  Some (0, with_heap q h).

Definition apply_dequeue (q : queues) : option (Z * option Z * queues) :=
  '(r, h) ← list_dequeue (q_heap q) (apply_queue_head q);
  match r with
  | None => Some (-1, None, q)
  | Some argu => Some (0, Some argu, with_heap q h)
  end.

Definition pagebuf_pool_enqueue (q : queues) (pagebuf : Z) : option (Z * queues) :=
  h ← list_enqueue (q_heap q) (pagebuf_pool q) (malloc (q_heap q)) pagebuf;
  Some (0, with_heap q h).

Definition pagebuf_pool_dequeue (q : queues) : option (Z * option Z * queues) :=
  '(r, h) ← list_dequeue (q_heap q) (pagebuf_pool q);
  match r with
  | None => Some (-1, None, q)
  | Some pagebuf => Some (0, Some pagebuf, with_heap q h)
  end.

End Ops.

(** ** List segments *)

Definition nextof (h : heap) (p : ptr) : option ptr := next <$> h !! p.
Definition prevof (h : heap) (p : ptr) : option ptr := prev <$> h !! p.
Definition itemof (h : heap) (p : ptr) : option Z := item <$> h !! p.

(** The items [l] are linked, both ways, from [a] to [b]. *)
Fixpoint seg (h : heap) (a : ptr) (l : list (ptr * Z)) (b : ptr) : Prop :=
  match l with
  | [] => nextof h a = Some b /\ prevof h b = Some a
  | (p, v) :: l' =>
      nextof h a = Some p /\ prevof h p = Some a /\ itemof h p = Some v /\ seg h p l' b
  end.

(** The circular list at [head] holds the items [l], the first one pushed last. *)
Definition ring (h : heap) (head : ptr) (l : list (ptr * Z)) : Prop :=
  seg h head l head /\ NoDup (head :: l.*1).

(** A segment only depends on the links it consists of. *)
Lemma seg_frame h h' l : forall a b,
  (forall p, p ∈ a :: l.*1 -> nextof h' p = nextof h p) ->
  (forall p, p ∈ b :: l.*1 -> prevof h' p = prevof h p) ->
  (forall p, p ∈ l.*1 -> itemof h' p = itemof h p) ->
  seg h a l b -> seg h' a l b.
Proof.
  induction l as [|[p v] l IH]; intros a b Hn Hp Hi; cbn [seg].
  - intros [H1 H2]. rewrite Hn, Hp by (left). auto.
  - intros (H1 & H2 & H3 & H4). cbn [fmap list_fmap fst] in *.
    rewrite Hn by left. rewrite Hp by (right; left). rewrite Hi by left. split_and!; auto.
    apply IH; auto; intros q Hq.
    + apply Hn. by right.
    + apply Hp. apply elem_of_cons in Hq as [->|Hq]; [left|by right; right].
    + apply Hi. by right.
Qed.

Lemma seg_snoc h l : forall a b q v,
  seg h a (l ++ [(q, v)]) b <->
  seg h a l q /\ itemof h q = Some v /\ nextof h q = Some b /\ prevof h b = Some q.
Proof.
  induction l as [|[p w] l IH]; intros a b q v; cbn [app seg].
  - tauto.
  - rewrite IH. tauto.
Qed.

Lemma nextof_insert h p n q :
  nextof (<[p := n]> h) q = if decide (p = q) then Some (next n) else nextof h q.
Proof. unfold nextof. rewrite lookup_insert. by case_decide. Qed.

Lemma prevof_insert h p n q :
  prevof (<[p := n]> h) q = if decide (p = q) then Some (prev n) else prevof h q.
Proof. unfold prevof. rewrite lookup_insert. by case_decide. Qed.

Lemma itemof_insert h p n q :
  itemof (<[p := n]> h) q = if decide (p = q) then Some (item n) else itemof h q.
Proof. unfold itemof. rewrite lookup_insert. by case_decide. Qed.

Lemma links_delete h p q : p <> q ->
  nextof (delete p h) q = nextof h q /\ prevof (delete p h) q = prevof h q /\
  itemof (delete p h) q = itemof h q.
Proof. intros. unfold nextof, prevof, itemof. by rewrite lookup_delete_ne. Qed.

(** What the two link updates do, seen through the link functions. *)
Lemma set_next_spec h p q n : nextof h p = Some n ->
  exists h', set_next h p q = Some h' /\
    (forall r, nextof h' r = if decide (p = r) then Some q else nextof h r) /\
    (forall r, prevof h' r = prevof h r) /\ (forall r, itemof h' r = itemof h r) /\
    dom h' = dom h /\ (forall r, r <> p -> h' !! r = h !! r).
Proof.
  unfold set_next. intros Hn. destruct (h !! p) as [x|] eqn:E; [|by unfold nextof in Hn; rewrite E in Hn].
  eexists. split; [done|]. split_and!.
  - intros r. rewrite nextof_insert. done.
  - intros r. rewrite prevof_insert. unfold prevof. case_decide; [subst; by rewrite E|done].
  - intros r. rewrite itemof_insert. unfold itemof. case_decide; [subst; by rewrite E|done].
  - apply dom_insert_lookup_L. eauto.
  - intros r Hr. by rewrite lookup_insert_ne.
Qed.

Lemma set_prev_spec h p q n : prevof h p = Some n ->
  exists h', set_prev h p q = Some h' /\
    (forall r, prevof h' r = if decide (p = r) then Some q else prevof h r) /\
    (forall r, nextof h' r = nextof h r) /\ (forall r, itemof h' r = itemof h r) /\
    dom h' = dom h /\ (forall r, r <> p -> h' !! r = h !! r).
Proof.
  unfold set_prev. intros Hn. destruct (h !! p) as [x|] eqn:E; [|by unfold prevof in Hn; rewrite E in Hn].
  eexists. split; [done|]. split_and!.
  - intros r. rewrite prevof_insert. done.
  - intros r. rewrite nextof_insert. unfold nextof. case_decide; [subst; by rewrite E|done].
  - intros r. rewrite itemof_insert. unfold itemof. case_decide; [subst; by rewrite E|done].
  - apply dom_insert_lookup_L. eauto.
  - intros r Hr. by rewrite lookup_insert_ne.
Qed.

Lemma link_dom (h : heap) (p : ptr) {A} (f : list_item -> A) x : f <$> h !! p = Some x -> p ∈ dom h.
Proof. intros H. apply elem_of_dom. by destruct (h !! p); [eauto|]. Qed.

Lemma seg_dom h l : forall a b, seg h a l b -> forall p, p ∈ a :: b :: l.*1 -> p ∈ dom h.
Proof.
  induction l as [|[q v] l IH]; intros a b Hs p; cbn [seg fmap list_fmap fst] in *.
  - destruct Hs as [H1 H2]. apply link_dom in H1, H2. set_solver.
  - destruct Hs as (H1 & H2 & H3 & H4). apply link_dom in H1. pose proof (IH _ _ H4 p). set_solver.
Qed.

(** ** The operations on one list *)

Lemma list_enqueue_ok h head l new v :
  ring h head l -> new ∉ dom h ->
  exists h', list_enqueue h head new v = Some h' /\ ring h' head ((new, v) :: l) /\
    dom h' = {[new]} ∪ dom h /\ (forall r, r ∉ head :: new :: l.*1 -> h' !! r = h !! r).
Proof.
  intros [Hs Hnd] Hnew. pose proof (seg_dom _ _ _ _ Hs) as Hdom.
  assert (forall p, p ∈ head :: l.*1 -> p <> new) as Hne by (set_solver).
  unfold list_enqueue. destruct (h !! head) as [hd|] eqn:Ehd;
    [|by specialize (Hdom head ltac:(set_solver)); apply elem_of_dom in Hdom as [? ?]; congruence].
  cbn [mbind option_bind].
  assert (exists f, next hd = f /\ f ∈ head :: l.*1 /\ nextof h head = Some f /\ prevof h f = Some head)
    as (f & Ef & Hf & Hnf & Hpf).
  { assert (nextof h head = Some (next hd)) as E by (unfold nextof; by rewrite Ehd).
    exists (next hd). destruct l as [|[p w] l]; cbn [seg] in Hs;
      [destruct Hs as [H1 H2]|destruct Hs as (H1 & H2 & _)]; rewrite E in H1; injection H1 as H1;
      rewrite E, H1; (split_and!; [done|set_solver|done|done]). }
  rewrite Ef. clear Ef.
  destruct (set_prev_spec (<[new := ListItem v f head]> h) f new head)
    as (h2 & -> & P2 & N2 & I2 & D2 & F2).
  { rewrite prevof_insert, decide_False; [done|]. intros ->. by eapply Hne. }
  cbn [mbind option_bind].
  assert (new <> head /\ new <> f) as [Hnh Hnf'] by (split; intros ->; [eapply (Hne head)|eapply (Hne f)]; set_solver).
  destruct (set_next_spec h2 head new f) as (h3 & -> & N3 & P3 & I3 & D3 & F3).
  { rewrite N2, nextof_insert, decide_False by done. done. }
  assert (forall p, p <> new -> nextof h3 p = if decide (head = p) then Some new else nextof h p) as N.
  { intros p Hp. rewrite N3, N2, nextof_insert. case_decide; [done|]. by rewrite decide_False. }
  assert (forall p, p <> new -> prevof h3 p = if decide (f = p) then Some new else prevof h p) as P.
  { intros p Hp. rewrite P3, P2, prevof_insert. case_decide; [done|]. by rewrite decide_False. }
  assert (forall p, p <> new -> itemof h3 p = itemof h p) as I.
  { intros p Hp. rewrite I3, I2, itemof_insert. by rewrite decide_False. }
  exists h3. split; [done|]. split; [split|split].
  - cbn [seg]. rewrite N, decide_True by auto. split; [done|].
    rewrite P3, P2, decide_False, prevof_insert, decide_True by auto. split; [done|].
    rewrite I3, I2, itemof_insert, decide_True by auto. split; [done|].
    assert (nextof h3 new = Some f) as Nn
      by (rewrite N3, decide_False, N2, nextof_insert, decide_True by auto; done).
    destruct l as [|[p w] l]; cbn [seg fmap list_fmap fst] in *.
    + destruct Hs as [H1 H2]. rewrite Hnf in H1. simplify_eq. split; [done|].
      by rewrite P, decide_True by auto.
    + destruct Hs as (H1 & H2 & Hi & Hs). rewrite Hnf in H1. simplify_eq. split; [done|].
      rewrite P, decide_True by auto. split; [done|]. rewrite I by set_solver. split; [done|].
      apply NoDup_cons in Hnd as [Hh Hnd]. apply NoDup_cons in Hnd as [Hp Hnd].
      eapply seg_frame; [..|exact Hs]; intros q Hq.
      * rewrite N, decide_False by set_solver. done.
      * rewrite P, decide_False by set_solver. done.
      * rewrite I by set_solver. done.
  - cbn [fmap list_fmap fst]. apply NoDup_cons in Hnd as [Hh Hnd].
    constructor; [set_solver|]. constructor; [set_solver|done].
  - rewrite D3, D2, dom_insert_L. done.
  - intros r Hr. apply not_elem_of_cons in Hr as [Hr1 Hr]. apply not_elem_of_cons in Hr as [Hr2 Hr].
    rewrite F3, F2, lookup_insert_ne by (auto; intros ->; set_solver). done.
Qed.

Lemma list_dequeue_empty h head :
  ring h head [] -> list_dequeue h head = Some (None, h).
Proof.
  intros [[H1 H2] _]. unfold list_dequeue, nextof in *. destruct (h !! head) as [hd|]; [|done].
  simplify_eq/=. by rewrite decide_True.
Qed.

Lemma list_dequeue_ok h head l p v :
  ring h head (l ++ [(p, v)]) ->
  exists h', list_dequeue h head = Some (Some v, h') /\ ring h' head l /\
    dom h' = dom h ∖ {[p]} /\ (forall r, r ∉ head :: (l ++ [(p, v)]).*1 -> h' !! r = h !! r).
Proof.
  intros [Hs Hnd]. rewrite fmap_app in *. cbn [fmap list_fmap fst] in *. apply seg_snoc in Hs as (Hs & Hi & Hn & Hp).
  unfold list_dequeue. assert (exists hd, h !! head = Some hd /\ prev hd = p) as (hd & Ehd & Epr).
  { unfold prevof in Hp. destruct (h !! head) as [hd|]; [|done]. simplify_eq/=. eauto. }
  apply NoDup_cons in Hnd as [Hh Hnd]. apply NoDup_app in Hnd as (Hndl & Hpl & _).
  assert (p ∉ l.*1) as Hpl' by (intros H; eapply Hpl; [exact H|set_solver]).
  assert (p <> head) as Hph by set_solver.
  assert (next hd <> head) as Hne.
  { assert (nextof h head = Some (next hd)) as E by (unfold nextof; by rewrite Ehd).
    destruct l as [|[q w] l]; cbn [seg] in Hs; destruct Hs as [H1 _]; rewrite E in H1; simplify_eq; set_solver. }
  rewrite Ehd. cbn [mbind option_bind]. rewrite decide_False, Epr by done.
  destruct (h !! p) as [n|] eqn:En; [|by unfold itemof in Hi; rewrite En in Hi].
  unfold itemof in Hi. rewrite En in Hi. simplify_eq/=.
  set (a := prev n) in *.
  (* [a] is the item before the last one, or the head *)
  assert (a ∈ head :: l.*1 /\ nextof h a = Some (prev hd)) as [Ha Hna].
  { assert (prevof h (prev hd) = Some a) as E by (unfold prevof; by rewrite En).
    destruct l as [|[q w] l' _] using rev_ind.
    - cbn [seg] in Hs. destruct Hs as [H1 H2]. rewrite E in H2. simplify_eq. split; [left|congruence].
    - apply seg_snoc in Hs as (_ & _ & H1 & H2). rewrite E in H2. simplify_eq. split; [|congruence].
      rewrite fmap_app. set_solver. }
  destruct (set_prev_spec h head a (prev hd)) as (h2 & -> & P2 & N2 & I2 & D2 & F2); [done|].
  cbn [mbind option_bind].
  destruct (set_next_spec h2 a head (prev hd)) as (h3 & -> & N3 & P3 & I3 & D3 & F3); [by rewrite N2|].
  cbn [mbind option_bind]. eexists. split; [done|].
  assert (forall q, q <> prev hd -> nextof (delete (prev hd) h3) q = if decide (a = q) then Some head else nextof h q) as N.
  { intros q Hq. destruct (links_delete h3 (prev hd) q) as (-> & _); [done|]. by rewrite N3, N2. }
  assert (forall q, q <> prev hd -> prevof (delete (prev hd) h3) q = if decide (head = q) then Some a else prevof h q) as P.
  { intros q Hq. destruct (links_delete h3 (prev hd) q) as (_ & -> & _); [done|]. by rewrite P3, P2. }
  assert (forall q, q <> prev hd -> itemof (delete (prev hd) h3) q = itemof h q) as I.
  { intros q Hq. destruct (links_delete h3 (prev hd) q) as (_ & _ & ->); [done|]. by rewrite I3, I2. }
  split; [split|split].
  - destruct l as [|[q w] l _] using rev_ind.
    + cbn [seg fmap list_fmap] in *. assert (a = head) as Eah by set_solver.
      rewrite N, P by auto. rewrite Eah, !decide_True by auto. done.
    + apply seg_snoc in Hs as (Hs & Hiq & Hnq & Hpq).
      assert (a = q) as Eaq.
      { unfold prevof in Hpq. rewrite En in Hpq. by simplify_eq/=. }
      rewrite fmap_app in *. cbn [fmap list_fmap fst] in *.
      apply NoDup_app in Hndl as (Hndl & Hql & _).
      assert (q ∉ l.*1) as Hql' by (intros H; eapply Hql; [exact H|set_solver]).
      assert (q <> head) as Hqh by set_solver. assert (q <> prev hd) as Hqp by set_solver.
      rewrite seg_snoc. rewrite N, P, I, Eaq, !decide_True by auto. split_and!; auto.
      eapply seg_frame; [..|exact Hs]; intros r Hr.
      * rewrite N, decide_False by set_solver. done.
      * rewrite P, decide_False by set_solver. done.
      * rewrite I by set_solver. done.
  - constructor; [set_solver|done].
  - rewrite dom_delete_L, D3, D2. done.
  - intros r Hr. rewrite lookup_delete_ne by set_solver. rewrite F3, F2; [done|set_solver|].
    intros ->. set_solver.
Qed.

Lemma ring_frame h h' head l :
  (forall r, r ∈ head :: l.*1 -> h' !! r = h !! r) -> ring h head l -> ring h' head l.
Proof.
  intros Hf [Hs Hnd]. split; [|done]. eapply seg_frame; [..|exact Hs]; intros p Hp;
    unfold nextof, prevof, itemof; rewrite Hf; auto; by right.
Qed.

(** ** The queues as an abstract data type *)

Inductive qname := SendArgu | RecvPagebuf | ApplyQueue | PagebufPool.

#[global] Instance qname_eq_dec : EqDecision qname.
Proof. solve_decision. Defined.

Inductive qop := Enq (q : qname) (v : Z) | Deq (q : qname).

Definition head_of (st : queues) (q : qname) : ptr :=
  match q with
  | SendArgu => send_argu_head st
  | RecvPagebuf => recv_pagebuf_head st
  | ApplyQueue => apply_queue_head st
  | PagebufPool => pagebuf_pool st
  end.

(** The functions of the source, by queue. *)
Definition run_op (malloc : heap -> ptr) (op : qop) (st : queues) : option (Z * option Z * queues) :=
  match op with
  | Enq q v =>
      '(rc, st') ← match q with
                   | SendArgu => send_argu_enqueue malloc st v
                   | RecvPagebuf => recv_pagebuf_enqueue malloc st v
                   | ApplyQueue => apply_enqueue malloc st v
                   | PagebufPool => pagebuf_pool_enqueue malloc st v
                   end;
      Some (rc, None, st')
  | Deq q =>
      match q with
      | SendArgu => send_argu_dequeue st
      | RecvPagebuf => recv_pagebuf_dequeue st
      | ApplyQueue => apply_dequeue st
      | PagebufPool => pagebuf_pool_dequeue st
      end
  end.

Fixpoint run_ops (malloc : heap -> ptr) (ops : list qop) (st : queues)
  : option (list (Z * option Z) * queues) :=
  match ops with
  | [] => Some ([], st)
  | op :: ops' =>
      '(r, st1) ← run_op malloc op st;
      '(rs, st2) ← run_ops malloc ops' st1;
      Some (r :: rs, st2)
  end.

(** The specification: four lists of values, oldest first. *)
Definition spec_op (op : qop) (A : qname -> list Z) : (Z * option Z) * (qname -> list Z) :=
  match op with
  | Enq q v => ((0, None), fun q' => if decide (q' = q) then A q ++ [v] else A q')
  | Deq q =>
      match A q with
      | [] => ((-1, None), A)
      | v :: vs => ((0, Some v), fun q' => if decide (q' = q) then vs else A q')
      end
  end.

Fixpoint spec_ops (ops : list qop) (A : qname -> list Z) : list (Z * option Z) * (qname -> list Z) :=
  match ops with
  | [] => ([], A)
  | op :: ops' =>
      let '(r, A1) := spec_op op A in
      let '(rs, A2) := spec_ops ops' A1 in (r :: rs, A2)
  end.

(** The store represents the four queues: disjoint rings, newest item first,
    and the count of the send queue modulo the width of [unsigned long]. *)
Record rep (st : queues) (A : qname -> list Z) : Prop := {
  rep_lists : exists L : qname -> list (ptr * Z),
    (forall q, ring (q_heap st) (head_of st q) (L q) /\ (L q).*2 = reverse (A q)) /\
    (forall q q' p, q <> q' -> p ∈ head_of st q :: (L q).*1 -> p ∉ head_of st q' :: (L q').*1);
  rep_cnt : send_argu_head_cnt st = u64 (Z.of_nat (length (A SendArgu)))
}.

(** Replacing one ring, the others are untouched. *)
Lemma rep_update st st' A (L : qname -> list (ptr * Z)) q l vs :
  (forall q, ring (q_heap st) (head_of st q) (L q) /\ (L q).*2 = reverse (A q)) ->
  (forall q q' p, q <> q' -> p ∈ head_of st q :: (L q).*1 -> p ∉ head_of st q' :: (L q').*1) ->
  (forall q, head_of st' q = head_of st q) ->
  ring (q_heap st') (head_of st q) l -> l.*2 = reverse vs ->
  (forall p, p ∈ l.*1 -> p ∈ (L q).*1 \/ p ∉ dom (q_heap st)) ->
  (forall r, r ∈ dom (q_heap st) -> r ∉ head_of st q :: (L q).*1 -> q_heap st' !! r = q_heap st !! r) ->
  send_argu_head_cnt st' =
    u64 (Z.of_nat (length (if decide (SendArgu = q) then vs else A SendArgu))) ->
  rep st' (fun q' => if decide (q' = q) then vs else A q').
Proof.
  intros HL HD Hh Hr Hv Hnew Hfr Hc. split; [|done].
  assert (forall q' p, p ∈ head_of st q' :: (L q').*1 -> p ∈ dom (q_heap st)) as Hdom.
  { intros q' p Hp. destruct (HL q') as [[Hs _] _]. apply (seg_dom _ _ _ _ Hs). set_solver. }
  exists (fun q' => if decide (q' = q) then l else L q'). split.
  - intros q'. rewrite Hh. destruct (decide (q' = q)) as [->|Hne]; [done|].
    destruct (HL q') as [HR HV]. split; [|done].
    eapply ring_frame; [|exact HR]. intros r Hin. apply Hfr; [by eapply Hdom|].
    by eapply HD.
  - assert (forall q' p, q' <> q -> p ∈ head_of st q :: l.*1 -> p ∉ head_of st q' :: (L q').*1) as HD'.
    { intros q' p Hne Hp Hin. apply elem_of_cons in Hp as [->|Hp].
      - by eapply (HD q q'); [done|left|].
      - destruct (Hnew p Hp) as [Hp'|Hp']; [eapply (HD q q'); [done|by right|done]|].
        destruct Hp'. by eapply Hdom. }
    intros q1 q2 p Hne. rewrite !Hh.
    destruct (decide (q1 = q)) as [->|], (decide (q2 = q)) as [->|]; try done.
    + by apply HD'.
    + intros H1 H2. by eapply (HD' q1 p).
    + by apply HD.
Qed.

Lemma enqueue_refines st A malloc q v :
  (forall h, malloc h ∉ dom h) -> rep st A ->
  exists st', run_op malloc (Enq q v) st = Some (0, None, st') /\
    rep st' (fun q' => if decide (q' = q) then A q ++ [v] else A q').
Proof.
  intros Hm [(L & HL & HD) Hc]. destruct (HL q) as [HR HV].
  destruct (list_enqueue_ok (q_heap st) (head_of st q) (L q) (malloc (q_heap st)) v HR (Hm _))
    as (h' & E & HR' & _ & Hfr).
  assert (forall st', q_heap st' = h' -> (forall q, head_of st' q = head_of st q) ->
    send_argu_head_cnt st' = u64 (Z.of_nat (length (if decide (SendArgu = q) then A q ++ [v] else A SendArgu))) ->
    rep st' (fun q' => if decide (q' = q) then A q ++ [v] else A q')) as Hrep.
  { intros st' Hh Hhd Hcnt. apply (rep_update st st' A L q ((malloc (q_heap st), v) :: L q)); auto.
    - by rewrite Hh.
    - cbn. by rewrite HV, reverse_app.
    - intros p Hp. cbn in Hp. apply elem_of_cons in Hp as [->|Hp]; [right; apply Hm|by left].
    - intros r Hr Hnin. rewrite Hh. apply Hfr. specialize (Hm (q_heap st)). set_solver. }
  destruct q; cbn [run_op head_of] in *;
    unfold send_argu_enqueue, recv_pagebuf_enqueue, apply_enqueue, pagebuf_pool_enqueue;
    rewrite E; cbn [mbind option_bind]; eexists; (split; [reflexivity|]);
    apply Hrep; try done; try (by intros []).
  rewrite decide_True by done. cbn [send_argu_head_cnt]. rewrite Hc, length_app. unfold u64. rewrite Zplus_mod_idemp_l. f_equal. simpl. lia.
Qed.

Lemma dequeue_refines st A malloc q :
  rep st A ->
  let '(r, A') := spec_op (Deq q) A in
  exists st', run_op malloc (Deq q) st = Some (r, st') /\ rep st' A'.
Proof.
  intros Hrep. pose proof Hrep as [(L & HL & HD) Hc]. destruct (HL q) as [HR HV].
  cbn [spec_op]. destruct (A q) as [|v vs] eqn:EA.
  - assert (L q = []) as EL by (apply (fmap_nil_inv snd); by rewrite HV).
    rewrite EL in HR. apply list_dequeue_empty in HR. exists st. split; [|done].
    destruct q; cbn [run_op head_of] in *;
      unfold send_argu_dequeue, recv_pagebuf_dequeue, apply_dequeue, pagebuf_pool_dequeue;
      rewrite HR; done.
  - assert (exists l p, L q = l ++ [(p, v)] /\ l.*2 = reverse vs) as (l & p & EL & Hl).
    { rewrite reverse_cons in HV. apply fmap_app_inv in HV as (l & k & E1 & E2 & E3).
      symmetry in E2. apply fmap_cons_inv in E2 as ([p w] & k' & E2 & E4 & ->). symmetry in E4.
      apply fmap_nil_inv in E4 as ->. simplify_eq/=. eauto. }
    rewrite EL in HR. destruct (list_dequeue_ok _ _ _ _ _ HR) as (h' & E & HR' & _ & Hfr).
    assert (forall st', q_heap st' = h' -> (forall q, head_of st' q = head_of st q) ->
      send_argu_head_cnt st' = u64 (Z.of_nat (length (if decide (SendArgu = q) then vs else A SendArgu))) ->
      rep st' (fun q' => if decide (q' = q) then vs else A q')) as Hr.
    { intros st' Hh Hhd Hcnt. apply (rep_update st st' A L q l); auto.
      - by rewrite Hh.
      - intros r Hin. left. rewrite EL, fmap_app. set_solver.
      - intros r _ Hnin. rewrite Hh. apply Hfr. by rewrite <- EL. }
    destruct q; cbn [run_op head_of] in *;
      unfold send_argu_dequeue, recv_pagebuf_dequeue, apply_dequeue, pagebuf_pool_dequeue;
      rewrite E; cbn [mbind option_bind]; eexists; (split; [reflexivity|]);
      apply Hr; try done; try (by intros []).
    rewrite decide_True by done. cbn [send_argu_head_cnt]. rewrite Hc, EA. unfold u64. simpl length. rewrite <- Z.add_opp_r, Zplus_mod_idemp_l. f_equal. lia.
Qed.

(** The four lists as [init_list_head] leaves them. *)
Definition init_queues (a b c d : ptr) : queues :=
  Queues ((init_list_head ((init_list_head ((init_list_head ((init_list_head ∅ a).2) b).2) c).2) d).2)
         a 0 b c d.

Lemma init_rep a b c d : NoDup [a; b; c; d] -> rep (init_queues a b c d) (fun _ => []).
Proof.
  intros Hnd. assert (a <> b /\ a <> c /\ a <> d /\ b <> c /\ b <> d /\ c <> d) as Hne.
  { repeat (apply NoDup_cons in Hnd as [? Hnd]). set_solver. }
  split; [|done]. exists (fun _ => []). split.
  - intros q. split; [|done]. split; [|apply NoDup_singleton].
    unfold seg, nextof, prevof. destruct q; cbn; rewrite ?lookup_insert;
      repeat (case_decide; [naive_solver|]); naive_solver.
  - intros q q' p Hq. destruct q, q'; cbn; set_solver.
Qed.

(** C37. Any sequence of operations on the four queues, in any order,
    never follows a dangling pointer and returns what four first-in first-out
    queues would return: -1 exactly on an empty queue, otherwise the oldest
    item not yet taken; the queues do not disturb each other. *)
Theorem queues_fifo malloc ops a b c d :
  (forall h, malloc h ∉ dom h) -> NoDup [a; b; c; d] ->
  exists st', run_ops malloc ops (init_queues a b c d) =
    Some ((spec_ops ops (fun _ => [])).1, st') /\ rep st' (spec_ops ops (fun _ => [])).2.
Proof.
  intros Hm Hnd. pose proof (init_rep a b c d Hnd) as Hrep. revert Hrep.
  generalize (init_queues a b c d) as st. generalize (fun _ : qname => @nil Z) as A.
  induction ops as [|op ops IH]; intros A st Hrep; cbn [run_ops spec_ops]; [eauto|].
  assert (exists st1, run_op malloc op st = Some ((spec_op op A).1, st1) /\ rep st1 (spec_op op A).2)
    as (st1 & E & Hrep1).
  { destruct op as [q v|q].
    - by apply enqueue_refines.
    - pose proof (dequeue_refines st A malloc q Hrep) as H. by destruct (spec_op (Deq q) A). }
  destruct (spec_op op A) as [r A1]. cbn [fst snd] in *. rewrite E. cbn [mbind option_bind].
  destruct (IH A1 st1 Hrep1) as (st2 & E2 & Hrep2). rewrite E2. cbn [mbind option_bind].
  destruct (spec_ops ops A1) as [rs A2]. cbn [fst snd] in *. eauto.
Qed.

Lemma queues_fifo_witness :
  exists st', run_ops (fun h => fresh (dom h))
    [Enq SendArgu 5; Enq PagebufPool 9; Enq SendArgu 6; Deq SendArgu; Deq ApplyQueue; Deq SendArgu]
    (init_queues 1 2 3 4) =
    Some ([(0, None); (0, None); (0, None); (0, Some 5); (-1, None); (0, Some 6)], st').
Proof.
  destruct (queues_fifo (fun h => fresh (dom h))
    [Enq SendArgu 5; Enq PagebufPool 9; Enq SendArgu 6; Deq SendArgu; Deq ApplyQueue; Deq SendArgu]
    1 2 3 4) as (st' & E & _).
  - intros h. apply is_fresh.
  - apply (bool_decide_unpack _). vm_compute. exact I.
  - exists st'. exact E.
Defined.

End ListQueue.
