(* ===== verification/Dest.v ===== *)
(** Destinations on the command line.

    Models the text handling of tools/libxl/mc_migration_helper.c
    ([parse_dest_file], [rune_add_ips], [init_banner]) and the parsing of the
    receiver's arguments in [main_migrate_receive] (tools/libxl/xl_cmdimpl.c).
    The sender appends the addresses and ports of the slaves to the command it
    runs on the target; the receiver parses them back.

    Strings are lists of character codes without the final NUL.  A heap block
    carries its capacity, and an operation that writes past it sets a flag. *)

From S2P Require Import Prelude.

Module Dest.

Abbreviation bytes := (list Z).

Definition BUFFER_INIT_SIZE : Z := 10.

(** ** The standard library's number formats *)

(** The digits of [n], least significant last. *)
Fixpoint dec_aux (fuel : nat) (n : Z) (acc : bytes) : bytes :=
  match fuel with
  | O => acc
  | S f =>
      let acc := (48 + n mod 10) :: acc in
      if n / 10 =? 0 then acc else dec_aux f (n / 10) acc
  end.

(** [sprintf("%d")]; ten digits are enough for an [int]. *)
Definition sprintf_d (n : Z) : bytes :=
  if n <? 0 then 45 :: dec_aux 10 (- n) [] else dec_aux 10 n [].

Definition is_digit (c : Z) : bool := (48 <=? c) && (c <=? 57).

Fixpoint atoi_digits (s : bytes) (acc : Z) : Z :=
  match s with
  | c :: s' => if is_digit c then atoi_digits s' (acc * 10 + (c - 48)) else acc
  | [] => acc
  end.

Definition atoi (s : bytes) : Z :=
  match s with
  | 45 :: s' => - atoi_digits s' 0
  | _ => atoi_digits s 0
  end.

(** ** rune_add_ips *)

(** A growing string: its text, the size of its block, and whether a write
    went past the end of the block. *)
Record strbuf := StrBuf { txt : bytes; cap : Z; overrun : bool }.

Definition strlen (s : bytes) : Z := Z.of_nat (length s).

Definition strcat (a : strbuf) (s : bytes) : strbuf :=
  StrBuf (txt a ++ s) (cap a) (overrun a || (strlen (txt a) + strlen s + 1 >? cap a)).

Definition space : Z := 32.

(** The body of the outer loop: one destination with its ports. *)
Definition rune_add_dest (a : strbuf) (dest : bytes) (ports : list bytes) : strbuf :=
  let current := strlen dest + strlen (txt a) + 1 in
  let a := if current >? cap a then StrBuf (txt a) (current * 2) (overrun a) else a in
  let a := strcat a [space] in
  let a := strcat a dest in
  foldl (fun a port => strcat (strcat a [space]) port) a ports.

Fixpoint rune_add_dests (a : strbuf) (dests : list bytes) (ports : list (list bytes)) : strbuf :=
  match dests, ports with
  | d :: dests', ps :: ports' => rune_add_dests (rune_add_dest a d ps) dests' ports'
  | _, _ => a
  end.

(** The new rune and whether the text was written within its block. *)
Definition rune_add_ips (rune : bytes) (dests : list bytes) (ports : list (list bytes)) (port_cnt : Z)
  : bytes * bool :=
  let a := StrBuf [] BUFFER_INIT_SIZE false in
  let a := strcat a [space] in
  let a := strcat a (sprintf_d port_cnt) in
  let a := rune_add_dests a dests ports in
  (rune ++ [space] ++ txt a, negb (overrun a)).

(** ** The receiver's arguments *)

(** An argument is copied with [strcpy] into a block of [strlen] bytes: the
    copy, and the number of bytes written past the block. *)
Definition copy_arg (arg : bytes) : bytes * Z :=
  let blk := strlen arg in (arg, strlen arg + 1 - blk).

(** The loop over [argv]: each address is followed by [port_num] ports.
    Reading [argv] past its end has no result. *)
Fixpoint parse_ips (fuel : nat) (port_num : Z) (argv : list bytes)
  : option (list bytes * list (list bytes) * Z) :=
  match fuel with
  | O => None
  | S f =>
      match argv with
      | [] => Some ([], [], 0)
      | ip :: rest =>
          if Z.of_nat (length rest) <? port_num then None
          else
            let ip := copy_arg ip in
            let ps := copy_arg <$> take (Z.to_nat port_num) rest in
            '(ips, ports, past) ← parse_ips f port_num (drop (Z.to_nat port_num) rest);
            Some (ip.1 :: ips, ps.*1 :: ports, ip.2 + foldr Z.add 0 ps.*2 + past)
      end
  end.

(** What [main_migrate_receive] extracts from the arguments after the options:
    [port_num], [ip_num], the addresses and the ports, and the number of bytes
    the copies wrote out of bounds.  The arrays have [ip_num] slots; storing
    more addresses has no result. *)
Definition main_migrate_receive (argv : list bytes)
  : option (Z * Z * list bytes * list (list bytes) * Z) :=
  match argv with
  | [] => Some (0, 0, [], [], 0)
  | a0 :: rest =>
      let port_num := atoi a0 in
      let ip_num := Z.of_nat (length rest) / (1 + port_num) in
      '(ips, ports, past) ← parse_ips (S (length rest)) port_num rest;
      if Z.of_nat (length ips) <=? ip_num then Some (port_num, ip_num, ips, ports, past) else None
  end.

(** ** parse_dest_file *)

(** The lines are what [getline] returns, one by one; [ip_store] is an array
    of 8-byte pointers with [store_bytes] bytes.  The result is the array, the
    number of addresses and the final size of the array's block; a store past
    the end of the block has no result. *)
Fixpoint parse_dest_lines (fuel : nat) (lines : list bytes) (ip_store : list bytes)
    (store_cnt store_bytes : Z) : option (list bytes * Z * Z) :=
  match fuel with
  | O => None
  | S f =>
      let i := Z.of_nat (length ip_store) in
      if i <? store_cnt then
        match lines with
        | [] => Some (ip_store, i, store_bytes)
        | buf :: lines' =>
            if 8 * (i + 1) <=? store_bytes
            then parse_dest_lines f lines' (ip_store ++ [removelast buf]) store_cnt store_bytes
            else None
        end
      else
        parse_dest_lines f lines ip_store (store_cnt + BUFFER_INIT_SIZE)
                         (store_cnt + BUFFER_INIT_SIZE)
  end.

Definition parse_dest_file (file : option (list bytes)) : option (Z * list bytes * Z * Z) :=
  match file with
  | None => Some (-1, [], 0, 0)
  | Some lines =>
      '(ips, cnt, blk) ← parse_dest_lines (2 + 2 * length lines) lines [] BUFFER_INIT_SIZE
                                           (8 * BUFFER_INIT_SIZE);
      Some (0, ips, cnt, blk)
  end.

(** ** Banners *)

(** [banner_t]: a counter and, for a positive [count], a barrier. *)
Record banner := Banner { cnt : Z; barr : option Z }.

Definition init_banner (b : banner) (count : Z) : banner :=
  Banner 0 (if count >? 0 then Some count else barr b).

(** ** Numbers round trip *)

Lemma dec_aux_digits fuel : forall n acc,
  0 <= n -> n < 10 ^ Z.of_nat fuel -> (0 < fuel)%nat ->
  exists ds, dec_aux fuel n acc = ds ++ acc /\ Forall (fun c => is_digit c = true) ds /\ ds <> [] /\
    forall s a, atoi_digits (ds ++ s) a = atoi_digits s (a * 10 ^ Z.of_nat (length ds) + n).
Proof.
  induction fuel as [|f IH]; intros n acc Hn Hb Hf; [lia|]. cbn [dec_aux].
  assert (forall s a, atoi_digits ((48 + n mod 10) :: s) a = atoi_digits s (a * 10 + n mod 10)) as Hd.
  { intros s a. cbn [atoi_digits]. assert (is_digit (48 + n mod 10) = true) as ->
      by (unfold is_digit; zlia). f_equal. lia. }
  assert (is_digit (48 + n mod 10) = true) as Hdig by (unfold is_digit; zlia).
  destruct (Z.eqb_spec (n / 10) 0) as [E|E].
  - exists [48 + n mod 10]. split; [done|]. split; [by repeat constructor|]. split; [done|].
    intros s a. cbn [app length]. rewrite Hd. f_equal. zlia.
  - rewrite Nat2Z.inj_succ, Z.pow_succ_r in Hb by lia.
    assert (0 < f)%nat as Hf' by (destruct f; [simpl in Hb; zlia|lia]).
    destruct (IH (n / 10) ((48 + n mod 10) :: acc)) as (ds & E1 & E2 & E3 & E4); [zlia|zlia|done|].
    exists (ds ++ [48 + n mod 10]). split; [by rewrite E1, <- app_assoc|].
    split; [apply Forall_app; split; [done|by repeat constructor]|].
    split; [by destruct ds|]. intros s a. rewrite <- app_assoc, E4. cbn [app]. rewrite Hd.
    rewrite length_app, Nat2Z.inj_add, Z.pow_add_r by lia. f_equal. simpl length.
    change (10 ^ Z.of_nat 1) with 10. zlia.
Qed.

Lemma sprintf_d_digits n : 0 <= n < 10 ^ 10 ->
  Forall (fun c => is_digit c = true) (sprintf_d n) /\ sprintf_d n <> [] /\ atoi (sprintf_d n) = n.
Proof.
  intros Hn. unfold sprintf_d. replace (n <? 0) with false by lia.
  destruct (dec_aux_digits 10 n [] ltac:(lia) ltac:(simpl Z.of_nat; lia) ltac:(lia)) as (ds & -> & Hd & Hne & Ha).
  rewrite app_nil_r. split; [done|]. split; [done|].
  assert (atoi ds = atoi_digits ds 0) as ->.
  { destruct ds as [|c ds]; [done|]. apply Forall_cons in Hd as [Hc _]. unfold is_digit in Hc.
    unfold atoi. destruct c as [|[p|p|]|]; try done. do 5 (destruct p; try done). }
  specialize (Ha [] 0). rewrite app_nil_r in Ha. rewrite Ha. simpl. lia.
Qed.

(** ** The argument list round trip *)

(** The words of a command line, as the shell splits it. *)
Fixpoint words (s cur : bytes) : list bytes :=
  match s with
  | [] => match cur with [] => [] | _ => [cur] end
  | c :: s' =>
      if c =? space then match cur with [] => words s' [] | _ => cur :: words s' [] end
      else words s' (cur ++ [c])
  end.

(** A word: not empty, and without spaces. *)
Definition word (w : bytes) : Prop := w <> [] /\ Forall (fun c => c <> space) w.

Definition join (ws : list bytes) : bytes := concat ((fun w => space :: w) <$> ws).

Lemma words_token w : forall s cur,
  Forall (fun c => c <> space) w -> words (w ++ s) cur = words s (cur ++ w).
Proof.
  induction w as [|c w IH]; intros s cur Hw; [by rewrite app_nil_r|].
  apply Forall_cons in Hw as [Hc Hw]. cbn [app words].
  rewrite (proj2 (Z.eqb_neq c space) Hc), IH by done. by rewrite <- app_assoc.
Qed.

Lemma words_join ws : Forall word ws -> words (join ws) [] = ws.
Proof.
  enough (forall cur, Forall word ws -> words (join ws) cur = match cur with [] => ws | _ => cur :: ws end)
    as H by apply (H []).
  induction ws as [|w ws IH]; intros cur Hws; [by destruct cur|].
  apply Forall_cons in Hws as [[Hne Hw] Hws]. unfold join. cbn [fmap list_fmap concat app].
  fold (join ws). cbn [words]. change (space =? space) with true. cbv iota.
  rewrite (words_token w (join ws) []), app_nil_l, IH by done.
  destruct w; [done|]. by destruct cur.
Qed.

Lemma join_app l k : join (l ++ k) = join l ++ join k.
Proof. unfold join. by rewrite fmap_app, concat_app. Qed.

Lemma join_cons w ws : join (w :: ws) = space :: w ++ join ws.
Proof. done. Qed.

(** The words that stand for the destinations. *)
Fixpoint dest_words (dests : list bytes) (ports : list (list bytes)) : list bytes :=
  match dests, ports with
  | d :: dests', ps :: ports' => d :: ps ++ dest_words dests' ports'
  | _, _ => []
  end.

Lemma rune_add_dest_txt a d ps : txt (rune_add_dest a d ps) = txt a ++ join (d :: ps).
Proof.
  assert (forall a, txt (foldl (fun a port => strcat (strcat a [space]) port) a ps) = txt a ++ join ps) as H.
  { induction ps as [|p ps IH]; intros b; cbn [foldl]; [by rewrite app_nil_r|].
    rewrite IH. cbn [strcat txt]. rewrite join_cons, <- !app_assoc. done. }
  unfold rune_add_dest. rewrite H. cbn [strcat txt]. rewrite join_cons, <- !app_assoc.
  destruct (_ >? _); done.
Qed.

Lemma rune_add_dests_txt dests : forall a ports,
  txt (rune_add_dests a dests ports) = txt a ++ join (dest_words dests ports).
Proof.
  induction dests as [|d dests IH]; intros a [|ps ports]; cbn [rune_add_dests dest_words];
    try by rewrite app_nil_r.
  rewrite IH, rune_add_dest_txt, <- app_assoc, <- join_app. done.
Qed.

Lemma copy_args_fst ps : (copy_arg <$> ps).*1 = ps.
Proof. induction ps; simpl; f_equal; auto. Qed.

Lemma copy_args_past ps : foldr Z.add 0 (copy_arg <$> ps).*2 = Z.of_nat (length ps).
Proof.
  induction ps as [|p ps IH]; [done|]. cbn [fmap list_fmap foldr length copy_arg snd].
  rewrite IH. lia.
Qed.

Lemma parse_ips_dest_words port_num dests : forall ports fuel,
  0 <= port_num -> length ports = length dests ->
  Forall (fun ps => Z.of_nat (length ps) = port_num) ports ->
  (length (dest_words dests ports) < fuel)%nat ->
  parse_ips fuel port_num (dest_words dests ports) =
    Some (dests, ports, Z.of_nat (length (dest_words dests ports))) /\
  Z.of_nat (length (dest_words dests ports)) = Z.of_nat (length dests) * (1 + port_num).
Proof.
  induction dests as [|d dests IH]; intros [|ps ports] [|fuel] Hp Hl Hps Hf; try done; try (simpl in *; lia).
  apply Forall_cons in Hps as [Hn Hps]. cbn [dest_words length] in *. rewrite length_app in *.
  destruct (IH ports fuel Hp ltac:(lia) Hps ltac:(lia)) as [IH1 IH2].
  split; [|lia]. cbn [parse_ips].
  rewrite length_app, (proj2 (Z.ltb_ge _ port_num)) by lia.
  assert (Z.to_nat port_num = length ps) as -> by lia.
  rewrite take_app_length, drop_app_length, IH1. cbn [mbind option_bind copy_arg fst snd].
  rewrite copy_args_fst, copy_args_past. do 2 f_equal. lia.
Qed.

(** The receiver recovers the destinations that the sender appended
    to the command: the words after the command parse back to the number of
    ports, the addresses and their ports.  Each of the copied arguments is
    written one byte past its block. *)
Theorem rune_roundtrip rune dests ports port_cnt :
  0 <= port_cnt < 10 ^ 10 -> length ports = length dests ->
  Forall (fun ps => Z.of_nat (length ps) = port_cnt) ports ->
  Forall word dests -> Forall (Forall word) ports ->
  exists rest, (rune_add_ips rune dests ports port_cnt).1 = rune ++ space :: rest /\
    main_migrate_receive (words rest []) =
      Some (port_cnt, Z.of_nat (length dests), dests, ports,
            Z.of_nat (length dests) * (1 + port_cnt)).
Proof.
  intros Hp Hl Hps Hd Hpw. destruct (sprintf_d_digits port_cnt Hp) as (Hdig & Hne & Hatoi).
  exists (join (sprintf_d port_cnt :: dest_words dests ports)). split.
  - unfold rune_add_ips. cbn [fst]. rewrite rune_add_dests_txt. cbn [strcat txt app].
    rewrite join_cons. done.
  - assert (Forall word (dest_words dests ports)) as Hw.
    { clear Hl Hps. revert ports Hpw. induction Hd as [|d dests Hd1 _ IH]; intros [|ps ports] Hpw;
        cbn [dest_words]; auto. apply Forall_cons in Hpw as [Hps Hpw].
      constructor; [done|]. apply Forall_app. auto. }
    rewrite words_join.
    2: { constructor; [|done]. split; [done|]. eapply Forall_impl; [exact Hdig|].
         cbn. unfold is_digit, space. intros c Hc. lia. }
    unfold main_migrate_receive. rewrite Hatoi.
    destruct (parse_ips_dest_words port_cnt dests ports (S (length (dest_words dests ports))))
      as [-> E]; auto; [lia|]. cbn [mbind option_bind]. rewrite E, Z.div_mul by lia.
    by rewrite Z.leb_refl.
Qed.

Lemma rune_roundtrip_witness :
  exists rest,
    (rune_add_ips [120] [[49; 46; 50]; [51]] [[[52; 52]; [53]]; [[54]; [55]]] 2).1 = [120] ++ space :: rest /\
    main_migrate_receive (words rest []) = Some (2, 2, [[49; 46; 50]; [51]], [[[52; 52]; [53]]; [[54]; [55]]], 6).
Proof.
  apply (rune_roundtrip [120] [[49; 46; 50]; [51]] [[[52; 52]; [53]]; [[54]; [55]]] 2).
  - lia.
  - reflexivity.
  - repeat constructor.
  - repeat constructor; discriminate.
  - repeat constructor; discriminate.
Defined.

(** The block of the appended text is sized for the address only:
    the ports are not counted.  One address "10.0.0.1" with four ports is
    written past the end of the block, and so is an address that makes the
    text exactly as long as the block, without any port. *)
Theorem rune_add_ips_overruns :
  (rune_add_ips [] [[49; 48; 46; 48; 46; 48; 46; 49]] [replicate 4 [51; 51; 52; 52]] 4).2 = false /\
  (rune_add_ips [] [[49; 48; 46; 48; 46; 48; 46; 49]] [[[51; 51; 52; 52]]] 1).2 = true /\
  (rune_add_ips [] [[49; 46; 49; 46; 49; 46; 49]] [[]] 0).2 = false.
Proof. vm_compute. done. Qed.

(** ** The destination file *)

Lemma parse_dest_lines_short lines : forall ip_store store_cnt bytes fuel,
  Z.of_nat (length ip_store + length lines) < store_cnt -> 8 * store_cnt <= bytes ->
  (length lines < fuel)%nat ->
  parse_dest_lines fuel lines ip_store store_cnt bytes =
    Some (ip_store ++ (@removelast Z <$> lines), Z.of_nat (length ip_store + length lines), bytes).
Proof.
  induction lines as [|l lines IH]; intros st cnt bytes [|f] Hc Hb Hf; try (simpl in Hf; lia);
    cbn [parse_dest_lines length] in *; replace (Z.of_nat (length st) <? cnt) with true by lia.
  - cbn [fmap list_fmap]. by rewrite app_nil_r, Nat.add_0_r.
  - replace (8 * (Z.of_nat (length st) + 1) <=? bytes) with true by lia.
    rewrite IH by (rewrite ?length_app; simpl; lia). cbn [fmap list_fmap].
    rewrite <- app_assoc, length_app. do 3 f_equal. simpl. lia.
Qed.

(** Reading up to the tenth line with the first block. *)
Lemma parse_dest_lines_full lines : forall rest ip_store bytes fuel,
  Z.of_nat (length ip_store + length lines) = 10 -> 80 <= bytes ->
  parse_dest_lines (length lines + fuel) (lines ++ rest) ip_store 10 bytes =
    parse_dest_lines fuel rest (ip_store ++ (@removelast Z <$> lines)) 10 bytes.
Proof.
  induction lines as [|l lines IH]; intros rest st bytes fuel Hc Hb; [by rewrite app_nil_r|].
  cbn [parse_dest_lines length app Nat.add] in *. replace (Z.of_nat (length st) <? 10) with true by lia.
  replace (8 * (Z.of_nat (length st) + 1) <=? bytes) with true by lia.
  rewrite IH by (rewrite ?length_app; simpl; lia). by rewrite <- app_assoc.
Qed.

(** A file of up to nine lines is read completely, each line
    without its last character.  After the tenth line the array is reallocated
    to 20 bytes instead of 20 pointers: a file of exactly ten lines is returned
    in a block with room for two, and an eleventh line is stored out of bounds. *)
Theorem parse_dest_file_spec lines :
  ((length lines < 10)%nat ->
     parse_dest_file (Some lines) = Some (0, @removelast Z <$> lines, Z.of_nat (length lines), 80)) /\
  (length lines = 10%nat ->
     parse_dest_file (Some lines) = Some (0, @removelast Z <$> lines, 10, 20)) /\
  ((10 < length lines)%nat -> parse_dest_file (Some lines) = None).
Proof.
  unfold parse_dest_file, BUFFER_INIT_SIZE. split_and!.
  - intros H. rewrite parse_dest_lines_short by (simpl; lia). done.
  - intros H. rewrite H. change (2 + 2 * 10)%nat with (10 + 12)%nat.
    rewrite <- H at 1. rewrite <- (app_nil_r lines) at 2.
    rewrite parse_dest_lines_full by (simpl; lia).
    cbn [app]. cbn [parse_dest_lines]. rewrite length_fmap, H. done.
  - intros H. assert (length (take 10 lines) = 10%nat) as Hl by (rewrite length_take; lia).
    replace (2 + 2 * length lines)%nat with (10 + (2 * length lines - 8))%nat by lia.
    rewrite <- Hl at 1. rewrite <- (take_drop 10 lines) at 3.
    rewrite (parse_dest_lines_full (take 10 lines)) by (rewrite ?Hl; simpl length; lia).
    destruct (drop 10 lines) as [|l rest] eqn:E.
    { apply (f_equal length) in E. rewrite length_drop in E. simpl in E. lia. }
    destruct (2 * length lines - 8)%nat as [|[|f]] eqn:Ef; [lia|lia|].
    assert (length ([] ++ (@removelast Z <$> take 10 lines)) = 10%nat) as Hst
      by (cbn [app]; by rewrite length_fmap).
    generalize dependent ([] ++ (@removelast Z <$> take 10 lines)). intros st Hst.
    cbn [parse_dest_lines]. rewrite Hst. done.
Qed.

Lemma parse_dest_file_spec_witness :
  parse_dest_file (Some (replicate 11 [49; 10])) = None.
Proof. apply (parse_dest_file_spec (replicate 11 [49; 10])). simpl. lia. Defined.

End Dest.
