(* ===== verification/Handshake.v ===== *)
(** The migration handshake of the toolstack (tools/libxl/xl_cmdimpl.c).

    [migrate_domain] runs on the source host and [migrate_receive] on the
    target; they talk over two byte streams.  Each is a program: a tree of
    stream and domain operations with a continuation per result, in the order
    of the source, errors and early exits included.  A system of the two
    programs steps by interleaving; writes and reads may fail at any point, a
    failed write having sent any part of its message, and each domain
    operation may fail.

    The file proves that the domain never runs on both hosts, whatever fails. *)

From Stdlib Require Import Ascii String.
From S2P Require Import Prelude.
Open Scope Z_scope.

Module Handshake.

Abbreviation bytes := (list Z).

Fixpoint chars (s : string) : bytes :=
  match s with
  | EmptyString => []
  | String c s' => Z.of_N (N_of_ascii c) :: chars s'
  end.

(** ** Messages *)

(** Sent without the final NUL ([sizeof - 1]); the others with it. *)
Definition migrate_receiver_banner : bytes :=
  chars "xl migration receiver ready, send binary domain data." ++ [10].
Definition migrate_receiver_ready : bytes := chars "domain received, ready to unpause" ++ [0].
Definition migrate_permission_to_go : bytes :=
  chars "domain is yours, you are cleared to unpause" ++ [0].
Definition migrate_report : bytes := chars "my copy unpause results are as follows" ++ [0].

Definition ERROR_FAIL : Z := -3.
Definition ERROR_BADFAIL : Z := -7.
Definition ERROR_GUEST_TIMEDOUT : Z := -8.

(** ** Programs *)

Inductive domop :=
  StartSlaves | WriteConfig | Suspend | Resume | RenameAway | RenameBack | DestroyDom
| CreateDom | RenameFinal | Unpause.

Inductive prog :=
| PWrite (msg : bytes) (k : Z -> prog)          (* libxl_write_exactly *)
| PRead (n : nat) (k : option bytes -> prog)    (* libxl_read_exactly *)
| POp (o : domop) (k : Z -> prog)
| PExit (code : Z).

(** The macro [CHK_ERRNO]: only a negative result is an error. *)
Definition CHK_ERRNO (rc : Z) (k : prog) : prog := if rc <? 0 then PExit (- ERROR_FAIL) else k.

Definition migrate_read_fixedmessage (msg : bytes) (k : Z -> prog) : prog :=
  PRead (length msg) (fun r =>
    match r with
    | None => k ERROR_FAIL
    | Some buf => if decide (buf = msg) then k 0 else k ERROR_FAIL
    end).

(** ** The source host *)

Section Sender.
(** Whether the domain has a name ([common_domname]). *)
Variable named : bool.

Definition failed_suspend : prog := PExit (- ERROR_FAIL).
Definition failed_resume : prog := POp Resume (fun _ => PExit (- ERROR_FAIL)).
Definition failed_badly : prog := PExit (- ERROR_BADFAIL).

Definition s_destroy : prog := POp DestroyDom (fun _ => PExit 0).

Definition s_resume : prog := POp Resume (fun _ => PExit (- ERROR_FAIL)).
Definition s_back : prog := if named then POp RenameBack (fun _ => s_resume) else s_resume.

Definition s_perm : prog :=
  migrate_read_fixedmessage migrate_permission_to_go (fun rc =>
    if truthy rc then failed_badly else s_back).

Definition s_status : prog :=
  PRead 1 (fun r =>
    match r with
    | None => failed_badly
    | Some buf => if truthy (nth 0 buf 0) then s_perm else s_destroy
    end).

Definition s_report : prog :=
  migrate_read_fixedmessage migrate_report (fun rc =>
    if truthy rc then failed_badly else s_status).

Definition s_go : prog :=
  PWrite migrate_permission_to_go (fun rc => if truthy rc then failed_badly else s_report).

Definition s_rename : prog :=
  if named then POp RenameAway (fun rc => if truthy rc then failed_resume else s_go) else s_go.

Definition s_ready : prog :=
  migrate_read_fixedmessage migrate_receiver_ready (fun rc =>
    if truthy rc then failed_resume else s_rename).

Definition s_suspend : prog :=
  POp Suspend (fun rc =>
    if truthy rc
    then if rc =? ERROR_GUEST_TIMEDOUT then failed_suspend else failed_resume
    else s_ready).

Definition s_config : prog := POp WriteConfig (fun rc => CHK_ERRNO rc s_suspend).

(** [migrate_domain] from the point where the receiver process was started;
    the slaves are created before the result of the first read is looked at. *)
Definition migrate_domain : prog :=
  migrate_read_fixedmessage migrate_receiver_banner (fun rc =>
    POp StartSlaves (fun _ => if truthy rc then PExit (- rc) else s_config)).

End Sender.

(** ** The target host *)

Section Receiver.
(** Whether the domain was received under a temporary name. *)
Variable named : bool.

Definition r_perm : prog :=
  PWrite migrate_permission_to_go (fun rc2 =>
    if truthy rc2 then PExit (- ERROR_BADFAIL) else PExit 0).

Definition r_destroy : prog :=
  POp DestroyDom (fun rc2 => if truthy rc2 then PExit (- ERROR_BADFAIL) else r_perm).

(** [rc_buf = -rc] as a character, with the assertion that it did not lose
    an error. *)
Definition r_status (rc : Z) : prog :=
  let rc_buf := (- rc) mod 256 in
  if Bool.eqb (truthy rc_buf) (truthy rc) then
    PWrite [rc_buf] (fun rc2 =>
      if truthy rc2 then PExit (- ERROR_BADFAIL)
      else if truthy rc then r_destroy else PExit 0)
  else PExit 134.

Definition perhaps_destroy_notify_rc (rc : Z) : prog :=
  PWrite migrate_report (fun rc2 =>
    if truthy rc2 then PExit (- ERROR_BADFAIL) else r_status rc).

Definition r_unpause : prog := POp Unpause (fun rc => perhaps_destroy_notify_rc rc).

Definition r_rename : prog :=
  if named
  then POp RenameFinal (fun rc => if truthy rc then perhaps_destroy_notify_rc rc else r_unpause)
  else r_unpause.

Definition r_go : prog :=
  migrate_read_fixedmessage migrate_permission_to_go (fun rc =>
    if truthy rc then perhaps_destroy_notify_rc rc else r_rename).

Definition r_ready : prog :=
  PWrite migrate_receiver_ready (fun rc => if truthy rc then PExit (- rc) else r_go).

Definition r_create : prog := POp CreateDom (fun rc => if rc <? 0 then PExit (- rc) else r_ready).

(** [migrate_receive] from the point where every slave is ready. *)
Definition migrate_receive : prog :=
  PWrite migrate_receiver_banner (fun rc => CHK_ERRNO rc r_create).

End Receiver.

(** ** Executions *)

Inductive dom_state := NoDomain | Paused | Running | Suspended | Destroyed.

#[global] Instance dom_state_eq_dec : EqDecision dom_state.
Proof. solve_decision. Defined.

(** What a domain operation does to the copy of the domain on its host, and
    the result it returns.  A failed suspension may have stopped the domain,
    unless the guest timed out; [libxl_domain_resume] returns 0 even when the
    domain stays as it was. *)
Inductive opsem : domop -> dom_state -> Z -> dom_state -> Prop :=
| op_slaves d rc : opsem StartSlaves d rc d
| op_config d rc : opsem WriteConfig d rc d
| op_away d rc : opsem RenameAway d rc d
| op_back d rc : opsem RenameBack d rc d
| op_final d rc : opsem RenameFinal d rc d
| op_suspend d : opsem Suspend d 0 Suspended
| op_suspend_fail d rc : rc <> 0 -> opsem Suspend d rc d
| op_suspend_late d rc : rc <> 0 -> rc <> ERROR_GUEST_TIMEDOUT -> opsem Suspend d rc Suspended
| op_resume d : opsem Resume d 0 Running
| op_resume_fail d : opsem Resume d 0 d
| op_destroy d : opsem DestroyDom d 0 Destroyed
| op_destroy_fail d rc : rc <> 0 -> opsem DestroyDom d rc d
| op_create d rc : 0 <= rc -> opsem CreateDom d rc Paused
| op_create_fail d rc : rc < 0 -> opsem CreateDom d rc d
| op_unpause d : opsem Unpause d 0 Running
| op_unpause_fail d rc : rc <> 0 -> opsem Unpause d rc d.

(** A stream: everything written to it, and how much of it was read. *)
Record chan := Chan { sent : bytes; got : nat }.

(** One step of a program with its input, output and domain. *)
Inductive pstep : prog * chan * chan * dom_state -> prog * chan * chan * dom_state -> Prop :=
| step_write msg k i o d :
    pstep (PWrite msg k, i, o, d) (k 0, i, Chan (sent o ++ msg) (got o), d)
| step_write_fail msg k i o d part rc :
    part `prefix_of` msg -> 0 < rc ->
    pstep (PWrite msg k, i, o, d) (k rc, i, Chan (sent o ++ part) (got o), d)
| step_read n k i o d :
    (got i + n <= length (sent i))%nat ->
    pstep (PRead n k, i, o, d)
          (k (Some (take n (drop (got i) (sent i)))), Chan (sent i) (got i + n), o, d)
| step_read_fail n k i o d g :
    (got i <= g <= length (sent i))%nat ->
    pstep (PRead n k, i, o, d) (k None, Chan (sent i) g, o, d)
| step_op op k i o d rc d' :
    opsem op d rc d' -> pstep (POp op k, i, o, d) (k rc, i, o, d').

Record system := System {
  src : prog; dst : prog;
  to_dst : chan; to_src : chan;
  src_dom : dom_state; dst_dom : dom_state
}.

Inductive step : system -> system -> Prop :=
| step_src p q td ts sd dd p' ts' td' sd' :
    pstep (p, ts, td, sd) (p', ts', td', sd') ->
    step (System p q td ts sd dd) (System p' q td' ts' sd' dd)
| step_dst p q td ts sd dd q' td' ts' dd' :
    pstep (q, td, ts, dd) (q', td', ts', dd') ->
    step (System p q td ts sd dd) (System p q' td' ts' sd dd').

(** The source's domain runs, the target has none, nothing was sent. *)
Definition init (src_named dst_named : bool) : system :=
  System (migrate_domain src_named) (migrate_receive dst_named)
         (Chan [] 0) (Chan [] 0) Running NoDomain.

Definition reachable (a b : bool) : system -> Prop := rtc step (init a b).

(** ** Invariants *)

#[local] Arguments migrate_receiver_banner : simpl never.
#[local] Arguments migrate_receiver_ready : simpl never.
#[local] Arguments migrate_report : simpl never.
#[local] Arguments migrate_permission_to_go : simpl never.

Abbreviation B := migrate_receiver_banner.
Abbreviation R := migrate_receiver_ready.
Abbreviation P := migrate_report.
Abbreviation G := migrate_permission_to_go.

(** The sender consumed exactly [c] of the target's output [out]. *)
Definition consumed (out : bytes) (g : nat) (c : bytes) : Prop := g = length c /\ c `prefix_of` out.

Section Invariants.
Variables (a b : bool).

(** What holds of the source at each point; [go] is what it has sent, [out]
    the target's output and [g] how much of it was read. *)
Inductive sender_inv (go out : bytes) (g : nat) : prog -> dom_state -> Prop :=
| si_banner : go = [] -> consumed out g [] -> sender_inv go out g (migrate_domain a) Running
| si_slaves rc :
    go = [] -> (rc = 0 /\ consumed out g B) \/ rc = ERROR_FAIL ->
    sender_inv go out g (POp StartSlaves (fun _ => if truthy rc then PExit (- rc) else s_config a)) Running
| si_config : go = [] -> consumed out g B -> sender_inv go out g (s_config a) Running
| si_suspend : go = [] -> consumed out g B -> sender_inv go out g (s_suspend a) Running
| si_ready : go = [] -> consumed out g B -> sender_inv go out g (s_ready a) Suspended
| si_rename :
    go = [] -> consumed out g (B ++ R) ->
    sender_inv go out g (POp RenameAway (fun rc => if truthy rc then failed_resume else s_go a)) Suspended
| si_go : go = [] -> consumed out g (B ++ R) -> sender_inv go out g (s_go a) Suspended
| si_report : consumed out g (B ++ R) -> sender_inv go out g (s_report a) Suspended
| si_status : consumed out g (B ++ R ++ P) -> sender_inv go out g (s_status a) Suspended
| si_perm x : consumed out g (B ++ R ++ P ++ [x]) -> sender_inv go out g (s_perm a) Suspended
| si_back x :
    consumed out g (B ++ R ++ P ++ [x] ++ G) ->
    sender_inv go out g (POp RenameBack (fun _ => s_resume)) Suspended
| si_resume x : consumed out g (B ++ R ++ P ++ [x] ++ G) -> sender_inv go out g s_resume Suspended
| si_destroy : consumed out g (B ++ R ++ P ++ [0]) -> sender_inv go out g s_destroy Suspended
| si_failed_resume d : go = [] -> d = Running \/ d = Suspended -> sender_inv go out g failed_resume d
| si_exit_early d : go = [] -> d = Running \/ d = Suspended -> sender_inv go out g (PExit 3) d
| si_exit_bad : sender_inv go out g failed_badly Suspended
| si_exit_back x d :
    consumed out g (B ++ R ++ P ++ [x] ++ G) -> d = Running \/ d = Suspended ->
    sender_inv go out g (PExit 3) d
| si_exit_ok d :
    consumed out g (B ++ R ++ P ++ [0]) -> d = Suspended \/ d = Destroyed ->
    sender_inv go out g (PExit 0) d.

(** What holds of the target; [b0] is the part of the banner that was sent. *)
Inductive receiver_inv (go out : bytes) (g : nat) : prog -> dom_state -> Prop :=
| ri_banner : out = [] -> g = 0%nat -> receiver_inv go out g (migrate_receive b) NoDomain
| ri_create : out `prefix_of` B -> g = 0%nat -> receiver_inv go out g (r_create b) NoDomain
| ri_ready : out `prefix_of` B -> g = 0%nat -> receiver_inv go out g (r_ready b) Paused
| ri_go b0 : b0 `prefix_of` B -> out = b0 ++ R -> g = 0%nat -> receiver_inv go out g (r_go b) Paused
| ri_rename b0 :
    b0 `prefix_of` B -> out = b0 ++ R -> G `prefix_of` go ->
    receiver_inv go out g
      (POp RenameFinal (fun rc => if truthy rc then perhaps_destroy_notify_rc rc else r_unpause)) Paused
| ri_unpause b0 :
    b0 `prefix_of` B -> out = b0 ++ R -> G `prefix_of` go -> receiver_inv go out g r_unpause Paused
| ri_report b0 rc d :
    b0 `prefix_of` B -> out = b0 ++ R ->
    (rc = 0 /\ d = Running /\ G `prefix_of` go) \/ (rc <> 0 /\ d = Paused) ->
    receiver_inv go out g (perhaps_destroy_notify_rc rc) d
| ri_status b0 rc d :
    b0 `prefix_of` B -> out = b0 ++ R ++ P -> truthy ((- rc) mod 256) = truthy rc ->
    (rc = 0 /\ d = Running /\ G `prefix_of` go) \/ (rc <> 0 /\ d = Paused) ->
    receiver_inv go out g
      (PWrite [(- rc) mod 256] (fun rc2 =>
         if truthy rc2 then PExit (- ERROR_BADFAIL) else if truthy rc then r_destroy else PExit 0)) d
| ri_destroy b0 x :
    b0 `prefix_of` B -> x <> 0 -> out = b0 ++ R ++ P ++ [x] -> receiver_inv go out g r_destroy Paused
| ri_perm b0 x :
    b0 `prefix_of` B -> x <> 0 -> out = b0 ++ R ++ P ++ [x] -> receiver_inv go out g r_perm Destroyed
| ri_exit_none c : out `prefix_of` B -> receiver_inv go out g (PExit c) NoDomain
| ri_exit_running c b0 :
    b0 `prefix_of` B -> G `prefix_of` go -> out `prefix_of` b0 ++ R ++ P ++ [0] ->
    receiver_inv go out g (PExit c) Running
| ri_exit_paused c b0 x :
    b0 `prefix_of` B -> x <> 0 -> out `prefix_of` b0 ++ R ++ P ++ [x] ->
    receiver_inv go out g (PExit c) Paused
| ri_exit_destroyed c b0 x :
    b0 `prefix_of` B -> x <> 0 -> out `prefix_of` b0 ++ R ++ P ++ [x] ++ G ->
    receiver_inv go out g (PExit c) Destroyed.

(** The target may write while the source is anywhere. *)
Lemma sender_inv_mono go out out' g p d :
  out `prefix_of` out' -> sender_inv go out g p d -> sender_inv go out' g p d.
Proof.
  intros Hp H. assert (forall c, consumed out g c -> consumed out' g c) as Hc.
  { intros c [? ?]. split; [done|]. by etrans. }
  destruct H; try (by econstructor; eauto); econstructor; naive_solver.
Qed.

Lemma receiver_inv_mono go go' out g p d :
  go `prefix_of` go' -> receiver_inv go out g p d -> receiver_inv go' out g p d.
Proof.
  intros Hp H. assert (G `prefix_of` go -> G `prefix_of` go') as Hg by (intros; by etrans).
  destruct H; econstructor; eauto; naive_solver.
Qed.

(** Reading the next message after [c]. *)
Lemma read_next out g c n :
  consumed out g c -> (g + n <= length out)%nat ->
  length (take n (drop g out)) = n /\
  consumed out (g + n) (c ++ take n (drop g out)).
Proof.
  intros [-> [r ->]] Hn. rewrite drop_app_length. rewrite length_app in Hn.
  assert (length (take n r) = n) as Hl by (rewrite length_take; lia). split; [done|].
  split; [rewrite length_app; lia|]. rewrite <- (take_drop n r) at 2. rewrite app_assoc.
  apply prefix_app_r. done.
Qed.

(** Reading a fixed message: it arrived, or the result is an error. *)
Lemma read_fixed_step msg k c out g o d p' i' o' d' :
  consumed out g c ->
  pstep (migrate_read_fixedmessage msg k, Chan out g, o, d) (p', i', o', d') ->
  o' = o /\ d' = d /\ sent i' = out /\
  ((p' = k 0 /\ consumed out (got i') (c ++ msg)) \/ p' = k ERROR_FAIL).
Proof.
  intros Hc Hs. unfold migrate_read_fixedmessage in Hs. inversion Hs; subst; cbn [sent got] in *; auto.
  destruct (read_next out g c (length msg) Hc) as [_ Hc']; [done|].
  case_decide as E; [|auto]. rewrite E in Hc'. auto 6.
Qed.

Lemma op_step o k i c d p' i' c' d' :
  pstep (POp o k, i, c, d) (p', i', c', d') ->
  exists rc, i' = i /\ c' = c /\ p' = k rc /\ opsem o d rc d'.
Proof. inversion 1; subst. eauto 6. Qed.

Lemma write_step msg k i c d p' i' c' d' :
  pstep (PWrite msg k, i, c, d) (p', i', c', d') ->
  i' = i /\ d' = d /\ got c' = got c /\
  exists rc part, p' = k rc /\ sent c' = sent c ++ part /\ part `prefix_of` msg /\
    (rc = 0 /\ part = msg \/ 0 < rc).
Proof.
  inversion 1; subst; cbn; split_and!; auto.
  - exists 0, msg. split_and!; auto.
  - eexists _, _. split_and!; eauto.
Qed.

Ltac op_cases H :=
  apply op_step in H as (?rc & -> & -> & -> & ?Hop);
  match goal with Hop : opsem _ _ _ _ |- _ => inversion Hop; subst; clear Hop end;
  cbn [sent got]; split_and!; auto.

Lemma if_prog (c : bool) (Q : prog -> Prop) p q : Q p -> Q q -> Q (if c then p else q).
Proof. by destruct c. Qed.

Lemma truthy_false rc : truthy rc = false -> rc = 0.
Proof. unfold truthy. destruct (Z.eqb_spec rc 0); done. Qed.

Lemma truthy_true rc : truthy rc = true <-> rc <> 0.
Proof. unfold truthy. destruct (Z.eqb_spec rc 0); split; done. Qed.

Lemma sender_step go out g x p d p' i' o' d' :
  sender_inv go out g p d -> pstep (p, Chan out g, Chan go x, d) (p', i', o', d') ->
  sent i' = out /\ got o' = x /\ go `prefix_of` sent o' /\ sender_inv (sent o') out (got i') p' d'.
Proof.
  intros Hinv Hs. destruct Hinv.
  - eapply read_fixed_step in Hs as (-> & -> & <- & Hc); [|eassumption]. split_and!; auto.
    destruct Hc as [[-> Hc]| ->]; cbn [sent]; apply si_slaves; auto.
  - op_cases Hs. destruct (truthy rc) eqn:E.
    + destruct H0 as [[-> _]| ->]; [done|]. apply si_exit_early; auto.
    + apply truthy_false in E as ->. destruct H0 as [[_ Hc]|]; [by apply si_config|done].
  - unfold s_config in Hs. op_cases Hs. unfold CHK_ERRNO.
    destruct (rc <? 0); [apply si_exit_early|apply si_suspend]; auto.
  - unfold s_suspend in Hs. op_cases Hs.
    + by apply si_ready.
    + rewrite (proj2 (truthy_true rc)) by done. destruct (_ =? _);
        [apply si_exit_early|apply si_failed_resume]; auto.
    + rewrite (proj2 (truthy_true rc)) by done. destruct (_ =? _);
        [apply si_exit_early|apply si_failed_resume]; auto.
  - eapply read_fixed_step in Hs as (-> & -> & <- & Hc); [|eassumption]. split_and!; auto.
    destruct Hc as [[-> Hc]| ->]; cbn; [|apply si_failed_resume; auto].
    apply (if_prog a (fun p => sender_inv _ _ _ p _)); [by apply si_rename|by apply si_go].
  - op_cases Hs. destruct (truthy rc); [apply si_failed_resume|apply si_go]; auto.
  - apply write_step in Hs as (-> & -> & Hg & rc & part & -> & Hsent & _ & Hrc).
    cbn in Hg, Hsent. split_and!; auto; [rewrite Hsent; by apply prefix_app_r|].
    destruct Hrc as [[-> ->]|Hrc]; cbn [truthy Z.eqb negb].
    + by apply si_report.
    + rewrite (proj2 (truthy_true rc)) by lia. apply si_exit_bad.
  - eapply read_fixed_step in Hs as (-> & -> & <- & Hc); [|eassumption]. split_and!; auto.
    destruct Hc as [[-> Hc]| ->]; cbn; [|apply si_exit_bad].
    apply si_status. by rewrite <- app_assoc in Hc.
  - unfold s_status in Hs. inversion Hs; subst; cbn [sent got] in *; split_and!; auto; [|apply si_exit_bad].
    destruct (read_next out g (B ++ R ++ P) 1) as [Hl Hc]; [done..|].
    destruct (take 1 (drop g out)) as [|y [|]]; try done. cbn [nth].
    rewrite <- !app_assoc in Hc. destruct (truthy y) eqn:E; [by eapply si_perm|].
    apply truthy_false in E as ->. by apply si_destroy.
  - eapply read_fixed_step in Hs as (-> & -> & <- & Hc); [|eassumption]. split_and!; auto.
    destruct Hc as [[-> Hc]| ->]; cbn; [|apply si_exit_bad].
    rewrite <- !app_assoc in Hc. apply (if_prog a (fun p => sender_inv _ _ _ p _)); [by eapply si_back|by eapply si_resume].
  - op_cases Hs. by eapply si_resume.
  - unfold s_resume in Hs. op_cases Hs; eapply si_exit_back; eauto.
  - unfold s_destroy in Hs. op_cases Hs; apply si_exit_ok; auto.
  - unfold failed_resume in Hs. op_cases Hs; apply si_exit_early; auto.
  - inversion Hs.
  - inversion Hs.
  - inversion Hs.
  - inversion Hs.
Qed.

(** A partial write leaves a prefix of what a complete one leaves. *)
Lemma part_prefix (l m part rest : bytes) :
  part `prefix_of` m -> l ++ part `prefix_of` l ++ m ++ rest.
Proof. intros H. apply prefix_app. by apply prefix_app_r. Qed.

Lemma receiver_step go out g x p d p' i' o' d' :
  receiver_inv go out g p d -> pstep (p, Chan go g, Chan out x, d) (p', i', o', d') ->
  sent i' = go /\ got o' = x /\ out `prefix_of` sent o' /\ receiver_inv go (sent o') (got i') p' d'.
Proof.
  intros Hinv Hs. destruct Hinv.
  - apply write_step in Hs as (-> & -> & Hg & rc & part & -> & Hsent & Hpart & Hrc).
    subst out. cbn in *. subst part. split_and!; auto; [by apply prefix_nil|].
    unfold CHK_ERRNO. destruct (rc <? 0); [by apply ri_exit_none|by apply ri_create].
  - unfold r_create in Hs. op_cases Hs.
    + replace (rc <? 0) with false by lia. by apply ri_ready.
    + replace (rc <? 0) with true by lia. by apply ri_exit_none.
  - apply write_step in Hs as (-> & -> & Hg & rc & part & -> & Hsent & Hpart & Hrc).
    cbn in *. rewrite Hsent. split_and!; auto; [by apply prefix_app_r|].
    destruct Hrc as [[-> ->]|Hrc]; [by eapply ri_go|].
    rewrite (proj2 (truthy_true rc)) by lia. eapply (ri_exit_paused _ _ _ _ out 1); [done|done|].
    by apply part_prefix.
  - eapply (read_fixed_step _ _ []) in Hs as (-> & -> & <- & Hc); [|split; [done|apply prefix_nil]].
    cbn [sent got]. split_and!; auto. destruct Hc as [[-> [_ Hc]]| ->]; cbn.
    + apply (if_prog b (fun p => receiver_inv _ _ _ p _)); [by eapply ri_rename|by eapply ri_unpause].
    + eapply ri_report; eauto.
  - op_cases Hs. destruct (truthy rc) eqn:E; [|by eapply ri_unpause].
    apply truthy_true in E. eapply ri_report; eauto.
  - unfold r_unpause in Hs. op_cases Hs; eapply ri_report; eauto.
  - apply write_step in Hs as (-> & -> & Hg & rc' & part & -> & Hsent & Hpart & Hrc).
    cbn in *. rewrite Hsent. split_and!; auto; [by apply prefix_app_r|]. subst out.
    assert (receiver_inv go ((b0 ++ R) ++ part) g (PExit 7) d) as Hex.
    { destruct H1 as [(-> & -> & HG)|[Hr ->]].
      - eapply ri_exit_running; eauto. rewrite app_assoc. by apply part_prefix.
      - eapply (ri_exit_paused _ _ _ _ b0 1); eauto. rewrite app_assoc. by apply part_prefix. }
    destruct Hrc as [[-> ->]|Hrc]; [|by rewrite (proj2 (truthy_true rc')) by lia].
    cbn. unfold r_status. rewrite <- app_assoc.
    destruct (Bool.eqb _ _) eqn:E; [apply eqb_prop in E; by eapply ri_status|].
    destruct H1 as [(-> & _)|[Hr ->]]; [done|].
    eapply (ri_exit_paused _ _ _ _ b0 1); [done|done|]. rewrite !app_assoc. apply prefix_app_r. done.
  - apply write_step in Hs as (-> & -> & Hg & rc' & part & -> & Hsent & Hpart & Hrc).
    cbn in *. rewrite Hsent. split_and!; auto; [by apply prefix_app_r|]. subst out.
    rewrite <- !app_assoc. destruct H2 as [(-> & -> & HG)|[Hr ->]].
    + cbn in *. destruct (truthy rc'); eapply ri_exit_running; eauto; by do 3 apply prefix_app.
    + rewrite (proj2 (truthy_true rc)) in * by done. apply truthy_true in H1.
      destruct Hrc as [[-> ->]|Hrc]; [by apply (ri_destroy _ _ _ b0 ((- rc) mod 256))|].
      rewrite (proj2 (truthy_true rc')) by lia.
      apply (ri_exit_paused _ _ _ _ b0 ((- rc) mod 256)); auto. by do 3 apply prefix_app.
  - unfold r_destroy in Hs. op_cases Hs; [by eapply ri_perm|].
    rewrite (proj2 (truthy_true rc)) by done. by apply (ri_exit_paused _ _ _ _ b0 x0); subst.
  - apply write_step in Hs as (-> & -> & Hg & rc' & part & -> & Hsent & Hpart & Hrc).
    cbn in *. rewrite Hsent. split_and!; auto; [by apply prefix_app_r|]. subst out.
    rewrite <- !app_assoc. destruct (truthy rc'); apply (ri_exit_destroyed _ _ _ _ b0 x0); auto;
      do 3 apply prefix_app; by apply prefix_cons.
  - inversion Hs.
  - inversion Hs.
  - inversion Hs.
  - inversion Hs.
Qed.

(** ** Reachable systems *)

Record system_inv (s : system) : Prop := {
  inv_src : sender_inv (sent (to_dst s)) (sent (to_src s)) (got (to_src s)) (src s) (src_dom s);
  inv_dst : receiver_inv (sent (to_dst s)) (sent (to_src s)) (got (to_dst s)) (dst s) (dst_dom s)
}.

Lemma system_step_inv s s' : system_inv s -> step s s' -> system_inv s'.
Proof.
  intros [Hs Hd] Hst. destruct Hst as [p q [go x] [out g] sd dd p' ts' td' sd' H|p q [go g] [out x] sd dd q' td' ts' dd' H];
    cbn in *.
  - eapply sender_step in H as (H1 & H2 & H3 & H4); [|done]. split; cbn; [by rewrite H1|].
    rewrite H1, H2. by eapply receiver_inv_mono.
  - eapply receiver_step in H as (H1 & H2 & H3 & H4); [|done]. split; cbn; [|by rewrite H1].
    rewrite H1, H2. by eapply sender_inv_mono.
Qed.

Lemma reachable_system_inv s : reachable a b s -> system_inv s.
Proof.
  intros H. assert (system_inv (init a b)) as Hi.
  { split; [apply si_banner|apply ri_banner]; done. }
  induction H as [|s1 s2 s3 Hst _ IH]; [done|]. apply IH. by eapply system_step_inv.
Qed.

(** A banner that was cut short is not taken for the banner, whatever
    follows it. *)
Lemma banner_partial b0 x : b0 `prefix_of` B -> B `prefix_of` b0 ++ R ++ x -> b0 = B.
Proof.
  intros [r E] H. destruct r as [|c r]; [by rewrite app_nil_r in E|]. exfalso.
  assert (length b0 < 54)%nat as Hk.
  { apply (f_equal length) in E. rewrite length_app in E. change (length B) with 54%nat in E. simpl in E. lia. }
  assert (drop (length b0) B = c :: r) as Hd by (by rewrite E, drop_app_length).
  rewrite E in H. apply prefix_app_inv in H.
  assert (take 34 (drop (length b0) B) `prefix_of` R) as Hp.
  { rewrite Hd. destruct H as [y Hy]. exists (take (34 - length (c :: r)) y).
    rewrite <- take_app, <- Hy. symmetry. by apply take_app_length'. }
  assert (forallb (fun k => negb (bool_decide (take 34 (drop k B) `prefix_of` R))) (seq 0 54) = true) as Hall
    by (vm_compute; reflexivity).
  rewrite forallb_forall in Hall. specialize (Hall (length b0)).
  rewrite bool_decide_true in Hall by done. discriminate Hall.
  apply list_elem_of_In, elem_of_seq. lia.
Qed.

Lemma len_consts : length B = 54%nat /\ length R = 34%nat /\ length P = 39%nat /\ length G = 44%nat.
Proof. done. Qed.

(** While the target runs the domain it has written no more than the report
    and the status 0, and it had permission. *)
Lemma target_running go out g p :
  receiver_inv go out g p Running ->
  G `prefix_of` go /\ (length out <= 128)%nat.
Proof.
  destruct len_consts as (LB & LR & LP & LG). intros H.
  inversion H; subst; repeat match goal with
    | H : _ `prefix_of` _ |- _ => apply prefix_length in H as ?HL; revert H end; intros;
    rewrite ?length_app in *; cbn [length] in *; try (split; [done|lia]).
  - destruct H2 as [(_ & _ & HG)|[_ ?]]; [|done]. split; [done|lia].
  - destruct H3 as [(_ & _ & HG)|[_ ?]]; [|done]. split; [done|lia].
Qed.

(** A status 0 that the source has read means that the target runs. *)
Lemma status_zero go out g p d :
  receiver_inv go out g p d -> B ++ R ++ P ++ [0] `prefix_of` out -> d = Running.
Proof.
  destruct len_consts as (LB & LR & LP & LG). intros H Hp.
  pose proof (prefix_length _ _ Hp) as HL. rewrite !length_app in HL. cbn [length] in HL.
  assert (forall b0 x y, b0 `prefix_of` B -> x <> 0 ->
    ~ (B ++ R ++ P ++ [0] `prefix_of` b0 ++ R ++ P ++ x :: y)) as Hne.
  { intros b0 x y Hb Hx Hpr.
    assert (b0 = B) as ->.
    { eapply (banner_partial b0 (P ++ x :: y)); [done|]. etrans; [|exact Hpr]. by apply prefix_app_r. }
    do 3 apply prefix_app_inv in Hpr. apply prefix_cons_inv_1 in Hpr. congruence. }
  destruct H; auto; try (exfalso; subst; repeat match goal with
      | H : _ `prefix_of` _ |- _ => apply prefix_length in H as ?HL; revert H end; intros;
      rewrite ?length_app in *; cbn [length] in *; lia).
  - exfalso. eapply Hne; eauto. by subst.
  - exfalso. eapply Hne; eauto. by subst.
  - exfalso. eapply (Hne b0 x []); [done|done|]. by etrans.
  - exfalso. eapply (Hne b0 x G); [done|done|]. by etrans.
Qed.

End Invariants.

(** ** Properties *)

(** C2. The domain never runs on both hosts: in every reachable system,
    whatever messages are lost or cut short and whatever operations fail, at
    most one of the two copies is running. *)
Theorem at_most_one_running a b s :
  reachable a b s -> ~ (src_dom s = Running /\ dst_dom s = Running).
Proof.
  intros Hr [Hs Hd]. apply reachable_system_inv in Hr as [Is Id]. rewrite Hs in Is. rewrite Hd in Id.
  destruct (target_running _ _ _ _ _ Id) as [HG Hl]. apply prefix_length in HG.
  destruct len_consts as (LB & LR & LP & LG). rewrite LG in HG.
  assert (sent (to_dst s) <> []) as Hgo by (intros E; rewrite E in HG; simpl in HG; lia).
  inversion Is; try done; [|naive_solver].
  destruct H0 as [_ Hp]. apply prefix_length in Hp.
  rewrite !length_app in Hp. cbn [length] in Hp. lia.
Qed.

(** A complete run without failures, from [init] to both programs' exits. *)
Definition done_system : system :=
  System (PExit 0) (PExit 0) (Chan G 44) (Chan (B ++ R ++ P ++ [0]) 128) Destroyed Running.

Lemma run_ok : reachable false false done_system.
Proof.
  unfold reachable, init, done_system.
  eapply rtc_l. { apply step_dst. apply step_write. }
  eapply rtc_l. { apply step_src. apply step_read. vm_compute. lia. }
  eapply rtc_l. { apply step_src. apply step_op. apply (op_slaves _ 0). }
  eapply rtc_l. { apply step_src. apply step_op. apply (op_config _ 0). }
  eapply rtc_l. { apply step_src. apply step_op. apply op_suspend. }
  eapply rtc_l. { apply step_dst. apply step_op. by apply (op_create _ 0). }
  eapply rtc_l. { apply step_dst. apply step_write. }
  eapply rtc_l. { apply step_src. apply step_read. vm_compute. lia. }
  eapply rtc_l. { apply step_src. apply step_write. }
  eapply rtc_l. { apply step_dst. apply step_read. vm_compute. lia. }
  eapply rtc_l. { apply step_dst. apply step_op. apply op_unpause. }
  eapply rtc_l. { apply step_dst. apply step_write. }
  eapply rtc_l. { apply step_dst. apply step_write. }
  eapply rtc_l. { apply step_src. apply step_read. vm_compute. lia. }
  eapply rtc_l. { apply step_src. apply step_read. vm_compute. lia. }
  eapply rtc_l. { apply step_src. apply step_op. apply op_destroy. }
  vm_compute. apply rtc_refl.
Qed.

Lemma at_most_one_running_witness :
  ~ (src_dom done_system = Running /\ dst_dom done_system = Running).
Proof. apply (at_most_one_running false false done_system). exact run_ok. Defined.

(** When the source reports success (exit status 0, its copy
    destroyed or left suspended), the target's copy is running; when it took
    its domain back after having given permission, the target's copy has been
    destroyed. *)
Theorem handshake_outcome a b s :
  reachable a b s ->
  (src s = PExit 0 -> dst_dom s = Running) /\
  (src_dom s = Running -> sent (to_dst s) <> [] -> dst_dom s = Destroyed).
Proof.
  intros Hr. apply reachable_system_inv in Hr as [Is Id]. split.
  - intros E. rewrite E in Is. inversion Is. destruct H as [_ Hp].
    by eapply status_zero.
  - intros E Hgo. rewrite E in Is. inversion Is; try done; [|naive_solver]. destruct H0 as [_ Hp].
    destruct len_consts as (LB & LR & LP & LG). apply prefix_length in Hp.
    rewrite !length_app in Hp. cbn [length] in Hp.
    inversion Id; subst; auto; exfalso; repeat match goal with
      | H : _ `prefix_of` _ |- _ => apply prefix_length in H as ?HL; revert H end; intros;
      repeat match goal with H : sent _ = _ |- _ => rewrite H in * end;
      rewrite ?length_app in *; cbn [length] in *; lia.
Qed.

Lemma handshake_outcome_witness : dst_dom done_system = Running.
Proof. apply (handshake_outcome false false done_system); [exact run_ok|reflexivity]. Defined.

End Handshake.
