(* ===== verification/Stream.v ===== *)
(** The page stream of a migration slave.

    Sender (xc_domain_save.c): [send_patch] turns a batch of page frames into
    messages: the number of pages, their types, then the pages that are
    present, runs of data pages together and page tables one by one in
    canonical form.  Markers announce the end of an iteration, the last
    iteration and the end of the transfer.

    Receiver (xc_domain_restore.c): [slave_pagebuf_get_one] and
    [pagebuf_get_one] parse one unit of the stream into a [pagebuf_t];
    [pagebuf_get] reads a whole section on the main connection.  The two
    parsers have the same body over different channels; the model is written
    once over a byte source ([IO.ByteSource]) and instantiated. *)

From S2P Require Import Prelude IO Ssl PageTable.

Module Stream.
Import IO PageTable.

(** ** Markers (xg_save_restore.h) *)

Definition XC_SAVE_ID_ENABLE_VERIFY_MODE : Z := -1.
Definition XC_SAVE_ID_VCPU_INFO : Z := -2.
Definition XC_SAVE_ID_HVM_IDENT_PT : Z := -3.
Definition XC_SAVE_ID_HVM_VM86_TSS : Z := -4.
Definition XC_SAVE_ID_TMEM : Z := -5.
Definition XC_SAVE_ID_TMEM_EXTRA : Z := -6.
Definition XC_SAVE_ID_TSC_INFO : Z := -7.
Definition XC_SAVE_ID_HVM_CONSOLE_PFN : Z := -8.
Definition XC_SAVE_ID_LAST_CHECKPOINT : Z := -9.
Definition XC_SAVE_ID_HVM_ACPI_IOPORTS_LOCATION : Z := -10.
Definition XC_PARA_MIGR_END : Z := -11.
Definition XC_LAST_ITER_FIRST : Z := -12.
Definition XC_ITERATION_BARRIER : Z := -13.

(** ** The page buffer *)

(** [pagebuf_t]; the blocks [pages] and [pfn_types] are lists of bytes and of
    64-bit integers. *)
Record pagebuf := Pagebuf {
  pages : list Z;
  nr_physpages : Z;
  nr_pages : Z;
  pfn_types : list Z;
  verify : bool;
  new_ctxt_format : bool;
  max_vcpu_id : Z;
  vcpumap : Z;
  identpt : Z;
  vm86_tss : Z;
  console_pfn : Z;
  acpi_ioport_location : Z
}.

Definition pagebuf_init : pagebuf := Pagebuf [] 0 0 [] false false 0 0 0 0 0 0.

Definition pagebuf_free (b : pagebuf) : pagebuf :=
  Pagebuf [] (nr_physpages b) (nr_pages b) [] (verify b) (new_ctxt_format b) (max_vcpu_id b)
          (vcpumap b) (identpt b) (vm86_tss b) (console_pfn b) (acpi_ioport_location b).

Definition set_counts (b : pagebuf) (np nphys : Z) : pagebuf :=
  Pagebuf (pages b) nphys np (pfn_types b) (verify b) (new_ctxt_format b) (max_vcpu_id b)
          (vcpumap b) (identpt b) (vm86_tss b) (console_pfn b) (acpi_ioport_location b).

Definition set_verify (b : pagebuf) : pagebuf :=
  Pagebuf (pages b) (nr_physpages b) (nr_pages b) (pfn_types b) true (new_ctxt_format b)
          (max_vcpu_id b) (vcpumap b) (identpt b) (vm86_tss b) (console_pfn b) (acpi_ioport_location b).

Definition set_vcpu (b : pagebuf) (maxid map : Z) : pagebuf :=
  Pagebuf (pages b) (nr_physpages b) (nr_pages b) (pfn_types b) (verify b) true
          maxid map (identpt b) (vm86_tss b) (console_pfn b) (acpi_ioport_location b).

(** The four 64-bit locations of an HVM guest. *)
Inductive loc := IdentPT | Vm86TSS | ConsolePfn | AcpiIoports.

Definition get_loc (b : pagebuf) (l : loc) : Z :=
  match l with
  | IdentPT => identpt b | Vm86TSS => vm86_tss b
  | ConsolePfn => console_pfn b | AcpiIoports => acpi_ioport_location b
  end.

Definition set_loc (b : pagebuf) (l : loc) (v : Z) : pagebuf :=
  let mk i t c a := Pagebuf (pages b) (nr_physpages b) (nr_pages b) (pfn_types b) (verify b)
                            (new_ctxt_format b) (max_vcpu_id b) (vcpumap b) i t c a in
  match l with
  | IdentPT => mk v (vm86_tss b) (console_pfn b) (acpi_ioport_location b)
  | Vm86TSS => mk (identpt b) v (console_pfn b) (acpi_ioport_location b)
  | ConsolePfn => mk (identpt b) (vm86_tss b) v (acpi_ioport_location b)
  | AcpiIoports => mk (identpt b) (vm86_tss b) (console_pfn b) v
  end.

(** Appending the types and the pages of a batch. *)
Definition add_types (b : pagebuf) (count : Z) (types : list Z) : pagebuf :=
  Pagebuf (pages b) (nr_physpages b) (nr_pages b + count)
          (take (Z.to_nat (nr_pages b)) (pfn_types b) ++ types)
          (verify b) (new_ctxt_format b) (max_vcpu_id b)
          (vcpumap b) (identpt b) (vm86_tss b) (console_pfn b) (acpi_ioport_location b).

Definition add_pages (b : pagebuf) (count : Z) (bs : list Z) : pagebuf :=
  Pagebuf (take (Z.to_nat (nr_physpages b * PAGE_SIZE)) (pages b) ++ bs) (nr_physpages b + count)
          (nr_pages b) (pfn_types b) (verify b) (new_ctxt_format b) (max_vcpu_id b)
          (vcpumap b) (identpt b) (vm86_tss b) (console_pfn b) (acpi_ioport_location b).

(** Is the page of a type absent from the stream? *)
Definition is_xtab (t : Z) : bool := (t .& XEN_DOMCTL_PFINFO_LTAB_MASK) =? XEN_DOMCTL_PFINFO_XTAB.

(** The loop that counts the pages of a batch that follow. *)
Definition count_pages (types : list Z) : Z :=
  foldl (fun n t => if is_xtab t then n - 1 else n) (Z.of_nat (length types)) types.

(** ** Parsing *)

Section Parser.
Context {S : Type} `{BS : ByteSource S}.
(** [xc_domain_set_tsc_info], and the readers of xc_tmem.c that consume their
    own part of the stream. *)
Variable set_tsc_info : Z -> Z -> Z -> Z -> bool.
Variable tmem_restore tmem_restore_extra : S -> bool * S.

(** The parser's state: the buffer, [ctx->last_checkpoint], the source. *)
Record pstate := PState { buf : pagebuf; last_checkpoint : bool; source : S }.

Definition with_buf (st : pstate) (b : pagebuf) : pstate := PState b (last_checkpoint st) (source st).

Definition rd (st : pstate) (n : nat) : option (list Z) * pstate :=
  let '(r, s) := src_read (source st) n in (r, PState (buf st) (last_checkpoint st) s).

(** How the header decides: return, parse another unit, or read a batch. *)
Inductive header := HReturn (rc : Z) (st : pstate) | HAgain (st : pstate) | HBatch (count : Z) (st : pstate).

(** Skip 4 bytes of padding into the low half of the field, then read it. *)
Definition rd_loc (st : pstate) (l : loc) : header :=
  match rd st 4 with
  | (None, st) => HReturn (-1) st
  | (Some lo, st) =>
      let v := (get_loc (buf st) l .& not_w 64 0xffffffff) .| le_val lo in
      let st := with_buf st (set_loc (buf st) l v) in
      match rd st 8 with
      | (None, st) => HReturn (-1) st
      | (Some bs, st) => HAgain (with_buf st (set_loc (buf st) l (le_val bs)))
      end
  end.

Definition rd_vcpu_info (st : pstate) : header :=
  let st := with_buf st (set_vcpu (buf st) (max_vcpu_id (buf st)) (vcpumap (buf st))) in
  match rd st 4 with
  | (None, st) => HReturn (-1) st
  | (Some bs, st) =>
      let id := s32 (le_val bs) in
      let st := with_buf st (set_vcpu (buf st) id (vcpumap (buf st))) in
      if id >=? 64 then HReturn (-1) st
      else match rd st 8 with
           | (None, st) => HReturn (-1) st
           | (Some bs, st) => HAgain (with_buf st (set_vcpu (buf st) id (le_val bs)))
           end
  end.

Definition rd_tsc_info (st : pstate) : header :=
  match rd st 4 with
  | (None, st) => HReturn (-1) st
  | (Some tsc_mode, st) =>
  match rd st 8 with
  | (None, st) => HReturn (-1) st
  | (Some nsec, st) =>
  match rd st 4 with
  | (None, st) => HReturn (-1) st
  | (Some khz, st) =>
  match rd st 4 with
  | (None, st) => HReturn (-1) st
  | (Some incarn, st) =>
      if set_tsc_info (le_val tsc_mode) (le_val nsec) (le_val khz) (le_val incarn)
      then HReturn 0 st else HReturn (-1) st
  end end end end.

Definition run_tmem (f : S -> bool * S) (st : pstate) : header :=
  let '(ok, s) := f (source st) in
  let st := PState (buf st) (last_checkpoint st) s in
  if ok then HAgain st else HReturn (-1) st.

(** The batch size or marker at the head of the stream. *)
Definition get_header (st : pstate) : header :=
  match rd st 4 with
  | (None, st) => HReturn (-1) st
  | (Some bs, st) =>
      let count := s32 (le_val bs) in
      if count =? 0 then HReturn 0 st
      else if count =? XC_PARA_MIGR_END then HReturn 1 (with_buf st (set_counts (buf st) 0 1))
      else if count =? XC_LAST_ITER_FIRST then HReturn 1 (with_buf st (set_counts (buf st) 1 0))
      else if count =? XC_ITERATION_BARRIER then HReturn 1 (with_buf st (set_counts (buf st) 0 0))
      else if count =? XC_SAVE_ID_ENABLE_VERIFY_MODE then HAgain (with_buf st (set_verify (buf st)))
      else if count =? XC_SAVE_ID_VCPU_INFO then rd_vcpu_info st
      else if count =? XC_SAVE_ID_HVM_IDENT_PT then rd_loc st IdentPT
      else if count =? XC_SAVE_ID_HVM_VM86_TSS then rd_loc st Vm86TSS
      else if count =? XC_SAVE_ID_TMEM then run_tmem tmem_restore st
      else if count =? XC_SAVE_ID_TMEM_EXTRA then run_tmem tmem_restore_extra st
      else if count =? XC_SAVE_ID_TSC_INFO then rd_tsc_info st
      else if count =? XC_SAVE_ID_HVM_CONSOLE_PFN then rd_loc st ConsolePfn
      else if count =? XC_SAVE_ID_LAST_CHECKPOINT then HAgain (PState (buf st) true (source st))
      else if count =? XC_SAVE_ID_HVM_ACPI_IOPORTS_LOCATION then rd_loc st AcpiIoports
      else if (count >? Z.of_nat MAX_BATCH_SIZE) || (count <? 0) then HReturn (-1) st
      else HBatch count st
  end.

(** The types and the pages of a batch of [count] entries. *)
Definition get_batch (count : Z) (st : pstate) : Z * pstate :=
  match rd st (Z.to_nat (count * 8)) with
  | (None, st) => (-1, with_buf st (add_types (buf st) count []))
  | (Some bs, st) =>
      let types := word_at 8 bs <$> seq 0 (Z.to_nat count) in
      let st := with_buf st (add_types (buf st) count types) in
      let countpages := count_pages types in
      if countpages =? 0 then (count, st)
      else
        match rd st (Z.to_nat (countpages * PAGE_SIZE)) with
        | (None, st) => (-1, with_buf st (add_pages (buf st) countpages []))
        | (Some bs, st) => (count, with_buf st (add_pages (buf st) countpages bs))
        end
  end.

(** One unit; [None] when the fuel for consecutive option records ends. *)
Fixpoint get_one (fuel : nat) (st : pstate) : option (Z * pstate) :=
  match fuel with
  | O => None
  | Datatypes.S f =>
      match get_header st with
      | HReturn rc st => Some (rc, st)
      | HAgain st => get_one f st
      | HBatch count st => Some (get_batch count st)
      end
  end.

(** [pagebuf_get]: units until the end of the section or an error. *)
Fixpoint get_loop (fuel : nat) (st : pstate) : option (Z * pstate) :=
  match fuel with
  | O => None
  | Datatypes.S f =>
      match get_one fuel st with
      | None => None
      | Some (rc, st) =>
          if rc >? 0 then get_loop f st
          else Some (rc, if rc <? 0 then with_buf st (pagebuf_free (buf st)) else st)
      end
  end.

Definition pagebuf_get (fuel : nat) (st : pstate) : option (Z * pstate) :=
  get_loop fuel (with_buf st (set_counts (buf st) 0 0)).

End Parser.

Arguments pstate : clear implicits.

(** The parser on the main connection, and on a slave's encrypted one. *)
Definition pagebuf_get_one := @get_one (list event) fd_source.

Definition slave_pagebuf_get_one {CS} block_size (enc dec : CS -> list Z -> list Z * CS) junk sync
    (laws : Ssl.cipher_laws block_size enc dec junk sync) (big : nat) :=
  @get_one (Ssl.ssl_wrap CS * list event) (Ssl.ssl_source block_size enc dec junk sync laws big).

(** ** Sending a batch *)

Section Send.
Context (ctx : save_ctx) (live : bool).

(** The first loop of [send_patch] for one entry: the type word that is sent,
    and whether the page is valid. *)
Definition canon_type (pfn err t : Z) : Z * bool :=
  if truthy err then (XEN_DOMCTL_PFINFO_XTAB, false)
  else if t =? XEN_DOMCTL_PFINFO_XTAB then (t, false)
  else (t .| pfn, true).

Fixpoint canon_types (pfns errs ts : list Z) : list (Z * bool) :=
  match pfns, errs, ts with
  | p :: pfns', e :: errs', t :: ts' => canon_type p e t :: canon_types pfns' errs' ts'
  | _, _, _ => []
  end.

(** The pages [j - run] up to [j] of the mapped region. *)
Definition run_of (region : list (list Z)) (j run : nat) : list Z :=
  concat (take run (drop (j - run) region)).

(** The second loop: the messages, and whether it ended without a fatal race. *)
Fixpoint send_pages (region : list (list Z)) (types : list Z) (j run : nat) : list (list Z) * bool :=
  match types with
  | [] => (if decide (run = 0%nat) then [] else [run_of region j run], true)
  | t :: types' =>
      let pagetype := t .& XEN_DOMCTL_PFINFO_LTAB_MASK in
      let flush := negb (pagetype =? 0) && negb (bool_decide (run = 0%nat)) in
      let pre := if flush then [run_of region j run] else [] in
      let run := if flush then 0%nat else run in
      if pagetype =? XEN_DOMCTL_PFINFO_XTAB then
        let '(ms, ok) := send_pages region types' (S j) run in (pre ++ ms, ok)
      else
        let pagetype := pagetype .& XEN_DOMCTL_PFINFO_LTABTYPE_MASK in
        if (pagetype >=? XEN_DOMCTL_PFINFO_L1TAB) && (pagetype <=? XEN_DOMCTL_PFINFO_L4TAB) then
          let '(race, page) := canonicalize_pagetable ctx pagetype (region !!! j) in
          if race && negb live then (pre, false)
          else let '(ms, ok) := send_pages region types' (S j) run in (pre ++ page :: ms, ok)
        else
          let '(ms, ok) := send_pages region types' (S j) (S run) in (pre ++ ms, ok)
  end.

(** The messages for one batch: nothing when no page of it is valid. *)
Definition send_batch (pfn_batch pfn_err pfn_type : list Z) (region : list (list Z))
  : list (list Z) * bool :=
  let cts := canon_types pfn_batch pfn_err pfn_type in
  let run := length (filter (fun c => c.2 = true) cts) in
  if decide (run = 0%nat) then ([], true)
  else
    let types := cts.*1 in
    let '(ms, ok) := send_pages region types 0 0 in
    (le_bytes 4 (Z.of_nat (length pfn_batch)) :: entries_page 8 types :: ms, ok).

(** Markers are messages of their own. *)
Definition marker (flag : Z) : list (list Z) := [le_bytes 4 flag].

(** ** What the messages carry *)

(** The page that is sent for a type. *)
Definition sent_page (t : Z) (page : list Z) : list Z :=
  let pagetype := (t .& XEN_DOMCTL_PFINFO_LTAB_MASK) .& XEN_DOMCTL_PFINFO_LTABTYPE_MASK in
  if (pagetype >=? XEN_DOMCTL_PFINFO_L1TAB) && (pagetype <=? XEN_DOMCTL_PFINFO_L4TAB)
  then (canonicalize_pagetable ctx pagetype page).2 else page.

(** Reference: the pages of the entries that are present, in order. *)
Fixpoint present_pages (types : list Z) (region : list (list Z)) : list (list Z) :=
  match types, region with
  | t :: types', page :: region' =>
      if is_xtab t then present_pages types' region'
      else sent_page t page :: present_pages types' region'
  | _, _ => []
  end.

Lemma run_of_S region j run page :
  (run <= j)%nat -> region !! j = Some page -> run_of region (S j) (S run) = run_of region j run ++ page.
Proof.
  intros Hr Hj. unfold run_of. rewrite Nat.sub_succ.
  rewrite (take_S_r _ run page); [|rewrite lookup_drop; by replace (j - run + run)%nat with j by lia].
  rewrite concat_app. simpl. by rewrite app_nil_r.
Qed.

(** The runs and page tables, concatenated, are the present pages. *)
Lemma send_pages_concat region types : forall j run ms,
  (run <= j)%nat -> length region = (j + length types)%nat ->
  send_pages region types j run = (ms, true) ->
  concat ms = run_of region j run ++ concat (present_pages types (drop j region)).
Proof.
  induction types as [|t types IH]; intros j run ms Hr Hl; cbn [send_pages present_pages].
  { intros [= <-]. rewrite app_nil_r. case_decide as E; [subst; done|]. cbn. by rewrite app_nil_r. }
  cbn [length] in Hl. destruct (lookup_lt_is_Some_2 region j) as [page Hj]; [lia|].
  rewrite (drop_S _ _ _ Hj). unfold is_xtab, sent_page.
  set (pt := t .& XEN_DOMCTL_PFINFO_LTAB_MASK).
  set (flush := negb (pt =? 0) && negb (bool_decide (run = 0%nat))).
  set (pre := if flush then [run_of region j run] else []).
  set (run' := if flush then 0%nat else run).
  assert (concat pre ++ run_of region j run' = run_of region j run) as Hpre.
  { unfold pre, run'. destruct flush; [|done]. cbn. by rewrite !app_nil_r. }
  assert (run' <= j)%nat as Hr' by (unfold run'; destruct flush; lia).
  assert (pt <> 0 -> run' = 0%nat) as Hz.
  { intros Hne. unfold run', flush. rewrite (proj2 (Z.eqb_neq pt 0) Hne).
    destruct (bool_decide_reflect (run = 0%nat)); done. }
  assert (run_of region (S j) 0 = []) as H0 by done.
  clearbody pre run'. clear flush.
  destruct (Z.eqb_spec pt XEN_DOMCTL_PFINFO_XTAB) as [Ex|Ex].
  - destruct (send_pages region types (S j) run') as [ms' ok] eqn:E. intros [= <- ->].
    rewrite Hz in * by (rewrite Ex; done). rewrite concat_app, (IH (S j) 0%nat ms' ltac:(lia) ltac:(lia) E), H0.
    rewrite <- Hpre, <- app_assoc. done.
  - destruct (_ && _) eqn:Ept.
    + rewrite (list_lookup_total_correct _ _ _ Hj).
      destruct (canonicalize_pagetable ctx _ page) as [race cp]. cbn [snd].
      destruct (race && negb live); [done|].
      destruct (send_pages region types (S j) run') as [ms' ok] eqn:E. intros [= <- ->].
      assert (pt <> 0) as Hnz by (intros ->; done). rewrite Hz in * by done.
      rewrite concat_app. cbn [concat]. rewrite (IH (S j) 0%nat ms' ltac:(lia) ltac:(lia) E), H0.
      rewrite <- Hpre, <- !app_assoc. done.
    + destruct (send_pages region types (S j) (S run')) as [ms' ok] eqn:E. intros [= <- ->].
      rewrite concat_app, (IH (S j) (S run') ms' ltac:(lia) ltac:(lia) E), (run_of_S _ _ _ _ Hr' Hj).
      cbn [concat]. rewrite <- Hpre, <- !app_assoc. done.
Qed.

End Send.

(** ** Messages on the wire *)

(** The bytes of messages that a channel pads to its block size. *)
Inductive wired (pad : nat -> nat) : list (list Z) -> list Z -> Prop :=
| wired_nil : wired pad [] []
| wired_cons m p ms w :
    length (m ++ p) = pad (length m) -> wired pad ms w -> wired pad (m :: ms) (m ++ p ++ w).

Definition page_bytes : nat := 4096%nat.

(** Whole pages. *)
Definition whole_pages (m : list Z) : Prop := exists k, (0 < k)%nat /\ length m = (k * page_bytes)%nat.

Lemma run_of_length region j run :
  Forall (fun pg => length pg = page_bytes) region -> (run <= j)%nat -> (j <= length region)%nat ->
  length (run_of region j run) = (run * page_bytes)%nat.
Proof.
  intros Hreg Hr Hj. unfold run_of.
  assert (Forall (fun pg => length pg = page_bytes) (take run (drop (j - run) region))) as Hf
    by (by apply Forall_take, Forall_drop).
  assert (length (take run (drop (j - run) region)) = run) as Hl by (rewrite length_take, length_drop; lia).
  revert Hl. generalize dependent run. intros run _. generalize (take run (drop (j - run) region)) as l.
  intros l Hf Hl. subst run. induction Hf as [|pg l Hpg _ IH]; [done|]. cbn [concat length].
  rewrite length_app, IH, Hpg. lia.
Qed.

Lemma send_pages_whole ctx live region types : forall j run,
  Forall (fun pg => length pg = page_bytes) region -> (run <= j)%nat ->
  length region = (j + length types)%nat ->
  Forall whole_pages (send_pages ctx live region types j run).1.
Proof.
  induction types as [|t types IH]; intros j run Hreg Hr Hl; cbn [send_pages].
  { case_decide; repeat constructor. exists run. split; [lia|]. apply run_of_length; auto. simpl in Hl. lia. }
  cbn [length] in Hl. set (pt := t .& XEN_DOMCTL_PFINFO_LTAB_MASK).
  set (flush := negb (pt =? 0) && negb (bool_decide (run = 0%nat))).
  set (pre := if flush then [run_of region j run] else []).
  set (run' := if flush then 0%nat else run).
  assert (Forall whole_pages pre) as Hpre.
  { unfold pre, flush. destruct (pt =? 0), (bool_decide_reflect (run = 0%nat)); repeat constructor.
    exists run. split; [lia|]. apply run_of_length; auto. lia. }
  assert (run' <= j)%nat as Hr' by (unfold run'; destruct flush; lia).
  clearbody pre run'. clear flush.
  assert (forall r, (r <= S j)%nat -> Forall whole_pages (send_pages ctx live region types (S j) r).1) as IH'
    by (intros r Hrj; apply IH; auto; lia).
  destruct (pt =? XEN_DOMCTL_PFINFO_XTAB); [|destruct (_ && _)].
  - specialize (IH' run' ltac:(lia)).
    destruct (send_pages ctx live region types (S j) run'). by apply Forall_app.
  - pose proof (canonicalize_pagetable_length ctx (pt .& XEN_DOMCTL_PFINFO_LTABTYPE_MASK) (region !!! j)) as Hcl.
    destruct (canonicalize_pagetable ctx _ _) as [race cp]. cbn [snd] in Hcl.
    destruct (race && negb live); [done|]. specialize (IH' run' ltac:(lia)).
    destruct (send_pages ctx live region types (S j) run'). apply Forall_app. split; [done|].
    constructor; [|done]. exists 1%nat. split; [lia|]. by rewrite Hcl.
  - specialize (IH' (S run') ltac:(lia)).
    destruct (send_pages ctx live region types (S j) (S run')). by apply Forall_app.
Qed.

(** Type words: the type is in the top four of 32 bits, the pfn below. *)
Definition type_word (t : Z) : Prop := 0 <= t /\ t .& XEN_DOMCTL_PFINFO_LTAB_MASK = t.

Lemma type_word_range t : type_word t -> 0 <= t < 2 ^ 32.
Proof.
  intros [Ht E]. rewrite <- E. apply land_range; [lia|]. unfold XEN_DOMCTL_PFINFO_LTAB_MASK. done.
Qed.

Lemma pfn_land_mask pfn : 0 <= pfn < 2 ^ 28 -> pfn .& XEN_DOMCTL_PFINFO_LTAB_MASK = 0.
Proof.
  intros Hp. apply Z.bits_inj'. intros i Hi. rewrite Z.land_spec, Z.testbit_0_l.
  destruct (Z.ltb_spec i 28); [|by rewrite (testbit_high pfn 28) by lia].
  unfold XEN_DOMCTL_PFINFO_LTAB_MASK. rewrite Z.shiftl_spec, (Z.testbit_neg_r _ (i - 28)) by lia.
  apply andb_false_r.
Qed.

(** The receiver sees as absent exactly the entries the sender skipped. *)
Lemma canon_type_xtab pfn err t :
  0 <= pfn < 2 ^ 28 -> type_word t ->
  is_xtab (canon_type pfn err t).1 = negb (canon_type pfn err t).2 /\
  0 <= (canon_type pfn err t).1 < 2 ^ 64.
Proof.
  intros Hp Ht. pose proof (type_word_range t Ht) as Hr. unfold canon_type, is_xtab.
  destruct (truthy err); [done|]. destruct (Z.eqb_spec t XEN_DOMCTL_PFINFO_XTAB) as [->|Hne]; [done|].
  cbn [fst snd negb]. split.
  - rewrite Z.land_lor_distr_l, (pfn_land_mask pfn), Z.lor_0_r by done.
    destruct Ht as [_ ->]. by apply Z.eqb_neq.
  - apply lor_range; lia.
Qed.

Lemma canon_types_spec pfns : forall errs ts,
  length errs = length pfns -> length ts = length pfns ->
  Forall (fun p => 0 <= p < 2 ^ 28) pfns -> Forall type_word ts ->
  let cts := canon_types pfns errs ts in
  length cts = length pfns /\ Forall (fun t => 0 <= t < 2 ^ 64) cts.*1 /\
  Forall (fun c => is_xtab c.1 = negb c.2) cts.
Proof.
  induction pfns as [|p pfns IH]; intros [|e errs] [|t ts] He Ht Hp Hw; try done.
  apply Forall_cons in Hp as [Hp Hps]. apply Forall_cons in Hw as [Hw Hws].
  destruct (IH errs ts ltac:(simpl in *; lia) ltac:(simpl in *; lia) Hps Hws) as (H1 & H2 & H3).
  destruct (canon_type_xtab p e t Hp Hw) as [H4 H5]. cbn [canon_types length fmap list_fmap].
  split_and!; [lia|by constructor|by constructor].
Qed.

(** A valid entry is a page on the wire. *)
Lemma valid_present ctx (cts : list (Z * bool)) region :
  Forall (fun c => is_xtab c.1 = negb c.2) cts -> length region = length cts ->
  length (present_pages ctx cts.*1 region) = length (filter (fun c => c.2 = true) cts).
Proof.
  intros Hf. revert region. induction Hf as [|[t v] cts Ht Hf IH]; intros [|pg region] Hl; try done.
  injection Hl as Hl. cbn [fmap list_fmap fst snd present_pages] in *. rewrite filter_cons. cbn [snd].
  rewrite Ht. destruct v; case_decide; try done; cbn [negb length]; auto.
Qed.

Section Decode.
Context {S : Type} `{BS : ByteSource S}.
Context (set_tsc_info : Z -> Z -> Z -> Z -> bool) (tmem_restore tmem_restore_extra : S -> bool * S).
(** The channel moves whole pages without padding. *)
Context (Hpage : forall k, (0 < k)%nat -> src_pad (k * page_bytes) = (k * page_bytes)%nat /\ src_can (k * page_bytes)).
Context (H4 : src_can 4).

Lemma wired_pages ms w : Forall whole_pages ms -> wired src_pad ms w -> w = concat ms.
Proof.
  intros Hms Hw. induction Hw as [|m p ms w Hp Hw IH]; [done|].
  apply Forall_cons in Hms as [(k & Hk & Hm) Hms]. rewrite Hm in Hp.
  rewrite (proj1 (Hpage k Hk)), length_app, Hm in Hp.
  assert (p = []) as -> by (apply length_zero_iff_nil; lia). by rewrite IH.
Qed.

Lemma rd_ok b lc s m p r :
  src_ok s -> src_can (length m) -> length (m ++ p) = src_pad (length m) ->
  src_rest s = m ++ p ++ r ->
  exists s', rd (PState b lc s) (length m) = (Some m, PState b lc s') /\ src_ok s' /\ src_rest s' = r.
Proof.
  intros Hok Hcan Hp Hr. destruct (src_read_ok s (length m) Hok Hcan) as (s' & E & Hok' & Hr').
  { rewrite Hr, app_assoc, length_app. lia. }
  exists s'. unfold rd. cbn [source buf last_checkpoint]. rewrite E, Hr, take_app_length. split_and!; auto.
  rewrite Hr', Hr, app_assoc, <- Hp, drop_app_length. done.
Qed.

(** A marker or a batch size at the head of the stream. *)
Lemma rd_int b lc s z p r :
  src_ok s -> length (le_bytes 4 z ++ p) = src_pad 4 -> src_rest s = le_bytes 4 z ++ p ++ r ->
  exists s', rd (PState b lc s) 4 = (Some (le_bytes 4 z), PState b lc s') /\ src_ok s' /\ src_rest s' = r.
Proof.
  intros Hok Hp Hr. rewrite <- (le_bytes_length 4 z) in Hp at 2.
  pose proof (rd_ok b lc s (le_bytes 4 z) p r) as H. rewrite le_bytes_length in *. auto.
Qed.

Lemma le_int z : - 2 ^ 31 <= z < 2 ^ 31 -> s32 (le_val (le_bytes 4 z)) = z.
Proof.
  intros Hz. rewrite le_val_bytes. change (256 ^ Z.of_nat 4) with (2 ^ 32). unfold s32.
  rewrite Zplus_mod_idemp_l. by apply s32_small.
Qed.

Lemma get_header_batch b lc s n p r :
  0 < n <= Z.of_nat MAX_BATCH_SIZE ->
  src_ok s -> length (le_bytes 4 n ++ p) = src_pad 4 -> src_rest s = le_bytes 4 n ++ p ++ r ->
  exists s', get_header set_tsc_info tmem_restore tmem_restore_extra (PState b lc s) = HBatch n (PState b lc s') /\
    src_ok s' /\ src_rest s' = r.
Proof.
  intros Hn Hok Hp Hr. destruct (rd_int b lc s n p r Hok Hp Hr) as (s' & E & Hok' & Hr').
  exists s'. split_and!; auto. unfold get_header. rewrite E, le_int by (unfold MAX_BATCH_SIZE in Hn; lia).
  unfold XC_PARA_MIGR_END, XC_LAST_ITER_FIRST, XC_ITERATION_BARRIER, XC_SAVE_ID_ENABLE_VERIFY_MODE,
    XC_SAVE_ID_VCPU_INFO, XC_SAVE_ID_HVM_IDENT_PT, XC_SAVE_ID_HVM_VM86_TSS, XC_SAVE_ID_TMEM,
    XC_SAVE_ID_TMEM_EXTRA, XC_SAVE_ID_TSC_INFO, XC_SAVE_ID_HVM_CONSOLE_PFN, XC_SAVE_ID_LAST_CHECKPOINT,
    XC_SAVE_ID_HVM_ACPI_IOPORTS_LOCATION.
  do 14 rewrite (proj2 (Z.eqb_neq n _)) by lia.
  replace (n >? Z.of_nat MAX_BATCH_SIZE) with false by lia. by replace (n <? 0) with false by lia.
Qed.

(** The markers a slave sends. *)
Lemma get_one_marker fuel b lc s f p r np nphys :
  (f, np, nphys) ∈ [(XC_PARA_MIGR_END, 0, 1); (XC_LAST_ITER_FIRST, 1, 0); (XC_ITERATION_BARRIER, 0, 0)] ->
  src_ok s -> length (le_bytes 4 f ++ p) = src_pad 4 -> src_rest s = le_bytes 4 f ++ p ++ r ->
  exists s', get_one set_tsc_info tmem_restore tmem_restore_extra (Datatypes.S fuel) (PState b lc s) =
    Some (1, PState (set_counts b np nphys) lc s') /\ src_ok s' /\ src_rest s' = r.
Proof.
  intros Hf Hok Hp Hr. destruct (rd_int b lc s f p r Hok Hp Hr) as (s' & E & Hok' & Hr').
  exists s'. split_and!; auto. cbn [get_one]. unfold get_header. rewrite E.
  assert (- 2 ^ 31 <= f < 2 ^ 31) as Hb.
  { repeat (apply elem_of_cons in Hf as [Hf|Hf]; [simplify_eq; done|]). by apply elem_of_nil in Hf. }
  rewrite le_int by done.
  repeat (apply elem_of_cons in Hf as [Hf|Hf]; [simplify_eq; done|]). by apply elem_of_nil in Hf.
Qed.

Lemma foldl_count_pages types n :
  foldl (fun n t => if is_xtab t then n - 1 else n) n types =
  n - Z.of_nat (length (filter (fun t => is_xtab t = true) types)).
Proof.
  revert n. induction types as [|t types IH]; intros n; cbn [foldl]; [simpl; lia|].
  rewrite IH, filter_cons. destruct (is_xtab t); case_decide; try done; simpl; lia.
Qed.

Lemma count_pages_present ctx types region :
  length region = length types ->
  count_pages types = Z.of_nat (length (present_pages ctx types region)).
Proof.
  intros Hl. unfold count_pages. rewrite foldl_count_pages. revert region Hl.
  induction types as [|t types IH]; intros [|pg region] Hl; try done. injection Hl as Hl.
  specialize (IH _ Hl). cbn [present_pages length]. rewrite filter_cons.
  destruct (is_xtab t); case_decide; try done; cbn [length]; lia.
Qed.

(** The types and pages of a batch that was sent. *)
Lemma get_batch_ok ctx b lc s types region ptys pages r :
  (0 < length types)%nat -> src_can (length (entries_page 8 types)) ->
  Forall (fun t => 0 <= t < 2 ^ 64) types -> length region = length types ->
  Forall (fun pg => length pg = page_bytes) region ->
  src_ok s -> length (entries_page 8 types ++ ptys) = src_pad (length (entries_page 8 types)) ->
  pages = concat (present_pages ctx types region) ->
  src_rest s = entries_page 8 types ++ ptys ++ pages ++ r ->
  exists s', get_batch (Z.of_nat (length types)) (PState b lc s) =
    (Z.of_nat (length types),
     PState (if count_pages types =? 0 then add_types b (Z.of_nat (length types)) types
             else add_pages (add_types b (Z.of_nat (length types)) types) (count_pages types) pages) lc s') /\
    src_ok s' /\ src_rest s' = r.
Proof.
  intros Hn Hcan Ht Hl Hreg Hok Hp Hpg Hr. unfold get_batch.
  replace (Z.to_nat (Z.of_nat (length types) * 8)) with (length (entries_page 8 types))
    by (rewrite entries_page_length; lia).
  destruct (rd_ok b lc s _ ptys (pages ++ r) Hok Hcan Hp Hr) as (s1 & -> & Hok1 & Hr1).
  rewrite Nat2Z.id, words_entries_page by (change (256 ^ Z.of_nat 8) with (2 ^ 64); done).
  unfold with_buf. cbn [buf last_checkpoint source].
  assert (length pages = length (present_pages ctx types region) * page_bytes)%nat as Hlp.
  { subst pages. clear -Hreg. revert region Hreg. induction types as [|t types IH]; intros [|pg region] Hreg; try done.
    apply Forall_cons in Hreg as [Hpg Hreg]. cbn [present_pages]. destruct (is_xtab t); [by apply IH|].
    cbn [concat length]. rewrite length_app, IH by done. unfold sent_page.
    destruct (_ && _); [rewrite canonicalize_pagetable_length; change (Z.to_nat PAGE_SIZE) with page_bytes|]; lia. }
  pose proof (count_pages_present ctx types region Hl) as Hc.
  destruct (Z.eqb_spec (count_pages types) 0) as [E|E].
  - exists s1. rewrite E in Hc. assert (pages = []) as -> by (apply length_zero_iff_nil; lia). auto.
  - replace (Z.to_nat (count_pages types * PAGE_SIZE)) with (length pages)
      by (rewrite Hc, Hlp; unfold PAGE_SIZE, page_bytes; lia).
    destruct (Hpage (length (present_pages ctx types region)) ltac:(lia)) as [Hpd Hpc].
    destruct (rd_ok (add_types b (Z.of_nat (length types)) types) lc s1 pages [] r) as (s2 & -> & Hok2 & Hr2);
      [done|by rewrite Hlp|by rewrite app_nil_r, Hlp, Hpd|done|].
    exists s2. auto.
Qed.

(** A batch at the head of any channel. *)
Lemma batch_get_one ctx live pfns errs ts region ms w r fuel b lc s :
  length errs = length pfns -> length ts = length pfns -> length region = length pfns ->
  (length pfns <= MAX_BATCH_SIZE)%nat ->
  Forall (fun p => 0 <= p < 2 ^ 28) pfns -> Forall type_word ts ->
  Forall (fun pg => length pg = page_bytes) region -> src_can (8 * length pfns) ->
  send_batch ctx live pfns errs ts region = (ms, true) -> ms <> [] ->
  nr_pages b = 0 -> nr_physpages b = 0 ->
  src_ok s -> wired src_pad ms w -> src_rest s = w ++ r ->
  exists b' s',
    get_one set_tsc_info tmem_restore tmem_restore_extra (Datatypes.S fuel) (PState b lc s) =
      Some (Z.of_nat (length pfns), PState b' lc s') /\ src_ok s' /\ src_rest s' = r /\
    let types := (canon_types pfns errs ts).*1 in
    nr_pages b' = Z.of_nat (length pfns) /\ pfn_types b' = types /\
    pages b' = concat (present_pages ctx types region) /\
    nr_physpages b' = Z.of_nat (length (present_pages ctx types region)) /\ 0 < nr_physpages b' /\
    verify b' = verify b.
Proof.
  intros He Ht Hreg Hmax Hpf Htw Hpg Hcan Hsend Hne Hb1 Hb2 Hok Hw Hr.
  destruct (canon_types_spec pfns errs ts He Ht Hpf Htw) as (Hcl & Hcr & Hcx).
  unfold send_batch in Hsend. set (cts := canon_types pfns errs ts) in *.
  case_decide as Hrun; [by simplify_eq|].
  pose proof (send_pages_whole ctx live region cts.*1 0 0 Hpg ltac:(lia)) as Hwh.
  pose proof (send_pages_concat ctx live region cts.*1 0 0) as Hco.
  destruct (send_pages ctx live region cts.*1 0 0) as [pms ok]. simplify_eq.
  assert (length cts.*1 = length pfns) as Hlt by (by rewrite length_fmap).
  specialize (Hwh ltac:(lia)). specialize (Hco pms ltac:(lia) ltac:(lia) eq_refl). rewrite drop_0 in Hco.
  inversion Hw as [|m1 p1 ms1 w1 Hp1 Hw1]; subst. inversion Hw1 as [|m2 p2 ms2 w2 Hp2 Hw2]; subst.
  apply wired_pages in Hw2; [|done]. subst w2. rewrite Hco in Hr. rewrite <- !app_assoc in Hr.
  assert (0 < length pfns)%nat as Hpos.
  { destruct pfns; [|simpl; lia]. destruct cts; [done|simpl in Hcl; lia]. }
  rewrite le_bytes_length in Hp1.
  destruct (get_header_batch b lc s (Z.of_nat (length pfns)) p1
    (entries_page 8 cts.*1 ++ p2 ++ concat (present_pages ctx cts.*1 region) ++ r))
    as (s1 & Eh & Hok1 & Hr1); [lia|done|done|done|].
  destruct (get_batch_ok ctx b lc s1 cts.*1 region p2 (concat (present_pages ctx cts.*1 region)) r)
    as (s2 & Eb & Hok2 & Hr2); rewrite ?entries_page_length, ?Hlt in *; auto.
  { by rewrite Nat.mul_comm. }
  cbn [get_one]. rewrite Eh, Eb.
  pose proof (count_pages_present ctx cts.*1 region ltac:(lia)) as Hcp.
  pose proof (valid_present ctx cts region Hcx ltac:(lia)) as Hvp.
  eexists _, s2. split; [done|]. split; [done|]. split; [done|].
  rewrite (proj2 (Z.eqb_neq _ 0)) by lia. unfold add_pages, add_types.
  cbn [pages nr_pages nr_physpages pfn_types]. rewrite Hb1, Hb2, Hcp. simpl. split_and!; auto; lia.
Qed.

End Decode.

(** ** A batch over an encrypted connection *)

Section Encrypted.
Context {CS : Type} (block_size : nat) (enc dec : CS -> list Z -> list Z * CS) (junk : nat -> list Z).
Context (sync : CS -> CS -> Prop) (laws : Ssl.cipher_laws block_size enc dec junk sync).

(** The messages of a batch, written one after the other. *)
Fixpoint ssl_send_all (ssl : Ssl.ssl_wrap CS) (fd : ofile) (ms : list (list Z))
  : option (Ssl.ssl_wrap CS * ofile) :=
  match ms with
  | [] => Some (ssl, fd)
  | m :: ms' =>
      match Ssl.ssl_wrexact block_size enc junk ssl fd m with
      | Some (_, ssl', fd') => ssl_send_all ssl' fd' ms'
      | None => None
      end
  end.

Definition wire_size (ms : list (list Z)) : nat :=
  foldr (fun m n => (Ssl.padded block_size (length m) + n)%nat) 0%nat ms.

(** What the peer decrypts are the messages, each padded to whole blocks. *)
Lemma ssl_send_all_ok ms : forall ssl fd ds tail,
  Ssl.wf_wrap ssl -> Forall (fun m => Ssl.fits block_size ssl (length m)) ms ->
  wr_live (o_script fd) (wire_size ms) -> sync (Ssl.cc ssl) ds ->
  exists ssl' fd' wire w ds', ssl_send_all ssl fd ms = Some (ssl', fd') /\
    o_sent fd' = o_sent fd ++ wire /\ length wire = wire_size ms /\
    (length wire `mod` block_size = 0)%nat /\
    wired (Ssl.padded block_size) ms w /\ sync (Ssl.cc ssl') ds' /\
    dec ds (wire ++ tail) = (w ++ (dec ds' tail).1, (dec ds' tail).2).
Proof.
  induction ms as [|m ms IH]; intros ssl fd ds tail Hwf Hfit Hlive Hsync.
  { exists ssl, fd, [], [], ds. cbn. rewrite app_nil_r. split_and!; auto; [apply Nat.Div0.mod_0_l|constructor|].
    by destruct (dec ds tail). }
  apply Forall_cons in Hfit as [Hm Hfit]. cbn [wire_size foldr] in Hlive. fold (wire_size ms) in Hlive.
  destruct (Ssl.ssl_wrexact_ok block_size enc dec junk sync laws ssl fd m (wire_size ms) Hwf Hm Hlive)
    as (pad & ssl1 & sc1 & Hl & E & Hcc & Hwf1 & Hgrow & Hlive1).
  pose proof laws as [Hb Hj He Hd Hsy Happ].
  assert (length (m ++ pad) `mod` block_size = 0)%nat as Hal by (rewrite Hl; apply Ssl.padded_mod).
  destruct (Hsy (Ssl.cc ssl) ds (m ++ pad) Hsync Hal) as [Hdec Hs1]. rewrite <- Hcc in Hs1.
  destruct (IH ssl1 (OFile sc1 (o_sent fd ++ (enc (Ssl.cc ssl) (m ++ pad)).1)) (dec ds (enc (Ssl.cc ssl) (m ++ pad)).1).2 tail Hwf1)
    as (ssl2 & fd2 & wire & w & ds2 & E2 & Hs2 & Hlw & Hmw & Hw & Hsy2 & Hd2); [|done|exact Hs1|].
  { eapply Forall_impl; [exact Hfit|]. cbn. unfold Ssl.fits. intros x [?|?]; [left; lia|by right]. }
  set (em := (enc (Ssl.cc ssl) (m ++ pad)).1) in *.
  assert (length em = length (m ++ pad)) as Hem by (apply He).
  exists ssl2, fd2, (em ++ wire), (m ++ pad ++ w), ds2. cbn [ssl_send_all]. rewrite E. split_and!; auto.
  - rewrite Hs2. cbn [o_sent]. by rewrite app_assoc.
  - rewrite length_app, Hlw, Hem, Hl. done.
  - rewrite length_app, Hem. rewrite Nat.Div0.add_mod, Hal, Hmw. apply Nat.Div0.mod_0_l.
  - by constructor.
  - rewrite <- !app_assoc. rewrite Happ by (by rewrite Hem). rewrite Hdec, Hd2. cbn [fst snd].
    by rewrite <- !app_assoc.
Qed.

(** C3. A batch that a sending slave encrypts and writes to its
    connection is parsed back by the receiving slave, however the cipher text
    arrives: the number of pages, the type words and the contents of exactly
    the pages that were present, page tables in canonical form.  The cipher
    contexts stay in step, and the receiver is left at what follows the batch.
    Since a batch without a valid page is not sent, the buffer has a page and
    is never taken for one of the markers. *)
Theorem slave_batch_roundtrip set_tsc_info tmem_restore tmem_restore_extra
    ctx live pfns errs ts region ms c ssl fd rs script tail big fuel b lc :
  (c * block_size = page_bytes)%nat -> (Ssl.padded block_size 4 <= big)%nat ->
  length errs = length pfns -> length ts = length pfns -> length region = length pfns ->
  (length pfns <= MAX_BATCH_SIZE)%nat ->
  Forall (fun p => 0 <= p < 2 ^ 28) pfns -> Forall type_word ts ->
  Forall (fun pg => length pg = page_bytes) region ->
  (Ssl.padded block_size (8 * length pfns) <= big)%nat \/
    (block_size <= 8 * length pfns /\ (8 * length pfns) `mod` block_size = 0)%nat ->
  send_batch ctx live pfns errs ts region = (ms, true) -> ms <> [] ->
  nr_pages b = 0 -> nr_physpages b = 0 ->
  (* the sender's side *)
  Ssl.wf_wrap ssl -> Forall (fun m => Ssl.fits block_size ssl (length m)) ms ->
  wr_live (o_script fd) (wire_size ms) ->
  (* the receiver's side *)
  Ssl.wf_wrap rs -> (big <= Ssl.ssl_buf_len rs)%nat -> sync (Ssl.cc ssl) (Ssl.cc rs) ->
  (length tail `mod` block_size = 0)%nat ->
  exists ssl' fd' wire, ssl_send_all ssl fd ms = Some (ssl', fd') /\ o_sent fd' = o_sent fd ++ wire /\
    (incoming false false script = wire ++ tail ->
     exists b' rs' script' ds,
      slave_pagebuf_get_one block_size enc dec junk sync laws big
        set_tsc_info tmem_restore tmem_restore_extra (S fuel) (PState b lc (rs, script)) =
        Some (Z.of_nat (length pfns), PState b' lc (rs', script')) /\
      sync (Ssl.cc ssl') ds /\ (dec (Ssl.cc rs') (incoming false false script')).1 = (dec ds tail).1 /\
      let types := (canon_types pfns errs ts).*1 in
      nr_pages b' = Z.of_nat (length pfns) /\ pfn_types b' = types /\
      pages b' = concat (present_pages ctx types region) /\
      nr_physpages b' = Z.of_nat (length (present_pages ctx types region)) /\ 0 < nr_physpages b').
Proof.
  intros Hc Hbig He Ht Hreg Hmax Hpf Htw Hpg Hcan Hsend Hne Hb1 Hb2 Hwf Hfit Hlive Hrw Hrb Hsync Htl.
  destruct (ssl_send_all_ok ms ssl fd (Ssl.cc rs) tail Hwf Hfit Hlive Hsync)
    as (ssl' & fd' & wire & w & ds & E & Hsent & Hlw & Hmw & Hwd & Hsy & Hdec).
  exists ssl', fd', wire. split; [done|]. split; [done|]. intros Hin.
  set (src := Ssl.ssl_source block_size enc dec junk sync laws big).
  pose proof (Ssl.law_block _ _ _ _ _ laws) as Hbs.
  destruct (@batch_get_one _ src set_tsc_info tmem_restore tmem_restore_extra) with
    (ctx := ctx) (live := live) (pfns := pfns) (errs := errs) (ts := ts) (region := region) (ms := ms)
    (w := w) (r := (dec ds tail).1) (fuel := fuel) (b := b) (lc := lc) (s := (rs, script))
    as (b' & [rs' script'] & Eg & Hok' & Hrest & Hres); auto.
  - intros k Hk. unfold src. cbn [src_pad src_can Ssl.ssl_source]. rewrite <- Hc.
    replace (k * (c * block_size))%nat with ((k * c) * block_size)%nat by lia.
    assert (0 < c)%nat by (destruct c; [discriminate Hc|lia]).
    split; [apply Ssl.padded_block; auto; lia|]. right. split; [nia|]. apply Nat.Div0.mod_mul.
  - left. exact Hbig.
  - unfold src. cbn [src_ok Ssl.ssl_source fst snd]. split; [done|]. split; [done|].
    rewrite Hin, length_app, Nat.Div0.add_mod, Hmw, Htl. apply Nat.Div0.mod_0_l.
  - unfold src. cbn [src_rest Ssl.ssl_source fst snd]. rewrite Hin, Hdec. done.
  - exists b', rs', script', ds. split; [exact Eg|]. split; [done|]. split; [exact Hrest|].
    destruct Hres as (H1 & H2 & H3 & H4 & H5 & _). auto.
Qed.

End Encrypted.

(** One data page with pfn 5, over the stream cipher of [Ssl]. *)
Definition demo_region : list (list Z) := [replicate page_bytes 7].
Definition demo_batch : list (list Z) := (send_batch demo_ctx true [5] [0] [0] demo_region).1.
Definition demo_ssl : Ssl.ssl_wrap Z := Ssl.SslWrap 1 4096 (replicate page_bytes 0).
Definition demo_fd : ofile := OFile (replicate (wire_size 16 demo_batch) (WOk 1)) [].
Definition demo_junk (n : nat) : list Z := replicate n 0.
Definition demo_wire : list Z :=
  match ssl_send_all 16 Ssl.toy_crypt demo_junk demo_ssl demo_fd demo_batch with
  | Some (_, fd') => o_sent fd' | None => [] end.

Lemma demo_batch_shape : exists m1 m2 m3, demo_batch = [m1; m2; m3] /\
  length m1 = 4%nat /\ length m2 = 8%nat /\ length m3 = page_bytes.
Proof. eexists _, _, _. split; [reflexivity|]. vm_compute. auto. Qed.

Lemma slave_batch_roundtrip_witness :
  exists b' st', slave_pagebuf_get_one 16 Ssl.toy_crypt Ssl.toy_crypt demo_junk eq Ssl.toy_laws 4096
    (fun _ _ _ _ => true) (fun s => (true, s)) (fun s => (true, s)) 1
    (PState pagebuf_init false (demo_ssl, [ERead (RData demo_wire)])) =
    Some (1, PState b' false st') /\ pfn_types b' = [5].
Proof.
  destruct (slave_batch_roundtrip 16 Ssl.toy_crypt Ssl.toy_crypt demo_junk eq Ssl.toy_laws
    (fun _ _ _ _ => true) (fun s => (true, s)) (fun s => (true, s))
    demo_ctx true [5] [0] [0] demo_region demo_batch 256 demo_ssl demo_fd demo_ssl
    [ERead (RData demo_wire)] [] 4096 0 pagebuf_init false)
    as (ssl' & fd' & wire & E & Hs & H).
  - reflexivity.
  - vm_compute. lia.
  - reflexivity.
  - reflexivity.
  - reflexivity.
  - unfold MAX_BATCH_SIZE. simpl. lia.
  - repeat constructor; lia.
  - repeat constructor; lia.
  - constructor; [apply length_replicate|constructor].
  - left. vm_compute. lia.
  - unfold demo_batch. vm_compute. reflexivity.
  - destruct demo_batch_shape as (m1 & m2 & m3 & -> & _). discriminate.
  - reflexivity.
  - reflexivity.
  - split. vm_compute. reflexivity.
  - destruct demo_batch_shape as (m1 & m2 & m3 & -> & H1 & H2 & H3).
    constructor; [left; rewrite H1; vm_compute; lia|].
    constructor; [left; rewrite H2; vm_compute; lia|].
    constructor; [left; rewrite H3; vm_compute; lia|constructor].
  - apply wr_live_replicate.
  - split. vm_compute. reflexivity.
  - vm_compute. lia.
  - reflexivity.
  - reflexivity.
  - destruct H as (b' & rs' & sc' & ds & Eg & _ & _ & _ & Ht & _).
    + assert (demo_wire = wire) as -> by (unfold demo_wire; rewrite E; exact Hs).
      destruct wire; reflexivity.
    + exists b', (rs', sc'). split; [exact Eg|exact Ht].
Defined.

End Stream.
