(* ===== verification/Apply.v ===== *)
(** Applying received pages to the new domain (xc_domain_restore.c).

    Models [apply_batch]: the frames a batch needs are allocated in one
    request, the page types are recorded, every page is copied to its frame
    and page tables are converted back; and the receiving slave's loop
    [receive_patch] around the parser of [Stream].

    Guest memory is a map from frame numbers to pages.  The copies go through
    a mapping of the frames in [region_mfn], so copying page [i] writes the
    frame [region_mfn[i]]. *)

From S2P Require Import Prelude IO Ssl PageTable Stream.

Module Apply.
Import IO PageTable Stream.

(** ** State *)

(** The part of [struct restore_ctx] and of the domain that a batch changes:
    the p2m table with the shared array [ctx->p2m_batch], [ctx->nr_pfns], the
    table of page types, the guest's memory and the queued updates of the
    machine-to-physical map. *)
Record rdom := RDom {
  rp2m : p2m_state;
  nr_pfns : Z;
  pfn_type : list Z;
  mem : gmap Z (list Z);
  mmu : list (Z * Z)
}.

Definition pfn_of (t : Z) : Z := t .& not_w 64 XEN_DOMCTL_PFINFO_LTAB_MASK.
Definition ltab_of (t : Z) : Z := t .& XEN_DOMCTL_PFINFO_LTAB_MASK.

Section ApplyBatch.

(** [dinfo->guest_width], [dinfo->p2m_size], [ctx->pt_levels]; whether the
    guest is an HVM guest or uses extended CR3s. *)
Context (guest_width p2m_size pt_levels : Z) (hvm pae_extended_cr3 : bool).
(** The hypervisor: frame allocation (plain and with the lock of
    [mc_xc_domain_populate_physmap_exact]), mapping errors, and whether a
    machine-to-physical update is accepted. *)
Context {A : Type} (populate : A -> list Z -> option (list Z) * A).
Context (map_err : Z -> bool) (mmu_ok : Z -> Z -> bool).

(** First pass: the frames to allocate, in the slave's own [p2m_batch]. *)
Fixpoint batch_pass1 (types : list Z) (st : p2m_state) (nr_mfns : nat) : p2m_state * nat :=
  match types with
  | [] => (st, nr_mfns)
  | t :: types' =>
      let pfn := pfn_of t in
      if negb (is_xtab t) && (p2m_get st pfn =? INVALID_P2M_ENTRY) then
        let st := batch_set st nr_mfns pfn in
        let st := p2m_set st pfn (u64 (p2m_get st pfn - 1)) in
        batch_pass1 types' st (S nr_mfns)
      else batch_pass1 types' st nr_mfns
  end.

(** Second pass: update [p2m] and fill [region_mfn]; the last component
    counts the new frames. *)
Fixpoint batch_pass2 (types : list Z) (st : p2m_state) (nr_mfns : nat)
  : list Z * p2m_state * nat :=
  match types with
  | [] => ([], st, nr_mfns)
  | t :: types' =>
      if is_xtab t then
        let '(r, st, n) := batch_pass2 types' st nr_mfns in ((2 ^ 64 - 1) :: r, st, n)
      else
        let pfn := pfn_of t in
        let '(st, nr_mfns) :=
          if p2m_get st pfn =? INVALID_P2M_ENTRY - 1
          then (p2m_set st pfn (p2m_batch st !!! nr_mfns), S nr_mfns)
          else (st, nr_mfns) in
        let mfn := if hvm then pfn else p2m_get st pfn in
        let '(r, st, n) := batch_pass2 types' st nr_mfns in (mfn :: r, st, n)
  end.

(** Page [k] of the buffer. *)
Definition nth_page (b : pagebuf) (k : nat) : list Z :=
  take page_bytes (drop (k * page_bytes) (pages b)).

(** The third loop over the entries and their mapped frames; [None] is the
    jump to [err_mapped]. *)
Fixpoint copy_pages (b : pagebuf) (curbatch : nat) (ents : list (Z * Z)) (curpage : nat)
    (d : rdom) (a : A) (nraces : Z) : option Z * rdom * A :=
  match ents with
  | [] => (Some nraces, d, a)
  | (t, frame) :: ents' =>
      let pfn := pfn_of t in
      let pagetype := ltab_of t in
      if pagetype =? XEN_DOMCTL_PFINFO_XTAB then copy_pages b curbatch ents' curpage d a nraces
      else if map_err frame then (None, d, a)
      else if pfn >? p2m_size then (None, d, a)
      else
        let mfn := p2m_get (rp2m d) pfn in
        let page := nth_page b (curpage + curbatch) in
        let inplace m pg := if verify b then m else <[frame := pg]> m in
        let d := RDom (rp2m d) (nr_pfns d) (<[Z.to_nat pfn := pagetype]> (pfn_type d))
                      (inplace (mem d) page) (mmu d) in
        let pagetype := pagetype .& XEN_DOMCTL_PFINFO_LTABTYPE_MASK in
        let finish d a :=
          if hvm then copy_pages b curbatch ents' (S curpage) d a nraces
          else if mmu_ok mfn pfn then
            copy_pages b curbatch ents' (S curpage)
              (RDom (rp2m d) (nr_pfns d) (pfn_type d) (mem d) (mmu d ++ [(mfn, pfn)])) a nraces
          else (None, d, a) in
        if (pagetype >=? XEN_DOMCTL_PFINFO_L1TAB) && (pagetype <=? XEN_DOMCTL_PFINFO_L4TAB) then
          if negb (pt_levels =? 3) || pae_extended_cr3 || negb (pagetype =? XEN_DOMCTL_PFINFO_L1TAB) then
            let '(ok, pg, st, a) :=
              uncanonicalize_pagetable guest_width p2m_size populate pt_levels a (rp2m d) page in
            let d := RDom st (nr_pfns d) (pfn_type d) (inplace (mem d) pg) (mmu d) in
            if ok then finish d a
            else copy_pages b curbatch ents' (S curpage) d a (nraces + 1)
          else finish d a
        else if negb (pagetype =? XEN_DOMCTL_PFINFO_NOTAB) then (None, d, a)
        else finish d a
  end.

(** [apply_batch]: the result, and whether the buffer went back to the pool.
    [pb] is the slave's [p2m_batch]. *)
Definition apply_batch (b : pagebuf) (curbatch : nat) (pb : list Z) (d : rdom) (a : A)
  : Z * bool * list Z * rdom * A :=
  let j := Nat.min (Z.to_nat (nr_pages b) - curbatch) MAX_BATCH_SIZE in
  let types := take j (drop curbatch (pfn_types b)) in
  let '(st1, nr_mfns) := batch_pass1 types (P2MState (p2m (rp2m d)) pb) 0 in
  let keep st := P2MState (p2m st) (p2m_batch (rp2m d)) in
  let go pb a :=
    let '(region_mfn, st2, n) := batch_pass2 types (P2MState (p2m st1) pb) 0 in
    let d := RDom (keep st2) (nr_pfns d + Z.of_nat n) (pfn_type d) (mem d) (mmu d) in
    let '(r, d, a) := copy_pages b curbatch (combine types region_mfn) 0 d a 0 in
    (default (-1) r, true, pb, d, a) in
  if decide (nr_mfns = 0%nat) then go (p2m_batch st1) a
  else
    match populate a (take nr_mfns (p2m_batch st1)) with
    | (None, a) => (-1, false, p2m_batch st1, RDom (keep st1) (nr_pfns d) (pfn_type d) (mem d) (mmu d), a)
    | (Some mfns, a) => go (write_at (p2m_batch st1) 0 mfns) a
    end.

(** ** Allocation, by the two passes of the page-table code *)

(** An entry seen as a page-table entry: present unless absent, naming its pfn. *)
Definition pte_of (t : Z) : Z := if is_xtab t then 0 else (pfn_of t .<< 12) .| 1.

Lemma pfn_of_range t : 0 <= pfn_of t < 2 ^ 64.
Proof. unfold pfn_of. apply land_range; [lia|]. by compute. Qed.

Lemma pte_of_spec t : pfn_of t < 2 ^ 28 ->
  present (pte_of t) = negb (is_xtab t) /\ (is_xtab t = false -> pte_pfn 8 (pte_of t) = pfn_of t).
Proof.
  intros Hp. pose proof (pfn_of_range t) as Hr. unfold pte_of. destruct (is_xtab t); [done|].
  assert (forall i, 0 <= i -> Z.testbit ((pfn_of t .<< 12) .| 1) i =
    (i =? 0) || Z.testbit (pfn_of t) (i - 12)) as Hb.
  { intros i Hi. rewrite Z.lor_spec, Z.shiftl_spec by lia. change 1 with (1 .<< 0).
    rewrite testbit_pow2 by lia. apply orb_comm. }
  split.
  - rewrite present_bit, Hb by lia. done.
  - intros _. apply Z.bits_inj'. intros i Hi. rewrite pte_pfn_bit, Hb by lia.
    replace (i + 12 =? 0) with false by lia. replace (i + 12 - 12) with i by lia. cbn [orb].
    change (MADDR_BITS_X86 8 - 12) with 40. destruct (Z.ltb_spec i 40); [apply andb_true_r|].
    rewrite (testbit_high (pfn_of t) 40) by lia. done.
Qed.

Definition types_ok (types : list Z) : Prop :=
  p2m_size <= 2 ^ 28 /\ Forall (fun t => is_xtab t = false -> pfn_of t < p2m_size) types.

Lemma types_ok_in_range types : types_ok types ->
  Forall (fun t => pfn_of t < 2 ^ 28) types -> in_range 8 p2m_size (pte_of <$> types).
Proof.
  intros [Hsz Hf] Hr. apply Forall_fmap. eapply Forall_impl; [apply Forall_and; split; [exact Hf|exact Hr]|].
  cbn. intros t [H1 H2] Hp. destruct (pte_of_spec t H2) as [E1 E2]. rewrite E1 in Hp.
  destruct (is_xtab t) eqn:E; [done|]. rewrite E2 by done. auto.
Qed.

Lemma batch_pass1_pte types : forall st nr,
  types_ok types -> Forall (fun t => pfn_of t < 2 ^ 28) types ->
  uncanon_pass1 8 p2m_size (pte_of <$> types) st nr = (true, (batch_pass1 types st nr).1, (batch_pass1 types st nr).2).
Proof.
  induction types as [|t types IH]; intros st nr [Hsz Hok] Hr; [done|].
  apply Forall_cons in Hok as [Ht Hok]. apply Forall_cons in Hr as [Hpt Hr].
  destruct (pte_of_spec t Hpt) as [E1 E2]. cbn [fmap list_fmap uncanon_pass1 batch_pass1].
  change (truthy (pte_of t .& _PAGE_PRESENT)) with (present (pte_of t)). rewrite E1.
  destruct (is_xtab t) eqn:E; cbn [negb andb]; [by apply IH|]. rewrite E2 by done. specialize (Ht eq_refl).
  replace (pfn_of t >=? p2m_size) with false by lia.
  destruct (_ =? _); by apply IH.
Qed.

Lemma batch_pass2_pte types : forall st nr,
  types_ok types -> Forall (fun t => pfn_of t < 2 ^ 28) types ->
  (uncanon_pass2 8 (pte_of <$> types) st nr).2 = (batch_pass2 types st nr).1.2.
Proof.
  induction types as [|t types IH]; intros st nr [Hsz Hok] Hr; [done|].
  apply Forall_cons in Hok as [Ht Hok]. apply Forall_cons in Hr as [Hpt Hr].
  destruct (pte_of_spec t Hpt) as [E1 E2]. cbn [fmap list_fmap uncanon_pass2 batch_pass2].
  change (truthy (pte_of t .& _PAGE_PRESENT)) with (present (pte_of t)). rewrite E1.
  destruct (is_xtab t) eqn:E; cbn [negb].
  - specialize (IH st nr (conj Hsz Hok) Hr). destruct (uncanon_pass2 8 (pte_of <$> types) st nr) as [? ?].
    destruct (batch_pass2 types st nr) as [[? ?] ?]. done.
  - rewrite E2 by done. destruct (p2m_get st (pfn_of t) =? INVALID_P2M_ENTRY - 1);
      match goal with |- context [uncanon_pass2 _ _ ?s ?n] =>
        specialize (IH s n (conj Hsz Hok) Hr); destruct (uncanon_pass2 8 (pte_of <$> types) s n) as [? ?];
        destruct (batch_pass2 types s n) as [[? ?] ?] end; done.
Qed.

(** A frame that was assigned stays assigned. *)
Lemma batch_pass2_stable types : forall st nr q,
  Forall (fun t => 0 <= pfn_of t) types -> 0 <= q -> p2m_get st q <> INVALID_P2M_ENTRY - 1 ->
  p2m_get (batch_pass2 types st nr).1.2 q = p2m_get st q.
Proof.
  induction types as [|t types IH]; intros st nr q Hr Hq Hne; [done|].
  apply Forall_cons in Hr as [Ht Hr]. cbn [batch_pass2]. destruct (is_xtab t).
  - specialize (IH st nr q Hr Hq Hne). by destruct (batch_pass2 types st nr) as [[? ?] ?].
  - destruct (Z.eqb_spec (p2m_get st (pfn_of t)) (INVALID_P2M_ENTRY - 1)) as [E|E].
    + assert (pfn_of t <> q) as Hpq by (intros <-; done).
      assert (p2m_get (p2m_set st (pfn_of t) (p2m_batch st !!! nr)) q = p2m_get st q) as Hs.
      { unfold p2m_get, p2m_set. cbn [p2m]. apply list_lookup_total_insert_ne. lia. }
      specialize (IH (p2m_set st (pfn_of t) (p2m_batch st !!! nr)) (S nr) q Hr Hq ltac:(by rewrite Hs)).
      rewrite Hs in IH. by destruct (batch_pass2 types _ _) as [[? ?] ?].
    + specialize (IH st nr q Hr Hq Hne). by destruct (batch_pass2 types st nr) as [[? ?] ?].
Qed.

(** Where each entry is mapped, by the final table. *)
Definition frame_of (m : list Z) (t : Z) : Z :=
  if is_xtab t then 2 ^ 64 - 1 else if hvm then pfn_of t else tget m (pfn_of t).

Lemma batch_pass2_region types : forall st nr,
  Forall (fun t => 0 <= pfn_of t) types ->
  Forall (fun t => is_xtab t = false -> pfn_of t < Z.of_nat (length (p2m st))) types ->
  Forall (fun x => x <> INVALID_P2M_ENTRY - 1) (p2m_batch st) ->
  (batch_pass2 types st nr).1.1 = frame_of (p2m (batch_pass2 types st nr).1.2) <$> types.
Proof.
  induction types as [|t types IH]; intros st nr Hr Hrg Hb; [done|].
  apply Forall_cons in Hr as [Ht Hr]. apply Forall_cons in Hrg as [Htg Hrg].
  cbn [batch_pass2 fmap list_fmap]. unfold frame_of at 1. destruct (is_xtab t) eqn:Ex.
  - specialize (IH st nr Hr Hrg Hb). destruct (batch_pass2 types st nr) as [[r st'] n]. cbn [fst snd] in *.
    by rewrite IH.
  - specialize (Htg eq_refl).
    assert (forall st1 nr1, length (p2m st1) = length (p2m st) -> p2m_batch st1 = p2m_batch st ->
      p2m_get st1 (pfn_of t) <> INVALID_P2M_ENTRY - 1 ->
      let '(r, st', n) := batch_pass2 types st1 nr1 in
      (if hvm then pfn_of t else p2m_get st1 (pfn_of t)) :: r =
      (if hvm then pfn_of t else tget (p2m st') (pfn_of t)) :: (frame_of (p2m st') <$> types)) as Hgo.
    { intros st1 nr1 Hl Hpb Hne. specialize (IH st1 nr1 Hr).
      rewrite Hl, Hpb in IH. specialize (IH Hrg Hb).
      pose proof (batch_pass2_stable types st1 nr1 (pfn_of t) Hr Ht Hne) as Hst.
      destruct (batch_pass2 types st1 nr1) as [[r st'] n]. cbn [fst snd] in *.
      rewrite IH. f_equal. destruct hvm; [done|]. by rewrite <- Hst. }
    destruct (Z.eqb_spec (p2m_get st (pfn_of t)) (INVALID_P2M_ENTRY - 1)) as [E|E].
    + specialize (Hgo (p2m_set st (pfn_of t) (p2m_batch st !!! nr)) (S nr)).
      unfold p2m_set in Hgo at 1 2. cbn [p2m p2m_batch] in Hgo. rewrite length_insert in Hgo.
      specialize (Hgo eq_refl eq_refl).
      assert (p2m_get (p2m_set st (pfn_of t) (p2m_batch st !!! nr)) (pfn_of t) = p2m_batch st !!! nr) as Hg.
      { unfold p2m_get, p2m_set. cbn [p2m]. apply list_lookup_total_insert_eq. lia. }
      rewrite Hg in *. assert (p2m_batch st !!! nr <> INVALID_P2M_ENTRY - 1) as Hne.
      { rewrite list_lookup_total_alt. destruct (p2m_batch st !! nr) as [x|] eqn:Ex2; [|done].
        by eapply Forall_lookup_1 in Hb. }
      specialize (Hgo Hne). destruct (batch_pass2 types _ _) as [[r st'] n]. exact Hgo.
    + specialize (Hgo st nr eq_refl eq_refl E). destruct (batch_pass2 types st nr) as [[r st'] n]. exact Hgo.
Qed.

(** ** Batches of data pages *)

Definition present_types (types : list Z) : list Z := filter (fun t => is_xtab t = false) types.

(** Reference: what a batch of data pages does to the memory, to the table of
    page types and to the machine-to-physical map. *)
Definition write_pages (mm : gmap Z (list Z)) (frames : list Z) (pgs : list (list Z)) : gmap Z (list Z) :=
  foldl (fun mm fp => <[fp.1 := fp.2]> mm) mm (combine frames pgs).

Definition record_types (tb : list Z) (types : list Z) : list Z :=
  foldl (fun tb t => <[Z.to_nat (pfn_of t) := ltab_of t]> tb) tb types.

Definition m2p_updates (m : list Z) (types : list Z) : list (Z * Z) :=
  if hvm then [] else (fun t => (tget m (pfn_of t), pfn_of t)) <$> types.

Definition data_type (t : Z) : Prop := ltab_of t .& XEN_DOMCTL_PFINFO_LTABTYPE_MASK = XEN_DOMCTL_PFINFO_NOTAB.

Lemma copy_pages_data b m types : forall pgs k d a,
  verify b = false -> (forall f, map_err f = false) -> (forall x y, mmu_ok x y = true) ->
  p2m (rp2m d) = m ->
  Forall (fun t => is_xtab t = false -> pfn_of t < p2m_size /\ data_type t) types ->
  length pgs = length (present_types types) ->
  (forall i pg, pgs !! i = Some pg -> nth_page b (k + i) = pg) ->
  copy_pages b 0 (combine types (frame_of m <$> types)) k d a 0 =
    (Some 0, RDom (rp2m d) (nr_pfns d) (record_types (pfn_type d) (present_types types))
       (write_pages (mem d) (frame_of m <$> present_types types) pgs)
       (mmu d ++ m2p_updates m (present_types types)), a).
Proof.
  intros pgs k d a Hv Hme Hmm. revert pgs k d.
  induction types as [|t types IH]; intros pgs k d Hm Hty Hl Hpg.
  { destruct pgs; [|done]. unfold m2p_updates. cbn. destruct d. cbn.
    destruct hvm; cbn; by rewrite app_nil_r. }
  apply Forall_cons in Hty as [Ht Hty]. cbn [combine fmap list_fmap copy_pages].
  unfold present_types in *. rewrite filter_cons in *. unfold is_xtab at 1 in Ht.
  change (t .& XEN_DOMCTL_PFINFO_LTAB_MASK) with (ltab_of t) in Ht.
  change (is_xtab t) with (ltab_of t =? XEN_DOMCTL_PFINFO_XTAB) in *.
  destruct (ltab_of t =? XEN_DOMCTL_PFINFO_XTAB) eqn:Ex.
  { case_decide as Hd; [done|]. by apply IH. }
  destruct (Ht eq_refl) as [Hpf Hdt]. case_decide as Hd; [|done].
  rewrite Hme. replace (pfn_of t >? p2m_size) with false by lia.
  unfold data_type in Hdt. rewrite Hdt. cbn [Z.geb Z.leb andb]. rewrite Hv, Hmm.
  destruct pgs as [|pg pgs]; [done|]. injection Hl as Hl.
  pose proof (Hpg 0%nat pg eq_refl) as Hp0. rewrite Nat.add_0_r in *. rewrite Hp0.
  assert (forall i pg', pgs !! i = Some pg' -> nth_page b (S k + i) = pg') as Hpg'.
  { intros i pg' Hi. specialize (Hpg (S i) pg' Hi). by rewrite Nat.add_succ_r in Hpg. }
  assert (p2m_get (rp2m d) (pfn_of t) = tget m (pfn_of t)) as Hget by (unfold p2m_get; by rewrite Hm).
  change (XEN_DOMCTL_PFINFO_NOTAB >=? XEN_DOMCTL_PFINFO_L1TAB) with false. cbn [andb].
  change (XEN_DOMCTL_PFINFO_NOTAB =? XEN_DOMCTL_PFINFO_NOTAB) with true. cbn [negb].
  unfold m2p_updates in *. destruct hvm; rewrite (IH pgs) by done; cbn [rp2m nr_pfns pfn_type mem mmu];
    cbn [fmap list_fmap combine foldl]; f_equal; f_equal; f_equal.
  by rewrite Hget, <- app_assoc.
Qed.

(** Both passes together: every present pfn has a frame afterwards, frames
    that were assigned are kept. *)
Record allocated (m m' : list Z) (types : list Z) : Prop := {
  al_length : length m' = length m;
  al_keep : forall p, 0 <= p < p2m_size -> tget m p <> INVALID_P2M_ENTRY -> tget m' p = tget m p;
  al_frame : Forall (fun t => is_xtab t = false -> frame_ok 8 (tget m' (pfn_of t))) types
}.

Definition valid_table (m : list Z) : Prop :=
  Z.of_nat (length m) = p2m_size /\
  forall p, 0 <= p < p2m_size -> tget m p = INVALID_P2M_ENTRY \/ frame_ok 8 (tget m p).

Definition unmarked_batch (pb : list Z) : Prop := Forall (fun x => x <> INVALID_P2M_ENTRY - 1) pb.

Lemma missing_small m types :
  valid_table m -> types_ok types -> Forall (fun t => pfn_of t < 2 ^ 28) types ->
  Forall (fun x => x <> INVALID_P2M_ENTRY - 1) (missing 8 m (pte_of <$> types)).
Proof.
  intros [Hl _] Hok Hr. pose proof (types_ok_in_range types Hok Hr) as Hir.
  eapply Forall_impl; [exact (missing_range 8 p2m_size m _ Hl Hir)|].
  destruct Hok as [Hsz _]. unfold INVALID_P2M_ENTRY. cbn. intros; lia.
Qed.

Lemma Forall_write_at (Q : Z -> Prop) pb off src :
  Forall Q pb -> Forall Q src -> Forall Q (write_at pb off src).
Proof.
  intros. unfold write_at. rewrite !Forall_app. split_and!; auto using Forall_take, Forall_drop.
Qed.

Lemma assign_allocated m types fs :
  valid_table m -> types_ok types -> Forall (fun t => pfn_of t < 2 ^ 28) types ->
  length fs = length (missing 8 m (pte_of <$> types)) -> Forall (frame_ok 8) fs ->
  allocated m (assign m (missing 8 m (pte_of <$> types)) fs) types.
Proof.
  intros [Hl Hv] Hok Hr Hlf Hfs. pose proof (types_ok_in_range types Hok Hr) as Hir.
  pose proof (missing_spec 8 p2m_size _ m Hl Hir) as [Hnd Hin].
  pose proof (missing_range 8 p2m_size m _ Hl Hir) as Hmr. destruct Hok as [Hsz Hty].
  split; [apply assign_length| |].
  - intros p Hp Hne. apply tget_assign_notin; auto; [lia|]. rewrite Hin. by intros (_ & ? & _).
  - apply Forall_forall. intros t Hel Hx. rewrite Forall_forall in Hty, Hr.
    pose proof (pfn_of_range t). destruct (pte_of_spec t (Hr t Hel)) as [E1 E2].
    apply (assign_valid 8 p2m_size); auto; [split; [lia|auto]|]. rewrite <- (E2 Hx).
    apply (missing_or_valid 8 p2m_size); auto.
    + by apply list_elem_of_fmap_2.
    + by rewrite E1, Hx.
    + rewrite E2 by done. split; [lia|auto].
Qed.

Lemma nth_page_concat b pgs i pg :
  pages b = concat pgs -> Forall (fun pg => length pg = page_bytes) pgs -> pgs !! i = Some pg ->
  nth_page b i = pg.
Proof.
  intros Hc Hf. unfold nth_page. rewrite Hc. clear Hc b. revert i.
  induction Hf as [|x pgs Hx Hf IH]; intros [|i] Hi; try done; cbn [concat].
  - injection Hi as <-. rewrite Nat.mul_0_l, drop_0. by apply take_app_length'.
  - change (pgs !! i = Some pg) in Hi.
    replace (S i * page_bytes)%nat with (length x + i * page_bytes)%nat by (rewrite Hx; lia).
    rewrite drop_app_add. by apply IH.
Qed.

(** Applying a batch of data pages whose frames can be mapped: every page is
    written to the frame of its pfn, which is allocated if it had none and
    kept otherwise, and nothing else of the memory changes. *)
Lemma apply_batch_data_ok b pb d a pgs :
  grants 8 populate -> verify b = false ->
  (forall f, map_err f = false) -> (forall x y, mmu_ok x y = true) ->
  valid_table (p2m (rp2m d)) -> length pb = MAX_BATCH_SIZE -> unmarked_batch pb ->
  nr_pages b = Z.of_nat (length (pfn_types b)) -> (length (pfn_types b) <= MAX_BATCH_SIZE)%nat ->
  types_ok (pfn_types b) -> Forall (fun t => pfn_of t < 2 ^ 28) (pfn_types b) ->
  Forall (fun t => is_xtab t = false -> data_type t) (pfn_types b) ->
  pages b = concat pgs -> Forall (fun pg => length pg = page_bytes) pgs ->
  length pgs = length (present_types (pfn_types b)) ->
  exists m' n pb' a',
    apply_batch b 0 pb d a =
      (0, true, pb',
       RDom (P2MState m' (p2m_batch (rp2m d))) (nr_pfns d + n)
            (record_types (pfn_type d) (present_types (pfn_types b)))
            (write_pages (mem d) (frame_of m' <$> present_types (pfn_types b)) pgs)
            (mmu d ++ m2p_updates m' (present_types (pfn_types b))), a') /\
    allocated (p2m (rp2m d)) m' (pfn_types b) /\ unmarked_batch pb'.
Proof.
  intros Hg Hver Hme Hmm Hval Hpl Hpb Hnp Hmax Hty Hr28 Hdt Hpages Hpgs Hpn.
  unfold apply_batch. rewrite Hnp, Nat2Z.id, Nat.sub_0_r, Nat.min_l, drop_0, take_ge by lia.
  set (types := pfn_types b) in *. set (m := p2m (rp2m d)) in *.
  pose proof (types_ok_in_range types Hty Hr28) as Hir. pose proof Hval as [Hml Hmv].
  set (ms := missing 8 m (pte_of <$> types)).
  assert (length ms <= MAX_BATCH_SIZE)%nat as Hms.
  { pose proof (missing_length 8 m (pte_of <$> types)) as H. rewrite length_fmap in H. fold ms in H. lia. }
  pose proof (batch_pass1_pte types (P2MState m pb) 0 Hty Hr28) as E1.
  rewrite (uncanon_pass1_ok 8 p2m_size) in E1 by (auto; fold ms; lia). fold ms in E1.
  destruct (batch_pass1 types (P2MState m pb) 0) as [st1 nr]. cbn [fst snd] in E1. simplify_eq E1. intros <- <-.
  cbn [p2m p2m_batch].
  (* the second pass and the copies, from the frames in [pb1] *)
  assert (forall pb1 fs a1, length fs = length ms -> Forall (frame_ok 8) fs ->
    take (length fs) (drop 0 pb1) = fs -> unmarked_batch pb1 ->
    exists m' n,
      (let '(region_mfn, st2, n) := batch_pass2 types (P2MState (mark m ms) pb1) 0 in
       let d' := RDom (P2MState (p2m st2) (p2m_batch (rp2m d))) (nr_pfns d + Z.of_nat n) (pfn_type d) (mem d) (mmu d) in
       let '(r, d'', a') := copy_pages b 0 (combine types region_mfn) 0 d' a1 0 in
       (default (-1) r, true, pb1, d'', a')) =
      (0, true, pb1, RDom (P2MState m' (p2m_batch (rp2m d))) (nr_pfns d + n)
         (record_types (pfn_type d) (present_types types))
         (write_pages (mem d) (frame_of m' <$> present_types types) pgs)
         (mmu d ++ m2p_updates m' (present_types types)), a1) /\ allocated m m' types) as Hgo.
  { intros pb1 fs a1 Hlf Hff Htk Hub.
    pose proof (batch_pass2_pte types (P2MState (mark m ms) pb1) 0 Hty Hr28) as E2.
    unfold ms in E2 at 1. rewrite (uncanon_pass2_ok 8 p2m_size _ m pb1 0 fs) in E2; auto;
      [|by apply (valid_unmarked 8); rewrite Hml|eapply Forall_impl; [exact Hff|apply frame_ok_real]].
    fold ms in E2. cbn [snd] in E2.
    pose proof (batch_pass2_region types (P2MState (mark m ms) pb1) 0) as E3. cbn [p2m p2m_batch] in E3.
    rewrite mark_length, Hml in E3.
    specialize (E3 ltac:(apply Forall_forall; intros; apply pfn_of_range) (proj2 Hty) Hub).
    destruct (batch_pass2 types (P2MState (mark m ms) pb1) 0) as [[region st2] n]. cbn [fst snd] in E2, E3.
    subst st2. cbn [p2m] in *. subst region. exists (assign m ms fs), (Z.of_nat n).
    rewrite (copy_pages_data b (assign m ms fs) types pgs 0); auto.
    - split; [done|]. by apply assign_allocated.
    - destruct Hty as [_ Hty]. eapply Forall_impl; [apply Forall_and; split; [exact Hty|exact Hdt]|].
      cbn. intros t [H1 H2] Hx. auto.
    - intros i pg Hi. by apply (nth_page_concat b pgs). }
  pose proof (missing_small m types Hval Hty Hr28) as Hsm. fold ms in Hsm.
  assert (unmarked_batch (write_at pb 0 ms)) as Hub1 by (by apply Forall_write_at).
  assert (length (write_at pb 0 ms) = length pb) as Hwl by (apply write_at_length; lia).
  case_decide as Hz.
  - destruct (Hgo (write_at pb 0 ms) [] a) as (m' & n & E & Hal); auto.
    exists m', n, (write_at pb 0 ms), a. auto.
  - destruct (Hg a ms Hms) as (fs & a1 & Hnf & Ep & Hlf & Hff). rewrite take_write_at, Ep by lia.
    destruct (Hgo (write_at (write_at pb 0 ms) 0 fs) fs a1) as (m' & n & E & Hal); auto.
    + apply take_drop_write_at. lia.
    + apply Forall_write_at; [done|]. eapply Forall_impl; [exact Hff|]. intros f Hf. apply frame_ok_real in Hf. apply Hf.
    + exists m', n, (write_at (write_at pb 0 ms) 0 fs), a1. split_and!; auto.
      apply Forall_write_at; [done|]. eapply Forall_impl; [exact Hff|]. intros f Hf. apply frame_ok_real in Hf. apply Hf.
Qed.

(** The pages of the entries that are present. *)
Definition data_pages (types : list Z) (region : list (list Z)) : list (list Z) :=
  (filter (fun tp => is_xtab tp.1 = false) (combine types region)).*2.

Lemma present_pages_data ctx types region :
  Forall (fun t => is_xtab t = false -> data_type t) types -> length region = length types ->
  present_pages ctx types region = data_pages types region.
Proof.
  intros Hf. unfold data_pages. revert region. induction Hf as [|t types Ht Hf IH]; intros [|pg region] Hl; try done.
  injection Hl as Hl. cbn [present_pages combine]. rewrite filter_cons. cbn [fst].
  destruct (is_xtab t) eqn:E; case_decide; try done; [by apply IH|]. cbn [fmap list_fmap snd].
  rewrite IH by done. f_equal. unfold sent_page. specialize (Ht eq_refl). unfold data_type, ltab_of in Ht.
  by rewrite Ht.
Qed.

Lemma data_pages_whole types region :
  Forall (fun pg => length pg = page_bytes) region ->
  Forall (fun pg => length pg = page_bytes) (data_pages types region).
Proof.
  intros Hf. unfold data_pages. revert types. induction Hf as [|pg region Hpg Hf IH]; intros [|t types];
    try constructor. cbn [combine]. rewrite filter_cons. case_decide; [|apply IH]. constructor; [done|apply IH].
Qed.

Lemma data_pages_length types region :
  length region = length types -> length (data_pages types region) = length (present_types types).
Proof.
  unfold data_pages, present_types. revert region. induction types as [|t types IH]; intros [|pg region] Hl; try done.
  injection Hl as Hl. cbn [combine]. rewrite !filter_cons. cbn [fst].
  case_decide; cbn [fmap list_fmap length]; rewrite IH by done; done.
Qed.

(** Type words as the sender makes them, seen by the receiver. *)
Lemma canon_type_split p e t : 0 <= p < 2 ^ 28 -> type_word t -> is_xtab (canon_type p e t).1 = false ->
  pfn_of (canon_type p e t).1 = p /\ ltab_of (canon_type p e t).1 = t /\ t <> XEN_DOMCTL_PFINFO_XTAB.
Proof.
  intros Hp Ht Hx. unfold canon_type in *. destruct (truthy e); [done|].
  destruct (Z.eqb_spec t XEN_DOMCTL_PFINFO_XTAB) as [->|Hne]; [done|]. cbn [fst] in *.
  destruct Ht as [Hn Ht]. split_and!; [| |done].
  - unfold pfn_of. apply Z.bits_inj'. intros i Hi. rewrite Z.land_spec, Z.lor_spec, testbit_not_w by lia.
    pose proof (f_equal (fun z => Z.testbit z i) Ht) as Hbt. cbn in Hbt. rewrite Z.land_spec in Hbt.
    pose proof (f_equal (fun z => Z.testbit z i) (pfn_land_mask p Hp)) as Hbp. cbn in Hbp.
    rewrite Z.land_spec, Z.testbit_0_l in Hbp.
    destruct (Z.ltb_spec i 64); [|rewrite (testbit_high p 28) by lia].
    + destruct (Z.testbit t i), (Z.testbit p i), (Z.testbit XEN_DOMCTL_PFINFO_LTAB_MASK i); done.
    + rewrite (testbit_high XEN_DOMCTL_PFINFO_LTAB_MASK 32) by (try lia; done). cbn. apply andb_false_r.
  - unfold ltab_of. rewrite Z.land_lor_distr_l, (pfn_land_mask p), Z.lor_0_r by done. done.
Qed.

Lemma canon_types_ok pfns : forall errs ts,
  length errs = length pfns -> length ts = length pfns ->
  Forall (fun p => 0 <= p < p2m_size) pfns -> p2m_size <= 2 ^ 28 -> Forall type_word ts ->
  Forall (fun t => t <> XEN_DOMCTL_PFINFO_XTAB -> data_type t) ts ->
  let types := (canon_types pfns errs ts).*1 in
  length types = length pfns /\ types_ok types /\ Forall (fun t => pfn_of t < 2 ^ 28) types /\
  Forall (fun t => is_xtab t = false -> data_type t) types.
Proof.
  induction pfns as [|p pfns IH]; intros [|e errs] [|t ts] He Ht Hp Hsz Hw Hd; try done.
  apply Forall_cons in Hp as [Hp Hps]. apply Forall_cons in Hw as [Hw Hws]. apply Forall_cons in Hd as [Hd Hds].
  destruct (IH errs ts ltac:(simpl in *; lia) ltac:(simpl in *; lia) Hps Hsz Hws Hds) as (H1 & [_ H2] & H3 & H4).
  pose proof (canon_type_split p e t ltac:(lia) Hw) as Hc.
  cbn [canon_types fmap list_fmap length]. split_and!; [lia|split; [done|]| |]; constructor; auto.
  - intros Hx. destruct (Hc Hx) as (-> & _). lia.
  - destruct (is_xtab (canon_type p e t).1) eqn:Ex; [|destruct (Hc eq_refl) as (-> & _); lia].
    unfold canon_type in *. destruct (truthy e); [done|].
    destruct (Z.eqb_spec t XEN_DOMCTL_PFINFO_XTAB) as [->|Hne]; [done|].
    destruct (canon_type_xtab p 0 t ltac:(lia) Hw) as [Hxt _]. unfold canon_type in Hxt.
    rewrite (proj2 (Z.eqb_neq _ _) Hne) in Hxt. cbn in Hxt, Ex. by rewrite Ex in Hxt.
  - intros Hx. destruct (Hc Hx) as (_ & E & Hne). specialize (Hd Hne). unfold data_type in *. rewrite E.
    unfold ltab_of in Hd. destruct Hw as [_ Hw]. by rewrite Hw in Hd.
Qed.

(** ** The receiving slave *)

Section Receive.
Context {S : Type} `{BS : ByteSource S}.
Context (set_tsc_info : Z -> Z -> Z -> Z -> bool) (tmem_restore tmem_restore_extra : S -> bool * S).

(** The state of [receive_patch]: its page buffer, [ctx->last_checkpoint], the
    connection, its [p2m_batch], the domain, the pool of page buffers, the
    buffers handed to the main thread, [recv_finish_cnt], [mc_last_iter] and
    the number of barriers answered with "OK". *)
Record rslave := RSlave {
  rs_buf : pagebuf; rs_lc : bool; rs_src : S; rs_pb : list Z; rs_dom : rdom; rs_a : A;
  rs_pool : list pagebuf; rs_main : list pagebuf;
  rs_finish : Z; rs_last : bool; rs_oks : nat
}.

(** How a turn of the loop ends. *)
Inductive turn := TStop (s : rslave) | TNext (s : rslave) | TWait (s : rslave).

(** [pagebuf_pool_dequeue], retried while the pool is empty. *)
Definition next_buf (s : rslave) : turn :=
  match rs_pool s with
  | [] => TWait s
  | b :: pool =>
      TNext (RSlave b (rs_lc s) (rs_src s) (rs_pb s) (rs_dom s) (rs_a s) pool (rs_main s)
                    (rs_finish s) (rs_last s) (rs_oks s))
  end.

(** The loop over the batches of one buffer; the buffer's counts are reset by
    the first call. *)
Fixpoint apply_loop (fuel : nat) (j curbatch : nat) (b : pagebuf) (pb : list Z) (d : rdom) (a : A)
    (pool : list pagebuf) : list Z * rdom * A * list pagebuf :=
  match fuel with
  | O => (pb, d, a, pool)
  | Datatypes.S f =>
      if decide (curbatch < j)%nat then
        let '(brc, pooled, pb, d, a) := apply_batch b curbatch pb d a in
        let b' := set_counts b 0 0 in
        let pool := if pooled : bool then pool ++ [b'] else pool in
        if brc <? 0 then (pb, d, a, pool)
        else apply_loop f j (curbatch + MAX_BATCH_SIZE) (if pooled then b' else b) pb d a pool
      else (pb, d, a, pool)
  end.

(** One turn of the loop of [receive_patch]. *)
Definition receive_turn (fuel : nat) (s : rslave) : option turn :=
  '(pagecount, st) ← get_one set_tsc_info tmem_restore tmem_restore_extra fuel
                       (PState (rs_buf s) (rs_lc s) (rs_src s));
  let b := buf st in
  let upd b pb d a pool main fin last oks :=
    RSlave b (last_checkpoint st) (source st) pb d a pool main fin last oks in
  if pagecount <=? 0 then
    Some (TStop (upd b (rs_pb s) (rs_dom s) (rs_a s) (rs_pool s) (rs_main s) (rs_finish s) (rs_last s) (rs_oks s)))
  else if (nr_pages b =? 0) && (nr_physpages b =? 1) then
    Some (TStop (upd b (rs_pb s) (rs_dom s) (rs_a s) (rs_pool s ++ [set_counts b 0 0]) (rs_main s)
                     (rs_finish s + 1) (rs_last s) (rs_oks s)))
  else if (nr_pages b =? 0) && (nr_physpages b =? 0) then
    Some (TNext (upd b (rs_pb s) (rs_dom s) (rs_a s) (rs_pool s) (rs_main s) (rs_finish s) (rs_last s)
                     (Datatypes.S (rs_oks s))))
  else if (nr_pages b =? 1) && (nr_physpages b =? 0) then
    Some (TNext (upd (set_counts b 0 0) (rs_pb s) (rs_dom s) (rs_a s) (rs_pool s) (rs_main s) (rs_finish s)
                     true (rs_oks s)))
  else if nr_pages b <=? 0 then
    Some (next_buf (upd b (rs_pb s) (rs_dom s) (rs_a s) (rs_pool s) (rs_main s ++ [b]) (rs_finish s) (rs_last s) (rs_oks s)))
  else
    let j := Z.to_nat (nr_pages b) in
    let '(pb, d, a, pool) := apply_loop (Datatypes.S j) j 0 b (rs_pb s) (rs_dom s) (rs_a s) (rs_pool s) in
    Some (next_buf (upd b pb d a pool (rs_main s) (rs_finish s) (rs_last s) (rs_oks s))).

(** C5. A batch of data pages from the sender's memory to the
    receiver's: after one turn of the receiving slave, every page that was
    present in the sender's batch is in the frame that the receiver's table
    assigns to its pfn; frames assigned before are kept, the rest of the
    memory is unchanged, and the slave holds another buffer, ready for what
    follows the batch on the connection. *)
Theorem batch_transfer ctx live pfns errs ts region ms w r fuel (s : rslave) :
  (forall k, (0 < k)%nat -> src_pad (k * page_bytes) = (k * page_bytes)%nat /\ src_can (k * page_bytes)) ->
  src_can 4 -> src_can (8 * length pfns) ->
  length errs = length pfns -> length ts = length pfns -> length region = length pfns ->
  (length pfns <= MAX_BATCH_SIZE)%nat -> p2m_size <= 2 ^ 28 ->
  Forall (fun p => 0 <= p < p2m_size) pfns -> Forall type_word ts ->
  Forall (fun t => t <> XEN_DOMCTL_PFINFO_XTAB -> data_type t) ts ->
  Forall (fun pg => length pg = page_bytes) region ->
  send_batch ctx live pfns errs ts region = (ms, true) -> ms <> [] ->
  wired src_pad ms w -> src_ok (rs_src s) -> src_rest (rs_src s) = w ++ r ->
  nr_pages (rs_buf s) = 0 -> nr_physpages (rs_buf s) = 0 -> verify (rs_buf s) = false ->
  grants 8 populate -> (forall f, map_err f = false) -> (forall x y, mmu_ok x y = true) ->
  valid_table (p2m (rp2m (rs_dom s))) -> length (rs_pb s) = MAX_BATCH_SIZE -> unmarked_batch (rs_pb s) ->
  exists s' m' types,
    receive_turn (Datatypes.S fuel) s = Some (TNext s') /\ src_ok (rs_src s') /\ src_rest (rs_src s') = r /\
    types = present_types (canon_types pfns errs ts).*1 /\
    p2m (rp2m (rs_dom s')) = m' /\ allocated (p2m (rp2m (rs_dom s))) m' types /\
    mem (rs_dom s') = write_pages (mem (rs_dom s)) (frame_of m' <$> types)
                        (data_pages (canon_types pfns errs ts).*1 region).
Proof.
  intros Hpg H4 H8 He Ht Hreg Hmax Hsz Hpf Htw Htd Hrg Hsend Hne Hw Hok Hrest Hb1 Hb2 Hv Hg Hme Hmm Hval Hpl Hpb.
  assert (Forall (fun p => 0 <= p < 2 ^ 28) pfns) as Hpf28
    by (eapply Forall_impl; [exact Hpf|]; cbn; lia).
  destruct (batch_get_one set_tsc_info tmem_restore tmem_restore_extra Hpg H4 ctx live pfns errs ts region
    ms w r fuel (rs_buf s) (rs_lc s) (rs_src s)) as (b' & src' & Eg & Hok' & Hr' & H1 & H2 & H3 & H5 & H6 & H7); auto.
  set (types := (canon_types pfns errs ts).*1) in *.
  destruct (canon_types_ok pfns errs ts He Ht Hpf Hsz Htw Htd) as (Hl & Hto & Hts & Htdt). fold types in Hl, Hto, Hts, Htdt.
  assert (length region = length types) as Hreg' by lia.
  pose proof (present_pages_data ctx types region Htdt Hreg') as Hpd.
  destruct (apply_batch_data_ok b' (rs_pb s) (rs_dom s) (rs_a s) (present_pages ctx types region))
    as (m' & n & pb' & a' & Ea & Hal & Hub); rewrite ?H2; auto; try lia.
  { by rewrite H7. }
  { rewrite Hpd. by apply data_pages_whole. }
  { rewrite Hpd. by apply data_pages_length. }
  assert (0 < length pfns)%nat as Hpos.
  { destruct pfns; [|simpl; lia]. rewrite H5 in H6. destruct types; [|simpl in Hl; lia]. simpl in H6. lia. }
  unfold receive_turn. rewrite Eg. cbn [mbind option_bind buf last_checkpoint source].
  rewrite H1. replace (Z.of_nat (length pfns) <=? 0) with false by lia.
  replace (Z.of_nat (length pfns) =? 0) with false by lia. cbn [andb].
  replace (nr_physpages b' =? 0) with false by lia. rewrite andb_false_r.
  rewrite Nat2Z.id. destruct (length pfns) as [|j] eqn:Ej; [lia|]. cbn [apply_loop].
  rewrite decide_True by lia. rewrite Ea. cbn [Z.ltb Z.compare].
  rewrite decide_False by lia.
  unfold next_buf. cbn [rs_pool]. destruct (rs_pool s ++ [set_counts b' 0 0]) as [|b2 pool] eqn:Ep; [by destruct (rs_pool s)|].
  eexists _, m', (present_types types). split; [reflexivity|]. cbn [rs_src rs_dom rp2m p2m mem].
  rewrite H2 in *. split_and!; auto.
  - destruct Hal as [A1 A2 A3]. split; auto.
    rewrite Forall_forall in A3 |- *. intros t Hin. apply A3. by apply list_elem_of_filter in Hin as [_ ?].
  - by rewrite Hpd.
Qed.

End Receive.

End ApplyBatch.

Lemma wired_id ms : wired (fun n => n) ms (concat ms).
Proof.
  induction ms as [|m ms IH]; [constructor|].
  apply (wired_cons _ m []); [by rewrite app_nil_r|done].
Qed.

(** A paravirtual guest of eight frames, none of them allocated yet. *)
Definition demo_dom : rdom :=
  RDom (P2MState (replicate 8 INVALID_P2M_ENTRY) (replicate 1024 0)) 0 (replicate 8 0) ∅ [].
Definition demo_slave : rslave (A := unit) (S := list Z) :=
  RSlave pagebuf_init false (concat demo_batch) (replicate 1024 0) demo_dom tt [] [] 0 false 0.

Lemma batch_transfer_witness :
  exists s' m', receive_turn 8 8 4 false false demo_populate (fun _ => false) (fun _ _ => true)
    (fun _ _ _ _ => true) (fun s => (true, s)) (fun s => (true, s)) 1 demo_slave = Some (TNext s') /\
    mem (rs_dom s') = {[tget m' 5 := replicate page_bytes 7]}.
Proof.
  destruct (batch_transfer 8 8 4 false false demo_populate (fun _ => false) (fun _ _ => true)
    (fun _ _ _ _ => true) (fun s => (true, s)) (fun s => (true, s))
    demo_ctx true [5] [0] [0] demo_region demo_batch (concat demo_batch) [] 0 demo_slave)
    as (s' & m' & types & E & _ & _ & Et & _ & _ & Hm).
  - intros k Hk. split; [reflexivity|exact I].
  - exact I.
  - exact I.
  - reflexivity.
  - reflexivity.
  - reflexivity.
  - unfold MAX_BATCH_SIZE. simpl. lia.
  - lia.
  - repeat constructor; lia.
  - repeat constructor; lia.
  - repeat constructor.
  - constructor; [apply length_replicate|constructor].
  - vm_compute. reflexivity.
  - destruct demo_batch_shape as (m1 & m2 & m3 & -> & _). discriminate.
  - apply wired_id.
  - exact I.
  - cbn. by rewrite app_nil_r.
  - reflexivity.
  - reflexivity.
  - reflexivity.
  - exact demo_grants.
  - reflexivity.
  - reflexivity.
  - split; [reflexivity|]. intros p Hp. left. unfold tget.
    apply list_lookup_total_correct, lookup_replicate_2. lia.
  - apply length_replicate.
  - apply Forall_replicate. discriminate.
  - exists s', m'. split; [exact E|]. rewrite Hm, Et. reflexivity.
Defined.

End Apply.
