(* ===== verification/Protocol.v ===== *)
(** The parallel transfer protocol.

    One master and [n] sending slaves share a work queue, the flag
    [sender_iter_banner.cnt] and a barrier of [n + 1] threads; each sending
    slave has a connection to a receiving slave; the [n] receiving slaves share
    the barrier [recv_iter_barr].  Meanwhile the guest runs and its writes are
    logged as dirty.  This file models the threads as a transition system that
    interleaves their steps:

    - the master: the main loop of [xc_domain_save] (scan of the pages to send,
      two barrier rounds per iteration, suspension, collection of the dirty
      pages, end of the transfer);
    - a sending slave: the loop of [send_patch];
    - a receiving slave: the loop of [receive_patch];
    - the guest: a write to a page.

    A page of a batch is read when it is sent.  Contents of pages are integers.
    The barrier of the senders releases all its threads in one step; they
    resume one by one.

    The rules of [step] for the master are from xc_domain_save.c, lines 1784 to
    2066, those of a sending slave from [send_patch] there, and those of a
    receiving slave from [receive_patch] in xc_domain_restore.c.  Three things
    are left out: failures (a thread that fails leaves the loop, and the
    transfer does not complete), the second sending of all pages with [debug]
    set, and the wait of the master while more than 100 batches are queued,
    without which there are only more interleavings. *)

From stdpp Require Import functions.
From S2P Require Import Prelude.

Module Protocol.

(** ** States *)

(** What travels on a connection: a page with its contents, or the marker
    [XC_ITERATION_BARRIER]. *)
Inductive msg := Page (p : nat) (c : Z) | Marker.

(** Where the master is: scanning the pages of the iteration; at round [r]
    (false: first, true: second) about to set [cnt] to 1, waiting at the
    barrier, or released and about to set [cnt] to 0; between two iterations;
    about to set [cnt] to 2; waiting at the barrier that ends the transfer. *)
Inductive mstate :=
| MScan | MSet (r : bool) | MBar (r : bool) | MClear (r : bool) | MNext | MEnd | MEndBar | MDone.

(** Where a sending slave is: about to dequeue; with an empty queue, about to
    read [cnt]; about to write the marker; waiting for "OK"; at the barrier;
    with a batch; at the barrier after having read [cnt] = 2; finished. *)
Inductive sstate := SLoop | SEmpty | SMark | SWaitOK | SBar | STask (t : list nat) | SEndBar | SDone.

(** A receiving slave reads, or waits at [recv_iter_barr]. *)
Inductive rstate := RRun | RBar.

#[global] Instance mstate_eq_dec : EqDecision mstate.
Proof. solve_decision. Defined.
#[global] Instance sstate_eq_dec : EqDecision sstate.
Proof. solve_decision. Defined.
#[global] Instance rstate_eq_dec : EqDecision rstate.
Proof. solve_decision. Defined.

Record state := St {
  mem : nat -> Z;         (* the guest's memory on the source *)
  rmem : nat -> Z;        (* the memory on the target *)
  dirty : gset nat;       (* pages logged as written *)
  todo : gset nat;        (* pages of [to_send] not yet scanned *)
  running : bool;         (* the guest runs *)
  cnt : nat;              (* [sender_iter_banner.cnt] *)
  queue : list (list nat);
  ms : mstate;
  sl : nat -> sstate;
  ch : nat -> list msg;
  rc : nat -> rstate;
  ok : nat -> bool        (* an "OK" is on its way back *)
}.

(** ** Steps *)

Section Steps.
(** The number of slaves, and whether an iteration may skip its barriers
    (the jump to [skip] when a scan finds no page). *)
Context (n : nat) (may_skip : bool).

Definition at_barrier (s : sstate) : Prop := s = SBar \/ s = SEndBar.

(** Released threads continue: with the loop, or past the end. *)
Definition release (s : sstate) : sstate := if decide (s = SEndBar) then SDone else SLoop.

(** Where a barrier takes the master. *)
Inductive master_release : mstate -> mstate -> Prop :=
| mr_round r : master_release (MBar r) (MClear r)
| mr_end : master_release MEndBar MDone.

Inductive step : state -> state -> Prop :=
(* the guest *)
| guest_write m rm d td c q mst s chs r o p v :
    step (St m rm d td true c q mst s chs r o)
         (St (<[p := v]> m) rm (d ∪ {[p]}) td true c q mst s chs r o)
(* the master: scan, skipping pages that are dirty again while the guest runs *)
| master_enqueue m rm d td run c q s chs r o t :
    t <> [] -> list_to_set t ⊆ td ->
    step (St m rm d td run c q MScan s chs r o)
         (St m rm d (td ∖ list_to_set t) run c (q ++ [t]) MScan s chs r o)
| master_skip m rm d td c q s chs r o p :
    p ∈ td -> p ∈ d ->
    step (St m rm d td true c q MScan s chs r o)
         (St m rm d (td ∖ {[p]}) true c q MScan s chs r o)
| master_scanned m rm d run c q s chs r o :
    step (St m rm d ∅ run c q MScan s chs r o) (St m rm d ∅ run c q (MSet false) s chs r o)
| master_goto_skip m rm d run c q s chs r o :
    may_skip = true ->
    step (St m rm d ∅ run c q MScan s chs r o) (St m rm d ∅ run c q MNext s chs r o)
| master_set m rm d td run c q s chs r o b :
    step (St m rm d td run c q (MSet b) s chs r o) (St m rm d td run 1 q (MBar b) s chs r o)
| master_clear m rm d td run c q s chs r o b :
    step (St m rm d td run c q (MClear b) s chs r o)
         (St m rm d td run 0 q (if b then MNext else MSet true) s chs r o)
(* another iteration: collect the dirty pages *)
| master_clean m rm d td c q s chs r o :
    step (St m rm d td true c q MNext s chs r o) (St m rm ∅ d true c q MScan s chs r o)
(* the last one: suspend the guest, then collect *)
| master_suspend m rm d td c q s chs r o :
    step (St m rm d td true c q MNext s chs r o) (St m rm ∅ d false c q MScan s chs r o)
| master_finish m rm d td c q s chs r o :
    step (St m rm d td false c q MNext s chs r o) (St m rm d td false c q MEnd s chs r o)
| master_end m rm d td run c q s chs r o :
    step (St m rm d td run c q MEnd s chs r o) (St m rm d td run 2 q MEndBar s chs r o)
(* the senders' barrier *)
| barrier m rm d td run c q mst mst' s chs r o :
    master_release mst mst' -> (forall i, (i < n)%nat -> at_barrier (s i)) ->
    step (St m rm d td run c q mst s chs r o)
         (St m rm d td run c q mst' (release ∘ s) chs r o)
(* a sending slave *)
| slave_dequeue m rm d td run c q t mst s chs r o i :
    (i < n)%nat -> s i = SLoop ->
    step (St m rm d td run c (t :: q) mst s chs r o)
         (St m rm d td run c q mst (<[i := STask t]> s) chs r o)
| slave_empty m rm d td run c mst s chs r o i :
    (i < n)%nat -> s i = SLoop ->
    step (St m rm d td run c [] mst s chs r o) (St m rm d td run c [] mst (<[i := SEmpty]> s) chs r o)
| slave_read_cnt m rm d td run c q mst s chs r o i :
    (i < n)%nat -> s i = SEmpty ->
    step (St m rm d td run c q mst s chs r o)
         (St m rm d td run c q mst
             (<[i := match c with 1%nat => SMark | 2%nat => SEndBar | _ => SLoop end]> s) chs r o)
| slave_page m rm d td run c q mst s chs r o i p t :
    (i < n)%nat -> s i = STask (p :: t) ->
    step (St m rm d td run c q mst s chs r o)
         (St m rm d td run c q mst (<[i := STask t]> s) (<[i := chs i ++ [Page p (m p)]]> chs) r o)
| slave_sent m rm d td run c q mst s chs r o i :
    (i < n)%nat -> s i = STask [] ->
    step (St m rm d td run c q mst s chs r o) (St m rm d td run c q mst (<[i := SLoop]> s) chs r o)
| slave_mark m rm d td run c q mst s chs r o i :
    (i < n)%nat -> s i = SMark ->
    step (St m rm d td run c q mst s chs r o)
         (St m rm d td run c q mst (<[i := SWaitOK]> s) (<[i := chs i ++ [Marker]]> chs) r o)
| slave_ok m rm d td run c q mst s chs r o i :
    (i < n)%nat -> s i = SWaitOK -> o i = true ->
    step (St m rm d td run c q mst s chs r o)
         (St m rm d td run c q mst (<[i := SBar]> s) chs r (<[i := false]> o))
(* a receiving slave *)
| recv_page m rm d td run c q mst s chs r o i p v k :
    (i < n)%nat -> r i = RRun -> chs i = Page p v :: k ->
    step (St m rm d td run c q mst s chs r o)
         (St m (<[p := v]> rm) d td run c q mst s (<[i := k]> chs) r o)
| recv_marker m rm d td run c q mst s chs r o i k :
    (i < n)%nat -> r i = RRun -> chs i = Marker :: k ->
    step (St m rm d td run c q mst s chs r o)
         (St m rm d td run c q mst s (<[i := k]> chs) (<[i := RBar]> r) o)
(* the receivers' barrier; each then answers "OK" *)
| recv_barrier m rm d td run c q mst s chs r o :
    (0 < n)%nat -> (forall i, (i < n)%nat -> r i = RBar) ->
    step (St m rm d td run c q mst s chs r o)
         (St m rm d td run c q mst s chs (fun _ => RRun) (fun i => bool_decide (i < n)%nat)).

(** At the start every page is to be sent and nothing is known to be equal. *)
Definition start (m rm : nat -> Z) (pages : gset nat) : state :=
  St m rm ∅ pages true 0 [] MScan (fun _ => SLoop) (fun _ => []) (fun _ => RRun) (fun _ => false).

Definition reachable (m rm : nat -> Z) (pages : gset nat) : state -> Prop :=
  rtc step (start m rm pages).

End Steps.

(** ** Control invariant *)

Definition pages_only (k : list msg) : Prop := Marker ∉ k.
Definition markers_only (k : list msg) : Prop := forall p c, Page p c ∉ k.

(** A slave, its connection, its receiver and the way back. *)
Definition link (s : sstate) (k : list msg) (r : rstate) (o : bool) : Prop :=
  match s with
  | SWaitOK =>
      (o = false /\ r = RRun /\ exists k', k = k' ++ [Marker] /\ pages_only k') \/
      (k = [] /\ r = RBar /\ o = false) \/ (k = [] /\ r = RRun /\ o = true)
  | SBar => k = [] /\ r = RRun /\ o = false
  | _ => pages_only k /\ r = RRun /\ o = false
  end.

(** Has the slave found the queue empty? *)
Definition past_empty (s : sstate) : Prop :=
  s = SEmpty \/ s = SMark \/ s = SWaitOK \/ s = SBar.

Definition ended (m : mstate) : bool :=
  match m with MEndBar | MDone => true | _ => false end.

(** Between the two releases of an iteration, and after the second one. *)
Definition second_round (m : mstate) : bool :=
  match m with MClear false | MSet true | MBar true => true | _ => false end.
Definition quiet (m : mstate) : bool :=
  match m with MClear true | MNext | MEnd | MEndBar | MDone => true | _ => false end.

Definition finished (m : mstate) : bool :=
  match m with MEnd | MEndBar | MDone => true | _ => false end.

Definition no_task (s : sstate) : Prop := forall t, s <> STask t.

Section Control.
Context (n : nat) (Hn : (0 < n)%nat).

Record ctl (st : state) : Prop := {
  ctl_link : forall i, (i < n)%nat -> link (sl st i) (ch st i) (rc st i) (ok st i);
  ctl_end : ended (ms st) = false ->
    cnt st <> 2%nat /\ forall i, (i < n)%nat -> sl st i <> SEndBar /\ sl st i <> SDone;
  ctl_todo : ms st <> MScan -> todo st = ∅;
  ctl_second : second_round (ms st) = true ->
    forall i, (i < n)%nat -> past_empty (sl st i) -> queue st = [];
  ctl_quiet : quiet (ms st) = true ->
    queue st = [] /\ forall i, (i < n)%nat -> no_task (sl st i) /\ markers_only (ch st i)
}.

Lemma fn_cases {A} (f : nat -> A) i x j : (<[i := x]> f) j = if decide (i = j) then x else f j.
Proof. destruct (decide (i = j)) as [->|]; [apply fn_lookup_insert|by apply fn_lookup_insert_ne]. Qed.

Ltac fn := rewrite ?fn_cases; repeat case_decide; subst; try done.

Lemma ctl_start m rm pages : ctl (start m rm pages).
Proof.
  split; cbn; try done. intros i _. split_and!; try done. apply not_elem_of_nil.
Qed.

Lemma pages_only_app k p c : pages_only k -> pages_only (k ++ [Page p c]).
Proof. unfold pages_only. rewrite elem_of_app, list_elem_of_singleton. intros H [?|?]; [auto|done]. Qed.

Lemma link_release s : at_barrier s -> forall k r o, link s k r o -> link (release s) k r o.
Proof.
  intros [->| ->] k r o; cbn; [|done]. intros (-> & -> & ->). split_and!; try done. apply not_elem_of_nil.
Qed.

Lemma pages_only_tail x k : pages_only (x :: k) -> pages_only k.
Proof. unfold pages_only. rewrite elem_of_cons. tauto. Qed.

(** Taking a page off a connection keeps the link. *)
Lemma link_recv_page s p c k r o : link s (Page p c :: k) r o -> link s k r o.
Proof.
  destruct s; cbn; try (intros (H & ? & ?); split_and!; auto; by eapply pages_only_tail);
    try (by intros (? & _)).
  intros [(? & ? & k' & E & Hk)|[(? & _)|(? & _)]]; try done. left. split_and!; auto.
  destruct k' as [|x k']; [done|]. injection E as <- ->. exists k'. split; [done|].
  by eapply pages_only_tail.
Qed.

(** A marker is taken only from a slave that waits, and it is the last message. *)
Lemma link_recv_marker s k r o : link s (Marker :: k) r o -> s = SWaitOK /\ k = [] /\ o = false.
Proof.
  destruct s; cbn; try (intros (H & _); by destruct H; left); try (by intros (? & _)).
  intros [(? & ? & k' & E & Hk)|[(? & _)|(? & _)]]; try done.
  destruct k' as [|x k']; [by injection E as ->|]. injection E as <- _. destruct Hk. left.
Qed.

Lemma link_step st st' :
  ctl st -> step n false st st' ->
  forall i, (i < n)%nat -> link (sl st' i) (ch st' i) (rc st' i) (ok st' i).
Proof.
  intros [HL _ _ _ _] Hs. destruct Hs; cbn in *; try done; intros j Hj; pose proof (HL j Hj) as Hlj.
  - apply link_release; [by auto|done].
  - fn. rewrite H0 in Hlj. exact Hlj.
  - fn. rewrite H0 in Hlj. exact Hlj.
  - fn. rewrite H0 in Hlj. destruct c as [|[|[|]]]; exact Hlj.
  - fn. rewrite H0 in Hlj. destruct Hlj as (Hk & ? & ?). split_and!; auto. by apply pages_only_app.
  - fn. rewrite H0 in Hlj. exact Hlj.
  - fn. rewrite H0 in Hlj. destruct Hlj as (Hk & ? & ?). left. split_and!; auto. by exists (chs j).
  - fn. rewrite H0 in Hlj. destruct Hlj as [(E & _)|[(_ & _ & E)|(-> & -> & _)]]; [congruence|congruence|done].
  - fn. rewrite H1 in Hlj. by eapply link_recv_page.
  - fn. rewrite H1 in Hlj. apply link_recv_marker in Hlj as (-> & -> & ->). right. left. done.
  - specialize (H0 j Hj). rewrite H0 in Hlj. rewrite bool_decide_true by done.
    destruct (s j); cbn in Hlj; try (by destruct Hlj as (_ & ? & _)).
    destruct Hlj as [(_ & ? & _)|[(-> & _ & _)|(_ & ? & _)]]; [done| |done]. right. right. done.
Qed.

Lemma end_step st st' :
  ctl st -> step n false st st' -> ended (ms st') = false ->
  cnt st' <> 2%nat /\ forall i, (i < n)%nat -> sl st' i <> SEndBar /\ sl st' i <> SDone.
Proof.
  intros [_ HE _ _ _] Hs. destruct Hs; cbn in *; try done; intros He;
    try (specialize (HE He) as [Hc HE]; split; [done|]; intros j Hj; specialize (HE j Hj); fn; auto).
  - destruct (HE eq_refl) as [_ H]. by split.
  - destruct H as [b|]; [|done]. destruct (HE eq_refl) as [Hc H]. split; [done|]. intros j Hj.
    destruct (H j Hj) as [H1 H2]. unfold release. rewrite decide_False by done. done.
  - destruct c as [|[|[|]]]; done.
Qed.

Lemma todo_step st st' : ctl st -> step n false st st' -> ms st' <> MScan -> todo st' = ∅.
Proof.
  intros [_ _ HT _ _] Hs. destruct Hs; cbn in *; try done; try (intros _; by apply HT); auto.
  - destruct H; intros _; by apply HT.
Qed.

Lemma release_past s : at_barrier s -> ~ past_empty (release s).
Proof. intros [->| ->] [H|[H|[H|H]]]; discriminate. Qed.

Lemma second_step st st' :
  ctl st -> step n false st st' -> second_round (ms st') = true ->
  forall i, (i < n)%nat -> past_empty (sl st' i) -> queue st' = [].
Proof.
  intros [_ HE _ H2 _] Hs. destruct Hs; cbn in *; try done; intros Hr j Hj Hp; try (by eapply H2).
  - destruct b; [done|]. by eapply H2.
  - destruct H as [b|]; [|done]. destruct b; [done|]. exfalso. eapply release_past; [|exact Hp]. auto.
  - (* dequeue *) rewrite fn_cases in Hp. case_decide; [subst; by destruct Hp as [|[|[|]]]|].
    by specialize (H2 Hr j Hj Hp).
  - (* read cnt *) rewrite fn_cases in Hp. case_decide as E; [|by eapply H2]. subst.
    eapply (H2 Hr j Hj). rewrite H0. by left.
  - rewrite fn_cases in Hp. case_decide; [subst; by destruct Hp as [|[|[|]]]|]. by eapply H2.
  - rewrite fn_cases in Hp. case_decide; [subst; by destruct Hp as [|[|[|]]]|]. by eapply H2.
  - rewrite fn_cases in Hp. case_decide as E; [|by eapply H2]. subst.
    eapply (H2 Hr j Hj). rewrite H0. right. by left.
  - rewrite fn_cases in Hp. case_decide as E; [|by eapply H2]. subst.
    eapply (H2 Hr j Hj). rewrite H0. right. right. by left.
Qed.

Lemma markers_only_nil : markers_only [].
Proof. intros p c. apply not_elem_of_nil. Qed.

Lemma quiet_step st st' :
  ctl st -> step n false st st' -> quiet (ms st') = true ->
  queue st' = [] /\ forall i, (i < n)%nat -> no_task (sl st' i) /\ markers_only (ch st' i).
Proof.
  intros [HL HE HT H2 HQ] Hs. destruct Hs; cbn in *; try done; intros Hq;
    try (destruct (HQ Hq) as [Q1 Q2]; split; [done|]; intros j Hj; pose proof (Q2 j Hj) as [Q3 Q4]).
  - destruct b; [|done]. by apply HQ.
  - (* the barrier *)
    assert (forall j, (j < n)%nat -> no_task (release (s j))) as Hnt.
    { intros j Hj t. unfold release. by case_decide. }
    destruct H as [b|].
    + destruct b; [|done]. destruct (HE eq_refl) as [_ HE'].
      assert (forall j, (j < n)%nat -> s j = SBar) as Hall.
      { intros j Hj. destruct (H0 j Hj) as [|E]; [done|]. by destruct (HE' j Hj). }
      split.
      * apply (H2 eq_refl 0%nat Hn). rewrite Hall by done. by do 3 right.
      * intros j Hj. split; [auto|]. pose proof (HL j Hj) as Hl. rewrite (Hall j Hj) in Hl.
        destruct Hl as (-> & _). apply markers_only_nil.
    + destruct (HQ eq_refl) as [Q1 Q2]. split; [done|]. intros j Hj. split; [auto|]. by apply Q2.
  - done.
  - fn.
  - fn. split; [|done]. destruct c as [|[|[|]]]; by intros t.
  - exfalso. destruct (Q2 i ltac:(done)) as [Q _]. by apply (Q (p :: t)).
  - fn.
  - fn. split; [by intros t|]. intros p c'. rewrite elem_of_app, list_elem_of_singleton.
    intros [Hin|Hin]; [by eapply Q4|done].
  - fn.
  - fn. split; [done|]. intros p' c'. intros Hin. eapply (Q4 p' c'). rewrite H1. by right.
  - fn. split; [done|]. intros p' c'. intros Hin. eapply (Q4 p' c'). rewrite H1. by right.
Qed.

Lemma ctl_step st st' : ctl st -> step n false st st' -> ctl st'.
Proof.
  intros Hc Hs. split.
  - by eapply link_step.
  - by eapply end_step.
  - by eapply todo_step.
  - by eapply second_step.
  - by eapply quiet_step.
Qed.

(** ** Data invariant *)

(** A page is up to date on the target, or it is going to be sent (again). *)
Definition covered (st : state) (p : nat) : Prop :=
  rmem st p = mem st p \/ p ∈ dirty st \/ p ∈ todo st \/ (exists t, t ∈ queue st /\ p ∈ t) \/
  (exists i t, (i < n)%nat /\ sl st i = STask t /\ p ∈ t) \/
  (exists i c, (i < n)%nat /\ Page p c ∈ ch st i).

Record data (pages : gset nat) (st : state) : Prop := {
  data_covered : forall p, p ∈ pages -> covered st p;
  (* what is on its way is current, or the page is dirty *)
  data_flight : forall i p c, (i < n)%nat -> Page p c ∈ ch st i -> c = mem st p \/ p ∈ dirty st;
  data_last : running st = false -> dirty st = ∅;
  (* the end is reached only with a suspended guest *)
  data_stopped : finished (ms st) = true -> running st = false
}.

Lemma data_start m rm pages : data pages (start m rm pages).
Proof.
  split; cbn; try done.
  - intros p Hp. right. right. by left.
  - intros i p c _ H. by apply not_elem_of_nil in H.
Qed.

Lemma flight_step pages st st' :
  ctl st -> data pages st -> step n false st st' ->
  forall i p c, (i < n)%nat -> Page p c ∈ ch st' i -> c = mem st' p \/ p ∈ dirty st'.
Proof.
  intros Hc [_ HK _ _] Hs. destruct Hs; cbn in *; try done; intros j pg v' Hj Hin;
    try (by apply (HK j pg v' Hj)).
  - destruct (HK j pg v' Hj Hin) as [->|]; [|set_solver].
    rewrite fn_cases. case_decide; [subst; set_solver|by left].
  - exfalso. destruct (ctl_quiet _ Hc eq_refl) as [_ HQ]. destruct (HQ j Hj) as [_ Hm]. by eapply Hm.
  - exfalso. destruct (ctl_quiet _ Hc eq_refl) as [_ HQ]. destruct (HQ j Hj) as [_ Hm]. by eapply Hm.
  - rewrite fn_cases in Hin. case_decide; [|by eapply HK]. subst.
    rewrite elem_of_app, list_elem_of_singleton in Hin. destruct Hin as [Hin|[= -> ->]]; [by eapply HK|by left].
  - rewrite fn_cases in Hin. case_decide; [|by eapply HK]. subst.
    rewrite elem_of_app, list_elem_of_singleton in Hin. destruct Hin as [Hin|Hin]; [by eapply HK|done].
  - rewrite fn_cases in Hin. case_decide; [|by eapply HK]. subst.
    eapply (HK j); [done|]. rewrite H1. by right.
  - rewrite fn_cases in Hin. case_decide; [|by eapply HK]. subst.
    eapply (HK j); [done|]. rewrite H1. by right.
Qed.

(** A slave that is not in the middle of a batch may move freely. *)
Lemma task_keep (s : nat -> sstate) i s' p :
  (forall t, s i <> STask t) ->
  (exists j t, (j < n)%nat /\ s j = STask t /\ p ∈ t) ->
  (exists j t, (j < n)%nat /\ (<[i := s']> s) j = STask t /\ p ∈ t).
Proof.
  intros Hi (j & t & Hj & Hs & Hp). exists j, t. rewrite fn_cases.
  case_decide; [subst; by destruct (Hi t)|done].
Qed.

Lemma flight_keep (k : nat -> list msg) i l p :
  (forall c, Page p c ∈ k i -> Page p c ∈ l) ->
  (exists j c, (j < n)%nat /\ Page p c ∈ k j) -> (exists j c, (j < n)%nat /\ Page p c ∈ (<[i := l]> k) j).
Proof.
  intros Hi (j & c & Hj & Hp). exists j, c. rewrite fn_cases. case_decide; [subst; auto|done].
Qed.

Ltac covered_cases H :=
  destruct H as [H|[H|[H|[H|[H|H]]]]]; cbn in H;
  [left|right; left|right; right; left|do 3 right; left|do 4 right; left|do 5 right]; cbn.

Lemma covered_step pages st st' :
  ctl st -> data pages st -> step n false st st' -> forall p, p ∈ pages -> covered st' p.
Proof.
  intros Hc [HJ HK _ _] Hs p Hp. specialize (HJ p Hp) as HJp.
  destruct Hs as [m rm d td c q mst s chs r o p0 v|m rm d td run c q s chs r o t Ht Hsub
    |m rm d td c q s chs r o p0 Ht Hd|m rm d run c q s chs r o|m rm d run c q s chs r o Hsk
    |m rm d td run c q s chs r o b|m rm d td run c q s chs r o b|m rm d td c q s chs r o
    |m rm d td c q s chs r o|m rm d td c q s chs r o|m rm d td run c q s chs r o
    |m rm d td run c q mst mst' s chs r o Hr Hall|m rm d td run c q t mst s chs r o i Hi Hs
    |m rm d td run c mst s chs r o i Hi Hs|m rm d td run c q mst s chs r o i Hi Hs
    |m rm d td run c q mst s chs r o i p0 t Hi Hs|m rm d td run c q mst s chs r o i Hi Hs
    |m rm d td run c q mst s chs r o i Hi Hs|m rm d td run c q mst s chs r o i Hi Hs Ho
    |m rm d td run c q mst s chs r o i p0 v k Hi Hr Hk|m rm d td run c q mst s chs r o i k Hi Hr Hk
    |m rm d td run c q mst s chs r o H0 Hall]; cbn in *; try exact HJp; try done.
  - (* the guest writes *)
    destruct (decide (p0 = p)) as [->|Hne]; [right; left; cbn; set_solver|].
    covered_cases HJp; auto; [by rewrite fn_cases, decide_False|set_solver].
  - (* enqueue *)
    destruct (decide (p ∈ t)); [do 3 right; left; exists t; cbn; split; [set_solver|done]|].
    covered_cases HJp; auto; [set_solver|].
    destruct HJp as (t' & ? & ?). exists t'. split; [set_solver|done].
  - destruct (decide (p = p0)) as [->|Hne]; [by right; left|]. covered_cases HJp; auto. set_solver.
  - (* collect the dirty pages *)
    destruct (ctl_quiet _ Hc eq_refl) as [Hq HQ]. pose proof (ctl_todo _ Hc ltac:(done)) as Htd. cbn in *. subst.
    destruct HJp as [H|[H|[H|[(t & H & _)|[(i & t & Hi & H & _)|(i & v & Hi & H)]]]]]; cbn in *.
    + by left. + right; right; by left. + set_solver. + set_solver.
    + by destruct (HQ i Hi) as [Hnt _]; destruct (Hnt t). + by destruct (HQ i Hi) as [_ Hm]; destruct (Hm p v).
  - destruct (ctl_quiet _ Hc eq_refl) as [Hq HQ]. pose proof (ctl_todo _ Hc ltac:(done)) as Htd. cbn in *. subst.
    destruct HJp as [H|[H|[H|[(t & H & _)|[(i & t & Hi & H & _)|(i & v & Hi & H)]]]]]; cbn in *.
    + by left. + right; right; by left. + set_solver. + set_solver.
    + by destruct (HQ i Hi) as [Hnt _]; destruct (Hnt t). + by destruct (HQ i Hi) as [_ Hm]; destruct (Hm p v).
  - covered_cases HJp; auto. destruct HJp as (i & t & Hi & H & _). destruct (Hall i Hi); congruence.
  - (* dequeue *)
    destruct HJp as [H|[H|[H|[(t' & H & Hpt)|[H|H]]]]]; cbn in *.
    + by left. + by right; left. + by right; right; left.
    + apply elem_of_cons in H as [->|H].
      * do 4 right; left. exists i, t. cbn. rewrite fn_cases, decide_True; auto.
      * do 3 right; left. cbn. eauto.
    + do 4 right; left. apply task_keep; [by rewrite Hs|done].
    + by do 5 right.
  - covered_cases HJp; auto. apply task_keep; [by rewrite Hs|done].
  - covered_cases HJp; auto. apply task_keep; [by rewrite Hs|done].
  - (* a page is sent *)
    destruct HJp as [H|[H|[H|[H|[(j & t' & Hj & H & Hpt)|H]]]]]; cbn in *.
    + by left. + by right; left. + by right; right; left. + by do 3 right; left.
    + destruct (decide (j = i)) as [->|Hne].
      * rewrite Hs in H. simplify_eq. apply elem_of_cons in Hpt as [->|Hpt].
        -- do 5 right. exists i, (m p0). cbn. rewrite fn_cases, decide_True by done. set_solver.
        -- do 4 right; left. exists i, t. cbn. rewrite fn_cases, decide_True by done. done.
      * do 4 right; left. exists j, t'. cbn. rewrite fn_cases, decide_False by done. done.
    + do 5 right. apply flight_keep; [set_solver|done].
  - destruct HJp as [H|[H|[H|[H|[(j & t' & Hj & H & Hpt)|H]]]]]; cbn in *.
    + by left. + by right; left. + by right; right; left. + by do 3 right; left.
    + destruct (decide (j = i)) as [->|Hne]; [rewrite Hs in H; simplify_eq; by apply elem_of_nil in Hpt|].
      do 4 right; left. exists j, t'. cbn. rewrite fn_cases, decide_False by done. done.
    + by do 5 right.
  - covered_cases HJp; auto; [apply task_keep; [by rewrite Hs|done]|apply flight_keep; [set_solver|done]].
  - covered_cases HJp; auto. apply task_keep; [by rewrite Hs|done].
  - (* a page arrives *)
    destruct (decide (p0 = p)) as [->|Hne].
    + destruct (HK i p v Hi) as [->|Hd]; [rewrite Hk; left|left; cbn; by rewrite fn_cases, decide_True|by right; left].
    + covered_cases HJp; auto; [by rewrite fn_cases, decide_False|].
      apply flight_keep; [|done]. intros c'. rewrite Hk, elem_of_cons. intros [[= -> _]|?]; done.
  - covered_cases HJp; auto. apply flight_keep; [|done]. intros c'. rewrite Hk, elem_of_cons. by intros [?|?].
Qed.

Lemma stopped_step st st' :
  step n false st st' -> (finished (ms st) = true -> running st = false) ->
  finished (ms st') = true -> running st' = false.
Proof.
  intros Hs HF. destruct Hs; cbn in *; auto; try done.
  - by destruct b.
  - destruct H; auto.
Qed.

Lemma data_step pages st st' : ctl st -> data pages st -> step n false st st' -> data pages st'.
Proof.
  intros Hc Hd Hs. split; [by eapply covered_step|by eapply flight_step| |].
  - destruct Hd as [_ _ HR _]. destruct Hs; cbn in *; auto; done.
  - eapply stopped_step; [done|]. by destruct Hd.
Qed.

Lemma reachable_inv m rm pages st : reachable n false m rm pages st -> ctl st /\ data pages st.
Proof.
  intros H. assert (ctl (start m rm pages) /\ data pages (start m rm pages)) as Hi
    by (split; [apply ctl_start|apply data_start]).
  induction H as [|s1 s2 s3 Hst _ IH]; [done|]. destruct Hi as [H1 H2]. apply IH.
  split; [by eapply ctl_step|by eapply data_step].
Qed.

(** In a finished state nothing is left to send, so what is covered has arrived. *)
Lemma finished_uptodate pages st p :
  ctl st -> data pages st -> finished (ms st) = true -> p ∈ pages -> rmem st p = mem st p.
Proof.
  intros Hc [HJ _ HR HF] Hfin Hp.
  destruct (ctl_quiet _ Hc) as [Hq HQ]; [by destruct (ms st)|].
  assert (todo st = ∅) as Htd by (apply (ctl_todo _ Hc); by destruct (ms st)).
  destruct (HJ p Hp) as [H|[H|[H|[(t & H & _)|[(i & t & Hi & H & _)|(i & v & Hi & H)]]]]].
  - done.
  - rewrite HR in H by auto. set_solver.
  - set_solver.
  - rewrite Hq in H. by apply elem_of_nil in H.
  - by destruct (HQ i Hi) as [Hnt _]; destruct (Hnt t).
  - by destruct (HQ i Hi) as [_ Hm]; destruct (Hm p v).
Qed.

End Control.

(** ** Properties *)

(** *** Runs

    Tactics that advance a run: by one step; by the enqueueing of page 0; by the
    sending of page 0 by a slave; by a slave that finds the end; by a round of
    the barriers with a single slave. *)
Ltac go := eapply rtc_l.
Ltac side := first [reflexivity | lia | set_solver | done].

Ltac enqueue0 :=
  go; [apply master_enqueue with (t := [0%nat]); [done|set_solver]|];
  replace (_ ∖ list_to_set [0%nat]) with (∅ : gset nat) by set_solver.

Ltac send0 j :=
  go; [eapply slave_dequeue with (i := j); side|];
  go; [eapply slave_page with (i := j); side|];
  go; [eapply slave_sent with (i := j); side|].

Ltac sees_end j :=
  go; [eapply slave_empty with (i := j); side|];
  go; [eapply slave_read_cnt with (i := j); side|].

Ltac round1 :=
  go; [eapply slave_empty with (i := 0%nat); side|];
  go; [apply master_set|];
  go; [eapply slave_read_cnt with (i := 0%nat); side|];
  go; [eapply slave_mark with (i := 0%nat); side|];
  go; [eapply recv_marker with (i := 0%nat); side|];
  go; [apply recv_barrier; [lia|intros [|i] Hi; [reflexivity|lia]]|];
  go; [eapply slave_ok with (i := 0%nat); side|];
  go; [eapply barrier; [constructor|intros [|i] Hi; [left; reflexivity|lia]]|];
  go; [apply master_clear|].

(** With two slaves: slave [j] answers a barrier with its marker; both reach
    the barrier and are released. *)
Ltac marks j :=
  go; [eapply slave_empty with (i := j); side|];
  go; [eapply slave_read_cnt with (i := j); side|];
  go; [eapply slave_mark with (i := j); side|];
  go; [eapply recv_marker with (i := j); side|].

Ltac round2 :=
  go; [apply master_set|]; marks 0%nat; marks 1%nat;
  go; [apply recv_barrier; [lia|intros [|[|i]] Hi; [reflexivity|reflexivity|lia]]|];
  go; [eapply slave_ok with (i := 0%nat); side|];
  go; [eapply slave_ok with (i := 1%nat); side|];
  go; [eapply barrier; [constructor|intros [|[|i]] Hi; [left; reflexivity|left; reflexivity|lia]]|].

(** A run with one slave: the guest writes the page after it was sent, is
    suspended, and the page is sent again. *)
Lemma complete_run :
  exists st, reachable 1 false (fun _ => 0%Z) (fun _ => 5%Z) {[0%nat]} st /\
    ms st = MEnd /\ mem st 0 = 7%Z.
Proof.
  eexists. split; [unfold reachable, start|].
  enqueue0. send0 0%nat.
  go; [apply guest_write with (p := 0%nat) (v := 7%Z)|].
  go; [eapply recv_page with (i := 0%nat); side|].
  go; [apply master_scanned|]. round1. round1.
  go; [apply master_suspend|].
  enqueue0. send0 0%nat.
  go; [eapply recv_page with (i := 0%nat); side|].
  go; [apply master_scanned|]. round1. round1.
  go; [apply master_finish|]. apply rtc_refl.
  all: split_and!; reflexivity.
Qed.

(** C1. If no iteration skips its barriers, then in every
    interleaving of the master, the sending and receiving slaves and the
    guest, when the master has left its loop over the iterations every page of
    the guest is on the target with the contents it has on the source.  In
    particular, no page is lost between the queue, the slaves, the connections
    and the dirty log, and no older copy of a page, sent on another
    connection, arrives after a newer one. *)
Theorem all_pages_arrive (n : nat) (m rm : nat -> Z) (pages : gset nat) (st : state) (p : nat) :
  (0 < n)%nat -> reachable n false m rm pages st -> finished (ms st) = true -> p ∈ pages ->
  rmem st p = mem st p.
Proof.
  intros Hn Hr Hf Hp. destruct (reachable_inv n Hn m rm pages st Hr) as [Hc Hd].
  by eapply finished_uptodate.
Qed.

Lemma all_pages_arrive_witness :
  exists st, reachable 1 false (fun _ => 0%Z) (fun _ => 5%Z) {[0%nat]} st /\ rmem st 0 = 7%Z.
Proof.
  destruct complete_run as (st & Hr & Hm & H7). exists st. split; [exact Hr|].
  rewrite <- H7. apply (all_pages_arrive 1 (fun _ => 0%Z) (fun _ => 5%Z) {[0%nat]} st 0%nat).
  - lia.
  - exact Hr.
  - rewrite Hm. reflexivity.
  - set_solver.
Defined.

(** C39. The jump to [skip], taken when the last scan of an iteration finds
    no page, leaves out both barriers, and with them the guarantee: with two
    slaves (and batches of one page) a run reaches the end with a page whose
    old copy, still on one connection when the new copy was applied from the
    other, overwrites it. *)
Theorem skip_loses_write :
  exists st, reachable 2 true (fun _ => 0%Z) (fun _ => 0%Z) {[0%nat]} st /\
    ms st = MDone /\ mem st 0 = 7%Z /\ rmem st 0 = 0%Z.
Proof.
  eexists. split; [unfold reachable, start|].
  enqueue0. send0 0%nat.
  go; [apply master_goto_skip; reflexivity|].
  go; [apply guest_write with (p := 0%nat) (v := 7%Z)|].
  go; [apply master_suspend|].
  enqueue0. send0 1%nat.
  go; [eapply recv_page with (i := 1%nat); side|].
  go; [apply master_goto_skip; reflexivity|].
  go; [apply master_finish|]. go; [apply master_end|].
  sees_end 0%nat. sees_end 1%nat.
  go; [eapply barrier; [constructor|intros [|[|i]] Hi; [right; reflexivity|right; reflexivity|lia]]|].
  go; [eapply recv_page with (i := 0%nat); side|].
  apply rtc_refl.
  all: split_and!; reflexivity.
Qed.

(** C40. The end of the transfer can block: a slave that is released from
    the last round and finds the flag still 1, before the master resets it,
    sends one more marker and waits for an answer that needs the markers of the
    other slaves, which by then wait at the end for the master's barrier.  With
    two slaves this state is reachable, without any jump to [skip], and no
    thread can take a step in it. *)
Theorem end_can_block :
  exists st, reachable 2 false (fun _ => 0%Z) (fun _ => 0%Z) ∅ st /\
    ms st = MEndBar /\ forall st', ~ step 2 false st st'.
Proof.
  eexists. split; [unfold reachable, start|].
  go; [apply master_scanned|]. round2. go; [apply master_clear|]. round2. go; [apply master_clear|].
  go; [apply master_suspend|].
  go; [apply master_scanned|]. round2. go; [apply master_clear|]. round2.
  marks 0%nat. go; [apply master_clear|].
  go; [apply master_finish|]. go; [apply master_end|]. sees_end 1%nat.
  apply rtc_refl.
  split; [reflexivity|]. intros st' Hs. inversion Hs; subst.
  all: first
    [ (* a slave or a receiver *) (destruct i as [|[|i]]; [discriminate|discriminate|lia])
    | (* a barrier *)
      match goal with H : forall i, (i < 2)%nat -> _ |- _ =>
        first [destruct (H 0%nat ltac:(lia)); discriminate | discriminate (H 1%nat ltac:(lia))] end ].
Qed.

End Protocol.
