(* ===== verification/SyncQueue.v ===== *)
(** The array queue with atomic indices.

    Models tools/libxc/mc_queue.c, mc_queue.h and mc_atomic.h: a queue of
    entries in an array, with an index of entries produced and an index of
    entries consumed that are only changed by atomic instructions.  [dequeue]
    is two atomic operations; other threads may run between them. *)

From S2P Require Import Prelude.

Module SyncQueue.

(** ** Atomic counters *)

(** [atomic_t] holds an [int]; its increments wrap around. *)
Record atomic_t := Atomic { counter : Z }.

Definition atomic_read (v : atomic_t) : Z := counter v.
Definition atomic_set (v : atomic_t) (i : Z) : atomic_t := Atomic i.
Definition atomic_inc (v : atomic_t) : atomic_t := Atomic (s32 (counter v + 1)).
(** [xadd]: the value before the increment. *)
Definition atomic_return_and_inc (v : atomic_t) : Z * atomic_t :=
  (counter v, Atomic (s32 (counter v + 1))).

(** ** The queue *)

Record sync_entry := SyncEntry { last_iter : Z; iter : Z; start_pfn : Z; len : Z }.

Record sync_queue := SyncQueue {
  total_index : atomic_t; consume_index : atomic_t; sync_list : list sync_entry
}.

(** [alloc_queue]; [mem] is what the fresh block holds, which is not
    initialised. *)
Definition alloc_queue (num_entries : nat) (mem : option sync_queue) : option sync_queue :=
  (fun q => SyncQueue (total_index q) (consume_index q) (take num_entries (sync_list q))) <$> mem.

Definition enqueue (queue : sync_queue) (len : Z) : sync_queue := queue.

(** The two halves of [dequeue]: take an index, then compare it with the
    number of entries.  An entry is given by its index; [None] is [NULL]. *)
Definition dequeue_take (queue : sync_queue) : Z * sync_queue :=
  let '(work_index, c) := atomic_return_and_inc (consume_index queue) in
  (work_index, SyncQueue (total_index queue) c (sync_list queue)).

Definition dequeue_entry (queue : sync_queue) (work_index : Z) : option Z :=
  if work_index <=? atomic_read (total_index queue) then Some work_index else None.

Definition dequeue (queue : sync_queue) : option Z * sync_queue :=
  let '(work_index, queue) := dequeue_take queue in
  (dequeue_entry queue work_index, queue).

Definition has_obj (queue : sync_queue) : bool :=
  atomic_read (consume_index queue) <? atomic_read (total_index queue).

(** ** Threads *)

(** A thread takes an index, or finishes a [dequeue] with an index it took. *)
Inductive act := Take (t : nat) | Finish (t : nat).

(** The queue, the indices taken by threads that are inside [dequeue], and
    the entries handed out. *)
Record sys := Sys { q : sync_queue; pend : list (nat * Z); out : list (nat * Z) }.

Fixpoint extract (t : nat) (l : list (nat * Z)) : option (Z * list (nat * Z)) :=
  match l with
  | [] => None
  | (u, i) :: l' =>
      if decide (t = u) then Some (i, l')
      else '(j, l'') ← extract t l'; Some (j, (u, i) :: l'')
  end.

Definition act_step (a : act) (s : sys) : sys :=
  match a with
  | Take t => let '(i, q') := dequeue_take (q s) in Sys q' ((t, i) :: pend s) (out s)
  | Finish t =>
      match extract t (pend s) with
      | None => s
      | Some (i, pend') =>
          match dequeue_entry (q s) i with
          | Some e => Sys (q s) pend' ((t, e) :: out s)
          | None => Sys (q s) pend' (out s)
          end
      end
  end.

Definition run (acts : list act) (s : sys) : sys := foldl (fun s a => act_step a s) s acts.

Lemma extract_perm t l i l' : extract t l = Some (i, l') -> l ≡ₚ (t, i) :: l'.
Proof.
  revert i l'. induction l as [|[u j] l IH]; intros i l'; cbn; [done|].
  case_decide as E; [subst; by intros [= -> ->]|].
  destruct (extract t l) as [[k l'']|]; cbn; [|done]. intros [= -> <-].
  rewrite (IH i l'') by done. apply Permutation_swap.
Qed.

(** The indices inside and out are distinct and below the consume index. *)
Record inv (s : sys) : Prop := {
  inv_nodup : NoDup ((pend s).*2 ++ (out s).*2);
  inv_below : Forall (fun i => 0 <= i < counter (consume_index (q s))) ((pend s).*2 ++ (out s).*2)
}.

Lemma inv_take t s :
  inv s -> 0 <= counter (consume_index (q s)) < 2 ^ 31 - 1 -> inv (act_step (Take t) s).
Proof.
  intros [Hn Hb] Hc. cbn. split; cbn.
  - constructor; [|done]. intros Hin. rewrite Forall_forall in Hb. specialize (Hb _ Hin). lia.
  - rewrite s32_small by lia. constructor; [lia|].
    eapply Forall_impl; [exact Hb|]. cbn. lia.
Qed.

Lemma inv_finish t s : inv s -> inv (act_step (Finish t) s).
Proof.
  intros [Hn Hb]. cbn. destruct (extract t (pend s)) as [[i p']|] eqn:E; [|done].
  apply extract_perm in E. rewrite E in Hn, Hb. cbn in Hn, Hb.
  unfold dequeue_entry. destruct (_ <=? _).
  - split; cbn; by rewrite <- Permutation_middle.
  - inversion Hn. inversion Hb. by split.
Qed.

(** How many indices a run takes. *)
Fixpoint takes (acts : list act) : Z :=
  match acts with
  | [] => 0
  | Take _ :: acts' => 1 + takes acts'
  | Finish _ :: acts' => takes acts'
  end.

Lemma takes_nonneg acts : 0 <= takes acts.
Proof. induction acts as [|[]]; cbn [takes]; lia. Qed.

Lemma inv_run acts : forall s,
  inv s -> 0 <= counter (consume_index (q s)) ->
  counter (consume_index (q s)) + takes acts <= 2 ^ 31 - 1 -> inv (run acts s).
Proof.
  unfold run. induction acts as [|a acts IH]; intros s Hi H0 Hb; [done|].
  pose proof (takes_nonneg acts). destruct a as [t|t]; cbn [foldl takes] in *.
  - apply IH; [apply inv_take; [done|lia]| |]; cbn; rewrite s32_small; lia.
  - assert (consume_index (q (act_step (Finish t) s)) = consume_index (q s)) as E.
    { cbn. destruct (extract t (pend s)) as [[i p']|]; [|done]. by destruct (dequeue_entry _ _). }
    apply IH; [by apply inv_finish| |]; by rewrite E.
Qed.

(** However the threads interleave, [dequeue] never hands out
    the same entry twice, as long as fewer than 2^31 indices were taken. *)
Theorem dequeue_distinct (acts : list act) (queue : sync_queue) :
  0 <= counter (consume_index queue) ->
  counter (consume_index queue) + takes acts <= 2 ^ 31 - 1 ->
  NoDup (out (run acts (Sys queue [] []))).*2.
Proof.
  intros H0 Hb. assert (inv (Sys queue [] [])) as Hi by (split; constructor).
  destruct (inv_run acts _ Hi H0 Hb) as [Hn _]. by apply NoDup_app in Hn as (_ & _ & Hn).
Qed.

Lemma dequeue_distinct_witness :
  let queue := SyncQueue (Atomic 5) (Atomic 0) [] in
  let s := run [Take 1; Take 2; Finish 2; Take 2; Finish 1; Finish 2] (Sys queue [] []) in
  (out s).*2 = [2; 0; 1] /\ NoDup (out s).*2.
Proof.
  split; [vm_compute; reflexivity|].
  apply (dequeue_distinct [Take 1; Take 2; Finish 2; Take 2; Finish 1; Finish 2]
           (SyncQueue (Atomic 5) (Atomic 0) [])); vm_compute; discriminate.
Defined.

(** [dequeue] hands out one entry too many: when every entry was
    consumed [has_obj] says so, but [dequeue] returns the entry after the last
    one instead of [NULL]; and [enqueue] never makes an entry available. *)
Theorem dequeue_past_end (n : Z) (l : list sync_entry) (k : Z) :
  0 <= n < 2 ^ 31 - 1 ->
  let queue := enqueue (SyncQueue (Atomic n) (Atomic n) l) k in
  has_obj queue = false /\ (dequeue queue).1 = Some n /\
  (dequeue (dequeue queue).2).1 = None.
Proof.
  intros Hn. cbn. unfold has_obj, dequeue_entry. cbn. rewrite s32_small by lia.
  rewrite Z.ltb_irrefl, Z.leb_refl.
  destruct (Z.leb_spec (n + 1) n); [lia|]. done.
Qed.

Lemma dequeue_past_end_witness :
  let queue := enqueue (SyncQueue (Atomic 3) (Atomic 3) []) 8 in
  has_obj queue = false /\ (dequeue queue).1 = Some 3 /\ (dequeue (dequeue queue).2).1 = None.
Proof. apply (dequeue_past_end 3 [] 8). lia. Defined.

End SyncQueue.
