(* ===== verification/RateLimit.v ===== *)
(** Rate limiting of the sending slaves.

    Models [mc_ratewrite], [noncached_write], [ssl_ratewrite] and the time
    functions of tools/libxc/xc_domain_save.c.  Each slave has a budget of
    bytes, refilled by [burst_budget] for every [burst_time_us] microseconds of
    the clock; a write that exceeds the budget waits for refills.

    The clock is the list of values [gettimeofday] returns, in microseconds.
    The budget is an [int]: additions wrap around.  [nanosleep] refuses a delay
    of a second or more in [tv_nsec]; the loop around it then never ends. *)

From S2P Require Import Prelude IO Ssl.

Module RateLimit.
Import IO Ssl.

(** ** Time *)

Record timeval := Timeval { tv_sec : Z; tv_usec : Z }.

Definition tv_to_us (t : timeval) : Z := tv_sec t * 1000000 + tv_usec t.
Definition tv_delta (new old : timeval) : Z :=
  (tv_sec new - tv_sec old) * 1000000 + (tv_usec new - tv_usec old).

(** What [gettimeofday] stores at [us] microseconds. *)
Definition gettimeofday (us : Z) : timeval := Timeval (us / 1000000) (us mod 1000000).

(** ** The budget of a slave *)

Definition burst_budget : Z := 400 * 1024.

(** The slave's elements of the static arrays of [mc_ratewrite]. *)
Record bucket := Bucket { budget : Z; burst_time_us : Z; last_put : timeval }.

(** The static arrays start as zeros. *)
Definition bucket0 : bucket := Bucket 0 0 (Timeval 0 0).

(** One slot of the inner loop: refill and advance [last_put]. *)
Definition put_slot (b : bucket) : bucket :=
  let usec := tv_usec (last_put b) + burst_time_us b in
  Bucket (s32 (budget b + burst_budget)) (burst_time_us b)
         (if usec >? 1000000 then Timeval (tv_sec (last_put b) + 1) (usec - 1000000)
          else Timeval (tv_sec (last_put b)) usec).

(** The inner loop; [fuel] bounds the number of slots: [delta / burst_time_us]
    is enough. *)
Fixpoint refill (fuel : nat) (b : bucket) (delta : Z) : bucket * Z :=
  match fuel with
  | O => (b, delta)
  | S f =>
      if delta >? burst_time_us b then refill f (put_slot b) (delta - burst_time_us b)
      else (b, delta)
  end.

(** How waiting ends: with a budget and the rest of the clock, in a
    [nanosleep] that fails for ever, or when the clock has no more values. *)
Inductive waited := Ready (b : bucket) (clock : list Z) | Spinning | NoClock.

(** The loop [while ( budget[id] < 0 )]. *)
Fixpoint wait_budget (clock : list Z) (b : bucket) : waited :=
  if budget b <? 0 then
    match clock with
    | [] => NoClock
    | now :: clock' =>
        let delta := tv_delta (gettimeofday now) (last_put b) in
        let '(b, delta) := refill (Z.to_nat (delta / burst_time_us b)) b delta in
        if budget b >? 0 then Ready b clock'
        else
          let nsec := 1000 * (burst_time_us b - delta) in
          if nsec >=? 1000000000 then Spinning else wait_budget clock' b
    end
  else Ready b clock.

(** [mc_ratewrite] up to the call of [noncached_write]. *)
Definition mc_ratewrite_wait (n : Z) (clock : list Z) (b : bucket) : waited :=
  let b := Bucket (s32 (budget b - n)) (burst_time_us b) (last_put b) in
  if budget b <? 0 then
    let b := if burst_time_us b =? 0 then Bucket (budget b) 10000 (last_put b) else b in
    if tv_sec (last_put b) =? 0 then
      match clock with
      | [] => NoClock
      | now :: clock' =>
          Ready (Bucket (s32 (budget b + burst_budget)) (burst_time_us b) (gettimeofday now)) clock'
      end
    else wait_budget clock b
  else Ready b clock.

(** ** Writing *)

Definition MAX_PAGECACHE_USAGE : Z := 4 * 1024.

(** [noncached_write] with its static counter; dropping the page cache does
    not change what was written.  The results: the return value, the counter
    and the descriptor. *)
Definition noncached_write (write_count : Z) (fd : ofile) (buffer : list Z)
  : option (Z * Z * ofile) :=
  '(rc, fd) ← write_exact fd buffer;
  let len := Z.of_nat (length buffer) in
  let write_count := s32 (write_count + len) in
  Some (if rc =? 0 then len else -1,
        if write_count >=? MAX_PAGECACHE_USAGE * 4096 then 0 else write_count, fd).

Inductive sent :=
| Written (rc : Z) (b : bucket) (clock : list Z) (write_count : Z) (fd : ofile)
| Hung
| Blocked.

Definition mc_ratewrite (buf : list Z) (clock : list Z) (b : bucket) (write_count : Z) (fd : ofile)
  : sent :=
  match mc_ratewrite_wait (Z.of_nat (length buf)) clock b with
  | Spinning => Hung
  | NoClock => Blocked
  | Ready b clock =>
      match noncached_write write_count fd buf with
      | None => Blocked
      | Some (rc, write_count, fd) => Written rc b clock write_count fd
      end
  end.

(** [ssl_ratewrite]: the result of the write is not looked at; the return
    value is the size of the cipher text. *)
Definition ssl_ratewrite {CS} (block_size : nat) (crypt : CS -> list Z -> list Z * CS)
    (junk : nat -> list Z) (ssl : ssl_wrap CS) (data : list Z)
    (clock : list Z) (b : bucket) (write_count : Z) (fd : ofile) : option (ssl_wrap CS * sent) :=
  match ssl_encrypt block_size crypt junk ssl data with
  | None => None
  | Some (size, ssl) =>
      match mc_ratewrite (take size (ssl_buf ssl)) clock b write_count fd with
      | Written _ b clock wc fd => Some (ssl, Written (Z.of_nat size) b clock wc fd)
      | r => Some (ssl, r)
      end
  end.

(** ** The clock of a bucket *)

Lemma tv_gettimeofday us : tv_to_us (gettimeofday us) = us.
Proof. unfold tv_to_us, gettimeofday. cbn. zlia. Qed.

Lemma tv_delta_us a b : tv_delta a b = tv_to_us a - tv_to_us b.
Proof. unfold tv_delta, tv_to_us. lia. Qed.

Lemma put_slot_us b : tv_to_us (last_put (put_slot b)) = tv_to_us (last_put b) + burst_time_us b.
Proof. unfold put_slot, tv_to_us. cbn. destruct (_ >? _); cbn; lia. Qed.

Lemma s32_le z : - 2 ^ 31 <= z -> s32 z <= z.
Proof. unfold s32. intros H. pose proof (Z.mod_le (z + 2 ^ 31) (2 ^ 32)). lia. Qed.

(** A bucket in use: the slot time is set and the times are in order. *)
Record live (b : bucket) : Prop := {
  l_burst : burst_time_us b = 10000;
  l_sec : 0 < tv_sec (last_put b);
  l_int : - 2 ^ 31 <= budget b < 2 ^ 31
}.

Lemma live_slot b : live b -> live (put_slot b).
Proof.
  intros [Hb Hs Hi]. unfold put_slot. split; cbn; [done| |apply s32_range].
  destruct (_ >? _); cbn; lia.
Qed.

(** The bytes [total] that were sent, and the budget left, are covered by the
    first burst and by the slots that passed between [t0] and [last_put]. *)
Definition paid (t0 total : Z) (b : bucket) : Prop :=
  (total + budget b) * 10000 <= burst_budget * (10000 + tv_to_us (last_put b) - t0).

Lemma paid_slot t0 total b : live b -> paid t0 total b -> paid t0 total (put_slot b).
Proof.
  unfold paid. intros [Hb _ Hi] Hp. rewrite put_slot_us, Hb.
  pose proof (s32_le (budget b + burst_budget) ltac:(unfold burst_budget; lia)).
  cbn [put_slot budget]. unfold burst_budget in *. lia.
Qed.

(** The inner loop advances [last_put] by whole slots, never past the clock,
    and leaves less than a slot. *)
Lemma refill_spec t0 total fuel : forall b delta b' delta',
  refill fuel b delta = (b', delta') -> live b -> paid t0 total b ->
  live b' /\ paid t0 total b' /\
  tv_to_us (last_put b') + delta' = tv_to_us (last_put b) + delta /\
  (delta' = delta \/ 0 < delta') /\ (delta / 10000 <= Z.of_nat fuel -> delta' <= 10000) /\
  tv_to_us (last_put b) <= tv_to_us (last_put b').
Proof.
  induction fuel as [|f IH]; intros b delta b' delta' H Hl Hp; cbn [refill] in H.
  - injection H as <- <-. split_and!; auto; [zlia|lia].
  - rewrite (l_burst _ Hl) in H. destruct (Z.gtb_spec delta 10000) as [Hd|Hd].
    + apply IH in H as (H1 & H2 & H3 & H4 & H5 & H6); [|by apply live_slot|by apply paid_slot].
      split_and!; auto.
      * rewrite put_slot_us, (l_burst _ Hl) in H3. lia.
      * right. destruct H4; lia.
      * intros Hf. apply H5. replace delta with (delta - 10000 + 1 * 10000) in Hf by lia.
        rewrite Z.div_add in Hf by lia. lia.
      * rewrite put_slot_us, (l_burst _ Hl) in H6. lia.
    + injection H as <- <-. split_and!; auto. lia.
Qed.

Lemma last_put_le t0 total b now b' delta' T fuel :
  refill fuel b (tv_delta (gettimeofday now) (last_put b)) = (b', delta') ->
  live b -> paid t0 total b -> now <= T -> tv_to_us (last_put b) <= T -> tv_to_us (last_put b') <= T.
Proof.
  intros H Hl Hp Hn Ht. rewrite tv_delta_us, tv_gettimeofday in H.
  destruct (refill_spec t0 total _ _ _ _ _ H Hl Hp) as (_ & _ & H3 & [H4|H4] & _); lia.
Qed.

Lemma wait_budget_spec t0 total T clock : forall b b' rest,
  wait_budget clock b = Ready b' rest -> live b -> paid t0 total b ->
  tv_to_us (last_put b) <= T -> Forall (fun c => c <= T) clock ->
  live b' /\ paid t0 total b' /\ 0 <= budget b' /\ tv_to_us (last_put b') <= T /\
  Forall (fun c => c <= T) rest.
Proof.
  induction clock as [|now clock IH]; intros b b' rest H Hl Hp Ht Hc; cbn [wait_budget] in H;
    destruct (Z.ltb_spec (budget b) 0) as [Hn|Hn]; try discriminate;
    try (injection H as <- <-; split_and!; auto; lia).
  inversion Hc; subst.
  destruct (refill _ _ _) as [b1 d1] eqn:E.
  pose proof (last_put_le t0 total _ _ _ _ T _ E Hl Hp ltac:(done) Ht) as Ht1.
  apply (refill_spec t0 total) in E as (Hl1 & Hp1 & _); [|done|done].
  destruct (Z.gtb_spec (budget b1) 0); [injection H as <- <-; split_and!; auto; lia|].
  destruct (_ >=? _); [discriminate|]. by apply IH in H.
Qed.

(** ** Runs of writes *)

(** The writes of a slave, one after the other. *)
Fixpoint run_writes (ns clock : list Z) (b : bucket) : waited :=
  match ns with
  | [] => Ready b clock
  | n :: ns' =>
      match mc_ratewrite_wait n clock b with
      | Ready b clock => run_writes ns' clock b
      | r => r
      end
  end.

(** The largest write: a run of 1024 pages. *)
Definition max_write : Z := 1024 * 4096.

Lemma write_spec t0 total T n clock b b' rest :
  mc_ratewrite_wait n clock b = Ready b' rest -> 0 < n <= max_write ->
  live b -> - max_write <= budget b -> paid t0 total b ->
  tv_to_us (last_put b) <= T -> Forall (fun c => c <= T) clock ->
  live b' /\ 0 <= budget b' /\ paid t0 (total + n) b' /\ tv_to_us (last_put b') <= T /\
  Forall (fun c => c <= T) rest.
Proof.
  unfold mc_ratewrite_wait, max_write. intros H Hn Hl Hb Hp Ht Hc.
  pose proof (l_int _ Hl) as Hi. cbn [budget burst_time_us last_put] in H.
  rewrite s32_small in H by lia. rewrite (l_burst _ Hl) in H. cbn [Z.eqb] in H.
  set (b1 := Bucket (budget b - n) 10000 (last_put b)) in *.
  assert (live b1) as Hl1 by (split; cbn; [done|apply Hl|lia]).
  assert (paid t0 (total + n) b1) as Hp1 by (unfold paid in *; cbn; lia).
  destruct (Z.ltb_spec (budget b - n) 0).
  - pose proof (l_sec _ Hl1). destruct (Z.eqb_spec (tv_sec (last_put b1)) 0) as [E0|E0]; [lia|].
    apply (wait_budget_spec t0 (total + n) T) in H; auto; naive_solver.
  - injection H as <- <-. split_and!; auto.
Qed.

Lemma run_writes_paid t0 T ns : forall total clock b b' rest,
  run_writes ns clock b = Ready b' rest -> Forall (fun n => 0 < n <= max_write) ns ->
  live b -> - max_write <= budget b -> paid t0 total b ->
  tv_to_us (last_put b) <= T -> Forall (fun c => c <= T) clock ->
  paid t0 (total + foldr Z.add 0 ns) b' /\ tv_to_us (last_put b') <= T /\ (ns <> [] -> 0 <= budget b').
Proof.
  induction ns as [|n ns IH]; intros total clock b b' rest H Hns Hl Hb Hp Ht Hc; cbn [run_writes foldr] in *.
  - injection H as <- <-. rewrite Z.add_0_r. done.
  - inversion Hns; subst. destruct (mc_ratewrite_wait n clock b) as [b1 r1| |] eqn:E; try discriminate.
    apply (write_spec t0 total T) in E as (Hl1 & Hb1 & Hp1 & Ht1 & Hc1); [|done..].
    pose proof H as H'. apply (IH (total + n)) in H as (R1 & R2 & R3); auto; [|unfold max_write; lia].
    rewrite Z.add_assoc. split_and!; auto. intros _.
    destruct ns; [cbn in H'; by injection H' as <- _|by apply R3].
Qed.

(** C38. The rate limit: whatever the clock does, a slave that has sent more
    than its first write has sent, by the time [T] (the latest value the clock
    gave), no more than one burst of 400 KB plus 400 KB for every 10 ms since
    its first write at [t0]. *)
Theorem rate_bounded (t0 T n0 : Z) (ns clock : list Z) (b : bucket) (rest : list Z) :
  1000000 <= t0 -> Forall (fun c => c <= T) (t0 :: clock) ->
  Forall (fun n => 0 < n <= max_write) (n0 :: ns) -> ns <> [] ->
  run_writes (n0 :: ns) (t0 :: clock) bucket0 = Ready b rest ->
  (n0 + foldr Z.add 0 ns) * 10000 <= burst_budget * (10000 + T - t0).
Proof.
  intros Ht HT Hn Hne H. inversion HT; inversion Hn; subst. cbn [run_writes] in H.
  unfold mc_ratewrite_wait, bucket0 in H. cbn [budget burst_time_us last_put tv_sec] in H.
  unfold max_write in *. rewrite s32_small in H by lia.
  destruct (Z.ltb_spec (0 - n0) 0); [|lia]. cbn [Z.eqb budget burst_time_us last_put tv_sec] in H.
  rewrite s32_small in H by (unfold burst_budget; lia).
  set (b1 := Bucket _ _ _) in H.
  assert (tv_to_us (last_put b1) = t0) as E0 by apply tv_gettimeofday.
  apply (run_writes_paid t0 T ns n0) in H as (Hp & Hl & Hb); auto.
  - unfold paid in Hp. specialize (Hb Hne). unfold burst_budget in *. lia.
  - split; cbn; [done|zlia|unfold burst_budget; lia].
  - unfold max_write, b1, burst_budget; cbn; lia.
  - unfold paid. rewrite E0. unfold b1, burst_budget; cbn; lia.
  - lia.
Qed.

Lemma rate_bounded_witness :
  (409600 + foldr Z.add 0 [4096; 4096]) * 10000 <= burst_budget * (10000 + 1020001 - 1000000).
Proof.
  eapply (rate_bounded 1000000 1020001 409600 [4096; 4096] [1005000; 1020001]).
  - lia.
  - repeat constructor; lia.
  - unfold max_write. repeat constructor; lia.
  - discriminate.
  - vm_compute. reflexivity.
Defined.

(** *** Waiting ends *)

Lemma refill_gain fuel : forall b delta b' delta',
  refill fuel b delta = (b', delta') -> live b -> budget b <= burst_budget * (500 - delta / 10000) ->
  budget b' * 10000 = budget b * 10000 + burst_budget * (tv_to_us (last_put b') - tv_to_us (last_put b)).
Proof.
  induction fuel as [|f IH]; intros b delta b' delta' H Hl Hb; cbn [refill] in H.
  - injection H as <- <-. lia.
  - rewrite (l_burst _ Hl) in H. destruct (Z.gtb_spec delta 10000) as [Hg|Hg]; [|injection H as <- <-; lia].
    assert ((delta - 10000) / 10000 = delta / 10000 - 1) as Ed.
    { replace delta with (delta - 10000 + 1 * 10000) at 2 by lia. rewrite Z.div_add by lia. lia. }
    assert (0 <= (delta - 10000) / 10000) by (apply Z.div_pos; lia).
    pose proof (l_int _ Hl) as Hi. unfold burst_budget in *.
    apply IH in H; [|by apply live_slot|].
    + rewrite put_slot_us, (l_burst _ Hl) in H. cbn [put_slot budget] in H.
      unfold burst_budget in H. rewrite s32_small in H by lia. lia.
    + cbn [put_slot budget]. unfold burst_budget. rewrite s32_small by lia. lia.
Qed.

(** One reading of the clock in the loop, within 900 ms of the start [L]:
    the budget grows with [last_put], and [nanosleep] accepts the delay. *)
Lemma reading_step L v b now b' delta' :
  refill (Z.to_nat (tv_delta (gettimeofday now) (last_put b) / burst_time_us b)) b
         (tv_delta (gettimeofday now) (last_put b)) = (b', delta') ->
  live b -> budget b <= 0 -> L <= tv_to_us (last_put b) <= L + 900000 ->
  budget b * 10000 = v * 10000 + burst_budget * (tv_to_us (last_put b) - L) ->
  L <= now <= L + 900000 ->
  live b' /\ L <= tv_to_us (last_put b') <= L + 900000 /\
  budget b' * 10000 = v * 10000 + burst_budget * (tv_to_us (last_put b') - L) /\
  now - 10000 <= tv_to_us (last_put b') /\ 1000 * (burst_time_us b' - delta') < 1000000000.
Proof.
  intros H Hl Hb HL Hv Hnow. rewrite tv_delta_us, tv_gettimeofday in H. rewrite (l_burst _ Hl) in H.
  set (delta := now - tv_to_us (last_put b)) in *.
  assert (delta / 10000 <= 90) by (unfold delta; zlia).
  pose proof (refill_gain _ _ _ _ _ H Hl ltac:(unfold burst_budget; lia)) as Hg.
  assert (paid (tv_to_us (last_put b) - 2 ^ 50) 0 b) as Hp by (unfold paid, burst_budget; pose proof (l_int _ Hl); lia).
  destruct (refill_spec _ _ _ _ _ _ _ H Hl Hp) as (Hl' & _ & H3 & H4 & H5 & H6).
  specialize (H5 ltac:(lia)). rewrite (l_burst _ Hl'). unfold delta in *.
  split_and!; [done|lia|lia|lia|lia|lia].
Qed.

Lemma wait_budget_ends L v now post pre : forall b,
  live b -> L <= tv_to_us (last_put b) <= L + 900000 ->
  budget b * 10000 = v * 10000 + burst_budget * (tv_to_us (last_put b) - L) ->
  Forall (fun c => L <= c <= L + 900000) (pre ++ [now]) ->
  v * 10000 + burst_budget * (now - 10000 - L) >= 0 ->
  exists b' rest, wait_budget (pre ++ now :: post) b = Ready b' rest.
Proof.
  induction pre as [|c pre IH]; intros b Hl HL Hv HC Hnow; cbn [app wait_budget];
    (destruct (Z.ltb_spec (budget b) 0); [|by eauto]);
    (destruct (refill _ _ _) as [b1 d1] eqn:E);
    (inversion HC as [|? ? Hc HC']; subst; cbn beta in Hc);
    (apply (reading_step L v) in E as (Hl1 & HL1 & Hv1 & Hr & Hs); [|done|lia..]);
    (destruct (Z.gtb_spec (budget b1) 0); [by eauto|]);
    (destruct (Z.geb_spec (1000 * (burst_time_us b1 - d1)) 1000000000); [lia|]).
  - unfold burst_budget in *. destruct post; cbn [wait_budget];
      (destruct (Z.ltb_spec (budget b1) 0); [lia|by eauto]).
  - by apply IH.
Qed.

(** Waiting for the budget ends: a write that overdraws the budget
    by [k] bursts returns when the clock, read any number of times, has
    advanced by [k + 1] slots (less than 900 ms in all). *)
Theorem overdraft_waits (n k now : Z) (b : bucket) (pre post : list Z) :
  let L := tv_to_us (last_put b) in
  live b -> - max_write <= budget b -> 0 < n <= max_write ->
  n <= budget b + burst_budget * k -> L + 10000 * (k + 1) <= now ->
  Forall (fun c => L <= c <= L + 900000) (pre ++ [now]) ->
  exists b' rest, mc_ratewrite_wait n (pre ++ now :: post) b = Ready b' rest.
Proof.
  intros L Hl Hb Hn Hk Hnow HC. unfold mc_ratewrite_wait. unfold max_write in *.
  pose proof (l_int _ Hl). cbn [budget burst_time_us last_put].
  rewrite s32_small by lia. rewrite (l_burst _ Hl). cbn [Z.eqb].
  set (b1 := Bucket (budget b - n) 10000 (last_put b)).
  destruct (Z.ltb_spec (budget b - n) 0); [|by eauto].
  pose proof (l_sec _ Hl). destruct (Z.eqb_spec (tv_sec (last_put b1)) 0) as [E0|_]; [cbn in E0; lia|].
  apply (wait_budget_ends L (budget b - n) now post pre); auto.
  - split; cbn; [done|done|lia].
  - cbn. unfold L. lia.
  - cbn. unfold L. lia.
  - unfold burst_budget in *. lia.
Qed.

Lemma overdraft_waits_witness :
  let b := Bucket 100 10000 (Timeval 7 0) in
  exists b' rest, mc_ratewrite_wait 1000000 ([7001000; 7002000] ++ 7050000 :: [8000000]) b = Ready b' rest.
Proof.
  apply (overdraft_waits 1000000 3 7050000 (Bucket 100 10000 (Timeval 7 0)) [7001000; 7002000] [8000000]);
    unfold max_write, burst_budget, tv_to_us; cbn; try lia.
  - split; cbn; lia.
  - repeat constructor; lia.
Defined.

(** The refill has no upper bound and the budget is an [int]: a
    slave that was idle for a minute overflows it, so that its next write waits
    although a minute's worth of budget is due; when it was idle for half a
    minute the write goes out at once. *)
Theorem idle_overflows (rest : list Z) :
  let b := Bucket 0 10000 (Timeval 1000 0) in
  (exists b', mc_ratewrite_wait 4096 (1030000000 :: rest) b = Ready b' rest) /\
  mc_ratewrite_wait 4096 [1060000000; 1070000000; 1080000000; 1090000000] b = NoClock.
Proof. split; [eexists; vm_compute; reflexivity|vm_compute; reflexivity]. Qed.

(** When the clock is set back by a second while a slave waits,
    the delay it computes is refused by [nanosleep] and the slave never
    continues, whatever the clock says later. *)
Theorem clock_back_hangs (rest : list Z) :
  mc_ratewrite_wait 4096 (999000000 :: rest) (Bucket 0 10000 (Timeval 1000 0)) = Spinning.
Proof. vm_compute. reflexivity. Qed.

(** ** Writing through the limiter *)

(** Rate limiting changes when, not what, is written: when the
    limiter lets a write through, [ssl_ratewrite] leaves the cipher state and
    the descriptor as [ssl_wrexact] does. *)
Theorem ssl_ratewrite_writes {CS} block_size crypt junk (ssl ssl1 : ssl_wrap CS) data clock b wc fd rc b' clock' wc' fd' :
  ssl_ratewrite block_size crypt junk ssl data clock b wc fd = Some (ssl1, Written rc b' clock' wc' fd') ->
  ssl_wrexact block_size crypt junk ssl fd data = Some (0, ssl1, fd').
Proof.
  unfold ssl_ratewrite, ssl_wrexact, mc_ratewrite, noncached_write.
  destruct (ssl_encrypt _ _ _ _ _) as [[size ssl']|]; [|done].
  destruct (mc_ratewrite_wait _ _ _); [|done..].
  destruct (write_exact _ _) as [[r f]|]; cbn; [|done]. by intros [= <- _ _ _ _ <-].
Qed.

Lemma ssl_ratewrite_writes_witness :
  let enc (k : Z) (x : list Z) := (x, k) in
  let ssl := SslWrap 0 16 (replicate 16 0) in
  ssl_wrexact 16 enc (fun n => replicate n 0) ssl (OFile [WOk 16] []) [1; 2]
  = Some (0, SslWrap 0 16 ([1; 2] ++ replicate 14 0), OFile [] ([1; 2] ++ replicate 14 0)).
Proof.
  eapply (ssl_ratewrite_writes 16 (fun (k : Z) (x : list Z) => (x, k)) (fun n => replicate n 0)
           (SslWrap 0 16 (replicate 16 0)) _ [1; 2] [5000000] bucket0 0).
  vm_compute. reflexivity.
Defined.

End RateLimit.
