(* ===== verification/SaveLoop.v ===== *)
(** The main loop of the sender.

    Models the part of [xc_domain_save] (tools/libxc/xc_domain_save.c) that
    decides which pages are sent: the scan that fills a batch, an iteration
    over the guest's pages, and the loop over the iterations with its stopping
    conditions, the suspension of the guest and the collection of dirty pages.

    The bitmaps are those of [Bitmap]; [completed] selects the variant of the
    scan that skips empty words.  The hypercalls and callbacks are the fields
    of an environment. *)

From S2P Require Import Prelude Bitmap PageTable.

Module SaveLoop.
Import Bitmap PageTable.

(** ** Filling a batch *)

(** The loop's variables: [N], the batch ([pfn_batch] with [pfn_type]),
    [to_fix], [skip_this_iter] and [needed_to_fix]. *)
Record scan_state := Scan {
  sN : Z; s_batch : list (Z * Z); s_fix : list Z; s_skip : Z; s_needed : Z
}.

Section Scan.
(** [dinfo->p2m_size], [completed], [last_iter], the bitmaps, and what goes to
    [pfn_type] for a page: its number for an HVM guest, [pfn_to_mfn] of it
    otherwise. *)
Context (p2m_size : Z) (completed last_iter : bool) (to_send to_skip : list Z) (typ : Z -> Z).

(** Condition of the three numbered cases of the code. *)
Definition selected (to_fix : list Z) (n : Z) : bool :=
  (bit to_send n && negb (bit to_skip n)) || (bit to_send n && last_iter) || (bit to_fix n && last_iter).

(** The body of the [for] loop, with its [N++]. *)
Definition scan_page (st : scan_state) : scan_state :=
  let n := sN st in
  if completed then
    if default 0 (to_send !! Z.to_nat (n .>> ORDER_LONG)) =? 0
    then Scan (n + (BITS_PER_LONG - 1) + 1) (s_batch st) (s_fix st) (s_skip st) (s_needed st)
    else if negb (bit to_send n)
    then Scan (n + 1) (s_batch st) (s_fix st) (s_skip st) (s_needed st)
    else Scan (n + 1) (s_batch st ++ [(n, typ n)]) (s_fix st) (s_skip st) (s_needed st)
  else
    let skip := if negb last_iter && bit to_send n && bit to_skip n then s_skip st + 1 else s_skip st in
    if negb (selected (s_fix st) n) then Scan (n + 1) (s_batch st) (s_fix st) skip (s_needed st)
    else if negb (is_mapped (typ n)) then Scan (n + 1) (s_batch st) (set_bit n (s_fix st)) skip (s_needed st)
    else
      let needed := if last_iter && bit (s_fix st) n && negb (bit to_send n)
                    then s_needed st + 1 else s_needed st in
      Scan (n + 1) (s_batch st ++ [(n, typ n)]) (clear_bit n (s_fix st)) skip needed.

(** The [for] loop; a page at least is passed in each turn. *)
Fixpoint scan_loop (fuel : nat) (st : scan_state) : scan_state :=
  match fuel with
  | O => st
  | S f =>
      if decide (length (s_batch st) < MAX_BATCH_SIZE)%nat
      then if sN st <? p2m_size then scan_loop f (scan_page st) else st
      else st
  end.

Definition scan (st : scan_state) : scan_state := scan_loop (Z.to_nat (p2m_size - sN st)) st.

(** *** What a scan does *)

(** What page [n] adds to the batch, and its bit of [to_fix] afterwards. *)
Definition picked (fix0 : list Z) (n : Z) : list (Z * Z) :=
  if completed then if bit to_send n then [(n, typ n)] else []
  else if selected fix0 n && is_mapped (typ n) then [(n, typ n)] else [].

Definition fixed (fix0 : list Z) (n : Z) : bool :=
  if completed then bit fix0 n
  else if selected fix0 n then negb (is_mapped (typ n)) else bit fix0 n.

Definition range (a b : Z) : list Z := seqZ a (Z.min b p2m_size - a).

(** The scan is at the start of a word or inside a word that is not empty. *)
Definition aligned (n : Z) : Prop :=
  completed = true -> n mod 64 = 0 \/ BITMAP_ENTRY n to_send <> 0.

Record scanned (a : Z) (batch0 : list (Z * Z)) (fix0 : list Z) (st : scan_state) : Prop := {
  sc_from : a <= sN st;
  sc_aligned : aligned (sN st);
  sc_wf : wf_bitmap p2m_size (s_fix st);
  sc_batch : s_batch st = batch0 ++ (range a (sN st) ≫= picked fix0);
  sc_fix : forall m, 0 <= m < p2m_size ->
    bit (s_fix st) m = if (a <=? m) && (m <? sN st) then fixed fix0 m else bit fix0 m
}.

Lemma range_nil a : range a a = [].
Proof. unfold range. apply seqZ_nil. lia. Qed.

Lemma range_split a b c : a <= b <= c -> b <= p2m_size -> range a c = range a b ++ range b c.
Proof.
  intros H Hb. unfold range. rewrite (Z.min_l b) by lia.
  replace (Z.min c p2m_size - a) with ((b - a) + (Z.min c p2m_size - b)) by lia.
  rewrite seqZ_app by lia. by replace (a + (b - a)) with b by lia.
Qed.

Lemma range_one n : n < p2m_size -> range n (n + 1) = [n].
Proof.
  intros H. unfold range. rewrite Z.min_l by lia. replace (n + 1 - n) with 1 by lia.
  rewrite seqZ_cons by lia. by rewrite seqZ_nil by lia.
Qed.

Lemma word_entry n : 0 <= n -> default 0 (to_send !! Z.to_nat (n .>> ORDER_LONG)) = BITMAP_ENTRY n to_send.
Proof.
  intros Hn. unfold ORDER_LONG, BITMAP_ENTRY, BITS_PER_LONG. rewrite Z.shiftr_div_pow2 by lia.
  done.
Qed.

Lemma empty_word n m : BITMAP_ENTRY n to_send = 0 -> 0 <= n -> n mod 64 = 0 -> n <= m < n + 64 -> bit to_send m = false.
Proof.
  intros H Hn Ha Hm. rewrite bit_testbit. unfold BITMAP_ENTRY, BITS_PER_LONG in *.
  replace (m / 64) with (n / 64) by zlia. rewrite H. apply Z.testbit_0_l.
Qed.

Lemma picked_none fix0 l : (forall m, m ∈ l -> picked fix0 m = []) -> l ≫= picked fix0 = [].
Proof.
  induction l as [|m l IH]; intros H; [done|]. cbn. rewrite H by left. apply IH.
  intros m' Hm. apply H. by right.
Qed.

(** A page that adds [p] to the batch and sets its bit of [to_fix] to [f]. *)
Lemma scanned_next a batch0 fix0 st batch' fix' skip' needed' :
  scanned a batch0 fix0 st -> 0 <= a -> sN st < p2m_size ->
  batch' = s_batch st ++ picked fix0 (sN st) ->
  wf_bitmap p2m_size fix' ->
  (forall m, 0 <= m < p2m_size ->
     bit fix' m = if m =? sN st then fixed fix0 (sN st) else bit (s_fix st) m) ->
  aligned (sN st + 1) ->
  scanned a batch0 fix0 (Scan (sN st + 1) batch' fix' skip' needed').
Proof.
  intros [Hf Hal Hwf Hb Hx] Ha Hlt -> Hwf' Hfix Hal'. split; cbn; try done.
  - lia.
  - rewrite Hb, (range_split a (sN st) (sN st + 1)), bind_app, range_one by lia.
    cbn. by rewrite app_nil_r, app_assoc.
  - intros m Hm. rewrite Hfix by done. destruct (Z.eqb_spec m (sN st)) as [->|Hne].
    + by replace ((a <=? sN st) && (sN st <? sN st + 1)) with true by lia.
    + rewrite Hx by done. by replace (m <? sN st + 1) with (m <? sN st) by lia.
Qed.

Lemma sel_fix a batch0 fix0 st : scanned a batch0 fix0 st -> 0 <= a -> sN st < p2m_size ->
  bit (s_fix st) (sN st) = bit fix0 (sN st).
Proof.
  intros [Hf _ _ _ Hx] Ha Hlt. rewrite Hx by lia. by replace (sN st <? sN st) with false by lia; rewrite andb_false_r.
Qed.

(** A page inside a word that is not empty. *)
Lemma aligned_next n : 0 <= n -> (completed = true -> BITMAP_ENTRY n to_send <> 0) -> aligned (n + 1).
Proof.
  intros Hn H Hc. specialize (H Hc). destruct (decide ((n + 1) mod 64 = 0)); [by left|right].
  unfold BITMAP_ENTRY, BITS_PER_LONG in *. by replace ((n + 1) / 64) with (n / 64) by zlia.
Qed.

Lemma scanned_skip a batch0 fix0 st :
  completed = true -> scanned a batch0 fix0 st -> 0 <= a -> sN st < p2m_size ->
  BITMAP_ENTRY (sN st) to_send = 0 ->
  scanned a batch0 fix0 (Scan (sN st + (BITS_PER_LONG - 1) + 1) (s_batch st) (s_fix st) (s_skip st) (s_needed st)).
Proof.
  intros Hc [Hf Hal Hwf Hb Hx] Ha Hlt H0. destruct (Hal Hc) as [Hm|]; [|done].
  replace (sN st + (BITS_PER_LONG - 1) + 1) with (sN st + 64) by (unfold BITS_PER_LONG; lia).
  split; cbn; try done.
  - lia.
  - intros _. left. zlia.
  - rewrite Hb, (range_split a (sN st) (sN st + 64)), bind_app by lia.
    rewrite (picked_none _ (range (sN st) (sN st + 64))); [by rewrite app_nil_r|].
    intros m Hin. unfold range in Hin. apply elem_of_seqZ in Hin.
    unfold picked. rewrite Hc, (empty_word (sN st)); auto; lia.
  - intros m Hm'. rewrite Hx by done. unfold fixed. rewrite Hc.
    by destruct (a <=? m), (m <? sN st), (m <? sN st + 64).
Qed.

Lemma scanned_page a batch0 fix0 st :
  scanned a batch0 fix0 st -> 0 <= a -> sN st < p2m_size -> scanned a batch0 fix0 (scan_page st).
Proof.
  intros H Ha Hlt. pose proof (sc_from _ _ _ _ H) as Hfrom. pose proof (sc_wf _ _ _ _ H) as Hwf.
  pose proof (sel_fix _ _ _ _ H Ha Hlt) as Hsf.
  assert (forall m, bit (s_fix st) m = if m =? sN st then bit (s_fix st) (sN st) else bit (s_fix st) m) as Hsame.
  { intros m. by destruct (Z.eqb_spec m (sN st)) as [->|]. }
  unfold scan_page. destruct completed eqn:Ec.
  - rewrite word_entry by lia. destruct (Z.eqb_spec (BITMAP_ENTRY (sN st) to_send) 0) as [E0|E0].
    + by apply scanned_skip.
    + assert (aligned (sN st + 1)) as Hal by (apply aligned_next; auto; lia).
      destruct (bit to_send (sN st)) eqn:Eb; cbn [negb].
      all: apply (scanned_next a batch0 fix0 st); auto; try (intros m Hm; rewrite Hsame at 1; unfold fixed; by rewrite Ec, Hsf).
      all: unfold picked; rewrite Ec, Eb; by rewrite ?app_nil_r.
  - assert (aligned (sN st + 1)) as Hal by (intros E; congruence).
    assert (selected (s_fix st) (sN st) = selected fix0 (sN st)) as Esel by (unfold selected; by rewrite Hsf).
    rewrite Esel. destruct (selected fix0 (sN st)) eqn:Es; cbn [negb].
    + destruct (is_mapped (typ (sN st))) eqn:Em; cbn [negb].
      all: apply (scanned_next a batch0 fix0 st); auto with bitmap;
        try (unfold picked; rewrite Ec, Es, Em; by rewrite ?app_nil_r);
        intros m Hm; unfold fixed; rewrite Ec, Es, Em.
      * rewrite (bit_clear_bit p2m_size) by (auto; lia). by destruct (m =? sN st).
      * rewrite (bit_set_bit p2m_size) by (auto; lia). by destruct (m =? sN st).
    + apply (scanned_next a batch0 fix0 st); auto.
      * unfold picked. rewrite Ec, Es. by rewrite app_nil_r.
      * intros m Hm. rewrite Hsame at 1. unfold fixed. by rewrite Ec, Es, Hsf.
Qed.

Lemma scan_page_length st : (length (s_batch (scan_page st)) <= S (length (s_batch st)))%nat.
Proof.
  unfold scan_page. destruct completed; [repeat case_match|destruct (negb (selected _ _)); [|destruct (negb _)]];
    cbn [s_batch]; rewrite ?length_app; cbn; lia.
Qed.

Lemma scan_page_advance st : sN st < sN (scan_page st).
Proof.
  unfold scan_page, BITS_PER_LONG. destruct completed; [repeat case_match|destruct (negb (selected _ _)); [|destruct (negb _)]];
    cbn [sN]; lia.
Qed.

Lemma scan_loop_spec a batch0 fix0 fuel : forall st,
  scanned a batch0 fix0 st -> 0 <= a -> p2m_size - sN st <= Z.of_nat fuel ->
  (length (s_batch st) <= MAX_BATCH_SIZE)%nat ->
  let st' := scan_loop fuel st in
  scanned a batch0 fix0 st' /\ (length (s_batch st') <= MAX_BATCH_SIZE)%nat /\
  (length (s_batch st') = MAX_BATCH_SIZE \/ p2m_size <= sN st') /\ sN st <= sN st'.
Proof.
  induction fuel as [|f IH]; intros st H Ha Hf Hl; cbn [scan_loop].
  - split_and!; auto; [right|]; lia.
  - case_decide as Hd; [|split_and!; auto; [left|]; lia].
    destruct (Z.ltb_spec (sN st) p2m_size) as [Hlt|]; [|split_and!; auto; lia].
    pose proof (scan_page_advance st). pose proof (scan_page_length st).
    destruct (IH (scan_page st)) as (K1 & K2 & K3 & K4); [by apply scanned_page|done|lia|lia|].
    split_and!; auto. lia.
Qed.

Lemma scan_spec n fix0 skip needed :
  wf_bitmap p2m_size fix0 -> 0 <= n < p2m_size -> aligned n ->
  let st := scan (Scan n [] fix0 skip needed) in
  scanned n [] fix0 st /\ (length (s_batch st) <= MAX_BATCH_SIZE)%nat /\
  (length (s_batch st) = MAX_BATCH_SIZE \/ p2m_size <= sN st) /\ n < sN st.
Proof.
  intros Hwf Hn Hal. unfold scan. cbn [sN].
  destruct (Z.to_nat (p2m_size - n)) as [|f] eqn:E; [lia|].
  set (st0 := Scan n [] fix0 skip needed).
  assert (scanned n [] fix0 st0) as H0.
  { split; cbn; auto; [lia|by rewrite range_nil|]. intros m Hm.
    by replace ((n <=? m) && (m <? n)) with false by lia. }
  cbn [scan_loop]. rewrite decide_True by (cbn; unfold MAX_BATCH_SIZE; lia).
  destruct (Z.ltb_spec (sN st0) p2m_size) as [_|Hge]; [|cbn in Hge; lia].
  pose proof (scan_page_advance st0) as Hadv. pose proof (scan_page_length st0) as Hlen. cbn [sN s_batch st0 length] in *.
  destruct (scan_loop_spec n [] fix0 f (scan_page st0)) as (K1 & K2 & K3 & K4);
    [by apply scanned_page; [|lia|cbn; lia]|lia|lia|unfold MAX_BATCH_SIZE; lia|].
  split_and!; auto. lia.
Qed.

End Scan.

(** ** An iteration *)

(** How an iteration ends: after its last batch, by the jump to [skip], or by
    the failure of the hypercall that peeks at the dirty pages. *)
Inductive iter_end := AllScanned | JumpSkip | PeekFailed.

Record iter_state := Iter {
  it_batches : list (list (Z * Z)); it_fix : list Z;
  it_sent : Z; it_skip : Z; it_needed : Z
}.

Section Iteration.
(** The k-th peek of the iteration, and the guest's table while batch k is
    filled. *)
Context (p2m_size : Z) (completed last_iter : bool) (to_send to_skip0 : list Z)
  (peek : nat -> option (list Z)) (typ : nat -> Z -> Z).

(** The [while ( N < dinfo->p2m_size )] loop from batch [k]; [to_skip0] is the
    bitmap left from before, used when the loop does not peek. *)
Fixpoint iteration_loop (fuel : nat) (k : nat) (N : Z) (to_skip : list Z) (st : iter_state)
  : iter_end * iter_state :=
  match fuel with
  | O => (AllScanned, st)
  | S f =>
      if N <? p2m_size then
        match (if last_iter then Some to_skip else peek k) with
        | None => (PeekFailed, st)
        | Some to_skip =>
            let sc := scan p2m_size completed last_iter to_send to_skip (typ k)
                           (Scan N [] (it_fix st) (it_skip st) (it_needed st)) in
            match s_batch sc with
            | [] => (JumpSkip, Iter (it_batches st) (s_fix sc) (it_sent st) (s_skip sc) (s_needed sc))
            | batch =>
                iteration_loop f (S k) (sN sc) to_skip
                  (Iter (it_batches st ++ [batch]) (s_fix sc)
                        (it_sent st + Z.of_nat (length batch)) (s_skip sc) (s_needed sc))
            end
        end
      else (AllScanned, st)
  end.

Definition iteration (to_fix : list Z) (needed : Z) : iter_end * iter_state :=
  iteration_loop (S (Z.to_nat p2m_size)) 0 0 to_skip0 (Iter [] to_fix 0 0 needed).

(** *** What an iteration does

    Each page below [N] was looked at once, with the [to_skip] and the table of
    its batch: [g] says which. *)
Definition pick (g : Z -> list Z * (Z -> Z)) (f : list Z) (m : Z) : list (Z * Z) :=
  picked completed last_iter to_send (g m).1 (g m).2 f m.
Definition fixbit (g : Z -> list Z * (Z -> Z)) (f : list Z) (m : Z) : bool :=
  fixed completed last_iter to_send (g m).1 (g m).2 f m.

Definition looked (v : list Z * (Z -> Z)) : Prop :=
  exists k, v.2 = typ k /\ (last_iter = true \/ peek k = Some v.1).

Record ledger (fix0 : list Z) (N : Z) (g : Z -> list Z * (Z -> Z)) (st : iter_state) : Prop := {
  lg_looked : forall m, 0 <= m < N -> looked (g m);
  lg_batches : concat (it_batches st) = range p2m_size 0 N ≫= pick g fix0;
  lg_wf : wf_bitmap p2m_size (it_fix st);
  lg_fix : forall m, 0 <= m < p2m_size ->
    bit (it_fix st) m = if m <? N then fixbit g fix0 m else bit fix0 m;
  lg_sizes : Forall (fun b => (0 < length b <= MAX_BATCH_SIZE)%nat) (it_batches st);
  lg_sent : it_sent st = Z.of_nat (length (concat (it_batches st)))
}.

Lemma bind_ext_in {A B} (f g : A -> list B) l :
  (forall x, x ∈ l -> f x = g x) -> l ≫= f = l ≫= g.
Proof.
  induction l as [|x l IH]; intros H; [done|]. cbn. rewrite (H x) by left. f_equal.
  apply IH. intros y Hy. apply H. by right.
Qed.

(** Only the page's own bit of [to_fix] matters. *)
Lemma picked_fix_ext sk t f f' m : bit f m = bit f' m ->
  picked completed last_iter to_send sk t f m = picked completed last_iter to_send sk t f' m.
Proof. intros H. unfold picked, selected. by rewrite H. Qed.

Lemma fixed_fix_ext sk t f f' m : bit f m = bit f' m ->
  fixed completed last_iter to_send sk t f m = fixed completed last_iter to_send sk t f' m.
Proof. intros H. unfold fixed, selected. by rewrite H. Qed.

(** One more scan, with [sk] and [typ k]. *)
Lemma ledger_scan fix0 N g st k sk sc batches sent :
  ledger fix0 N g st -> 0 <= N < p2m_size -> looked (sk, typ k) ->
  scanned p2m_size completed last_iter to_send sk (typ k) N [] (it_fix st) sc ->
  concat batches = concat (it_batches st) ++ s_batch sc ->
  Forall (fun b => (0 < length b <= MAX_BATCH_SIZE)%nat) batches ->
  sent = it_sent st + Z.of_nat (length (s_batch sc)) ->
  ledger fix0 (sN sc) (fun m => if m <? N then g m else (sk, typ k))
         (Iter batches (s_fix sc) sent (s_skip sc) (s_needed sc)).
Proof.
  intros [Hg Hb Hwf Hfix Hsz Hsent] HN Hlook [Hfrom _ Hwf' Hsb Hsf] Hcat Hsz' ->.
  assert (forall m, N <= m -> 0 <= m < p2m_size -> bit (it_fix st) m = bit fix0 m) as Hsame.
  { intros m Hm Hr. rewrite Hfix by done. by replace (m <? N) with false by lia. }
  split; cbn [it_batches it_fix it_sent]; auto.
  - intros m Hm. destruct (Z.ltb_spec m N); [apply Hg; lia|done].
  - rewrite Hcat, Hb, Hsb. cbn [app]. rewrite (range_split p2m_size 0 N (sN sc)), bind_app by lia. f_equal.
    + apply bind_ext_in. intros m Hm. apply elem_of_seqZ in Hm. unfold pick. by replace (m <? N) with true by lia.
    + apply bind_ext_in. intros m Hm. apply elem_of_seqZ in Hm. unfold pick. replace (m <? N) with false by lia.
      apply picked_fix_ext, Hsame; lia.
  - intros m Hm. rewrite Hsf by done. unfold fixbit. destruct (Z.ltb_spec m N).
    + replace (N <=? m) with false by lia. cbn [andb]. replace (m <? sN sc) with true by lia.
      rewrite Hfix by done. by replace (m <? N) with true by lia.
    + replace (N <=? m) with true by lia. cbn [andb].
      destruct (m <? sN sc); [apply fixed_fix_ext|]; apply Hsame; lia.
  - rewrite Hsent, Hcat, length_app. lia.
Qed.

Lemma looked_peek k sk :
  (if last_iter then Some sk else peek k) = Some sk -> looked (sk, typ k).
Proof. intros H. exists k. split; [done|]. destruct last_iter; [by left|by right]. Qed.

Lemma iteration_ledger fix0 fuel : forall k N sk g st e st',
  iteration_loop fuel k N sk st = (e, st') -> e <> PeekFailed ->
  ledger fix0 N g st -> 0 <= N -> aligned completed to_send N -> p2m_size - N < Z.of_nat fuel ->
  exists N' g', p2m_size <= N' /\ ledger fix0 N' g' st'.
Proof.
  induction fuel as [|f IH]; intros k N sk g st e st' H He Hl HN Hal Hf;
    [injection H as <- <-; exists N, g; split; [lia|done]|].
  cbn [iteration_loop] in H. destruct (Z.ltb_spec N p2m_size) as [Hlt|Hge].
  2: { injection H as <- <-. by exists N, g. }
  destruct (if last_iter then Some sk else peek k) as [sk'|] eqn:Esk; [|injection H as <- _; done].
  assert (looked (sk', typ k)) as Hlook.
  { apply looked_peek. destruct last_iter; [by injection Esk as ->|done]. }
  destruct (scan_spec p2m_size completed last_iter to_send sk' (typ k) N (it_fix st) (it_skip st) (it_needed st))
    as (Hsc & Hlen & Hexit & Hadv); [apply Hl|lia|done|].
  set (sc := scan _ _ _ _ _ _ _) in *. destruct (s_batch sc) as [|b bs] eqn:Eb.
  - injection H as <- <-. exists (sN sc). eexists. split.
    + destruct Hexit as [Hx|]; [discriminate|done].
    + eapply ledger_scan; eauto; [by rewrite Eb, app_nil_r|by apply Hl|rewrite Eb; cbn; lia].
  - rewrite <- Eb in *. eapply (IH _ _ _ _ _ _ _ H He); [|lia|by apply Hsc|lia].
    eapply ledger_scan; eauto.
    + by rewrite concat_app; cbn; rewrite app_nil_r.
    + apply Forall_app. split; [apply Hl|]. constructor; [|constructor]. rewrite Eb in *. cbn in *. lia.
Qed.

Lemma iteration_spec fix0 needed e st :
  iteration fix0 needed = (e, st) -> e <> PeekFailed -> wf_bitmap p2m_size fix0 -> 0 <= p2m_size ->
  exists N' g, p2m_size <= N' /\ ledger fix0 N' g st.
Proof.
  intros H He Hwf Hp. eapply (iteration_ledger fix0 _ 0 0 to_skip0 (fun _ => ([], fun _ => 0))); eauto.
  - split; cbn; auto; try lia.
    + by rewrite range_nil.
    + intros m Hm. by replace (m <? 0) with false by lia.
  - lia.
  - intros _. by left.
  - lia.
Qed.

(** A jump to [skip] comes after full batches only. *)
Lemma jump_full fuel : forall k N sk st st',
  iteration_loop fuel k N sk st = (JumpSkip, st') ->
  wf_bitmap p2m_size (it_fix st) -> 0 <= N -> aligned completed to_send N ->
  (N < p2m_size -> Forall (fun b => length b = MAX_BATCH_SIZE) (it_batches st)) ->
  Forall (fun b => length b = MAX_BATCH_SIZE) (it_batches st').
Proof.
  induction fuel as [|f IH]; intros k N sk st st' H Hwf HN Hal Hfull; [discriminate|].
  cbn [iteration_loop] in H. destruct (Z.ltb_spec N p2m_size) as [Hlt|Hge]; [|discriminate].
  destruct (if last_iter then Some sk else peek k) as [sk'|]; [|discriminate].
  destruct (scan_spec p2m_size completed last_iter to_send sk' (typ k) N (it_fix st) (it_skip st) (it_needed st))
    as (Hsc & Hlen & Hexit & Hadv); [done|lia|done|].
  set (sc := scan _ _ _ _ _ _ _) in *. destruct (s_batch sc) as [|b bs] eqn:Eb.
  - injection H as <-. by apply Hfull.
  - rewrite <- Eb in *. apply (IH _ _ _ _ _ H); cbn [it_fix it_batches]; [apply Hsc|lia|apply Hsc|].
    intros Hlt'. apply Forall_app. split; [by apply Hfull|]. constructor; [|constructor].
    destruct Hexit; [done|lia].
Qed.

Lemma last_no_peek fuel : forall k N sk st,
  last_iter = true -> (iteration_loop fuel k N sk st).1 <> PeekFailed.
Proof.
  induction fuel as [|f IH]; intros k N sk st Hl; cbn [iteration_loop]; [done|].
  destruct (N <? p2m_size); [|done]. rewrite Hl. destruct (s_batch _); [done|]. by apply IH.
Qed.

End Iteration.

(** Picking by a condition is filtering. *)
Lemma bind_filter (c : Z -> bool) (t : Z -> Z) l :
  l ≫= (fun n => if c n then [(n, t n)] else []) = (fun n => (n, t n)) <$> filter (fun n => c n = true) l.
Proof.
  induction l as [|n l IH]; [done|]. cbn [mbind list_bind]. rewrite IH. destruct (c n) eqn:E.
  - by rewrite filter_cons_True.
  - by rewrite filter_cons_False by congruence.
Qed.

Lemma full_range p N : p <= N -> 0 <= p -> range p 0 N = seqZ 0 p.
Proof. intros. unfold range. rewrite Z.min_r by lia. by rewrite Z.sub_0_r. Qed.

Lemma looked_const last peek typ v : looked last peek (fun _ => typ) v -> v.2 = typ.
Proof. by intros (k & H & _). Qed.

Lemma last_iteration_exact p2m_size to_send to_skip peek typ to_fix needed e st :
  iteration p2m_size false true to_send to_skip peek (fun _ => typ) to_fix needed = (e, st) ->
  wf_bitmap p2m_size to_fix -> 0 <= p2m_size ->
  let wanted n := bit to_send n || bit to_fix n in
  e <> PeekFailed /\
  concat (it_batches st) =
    (fun n => (n, typ n)) <$> filter (fun n => wanted n && is_mapped (typ n) = true) (seqZ 0 p2m_size) /\
  Forall (fun b => (0 < length b <= MAX_BATCH_SIZE)%nat) (it_batches st) /\
  (forall n, 0 <= n < p2m_size -> bit (it_fix st) n = wanted n && negb (is_mapped (typ n))).
Proof.
  intros H Hwf Hp wanted.
  assert (e <> PeekFailed) as He.
  { pose proof (last_no_peek p2m_size false true to_send peek (fun _ => typ) (S (Z.to_nat p2m_size)) 0 0 to_skip
                  (Iter [] to_fix 0 0 needed) eq_refl) as Hx. unfold iteration in H. by rewrite H in Hx. }
  destruct (iteration_spec _ _ _ _ _ _ _ _ _ _ _ H He Hwf Hp) as (N' & g & HN & [Hg Hb _ Hf Hsz _]).
  assert (forall sk f n, selected true to_send sk f n = bit to_send n || bit f n) as Hsel.
  { intros sk f n. unfold selected. destruct (bit to_send n), (bit sk n), (bit f n); done. }
  split_and!; auto.
  - rewrite Hb, full_range by done. rewrite <- bind_filter. apply bind_ext_in. intros n Hn.
    apply elem_of_seqZ in Hn. unfold pick, picked. rewrite Hsel.
    by rewrite (looked_const _ _ _ _ (Hg n ltac:(lia))).
  - intros n Hn. rewrite Hf by done. replace (n <? N') with true by lia.
    unfold fixbit, fixed. rewrite Hsel, (looked_const _ _ _ _ (Hg n ltac:(lia))).
    unfold wanted. by destruct (bit to_send n), (bit to_fix n).
Qed.

(** C34. The last iteration, with the guest suspended: its batches are,
    in order and without repetition, exactly the pages of [to_send] and
    [to_fix] that are in the guest's table, in groups of one to 1024; what
    stays in [to_fix] is what is not in the table.  The iteration never fails. *)
Theorem last_iteration_sends p2m_size to_send to_skip peek typ to_fix needed e st :
  iteration p2m_size false true to_send to_skip peek (fun _ => typ) to_fix needed = (e, st) ->
  wf_bitmap p2m_size to_fix -> 0 <= p2m_size ->
  let wanted n := bit to_send n || bit to_fix n in
  e <> PeekFailed /\
  concat (it_batches st) =
    (fun n => (n, typ n)) <$> filter (fun n => wanted n && is_mapped (typ n) = true) (seqZ 0 p2m_size) /\
  Forall (fun b => (0 < length b <= MAX_BATCH_SIZE)%nat) (it_batches st) /\
  (forall n, 0 <= n < p2m_size -> bit (it_fix st) n = wanted n && negb (is_mapped (typ n))).
Proof. apply last_iteration_exact. Qed.

(** A guest of ten pages in which page 1 is not in the table. *)
Definition demo_typ (n : Z) : Z := if n =? 1 then 0x80000000 else 100 + n.

Lemma demo_wf w : 0 <= w < 2 ^ 64 -> wf_bitmap 10 [w].
Proof. intros H. split; [reflexivity|]. by constructor. Qed.

Lemma last_iteration_sends_witness :
  let r := iteration 10 false true [0xb] [0] (fun _ => None) (fun _ => demo_typ) [0x4] 0 in
  it_batches r.2 = [[(0, 100); (2, 102); (3, 103)]] /\
  concat (it_batches r.2) =
    (fun n => (n, demo_typ n)) <$>
      filter (fun n => (bit [0xb] n || bit [0x4] n) && is_mapped (demo_typ n) = true) (seqZ 0 10).
Proof.
  split; [vm_compute; reflexivity|].
  refine (proj1 (proj2 (last_iteration_sends 10 [0xb] [0] (fun _ => None) demo_typ [0x4] 0 _ _ (surjective_pairing _) _ _))).
  - apply demo_wf. lia.
  - lia.
Defined.

Lemma seqZ_bind_NoDup (f : Z -> list (Z * Z)) a n :
  (forall m, f m = [] \/ exists t, f m = [(m, t)]) -> NoDup ((seqZ a n ≫= f).*1).
Proof.
  intros Hf. pose proof (NoDup_seqZ a n) as Hn.
  induction (seqZ a n) as [|m l IH]; cbn; [constructor|]. apply NoDup_cons in Hn as [Hm Hn].
  rewrite fmap_app. destruct (Hf m) as [->|[t ->]]; cbn; [auto|]. constructor; [|auto].
  intros Hin. apply list_elem_of_fmap_1 in Hin as ([m' t'] & -> & Hin). apply list_elem_of_bind in Hin as (x & Hx & Hxl).
  destruct (Hf x) as [E|[t'' E]]; rewrite E in Hx; [by apply not_elem_of_nil in Hx|].
  apply list_elem_of_singleton in Hx. by injection Hx as -> ->.
Qed.

Lemma picked_cases completed last_iter to_send sk t f m :
  picked completed last_iter to_send sk t f m = [] \/
  exists x, picked completed last_iter to_send sk t f m = [(m, x)].
Proof. unfold picked. repeat case_match; eauto. Qed.

(** C35. An iteration while the guest runs loses no page: every page of
    [to_send] is in a batch, or was found dirty again by a peek of this
    iteration (so it is still in the dirty log), or is remembered in [to_fix];
    a page of [to_fix] stays there unless it is sent; no page is sent twice,
    and a page that is sent was in [to_send]. *)
Theorem live_iteration_keeps p2m_size to_send to_skip peek typ to_fix needed e st :
  iteration p2m_size false false to_send to_skip peek typ to_fix needed = (e, st) -> e <> PeekFailed ->
  wf_bitmap p2m_size to_fix -> 0 <= p2m_size ->
  let sent := (concat (it_batches st)).*1 in
  NoDup sent /\
  (forall n, 0 <= n < p2m_size -> bit to_send n = true ->
     n ∈ sent \/ bit (it_fix st) n = true \/ exists k sk, peek k = Some sk /\ bit sk n = true) /\
  (forall n, 0 <= n < p2m_size -> bit to_fix n = true -> n ∈ sent \/ bit (it_fix st) n = true) /\
  (forall n, n ∈ sent -> 0 <= n < p2m_size /\ bit to_send n = true).
Proof.
  intros H He Hwf Hp sent.
  destruct (iteration_spec _ _ _ _ _ _ _ _ _ _ _ H He Hwf Hp) as (N' & g & HN & [Hg Hb _ Hf _ _]).
  rewrite full_range in Hb by done.
  assert (forall f n, selected false to_send (g n).1 f n = bit to_send n && negb (bit (g n).1 n)) as Hsel.
  { intros f n. unfold selected. by rewrite !andb_false_r, !orb_false_r. }
  assert (forall n, 0 <= n < p2m_size -> bit to_send n = true -> bit (g n).1 n = false ->
            n ∈ sent \/ bit (it_fix st) n = true) as Hsend.
  { intros n Hn Hs Hk. destruct (is_mapped ((g n).2 n)) eqn:Em.
    - left. unfold sent. rewrite Hb. apply list_elem_of_fmap. exists (n, (g n).2 n). split; [done|].
      apply list_elem_of_bind. exists n. split; [|by apply elem_of_seqZ; lia].
      unfold pick, picked. rewrite Hsel, Hs, Hk, Em. by left.
    - right. rewrite Hf by done. replace (n <? N') with true by lia.
      unfold fixbit, fixed. by rewrite Hsel, Hs, Hk, Em. }
  split_and!.
  - unfold sent. rewrite Hb. apply seqZ_bind_NoDup. intros m. apply picked_cases.
  - intros n Hn Hs. destruct (bit (g n).1 n) eqn:Hk.
    + right. right. destruct (Hg n ltac:(lia)) as (k & _ & [|Hpk]); [done|]. eauto.
    + destruct (Hsend n Hn Hs Hk); auto.
  - intros n Hn Hx. destruct (bit to_send n && negb (bit (g n).1 n)) eqn:Es.
    + apply andb_prop in Es as [Es Ek]. apply negb_true_iff in Ek. auto.
    + right. rewrite Hf by done. replace (n <? N') with true by lia.
      unfold fixbit, fixed. by rewrite Hsel, Es.
  - intros n Hin. unfold sent in Hin. rewrite Hb in Hin.
    apply list_elem_of_fmap in Hin as ([n' t] & -> & Hin). apply list_elem_of_bind in Hin as (m & Hm & Hml).
    apply elem_of_seqZ in Hml. unfold pick, picked in Hm. rewrite Hsel in Hm. cbn.
    destruct (bit to_send m) eqn:Es; [|by apply not_elem_of_nil in Hm].
    destruct (_ && _); [|by apply not_elem_of_nil in Hm].
    apply list_elem_of_singleton in Hm. injection Hm as -> ->. split; [lia|done].
Qed.

(** Page 3 is found dirty again, page 1 is remembered. *)
Lemma live_iteration_keeps_witness :
  let r := iteration 10 false false [0xb] [0] (fun _ => Some [0x8]) (fun _ => demo_typ) [0x4] 0 in
  it_batches r.2 = [[(0, 100)]] /\ NoDup (concat (it_batches r.2)).*1.
Proof.
  split; [vm_compute; reflexivity|].
  refine (proj1 (live_iteration_keeps 10 [0xb] [0] (fun _ => Some [0x8]) (fun _ => demo_typ) [0x4] 0 _ _ (surjective_pairing _) _ _ _)).
  - vm_compute. discriminate.
  - apply demo_wf. lia.
  - lia.
Defined.

(** The scan that skips empty words of the bitmap (after a first
    complete round) finds the same pages as a scan bit by bit: an iteration
    sends exactly the pages whose bit is set. *)
Theorem word_skip_exact p2m_size last_iter to_send to_skip peek typ to_fix needed e st :
  iteration p2m_size true last_iter to_send to_skip peek (fun _ => typ) to_fix needed = (e, st) ->
  e <> PeekFailed -> wf_bitmap p2m_size to_fix -> 0 <= p2m_size ->
  concat (it_batches st) = (fun n => (n, typ n)) <$> filter (fun n => bit to_send n = true) (seqZ 0 p2m_size).
Proof.
  intros H He Hwf Hp.
  destruct (iteration_spec _ _ _ _ _ _ _ _ _ _ _ H He Hwf Hp) as (N' & g & HN & [Hg Hb _ _ _ _]).
  rewrite Hb, full_range by done. rewrite <- bind_filter. apply bind_ext_in. intros n Hn.
  apply elem_of_seqZ in Hn. unfold pick, picked. by rewrite (looked_const _ _ _ _ (Hg n ltac:(lia))).
Qed.

(** Words 1 and 2 of the bitmap are empty. *)
Lemma word_skip_exact_witness :
  let r := iteration 200 true true [0x9; 0; 0; 0x2] [] (fun _ => None) (fun _ n => n) [0; 0; 0; 0] 0 in
  concat (it_batches r.2) = [(0, 0); (3, 3); (193, 193)] /\
  concat (it_batches r.2) = (fun n => (n, n)) <$> filter (fun n => bit [0x9; 0; 0; 0x2] n = true) (seqZ 0 200).
Proof.
  split; [vm_compute; reflexivity|].
  apply (word_skip_exact 200 true [0x9; 0; 0; 0x2] [] (fun _ => None) (fun n => n) [0; 0; 0; 0] 0 _ _ (surjective_pairing _)).
  - vm_compute. discriminate.
  - split; [reflexivity|]. repeat constructor; lia.
  - lia.
Defined.

(** The jump to [skip], which leaves out the barriers at the end of an
    iteration, is taken only when the pages of the iteration filled whole
    batches: the number of pages sent is a multiple of 1024 (possibly 0). *)
Theorem jump_skip_multiple p2m_size completed last_iter to_send to_skip peek typ to_fix needed st :
  iteration p2m_size completed last_iter to_send to_skip peek typ to_fix needed = (JumpSkip, st) ->
  wf_bitmap p2m_size to_fix -> 0 <= p2m_size ->
  it_sent st = Z.of_nat MAX_BATCH_SIZE * Z.of_nat (length (it_batches st)).
Proof.
  intros H Hwf Hp.
  destruct (iteration_spec _ _ _ _ _ _ _ _ _ _ _ H ltac:(done) Hwf Hp) as (N' & g & _ & [_ _ _ _ _ ->]).
  apply jump_full in H; [|done|lia|by intros _; left|constructor].
  clear -H. induction H as [|b bs Hb _ IH]; [done|]. cbn [concat length].
  rewrite length_app, Hb, !Nat2Z.inj_add, IH. lia.
Qed.

(** It is taken: of 1025 pages, the first 1024 are to be sent. *)
Lemma jump_skip_multiple_witness :
  let r := iteration 1025 false true (replicate 16 (2 ^ 64 - 1) ++ [0]) [] (fun _ => None) (fun _ n => n)
                     (replicate 17 0) 0 in
  r.1 = JumpSkip /\ it_sent r.2 = 1024 /\
  it_sent r.2 = Z.of_nat MAX_BATCH_SIZE * Z.of_nat (length (it_batches r.2)).
Proof.
  split_and!; [vm_compute; reflexivity|vm_compute; reflexivity|].
  apply (jump_skip_multiple 1025 false true (replicate 16 (2 ^ 64 - 1) ++ [0]) [] (fun _ => None) (fun _ n => n)
           (replicate 17 0) 0).
  - vm_compute. reflexivity.
  - split; [reflexivity|]. repeat constructor; lia.
  - lia.
Defined.

(** ** The loop over the iterations *)

Definition DEF_MAX_ITERS : Z := 29.
Definition DEF_MAX_FACTOR : Z := 3.

(** [suspend_and_state]: the callback, then the state of the domain. *)
Definition SHUTDOWN_suspend : Z := 2.

Definition suspend_and_state (suspend : Z) (getinfo : Z) (shutdown : bool) (reason : Z) : Z :=
  if suspend =? 0 then -1
  else if negb (getinfo =? 1) || negb shutdown || negb (reason =? SHUTDOWN_suspend) then -1
  else 0.

(** What the loop asks of its surroundings, by the number of the iteration. *)
Record env := Env {
  e_peek : nat -> nat -> option (list Z);   (* SHADOW_OP_PEEK, by batch *)
  e_clean : nat -> option (list Z);         (* SHADOW_OP_CLEAN after the iteration *)
  e_typ : nat -> nat -> Z -> Z;             (* what goes to pfn_type, by batch *)
  e_suspend : Z * (Z * (bool * Z));         (* callback, xc_domain_getinfo, shutdown, reason *)
  e_tmem_extra : bool;                      (* xc_tmem_save_extra succeeds *)
  e_tsc : bool;                             (* save_tsc_info succeeds *)
  e_verify : bool                           (* the verify marker is written *)
}.

(** What the loop does, in order. *)
Inductive ev :=
| EIteration (iter : nat) (last : bool) (to_send to_fix : list Z) (batches : list (list (Z * Z)))
| EBarriers
| EVerifyMode
| ESuspend
| ETmemExtra
| ETsc
| EClean (to_send : list Z).

Record loop_state := Loop {
  l_iter : nat; l_last : bool; l_debug : bool; l_send : list Z; l_skip : list Z; l_fix : list Z;
  l_sent_last : Z; l_total : Z; l_needed : Z
}.

Inductive outcome := Done (st : loop_state) | Failed | Again (st : loop_state).

Section Main.
Context (p2m_size : Z) (completed live : bool) (tmem_saved max_iters max_factor : Z) (E : env).

(** [RATE_IS_MAX] without adaptive rates. *)
Definition RATE_IS_MAX : bool := false.

(** The condition for the last iteration. *)
Definition stop_condition (iter : nat) (sent sent_last skip total : Z) : bool :=
  ((sent >? sent_last) && RATE_IS_MAX) || (Z.of_nat iter >=? max_iters) || (sent + skip <? 50) ||
  (total >? p2m_size * max_factor).

(** Suspension and what follows it before the dirty pages are collected. *)
Definition start_last : bool * list ev :=
  let '(cb, (gi, (sd, rs))) := e_suspend E in
  if truthy (suspend_and_state cb gi sd rs) then (false, [])
  else if (tmem_saved >? 0) && negb (e_tmem_extra E) then (false, [ESuspend])
  else
    let evs := if tmem_saved >? 0 then [ESuspend; ETmemExtra] else [ESuspend] in
    if negb (e_tsc E) then (false, evs) else (true, evs ++ [ETsc]).

(** The label [skip] and what follows it, to the end of the loop's body; [evs]
    is what the iteration did. *)
Definition after_scan (st : loop_state) (r : iter_state) (evs : list ev) : outcome * list ev :=
  let iter := S (l_iter st) in
  let last := l_last st in
  let total := l_total st + it_sent r in
  if last && l_debug st then
    if e_verify E
    then (Again (Loop iter last false (replicate (Z.to_nat (BITS_TO_LONGS p2m_size)) (2 ^ 64 - 1)) (l_skip st)
                      (it_fix r) (l_sent_last st) total (it_needed r)), evs ++ [EVerifyMode])
    else (Failed, evs)
  else if last then
    (Done (Loop iter last (l_debug st) (l_send st) (l_skip st) (it_fix r) (l_sent_last st) total (it_needed r)), evs)
  else if live then
    let stop := stop_condition iter (it_sent r) (l_sent_last st) (it_skip r) total in
    let '(ok, evs') := if stop then start_last else (true, []) in
    if negb ok then (Failed, evs ++ evs')
    else
      match e_clean E iter with
      | None => (Failed, evs ++ evs')
      | Some send =>
          (Again (Loop iter stop (l_debug st) send (l_skip st) (it_fix r) (it_sent r) total (it_needed r)),
           evs ++ evs' ++ [EClean send])
      end
  else (Again (Loop iter last (l_debug st) (l_send st) (l_skip st) (it_fix r) (l_sent_last st) total (it_needed r)), evs).

(** One turn of the infinite loop. *)
Definition turn (st : loop_state) : outcome * list ev :=
  let iter := S (l_iter st) in
  let '(e, r) := iteration p2m_size completed (l_last st) (l_send st) (l_skip st) (e_peek E iter) (e_typ E iter)
                           (l_fix st) (l_needed st) in
  let evs := [EIteration iter (l_last st) (l_send st) (l_fix st) (it_batches r)] in
  match e with
  | PeekFailed => (Failed, evs)
  | JumpSkip => after_scan st r evs
  | AllScanned => after_scan st r (evs ++ [EBarriers])
  end.

(** The loop; [None] when the fuel runs out. *)
Fixpoint main_loop (fuel : nat) (st : loop_state) : option (outcome * list ev) :=
  match fuel with
  | O => None
  | S f =>
      match turn st with
      | (Again st', evs) => '(o, evs') ← main_loop f st'; Some (o, evs ++ evs')
      | r => Some r
      end
  end.

(** The state before the loop: every page is to be sent. *)
Definition loop_start (debug : bool) : loop_state :=
  Loop 0 (negb live) debug (replicate (Z.to_nat (BITS_TO_LONGS p2m_size)) (2 ^ 64 - 1))
       (replicate (Z.to_nat (BITS_TO_LONGS p2m_size)) 0) (replicate (Z.to_nat (BITS_TO_LONGS p2m_size)) 0)
       p2m_size 0 0.

(** *** Termination *)

Definition iterations (evs : list ev) : Z :=
  Z.of_nat (length (filter (fun e => match e with EIteration _ _ _ _ _ => true | _ => false end = true) evs)).

Lemma if_live {A} (x y : A) : live = true -> (if live then x else y) = x.
Proof. by intros ->. Qed.

(** How many more iterations there can be. *)
Definition rounds_left (st : loop_state) : nat :=
  if l_last st then (if l_debug st then 2 else 1)%nat
  else (Nat.max 1 (Z.to_nat max_iters - l_iter st) + 1 + (if l_debug st then 1 else 0))%nat.

Lemma iterations_app a b : iterations (a ++ b) = iterations a + iterations b.
Proof. unfold iterations. rewrite filter_app, length_app. lia. Qed.

Lemma iterations_start_last : iterations (start_last.2) = 0.
Proof.
  unfold start_last. destruct (e_suspend E) as [cb [gi [sd rs]]].
  destruct (truthy _); [done|]. destruct (tmem_saved >? 0), (e_tmem_extra E), (e_tsc E); done.
Qed.

Lemma after_scan_round st r evs o evs' :
  after_scan st r evs = (o, evs') -> (l_last st = true \/ live = true) ->
  iterations evs' = iterations evs /\
  match o with
  | Again st' => (rounds_left st' < rounds_left st)%nat /\ (l_last st' = true \/ live = true)
  | _ => True
  end.
Proof.
  intros H Hll. unfold after_scan in H. unfold rounds_left. destruct (l_last st) eqn:El; cbn [andb] in H.
  - destruct (l_debug st) eqn:Ed; [destruct (e_verify E)|]; injection H as <- <-; rewrite ?iterations_app; cbn [l_last l_debug];
      try change (iterations [EVerifyMode]) with 0; split_and!; auto; lia.
  - destruct Hll as [|Hlv]; [discriminate|]. rewrite if_live in H by done.
    set (stop := stop_condition _ _ _ _ _) in H.
    assert (iterations (if stop then start_last else (true, [])).2 = 0) as H0
      by (destruct stop; [apply iterations_start_last|done]).
    destruct (if stop then start_last else (true, [])) as [ok evs1]. cbn [snd] in H0.
    destruct ok; cbn [negb] in H; [|injection H as <- <-; rewrite iterations_app; split; [lia|done]].
    destruct (e_clean E _) as [send|]; injection H as <- <-; rewrite ?iterations_app;
      [|split; [lia|done]].
    split; [change (iterations [EClean send]) with 0; lia|]. split; [|by right]. cbn [l_last l_debug l_iter].
    destruct stop eqn:Es.
    + destruct (l_debug st); lia.
    + unfold stop, stop_condition in Es. rewrite !orb_false_iff in Es. destruct Es as [[[_ Es] _] _].
      rewrite Z.geb_leb in Es. apply Z.leb_gt in Es. destruct (l_debug st); lia.
Qed.

(** Each turn is one iteration, and uses up a round. *)
Lemma turn_round st o evs :
  turn st = (o, evs) -> (l_last st = true \/ live = true) ->
  iterations evs = 1 /\
  match o with
  | Again st' => (rounds_left st' < rounds_left st)%nat /\ (l_last st' = true \/ live = true)
  | _ => True
  end.
Proof.
  intros H Hll. unfold turn in H. destruct (iteration _ _ _ _ _ _ _ _ _) as [[] r].
  - by apply after_scan_round in H.
  - by apply after_scan_round in H.
  - by injection H as <- <-.
Qed.

Lemma main_loop_ends fuel : forall st,
  (l_last st = true \/ live = true) -> (rounds_left st <= fuel)%nat ->
  exists o evs, main_loop fuel st = Some (o, evs) /\ iterations evs <= Z.of_nat (rounds_left st).
Proof.
  induction fuel as [|f IH]; intros st Hll Hf.
  - exfalso. unfold rounds_left in Hf. destruct (l_last st), (l_debug st); lia.
  - cbn [main_loop]. destruct (turn st) as [o evs] eqn:Et.
    apply turn_round in Et as [H1 Ho]; [|done].
    assert (1 <= rounds_left st)%nat by (unfold rounds_left; destruct (l_last st), (l_debug st); lia).
    destruct o as [st'| |st']; [eexists _, _; split; [done|lia]..|].
    destruct Ho as [Hr Hll']. destruct (IH st' Hll' ltac:(lia)) as (o & evs' & E' & Hi). rewrite E'.
    eexists _, _. split; [done|]. rewrite iterations_app. lia.
Qed.

(** *** The last iteration comes after the suspension *)

Lemma start_last_ok evs : start_last = (true, evs) ->
  exists mid, evs = ESuspend :: mid /\ Forall (fun e => e = ETmemExtra \/ e = ETsc) mid.
Proof.
  unfold start_last. destruct (e_suspend E) as [cb [gi [sd rs]]]. destruct (truthy _); [discriminate|].
  destruct (tmem_saved >? 0), (e_tmem_extra E), (e_tsc E); cbn; try discriminate; intros [= <-];
    eexists; (split; [reflexivity|]); repeat (apply Forall_cons_2; [by auto|]); apply Forall_nil_2.
Qed.

Lemma turn_wf st st' evs :
  turn st = (Again st', evs) -> wf_bitmap p2m_size (l_fix st) -> 0 <= p2m_size -> wf_bitmap p2m_size (l_fix st').
Proof.
  intros H Hwf Hp. unfold turn in H. destruct (iteration _ _ _ _ _ _ _ _ _) as [e r] eqn:Ei.
  assert (e <> PeekFailed) as He by (by intros ->).
  destruct (iteration_spec _ _ _ _ _ _ _ _ _ _ _ Ei He Hwf Hp) as (N' & g & _ & [_ _ Hwf' _ _ _]).
  assert (forall evs0 o evs1, after_scan st r evs0 = (Again o, evs1) -> l_fix o = it_fix r) as Hfix.
  { intros evs0 o evs1 Ha. unfold after_scan in Ha. clear -Ha.
    repeat (case_match; try discriminate); simplify_eq; done. }
  destruct e; [apply Hfix in H|apply Hfix in H|done]; by rewrite H.
Qed.

(** A turn that does not end the loop, while the guest runs. *)
Lemma live_turn st st' evs :
  turn st = (Again st', evs) -> l_last st = false -> live = true ->
  exists pre tl, evs = pre ++ tl /\ Forall (fun e => e = EBarriers \/ exists k s f b, e = EIteration k false s f b) pre /\
  (l_last st' = false /\ tl = [EClean (l_send st')] \/
   l_last st' = true /\ exists mid, tl = ESuspend :: mid ++ [EClean (l_send st')] /\
     Forall (fun e => e = ETmemExtra \/ e = ETsc) mid) /\ l_debug st' = l_debug st.
Proof.
  intros H Hl Hlv. unfold turn in H. destruct (iteration _ _ _ _ _ _ _ _ _) as [e r].
  assert (forall evs0, after_scan st r evs0 = (Again st', evs) -> exists tl, evs = evs0 ++ tl /\
    (l_last st' = false /\ tl = [EClean (l_send st')] \/
     l_last st' = true /\ exists mid, tl = ESuspend :: mid ++ [EClean (l_send st')] /\
       Forall (fun e => e = ETmemExtra \/ e = ETsc) mid) /\ l_debug st' = l_debug st) as Hafter.
  { clear H. intros evs0 H. unfold after_scan in H. rewrite Hl in H. cbn [andb] in H. rewrite if_live in H by done.
    destruct (stop_condition _ _ _ _ _).
    - destruct start_last as [[|] evs1] eqn:Es; [|discriminate]. cbn [negb] in H.
      destruct (e_clean E _) as [send|]; [|discriminate]. injection H as <- <-.
      apply start_last_ok in Es as (mid & -> & Hmid). eexists. split; [done|]. cbn. split; [|done]. right. eauto.
    - cbn [negb] in H. destruct (e_clean E _) as [send|]; [|discriminate]. injection H as <- <-.
      eexists. split; [done|]. cbn. split; [|done]. by left. }
  rewrite Hl in *. destruct e; [apply Hafter in H|apply Hafter in H|discriminate];
    destruct H as (tl & -> & Htl); eexists _, tl; (split; [done|]); (split; [|done]);
    repeat (apply Forall_cons_2; [by eauto 10|]); apply Forall_nil_2.
Qed.

Lemma last_turn st o evs :
  turn st = (o, evs) -> l_last st = true -> l_debug st = false ->
  wf_bitmap p2m_size (l_fix st) -> 0 <= p2m_size ->
  exists bs bar, evs = EIteration (S (l_iter st)) true (l_send st) (l_fix st) bs :: bar /\
    (bar = [] \/ bar = [EBarriers]) /\ (forall st', o <> Again st') /\
    exists e r, iteration p2m_size completed true (l_send st) (l_skip st) (e_peek E (S (l_iter st)))
      (e_typ E (S (l_iter st))) (l_fix st) (l_needed st) = (e, r) /\ bs = it_batches r.
Proof.
  intros H Hl Hd Hwf Hp. unfold turn in H. rewrite Hl in H.
  destruct (iteration _ _ _ _ _ _ _ _ _) as [e r] eqn:Ei.
  assert (forall evs0 o evs1, after_scan st r evs0 = (o, evs1) -> evs1 = evs0 /\ forall st', o <> Again st') as Hafter.
  { intros evs0 o' evs1 Ha. unfold after_scan in Ha. rewrite Hl, Hd in Ha. cbn [andb] in Ha. by injection Ha as <- <-. }
  exists (it_batches r). destruct e; [apply Hafter in H as [-> Ho]|apply Hafter in H as [-> Ho]|injection H as <- <-];
    eexists; split_and!; eauto.
Qed.

Lemma main_live fuel : forall st st' evs,
  main_loop fuel st = Some (Done st', evs) -> l_last st = false -> live = true -> l_debug st = false ->
  wf_bitmap p2m_size (l_fix st) -> 0 <= p2m_size ->
  exists pre mid k send fx bs bar,
    evs = pre ++ ESuspend :: mid ++ EClean send :: EIteration k true send fx bs :: bar /\
    Forall (fun e => e <> ESuspend /\ forall k s f b, e <> EIteration k true s f b) pre /\
    Forall (fun e => e = ETmemExtra \/ e = ETsc) mid /\ (bar = [] \/ bar = [EBarriers]) /\
    wf_bitmap p2m_size fx /\
    exists e r skip needed, iteration p2m_size completed true send skip (e_peek E k) (e_typ E k) fx needed = (e, r) /\
      bs = it_batches r.
Proof.
  induction fuel as [|f IH]; intros st st' evs H Hl Hlv Hd Hwf Hp; [discriminate|]. cbn [main_loop] in H.
  destruct (turn st) as [o evs0] eqn:Et. destruct o as [s1| |s1].
  - exfalso. unfold turn in Et. destruct (iteration _ _ _ _ _ _ _ _ _) as [e r].
    assert (forall evs1, after_scan st r evs1 <> (Done s1, evs0)) as Hno.
    { intros evs1 Ha. unfold after_scan in Ha. rewrite Hl in Ha. cbn [andb] in Ha. rewrite if_live in Ha by done.
      repeat (case_match; try discriminate). }
    destruct e; [by eapply Hno|by eapply Hno|discriminate].
  - discriminate.
  - pose proof (turn_wf _ _ _ Et Hwf Hp) as Hwf1.
    apply live_turn in Et as (pre & tl & -> & Hpre & Htl & Hd1); [|done|done].
    assert (Forall (fun e => e <> ESuspend /\ forall k s f b, e <> EIteration k true s f b) pre) as Hpre'.
    { eapply Forall_impl; [exact Hpre|]. intros e [->|(k & s & ff & b & ->)]; split; done. }
    destruct (main_loop f s1) as [[o1 evs1]|] eqn:Em; [|discriminate]. cbn in H. injection H as -> <-.
    rewrite Hd in Hd1. destruct Htl as [[Hl1 ->]|[Hl1 (mid & -> & Hmid)]].
    + destruct (IH _ _ _ Em Hl1 Hlv Hd1 Hwf1 Hp) as (pre1 & mid & k & send & fx & bs & bar & -> & Hp1 & Hrest).
      exists (pre ++ [EClean (l_send s1)] ++ pre1), mid, k, send, fx, bs, bar. split; [by rewrite <- !app_assoc|].
      split; [|done]. apply Forall_app. split; [done|]. apply Forall_app. split; [by repeat constructor|done].
    + destruct f as [|f]; [discriminate|]. cbn [main_loop] in Em. destruct (turn s1) as [o1 evs2] eqn:Et1.
      destruct (last_turn _ _ _ Et1 Hl1 Hd1 Hwf1 Hp) as (bs & bar & -> & Hbar & Hno & e & r & Hit & ->).
      destruct o1; [|discriminate|by destruct (Hno st0)]. injection Em as <- <-.
      exists pre, mid, (S (l_iter s1)), (l_send s1), (l_fix s1), (it_batches r), bar.
      split_and!; auto; [by rewrite <- !app_assoc; cbn; rewrite <- app_assoc|]. eauto 10.
Qed.

End Main.

(** C36. The loop always ends, whatever the hypercalls answer and however
    fast the guest writes: it makes at most [max_iters] iterations while the
    guest runs, one after the suspension, and one more in debug mode; with the
    default limit, 30 "times round the loop". *)
Theorem save_loop_bounded p2m_size completed live tmem_saved max_iters max_factor E debug :
  1 <= max_iters ->
  exists o evs,
    main_loop p2m_size completed live tmem_saved max_iters max_factor E (Z.to_nat max_iters + 2)
              (loop_start p2m_size live debug) = Some (o, evs) /\
    iterations evs <= max_iters + 1 + (if debug : bool then 1 else 0).
Proof.
  intros Hm.
  destruct (main_loop_ends p2m_size completed live tmem_saved max_iters max_factor E (Z.to_nat max_iters + 2)
              (loop_start p2m_size live debug)) as (o & evs & H & Hi).
  - destruct live; [by right|by left].
  - unfold rounds_left. cbn. destruct live, debug; cbn; lia.
  - exists o, evs. split; [done|]. unfold rounds_left in Hi. cbn in Hi. destruct live, debug; cbn in *; lia.
Qed.

(** A guest of ten pages that writes all of them all the time. *)
Definition demo_env : env :=
  Env (fun _ _ => Some [0]) (fun _ => Some [0x3ff]) (fun _ _ n => n) (1, (1, (true, 2))) true true true.

Lemma save_loop_bounded_witness :
  exists o evs,
    main_loop 100 false true 0 DEF_MAX_ITERS DEF_MAX_FACTOR
      (Env (fun _ _ => Some [0; 0]) (fun _ => Some [2 ^ 64 - 1; 0]) (fun _ _ n => n) (1, (1, (true, 2))) true true true)
      31 (loop_start 100 true false) = Some (o, evs) /\ iterations evs <= 30.
Proof. apply (save_loop_bounded 100 false true 0 DEF_MAX_ITERS DEF_MAX_FACTOR _ false). vm_compute. discriminate. Defined.

(** C33. The order of a live migration that succeeds: the guest is
    suspended exactly once; every iteration before that is a live one; after
    the suspension the dirty pages are collected once more, and then the last
    iteration sends exactly the collected pages and those of [to_fix] that are
    in the guest's table. *)
Theorem last_iteration_after_suspend p2m_size tmem_saved max_iters max_factor E fuel st evs :
  0 <= p2m_size ->
  main_loop p2m_size false true tmem_saved max_iters max_factor E fuel (loop_start p2m_size true false) =
    Some (Done st, evs) ->
  exists pre mid k send fx bs bar,
    evs = pre ++ ESuspend :: mid ++ EClean send :: EIteration k true send fx bs :: bar /\
    Forall (fun e => e <> ESuspend /\ forall k s f b, e <> EIteration k true s f b) pre /\
    Forall (fun e => e = ETmemExtra \/ e = ETsc) mid /\ (bar = [] \/ bar = [EBarriers]) /\
    (forall typ, (e_typ E k = fun _ => typ) ->
       concat bs = (fun n => (n, typ n)) <$>
         filter (fun n => (bit send n || bit fx n) && is_mapped (typ n) = true) (seqZ 0 p2m_size)).
Proof.
  intros Hp H.
  assert (wf_bitmap p2m_size (l_fix (loop_start p2m_size true false))) as Hwf.
  { cbn. split; [by rewrite length_replicate|]. apply Forall_replicate. lia. }
  destruct (main_live _ _ _ _ _ _ _ _ _ _ _ H ltac:(done) ltac:(done) ltac:(done) Hwf Hp)
    as (pre & mid & k & send & fx & bs & bar & -> & Hpre & Hmid & Hbar & Hfx & e & r & skip & needed & Hit & ->).
  exists pre, mid, k, send, fx, (it_batches r), bar. split_and!; auto.
  intros typ Ht. rewrite Ht in Hit. by apply (last_iteration_exact _ _ _ _ _ _ _ _ _ Hit Hfx Hp).
Qed.

Lemma last_iteration_after_suspend_witness :
  exists st evs, main_loop 10 false true 0 DEF_MAX_ITERS DEF_MAX_FACTOR demo_env 3 (loop_start 10 true false) =
    Some (Done st, evs) /\
  exists pre mid k send fx bs bar,
    evs = pre ++ ESuspend :: mid ++ EClean send :: EIteration k true send fx bs :: bar /\
    concat bs = (fun n => (n, n)) <$>
         filter (fun n => (bit send n || bit fx n) && is_mapped n = true) (seqZ 0 10).
Proof.
  eexists _, _. split; [vm_compute; reflexivity|].
  edestruct (last_iteration_after_suspend 10 0 DEF_MAX_ITERS DEF_MAX_FACTOR demo_env 3)
    as (pre & mid & k & send & fx & bs & bar & He & _ & _ & _ & Hc); [lia|vm_compute; reflexivity|].
  exists pre, mid, k, send, fx, bs, bar. split; [exact He|]. by apply (Hc (fun n => n)).
Defined.

End SaveLoop.
