(* ===== verification/Control.v ===== *)
(** The control records of the main connection.

    Memory travels on the slaves' connections; the main connection carries the
    records of the TSC, of the virtual CPUs and of the HVM locations.  Models
    [save_tsc_info] and the records written after the last iteration by
    [xc_domain_save] (tools/libxc/xc_domain_save.c), and the master's side of
    the receiving loop of [xc_domain_restore] (tools/libxc/xc_domain_restore.c),
    which reads them with the parser of [Stream]. *)

From S2P Require Import Prelude IO PageTable Stream.

Module Control.
Import IO PageTable Stream.

(** ** The sender *)

(** A condition [w1 || w2 || ...] over writes: the writes are made from left
    to right until one fails; the result says whether one did. *)
Fixpoint write_any (ms : list (list Z)) (fd : ofile) : option (bool * ofile) :=
  match ms with
  | [] => Some (false, fd)
  | m :: ms' =>
      '(rc, fd) ← write_exact fd m;
      if truthy rc then Some (true, fd) else write_any ms' fd
  end.

Definition tsc_record (tsc_mode nsec khz incarn : Z) : list (list Z) :=
  [le_bytes 4 XC_SAVE_ID_TSC_INFO; le_bytes 4 tsc_mode; le_bytes 8 nsec; le_bytes 4 khz; le_bytes 4 incarn].

(** [save_tsc_info]; [info] is the result of [xc_domain_get_tsc_info]. *)
Definition save_tsc_info (info : option (Z * Z * Z * Z)) (fd : ofile) : option (Z * ofile) :=
  match info with
  | None => Some (-1, fd)
  | Some (tsc_mode, nsec, khz, incarn) =>
      '(failed, fd) ← write_any (tsc_record tsc_mode nsec khz incarn) fd;
      Some (if failed : bool then -1 else 0, fd)
  end.

(** [for ( i = 1; i <= info.max_vcpu_id; i++ )] over [n] indices from [i];
    [online i] is the answer of [xc_vcpu_getinfo]. *)
Fixpoint vcpu_map (online : Z -> bool) (n : nat) (i vcpumap : Z) : Z :=
  match n with
  | O => vcpumap
  | S n => vcpu_map online n (i + 1) (if online i then vcpumap .| (1 .<< i) else vcpumap)
  end.

Definition vcpu_record (max_vcpu_id : Z) (online : Z -> bool) : option (list Z) :=
  if max_vcpu_id >=? 64 then None
  else Some (le_bytes 4 XC_SAVE_ID_VCPU_INFO ++ le_bytes 4 max_vcpu_id ++
             le_bytes 8 (vcpu_map online (Z.to_nat max_vcpu_id) 1 1)).

(** A location of an HVM guest, sent when it is not zero. *)
Definition hvm_record (id data : Z) : list Z :=
  if data =? 0 then [] else le_bytes 4 id ++ le_bytes 4 0 ++ le_bytes 8 data.

Record hvm_params := HvmParams { p_ident : Z; p_vm86 : Z; p_console : Z; p_acpi : Z }.

Definition hvm_records (p : hvm_params) : list Z :=
  hvm_record XC_SAVE_ID_HVM_IDENT_PT (p_ident p) ++
  hvm_record XC_SAVE_ID_HVM_VM86_TSS (p_vm86 p) ++
  hvm_record XC_SAVE_ID_HVM_CONSOLE_PFN (p_console p) ++
  hvm_record XC_SAVE_ID_HVM_ACPI_IOPORTS_LOCATION (p_acpi p).

(** What follows the memory: up to the zero that ends the section. *)
Definition end_records (hvm : option hvm_params) (checkpoint : bool) (max_vcpu_id : Z) (online : Z -> bool)
  : option (list Z) :=
  v ← vcpu_record max_vcpu_id online;
  Some (v ++ (match hvm with Some p => hvm_records p | None => [] end) ++
        (if checkpoint then [] else le_bytes 4 XC_SAVE_ID_LAST_CHECKPOINT) ++ le_bytes 4 0).

(** The map of the online virtual CPUs. *)
Lemma vcpu_map_spec online n : forall i m j,
  0 <= i -> 0 <= m -> 0 <= j ->
  Z.testbit (vcpu_map online n i m) j = Z.testbit m j || ((i <=? j) && (j <? i + Z.of_nat n) && online j).
Proof.
  induction n as [|n IH]; intros i m j Hi Hm Hj; cbn [vcpu_map].
  - replace (j <? i + Z.of_nat 0) with (j <? i) by (f_equal; lia).
    destruct (Z.leb_spec i j), (Z.ltb_spec j i); try lia; by rewrite ?andb_false_r, ?orb_false_r.
  - assert (0 <= (if online i then m .| (1 .<< i) else m)) as Hm'.
    { destruct (online i); [|done]. apply Z.lor_nonneg. split; [done|]. apply Z.shiftl_nonneg. lia. }
    rewrite IH by lia. clear Hm'. rewrite Nat2Z.inj_succ.
    assert ((i <=? j) && (j <? i + Z.succ (Z.of_nat n)) =
            (j =? i) || ((i + 1 <=? j) && (j <? i + 1 + Z.of_nat n))) as ->.
    { destruct (Z.leb_spec i j), (Z.ltb_spec j (i + Z.succ (Z.of_nat n))), (Z.eqb_spec j i),
        (Z.leb_spec (i + 1) j), (Z.ltb_spec j (i + 1 + Z.of_nat n)); try done; lia. }
    destruct (online i) eqn:Eo.
    + rewrite Z.lor_spec, testbit_pow2 by lia. destruct (Z.eqb_spec j i) as [->|]; cbn [orb andb].
      * by rewrite Eo, !orb_true_r.
      * by rewrite orb_false_r.
    + destruct (Z.eqb_spec j i) as [->|]; cbn [orb andb]; [|done]. by rewrite Eo, !andb_false_r.
Qed.

Lemma vcpu_map_range online max : 0 <= max < 64 -> 0 <= vcpu_map online (Z.to_nat max) 1 1 < 2 ^ 64.
Proof.
  intros Hmax.
  assert (forall n i m, 0 <= i -> 0 <= m -> 0 <= vcpu_map online n i m) as Hnn.
  { induction n as [|n IH]; intros i m Hi Hm; cbn [vcpu_map]; [done|]. apply IH; [lia|].
    destruct (online i); [|done]. apply Z.lor_nonneg. split; [done|]. apply Z.shiftl_nonneg. lia. }
  split; [apply Hnn; lia|]. apply Z.log2_lt_cancel. rewrite Z.log2_pow2 by lia.
  destruct (Z.lt_ge_cases (Z.log2 (vcpu_map online (Z.to_nat max) 1 1)) 64) as [|Hge]; [done|exfalso].
  assert (Z.testbit (vcpu_map online (Z.to_nat max) 1 1) (Z.log2 (vcpu_map online (Z.to_nat max) 1 1)) = true) as Ht.
  { apply Z.bit_log2. pose proof (Hnn (Z.to_nat max) 1 1 ltac:(lia) ltac:(lia)).
    destruct (Z.eq_dec (vcpu_map online (Z.to_nat max) 1 1) 0) as [E|]; [rewrite E in Hge; cbn in Hge; lia|lia]. }
  rewrite vcpu_map_spec in Ht by lia. set (j := Z.log2 _) in *.
  rewrite (proj2 (Z.ltb_ge j (1 + Z.of_nat (Z.to_nat max)))), andb_false_r in Ht by lia. cbn [andb] in Ht.
  rewrite orb_false_r in Ht. rewrite Z.bits_above_log2 in Ht by (cbn; lia). discriminate.
Qed.

(** ** The receiver's master *)

Section Receiver.
Context {S : Type} `{BS : ByteSource S}.
Context (set_tsc_info : Z -> Z -> Z -> Z -> bool) (tmem_restore tmem_restore_extra : S -> bool * S).

Abbreviation get := (get_one set_tsc_info tmem_restore tmem_restore_extra).

(** The main loop until [mc_end]: a record is read when a slave announced the
    last iteration ([mc_last_iter]), another when all slaves have finished.
    [last_seen] says whether the announcement was noticed before that. *)
Definition master_records (fuel : nat) (last_seen : bool) (st : pstate S) : option (Z * pstate S) :=
  '(rc, st) ← (if last_seen then get fuel st else Some (0, st));
  if rc <? 0 then Some (1, st)
  else
    '(rc, st) ← get fuel st;
    if rc <? 0 then Some (1, st)
    else Some (0, with_buf st (set_counts (buf st) 0 0)).

(** The block under "catch vcpu updates": [vcpumap] and [max_vcpu_id] start as
    1 and 0. *)
Record guest_info := GuestInfo {
  g_vcpumap : Z; g_max_vcpu_id : Z; g_params : list (loc * Z); g_console : Z
}.

Definition final_update (b : pagebuf) : guest_info :=
  GuestInfo (if new_ctxt_format b then vcpumap b else 1)
            (if new_ctxt_format b then max_vcpu_id b else 0)
            ((if identpt b =? 0 then [] else [(IdentPT, identpt b)]) ++
             (if vm86_tss b =? 0 then [] else [(Vm86TSS, vm86_tss b)]))
            (console_pfn b).

(** ** Reading single records *)

Context (Hplain : forall n, src_pad n = n /\ src_can n).

Lemma rd_plain b lc s n m r :
  src_ok s -> length m = n -> src_rest s = m ++ r ->
  exists s', rd (PState b lc s) n = (Some m, PState b lc s') /\ src_ok s' /\ src_rest s' = r.
Proof.
  intros Hok <- Hr. destruct (Hplain (length m)) as [Hp Hc].
  apply (rd_ok b lc s m [] r); auto. by rewrite app_nil_r.
Qed.

Ltac rd_step m :=
  match goal with
  | Hok : src_ok ?s, Hr : src_rest ?s = _ |- context [rd (PState ?b ?lc ?s) ?n] =>
      let s' := fresh "s'" in let E := fresh "E" in let Hok' := fresh "Hok'" in let Hr' := fresh "Hr'" in
      destruct (rd_plain b lc s n m _ Hok ltac:(by rewrite le_bytes_length) Hr) as (s' & E & Hok' & Hr');
      rewrite E; clear E; clear dependent s; try unfold with_buf; cbn [buf last_checkpoint source]
  end.

Ltac which_record :=
  rewrite le_int by done;
  cbv beta iota zeta delta [Z.eqb Pos.eqb XC_PARA_MIGR_END XC_LAST_ITER_FIRST XC_ITERATION_BARRIER
    XC_SAVE_ID_ENABLE_VERIFY_MODE XC_SAVE_ID_VCPU_INFO XC_SAVE_ID_HVM_IDENT_PT XC_SAVE_ID_HVM_VM86_TSS
    XC_SAVE_ID_TMEM XC_SAVE_ID_TMEM_EXTRA XC_SAVE_ID_TSC_INFO XC_SAVE_ID_HVM_CONSOLE_PFN
    XC_SAVE_ID_LAST_CHECKPOINT XC_SAVE_ID_HVM_ACPI_IOPORTS_LOCATION].

Lemma le_u64 z : 0 <= z < 2 ^ 64 -> le_val (le_bytes 8 z) = z.
Proof. intros H. rewrite le_val_bytes. by apply Z.mod_small. Qed.

Lemma le_u32 z : 0 <= z < 2 ^ 32 -> le_val (le_bytes 4 z) = z.
Proof. intros H. rewrite le_val_bytes. by apply Z.mod_small. Qed.

(** Each lemma: the parser consumes the record, updates the buffer and goes on
    with (or returns before) the rest [r] of the stream. *)
Lemma get_vcpu fuel b lc s id map r :
  src_ok s -> 0 <= id < 64 -> 0 <= map < 2 ^ 64 ->
  src_rest s = le_bytes 4 XC_SAVE_ID_VCPU_INFO ++ le_bytes 4 id ++ le_bytes 8 map ++ r ->
  exists s', get (Datatypes.S fuel) (PState b lc s) = get fuel (PState (set_vcpu b id map) lc s') /\
    src_ok s' /\ src_rest s' = r.
Proof.
  intros Hok Hid Hmap Hr. cbn [get_one]. unfold get_header.
  rd_step (le_bytes 4 XC_SAVE_ID_VCPU_INFO). which_record. unfold rd_vcpu_info, with_buf. cbn [buf last_checkpoint source].
  rd_step (le_bytes 4 id). rewrite le_int by lia.
  replace (id >=? 64) with false by lia.
  rd_step (le_bytes 8 map). rewrite le_u64 by done. eexists. split_and!; eauto.
Qed.

Lemma get_hvm fuel b lc s id l data r :
  (id, l) ∈ [(XC_SAVE_ID_HVM_IDENT_PT, IdentPT); (XC_SAVE_ID_HVM_VM86_TSS, Vm86TSS);
             (XC_SAVE_ID_HVM_CONSOLE_PFN, ConsolePfn); (XC_SAVE_ID_HVM_ACPI_IOPORTS_LOCATION, AcpiIoports)] ->
  src_ok s -> 0 <= data < 2 ^ 64 -> get_loc b l = 0 ->
  src_rest s = le_bytes 4 id ++ le_bytes 4 0 ++ le_bytes 8 data ++ r ->
  exists s', get (Datatypes.S fuel) (PState b lc s) = get fuel (PState (set_loc b l data) lc s') /\
    src_ok s' /\ src_rest s' = r.
Proof.
  intros Hin Hok Hd Hz Hr. cbn [get_one]. unfold get_header. rd_step (le_bytes 4 id).
  assert (exists s'', rd_loc (PState b lc s') l = HAgain (PState (set_loc b l data) lc s'') /\ src_ok s'' /\ src_rest s'' = r)
    as (s'' & El & Hok'' & Hr'').
  { unfold rd_loc. rd_step (le_bytes 4 0). rewrite le_u32 by lia. rewrite Hz. cbn [Z.land Z.lor].
    rd_step (le_bytes 8 data). rewrite le_u64 by done. eexists. split_and!; eauto. by destruct l. }
  exists s''. split_and!; auto.
  repeat (apply elem_of_cons in Hin as [Hin|Hin]; [injection Hin as -> ->; which_record; by rewrite El|]).
  by apply elem_of_nil in Hin.
Qed.

Lemma get_last fuel b lc s r :
  src_ok s -> src_rest s = le_bytes 4 XC_SAVE_ID_LAST_CHECKPOINT ++ r ->
  exists s', get (Datatypes.S fuel) (PState b lc s) = get fuel (PState b true s') /\ src_ok s' /\ src_rest s' = r.
Proof.
  intros Hok Hr. cbn [get_one]. unfold get_header. rd_step (le_bytes 4 XC_SAVE_ID_LAST_CHECKPOINT).
  which_record. eauto.
Qed.

Lemma get_zero fuel b lc s r :
  src_ok s -> src_rest s = le_bytes 4 0 ++ r ->
  exists s', get (Datatypes.S fuel) (PState b lc s) = Some (0, PState b lc s') /\ src_ok s' /\ src_rest s' = r.
Proof.
  intros Hok Hr. cbn [get_one]. unfold get_header. rd_step (le_bytes 4 0). which_record. eauto.
Qed.

Lemma get_tsc fuel b lc s mode nsec khz incarn r :
  src_ok s -> 0 <= mode < 2 ^ 32 -> 0 <= nsec < 2 ^ 64 -> 0 <= khz < 2 ^ 32 -> 0 <= incarn < 2 ^ 32 ->
  src_rest s = concat (tsc_record mode nsec khz incarn) ++ r -> set_tsc_info mode nsec khz incarn = true ->
  exists s', get (Datatypes.S fuel) (PState b lc s) = Some (0, PState b lc s') /\ src_ok s' /\ src_rest s' = r.
Proof.
  intros Hok Hm Hn Hk Hi Hr Hset. unfold tsc_record in Hr. cbn [concat] in Hr. rewrite app_nil_r, <- !app_assoc in Hr.
  cbn [get_one]. unfold get_header. rd_step (le_bytes 4 XC_SAVE_ID_TSC_INFO). which_record. unfold rd_tsc_info.
  rd_step (le_bytes 4 mode). rd_step (le_bytes 8 nsec). rd_step (le_bytes 4 khz). rd_step (le_bytes 4 incarn).
  rewrite !le_u32, le_u64, Hset by done. eauto.
Qed.

(** A location that is sent only when it is not zero. *)
Lemma get_hvm_record fuel k b lc s id l data r :
  (id, l) ∈ [(XC_SAVE_ID_HVM_IDENT_PT, IdentPT); (XC_SAVE_ID_HVM_VM86_TSS, Vm86TSS);
             (XC_SAVE_ID_HVM_CONSOLE_PFN, ConsolePfn); (XC_SAVE_ID_HVM_ACPI_IOPORTS_LOCATION, AcpiIoports)] ->
  src_ok s -> 0 <= data < 2 ^ 64 -> get_loc b l = 0 -> (k < fuel)%nat ->
  src_rest s = hvm_record id data ++ r ->
  exists fuel' s', (k <= fuel')%nat /\
    get fuel (PState b lc s) = get fuel' (PState (set_loc b l data) lc s') /\ src_ok s' /\ src_rest s' = r.
Proof.
  intros Hin Hok Hd Hz Hk Hr. unfold hvm_record in Hr. destruct (Z.eqb_spec data 0) as [->|Hnz].
  - exists fuel, s. split_and!; auto; [lia|]. f_equal. f_equal. destruct b, l; cbn in *; by rewrite <- Hz.
  - destruct fuel as [|fuel]; [lia|]. rewrite <- !app_assoc in Hr.
    destruct (get_hvm fuel b lc s id l data r) as (s' & E & Hok' & Hr'); auto.
    exists fuel, s'. split_and!; auto. lia.
Qed.

Definition params_ok (p : hvm_params) : Prop :=
  0 <= p_ident p < 2 ^ 64 /\ 0 <= p_vm86 p < 2 ^ 64 /\ 0 <= p_console p < 2 ^ 64 /\ 0 <= p_acpi p < 2 ^ 64.

(** The buffer after the records of an HVM guest. *)
Definition with_params (b : pagebuf) (p : hvm_params) : pagebuf :=
  set_loc (set_loc (set_loc (set_loc b IdentPT (p_ident p)) Vm86TSS (p_vm86 p)) ConsolePfn (p_console p))
          AcpiIoports (p_acpi p).

Lemma get_hvm_records b lc s p r k :
  src_ok s -> params_ok p -> (forall l, get_loc b l = 0) -> src_rest s = hvm_records p ++ r ->
  exists fuel' s', (k <= fuel')%nat /\
    get (4 + k) (PState b lc s) = get fuel' (PState (with_params b p) lc s') /\ src_ok s' /\ src_rest s' = r.
Proof.
  intros Hok (H1 & H2 & H3 & H4) Hz Hr. unfold hvm_records in Hr. rewrite <- !app_assoc in Hr.
  destruct (get_hvm_record (4 + k) (3 + k) b lc s XC_SAVE_ID_HVM_IDENT_PT IdentPT (p_ident p) _
    ltac:(set_solver) Hok H1 (Hz _) ltac:(lia) Hr) as (f1 & s1 & Hf1 & -> & Hok1 & Hr1).
  destruct (get_hvm_record f1 (2 + k) (set_loc b IdentPT (p_ident p)) lc s1 XC_SAVE_ID_HVM_VM86_TSS Vm86TSS (p_vm86 p) _
    ltac:(set_solver) Hok1 H2 (Hz Vm86TSS) ltac:(lia) Hr1) as (f2 & s2 & Hf2 & -> & Hok2 & Hr2).
  destruct (get_hvm_record f2 (1 + k) (set_loc (set_loc b IdentPT (p_ident p)) Vm86TSS (p_vm86 p)) lc s2
    XC_SAVE_ID_HVM_CONSOLE_PFN ConsolePfn (p_console p) _ ltac:(set_solver) Hok2 H3 (Hz ConsolePfn) ltac:(lia) Hr2)
    as (f3 & s3 & Hf3 & -> & Hok3 & Hr3).
  destruct (get_hvm_record f3 k (set_loc (set_loc (set_loc b IdentPT (p_ident p)) Vm86TSS (p_vm86 p)) ConsolePfn (p_console p))
    lc s3 XC_SAVE_ID_HVM_ACPI_IOPORTS_LOCATION AcpiIoports (p_acpi p) _ ltac:(set_solver) Hok3 H4 (Hz AcpiIoports) ltac:(lia) Hr3)
    as (f4 & s4 & Hf4 & E & Hok4 & Hr4).
  exists f4, s4. split_and!; auto.
Qed.

Lemma get_tail_records k b lc s checkpoint r :
  src_ok s -> src_rest s = (if checkpoint : bool then [] else le_bytes 4 XC_SAVE_ID_LAST_CHECKPOINT) ++ le_bytes 4 0 ++ r ->
  exists s', get (2 + k) (PState b lc s) = Some (0, PState b (if checkpoint then lc else true) s') /\
    src_ok s' /\ src_rest s' = r.
Proof.
  intros Hok Hr. change (2 + k)%nat with (Datatypes.S (Datatypes.S k)). destruct checkpoint.
  - by apply get_zero.
  - destruct (get_last (Datatypes.S k) b lc s _ Hok Hr) as (s1 & -> & Hok1 & Hr1). by apply get_zero.
Qed.

Lemma get_end_records k b s hvm checkpoint max online recs r :
  end_records hvm checkpoint max online = Some recs ->
  src_ok s -> (forall l, get_loc b l = 0) -> 0 <= max -> (forall p, hvm = Some p -> params_ok p) ->
  src_rest s = recs ++ r ->
  let b' := set_vcpu b max (vcpu_map online (Z.to_nat max) 1 1) in
  exists s', get (7 + k) (PState b false s) =
      Some (0, PState (match hvm with Some p => with_params b' p | None => b' end) (negb checkpoint) s') /\
    src_ok s' /\ src_rest s' = r /\ max < 64.
Proof.
  intros He Hok Hz Hmax Hp Hr b'. unfold end_records, vcpu_record in He.
  destruct (Z.geb_spec max 64); [discriminate|]. cbn in He. injection He as <-.
  rewrite <- !app_assoc in Hr. change (7 + k)%nat with (Datatypes.S (6 + k)).
  destruct (get_vcpu (6 + k) b false s max _ _ Hok ltac:(lia) (vcpu_map_range online max ltac:(lia)) Hr)
    as (s1 & -> & Hok1 & Hr1). fold b'.
  assert (exists s', get (6 + k) (PState b' false s1) =
      Some (0, PState (match hvm with Some p => with_params b' p | None => b' end) (negb checkpoint) s') /\
      src_ok s' /\ src_rest s' = r) as (s' & E & Hok' & Hr'); [|exists s'; split_and!; auto].
  destruct hvm as [p|].
  - assert (forall l, get_loc b' l = 0) as Hz' by (intros l; rewrite <- (Hz l); by destruct l).
    destruct (get_hvm_records b' false s1 p _ (2 + k) Hok1 (Hp p eq_refl) Hz' Hr1)
      as (f2 & s2 & Hf2 & E2 & Hok2 & Hr2).
    change (4 + (2 + k))%nat with (6 + k)%nat in E2. rewrite E2.
    replace f2 with (2 + (f2 - 2))%nat by lia.
    destruct (get_tail_records (f2 - 2) (with_params b' p) false s2 checkpoint r Hok2 Hr2) as (s3 & -> & ? & ?).
    exists s3. by destruct checkpoint.
  - cbn [app] in Hr1. change (6 + k)%nat with (2 + (4 + k))%nat.
    destruct (get_tail_records (4 + k) b' false s1 checkpoint r Hok1 Hr1) as (s3 & -> & ? & ?).
    exists s3. by destruct checkpoint.
Qed.

(** The control records arrive: when the receiver has noticed the
    last iteration, it reads the TSC record and the records at the end as the
    sender wrote them; it learns the highest virtual CPU, exactly the CPUs that
    are online (CPU 0 included), the HVM locations, and whether more
    checkpoints follow; the rest of the stream, the tail of the image, is left
    for the next reader. *)
Theorem control_roundtrip s mode nsec khz incarn hvm checkpoint max online recs tail :
  end_records hvm checkpoint max online = Some recs ->
  src_ok s -> src_rest s = concat (tsc_record mode nsec khz incarn) ++ recs ++ tail ->
  0 <= mode < 2 ^ 32 -> 0 <= nsec < 2 ^ 64 -> 0 <= khz < 2 ^ 32 -> 0 <= incarn < 2 ^ 32 ->
  set_tsc_info mode nsec khz incarn = true -> 0 <= max -> (forall p, hvm = Some p -> params_ok p) ->
  exists st, master_records 7 true (PState pagebuf_init false s) = Some (0, st) /\
    src_rest (source st) = tail /\ last_checkpoint st = negb checkpoint /\
    let g := final_update (buf st) in
    g_max_vcpu_id g = max /\
    (forall i, 0 <= i -> Z.testbit (g_vcpumap g) i = (i =? 0) || ((1 <=? i) && (i <=? max) && online i)) /\
    g_console g = match hvm with Some p => p_console p | None => 0 end /\
    acpi_ioport_location (buf st) = match hvm with Some p => p_acpi p | None => 0 end /\
    g_params g = match hvm with
                 | Some p => (if p_ident p =? 0 then [] else [(IdentPT, p_ident p)]) ++
                             (if p_vm86 p =? 0 then [] else [(Vm86TSS, p_vm86 p)])
                 | None => []
                 end.
Proof.
  intros He Hok Hr Hm Hn Hk Hi Hset Hmax Hp. unfold master_records.
  destruct (get_tsc 6 pagebuf_init false s mode nsec khz incarn _ Hok Hm Hn Hk Hi Hr Hset) as (s1 & -> & Hok1 & Hr1).
  cbn [mbind option_bind Z.ltb Z.compare].
  destruct (get_end_records 0 pagebuf_init s1 hvm checkpoint max online recs tail He Hok1) as (s2 & E2 & Hok2 & Hr2 & H64);
    [by intros []|done|done|done|].
  change (7 + 0)%nat with 7%nat in E2. rewrite E2. cbn [mbind option_bind Z.ltb Z.compare].
  eexists. split; [reflexivity|]. split; [exact Hr2|]. split; [done|].
  assert (forall i, 0 <= i -> Z.testbit (vcpu_map online (Z.to_nat max) 1 1) i =
                     (i =? 0) || ((1 <=? i) && (i <=? max) && online i)) as Hmap.
  { intros i Hi'. rewrite vcpu_map_spec, Z2Nat.id by lia.
    assert (Z.testbit 1 i = (i =? 0)) as ->.
    { destruct (Z.eqb_spec i 0) as [->|]; [done|]. apply Z.bits_above_log2; cbn; lia. }
    assert ((i <? 1 + max) = (i <=? max)) as ->; [|done].
    destruct (Z.ltb_spec i (1 + max)), (Z.leb_spec i max); try done; lia. }
  destruct hvm as [p|]; cbn -[Z.testbit vcpu_map]; split_and!; done.
Qed.

(** When the receiver has not noticed the last iteration before
    all slaves finished (for instance because the last iteration had no batch,
    so that no slave announced it), it takes the TSC record for the records at
    the end: it assumes a single virtual CPU and no HVM locations, and reads
    the tail of the image from where the CPU record still is. *)
Theorem missed_last_misreads s mode nsec khz incarn recs tail :
  src_ok s -> src_rest s = concat (tsc_record mode nsec khz incarn) ++ recs ++ tail ->
  0 <= mode < 2 ^ 32 -> 0 <= nsec < 2 ^ 64 -> 0 <= khz < 2 ^ 32 -> 0 <= incarn < 2 ^ 32 ->
  set_tsc_info mode nsec khz incarn = true ->
  exists st, master_records 7 false (PState pagebuf_init false s) = Some (0, st) /\
    src_rest (source st) = recs ++ tail /\ final_update (buf st) = GuestInfo 1 0 [] 0 /\
    last_checkpoint st = false.
Proof.
  intros Hok Hr Hm Hn Hk Hi Hset. unfold master_records. cbn [mbind option_bind Z.ltb Z.compare].
  destruct (get_tsc 6 pagebuf_init false s mode nsec khz incarn _ Hok Hm Hn Hk Hi Hr Hset) as (s1 & -> & Hok1 & Hr1).
  cbn [mbind option_bind Z.ltb Z.compare]. eexists. split; [reflexivity|]. done.
Qed.

End Receiver.

(** Four CPUs of which 0, 1 and 3 are online, on a connection that delivers
    the stream in two pieces. *)
Definition demo_online (i : Z) : bool := negb (i =? 2).
Definition demo_control : list Z :=
  concat (tsc_record 1 5000 2000000 7) ++ default [] (end_records None false 3 demo_online) ++ [9; 9].
Definition demo_fd : list event := [ERead (RData (take 10 demo_control)); ERead (RErr EINTR); ERead (RData (drop 10 demo_control))].

Lemma fd_plain n : @src_pad _ fd_source n = n /\ @src_can _ fd_source n.
Proof. by split. Qed.

Lemma control_roundtrip_witness :
  exists st, master_records (fun _ _ _ _ => true) (fun s => (true, s)) (fun s => (true, s)) 7 true
      (PState pagebuf_init false demo_fd) = Some (0, st) /\
    g_vcpumap (final_update (buf st)) = 11 /\ g_max_vcpu_id (final_update (buf st)) = 3.
Proof.
  edestruct (control_roundtrip (fun _ _ _ _ => true) (fun s : list event => (true, s)) (fun s => (true, s))
    fd_plain demo_fd 1 5000 2000000 7 None false 3 demo_online
    (default [] (end_records None false 3 demo_online)) [9; 9])
    as (st & H & _ & _ & Hg & _); try lia; try reflexivity; try done.
  exists st. split; [exact H|]. split; [|exact Hg].
  revert H. vm_compute. intros [= <-]. reflexivity.
Defined.

Lemma missed_last_misreads_witness :
  exists st, master_records (fun _ _ _ _ => true) (fun s => (true, s)) (fun s => (true, s)) 7 false
      (PState pagebuf_init false demo_fd) = Some (0, st) /\ final_update (buf st) = GuestInfo 1 0 [] 0.
Proof.
  edestruct (missed_last_misreads (fun _ _ _ _ => true) (fun s : list event => (true, s)) (fun s => (true, s))
    fd_plain demo_fd 1 5000 2000000 7 (default [] (end_records None false 3 demo_online)) [9; 9])
    as (st & H & _ & Hg & _); try lia; try done.
  exists st. split; [exact H|exact Hg].
Defined.

End Control.
