(* ===== verification/P2mList.v ===== *)
(** The header of the main connection for a paravirtual guest.

    Models [map_frame_list_list] and [map_and_save_p2m_table]
    (tools/libxc/xc_domain_save.c), which translate and write the list of the
    frames that hold the guest's own pfn-to-mfn table, preceded by a block of
    extended information, and [load_p2m_frame_list]
    (tools/libxc/xc_domain_restore.c), which reads them.

    The sizes of the two variants of the CPU context are parameters, and so is
    the position of [vm_assist] in it. *)

From S2P Require Import Prelude IO PageTable Stream Control.

Module P2mList.
Import IO PageTable Stream Control.

(** ** Sizes *)

Definition FPP (guest_width : Z) : Z := PAGE_SIZE / guest_width.
Definition P2M_FLL_ENTRIES (p2m_size gw : Z) : Z := (p2m_size + FPP gw * FPP gw - 1) / (FPP gw * FPP gw).
Definition P2M_FL_ENTRIES (p2m_size gw : Z) : Z := (p2m_size + FPP gw - 1) / FPP gw.
Definition P2M_GUEST_FL_SIZE (p2m_size gw : Z) : Z := P2M_FL_ENTRIES p2m_size gw * gw.
Definition P2M_TOOLS_FL_SIZE (p2m_size gw : Z) : Z := P2M_FL_ENTRIES p2m_size gw * Z.max 8 gw.

(** ** The sender *)

(** [map_frame_list_list]: read the field of the shared info until it is not
    zero, at most 100 more times; [reads k] is the k-th value read. *)
Fixpoint wait_fll (count : nat) (k : nat) (fll : Z) (reads : nat -> Z) : Z :=
  match count with
  | O => fll
  | S count => if fll =? 0 then wait_fll count (S k) (reads (S k)) reads else fll
  end.

Definition map_frame_list_list (reads : nat -> Z) (map_range : Z -> option (list Z)) : option (list Z) :=
  let fll := wait_fll 100 0 (reads 0%nat) reads in
  if fll =? 0 then None else map_range fll.

(** The loops that widen a table of 32-bit entries in place, from entry
    [n - 1] down to 0. *)
Fixpoint widen (n : nat) (buf : list Z) : list Z :=
  match n with
  | O => buf
  | S i => widen i (write_at buf (8 * i) (le_bytes 8 (word_at 4 buf i)))
  end.

(** "Canonicalize guest's unsigned long vs ours", with 64-bit tools. *)
Definition canonicalize_width (gw : Z) (n : nat) (buf : list Z) : list Z :=
  if gw <? 8 then widen n buf else buf.

(** The frame list as the tools see it, from what the guest has in memory. *)
Definition read_frame_list (p2m_size gw : Z) (guest : list Z) : list Z :=
  let n := Z.to_nat (P2M_FL_ENTRIES p2m_size gw) in
  let buf := write_at (replicate (Z.to_nat (P2M_TOOLS_FL_SIZE p2m_size gw)) 0) 0
                      (take (Z.to_nat (P2M_GUEST_FL_SIZE p2m_size gw)) guest) in
  word_at 8 (canonicalize_width gw n buf) <$> seq 0 n.

(** The loop that replaces each frame number by the guest's number for it. *)
Definition canonicalize_frames (ctx : save_ctx) (frames : list Z) : option (list Z) :=
  mapM (fun f => if MFN_IS_IN_PSEUDOPHYS_MAP ctx f then Some (mfn_to_pfn ctx f) else None) frames.

(** The characters of a chunk's signature. *)
Definition vcpu_sig : list Z := [118; 99; 112; 117].
Definition extv_sig : list Z := [101; 120; 116; 118].
Definition xcnt_sig : list Z := [120; 99; 110; 116].

(** The condition that writes the extended information: as C groups it,
    [w1 || ... || w7 || mask ? (w8 || w9 || w10) : 0] is
    [(w1 || ... || w7 || mask) ? (w8 || w9 || w10) : 0]. *)
Definition write_ext_info (ctxt : list Z) (xfeature_mask size : Z) (fd : ofile) : option (bool * ofile) :=
  let chunk1_sz := Z.of_nat (length ctxt) in
  let xcnt_size := u32 (size + 16) in
  let tot_sz := u32 ((chunk1_sz + 8) + (0 + 8) + (if xfeature_mask =? 0 then 0 else 4 + 8)) in
  '(failed, fd) ← write_any [le_bytes 8 (2 ^ 64 - 1); le_bytes 4 tot_sz; vcpu_sig; le_bytes 4 chunk1_sz; ctxt;
                             extv_sig; le_bytes 4 0] fd;
  if (failed : bool) || negb (xfeature_mask =? 0)
  then write_any [xcnt_sig; le_bytes 4 4; le_bytes 4 xcnt_size] fd
  else Some (false, fd).

(** The mappings that [map_and_save_p2m_table] asks for, and the state of
    virtual CPU 0 that it writes. *)
Record p2m_env := P2mEnv {
  pe_fll : nat -> Z;
  pe_map_range : Z -> option (list Z);
  pe_map_pages : list Z -> option (list Z);
  pe_ctxt : option (list Z);
  pe_xstate : option (Z * Z)
}.

(** The first part of [map_and_save_p2m_table], which writes nothing: the
    context with the mapped table, the frames that hold the guest's table, and
    the guest's own numbers for these. *)
Definition map_p2m (ctx : save_ctx) (E : p2m_env) : option (save_ctx * list Z * list Z) :=
  let gw := guest_width ctx in
  fll_page ← map_frame_list_list (pe_fll E) (pe_map_range E);
  let fll := word_at 8 (canonicalize_width gw 512 fll_page) <$> seq 0 (Z.to_nat (P2M_FLL_ENTRIES (p2m_size ctx) gw)) in
  guest ← pe_map_pages E fll;
  let frames := read_frame_list (p2m_size ctx) gw guest in
  table ← pe_map_pages E frames;
  let ctx := SaveCtx (hvirt_start ctx) (pt_levels ctx) (max_mfn ctx)
               (fun i => word_at (Z.to_nat gw) table (Z.to_nat i)) (live_m2p ctx) (m2p_mfn0 ctx) gw (p2m_size ctx) in
  pfns ← canonicalize_frames ctx frames;
  Some (ctx, frames, pfns).

(** [map_and_save_p2m_table]: the context with the mapped table, if all went
    well, and the descriptor. *)
Definition map_and_save_p2m_table (ctx : save_ctx) (E : p2m_env) (fd : ofile) : option (option save_ctx * ofile) :=
  match map_p2m ctx E with
  | None => Some (None, fd)
  | Some (ctx, _, pfns) =>
      match pe_ctxt E, pe_xstate E with
      | Some ctxt, Some (mask, size) =>
          '(failed, fd) ← write_ext_info ctxt mask size fd;
          if failed : bool then Some (None, fd)
          else
            '(rc, fd) ← write_exact fd (entries_page 8 pfns);
            if truthy rc then Some (None, fd) else Some (Some ctx, fd)
      | _, _ => Some (None, fd)
      end
  end.

(** ** The receiver *)

(** What the header tells: [dinfo->guest_width], [ctx->pt_levels],
    [pae_extended_cr3], [ext_vcpucontext], [vcpuextstate] and its size. *)
Record hdr := Hdr {
  h_width : Z; h_levels : Z; h_pae : bool; h_extv : bool; h_xcnt : bool; h_xcnt_size : Z
}.

Section Load.
Context {S : Type} `{BS : ByteSource S}.
(** [sizeof(ctxt.x32)], [sizeof(ctxt.x64)] and [GET_FIELD(&ctxt, vm_assist)]. *)
Context (sizeof_x32 sizeof_x64 : Z) (vm_assist : Z -> list Z -> Z).

Definition VMASST_TYPE_pae_extended_cr3 : Z := 3.

(** "Any remaining bytes of this chunk: read and discard." *)
Fixpoint discard (fuel : nat) (chunk_bytes tot_bytes : Z) (s : S) : option (Z * S) :=
  match fuel with
  | O => None
  | Datatypes.S f =>
      if chunk_bytes =? 0 then Some (tot_bytes, s)
      else
        let sz := Z.min chunk_bytes 8 in
        match src_read s (Z.to_nat sz) with
        | (None, _) => None
        | (Some _, s) => discard f (chunk_bytes - sz) (u32 (tot_bytes - sz)) s
        end
  end.

(** One chunk after its signature and size; [tot_bytes] no longer counts
    these.  The result: what is left of [tot_bytes], the header, the source. *)
Definition load_chunk (chunk_sig : list Z) (chunk_bytes tot_bytes : Z) (h : hdr) (s : S) : option (Z * hdr * S) :=
  if decide (chunk_sig = vcpu_sig) then
    h ← (if chunk_bytes =? sizeof_x32
         then Some (Hdr 4 (if h_levels h >? 2 then 3 else h_levels h) (h_pae h) (h_extv h) (h_xcnt h) (h_xcnt_size h))
         else if chunk_bytes =? sizeof_x64
         then Some (Hdr 8 4 (h_pae h) (h_extv h) (h_xcnt h) (h_xcnt_size h))
         else None);
    match src_read s (Z.to_nat chunk_bytes) with
    | (None, _) => None
    | (Some ctxt, s) =>
        let pae := truthy (vm_assist (h_width h) ctxt .& (1 .<< VMASST_TYPE_pae_extended_cr3)) in
        Some (u32 (tot_bytes - chunk_bytes),
              Hdr (h_width h) (h_levels h) (pae || h_pae h) (h_extv h) (h_xcnt h) (h_xcnt_size h), s)
    end
  else if decide (chunk_sig = xcnt_sig) then
    (* the result of this read is not looked at *)
    let '(r, s) := src_read s 4 in
    let sz := match r with Some bs => le_val bs | None => h_xcnt_size h end in
    Some (u32 (tot_bytes - chunk_bytes), Hdr (h_width h) (h_levels h) (h_pae h) (h_extv h) true sz, s)
  else
    let h := if decide (chunk_sig = extv_sig)
             then Hdr (h_width h) (h_levels h) (h_pae h) true (h_xcnt h) (h_xcnt_size h) else h in
    '(tot, s) ← discard (Datatypes.S (Z.to_nat chunk_bytes)) chunk_bytes tot_bytes s;
    Some (tot, h, s).

(** [while ( tot_bytes )]; [None] for an error or when the fuel ends. *)
Fixpoint load_chunks (fuel : nat) (tot_bytes : Z) (h : hdr) (s : S) : option (hdr * S) :=
  match fuel with
  | O => None
  | Datatypes.S f =>
      if tot_bytes =? 0 then Some (h, s)
      else
        match src_read s 4 with
        | (None, _) => None
        | (Some chunk_sig, s) =>
        match src_read s 4 with
        | (None, _) => None
        | (Some bs, s) =>
            let chunk_bytes := le_val bs in
            if tot_bytes <? u32 (chunk_bytes + 8) then None
            else
              '(tot, h, s) ← load_chunk chunk_sig chunk_bytes (u32 (tot_bytes - 8)) h s;
              load_chunks f tot h s
        end end
  end.

Definition load_p2m_frame_list (fuel : nat) (p2m_size : Z) (h : hdr) (s : S) : option (list Z * hdr * S) :=
  match src_read s 8 with
  | (None, _) => None
  | (Some bs, s) =>
      '(first, h, s) ←
        (if le_val bs =? 2 ^ 64 - 1 then
           match src_read s 4 with
           | (None, _) => None
           | (Some tb, s) =>
               '(h, s) ← load_chunks fuel (le_val tb) h s;
               match src_read s 8 with
               | (None, _) => None
               | (Some bs, s) => Some (le_val bs, h, s)
               end
           end
         else Some (le_val bs, h, s));
      let n := Z.to_nat (P2M_FL_ENTRIES p2m_size (h_width h) - 1) in
      match src_read s (8 * n) with
      | (None, _) => None
      | (Some bs, s) => Some (first :: (word_at 8 bs <$> seq 0 n), h, s)
      end
  end.

(** ** Reading the header *)

Context (Hplain : forall n, src_pad n = n /\ src_can n).

Lemma read_plain s n m r :
  src_ok s -> length m = n -> src_rest s = m ++ r ->
  exists s', src_read s n = (Some m, s') /\ src_ok s' /\ src_rest s' = r.
Proof.
  intros Hok <- Hr. destruct (Hplain (length m)) as [Hp Hc].
  destruct (src_read_ok s (length m) Hok Hc) as (s' & E & Hok' & Hr'); [rewrite Hp, Hr, length_app; lia|].
  exists s'. rewrite E, Hr, take_app_length. split_and!; auto. by rewrite Hr', Hp, Hr, drop_app_length.
Qed.

Ltac read_step m :=
  match goal with
  | Hok : src_ok ?s, Hr : src_rest ?s = _ |- context [src_read ?s ?n] =>
      let s' := fresh "s'" in let E := fresh "E" in let Hok' := fresh "Hok'" in let Hr' := fresh "Hr'" in
      destruct (read_plain s n m _ Hok ltac:(first [by rewrite le_bytes_length|done]) Hr) as (s' & E & Hok' & Hr');
      rewrite E; clear E; clear dependent s
  end.

(** The chunks of the extended information, after its total size. *)
Definition ext_chunks (ctxt : list Z) (mask size : Z) : list Z :=
  vcpu_sig ++ le_bytes 4 (Z.of_nat (length ctxt)) ++ ctxt ++ extv_sig ++ le_bytes 4 0 ++
  (if mask =? 0 then [] else xcnt_sig ++ le_bytes 4 4 ++ le_bytes 4 (size + 16)).

Definition ext_bytes (mask n : Z) : Z := (n + 8) + (0 + 8) + (if mask =? 0 then 0 else 4 + 8).

(** The header a context of width [gw] leads to. *)
Definition width_hdr (gw : Z) (ctxt : list Z) (mask size : Z) (h : hdr) : hdr :=
  Hdr gw (if gw =? 8 then 4 else if h_levels h >? 2 then 3 else h_levels h)
      (truthy (vm_assist gw ctxt .& (1 .<< VMASST_TYPE_pae_extended_cr3)) || h_pae h) true
      (negb (mask =? 0) || h_xcnt h) (if mask =? 0 then h_xcnt_size h else size + 16).

(** The head of a chunk. *)
Lemma load_chunks_step f tot h s sig n r :
  src_ok s -> length sig = 4%nat -> src_rest s = sig ++ le_bytes 4 n ++ r ->
  0 <= n -> n + 8 <= tot < 2 ^ 32 ->
  exists s', load_chunks (Datatypes.S f) tot h s =
      ('(tot, h, s) ← load_chunk sig n (tot - 8) h s'; load_chunks f tot h s) /\
    src_ok s' /\ src_rest s' = r.
Proof.
  intros Hok Hsig Hr Hn Ht. cbn [load_chunks]. rewrite (proj2 (Z.eqb_neq tot 0)) by lia.
  read_step sig. read_step (le_bytes 4 n). rewrite le_u32 by lia. rewrite !u32_small by lia.
  rewrite (proj2 (Z.ltb_ge _ _)) by lia. eauto.
Qed.

Lemma load_vcpu gw ctxt tot h s r :
  (gw = 4 /\ Z.of_nat (length ctxt) = sizeof_x32 \/
   gw = 8 /\ Z.of_nat (length ctxt) = sizeof_x64 /\ sizeof_x64 <> sizeof_x32) ->
  Z.of_nat (length ctxt) <= tot < 2 ^ 32 -> src_ok s -> src_rest s = ctxt ++ r ->
  exists s', load_chunk vcpu_sig (Z.of_nat (length ctxt)) tot h s =
    Some (tot - Z.of_nat (length ctxt),
          Hdr gw (if gw =? 8 then 4 else if h_levels h >? 2 then 3 else h_levels h)
              (truthy (vm_assist gw ctxt .& (1 .<< VMASST_TYPE_pae_extended_cr3)) || h_pae h)
              (h_extv h) (h_xcnt h) (h_xcnt_size h), s') /\ src_ok s' /\ src_rest s' = r.
Proof.
  intros Hgw Ht Hok Hr. unfold load_chunk. rewrite decide_True by done.
  destruct (read_plain s (Z.to_nat (Z.of_nat (length ctxt))) ctxt _ Hok ltac:(lia) Hr) as (s2 & -> & Hok2 & Hr2).
  exists s2. split_and!; auto. rewrite u32_small by lia. destruct Hgw as [[-> Hs]|(-> & Hs & Hne)].
  - by rewrite (proj2 (Z.eqb_eq _ sizeof_x32)).
  - rewrite (proj2 (Z.eqb_neq _ sizeof_x32)) by lia. by rewrite (proj2 (Z.eqb_eq _ sizeof_x64)).
Qed.

Lemma load_xcnt v h s r :
  0 <= v < 2 ^ 32 -> src_ok s -> src_rest s = le_bytes 4 v ++ r ->
  exists s', load_chunk xcnt_sig 4 4 h s =
    Some (0, Hdr (h_width h) (h_levels h) (h_pae h) (h_extv h) true v, s') /\ src_ok s' /\ src_rest s' = r.
Proof.
  intros Hv Hok Hr. unfold load_chunk. rewrite decide_False, decide_True by done.
  read_step (le_bytes 4 v). rewrite le_u32 by done. eauto.
Qed.

Lemma load_ext_chunks k gw ctxt mask size h s r :
  (gw = 4 /\ Z.of_nat (length ctxt) = sizeof_x32 \/
   gw = 8 /\ Z.of_nat (length ctxt) = sizeof_x64 /\ sizeof_x64 <> sizeof_x32) ->
  Z.of_nat (length ctxt) < 2 ^ 31 -> 0 <= size < 2 ^ 32 - 16 ->
  src_ok s -> src_rest s = ext_chunks ctxt mask size ++ r ->
  exists s', load_chunks (4 + k) (ext_bytes mask (Z.of_nat (length ctxt))) h s =
    Some (width_hdr gw ctxt mask size h, s') /\ src_ok s' /\ src_rest s' = r.
Proof.
  intros Hgw Hn Hsz Hok Hr. unfold ext_chunks in Hr. rewrite <- !app_assoc in Hr. unfold ext_bytes, width_hdr.
  set (m := if mask =? 0 then 0 else 4 + 8).
  assert (0 <= m <= 12) by (unfold m; destruct (mask =? 0); lia).
  destruct (load_chunks_step (3 + k) (Z.of_nat (length ctxt) + 8 + (0 + 8) + m) h s vcpu_sig _ _ Hok eq_refl Hr)
    as (s1 & E1 & Hok1 & Hr1); [lia|lia|].
  destruct (load_vcpu gw ctxt (Z.of_nat (length ctxt) + 8 + (0 + 8) + m - 8) h s1 _ Hgw ltac:(lia) Hok1 Hr1)
    as (s2 & E2 & Hok2 & Hr2).
  change (4 + k)%nat with (Datatypes.S (3 + k)). rewrite E1, E2. cbn [mbind option_bind].
  replace (Z.of_nat (length ctxt) + 8 + (0 + 8) + m - 8 - Z.of_nat (length ctxt)) with (8 + m) by lia.
  match goal with |- context [load_chunks _ _ ?h0 s2] => set (h2 := h0) end.
  destruct (load_chunks_step (2 + k) (8 + m) h2 s2 extv_sig 0 _ Hok2 eq_refl Hr2) as (s3 & E3 & Hok3 & Hr3); [lia|lia|].
  change (3 + k)%nat with (Datatypes.S (2 + k)). rewrite E3.
  unfold load_chunk. rewrite decide_False, decide_False, decide_True by done.
  cbn [discard Z.to_nat Z.eqb mbind option_bind]. replace (8 + m - 8) with m by lia.
  destruct (Z.eqb_spec mask 0) as [->|Hmask]; unfold m; [by exists s3|].
  rewrite <- !app_assoc in Hr3.
  match goal with |- context [load_chunks _ _ ?h0 s3] => set (h3 := h0) end.
  destruct (load_chunks_step (1 + k) (4 + 8) h3 s3 xcnt_sig 4 _ Hok3 eq_refl Hr3) as (s4 & E4 & Hok4 & Hr4); [lia|lia|].
  destruct (load_xcnt (size + 16) h3 s4 r ltac:(lia) Hok4 Hr4) as (s5 & E5 & Hok5 & Hr5).
  change (2 + k)%nat with (Datatypes.S (1 + k)). rewrite E4. change (4 + 8 - 8) with 4. rewrite E5.
  cbn [mbind option_bind]. by exists s5.
Qed.

(** The header as a sequence of bytes. *)
Definition header (ctxt : list Z) (mask size : Z) (pfns : list Z) : list Z :=
  le_bytes 8 (2 ^ 64 - 1) ++ le_bytes 4 (ext_bytes mask (Z.of_nat (length ctxt))) ++
  ext_chunks ctxt mask size ++ entries_page 8 pfns.

Lemma load_header k gw ctxt mask size pfns n h s r :
  (gw = 4 /\ Z.of_nat (length ctxt) = sizeof_x32 \/
   gw = 8 /\ Z.of_nat (length ctxt) = sizeof_x64 /\ sizeof_x64 <> sizeof_x32) ->
  Z.of_nat (length ctxt) < 2 ^ 31 -> 0 <= size < 2 ^ 32 - 16 ->
  Z.of_nat (length pfns) = P2M_FL_ENTRIES n gw -> pfns <> [] ->
  Forall (fun p => 0 <= p < 2 ^ 64) pfns ->
  src_ok s -> src_rest s = header ctxt mask size pfns ++ r ->
  exists s', load_p2m_frame_list (4 + k) n h s = Some (pfns, width_hdr gw ctxt mask size h, s') /\
    src_ok s' /\ src_rest s' = r.
Proof.
  intros Hgw Hn Hsz Hl Hne Hf Hok Hr. unfold header in Hr. rewrite <- !app_assoc in Hr.
  assert (0 <= ext_bytes mask (Z.of_nat (length ctxt)) < 2 ^ 32)
    by (unfold ext_bytes; destruct (mask =? 0); lia).
  unfold load_p2m_frame_list. read_step (le_bytes 8 (2 ^ 64 - 1)). rewrite le_u64 by lia. rewrite Z.eqb_refl.
  read_step (le_bytes 4 (ext_bytes mask (Z.of_nat (length ctxt)))). rewrite le_u32 by done.
  destruct (load_ext_chunks k gw ctxt mask size h _ _ Hgw Hn Hsz Hok'0 Hr'0) as (s3 & -> & Hok3 & Hr3).
  cbn [mbind option_bind]. destruct pfns as [|p pfns]; [done|]. rewrite entries_page_cons, <- app_assoc in Hr3.
  apply Forall_cons in Hf as [Hp Hf]. read_step (le_bytes 8 p). rewrite le_u64 by done. cbn [mbind option_bind].
  cbn [width_hdr h_width]. rewrite <- Hl. cbn [length].
  replace (Z.to_nat (Z.of_nat (Datatypes.S (length pfns)) - 1)) with (length pfns) by lia.
  destruct (read_plain s' (8 * length pfns) (entries_page 8 pfns) r Hok' ltac:(rewrite entries_page_length; lia) Hr')
    as (s4 & -> & Hok4 & Hr4).
  exists s4. rewrite words_entries_page by done. done.
Qed.

End Load.

(** ** Writing the header *)

Lemma write_any_live ms script sent n :
  wr_live script (length (concat ms) + n) ->
  exists script', write_any ms (OFile script sent) = Some (false, OFile script' (sent ++ concat ms)) /\
    wr_live script' n.
Proof.
  revert script sent. induction ms as [|m ms IH]; intros script sent Hl; cbn [write_any concat].
  { exists script. by rewrite app_nil_r. }
  cbn [concat] in Hl. rewrite length_app, <- Nat.add_assoc in Hl. unfold write_exact. cbn [o_script o_sent].
  destruct (write_exact_loop_live script sent m _ Hl) as (script1 & -> & Hl1). cbn [mbind option_bind truthy].
  destruct (IH script1 (sent ++ m) Hl1) as (script2 & E & Hl2). exists script2.
  by rewrite E, <- app_assoc.
Qed.

Lemma write_ext_info_live ctxt mask size script sent n :
  Z.of_nat (length ctxt) < 2 ^ 31 -> 0 <= size < 2 ^ 32 - 16 ->
  let bs := le_bytes 8 (2 ^ 64 - 1) ++ le_bytes 4 (ext_bytes mask (Z.of_nat (length ctxt))) ++
            ext_chunks ctxt mask size in
  wr_live script (length bs + n) ->
  exists script', write_ext_info ctxt mask size (OFile script sent) = Some (false, OFile script' (sent ++ bs)) /\
    wr_live script' n.
Proof.
  intros Hn Hsz bs Hl. unfold write_ext_info. fold (ext_bytes mask (Z.of_nat (length ctxt))).
  rewrite (u32_small (ext_bytes _ _)), (u32_small (size + 16))
    by (unfold ext_bytes; destruct (mask =? 0); lia).
  set (ms := [le_bytes 8 _; _; _; _; _; _; _]).
  set (ms' := [xcnt_sig; _; _]).
  assert (bs = concat ms ++ (if mask =? 0 then [] else concat ms')) as Hbs.
  { unfold bs, ms, ms', ext_chunks. cbn [concat]. rewrite <- !app_assoc. destruct (mask =? 0); by rewrite ?app_nil_r. }
  rewrite Hbs in *. rewrite length_app, <- Nat.add_assoc in Hl.
  destruct (write_any_live ms script sent _ Hl) as (script1 & -> & Hl1). cbn [mbind option_bind orb].
  destruct (mask =? 0); cbn [negb].
  - exists script1. by rewrite app_nil_r.
  - destruct (write_any_live ms' script1 (sent ++ concat ms) n Hl1) as (script2 & E & Hl2). exists script2.
    by rewrite E, <- app_assoc.
Qed.

Lemma canonicalize_frames_ok ctx frames pfns :
  canonicalize_frames ctx frames = Some pfns ->
  Forall2 (fun f p => p < p2m_size ctx /\ p = live_m2p ctx f /\ pfn_to_mfn ctx p = f) frames pfns.
Proof.
  intros H. apply mapM_Some_1 in H. eapply Forall2_impl; [exact H|]. intros f p. cbn beta.
  destruct (MFN_IS_IN_PSEUDOPHYS_MAP ctx f) eqn:E; [|done]. intros [= <-].
  unfold MFN_IS_IN_PSEUDOPHYS_MAP in E. apply andb_true_iff in E as [[_ E1]%andb_true_iff E2].
  split_and!; [lia|done|lia].
Qed.

Lemma read_frame_list_length n gw guest :
  length (read_frame_list n gw guest) = Z.to_nat (P2M_FL_ENTRIES n gw).
Proof. unfold read_frame_list. by rewrite length_fmap, length_seq. Qed.

Lemma map_p2m_ok ctx E ctx' frames pfns :
  (forall m, 0 <= live_m2p ctx m) -> map_p2m ctx E = Some (ctx', frames, pfns) ->
  guest_width ctx' = guest_width ctx /\ p2m_size ctx' = p2m_size ctx /\
  length pfns = Z.to_nat (P2M_FL_ENTRIES (p2m_size ctx) (guest_width ctx)) /\
  Forall2 (fun f p => 0 <= p < p2m_size ctx /\ pfn_to_mfn ctx' p = f) frames pfns.
Proof.
  intros Hm. unfold map_p2m. intros H. repeat (apply bind_Some in H as (? & ? & H)). injection H as <- <- <-.
  match goal with H : canonicalize_frames _ _ = _ |- _ => pose proof (canonicalize_frames_ok _ _ _ H) as F end.
  split_and!; [done|done| |].
  - apply Forall2_length in F. by rewrite <- F, read_frame_list_length.
  - eapply Forall2_impl; [exact F|]. intros f p (Hlt & -> & Heq). split; [|done]. split; [apply Hm|done].
Qed.

(** The header of the main connection arrives: when the guest's
    table can be mapped and the connection takes what is written, the sender
    writes a header from which the receiver learns the guest's word size, the
    number of page-table levels, the optional parts of the tail, and the list
    of the guest's own numbers of the frames that hold its table; each frame
    stands in the table of the sender under that number.  The rest of the
    stream is left for the next reader. *)
Theorem p2m_header_roundtrip `{ByteSource Sr} (Hplain : forall n, src_pad n = n /\ src_can n)
    sizeof_x32 sizeof_x64 vm_assist ctx E ctx' frames pfns ctxt mask size script sent :
  map_p2m ctx E = Some (ctx', frames, pfns) -> pe_ctxt E = Some ctxt -> pe_xstate E = Some (mask, size) ->
  (forall m, 0 <= live_m2p ctx m) -> 0 < p2m_size ctx <= 2 ^ 52 ->
  (guest_width ctx = 4 /\ Z.of_nat (length ctxt) = sizeof_x32 \/
   guest_width ctx = 8 /\ Z.of_nat (length ctxt) = sizeof_x64 /\ sizeof_x64 <> sizeof_x32) ->
  Z.of_nat (length ctxt) < 2 ^ 31 -> 0 <= size < 2 ^ 32 - 16 ->
  wr_live script (length (header ctxt mask size pfns)) ->
  Forall2 (fun f p => 0 <= p < p2m_size ctx /\ pfn_to_mfn ctx' p = f) frames pfns /\
  exists script',
    map_and_save_p2m_table ctx E (OFile script sent) =
      Some (Some ctx', OFile script' (sent ++ header ctxt mask size pfns)) /\
    forall h s r, src_ok s -> src_rest s = header ctxt mask size pfns ++ r ->
      exists s', load_p2m_frame_list sizeof_x32 sizeof_x64 vm_assist 4 (p2m_size ctx) h s =
          Some (pfns, width_hdr vm_assist (guest_width ctx) ctxt mask size h, s') /\ src_rest s' = r.
Proof.
  intros Hmap Hctxt Hx Hm Hsize Hgw Hn Hsz Hl.
  destruct (map_p2m_ok ctx E ctx' frames pfns Hm Hmap) as (Hw & Hs & Hlen & HF).
  split; [done|].
  assert (1 <= P2M_FL_ENTRIES (p2m_size ctx) (guest_width ctx)).
  { assert (FPP (guest_width ctx) = 1024 \/ FPP (guest_width ctx) = 512)
      by (destruct Hgw as [[-> _]|[-> _]]; [by left|by right]).
    unfold P2M_FL_ENTRIES. apply Z.div_le_lower_bound; lia. }
  unfold header in Hl. rewrite !app_assoc in Hl. rewrite length_app, <- app_assoc in Hl.
  destruct (write_ext_info_live ctxt mask size script sent _ Hn Hsz Hl) as (script1 & E1 & Hl1).
  destruct (write_exact_loop_live script1
     (sent ++ le_bytes 8 (2 ^ 64 - 1) ++ le_bytes 4 (ext_bytes mask (Z.of_nat (length ctxt))) ++
      ext_chunks ctxt mask size) (entries_page 8 pfns) 0) as (script2 & E2 & _); [by rewrite Nat.add_0_r|].
  exists script2. split.
  - unfold map_and_save_p2m_table. rewrite Hmap, Hctxt, Hx, E1. cbn [mbind option_bind].
    unfold write_exact. cbn [o_script o_sent]. rewrite E2. cbn [mbind option_bind]. unfold header.
    by rewrite <- !app_assoc.
  - intros h s r Hok Hr.
    destruct (load_header sizeof_x32 sizeof_x64 vm_assist Hplain 0 (guest_width ctx) ctxt mask size pfns
                (p2m_size ctx) h s r) as (s' & ? & ? & ?); try done; [lia| | |by exists s'].
    + intros ->. cbn in Hlen. lia.
    + apply Forall_lookup_2. intros i p Hp.
      destruct (Forall2_lookup_r _ _ _ _ _ HF Hp) as (f & _ & Hr' & _). lia.
Qed.

(** ** Widening a table in place *)

Lemma word_at_write_out w b buf off v i :
  (w * i + w <= off)%nat -> (off + b <= length buf)%nat -> 
  word_at w (write_at buf off (le_bytes b v)) i = word_at w buf i.
Proof.
  intros H1 H2. unfold word_at, write_at.
  rewrite drop_app_le by (rewrite length_take; lia).
  rewrite take_app_le by (rewrite length_drop, length_take; lia).
  rewrite skipn_firstn_comm, take_take. by rewrite Nat.min_l by lia.
Qed.

Lemma word_at_write_above w b buf off v i :
  (off + b <= w * i)%nat -> (off + b <= length buf)%nat ->
  word_at w (write_at buf off (le_bytes b v)) i = word_at w buf i.
Proof.
  intros H1 H2. unfold word_at, write_at. rewrite le_bytes_length.
  rewrite drop_app_ge by (rewrite length_take; lia). rewrite length_take, Nat.min_l by lia.
  rewrite drop_app_ge by (rewrite le_bytes_length; lia). rewrite le_bytes_length, drop_drop.
  do 3 f_equal. lia.
Qed.

Lemma word_at_write_same w buf i v :
  (w * i + w <= length buf)%nat -> word_at w (write_at buf (w * i) (le_bytes w v)) i = v mod 256 ^ Z.of_nat w.
Proof.
  intros H. unfold word_at, write_at. rewrite drop_app_ge by (rewrite length_take; lia).
  rewrite length_take, Nat.min_l, Nat.sub_diag, drop_0 by lia.
  rewrite take_app_le by (rewrite le_bytes_length; lia). rewrite take_ge by (rewrite le_bytes_length; lia).
  apply le_val_bytes.
Qed.

Lemma widen_above n buf i :
  (n <= i)%nat -> (8 * n <= length buf)%nat -> word_at 8 (widen n buf) i = word_at 8 buf i.
Proof.
  revert buf. induction n as [|n IH]; intros buf Hi Hl; [done|]. cbn [widen].
  rewrite IH by (rewrite ?write_at_length; rewrite ?le_bytes_length; lia).
  apply word_at_write_above; lia.
Qed.

Lemma word_at_4_range buf i : Forall is_byte buf -> 0 <= word_at 4 buf i < 2 ^ 32.
Proof.
  intros Hb. unfold word_at. assert (Forall is_byte (take 4 (drop (4 * i) buf))) as H
    by (by apply Forall_take, Forall_drop).
  apply le_val_range in H. pose proof (length_take_le (drop (4 * i) buf) 4).
  rewrite length_take in H.
  assert (256 ^ Z.of_nat (4 `min` length (drop (4 * i) buf)) <= 2 ^ 32); [|lia].
  change (2 ^ 32) with (256 ^ 4). apply Z.pow_le_mono_r; lia.
Qed.

(** The loops that widen a table of 32-bit entries into 64-bit
    entries of the same block work in place: entry [i] of the result is the
    32-bit entry [i] of the block before. *)
Theorem widen_in_place n buf i :
  Forall is_byte buf -> (i < n)%nat -> (8 * n <= length buf)%nat -> word_at 8 (widen n buf) i = word_at 4 buf i.
Proof.
  revert buf. induction n as [|n IH]; intros buf Hb Hi Hl; [lia|]. cbn [widen].
  assert (Forall is_byte (write_at buf (8 * n) (le_bytes 8 (word_at 4 buf n)))) as Hb'.
  { unfold write_at. rewrite !Forall_app. split_and!;
      [by apply Forall_take|apply le_bytes_bytes|by apply Forall_drop]. }
  pose proof (word_at_4_range buf n Hb).
  destruct (decide (i = n)) as [->|Hne].
  - rewrite widen_above by (rewrite ?write_at_length; rewrite ?le_bytes_length; lia).
    rewrite word_at_write_same by lia. apply Z.mod_small. lia.
  - rewrite IH; [|done|lia|rewrite write_at_length; rewrite ?le_bytes_length; lia].
    apply word_at_write_out; lia.
Qed.

(** A failed write of the extended information is not
    reported when the guest has extra CPU state: with the way C groups the
    condition, whatever fails among the first seven writes, the sender goes on
    and writes the signature of the last chunk; when these later writes
    succeed the function reports no error although part of the header is
    missing. *)
Theorem ext_info_error_hidden ctxt mask size script :
  mask <> 0 -> wr_live script 12 ->
  exists script', write_ext_info ctxt mask size (OFile (WErr EIO :: script) []) =
    Some (false, OFile script' (xcnt_sig ++ le_bytes 4 4 ++ le_bytes 4 (u32 (size + 16)))).
Proof.
  intros Hm Hl. unfold write_ext_info. 
  change (write_any (le_bytes 8 (2 ^ 64 - 1) :: _) _) with (Some (true, OFile script [])). cbn [mbind option_bind orb].
  destruct (write_any_live [xcnt_sig; le_bytes 4 4; le_bytes 4 (u32 (size + 16))] script [] 0) as (s' & -> & _).
  - cbn [concat]. rewrite !length_app, !le_bytes_length. exact Hl.
  - exists s'. cbn [concat app]. by rewrite app_nil_r.
Qed.

(** ** A small guest *)

(** Three pages in frames 50 to 52; the table is in frame 52, the list of its
    frames in frame 51, and the field of the shared info is set late. *)
Definition demo_ctx : save_ctx := SaveCtx 0 4 100 (fun _ => 0) (fun m => if 50 <=? m then m - 50 else 9) 0 8 3.
Definition demo_env : p2m_env :=
  P2mEnv (fun k => if decide (k = 0%nat) then 0 else 7)
         (fun f => if f =? 7 then Some (entries_page 8 (51 :: replicate 511 0)) else None)
         (fun l => if decide (l = [51]) then Some (entries_page 8 (52 :: replicate 511 0))
                   else if decide (l = [52]) then Some (entries_page 8 ([50; 51; 52] ++ replicate 509 0)) else None)
         (Some [1; 2; 3; 4; 5]) (Some (7, 100)).

Lemma list_plain n : @src_pad _ list_source n = n /\ @src_can _ list_source n.
Proof. by split. Qed.

Lemma demo_map_p2m : exists ctx', map_p2m demo_ctx demo_env = Some (ctx', [52], [2]) /\ live_p2m ctx' 1 = 51.
Proof. eexists. split; vm_compute; reflexivity. Qed.

Lemma p2m_header_roundtrip_witness :
  exists ctx' script',
    map_and_save_p2m_table demo_ctx demo_env (OFile (replicate 80 (WOk 3)) []) =
      Some (Some ctx', OFile script' (header [1; 2; 3; 4; 5] 7 100 [2])) /\
    exists s', load_p2m_frame_list 4 5 (fun _ _ => 8) 4 3 (Hdr 8 4 false false false 0)
                 (header [1; 2; 3; 4; 5] 7 100 [2] ++ [6]) = Some ([2], Hdr 8 4 true true true 116, s') /\ s' = [6].
Proof.
  destruct demo_map_p2m as (ctx' & Hmap & _).
  destruct (p2m_header_roundtrip list_plain 4 5 (fun _ _ => 8) demo_ctx demo_env ctx' [52] [2]
    [1; 2; 3; 4; 5] 7 100 (replicate 80 (WOk 3)) [] Hmap eq_refl eq_refl) as (_ & script' & E & Hload).
  - intros m. cbn. destruct (Z.leb_spec 50 m); lia.
  - cbn. lia.
  - right. cbn. lia.
  - cbn. lia.
  - lia.
  - eapply (wr_live_mono _ 80); [|exact (wr_live_replicate 80 2)]. vm_compute. lia.
  - exists ctx', script'. split; [exact E|].
    exact (Hload (Hdr 8 4 false false false 0) (header [1; 2; 3; 4; 5] 7 100 [2] ++ [6]) [6] I eq_refl).
Defined.

Lemma widen_in_place_witness :
  word_at 8 (widen 2 (le_bytes 4 7 ++ le_bytes 4 9 ++ replicate 8 0)) 1 = 9.
Proof.
  rewrite (widen_in_place 2 (le_bytes 4 7 ++ le_bytes 4 9 ++ replicate 8 0) 1); [reflexivity| |lia|vm_compute; lia].
  rewrite !Forall_app. split_and!; [apply le_bytes_bytes..|]. by repeat constructor.
Defined.

Lemma ext_info_error_hidden_witness :
  exists script', write_ext_info [1; 2] 7 100 (OFile (WErr EIO :: replicate 20 (WOk 1)) []) =
    Some (false, OFile script' (xcnt_sig ++ le_bytes 4 4 ++ le_bytes 4 116)).
Proof.
  apply (ext_info_error_hidden [1; 2] 7 100 (replicate 20 (WOk 1))); [done|].
  by vm_compute.
Defined.

End P2mList.
