(* ===== verification/Vcpu.v ===== *)
(** The state of a virtual CPU of a paravirtual guest.

    Models the layout of [vcpu_guest_context] (public/arch-x86/xen.h), the
    macros [GET_FIELD] and [SET_FIELD] (tools/libxc/xg_save_restore.h), the
    replacement of machine frame numbers by the guest's own numbers in it
    (tools/libxc/xc_domain_save.c) and the way back
    (tools/libxc/xc_domain_restore.c).  The context is the block of bytes that
    travels; the reference is [translate], which maps every frame number in it
    by one function. *)

From S2P Require Import Prelude PageTable.

Module Vcpu.
Import PageTable.

(** ** The layout *)

(** Offsets in the structure, for words of [l_width] bytes. *)
Record layout := Layout {
  l_width : Z; l_size : Z;
  o_flags : Z; o_edx : Z; o_gdt_frames : Z; o_gdt_ents : Z; o_ctrlreg : Z; o_eax : Z
}.

Definition layout_x64 : layout := Layout 8 5168 512 616 4832 4960 4984 600.
Definition layout_x32 : layout := Layout 4 2800 512 524 2640 2704 2716 540.
Definition layout_of (guest_width : Z) : layout := if guest_width =? 8 then layout_x64 else layout_x32.

(** The fields that the migration, and resuming a guest, read or write. *)
Inductive field := Flags | Edx | GdtFrame (j : nat) | GdtEnts | CtrlReg (j : nat) | Eax.

#[global] Instance field_eq_dec : EqDecision field.
Proof. solve_decision. Defined.

Definition offset (L : layout) (f : field) : Z :=
  match f with
  | Flags => o_flags L
  | Edx => o_edx L
  | GdtFrame j => o_gdt_frames L + l_width L * Z.of_nat j
  | GdtEnts => o_gdt_ents L
  | CtrlReg j => o_ctrlreg L + l_width L * Z.of_nat j
  | Eax => o_eax L
  end.

Definition get (L : layout) (c : list Z) (f : field) : Z :=
  le_val (take (Z.to_nat (l_width L)) (drop (Z.to_nat (offset L f)) c)).
Definition set (L : layout) (c : list Z) (f : field) (v : Z) : list Z :=
  write_at c (Z.to_nat (offset L f)) (le_bytes (Z.to_nat (l_width L)) v).

Definition GET_FIELD (guest_width : Z) (c : list Z) (f : field) : Z := get (layout_of guest_width) c f.
Definition SET_FIELD (guest_width : Z) (c : list Z) (f : field) (v : Z) : list Z := set (layout_of guest_width) c f v.

Definition VGCF_online : Z := 1 .<< 5.

(** The indices of [for ( j = 0; (512*j) < GET_FIELD(&ctxt, gdt_ents); j++ )];
    the hypervisor admits at most 8192 entries, so that the loop stays within
    the sixteen frames and does not reach [gdt_ents] itself. *)
Definition gdt_indices (guest_width : Z) (c : list Z) : list nat :=
  seq 0 (Z.to_nat ((GET_FIELD guest_width c GdtEnts + 511) / 512)).

(** ** The sender *)

(** A loop that can stop with an error. *)
Fixpoint forM {A B} (l : list A) (b : B) (f : A -> B -> option B) : option B :=
  match l with
  | [] => Some b
  | a :: l => b ← f a b; forM l b f
  end.

(** "Canonicalise the suspend-record frame number." *)
Definition canon_edx (ctx : save_ctx) (c : list Z) : option (list Z) :=
  let gw := guest_width ctx in
  let mfn := GET_FIELD gw c Edx in
  if negb (MFN_IS_IN_PSEUDOPHYS_MAP ctx mfn) then None else Some (SET_FIELD gw c Edx (mfn_to_pfn ctx mfn)).

(** "Canonicalise each GDT frame number", the page table base pointer, and the
    page table of user mode in CR1. *)
Definition canon_ctxt (ctx : save_ctx) (c : list Z) : option (list Z) :=
  let gw := guest_width ctx in
  c ← forM (gdt_indices gw c) c (fun j c =>
        let mfn := GET_FIELD gw c (GdtFrame j) in
        if negb (MFN_IS_IN_PSEUDOPHYS_MAP ctx mfn) then None
        else Some (SET_FIELD gw c (GdtFrame j) (mfn_to_pfn ctx mfn)));
  if negb (MFN_IS_IN_PSEUDOPHYS_MAP ctx (UNFOLD_CR3 gw (GET_FIELD gw c (CtrlReg 3)))) then None
  else
    let c := SET_FIELD gw c (CtrlReg 3)
               (FOLD_CR3 gw (mfn_to_pfn ctx (UNFOLD_CR3 gw (GET_FIELD gw c (CtrlReg 3))))) in
    if (pt_levels ctx =? 4) && truthy (GET_FIELD 8 c (CtrlReg 1)) then
      if negb (MFN_IS_IN_PSEUDOPHYS_MAP ctx (UNFOLD_CR3 gw (GET_FIELD 8 c (CtrlReg 1)))) then None
      else Some (SET_FIELD 8 c (CtrlReg 1)
                   (1 .| FOLD_CR3 gw (mfn_to_pfn ctx (UNFOLD_CR3 gw (GET_FIELD 8 c (CtrlReg 1))))))
    else Some c.

(** ** The receiver *)

Section Restore.
(** The new domain: the word size, the number of page-table levels, the number
    of its pages, their types and the frames they got. *)
Context (gw levels size : Z) (pfn_type p2m : Z -> Z).

Definition XEN_DOMCTL_PFINFO_LTAB_SHIFT : Z := 28.

(** [(pfn >= dinfo->p2m_size) || (pfn_type[pfn] != XEN_DOMCTL_PFINFO_NOTAB)]. *)
Definition bad_frame (pfn : Z) : bool := (pfn >=? size) || negb (pfn_type pfn =? XEN_DOMCTL_PFINFO_NOTAB).

(** The two checks of a page table base. *)
Definition bad_base (pfn : Z) : bool :=
  (pfn >=? size) ||
  negb ((pfn_type pfn .& XEN_DOMCTL_PFINFO_LTABTYPE_MASK) =? (levels .<< XEN_DOMCTL_PFINFO_LTAB_SHIFT)).

(** [new_ctxt_format] of the function is never set. *)
Definition uncanon_flags (c : list Z) : list Z :=
  SET_FIELD gw c Flags (GET_FIELD gw c Flags .| VGCF_online).

Definition uncanon_edx (c : list Z) : option (list Z) :=
  let pfn := GET_FIELD gw c Edx in
  if bad_frame pfn then None else Some (SET_FIELD gw c Edx (p2m pfn)).

Definition uncanon_ctxt (c : list Z) : option (list Z) :=
  if GET_FIELD gw c GdtEnts >? 8192 then None
  else
    c ← forM (gdt_indices gw c) c (fun j c =>
          let pfn := GET_FIELD gw c (GdtFrame j) in
          if bad_frame pfn then None else Some (SET_FIELD gw c (GdtFrame j) (p2m pfn)));
    let pfn := UNFOLD_CR3 gw (GET_FIELD gw c (CtrlReg 3)) in
    if bad_base pfn then None
    else
      let c := SET_FIELD gw c (CtrlReg 3) (FOLD_CR3 gw (p2m pfn)) in
      if (levels =? 4) && truthy (GET_FIELD 8 c (CtrlReg 1) .& 1) then
        let pfn := UNFOLD_CR3 gw (GET_FIELD 8 c (CtrlReg 1) .& not_w 64 1) in
        if bad_base pfn then None
        else Some (SET_FIELD 8 c (CtrlReg 1) (FOLD_CR3 gw (p2m pfn)))
      else Some c.

End Restore.

(** ** Fields of a block *)

Record wf_layout (L : layout) : Prop := {
  wl_width : 0 < l_width L;
  wl_flags : 0 <= o_flags L;
  wl_edx : o_flags L + l_width L <= o_edx L;
  wl_frames : o_edx L + l_width L <= o_gdt_frames L;
  wl_ents : o_gdt_frames L + 16 * l_width L <= o_gdt_ents L;
  wl_ctrlreg : o_gdt_ents L + l_width L <= o_ctrlreg L;
  wl_size : o_ctrlreg L + 8 * l_width L <= l_size L;
  wl_eax : o_flags L + l_width L <= o_eax L;
  wl_eax_edx : o_eax L + l_width L <= o_edx L \/ o_edx L + l_width L <= o_eax L;
  wl_eax_frames : o_eax L + l_width L <= o_gdt_frames L
}.

Lemma layout_of_wf gw : wf_layout (layout_of gw).
Proof. unfold layout_of. destruct (gw =? 8); split; cbn; lia. Qed.

Definition valid_field (f : field) : Prop :=
  match f with GdtFrame j => (j < 16)%nat | CtrlReg j => (j < 8)%nat | _ => True end.

Section Fields.
Context (L : layout) (WL : wf_layout L).
Implicit Types c : list Z.

Definition sized c : Prop := Z.of_nat (length c) = l_size L.

Definition apart (o o' : Z) : Prop := o + l_width L <= o' \/ o' + l_width L <= o.

Lemma offset_fits f : valid_field f -> 0 <= offset L f /\ offset L f + l_width L <= l_size L.
Proof. destruct WL. destruct f; cbn; intros; nia. Qed.

Lemma fields_apart f f' : valid_field f -> valid_field f' -> f <> f' -> apart (offset L f) (offset L f').
Proof.
  destruct WL. unfold apart. intros Hf Hf' Hne.
  assert (forall i j : nat, i <> j -> l_width L * Z.of_nat i + l_width L <= l_width L * Z.of_nat j \/
                                      l_width L * Z.of_nat j + l_width L <= l_width L * Z.of_nat i) as Hm by nia.
  destruct f as [| |i| |i|], f' as [| |j| |j|]; cbn in *; try done; try nia.
  - assert (i <> j) as Hij by congruence. specialize (Hm i j Hij). lia.
  - assert (i <> j) as Hij by congruence. specialize (Hm i j Hij). lia.
Qed.

Lemma set_sized c f v : sized c -> valid_field f -> sized (set L c f v).
Proof.
  intros Hc Hf. pose proof (offset_fits f Hf). unfold sized, set in *.
  rewrite write_at_length; [done|]. rewrite le_bytes_length. destruct WL. lia.
Qed.

(** Byte [k] of a block after a write. *)
Lemma write_at_lookup (b src : list Z) off k :
  (off + length src <= length b)%nat ->
  write_at b off src !! k = if decide (off <= k < off + length src)%nat then src !! (k - off)%nat else b !! k.
Proof.
  intros H. unfold write_at. case_decide as D.
  - rewrite lookup_app_r by (rewrite length_take; lia). rewrite length_take, Nat.min_l by lia.
    apply lookup_app_l. lia.
  - destruct (decide (k < off)%nat).
    + rewrite lookup_app_l by (rewrite length_take; lia). by apply lookup_take_lt.
    + rewrite lookup_app_r by (rewrite length_take; lia). rewrite length_take, Nat.min_l by lia.
      rewrite lookup_app_r by lia. rewrite lookup_drop. f_equal. lia.
Qed.

Lemma set_lookup c f v k :
  sized c -> valid_field f ->
  set L c f v !! k =
    if decide (offset L f <= Z.of_nat k < offset L f + l_width L)
    then le_bytes (Z.to_nat (l_width L)) v !! (k - Z.to_nat (offset L f))%nat else c !! k.
Proof.
  intros Hc Hf. pose proof (offset_fits f Hf). pose proof (wl_width L WL). unfold sized, set in *.
  rewrite write_at_lookup by (rewrite le_bytes_length; lia). rewrite le_bytes_length.
  do 2 case_decide; done || lia.
Qed.

Lemma get_set_eq c f v : sized c -> valid_field f -> get L (set L c f v) f = v mod 256 ^ l_width L.
Proof.
  intros Hc Hf. pose proof (offset_fits f Hf). pose proof (wl_width L WL). unfold sized, get, set, write_at in *.
  rewrite drop_app_ge by (rewrite length_take; lia). rewrite length_take, Nat.min_l, Nat.sub_diag, drop_0 by lia.
  rewrite take_app_le by (rewrite le_bytes_length; lia). rewrite take_ge by (rewrite le_bytes_length; lia).
  rewrite le_val_bytes. by rewrite Z2Nat.id by lia.
Qed.

Lemma get_set_ne c f f' v :
  sized c -> valid_field f -> valid_field f' -> f <> f' -> get L (set L c f v) f' = get L c f'.
Proof.
  intros Hc Hf Hf' Hne. pose proof (fields_apart f f' Hf Hf' Hne) as Ha. unfold get. f_equal.
  pose proof (offset_fits f' Hf'). pose proof (wl_width L WL).
  apply list_eq. intros k. destruct (decide (k < Z.to_nat (l_width L))%nat).
  - rewrite !lookup_take_lt, !lookup_drop, set_lookup by done. rewrite decide_False; [done|]. unfold apart in Ha. lia.
  - by rewrite !lookup_take_ge by lia.
Qed.

Lemma set_set c f v v' : sized c -> valid_field f -> set L (set L c f v) f v' = set L c f v'.
Proof.
  intros Hc Hf. apply list_eq. intros k. rewrite !set_lookup by auto using set_sized. by case_decide.
Qed.

Lemma set_comm c f f' v v' :
  sized c -> valid_field f -> valid_field f' -> f <> f' -> set L (set L c f v) f' v' = set L (set L c f' v') f v.
Proof.
  intros Hc Hf Hf' Hne. pose proof (fields_apart f f' Hf Hf' Hne) as Ha. unfold apart in Ha. apply list_eq. intros k.
  rewrite !set_lookup by auto using set_sized. do 2 case_decide; done || lia.
Qed.

(** ** Updating several fields *)

Definition upd (h : field -> Z -> Z) c f : list Z := set L c f (h f (get L c f)).
Definition upd_all (h : field -> Z -> Z) (fs : list field) c : list Z := foldl (upd h) c fs.

Lemma upd_all_cons h f fs c : upd_all h (f :: fs) c = upd_all h fs (upd h c f).
Proof. done. Qed.

Lemma upd_sized h c f : sized c -> valid_field f -> sized (upd h c f).
Proof. apply set_sized. Qed.

Lemma upd_all_sized h fs c : sized c -> Forall valid_field fs -> sized (upd_all h fs c).
Proof.
  intros Hc Hf. revert c Hc. induction Hf as [|f fs Hf Hfs IH]; intros c Hc; [done|]. cbn. apply IH. by apply upd_sized.
Qed.

Lemma upd_all_get h fs c f :
  sized c -> Forall valid_field fs -> valid_field f -> f ∉ fs -> get L (upd_all h fs c) f = get L c f.
Proof.
  intros Hc Hfs Hf. revert c Hc. induction Hfs as [|f' fs Hf' Hfs IH]; intros c Hc Hni; [done|]. rewrite ?upd_all_cons.
  apply not_elem_of_cons in Hni as [Hne Hni]. rewrite IH by auto using upd_sized. by apply get_set_ne.
Qed.

Lemma upd_all_set h fs c f v :
  sized c -> Forall valid_field fs -> valid_field f -> f ∉ fs ->
  upd_all h fs (set L c f v) = set L (upd_all h fs c) f v.
Proof.
  intros Hc Hfs Hf. revert c Hc. induction Hfs as [|f' fs Hf' Hfs IH]; intros c Hc Hni; [done|]. rewrite ?upd_all_cons.
  apply not_elem_of_cons in Hni as [Hne Hni]. unfold upd.
  rewrite get_set_ne by done. rewrite set_comm by done. by apply IH; auto using set_sized.
Qed.

Lemma upd_all_lookup h fs c k :
  sized c -> Forall valid_field fs ->
  (forall f, f ∈ fs -> ~ offset L f <= Z.of_nat k < offset L f + l_width L) -> upd_all h fs c !! k = c !! k.
Proof.
  intros Hc Hfs. revert c Hc. induction Hfs as [|f fs Hf Hfs IH]; intros c Hc Hk; [done|]. rewrite upd_all_cons.
  rewrite IH by (auto using upd_sized; set_solver). unfold upd. rewrite set_lookup by done.
  rewrite decide_False; [done|]. apply Hk. set_solver.
Qed.

Lemma upd_all_get_in h fs c f :
  sized c -> Forall valid_field fs -> NoDup fs -> f ∈ fs ->
  get L (upd_all h fs c) f = h f (get L c f) mod 256 ^ l_width L.
Proof.
  intros Hc Hfs Hnd. revert c Hc. induction Hfs as [|f' fs Hf' Hfs IH]; intros c Hc Hf; [by apply elem_of_nil in Hf|].
  rewrite upd_all_cons. apply NoDup_cons in Hnd as [Hni Hnd]. apply elem_of_cons in Hf as [->|Hf].
  - rewrite upd_all_get by auto using upd_sized. by apply get_set_eq.
  - rewrite IH by auto using upd_sized. unfold upd. rewrite get_set_ne; [done|done|done| |by intros ->].
    by eapply Forall_forall in Hf; [|exact Hfs].
Qed.

(** Two passes over the same fields are one. *)
Lemma upd_all_upd_all h1 h2 h fs c :
  sized c -> Forall valid_field fs -> NoDup fs ->
  (forall f, f ∈ fs -> h2 f (h1 f (get L c f) mod 256 ^ l_width L) = h f (get L c f)) ->
  upd_all h2 fs (upd_all h1 fs c) = upd_all h fs c.
Proof.
  intros Hc Hfs Hnd. revert c Hc. induction Hfs as [|f fs Hf Hfs IH]; intros c Hc Hh; [done|]. rewrite ?upd_all_cons.
  apply NoDup_cons in Hnd as [Hni Hnd]. unfold upd.
  rewrite upd_all_get by auto using set_sized. rewrite <- upd_all_set by auto using set_sized.
  rewrite get_set_eq, set_set by done. rewrite Hh by set_solver. apply IH; auto using set_sized.
  intros f' Hf'. rewrite get_set_ne; [apply Hh; set_solver|done|done| |by intros ->].
  by eapply Forall_forall in Hf'; [|exact Hfs].
Qed.

Lemma upd_all_ext h1 h2 fs c :
  sized c -> Forall valid_field fs -> NoDup fs -> (forall f, f ∈ fs -> h1 f (get L c f) = h2 f (get L c f)) ->
  upd_all h1 fs c = upd_all h2 fs c.
Proof.
  intros Hc Hfs Hnd. revert c Hc. induction Hfs as [|f fs Hf Hfs IH]; intros c Hc Hh; [done|]. rewrite ?upd_all_cons.
  apply NoDup_cons in Hnd as [Hni Hnd]. unfold upd. rewrite (Hh f) by set_solver.
  apply IH; auto using set_sized. intros f' Hf'.
  rewrite get_set_ne; [apply Hh; set_solver|done|done| |by intros ->].
  by eapply Forall_forall in Hf'; [|exact Hfs].
Qed.

(** The loops over the frames of the descriptor table. *)
Lemma forM_upd (chk : Z -> bool) (g : Z -> Z) js c :
  sized c -> Forall (fun j => (j < 16)%nat) js -> NoDup js ->
  forM js c (fun j c => let v := get L c (GdtFrame j) in
               if chk v then None else Some (set L c (GdtFrame j) (g v))) =
  if forallb (fun j => negb (chk (get L c (GdtFrame j)))) js
  then Some (upd_all (fun _ => g) (GdtFrame <$> js) c) else None.
Proof.
  intros Hc Hj Hnd. revert c Hc. induction Hj as [|j js Hj Hjs IH]; intros c Hc; [done|].
  apply NoDup_cons in Hnd as [Hni Hnd]. cbn. destruct (chk (get L c (GdtFrame j))) eqn:E; [done|]. cbn.
  rewrite IH by auto using set_sized.
  assert (forallb (fun i => negb (chk (get L (set L c (GdtFrame j) (g (get L c (GdtFrame j)))) (GdtFrame i)))) js =
          forallb (fun i => negb (chk (get L c (GdtFrame i)))) js) as ->; [|done].
  clear IH E. induction Hjs as [|i js Hi Hjs IH]; [done|]. cbn.
  apply not_elem_of_cons in Hni as [Hne Hni]. apply NoDup_cons in Hnd as [_ Hnd].
  rewrite get_set_ne by (done || congruence). by rewrite IH.
Qed.

End Fields.

(** ** The reference: mapping every frame number *)

(** The fields that hold frame numbers; [first] for CPU 0, whose EDX is the
    frame of the suspend record. *)
Definition frame_fields (gw levels : Z) (first : bool) (c : list Z) : list field :=
  (if first then [Edx] else []) ++ (GdtFrame <$> gdt_indices gw c) ++ [CtrlReg 3] ++
  (if (levels =? 4) && truthy (GET_FIELD gw c (CtrlReg 1)) then [CtrlReg 1] else []).

(** The frame number in a field. *)
Definition frame_of (gw : Z) (f : field) (v : Z) : Z := match f with CtrlReg _ => UNFOLD_CR3 gw v | _ => v end.
Definition of_frame (gw : Z) (f : field) (n : Z) : Z := match f with CtrlReg _ => FOLD_CR3 gw n | _ => n end.
Definition conv (gw : Z) (g : Z -> Z) (f : field) (v : Z) : Z := of_frame gw f (g (frame_of gw f v)).

Definition translate (gw levels : Z) (first : bool) (g : Z -> Z) (c : list Z) : list Z :=
  upd_all (layout_of gw) (conv gw g) (frame_fields gw levels first c) c.

Record ctxt_ok (gw levels : Z) (c : list Z) : Prop := {
  co_sized : sized (layout_of gw) c;
  co_gdt : GET_FIELD gw c GdtEnts <= 8192;
  co_width : levels = 4 -> gw = 8
}.

Lemma gdt_indices_small gw c : GET_FIELD gw c GdtEnts <= 8192 -> Forall (fun j => (j < 16)%nat) (gdt_indices gw c).
Proof.
  intros H. apply Forall_forall. intros j Hj. apply elem_of_seq in Hj.
  assert ((GET_FIELD gw c GdtEnts + 511) / 512 <= 8703 / 512) by (apply Z.div_le_mono; lia).
  change (8703 / 512) with 16 in *. lia.
Qed.

Lemma frame_fields_valid gw levels first c :
  GET_FIELD gw c GdtEnts <= 8192 -> Forall valid_field (frame_fields gw levels first c).
Proof.
  intros H. unfold frame_fields. rewrite !Forall_app. split_and!.
  - destruct first; by repeat constructor.
  - apply Forall_fmap. by apply gdt_indices_small.
  - constructor; cbn; [lia|constructor].
  - destruct (_ && _); repeat constructor; cbn; lia.
Qed.

Lemma frame_fields_nodup gw levels first c : NoDup (frame_fields gw levels first c).
Proof.
  unfold frame_fields. rewrite !NoDup_app. split_and!.
  - destruct first; repeat constructor; set_solver.
  - intros f. destruct first; [|set_solver]. intros ->%list_elem_of_singleton.
    destruct (_ && _); rewrite !elem_of_app, list_elem_of_fmap; intros [(? & ? & _)|?]; [done|set_solver|done|set_solver].
  - apply NoDup_fmap_2; [by intros ?? [= ->]|apply NoDup_seq].
  - intros f (j & -> & _)%list_elem_of_fmap. destruct (_ && _); set_solver.
  - repeat constructor; set_solver.
  - intros f ->%list_elem_of_singleton. destruct (_ && _); set_solver.
  - destruct (_ && _); repeat constructor; set_solver.
Qed.

Lemma upd_all_app L h fs fs' c : upd_all L h (fs ++ fs') c = upd_all L h fs' (upd_all L h fs c).
Proof. unfold upd_all. apply foldl_app. Qed.

(** ** Both directions are passes over the fields *)

Section Pass.
(** What differs: the checks of a frame and of a page table base, the mapping
    of a number, and when CR1 counts, how it is read and how it is written. *)
Context (gw levels : Z) (chk1 chk2 : Z -> bool) (g : Z -> Z) (cond1 : Z -> bool) (dec1 enc1 : Z -> Z).
Let L := layout_of gw.

Definition pass (c : list Z) : option (list Z) :=
  c ← forM (gdt_indices gw c) c (fun j c => let v := GET_FIELD gw c (GdtFrame j) in
        if chk1 v then None else Some (SET_FIELD gw c (GdtFrame j) (g v)));
  if chk2 (UNFOLD_CR3 gw (GET_FIELD gw c (CtrlReg 3))) then None
  else
    let c := SET_FIELD gw c (CtrlReg 3) (FOLD_CR3 gw (g (UNFOLD_CR3 gw (GET_FIELD gw c (CtrlReg 3))))) in
    if (levels =? 4) && cond1 (GET_FIELD gw c (CtrlReg 1)) then
      if chk2 (dec1 (GET_FIELD gw c (CtrlReg 1))) then None
      else Some (SET_FIELD gw c (CtrlReg 1) (enc1 (g (dec1 (GET_FIELD gw c (CtrlReg 1))))))
    else Some c.

Definition pass_conv (f : field) (v : Z) : Z :=
  match f with
  | CtrlReg 1 => enc1 (g (dec1 v))
  | CtrlReg _ => FOLD_CR3 gw (g (UNFOLD_CR3 gw v))
  | _ => g v
  end.

Definition pass_fields (c : list Z) : list field :=
  (GdtFrame <$> gdt_indices gw c) ++ [CtrlReg 3] ++
  (if (levels =? 4) && cond1 (GET_FIELD gw c (CtrlReg 1)) then [CtrlReg 1] else []).

Definition pass_checks (c : list Z) : bool :=
  forallb (fun j => negb (chk1 (GET_FIELD gw c (GdtFrame j)))) (gdt_indices gw c) &&
  negb (chk2 (UNFOLD_CR3 gw (GET_FIELD gw c (CtrlReg 3)))) &&
  negb ((levels =? 4) && cond1 (GET_FIELD gw c (CtrlReg 1)) && chk2 (dec1 (GET_FIELD gw c (CtrlReg 1)))).

Lemma pass_spec c :
  sized L c -> GET_FIELD gw c GdtEnts <= 8192 ->
  pass c = if pass_checks c then Some (upd_all L pass_conv (pass_fields c) c) else None.
Proof.
  intros Hc Hg. pose proof (layout_of_wf gw) as WL. fold L in WL.
  pose proof (gdt_indices_small gw c Hg) as Hj. set (js := gdt_indices gw c) in *.
  assert (NoDup js) as Hnd by apply NoDup_seq.
  assert (Forall valid_field (GdtFrame <$> js)) as Hv by (by apply Forall_fmap).
  unfold pass, pass_checks, pass_fields. fold js. unfold GET_FIELD, SET_FIELD. fold L.
  pose proof (forM_upd L WL chk1 g js c Hc Hj Hnd) as HF. cbv zeta in HF. rewrite HF. clear HF.
  destruct (forallb _ js); [|done]. cbn [mbind option_bind andb].
  set (c1 := upd_all L (fun _ => g) (GdtFrame <$> js) c).
  assert (c1 = upd_all L pass_conv (GdtFrame <$> js) c) as Hc1.
  { apply upd_all_ext; auto; [by apply NoDup_fmap_2; [intros ?? [= ->]|]|].
    by intros f (j & -> & _)%list_elem_of_fmap. }
  assert (sized L c1) as Hs1 by (by apply upd_all_sized).
  assert (forall j, (j < 8)%nat -> get L c1 (CtrlReg j) = get L c (CtrlReg j)) as Hcr.
  { intros j Hj8. apply upd_all_get; auto. by intros (? & ? & _)%list_elem_of_fmap. }
  rewrite !Hcr by lia. destruct (chk2 (UNFOLD_CR3 gw (get L c (CtrlReg 3)))); [done|]. cbn [negb andb].
  rewrite get_set_ne by (done || (cbn; lia)). rewrite Hcr by lia.
  rewrite !upd_all_app. destruct ((levels =? 4) && cond1 (get L c (CtrlReg 1))); cbn [andb negb].
  - destruct (chk2 (dec1 (get L c (CtrlReg 1)))); [done|]. cbn [negb]. rewrite !upd_all_cons, <- Hc1.
    unfold upd. cbn [upd_all foldl pass_conv]. rewrite get_set_ne by (done || (cbn; lia)). by rewrite !Hcr by lia.
  - rewrite upd_all_cons, <- Hc1. unfold upd. cbn [upd_all foldl pass_conv]. by rewrite !Hcr by lia.
Qed.

End Pass.

Lemma field8 gw : gw = 8 -> layout_of 8 = layout_of gw.
Proof. by intros ->. Qed.

Lemma canon_ctxt_pass ctx c :
  (pt_levels ctx = 4 -> guest_width ctx = 8) ->
  canon_ctxt ctx c =
  pass (guest_width ctx) (pt_levels ctx) (fun v => negb (MFN_IS_IN_PSEUDOPHYS_MAP ctx v))
    (fun v => negb (MFN_IS_IN_PSEUDOPHYS_MAP ctx v)) (mfn_to_pfn ctx) truthy
    (UNFOLD_CR3 (guest_width ctx)) (fun n => 1 .| FOLD_CR3 (guest_width ctx) n) c.
Proof.
  intros Hw. unfold canon_ctxt, pass. destruct (forM _ _ _) as [c1|]; [|done]. cbn [mbind option_bind].
  destruct (negb _); [done|]. destruct (Z.eqb_spec (pt_levels ctx) 4) as [E|]; [|done].
  unfold GET_FIELD, SET_FIELD. by rewrite (field8 _ (Hw E)).
Qed.

Lemma uncanon_ctxt_pass gw levels size pfn_type p2m c :
  (levels = 4 -> gw = 8) -> GET_FIELD gw c GdtEnts <= 8192 ->
  uncanon_ctxt gw levels size pfn_type p2m c =
  pass gw levels (bad_frame size pfn_type) (bad_base levels size pfn_type) p2m (fun v => truthy (v .& 1))
    (fun v => UNFOLD_CR3 gw (v .& not_w 64 1)) (FOLD_CR3 gw) c.
Proof.
  intros Hw Hg. unfold uncanon_ctxt, pass. destruct (Z.gtb_spec (GET_FIELD gw c GdtEnts) 8192); [lia|].
  destruct (forM _ _ _) as [c1|]; [|done]. cbn [mbind option_bind].
  destruct (bad_base _ _ _ _); [done|]. destruct (Z.eqb_spec levels 4) as [E|]; [|done].
  unfold GET_FIELD, SET_FIELD. by rewrite (field8 _ (Hw E)).
Qed.

(** ** The round trip of one context *)

(** What the sender does to the context of one CPU, and the receiver. *)
Definition send_ctxt (ctx : save_ctx) (first : bool) (c : list Z) : option (list Z) :=
  c ← (if first then canon_edx ctx c else Some c); canon_ctxt ctx c.

Definition recv_ctxt (gw levels size : Z) (pfn_type p2m : Z -> Z) (first : bool) (c : list Z) : option (list Z) :=
  let c := uncanon_flags gw c in
  c ← (if first then uncanon_edx gw size pfn_type p2m c else Some c); uncanon_ctxt gw levels size pfn_type p2m c.

Definition type_ok (levels : Z) (pfn_type : Z -> Z) (f : field) (pfn : Z) : Prop :=
  match f with
  | CtrlReg _ => (pfn_type pfn .& XEN_DOMCTL_PFINFO_LTABTYPE_MASK) = (levels .<< XEN_DOMCTL_PFINFO_LTAB_SHIFT)
  | _ => pfn_type pfn = XEN_DOMCTL_PFINFO_NOTAB
  end.

Definition send_conv (ctx : save_ctx) : field -> Z -> Z :=
  pass_conv (guest_width ctx) (mfn_to_pfn ctx) (UNFOLD_CR3 (guest_width ctx))
            (fun n => 1 .| FOLD_CR3 (guest_width ctx) n).

Definition recv_conv (gw : Z) (p2m : Z -> Z) : field -> Z -> Z :=
  pass_conv gw p2m (fun v => UNFOLD_CR3 gw (v .& not_w 64 1)) (FOLD_CR3 gw).

(** Setting another field leaves a pass as it is. *)
Lemma pass_set_ne gw levels chk1 chk2 cond1 dec1 c f v :
  sized (layout_of gw) c -> GET_FIELD gw c GdtEnts <= 8192 -> f = Edx \/ f = Flags ->
  let c' := SET_FIELD gw c f v in
  sized (layout_of gw) c' /\ GET_FIELD gw c' GdtEnts = GET_FIELD gw c GdtEnts /\
  pass_fields gw levels cond1 c' = pass_fields gw levels cond1 c /\
  pass_checks gw levels chk1 chk2 cond1 dec1 c' = pass_checks gw levels chk1 chk2 cond1 dec1 c.
Proof.
  intros Hc Hg Hf c'. pose proof (layout_of_wf gw) as WL.
  assert (valid_field f) as Hvf by (by destruct Hf as [-> | ->]).
  assert (forall f', valid_field f' -> f' <> Edx -> f' <> Flags -> GET_FIELD gw c' f' = GET_FIELD gw c f') as Hget.
  { intros f' Hf' ??. apply get_set_ne; auto. destruct Hf as [-> | ->]; congruence. }
  assert (gdt_indices gw c' = gdt_indices gw c) as Hi by (unfold gdt_indices; by rewrite Hget).
  split; [by apply set_sized|]. split; [by apply Hget|].
  unfold pass_fields, pass_checks. rewrite Hi, !Hget by (done || (cbn; lia)). split; [done|].
  do 2 f_equal. pose proof (gdt_indices_small gw c Hg) as Hj.
  clear Hi. revert Hj. generalize (gdt_indices gw c). intros l Hj.
  induction Hj as [|j js Hj Hjs IH]; [done|]. cbn [forallb]. rewrite Hget by done. by rewrite IH.
Qed.

Lemma send_ctxt_spec ctx first c c1 :
  let gw := guest_width ctx in
  ctxt_ok gw (pt_levels ctx) c -> send_ctxt ctx first c = Some c1 ->
  c1 = upd_all (layout_of gw) (send_conv ctx) (frame_fields gw (pt_levels ctx) first c) c /\
  forall f, f ∈ frame_fields gw (pt_levels ctx) first c ->
    MFN_IS_IN_PSEUDOPHYS_MAP ctx (frame_of gw f (GET_FIELD gw c f)) = true.
Proof.
  intros gw [Hc Hg Hw] Hs. unfold send_ctxt in Hs.
  assert (exists c0, (if first then canon_edx ctx c else Some c) = Some c0 /\ canon_ctxt ctx c0 = Some c1)
    as (c0 & E0 & E1) by (by apply bind_Some in Hs).
  assert (c0 = upd_all (layout_of gw) (send_conv ctx) (if first then [Edx] else []) c /\
          (first = true -> MFN_IS_IN_PSEUDOPHYS_MAP ctx (GET_FIELD gw c Edx) = true) /\
          sized (layout_of gw) c0 /\ GET_FIELD gw c0 GdtEnts <= 8192 /\
          pass_fields gw (pt_levels ctx) truthy c0 = pass_fields gw (pt_levels ctx) truthy c /\
          forall chk1 chk2 dec1, pass_checks gw (pt_levels ctx) chk1 chk2 truthy dec1 c0 =
                                 pass_checks gw (pt_levels ctx) chk1 chk2 truthy dec1 c)
    as (H0 & Hedx & Hc0 & Hg0 & Hf0 & Hk0).
  { destruct first; [|injection E0 as <-; done]. unfold canon_edx in E0. fold gw in E0.
    destruct (MFN_IS_IN_PSEUDOPHYS_MAP ctx (GET_FIELD gw c Edx)) eqn:M; [|done]. injection E0 as <-.
    split; [done|]. split; [done|].
    destruct (pass_set_ne gw (pt_levels ctx) truthy truthy truthy (fun z => z) c Edx
                (mfn_to_pfn ctx (GET_FIELD gw c Edx)) Hc Hg (or_introl eq_refl)) as (? & -> & ? & _).
    split_and!; auto. intros chk1 chk2 dec1. apply pass_set_ne; auto. }
  rewrite canon_ctxt_pass in E1 by done. rewrite pass_spec in E1 by done. fold gw in E1.
  rewrite Hk0, Hf0 in E1. destruct (pass_checks _ _ _ _ _ _ _) eqn:K; [|done]. injection E1 as <-.
  split.
  - unfold frame_fields. rewrite upd_all_app, <- H0. done.
  - unfold pass_checks in K. rewrite !andb_true_iff, forallb_forall in K. destruct K as [[K1 K2] K3].
    intros f. unfold frame_fields. rewrite !elem_of_app, list_elem_of_fmap, list_elem_of_singleton.
    intros [Hf|[(j & -> & Hj)|[->|Hf]]].
    + destruct first; [|by apply elem_of_nil in Hf]. apply list_elem_of_singleton in Hf as ->. by apply Hedx.
    + apply list_elem_of_In, K1 in Hj. by rewrite negb_involutive in Hj.
    + cbn. by rewrite negb_involutive in K2.
    + destruct ((pt_levels ctx =? 4) && truthy (GET_FIELD gw c (CtrlReg 1))); [|by apply elem_of_nil in Hf].
      apply list_elem_of_singleton in Hf as ->. cbn. cbn in K3. by rewrite negb_involutive in K3.
Qed.

Lemma recv_ctxt_spec gw levels size pfn_type p2m (first : bool) c :
  let rfields := (if first then [Edx] else []) ++ pass_fields gw levels (fun v => truthy (v .& 1)) c in
  sized (layout_of gw) c -> GET_FIELD gw c GdtEnts <= 8192 -> (levels = 4 -> gw = 8) ->
  (first = true -> bad_frame size pfn_type (GET_FIELD gw c Edx) = false) ->
  pass_checks gw levels (bad_frame size pfn_type) (bad_base levels size pfn_type) (fun v => truthy (v .& 1))
    (fun v => UNFOLD_CR3 gw (v .& not_w 64 1)) c = true ->
  recv_ctxt gw levels size pfn_type p2m first c =
    Some (upd_all (layout_of gw) (recv_conv gw p2m) rfields (uncanon_flags gw c)).
Proof.
  intros rfields Hc Hg Hw Hedx Hk. pose proof (layout_of_wf gw) as WL. unfold recv_ctxt.
  set (cond1 := fun v => truthy (v .& 1)) in *. set (dec1 := fun v => UNFOLD_CR3 gw (v .& not_w 64 1)) in *.
  destruct (pass_set_ne gw levels (bad_frame size pfn_type) (bad_base levels size pfn_type) cond1 dec1 c Flags
              (GET_FIELD gw c Flags .| VGCF_online) Hc Hg (or_intror eq_refl)) as (Hc1 & Hg1 & Hf1 & Hk1).
  fold (uncanon_flags gw c) in Hc1, Hg1, Hf1, Hk1. set (c1 := uncanon_flags gw c) in *.
  assert (exists c2, (if first then uncanon_edx gw size pfn_type p2m c1 else Some c1) = Some c2 /\
            c2 = upd_all (layout_of gw) (recv_conv gw p2m) (if first then [Edx] else []) c1 /\
            sized (layout_of gw) c2 /\ GET_FIELD gw c2 GdtEnts <= 8192 /\
            pass_fields gw levels cond1 c2 = pass_fields gw levels cond1 c /\
            pass_checks gw levels (bad_frame size pfn_type) (bad_base levels size pfn_type) cond1 dec1 c2 = true)
    as (c2 & -> & E2 & Hc2 & Hg2 & Hf2 & Hk2).
  { destruct first; [|exists c1; split_and!; try done; [lia|congruence]].
    unfold uncanon_edx. assert (GET_FIELD gw c1 Edx = GET_FIELD gw c Edx) as He by (by apply get_set_ne).
    rewrite He, Hedx by done. eexists. split; [done|]. split; [cbn; unfold upd; cbn; by rewrite <- He|].
    destruct (pass_set_ne gw levels (bad_frame size pfn_type) (bad_base levels size pfn_type) cond1 dec1 c1 Edx
                (p2m (GET_FIELD gw c Edx)) Hc1 ltac:(lia) (or_introl eq_refl)) as (? & -> & -> & ->).
    split_and!; congruence || lia || done. }
  cbn [mbind option_bind]. rewrite uncanon_ctxt_pass, pass_spec by done. fold cond1 dec1.
  rewrite Hk2, Hf2, E2. unfold rfields. by rewrite upd_all_app.
Qed.

(** *** What the two conversions do together *)

Lemma FOLD_CR3_range gw n : 0 <= FOLD_CR3 gw n < 256 ^ l_width (layout_of gw).
Proof.
  unfold FOLD_CR3, layout_of. destruct (gw =? 8).
  - change (256 ^ l_width layout_x64) with (2 ^ 64). unfold u64. apply Z.mod_pos_bound. lia.
  - change (256 ^ l_width layout_x32) with (2 ^ 32).
    assert (0 <= u32 n < 2 ^ 32) by (apply Z.mod_pos_bound; lia).
    apply lor_range; [lia|apply Z.mod_pos_bound; lia|].
    rewrite Z.shiftr_div_pow2 by lia. split; [apply Z.div_pos; lia|].
    apply Z.div_lt_upper_bound; lia.
Qed.

(** The bit that marks a valid CR1 does not disturb the frame number. *)
Lemma cr1_mark n : 0 <= n < 2 ^ 52 ->
  UNFOLD_CR3 8 (((1 .| FOLD_CR3 8 n) mod 256 ^ 8) .& not_w 64 1) = n /\
  truthy (((1 .| FOLD_CR3 8 n) mod 256 ^ 8) .& 1) = true.
Proof.
  intros Hn. pose proof (FOLD_CR3_range 8 n) as Hr. change (256 ^ l_width (layout_of 8)) with (2 ^ 64) in Hr.
  assert (0 <= 1 .| FOLD_CR3 8 n < 2 ^ 64) as Hl by (apply lor_range; lia).
  rewrite Z.mod_small by exact Hl.
  assert (FOLD_CR3 8 n = n .<< 12) as ->.
  { unfold FOLD_CR3. cbn [Z.eqb Pos.eqb]. rewrite (u64_small n), u64_small; [done| |lia].
    rewrite Z.shiftl_mul_pow2 by lia. lia. }
  split.
  - unfold UNFOLD_CR3. cbn [Z.eqb Pos.eqb]. apply Z.bits_inj'. intros i Hi.
    rewrite Z.shiftr_spec, Z.land_spec, Z.lor_spec, testbit_not_w, Z.shiftl_spec by lia.
    replace (i + 12 - 12) with i by lia.
    rewrite (Z.bits_above_log2 1 (i + 12)) by (cbn; lia). rewrite orb_false_l, xorb_false_l.
    destruct (Z.ltb_spec (i + 12) 64); [by rewrite andb_true_r|].
    rewrite andb_false_r. symmetry. by apply (testbit_high n 52); lia.
  - unfold truthy. destruct (Z.eqb_spec ((1 .| (n .<< 12)) .& 1) 0) as [E|]; [|done].
    apply (f_equal (fun z => Z.testbit z 0)) in E. rewrite Z.land_spec, Z.lor_spec in E. done.
Qed.

Definition size_ok (gw size : Z) : Prop := size <= (if gw =? 8 then 2 ^ 52 else 2 ^ 32).

Lemma conv_conv ctx p2m f v :
  let gw := guest_width ctx in
  let pfn := mfn_to_pfn ctx (frame_of gw f v) in
  0 <= pfn < p2m_size ctx -> size_ok gw (p2m_size ctx) -> (f = CtrlReg 1 -> gw = 8) ->
  let v1 := send_conv ctx f v mod 256 ^ l_width (layout_of gw) in
  recv_conv gw p2m f v1 = conv gw (fun m => p2m (mfn_to_pfn ctx m)) f v /\
  match f with
  | CtrlReg 1 => UNFOLD_CR3 gw (v1 .& not_w 64 1) = pfn /\ truthy (v1 .& 1) = true
  | _ => frame_of gw f v1 = pfn
  end.
Proof.
  intros gw pfn Hp Hs Hf v1. unfold size_ok in Hs.
  assert (pfn mod 256 ^ l_width (layout_of gw) = pfn) as Hm.
  { apply Z.mod_small. unfold layout_of. destruct (gw =? 8); cbn [l_width layout_x64 layout_x32]; lia. }
  assert (UNFOLD_CR3 gw (FOLD_CR3 gw pfn mod 256 ^ l_width (layout_of gw)) = pfn) as Hfold.
  { rewrite Z.mod_small by apply FOLD_CR3_range. apply fold_unfold_cr3. destruct (gw =? 8); lia. }
  unfold recv_conv, send_conv, conv in *. fold gw in v1. unfold v1.
  destruct f as [| |j| |[|[|j]]|]; cbn [pass_conv frame_of of_frame] in *; fold pfn; rewrite ?Hm, ?Hfold; try done.
  clear v1 Hfold Hm. unfold pfn in *. clear pfn. specialize (Hf eq_refl). revert Hp Hs. rewrite Hf.
  change (l_width (layout_of 8)) with 8. cbn [Z.eqb Pos.eqb]. intros Hp Hs.
  destruct (cr1_mark (mfn_to_pfn ctx (UNFOLD_CR3 8 v)) ltac:(lia)) as [-> ->]. done.
Qed.

Lemma in_map_range ctx mfn :
  (forall m, 0 <= live_m2p ctx m) -> MFN_IS_IN_PSEUDOPHYS_MAP ctx mfn = true -> 0 <= mfn_to_pfn ctx mfn < p2m_size ctx.
Proof.
  intros Hm H. unfold MFN_IS_IN_PSEUDOPHYS_MAP in H. apply andb_true_iff in H as [[_ H]%andb_true_iff _].
  split; [apply Hm|lia].
Qed.

(** The receiver finds the fields that the sender changed. *)
Lemma fields_after_send ctx first c c1 :
  let gw := guest_width ctx in
  ctxt_ok gw (pt_levels ctx) c -> (forall m, 0 <= live_m2p ctx m) -> size_ok gw (p2m_size ctx) ->
  send_ctxt ctx first c = Some c1 ->
  sized (layout_of gw) c1 /\ GET_FIELD gw c1 GdtEnts = GET_FIELD gw c GdtEnts /\
  (if first then [Edx] else []) ++ pass_fields gw (pt_levels ctx) (fun v => truthy (v .& 1)) c1 =
    frame_fields gw (pt_levels ctx) first c /\
  (forall f, f ∈ frame_fields gw (pt_levels ctx) first c ->
     GET_FIELD gw c1 f = send_conv ctx f (GET_FIELD gw c f) mod 256 ^ l_width (layout_of gw)).
Proof.
  intros gw Hok Hm Hs E. destruct (send_ctxt_spec ctx first c c1 Hok E) as [-> Hin]. fold gw in Hin |- *.
  destruct Hok as [Hc Hg Hw]. pose proof (layout_of_wf gw) as WL.
  pose proof (frame_fields_valid gw (pt_levels ctx) first c Hg) as Hv.
  pose proof (frame_fields_nodup gw (pt_levels ctx) first c) as Hnd.
  set (fs := frame_fields gw (pt_levels ctx) first c) in *.
  assert (forall f, f ∈ fs -> GET_FIELD gw (upd_all (layout_of gw) (send_conv ctx) fs c) f =
            send_conv ctx f (GET_FIELD gw c f) mod 256 ^ l_width (layout_of gw)) as Hget
    by (intros f Hf; by apply upd_all_get_in).
  assert (GdtEnts ∉ fs) as Hnot.
  { unfold fs, frame_fields. rewrite !elem_of_app, list_elem_of_fmap.
    destruct first, (_ && _); rewrite ?list_elem_of_singleton, ?elem_of_nil; naive_solver. }
  assert (GET_FIELD gw (upd_all (layout_of gw) (send_conv ctx) fs c) GdtEnts = GET_FIELD gw c GdtEnts) as Hents
    by (by apply upd_all_get).
  split_and!; auto; [by apply upd_all_sized|].
  unfold pass_fields, gdt_indices. rewrite Hents. unfold fs at 2, frame_fields. do 3 f_equal.
  destruct (Z.eqb_spec (pt_levels ctx) 4) as [Hl|]; [|done]. cbn [andb].
  destruct (truthy (GET_FIELD gw c (CtrlReg 1))) eqn:T.
  - assert (CtrlReg 1 ∈ fs) as Hf1.
    { unfold fs, frame_fields. rewrite (proj2 (Z.eqb_eq _ _) Hl), T. rewrite !elem_of_app. right. right. right.
      by apply list_elem_of_singleton. }
    rewrite (Hget _ Hf1).
    destruct (conv_conv ctx (fun x => x) (CtrlReg 1) (GET_FIELD gw c (CtrlReg 1))) as (_ & _ & Ht); auto.
    + apply in_map_range; [done|]. exact (Hin _ Hf1).
    + fold gw in Ht. by rewrite Ht.
  - assert (CtrlReg 1 ∉ fs) as Hf1.
    { unfold fs, frame_fields. rewrite T, andb_false_r. rewrite !elem_of_app, list_elem_of_fmap.
      destruct first; rewrite ?list_elem_of_singleton, ?elem_of_nil; naive_solver. }
    assert (GET_FIELD gw (upd_all (layout_of gw) (send_conv ctx) fs c) (CtrlReg 1) = GET_FIELD gw c (CtrlReg 1)) as ->
      by (apply upd_all_get; auto; cbn; lia).
    unfold truthy in T. apply negb_false_iff, Z.eqb_eq in T. by rewrite T.
Qed.

Lemma good_frame size pfn_type pfn :
  pfn < size -> pfn_type pfn = XEN_DOMCTL_PFINFO_NOTAB -> bad_frame size pfn_type pfn = false.
Proof. intros Hp Ht. unfold bad_frame. rewrite Ht, Z.eqb_refl. destruct (Z.geb_spec pfn size); [lia|done]. Qed.

Lemma good_base levels size pfn_type pfn :
  pfn < size -> (pfn_type pfn .& XEN_DOMCTL_PFINFO_LTABTYPE_MASK) = (levels .<< XEN_DOMCTL_PFINFO_LTAB_SHIFT) ->
  bad_base levels size pfn_type pfn = false.
Proof. intros Hp Ht. unfold bad_base. rewrite Ht, Z.eqb_refl. destruct (Z.geb_spec pfn size); [lia|done]. Qed.

(** What the receiver reads in a field of the arrived context is a good number. *)
Lemma arrived_good ctx first c c1 pfn_type f :
  let gw := guest_width ctx in
  ctxt_ok gw (pt_levels ctx) c -> (forall m, 0 <= live_m2p ctx m) -> size_ok gw (p2m_size ctx) ->
  send_ctxt ctx first c = Some c1 -> f ∈ frame_fields gw (pt_levels ctx) first c ->
  type_ok (pt_levels ctx) pfn_type f (mfn_to_pfn ctx (frame_of gw f (GET_FIELD gw c f))) ->
  match f with
  | CtrlReg 1 => bad_base (pt_levels ctx) (p2m_size ctx) pfn_type
                   (UNFOLD_CR3 gw (GET_FIELD gw c1 f .& not_w 64 1)) = false
  | CtrlReg _ => bad_base (pt_levels ctx) (p2m_size ctx) pfn_type (UNFOLD_CR3 gw (GET_FIELD gw c1 f)) = false
  | _ => bad_frame (p2m_size ctx) pfn_type (GET_FIELD gw c1 f) = false
  end /\
  forall p2m, recv_conv gw p2m f (send_conv ctx f (GET_FIELD gw c f) mod 256 ^ l_width (layout_of gw)) =
    conv gw (fun m => p2m (mfn_to_pfn ctx m)) f (GET_FIELD gw c f).
Proof.
  intros gw Hok Hm Hs E Hf Ht. destruct (fields_after_send ctx first c c1 Hok Hm Hs E) as (_ & _ & _ & Hget).
  destruct (send_ctxt_spec ctx first c c1 Hok E) as [_ Hin]. fold gw in Hget, Hin.
  pose proof (in_map_range ctx _ Hm (Hin f Hf)) as Hr. 
  assert (f = CtrlReg 1 -> gw = 8) as Hw.
  { intros ->. apply (co_width _ _ _ Hok). unfold frame_fields in Hf.
    destruct (Z.eqb_spec (pt_levels ctx) 4); [done|]. exfalso. revert Hf. cbn [andb].
    rewrite !elem_of_app, list_elem_of_fmap. destruct first; rewrite ?list_elem_of_singleton, ?elem_of_nil; naive_solver. }
  pose proof (fun p2m => conv_conv ctx p2m f (GET_FIELD gw c f) Hr Hs Hw) as Hcc. cbv zeta in Hcc. fold gw in Hcc.
  rewrite <- (Hget f Hf) in Hcc |- *. split; [|intros p2m; apply Hcc].
  destruct (Hcc (fun x => x)) as [_ Hd]. clear Hcc.
  destruct f as [| |j| |[|[|j]]|]; cbn [frame_of type_ok] in *;
    match type of Hd with _ /\ _ => destruct Hd as [Hd _] | _ => idtac end; rewrite Hd;
    first [apply good_frame; [lia|exact Ht] | apply good_base; [lia|exact Ht]].
Qed.

Lemma arrived_checks ctx first c c1 pfn_type :
  let gw := guest_width ctx in
  ctxt_ok gw (pt_levels ctx) c -> (forall m, 0 <= live_m2p ctx m) -> size_ok gw (p2m_size ctx) ->
  send_ctxt ctx first c = Some c1 ->
  (forall f, f ∈ frame_fields gw (pt_levels ctx) first c ->
     type_ok (pt_levels ctx) pfn_type f (mfn_to_pfn ctx (frame_of gw f (GET_FIELD gw c f)))) ->
  (first = true -> bad_frame (p2m_size ctx) pfn_type (GET_FIELD gw c1 Edx) = false) /\
  pass_checks gw (pt_levels ctx) (bad_frame (p2m_size ctx) pfn_type) (bad_base (pt_levels ctx) (p2m_size ctx) pfn_type)
    (fun v => truthy (v .& 1)) (fun v => UNFOLD_CR3 gw (v .& not_w 64 1)) c1 = true.
Proof.
  intros gw Hok Hm Hs E Ht.
  destruct (fields_after_send ctx first c c1 Hok Hm Hs E) as (_ & _ & Hfs & _). fold gw in Hfs.
  assert (forall f, f ∈ frame_fields gw (pt_levels ctx) first c -> _) as Hg
    by (intros f Hf; exact (proj1 (arrived_good ctx first c c1 pfn_type f Hok Hm Hs E Hf (Ht f Hf)))).
  cbn beta in Hg. fold gw in Hg. rewrite <- Hfs in Hg. split.
  - intros ->. apply (Hg Edx). rewrite elem_of_app. left. by apply list_elem_of_singleton.
  - unfold pass_checks. rewrite !andb_true_iff, forallb_forall. split_and!.
    + intros j Hj%list_elem_of_In. apply negb_true_iff, (Hg (GdtFrame j)). unfold pass_fields.
      rewrite !elem_of_app, list_elem_of_fmap. eauto.
    + apply negb_true_iff, (Hg (CtrlReg 3)). unfold pass_fields.
      rewrite !elem_of_app. right. right. left. by apply list_elem_of_singleton.
    + apply negb_true_iff. destruct ((pt_levels ctx =? 4) && truthy (GET_FIELD gw c1 (CtrlReg 1) .& 1)) eqn:T; [|done].
      cbn [andb]. apply (Hg (CtrlReg 1)). unfold pass_fields. rewrite T.
      rewrite !elem_of_app. right. right. right. by apply list_elem_of_singleton.
Qed.

Lemma vcpu_arrives ctx first c c1 pfn_type p2m :
  let gw := guest_width ctx in
  ctxt_ok gw (pt_levels ctx) c -> (forall m, 0 <= live_m2p ctx m) -> size_ok gw (p2m_size ctx) ->
  send_ctxt ctx first c = Some c1 ->
  (forall f, f ∈ frame_fields gw (pt_levels ctx) first c ->
     type_ok (pt_levels ctx) pfn_type f (mfn_to_pfn ctx (frame_of gw f (GET_FIELD gw c f)))) ->
  recv_ctxt gw (pt_levels ctx) (p2m_size ctx) pfn_type p2m first c1 =
    Some (uncanon_flags gw (translate gw (pt_levels ctx) first (fun m => p2m (mfn_to_pfn ctx m)) c)).
Proof.
  intros gw Hok Hm Hs E Ht. pose proof (layout_of_wf gw) as WL.
  destruct (arrived_checks ctx first c c1 pfn_type Hok Hm Hs E Ht) as [Hedx Hk]. fold gw in Hedx, Hk.
  destruct (fields_after_send ctx first c c1 Hok Hm Hs E) as (Hc1 & Hg1 & Hfs & _). fold gw in Hc1, Hg1, Hfs.
  rewrite recv_ctxt_spec; [|done|pose proof (co_gdt _ _ _ Hok); lia|by destruct Hok|done|done].
  rewrite Hfs. f_equal.
  set (fs := frame_fields gw (pt_levels ctx) first c) in *.
  pose proof (frame_fields_valid gw (pt_levels ctx) first c (co_gdt _ _ _ Hok)) as Hv. fold fs in Hv.
  pose proof (frame_fields_nodup gw (pt_levels ctx) first c) as Hnd. fold fs in Hnd.
  assert (Flags ∉ fs) as Hnot.
  { unfold fs, frame_fields. rewrite !elem_of_app, list_elem_of_fmap.
    destruct first, (_ && _); rewrite ?list_elem_of_singleton, ?elem_of_nil; naive_solver. }
  unfold uncanon_flags, GET_FIELD, SET_FIELD. rewrite upd_all_set by done.
  destruct (send_ctxt_spec ctx first c c1 Hok E) as [E1 _]. fold gw fs in E1.
  assert (upd_all (layout_of gw) (recv_conv gw p2m) fs c1 =
          translate gw (pt_levels ctx) first (fun m => p2m (mfn_to_pfn ctx m)) c) as Htr.
  { unfold translate. fold fs. rewrite E1. apply upd_all_upd_all; auto; [by destruct Hok|].
    intros f Hf. apply (arrived_good ctx first c c1 pfn_type f); auto. }
  rewrite Htr. f_equal. f_equal.
  assert (sized (layout_of gw) c) by apply Hok.
  rewrite E1. unfold translate. by rewrite !upd_all_get by done.
Qed.

(** C9. The state of a virtual CPU arrives: when the sender accepts a
    context and the types that arrived for the pages it refers to are those the
    receiver asks for, the receiver accepts what was sent, and the context it
    sets is the original one with every machine frame number (of the suspend
    record for CPU 0, of the descriptor table, of the page tables of the kernel
    and, on 64-bit guests, of user mode) replaced by the frame the same page
    has in the new domain, and with the online flag; every other byte is as it
    was. *)
Theorem vcpu_roundtrip ctx first c c1 pfn_type p2m :
  let gw := guest_width ctx in
  let moved := fun mfn => p2m (mfn_to_pfn ctx mfn) in
  ctxt_ok gw (pt_levels ctx) c -> (forall m, 0 <= live_m2p ctx m) -> size_ok gw (p2m_size ctx) ->
  send_ctxt ctx first c = Some c1 ->
  (forall f, f ∈ frame_fields gw (pt_levels ctx) first c ->
     type_ok (pt_levels ctx) pfn_type f (mfn_to_pfn ctx (frame_of gw f (GET_FIELD gw c f)))) ->
  exists c2, recv_ctxt gw (pt_levels ctx) (p2m_size ctx) pfn_type p2m first c1 = Some c2 /\
    (forall f, f ∈ frame_fields gw (pt_levels ctx) first c ->
       GET_FIELD gw c2 f = conv gw moved f (GET_FIELD gw c f) mod 256 ^ l_width (layout_of gw)) /\
    GET_FIELD gw c2 Flags = (GET_FIELD gw c Flags .| VGCF_online) mod 256 ^ l_width (layout_of gw) /\
    (forall k, (forall f, f ∈ Flags :: frame_fields gw (pt_levels ctx) first c ->
                  ~ offset (layout_of gw) f <= Z.of_nat k < offset (layout_of gw) f + l_width (layout_of gw)) ->
       c2 !! k = c !! k).
Proof.
  intros gw moved Hok Hm Hs E Ht. pose proof (layout_of_wf gw) as WL.
  exists (uncanon_flags gw (translate gw (pt_levels ctx) first moved c)).
  split; [by apply (vcpu_arrives ctx first c c1)|]. clear Ht E.
  pose proof (co_sized _ _ _ Hok) as Hc.
  pose proof (frame_fields_valid gw (pt_levels ctx) first c (co_gdt _ _ _ Hok)) as Hv.
  pose proof (frame_fields_nodup gw (pt_levels ctx) first c) as Hnd.
  assert (Flags ∉ frame_fields gw (pt_levels ctx) first c) as Hnot.
  { unfold frame_fields. rewrite !elem_of_app, list_elem_of_fmap.
    destruct first, (_ && _); rewrite ?list_elem_of_singleton, ?elem_of_nil; naive_solver. }
  unfold translate. set (fs := frame_fields gw (pt_levels ctx) first c) in *.
  assert (sized (layout_of gw) (upd_all (layout_of gw) (conv gw moved) fs c)) as Hc' by (by apply upd_all_sized).
  unfold uncanon_flags, GET_FIELD, SET_FIELD. split_and!.
  - intros f Hf. rewrite get_set_ne; [by apply upd_all_get_in|done|done|done| |by intros <-].
    by eapply Forall_forall in Hf; [|exact Hv].
  - rewrite get_set_eq by done. by rewrite upd_all_get by done.
  - intros k Hk. rewrite set_lookup by done. rewrite decide_False by (apply Hk; set_solver).
    apply upd_all_lookup; auto. intros f Hf. apply Hk. set_solver.
Qed.

(** CPU 0 of a 32-bit guest with three pages in frames 50 to 52: the suspend
    record is page 2, the descriptor table page 1, the page table page 0.  In
    the new domain the pages are in frames 70 to 72. *)
Definition demo_save : save_ctx := SaveCtx 0 3 100 (fun p => p + 50) (fun m => if 50 <=? m then m - 50 else 9) 0 4 3.
Definition demo_vcpu : list Z :=
  SET_FIELD 4 (SET_FIELD 4 (SET_FIELD 4 (SET_FIELD 4 (replicate (Z.to_nat 2800) 7) Edx 52) GdtEnts 300)
    (GdtFrame 0) 51) (CtrlReg 3) (FOLD_CR3 4 50).
Definition demo_sent : list Z := default [] (send_ctxt demo_save true demo_vcpu).
Definition demo_type (pfn : Z) : Z := if pfn =? 0 then 3 .<< 28 else 0.

Lemma vcpu_roundtrip_witness :
  exists c2, recv_ctxt 4 3 3 demo_type (fun p => p + 70) true demo_sent = Some c2 /\
    GET_FIELD 4 c2 Edx = 72 /\ GET_FIELD 4 c2 (CtrlReg 3) = FOLD_CR3 4 70 /\ c2 !! 0%nat = Some 7.
Proof.
  assert (frame_fields 4 3 true demo_vcpu = [Edx; GdtFrame 0; CtrlReg 3]) as Hfs by (vm_compute; reflexivity).
  destruct (vcpu_roundtrip demo_save true demo_vcpu demo_sent demo_type (fun p => p + 70)) as (c2 & E & Hf & _ & Hk).
  - split; vm_compute; done.
  - intros m. cbn. destruct (Z.leb_spec 50 m); lia.
  - vm_compute. done.
  - vm_compute. reflexivity.
  - unfold demo_save; cbn [guest_width pt_levels]. rewrite Hfs.
    intros f Hf. repeat (apply elem_of_cons in Hf as [->|Hf]; [vm_compute; done|]). destruct (not_elem_of_nil _ Hf).
  - exists c2. split; [exact E|]. clear E. unfold demo_save in Hf, Hk; cbn [guest_width pt_levels] in Hf, Hk.
    rewrite Hfs in Hf, Hk.
    pose proof (Hf Edx ltac:(rewrite !elem_of_cons; auto)) as H1. pose proof (Hf (CtrlReg 3) ltac:(rewrite !elem_of_cons; auto)) as H2.
    split; [rewrite H1; vm_compute; reflexivity|]. split; [rewrite H2; vm_compute; reflexivity|].
    rewrite (Hk 0%nat); [vm_compute; reflexivity|]. clear. intros f Hin.
    repeat (apply elem_of_cons in Hin as [->|Hin]; [cbn; lia|]). destruct (not_elem_of_nil _ Hin).
Defined.

End Vcpu.
