(* ===== verification/Tail.v ===== *)
(** The tail of the image: what follows the pages on the main connection.

    Models, for paravirtual guests, the list of unmapped pages, the CPU
    contexts and the shared-info page as [xc_domain_save] writes them
    (tools/libxc/xc_domain_save.c) and as [buffer_tail_pv] and the loop over
    the CPUs in [xc_domain_restore] read them (tools/libxc/xc_domain_restore.c).
    Fully virtualised guests are in [HvmTail].

    The answers of the hypercalls are parameters.  Allocations succeed. *)

From S2P Require Import Prelude IO PageTable Stream Control P2mList Vcpu.

Module Tail.
Import IO PageTable Stream Control P2mList Vcpu.

(** ** The sender, paravirtual guests *)

Section SendPv.
Context (ctx : save_ctx).

Definition unmapped (i : Z) : bool := negb (is_mapped (pfn_to_mfn ctx i)).

(** The loop that counts, over [n] pages from [i]. *)
Fixpoint count_unmapped (n : nat) (i j : Z) : Z :=
  match n with
  | O => j
  | S n => count_unmapped n (i + 1) (if unmapped i then u32 (j + 1) else j)
  end.

(** The loop that writes the numbers, at most 1024 at a time: [pfntab] are the
    first [j] entries of the array. *)
Fixpoint pfntab_msgs (n : nat) (i : Z) (pfntab : list Z) : list (list Z) :=
  match n with
  | O => []
  | S n =>
      let pfntab := if unmapped i then pfntab ++ [i] else pfntab in
      let i := i + 1 in
      if (Z.of_nat (length pfntab) =? 1024) || (i =? p2m_size ctx)
      then entries_page 8 pfntab :: pfntab_msgs n i []
      else pfntab_msgs n i pfntab
  end.

(** The hypervisor's answers about CPU [i]: its context, its extended context
    (the 128 bytes that are sent), the mask and size of its extended state, and
    that state. *)
Record hv_cpus := HvCpus {
  hv_ctxt : Z -> option (list Z);
  hv_ext : Z -> option (list Z);
  hv_xsize : Z -> option (Z * Z);
  hv_xstate : Z -> Z * Z -> option (Z * Z * list Z)
}.

Context (H : hv_cpus).

Definition save_xstate (i : Z) : option (list (list Z)) :=
  '(mask, size) ← hv_xsize H i;
  if mask =? 0 then Some []
  else
    '(mask, size, data) ← hv_xstate H i (mask, size);
    Some [le_bytes 8 mask; le_bytes 8 size; data].

(** The body of the loop: the messages, and what the variable [ctxt] holds. *)
Definition save_vcpu (i : Z) (ctxt : list Z) : option (list (list Z) * list Z) :=
  ctxt ← (if i =? 0 then Some ctxt else hv_ctxt H i);
  ctxt ← canon_ctxt ctx ctxt;
  ext ← hv_ext H i;
  xs ← save_xstate i;
  Some (ctxt :: ext :: xs, ctxt).

(** [for ( i = 0; i <= info.max_vcpu_id; i++ )] over [n] CPUs from [i]. *)
Fixpoint save_vcpus (vcpumap : Z) (n : nat) (i : Z) (ctxt : list Z) : option (list (list Z)) :=
  match n with
  | O => Some []
  | S n =>
      if negb (truthy (vcpumap .& u64 (1 .<< i))) then save_vcpus vcpumap n (i + 1) ctxt
      else
        '(ms, ctxt) ← save_vcpu i ctxt;
        ms' ← save_vcpus vcpumap n (i + 1) ctxt;
        Some (ms ++ ms')
  end.

(** The offset of [arch.pfn_to_mfn_frame_list_list] in the shared info. *)
Definition o_frame_list_list : nat := if guest_width ctx =? 8 then 3096 else 2320.

(** "Reset the MFN to be a known-invalid value." *)
Definition reset_shinfo (live_shinfo : list Z) : list Z :=
  write_at live_shinfo o_frame_list_list (le_bytes (Z.to_nat (guest_width ctx)) 0).

(** The messages of a tail that is written to the end. *)
Definition save_tail_pv (max_vcpu_id vcpumap : Z) (live_shinfo : list Z) : option (list (list Z)) :=
  let n := Z.to_nat (p2m_size ctx) in
  let pfns := le_bytes 4 (count_unmapped n 0 0) :: pfntab_msgs n 0 [] in
  ctxt ← hv_ctxt H 0;
  ctxt ← canon_edx ctx ctxt;
  cpus ← save_vcpus vcpumap (Z.to_nat (max_vcpu_id + 1)) 0 ctxt;
  Some (pfns ++ cpus ++ [reset_shinfo live_shinfo]).

End SendPv.

(** ** The receiver, paravirtual guests *)

(** [struct tailbuf_pv]; a block of memory is its bytes. *)
Record tailbuf_pv := TailbufPv {
  pfncount : Z; pfntab : option (list Z);
  vcpucount : Z; vcpubuf : option (list Z);
  shared_info_page : list Z
}.

Definition tailbuf_pv0 : tailbuf_pv := TailbufPv 0 None 0 None (replicate (Z.to_nat PAGE_SIZE) 0).

(** [tailbuf_free_pv]. *)
Definition tailbuf_free_pv (buf : tailbuf_pv) : tailbuf_pv :=
  TailbufPv (pfncount buf) None (vcpucount buf) None (shared_info_page buf).

(** The outcome of a function that reads into blocks: 0 or -1, or a read past
    the end of a block. *)
Inductive tail_result (A : Type) := TRet (rc : Z) (a : A) | TOverrun.
Arguments TRet {A}.
Arguments TOverrun {A}.

Section RecvPv.
Context {S : Type} `{BS : ByteSource S}.
(** What the header and the control records told. *)
Context (gw : Z) (max_vcpu_id vcpumap : Z) (ext_vcpucontext vcpuextstate : bool) (vcpuextstate_size : Z).

(** The loop that counts the CPUs. *)
Fixpoint count_vcpus (n : nat) (i count : Z) : Z :=
  match n with
  | O => count
  | Datatypes.S n =>
      count_vcpus n (i + 1) (if negb (truthy (vcpumap .& u64 (1 .<< i))) then count else u32 (count + 1))
  end.

Definition vcpulen (count : Z) : Z :=
  l_size (layout_of gw) * count + (if ext_vcpucontext then u32 (128 * count) else 0)
  + (if vcpuextstate then u32 (vcpuextstate_size * count) else 0).

(** [RDEXACT] of [n] bytes into a block; [None]: past its end. *)
Definition rd_block (blk : list Z) (n : nat) (s : S) : option (bool * list Z * S) :=
  if decide (n <= length blk)%nat then
    match src_read s n with
    | (Some bs, s) => Some (true, write_at blk 0 bs, s)
    | (None, s) => Some (false, blk, s)
    end
  else None.

Definition buffer_tail_pv (buf : tailbuf_pv) (s : S) : tail_result (tailbuf_pv * S) :=
  match src_read s 4 with
  | (None, s) => TRet (-1) (buf, s)
  | (Some bs, s) =>
  let count := le_val bs in
  let buf := TailbufPv count (pfntab buf) (vcpucount buf) (vcpubuf buf) (shared_info_page buf) in
  if count >? (1 .<< 28) then TRet (-1) (buf, s)
  else
  let pfnlen := Z.to_nat (8 * count) in
  match rd_block (default (replicate pfnlen 0) (pfntab buf)) pfnlen s with
  | None => TOverrun
  | Some (ok, tab, s) =>
  if negb ok then TRet (-1) (TailbufPv count None (vcpucount buf) (vcpubuf buf) (shared_info_page buf), s)
  else
  let cpus := count_vcpus (Z.to_nat (max_vcpu_id + 1)) 0 0 in
  let len := Z.to_nat (vcpulen cpus) in
  match rd_block (default (replicate len 0) (vcpubuf buf)) len s with
  | None => TOverrun
  | Some (ok, vbuf, s) =>
  if negb ok then TRet (-1) (TailbufPv count None cpus None (shared_info_page buf), s)
  else
  match src_read s (Z.to_nat PAGE_SIZE) with
  | (None, s) => TRet (-1) (TailbufPv count None cpus None (shared_info_page buf), s)
  | (Some page, s) => TRet 0 (TailbufPv count (Some tab) cpus (Some vbuf) page, s)
  end end end end.

End RecvPv.

(** ** Setting up the CPUs of the new domain *)

(** What the receiver asks the hypervisor to do, and what it writes into the
    guest's start-info page. *)
Record start_info := StartInfo {
  si_nr_pages : Z; si_shared_info : Z; si_flags : Z;
  si_store_mfn : Z; si_store_evtchn : Z; si_console_mfn : Z; si_console_evtchn : Z
}.

Inductive vop :=
| SetStartInfo (mfn : Z) (si : start_info)
| SetCtxt (vcpu : Z) (ctxt : list Z)
| SetExt (ext : list Z)
| SetXstate (vcpu mask size : Z) (data : list Z).

Section RestoreCpus.
Context (gw levels size : Z) (pfn_type p2m : Z -> Z) (ext_vcpucontext vcpuextstate : bool).
Context (shared_info_frame store_evtchn console_evtchn : Z).
(** The start-info page in the frame, and whether a request succeeds. *)
Context (start_info_at : Z -> start_info) (hv_ok : vop -> bool).

(** [memcpy] from the buffer; [None]: past its end. *)
Definition from_buf (vcpup : list Z) (n : nat) : option (list Z * list Z) :=
  if decide (n <= length vcpup)%nat then Some (take n vcpup, drop n vcpup) else None.

Definition poke_start_info (si : start_info) : start_info :=
  StartInfo size (u64 (shared_info_frame .<< PAGE_SHIFT)) 0 (p2m (si_store_mfn si)) store_evtchn
            (p2m (si_console_mfn si)) console_evtchn.

Definition issue (op : vop) (ops : list vop) : option (list vop) := if hv_ok op then Some (ops ++ [op]) else None.

(** One CPU: the requests so far and the rest of the buffer. *)
Definition restore_vcpu (i : Z) (ops : list vop) (vcpup : list Z) : option (list vop * list Z) :=
  '(c, vcpup) ← from_buf vcpup (Z.to_nat (l_size (layout_of gw)));
  let c := uncanon_flags gw c in
  '(c, ops) ← (if i =? 0 then
                 c' ← uncanon_edx gw size pfn_type p2m c;
                 let mfn := p2m (GET_FIELD gw c Edx) in
                 Some (c', ops ++ [SetStartInfo mfn (poke_start_info (start_info_at mfn))])
               else Some (c, ops));
  c ← uncanon_ctxt gw levels size pfn_type p2m c;
  ops ← issue (SetCtxt i c) ops;
  '(ops, vcpup) ← (if ext_vcpucontext : bool then
                     '(e, vcpup) ← from_buf vcpup 128;
                     ops ← issue (SetExt e) ops; Some (ops, vcpup)
                   else Some (ops, vcpup));
  if vcpuextstate : bool then
    '(m, vcpup) ← from_buf vcpup 8;
    '(z, vcpup) ← from_buf vcpup 8;
    '(d, vcpup) ← from_buf vcpup (Z.to_nat (le_val z));
    ops ← issue (SetXstate i (le_val m) (le_val z) d) ops;
    Some (ops, vcpup)
  else Some (ops, vcpup).

Fixpoint restore_vcpus (vcpumap : Z) (n : nat) (i : Z) (ops : list vop) (vcpup : list Z) : option (list vop * list Z) :=
  match n with
  | O => Some (ops, vcpup)
  | S n =>
      if negb (truthy (vcpumap .& u64 (1 .<< i))) then restore_vcpus vcpumap n (i + 1) ops vcpup
      else
        '(ops, vcpup) ← restore_vcpu i ops vcpup;
        restore_vcpus vcpumap n (i + 1) ops vcpup
  end.

End RestoreCpus.

(** ** The list of unmapped pages *)

Section Unmapped.
Context (ctx : save_ctx).

Definition unmapped_from (n : nat) (i : Z) : list Z := filter (fun j => unmapped ctx j = true) (seqZ i (Z.of_nat n)).

Lemma unmapped_from_S n i :
  unmapped_from (S n) i = (if unmapped ctx i then [i] else []) ++ unmapped_from n (i + 1).
Proof.
  unfold unmapped_from. rewrite seqZ_cons by lia. replace (Z.pred (Z.of_nat (S n))) with (Z.of_nat n) by lia.
  rewrite filter_cons. change (Z.succ i) with (i + 1). destruct (unmapped ctx i); by case_decide.
Qed.

Lemma unmapped_from_length n i : (length (unmapped_from n i) <= n)%nat.
Proof.
  unfold unmapped_from. etrans; [apply length_filter|]. rewrite length_seqZ. lia.
Qed.

Lemma count_unmapped_spec n i j :
  0 <= j -> j + Z.of_nat n < 2 ^ 32 -> count_unmapped ctx n i j = j + Z.of_nat (length (unmapped_from n i)).
Proof.
  revert i j. induction n as [|n IH]; intros i j Hj Hn;
    [change (unmapped_from 0 i) with (@nil Z); cbn; lia|].
  cbn [count_unmapped]. rewrite unmapped_from_S, length_app. destruct (unmapped ctx i).
  - rewrite u32_small by lia. rewrite IH by lia. cbn. lia.
  - rewrite IH by lia. cbn. lia.
Qed.

Lemma entries_page_app w es es' : entries_page w (es ++ es') = entries_page w es ++ entries_page w es'.
Proof. apply bind_app. Qed.

Lemma pfntab_msgs_concat n i tab :
  i + Z.of_nat n = p2m_size ctx -> (n <> 0)%nat ->
  concat (pfntab_msgs ctx n i tab) = entries_page 8 (tab ++ unmapped_from n i).
Proof.
  revert i tab. induction n as [|n IH]; intros i tab Hi Hn; [done|].
  cbn [pfntab_msgs]. rewrite unmapped_from_S.
  set (tab' := if unmapped ctx i then tab ++ [i] else tab).
  assert (tab ++ (if unmapped ctx i then [i] else []) ++ unmapped_from n (i + 1) = tab' ++ unmapped_from n (i + 1)) as ->.
  { unfold tab'. destruct (unmapped ctx i); [by rewrite <- app_assoc|done]. }
  destruct (decide (n = 0%nat)) as [->|Hn0].
  - rewrite (proj2 (Z.eqb_eq (i + 1) _)) by lia. rewrite orb_true_r. cbn. by rewrite !app_nil_r.
  - rewrite (proj2 (Z.eqb_neq (i + 1) _)) by lia. rewrite orb_false_r.
    destruct (_ =? 1024); [|by apply IH; lia].
    cbn [concat]. rewrite IH by lia. by rewrite app_nil_l, entries_page_app.
Qed.

(** The part of the tail that lists the pages. *)
Lemma pfntab_bytes n :
  n = Z.to_nat (p2m_size ctx) ->
  concat (pfntab_msgs ctx n 0 []) = entries_page 8 (unmapped_from n 0).
Proof.
  intros ->. destruct (decide (Z.to_nat (p2m_size ctx) = 0%nat)) as [->|]; [done|].
  apply pfntab_msgs_concat; lia.
Qed.

End Unmapped.

(** ** The CPUs *)

Section Cpus.
Context (ctx : save_ctx) (H : hv_cpus) (pfn_type p2m : Z -> Z) (vcpumap : Z) (xs : bool) (xsize : Z).
Context (shared_info_frame store_evtchn console_evtchn : Z) (start_info_at : Z -> start_info) (hv_ok : vop -> bool).
Let gw := guest_width ctx.
Let L := layout_of gw.
Let levels := pt_levels ctx.
Let moved (mfn : Z) : Z := p2m (mfn_to_pfn ctx mfn).

(** A CPU as the hypervisor of the source describes it. *)
Record cpu := Cpu { c_ctxt : list Z; c_ext : list Z; c_mask : Z; c_size : Z; c_data : list Z }.

Record cpu_ok (i : Z) (c : cpu) : Prop := {
  k_ctxt : hv_ctxt H i = Some (c_ctxt c);
  k_ok : ctxt_ok gw levels (c_ctxt c);
  k_types : forall f, f ∈ frame_fields gw levels (i =? 0) (c_ctxt c) ->
    type_ok levels pfn_type f (mfn_to_pfn ctx (frame_of gw f (GET_FIELD gw (c_ctxt c) f)));
  k_ext : hv_ext H i = Some (c_ext c);
  k_ext_len : length (c_ext c) = 128%nat;
  k_xsize : exists mask size, hv_xsize H i = Some (mask, size) /\ (mask =? 0) = negb xs /\
    (xs = true -> hv_xstate H i (mask, size) = Some (c_mask c, c_size c, c_data c));
  k_mask : 0 <= c_mask c < 2 ^ 64;
  k_data : Z.of_nat (length (c_data c)) = c_size c;
  k_size : 0 <= c_size c /\ c_size c + 16 = xsize
}.

Definition online (i : Z) : bool := truthy (vcpumap .& u64 (1 .<< i)).
Definition online_from (n : nat) (i : Z) : list Z := filter (fun j => online j = true) (seqZ i (Z.of_nat n)).

Lemma online_from_S n i : online_from (S n) i = (if online i then [i] else []) ++ online_from n (i + 1).
Proof.
  unfold online_from. rewrite seqZ_cons by lia. replace (Z.pred (Z.of_nat (S n))) with (Z.of_nat n) by lia.
  rewrite filter_cons. change (Z.succ i) with (i + 1). destruct (online i); by case_decide.
Qed.

Lemma count_vcpus_spec n i k :
  0 <= k -> k + Z.of_nat n < 2 ^ 32 -> count_vcpus vcpumap n i k = k + Z.of_nat (length (online_from n i)).
Proof.
  revert i k. induction n as [|n IH]; intros i k Hk Hn;
    [change (online_from 0 i) with (@nil Z); cbn; lia|].
  cbn [count_vcpus]. fold (online i). rewrite online_from_S, length_app. destruct (online i); cbn [negb].
  - rewrite u32_small by lia. rewrite IH by lia. cbn. lia.
  - rewrite IH by lia. cbn. lia.
Qed.

(** What the receiver should ask for CPU [i]. *)
Definition wanted (i : Z) (c : cpu) : list vop :=
  (if i =? 0 then
     let mfn := moved (GET_FIELD gw (c_ctxt c) Edx) in
     [SetStartInfo mfn (poke_start_info (p2m_size ctx) p2m shared_info_frame store_evtchn console_evtchn (start_info_at mfn))]
   else []) ++
  [SetCtxt i (uncanon_flags gw (translate gw levels (i =? 0) moved (c_ctxt c))); SetExt (c_ext c)] ++
  (if xs then [SetXstate i (c_mask c) (c_size c) (c_data c)] else []).

(** The bytes of a CPU in the tail. *)
Definition cpu_len : Z := l_size L + 128 + (if xs then xsize else 0).

Context (Hm : forall m, 0 <= live_m2p ctx m) (Hsize : size_ok gw (p2m_size ctx)) (Hxs : 0 <= xsize < 2 ^ 26).

Lemma from_buf_app (a b : list Z) n : n = length a -> from_buf (a ++ b) n = Some (a, b).
Proof.
  intros ->. unfold from_buf. rewrite decide_True by (rewrite length_app; lia).
  by rewrite take_app_length, drop_app_length.
Qed.

(** What arrives in EDX of CPU 0. *)
Lemma arrived_edx c c1 :
  ctxt_ok gw levels c -> send_ctxt ctx true c = Some c1 ->
  GET_FIELD gw (uncanon_flags gw c1) Edx = mfn_to_pfn ctx (GET_FIELD gw c Edx).
Proof.
  intros Hok E. destruct (fields_after_send ctx true c c1 Hok Hm Hsize E) as (Hc1 & _ & _ & Hget).
  destruct (send_ctxt_spec ctx true c c1 Hok E) as [_ Hin].
  assert (Edx ∈ frame_fields gw levels true c) as Hf by (unfold frame_fields; set_solver).
  pose proof (layout_of_wf gw) as WL.
  assert (GET_FIELD gw (uncanon_flags gw c1) Edx = GET_FIELD gw c1 Edx) as -> by (by apply get_set_ne).
  etrans; [exact (Hget Edx Hf)|]. pose proof (in_map_range ctx _ Hm (Hin Edx Hf)) as Hr.
  destruct (conv_conv ctx p2m Edx (GET_FIELD gw c Edx) Hr Hsize ltac:(done)) as [_ Hc]. exact Hc.
Qed.

(** The receiver understands what the sender wrote for one CPU. *)
Lemma restore_vcpu_ok i c c1 ops r :
  cpu_ok i c -> 0 <= i -> send_ctxt ctx (i =? 0) (c_ctxt c) = Some c1 ->
  (forall op, op ∈ wanted i c -> hv_ok op = true) ->
  restore_vcpu gw levels (p2m_size ctx) pfn_type p2m true xs shared_info_frame store_evtchn console_evtchn
    start_info_at hv_ok i ops
    ((c1 ++ c_ext c ++ (if xs then le_bytes 8 (c_mask c) ++ le_bytes 8 (c_size c) ++ c_data c else [])) ++ r) =
  Some (ops ++ wanted i c, r).
Proof.
  intros [_ Hok Ht _ Hel _ Hmask Hd [Hs0 Hsx]] Hi E Hv.
  pose proof (vcpu_arrives ctx (i =? 0) (c_ctxt c) c1 pfn_type p2m Hok Hm Hsize E Ht) as Hrecv.
  destruct (fields_after_send ctx (i =? 0) (c_ctxt c) c1 Hok Hm Hsize E) as (Hc1 & _ & _ & _).
  unfold recv_ctxt in Hrecv. unfold restore_vcpu. rewrite <- !app_assoc.
  rewrite from_buf_app by (unfold sized in Hc1; fold gw L in Hc1 |- *; lia). cbn [mbind option_bind].
  fold gw in Hrecv. set (c2 := uncanon_flags gw c1) in *.
  set (start := if i =? 0 then _ else _) in Hrecv.
  set (ops1 := ops ++ (if i =? 0 then
     [SetStartInfo (moved (GET_FIELD gw (c_ctxt c) Edx)) (poke_start_info (p2m_size ctx) p2m shared_info_frame
        store_evtchn console_evtchn (start_info_at (moved (GET_FIELD gw (c_ctxt c) Edx))))] else [])).
  match goal with |- context [mbind _ (if i =? 0 then ?a else ?b)] =>
    assert ((if i =? 0 then a else b) = (c3 ← start; Some (c3, ops1))) as -> end.
  { unfold start, ops1. destruct (Z.eqb_spec i 0) as [->|]; [|by rewrite app_nil_r].
    destruct (uncanon_edx gw (p2m_size ctx) pfn_type p2m c2) as [c3|]; [|done]. cbn [mbind option_bind].
    unfold c2. by rewrite (arrived_edx (c_ctxt c) c1 Hok E). }
  destruct start as [c3|]; [|done]. cbn [mbind option_bind] in Hrecv |- *. fold levels in Hrecv. rewrite Hrecv.
  cbn [mbind option_bind]. unfold issue.
  assert (wanted i c = (if i =? 0 then
     [SetStartInfo (moved (GET_FIELD gw (c_ctxt c) Edx)) (poke_start_info (p2m_size ctx) p2m shared_info_frame
        store_evtchn console_evtchn (start_info_at (moved (GET_FIELD gw (c_ctxt c) Edx))))] else []) ++
     [SetCtxt i (uncanon_flags gw (translate gw levels (i =? 0) moved (c_ctxt c))); SetExt (c_ext c)] ++
     (if xs then [SetXstate i (c_mask c) (c_size c) (c_data c)] else [])) as Hw by done.
  rewrite Hw in Hv |- *. rewrite !Hv by set_solver. cbn [mbind option_bind].
  rewrite from_buf_app by done. cbn [mbind option_bind]. rewrite Hv by set_solver. cbn [mbind option_bind].
  destruct xs.
  - rewrite <- !app_assoc. rewrite !from_buf_app by (by rewrite le_bytes_length). cbn [mbind option_bind].
    rewrite (from_buf_app (le_bytes 8 (c_size c))) by (by rewrite le_bytes_length). cbn [mbind option_bind].
    rewrite !le_u64 by lia. rewrite from_buf_app by lia. cbn [mbind option_bind].
    rewrite Hv by set_solver. cbn [mbind option_bind]. unfold ops1. by rewrite <- !app_assoc.
  - unfold ops1. by rewrite <- !app_assoc.
Qed.

Lemma save_vcpu_ok i c ctxt ms ctxt' :
  cpu_ok i c -> (i = 0 -> canon_edx ctx (c_ctxt c) = Some ctxt) -> save_vcpu ctx H i ctxt = Some (ms, ctxt') ->
  exists c1, send_ctxt ctx (i =? 0) (c_ctxt c) = Some c1 /\
    concat ms = c1 ++ c_ext c ++ (if xs then le_bytes 8 (c_mask c) ++ le_bytes 8 (c_size c) ++ c_data c else []).
Proof.
  intros [Hc _ _ He _ (mask & size & Hx & Hmask & Hxd) _ _ _] H0 E. unfold save_vcpu, save_xstate in E.
  apply bind_Some in E as (c0 & E0 & E). apply bind_Some in E as (c1 & E1 & E).
  rewrite He, Hx in E. cbn [mbind option_bind] in E. exists c1. split.
  - unfold send_ctxt. destruct (Z.eqb_spec i 0) as [->|]; [|rewrite Hc in E0; by injection E0 as <-].
    rewrite (H0 eq_refl). by injection E0 as <-.
  - rewrite Hmask in E. destruct xs; cbn [negb mbind option_bind] in E.
    + rewrite (Hxd eq_refl) in E. cbn in E. injection E as <- <-. cbn [concat]. by rewrite !app_nil_r.
    + injection E as <- <-. cbn [concat]. by rewrite !app_nil_r.
Qed.

Lemma cpu_bytes_len i c c1 :
  cpu_ok i c -> send_ctxt ctx (i =? 0) (c_ctxt c) = Some c1 ->
  Z.of_nat (length (c1 ++ c_ext c ++ (if xs then le_bytes 8 (c_mask c) ++ le_bytes 8 (c_size c) ++ c_data c else [])))
    = cpu_len.
Proof.
  intros [_ Hok _ _ Hel _ _ Hd [_ Hs]] E.
  destruct (fields_after_send ctx (i =? 0) (c_ctxt c) c1 Hok Hm Hsize E) as (Hc1 & _ & _ & _).
  unfold sized in Hc1. fold gw L in Hc1. unfold cpu_len. rewrite !length_app, Hel.
  destruct xs; [rewrite !length_app, !le_bytes_length|]; cbn [length]; lia.
Qed.

Lemma restore_vcpus_ok (cpus : Z -> cpu) n : forall i ctxt ms ops r,
  0 <= i -> (forall j, j ∈ online_from n i -> cpu_ok j (cpus j)) ->
  (i = 0 -> canon_edx ctx (c_ctxt (cpus 0)) = Some ctxt) ->
  (forall j op, j ∈ online_from n i -> op ∈ wanted j (cpus j) -> hv_ok op = true) ->
  save_vcpus ctx H vcpumap n i ctxt = Some ms ->
  Z.of_nat (length (concat ms)) = cpu_len * Z.of_nat (length (online_from n i)) /\
  restore_vcpus gw levels (p2m_size ctx) pfn_type p2m true xs shared_info_frame store_evtchn console_evtchn
    start_info_at hv_ok vcpumap n i ops (concat ms ++ r) =
  Some (ops ++ (online_from n i ≫= fun j => wanted j (cpus j)), r).
Proof.
  induction n as [|n IH]; intros i ctxt ms ops r Hi Hk H0 Hv E.
  { injection E as <-. change (online_from 0 i) with (@nil Z). cbn. rewrite app_nil_r. split; [lia|done]. }
  cbn [save_vcpus restore_vcpus] in E |- *. rewrite online_from_S in Hk, Hv |- *. fold (online i) in E |- *.
  destruct (online i) eqn:On; cbn [negb] in E |- *.
  - apply bind_Some in E as ([ms1 ctxt1] & E1 & E). apply bind_Some in E as (ms2 & E2 & E). injection E as <-.
    destruct (save_vcpu_ok i (cpus i) ctxt ms1 ctxt1 (Hk i ltac:(set_solver)) ltac:(by intros ->; apply H0) E1)
      as (c1 & Es & Ec).
    rewrite concat_app, <- app_assoc, Ec.
    rewrite (restore_vcpu_ok i (cpus i) c1 ops); [|by apply Hk; set_solver|done|done|intros; eapply Hv; [|done]; set_solver].
    cbn [mbind option_bind].
    destruct (IH (i + 1) ctxt1 ms2 (ops ++ wanted i (cpus i)) r) as [Hlen ->]; [lia| |lia| |done|].
    + intros j Hj. apply Hk. set_solver.
    + intros j op Hj. apply Hv. set_solver.
    + split; [|by rewrite bind_app, <- app_assoc; cbn; rewrite app_nil_r].
      rewrite length_app, Nat2Z.inj_add, Hlen, (cpu_bytes_len i (cpus i) c1 (Hk i ltac:(set_solver)) Es).
      rewrite length_app. cbn [length]. lia.
  - cbn [app] in Hk, Hv |- *. apply (IH (i + 1) ctxt); auto; lia.
Qed.

Lemma reset_shinfo_length page :
  gw = 4 \/ gw = 8 -> Z.of_nat (length page) = PAGE_SIZE -> Z.of_nat (length (reset_shinfo ctx page)) = PAGE_SIZE.
Proof.
  intros Hgw Hl. unfold reset_shinfo, o_frame_list_list. fold gw. change PAGE_SIZE with 4096 in *.
  rewrite write_at_length; [done|]. rewrite le_bytes_length. destruct Hgw as [-> | ->]; cbn [Z.eqb Pos.eqb]; lia.
Qed.

Lemma rd_block_fresh `{BS : ByteSource Sr} (Hplain : forall n, src_pad n = n /\ src_can n) s n m r :
  src_ok s -> length m = n -> src_rest s = m ++ r ->
  exists s', rd_block (replicate n 0) n s = Some (true, m, s') /\ src_ok s' /\ src_rest s' = r.
Proof.
  intros Hok Hn Hr. destruct (read_plain Hplain s n m r Hok Hn Hr) as (s' & E & Hok' & Hr').
  exists s'. unfold rd_block. rewrite decide_True by (by rewrite length_replicate). rewrite E.
  rewrite write_at_all by (by rewrite length_replicate). done.
Qed.

(** C10. The tail of a paravirtual guest arrives: the receiver, which was told
    the CPUs and the sizes by earlier records, reads the tail that the sender
    wrote and leaves the rest of the stream; it gets exactly the list of pages
    that had no frame, the shared-info page with the invalidated link to the
    table, and a buffer from which it sets up exactly the CPUs that were
    online, in order: each with its context moved to the new frames, its
    extended context and its extended state, and for CPU 0 the start-info page
    of the guest. *)
Theorem pv_tail_roundtrip `{BS : ByteSource Sr} (Hplain : forall n, src_pad n = n /\ src_can n)
    (cpus : Z -> cpu) max live_shinfo ms (s : Sr) r :
  let n := Z.to_nat (max + 1) in
  let pages := unmapped_from ctx (Z.to_nat (p2m_size ctx)) 0 in
  save_tail_pv ctx H max vcpumap live_shinfo = Some ms ->
  0 <= max < 64 -> 0 < p2m_size ctx <= 2 ^ 28 -> gw = 4 \/ gw = 8 ->
  Z.of_nat (length live_shinfo) = PAGE_SIZE -> online 0 = true ->
  (forall j, j ∈ online_from n 0 -> cpu_ok j (cpus j)) ->
  (forall j op, j ∈ online_from n 0 -> op ∈ wanted j (cpus j) -> hv_ok op = true) ->
  src_ok s -> src_rest s = concat ms ++ r ->
  exists tab cpubuf s',
    buffer_tail_pv gw max vcpumap true xs xsize tailbuf_pv0 s =
      TRet 0 (TailbufPv (Z.of_nat (length pages)) (Some tab) (Z.of_nat (length (online_from n 0))) (Some cpubuf)
                        (reset_shinfo ctx live_shinfo), s') /\
    src_rest s' = r /\ word_at 8 tab <$> seq 0 (length pages) = pages /\
    restore_vcpus gw levels (p2m_size ctx) pfn_type p2m true xs shared_info_frame store_evtchn console_evtchn
      start_info_at hv_ok vcpumap n 0 [] cpubuf = Some (online_from n 0 ≫= fun j => wanted j (cpus j), []).
Proof.
  intros n pages E Hmax Hps Hgw Hsh On Hk Hv Hok Hr. unfold save_tail_pv in E.
  apply bind_Some in E as (c & Ec & E). apply bind_Some in E as (c0 & E0 & E).
  apply bind_Some in E as (vs & Ev & E). injection E as <-.
  assert (0 ∈ online_from n 0) as H0in.
  { unfold online_from. apply list_elem_of_filter. split; [done|]. apply elem_of_seqZ. lia. }
  assert (c = c_ctxt (cpus 0)) as -> by (pose proof (k_ctxt _ _ (Hk 0 H0in)) as Hc; congruence).
  pose proof (restore_vcpus_ok cpus n 0 c0 vs [] [] ltac:(lia) Hk (fun _ => E0) Hv Ev) as [Hlen Hres].
  rewrite app_nil_r in Hres. cbn [app] in Hres.
  set (np := Z.to_nat (p2m_size ctx)) in *.
  pose proof (unmapped_from_length ctx np 0) as Hpl. fold pages in Hpl.
  cbn [app concat] in Hr. rewrite !concat_app in Hr. cbn [concat] in Hr.
  rewrite (pfntab_bytes ctx np eq_refl), count_unmapped_spec in Hr by lia. fold pages in Hr.
  rewrite Z.add_0_l, app_nil_r, <- !app_assoc in Hr.
  unfold buffer_tail_pv.
  destruct (read_plain Hplain s 4 (le_bytes 4 (Z.of_nat (length pages))) _ Hok ltac:(by rewrite le_bytes_length) Hr)
    as (s1 & -> & Hok1 & Hr1).
  rewrite le_u32 by lia. cbn [pfntab vcpubuf vcpucount shared_info_page tailbuf_pv0 default from_option id].
  destruct (Z.gtb_spec (Z.of_nat (length pages)) (1 .<< 28)) as [Hgt|_].
  { change (1 .<< 28) with (2 ^ 28) in Hgt. lia. }
  destruct (rd_block_fresh Hplain s1 (Z.to_nat (8 * Z.of_nat (length pages))) (entries_page 8 pages) _ Hok1
              ltac:(rewrite entries_page_length; lia) Hr1) as (s2 & -> & Hok2 & Hr2).
  cbn [negb]. fold n. rewrite count_vcpus_spec by lia. rewrite Z.add_0_l.
  assert (length (concat vs) = Z.to_nat (vcpulen gw true xs xsize (Z.of_nat (length (online_from n 0))))) as Hvl.
  { assert (length (online_from n 0) <= n)%nat as Hon.
    { unfold online_from. etrans; [apply length_filter|]. rewrite length_seqZ. lia. }
    unfold vcpulen, cpu_len in *. fold L. assert (Z.of_nat (length (online_from n 0)) <= 64) as H64 by lia.
    rewrite (u32_small (128 * _)) by lia. clear -Hlen Hxs H64.
    destruct xs; [rewrite u32_small by nia|]; lia. }
  destruct (rd_block_fresh Hplain s2 _ (concat vs) _ Hok2 Hvl Hr2) as (s3 & -> & Hok3 & Hr3). cbn [negb].
  destruct (read_plain Hplain s3 (Z.to_nat PAGE_SIZE) (reset_shinfo ctx live_shinfo) r Hok3) as (s4 & -> & Hok4 & Hr4);
    [pose proof (reset_shinfo_length live_shinfo Hgw Hsh); lia|done|].
  exists (entries_page 8 pages), (concat vs), s4. split; [done|]. split; [done|]. split; [|done].
  apply words_entries_page. apply Forall_forall. intros p Hp.
  unfold pages, unmapped_from in Hp. apply list_elem_of_filter in Hp as [_ Hp%elem_of_seqZ]. lia.
Qed.

End Cpus.

(** Two CPUs, 0 and 2, of a 32-bit guest with four pages of which the last has
    no frame. *)
Definition demo_ctx : save_ctx :=
  SaveCtx 0 3 100 (fun p => if p =? 3 then 2 ^ 32 - 1 else p + 50) (fun m => if 50 <=? m then m - 50 else 9) 0 4 4.
Definition demo_hv : hv_cpus :=
  HvCpus (fun _ => Some demo_vcpu) (fun i => Some (replicate 128 i)) (fun _ => Some (7, 4))
         (fun _ _ => Some (7, 4, [1; 2; 3; 4])).
Definition demo_cpu (i : Z) : cpu := Cpu demo_vcpu (replicate 128 i) 7 4 [1; 2; 3; 4].
Definition demo_shinfo : list Z := replicate (Z.to_nat PAGE_SIZE) 1.
Definition demo_tail : list (list Z) := default [] (save_tail_pv demo_ctx demo_hv 2 5 demo_shinfo).

Lemma demo_cpu_ok i : 0 <= i -> cpu_ok demo_ctx demo_hv demo_type true 20 i (demo_cpu i).
Proof.
  intros Hi. split; [done| | |done|done|exists 7, 4; done|cbn; lia|done|cbn; lia].
  - split; vm_compute; done.
  - change (c_ctxt (demo_cpu i)) with demo_vcpu. intros f Hf.
    assert (f ∈ frame_fields 4 3 true demo_vcpu) as Hf'.
    { unfold frame_fields in Hf |- *. destruct (i =? 0); [exact Hf|]. rewrite elem_of_app. right. exact Hf. }
    assert (frame_fields 4 3 true demo_vcpu = [Edx; GdtFrame 0; CtrlReg 3]) as Hfs by (vm_compute; reflexivity).
    rewrite Hfs in Hf'. clear Hf Hfs.
    repeat (apply elem_of_cons in Hf' as [->|Hf']; [vm_compute; done|]). destruct (not_elem_of_nil _ Hf').
Qed.

Lemma pv_tail_roundtrip_witness :
  exists tab cpubuf s',
    buffer_tail_pv 4 2 5 true true 20 tailbuf_pv0 (concat demo_tail ++ [6]) =
      TRet 0 (TailbufPv 1 (Some tab) 2 (Some cpubuf) (reset_shinfo demo_ctx demo_shinfo), s') /\
    s' = [6] /\ word_at 8 tab 0 = 3.
Proof.
  destruct (pv_tail_roundtrip demo_ctx demo_hv demo_type (fun p => p + 70) 5 true 20 77 1 2
    (fun _ => StartInfo 0 0 0 1 0 2 0) (fun _ => true)
    ltac:(intros m; cbn; destruct (Z.leb_spec 50 m); lia) ltac:(vm_compute; done) ltac:(lia)
    list_plain demo_cpu 2 demo_shinfo demo_tail (concat demo_tail ++ [6]) [6])
    as (tab & cpubuf & s' & E & Hs & Hw & _).
  - vm_compute. reflexivity.
  - lia.
  - cbn. lia.
  - left. reflexivity.
  - vm_compute. reflexivity.
  - reflexivity.
  - intros j Hj. apply demo_cpu_ok. apply list_elem_of_filter in Hj as [_ Hj%elem_of_seqZ]. lia.
  - reflexivity.
  - exact I.
  - reflexivity.
  - exists tab, cpubuf, s'. split; [exact E|]. split; [exact Hs|]. by injection Hw.
Defined.

End Tail.
