(* ===== verification/HvmTail.v ===== *)
(** The tail of the image of a fully virtualised guest.

    Models the part of [xc_domain_save] that writes the hypervisor's record
    (tools/libxc/xc_domain_save.c), [libxl__domain_save_device_model], which
    appends the device model's record (tools/libxl/libxl_dom.c), and on the
    receiving side [buffer_tail_hvm], [buffer_qemu], [compat_buffer_qemu],
    [dump_qemu] and the part of [xc_domain_restore] after [finish_hvm]
    (tools/libxc/xc_domain_restore.c).

    Files and hypercalls are parameters; allocations succeed. *)

From S2P Require Import Prelude IO PageTable Stream Control P2mList Tail.

Module HvmTail.
Import IO PageTable Stream Control P2mList Tail.

(** ** The sender *)

(** [magic_pfns] and the record of [xc_domain_hvm_getcontext]. *)
Definition save_tail_hvm (ioreq bufioreq store : Z) (hvm_ctxt : option (list Z)) : option (list (list Z)) :=
  rec ← hvm_ctxt;
  Some [le_bytes 8 ioreq ++ le_bytes 8 bufioreq ++ le_bytes 8 store; le_bytes 4 (Z.of_nat (length rec)); rec].

(** "DeviceModelRecord0002" and the two other signatures. *)
Definition QEMU_SIGNATURE : list Z :=
  [68; 101; 118; 105; 99; 101; 77; 111; 100; 101; 108; 82; 101; 99; 111; 114; 100; 48; 48; 48; 50].
Definition legacy_sig : list Z :=
  [81; 101; 109; 117; 68; 101; 118; 105; 99; 101; 77; 111; 100; 101; 108; 82; 101; 99; 111; 114; 100].
Definition remus_sig : list Z :=
  [82; 101; 109; 117; 115; 68; 101; 118; 105; 99; 101; 77; 111; 100; 101; 108; 83; 116; 97; 116; 101].
Definition QEVM : list Z := [81; 69; 86; 77].

(** The loop that copies the file: [reads] are the answers of [read]
    into the buffer of 1024 bytes. *)
Fixpoint copy_file (reads : list rd_result) : option (list (list Z)) :=
  match reads with
  | [] => None
  | REof :: _ | RData [] :: _ => Some []
  | RErr EINTR :: reads => copy_file reads
  | RErr _ :: _ => None
  | RData bs :: reads => ms ← copy_file reads; Some (bs :: ms)
  end.

(** [libxl__domain_save_device_model]: the messages when all goes well;
    [st_size] is the size that [stat] reported. *)
Definition save_device_model (st_size : option Z) (reads : list rd_result) : option (list (list Z)) :=
  sz ← st_size;
  ms ← copy_file reads;
  Some (QEMU_SIGNATURE :: le_bytes 4 (u32 sz) :: ms).

(** ** The receiver *)

(** [struct tailbuf_hvm]; a block is its bytes, [None] the null pointer. *)
Record tailbuf_hvm := TailbufHvm {
  magicpfns : Z * Z * Z; hvmbufsize : Z; reclen : Z; hvmbuf : option (list Z);
  qemubufsize : Z; qemubuf : option (list Z)
}.

Definition tailbuf_hvm0 : tailbuf_hvm := TailbufHvm (0, 0, 0) 0 0 None 0 None.

(** [tailbuf_free_hvm]. *)
Definition tailbuf_free_hvm (buf : tailbuf_hvm) : tailbuf_hvm :=
  TailbufHvm (magicpfns buf) (hvmbufsize buf) (reclen buf) None (qemubufsize buf) None.

(** [realloc] or [malloc]: the block with at least its old bytes. *)
Definition grow (blk : option (list Z)) (n : nat) : list Z :=
  match blk with
  | Some b => take n b ++ replicate (n - length b) 0
  | None => replicate n 0
  end.

Section Recv.
Context {S : Type} `{BS : ByteSource S}.
(** [compat_buffer_qemu], which reads the descriptor to its end. *)
Context (compat : tailbuf_hvm -> S -> tail_result (tailbuf_hvm * S)).

Definition buffer_qemu (buf : tailbuf_hvm) (s : S) : tail_result (tailbuf_hvm * S) :=
  match src_read s 4 with
  | (None, s) => TRet (-1) (buf, s)
  | (Some bs, s) =>
      let qlen := le_val bs in
      let blk := if qlen >? qemubufsize buf then Some (grow (qemubuf buf) (Z.to_nat qlen)) else qemubuf buf in
      let buf := TailbufHvm (magicpfns buf) (hvmbufsize buf) (reclen buf) (hvmbuf buf) qlen blk in
      match rd_block (default [] blk) (Z.to_nat qlen) s with
      | None => TOverrun
      | Some (ok, b, s) =>
          let buf := TailbufHvm (magicpfns buf) (hvmbufsize buf) (reclen buf) (hvmbuf buf) qlen
                                ((fun _ => b) <$> blk) in
          TRet (if ok : bool then 0 else -1) (buf, s)
      end
  end.

Definition buffer_tail_hvm (buf : tailbuf_hvm) (s : S) : tail_result (tailbuf_hvm * S) :=
  match src_read s 24 with
  | (None, s) => TRet (-1) (buf, s)
  | (Some bs, s) =>
  let magic := (word_at 8 bs 0, word_at 8 bs 1, word_at 8 bs 2) in
  let buf := TailbufHvm magic (hvmbufsize buf) (reclen buf) (hvmbuf buf) (qemubufsize buf) (qemubuf buf) in
  match src_read s 4 with
  | (None, s) => TRet (-1) (buf, s)
  | (Some bs, s) =>
  let len := le_val bs in
  let '(size, blk) := if len >? hvmbufsize buf then (len, Some (grow (hvmbuf buf) (Z.to_nat len)))
                      else (hvmbufsize buf, hvmbuf buf) in
  match rd_block (default [] blk) (Z.to_nat len) s with
  | None => TOverrun
  | Some (ok, b, s) =>
  let buf := TailbufHvm magic size len ((fun _ => b) <$> blk) (qemubufsize buf) (qemubuf buf) in
  if negb ok then TRet (-1) (buf, s)
  else
  match src_read s 21 with
  | (None, s) => TRet (-1) (buf, s)
  | (Some sig, s) =>
      if decide (sig = legacy_sig) then compat buf s
      else if bool_decide (sig = QEMU_SIGNATURE) || bool_decide (sig = remus_sig) then buffer_qemu buf s
      else TRet (-1) (buf, s)
  end end end end.

End Recv.

(** [compat_buffer_qemu] on a descriptor: [qbuf] is the block, [dlen] the bytes
    in it.  The loop ends with the answer that is not positive; its result and
    what is left of the script. *)
Fixpoint compat_loop (fuel : nat) (script : list event) (qbuf : list Z) (dlen : nat)
    : option (bool * list Z * nat * list event) :=
  match fuel with
  | O => None
  | S fuel =>
      match script with
      | ERead (RData (b :: bs)) :: script =>
          let got := take (length qbuf - dlen) (b :: bs) in
          let qbuf := write_at qbuf dlen got in
          let dlen' := (dlen + length got)%nat in
          let qbuf := if decide (dlen' = length qbuf) then qbuf ++ replicate 4096 0 else qbuf in
          compat_loop fuel (unread false (b :: bs) (length got) script) qbuf dlen'
      | ERead REof :: script | ERead (RData []) :: script => Some (true, qbuf, dlen, script)
      | ERead (RErr _) :: script => Some (false, qbuf, dlen, script)
      | _ => None
      end
  end.

(** [blk] is what [malloc(8192)] returned. *)
Definition compat_buffer_qemu (blk : list Z) (fuel : nat) (buf : tailbuf_hvm) (script : list event)
    : option (Z * tailbuf_hvm * list event) :=
  '(ok, qbuf, dlen, script) ← compat_loop fuel script blk 0;
  if negb ok then Some (-1, buf, script)
  else if decide (take 4 qbuf <> QEVM) then Some (-1, buf, script)
  else Some (0, TailbufHvm (magicpfns buf) (hvmbufsize buf) (reclen buf) (hvmbuf buf) (Z.of_nat dlen) (Some qbuf), script).

(** [dump_qemu]: the bytes handed to [fwrite]. *)
Definition dump_qemu (buf : tailbuf_hvm) : list Z := take (Z.to_nat (qemubufsize buf)) (default [] (qemubuf buf)).

(** ** After [finish_hvm] *)

Inductive hvm_param := IOREQ_PFN | BUFIOREQ_PFN | STORE_PFN | PAE_ENABLED | STORE_EVTCHN | CONSOLE_PFN.

Inductive hop :=
| DumpQemu (file : list Z)
| ClearPage (pfn : Z)
| SetParam (p : hvm_param) (v : Z)
| SetContext (rec : list Z).

Section Finish.
Context (hv_ok : hop -> bool).

(** Requests one after the other until one fails. *)
Fixpoint issue_all (l : list hop) : list hop * bool :=
  match l with
  | [] => ([], true)
  | op :: l => if hv_ok op then let '(done, ok) := issue_all l in (op :: done, ok) else ([op], false)
  end.

(** The requests made, and the outputs [store_mfn] and [console_mfn] on
    success. *)
Definition finish_hvm (buf : tailbuf_hvm) (pae store_evtchn console_pfn : Z) : list hop * option (Z * option Z) :=
  let '(m0, m1, m2) := magicpfns buf in
  let '(done, ok) := issue_all
    ([DumpQemu (dump_qemu buf); ClearPage m0; ClearPage m1; ClearPage m2; SetParam IOREQ_PFN m0;
      SetParam BUFIOREQ_PFN m1; SetParam STORE_PFN m2; SetParam PAE_ENABLED pae; SetParam STORE_EVTCHN store_evtchn] ++
     (if console_pfn =? 0 then [] else [ClearPage console_pfn; SetParam CONSOLE_PFN console_pfn]) ++
     [SetContext (take (Z.to_nat (reclen buf)) (default [] (hvmbuf buf)))]) in
  (done, if ok : bool then Some (m2, if console_pfn =? 0 then None else Some console_pfn) else None).

End Finish.

(** ** The current record *)

(** The contents of the file, from the answers of [read]. *)
Fixpoint file_bytes (reads : list rd_result) : list Z :=
  match reads with
  | RData (b :: bs) :: reads => (b :: bs) ++ file_bytes reads
  | RErr _ :: reads => file_bytes reads
  | _ => []
  end.

Lemma copy_file_bytes reads ms : copy_file reads = Some ms -> concat ms = file_bytes reads.
Proof.
  revert ms. induction reads as [|[[|b bs]| |e] reads IH]; intros ms E; cbn in E |- *; try by simplify_eq.
  - apply bind_Some in E as (ms' & E & [= <-]). cbn [concat]. by rewrite (IH ms' E).
  - destruct e; try done. by apply IH.
Qed.

Section Current.
Context `{BS : ByteSource Sr} (Hplain : forall n, src_pad n = n /\ src_can n).
Context (compat : tailbuf_hvm -> Sr -> tail_result (tailbuf_hvm * Sr)).

(** A block that is allocated for the read, or none for nothing. *)
Lemma rd_sized s len m r :
  src_ok s -> len = Z.of_nat (length m) -> src_rest s = m ++ r ->
  exists s', rd_block (default [] (if len >? 0 then Some (grow None (Z.to_nat len)) else None)) (Z.to_nat len) s =
      Some (true, m, s') /\ src_ok s' /\ src_rest s' = r.
Proof.
  intros Hok -> Hr. rewrite Nat2Z.id.
  destruct (rd_block_fresh Hplain s (length m) m r Hok eq_refl Hr) as (s' & E & ?). exists s'.
  destruct (Z.gtb_spec (Z.of_nat (length m)) 0) as [|Hz]; [done|].
  destruct m; [done|cbn in Hz; lia].
Qed.

Lemma buffer_qemu_ok buf s m r :
  qemubuf buf = None -> qemubufsize buf = 0 -> Z.of_nat (length m) < 2 ^ 32 ->
  src_ok s -> src_rest s = le_bytes 4 (Z.of_nat (length m)) ++ m ++ r ->
  exists buf' s', buffer_qemu buf s = TRet 0 (buf', s') /\ src_rest s' = r /\ dump_qemu buf' = m /\
    magicpfns buf' = magicpfns buf /\ reclen buf' = reclen buf /\ hvmbuf buf' = hvmbuf buf.
Proof.
  intros Hq Hz Hl Hok Hr. unfold buffer_qemu.
  destruct (read_plain Hplain s 4 (le_bytes 4 (Z.of_nat (length m))) _ Hok ltac:(by rewrite le_bytes_length) Hr)
    as (s1 & -> & Hok1 & Hr1).
  rewrite le_u32 by lia. rewrite Hq, Hz.
  destruct (rd_sized s1 (Z.of_nat (length m)) m r Hok1 eq_refl Hr1) as (s2 & -> & Hok2 & Hr2).
  eexists _, s2. split; [reflexivity|]. split; [done|]. split; [|done].
  unfold dump_qemu. cbn [qemubufsize qemubuf]. rewrite Nat2Z.id.
  destruct (Z.gtb_spec (Z.of_nat (length m)) 0) as [|Hm]; cbn; [by apply take_ge|].
  by destruct m; [|cbn in Hm; lia].
Qed.

Lemma magic_words a b c :
  0 <= a < 2 ^ 64 -> 0 <= b < 2 ^ 64 -> 0 <= c < 2 ^ 64 ->
  let bs := le_bytes 8 a ++ le_bytes 8 b ++ le_bytes 8 c in
  (word_at 8 bs 0, word_at 8 bs 1, word_at 8 bs 2) = (a, b, c).
Proof.
  intros Ha Hb Hc bs. assert (bs = entries_page 8 [a; b; c]) as ->.
  { rewrite !entries_page_cons. unfold bs. change (entries_page 8 []) with (@nil Z). by rewrite app_nil_r. }
  rewrite (word_at_entries_page 8 [a; b; c] 0 a), (word_at_entries_page 8 [a; b; c] 1 b),
    (word_at_entries_page 8 [a; b; c] 2 c) by done.
  change (256 ^ Z.of_nat 8) with (2 ^ 64). by rewrite !Z.mod_small.
Qed.

(** C11. The tail of a fully virtualised guest arrives: when the hypervisor's
    record and the device model's file are sent one after the other, the
    receiver reads both and leaves the rest of the stream; it then writes a
    file with the same bytes for the new device model, clears the three pages
    of the communication with it, and hands the same record to the
    hypervisor. *)
Theorem hvm_tail_roundtrip a b c rec ms sz reads ms' s r pae store_evtchn console_pfn :
  save_tail_hvm a b c (Some rec) = Some ms -> save_device_model (Some sz) reads = Some ms' ->
  sz = Z.of_nat (length (file_bytes reads)) -> sz < 2 ^ 32 -> Z.of_nat (length rec) < 2 ^ 32 ->
  0 <= a < 2 ^ 64 -> 0 <= b < 2 ^ 64 -> 0 <= c < 2 ^ 64 ->
  src_ok s -> src_rest s = concat ms ++ concat ms' ++ r ->
  exists buf s', buffer_tail_hvm compat tailbuf_hvm0 s = TRet 0 (buf, s') /\ src_rest s' = r /\
    finish_hvm (fun _ => true) buf pae store_evtchn console_pfn =
      ([DumpQemu (file_bytes reads); ClearPage a; ClearPage b; ClearPage c; SetParam IOREQ_PFN a;
        SetParam BUFIOREQ_PFN b; SetParam STORE_PFN c; SetParam PAE_ENABLED pae; SetParam STORE_EVTCHN store_evtchn] ++
       (if console_pfn =? 0 then [] else [ClearPage console_pfn; SetParam CONSOLE_PFN console_pfn]) ++
       [SetContext rec],
       Some (c, if console_pfn =? 0 then None else Some console_pfn)).
Proof.
  intros E E' Hsz Hs32 Hrec Ha Hb Hc Hok Hr. injection E as <-.
  unfold save_device_model in E'. cbn [mbind option_bind] in E'. apply bind_Some in E' as (ds & Eds & E'). injection E' as <-.
  cbn [concat] in Hr. rewrite (copy_file_bytes reads ds Eds) in Hr. rewrite app_nil_r, <- !app_assoc in Hr.
  unfold buffer_tail_hvm. rewrite (app_assoc (le_bytes 8 b)), (app_assoc (le_bytes 8 a)) in Hr.
  destruct (read_plain Hplain s 24 (le_bytes 8 a ++ le_bytes 8 b ++ le_bytes 8 c) _ Hok
              ltac:(by rewrite !length_app, !le_bytes_length) Hr) as (s1 & -> & Hok1 & Hr1).
  destruct (read_plain Hplain s1 4 (le_bytes 4 (Z.of_nat (length rec))) _ Hok1 ltac:(by rewrite le_bytes_length) Hr1) as (s2 & -> & Hok2 & Hr2).
  rewrite magic_words by done. rewrite le_u32 by lia. cbn [hvmbufsize hvmbuf qemubufsize qemubuf tailbuf_hvm0].
  destruct (rd_sized s2 (Z.of_nat (length rec)) rec _ Hok2 eq_refl Hr2) as (s3 & E3 & Hok3 & Hr3).
  assert (exists size blk, (if Z.of_nat (length rec) >? 0 then (Z.of_nat (length rec), Some (grow None (Z.to_nat (Z.of_nat (length rec)))))
            else (0, None)) = (size, blk) /\
            blk = (if Z.of_nat (length rec) >? 0 then Some (grow None (Z.to_nat (Z.of_nat (length rec)))) else None))
    as (size & blk & -> & Hblk) by (destruct (_ >? 0); eauto).
  rewrite <- Hblk in E3. rewrite E3. cbn [negb].
  destruct (read_plain Hplain s3 21 QEMU_SIGNATURE _ Hok3 eq_refl Hr3) as (s4 & -> & Hok4 & Hr4).
  rewrite decide_False by done. rewrite bool_decide_eq_true_2 by done. cbn [orb].
  rewrite u32_small, Hsz in Hr4 by lia.
  match goal with |- context [buffer_qemu ?buf0 s4] =>
    destruct (buffer_qemu_ok buf0 s4 (file_bytes reads) r) as (buf & s5 & -> & Hr5 & Hd & Hma & Hre & Hhv); try done; [lia|] end.
  exists buf, s5. split; [done|]. split; [done|]. unfold finish_hvm. rewrite Hma, Hd, Hre, Hhv.
  cbn [magicpfns reclen hvmbuf]. rewrite Nat2Z.id.
  assert (take (length rec) (default [] ((fun _ : list Z => rec) <$> blk)) = rec) as ->.
  { subst blk. destruct (Z.gtb_spec (Z.of_nat (length rec)) 0) as [|Hm]; cbn; [by apply take_ge|].
    by destruct rec; [|cbn in Hm; lia]. }
  by destruct (console_pfn =? 0).
Qed.

End Current.

(** ** The legacy record *)

Definition arrivals (chunks : list (list Z)) (rest : list event) : list event :=
  ((fun c => ERead (RData c)) <$> chunks) ++ ERead REof :: rest.

Lemma unread_arrivals c n chunks rest :
  exists chunks', unread false c n (arrivals chunks rest) = arrivals chunks' rest /\
    concat chunks' = drop n c ++ concat chunks /\ (Forall (fun c => c <> []) chunks -> Forall (fun c => c <> []) chunks').
Proof.
  unfold unread. destruct (drop n c) as [|x xs] eqn:E.
  - by exists chunks.
  - exists ((x :: xs) :: chunks). split; [done|]. split; [done|]. by constructor.
Qed.

(** The buffer always has room for one more byte, and the loop ends after at
    most one round per byte. *)
Lemma compat_loop_reads fuel : forall chunks rest qbuf dlen,
  Forall (fun c => c <> []) chunks -> (dlen < length qbuf)%nat -> (length (concat chunks) < fuel)%nat ->
  exists qbuf', compat_loop fuel (arrivals chunks rest) qbuf dlen =
      Some (true, qbuf', (dlen + length (concat chunks))%nat, rest) /\
    take (dlen + length (concat chunks)) qbuf' = take dlen qbuf ++ concat chunks /\
    (dlen + length (concat chunks) < length qbuf')%nat.
Proof.
  induction fuel as [|fuel IH]; intros chunks rest qbuf dlen Hne Hd Hf; [lia|].
  destruct Hne as [|c chunks Hc Hne].
  { exists qbuf. cbn. rewrite Nat.add_0_r, app_nil_r. done. }
  destruct c as [|b bs]; [done|]. cbn [arrivals fmap list_fmap app compat_loop].
  set (got := take (length qbuf - dlen) (b :: bs)).
  assert (length got = Nat.min (length qbuf - dlen) (length (b :: bs))) as Hg by apply length_take.
  assert (1 <= length got)%nat as Hg1 by (cbn [length] in Hg; lia).
  fold (arrivals chunks rest).
  destruct (unread_arrivals (b :: bs) (length got) chunks rest) as (chunks' & -> & Hcc & Hne').
  specialize (Hne' Hne).
  assert (drop (length got) (b :: bs) = drop (length qbuf - dlen) (b :: bs)) as Hdrop.
  { rewrite Hg. destruct (decide (length qbuf - dlen <= length (b :: bs))%nat); [by rewrite Nat.min_l|].
    rewrite Nat.min_r by lia. by rewrite !drop_ge by lia. }
  assert (got ++ concat chunks' = concat ((b :: bs) :: chunks)) as Hall.
  { rewrite Hcc, Hdrop. unfold got. rewrite app_assoc, take_drop. done. }
  assert (length got + length (concat chunks') = length (concat ((b :: bs) :: chunks)))%nat as Hlen
    by (rewrite <- Hall, length_app; done).
  set (q1 := write_at qbuf dlen got).
  assert (length q1 = length qbuf) as Hq1 by (apply write_at_length; lia).
  set (q2 := if decide (dlen + length got = length q1)%nat then q1 ++ replicate 4096 0 else q1).
  assert (dlen + length got < length q2)%nat as Hq2.
  { unfold q2. case_decide; [rewrite length_app, length_replicate; lia|lia]. }
  assert (take (dlen + length got) q2 = take dlen qbuf ++ got) as Ht.
  { unfold q2. case_decide; [rewrite take_app_le by lia|]; apply write_at_prefix; lia. }
  destruct (IH chunks' rest q2 (dlen + length got)%nat Hne' Hq2 ltac:(lia)) as (qbuf' & E & Hpre & Hl).
  exists qbuf'. rewrite <- Hlen, Nat.add_assoc. rewrite E, Hpre, Ht, <- app_assoc, Hall. done.
Qed.

(** The legacy record of the device model has no length: the receiver reads
    to the end of the stream.  Whatever pieces the bytes arrive in and however
    often the buffer has to grow, it ends, and when the stream begins with the
    device model's magic number the file written for the new device model has
    exactly these bytes; otherwise the record is refused. *)
Theorem compat_qemu_reads_all blk chunks rest fuel buf :
  let bytes := concat chunks in
  Z.of_nat (length blk) = 8192 -> Forall (fun c => c <> []) chunks -> (length bytes < fuel)%nat -> (4 <= length bytes)%nat ->
  if decide (take 4 bytes = QEVM) then
    exists buf', compat_buffer_qemu blk fuel buf (arrivals chunks rest) = Some (0, buf', rest) /\ dump_qemu buf' = bytes
  else compat_buffer_qemu blk fuel buf (arrivals chunks rest) = Some (-1, buf, rest).
Proof.
  intros bytes Hb Hne Hf H4. unfold compat_buffer_qemu.
  destruct (compat_loop_reads fuel chunks rest blk 0 Hne ltac:(lia) Hf) as (qbuf & -> & Hpre & Hl).
  cbn [mbind option_bind negb Nat.add firstn app] in *. fold bytes in Hpre, Hl |- *.
  change (take 0 blk ++ bytes) with bytes in Hpre.
  assert (take 4 qbuf = take 4 bytes) as ->.
  { rewrite <- Hpre, take_take. by rewrite Nat.min_l by lia. }
  destruct (decide (take 4 bytes = QEVM)) as [Hq|Hq].
  - rewrite decide_False by tauto. eexists. split; [reflexivity|]. unfold dump_qemu. cbn [qemubufsize qemubuf default from_option id].
    by rewrite Nat2Z.id.
  - by rewrite decide_True.
Qed.

(** ** Small instances *)

Lemma hvm_tail_roundtrip_witness :
  exists buf s', buffer_tail_hvm (fun b s => TRet 0 (b, s)) tailbuf_hvm0
      ((le_bytes 8 11 ++ le_bytes 8 12 ++ le_bytes 8 13) ++ le_bytes 4 2 ++ [8; 9] ++
       QEMU_SIGNATURE ++ le_bytes 4 3 ++ [1; 2] ++ [3] ++ [6]) = TRet 0 (buf, s') /\ s' = [6] /\
    fst (finish_hvm (fun _ => true) buf 1 5 0) =
      [DumpQemu [1; 2; 3]; ClearPage 11; ClearPage 12; ClearPage 13; SetParam IOREQ_PFN 11; SetParam BUFIOREQ_PFN 12;
       SetParam STORE_PFN 13; SetParam PAE_ENABLED 1; SetParam STORE_EVTCHN 5; SetContext [8; 9]].
Proof.
  destruct (hvm_tail_roundtrip list_plain (fun b s => TRet 0 (b, s)) 11 12 13 [8; 9]
    [le_bytes 8 11 ++ le_bytes 8 12 ++ le_bytes 8 13; le_bytes 4 2; [8; 9]] 3
    [RData [1; 2]; RErr EINTR; RData [3]; REof] [QEMU_SIGNATURE; le_bytes 4 3; [1; 2]; [3]]
    ((le_bytes 8 11 ++ le_bytes 8 12 ++ le_bytes 8 13) ++ le_bytes 4 2 ++ [8; 9] ++
       QEMU_SIGNATURE ++ le_bytes 4 3 ++ [1; 2] ++ [3] ++ [6]) [6] 1 5 0) as (buf & s' & E & Hs & Hf);
    try reflexivity; try (cbn; lia).
  exists buf, s'. split; [exact E|]. split; [exact Hs|]. by rewrite Hf.
Defined.

Lemma compat_qemu_reads_all_witness :
  exists buf', compat_buffer_qemu (replicate (Z.to_nat 8192) 7) 10 tailbuf_hvm0 (arrivals [[81; 69]; [86; 77; 1]] []) =
    Some (0, buf', []) /\ dump_qemu buf' = [81; 69; 86; 77; 1].
Proof.
  refine (compat_qemu_reads_all (replicate (Z.to_nat 8192) 7) [[81; 69]; [86; 77; 1]] [] 10 tailbuf_hvm0 _ _ _ _).
  - vm_compute. reflexivity.
  - repeat constructor; done.
  - cbn. lia.
  - cbn. lia.
Defined.

End HvmTail.
