(* ===== verification/Finish.v ===== *)
(** The end of the restore of a paravirtual guest.

    Models the part of [xc_domain_restore] (tools/libxc/xc_domain_restore.c)
    after the pages have arrived: pinning the page tables in batches, giving
    back the frames of pages that the guest no longer had, restoring the
    shared-info page, and writing the new pfn-to-mfn table into the guest's own
    memory.  The answers of the hypercalls are parameters. *)

From S2P Require Import Prelude IO PageTable Stream Control P2mList Vcpu Tail.

Module Finish.
Import IO PageTable Stream Control P2mList Vcpu Tail.

(** ** Pinning the page tables *)

Definition MAX_PIN_BATCH : Z := 1024.
Definition MMUEXT_PIN_L1_TABLE : Z := 0.
Definition MMUEXT_PIN_L2_TABLE : Z := 1.
Definition MMUEXT_PIN_L3_TABLE : Z := 2.
Definition MMUEXT_PIN_L4_TABLE : Z := 3.

(** The command for a page of a type; [None]: [continue]. *)
Definition pin_cmd (type : Z) : option Z :=
  if (type .& XEN_DOMCTL_PFINFO_LPINTAB) =? 0 then None
  else
    let t := type .& XEN_DOMCTL_PFINFO_LTABTYPE_MASK in
    if t =? XEN_DOMCTL_PFINFO_L1TAB then Some MMUEXT_PIN_L1_TABLE
    else if t =? XEN_DOMCTL_PFINFO_L2TAB then Some MMUEXT_PIN_L2_TABLE
    else if t =? XEN_DOMCTL_PFINFO_L3TAB then Some MMUEXT_PIN_L3_TABLE
    else if t =? XEN_DOMCTL_PFINFO_L4TAB then Some MMUEXT_PIN_L4_TABLE
    else None.

Section Pins.
Context (pfn_type p2m : Z -> Z) (mmuext_op : list (Z * Z) -> bool).

(** The loop over [n] pages from [i] with the [pin] entries filled so far, and
    the final flush: the batches given to [xc_mmuext_op]. *)
Fixpoint pin_loop (n : nat) (i : Z) (pin : list (Z * Z)) : option (list (list (Z * Z))) :=
  match n with
  | O =>
      match pin with
      | [] => Some []
      | _ => if mmuext_op pin then Some [pin] else None
      end
  | S n =>
      match pin_cmd (pfn_type i) with
      | None => pin_loop n (i + 1) pin
      | Some cmd =>
          let pin := pin ++ [(cmd, p2m i)] in
          if Z.of_nat (length pin) =? MAX_PIN_BATCH then
            if mmuext_op pin then bs ← pin_loop n (i + 1) []; Some (pin :: bs) else None
          else pin_loop n (i + 1) pin
      end
  end.

End Pins.

(** ** Giving back frames *)

(** The loop over the list of pages that were not in the map at the close,
    [k] entries from [i]: the same array collects the frames to give back.
    [None]: an index past the end of an array. *)
Fixpoint free_loop (k : nat) (i : nat) (pfntab : list Z) (nr_frees : nat) (p2m : list Z)
    : option (list Z * nat * list Z) :=
  match k with
  | O => Some (pfntab, nr_frees, p2m)
  | S k =>
      pfn ← pfntab !! i;
      mfn ← p2m !! Z.to_nat pfn;
      if negb (mfn =? INVALID_P2M_ENTRY)
      then free_loop k (S i) (<[nr_frees := mfn]> pfntab) (S nr_frees) (<[Z.to_nat pfn := INVALID_P2M_ENTRY]> p2m)
      else free_loop k (S i) pfntab nr_frees p2m
  end.

(** The frames passed to [xc_domain_decrease_reservation] (which answers how
    many it took), and the table. *)
Definition free_unmapped (decrease : list Z -> Z) (pfntab p2m : list Z) : option (list Z * list Z) :=
  '(tab, nr_frees, p2m) ← free_loop (length pfntab) 0 pfntab 0 p2m;
  let frees := take nr_frees tab in
  if (0 <? Z.of_nat nr_frees) && negb (decrease frees =? Z.of_nat nr_frees) then None else Some (frees, p2m).

(** ** The shared-info page *)

(** Offsets in [struct shared_info] for words of [w] bytes: the two arrays of
    event bits have [8 * w] words; the architecture's part follows the
    wall clock and has three words and 256 bytes. *)
Definition o_pending : Z := 2048.
Definition o_mask (w : Z) : Z := o_pending + 8 * w * w.
Definition o_wc (w : Z) : Z := o_mask w + 8 * w * w.
Definition o_arch (w : Z) : Z := if w =? 8 then 3088 else 2316.
Definition arch_size (w : Z) : Z := 3 * w + 256.

Definition copy_field (new old : list Z) (off len : Z) : list Z :=
  write_at new (Z.to_nat off) (take (Z.to_nat len) (drop (Z.to_nat off) old)).

(** [vcpu_info[i].evtchn_pending_sel = 0] for [n] entries from [i]. *)
Fixpoint clear_sels (w : Z) (n : nat) (i : Z) (page : list Z) : list Z :=
  match n with
  | O => page
  | S n => clear_sels w n (i + 1) (write_at page (Z.to_nat (64 * i + w)) (le_bytes (Z.to_nat w) 0))
  end.

Definition XEN_LEGACY_MAX_VCPUS : nat := 32.

Definition restore_shared_info (w : Z) (new old : list Z) : list Z :=
  let p := copy_field new old 0 o_pending in
  let p := copy_field p old (o_arch w) (arch_size w) in
  let p := write_at p (Z.to_nat o_pending) (replicate (Z.to_nat (8 * w * w)) 0) in
  let p := clear_sels w XEN_LEGACY_MAX_VCPUS 0 p in
  write_at p (Z.to_nat (o_mask w)) (replicate (Z.to_nat (8 * w * w)) 255).

(** ** The guest's own table *)

Section LiveP2m.
Context (gw size : Z) (pfn_type p2m : Z -> Z).

(** "Uncanonicalise the pfn-to-mfn table frame-number list." *)
Definition uncanon_frames (p2m_frame_list : list Z) : option (list Z) :=
  mapM (fun pfn => if bad_frame size pfn_type pfn then None else Some (p2m pfn)) p2m_frame_list.

(** The loop for narrower guests, over [n] entries from [i]. *)
Fixpoint copy_narrow (n : nat) (i : nat) (live_p2m : list Z) : list Z :=
  match n with
  | O => live_p2m
  | S n => copy_narrow n (S i) (write_at live_p2m (4 * i) (le_bytes 4 (u32 (p2m (Z.of_nat i)))))
  end.

Definition copy_p2m (live_p2m : list Z) : list Z :=
  if gw <? 8 then copy_narrow (Z.to_nat size) 0 live_p2m
  else write_at live_p2m 0 (entries_page 8 (p2m <$> seqZ 0 size)).

(** The frames that hold the table, and its new contents. *)
Definition restore_p2m (map_pages : list Z -> option (list Z)) (p2m_frame_list : list Z) : option (list Z * list Z) :=
  frames ← uncanon_frames p2m_frame_list;
  live ← map_pages frames;
  Some (frames, copy_p2m live).

End LiveP2m.

(** ** Every pinned page table is pinned once *)

Section PinsCorrect.
Context (pfn_type p2m : Z -> Z) (mmuext_op : list (Z * Z) -> bool).

(** The pins of [n] pages from [i], in order. *)
Definition pins_from (n : nat) (i : Z) : list (Z * Z) :=
  omap (fun j => cmd ← pin_cmd (pfn_type j); Some (cmd, p2m j)) (seqZ i (Z.of_nat n)).

Lemma pins_from_S n i :
  pins_from (S n) i =
    (match pin_cmd (pfn_type i) with Some cmd => [(cmd, p2m i)] | None => [] end) ++ pins_from n (i + 1).
Proof.
  unfold pins_from. rewrite seqZ_cons by lia. replace (Z.pred (Z.of_nat (S n))) with (Z.of_nat n) by lia.
  cbn. by destruct (pin_cmd (pfn_type i)).
Qed.

Lemma pin_loop_ok n : forall i pin,
  (forall l, mmuext_op l = true) -> Z.of_nat (length pin) < MAX_PIN_BATCH ->
  exists bs, pin_loop pfn_type p2m mmuext_op n i pin = Some bs /\ concat bs = pin ++ pins_from n i /\
    Forall (fun b => 0 < Z.of_nat (length b) <= MAX_PIN_BATCH) bs.
Proof.
  induction n as [|n IH]; intros i pin Hop Hl; cbn [pin_loop].
  - change (pins_from 0 i) with (@nil (Z * Z)). rewrite app_nil_r. destruct pin as [|x pin].
    + exists []. split_and!; try done.
    + exists [x :: pin]. rewrite Hop. cbn [concat]. rewrite app_nil_r. split_and!; try done.
      repeat constructor; cbn [length] in *; lia.
  - rewrite pins_from_S. destruct (pin_cmd (pfn_type i)) as [cmd|]; [|by apply IH].
    rewrite app_assoc. set (pin' := pin ++ [(cmd, p2m i)]).
    assert (length pin' = S (length pin)) as Hl' by (unfold pin'; rewrite length_app; cbn; lia).
    destruct (Z.eqb_spec (Z.of_nat (length pin')) MAX_PIN_BATCH) as [Hfull|Hfull].
    + rewrite Hop. destruct (IH (i + 1) [] Hop) as (bs & -> & Hc & Hb); [unfold MAX_PIN_BATCH; cbn; lia|].
      exists (pin' :: bs). cbn [mbind option_bind concat]. rewrite Hc. split_and!; try done. constructor; [lia|done].
    + apply IH; [done|lia].
Qed.

(** Pinning is complete: when the hypervisor accepts the batches, the
    commands it was given are, over all batches, exactly one for each page
    table that was pinned on the source, in the order of the pages and with the
    new frame; no batch is empty or larger than the array. *)
Theorem pins_complete size :
  (forall l, mmuext_op l = true) ->
  exists bs, pin_loop pfn_type p2m mmuext_op (Z.to_nat size) 0 [] = Some bs /\
    concat bs = pins_from (Z.to_nat size) 0 /\ Forall (fun b => 0 < Z.of_nat (length b) <= MAX_PIN_BATCH) bs.
Proof.
  intros Hop. apply (pin_loop_ok (Z.to_nat size) 0 [] Hop). unfold MAX_PIN_BATCH. cbn. lia.
Qed.

End PinsCorrect.

(** ** The list that is compacted in place *)

(** The frames of pages that have one. *)
Definition framed (p2m : list Z) (pfns : list Z) : list Z :=
  filter (fun f => f <> INVALID_P2M_ENTRY) ((fun p => p2m !!! Z.to_nat p) <$> pfns).

Lemma free_loop_ok k : forall i pfntab nr (p2m : list Z),
  (i + k = length pfntab)%nat -> (nr <= i)%nat ->
  let todo := drop i pfntab in
  NoDup todo -> Forall (fun p => 0 <= p < Z.of_nat (length p2m)) todo ->
  exists tab' nr' p2m',
    free_loop k i pfntab nr p2m = Some (tab', nr', p2m') /\
    take nr' tab' = take nr pfntab ++ framed p2m todo /\
    (forall q, p2m' !! q = if decide (Z.of_nat q ∈ todo /\ (q < length p2m)%nat) then Some INVALID_P2M_ENTRY else p2m !! q).
Proof.
  induction k as [|k IH]; intros i pfntab nr p2m Hk Hnr todo Hnd Hf; cbn [free_loop].
  - exists pfntab, nr, p2m. unfold todo. rewrite drop_ge by lia. cbn. rewrite app_nil_r. split_and!; try done.
  - destruct (lookup_lt_is_Some_2 pfntab i ltac:(lia)) as [pfn Hpfn]. rewrite Hpfn. cbn [mbind option_bind].
    assert (todo = pfn :: drop (S i) pfntab) as Htodo by (by apply drop_S). rewrite Htodo in Hnd, Hf |- *.
    apply NoDup_cons in Hnd as [Hni Hnd]. apply Forall_cons in Hf as [Hp Hf].
    destruct (lookup_lt_is_Some_2 p2m (Z.to_nat pfn) ltac:(lia)) as [mfn Hmfn]. rewrite Hmfn. cbn [mbind option_bind].
    assert (p2m !!! Z.to_nat pfn = mfn) as Hmfn' by (by apply list_lookup_total_correct).
    destruct (Z.eqb_spec mfn INVALID_P2M_ENTRY) as [->|Hv]; cbn [negb].
    + destruct (IH (S i) pfntab nr p2m ltac:(lia) ltac:(lia) Hnd Hf) as (tab' & nr' & p2m' & -> & Ht & Hq).
      exists tab', nr', p2m'. split_and!; [done| |].
      * rewrite Ht. unfold framed. cbn [fmap list_fmap]. rewrite Hmfn'. rewrite filter_cons_False; [done|]. intros Hn. by apply Hn.
      * intros q. rewrite Hq. destruct (decide (Z.of_nat q ∈ drop (S i) pfntab /\ (q < length p2m)%nat)) as [D|D].
        { rewrite decide_True; [done|]. destruct D. split; [set_solver|done]. }
        case_decide as D2; [|done]. destruct D2 as [[<-|?]%elem_of_cons D2]; [|tauto].
        rewrite Nat2Z.id in Hmfn. done.
    + set (tab1 := <[nr := mfn]> pfntab). set (m1 := <[Z.to_nat pfn := INVALID_P2M_ENTRY]> p2m).
      assert (drop (S i) tab1 = drop (S i) pfntab) as Hdrop by (apply drop_insert_lt; lia).
      assert (length m1 = length p2m) as Hm1 by apply length_insert.
      destruct (IH (S i) tab1 (S nr) m1) as (tab' & nr' & p2m' & -> & Ht & Hq);
        [unfold tab1; rewrite length_insert; lia|lia|by rewrite Hdrop|by rewrite Hdrop, Hm1|].
      rewrite Hdrop in Ht, Hq. rewrite Hm1 in Hq. exists tab', nr', p2m'. split_and!; [done| |].
      * rewrite Ht. unfold framed. cbn [fmap list_fmap]. rewrite Hmfn', filter_cons_True by done.
        unfold tab1. rewrite (take_S_r _ _ mfn) by (apply list_lookup_insert_eq; lia).
        rewrite take_insert_ge by lia. rewrite <- app_assoc. cbn [app]. do 3 f_equal.
        apply list_fmap_ext. intros j p Hj. unfold m1. apply list_lookup_total_insert_ne.
        intros Heq. apply Hni. assert (pfn = p) as ->; [|by eapply list_elem_of_lookup_2].
        eapply Forall_lookup_1 in Hf; [|exact Hj]. cbn beta in Hf. lia.
      * intros q. rewrite Hq. destruct (decide (Z.of_nat q ∈ drop (S i) pfntab /\ (q < length p2m)%nat)) as [D|D].
        { rewrite decide_True; [done|]. destruct D. split; [set_solver|done]. }
        unfold m1. case_decide as D2.
        { destruct D2 as [[Heq|?]%elem_of_cons D2]; [|tauto]. rewrite <- Heq, Nat2Z.id.
          apply list_lookup_insert_eq. done. }
        destruct (decide (q = Z.to_nat pfn)) as [->|]; [|by apply list_lookup_insert_ne].
        exfalso. apply D2. rewrite Z2Nat.id by lia. split; [set_solver|lia].
Qed.

Lemma free_loop_len k : forall i pfntab nr (p2m : list Z) tab nr' p2m',
  (nr + k <= length pfntab)%nat -> free_loop k i pfntab nr p2m = Some (tab, nr', p2m') -> (nr' <= length tab)%nat.
Proof.
  induction k as [|k IH]; intros i pfntab nr p2m tab nr' p2m' Hk E; cbn [free_loop] in E.
  - injection E as <- <- <-. lia.
  - apply bind_Some in E as (pfn & _ & E). apply bind_Some in E as (mfn & _ & E).
    destruct (negb _); eapply IH in E; rewrite ?length_insert; lia || done.
Qed.

(** Frames of pages that the guest no longer had are given back: for the
    list of pages that the sender wrote at the end, the hypervisor is asked to
    take back exactly the frames that these pages got during the transfer, each
    once, although the same array holds the pages still to be looked at; after
    it none of these pages has a frame and every other page keeps its own. *)
Theorem free_unmapped_exact ctx decrease (p2m : list Z) :
  let pages := unmapped_from ctx (Z.to_nat (p2m_size ctx)) 0 in
  Z.of_nat (length p2m) = p2m_size ctx ->
  (forall l, decrease l = Z.of_nat (length l)) ->
  exists p2m', free_unmapped decrease pages p2m = Some (framed p2m pages, p2m') /\
    forall q, 0 <= q < p2m_size ctx ->
      p2m' !! Z.to_nat q = if unmapped ctx q then Some INVALID_P2M_ENTRY else p2m !! Z.to_nat q.
Proof.
  intros pages Hlen Hdec.
  assert (forall p, p ∈ pages <-> unmapped ctx p = true /\ 0 <= p < p2m_size ctx) as Hin.
  { intros p. unfold pages, unmapped_from. rewrite list_elem_of_filter, elem_of_seqZ. split; intros [? ?]; split; done || lia. }
  assert (NoDup pages) as Hnd by (apply NoDup_filter, NoDup_seqZ).
  assert (Forall (fun p => 0 <= p < Z.of_nat (length p2m)) pages) as Hf.
  { apply Forall_forall. intros p [_ Hp]%Hin. lia. }
  destruct (free_loop_ok (length pages) 0 pages 0 p2m eq_refl ltac:(lia) Hnd Hf) as (tab & nr & p2m' & E & Ht & Hq).
  exists p2m'. unfold free_unmapped. rewrite E. cbn [mbind option_bind].
  rewrite drop_0 in Ht, Hq. change (take 0 pages ++ framed p2m pages) with (framed p2m pages) in Ht.
  pose proof (free_loop_len (length pages) 0 pages 0 p2m tab nr p2m' (Nat.le_refl _) E) as Hnr.
  rewrite Hdec, length_take, Nat.min_l, Z.eqb_refl, andb_false_r by done. rewrite Ht.
  split; [done|]. intros q Hq0. rewrite Hq, Z2Nat.id by lia.
  destruct (unmapped ctx q) eqn:U.
  - rewrite decide_True; [done|]. split; [apply Hin; done|lia].
  - rewrite decide_False; [done|]. intros [Hp _]. apply Hin in Hp as [? _]. congruence.
Qed.

(** ** The shared-info page, byte by byte *)

Definition page_sized (p : list Z) : Prop := Z.of_nat (length p) = PAGE_SIZE.

(** A write to bytes [off] to [off + length src] of a page. *)
Lemma page_write p off src k :
  page_sized p -> 0 <= off -> off + Z.of_nat (length src) <= PAGE_SIZE -> 0 <= k ->
  page_sized (write_at p (Z.to_nat off) src) /\
  write_at p (Z.to_nat off) src !! Z.to_nat k =
    if decide (off <= k < off + Z.of_nat (length src)) then src !! Z.to_nat (k - off) else p !! Z.to_nat k.
Proof.
  intros Hp Ho Hl Hk. unfold page_sized in *. split; [rewrite write_at_length; lia|].
  rewrite write_at_lookup by lia. do 2 case_decide; try lia; [|done]. f_equal. lia.
Qed.

Lemma page_fill p off n (b : Z) k :
  page_sized p -> 0 <= off -> 0 <= n -> off + n <= PAGE_SIZE -> 0 <= k ->
  page_sized (write_at p (Z.to_nat off) (replicate (Z.to_nat n) b)) /\
  write_at p (Z.to_nat off) (replicate (Z.to_nat n) b) !! Z.to_nat k =
    if decide (off <= k < off + n) then Some b else p !! Z.to_nat k.
Proof.
  intros Hp Ho Hn Hl Hk.
  destruct (page_write p off (replicate (Z.to_nat n) b) k Hp Ho) as [Hs ->]; [rewrite length_replicate; lia|done|].
  rewrite length_replicate, Z2Nat.id by lia. split; [done|].
  case_decide; [|done]. apply lookup_replicate_2. lia.
Qed.

Lemma copy_field_lookup p old off n k :
  page_sized p -> page_sized old -> 0 <= off -> 0 <= n -> off + n <= PAGE_SIZE -> 0 <= k ->
  page_sized (copy_field p old off n) /\
  copy_field p old off n !! Z.to_nat k = if decide (off <= k < off + n) then old !! Z.to_nat k else p !! Z.to_nat k.
Proof.
  intros Hp Ho Hoff Hn Hl Hk. unfold copy_field.
  assert (Z.of_nat (length (take (Z.to_nat n) (drop (Z.to_nat off) old))) = n) as Hlen.
  { unfold page_sized in Ho. rewrite length_take, length_drop. lia. }
  destruct (page_write p off (take (Z.to_nat n) (drop (Z.to_nat off) old)) k Hp Hoff) as [Hs ->]; [lia|done|].
  rewrite Hlen. split; [done|]. case_decide; [|done].
  rewrite lookup_take_lt by lia. rewrite lookup_drop. f_equal. lia.
Qed.

(** Byte [k] belongs to the selector word of entry [k / 64]. *)
Definition in_sel (w k : Z) : Prop := w <= k mod 64 < 2 * w.

#[global] Instance in_sel_dec w k : Decision (in_sel w k).
Proof. unfold in_sel. apply _. Defined.

Lemma clear_sels_lookup w n : forall i p k,
  w = 4 \/ w = 8 -> page_sized p -> 0 <= i -> i + Z.of_nat n <= 32 -> 0 <= k ->
  page_sized (clear_sels w n i p) /\
  clear_sels w n i p !! Z.to_nat k =
    if decide (in_sel w k /\ i <= k / 64 < i + Z.of_nat n) then Some 0 else p !! Z.to_nat k.
Proof.
  induction n as [|n IH]; intros i p k Hw Hp Hi Hn Hk; cbn [clear_sels].
  { split; [done|]. rewrite decide_False; [done|]. lia. }
  rewrite le_bytes_zero.
  destruct (page_fill p (64 * i + w) w 0 k Hp) as [Hp1 Hk1]; [lia|lia|change PAGE_SIZE with 4096; lia|done|].
  destruct (IH (i + 1) _ k Hw Hp1 ltac:(lia) ltac:(lia) Hk) as [Hp2 ->]. split; [done|]. rewrite Hk1.
  pose proof (Z.div_mod k 64 ltac:(lia)) as Hdm. pose proof (Z.mod_pos_bound k 64 ltac:(lia)).
  unfold in_sel. repeat case_decide; try done; exfalso; lia.
Qed.

(** The shared-info page of the new domain: no event is pending, every
    event channel is masked, and no CPU has a pending selector bit; the rest of
    the information about the CPUs and the architecture's part are those of
    the source; the wall clock, set by the hypervisor, is left alone. *)
Theorem shared_info_restored w new old k :
  w = 4 \/ w = 8 -> page_sized new -> page_sized old -> 0 <= k < PAGE_SIZE ->
  restore_shared_info w new old !! Z.to_nat k =
    if decide (k < o_pending) then if decide (in_sel w k) then Some 0 else old !! Z.to_nat k
    else if decide (k < o_mask w) then Some 0
    else if decide (k < o_wc w) then Some 255
    else if decide (o_arch w <= k < o_arch w + arch_size w) then old !! Z.to_nat k
    else new !! Z.to_nat k.
Proof.
  intros Hw Hn Ho [Hk Hk']. unfold restore_shared_info. change PAGE_SIZE with 4096 in Hk'.
  assert (o_pending = 2048 /\ 2048 < o_mask w /\ o_mask w = 2048 + 8 * w * w /\ o_wc w = o_mask w + 8 * w * w /\
          o_wc w <= o_arch w /\ 0 <= arch_size w /\ o_arch w + arch_size w <= 4096) as (H1 & H2 & H3 & H4 & H5 & H6 & H7).
  { unfold o_wc, o_mask, o_arch, arch_size, o_pending. destruct Hw as [-> | ->]; cbn [Z.eqb Pos.eqb]; lia. }
  assert (0 <= 8 * w * w) by lia. change PAGE_SIZE with 4096 in *.
  destruct (copy_field_lookup new old 0 o_pending k Hn Ho) as [Hp1 E1]; [change PAGE_SIZE with 4096; lia..|].
  destruct (copy_field_lookup _ old (o_arch w) (arch_size w) k Hp1 Ho) as [Hp2 E2]; [change PAGE_SIZE with 4096; lia..|].
  destruct (page_fill _ o_pending (8 * w * w) 0 k Hp2) as [Hp3 E3]; [change PAGE_SIZE with 4096; lia..|].
  destruct (clear_sels_lookup w XEN_LEGACY_MAX_VCPUS 0 _ k Hw Hp3) as [Hp4 E4]; [unfold XEN_LEGACY_MAX_VCPUS; lia..|].
  destruct (page_fill _ (o_mask w) (8 * w * w) 255 k Hp4) as [Hp5 E5]; [change PAGE_SIZE with 4096; lia..|].
  rewrite E5, E4, E3, E2, E1. change (0 + Z.of_nat XEN_LEGACY_MAX_VCPUS) with 32.
  pose proof (Z.div_mod k 64 ltac:(lia)) as Hdm. pose proof (Z.mod_pos_bound k 64 ltac:(lia)).
  repeat case_decide; try done; exfalso; unfold in_sel in *; lia.
Qed.

(** ** The table in the guest's memory *)

Lemma copy_narrow_words (p2m : Z -> Z) n : forall i live j,
  (4 * (i + n) <= length live)%nat ->
  word_at 4 (copy_narrow p2m n i live) j =
    if decide (i <= j < i + n)%nat then u32 (p2m (Z.of_nat j)) else word_at 4 live j.
Proof.
  induction n as [|n IH]; intros i live j Hl; cbn [copy_narrow].
  { rewrite decide_False by lia. done. }
  rewrite IH by (rewrite write_at_length; rewrite ?le_bytes_length; lia).
  destruct (decide (j = i)) as [->|Hj].
  - rewrite decide_False, decide_True by lia. rewrite word_at_write_same by lia.
    change (256 ^ Z.of_nat 4) with (2 ^ 32). unfold u32. by rewrite Z.mod_mod by lia.
  - destruct (decide (j < i)%nat); [rewrite (word_at_write_out 4 4) by lia|rewrite (word_at_write_above 4 4) by lia];
      do 2 case_decide; done || lia.
Qed.

Lemma word_at_write_prefix w buf page i :
  (w * i + w <= length page)%nat -> (length page <= length buf)%nat -> word_at w (write_at buf 0 page) i = word_at w page i.
Proof.
  intros H1 H2. unfold word_at, write_at. change (take 0 buf) with (@nil Z). rewrite app_nil_l. rewrite drop_app_le by lia.
  by rewrite take_app_le by (rewrite length_drop; lia).
Qed.

Lemma copy_p2m_words gw size (p2m : Z -> Z) live i :
  gw = 4 \/ gw = 8 -> 0 <= i < size -> size * gw <= Z.of_nat (length live) ->
  word_at (Z.to_nat gw) (copy_p2m gw size p2m live) (Z.to_nat i) = p2m i mod 256 ^ gw.
Proof.
  intros Hgw Hi Hl. unfold copy_p2m. destruct Hgw as [-> | ->]; cbn [Z.ltb Z.compare Pos.compare Pos.compare_cont].
  - change (Z.to_nat 4) with 4%nat. rewrite copy_narrow_words by lia.
    rewrite decide_True by lia. by rewrite Z2Nat.id by lia.
  - change (Z.to_nat 8) with 8%nat.
    assert (length (entries_page 8 (p2m <$> seqZ 0 size)) = (Z.to_nat size * 8)%nat) as Hlen.
    { by rewrite entries_page_length, length_fmap, length_seqZ. }
    rewrite word_at_write_prefix by lia.
    rewrite (word_at_entries_page 8 _ _ (p2m i)); [done|].
    rewrite list_lookup_fmap, lookup_seqZ_lt by lia. cbn. f_equal. f_equal. lia.
Qed.

(** The guest finds its new table: the frames that hold the table are the
    new frames of the pages that held it, and the table written there gives for
    every page of the guest its new frame (truncated to the guest's word, so
    that the mark of a page without a frame stays that mark). *)
Theorem p2m_table_restored gw size pfn_type (p2m : Z -> Z) map_pages pfns live :
  gw = 4 \/ gw = 8 ->
  Forall (fun p => 0 <= p < size /\ pfn_type p = XEN_DOMCTL_PFINFO_NOTAB) pfns ->
  map_pages (p2m <$> pfns) = Some live -> size * gw <= Z.of_nat (length live) ->
  exists table, restore_p2m gw size pfn_type p2m map_pages pfns = Some (p2m <$> pfns, table) /\
    forall i, 0 <= i < size -> word_at (Z.to_nat gw) table (Z.to_nat i) = p2m i mod 256 ^ gw.
Proof.
  intros Hgw Hf Hmap Hl. exists (copy_p2m gw size p2m live). unfold restore_p2m, uncanon_frames.
  assert (mapM (fun pfn => if bad_frame size pfn_type pfn then None else Some (p2m pfn)) pfns = Some (p2m <$> pfns)) as ->.
  { clear Hmap. induction Hf as [|p pfns [Hp Ht] Hf IH]; [done|]. cbn. by rewrite good_frame, IH by (done || lia). }
  cbn [mbind option_bind]. rewrite Hmap. cbn [mbind option_bind]. split; [done|].
  intros i Hi. by apply copy_p2m_words.
Qed.

(** ** Small instances *)

Lemma pins_complete_witness :
  exists bs, pin_loop (fun i => if i =? 1 then XEN_DOMCTL_PFINFO_LPINTAB .| XEN_DOMCTL_PFINFO_L3TAB else 0) (fun p => p + 70)
      (fun _ => true) 3 0 [] = Some bs /\ concat bs = [(2, 71)].
Proof.
  destruct (pins_complete (fun i => if i =? 1 then XEN_DOMCTL_PFINFO_LPINTAB .| XEN_DOMCTL_PFINFO_L3TAB else 0)
    (fun p => p + 70) (fun _ => true) 3 (fun _ => eq_refl)) as (bs & E & Hc & _).
  exists bs. split; [exact E|]. rewrite Hc. vm_compute. reflexivity.
Defined.

Lemma free_unmapped_exact_witness :
  exists p2m', free_unmapped (fun l => Z.of_nat (length l)) [3] [70; 71; 72; 73] = Some ([73], p2m') /\
    p2m' !! 3%nat = Some INVALID_P2M_ENTRY.
Proof.
  destruct (free_unmapped_exact demo_ctx (fun l => Z.of_nat (length l)) [70; 71; 72; 73]) as (p2m' & E & Hq);
    [reflexivity|reflexivity|].
  exists p2m'. split; [exact E|]. etrans; [exact (Hq 3 ltac:(cbn; lia))|reflexivity].
Defined.

Lemma shared_info_restored_witness :
  restore_shared_info 4 (replicate (Z.to_nat PAGE_SIZE) 9) (replicate (Z.to_nat PAGE_SIZE) 5) !! Z.to_nat 2200 = Some 255.
Proof.
  rewrite (shared_info_restored 4 (replicate (Z.to_nat PAGE_SIZE) 9) (replicate (Z.to_nat PAGE_SIZE) 5) 2200);
    [reflexivity|by left|vm_compute; reflexivity|vm_compute; reflexivity|vm_compute; split; congruence].
Defined.

Lemma p2m_table_restored_witness :
  exists table, restore_p2m 4 3 (fun _ => 0) (fun p => if p =? 2 then INVALID_P2M_ENTRY else p + 70)
      (fun _ => Some (replicate 16 1)) [1] = Some ([71], table) /\ word_at 4 table 2 = 2 ^ 32 - 1.
Proof.
  destruct (p2m_table_restored 4 3 (fun _ => 0) (fun p => if p =? 2 then INVALID_P2M_ENTRY else p + 70)
    (fun _ => Some (replicate 16 1)) [1] (replicate 16 1)) as (table & E & Hw);
    [by left|repeat constructor; lia|reflexivity|cbn; lia|].
  exists table. split; [exact E|]. etrans; [exact (Hw 2 ltac:(lia))|]. reflexivity.
Defined.

End Finish.
