(* ===== verification/LogDirty.v ===== *)
(** The hypervisor's log of dirty pages.

    Models the log-dirty trie of xen/arch/x86/mm/paging.c: marking a page
    ([paging_mark_dirty]), asking for one ([paging_mfn_is_dirty]), reading and
    clearing the whole log ([paging_log_dirty_op]) and freeing it
    ([paging_free_log_dirty_bitmap]).  The trie lives in frames of memory: a
    node is an array of 512 frame numbers, a leaf 32768 bits.

    [paging_mark_dirty] drops the lock when it misses a frame, allocates one
    and starts again; one round under the lock is [attempt], and rounds of
    several processors interleave.  The reference is the set of pages marked
    since they were last cleared. *)

From S2P Require Import Prelude.

Module LogDirty.

(** ** Frames and indices *)

Inductive frame := Node (es : list Z) | Leaf (bits : Z).

(** A page of memory seen as bits is an integer of 32768 bits. *)
Abbreviation heap := (gmap Z frame).

Definition INVALID_MFN : Z := 2 ^ 64 - 1.
Definition PAGE_SHIFT : Z := 12.
Definition PAGETABLE_ORDER : Z := 9.
Definition LOGDIRTY_NODE_ENTRIES : Z := 1 .<< PAGETABLE_ORDER.
Definition L1_LOGDIRTY_IDX (pfn : Z) : Z := pfn .& ((1 .<< (PAGE_SHIFT + 3)) - 1).
Definition L2_LOGDIRTY_IDX (pfn : Z) : Z := (pfn .>> (PAGE_SHIFT + 3)) .& (LOGDIRTY_NODE_ENTRIES - 1).
Definition L3_LOGDIRTY_IDX (pfn : Z) : Z :=
  (pfn .>> (PAGE_SHIFT + 3 + PAGETABLE_ORDER)) .& (LOGDIRTY_NODE_ENTRIES - 1).
Definition L4_LOGDIRTY_IDX (pfn : Z) : Z :=
  (pfn .>> (PAGE_SHIFT + 3 + PAGETABLE_ORDER * 2)) .& (LOGDIRTY_NODE_ENTRIES - 1).

Definition VALID_M2P (e : Z) : bool := negb (truthy (e .& (1 .<< 63))).
Definition SHARED_M2P_ENTRY : Z := 2 ^ 64 - 2.
Definition SHARED_M2P (e : Z) : bool := e =? SHARED_M2P_ENTRY.

(** [struct log_dirty_domain] and the memory its frames are in. *)
Record log_dirty := LogDirty {
  mem : heap; top : Z;
  allocs : Z; failed_allocs : Z; fault_count : Z; dirty_count : Z
}.

Definition with_mem (d : log_dirty) (h : heap) : log_dirty :=
  LogDirty h (top d) (allocs d) (failed_allocs d) (fault_count d) (dirty_count d).
Definition with_top (d : log_dirty) (t : Z) : log_dirty :=
  LogDirty (mem d) t (allocs d) (failed_allocs d) (fault_count d) (dirty_count d).

(** The layout of the machine's memory: holes in the frame numbers are
    compressed, and a bitmap says which groups of frames exist. *)
Record frame_layout := FrameLayout {
  max_page : Z; pfn_hole_mask : Z; pfn_pdx_bottom_mask : Z; pfn_top_mask : Z; pfn_pdx_hole_shift : Z;
  PDX_GROUP_COUNT : Z; pdx_group_valid : Z -> bool
}.

Definition pfn_to_pdx (L : frame_layout) (pfn : Z) : Z :=
  (pfn .& pfn_pdx_bottom_mask L) .| ((pfn .& pfn_top_mask L) .>> pfn_pdx_hole_shift L).

Definition __mfn_valid (L : frame_layout) (mfn : Z) : bool :=
  (mfn <? max_page L) && negb (truthy (mfn .& pfn_hole_mask L)) &&
  pdx_group_valid L (pfn_to_pdx L mfn / PDX_GROUP_COUNT L).

Lemma INVALID_MFN_invalid L : max_page L < 2 ^ 64 -> __mfn_valid L INVALID_MFN = false.
Proof. intros H. unfold __mfn_valid, INVALID_MFN. destruct (Z.ltb_spec (2 ^ 64 - 1) (max_page L)); [lia|done]. Qed.

Section Model.
Context (mfn_valid : Z -> bool).

(** ** Marking a page *)

(** [paging_new_log_dirty_page] with the answer of [alloc_page]. *)
Definition paging_new_log_dirty_page (page : option Z) (d : log_dirty) : Z * log_dirty :=
  match page with
  | None => (INVALID_MFN, LogDirty (mem d) (top d) (allocs d) (u32 (failed_allocs d + 1)) (fault_count d) (dirty_count d))
  | Some m => (m, LogDirty (mem d) (top d) (u32 (allocs d + 1)) (failed_allocs d) (fault_count d) (dirty_count d))
  end.

(** [paging_free_log_dirty_page]: the frame is no longer ours. *)
Definition paging_free_log_dirty_page (m : Z) (d : log_dirty) : log_dirty :=
  LogDirty (delete m (mem d)) (top d) (u32 (allocs d - 1)) (failed_allocs d) (fault_count d) (dirty_count d).

Definition empty_node : frame := Node (replicate (Z.to_nat LOGDIRTY_NODE_ENTRIES) INVALID_MFN).
Definition empty_leaf : frame := Leaf 0.

(** [paging_new_log_dirty_node] and [paging_new_log_dirty_leaf]: the mapping,
    if any, and the memory. *)
Definition paging_new_log_dirty_node (m : Z) (h : heap) : option Z * heap :=
  if mfn_valid m then (Some m, <[m := empty_node]> h) else (None, h).
Definition paging_new_log_dirty_leaf (m : Z) (h : heap) : option Z * heap :=
  if mfn_valid m then (Some m, <[m := empty_leaf]> h) else (None, h).

Definition entry (h : heap) (m : Z) (i : Z) : Z :=
  match h !! m with Some (Node es) => default INVALID_MFN (es !! Z.to_nat i) | _ => INVALID_MFN end.
Definition set_entry (h : heap) (m : Z) (i v : Z) : heap :=
  match h !! m with Some (Node es) => <[m := Node (<[Z.to_nat i := v]> es)]> h | _ => h end.
Definition leaf_bits (h : heap) (m : Z) : Z := match h !! m with Some (Leaf b) => b | _ => 0 end.

(** One level down from the frame [m] at index [i]: the existing entry, or the
    new frame, if there is one, which is initialised by [init] and entered. *)
Definition descend (init : Z -> heap -> option Z * heap) (m i new_mfn : Z) (h : heap) : option Z * Z * heap :=
  let mfn := entry h m i in
  if negb (mfn_valid mfn) then
    let '(child, h) := init new_mfn h in (child, INVALID_MFN, set_entry h m i new_mfn)
  else (Some mfn, new_mfn, h).

(** A round under the lock, between [again] and [oom]: [inl] the frame left
    over after success, [inr] that a frame is missing. *)
Definition attempt (pfn new_mfn : Z) (d : log_dirty) : (Z + unit) * log_dirty :=
  let '(l4, new_mfn, d) :=
    if mfn_valid (top d) then (Some (top d), new_mfn, d)
    else let '(l4, h) := paging_new_log_dirty_node new_mfn (mem d) in (l4, INVALID_MFN, with_top (with_mem d h) new_mfn) in
  match l4 with
  | None => (inr tt, d)
  | Some l4 =>
  let '(l3, new_mfn, h) := descend paging_new_log_dirty_node l4 (L4_LOGDIRTY_IDX pfn) new_mfn (mem d) in
  match l3 with
  | None => (inr tt, with_mem d h)
  | Some l3 =>
  let '(l2, new_mfn, h) := descend paging_new_log_dirty_node l3 (L3_LOGDIRTY_IDX pfn) new_mfn h in
  match l2 with
  | None => (inr tt, with_mem d h)
  | Some l2 =>
  let '(l1, new_mfn, h) := descend paging_new_log_dirty_leaf l2 (L2_LOGDIRTY_IDX pfn) new_mfn h in
  match l1 with
  | None => (inr tt, with_mem d h)
  | Some l1 =>
  let i1 := L1_LOGDIRTY_IDX pfn in
  let changed := negb (Z.testbit (leaf_bits h l1) i1) in
  let h := <[l1 := Leaf (Z.setbit (leaf_bits h l1) i1)]> h in
  (inl new_mfn, LogDirty h (top d) (allocs d) (failed_allocs d) (fault_count d)
                         (if changed then u32 (dirty_count d + 1) else dirty_count d))
  end end end end.

(** After the round: free the frame left over, or allocate one and try again;
    [pages] are the answers of [alloc_page].  [None]: the answers are used up. *)
Fixpoint mark_loop (pages : list (option Z)) (pfn new_mfn : Z) (d : log_dirty) : option log_dirty :=
  match attempt pfn new_mfn d with
  | (inl left_over, d) => Some (if mfn_valid left_over then paging_free_log_dirty_page left_over d else d)
  | (inr _, d) =>
      match pages with
      | [] => None
      | page :: pages =>
          let '(new_mfn, d) := paging_new_log_dirty_page page d in
          if negb (mfn_valid new_mfn) then Some d else mark_loop pages pfn new_mfn d
      end
  end.

(** [paging_mark_dirty]: [log_mode] is [paging_mode_log_dirty], [owned] the
    test of the page's owner, [gpfn] the machine-to-physical table.  A shared
    page is a bug that stops the hypervisor ([None]). *)
Definition paging_mark_dirty (log_mode : bool) (owned : Z -> bool) (gpfn : Z -> Z) (pages : list (option Z))
    (guest_mfn : Z) (d : log_dirty) : option log_dirty :=
  if negb log_mode || negb (mfn_valid guest_mfn) || negb (owned guest_mfn) then Some d
  else
    let pfn := gpfn guest_mfn in
    if SHARED_M2P pfn then None
    else if negb (VALID_M2P pfn) then Some d
    else mark_loop pages pfn INVALID_MFN d.

(** [paging_mfn_is_dirty]. *)
Definition paging_mfn_is_dirty (gpfn : Z -> Z) (gmfn : Z) (d : log_dirty) : bool :=
  let pfn := gpfn gmfn in
  if SHARED_M2P pfn || negb (VALID_M2P pfn) then false
  else
  let mfn := top d in
  if negb (mfn_valid mfn) then false else
  let mfn := entry (mem d) mfn (L4_LOGDIRTY_IDX pfn) in
  if negb (mfn_valid mfn) then false else
  let mfn := entry (mem d) mfn (L3_LOGDIRTY_IDX pfn) in
  if negb (mfn_valid mfn) then false else
  let mfn := entry (mem d) mfn (L2_LOGDIRTY_IDX pfn) in
  if negb (mfn_valid mfn) then false else
  Z.testbit (leaf_bits (mem d) mfn) (L1_LOGDIRTY_IDX pfn).

(** ** Reading and clearing the log *)

(** [for ( i = 0; cond && i < n; i++ )]. *)
Fixpoint for_loop {A} (n : nat) (i : Z) (cond : A -> bool) (body : Z -> A -> A) (a : A) : A :=
  match n with
  | O => a
  | S n => if cond a then for_loop n (i + 1) cond body (body i a) else a
  end.

(** The variables of the loops: the log, the pages covered, the bytes copied
    out, and the result. *)
Record op_state := OpState { o_log : log_dirty; o_pages : Z; o_out : list Z; o_rv : Z }.

Definition ENOMEM : Z := 12.
Definition EFAULT : Z := 14.
Definition PAGE_SIZE : Z := 4096.

(** [(l && mfn_valid(l[i])) ? map : NULL]. *)
Definition child (h : heap) (l : option Z) (i : Z) : option Z :=
  m ← l; if mfn_valid (entry h m i) then Some (entry h m i) else None.

Section Op.
Context (sc_pages : Z) (peek clean : bool) (copy_ok : Z -> bool).

Definition op_cond (s : op_state) : bool := (o_rv s =? 0) && (o_pages s <? sc_pages).

(** The innermost body. *)
Definition op_leaf (l2 : option Z) (i2 : Z) (s : op_state) : op_state :=
  let h := mem (o_log s) in
  let l1 := child h l2 i2 in
  let bits := match l1 with Some m => leaf_bits h m | None => 0 end in
  let left := (sc_pages - o_pages s + 7) .>> 3 in
  let bytes := if left <? PAGE_SIZE then left else PAGE_SIZE in
  if peek && negb (copy_ok (o_pages s .>> 3)) then OpState (o_log s) (o_pages s) (o_out s) (- EFAULT)
  else
    let out := if peek then o_out s ++ le_bytes (Z.to_nat bytes) bits else o_out s in
    let h := match l1 with Some m => if clean then <[m := empty_leaf]> h else h | None => h end in
    OpState (with_mem (o_log s) h) (o_pages s + (bytes .<< 3)) out (o_rv s).

Definition op_l2 (l3 : option Z) (i3 : Z) (s : op_state) : op_state :=
  let l2 := child (mem (o_log s)) l3 i3 in
  for_loop (Z.to_nat LOGDIRTY_NODE_ENTRIES) 0 op_cond (op_leaf l2) s.

Definition op_l3 (l4 : option Z) (i4 : Z) (s : op_state) : op_state :=
  let l3 := child (mem (o_log s)) l4 i4 in
  for_loop (Z.to_nat LOGDIRTY_NODE_ENTRIES) 0 op_cond (op_l2 l3) s.

Definition op_loops (s : op_state) : op_state :=
  let l4 := if mfn_valid (top (o_log s)) then Some (top (o_log s)) else None in
  for_loop (Z.to_nat LOGDIRTY_NODE_ENTRIES) 0 op_cond (op_l3 l4) s.

(** [paging_log_dirty_op]: the result, the statistics (faults and dirty
    pages), [sc->pages], the bytes copied and the log. *)
Definition paging_log_dirty_op (d : log_dirty) : Z * (Z * Z) * Z * list Z * log_dirty :=
  let stats := (fault_count d, dirty_count d) in
  let d := if clean then LogDirty (mem d) (top d) (allocs d) (failed_allocs d) 0 0 else d in
  if truthy (failed_allocs d) then (- ENOMEM, stats, sc_pages, [], d)
  else
    let s := op_loops (OpState d 0 [] 0) in
    (o_rv s, stats, if (o_rv s =? 0) && (o_pages s <? sc_pages) then o_pages s else sc_pages, o_out s, o_log s).

End Op.

(** ** Freeing the log *)

Definition free_l2 (h : heap) (l2 : Z) (i2 : Z) (d : log_dirty) : log_dirty :=
  if mfn_valid (entry h l2 i2) then paging_free_log_dirty_page (entry h l2 i2) d else d.

Definition all_entries (body : Z -> log_dirty -> log_dirty) (d : log_dirty) : log_dirty :=
  for_loop (Z.to_nat LOGDIRTY_NODE_ENTRIES) 0 (fun _ => true) body d.

(** The frames are still mapped while their entries are visited, so that the
    entries are those of the memory at the start. *)
Definition paging_free_log_dirty_bitmap (d : log_dirty) : log_dirty :=
  if negb (mfn_valid (top d)) then d
  else
    let h := mem d in
    let d := all_entries (fun i4 d =>
      let l3 := entry h (top d) i4 in
      if negb (mfn_valid l3) then d
      else
        let d := all_entries (fun i3 d =>
          let l2 := entry h l3 i3 in
          if negb (mfn_valid l2) then d
          else paging_free_log_dirty_page l2 (all_entries (free_l2 h l2) d)) d in
        paging_free_log_dirty_page l3 d) d in
    let d := paging_free_log_dirty_page (top d) d in
    LogDirty (mem d) INVALID_MFN (allocs d) 0 (fault_count d) (dirty_count d).

(** ** Turning the log on and off *)

Definition EINVAL : Z := 22.

(** [enable_log_dirty] and [disable_log_dirty] are those of the paging mode
    (shadow or HAP): their result and whether the domain logs dirty pages
    afterwards. *)
Definition paging_log_dirty_enable (log_mode : bool) (enable_log_dirty : Z * bool) : Z * bool :=
  if log_mode then (- EINVAL, log_mode) else enable_log_dirty.

Definition paging_log_dirty_disable (disable_log_dirty : Z * bool) (d : log_dirty) : Z * bool * log_dirty :=
  let '(ret, log_mode) := disable_log_dirty in
  (ret, log_mode, if negb log_mode then paging_free_log_dirty_bitmap d else d).

End Model.

(** ** The set of marked pages *)

(** A trie assigns every frame its place: its level and the pages below it. *)
Abbreviation places := (gmap Z (nat * Z)).

Section Trie.
Context (mfn_valid : Z -> bool) (HV : mfn_valid INVALID_MFN = false).
Abbreviation child := (child mfn_valid).

Definition root (t : Z) : option Z := if mfn_valid t then Some t else None.

(** The leaf of a page, if the trie has it. *)
Definition walk (h : heap) (t p : Z) : option Z :=
  child h (child h (child h (root t) (L4_LOGDIRTY_IDX p)) (L3_LOGDIRTY_IDX p)) (L2_LOGDIRTY_IDX p).

Definition marked (h : heap) (t p : Z) : bool :=
  match walk h t p with Some m => Z.testbit (leaf_bits h m) (L1_LOGDIRTY_IDX p) | None => false end.

(** The pages the indices distinguish. *)
Definition page_ok (p : Z) : Prop := 0 <= p < 2 ^ 42.

Record wf (h : heap) (t : Z) (pos : places) : Prop := {
  wf_top : mfn_valid t = true -> pos !! t = Some (3%nat, 0);
  wf_node : forall m l q, pos !! m = Some (S l, q) ->
    exists es, h !! m = Some (Node es) /\ length es = Z.to_nat LOGDIRTY_NODE_ENTRIES /\
      forall i e, es !! i = Some e -> mfn_valid e = true -> pos !! e = Some (l, q * LOGDIRTY_NODE_ENTRIES + Z.of_nat i);
  wf_leaf : forall m q, pos !! m = Some (0%nat, q) -> exists b, h !! m = Some (Leaf b)
}.

Lemma child_Some h m i c : child h (Some m) i = Some c <-> c = entry h m i /\ mfn_valid c = true.
Proof.
  unfold LogDirty.child. cbn [mbind option_bind]. destruct (mfn_valid (entry h m i)) eqn:E.
  - split; [by intros [= <-]|by intros [-> _]].
  - split; [done|]. intros [-> ?]. congruence.
Qed.

Lemma child_None h i : child h None i = None.
Proof. done. Qed.

Lemma wf_child h t pos m l q i c :
  wf h t pos -> pos !! m = Some (S l, q) -> child h (Some m) i = Some c -> 0 <= i ->
  pos !! c = Some (l, q * LOGDIRTY_NODE_ENTRIES + i).
Proof.
  intros W Hm [-> Hv]%child_Some Hi. destruct (wf_node _ _ _ W m l q Hm) as (es & Hes & _ & Hp).
  unfold entry in *. rewrite Hes in *. destruct (es !! Z.to_nat i) as [e|] eqn:E; cbn in *; [|congruence].
  rewrite (Hp _ _ E Hv). do 2 f_equal. lia.
Qed.

(** *** Indices *)

Lemma low_bits x n : 0 <= n -> x .& ((1 .<< n) - 1) = x mod 2 ^ n.
Proof. intros Hn. rewrite Z.shiftl_1_l. change (2 ^ n - 1) with (Z.pred (2 ^ n)). rewrite <- Z.ones_equiv. by apply Z.land_ones. Qed.

Lemma idx1 p : L1_LOGDIRTY_IDX p = p mod 2 ^ 15.
Proof. apply low_bits. lia. Qed.

Lemma idx_of p n : 0 <= n -> (p .>> n) .& (LOGDIRTY_NODE_ENTRIES - 1) = (p / 2 ^ n) mod 2 ^ 9.
Proof. intros Hn. rewrite Z.shiftr_div_pow2 by done. apply (low_bits _ 9). lia. Qed.

Lemma idx2 p : L2_LOGDIRTY_IDX p = (p / 2 ^ 15) mod 2 ^ 9.
Proof. by apply (idx_of p 15). Qed.
Lemma idx3 p : L3_LOGDIRTY_IDX p = (p / 2 ^ 24) mod 2 ^ 9.
Proof. by apply (idx_of p 24). Qed.
Lemma idx4 p : L4_LOGDIRTY_IDX p = (p / 2 ^ 33) mod 2 ^ 9.
Proof. by apply (idx_of p 33). Qed.

Lemma idx_range p :
  0 <= L1_LOGDIRTY_IDX p < 2 ^ 15 /\ 0 <= L2_LOGDIRTY_IDX p < 512 /\ 0 <= L3_LOGDIRTY_IDX p < 512 /\ 0 <= L4_LOGDIRTY_IDX p < 512.
Proof. rewrite idx1, idx2, idx3, idx4. split_and!; apply Z.mod_pos_bound; lia. Qed.

(** The indices put together. *)
Lemma idx_join p :
  page_ok p -> (L4_LOGDIRTY_IDX p * 512 + L3_LOGDIRTY_IDX p) * 512 + L2_LOGDIRTY_IDX p = p / 2 ^ 15.
Proof.
  intros Hp. unfold page_ok in Hp. rewrite idx2, idx3, idx4. change (2 ^ 9) with 512.
  assert (p / 2 ^ 24 = p / 2 ^ 15 / 512) as -> by (by rewrite Z.div_div).
  assert (p / 2 ^ 33 = p / 2 ^ 15 / 512 / 512) as -> by (by rewrite !Z.div_div).
  assert (0 <= p / 2 ^ 15 < 2 ^ 27) by (split; [apply Z.div_pos; lia|apply Z.div_lt_upper_bound; lia]).
  set (x := p / 2 ^ 15) in *. clearbody x. clear Hp.
  pose proof (Z.div_mod x 512 ltac:(lia)). pose proof (Z.div_mod (x / 512) 512 ltac:(lia)).
  pose proof (Z.mod_pos_bound x 512 ltac:(lia)). pose proof (Z.mod_pos_bound (x / 512) 512 ltac:(lia)).
  rewrite (Z.mod_small (x / 512 / 512)) by lia. lia.
Qed.

Lemma wf_walk h t pos p m :
  wf h t pos -> page_ok p -> walk h t p = Some m -> pos !! m = Some (0%nat, p / 2 ^ 15).
Proof.
  intros W Hp. pose proof (idx_range p) as (_ & H2 & H3 & H4). unfold walk, root.
  destruct (mfn_valid t) eqn:Ht; [|done].
  pose proof (wf_top _ _ _ W Ht) as Hpt.
  destruct (child h (Some t) (L4_LOGDIRTY_IDX p)) as [m3|] eqn:E4; [|done].
  pose proof (wf_child _ _ _ _ _ _ _ _ W Hpt E4 ltac:(lia)) as Hp3.
  destruct (child h (Some m3) (L3_LOGDIRTY_IDX p)) as [m2|] eqn:E3; [|done].
  pose proof (wf_child _ _ _ _ _ _ _ _ W Hp3 E3 ltac:(lia)) as Hp2.
  intros E2. rewrite (wf_child _ _ _ _ _ _ _ _ W Hp2 E2 ltac:(lia)).
  change LOGDIRTY_NODE_ENTRIES with 512. rewrite <- (idx_join p Hp). done.
Qed.

(** ** Growing the trie *)

(** From one trie to another with at most the frame [new] added: places and
    ways down are kept and no mark changes. *)
Record grows (new : Z) (h : heap) (t : Z) (pos : places) (h' : heap) (t' : Z) (pos' : places) : Prop := {
  gr_wf : wf h' t' pos';
  gr_pos : pos ⊆ pos';
  gr_new : forall m, is_Some (pos' !! m) -> is_Some (pos !! m) \/ m = new;
  gr_dom : forall m, h !! m = None -> m <> new -> h' !! m = None;
  gr_child : forall x j c, is_Some (pos !! x) -> child h (Some x) j = Some c -> child h' (Some x) j = Some c;
  gr_marked : forall p, marked h' t' p = marked h t p
}.

Lemma grows_refl new h t pos : wf h t pos -> grows new h t pos h t pos.
Proof. intros W. split; auto. Qed.

Lemma grows_trans new h1 t1 pos1 h2 t2 pos2 h3 t3 pos3 :
  grows new h1 t1 pos1 h2 t2 pos2 -> grows new h2 t2 pos2 h3 t3 pos3 -> grows new h1 t1 pos1 h3 t3 pos3.
Proof.
  intros G1 G2. split.
  - apply G2.
  - etrans; [apply G1|apply G2].
  - intros m Hm. destruct (gr_new _ _ _ _ _ _ _ G2 m Hm) as [H|]; [|by right]. by apply (gr_new _ _ _ _ _ _ _ G1).
  - intros m Hm Hne. apply (gr_dom _ _ _ _ _ _ _ G2); [|done]. by apply (gr_dom _ _ _ _ _ _ _ G1).
  - intros x j c Hx Hc. apply (gr_child _ _ _ _ _ _ _ G2); [|by apply (gr_child _ _ _ _ _ _ _ G1)].
    destruct Hx as [y Hx]. exists y. eapply lookup_weaken; [done|apply G1].
  - intros p. rewrite (gr_marked _ _ _ _ _ _ _ G2). apply G1.
Qed.

(** Frames on the way to a leaf have a place. *)
Lemma walk_places h t pos p :
  wf h t pos ->
  (forall m, root t = Some m -> is_Some (pos !! m)) /\
  (forall m, child h (root t) (L4_LOGDIRTY_IDX p) = Some m -> is_Some (pos !! m)) /\
  (forall m, child h (child h (root t) (L4_LOGDIRTY_IDX p)) (L3_LOGDIRTY_IDX p) = Some m -> is_Some (pos !! m)) /\
  (forall m, walk h t p = Some m -> is_Some (pos !! m)).
Proof.
  intros W. pose proof (idx_range p) as (_ & H2 & H3 & H4). unfold walk, root.
  destruct (mfn_valid t) eqn:Ht; [|by split_and!].
  pose proof (wf_top _ _ _ W Ht) as Hpt. split; [intros m [= <-]; eauto|].
  destruct (child h (Some t) (L4_LOGDIRTY_IDX p)) as [m3|] eqn:E4; [|by split_and!].
  pose proof (wf_child _ _ _ _ _ _ _ _ W Hpt E4 ltac:(lia)) as Hp3. split; [intros m [= <-]; eauto|].
  destruct (child h (Some m3) (L3_LOGDIRTY_IDX p)) as [m2|] eqn:E3; [|by split_and!].
  pose proof (wf_child _ _ _ _ _ _ _ _ W Hp3 E3 ltac:(lia)) as Hp2. split; [intros m [= <-]; eauto|].
  intros m E2. rewrite (wf_child _ _ _ _ _ _ _ _ W Hp2 E2 ltac:(lia)). eauto.
Qed.

(** One entry that led nowhere now leads to an empty frame, or still nowhere:
    no mark changes. *)
Lemma marked_entry h h' t pos m i e new p :
  wf h t pos -> mfn_valid (entry h m i) = false ->
  (mfn_valid e = true -> e = new) -> pos !! new = None ->
  (forall x j, x <> new -> 0 <= j -> entry h' x j = if decide (x = m /\ j = i) then e else entry h x j) ->
  (forall j, entry h' new j = INVALID_MFN \/ mfn_valid e = false) ->
  (forall x, x <> new -> leaf_bits h' x = leaf_bits h x) ->
  (leaf_bits h' new = 0 \/ mfn_valid e = false) ->
  marked h' t p = marked h t p.
Proof.
  intros W Hinv He Hnew Hent Hentn Hleaf Hleafn.
  pose proof (idx_range p) as (_ & H2 & H3 & H4).
  destruct (walk_places h t pos p W) as (P1 & P2 & P3 & P4).
  assert (forall x j, 0 <= j -> x <> new ->
            (child h' (Some x) j = child h (Some x) j) \/ (child h (Some x) j = None /\ child h' (Some x) j = Some new /\ mfn_valid e = true)) as Hc.
  { intros x j Hj Hx. unfold LogDirty.child. cbn [mbind option_bind]. rewrite Hent by done.
    destruct (decide (x = m /\ j = i)) as [[-> ->]|]; [|by left]. rewrite Hinv.
    destruct (mfn_valid e) eqn:Ve; [|by left]. right. by rewrite (He eq_refl). }
  assert (mfn_valid e = true -> forall j, child h' (Some new) j = None) as Hn.
  { intros Ve j. unfold LogDirty.child. cbn [mbind option_bind]. destruct (Hentn j) as [->|]; [by rewrite HV|congruence]. }
  assert (forall x, is_Some (pos !! x) -> x <> new) as Hne by (intros x [? Hx] ->; congruence).
  unfold marked, walk in *. destruct (root t) as [x4|]; [|done].
  destruct (Hc x4 _ (proj1 H4) (Hne _ (P1 _ eq_refl))) as [->|(E & -> & Ve)]; [|by rewrite E, !Hn].
  destruct (child h (Some x4) (L4_LOGDIRTY_IDX p)) as [x3|]; [|done].
  destruct (Hc x3 _ (proj1 H3) (Hne _ (P2 _ eq_refl))) as [->|(E & -> & Ve)]; [|by rewrite E, !Hn].
  destruct (child h (Some x3) (L3_LOGDIRTY_IDX p)) as [x2|]; [|done].
  destruct (Hc x2 _ (proj1 H2) (Hne _ (P3 _ eq_refl))) as [->|(E & -> & Ve)].
  - destruct (child h (Some x2) (L2_LOGDIRTY_IDX p)) as [x1|]; [|done]. by rewrite Hleaf by (by apply Hne, P4).
  - rewrite E. destruct Hleafn as [->|]; [|congruence]. apply Z.bits_0.
Qed.

Definition level_init (l : nat) : frame := match l with O => empty_leaf | S _ => empty_node end.

Lemma level_init_entry h l new j : h !! new = Some (level_init l) -> entry h new j = INVALID_MFN.
Proof.
  intros E. unfold entry. rewrite E. destruct l; cbn; [done|].
  destruct (replicate _ _ !! Z.to_nat j) as [e|] eqn:R; [|done]. by apply lookup_replicate in R as [-> _].
Qed.

Lemma level_init_leaf h l new : h !! new = Some (level_init l) -> leaf_bits h new = 0.
Proof. intros E. unfold leaf_bits. rewrite E. by destruct l. Qed.

(** What a write to an entry does to the entries and the leaves. *)
Lemma set_entry_lookup h m es i v x :
  h !! m = Some (Node es) -> set_entry h m i v !! x = if decide (x = m) then Some (Node (<[Z.to_nat i := v]> es)) else h !! x.
Proof.
  intros E. unfold set_entry. rewrite E. case_decide; [subst; apply lookup_insert_eq|by apply lookup_insert_ne].
Qed.

Lemma set_entry_entry h m es i v x j :
  h !! m = Some (Node es) -> (Z.to_nat i < length es)%nat -> 0 <= i -> 0 <= j ->
  entry (set_entry h m i v) x j = if decide (x = m /\ j = i) then v else entry h x j.
Proof.
  intros E Hi Hi0 Hj. unfold entry at 1. rewrite (set_entry_lookup h m es) by done.
  destruct (decide (x = m)) as [->|Hx]; [|rewrite decide_False by tauto; done].
  destruct (decide (j = i)) as [->|Hji].
  - rewrite list_lookup_insert_eq by done. rewrite decide_True by done. done.
  - rewrite list_lookup_insert_ne by lia. rewrite decide_False by tauto. unfold entry. by rewrite E.
Qed.

Lemma set_entry_leaf h m es i v x : h !! m = Some (Node es) -> leaf_bits (set_entry h m i v) x = leaf_bits h x.
Proof.
  intros E. unfold leaf_bits. rewrite (set_entry_lookup h m es) by done.
  destruct (decide (x = m)) as [->|]; [by rewrite E|done].
Qed.

(** A fresh frame is entered below [m]. *)
Lemma grows_entry h t pos m l q i new :
  wf h t pos -> pos !! m = Some (S l, q) -> 0 <= i < LOGDIRTY_NODE_ENTRIES -> mfn_valid (entry h m i) = false ->
  mfn_valid new = true -> pos !! new = None ->
  let h' := set_entry (<[new := level_init l]> h) m i new in
  let pos' := <[new := (l, q * LOGDIRTY_NODE_ENTRIES + i)]> pos in
  grows new h t pos h' t pos' /\ child h' (Some m) i = Some new.
Proof.
  intros W Hm Hi Hinv Vnew Hnew h' pos'.
  destruct (wf_node _ _ _ W m l q Hm) as (es & Hes & Hlen & Hp).
  assert (m <> new) as Hmn by (intros ->; congruence).
  assert (<[new := level_init l]> h !! m = Some (Node es)) as Hes1 by (by rewrite lookup_insert_ne).
  assert (Z.to_nat i < length es)%nat as Hil by lia.
  assert (forall x, h' !! x = if decide (x = m) then Some (Node (<[Z.to_nat i := new]> es))
                              else if decide (x = new) then Some (level_init l) else h !! x) as Hl'.
  { intros x. unfold h'. rewrite (set_entry_lookup _ m es) by done. case_decide; [done|].
    case_decide; [subst; by apply lookup_insert_eq|by apply lookup_insert_ne]. }
  assert (h' !! new = Some (level_init l)) as Hn' by (rewrite Hl', decide_False, decide_True; done).
  assert (forall x j, x <> new -> 0 <= j -> entry h' x j = if decide (x = m /\ j = i) then new else entry h x j) as Hent.
  { intros x j Hx Hj. unfold h'. rewrite (set_entry_entry _ m es) by (done || lia). case_decide; [done|].
    unfold entry. by rewrite lookup_insert_ne. }
  assert (forall e, is_Some (pos !! e) -> e <> new) as Hne by (intros e [? He] ->; congruence).
  assert (pos ⊆ pos') as Hsub by (by apply insert_subseteq).
  split.
  - split.
    + split.
      * intros Ht. pose proof (wf_top _ _ _ W Ht). eapply lookup_weaken; done.
      * intros x l' q' Hx. rewrite Hl'. destruct (decide (x = m)) as [->|Hxm].
        { assert (pos !! m = Some (S l', q')) as Hx0 by (unfold pos' in Hx; by rewrite lookup_insert_ne in Hx).
          assert (l' = l /\ q' = q) as [-> ->] by (split; congruence).
          eexists. split; [done|]. rewrite length_insert. split; [done|]. intros j e He Ve.
          apply list_lookup_insert_Some in He as [(<- & <- & _)|[Hji He]].
          - unfold pos'. rewrite lookup_insert_eq. do 2 f_equal. lia.
          - eapply lookup_weaken; [|done]. by apply Hp. }
        destruct (decide (x = new)) as [->|Hxn].
        { unfold pos' in Hx. rewrite lookup_insert_eq in Hx. injection Hx as -> <-. cbn [level_init].
          eexists. split; [done|]. rewrite length_replicate. split; [done|]. intros j e He Ve.
          apply lookup_replicate in He as [-> _]. congruence. }
        unfold pos' in Hx. rewrite lookup_insert_ne in Hx by done.
        destruct (wf_node _ _ _ W x l' q' Hx) as (es' & He' & Hl'' & Hp'). exists es'. split; [done|]. split; [done|].
        intros j e He Ve. eapply lookup_weaken; [|done]. by apply Hp'.
      * intros x q' Hx. rewrite Hl'. destruct (decide (x = new)) as [->|Hxn].
        { unfold pos' in Hx. rewrite lookup_insert_eq in Hx. injection Hx as -> _.
          rewrite decide_False by done. cbn. eauto. }
        unfold pos' in Hx. rewrite lookup_insert_ne in Hx by done.
        rewrite decide_False by congruence. by apply (wf_leaf _ _ _ W x q').
    + done.
    + intros x Hx. unfold pos' in Hx. destruct (decide (x = new)); [by right|left]. by rewrite lookup_insert_ne in Hx.
    + intros x Hx Hxn. rewrite Hl'. rewrite decide_False by congruence. by rewrite decide_False.
    + intros x j c Hx [-> Hv]%child_Some. apply child_Some. destruct (decide (0 <= j)) as [Hj|Hj].
      * rewrite Hent by auto. rewrite decide_False; [done|]. intros [-> ->]. congruence.
      * assert (entry h' x j = entry h' x 0 /\ entry h x j = entry h x 0) as [-> E0]
          by (unfold entry; replace (Z.to_nat j) with (Z.to_nat 0) by lia; done).
        rewrite E0 in *. rewrite Hent by (auto; lia). rewrite decide_False; [done|]. intros [-> <-]. congruence.
    + intros p. apply (marked_entry h h' t pos m i new new p); auto.
      * intros j. left. by eapply level_init_entry.
      * intros x Hx. unfold h'. rewrite (set_entry_leaf _ m es) by done. unfold leaf_bits. by rewrite lookup_insert_ne.
      * left. by eapply level_init_leaf.
  - apply child_Some. split; [|done]. rewrite Hent by (done || lia). by rewrite decide_True.
Qed.

(** An entry that led nowhere is overwritten by another that leads nowhere. *)
Lemma grows_invalid new h t pos m l q i e :
  wf h t pos -> pos !! m = Some (S l, q) -> 0 <= i < LOGDIRTY_NODE_ENTRIES -> mfn_valid (entry h m i) = false ->
  mfn_valid e = false -> grows new h t pos (set_entry h m i e) t pos.
Proof.
  intros W Hm Hi Hinv Ve.
  destruct (wf_node _ _ _ W m l q Hm) as (es & Hes & Hlen & Hp).
  assert (Z.to_nat i < length es)%nat as Hil by lia.
  assert (forall x j, 0 <= j -> entry (set_entry h m i e) x j = if decide (x = m /\ j = i) then e else entry h x j) as Hent
    by (intros x j Hj; by apply (set_entry_entry h m es); lia || done).
  split.
  - split; [apply W| |].
    + intros x l' q' Hx. rewrite (set_entry_lookup h m es) by done. destruct (decide (x = m)) as [->|]; [|by apply (wf_node _ _ _ W)].
      assert (l' = l /\ q' = q) as [-> ->] by (split; congruence).
      eexists. split; [done|]. rewrite length_insert. split; [done|]. intros j e' He Ve'.
      apply list_lookup_insert_Some in He as [(_ & <- & _)|[_ He]]; [congruence|by apply Hp].
    + intros x q' Hx. rewrite (set_entry_lookup h m es) by done. rewrite decide_False by congruence. by apply (wf_leaf _ _ _ W x q').
  - done.
  - by left.
  - intros x Hx _. rewrite (set_entry_lookup h m es) by done. by rewrite decide_False by congruence.
  - intros x j c Hx [-> Hv]%child_Some. apply child_Some. destruct (decide (0 <= j)) as [Hj|Hj].
    + rewrite Hent by done. rewrite decide_False; [done|]. intros [-> ->]. congruence.
    + assert (forall g, entry g x j = entry g x 0) as E0 by (intros g; unfold entry; by replace (Z.to_nat j) with (Z.to_nat 0) by lia).
      rewrite !E0 in *. rewrite Hent by lia. rewrite decide_False; [done|]. intros [-> <-]. congruence.
  - intros p. apply (marked_entry h _ t pos m i e (fresh (dom pos)) p); auto.
    + congruence.
    + apply not_elem_of_dom, is_fresh.
    + intros x _. by apply (set_entry_leaf h m es).
Qed.

Definition init_of (l : nat) : Z -> heap -> option Z * heap :=
  match l with O => paging_new_log_dirty_leaf mfn_valid | S _ => paging_new_log_dirty_node mfn_valid end.

Lemma init_of_spec l m h :
  init_of l m h = if mfn_valid m then (Some m, <[m := level_init l]> h) else (None, h).
Proof. by destruct l. Qed.

(** One level down. *)
Lemma descend_spec new new0 h t pos m l q i c new1 h1 :
  wf h t pos -> pos !! m = Some (S l, q) -> 0 <= i < LOGDIRTY_NODE_ENTRIES ->
  (mfn_valid new0 = true -> new0 = new /\ pos !! new = None) ->
  descend mfn_valid (init_of l) m i new0 h = (c, new1, h1) ->
  exists pos1, grows new h t pos h1 t pos1 /\
    (mfn_valid new1 = true -> new1 = new /\ pos1 !! new = None) /\
    (mfn_valid new1 = true -> mfn_valid new0 = true /\ h1 = h) /\
    (mfn_valid new0 = true -> mfn_valid new1 = false -> child h (Some m) i = None) /\
    match c with
    | Some c => child h1 (Some m) i = Some c /\ pos1 !! c = Some (l, q * LOGDIRTY_NODE_ENTRIES + i)
    | None => mfn_valid new0 = false /\ child h1 (Some m) i = None
    end.
Proof.
  intros W Hm Hi Hnew. unfold descend. destruct (mfn_valid (entry h m i)) eqn:Hinv; cbn [negb].
  - intros [= <- <- <-]. exists pos. split; [by apply grows_refl|]. split; [done|]. split; [done|]. split; [congruence|].
    assert (child h (Some m) i = Some (entry h m i)) as Hc by (by apply child_Some). split; [done|].
    by apply (wf_child _ _ _ _ _ _ _ _ W Hm Hc); lia.
  - rewrite init_of_spec. destruct (mfn_valid new0) eqn:Vn; intros [= <- <- <-].
    + destruct (Hnew eq_refl) as [-> Hn].
      destruct (grows_entry h t pos m l q i new W Hm Hi Hinv Vn Hn) as [G Hc].
      eexists. split; [exact G|]. split; [congruence|]. split; [congruence|].
      split; [|split; [done|by rewrite lookup_insert_eq]]. intros _ _. unfold LogDirty.child. cbn. by rewrite Hinv.
    + exists pos. split; [by eapply grows_invalid|]. split; [congruence|]. split; [congruence|]. split; [congruence|].
      split; [done|]. destruct (wf_node _ _ _ W m l q Hm) as (es & Hes & Hlen & _). unfold LogDirty.child. cbn [mbind option_bind].
      rewrite (set_entry_entry h m es) by (done || lia). rewrite decide_True by done. by rewrite Vn.
Qed.

(** The first frame becomes the top. *)
Lemma grows_top h t pos new :
  wf h t pos -> mfn_valid t = false -> mfn_valid new = true -> pos !! new = None ->
  grows new h t pos (<[new := empty_node]> h) new (<[new := (3%nat, 0)]> pos).
Proof.
  intros W Ht Vn Hn. set (h' := <[new := empty_node]> h).
  assert (h' !! new = Some (level_init 1)) as Hnew by apply lookup_insert_eq.
  assert (forall x, is_Some (pos !! x) -> x <> new) as Hne by (intros x [? Hx] ->; congruence).
  assert (pos ⊆ <[new := (3%nat, 0)]> pos) as Hsub by (by apply insert_subseteq).
  split; [| done | | | |].
  - split.
    + intros _. apply lookup_insert_eq.
    + intros x l q Hx. destruct (decide (x = new)) as [->|Hxn].
      * exists (replicate (Z.to_nat LOGDIRTY_NODE_ENTRIES) INVALID_MFN). split; [done|]. rewrite length_replicate.
        split; [done|]. intros j e He Ve. apply lookup_replicate in He as [-> _]. congruence.
      * rewrite lookup_insert_ne in Hx by done. unfold h'. rewrite lookup_insert_ne by done.
        destruct (wf_node _ _ _ W x l q Hx) as (es & He & Hl & Hp). exists es. split; [done|]. split; [done|].
        intros j e Hj Ve. eapply lookup_weaken; [|done]. by apply Hp.
    + intros x q Hx. destruct (decide (x = new)) as [->|Hxn]; [by rewrite lookup_insert_eq in Hx|].
      rewrite lookup_insert_ne in Hx by done. unfold h'. rewrite lookup_insert_ne by done. by apply (wf_leaf _ _ _ W x q).
  - intros x Hx. destruct (decide (x = new)); [by right|left]. by rewrite lookup_insert_ne in Hx.
  - intros x Hx Hxn. unfold h'. by rewrite lookup_insert_ne.
  - intros x j c Hx. rewrite !child_Some. unfold entry, h'. by rewrite lookup_insert_ne by (by apply not_eq_sym, Hne).
  - intros p. unfold marked, walk, root. rewrite Ht, Vn. cbn [LogDirty.child mbind option_bind].
    rewrite (level_init_entry h' 1) by done. rewrite HV. done.
Qed.

(** How far the trie reaches towards a page. *)
Definition depth (h : heap) (t p : Z) : nat :=
  match root t with
  | None => 0
  | Some m4 =>
      match child h (Some m4) (L4_LOGDIRTY_IDX p) with
      | None => 1
      | Some m3 =>
          match child h (Some m3) (L3_LOGDIRTY_IDX p) with
          | None => 2
          | Some m2 => match child h (Some m2) (L2_LOGDIRTY_IDX p) with None => 3 | Some _ => 4 end
          end
      end
  end.

(** Writing a leaf changes no way down. *)
Lemma leaf_write h t pos m c b :
  wf h t pos -> pos !! m = Some (0%nat, c) ->
  let h' := <[m := Leaf b]> h in
  wf h' t pos /\ (forall x j, entry h' x j = entry h x j) /\ (forall q, walk h' t q = walk h t q) /\
  (forall x, h !! x = None -> h' !! x = None) /\ (forall x, leaf_bits h' x = if decide (x = m) then b else leaf_bits h x).
Proof.
  intros W Hpos h'. destruct (wf_leaf _ _ _ W m _ Hpos) as [b0 Hb].
  assert (forall x, x <> m -> h' !! x = h !! x) as Hother by (intros x Hx; by apply lookup_insert_ne).
  assert (h' !! m = Some (Leaf b)) as Hm' by apply lookup_insert_eq.
  assert (forall x j, entry h' x j = entry h x j) as Hent.
  { intros x j. unfold entry. destruct (decide (x = m)) as [->|]; [by rewrite Hm', Hb|by rewrite Hother]. }
  split_and!; [|done| | |].
  - split; [apply W| |].
    + intros x l q Hx. rewrite Hother by congruence. by apply (wf_node _ _ _ W).
    + intros x q Hx. destruct (decide (x = m)) as [->|]; [eauto|]. rewrite Hother by done. by apply (wf_leaf _ _ _ W x q).
  - assert (forall o j, child h' o j = child h o j) as Hc by (intros [x|] j; [unfold LogDirty.child; cbn; by rewrite Hent|done]).
    intros q. unfold walk. by rewrite !Hc.
  - intros x Hx. rewrite Hother by congruence. done.
  - intros x. unfold leaf_bits. case_decide as E; [by rewrite E, Hm'|by rewrite Hother].
Qed.

(** Setting the bit of a page in its leaf. *)
Lemma mark_leaf h t pos p m :
  wf h t pos -> page_ok p -> walk h t p = Some m ->
  let h' := <[m := Leaf (Z.setbit (leaf_bits h m) (L1_LOGDIRTY_IDX p))]> h in
  wf h' t pos /\ (forall x, h !! x = None -> h' !! x = None) /\
  (forall q, page_ok q -> marked h' t q = (q =? p) || marked h t q).
Proof.
  intros W Hp Hm h'. pose proof (wf_walk h t pos p m W Hp Hm) as Hpos.
  destruct (leaf_write h t pos m _ (Z.setbit (leaf_bits h m) (L1_LOGDIRTY_IDX p)) W Hpos) as (W' & _ & Hwalk & Hdom & Hlf).
  fold h' in W', Hwalk, Hdom, Hlf. split; [done|]. split; [done|].
  intros q Hq. unfold marked. rewrite Hwalk. destruct (Z.eqb_spec q p) as [->|Hqp].
  - rewrite Hm, Hlf, decide_True by done. apply Z.setbit_eq. apply (idx_range p).
  - cbn [orb]. destruct (walk h t q) as [x|] eqn:Ex; [|done]. rewrite Hlf. case_decide as E; [subst x|done].
    rewrite Z.setbit_neq; [done|apply (idx_range p)|].
    pose proof (wf_walk h t pos q m W Hq Ex) as Hpos'. rewrite !idx1. intros E. apply Hqp.
    pose proof (Z.div_mod q (2 ^ 15) ltac:(lia)). pose proof (Z.div_mod p (2 ^ 15) ltac:(lia)).
    assert (q / 2 ^ 15 = p / 2 ^ 15) by congruence. lia.
Qed.

(** ** A round under the lock *)

(** In the middle of a round that has found [k] frames on the way: [new0] is
    the frame still at hand. *)
Record stage (p new : Z) (d : log_dirty) (pos : places) (k : nat) (new0 : Z) (h : heap) (t : Z) (pos' : places) : Prop := {
  sg_grows : grows new (mem d) (top d) pos h t pos';
  sg_new : mfn_valid new0 = true -> new0 = new /\ pos' !! new = None;
  sg_same : mfn_valid new0 = true -> h = mem d /\ t = top d;
  sg_used : mfn_valid new = true -> mfn_valid new0 = false -> (depth (mem d) (top d) p < k)%nat
}.

Lemma stage_down p new d pos k new0 h t pos' m l q i c new1 h1 :
  stage p new d pos k new0 h t pos' -> pos' !! m = Some (S l, q) -> 0 <= i < LOGDIRTY_NODE_ENTRIES ->
  (h = mem d -> t = top d -> child h (Some m) i = None -> depth (mem d) (top d) p = k) ->
  descend mfn_valid (init_of l) m i new0 h = (c, new1, h1) ->
  exists pos1, grows new h t pos' h1 t pos1 /\
    match c with
    | Some c => stage p new d pos (S k) new1 h1 t pos1 /\ child h1 (Some m) i = Some c /\
                pos1 !! c = Some (l, q * LOGDIRTY_NODE_ENTRIES + i)
    | None => stage p new d pos k new1 h1 t pos1 /\ mfn_valid new1 = false /\ child h1 (Some m) i = None
    end.
Proof.
  intros [G Hn Hs Hu] Hm Hi Hd E.
  destruct (descend_spec new new0 h t pos' m l q i c new1 h1 (gr_wf _ _ _ _ _ _ _ G) Hm Hi Hn E)
    as (pos1 & G1 & Hn1 & Hs1 & Hc1 & Hc). exists pos1. split; [done|].
  assert (mfn_valid new = true -> mfn_valid new1 = false -> (depth (mem d) (top d) p < S k)%nat) as Hu1.
  { intros Vn Vn1. destruct (mfn_valid new0) eqn:V0; [|specialize (Hu Vn eq_refl); lia].
    destruct (Hs eq_refl) as [-> ->]. rewrite (Hd eq_refl eq_refl (Hc1 eq_refl Vn1)). lia. }
  assert (mfn_valid new1 = true -> h1 = mem d /\ t = top d) as Hsame.
  { intros Vn1. destruct (Hs1 Vn1) as [V0 ->]. by apply Hs. }
  destruct c as [c|].
  - split; [|done]. split; [by eapply grows_trans|done|done|done].
  - destruct Hc as [V0 Hc]. split; [split; [by eapply grows_trans|done|done|]; intros Vn _; by apply Hu|].
    split; [|done]. destruct (mfn_valid new1) eqn:V1; [|done]. destruct (Hs1 eq_refl). congruence.
Qed.

(** What a round does. *)
Record round (pos : places) (p new : Z) (d : log_dirty) (r : Z + unit) (d' : log_dirty) (pos' : places) : Prop := {
  rd_wf : wf (mem d') (top d') pos';
  rd_pos : pos ⊆ pos';
  rd_new : forall m, is_Some (pos' !! m) -> is_Some (pos !! m) \/ m = new;
  rd_dom : forall m, mem d !! m = None -> m <> new -> mem d' !! m = None;
  rd_allocs : allocs d' = allocs d;
  rd_failed : failed_allocs d' = failed_allocs d;
  rd_result : match r with
    | inl left_over => (forall q, page_ok q -> marked (mem d') (top d') q = (q =? p) || marked (mem d) (top d) q) /\
        (mfn_valid left_over = true -> left_over = new /\ pos' !! new = None /\ (mem d !! new = None -> mem d' !! new = None))
    | inr _ => (forall q, marked (mem d') (top d') q = marked (mem d) (top d) q) /\
        (depth (mem d') (top d') p < 4)%nat /\
        (mfn_valid new = true -> (depth (mem d) (top d) p < depth (mem d') (top d') p)%nat)
    end
}.

Lemma stage_missing p new d pos k new0 h t pos' d' :
  stage p new d pos k new0 h t pos' -> mfn_valid new0 = false -> depth h t p = k -> (k < 4)%nat ->
  mem d' = h -> top d' = t -> allocs d' = allocs d -> failed_allocs d' = failed_allocs d ->
  round pos p new d (inr tt) d' pos'.
Proof.
  intros [G _ _ Hu] V0 Hk H4 Hh Ht Ha Hf. subst h t. split; try done; try apply G.
  split; [apply G|]. split; [lia|]. intros Vn. rewrite Hk. by apply Hu.
Qed.

Lemma attempt_top pos p new d :
  wf (mem d) (top d) pos -> (mfn_valid new = true -> pos !! new = None) ->
  exists d1 pos1 new0,
    (if mfn_valid (top d) then (Some (top d), new, d)
     else let '(l4, h) := paging_new_log_dirty_node mfn_valid new (mem d) in (l4, INVALID_MFN, with_top (with_mem d h) new)) =
    (root (top d1), new0, d1) /\
    allocs d1 = allocs d /\ failed_allocs d1 = failed_allocs d /\ fault_count d1 = fault_count d /\
    dirty_count d1 = dirty_count d /\
    match root (top d1) with
    | Some _ => stage p new d pos 1 new0 (mem d1) (top d1) pos1
    | None => stage p new d pos 0 new0 (mem d1) (top d1) pos1 /\ mfn_valid new0 = false
    end.
Proof.
  intros W Hn. unfold root at 1. destruct (mfn_valid (top d)) eqn:Vt.
  - exists d, pos, new. unfold root. rewrite Vt. split_and!; try done. split; [by apply grows_refl|auto|done|congruence].
  - unfold paging_new_log_dirty_node. destruct (mfn_valid new) eqn:Vn.
    + exists (with_top (with_mem d (<[new := empty_node]> (mem d))) new), (<[new := (3%nat, 0)]> pos), INVALID_MFN.
      cbn [top with_top mem with_mem]. unfold root. rewrite Vn. split_and!; try done.
      split; [by apply grows_top; auto|congruence|congruence|]. intros _ _. unfold depth, root. rewrite Vt. lia.
    + exists (with_top (with_mem d (mem d)) new), pos, INVALID_MFN.
      cbn [top with_top mem with_mem]. unfold root. rewrite Vn. split_and!; try done.
      split; [|congruence|congruence|congruence]. split; try done; auto.
      * split; [congruence|apply W|apply W].
      * intros q. unfold marked, walk, root. by rewrite Vt, Vn.
Qed.

(** The round ends because a frame is missing below the [k] frames found. *)
Ltac missing E S pos rw :=
  injection E as <- <-; let V := fresh "V" in let C := fresh "C" in
  destruct S as (S & V & C); exists pos; eapply stage_missing; try done; [unfold depth; rw C|lia].

Lemma attempt_spec pos p new d r d' :
  wf (mem d) (top d) pos -> page_ok p -> (mfn_valid new = true -> pos !! new = None) ->
  attempt mfn_valid p new d = (r, d') -> exists pos', round pos p new d r d' pos'.
Proof.
  intros W Hp Hn E. pose proof (idx_range p) as (_ & I2 & I3 & I4).
  destruct (attempt_top pos p new d W Hn) as (d1 & pos1 & new0 & E0 & Ha & Hf & Hfc & Hdc & S0).
  unfold attempt in E. rewrite E0 in E. clear E0.
  destruct (root (top d1)) as [m4|] eqn:R; [|injection E as <- <-; destruct S0 as [S0 V0]; exists pos1;
    eapply stage_missing; try done; [unfold depth; by rewrite R|lia]].
  assert (m4 = top d1 /\ mfn_valid (top d1) = true) as [-> Vt] by (unfold root in R; destruct (mfn_valid (top d1)); naive_solver).
  pose proof (wf_top _ _ _ (gr_wf _ _ _ _ _ _ _ (sg_grows _ _ _ _ _ _ _ _ _ S0)) Vt) as P4.
  destruct (descend mfn_valid (paging_new_log_dirty_node mfn_valid) (top d1) _ new0 (mem d1)) as [[c3 new1] h1] eqn:D4.
  destruct (stage_down _ _ _ _ _ _ _ _ _ (top d1) 2 0 (L4_LOGDIRTY_IDX p) c3 new1 h1 S0 P4 I4) as (pos2 & G1 & S1);
    [intros <- <- C; unfold depth; by rewrite R, C|done|].
  destruct c3 as [m3|]; [|missing E S1 pos2 ltac:(fun C => by rewrite R, C)].
  destruct S1 as (S1 & C4 & P3).
  destruct (descend mfn_valid (paging_new_log_dirty_node mfn_valid) m3 _ new1 h1) as [[c2 new2] h2] eqn:D3.
  destruct (stage_down _ _ _ _ _ _ _ _ _ m3 1 _ (L3_LOGDIRTY_IDX p) c2 new2 h2 S1 P3 I3) as (pos3 & G2 & S2);
    [intros Eh Et C; unfold depth; by rewrite <- Et, R, <- Eh, C4, C|done|].
  assert (child h2 (Some (top d1)) (L4_LOGDIRTY_IDX p) = Some m3) as C4'
    by (apply (gr_child _ _ _ _ _ _ _ G2); [|done]; eexists; eapply lookup_weaken; [exact P4|apply G1]).
  destruct c2 as [m2|]; [|missing E S2 pos3 ltac:(fun C => by rewrite R, C4', C)].
  destruct S2 as (S2 & C3 & P2).
  destruct (descend mfn_valid (paging_new_log_dirty_leaf mfn_valid) m2 _ new2 h2) as [[c1 new3] h3] eqn:D2.
  destruct (stage_down _ _ _ _ _ _ _ _ _ m2 0 _ (L2_LOGDIRTY_IDX p) c1 new3 h3 S2 P2 I2) as (pos4 & G3 & S3);
    [intros Eh Et C; unfold depth; by rewrite <- Et, R, <- Eh, C4', C3, C|done|].
  assert (child h3 (Some (top d1)) (L4_LOGDIRTY_IDX p) = Some m3) as C4''.
  { apply (gr_child _ _ _ _ _ _ _ G3); [|done]. eexists. eapply lookup_weaken; [exact P4|].
    etrans; [apply G1|apply G2]. }
  assert (child h3 (Some m3) (L3_LOGDIRTY_IDX p) = Some m2) as C3'
    by (apply (gr_child _ _ _ _ _ _ _ G3); [|done]; eexists; eapply lookup_weaken; [exact P3|apply G2]).
  destruct c1 as [m1|]; [|missing E S3 pos4 ltac:(fun C => by rewrite R, C4'', C3', C)].
  destruct S3 as ([G Hnew Hsame _] & C2 & P1). injection E as <- <-. exists pos4.
  assert (walk h3 (top d1) p = Some m1) as Hw by (unfold walk; by rewrite R, C4'', C3').
  destruct (mark_leaf h3 (top d1) pos4 p m1 (gr_wf _ _ _ _ _ _ _ G) Hp Hw) as (W' & Hdom & Hmk).
  split; try done; try apply G.
  - intros m Hm Hne. apply Hdom. by apply (gr_dom _ _ _ _ _ _ _ G).
  - cbn [mem top]. split; [intros q Hq; rewrite (Hmk q Hq); by rewrite (gr_marked _ _ _ _ _ _ _ G)|].
    intros V3. destruct (Hnew V3), (Hsame V3) as [Eh _]. split; [done|]. split; [done|]. rewrite <- Eh at 1. apply Hdom.
Qed.

(** ** Marking a page, with allocations *)

Lemma wf_mem h t pos m : wf h t pos -> h !! m = None -> pos !! m = None.
Proof.
  intros W Hm. destruct (pos !! m) as [[[|l] q]|] eqn:E; [| |done].
  - destruct (wf_leaf _ _ _ W m q E). congruence.
  - destruct (wf_node _ _ _ W m l q E) as (? & ? & _). congruence.
Qed.

(** A frame that is not part of the trie can go. *)
Lemma wf_delete h t pos m :
  wf h t pos -> pos !! m = None -> wf (delete m h) t pos /\ forall p, marked (delete m h) t p = marked h t p.
Proof.
  intros W Hm. assert (forall x, is_Some (pos !! x) -> delete m h !! x = h !! x) as Hx
    by (intros x [? Hx]; apply lookup_delete_ne; intros ->; congruence).
  split.
  - split; [apply W| |].
    + intros x l q Hp. rewrite Hx by eauto. by apply (wf_node _ _ _ W).
    + intros x q Hp. rewrite Hx by eauto. by apply (wf_leaf _ _ _ W x q).
  - intros p. destruct (walk_places h t pos p W) as (P1 & P2 & P3 & P4).
    assert (forall o j, (forall x, o = Some x -> is_Some (pos !! x)) -> child (delete m h) o j = child h o j) as Hc.
    { intros [x|] j Ho; [|done]. unfold LogDirty.child, entry. cbn. by rewrite Hx by auto. }
    unfold marked. assert (walk (delete m h) t p = walk h t p) as ->.
    { unfold walk. rewrite (Hc (root t)) by done. rewrite (Hc (child h (root t) _)) by done. by rewrite Hc. }
    destruct (walk h t p) as [x|]; [|done]. unfold leaf_bits. by rewrite Hx by auto.
Qed.

(** The answers of the allocator: frames that nobody uses. *)
Definition fresh_pages (h : heap) (pages : list (option Z)) : Prop :=
  NoDup (omap id pages) /\ Forall (fun m => mfn_valid m = true /\ h !! m = None) (omap id pages).

Lemma mark_loop_spec pages : forall pos p new d d',
  wf (mem d) (top d) pos -> page_ok p -> fresh_pages (mem d) pages ->
  (mfn_valid new = true -> mem d !! new = None /\ new ∉ omap id pages) ->
  mark_loop mfn_valid pages p new d = Some d' ->
  exists pos', wf (mem d') (top d') pos' /\
    ((failed_allocs d' = failed_allocs d /\
      forall q, page_ok q -> marked (mem d') (top d') q = (q =? p) || marked (mem d) (top d) q) \/
     (failed_allocs d' = u32 (failed_allocs d + 1) /\ None ∈ pages /\
      forall q, marked (mem d') (top d') q = marked (mem d) (top d) q)).
Proof.
  induction pages as [|page pages IH]; intros pos p new d d' W Hp [Hnd Hf] Hn E; cbn [mark_loop] in E;
    destruct (attempt mfn_valid p new d) as [r d1] eqn:Ea;
    (destruct (attempt_spec pos p new d r d1 W Hp) as (pos1 & [W1 Hs1 Hn1 Hd1 Ha1 Hf1 Hr]);
      [intros Vn; apply (wf_mem _ _ _ _ W); by apply Hn|done|]);
    destruct r as [lo|[]].
  - exists pos1. destruct Hr as [Hmk Hlo]. injection E as <-.
    destruct (mfn_valid lo); [|split; [done|by left]].
    destruct (Hlo eq_refl) as (-> & Hnp & _). destruct (wf_delete _ _ _ new W1 Hnp) as [W2 Hm2].
    split; [done|]. left. split; [done|]. intros q Hq. cbn [mem top paging_free_log_dirty_page]. rewrite Hm2. by apply Hmk.
  - done.
  - exists pos1. destruct Hr as [Hmk Hlo]. injection E as <-.
    destruct (mfn_valid lo); [|split; [done|by left]].
    destruct (Hlo eq_refl) as (-> & Hnp & _). destruct (wf_delete _ _ _ new W1 Hnp) as [W2 Hm2].
    split; [done|]. left. split; [done|]. intros q Hq. cbn [mem top paging_free_log_dirty_page]. rewrite Hm2. by apply Hmk.
  - destruct Hr as [Hmk _]. destruct page as [m|]; cbn [paging_new_log_dirty_page] in E.
    + cbn [omap list_omap id] in Hnd, Hf. apply NoDup_cons in Hnd as [Hni Hnd]. apply Forall_cons in Hf as [[Vm Hm] Hf].
      rewrite Vm in E. cbn [negb] in E. eapply (IH pos1) in E; cbn [mem top failed_allocs] in *; try done.
      * destruct E as (pos' & W' & HE). exists pos'. split; [done|]. rewrite <- Hf1.
        destruct HE as [[HE1 HE2]|(HE1 & HE2 & HE3)]; [left|right].
        { split; [done|]. intros q Hq. rewrite (HE2 q Hq). by rewrite Hmk. }
        split; [done|]. split; [by constructor|]. intros q. by rewrite HE3.
      * split; [done|]. apply Forall_forall. intros x Hx. rewrite Forall_forall in Hf. destruct (Hf x Hx) as [Vx Hx0].
        split; [done|]. apply Hd1; [done|]. intros ->. destruct (Hn Vx) as [_ Hnx]. apply Hnx. cbn. by right.
      * intros _. split; [|done]. apply Hd1; [done|]. intros ->. destruct (Hn Vm) as [_ Hnx]. apply Hnx. cbn. by left.
    + rewrite HV in E. cbn [negb] in E. injection E as <-. cbn [mem top failed_allocs]. exists pos1. split; [done|].
      right. rewrite Hf1. split; [done|]. split; [by left|done].
Qed.

(** Every round that finds a frame missing brings the trie a level closer, so
    that four frames are enough. *)
Lemma mark_loop_ends pages : forall pos p new d,
  wf (mem d) (top d) pos -> page_ok p -> fresh_pages (mem d) pages ->
  (mfn_valid new = true -> mem d !! new = None /\ new ∉ omap id pages) ->
  (4 <= length pages \/ mfn_valid new = true /\ 3 <= length pages + depth (mem d) (top d) p)%nat ->
  exists d', mark_loop mfn_valid pages p new d = Some d'.
Proof.
  induction pages as [|page pages IH]; intros pos p new d W Hp [Hnd Hf] Hn Hlen; cbn [mark_loop];
    destruct (attempt mfn_valid p new d) as [r d1] eqn:Ea;
    (destruct (attempt_spec pos p new d r d1 W Hp) as (pos1 & [W1 Hs1 Hn1 Hd1 Ha1 Hf1 Hr]);
      [intros Vn; apply (wf_mem _ _ _ _ W); by apply Hn|done|]);
    destruct r as [lo|[]]; [by eexists| |by eexists|]; destruct Hr as (Hmk & H4 & Hd).
  - exfalso. cbn [length] in Hlen. destruct Hlen as [?|[Vn ?]]; [lia|]. specialize (Hd Vn). lia.
  - destruct page as [m|]; cbn [paging_new_log_dirty_page]; [|rewrite HV; by eexists].
    cbn [omap list_omap id] in Hnd, Hf. apply NoDup_cons in Hnd as [Hni Hnd]. apply Forall_cons in Hf as [[Vm Hm] Hf].
    rewrite Vm. cbn [negb]. apply (IH pos1); cbn [mem top]; try done.
    + split; [done|]. apply Forall_forall. intros x Hx. rewrite Forall_forall in Hf. destruct (Hf x Hx) as [Vx Hx0].
      split; [done|]. apply Hd1; [done|]. intros ->. destruct (Hn Vx) as [_ Hnx]. apply Hnx. cbn. by right.
    + intros _. split; [|done]. apply Hd1; [done|]. intros ->. destruct (Hn Vm) as [_ Hnx]. apply Hnx. cbn. by left.
    + right. split; [done|]. cbn [length] in Hlen. destruct Hlen as [?|[Vn ?]]; [lia|]. specialize (Hd Vn). lia.
Qed.

(** Page numbers below 2^42 are neither shared nor outside the guest. *)
Lemma m2p_page p : page_ok p -> SHARED_M2P p = false /\ VALID_M2P p = true.
Proof.
  intros Hp. unfold page_ok in Hp. split.
  - unfold SHARED_M2P, SHARED_M2P_ENTRY. apply Z.eqb_neq. lia.
  - unfold VALID_M2P. replace (p .& (1 .<< 63)) with 0; [done|]. symmetry. apply Z.bits_inj'. intros i Hi.
    rewrite Z.land_spec, Z.bits_0, testbit_pow2 by lia. destruct (Z.eqb_spec i 63) as [->|]; [|apply andb_false_r].
    by rewrite (testbit_high p 42).
Qed.

(** [paging_mfn_is_dirty] looks the page up. *)
Lemma is_dirty_marked gpfn gmfn d :
  page_ok (gpfn gmfn) -> paging_mfn_is_dirty mfn_valid gpfn gmfn d = marked (mem d) (top d) (gpfn gmfn).
Proof.
  intros Hp. unfold paging_mfn_is_dirty. set (p := gpfn gmfn) in *.
  destruct (m2p_page p Hp) as [-> ->]. cbn [orb negb]. unfold marked, walk, root, LogDirty.child.
  destruct (mfn_valid (top d)); cbn [negb mbind option_bind]; [|done].
  destruct (mfn_valid (entry (mem d) (top d) _)); cbn [negb mbind option_bind]; [|done].
  destruct (mfn_valid (entry (mem d) _ (L3_LOGDIRTY_IDX p))); cbn [negb mbind option_bind]; [|done].
  by destruct (mfn_valid (entry (mem d) _ (L2_LOGDIRTY_IDX p))).
Qed.

(** A log without frames. *)
Definition empty_log : log_dirty := LogDirty ∅ INVALID_MFN 0 0 0 0.

Lemma empty_wf : wf ∅ INVALID_MFN ∅.
Proof. split; [intros V; by rewrite HV in V|by intros ??? ?|by intros ?? ?]. Qed.

End Trie.

(** ** Claim *)

(** C8. Marking a page in a well-formed log, with frames from the allocator
    that are not in use, takes at most four allocations: the call ends, the
    log stays well-formed, and either exactly the page of the frame is now
    dirty besides those that were, or an allocation failed, the failure is
    counted and no page's state changed. *)
Theorem mark_dirty_or_reports mfn_valid pos pages owned gpfn gmfn d :
  mfn_valid INVALID_MFN = false -> wf mfn_valid (mem d) (top d) pos ->
  mfn_valid gmfn = true -> owned gmfn = true -> page_ok (gpfn gmfn) ->
  fresh_pages mfn_valid (mem d) pages -> (4 <= length pages)%nat ->
  exists d' pos', paging_mark_dirty mfn_valid true owned gpfn pages gmfn d = Some d' /\
    wf mfn_valid (mem d') (top d') pos' /\
    ((failed_allocs d' = failed_allocs d /\
      forall x, page_ok (gpfn x) ->
        paging_mfn_is_dirty mfn_valid gpfn x d' = (gpfn x =? gpfn gmfn) || paging_mfn_is_dirty mfn_valid gpfn x d) \/
     (failed_allocs d' = u32 (failed_allocs d + 1) /\ None ∈ pages /\
      forall x, page_ok (gpfn x) -> paging_mfn_is_dirty mfn_valid gpfn x d' = paging_mfn_is_dirty mfn_valid gpfn x d)).
Proof.
  intros HV W Vm Ho Hp Hf Hlen. unfold paging_mark_dirty. rewrite Vm, Ho. cbn [negb orb].
  destruct (m2p_page _ Hp) as [-> ->]. cbn [negb].
  assert (mfn_valid INVALID_MFN = true -> mem d !! INVALID_MFN = None /\ INVALID_MFN ∉ omap id pages) as Hn by congruence.
  destruct (mark_loop_ends mfn_valid HV pages pos (gpfn gmfn) INVALID_MFN d W Hp Hf Hn (or_introl Hlen)) as [d' E].
  destruct (mark_loop_spec mfn_valid HV pages pos _ _ _ _ W Hp Hf Hn E) as (pos' & W' & [[H1 H2]|(H1 & H2 & H3)]);
    exists d', pos'; (split; [done|]; split; [done|]); [left|right].
  - split; [done|]. intros x Hx. rewrite !is_dirty_marked by done. by apply H2.
  - split; [done|]. split; [done|]. intros x Hx. by rewrite !is_dirty_marked, H3.
Qed.

Definition demo_valid (m : Z) : bool := (0 <=? m) && (m <? 1000).
Definition demo_frames : list (option Z) := Some <$> [10; 20; 30; 40].
Definition demo_log : log_dirty := default empty_log (mark_loop demo_valid demo_frames 5 INVALID_MFN empty_log).

Lemma demo_fresh : fresh_pages demo_valid ∅ demo_frames.
Proof. split; [repeat constructor; set_solver|repeat constructor; done]. Qed.

Lemma mark_dirty_or_reports_witness :
  exists d' pos', paging_mark_dirty demo_valid true (fun _ => true) (fun m => m) demo_frames 5 empty_log = Some d' /\
    wf demo_valid (mem d') (top d') pos' /\
    ((failed_allocs d' = 0 /\
      forall x, page_ok x -> paging_mfn_is_dirty demo_valid (fun m => m) x d' =
        (x =? 5) || paging_mfn_is_dirty demo_valid (fun m => m) x empty_log) \/
     (failed_allocs d' = u32 (0 + 1) /\ None ∈ demo_frames /\
      forall x, page_ok x -> paging_mfn_is_dirty demo_valid (fun m => m) x d' =
        paging_mfn_is_dirty demo_valid (fun m => m) x empty_log)).
Proof.
  apply (mark_dirty_or_reports demo_valid ∅ demo_frames (fun _ => true) (fun m => m) 5 empty_log);
    [done|by apply empty_wf|done|done|unfold page_ok; lia|apply demo_fresh|cbn; lia].
Defined.

End LogDirty.
