(* ===== verification/LogScan.v ===== *)
(** Reading the log of dirty pages, and the log as the tools see it.

    Proofs about [LogDirty]: the three nested loops of [paging_log_dirty_op]
    are one loop over the leaves; what a scan copies out and clears; and the
    refinement of a log used by several processors at once, with rounds of
    [paging_mark_dirty] interleaved, to the set of pages marked since the last
    clean. *)

From S2P Require Import Prelude LogDirty.

Module LogScan.
Import LogDirty.

(** ** Loops *)

Section Loops.
Context {A : Type} (cond : A -> bool).

Lemma for_loop_stop n i f s : cond s = false -> for_loop n i cond f s = s.
Proof. intros E. destruct n; cbn; [done|by rewrite E]. Qed.

Lemma for_loop_app a b i f s :
  for_loop (a + b) i cond f s = for_loop b (i + Z.of_nat a) cond f (for_loop a i cond f s).
Proof.
  revert i s. induction a as [|a IH]; intros i s; cbn [Nat.add for_loop]; [by rewrite Z.add_0_r|].
  destruct (cond s) eqn:E; [|by rewrite for_loop_stop].
  rewrite IH. f_equal. lia.
Qed.

Lemma for_loop_shift n k i f s : for_loop n i cond (fun j => f (k + j)) s = for_loop n (k + i) cond f s.
Proof.
  revert i s. induction n as [|n IH]; intros i s; cbn [for_loop]; [done|].
  rewrite IH. by rewrite Z.add_assoc.
Qed.

(** A loop whose body is a loop over a block is a loop over all the blocks. *)
Lemma for_loop_nest n m i f s :
  for_loop n i cond (fun i => for_loop m (i * Z.of_nat m) cond f) s = for_loop (n * m) (i * Z.of_nat m) cond f s.
Proof.
  revert i s. induction n as [|n IH]; intros i s; cbn [for_loop Nat.mul]; [done|].
  rewrite for_loop_app, IH. destruct (cond s) eqn:E; [f_equal; lia|]. by rewrite !(for_loop_stop _ _ _ s E).
Qed.

Lemma for_loop_ext (P : A -> Prop) n i f g s :
  (forall j s, i <= j < i + Z.of_nat n -> P s -> f j s = g j s /\ P (g j s)) -> P s ->
  for_loop n i cond f s = for_loop n i cond g s /\ P (for_loop n i cond g s).
Proof.
  revert i s. induction n as [|n IH]; intros i s Hb Hs; cbn [for_loop]; [done|].
  destruct (cond s); [|done]. destruct (Hb i s ltac:(lia) Hs) as [-> Hg]. apply IH; [|done].
  intros j x Hj. apply Hb. lia.
Qed.
End Loops.

(** ** The loop over the leaves *)

(** The bit of a page in the bitmap copied out. *)
Definition out_bit (out : list Z) (q : Z) : bool := Z.testbit (default 0 (out !! Z.to_nat (q / 8))) (q mod 8).

Lemma le_bytes_bit n v q :
  0 <= q < 8 * Z.of_nat n -> out_bit (le_bytes n v) q = Z.testbit v q.
Proof.
  Transparent le_bytes.
  unfold out_bit. revert v q. induction n as [|n IH]; intros v q Hq; [lia|]. cbn [le_bytes].
  destruct (decide (q < 8)) as [Hlt|Hge].
  - rewrite (Z.div_small q 8), (Z.mod_small q 8) by lia.
    change (Z.testbit (v mod 2 ^ 8) q = Z.testbit v q). rewrite Z.mod_pow2_bits_low by lia. done.
  - specialize (IH (v / 256) (q - 8) ltac:(lia)).
    replace (q / 8) with (1 + (q - 8) / 8) by zlia. replace (q mod 8) with ((q - 8) mod 8) by zlia.
    rewrite Z2Nat.inj_add by zlia. change (Z.to_nat 1 + Z.to_nat ((q - 8) / 8))%nat with (S (Z.to_nat ((q - 8) / 8))).
    rewrite lookup_cons, IH.
    change 256 with (2 ^ 8). rewrite Z.div_pow2_bits by lia. f_equal. lia.
  Opaque le_bytes.
Qed.

Lemma out_bit_app out1 out2 n q :
  Z.of_nat (length out1) = n -> 0 <= q ->
  out_bit (out1 ++ out2) q = if q <? 8 * n then out_bit out1 q else out_bit out2 (q - 8 * n).
Proof.
  intros Hn Hq. unfold out_bit. destruct (Z.ltb_spec q (8 * n)).
  - rewrite lookup_app_l; [done|zlia].
  - rewrite lookup_app_r by zlia. replace (q mod 8) with ((q - 8 * n) mod 8) by zlia. do 3 f_equal. zlia.
Qed.

Section Scan.
Context (mfn_valid : Z -> bool) (HV : mfn_valid INVALID_MFN = false).
Context (sc_pages : Z) (peek clean : bool) (copy_ok : Z -> bool).
Abbreviation child := (child mfn_valid).
Abbreviation root := (root mfn_valid).
Abbreviation walk := (walk mfn_valid).
Abbreviation marked := (marked mfn_valid).
Abbreviation wf := (wf mfn_valid).
Abbreviation cond := (op_cond sc_pages).

(** The body of the innermost loop for the leaf number [c]. *)
Definition leaf_body (c : Z) (s : op_state) : op_state :=
  let h := mem (o_log s) in
  op_leaf mfn_valid sc_pages peek clean copy_ok
    (child h (child h (root (top (o_log s))) (c / 512 / 512)) (c / 512 mod 512)) (c mod 512) s.

(** The ways down of the log at the start. *)
Record same_ways (pos : places) (h0 : heap) (t : Z) (s : op_state) : Prop := {
  sw_top : top (o_log s) = t;
  sw_wf : wf (mem (o_log s)) t pos;
  sw_entry : forall x j, entry (mem (o_log s)) x j = entry h0 x j
}.

Lemma sw_child pos h0 t s o j : same_ways pos h0 t s -> child (mem (o_log s)) o j = child h0 o j.
Proof. intros S. destruct o as [x|]; [|done]. unfold LogDirty.child. cbn. by rewrite (sw_entry _ _ _ _ S). Qed.

(** The leaf the body visits is the one of the pages it stands for. *)
Lemma leaf_way h t c :
  0 <= c < 2 ^ 27 -> child h (child h (child h (root t) (c / 512 / 512)) (c / 512 mod 512)) (c mod 512) = walk h t (c * 2 ^ 15).
Proof.
  intros Hc. unfold LogDirty.walk. rewrite idx2, idx3, idx4. change (2 ^ 9) with 512.
  replace (c * 2 ^ 15 / 2 ^ 15) with c by (by rewrite Z.div_mul).
  replace (c * 2 ^ 15 / 2 ^ 24) with (c / 512) by zlia.
  replace (c * 2 ^ 15 / 2 ^ 33) with (c / 512 / 512) by zlia.
  rewrite (Z.mod_small (c / 512 / 512)) by zlia. done.
Qed.

Lemma walk_chunk h t q c : c = q / 2 ^ 15 -> walk h t q = walk h t (c * 2 ^ 15).
Proof.
  intros ->. unfold LogDirty.walk. rewrite !idx2, !idx3, !idx4. rewrite Z.div_mul by lia.
  replace (q / 2 ^ 15 * 2 ^ 15 / 2 ^ 24) with (q / 2 ^ 24) by zlia.
  replace (q / 2 ^ 15 * 2 ^ 15 / 2 ^ 33) with (q / 2 ^ 33) by zlia. done.
Qed.

(** The leaf of a visit, with its place. *)
Lemma leaf_place h t pos c m :
  wf h t pos -> 0 <= c < 2 ^ 27 -> walk h t (c * 2 ^ 15) = Some m -> pos !! m = Some (0%nat, c).
Proof.
  intros W Hc Hw. rewrite (wf_walk mfn_valid HV h t pos (c * 2 ^ 15) m W); [by rewrite Z.div_mul| |done].
  unfold page_ok. lia.
Qed.

Lemma leaf_body_ways pos h0 t c s :
  0 <= c < 2 ^ 27 -> same_ways pos h0 t s -> same_ways pos h0 t (leaf_body c s).
Proof.
  intros Hc [Ht W He]. unfold leaf_body, op_leaf. rewrite Ht, leaf_way by done.
  destruct (peek && negb (copy_ok (o_pages s .>> 3))); [by split|].
  destruct (walk (mem (o_log s)) t (c * 2 ^ 15)) as [m|] eqn:Hw; [destruct clean|]; [|by split..].
  pose proof (leaf_place _ _ _ _ _ W Hc Hw) as Hp.
  destruct (leaf_write mfn_valid _ t pos m c 0 W Hp) as (W' & He' & _). split; [done|done|].
  intros x j. cbn [o_log with_mem mem]. change empty_leaf with (Leaf 0). by rewrite He'.
Qed.

(** The three loops are one. *)
Lemma op_loops_flat pos s :
  wf (mem (o_log s)) (top (o_log s)) pos ->
  op_loops mfn_valid sc_pages peek clean copy_ok s =
    for_loop (Z.to_nat 512 * Z.to_nat 512 * Z.to_nat 512) 0 cond leaf_body s.
Proof.
  intros W. set (h0 := mem (o_log s)) in *. set (t := top (o_log s)) in *.
  assert (same_ways pos h0 t s) as S0 by done. unfold op_loops. fold t. change LOGDIRTY_NODE_ENTRIES with 512.
  assert (forall i4 i3 x, 0 <= i4 < 512 -> 0 <= i3 < 512 -> same_ways pos h0 t x ->
    op_l2 mfn_valid sc_pages peek clean copy_ok (child h0 (root t) i4) i3 x =
      for_loop (Z.to_nat 512) ((i4 * 512 + i3) * 512) cond leaf_body x /\
    same_ways pos h0 t (for_loop (Z.to_nat 512) ((i4 * 512 + i3) * 512) cond leaf_body x)) as H2.
  { intros i4 i3 x H4 H3 Sx. unfold op_l2. rewrite (sw_child _ _ _ _ _ _ Sx). change LOGDIRTY_NODE_ENTRIES with 512.
    rewrite <- (Z.add_0_r ((i4 * 512 + i3) * 512)), <- for_loop_shift.
    apply (for_loop_ext _ (same_ways pos h0 t)); [|done]. intros i2 y Hi2 Sy. rewrite Z2Nat.id in Hi2 by lia.
    split; [|apply leaf_body_ways; [lia|done]].
    unfold leaf_body. rewrite (sw_top _ _ _ _ Sy), !(sw_child _ _ _ _ _ _ Sy).
    replace (((i4 * 512 + i3) * 512 + i2) / 512) with (i4 * 512 + i3) by zlia.
    replace ((i4 * 512 + i3) / 512) with i4 by zlia. replace ((i4 * 512 + i3) mod 512) with i3 by zlia.
    replace (((i4 * 512 + i3) * 512 + i2) mod 512) with i2 by zlia. done. }
  assert (forall i4 x, 0 <= i4 < 512 -> same_ways pos h0 t x ->
    op_l3 mfn_valid sc_pages peek clean copy_ok (root t) i4 x =
      for_loop (Z.to_nat 512 * Z.to_nat 512) (i4 * 512 * 512) cond leaf_body x /\
    same_ways pos h0 t (for_loop (Z.to_nat 512 * Z.to_nat 512) (i4 * 512 * 512) cond leaf_body x)) as H3.
  { intros i4 x H4 Sx. unfold op_l3. rewrite (sw_child _ _ _ _ _ _ Sx). change LOGDIRTY_NODE_ENTRIES with 512.
    pose proof (for_loop_nest cond (Z.to_nat 512) (Z.to_nat 512) (i4 * 512) leaf_body x) as Hn.
    rewrite !Z2Nat.id in Hn by lia. rewrite <- Hn. clear Hn.
    rewrite <- (Z.add_0_r (i4 * 512)). rewrite <- (for_loop_shift _ _ (i4 * 512) 0).
    apply (for_loop_ext _ (same_ways pos h0 t)); [|done]. intros i3 y Hi3. rewrite Z2Nat.id in Hi3 by lia. by apply H2. }
  pose proof (for_loop_nest cond (Z.to_nat 512) (Z.to_nat 512 * Z.to_nat 512) 0 leaf_body s) as Hn.
  rewrite Nat.mul_assoc in Hn. rewrite Z.mul_0_l in Hn. rewrite <- Hn. clear Hn.
  change (if mfn_valid t then Some t else None) with (root t).
  apply (for_loop_ext _ (same_ways pos h0 t)); [|done]. intros i4 y Hi4 Sy. rewrite Z2Nat.id in Hi4 by lia.
  rewrite Nat2Z.inj_mul, Z2Nat.id, Z.mul_assoc by lia. by apply H3.
Qed.

(** ** What a scan does *)

(** The bytes of the bitmap covered by [k] leaves. *)
Definition covered (k : Z) : Z := Z.min (k * 4096) ((sc_pages + 7) / 8).

(** A scan that has visited [k] leaves of the log [d0]. *)
Record scanned (pos : places) (d0 : log_dirty) (k : Z) (s : op_state) : Prop := {
  sc_ways : same_ways pos (mem d0) (top d0) s;
  sc_log : o_log s = with_mem d0 (mem (o_log s));
  sc_dom : forall x, mem d0 !! x = None -> mem (o_log s) !! x = None;
  sc_count : o_pages s = 8 * covered k;
  sc_marks : forall q, page_ok q ->
    marked (mem (o_log s)) (top d0) q = marked (mem d0) (top d0) q && negb (clean && (q <? k * 2 ^ 15));
  sc_len : Z.of_nat (length (o_out s)) = if peek then covered k else 0;
  sc_out : peek = true -> forall q, 0 <= q < 8 * covered k -> out_bit (o_out s) q = marked (mem d0) (top d0) q
}.

(** The bits of the leaf number [c] are the marks of its pages. *)
Lemma leaf_marks h t q c :
  c = q / 2 ^ 15 ->
  marked h t q = Z.testbit (match walk h t (c * 2 ^ 15) with Some m => leaf_bits h m | None => 0 end) (q - c * 2 ^ 15).
Proof.
  intros Hc. unfold LogDirty.marked. rewrite (walk_chunk h t q c Hc), idx1.
  replace (q mod 2 ^ 15) with (q - c * 2 ^ 15) by zlia.
  destruct (walk h t (c * 2 ^ 15)); [done|]. by rewrite Z.bits_0.
Qed.

(** Clearing a leaf unmarks its pages and no others. *)
Lemma clear_leaf h t pos c m :
  wf h t pos -> 0 <= c < 2 ^ 27 -> walk h t (c * 2 ^ 15) = Some m ->
  let h' := <[m := empty_leaf]> h in
  wf h' t pos /\ (forall x, h !! x = None -> h' !! x = None) /\
  forall q, page_ok q -> marked h' t q = marked h t q && negb (q / 2 ^ 15 =? c).
Proof.
  intros W Hc Hw h'. pose proof (leaf_place _ _ _ _ _ W Hc Hw) as Hp.
  destruct (leaf_write mfn_valid h t pos m c 0 W Hp) as (W' & _ & Hwalk & Hdom & Hl). fold empty_leaf in *. fold h' in W', Hwalk, Hdom, Hl.
  split; [done|]. split; [done|]. intros q Hq. unfold LogDirty.marked. rewrite Hwalk.
  destruct (Z.eqb_spec (q / 2 ^ 15) c) as [E|E]; cbn [negb]; [rewrite andb_false_r|rewrite andb_true_r].
  - rewrite (walk_chunk h t q c) by done. rewrite Hw, Hl, decide_True by done. apply Z.bits_0.
  - destruct (walk h t q) as [x|] eqn:Ex; [|done]. rewrite Hl. case_decide as Ey; [|done]. subst x.
    rewrite (wf_walk mfn_valid HV h t pos q m W Hq Ex) in Hp. congruence.
Qed.

(** One leaf: copied and, in a clean, cleared; or the copy fails and nothing
    of it changes. *)
Lemma leaf_body_scanned pos d0 k s :
  0 <= k < 2 ^ 27 -> 0 <= sc_pages -> scanned pos d0 k s -> o_pages s < sc_pages ->
  if peek && negb (copy_ok (k * 4096)) then
    scanned pos d0 k (leaf_body k s) /\ o_rv (leaf_body k s) = - EFAULT
  else scanned pos d0 (k + 1) (leaf_body k s) /\ o_rv (leaf_body k s) = o_rv s.
Proof.
  intros Hk Hsc [Sw Slog Sdom Scnt Smk Slen Sout] Hlt.
  pose proof (leaf_body_ways pos (mem d0) (top d0) k s Hk Sw) as Sw'.
  destruct Sw as [Ht W He].
  assert (covered k = k * 4096) as Ck by (unfold covered in *; zlia).
  unfold leaf_body, op_leaf in *. rewrite Ht, leaf_way in * by done.
  assert (o_pages s .>> 3 = k * 4096) as Hsh by (rewrite Z.shiftr_div_pow2 by lia; change (2 ^ 3) with 8; zlia).
  rewrite Hsh in *. destruct (peek && negb (copy_ok (k * 4096))); [by split|].
  set (m := walk (mem (o_log s)) (top d0) (k * 2 ^ 15)) in *.
  set (left := (sc_pages - o_pages s + 7) .>> 3) in *.
  set (bytes := if left <? PAGE_SIZE then left else PAGE_SIZE) in *.
  assert (bytes = covered (k + 1) - covered k /\ 0 <= bytes <= 4096) as [Hb Hb'].
  { unfold bytes, left, PAGE_SIZE. rewrite Z.shiftr_div_pow2 by lia. change (2 ^ 3) with 8.
    rewrite Scnt, Ck. unfold covered. destruct (Z.ltb_spec ((sc_pages - 8 * (k * 4096) + 7) / 8) 4096); zlia. }
  assert (forall q, 0 <= q -> k * 2 ^ 15 <= q < k * 2 ^ 15 + 2 ^ 15 ->
    marked (mem d0) (top d0) q =
    Z.testbit (match m with Some m => leaf_bits (mem (o_log s)) m | None => 0 end) (q - k * 2 ^ 15)) as Hbits.
  { intros q Hq Hr. unfold m. rewrite <- (leaf_marks _ _ q k) by zlia.
    rewrite Smk by (unfold page_ok; lia). destruct (Z.ltb_spec q (k * 2 ^ 15)); [lia|]. by rewrite andb_false_r, andb_true_r. }
  split; [|done]. split; cbn [o_log o_pages o_out with_mem mem]; [exact Sw'| | | | | |].
  - rewrite Slog. done.
  - intros x Hx. destruct m as [m1|] eqn:Em; [destruct clean|]; [|by apply Sdom..].
    destruct (clear_leaf _ _ pos k m1 W Hk Em) as (_ & Hd & _). by apply Hd, Sdom.
  - rewrite Z.shiftl_mul_pow2 by lia. change (2 ^ 3) with 8. lia.
  - intros q Hq. destruct clean; cbn [andb negb] in *.
    + destruct m as [m1|] eqn:Em.
      * destruct (clear_leaf _ _ pos k m1 W Hk Em) as (_ & _ & ->); [|done]. rewrite Smk by done. rewrite <- andb_assoc. f_equal.
        destruct (Z.ltb_spec q (k * 2 ^ 15)), (Z.ltb_spec q ((k + 1) * 2 ^ 15)), (Z.eqb_spec (q / 2 ^ 15) k); try done; zlia.
      * rewrite Smk by done. destruct (Z.ltb_spec q (k * 2 ^ 15)), (Z.ltb_spec q ((k + 1) * 2 ^ 15)); try done; try lia.
        rewrite Hbits by (unfold page_ok in Hq; lia). by rewrite Z.bits_0.
    + rewrite <- (Smk q Hq). by destruct m.
  - destruct peek; [|done]. rewrite length_app, le_bytes_length, Nat2Z.inj_add, Slen, Z2Nat.id by lia. lia.
  - intros Hpk q Hq. rewrite Hpk in *. rewrite (out_bit_app _ _ (covered k)) by (done || lia).
    destruct (Z.ltb_spec q (8 * covered k)); [apply Sout; [done|lia]|].
    rewrite le_bytes_bit by (rewrite Z2Nat.id; lia). rewrite Hbits by lia. f_equal. lia.
Qed.

(** How a scan ends: all leaves up to [sc_pages] visited, or the first copy
    that fails. *)
Definition scan_end (pos : places) (d0 : log_dirty) (k : Z) (s : op_state) : Prop :=
  scanned pos d0 k s /\
  ((o_rv s = 0 /\ sc_pages <= 8 * covered k) \/
   (o_rv s = - EFAULT /\ peek = true /\ copy_ok (k * 4096) = false /\ 8 * covered k < sc_pages)).

Lemma scan_loop pos d0 n : forall k s,
  0 <= k -> k + Z.of_nat n = 2 ^ 27 -> 0 <= sc_pages <= 2 ^ 42 -> scanned pos d0 k s -> o_rv s = 0 ->
  exists k', scan_end pos d0 k' (for_loop n k cond leaf_body s) /\ k <= k' /\
    (forall j, k <= j < k' -> peek = true -> copy_ok (j * 4096) = true) /\ (k' = k \/ (k' - 1) * 2 ^ 15 < sc_pages).
Proof.
  induction n as [|n IH]; intros k s Hk Hn Hsc S Hrv; cbn [for_loop].
  - exists k. split; [|split; [lia|split; [lia|by left]]]. split; [done|]. left. split; [done|]. unfold covered. zlia.
  - unfold op_cond at 1. rewrite Hrv. cbn [Z.eqb andb]. destruct (Z.ltb_spec (o_pages s) sc_pages) as [Hlt|Hge].
    + pose proof (leaf_body_scanned pos d0 k s ltac:(lia) ltac:(lia) S Hlt) as Hb.
      assert (k * 2 ^ 15 < sc_pages) as Hin by (rewrite (sc_count _ _ _ _ S) in Hlt; unfold covered in Hlt; zlia).
      destruct (peek && negb (copy_ok (k * 4096))) eqn:Ec; destruct Hb as [Sb Hb].
      * rewrite for_loop_stop by (unfold op_cond; by rewrite Hb). exists k.
        split; [|split; [lia|split; [lia|by left]]]. split; [done|]. right.
        apply andb_true_iff in Ec as [-> Ec%negb_true_iff]. rewrite <- (sc_count _ _ _ _ S). done.
      * destruct (IH (k + 1) _ ltac:(lia) ltac:(lia) Hsc Sb ltac:(congruence)) as (k' & He & Hkk & Hok & Hlast).
        exists k'. split; [done|]. split; [lia|]. split; [|right; destruct Hlast as [->|]; lia].
        intros j Hj Hp. destruct (decide (j = k)) as [->|]; [|apply Hok; [lia|done]].
        rewrite Hp in Ec. cbn in Ec. by apply negb_false_iff in Ec.
    + exists k. split; [|split; [lia|split; [lia|by left]]]. split; [done|]. left. rewrite <- (sc_count _ _ _ _ S). done.
Qed.

(** The start of a scan. *)
Lemma scanned_start pos d : 0 <= sc_pages -> wf (mem d) (top d) pos -> scanned pos d 0 (OpState d 0 [] 0).
Proof.
  intros Hsc W. assert (covered 0 = 0) as C0 by (unfold covered; zlia).
  split; cbn [o_log o_pages o_out length]; rewrite ?C0; try done; try lia.
  - by destruct d.
  - intros q Hq. unfold page_ok in Hq. destruct (Z.ltb_spec q (0 * 2 ^ 15)); [lia|]. by rewrite andb_false_r, andb_true_r.
  - by destruct peek.
Qed.

(** A whole operation on a log without failed allocations: the leaves visited
    ([k]), what was copied and what remains marked. *)
Record op_result (d : log_dirty) (rv n : Z) (out : list Z) (d' : log_dirty) (k : Z) : Prop := {
  or_end : (rv = 0 /\ k = (sc_pages + (2 ^ 15 - 1)) / 2 ^ 15) \/
           (rv = - EFAULT /\ peek = true /\ 0 <= k /\ k * 2 ^ 15 < sc_pages /\ copy_ok (k * 4096) = false);
  or_pages : n = sc_pages;
  or_marks : forall q, page_ok q ->
    marked (mem d') (top d') q = marked (mem d) (top d) q && negb (clean && (q <? k * 2 ^ 15));
  or_len : length out = if peek then Z.to_nat (covered k) else 0%nat;
  or_out : peek = true -> forall q, 0 <= q < Z.min (k * 2 ^ 15) sc_pages -> out_bit out q = marked (mem d) (top d) q
}.

Lemma op_spec pos d rv stats n out d' :
  wf (mem d) (top d) pos -> 0 <= sc_pages <= 2 ^ 42 -> failed_allocs d = 0 ->
  paging_log_dirty_op mfn_valid sc_pages peek clean copy_ok d = (rv, stats, n, out, d') ->
  exists k, op_result d rv n out d' k /\ wf (mem d') (top d') pos /\ failed_allocs d' = 0 /\
    (forall x, mem d !! x = None -> mem d' !! x = None).
Proof.
  intros W Hsc Hf. unfold paging_log_dirty_op.
  set (d0 := if clean then _ else d).
  assert (mem d0 = mem d /\ top d0 = top d /\ failed_allocs d0 = 0) as (Em & Et & Ef) by (unfold d0; by destruct clean).
  rewrite Ef. cbn [truthy Z.eqb negb]. rewrite (op_loops_flat pos) by (cbn [o_log]; by rewrite Em, Et).
  destruct (scan_loop pos d0 (Z.to_nat 512 * Z.to_nat 512 * Z.to_nat 512) 0 (OpState d0 0 [] 0)) as (k & [S He] & Hk & _ & Hlast);
    [lia|rewrite !Nat2Z.inj_mul, !Z2Nat.id by lia; done|done|apply scanned_start; [lia|by rewrite Em, Et]|done|].
  set (s := for_loop _ _ _ _ _) in *. clearbody s. intros [= <- <- <- <- <-].
  destruct S as [[Ht Ww _] Slog Sdom Scnt Smk Slen Sout]. rewrite Ht. rewrite Em, Et in *.
  exists k. split; [|split; [done|split; [by rewrite Slog|done]]]. split.
  - destruct He as [[-> He]|(-> & Hp & Hc & He)]; [left|right]; (split; [done|]).
    + unfold covered in He. destruct Hlast as [->|Hl]; [zlia|]. zlia.
    + split_and!; try done. unfold covered in He. zlia.
  - destruct He as [[-> He]|(-> & _)]; [|done]. rewrite Scnt. cbn [Z.eqb andb]. destruct (Z.ltb_spec (8 * covered k) sc_pages); [lia|done].
  - rewrite Ht. done.
  - destruct peek; [|destruct (o_out s); done || (cbn in Slen; lia)]. rewrite <- Slen. lia.
  - intros Hp q Hq. apply Sout; [done|]. unfold covered. zlia.
Qed.

(** A log with failed allocations is not read, and no mark changes. *)
Lemma op_failed d :
  failed_allocs d <> 0 ->
  exists stats d', paging_log_dirty_op mfn_valid sc_pages peek clean copy_ok d = (- ENOMEM, stats, sc_pages, [], d') /\
    mem d' = mem d /\ top d' = top d /\ failed_allocs d' = failed_allocs d.
Proof.
  intros Hf. unfold paging_log_dirty_op. set (d0 := if clean then _ else d).
  assert (mem d0 = mem d /\ top d0 = top d /\ failed_allocs d0 = failed_allocs d) as (Em & Et & Ef) by (unfold d0; by destruct clean).
  rewrite Ef. assert (truthy (failed_allocs d) = true) as -> by (unfold truthy; apply negb_true_iff; by apply Z.eqb_neq).
  by eexists _, d0.
Qed.

End Scan.

(** ** Several processors at once *)

(** A call of [paging_mark_dirty] in progress: about to take the lock with a
    frame at hand or without one ([INVALID_MFN]), about to allocate, or done
    and about to free the frame left over. *)
Inductive progress := Trying (new_mfn : Z) | Missing | Freeing (left_over : Z).
Record call := Call { pfn : Z; at_ : progress }.
Record system := System { log : log_dirty; calls : list call }.

(** What a step shows: a page was marked, a mark was given up, a scan with its
    arguments and its answer. *)
Inductive label :=
| Silent
| Marked (p : Z)
| Lost (p : Z)
| Scan (sc_pages : Z) (peek clean : bool) (copy_ok : Z -> bool) (rv : Z) (out : list Z).

Section System.
Context (mfn_valid : Z -> bool) (HV : mfn_valid INVALID_MFN = false).
Abbreviation wf := (wf mfn_valid).
Abbreviation marked := (marked mfn_valid).

(** The frame a call holds. *)
Definition held (c : call) : list Z :=
  match at_ c with
  | Trying m => if mfn_valid m then [m] else []
  | Missing => []
  | Freeing m => [m]
  end.
Definition all_held (cs : list call) : list Z := cs ≫= held.

Inductive lstep : system -> label -> system -> Prop :=
| st_begin d cs p :
    page_ok p -> lstep (System d cs) Silent (System d (Call p (Trying INVALID_MFN) :: cs))
| st_marked d cs1 cs2 p m left_over d' :
    attempt mfn_valid p m d = (inl left_over, d') ->
    lstep (System d (cs1 ++ Call p (Trying m) :: cs2)) (Marked p)
      (System d' (if mfn_valid left_over then cs1 ++ Call p (Freeing left_over) :: cs2 else cs1 ++ cs2))
| st_missing d cs1 cs2 p m d' :
    attempt mfn_valid p m d = (inr tt, d') ->
    lstep (System d (cs1 ++ Call p (Trying m) :: cs2)) Silent (System d' (cs1 ++ Call p Missing :: cs2))
| st_alloc d cs1 cs2 p m m' d' :
    mfn_valid m = true -> mem d !! m = None -> m ∉ all_held (cs1 ++ Call p Missing :: cs2) ->
    paging_new_log_dirty_page (Some m) d = (m', d') ->
    lstep (System d (cs1 ++ Call p Missing :: cs2)) Silent (System d' (cs1 ++ Call p (Trying m') :: cs2))
| st_lost d cs1 cs2 p m' d' :
    paging_new_log_dirty_page None d = (m', d') ->
    lstep (System d (cs1 ++ Call p Missing :: cs2)) (Lost p) (System d' (cs1 ++ cs2))
| st_free d cs1 cs2 p m :
    lstep (System d (cs1 ++ Call p (Freeing m) :: cs2)) Silent (System (paging_free_log_dirty_page m d) (cs1 ++ cs2))
| st_scan d cs sc_pages peek clean copy_ok rv stats n out d' :
    0 <= sc_pages <= 2 ^ 42 ->
    paging_log_dirty_op mfn_valid sc_pages peek clean copy_ok d = (rv, stats, n, out, d') ->
    lstep (System d cs) (Scan sc_pages peek clean copy_ok rv out) (System d' cs).

(** The reference: the set of dirty pages and the number of marks given up. *)
Record spec := Spec { dirty : gset Z; lost : nat }.

Inductive spec_step : spec -> label -> spec -> Prop :=
| sp_silent s : spec_step s Silent s
| sp_marked D n p : spec_step (Spec D n) (Marked p) (Spec ({[p]} ∪ D) n)
| sp_lost D n p : spec_step (Spec D n) (Lost p) (Spec D (S n))
| sp_scan D D' k sc_pages peek clean copy_ok rv out :
    (rv = 0 /\ k = (sc_pages + (2 ^ 15 - 1)) / 2 ^ 15 \/
     rv = - EFAULT /\ peek = true /\ 0 <= k /\ k * 2 ^ 15 < sc_pages /\ copy_ok (k * 4096) = false) ->
    (peek = true -> forall q, 0 <= q < Z.min (k * 2 ^ 15) sc_pages -> out_bit out q = bool_decide (q ∈ D)) ->
    (forall q, q ∈ D' <-> q ∈ D /\ (clean = true -> k * 2 ^ 15 <= q)) ->
    spec_step (Spec D 0) (Scan sc_pages peek clean copy_ok rv out) (Spec D' 0)
| sp_failed D n sc_pages peek clean copy_ok :
    spec_step (Spec D (S n)) (Scan sc_pages peek clean copy_ok (- ENOMEM) []) (Spec D (S n)).

Inductive runs {A} (step : A -> label -> A -> Prop) : A -> list label -> A -> Prop :=
| runs_nil a : runs step a [] a
| runs_cons a b c l ls : step a l b -> runs step b ls c -> runs step a (l :: ls) c.

Definition is_lost (l : label) : nat := match l with Lost _ => 1 | _ => 0 end.
Definition losses (ls : list label) : nat := sum_list_with is_lost ls.

(** The system stands for the reference. *)
Record stands (s : system) (a : spec) : Prop := {
  sd_wf : exists pos, wf (mem (log s)) (top (log s)) pos /\ Forall (fun m => pos !! m = None) (all_held (calls s));
  sd_lost : failed_allocs (log s) = Z.of_nat (lost a);
  sd_pages : forall q, q ∈ dirty a -> page_ok q;
  sd_dirty : forall q, page_ok q -> marked (mem (log s)) (top (log s)) q = bool_decide (q ∈ dirty a);
  sd_calls : Forall (fun c => page_ok (pfn c)) (calls s);
  sd_held : NoDup (all_held (calls s)) /\ Forall (fun m => mfn_valid m = true /\ mem (log s) !! m = None) (all_held (calls s))
}.

Lemma all_held_mid cs1 c cs2 : all_held (cs1 ++ c :: cs2) ≡ₚ held c ++ all_held (cs1 ++ cs2).
Proof. unfold all_held. rewrite !bind_app, bind_cons. by rewrite Permutation_app_swap_app. Qed.

(** A frame held by one call is held by no other. *)
Lemma held_apart cs1 c cs2 (P : Z -> Prop) :
  NoDup (all_held (cs1 ++ c :: cs2)) -> Forall P (all_held (cs1 ++ c :: cs2)) ->
  NoDup (all_held (cs1 ++ cs2)) /\ Forall P (all_held (cs1 ++ cs2)) /\ Forall P (held c) /\
  (forall m, m ∈ held c -> m ∉ all_held (cs1 ++ cs2)).
Proof.
  rewrite all_held_mid. intros (_ & Hd & Hnd)%NoDup_app Hf. apply Forall_app in Hf as [Hf1 Hf2]. done.
Qed.

Lemma calls_mid (P : call -> Prop) cs1 c cs2 : Forall P (cs1 ++ c :: cs2) <-> P c /\ Forall P (cs1 ++ cs2).
Proof. rewrite !Forall_app, Forall_cons. tauto. Qed.

(** A round keeps the frames of the other calls. *)
Lemma round_stands d cs1 p m cs2 r d' a :
  stands (System d (cs1 ++ Call p (Trying m) :: cs2)) a -> attempt mfn_valid p m d = (r, d') ->
  exists pos', wf (mem d') (top d') pos' /\ failed_allocs d' = failed_allocs d /\ page_ok p /\
    NoDup (all_held (cs1 ++ cs2)) /\
    Forall (fun x => pos' !! x = None) (all_held (cs1 ++ cs2)) /\
    Forall (fun x => mfn_valid x = true /\ mem d' !! x = None) (all_held (cs1 ++ cs2)) /\
    Forall (fun c => page_ok (pfn c)) (cs1 ++ cs2) /\
    match r with
    | inl lo => (forall q, page_ok q -> marked (mem d') (top d') q = (q =? p) || marked (mem d) (top d) q) /\
        (mfn_valid lo = true -> pos' !! lo = None /\ mem d' !! lo = None /\ lo ∉ all_held (cs1 ++ cs2))
    | inr _ => forall q, marked (mem d') (top d') q = marked (mem d) (top d) q
    end.
Proof.
  intros [[pos [W Hpos]] Hl Hpg Hd Hc [Hnd Hmem]] E. cbn [log calls] in *.
  apply calls_mid in Hc as [Hp Hc]. cbn [pfn] in Hp.
  destruct (held_apart _ _ _ _ Hnd Hpos) as (Hnd' & Hpos' & Hm1 & Hap).
  destruct (held_apart _ _ _ _ Hnd Hmem) as (_ & Hmem' & Hm2 & _).
  unfold held in Hm1, Hm2, Hap. cbn [at_] in *.
  destruct (attempt_spec mfn_valid HV pos p m d r d' W Hp) as (pos' & [W' Hs Hn Hdm Ha Hf Hr]);
    [intros Vm; rewrite Vm in Hm1; by inversion Hm1|done|].
  assert (forall x, x ∈ all_held (cs1 ++ cs2) -> mfn_valid x = true -> x <> m) as Hne.
  { intros x Hx Vx ->. rewrite Vx in Hap. apply (Hap m); [by left|done]. }
  rewrite Forall_forall in Hpos', Hmem'.
  exists pos'. split_and!; try done.
  - apply Forall_forall. intros x Hx. destruct (pos' !! x) eqn:Ex; [|done].
    destruct (Hn x) as [[? Hx']| ->]; [by eexists|rewrite (Hpos' x Hx) in Hx'; done|].
    destruct (Hmem' m Hx) as [Vm _]. by destruct (Hne m Hx Vm).
  - apply Forall_forall. intros x Hx. destruct (Hmem' x Hx) as [Vx Hx0]. split; [done|]. apply Hdm; [done|]. by apply Hne.
  - destruct r as [lo|[]]; [|apply Hr]. destruct Hr as [Hmk Hlo]. split; [done|]. intros Vlo.
    destruct (Hlo Vlo) as (-> & Hp' & Hm'). rewrite Vlo in Hm2, Hap. split; [done|]. split; [|apply Hap; by left].
    apply Hm'. by inversion Hm2 as [|?? []].
Qed.

Lemma stands_marked d cs1 cs2 p m lo d' D n :
  stands (System d (cs1 ++ Call p (Trying m) :: cs2)) (Spec D n) -> attempt mfn_valid p m d = (inl lo, d') ->
  stands (System d' (if mfn_valid lo then cs1 ++ Call p (Freeing lo) :: cs2 else cs1 ++ cs2)) (Spec ({[p]} ∪ D) n).
Proof.
  intros St E. destruct (round_stands _ _ _ _ _ _ _ _ St E) as (pos' & W & Hf & Hp & Hnd & Hpos & Hmem & Hc & Hmk & Hlo).
  destruct St as [_ Hl Hpg Hd _ _]. cbn [log calls dirty lost] in *.
  split; cbn [log calls dirty lost].
  - exists pos'. split; [done|]. destruct (mfn_valid lo); [|done]. rewrite all_held_mid. apply Forall_app. split; [|done].
    constructor; [by apply Hlo|done].
  - congruence.
  - intros q Hq. apply elem_of_union in Hq as [->%elem_of_singleton|Hq]; auto.
  - intros q Hq. rewrite Hmk, Hd by done. destruct (Z.eqb_spec q p) as [->|Hne]; cbn [orb].
    + symmetry. apply bool_decide_eq_true. set_solver.
    + apply bool_decide_ext. set_solver.
  - destruct (mfn_valid lo); [|done]. apply calls_mid. done.
  - destruct (mfn_valid lo) eqn:V; [|done]. destruct (Hlo eq_refl) as (H1 & H2 & H3). rewrite all_held_mid. cbn [held at_ app].
    split; [by constructor|]. constructor; done.
Qed.

Lemma stands_missing d cs1 cs2 p m d' a :
  stands (System d (cs1 ++ Call p (Trying m) :: cs2)) a -> attempt mfn_valid p m d = (inr tt, d') ->
  stands (System d' (cs1 ++ Call p Missing :: cs2)) a.
Proof.
  intros St E. destruct (round_stands _ _ _ _ _ _ _ _ St E) as (pos' & W & Hf & Hp & Hnd & Hpos & Hmem & Hc & Hmk).
  destruct St as [_ Hl Hpg Hd _ _]. cbn [log calls] in *.
  split; cbn [log calls]; try done.
  - exists pos'. split; [done|]. by rewrite all_held_mid.
  - congruence.
  - intros q Hq. by rewrite Hmk, Hd.
  - apply calls_mid. done.
  - rewrite all_held_mid. done.
Qed.

Lemma stands_scan d cs D n sc_pages peek clean copy_ok rv stats m out d' :
  stands (System d cs) (Spec D n) -> 0 <= sc_pages <= 2 ^ 42 ->
  paging_log_dirty_op mfn_valid sc_pages peek clean copy_ok d = (rv, stats, m, out, d') ->
  exists a, spec_step (Spec D n) (Scan sc_pages peek clean copy_ok rv out) a /\ stands (System d' cs) a.
Proof.
  intros [[pos [W Hpos]] Hl Hpg Hd Hc [Hnd Hmem]] Hsc E. cbn [log calls dirty lost] in *. destruct n as [|n].
  - destruct (op_spec mfn_valid HV sc_pages peek clean copy_ok pos d rv stats m out d' W Hsc Hl E)
      as (k & [He _ Hmk _ Ho] & W' & Hf' & Hdom).
    exists (Spec (filter (fun q => clean = true -> k * 2 ^ 15 <= q) D) 0). split.
    + apply (sp_scan D _ k); [done| |].
      * intros Hp q Hq. rewrite Ho by done. apply Hd. unfold page_ok. lia.
      * intros q. rewrite elem_of_filter. tauto.
    + split; cbn [log calls dirty lost]; try done.
      * by exists pos.
      * intros q [_ Hq]%elem_of_filter. auto.
      * intros q Hq. rewrite Hmk, Hd by done. destruct (decide (q ∈ D)) as [Hin|Hin].
        { rewrite (bool_decide_eq_true_2 (q ∈ D)) by done. cbn [andb]. symmetry. destruct clean; cbn [andb negb].
          - destruct (Z.ltb_spec q (k * 2 ^ 15)); cbn [negb]; [apply bool_decide_eq_false|apply bool_decide_eq_true];
              rewrite elem_of_filter; [|done]. intros [Hx _]. specialize (Hx eq_refl). lia.
          - apply bool_decide_eq_true. by rewrite elem_of_filter. }
        rewrite (bool_decide_eq_false_2 (q ∈ D)) by done. symmetry. apply bool_decide_eq_false. rewrite elem_of_filter. tauto.
      * split; [done|]. eapply Forall_impl; [exact Hmem|]. intros x [? ?]. auto.
  - destruct (op_failed mfn_valid sc_pages peek clean copy_ok d) as (st & d1 & E1 & Em & Et & Ef); [lia|].
    rewrite E1 in E. injection E as <- <- <- <- <-. eexists. split; [apply sp_failed|].
    split; cbn [log calls dirty lost]; rewrite ?Em, ?Et; try done; [by exists pos|congruence].
Qed.

(** A step that only changes the bookkeeping of calls and frames. *)
Lemma stands_calls d cs d' cs' a :
  stands (System d cs) a ->
  mem d' = mem d -> top d' = top d -> failed_allocs d' = failed_allocs d ->
  (forall pos, wf (mem d) (top d) pos -> Forall (fun m => pos !! m = None) (all_held cs) -> Forall (fun m => pos !! m = None) (all_held cs')) ->
  Forall (fun c => page_ok (pfn c)) cs' ->
  NoDup (all_held cs') /\ Forall (fun m => mfn_valid m = true /\ mem d !! m = None) (all_held cs') ->
  stands (System d' cs') a.
Proof.
  intros [[pos [W Hpos]] Hl Hpg Hd _ _] Em Et Ef Hp Hc Hh. cbn [log calls] in *.
  split; cbn [log calls]; rewrite ?Em, ?Et; try done; [|congruence]. exists pos. split; [done|]. by apply Hp.
Qed.

Lemma stands_alloc d cs1 cs2 p m d' a :
  stands (System d (cs1 ++ Call p Missing :: cs2)) a ->
  mfn_valid m = true -> mem d !! m = None -> m ∉ all_held (cs1 ++ Call p Missing :: cs2) ->
  mem d' = mem d -> top d' = top d -> failed_allocs d' = failed_allocs d ->
  stands (System d' (cs1 ++ Call p (Trying m) :: cs2)) a.
Proof.
  intros St Vm Hm Hni Em Et Ef. pose proof (sd_held _ _ St) as [Hnd Hmem]. pose proof (sd_calls _ _ St) as Hc.
  cbn [log calls] in *. apply calls_mid in Hc as [Hp Hc]. rewrite all_held_mid in Hni, Hnd, Hmem. cbn [held at_ app] in Hni, Hnd, Hmem.
  apply (stands_calls _ _ _ _ _ St Em Et Ef).
  - intros pos W. rewrite !all_held_mid. cbn [held at_ app]. rewrite Vm. intros Hpos. constructor; [|done].
    by apply (wf_mem mfn_valid _ _ _ _ W).
  - by apply calls_mid.
  - rewrite all_held_mid. cbn [held at_ app]. rewrite Vm. split; by constructor.
Qed.

Lemma stands_free d cs1 cs2 p m a :
  stands (System d (cs1 ++ Call p (Freeing m) :: cs2)) a ->
  stands (System (paging_free_log_dirty_page m d) (cs1 ++ cs2)) a.
Proof.
  intros [[pos [W Hpos]] Hl Hpg Hd Hc [Hnd Hmem]]. cbn [log calls] in *. apply calls_mid in Hc as [Hp Hc].
  rewrite all_held_mid in Hpos, Hnd, Hmem. cbn [held at_ app] in Hpos, Hnd, Hmem.
  apply NoDup_cons in Hnd as [Hni Hnd]. apply Forall_cons in Hpos as [Hm Hpos], Hmem as [_ Hmem].
  destruct (wf_delete mfn_valid HV _ _ _ m W Hm) as [W' Hmk].
  split; cbn [log calls paging_free_log_dirty_page mem top failed_allocs]; try done.
  - by exists pos.
  - intros q Hq. by rewrite Hmk, Hd.
  - split; [done|]. eapply Forall_impl; [exact Hmem|]. intros x [? Hx]. split; [done|]. by apply lookup_delete_None; right.
Qed.

Lemma step_stands s l s' a :
  lstep s l s' -> stands s a -> (Z.of_nat (lost a + is_lost l) < 2 ^ 32) ->
  exists a', spec_step a l a' /\ stands s' a' /\ lost a' = (lost a + is_lost l)%nat.
Proof.
  intros [d cs p Hp|d cs1 cs2 p m lo d' E|d cs1 cs2 p m d' E|d cs1 cs2 p m m' d' Vm Hm Hni E|d cs1 cs2 p m' d' E|d cs1 cs2 p m|
          d cs sc_pages peek clean copy_ok rv stats n out d' Hsc E] St Hlost; destruct a as [D k]; cbn [is_lost lost] in *.
  - exists (Spec D k). split; [constructor|]. split; [|cbn; lia].
    eapply (stands_calls _ cs); [exact St|done..| | |].
    + intros pos _ Hpos. unfold all_held. rewrite bind_cons. cbn [held at_]. by rewrite HV.
    + constructor; [done|apply St].
    + unfold all_held. rewrite bind_cons. cbn [held at_]. rewrite HV. apply St.
  - eexists. split; [constructor|]. split; [by eapply stands_marked|cbn; lia].
  - eexists. split; [constructor|]. split; [by eapply stands_missing|cbn; lia].
  - injection E as <- <-. eexists. split; [constructor|]. split; [by eapply stands_alloc|cbn; lia].
  - injection E as <- <-. exists (Spec D (S k)). split; [constructor|]. split; [|cbn; lia].
    destruct St as [[pos [W Hpos]] Hl Hpg Hd Hc [Hnd Hmem]]. cbn [log calls dirty lost] in *.
    apply calls_mid in Hc as [_ Hc]. rewrite all_held_mid in Hpos, Hnd, Hmem. cbn [held at_ app] in Hpos, Hnd, Hmem.
    split; cbn [log calls dirty lost mem top failed_allocs]; try done; [by exists pos|].
    rewrite Hl, u32_small by lia. lia.
  - eexists. split; [constructor|]. split; [by eapply stands_free|cbn; lia].
  - destruct (stands_scan _ _ _ _ _ _ _ _ _ _ _ _ _ St Hsc E) as (a & Ha & St'). exists a. split; [done|]. split; [done|].
    inversion Ha; subst; cbn; lia.
Qed.

Lemma runs_stand s ls s' a :
  runs lstep s ls s' -> stands s a -> Z.of_nat (lost a + losses ls) < 2 ^ 32 ->
  exists a', runs spec_step a ls a' /\ stands s' a'.
Proof.
  intros H. revert a. induction H as [s|s s1 s2 l ls Hs Hr IH]; intros a St Hl.
  - exists a. split; [constructor|done].
  - unfold losses in Hl. cbn [sum_list_with] in Hl. fold (losses ls) in Hl.
    destruct (step_stands _ _ _ _ Hs St ltac:(lia)) as (a1 & Ha & St1 & Hl1).
    destruct (IH a1 St1 ltac:(lia)) as (a2 & Hr2 & St2). exists a2. split; [by econstructor|done].
Qed.

(** A log without frames stands for the empty set. *)
Lemma empty_stands : stands (System empty_log []) (Spec ∅ 0).
Proof.
  split; cbn [log calls dirty lost empty_log mem top failed_allocs]; try done.
  - exists ∅. split; [|done]. by apply empty_wf.
  - intros q _. unfold LogDirty.marked, LogDirty.walk, LogDirty.root. by rewrite HV.
  - split; constructor.
Qed.

End System.

(** ** Claims *)

(** C7. A scan of a well-formed log without failed allocations either covers
    every leaf up to [sc->pages] or stops with [-EFAULT] at the first leaf
    that cannot be copied.  Every bit of the bitmap copied out is the state of
    its page; a clean unmarks exactly the pages of the leaves visited, so that
    no page is unmarked whose leaf was not copied; a peek unmarks none. *)
Theorem scan_copies_what_it_clears mfn_valid sc_pages peek clean copy_ok pos d rv stats n out d' :
  mfn_valid INVALID_MFN = false -> wf mfn_valid (mem d) (top d) pos -> 0 <= sc_pages <= 2 ^ 42 -> failed_allocs d = 0 ->
  paging_log_dirty_op mfn_valid sc_pages peek clean copy_ok d = (rv, stats, n, out, d') ->
  exists k, op_result mfn_valid sc_pages peek clean copy_ok d rv n out d' k /\ wf mfn_valid (mem d') (top d') pos.
Proof.
  intros HV W Hsc Hf E. destruct (op_spec mfn_valid HV _ _ _ _ _ _ _ _ _ _ _ W Hsc Hf E) as (k & Hr & W' & _). by exists k.
Qed.

(** C6. Whatever calls of [paging_mark_dirty] interleave with scans, the log
    behaves as a set of pages that marks add to, scans read and cleans empty,
    up to the first mark that is given up for want of memory; from then on
    every scan answers [-ENOMEM], so that no dirty page is lost silently. *)
Theorem log_refines_set mfn_valid ls s :
  mfn_valid INVALID_MFN = false -> runs (lstep mfn_valid) (System empty_log []) ls s ->
  Z.of_nat (losses ls) < 2 ^ 32 ->
  exists a, runs spec_step (Spec ∅ 0) ls a /\
    forall q, page_ok q -> marked mfn_valid (mem (log s)) (top (log s)) q = bool_decide (q ∈ dirty a).
Proof.
  intros HV Hr Hl. destruct (runs_stand mfn_valid HV _ _ _ _ Hr (empty_stands mfn_valid HV) Hl) as (a & Ha & St).
  exists a. split; [done|]. apply St.
Qed.

(** When the first allocation of a log fails, the count of failures stays
    when the log is turned off, because a log without frames is not freed; after
    it is turned on again, every scan still answers [-ENOMEM]. *)
Theorem failure_survives_disable mfn_valid owned gpfn gmfn pages sc_pages peek clean copy_ok :
  mfn_valid INVALID_MFN = false -> mfn_valid gmfn = true -> owned gmfn = true -> page_ok (gpfn gmfn) ->
  exists d, paging_mark_dirty mfn_valid true owned gpfn (None :: pages) gmfn empty_log = Some d /\
    let '(_, d') := paging_log_dirty_disable mfn_valid (0, false) d in
    paging_log_dirty_enable false (0, true) = (0, true) /\
    let '(rv, _, _, _, _) := paging_log_dirty_op mfn_valid sc_pages peek clean copy_ok d' in rv = - ENOMEM.
Proof.
  intros HV Vm Ho Hp. unfold paging_mark_dirty. rewrite Vm, Ho. destruct (m2p_page _ Hp) as [-> ->]. cbn [negb orb mark_loop].
  unfold attempt at 1. cbn [top empty_log]. rewrite HV. unfold paging_new_log_dirty_node at 1. rewrite HV.
  cbn [paging_new_log_dirty_page]. rewrite HV. cbn [negb]. eexists. split; [done|].
  unfold paging_log_dirty_disable, paging_free_log_dirty_bitmap. cbn [negb top with_top with_mem]. rewrite HV. cbn [negb].
  split; [done|]. unfold paging_log_dirty_op. by destruct clean.
Qed.

(** ** Concrete logs *)

Lemma demo_log_wf : exists pos, wf demo_valid (mem demo_log) (top demo_log) pos.
Proof.
  destruct (mark_loop_spec demo_valid eq_refl demo_frames ∅ 5 INVALID_MFN empty_log demo_log) as (pos & W & _);
    [by apply empty_wf|unfold page_ok; lia|apply demo_fresh|done|vm_compute; reflexivity|]. by exists pos.
Qed.

Lemma scan_copies_what_it_clears_witness :
  let '(rv, _, n, out, d') := paging_log_dirty_op demo_valid 100 true true (fun _ => true) demo_log in
  rv = 0 /\ out = [32; 0; 0; 0; 0; 0; 0; 0; 0; 0; 0; 0; 0] /\
  exists k pos, op_result demo_valid 100 true true (fun _ => true) demo_log rv n out d' k /\ wf demo_valid (mem d') (top d') pos.
Proof.
  destruct demo_log_wf as [pos W].
  assert (let '(rv, _, _, out, _) := paging_log_dirty_op demo_valid 100 true true (fun _ => true) demo_log in
          rv = 0 /\ out = [32; 0; 0; 0; 0; 0; 0; 0; 0; 0; 0; 0; 0]) as H by (vm_compute; done).
  destruct (paging_log_dirty_op demo_valid 100 true true (fun _ => true) demo_log) as [[[[rv stats] n] out] d'] eqn:E.
  split; [apply H|]. split; [apply H|].
  destruct (scan_copies_what_it_clears demo_valid 100 true true (fun _ => true) pos demo_log rv stats n out d') as (k & Hr & W');
    [done|done|lia|by vm_compute|done|]. by exists k, pos.
Defined.

(** A page marked after four allocations, and a clean. *)
Definition demo_miss (m : Z) (d : log_dirty) : log_dirty := snd (attempt demo_valid 5 m d).
Definition demo_alloc (m : Z) (d : log_dirty) : log_dirty := snd (paging_new_log_dirty_page (Some m) d).
Definition demo_d1 := demo_alloc 10 (demo_miss INVALID_MFN empty_log).
Definition demo_d2 := demo_alloc 20 (demo_miss 10 demo_d1).
Definition demo_d3 := demo_alloc 30 (demo_miss 20 demo_d2).
Definition demo_d4 := demo_alloc 40 (demo_miss 30 demo_d3).
Definition demo_d5 := demo_miss 40 demo_d4.

Definition demo_run : list label :=
  [Silent; Silent; Silent; Silent; Silent; Silent; Silent; Silent; Silent; Marked 5;
   Scan 13 true true (fun _ => true) 0 [32; 0]].

Lemma demo_missing m d cs :
  fst (attempt demo_valid 5 m d) = inr tt ->
  lstep demo_valid (System d (Call 5 (Trying m) :: cs)) Silent (System (demo_miss m d) (Call 5 Missing :: cs)).
Proof. intros E. apply (st_missing demo_valid d [] cs). unfold demo_miss. rewrite <- E. by destruct (attempt _ _ _ _). Qed.

Lemma demo_allocated m d :
  demo_valid m = true -> mem d !! m = None ->
  lstep demo_valid (System d [Call 5 Missing]) Silent (System (demo_alloc m d) [Call 5 (Trying m)]).
Proof. intros V E. by apply (st_alloc demo_valid d [] [] 5 m m (demo_alloc m d) V E); [apply not_elem_of_nil|]. Qed.

Lemma log_refines_set_witness :
  exists s a, runs (lstep demo_valid) (System empty_log []) demo_run s /\ runs spec_step (Spec ∅ 0) demo_run a /\
    forall q, page_ok q -> marked demo_valid (mem (log s)) (top (log s)) q = bool_decide (q ∈ dirty a).
Proof.
  set (d6 := snd (paging_log_dirty_op demo_valid 13 true true (fun _ => true) demo_d5)).
  assert (runs (lstep demo_valid) (System empty_log []) demo_run (System d6 [])) as Hr.
  { eapply runs_cons; [apply (st_begin _ _ _ 5); unfold page_ok; lia|].
    eapply runs_cons; [apply demo_missing; by vm_compute|]. eapply runs_cons; [apply (demo_allocated 10); by vm_compute|].
    eapply runs_cons; [apply (demo_missing 10 demo_d1); by vm_compute|]. eapply runs_cons; [apply (demo_allocated 20); by vm_compute|].
    eapply runs_cons; [apply (demo_missing 20 demo_d2); by vm_compute|]. eapply runs_cons; [apply (demo_allocated 30); by vm_compute|].
    eapply runs_cons; [apply (demo_missing 30 demo_d3); by vm_compute|]. eapply runs_cons; [apply (demo_allocated 40); by vm_compute|].
    eapply runs_cons.
    - apply (st_marked demo_valid demo_d4 [] [] 5 40 INVALID_MFN demo_d5). apply injective_projections; [by vm_compute|done].
    - eapply runs_cons; [|constructor].
      apply (st_scan demo_valid demo_d5 [] 13 true true (fun _ => true) 0 (0, 1) 13 [32; 0] d6); [lia|].
      apply injective_projections; [by vm_compute|done]. }
  destruct (log_refines_set demo_valid demo_run _ eq_refl Hr) as (a & Ha & Hd); [by vm_compute|].
  by eexists _, a.
Defined.

Lemma failure_survives_disable_witness :
  exists d, paging_mark_dirty demo_valid true (fun _ => true) (fun m => m) [None] 5 empty_log = Some d /\
    let '(_, d') := paging_log_dirty_disable demo_valid (0, false) d in
    paging_log_dirty_enable false (0, true) = (0, true) /\
    let '(rv, _, _, _, _) := paging_log_dirty_op demo_valid 64 true true (fun _ => true) d' in rv = - ENOMEM.
Proof.
  apply (failure_survives_disable demo_valid (fun _ => true) (fun m => m) 5 [] 64 true true (fun _ => true));
    [done|done|done|unfold page_ok; lia].
Defined.

End LogScan.
