(* ===== verification/LogRange.v ===== *)
(** Reading the log of dirty pages for a range, as the display of a guest is
    tracked.

    Models [paging_log_dirty_range] (xen/arch/x86/mm/paging.c) on the trie of
    [LogDirty].  The path for a first page that is not a multiple of eight
    shifts an [int] by 32 bits or more, which C does not define: what it
    copies is a parameter. *)

From S2P Require Import Prelude LogDirty LogScan.

Module LogRange.
Import LogDirty LogScan.

Section Range.
Context (mfn_valid : Z -> bool) (begin_pfn nr : Z) (copy_ok : Z -> bool) (undefined : Z -> list Z).

(** The variables of the loops; [b1], [b2] and [b3] are where the next inner
    loop starts. *)
Record range_state := RangeState { g_log : log_dirty; g_pages : Z; g_out : list Z; g_rv : Z; b1 : Z; b2 : Z; b3 : Z }.

Definition range_cond (s : range_state) : bool := (g_rv s =? 0) && (g_pages s <? nr).

(** The innermost body. *)
Definition range_leaf (l2 : option Z) (i2 : Z) (s : range_state) : range_state :=
  let h := mem (g_log s) in
  let l1 := child mfn_valid h l2 i2 in
  let bits := match l1 with Some m => leaf_bits h m | None => 0 end in
  let skip := b1 s .>> 3 in
  let bytes := PAGE_SIZE - skip in
  let left := (nr - g_pages s + 7) .>> 3 in
  let bytes := if left <? bytes then left else bytes in
  let data := if truthy (b1 s .& 7) then take (Z.to_nat bytes) (undefined (g_pages s)) else le_bytes (Z.to_nat bytes) (bits .>> (8 * skip)) in
  if negb (copy_ok (g_pages s .>> 3)) then RangeState (g_log s) (g_pages s) (g_out s) (- EFAULT) (b1 s) (b2 s) (b3 s)
  else
    let h := match l1 with Some m => <[m := empty_leaf]> h | None => h end in
    RangeState (with_mem (g_log s) h) (g_pages s + (bytes .<< 3)) (g_out s ++ data) (g_rv s) (b1 s .& 7) (b2 s) (b3 s).

Definition range_l2 (l3 : option Z) (i3 : Z) (s : range_state) : range_state :=
  let l2 := child mfn_valid (mem (g_log s)) l3 i3 in
  let s := for_loop (Z.to_nat (LOGDIRTY_NODE_ENTRIES - b2 s)) (b2 s) range_cond (range_leaf l2) s in
  RangeState (g_log s) (g_pages s) (g_out s) (g_rv s) (b1 s) 0 (b3 s).

Definition range_l3 (l4 : option Z) (i4 : Z) (s : range_state) : range_state :=
  let l3 := child mfn_valid (mem (g_log s)) l4 i4 in
  let s := for_loop (Z.to_nat (LOGDIRTY_NODE_ENTRIES - b3 s)) (b3 s) range_cond (range_l2 l3) s in
  RangeState (g_log s) (g_pages s) (g_out s) (g_rv s) (b1 s) (b2 s) 0.

Definition range_loops (s : range_state) : range_state :=
  let b4 := L4_LOGDIRTY_IDX begin_pfn in
  let l4 := if mfn_valid (top (g_log s)) then Some (top (g_log s)) else None in
  for_loop (Z.to_nat (LOGDIRTY_NODE_ENTRIES - b4)) b4 range_cond (range_l3 l4) s.

(** The result, the bytes copied out and the log; [clean_dirty_bitmap], which
    write-protects the guest's memory first, does not change the log. *)
Definition paging_log_dirty_range (d : log_dirty) : Z * list Z * log_dirty :=
  if truthy (failed_allocs d) then (- ENOMEM, [], d)
  else if negb (truthy (fault_count d)) && negb (truthy (dirty_count d)) then
    let size := (nr + 63) / 64 in
    if copy_ok 0 then (0, replicate (Z.to_nat (size * 8)) 0, d) else (- EFAULT, [], d)
  else
    let d := LogDirty (mem d) (top d) (allocs d) (failed_allocs d) 0 0 in
    let s := range_loops (RangeState d 0 [] 0 (L1_LOGDIRTY_IDX begin_pfn) (L2_LOGDIRTY_IDX begin_pfn) (L3_LOGDIRTY_IDX begin_pfn)) in
    (g_rv s, g_out s, g_log s).

(** ** Ranges inside a leaf *)

Context (HV : mfn_valid INVALID_MFN = false).
Context (Hpage : page_ok begin_pfn) (Hbyte : begin_pfn mod 8 = 0).
Context (Hnr : 0 < nr) (Hleaf : begin_pfn mod 2 ^ 15 + nr <= 2 ^ 15).

Lemma for_loop_once {A} n i (cond : A -> bool) f s :
  (0 < n)%nat -> cond s = true -> cond (f i s) = false -> for_loop n i cond f s = f i s.
Proof. intros Hn Hc Hs. destruct n as [|n]; [lia|]. cbn [for_loop]. rewrite Hc. by apply for_loop_stop. Qed.

(** The visit of the only leaf. *)
Definition visit (d : log_dirty) : range_state :=
  range_leaf (child mfn_valid (mem d) (child mfn_valid (mem d) (root mfn_valid (top d)) (L4_LOGDIRTY_IDX begin_pfn)) (L3_LOGDIRTY_IDX begin_pfn))
    (L2_LOGDIRTY_IDX begin_pfn)
    (RangeState d 0 [] 0 (L1_LOGDIRTY_IDX begin_pfn) (L2_LOGDIRTY_IDX begin_pfn) (L3_LOGDIRTY_IDX begin_pfn)).

Lemma visit_eq d :
  let l1 := walk mfn_valid (mem d) (top d) begin_pfn in
  let bits := match l1 with Some m => leaf_bits (mem d) m | None => 0 end in
  let n := (nr + 7) / 8 in
  if copy_ok 0 then
    g_log (visit d) = with_mem d (match l1 with Some m => <[m := empty_leaf]> (mem d) | None => mem d end) /\
    g_out (visit d) = le_bytes (Z.to_nat n) (bits .>> (begin_pfn mod 2 ^ 15)) /\ g_rv (visit d) = 0 /\ nr <= g_pages (visit d)
  else g_log (visit d) = d /\ g_out (visit d) = [] /\ g_rv (visit d) = - EFAULT.
Proof.
  cbv zeta. unfold visit, range_leaf. cbn [g_log g_pages g_out g_rv b1 b2 b3]. fold (walk mfn_valid (mem d) (top d) begin_pfn).
  rewrite idx1. change (0 .>> 3) with 0. destruct (copy_ok 0); cbn [negb]; [|done]. cbn [g_log g_pages g_out g_rv].
  rewrite (Z.sub_0_r nr), !Z.shiftr_div_pow2 by lia. change (2 ^ 3) with 8. set (b := begin_pfn mod 2 ^ 15) in *.
  assert (b mod 8 = 0) as Hb8 by (unfold b; zlia).
  assert ((b .& 7) = 0) as Hb7 by (change 7 with (Z.ones 3); rewrite Z.land_ones by lia; exact Hb8).
  rewrite Hb7. cbn [truthy Z.eqb negb app]. replace (8 * (b / 8)) with b by zlia.
  unfold PAGE_SIZE. set (n := (nr + 7) / 8). assert (n <= 4096 - b / 8) as Hn by (unfold n; zlia).
  assert ((if n <? 4096 - b / 8 then n else 4096 - b / 8) = n) as -> by (destruct (Z.ltb_spec n (4096 - b / 8)); lia).
  split_and!; try done. rewrite Z.shiftl_mul_pow2 by lia. unfold n. change (2 ^ 3) with 8. zlia.
Qed.

Abbreviation start d := (RangeState d 0 [] 0 (L1_LOGDIRTY_IDX begin_pfn) (L2_LOGDIRTY_IDX begin_pfn) (L3_LOGDIRTY_IDX begin_pfn)).

Lemma start_cond d : range_cond (start d) = true.
Proof. unfold range_cond. cbn [g_rv g_pages]. destruct (Z.ltb_spec 0 nr); [done|lia]. Qed.

Lemma visit_cond d s : g_rv s = g_rv (visit d) -> g_pages s = g_pages (visit d) -> range_cond s = false.
Proof.
  intros E1 E2. pose proof (visit_eq d) as Hv. cbv zeta in Hv. unfold range_cond. rewrite E1, E2. destruct (copy_ok 0).
  - destruct Hv as (_ & _ & -> & Hp). destruct (Z.ltb_spec (g_pages (visit d)) nr); [lia|done].
  - by destruct Hv as (_ & _ & ->).
Qed.

Lemma entries_left i : 0 <= i < 512 -> (0 < Z.to_nat (LOGDIRTY_NODE_ENTRIES - i))%nat.
Proof. unfold LOGDIRTY_NODE_ENTRIES, PAGETABLE_ORDER. change (1 .<< 9) with 512. lia. Qed.

(** Every loop makes one turn. *)
Lemma range_loops_visit d :
  let s := range_loops (start d) in
  g_log s = g_log (visit d) /\ g_out s = g_out (visit d) /\ g_rv s = g_rv (visit d).
Proof.
  pose proof (idx_range begin_pfn) as (_ & H2 & H3 & H4). cbv zeta. unfold range_loops. cbn [g_log]. fold (root mfn_valid (top d)).
  set (v2 := RangeState (g_log (visit d)) (g_pages (visit d)) (g_out (visit d)) (g_rv (visit d)) (b1 (visit d)) 0 (b3 (visit d))).
  set (l4 := root mfn_valid (top d)).
  assert (range_l2 (child mfn_valid (mem d) l4 (L4_LOGDIRTY_IDX begin_pfn)) (L3_LOGDIRTY_IDX begin_pfn) (start d) = v2) as E2.
  { unfold range_l2. cbn [g_log b2]. rewrite for_loop_once; [done|by apply entries_left|apply start_cond|by apply (visit_cond d)]. }
  assert (range_l3 l4 (L4_LOGDIRTY_IDX begin_pfn) (start d) =
    RangeState (g_log v2) (g_pages v2) (g_out v2) (g_rv v2) (b1 v2) (b2 v2) 0) as E3.
  { unfold range_l3. cbn [g_log b3]. rewrite for_loop_once; rewrite ?E2; [done|by apply entries_left|apply start_cond|by apply (visit_cond d)]. }
  rewrite for_loop_once; rewrite ?E3; [done|by apply entries_left|apply start_cond|by apply (visit_cond d)].
Qed.

(** Reading the log for a range of pages that starts at a multiple of eight
    and lies in one leaf of the trie: the bitmap copied out has exactly the
    dirty pages of the range.  Then the whole leaf is cleared, so that the
    marks of up to 32768 pages outside of the range are lost with it. *)
Theorem range_reports_and_clears pos d rv out d' :
  wf mfn_valid (mem d) (top d) pos -> copy_ok 0 = true -> failed_allocs d = 0 -> fault_count d <> 0 \/ dirty_count d <> 0 ->
  paging_log_dirty_range d = (rv, out, d') ->
  rv = 0 /\
  (forall q, 0 <= q < nr -> out_bit out q = marked mfn_valid (mem d) (top d) (begin_pfn + q)) /\
  (forall p, page_ok p -> marked mfn_valid (mem d') (top d') p = marked mfn_valid (mem d) (top d) p && negb (p / 2 ^ 15 =? begin_pfn / 2 ^ 15)).
Proof.
  intros W Hcopy Hfail Hcnt. unfold paging_log_dirty_range. rewrite Hfail. cbn [truthy Z.eqb negb].
  assert (negb (truthy (fault_count d)) && negb (truthy (dirty_count d)) = false) as ->.
  { unfold truthy. destruct (Z.eqb_spec (fault_count d) 0), (Z.eqb_spec (dirty_count d) 0); try done. tauto. }
  set (d0 := LogDirty (mem d) (top d) (allocs d) 0 0 0). destruct (range_loops_visit d0) as (-> & -> & ->).
  pose proof (visit_eq d0) as Hv. cbv zeta in Hv. rewrite Hcopy in Hv. destruct Hv as (-> & -> & -> & _). intros [= <- <- <-].
  cbn [mem top with_mem d0]. split; [done|]. set (c := begin_pfn / 2 ^ 15). unfold page_ok in Hpage.
  assert (0 <= c < 2 ^ 27) as Hc by (unfold c; zlia).
  rewrite (walk_chunk mfn_valid copy_ok (mem d) (top d) begin_pfn c) by done. split.
  - intros q Hq. rewrite le_bytes_bit by zlia. rewrite Z.shiftr_spec by lia.
    rewrite (leaf_marks mfn_valid copy_ok (mem d) (top d) (begin_pfn + q) c) by (unfold c; zlia). f_equal. unfold c. zlia.
  - intros p Hp. destruct (walk mfn_valid (mem d) (top d) (c * 2 ^ 15)) as [m|] eqn:Hw.
    + destruct (clear_leaf mfn_valid HV copy_ok (mem d) (top d) pos c m W Hc Hw) as (_ & _ & Hm). by apply Hm.
    + destruct (Z.eqb_spec (p / 2 ^ 15) c) as [E|]; cbn [negb]; [|by rewrite andb_true_r]. rewrite andb_false_r.
      rewrite (leaf_marks mfn_valid copy_ok (mem d) (top d) p c) by done. rewrite Hw. apply Z.bits_0.
Qed.

End Range.

(** A log with the pages 5 and 4096 dirty, read for eight pages from 0. *)
Definition range_demo : log_dirty := default empty_log (mark_loop demo_valid [] 4096 INVALID_MFN demo_log).

Lemma range_demo_wf : exists pos, wf demo_valid (mem range_demo) (top range_demo) pos.
Proof.
  destruct demo_log_wf as [pos W].
  destruct (mark_loop_spec demo_valid eq_refl [] pos 4096 INVALID_MFN demo_log range_demo) as (pos' & W' & _);
    [done|unfold page_ok; lia|by split; [constructor|]|done|vm_compute; reflexivity|]. by exists pos'.
Qed.

(** Page 5 is reported; the mark of page 4096 is gone as well. *)
Lemma range_reports_and_clears_witness :
  let '(rv, out, d') := paging_log_dirty_range demo_valid 0 8 (fun _ => true) (fun _ => []) range_demo in
  rv = 0 /\ out_bit out 5 = true /\ marked demo_valid (mem range_demo) (top range_demo) 4096 = true /\ marked demo_valid (mem d') (top d') 4096 = false.
Proof.
  destruct range_demo_wf as [pos W].
  assert (marked demo_valid (mem range_demo) (top range_demo) 5 = true /\ marked demo_valid (mem range_demo) (top range_demo) 4096 = true) as [M5 M4096]
    by (vm_compute; done).
  destruct (paging_log_dirty_range demo_valid 0 8 (fun _ => true) (fun _ => []) range_demo) as [[rv out] d'] eqn:E.
  destruct (range_reports_and_clears demo_valid 0 8 (fun _ => true) (fun _ => []) eq_refl ltac:(unfold page_ok; lia) eq_refl ltac:(lia) ltac:(done)
    pos range_demo rv out d' W eq_refl ltac:(vm_compute; reflexivity) ltac:(right; vm_compute; discriminate) E) as (-> & Hout & Hclr).
  split; [done|]. split; [rewrite (Hout 5) by lia; exact M5|]. split; [done|].
  rewrite (Hclr 4096) by (unfold page_ok; lia). by rewrite M4096.
Defined.

End LogRange.
