(* ===== verification/Tmem.v ===== *)
(** Transcendent memory in the migration stream.

    Models tools/libxc/xc_tmem.c: [xc_tmem_save] and [xc_tmem_save_extra], which
    write the pools of a guest's transcendent memory, their pages and the
    pages invalidated since, and [xc_tmem_restore] and
    [xc_tmem_restore_extra], which read them and give them to the hypervisor.

    The hypervisor's answers to the sender are a record; what the receiver
    asks of the hypervisor is a list of operations.  The receiver runs in a
    small monad over a byte source: an early [return -1] is [Fail]. *)

From S2P Require Import Prelude IO Control P2mList.

Module Tmem.
Import IO Control P2mList.

(** ** Constants *)

Definition TMEM_POOL_PERSIST : Z := 1.
Definition TMEM_POOL_PAGESIZE_SHIFT : Z := 4.
Definition TMEM_POOL_PAGESIZE_MASK : Z := 0xf.
Definition TMEM_CLIENT_COMPRESS : Z := 1.
Definition TMEM_CLIENT_FROZEN : Z := 2.

(** [(uint32_t)-1]. *)
Definition minusone : Z := 2 ^ 32 - 1.

Definition pagesize (flags : Z) : Z :=
  1 .<< (((flags .>> TMEM_POOL_PAGESIZE_SHIFT) .& TMEM_POOL_PAGESIZE_MASK) + 12).

(** [struct tmem_oid]: three words. *)
Definition oid : Type := Z * Z * Z.
Definition oid_bytes (o : oid) : list Z := le_bytes 8 o.1.1 ++ le_bytes 8 o.1.2 ++ le_bytes 8 o.2.
Definition oid_of (bs : list Z) : oid := (le_val (take 8 bs), le_val (take 8 (drop 8 bs)), le_val (drop 16 bs)).
Definition no_oid : oid := (2 ^ 64 - 1, 2 ^ 64 - 1, 2 ^ 64 - 1).

(** ** Saving *)

(** The answer to [TMEMC_SAVE_GET_NEXT_PAGE]: a handle with its page (positive),
    nothing this time (zero), or an error, which includes the end (negative). *)
Inductive next := NPage (o : oid) (index : Z) (page : list Z) | NZero | NNeg.

(** A pool: flags, number of pages, uuid, and its successive pages. *)
Record pool := Pool { p_flags : Z; p_npages : Z; p_uuid : Z * Z; p_next : nat -> next }.

(** What the hypervisor answers about the guest: the result of
    [TMEMC_SAVE_BEGIN], the version, the number of pools, the client's flags,
    weight and cap, and its pools, [None] where there is none (-1). *)
Record tmem_client := TmemClient {
  c_begin : Z; c_version : Z; c_max_pools : Z; c_flags : Z; c_weight : Z; c_cap : Z;
  c_pool : Z -> option pool
}.

(** The loop over the pages of a pool, from its [k]-th request. *)
Fixpoint save_pages (j : nat) (k : nat) (nxt : nat -> next) : list (list Z) :=
  match j with
  | O => []
  | S j =>
      match nxt k with
      | NPage o index page => oid_bytes o :: le_bytes 4 index :: page :: save_pages j (S k) nxt
      | NZero => save_pages j (S k) nxt
      | NNeg => [oid_bytes no_oid]
      end
  end.

(** The number of pages announced. *)
Definition n_pages (p : pool) : Z := if truthy (p_flags p .& TMEM_POOL_PERSIST) then p_npages p else 0.

(** The counter of a loop that runs down from an [unsigned] through an [int]. *)
Definition down_from (n : Z) : nat := Z.to_nat (s32 n).

Definition save_pool (i : Z) (p : pool) : list (list Z) :=
  [le_bytes 4 i; le_bytes 4 (p_flags p); le_bytes 4 (n_pages p); le_bytes 8 (p_uuid p).1 ++ le_bytes 8 (p_uuid p).2] ++
  (if n_pages p =? 0 then [] else save_pages (down_from (n_pages p)) 0 (p_next p)).

Fixpoint save_pools (n : nat) (i : Z) (pools : Z -> option pool) : list (list Z) :=
  match n with
  | O => []
  | S n => match pools i with Some p => save_pool i p | None => [] end ++ save_pools n (i + 1) pools
  end.

(** [xc_tmem_save]: the result and what was written. *)
Definition xc_tmem_save (field_marker : Z) (c : tmem_client) : Z * list (list Z) :=
  if c_begin c <=? 0 then (0, [])
  else
    let ms := [le_bytes 4 field_marker; le_bytes 4 (c_version c); le_bytes 4 (c_max_pools c)] in
    if (c_version c =? minusone) || (c_max_pools c =? minusone) then (-1, ms)
    else
      let ms := ms ++ [le_bytes 4 minusone; le_bytes 4 (c_flags c); le_bytes 4 (c_weight c); le_bytes 4 (c_cap c)] in
      if (c_flags c =? minusone) || (c_weight c =? minusone) || (c_cap c =? minusone) then (-1, ms)
      else (1, ms ++ [le_bytes 4 minusone] ++ save_pools (Z.to_nat (c_max_pools c)) 0 (c_pool c) ++ [le_bytes 4 minusone]).

(** [xc_tmem_save_extra]: the invalidated pages, up to the first answer of
    [TMEMC_SAVE_GET_NEXT_INV] that is not positive. *)
Fixpoint save_invs (invs : list (Z * oid * Z)) : list (list Z) :=
  match invs with
  | [] => []
  | (pool_id, o, index) :: invs => le_bytes 4 pool_id :: oid_bytes o :: le_bytes 4 index :: save_invs invs
  end.

Definition xc_tmem_save_extra (field_marker : Z) (invs : list (Z * oid * Z)) : list (list Z) :=
  [le_bytes 4 field_marker] ++ save_invs invs ++ [le_bytes 4 minusone].

(** ** Restoring *)

(** What is asked of the hypervisor. *)
Inductive top :=
| TBegin | TCompress | TFreeze | TSetWeight (w : Z) | TSetCap (c : Z)
| TNewPool (pool_id flags uuid_lo uuid_hi : Z)
| TPutPage (pool_id bufsize index : Z) (o : oid) (page : list Z)
| TFlushPage (pool_id index : Z) (o : oid).

Inductive res (A : Type) := Ret (a : A) | Fail | OutOfFuel.
Arguments Ret {A} a.
Arguments Fail {A}.
Arguments OutOfFuel {A}.

Section Restore.
Context {S : Type} `{BS : ByteSource S}.
(** Which operations the hypervisor accepts, and the variable [pool_id] after
    a read into it that failed. *)
Context (hv_ok : top -> bool) (stale : S -> Z).

(** Readers of the stream that ask the hypervisor. *)
Definition R (A : Type) : Type := S -> list top -> res A * S * list top.

Definition ret {A} (a : A) : R A := fun s ops => (Ret a, s, ops).
Definition fail {A} : R A := fun s ops => (Fail, s, ops).
Definition bind {A B} (m : R A) (f : A -> R B) : R B :=
  fun s ops =>
    match m s ops with
    | (Ret a, s, ops) => f a s ops
    | (Fail, s, ops) => (Fail, s, ops)
    | (OutOfFuel, s, ops) => (OutOfFuel, s, ops)
    end.
Local Notation "x <- m ;; k" := (bind m (fun x => k)) (at level 70, m at level 69, right associativity).

(** [if ( read_exact(...) ) return -1;]. *)
Definition rd (n : nat) : R (list Z) :=
  fun s ops => match src_read s n with (Some bs, s) => (Ret bs, s, ops) | (None, s) => (Fail, s, ops) end.
Definition rd32 : R Z := bs <- rd 4 ;; ret (le_val bs).

(** A hypercall whose failure ends the function. *)
Definition ask (op : top) : R unit := fun s ops => (if hv_ok op then Ret tt else Fail, s, ops ++ [op]).
Definition ask_if (b : bool) (op : top) : R unit := if b then ask op else ret tt.

Fixpoint restore_pages (j : nat) (pool_id bufsize : Z) : R unit :=
  match j with
  | O => ret tt
  | Datatypes.S j =>
      bs <- rd 24 ;;
      if decide (oid_of bs = no_oid) then ret tt
      else
        index <- rd32 ;;
        page <- rd (Z.to_nat bufsize) ;;
        _ <- ask (TPutPage pool_id bufsize index (oid_of bs) page) ;;
        restore_pages j pool_id bufsize
  end.

Definition restore_pool (pool_id : Z) : R unit :=
  flags <- rd32 ;;
  n_pages <- rd32 ;;
  uuid <- rd 16 ;;
  _ <- ask (TNewPool pool_id flags (le_val (take 8 uuid)) (le_val (drop 8 uuid))) ;;
  if n_pages <=? 0 then ret tt else restore_pages (down_from n_pages) pool_id (pagesize flags).

(** The loop over the pools; its result is the last value of [pool_id]. *)
Fixpoint restore_pools (fuel : nat) : R Z :=
  match fuel with
  | O => fun s ops => (OutOfFuel, s, ops)
  | Datatypes.S fuel => fun s ops =>
      match src_read s 4 with
      | (None, s') => (Ret (stale s), s', ops)
      | (Some bs, s') =>
          if le_val bs =? minusone then (Ret minusone, s', ops)
          else bind (restore_pool (le_val bs)) (fun _ => restore_pools fuel) s' ops
      end
  end.

(** [xc_tmem_restore], the marker being read already; [save_version] is the
    local hypervisor's version for the domain. *)
Definition xc_tmem_restore (fuel : nat) (save_version : Z) : R unit :=
  if save_version =? minusone then fail
  else
    _ <- rd32 ;;
    _ <- rd32 ;;
    mark <- rd32 ;;
    if negb (mark =? minusone) then fail
    else
      _ <- ask TBegin ;;
      flags <- rd32 ;;
      _ <- ask_if (truthy (flags .& TMEM_CLIENT_COMPRESS)) TCompress ;;
      _ <- ask_if (truthy (flags .& TMEM_CLIENT_FROZEN)) TFreeze ;;
      _ <- rd32 ;;
      _ <- ask (TSetWeight 0) ;;
      _ <- rd32 ;;
      _ <- ask (TSetCap 0) ;;
      _ <- rd32 ;;
      pool_id <- restore_pools fuel ;;
      if negb (pool_id =? minusone) then fail else ret tt.

(** [xc_tmem_restore_extra]. *)
Fixpoint flush_pages (fuel : nat) : R Z :=
  match fuel with
  | O => fun s ops => (OutOfFuel, s, ops)
  | Datatypes.S fuel => fun s ops =>
      match src_read s 4 with
      | (None, s') => (Ret (stale s), s', ops)
      | (Some bs, s') =>
          if le_val bs =? minusone then (Ret minusone, s', ops)
          else (o <- rd 24 ;; index <- rd32 ;; _ <- ask (TFlushPage (le_val bs) index (oid_of o)) ;; flush_pages fuel) s' ops
      end
  end.

Definition xc_tmem_restore_extra (fuel : nat) : R unit :=
  pool_id <- flush_pages fuel ;; if negb (pool_id =? minusone) then fail else ret tt.

(** ** Reading what was written *)

Context (Hplain : forall n, src_pad n = n /\ src_can n).

(** [m] reads exactly [bs], asks for [os] and returns [a]. *)
Definition reads {A} (m : R A) (bs : list Z) (a : A) (os : list top) : Prop :=
  forall s r ops, src_ok s -> src_rest s = bs ++ r ->
  exists s', m s ops = (Ret a, s', ops ++ os) /\ src_ok s' /\ src_rest s' = r.

Lemma reads_ret {A} (a : A) : reads (ret a) [] a [].
Proof. intros s r ops Hok Hr. exists s. rewrite app_nil_r. done. Qed.

Lemma reads_bind {A B} (m : R A) (f : A -> R B) b1 b2 a b os1 os2 :
  reads m b1 a os1 -> reads (f a) b2 b os2 -> reads (bind m f) (b1 ++ b2) b (os1 ++ os2).
Proof.
  intros Hm Hf s r ops Hok Hr. rewrite <- app_assoc in Hr. destruct (Hm s _ ops Hok Hr) as (s1 & E1 & Hok1 & Hr1).
  destruct (Hf s1 r (ops ++ os1) Hok1 Hr1) as (s2 & E2 & Hok2 & Hr2). exists s2.
  unfold bind. rewrite E1, E2, app_assoc. done.
Qed.

Lemma reads_rd {B} n bs (k : list Z -> R B) b2 b os :
  length bs = n -> reads (k bs) b2 b os -> reads (bind (rd n) k) (bs ++ b2) b os.
Proof.
  intros Hn Hk. change os with ([] ++ os). apply reads_bind with bs; [|done].
  intros s r ops Hok Hr. destruct (read_plain Hplain s n bs r Hok Hn Hr) as (s' & E & Hok' & Hr').
  exists s'. unfold rd. rewrite E, app_nil_r. done.
Qed.

Lemma reads_rd32 {B} v (k : Z -> R B) b2 b os :
  0 <= v < 2 ^ 32 -> reads (k v) b2 b os -> reads (bind rd32 k) (le_bytes 4 v ++ b2) b os.
Proof.
  intros Hv Hk. change os with ([] ++ os). apply reads_bind with v; [|done].
  rewrite <- (app_nil_r (le_bytes 4 v)). apply reads_rd; [apply le_bytes_length|]. rewrite le_u32 by done. apply reads_ret.
Qed.

Lemma reads_ask {B} op (k : unit -> R B) bs b os :
  hv_ok op = true -> reads (k tt) bs b os -> reads (bind (ask op) k) bs b (op :: os).
Proof.
  intros Ho Hk. change bs with ([] ++ bs). change (op :: os) with ([op] ++ os). apply reads_bind with tt; [|done].
  intros s r ops Hok Hr. exists s. unfold ask. by rewrite Ho.
Qed.

Lemma reads_ask_if {B} (c : bool) op (k : unit -> R B) bs b os :
  (c = true -> hv_ok op = true) -> reads (k tt) bs b os ->
  reads (bind (ask_if c op) k) bs b ((if c then [op] else []) ++ os).
Proof.
  intros Ho Hk. destruct c; [by apply reads_ask; auto|]. change bs with ([] ++ bs). change os with ([] ++ os).
  apply reads_bind with tt; [apply reads_ret|done].
Qed.

(** *** Pages *)

(** The pages of a pool that are sent. *)
Fixpoint sent_pages (j : nat) (k : nat) (nxt : nat -> next) : list (oid * Z * list Z) :=
  match j with
  | O => []
  | Datatypes.S j =>
      match nxt k with
      | NPage o index page => (o, index, page) :: sent_pages j (Datatypes.S k) nxt
      | NZero => sent_pages j (Datatypes.S k) nxt
      | NNeg => []
      end
  end.

Definition word (w : Z) (z : Z) : Prop := 0 <= z < 2 ^ w.
Definition oid_ok (o : oid) : Prop := word 64 o.1.1 /\ word 64 o.1.2 /\ word 64 o.2.

(** Pages as the hypervisor hands them out: of the pool's size, and under a
    name that is not the terminator. *)
Definition page_ok (size : Z) (x : next) : Prop :=
  match x with
  | NPage o index page => oid_ok o /\ o <> no_oid /\ word 32 index /\ Z.of_nat (length page) = size
  | NZero => False
  | NNeg => True
  end.

Lemma oid_of_bytes o : oid_ok o -> oid_of (oid_bytes o) = o.
Proof.
  intros (H1 & H2 & H3). destruct o as [[a b] c]. cbn [fst snd] in *. unfold oid_of, oid_bytes. cbn [fst snd].
  rewrite !(take_app_length' (le_bytes 8 _)), !(drop_app_length' (le_bytes 8 a)) by (by rewrite le_bytes_length).
  rewrite (take_app_length' (le_bytes 8 b)) by (by rewrite le_bytes_length).
  rewrite !app_assoc, drop_app_length' by (by rewrite length_app, !le_bytes_length).
  by rewrite !le_u64 by done.
Qed.

Lemma oid_bytes_length o : length (oid_bytes o) = 24%nat.
Proof. unfold oid_bytes. by rewrite !length_app, !le_bytes_length. Qed.

Definition put (pool_id size : Z) (x : oid * Z * list Z) : top := TPutPage pool_id size x.1.2 x.1.1 x.2.

Lemma reads_pages pool_id size nxt j : forall k,
  (forall i, (k <= i < k + j)%nat -> page_ok size (nxt i)) ->
  (forall x, x ∈ sent_pages j k nxt -> hv_ok (put pool_id size x) = true) ->
  reads (restore_pages j pool_id size) (concat (save_pages j k nxt)) tt (put pool_id size <$> sent_pages j k nxt).
Proof.
  induction j as [|j IH]; intros k Hp Ho; [apply reads_ret|]. cbn [save_pages sent_pages restore_pages] in *.
  pose proof (Hp k ltac:(lia)) as Hk. destruct (nxt k) as [o index page| |]; [|done|].
  - destruct Hk as (Hoid & Hne & Hi & Hl). cbn [concat fmap list_fmap].
    apply reads_rd; [apply oid_bytes_length|]. rewrite oid_of_bytes, decide_False by done.
    apply reads_rd32; [done|]. apply reads_rd; [lia|]. apply reads_ask; [by apply (Ho (o, index, page)); left|].
    apply IH; [intros i Hi'; apply Hp; lia|]. intros x Hx. apply Ho. by right.
  - cbn [concat]. apply reads_rd; [apply oid_bytes_length|]. rewrite oid_of_bytes by (by split_and!).
    rewrite decide_True by done. apply reads_ret.
Qed.

(** *** Pools *)

Record pool_ok (p : pool) : Prop := {
  po_flags : word 32 (p_flags p); po_pages : 0 <= p_npages p < 2 ^ 31;
  po_uuid : word 64 (p_uuid p).1 /\ word 64 (p_uuid p).2;
  po_next : forall k, (k < Z.to_nat (n_pages p))%nat -> page_ok (pagesize (p_flags p)) (p_next p k)
}.

Definition pool_ops (i : Z) (p : pool) : list top :=
  TNewPool i (p_flags p) (p_uuid p).1 (p_uuid p).2 ::
  (put i (pagesize (p_flags p)) <$> sent_pages (Z.to_nat (n_pages p)) 0 (p_next p)).

Lemma n_pages_range p : 0 <= p_npages p < 2 ^ 31 -> 0 <= n_pages p < 2 ^ 31.
Proof. unfold n_pages. destruct (truthy _); lia. Qed.

Lemma reads_pool i p :
  pool_ok p -> Forall (fun op => hv_ok op = true) (pool_ops i p) ->
  reads (restore_pool i) (concat (drop 1 (save_pool i p))) tt (pool_ops i p).
Proof.
  intros [Hf Hn [Hu1 Hu2] Hx] Hops. unfold pool_ops in *. apply Forall_cons in Hops as [Hnew Hops].
  apply n_pages_range in Hn. unfold save_pool, restore_pool. cbn [app drop concat]. rewrite <- !app_assoc.
  apply reads_rd32; [done|]. apply reads_rd32; [lia|]. rewrite app_assoc.
  apply reads_rd; [by rewrite length_app, !le_bytes_length|].
  rewrite take_app_length', drop_app_length' by (by rewrite le_bytes_length). rewrite !le_u64 by done.
  apply reads_ask; [done|]. unfold down_from. rewrite s32_small by lia.
  destruct (Z.leb_spec (n_pages p) 0) as [H0|H0].
  - replace (n_pages p) with 0 by lia. apply reads_ret.
  - rewrite (proj2 (Z.eqb_neq (n_pages p) 0)) by lia. apply reads_pages; [intros k Hk; apply Hx; lia|].
    intros x Hin. rewrite Forall_forall in Hops. apply Hops. apply list_elem_of_fmap_2. done.
Qed.

(** A loop over records with an identifier in front, up to the terminator. *)
Lemma reads_loop_end (m : R Z) :
  (forall s ops, m s ops = match src_read s 4 with
     | (Some bs, s') => if le_val bs =? minusone then (Ret minusone, s', ops) else m s ops
     | _ => m s ops end) ->
  reads m (le_bytes 4 minusone) minusone [].
Proof.
  intros Hm s r ops Hok Hr.
  destruct (read_plain Hplain s 4 (le_bytes 4 minusone) r Hok ltac:(apply le_bytes_length) Hr) as (s' & E & Hok' & Hr').
  exists s'. rewrite Hm, E, le_u32 by (unfold minusone; lia). rewrite Z.eqb_refl, app_nil_r. done.
Qed.

Lemma reads_loop_step (m k : R Z) (body : Z -> R unit) i b1 b2 os1 os2 :
  (forall s ops, m s ops = match src_read s 4 with
     | (Some bs, s') => if le_val bs =? minusone then m s ops else bind (body (le_val bs)) (fun _ => k) s' ops
     | _ => m s ops end) ->
  0 <= i < minusone -> reads (body i) b1 tt os1 -> reads k b2 minusone os2 ->
  reads m (le_bytes 4 i ++ b1 ++ b2) minusone (os1 ++ os2).
Proof.
  intros Hm Hi Hb Hk s r ops Hok Hr. unfold minusone in Hi. rewrite <- !app_assoc in Hr.
  destruct (read_plain Hplain s 4 (le_bytes 4 i) _ Hok ltac:(apply le_bytes_length) Hr) as (s' & E & Hok' & Hr').
  rewrite Hm, E, le_u32 by lia. rewrite (proj2 (Z.eqb_neq i minusone)) by (unfold minusone; lia).
  apply (reads_bind _ _ _ _ _ _ _ _ Hb Hk s' r ops Hok'). by rewrite Hr', app_assoc.
Qed.

Definition pools_ops (n : nat) (pools : Z -> option pool) (i : Z) : list top :=
  seqZ i (Z.of_nat n) ≫= fun j => match pools j with Some p => pool_ops j p | None => [] end.

Lemma pools_ops_S n pools i :
  pools_ops (Datatypes.S n) pools i =
  match pools i with Some p => pool_ops i p | None => [] end ++ pools_ops n pools (i + 1).
Proof. unfold pools_ops. rewrite seqZ_cons by lia. cbn. by replace (Z.pred (Z.of_nat (Datatypes.S n))) with (Z.of_nat n) by lia. Qed.

Lemma reads_pools pools n : forall i fuel,
  0 <= i -> i + Z.of_nat n < minusone ->
  (forall j p, i <= j < i + Z.of_nat n -> pools j = Some p -> pool_ok p) ->
  Forall (fun op => hv_ok op = true) (pools_ops n pools i) -> (n < fuel)%nat ->
  reads (restore_pools fuel) (concat (save_pools n i pools) ++ le_bytes 4 minusone) minusone (pools_ops n pools i).
Proof.
  induction n as [|n IH]; intros i fuel Hi Hn Hp Ho Hf; (destruct fuel as [|fuel]; [lia|]).
  - apply reads_loop_end. intros s ops. cbn [restore_pools]. destruct (src_read s 4) as [[bs|] s']; [|done].
    by destruct (le_val bs =? minusone).
  - rewrite pools_ops_S in Ho |- *. apply Forall_app in Ho as [Ho1 Ho2]. cbn [save_pools].
    destruct (pools i) as [p|] eqn:Ep.
    + assert (save_pool i p = le_bytes 4 i :: drop 1 (save_pool i p)) as -> by done.
      rewrite concat_app. cbn [concat]. rewrite <- !app_assoc.
      eapply (reads_loop_step _ (restore_pools fuel) restore_pool).
      * intros s ops. cbn [restore_pools]. destruct (src_read s 4) as [[bs|] s']; [|done].
        by destruct (le_val bs =? minusone).
      * lia.
      * apply reads_pool; [by eapply (Hp i); [lia|]|done].
      * apply IH; [lia|lia| |done|lia]. intros j q Hj. apply Hp. lia.
    + cbn [app]. apply IH; [lia|lia| |done|lia]. intros j q Hj. apply Hp. lia.
Qed.

(** ** The whole record *)

Record client_ok (c : tmem_client) : Prop := {
  co_begin : 0 < c_begin c;
  co_words : word 32 (c_version c) /\ word 32 (c_max_pools c) /\ word 32 (c_flags c) /\ word 32 (c_weight c) /\ word 32 (c_cap c);
  co_set : c_version c <> minusone /\ c_flags c <> minusone /\ c_weight c <> minusone /\ c_cap c <> minusone;
  co_max : c_max_pools c < minusone;
  co_pools : forall i p, 0 <= i < c_max_pools c -> c_pool c i = Some p -> pool_ok p
}.

(** What the receiver asks for. *)
Definition client_ops (c : tmem_client) : list top :=
  TBegin :: (if truthy (c_flags c .& TMEM_CLIENT_COMPRESS) then [TCompress] else []) ++
  (if truthy (c_flags c .& TMEM_CLIENT_FROZEN) then [TFreeze] else []) ++
  TSetWeight 0 :: TSetCap 0 :: pools_ops (Z.to_nat (c_max_pools c)) (c_pool c) 0.

Lemma reads_client c fuel save_version marker ms :
  client_ok c -> xc_tmem_save marker c = (1, ms) -> save_version <> minusone ->
  Forall (fun op => hv_ok op = true) (client_ops c) -> (Z.to_nat (c_max_pools c) < fuel)%nat ->
  exists bs, concat ms = le_bytes 4 marker ++ bs /\
    reads (xc_tmem_restore fuel save_version) bs tt (client_ops c).
Proof.
  intros [Hb (W1 & W2 & W3 & W4 & W5) (N1 & N3 & N4 & N5) Hmax Hp] E Hv Ho Hf. unfold xc_tmem_save in E.
  destruct (Z.leb_spec (c_begin c) 0); [lia|].
  rewrite (proj2 (Z.eqb_neq (c_version c) minusone)), (proj2 (Z.eqb_neq (c_max_pools c) minusone)) in E by lia.
  rewrite (proj2 (Z.eqb_neq (c_flags c) minusone)), (proj2 (Z.eqb_neq (c_weight c) minusone)),
    (proj2 (Z.eqb_neq (c_cap c) minusone)) in E by lia.
  cbn [orb app] in E. injection E as <-. cbn [concat]. eexists. split; [reflexivity|].
  unfold client_ops in *. apply Forall_cons in Ho as [O1 Ho]. apply Forall_app in Ho as [O2 Ho]. apply Forall_app in Ho as [O3 Ho].
  apply Forall_cons in Ho as [O4 Ho]. apply Forall_cons in Ho as [O5 Ho].
  assert (word 32 minusone) as Wm by (unfold word, minusone; lia).
  rewrite concat_app. cbn [concat]. rewrite app_nil_r.
  unfold xc_tmem_restore. rewrite (proj2 (Z.eqb_neq save_version minusone)) by done.
  apply reads_rd32; [done|]. apply reads_rd32; [done|]. apply reads_rd32; [done|]. rewrite Z.eqb_refl. cbn [negb].
  apply reads_ask; [done|]. apply reads_rd32; [done|].
  apply reads_ask_if; [intros Hc; rewrite Hc in O2; by inversion O2|].
  apply reads_ask_if; [intros Hc; rewrite Hc in O3; by inversion O3|].
  apply reads_rd32; [done|]. apply reads_ask; [done|]. apply reads_rd32; [done|]. apply reads_ask; [done|].
  apply reads_rd32; [done|]. rewrite <- (app_nil_r (_ ++ le_bytes 4 minusone)), <- (app_nil_r (pools_ops _ _ _)).
  unfold word in W2. apply reads_bind with minusone.
  - apply reads_pools; [lia|lia| |done|done]. intros j p Hj. apply Hp. lia.
  - apply reads_ret.
Qed.

(** The invalidated pages. *)
Definition inv_ok (x : Z * oid * Z) : Prop := 0 <= x.1.1 < minusone /\ oid_ok x.1.2 /\ word 32 x.2.
Definition flush (x : Z * oid * Z) : top := TFlushPage x.1.1 x.2 x.1.2.

Lemma reads_invs invs : forall fuel,
  Forall inv_ok invs -> Forall (fun x => hv_ok (flush x) = true) invs -> (length invs < fuel)%nat ->
  reads (flush_pages fuel) (concat (save_invs invs) ++ le_bytes 4 minusone) minusone (flush <$> invs).
Proof.
  induction invs as [|[[i o] index] invs IH]; intros fuel Hi Ho Hf; (destruct fuel as [|fuel]; [cbn in Hf; lia|]).
  - apply reads_loop_end. intros s ops. cbn [flush_pages]. destruct (src_read s 4) as [[bs|] s']; [|done].
    by destruct (le_val bs =? minusone).
  - apply Forall_cons in Hi as [(H1 & H2 & H3) Hi]. apply Forall_cons in Ho as [Ho1 Ho]. cbn [fst snd] in *.
    cbn [save_invs concat fmap list_fmap]. rewrite <- !app_assoc.
    rewrite (app_assoc (oid_bytes o)). change (flush (i, o, index) :: ?l) with ([flush (i, o, index)] ++ l).
    apply (reads_loop_step _ (flush_pages fuel) (fun id => bind (rd 24) (fun o => bind rd32 (fun index => ask (TFlushPage id index (oid_of o)))))).
    + intros s ops. cbn [flush_pages]. destruct (src_read s 4) as [[bs|] s']; [|done].
      destruct (le_val bs =? minusone); [done|]. unfold bind, rd32, rd, ret.
      destruct (src_read s' 24) as [[b2|] s2]; [|done]. unfold bind. destruct (src_read s2 4) as [[b3|] s3]; [|done].
      unfold ask. by destruct (hv_ok _).
    + done.
    + rewrite <- (app_nil_r (oid_bytes o ++ _)), <- app_assoc. apply reads_rd; [apply oid_bytes_length|].
      rewrite oid_of_bytes by done. apply reads_rd32; [done|].
      intros s r ops Hok Hr. exists s. unfold ask. unfold flush in Ho1. cbn [fst snd] in Ho1. by rewrite Ho1.
    + apply IH; [done|done|]. cbn [length] in Hf. lia.
Qed.

End Restore.

Lemma save_succeeds c marker : client_ok c -> exists ms, xc_tmem_save marker c = (1, ms).
Proof.
  intros [Hb _ (N1 & N3 & N4 & N5) Hmax _]. unfold xc_tmem_save. destruct (Z.leb_spec (c_begin c) 0); [lia|].
  rewrite (proj2 (Z.eqb_neq (c_version c) minusone)), (proj2 (Z.eqb_neq (c_max_pools c) minusone)) by lia.
  rewrite (proj2 (Z.eqb_neq (c_flags c) minusone)), (proj2 (Z.eqb_neq (c_weight c) minusone)),
    (proj2 (Z.eqb_neq (c_cap c) minusone)) by lia. by eexists.
Qed.

(** The transcendent memory of a guest arrives: when every page the
    sender asks for is there (or the hypervisor says that there are no more),
    [xc_tmem_save] succeeds, and [xc_tmem_restore] reads exactly what it wrote
    after the marker and asks the hypervisor for the same pools with the same
    flags and names and for each of their pages, in order. *)
Theorem tmem_roundtrip {S} `{BS : ByteSource S} hv_ok stale c marker save_version fuel :
  (forall n, src_pad n = n /\ src_can n) -> client_ok c -> save_version <> minusone ->
  Forall (fun op => hv_ok op = true) (client_ops c) -> (Z.to_nat (c_max_pools c) < fuel)%nat ->
  exists ms bs, xc_tmem_save marker c = (1, ms) /\ concat ms = le_bytes 4 marker ++ bs /\
    forall (s : S) r, src_ok s -> src_rest s = bs ++ r ->
    exists s', xc_tmem_restore hv_ok stale fuel save_version s [] = (Ret tt, s', client_ops c) /\
      src_ok s' /\ src_rest s' = r.
Proof.
  intros Hplain Hc Hv Ho Hf. destruct (save_succeeds c marker Hc) as [ms E].
  destruct (reads_client hv_ok stale Hplain c fuel save_version marker ms Hc E Hv Ho Hf) as (bs & Eb & Hr).
  exists ms, bs. split; [done|]. split; [done|]. intros s r Hok Hs. by apply (Hr s r [] Hok Hs).
Qed.

(** The list of pages invalidated during a live migration arrives
    whole: [xc_tmem_restore_extra] flushes exactly these pages, in order. *)
Theorem tmem_invalidations_arrive {S} `{BS : ByteSource S} hv_ok stale marker invs fuel (s : S) r :
  (forall n, src_pad n = n /\ src_can n) -> Forall inv_ok invs -> Forall (fun x => hv_ok (flush x) = true) invs ->
  (length invs < fuel)%nat -> src_ok s ->
  src_rest s = concat (drop 1 (xc_tmem_save_extra marker invs)) ++ r ->
  exists s', xc_tmem_restore_extra hv_ok stale fuel s [] = (Ret tt, s', flush <$> invs) /\ src_ok s' /\ src_rest s' = r.
Proof.
  intros Hplain Hi Ho Hf Hok Hr. change (drop 1 (xc_tmem_save_extra marker invs)) with (save_invs invs ++ [le_bytes 4 minusone]) in Hr.
  rewrite concat_app in Hr. cbn [concat] in Hr. rewrite app_nil_r in Hr.
  destruct (reads_invs hv_ok stale Hplain invs fuel Hi Ho Hf s r [] Hok Hr) as (s' & E & Hok' & Hr').
  exists s'. unfold xc_tmem_restore_extra, bind. rewrite E. done.
Qed.

(** ** Concrete clients *)

(** A client with one persistent pool of two pages of 4096 bytes. *)
Definition demo_page (b : Z) : list Z := replicate 4096 b.
Definition demo_pool : pool :=
  Pool TMEM_POOL_PERSIST 2 (5, 6) (fun k => match k with O => NPage (1, 2, 3) 7 (demo_page 1) | _ => NPage (1, 2, 4) 8 (demo_page 2) end).
Definition demo_client (p : pool) : tmem_client :=
  TmemClient 1 1 1 TMEM_CLIENT_FROZEN 100 0 (fun i => if i =? 0 then Some p else None).

Lemma demo_client_ok : client_ok (demo_client demo_pool).
Proof.
  split; cbn [demo_client c_begin c_version c_max_pools c_flags c_weight c_cap c_pool]; unfold word, minusone; try lia.
  - split_and!; done || lia.
  - unfold TMEM_CLIENT_FROZEN. lia.
  - intros i p Hi. destruct (i =? 0); [|done]. intros [= <-]. split; cbn [demo_pool p_flags p_npages p_uuid p_next].
    + done.
    + lia.
    + done.
    + intros k Hk. change (Z.to_nat (n_pages demo_pool)) with 2%nat in Hk.
      destruct k as [|k]; cbn; unfold word; split_and!; done || lia.
Qed.

Lemma list_reads_plain (n : nat) : src_pad (S := list Z) n = n /\ src_can (S := list Z) n.
Proof. done. Qed.

Lemma tmem_roundtrip_witness :
  exists ms bs, xc_tmem_save 0 (demo_client demo_pool) = (1, ms) /\ concat ms = le_bytes 4 0 ++ bs /\
    exists s', xc_tmem_restore (S := list Z) (fun _ => true) (fun _ => 0) 2 1 (bs ++ [9]) [] =
      (Ret tt, s', [TBegin; TFreeze; TSetWeight 0; TSetCap 0; TNewPool 0 1 5 6;
                    TPutPage 0 4096 7 (1, 2, 3) (demo_page 1); TPutPage 0 4096 8 (1, 2, 4) (demo_page 2)]) /\ s' = [9].
Proof.
  destruct (tmem_roundtrip (S := list Z) (fun _ => true) (fun _ => 0) (demo_client demo_pool) 0 1 2)
    as (ms & bs & E & Eb & H); [apply list_reads_plain|apply demo_client_ok|done|by apply Forall_true|cbn; lia|].
  exists ms, bs. split; [exact E|]. split; [exact Eb|].
  destruct (H (bs ++ [9]) [9] I eq_refl) as (s' & Hr & _ & Hs). exists s'. split; [exact Hr|exact Hs].
Defined.

Lemma tmem_invalidations_arrive_witness :
  exists s', xc_tmem_restore_extra (S := list Z) (fun _ => true) (fun _ => 0) 3
      (concat (drop 1 (xc_tmem_save_extra 0 [(0, (1, 2, 3), 7); (0, (1, 2, 4), 8)])) ++ [9]) [] =
    (Ret tt, s', [TFlushPage 0 7 (1, 2, 3); TFlushPage 0 8 (1, 2, 4)]) /\ s' = [9].
Proof.
  destruct (tmem_invalidations_arrive (S := list Z) (fun _ => true) (fun _ => 0) 0 [(0, (1, 2, 3), 7); (0, (1, 2, 4), 8)] 3
    (concat (drop 1 (xc_tmem_save_extra 0 [(0, (1, 2, 3), 7); (0, (1, 2, 4), 8)])) ++ [9]) [9]) as (s' & H & _ & Hs);
    [apply list_reads_plain| |repeat constructor|cbn; lia|done|done|by exists s'].
  repeat constructor; unfold minusone; cbn; lia.
Defined.

(** A page that is invalidated between the announcement of a pool's
    size and the request for the page leaves no trace in the stream: the
    sender goes on without a terminator and reports success, while the
    receiver still expects the page and takes it from what follows; with fewer
    than 20 bytes left in the stream it fails. *)
Theorem tmem_lost_page_fails r :
  (length r < 20)%nat ->
  let '(rc, ms) := xc_tmem_save 0 (demo_client (Pool TMEM_POOL_PERSIST 1 (5, 6) (fun _ => NZero))) in
  rc = 1 /\
  let '(result, _, _) := xc_tmem_restore (S := list Z) (fun _ => true) (fun _ => 0) 2 1 (drop 4 (concat ms) ++ r) [] in
  result = Fail.
Proof.
  intros Hr. destruct (xc_tmem_save _ _) as [rc ms] eqn:E. vm_compute in E. injection E as <- <-. split; [done|].
  do 20 (destruct r as [|? r]; [vm_compute; done|]). cbn in Hr. lia.
Qed.

Lemma tmem_lost_page_fails_witness :
  let '(rc, ms) := xc_tmem_save 0 (demo_client (Pool TMEM_POOL_PERSIST 1 (5, 6) (fun _ => NZero))) in
  rc = 1 /\
  let '(result, _, _) := xc_tmem_restore (S := list Z) (fun _ => true) (fun _ => 0) 2 1 (drop 4 (concat ms) ++ []) [] in
  result = Fail.
Proof. apply (tmem_lost_page_fails []). cbn. lia. Defined.

End Tmem.
