(* ===== verification/Suspend.v ===== *)
(** Suspending the guest (tools/libxl/libxl_dom.c).

    Models [libxl__domain_suspend_common_callback], which [xc_domain_save]
    calls when the last iteration begins, and the parts of
    [libxl__domain_suspend_common] around it.  The request goes to the guest
    over an event channel, by a hypercall, or through a node of xenstore that
    the guest clears to acknowledge it; a guest that does not answer in time
    has its request cancelled in a transaction, so that a late answer and the
    cancellation exclude each other.

    The toolstack, the guest and the store are a transition system.  The event
    that ends the wait on the event channel is raised by the hypervisor when
    the guest suspends; the guest answers a request once.  A
    transaction sees the store as it was at its start and commits only if the
    node has not changed since. *)

From S2P Require Import Prelude Handshake.

Module Suspend.

(** ** Flags and results *)

Definition XCFLAGS_LIVE : Z := 1.
Definition XCFLAGS_DEBUG : Z := 2.
Definition XCFLAGS_HVM : Z := 4.

Definition bool_int (b : bool) : Z := if b then 1 else 0.

(** [(live) ? LIVE : 0 | (debug) ? DEBUG : 0 | (hvm) ? HVM : 0], as C parses
    it: the conditional operator binds weaker than [|]. *)
Definition suspend_flags (live debug hvm : bool) : Z :=
  if live then XCFLAGS_LIVE
  else if truthy (0 .| bool_int debug) then XCFLAGS_DEBUG
  else if truthy (0 .| bool_int hvm) then XCFLAGS_HVM
  else 0.

Abbreviation ERROR_FAIL := Handshake.ERROR_FAIL.
Abbreviation ERROR_GUEST_TIMEDOUT := Handshake.ERROR_GUEST_TIMEDOUT.

(** What [libxl__domain_suspend_common] returns after [xc_domain_save]. *)
Definition suspend_common_rc (rc : Z) (guest_responded : bool) : Z :=
  if truthy rc then if negb guest_responded then ERROR_GUEST_TIMEDOUT else ERROR_FAIL else rc.

(** ** The system *)

(** The node [control/shutdown] holds "suspend", is empty, or is missing. *)
Inductive node := NSuspend | NEmpty | NMissing.

(** The guest runs; has acknowledged the request; is suspended. *)
Inductive guest := GRun | GAcked | GSuspended.

(** Where the callback is: at its start; waiting on the event channel; polling
    the node with [watchdog] turns left; before, in (with the version of the
    node at the start) and at the end of (with what was read) a transaction;
    deciding; waiting for the suspension; returned, with [guest_responded];
    or stopped by a null pointer. *)
Inductive tool :=
| TStart
| TAwait
| TPoll (watchdog : nat)
| TTxn
| TTxnRead (ver : nat) (v : node)
| TTxnEnd (ver : nat) (v : node)
| TDecide (v : node)
| TWait (watchdog : nat)
| TDone (ret : Z) (guest_responded : bool)
| TCrash.

#[global] Instance node_eq_dec : EqDecision node.
Proof. solve_decision. Defined.
#[global] Instance guest_eq_dec : EqDecision guest.
Proof. solve_decision. Defined.
#[global] Instance tool_eq_dec : EqDecision tool.
Proof. solve_decision. Defined.

(** [version] counts the changes of the node; [notified]: the event channel
    has been signalled. *)
Record sys := Sys { value : node; version : nat; notified : bool; gst : guest; tst : tool }.

Section Steps.
(** The domain: its kind, the two HVM parameters, and the port. *)
Context (hvm : bool) (hvm_pvdrv hvm_s_state : Z) (suspend_eventchn : Z).
(** Whether the store can fail: a write or a read outside a transaction, or
    the end of a transaction for another reason than a conflict. *)
Context (store_fails : bool).

Definition s_state : Z := if hvm then hvm_s_state else 0.
Definition pvdrv : Z := if hvm then hvm_pvdrv else 0.

Definition by_eventchn : bool := (s_state =? 0) && (suspend_eventchn >=? 0).
Definition by_hypercall : bool := hvm && (negb (truthy pvdrv) || truthy s_state).

(** After the node was read as [v]: [strcmp] with "suspend". *)
Definition polled (v : node) (watchdog : nat) : tool :=
  match v with
  | NMissing => TCrash
  | NSuspend => TPoll watchdog
  | NEmpty => TWait 60
  end.

Inductive step : sys -> sys -> Prop :=
(* the request *)
| s_notify_fail v n b g : by_eventchn = true -> step (Sys v n b g TStart) (Sys v n b g (TDone 0 false))
| s_notify v n b g : by_eventchn = true -> step (Sys v n b g TStart) (Sys v n true g TAwait)
| s_await_fail v n b g : step (Sys v n b g TAwait) (Sys v n b g (TDone 0 false))
| s_await v n b : step (Sys v n b GSuspended TAwait) (Sys v n b GSuspended (TDone 1 true))
| s_shutdown v n b g :
    by_eventchn = false -> by_hypercall = true -> step (Sys v n b g TStart) (Sys v n b GSuspended (TWait 60))
| s_shutdown_fail v n b g :
    by_eventchn = false -> by_hypercall = true -> step (Sys v n b g TStart) (Sys v n b g (TWait 60))
| s_write v n b g :
    by_eventchn = false -> by_hypercall = false -> step (Sys v n b g TStart) (Sys NSuspend (S n) b g (TPoll 60))
| s_write_fail v n b g :
    by_eventchn = false -> by_hypercall = false -> store_fails = true ->
    step (Sys v n b g TStart) (Sys v n b g (TPoll 60))
(* the wait for the acknowledgement *)
| s_poll v n b g w : step (Sys v n b g (TPoll (S w))) (Sys v n b g (polled v w))
| s_poll_fail v n b g w : store_fails = true -> step (Sys v n b g (TPoll (S w))) (Sys v n b g TCrash)
| s_poll_end v n b g : step (Sys v n b g (TPoll 0)) (Sys v n b g TTxn)
(* the cancellation *)
| s_txn v n b g : step (Sys v n b g TTxn) (Sys v n b g (TTxnRead n v))
| s_txn_read v n b g ver x :
    step (Sys v n b g (TTxnRead ver x)) (Sys v n b g (match x with NMissing => TCrash | _ => TTxnEnd ver x end))
| s_txn_commit v n b g x :
    step (Sys v n b g (TTxnEnd n x))
         (Sys (if decide (x = NSuspend) then NEmpty else v) (if decide (x = NSuspend) then S n else n) b g (TDecide x))
| s_txn_again v n b g ver x :
    ver <> n -> step (Sys v n b g (TTxnEnd ver x)) (Sys v n b g TTxn)
| s_store_fails v n b g ver x :
    store_fails = true -> step (Sys v n b g (TTxnEnd ver x)) (Sys v n b g (TDecide x))
| s_cancelled v n b g : step (Sys v n b g (TDecide NSuspend)) (Sys v n b g (TDone 0 false))
| s_acked v n b g x : x <> NSuspend -> step (Sys v n b g (TDecide x)) (Sys v n b g (TWait 60))
(* the wait for the suspension; a query can fail *)
| s_wait v n b g w : step (Sys v n b g (TWait (S w))) (Sys v n b g (TWait w))
| s_suspended v n b w : step (Sys v n b GSuspended (TWait (S w))) (Sys v n b GSuspended (TDone 1 true))
| s_wait_end v n b g : step (Sys v n b g (TWait 0)) (Sys v n b g (TDone 0 true))
(* the guest *)
| g_ack n b t : step (Sys NSuspend n b GRun t) (Sys NEmpty (S n) b GAcked t)
| g_event v n t : step (Sys v n true GRun t) (Sys v n true GSuspended t)
| g_suspend v n b t : step (Sys v n b GAcked t) (Sys v n b GSuspended t).

(** The node is empty before the request. *)
Definition start : sys := Sys NEmpty 0 false GRun TStart.

Definition reachable : sys -> Prop := rtc step start.

(** ** Agreement of the toolstack and the guest *)

(** Before the end of the cancellation, the node says whether the guest has
    acknowledged the request. *)
Definition agree (v : node) (g : guest) : Prop := (v = NSuspend /\ g = GRun) \/ (v = NEmpty /\ g <> GRun).

(** The request is gone and the guest did not see it. *)
Definition withdrawn (v : node) (g : guest) : Prop := v = NEmpty /\ g = GRun.

Definition inv (st : sys) : Prop :=
  notified st = false /\
  match tst st with
  | TStart => withdrawn (value st) (gst st)
  | TAwait | TCrash => False
  | TPoll _ | TTxn => agree (value st) (gst st)
  | TTxnRead ver x | TTxnEnd ver x =>
      agree (value st) (gst st) /\ (ver = version st -> x = value st) /\ (ver <= version st)%nat /\ x <> NMissing
  | TDecide NSuspend => withdrawn (value st) (gst st)
  | TDecide _ => gst st <> GRun
  | TWait _ => by_hypercall = false -> gst st <> GRun
  | TDone ret true => (by_hypercall = false -> gst st <> GRun) /\ (ret = 0 \/ ret = 1 /\ gst st = GSuspended)
  | TDone ret false => ret = 0 /\ withdrawn (value st) (gst st)
  end.

Lemma inv_step st st' : by_eventchn = false -> store_fails = false -> inv st -> step st st' -> inv st'.
Proof.
  intros Hev Htx Hi Hs. unfold inv, agree, withdrawn in *.
  destruct Hs; cbn [notified tst value version gst] in *; destruct Hi as [Hb Hi]; split; try done; try congruence.
  - (* write *) destruct Hi as [_ ->]. by left.
  - (* poll *) destruct Hi as [[-> ->]|[-> Hg]]; cbn [polled]; [by left|done].
  - (* start of the transaction *) split_and!; try done; destruct Hi as [[-> ->]|[-> Hg]]; done.
  - (* read *) destruct Hi as (Ha & Hv & Hle & Hx). destruct x; [by split_and!|by split_and!|done].
  - (* commit *) destruct Hi as (Ha & Hv & _ & Hx). rewrite (Hv eq_refl) in *. destruct Ha as [[-> ->]|[-> Hg]]; cbn; done.
  - (* conflict *) tauto.
  - (* acked *) destruct x; done.
  - (* suspended *) split; [done|]. by right.
  - (* not suspended in time *) split; [done|]. by left.
  - (* the guest acknowledges *) destruct t as [| |w| |ver x|ver x|[]|w|ret []|]; naive_solver lia.
  - (* the guest suspends *) destruct t as [| |w| |ver x|ver x|[]|w|ret []|]; naive_solver lia.
Qed.

Lemma inv_rtc st st' : by_eventchn = false -> store_fails = false -> inv st -> rtc step st st' -> inv st'.
Proof. intros Hev Htx Hi H. induction H as [|x y z Hs _ IH]; [done|]. apply IH. by eapply inv_step. Qed.

Lemma done_stays st st' r b : tst st = TDone r b -> rtc step st st' -> tst st' = TDone r b.
Proof. intros Hd H. induction H as [|x y z Hs _ IH]; [done|]. apply IH. by destruct Hs; cbn in *; simplify_eq. Qed.

(** ** Termination *)

Definition stale (ver n : nat) : nat := if decide (ver = n) then 0 else 5.

Definition tool_measure (n : nat) (t : tool) : nat :=
  match t with
  | TStart => 200
  | TAwait => 10
  | TPoll w => 80 + w
  | TTxn => 73
  | TTxnRead ver _ => 72 + stale ver n
  | TTxnEnd ver _ => 71 + stale ver n
  | TDecide _ => 70
  | TWait w => S w
  | TDone _ _ | TCrash => 0
  end.

Definition guest_measure (g : guest) : nat := match g with GRun => 20 | GAcked => 10 | GSuspended => 0 end.
Definition measure (st : sys) : nat := tool_measure (version st) (tst st) + guest_measure (gst st).

Lemma measure_step st st' : step st st' -> (measure st' < measure st)%nat.
Proof.
  intros Hs. unfold measure, stale. destruct Hs; cbn [version tst gst guest_measure tool_measure]; unfold stale;
    try lia; try (destruct g; cbn [guest_measure]; lia).
  - destruct v; cbn [polled tool_measure]; lia.
  - rewrite decide_True by done. lia.
  - destruct x; cbn [tool_measure]; unfold stale; lia.
  - rewrite decide_False by done. lia.
  - destruct t; cbn [tool_measure]; unfold stale; repeat case_decide; lia.
Qed.

Lemma measure_nsteps k st st' : nsteps step k st st' -> (k + measure st' <= measure st)%nat.
Proof. induction 1 as [|k x y z Hs _ IH]; [lia|]. apply measure_step in Hs. lia. Qed.

End Steps.

(** ** Claims *)

(** C32. The toolstack and the guest agree on the outcome of a request that
    did not go over the event channel, as long as the store does not fail
    otherwise than by a conflict of transactions.  When the callback reports
    success the guest is suspended; when the guest counts as having responded
    to a request through the store, it has taken the request; and when the
    save fails with [ERROR_GUEST_TIMEDOUT], the guest runs and will never be
    suspended by this request, however late it is. *)
Theorem suspend_agreement hvm hvm_pvdrv hvm_s_state suspend_eventchn st ret responded :
  by_eventchn hvm hvm_s_state suspend_eventchn = false ->
  reachable hvm hvm_pvdrv hvm_s_state suspend_eventchn false st -> tst st = TDone ret responded ->
  (ret = 1 -> responded = true /\ gst st = GSuspended) /\
  (by_hypercall hvm hvm_pvdrv hvm_s_state = false -> suspend_common_rc 1 responded = ERROR_FAIL -> gst st <> GRun) /\
  (suspend_common_rc 1 responded = ERROR_GUEST_TIMEDOUT ->
     ret = 0 /\ forall st', rtc (step hvm hvm_pvdrv hvm_s_state suspend_eventchn false) st st' -> gst st' = GRun).
Proof.
  intros Hev Hr Hd.
  assert (inv hvm hvm_pvdrv hvm_s_state st) as Hi by (by apply (inv_rtc hvm hvm_pvdrv hvm_s_state suspend_eventchn false start st Hev eq_refl); [|exact Hr]).
  pose proof Hi as [_ Hi']. rewrite Hd in Hi'. split_and!.
  - intros ->. destruct responded; [|by destruct Hi']. destruct Hi' as [_ [?|[_ ?]]]; done.
  - intros Hh. destruct responded; [|done]. intros _. by apply Hi'.
  - destruct responded; [done|]. intros _. destruct Hi' as [-> _]. split; [done|]. intros st' Hs.
    pose proof (inv_rtc hvm hvm_pvdrv hvm_s_state suspend_eventchn false st st' Hev eq_refl Hi Hs) as [_ Hj].
    rewrite (done_stays hvm hvm_pvdrv hvm_s_state suspend_eventchn false st st' _ _ Hd Hs) in Hj. by destruct Hj as (_ & _ & ?).
Qed.

(** Suspending a guest always ends: whatever the guest does and
    however its answer races with the cancellation, the toolstack and the
    guest together make at most 220 steps (two polls of 60 turns, and at most
    one transaction repeated, since the guest answers once). *)
Theorem suspend_terminates hvm hvm_pvdrv hvm_s_state suspend_eventchn store_fails k st :
  nsteps (step hvm hvm_pvdrv hvm_s_state suspend_eventchn store_fails) k start st -> (k <= 220)%nat.
Proof. intros H. apply measure_nsteps in H. cbn in H. lia. Qed.

(** A transaction that fails for another reason than a conflict is
    taken for a cancellation: the callback reports that the guest did not
    respond, and the guest is suspended afterwards all the same. *)
Theorem failed_cancel_suspends :
  exists st st', reachable false 0 0 (-1) true st /\ tst st = TDone 0 false /\
    rtc (step false 0 0 (-1) true) st st' /\ gst st' = GSuspended.
Proof.
  assert (forall w, rtc (step false 0 0 (-1) true) (Sys NSuspend 1 false GRun (TPoll w)) (Sys NSuspend 1 false GRun (TPoll 0))) as Hpoll.
  { induction w as [|w IH]; [done|]. eapply rtc_l; [apply s_poll|exact IH]. }
  exists (Sys NSuspend 1 false GRun (TDone 0 false)), (Sys NEmpty 2 false GSuspended (TDone 0 false)).
  split_and!; [|done| |done].
  - eapply rtc_l; [by apply s_write|]. etrans; [apply (Hpoll 60%nat)|].
    eapply rtc_l; [apply s_poll_end|]. eapply rtc_l; [apply s_txn|]. eapply rtc_l; [apply s_txn_read|].
    eapply rtc_l; [by apply s_store_fails|]. eapply rtc_l; [apply s_cancelled|]. done.
  - eapply rtc_l; [apply g_ack|]. eapply rtc_l; [apply g_suspend|]. done.
Qed.

(** A guest that acknowledges at the last moment wins the race. *)
Lemma suspend_agreement_witness :
  let st := Sys NEmpty 2 false GSuspended (TDone 1 true) in
  reachable true 1 0 (-1) false st /\ gst st = GSuspended /\ suspend_common_rc 1 true = ERROR_FAIL.
Proof.
  set (st := Sys NEmpty 2 false GSuspended (TDone 1 true)).
  assert (reachable true 1 0 (-1) false st) as Hr.
  { assert (forall w, rtc (step true 1 0 (-1) false) (Sys NSuspend 1 false GRun (TPoll w)) (Sys NSuspend 1 false GRun (TPoll 0))) as Hpoll
      by (induction w as [|w IH]; [done|eapply rtc_l; [apply s_poll|exact IH]]).
    eapply rtc_l; [by apply s_write|]. etrans; [apply (Hpoll 60%nat)|].
    eapply rtc_l; [apply s_poll_end|]. eapply rtc_l; [apply s_txn|]. eapply rtc_l; [apply g_ack|].
    eapply rtc_l; [apply s_txn_read|]. eapply rtc_l; [by apply s_txn_again|]. eapply rtc_l; [apply s_txn|].
    eapply rtc_l; [apply s_txn_read|]. eapply rtc_l; [apply (s_txn_commit _ _ _ _ _ NEmpty 2 false GAcked NEmpty)|].
    eapply rtc_l; [by apply s_acked|]. eapply rtc_l; [apply g_suspend|]. eapply rtc_l; [apply s_suspended|]. done. }
  destruct (suspend_agreement true 1 0 (-1) st 1 true eq_refl Hr eq_refl) as (H1 & _ & _).
  split; [exact Hr|]. split; [by apply H1|done].
Defined.

Lemma suspend_terminates_witness :
  nsteps (step false 0 0 (-1) false) 1 start (Sys NSuspend 1 false GRun (TPoll 60)) /\ (1 <= 220)%nat.
Proof.
  assert (nsteps (step false 0 0 (-1) false) 1 start (Sys NSuspend 1 false GRun (TPoll 60))) as H
    by (apply nsteps_once; by apply s_write).
  split; [exact H|]. exact (suspend_terminates false 0 0 (-1) false 1 _ H).
Defined.

End Suspend.
