(* ===== verification/SaveFile.v ===== *)
(** The header of a saved domain (tools/libxl/xl_cmdimpl.c).

    Before the image itself the sender writes a header with the domain's
    configuration ([save_domain_core_writeconfig]); the receiver reads it at
    the start of [create_domain].  Models both, with [libxl_read_exactly]
    (tools/libxl/libxl_utils.c) under them: a descriptor is the list of answers
    of [read] to come.  Memory that was not initialised is a parameter. *)

From Stdlib Require Import String.
From S2P Require Import Prelude IO Handshake.

Module SaveFile.
Import IO Handshake.

(** ** Reading exactly *)

Definition errno_val (e : errno) : Z := match e with EINTR => 4 | EAGAIN => 11 | EIO => 5 end.
Definition EPROTO : Z := 71.

(** [libxl_read_exactly]: the result, the buffer, and what the descriptor
    answers next. *)
Fixpoint libxl_read_exactly (script : list rd_result) (buf : list Z) (off sz : nat) : option (Z * list Z * list rd_result) :=
  match sz with
  | O => Some (0, buf, script)
  | S _ =>
      match script with
      | [] => None
      | RErr EINTR :: script => libxl_read_exactly script buf off sz
      | RErr e :: script => Some (errno_val e, buf, script)
      | REof :: script | RData [] :: script => Some (EPROTO, buf, script)
      | RData bs :: script =>
          if decide (sz <= length bs)%nat
          then Some (0, write_at buf off (take sz bs), if decide (drop sz bs = []) then script else RData (drop sz bs) :: script)
          else libxl_read_exactly script (write_at buf off bs) (off + length bs) (sz - length bs)
      end
  end.

(** The bytes that arrive. *)
Fixpoint arriving (script : list rd_result) : list Z :=
  match script with
  | [] | REof :: _ | RData [] :: _ => []
  | RErr EINTR :: script => arriving script
  | RErr _ :: _ => []
  | RData bs :: script => bs ++ arriving script
  end.

(** ** The header *)

Definition savefileheader_magic : list Z := chars "Xen saved domain, xl format"%string ++ [10; 32; 0; 32; 13].
Definition SAVEFILE_BYTEORDER_VALUE : Z := 0x01020304.
Definition ERROR_INVAL : Z := -6.

(** [struct save_file_header]. *)
Record save_file_header := Hdr {
  magic : list Z; byteorder : Z; mandatory_flags : Z; optional_flags : Z; optional_data_len : Z
}.

Definition header_bytes (h : save_file_header) : list Z :=
  magic h ++ le_bytes 4 (byteorder h) ++ le_bytes 4 (mandatory_flags h) ++ le_bytes 4 (optional_flags h) ++
  le_bytes 4 (optional_data_len h).

Definition header_of (bs : list Z) : save_file_header :=
  Hdr (take 32 bs) (le_val (take 4 (drop 32 bs))) (le_val (take 4 (drop 36 bs))) (le_val (take 4 (drop 40 bs)))
      (le_val (take 4 (drop 44 bs))).

Definition sizeof_hdr : nat := 48.

(** [ADD_OPTDATA]: the optional data and its length. *)
Definition ADD_OPTDATA (data : list Z) (x : list Z * Z) : list Z * Z :=
  if truthy (Z.of_nat (length data)) then (x.1 ++ data, u32 (x.2 + Z.of_nat (length data))) else x.

(** [save_domain_core_writeconfig]: the two writes. *)
Definition save_domain_core_writeconfig (config_data : list Z) : list (list Z) :=
  let '(optdata, len) := ADD_OPTDATA config_data (ADD_OPTDATA (le_bytes 4 (Z.of_nat (length config_data))) ([], 0)) in
  [header_bytes (Hdr savefileheader_magic SAVEFILE_BYTEORDER_VALUE 0 0 len); optdata].

(** What reading the header comes to: a configuration, if there is one; a
    result that [create_domain] returns; or the end of the program. *)
Inductive header_result :=
| HOk (config : option (list Z)) (script : list rd_result)
| HReturn (rc : Z)
| HExit (code : Z).

Section Load.
(** The header on the stack and a block of [n] bytes before they are written. *)
Context (hdr_junk : list Z) (block : nat -> list Z).

(** The configuration in the optional data. *)
Definition optdata_config (len : Z) (optdata : list Z) (script : list rd_result) : header_result :=
  if len =? 0 then HOk None script
  else if len <? 4 then HReturn ERROR_INVAL
  else
    let config_len := s32 (le_val (take 4 optdata)) in
    if len - 4 <? config_len then HReturn ERROR_INVAL
    else if config_len <? 0 then HExit 3
    else HOk (Some (take (Z.to_nat config_len) (drop 4 optdata))) script.

(** [create_domain], the part under [if (restore_file)].  [CHK_ERRNO] takes
    only negative results for errors. *)
Definition load_header (script : list rd_result) : option header_result :=
  '(rc, bs, script) ← libxl_read_exactly script hdr_junk 0 sizeof_hdr;
  if rc <? 0 then Some (HExit 3)
  else
    let hdr := header_of bs in
    if decide (magic hdr <> savefileheader_magic) then Some (HReturn ERROR_INVAL)
    else if negb (byteorder hdr =? SAVEFILE_BYTEORDER_VALUE) then Some (HReturn ERROR_INVAL)
    else if truthy (mandatory_flags hdr .& not_w 32 0) then Some (HReturn ERROR_INVAL)
    else
      let len := optional_data_len hdr in
      if truthy len then
        '(rc, optdata, script) ← libxl_read_exactly script (block (Z.to_nat len)) 0 (Z.to_nat len);
        if rc <? 0 then Some (HExit 3) else Some (optdata_config len optdata script)
      else Some (optdata_config len [] script).

End Load.

(** ** Properties *)

Lemma read_exactly_length script : forall buf off sz rc buf' script',
  (off + sz <= length buf)%nat ->
  libxl_read_exactly script buf off sz = Some (rc, buf', script') -> length buf' = length buf.
Proof.
  induction script as [|r script IH]; intros buf off sz rc buf' script' Hl E; destruct sz as [|sz]; cbn [libxl_read_exactly] in E;
    try (by simplify_eq).
  destruct r as [[|b bs]| |[| |]]; try (by simplify_eq); [|by eapply IH].
  set (l := b :: bs) in *. case_decide as Hd.
  - injection E as <- <- <-. rewrite write_at_length; [done|]. cbn [length]. rewrite length_take. lia.
  - apply IH in E; rewrite write_at_length in *; unfold l in *; cbn [length] in *; lia.
Qed.

Lemma read_exactly_ok script : forall buf off sz,
  (off + sz <= length buf)%nat -> (sz <= length (arriving script))%nat ->
  exists script', libxl_read_exactly script buf off sz = Some (0, write_at buf off (take sz (arriving script)), script') /\
    arriving script' = drop sz (arriving script).
Proof.
  induction script as [|r script IH]; intros buf off sz Hl Ha; destruct sz as [|sz]; cbn [libxl_read_exactly];
    try (eexists; split; [by rewrite take_0, write_at_nil|by rewrite drop_0]); [cbn in Ha; lia|].
  destruct r as [[|b bs]| |[| |]]; cbn [arriving] in *; try (cbn in Ha; lia); [|by apply IH].
  set (l := b :: bs) in *. case_decide as Hd.
  - eexists. split; [by rewrite take_app_le|]. rewrite drop_app_le by lia.
    destruct (decide (drop (S sz) l = [])) as [->|Hn]; [done|]. destruct (drop (S sz) l) eqn:El; [done|]. cbn [arriving]. done.
  - rewrite length_app in Ha. destruct (IH (write_at buf off l) (off + length l)%nat (S sz - length l)%nat) as (s' & -> & Es);
      [rewrite write_at_length; lia|lia|].
    exists s'. rewrite Es, write_at_app by (rewrite length_take; lia). rewrite take_app_ge, drop_app_ge by lia. done.
Qed.

Lemma header_bytes_length h : length (magic h) = 32%nat -> length (header_bytes h) = sizeof_hdr.
Proof. intros H. unfold header_bytes. by rewrite !length_app, !le_bytes_length, H. Qed.

Definition word32 (z : Z) : Prop := 0 <= z < 2 ^ 32.

Lemma le_word z : word32 z -> le_val (le_bytes 4 z) = z.
Proof. intros H. rewrite le_val_bytes. by apply Z.mod_small. Qed.

Lemma header_of_bytes h :
  length (magic h) = 32%nat -> word32 (byteorder h) -> word32 (mandatory_flags h) -> word32 (optional_flags h) ->
  word32 (optional_data_len h) -> header_of (header_bytes h) = h.
Proof.
  intros Hm H1 H2 H3 H4. destruct h as [m b f o l]. cbn [magic byteorder mandatory_flags optional_flags optional_data_len] in *.
  unfold header_of, header_bytes. cbn [magic byteorder mandatory_flags optional_flags optional_data_len].
  assert (forall (a c : list Z) k, length a = k -> take k (a ++ c) = a) as Ht by (intros a c k <-; apply take_app_length).
  assert (forall (a c : list Z) k j, length a = k -> drop (k + j) (a ++ c) = drop j c) as Hd
    by (intros a c k j <-; rewrite drop_app_ge by lia; f_equal; lia).
  rewrite (Ht m) by done. rewrite (Hd m _ 32%nat 0%nat), (Hd m _ 32%nat 4%nat), (Hd m _ 32%nat 8%nat), (Hd m _ 32%nat 12%nat) by done.
  rewrite drop_0, (Ht (le_bytes 4 b)) by apply le_bytes_length.
  rewrite (Hd (le_bytes 4 b) _ 4%nat 0%nat), (Hd (le_bytes 4 b) _ 4%nat 4%nat), (Hd (le_bytes 4 b) _ 4%nat 8%nat) by apply le_bytes_length.
  rewrite drop_0, (Ht (le_bytes 4 f)) by apply le_bytes_length.
  rewrite (Hd (le_bytes 4 f) _ 4%nat 0%nat), (Hd (le_bytes 4 f) _ 4%nat 4%nat) by apply le_bytes_length.
  rewrite drop_0, (Ht (le_bytes 4 o)) by apply le_bytes_length.
  rewrite (Hd (le_bytes 4 o) _ 4%nat 0%nat), drop_0 by apply le_bytes_length.
  rewrite take_ge by (by rewrite le_bytes_length). by rewrite !le_word.
Qed.

(** The configuration of a domain arrives: whatever the cuts of the
    stream and the signals, and whatever the memory held before, the receiver
    gets exactly the configuration the sender wrote, and the image that
    follows it is untouched. *)
Theorem savefile_roundtrip hdr_junk block config script rest :
  length hdr_junk = sizeof_hdr -> (forall n, length (block n) = n) ->
  Z.of_nat (length config) < 2 ^ 31 - 4 ->
  arriving script = concat (save_domain_core_writeconfig config) ++ rest ->
  exists script', load_header hdr_junk block script = Some (HOk (Some config) script') /\ arriving script' = rest.
Proof.
  intros Hj Hb Hc Ha. set (n := Z.of_nat (length config)) in *.
  set (hdr := Hdr savefileheader_magic SAVEFILE_BYTEORDER_VALUE 0 0 (n + 4)).
  assert (save_domain_core_writeconfig config = [header_bytes hdr; le_bytes 4 n ++ config]) as Hw.
  { unfold save_domain_core_writeconfig, ADD_OPTDATA. rewrite le_bytes_length. change (truthy (Z.of_nat 4)) with true. change (u32 (([] : list Z, 0).2 + Z.of_nat 4)) with 4. cbn [fst snd app]. fold n. unfold truthy. destruct (Z.eqb_spec n 0) as [E0|E0]; cbn [negb].
    - unfold hdr. rewrite E0. destruct config; [by rewrite app_nil_r|unfold n in E0; cbn in E0; lia].
    - unfold hdr. rewrite u32_small by lia. by rewrite Z.add_comm. }
  rewrite Hw in Ha. cbn [concat] in Ha. rewrite app_nil_r, <- !app_assoc in Ha.
  assert (length (header_bytes hdr) = sizeof_hdr) as Hl by by apply header_bytes_length.
  unfold load_header.
  destruct (read_exactly_ok script hdr_junk 0 sizeof_hdr) as (s1 & -> & E1); [lia|rewrite Ha, length_app; lia|].
  cbn [mbind option_bind]. rewrite Ha, take_app_length' by done. rewrite write_at_all by (by rewrite Hj).
  rewrite Ha, drop_app_length' in E1 by done. cbn [Z.ltb Z.compare].
  rewrite (header_of_bytes hdr) by (done || (unfold word32, hdr; cbn; lia)). cbn [hdr magic byteorder mandatory_flags optional_data_len].
  rewrite decide_False by tauto. cbn [Z.eqb negb SAVEFILE_BYTEORDER_VALUE]. rewrite Z.land_0_l. cbn [truthy Z.eqb negb].
  unfold truthy. rewrite (proj2 (Z.eqb_neq (n + 4) 0)) by lia. cbn [negb].
  assert (length (le_bytes 4 n ++ config) = Z.to_nat (n + 4)) as Ho by (rewrite length_app, le_bytes_length; lia).
  destruct (read_exactly_ok s1 (block (Z.to_nat (n + 4))) 0 (Z.to_nat (n + 4))) as (s2 & -> & E2);
    [rewrite Hb; lia|rewrite E1, !length_app, le_bytes_length; lia|].
  cbn [mbind option_bind]. rewrite E1, (app_assoc (le_bytes 4 n)), take_app_length' by done.
  rewrite write_at_all by (by rewrite Hb). cbn [Z.ltb Z.compare].
  rewrite E1, app_assoc, drop_app_length' in E2 by done. exists s2. split; [|done].
  unfold optdata_config. rewrite (proj2 (Z.eqb_neq (n + 4) 0)), (proj2 (Z.ltb_ge (n + 4) 4)) by lia.
  rewrite take_app_length' by (by rewrite le_bytes_length). rewrite le_word by (unfold word32; lia).
  rewrite s32_small by lia. rewrite (proj2 (Z.ltb_ge (n + 4 - 4) n)), (proj2 (Z.ltb_ge n 0)) by lia.
  rewrite drop_app_length' by (by rewrite le_bytes_length). rewrite take_ge by lia. done.
Qed.

Lemma savefile_roundtrip_witness :
  exists script',
    load_header (replicate 48 7) (fun n => replicate n 9)
      [RErr EINTR; RData (take 50 (concat (save_domain_core_writeconfig [65; 66; 67]))); RErr EINTR;
       RData (drop 50 (concat (save_domain_core_writeconfig [65; 66; 67])) ++ [1; 2])] =
    Some (HOk (Some [65; 66; 67]) script') /\ arriving script' = [1; 2].
Proof.
  apply (savefile_roundtrip (replicate 48 7) (fun n => replicate n 9) [65; 66; 67] _ [1; 2]);
    [done|intros n; apply length_replicate|cbn; lia|vm_compute; reflexivity].
Defined.

(** The receiver never copies the configuration from outside the
    block of optional data, whatever the header says and however the reads
    fail: the configuration it accepts is the part of a block of
    [optional_data_len] bytes that follows its first four bytes, which hold
    its length. *)
Theorem savefile_config_in_block hdr_junk block script config script' :
  length hdr_junk = sizeof_hdr -> (forall n, length (block n) = n) ->
  load_header hdr_junk block script = Some (HOk (Some config) script') ->
  exists optdata, 4 + Z.of_nat (length config) <= Z.of_nat (length optdata) /\
    s32 (le_val (take 4 optdata)) = Z.of_nat (length config) /\
    take (length config) (drop 4 optdata) = config.
Proof.
  intros Hj Hb E. unfold load_header in E. apply bind_Some in E as ([[rc bs] s1] & E1 & E).
  destruct (rc <? 0); [done|]. destruct (decide (magic (header_of bs) <> savefileheader_magic)); [done|].
  destruct (negb (byteorder (header_of bs) =? SAVEFILE_BYTEORDER_VALUE)); [done|].
  destruct (truthy (mandatory_flags (header_of bs) .& not_w 32 0)); [done|].
  set (len := optional_data_len (header_of bs)) in *.
  destruct (truthy len) eqn:Hl.
  - apply bind_Some in E as ([[rc2 optdata] s2] & E2 & E). destruct (rc2 <? 0); [done|]. injection E as E.
    apply read_exactly_length in E2; [|rewrite Hb; lia]. rewrite Hb in E2.
    unfold optdata_config in E. destruct (len =? 0); [done|]. destruct (Z.ltb_spec len 4); [done|].
    set (cl := s32 (le_val (take 4 optdata))) in *.
    destruct (Z.ltb_spec (len - 4) cl); [done|]. destruct (Z.ltb_spec cl 0); [done|].
    injection E as <- <-. exists optdata.
    assert (length (take (Z.to_nat cl) (drop 4 optdata)) = Z.to_nat cl) as Hlen by (rewrite length_take, length_drop; lia).
    rewrite Hlen. split; [lia|]. split; [lia|done].
  - unfold optdata_config in E. unfold truthy in Hl. destruct (len =? 0); done.
Qed.

Lemma savefile_config_in_block_witness :
  exists optdata, 4 + 3 <= Z.of_nat (length optdata) /\ s32 (le_val (take 4 optdata)) = 3 /\
    take 3 (drop 4 optdata) = [65; 66; 67].
Proof.
  apply (savefile_config_in_block (replicate 48 7) (fun n => replicate n 9)
           [RData (concat (save_domain_core_writeconfig [65; 66; 67]))] [65; 66; 67] []);
    [done|intros n; apply length_replicate|vm_compute; reflexivity].
Defined.

End SaveFile.
