(* ===== verification/Checkpoint.v ===== *)
(** The receiver's main loop over checkpoints.

    Models [xc_domain_restore] (tools/libxc/xc_domain_restore.c) from the label
    [loadpages] to the label [finish]: the first image, whose pages the slaves
    receive and whose records the master reads ([Control]), its tail, and,
    unless the sender announced that it was the last one, further checkpoints
    on the main connection, each a section read by [pagebuf_get] ([Stream])
    and a tail ([Tail], [HvmTail]).  A checkpoint that does not arrive whole
    makes the receiver finish with the tail of the one before. *)

From S2P Require Import Prelude IO Stream Control.

Module Checkpoint.
Import IO Stream Control.

Section Main.
Context {S T : Type} `{BS : ByteSource S}.
Context (set_tsc_info : Z -> Z -> Z -> Z -> bool) (tmem_restore tmem_restore_extra : S -> bool * S).
(** [buffer_tail] for the kind of guest, with [max_vcpu_id] and [vcpumap]: its
    result, the tail and the rest of the stream; whether the pending updates
    of the machine-to-physical table could be flushed; the fuel of the parser,
    and whether the announcement of the last iteration was seen. *)
Context (buffer_tail : Z -> Z -> S -> Z * T * S) (flush_ok : bool) (gfuel : nat) (last_seen : bool).

Record mstate := MState {
  m_parser : pstate S; m_completed : bool; m_tail : option T; m_max_vcpu_id : Z; m_vcpumap : Z
}.

(** "catch vcpu updates". *)
Definition catch_updates (st : mstate) : mstate :=
  let b := buf (m_parser st) in
  MState (m_parser st) (m_completed st) (m_tail st)
    (if new_ctxt_format b then max_vcpu_id b else m_max_vcpu_id st)
    (if new_ctxt_format b then vcpumap b else m_vcpumap st).

(** The [for ( ; ; )] loop: [Some None] is the jump to [out]. *)
Fixpoint load_loop (fuel : nat) (st : mstate) : option (option mstate) :=
  match fuel with
  | O => None
  | Datatypes.S fuel =>
      if m_completed st then
        if nr_pages (buf (m_parser st)) =? 0 then Some (Some (catch_updates st)) else load_loop fuel st
      else
        '(rc, p) ← master_records set_tsc_info tmem_restore tmem_restore_extra gfuel last_seen (m_parser st);
        if truthy rc then Some None
        else
          let st := MState p (m_completed st) (m_tail st) (m_max_vcpu_id st) (m_vcpumap st) in
          if nr_pages (buf p) =? 0 then Some (Some (catch_updates st)) else load_loop fuel st
  end.

(** How the loop is left: at [out], or at [finish] with the tail in use. *)
Inductive ended := Out | Finish (tail : option T) (max_vcpu_id vcpumap : Z).

Definition finish (st : mstate) : ended := Finish (m_tail st) (m_max_vcpu_id st) (m_vcpumap st).

Definition with_tail (st : mstate) (s : S) (t : T) : mstate :=
  MState (PState (buf (m_parser st)) (last_checkpoint (m_parser st)) s) true (Some t) (m_max_vcpu_id st) (m_vcpumap st).

(** The tail of the first image, after which the image is complete. *)
Definition first_tail (st : mstate) : option mstate :=
  if m_completed st then Some st
  else
    let '(rc, t, s) := buffer_tail (m_max_vcpu_id st) (m_vcpumap st) (source (m_parser st)) in
    if rc <? 0 then None else Some (with_tail st s t).

(** The next checkpoint, buffered: [Some (inl st)], or the decision to finish
    with what there is: [Some (inr st)]. *)
Definition next_checkpoint (st : mstate) : option (mstate + mstate) :=
  '(rc, p) ← pagebuf_get set_tsc_info tmem_restore tmem_restore_extra gfuel (m_parser st);
  let st := MState p (m_completed st) (m_tail st) (m_max_vcpu_id st) (m_vcpumap st) in
  if truthy rc then Some (inr st)
  else
    let '(rc, t, s) := buffer_tail (m_max_vcpu_id st) (m_vcpumap st) (source p) in
    if rc <? 0 then Some (inr st) else Some (inl (with_tail st s t)).

(** From [loadpages]. *)
Fixpoint restore_main (fuel : nat) (st : mstate) : option ended :=
  match fuel with
  | O => None
  | Datatypes.S fuel =>
      r ← load_loop fuel st;
      match r with
      | None => Some Out
      | Some st =>
          if negb flush_ok then Some Out
          else
            match first_tail st with
            | None => Some Out
            | Some st =>
                if last_checkpoint (m_parser st) then Some (finish st)
                else
                  c ← next_checkpoint st;
                  match c with
                  | inr st => Some (finish st)
                  | inl st => restore_main fuel st
                  end
            end
      end
  end.

(** ** Checkpoints *)

(** A whole checkpoint without pages that is not the last: the receiver holds
    its tail and goes on. *)
Definition took (st st' : mstate) : Prop :=
  m_completed st = true /\ nr_pages (buf (m_parser st)) = 0 /\ last_checkpoint (m_parser st) = false /\
  next_checkpoint (catch_updates st) = Some (inl st').

Lemma catch_updates_same st :
  m_parser (catch_updates st) = m_parser st /\ m_completed (catch_updates st) = m_completed st /\
  m_tail (catch_updates st) = m_tail st.
Proof. done. Qed.

Lemma restore_main_S fuel st :
  restore_main (Datatypes.S fuel) st =
    (r ← load_loop fuel st;
     match r with
     | None => Some Out
     | Some st =>
         if negb flush_ok then Some Out
         else match first_tail st with
              | None => Some Out
              | Some st =>
                  if last_checkpoint (m_parser st) then Some (finish st)
                  else c ← next_checkpoint st; match c with inr st => Some (finish st) | inl st => restore_main fuel st end
              end
     end).
Proof. done. Qed.

(** One round of the loop on a complete image whose pages are applied. *)
Lemma restore_round fuel st :
  flush_ok = true -> m_completed st = true -> nr_pages (buf (m_parser st)) = 0 ->
  restore_main (Datatypes.S (Datatypes.S fuel)) st =
    (if last_checkpoint (m_parser st) then Some (finish (catch_updates st))
     else c ← next_checkpoint (catch_updates st);
       match c with inr st => Some (finish st) | inl st => restore_main (Datatypes.S fuel) st end).
Proof.
  intros Hf Hc Hn. rewrite restore_main_S.
  assert (load_loop (Datatypes.S fuel) st = Some (Some (catch_updates st))) as -> by (cbn [load_loop]; by rewrite Hc, Hn).
  cbn [mbind option_bind]. rewrite Hf. cbn [negb]. unfold first_tail. cbn [catch_updates m_completed]. by rewrite Hc.
Qed.

Lemma restore_nsteps k st st' fuel r :
  flush_ok = true -> nsteps took k st st' -> restore_main (Datatypes.S (Datatypes.S fuel)) st' = r ->
  restore_main (Datatypes.S (Datatypes.S (k + fuel))) st = r.
Proof.
  intros Hf H. revert r. induction H as [|k x y z (Hc & Hn & Hl & Ht) _ IH]; intros r Hr; [done|].
  change (Datatypes.S k + fuel)%nat with (Datatypes.S (k + fuel)). rewrite restore_round by done. rewrite Hl, Ht. cbn [mbind option_bind].
  by apply IH.
Qed.

Lemma spin fuel st : m_completed st = true -> nr_pages (buf (m_parser st)) <> 0 -> load_loop fuel st = None.
Proof.
  intros Hc Hn. induction fuel as [|fuel IH]; [done|]. cbn [load_loop]. rewrite Hc, (proj2 (Z.eqb_neq _ _)); done.
Qed.

End Main.

(** ** Claims *)

(** When the sender dies, the receiver fails over to the last whole
    checkpoint: after any number of checkpoints without pages, a checkpoint
    that does not arrive whole, or whose tail does not, makes the receiver
    finish with the tail of the one before. *)
Theorem failover_last_tail {S T} `{BS : ByteSource S} set_tsc_info tmem_restore tmem_restore_extra
    (buffer_tail : Z -> Z -> S -> Z * T * S) gfuel last_seen k st st1 st2 fuel :
  nsteps (took set_tsc_info tmem_restore tmem_restore_extra buffer_tail gfuel) k st st1 ->
  m_completed st1 = true -> nr_pages (buf (m_parser st1)) = 0 -> last_checkpoint (m_parser st1) = false ->
  next_checkpoint set_tsc_info tmem_restore tmem_restore_extra buffer_tail gfuel (catch_updates st1) = Some (inr st2) ->
  restore_main set_tsc_info tmem_restore tmem_restore_extra buffer_tail true gfuel last_seen (2 + (k + fuel)) st =
    Some (finish st2) /\ m_tail st2 = m_tail st1.
Proof.
  intros Hk Hc Hn Hl Hx. split.
  - apply (restore_nsteps _ _ _ _ true gfuel last_seen k st st1 fuel); [done|done|].
    rewrite restore_round by done. rewrite Hl, Hx. done.
  - unfold next_checkpoint in Hx. destruct (pagebuf_get _ _ _ _ _) as [[rc p]|]; [|done]. cbn [mbind option_bind] in Hx.
    destruct (truthy rc); [by simplify_eq|]. destruct (buffer_tail _ _ _) as [[rc' t] s]. destruct (rc' <? 0); by simplify_eq.
Qed.

(** A checkpoint after the first image that carries a page is never
    applied: the loop over the batches has no code for it any more, and the
    receiver spins at [loadpages] for ever. *)
Theorem checkpoint_with_pages_spins {S T} `{BS : ByteSource S} set_tsc_info tmem_restore tmem_restore_extra
    (buffer_tail : Z -> Z -> S -> Z * T * S) gfuel last_seen st st' fuel :
  took set_tsc_info tmem_restore tmem_restore_extra buffer_tail gfuel st st' -> nr_pages (buf (m_parser st')) <> 0 ->
  restore_main set_tsc_info tmem_restore tmem_restore_extra buffer_tail true gfuel last_seen fuel st = None.
Proof.
  intros (Hc & Hn & Hl & Ht) Hp. destruct fuel as [|[|fuel]]; [done|done|]. rewrite restore_round by done.
  rewrite Hl, Ht. cbn [mbind option_bind restore_main]. rewrite spin; [done| |done].
  unfold next_checkpoint in Ht. destruct (pagebuf_get _ _ _ _ _) as [[rc p]|]; [|done]. cbn [mbind option_bind] in Ht.
  destruct (truthy rc); [done|]. destruct (buffer_tail _ _ _) as [[rc' t] s]. destruct (rc' <? 0); by simplify_eq.
Qed.

(** ** Concrete streams *)

(** Tails of one byte. *)
Definition demo_tail (_ _ : Z) (s : list Z) : Z * Z * list Z := match s with [] => (-1, 0, []) | b :: s => (0, b, s) end.
Definition demo_state (s : list Z) : mstate (S := list Z) (T := Z) := MState (PState pagebuf_init false s) true (Some 1) 0 1.
Definition demo_next := next_checkpoint (S := list Z) (T := Z) (fun _ _ _ _ => false) (fun s => (false, s)) (fun s => (false, s)) demo_tail 5.
Definition demo_taken (st : mstate (S := list Z) (T := Z)) : mstate (S := list Z) (T := Z) :=
  match demo_next (catch_updates st) with Some (inl st) | Some (inr st) => st | None => st end.

(** An empty checkpoint with the tail 7, then the end of the stream. *)
Lemma failover_last_tail_witness :
  restore_main (S := list Z) (T := Z) (fun _ _ _ _ => false) (fun s => (false, s)) (fun s => (false, s)) demo_tail true 5 true 3
    (demo_state (le_bytes 4 0 ++ [7])) = Some (Finish (Some 7) 0 1).
Proof.
  set (st := demo_state (le_bytes 4 0 ++ [7])). set (st1 := demo_taken st). set (st2 := demo_taken st1).
  destruct (failover_last_tail (S := list Z) (T := Z) (fun _ _ _ _ => false) (fun s => (false, s)) (fun s => (false, s))
    demo_tail 5 true 1 st st1 st2 0) as [H Ht].
  - apply nsteps_once. split; [done|]. split; [done|]. split; [done|]. vm_compute. reflexivity.
  - vm_compute. reflexivity.
  - vm_compute. reflexivity.
  - vm_compute. reflexivity.
  - vm_compute. reflexivity.
  - etrans; [exact H|]. vm_compute. reflexivity.
Defined.

(** A checkpoint with one entry. *)
Lemma checkpoint_with_pages_spins_witness :
  restore_main (S := list Z) (T := Z) (fun _ _ _ _ => false) (fun s => (false, s)) (fun s => (false, s)) demo_tail true 5 true 1000
    (demo_state (le_bytes 4 1 ++ le_bytes 8 0xf0000000 ++ le_bytes 4 0 ++ [7])) = None.
Proof.
  set (st := demo_state _).
  apply (checkpoint_with_pages_spins (S := list Z) (T := Z) (fun _ _ _ _ => false) (fun s => (false, s)) (fun s => (false, s))
    demo_tail 5 true st (demo_taken st)).
  - split; [done|]. split; [done|]. split; [done|]. vm_compute. reflexivity.
  - vm_compute. done.
Defined.

End Checkpoint.
