(* ===== verification/Relocate.v ===== *)
(** Moving the root page tables of a PAE guest below 4 GB.

    Models the block of [xc_domain_restore] (tools/libxc/xc_domain_restore.c)
    for three-level guests without extended CR3s, and [xc_make_page_below_4G]
    (tools/libxc/xc_private.c).  The first pass gives every third-level table
    above 4 GB a frame below it and copies its four entries; the second pass
    converts the first-level tables, which name the frames just moved, in
    batches of mapped pages. *)

From S2P Require Import Prelude PageTable Stream Apply.

Module Relocate.
Import PageTable Stream Apply.

Definition LIMIT : Z := 0xfffff.

(** The reservation calls answer whether the old frame was given back, and
    which frame, with what contents, was granted.  0 is failure. *)
Definition xc_make_page_below_4G (decreased : bool) (increased : option (Z * list Z)) : Z * list Z :=
  if negb decreased then (0, []) else match increased with None => (0, []) | Some (new_mfn, page) => (new_mfn, page) end.

Definition type_is (t : Z) (ltab : Z) : bool := (t .& XEN_DOMCTL_PFINFO_LTABTYPE_MASK) =? ltab.

Section Relocate.
Context (guest_width p2m_size pt_levels : Z) (pae_extended_cr3 : bool).
(** The answers to the k-th call of [xc_make_page_below_4G]; whether an update
    of the machine-to-physical table is accepted; whether a list of frames can
    be mapped; whether the updates can be flushed. *)
Context (answer : nat -> bool * option (Z * list Z)) (mmu_ok : Z -> Z -> bool).
Context {A : Type} (populate : A -> list Z -> option (list Z) * A).
Context (map_pages : list Z -> bool) (flush_ok : bool).

Definition type_of (d : rdom) (i : Z) : Z := pfn_type d !!! Z.to_nat i.
Definition page_at (d : rdom) (mfn : Z) : list Z := default [] (mem d !! mfn).

Definition is_high (d : rdom) (i : Z) : bool :=
  type_is (type_of d i) XEN_DOMCTL_PFINFO_L3TAB && (p2m_get (rp2m d) i >? LIMIT).

(** The body of the first loop for a table that has to move; [k] counts the
    calls.  The old frame leaves the domain. *)
Definition move_table (i : Z) (k : nat) (d : rdom) : option rdom :=
  let old := p2m_get (rp2m d) i in
  let l3ptes := take 32 (page_at d old) in
  let '(new_mfn, page) := xc_make_page_below_4G (answer k).1 (answer k).2 in
  if new_mfn =? 0 then None
  else if negb (mmu_ok new_mfn i) then None
  else Some (RDom (p2m_set (rp2m d) i new_mfn) (nr_pfns d) (pfn_type d)
               (<[new_mfn := write_at page 0 l3ptes]> (delete old (mem d))) (mmu d ++ [(new_mfn, i)])).

Fixpoint first_pass (n : nat) (i : Z) (k : nat) (d : rdom) : option rdom :=
  match n with
  | O => Some d
  | S n => if is_high d i then d ← move_table i k d; first_pass n (i + 1) (S k) d else first_pass n (i + 1) k d
  end.

(** [uncanonicalize_pagetable] on the pages of a mapped region. *)
Fixpoint uncanon_region (frames : list Z) (d : rdom) (a : A) : option (rdom * A) :=
  match frames with
  | [] => Some (d, a)
  | f :: frames =>
      let '(ok, page, st, a) := uncanonicalize_pagetable guest_width p2m_size populate pt_levels a (rp2m d) (page_at d f) in
      let d := RDom st (nr_pfns d) (pfn_type d) (<[f := page]> (mem d)) (mmu d) in
      if ok then uncanon_region frames d a else None
  end.

(** The second loop; [region] is [region_mfn] up to [j]. *)
Fixpoint second_pass (n : nat) (i : Z) (region : list Z) (d : rdom) (a : A) : option (rdom * A) :=
  match n with
  | O => Some (d, a)
  | S n =>
      let region := if type_is (type_of d i) XEN_DOMCTL_PFINFO_L1TAB then region ++ [p2m_get (rp2m d) i] else region in
      if (i =? p2m_size - 1) || (Z.of_nat (length region) =? Z.of_nat MAX_BATCH_SIZE) then
        if negb (map_pages region) then None
        else '(d, a) ← uncanon_region region d a; second_pass n (i + 1) [] d a
      else second_pass n (i + 1) region d a
  end.

(** The whole block. *)
Definition pae_fixup (d : rdom) (a : A) : option (rdom * A) :=
  if (pt_levels =? 3) && negb pae_extended_cr3 then
    d ← first_pass (Z.to_nat p2m_size) 0 0 d;
    r ← second_pass (Z.to_nat p2m_size) 0 [] d a;
    if negb flush_ok then None else Some r
  else Some (d, a).

(** ** The first pass *)

Definition l3_at (d : rdom) (j : Z) : Prop := type_is (type_of d j) XEN_DOMCTL_PFINFO_L3TAB = true.

(** The tables of the guest: every third-level table has a frame, and no
    frame serves two pages. *)
Record tables_ok (d : rdom) : Prop := {
  to_size : Z.of_nat (length (p2m (rp2m d))) = p2m_size;
  to_l3 : forall j, 0 <= j < p2m_size -> l3_at d j ->
    p2m_get (rp2m d) j <> INVALID_P2M_ENTRY /\ length (page_at d (p2m_get (rp2m d) j)) = page_bytes;
  to_inj : forall j j', 0 <= j < p2m_size -> 0 <= j' < p2m_size -> p2m_get (rp2m d) j <> INVALID_P2M_ENTRY ->
    p2m_get (rp2m d) j = p2m_get (rp2m d) j' -> j = j'
}.

(** The frames granted from the k-th call on: below the limit, whole pages,
    and not in use. *)
Definition granted (k : nat) (m : Z) (page : list Z) : Prop := (answer k).2 = Some (m, page).
Record grants_ok (k : nat) (d : rdom) : Prop := {
  gr_low : forall k' m page, (k <= k')%nat -> granted k' m page -> 0 < m <= LIMIT /\ length page = page_bytes;
  gr_fresh : forall k' m page j, (k <= k')%nat -> granted k' m page -> 0 <= j < p2m_size -> p2m_get (rp2m d) j <> m;
  gr_distinct : forall k1 k2 m1 m2 p1 p2, (k <= k1)%nat -> (k1 < k2)%nat -> granted k1 m1 p1 -> granted k2 m2 p2 -> m1 <> m2
}.

Lemma p2m_get_set st i m j :
  0 <= i < Z.of_nat (length (p2m st)) -> 0 <= j -> p2m_get (p2m_set st i m) j = if decide (j = i) then m else p2m_get st j.
Proof.
  intros Hi Hj. unfold p2m_get, p2m_set. cbn [p2m]. case_decide as E.
  - subst j. apply list_lookup_total_insert_eq. lia.
  - apply list_lookup_total_insert_ne. lia.
Qed.

(** Moving one table. *)
Record moved (i : Z) (k : nat) (d d1 : rdom) (m : Z) : Prop := {
  mv_get : forall j, 0 <= j -> p2m_get (rp2m d1) j = if decide (j = i) then m else p2m_get (rp2m d) j;
  mv_type : pfn_type d1 = pfn_type d;
  mv_page : take 32 (page_at d1 m) = take 32 (page_at d (p2m_get (rp2m d) i));
  mv_mem : forall f, f <> m -> f <> p2m_get (rp2m d) i -> mem d1 !! f = mem d !! f;
  mv_mmu : mmu d1 = mmu d ++ [(m, i)];
  mv_low : 0 < m <= LIMIT;
  mv_batch : p2m_batch (rp2m d1) = p2m_batch (rp2m d);
  mv_fresh : forall j, 0 <= j < p2m_size -> p2m_get (rp2m d) j <> m;
  mv_tables : tables_ok d1;
  mv_grants : grants_ok (S k) d1
}.

Lemma move_table_spec i k d d1 :
  0 <= i < p2m_size -> l3_at d i -> tables_ok d -> grants_ok k d -> move_table i k d = Some d1 -> exists m, moved i k d d1 m.
Proof.
  intros Hi Hi3 [Hsz H3 Hinj] [Hlow Hfr Hdist] E. unfold move_table, xc_make_page_below_4G in E.
  destruct (answer k) as [dec inc] eqn:Ea. cbn [fst snd] in E. destruct dec; cbn [negb] in E; [|done].
  destruct inc as [[m page]|]; [|done]. destruct (m =? 0); [done|]. destruct (negb (mmu_ok m i)); [done|]. injection E as <-.
  assert (granted k m page) as Hg by (unfold granted; by rewrite Ea).
  destruct (Hlow k m page ltac:(lia) Hg) as [[Hm0 Hm] Hpl].
  assert (forall j, 0 <= j -> p2m_get (p2m_set (rp2m d) i m) j = if decide (j = i) then m else p2m_get (rp2m d) j) as Hget
    by (intros j Hj; apply p2m_get_set; lia).
  assert (forall j, 0 <= j < p2m_size -> p2m_get (rp2m d) j <> m) as Hnm by (intros j Hj; by apply (Hfr k m page)).
  destruct (H3 i Hi Hi3) as [Hiv Hil].
  assert (length (take 32 (page_at d (p2m_get (rp2m d) i))) = 32%nat) as H32 by (rewrite length_take, Hil; done).
  set (d1 := RDom _ _ _ _ _).
  assert (forall f, f <> m -> f <> p2m_get (rp2m d) i -> mem d1 !! f = mem d !! f) as Hmem
    by (intros f Hf1 Hf2; unfold d1; cbn [mem]; by rewrite lookup_insert_ne, lookup_delete_ne).
  assert (page_at d1 m = write_at page 0 (take 32 (page_at d (p2m_get (rp2m d) i)))) as Hnew
    by (unfold page_at at 1, d1; cbn [mem]; by rewrite lookup_insert_eq).
  exists m. split; try done.
  - rewrite Hnew. rewrite <- H32 at 1. apply take_write_at. rewrite H32, Hpl. unfold page_bytes. lia.
  - split; cbn [d1 rp2m].
    + unfold p2m_set. cbn [p2m]. by rewrite length_insert.
    + intros j Hj Hl. rewrite Hget by lia. case_decide as Ej.
      * split; [unfold INVALID_P2M_ENTRY; unfold LIMIT in Hm; lia|]. fold d1. rewrite Hnew, write_at_length; [done|].
        rewrite H32, Hpl. unfold page_bytes. lia.
      * destruct (H3 j Hj Hl) as [Hjv Hjl]. split; [done|]. fold d1. unfold page_at. rewrite Hmem; [done|by apply Hnm|].
        intros E. apply Ej. symmetry in E. by apply (Hinj i j Hi Hj Hiv) in E.
    + intros j j' Hj Hj'. rewrite !Hget by lia. case_decide; case_decide; subst; try done.
      * intros _ E. by destruct (Hnm j' Hj').
      * intros _ E. by destruct (Hnm j Hj).
      * by apply Hinj.
  - split.
    + intros k' m' p' Hk. apply Hlow. lia.
    + intros k' m' p' j Hk Hg' Hj. cbn [d1 rp2m]. rewrite Hget by lia. case_decide.
      * intros ->. by apply (Hdist k k' m' m' page p'); [lia|lia|..].
      * apply (Hfr k' m' p'); [lia|done|done].
    + intros k1 k2 m1 m2 p1 p2 H1 H2. apply Hdist; lia.
Qed.

(** The tables that have to move, among the [n] frames from [i]. *)
Definition highs (n : nat) (i : Z) (d : rdom) : list Z := filter (fun j => is_high d j = true) (seqZ i (Z.of_nat n)).

(** What the first pass has done over the [n] frames from [i]. *)
Record relocated (n : nat) (i : Z) (d d' : rdom) : Prop := {
  rl_tables : tables_ok d';
  rl_type : pfn_type d' = pfn_type d;
  rl_batch : p2m_batch (rp2m d') = p2m_batch (rp2m d);
  rl_low : forall j, i <= j < i + Z.of_nat n -> l3_at d j -> p2m_get (rp2m d') j <= LIMIT;
  rl_new : forall j, i <= j < i + Z.of_nat n -> is_high d j = true -> 0 < p2m_get (rp2m d') j;
  rl_entries : forall j, i <= j < i + Z.of_nat n -> l3_at d j ->
    take 32 (page_at d' (p2m_get (rp2m d') j)) = take 32 (page_at d (p2m_get (rp2m d) j));
  rl_kept : forall j, 0 <= j < p2m_size -> ~ (i <= j < i + Z.of_nat n /\ is_high d j = true) ->
    p2m_get (rp2m d') j = p2m_get (rp2m d) j /\
    (p2m_get (rp2m d) j <> INVALID_P2M_ENTRY -> mem d' !! p2m_get (rp2m d) j = mem d !! p2m_get (rp2m d) j);
  rl_mmu : mmu d' = mmu d ++ map (fun j => (p2m_get (rp2m d') j, j)) (highs n i d)
}.

Lemma seqZ_S i n : seqZ i (Z.of_nat (S n)) = i :: seqZ (i + 1) (Z.of_nat n).
Proof. rewrite seqZ_cons by lia. do 2 f_equal; lia. Qed.

Lemma highs_S n i d : highs (S n) i d = if is_high d i then i :: highs n (i + 1) d else highs n (i + 1) d.
Proof. unfold highs. rewrite seqZ_S, filter_cons. destruct (is_high d i) eqn:E; case_decide; congruence. Qed.

Lemma moved_high i k d d1 m j : moved i k d d1 m -> 0 <= j -> j <> i -> is_high d1 j = is_high d j.
Proof.
  intros M Hj Hne. unfold is_high, type_of. rewrite (mv_type _ _ _ _ _ M), (mv_get _ _ _ _ _ M) by lia. by rewrite decide_False.
Qed.

Lemma highs_moved n i k d d1 m : 0 <= i -> moved i k d d1 m -> highs n (i + 1) d1 = highs n (i + 1) d.
Proof.
  intros Hi M. unfold highs. assert (Forall (fun j => i < j) (seqZ (i + 1) (Z.of_nat n))) as Hall
    by (apply Forall_forall; intros j [Hj ?]%elem_of_seqZ; lia).
  induction Hall as [|j js Hj _ IH]; [done|]. rewrite !filter_cons, IH, (moved_high i k d d1 m j M) by lia. done.
Qed.

(** A page with a frame of its own is left alone by a move. *)
Lemma moved_other i k d d1 m j :
  moved i k d d1 m -> tables_ok d -> 0 <= i < p2m_size -> l3_at d i -> 0 <= j < p2m_size -> j <> i ->
  p2m_get (rp2m d1) j = p2m_get (rp2m d) j /\
  (p2m_get (rp2m d) j <> INVALID_P2M_ENTRY -> mem d1 !! p2m_get (rp2m d) j = mem d !! p2m_get (rp2m d) j).
Proof.
  intros M T Hi H3 Hj Hne. split; [rewrite (mv_get _ _ _ _ _ M) by lia; by rewrite decide_False|].
  intros Hv. apply (mv_mem _ _ _ _ _ M); [by apply (mv_fresh _ _ _ _ _ M)|]. intros E. by apply Hne, (to_inj _ T).
Qed.

Lemma relocated_skip n i d d' :
  0 <= i < p2m_size -> is_high d i = false -> tables_ok d -> relocated n (i + 1) d d' -> relocated (S n) i d d'.
Proof.
  intros Hi Hh T [T' Ety Eb Hl Hp He Hk Hm].
  assert (forall j, i <= j < i + Z.of_nat (S n) -> j = i \/ i + 1 <= j < i + 1 + Z.of_nat n) as Hc by lia.
  destruct (Hk i Hi ltac:(lia)) as [Ki Mi]. split; try done.
  - intros j Hj H3. destruct (Hc j Hj) as [->|Hj']; [|by apply Hl]. rewrite Ki.
    unfold is_high in Hh. rewrite H3 in Hh. cbn [andb] in Hh. lia.
  - intros j Hj Hj'. destruct (Hc j Hj) as [->|Hr]; [congruence|by apply Hp].
  - intros j Hj H3. destruct (Hc j Hj) as [->|Hj']; [|by apply He].
    rewrite Ki. unfold page_at. rewrite Mi; [done|]. by apply (to_l3 _ T).
  - intros j Hj Hn. apply Hk; [done|]. intros [Hr E]. apply Hn. split; [lia|done].
  - rewrite highs_S, Hh. done.
Qed.

Lemma relocated_move n i k d d1 d' m :
  0 <= i < p2m_size -> i + Z.of_nat (S n) <= p2m_size -> is_high d i = true -> tables_ok d -> moved i k d d1 m ->
  relocated n (i + 1) d1 d' -> relocated (S n) i d d'.
Proof.
  intros Hi Hn Hh T M [T' Ety Eb Hl Hp He Hk Hm].
  assert (l3_at d i) as H3 by (unfold is_high in Hh; by apply andb_true_iff in Hh as [??]).
  assert (forall j, i <= j < i + Z.of_nat (S n) -> j = i \/ (i + 1 <= j < i + 1 + Z.of_nat n /\ j <> i)) as Hc by lia.
  assert (forall j, l3_at d j -> l3_at d1 j) as H31 by (intros j; unfold l3_at, type_of; by rewrite (mv_type _ _ _ _ _ M)).
  assert (p2m_get (rp2m d1) i = m) as Em by (rewrite (mv_get _ _ _ _ _ M) by lia; by rewrite decide_True).
  destruct (Hk i Hi ltac:(lia)) as [Ki Mi]. rewrite Em in Ki, Mi.
  assert (m <> INVALID_P2M_ENTRY) as Hmv by (pose proof (mv_low _ _ _ _ _ M); unfold LIMIT, INVALID_P2M_ENTRY in *; lia).
  pose proof (fun j => moved_other i k d d1 m j M T Hi H3) as Ho.
  split; try done.
  - by rewrite Ety, (mv_type _ _ _ _ _ M).
  - by rewrite Eb, (mv_batch _ _ _ _ _ M).
  - intros j Hj Hj3. destruct (Hc j Hj) as [->|[Hj' _]]; [rewrite Ki; apply (mv_low _ _ _ _ _ M)|]. apply Hl; auto.
  - intros j Hj Hjh. destruct (Hc j Hj) as [->|[Hj' Hne]]; [rewrite Ki; apply (mv_low _ _ _ _ _ M)|].
    apply Hp; [done|]. rewrite (moved_high i k d d1 m j M) by lia. done.
  - intros j Hj Hj3. destruct (Hc j Hj) as [->|[Hj' Hne]].
    + rewrite Ki. unfold page_at at 1. rewrite Mi by done. apply (mv_page _ _ _ _ _ M).
    + rewrite He by auto. destruct (Ho j ltac:(lia) Hne) as [Eg Emm]. rewrite Eg. unfold page_at. rewrite Emm; [done|].
      apply (to_l3 _ T); [lia|done].
  - intros j Hj Hnj. destruct (decide (j = i)) as [->|Hne]; [destruct Hnj; split; [lia|done]|].
    destruct (Ho j Hj Hne) as [Eg Emm]. rewrite <- Eg at 1 2. destruct (Hk j Hj) as [K1 K2].
    + rewrite (moved_high i k d d1 m j M) by lia. intros [Hr E]. apply Hnj. split; [lia|done].
    + split; [congruence|]. intros Hv. rewrite <- Emm by congruence. rewrite <- Eg. apply K2. congruence.
  - rewrite Hm, (mv_mmu _ _ _ _ _ M), highs_S, Hh, (highs_moved n i k d d1 m) by (done || lia). cbn [map]. by rewrite Ki, <- app_assoc.
Qed.

(** Calls of [xc_make_page_below_4G] that are answered with a frame. *)
Definition answered (k : nat) : Prop := (answer k).1 = true /\ is_Some (answer k).2.

Lemma move_table_total i k d :
  grants_ok k d -> answered k -> (forall m, mmu_ok m i = true) -> exists d1, move_table i k d = Some d1.
Proof.
  intros G [Hd [[m page] Hi]] Hmmu. unfold move_table, xc_make_page_below_4G. rewrite Hd, Hi. cbn [negb].
  destruct (gr_low _ _ G k m page) as [Hm _]; [lia|done|]. destruct (Z.eqb_spec m 0); [lia|].
  rewrite Hmmu. eauto.
Qed.

Lemma first_pass_spec n : forall i k d,
  0 <= i -> i + Z.of_nat n = p2m_size -> tables_ok d -> grants_ok k d -> (forall m i, mmu_ok m i = true) ->
  (forall k', (k <= k' < k + length (highs n i d))%nat -> answered k') ->
  exists d', first_pass n i k d = Some d' /\ relocated n i d d'.
Proof.
  induction n as [|n IH]; intros i k d Hi Hn T G Hmmu Ha; cbn [first_pass].
  - exists d. split; [done|]. split; try done; try lia. cbn. by rewrite app_nil_r.
  - rewrite highs_S in Ha. destruct (is_high d i) eqn:Hh.
    + destruct (move_table_total i k d G) as [d1 E1]; [apply Ha; cbn; lia|done|]. rewrite E1. cbn [mbind option_bind].
      destruct (move_table_spec i k d d1) as [m M]; try done; [lia|unfold is_high in Hh; by apply andb_true_iff in Hh as [??]|].
      destruct (IH (i + 1) (S k) d1) as (d' & E' & R); try done; [lia|lia|apply M|apply M|..].
      { intros k' Hk'. rewrite (highs_moved n i k d d1 m) in Hk' by (done || lia). apply Ha. cbn. lia. }
      exists d'. split; [done|]. apply (relocated_move n i k d d1 d' m); (done || lia).
    + destruct (IH (i + 1) k d) as (d' & E' & R); try done; [lia|lia|].
      exists d'. split; [done|]. apply relocated_skip; (done || lia).
Qed.

(** ** The second pass *)

Definition w : nat := pte_width pt_levels.
Definition entries_at (d : rdom) (f : Z) : list Z := page_entries w (page_at d f).

(** The receiver's table between two pages: no entry is marked. *)
Record good_p2m (st : p2m_state) : Prop := {
  gp_size : Z.of_nat (length (p2m st)) = p2m_size;
  gp_batch : length (p2m_batch st) = MAX_BATCH_SIZE;
  gp_entry : forall p, 0 <= p < p2m_size -> p2m_get st p = INVALID_P2M_ENTRY \/ frame_ok guest_width (p2m_get st p)
}.

Definition grown (st st' : p2m_state) : Prop :=
  forall p, 0 <= p < p2m_size -> p2m_get st p <> INVALID_P2M_ENTRY -> p2m_get st' p = p2m_get st p.

(** The frames that the present entries name. *)
Definition resolved (st : p2m_state) (es : list Z) : Prop :=
  forall pte, pte ∈ es -> present pte = true -> 0 <= pte_pfn guest_width pte < p2m_size /\
    p2m_get st (pte_pfn guest_width pte) <> INVALID_P2M_ENTRY.

Lemma frame_ok_valid f : frame_ok guest_width f -> f <> INVALID_P2M_ENTRY.
Proof. intros Hf%frame_ok_real. apply Hf. Qed.

Lemma localize_grown st st' es :
  resolved st es -> grown st st' -> localize guest_width (p2m st') es = localize guest_width (p2m st) es.
Proof.
  intros Hr Hg. unfold localize. apply list_fmap_ext. intros k pte Hk. apply list_elem_of_lookup_2 in Hk.
  destruct (present pte) eqn:E; [|done]. destruct (Hr pte Hk E) as [Hp Hv]. f_equal. by apply Hg.
Qed.

Lemma uncanon_page_spec a st page :
  grants guest_width populate -> good_p2m st -> in_range guest_width p2m_size (page_entries w page) ->
  exists st' a', uncanonicalize_pagetable guest_width p2m_size populate pt_levels a st page =
      (true, entries_page w (localize guest_width (p2m st') (page_entries w page)), st', a') /\
    good_p2m st' /\ grown st st' /\ resolved st' (page_entries w page).
Proof.
  intros Hg [Hs Hb He] Hr. destruct st as [m b]. cbn [p2m p2m_batch] in Hs, Hb.
  unfold uncanonicalize_pagetable. fold w. set (es := page_entries w page) in *.
  assert (length es <= MAX_BATCH_SIZE)%nat as Hle
    by (unfold es, w, pte_width; rewrite page_entries_length; destruct (_ =? _); vm_compute; lia).
  destruct (uncanonicalize_entries_alloc guest_width p2m_size populate a m b es) as (fs & b' & a' & Hl & Hfs & E & _ & Hb'); try done.
  { apply (valid_unmarked guest_width). intros p Hp. rewrite Hs in Hp. by apply He. }
  pose proof (missing_range guest_width p2m_size m es Hs Hr) as Hmr.
  destruct (missing_spec guest_width p2m_size es m Hs Hr) as [Hnd Hin].
  assert (forall p, 0 <= p < p2m_size -> p ∈ missing guest_width m es \/ frame_ok guest_width (tget m p) ->
    frame_ok guest_width (tget (assign m (missing guest_width m es) fs) p)) as Hav by (intros; by apply (assign_valid guest_width p2m_size)).
  rewrite E. exists (P2MState (assign m (missing guest_width m es) fs) b'), a'. split; [cbn [p2m]; reflexivity|]. split_and!.
  - split; cbn [p2m p2m_batch]; [by rewrite assign_length|congruence|].
    intros p Hp. change (p2m_get (P2MState ?x _) p) with (tget x p).
    destruct (decide (p ∈ missing guest_width m es)) as [Hm|Hm]; [right; auto|].
    destruct (He p Hp) as [Ev|Ev]; [left|right; auto]. rewrite tget_assign_notin by (done || lia). exact Ev.
  - intros p Hp Hv. apply tget_assign_notin; [lia|done|]. rewrite Hin. intros (_ & ? & _). done.
  - intros pte Hel Hpr. pose proof (pte_pfn_nonneg guest_width pte).
    assert (0 <= pte_pfn guest_width pte < p2m_size) as Hp by (unfold in_range in Hr; rewrite Forall_forall in Hr; split; auto).
    split; [done|]. apply frame_ok_valid, Hav; [done|]. by apply (missing_or_valid guest_width p2m_size).
Qed.

(** Converting a region of distinct pages: each entry ends with the frame
    that the final table gives its page. *)
Record converted (frames : list Z) (d d' : rdom) : Prop := {
  cv_p2m : good_p2m (rp2m d');
  cv_grown : grown (rp2m d) (rp2m d');
  cv_type : pfn_type d' = pfn_type d;
  cv_mmu : mmu d' = mmu d;
  cv_pages : forall f, f ∈ frames -> page_at d' f = entries_page w (localize guest_width (p2m (rp2m d')) (entries_at d f)) /\
    resolved (rp2m d') (entries_at d f);
  cv_other : forall f, f ∉ frames -> mem d' !! f = mem d !! f
}.

Lemma converted_cons f frames d d1 d' :
  f ∉ frames -> converted [f] d d1 -> converted frames d1 d' -> converted (f :: frames) d d'.
Proof.
  intros Hf [P1 G1 T1 M1 C1 O1] [P2 G2 T2 M2 C2 O2]. split; [done| |congruence|congruence|..].
  - intros p Hp Hv. rewrite (G2 p Hp); [by apply G1|]. by rewrite G1.
  - intros x [->|Hx]%elem_of_cons.
    + destruct (C1 f ltac:(by left)) as [E R]. split.
      * unfold page_at at 1. rewrite O2 by done. fold (page_at d1 f). rewrite E. f_equal. symmetry. by apply localize_grown.
      * intros pte Hel Hpr. destruct (R pte Hel Hpr) as [Hr Hv]. split; [done|]. by rewrite G2.
    + assert (entries_at d1 x = entries_at d x) as E.
      { unfold entries_at, page_at. rewrite O1; [done|]. apply not_elem_of_cons. split; [by intros ->|apply not_elem_of_nil]. }
      rewrite <- E. by apply C2.
  - intros x [Hn Hx]%not_elem_of_cons. rewrite O2 by done. apply O1. apply not_elem_of_cons. split; [done|apply not_elem_of_nil].
Qed.

Lemma uncanon_region_spec frames : forall d a,
  grants guest_width populate -> good_p2m (rp2m d) -> NoDup frames ->
  (forall f, f ∈ frames -> in_range guest_width p2m_size (entries_at d f)) ->
  exists d' a', uncanon_region frames d a = Some (d', a') /\ converted frames d d'.
Proof.
  induction frames as [|f frames IH]; intros d a Hg Hp Hnd Hr; cbn [uncanon_region].
  { exists d, a. split; [done|]. split; try done. intros f Hf. by apply not_elem_of_nil in Hf. }
  apply NoDup_cons in Hnd as [Hf Hnd].
  destruct (uncanon_page_spec a (rp2m d) (page_at d f) Hg Hp) as (st' & a' & E & Hp' & Hgr & Hres); [apply Hr; by left|].
  rewrite E. set (d1 := RDom _ _ _ _ _).
  assert (forall x, x <> f -> mem d1 !! x = mem d !! x) as Ho by (intros x Hx; unfold d1; cbn [mem]; by rewrite lookup_insert_ne).
  assert (converted [f] d d1) as C1.
  { split; try done.
    - intros x ->%list_elem_of_singleton. split; [|done]. unfold page_at at 1, d1. cbn [mem]. by rewrite lookup_insert_eq.
    - intros x Hx. apply Ho. intros ->. apply Hx. by left. }
  destruct (IH d1 a') as (d' & a2 & E' & C); try done.
  { intros x Hx. unfold entries_at, page_at. rewrite Ho by (by intros ->). apply Hr. by right. }
  exists d', a2. split; [done|]. by apply (converted_cons f frames d d1 d').
Qed.

Lemma uncanon_region_app xs ys : forall d a,
  uncanon_region (xs ++ ys) d a = '(d, a) ← uncanon_region xs d a; uncanon_region ys d a.
Proof.
  induction xs as [|x xs IH]; intros d a; [done|]. cbn [app uncanon_region].
  destruct (uncanonicalize_pagetable _ _ _ _ _ _ _) as [[[ok page] st] a1]. destruct ok; [apply IH|done].
Qed.

Definition is_l1 (d : rdom) (j : Z) : bool := type_is (type_of d j) XEN_DOMCTL_PFINFO_L1TAB.
Definition l1_frames (n : nat) (i : Z) (d : rdom) : list Z :=
  p2m_get (rp2m d) <$> filter (fun j => is_l1 d j = true) (seqZ i (Z.of_nat n)).

(** The last region to be mapped holds no page: the tables fill whole
    batches, and the last page of the guest is not a table. *)
Definition last_batch_empty (total : nat) (d : rdom) : bool :=
  (total mod MAX_BATCH_SIZE =? 0)%nat && negb (is_l1 d (p2m_size - 1)).

Lemma l1_frames_S n i d :
  l1_frames (S n) i d = (if is_l1 d i then [p2m_get (rp2m d) i] else []) ++ l1_frames n (i + 1) d.
Proof. unfold l1_frames. rewrite seqZ_S, filter_cons. destruct (is_l1 d i) eqn:E; case_decide; try congruence; done. Qed.

Lemma l1_frames_kept n i d d1 :
  pfn_type d1 = pfn_type d ->
  (forall j, i <= j < i + Z.of_nat n -> is_l1 d j = true -> p2m_get (rp2m d1) j = p2m_get (rp2m d) j) ->
  l1_frames n i d1 = l1_frames n i d.
Proof.
  intros Et. revert i. induction n as [|n IH]; intros i Hk; [done|]. rewrite !l1_frames_S.
  rewrite IH by (intros; apply Hk; [lia|done]). f_equal. replace (is_l1 d1 i) with (is_l1 d i) by (unfold is_l1, type_of; by rewrite Et).
  destruct (is_l1 d i) eqn:E; [|done]. rewrite Hk; [done|lia|done].
Qed.

Lemma elem_l1_frames n i d f :
  f ∈ l1_frames n i d -> exists j, i <= j < i + Z.of_nat n /\ is_l1 d j = true /\ f = p2m_get (rp2m d) j.
Proof.
  unfold l1_frames. intros (j & -> & Hj)%list_elem_of_fmap. apply list_elem_of_filter in Hj as [Hj [Hr ?]%elem_of_seqZ].
  exists j. split_and!; auto; lia.
Qed.

(** What the region and the tables still to come have to satisfy. *)
Record pass_ok (region : list Z) (n : nat) (i : Z) (d : rdom) : Prop := {
  po_p2m : good_p2m (rp2m d);
  po_nodup : NoDup (region ++ l1_frames n i d);
  po_range : forall f, f ∈ region ++ l1_frames n i d -> in_range guest_width p2m_size (entries_at d f);
  po_valid : forall j, i <= j < i + Z.of_nat n -> is_l1 d j = true -> p2m_get (rp2m d) j <> INVALID_P2M_ENTRY
}.

Lemma pass_ok_next region n i d d1 :
  0 <= i -> i + Z.of_nat n <= p2m_size -> pass_ok region n i d -> converted region d d1 ->
  l1_frames n i d1 = l1_frames n i d /\ pass_ok [] n i d1.
Proof.
  intros Hi Hn [P N R V] C. assert (l1_frames n i d1 = l1_frames n i d) as E.
  { apply l1_frames_kept; [apply C|]. intros j Hj Hl. apply (cv_grown _ _ _ C); [lia|by apply V]. }
  split; [done|]. apply NoDup_app in N as (_ & Hd & N). split; cbn [app]; rewrite ?E; try done; [apply C|..].
  - intros f Hf. unfold entries_at, page_at. rewrite (cv_other _ _ _ C); [apply R, elem_of_app; by right|].
    intros Hx. by apply (Hd f Hx).
  - intros j Hj Hl. assert (is_l1 d j = true) as Hl' by (unfold is_l1, type_of in *; by rewrite (cv_type _ _ _ C) in Hl).
    rewrite (cv_grown _ _ _ C); [by apply V|lia|by apply V].
Qed.

Context (Hmap : forall l, map_pages l = bool_decide (l <> [])).

Lemma second_pass_S n i region d a :
  second_pass (S n) i region d a =
    let region := if is_l1 d i then region ++ [p2m_get (rp2m d) i] else region in
    if (i =? p2m_size - 1) || (Z.of_nat (length region) =? Z.of_nat MAX_BATCH_SIZE) then
      if negb (map_pages region) then None
      else '(d, a) ← uncanon_region region d a; second_pass n (i + 1) [] d a
    else second_pass n (i + 1) region d a.
Proof. done. Qed.

Lemma second_pass_spec n : forall i region d a,
  0 <= i -> i + Z.of_nat (S n) = p2m_size -> (length region < MAX_BATCH_SIZE)%nat ->
  grants guest_width populate -> pass_ok region (S n) i d ->
  second_pass (S n) i region d a =
    if last_batch_empty (length (region ++ l1_frames (S n) i d)) d then None
    else uncanon_region (region ++ l1_frames (S n) i d) d a.
Proof.
  induction n as [|n IH]; intros i region d a Hi Hn Hlen Hg Hok;
    pose proof (fun n => l1_frames_S n i d) as ES; rewrite second_pass_S; cbn zeta;
    set (region' := if is_l1 d i then region ++ [p2m_get (rp2m d) i] else region).
  - assert (i = p2m_size - 1) as -> by lia. rewrite Z.eqb_refl. cbn [orb]. rewrite ES. change (l1_frames 0 _ d) with (@nil Z).
    assert (region ++ (if is_l1 d (p2m_size - 1) then [p2m_get (rp2m d) (p2m_size - 1)] else []) ++ [] = region') as ->
      by (unfold region'; rewrite app_nil_r; destruct (is_l1 d (p2m_size - 1)); [done|apply app_nil_r]).
    unfold last_batch_empty. rewrite Hmap. unfold region'. destruct (is_l1 d (p2m_size - 1)).
    + rewrite bool_decide_eq_true_2 by (destruct region; done). rewrite andb_false_r. cbn [negb].
      by destruct (uncanon_region _ d a) as [[??]|].
    + rewrite andb_true_r. destruct region as [|x region]; [done|]. rewrite bool_decide_eq_true_2 by done. cbn [negb].
      rewrite Nat.mod_small by done. cbn [length Nat.eqb]. by destruct (uncanon_region _ d a) as [[??]|].
  - assert (region ++ l1_frames (S (S n)) i d = region' ++ l1_frames (S n) (i + 1) d) as EA
      by (rewrite ES; unfold region'; destruct (is_l1 d i); [by rewrite <- app_assoc|done]).
    assert (pass_ok region' (S n) (i + 1) d) as Hok'
      by (destruct Hok as [P N R V]; rewrite EA in N, R; split; try done; intros j Hj; apply V; lia).
    rewrite EA. replace (i =? p2m_size - 1) with false by lia. cbn [orb].
    destruct (Z.eqb_spec (Z.of_nat (length region')) (Z.of_nat MAX_BATCH_SIZE)) as [El|El].
    + rewrite Hmap, bool_decide_eq_true_2 by (intros E0; rewrite E0 in El; done). cbn [negb].
      destruct (uncanon_region_spec region' d a Hg) as (d1 & a1 & E1 & C); [apply Hok'|..].
      { pose proof (po_nodup _ _ _ _ Hok') as Hnd. by apply NoDup_app in Hnd as [? _]. }
      { intros f Hf. apply Hok', elem_of_app. by left. }
      destruct (pass_ok_next region' (S n) (i + 1) d d1) as [EF Hok1]; [lia|lia|done|done|].
      rewrite E1. cbn [mbind option_bind]. rewrite IH; try done; [|lia|lia|unfold MAX_BATCH_SIZE; cbn; lia].
      cbn [app]. rewrite EF, uncanon_region_app, E1, length_app. cbn [mbind option_bind].
      apply Nat2Z.inj in El. unfold last_batch_empty, is_l1, type_of. rewrite (cv_type _ _ _ C), El.
      by rewrite Nat.Div0.add_mod, Nat.Div0.mod_same, Nat.add_0_l, Nat.Div0.mod_mod.
    + apply IH; try done; try lia. unfold region' in *. destruct (is_l1 d i); rewrite ?length_app in *; cbn [length] in *; lia.
Qed.

(** ** The whole block *)

Definition all : nat := Z.to_nat p2m_size.

(** A guest whose pages have been loaded. *)
Record guest_ok (d : rdom) : Prop := {
  go_tables : tables_ok d;
  go_p2m : good_p2m (rp2m d);
  go_l1 : forall j, 0 <= j < p2m_size -> is_l1 d j = true ->
    p2m_get (rp2m d) j <> INVALID_P2M_ENTRY /\ in_range guest_width p2m_size (entries_at d (p2m_get (rp2m d) j))
}.

Lemma l1_not_l3 d j : is_l1 d j = true -> ~ l3_at d j.
Proof.
  unfold is_l1, l3_at, type_is. intros E1%Z.eqb_eq E3%Z.eqb_eq. rewrite E1 in E3. done.
Qed.

Lemma high_l3 d j : is_high d j = true -> l3_at d j.
Proof. unfold is_high. by intros [H _]%andb_true_iff. Qed.

Lemma l1_frames_nodup n i d :
  tables_ok d -> 0 <= i -> i + Z.of_nat n <= p2m_size ->
  (forall j, 0 <= j < p2m_size -> is_l1 d j = true -> p2m_get (rp2m d) j <> INVALID_P2M_ENTRY) -> NoDup (l1_frames n i d).
Proof.
  intros T Hi Hn Hv. unfold l1_frames. apply NoDup_fmap_2_strong.
  - intros x y [Hx [Hx1 ?]%elem_of_seqZ]%list_elem_of_filter [Hy [Hy1 ?]%elem_of_seqZ]%list_elem_of_filter.
    apply (to_inj _ T); [lia|lia|]. apply Hv; [lia|done].
  - apply NoDup_filter, NoDup_seqZ.
Qed.

Section Whole.
Context (d d1 : rdom) (Hok : guest_ok d) (R : relocated all 0 d d1).

Lemma all_range j : 0 <= j < p2m_size -> 0 <= j < 0 + Z.of_nat all.
Proof. unfold all. lia. Qed.

Lemma kept_low j :
  0 <= j < p2m_size -> is_high d j = false ->
  p2m_get (rp2m d1) j = p2m_get (rp2m d) j /\
  (p2m_get (rp2m d) j <> INVALID_P2M_ENTRY -> mem d1 !! p2m_get (rp2m d) j = mem d !! p2m_get (rp2m d) j).
Proof. intros Hj Hh. apply (rl_kept _ _ _ _ R); [done|]. intros [_ ?]. congruence. Qed.

Lemma l1_low j : is_l1 d j = true -> is_high d j = false.
Proof. intros Hl. destruct (is_high d j) eqn:E; [|done]. by destruct (l1_not_l3 d j Hl (high_l3 d j E)). Qed.

Lemma is_l1_relocated j : is_l1 d1 j = is_l1 d j.
Proof. unfold is_l1, type_of. by rewrite (rl_type _ _ _ _ R). Qed.

Lemma l1_frames_relocated : l1_frames all 0 d1 = l1_frames all 0 d.
Proof.
  apply l1_frames_kept; [apply R|]. intros j Hj Hl. apply kept_low; [unfold all in Hj; lia|]. by apply l1_low.
Qed.

Lemma relocated_good : good_p2m (rp2m d1).
Proof.
  split; [apply (to_size _ (rl_tables _ _ _ _ R))|rewrite (rl_batch _ _ _ _ R); apply Hok|].
  intros p Hp. destruct (is_high d p) eqn:Hh.
  - right. pose proof (all_range p Hp) as Ha. pose proof (rl_low _ _ _ _ R p Ha (high_l3 d p Hh)).
    pose proof (rl_new _ _ _ _ R p Ha Hh). unfold frame_ok, LIMIT, PAGE_SHIFT in *. pose proof (maddr_bits guest_width).
    assert (2 ^ 32 <= 2 ^ (MADDR_BITS_X86 guest_width - 12)) by (apply Z.pow_le_mono_r; lia). lia.
  - destruct (kept_low p Hp Hh) as [-> _]. by apply (gp_entry _ (go_p2m _ Hok)).
Qed.

Lemma l1_relocated j :
  0 <= j < p2m_size -> is_l1 d j = true ->
  p2m_get (rp2m d1) j = p2m_get (rp2m d) j /\ page_at d1 (p2m_get (rp2m d) j) = page_at d (p2m_get (rp2m d) j).
Proof.
  intros Hj Hl. destruct (kept_low j Hj (l1_low j Hl)) as [E M]. split; [done|].
  unfold page_at. rewrite M; [done|]. by apply (go_l1 _ Hok).
Qed.

Lemma pass_ok_relocated : pass_ok [] all 0 d1.
Proof.
  assert (forall j, 0 <= j < 0 + Z.of_nat all -> 0 <= j < p2m_size) as Ha by (unfold all; lia).
  split; cbn [app].
  - apply relocated_good.
  - rewrite l1_frames_relocated. destruct (decide (0 <= p2m_size)).
    + apply l1_frames_nodup; [apply Hok|lia|unfold all; lia|]. intros j Hj Hl. by apply (go_l1 _ Hok).
    + replace all with 0%nat by (unfold all; lia). constructor.
  - intros f (j & Hj & Hl & ->)%elem_l1_frames. apply Ha in Hj. rewrite is_l1_relocated in Hl.
    destruct (l1_relocated j Hj Hl) as [E Ep]. unfold entries_at. rewrite E, Ep. by apply (go_l1 _ Hok).
  - intros j Hj Hl. apply Ha in Hj. rewrite is_l1_relocated in Hl. destruct (l1_relocated j Hj Hl) as [-> _]. by apply (go_l1 _ Hok).
Qed.

(** A page that is no first-level table is not written by the second pass. *)
Lemma not_l1_kept d2 j :
  converted (l1_frames all 0 d1) d1 d2 -> 0 <= j < p2m_size -> is_l1 d j = false -> p2m_get (rp2m d1) j <> INVALID_P2M_ENTRY ->
  p2m_get (rp2m d2) j = p2m_get (rp2m d1) j /\ mem d2 !! p2m_get (rp2m d1) j = mem d1 !! p2m_get (rp2m d1) j.
Proof.
  intros C Hj Hl Hv. split; [by apply (cv_grown _ _ _ C)|]. apply (cv_other _ _ _ C).
  intros (j' & Hj' & Hl' & E)%elem_l1_frames. rewrite is_l1_relocated in Hl'.
  apply (to_inj _ (rl_tables _ _ _ _ R)) in E; [|done|unfold all in Hj'; lia|done]. congruence.
Qed.

End Whole.

(** What the block has done to the guest. *)
Record fixed_up (d d' : rdom) : Prop := {
  fu_roots : forall j, 0 <= j < p2m_size -> l3_at d j -> p2m_get (rp2m d') j <= LIMIT /\
    take 32 (page_at d' (p2m_get (rp2m d') j)) = take 32 (page_at d (p2m_get (rp2m d) j));
  fu_l1 : forall j, 0 <= j < p2m_size -> is_l1 d j = true ->
    page_at d' (p2m_get (rp2m d') j) =
      entries_page w (localize guest_width (p2m (rp2m d')) (entries_at d (p2m_get (rp2m d) j))) /\
    resolved (rp2m d') (entries_at d (p2m_get (rp2m d) j));
  fu_kept : forall j, 0 <= j < p2m_size -> is_l1 d j = false -> is_high d j = false -> p2m_get (rp2m d) j <> INVALID_P2M_ENTRY ->
    p2m_get (rp2m d') j = p2m_get (rp2m d) j /\ mem d' !! p2m_get (rp2m d) j = mem d !! p2m_get (rp2m d) j;
  fu_mmu : mmu d' = mmu d ++ map (fun j => (p2m_get (rp2m d') j, j)) (highs all 0 d)
}.

Lemma fixed_up_passes d d1 d' :
  guest_ok d -> relocated all 0 d d1 -> converted (l1_frames all 0 d1) d1 d' -> fixed_up d d'.
Proof.
  intros Hok R C. pose proof (fun j => not_l1_kept d d1 R d' j C) as Hn.
  assert (forall j, 0 <= j < p2m_size -> l3_at d j -> is_l1 d j = false /\ p2m_get (rp2m d1) j <> INVALID_P2M_ENTRY) as H3.
  { intros j Hj Hl. split; [destruct (is_l1 d j) eqn:E; [by destruct (l1_not_l3 d j E)|done]|].
    apply (to_l3 _ (rl_tables _ _ _ _ R)); [done|]. unfold l3_at, type_of. by rewrite (rl_type _ _ _ _ R). }
  split.
  - intros j Hj Hl. destruct (H3 j Hj Hl) as [Hl1 Hv]. destruct (Hn j Hj Hl1 Hv) as [E M]. rewrite E. unfold page_at at 1. rewrite M.
    split; [apply (rl_low _ _ _ _ R)|apply (rl_entries _ _ _ _ R)]; auto using all_range.
  - intros j Hj Hl. destruct (l1_relocated d d1 Hok R j Hj Hl) as [E Ep]. destruct (go_l1 _ Hok j Hj Hl) as [Hv _].
    rewrite (cv_grown _ _ _ C) by (done || congruence). unfold entries_at. rewrite E, <- Ep.
    apply (cv_pages _ _ _ C). rewrite (l1_frames_relocated d d1 R). apply list_elem_of_fmap. exists j. split; [done|].
    apply list_elem_of_filter. split; [done|]. apply elem_of_seqZ. pose proof (all_range j Hj). lia.
  - intros j Hj Hl Hh Hv. destruct (kept_low d d1 R j Hj Hh) as [E M]. rewrite <- (M Hv), <- E.
    apply Hn; [done|done|congruence].
  - rewrite (cv_mmu _ _ _ C), (rl_mmu _ _ _ _ R). f_equal. apply map_ext_in. intros j Hj%list_elem_of_In%list_elem_of_filter.
    destruct Hj as [Hh [Hr1 Hr2]%elem_of_seqZ]. assert (0 <= j < p2m_size) as Hj by (unfold all in Hr2; lia).
    destruct (H3 j Hj (high_l3 d j Hh)) as [Hl1 Hv]. by destruct (Hn j Hj Hl1 Hv) as [-> _].
Qed.

(** The block that moves the root tables of a PAE guest below 4 GB.  When
    every request for a low frame is granted, every third-level table ends in
    a frame below the limit with the four entries it had, its new frame
    recorded for the machine-to-physical table; every entry of a first-level
    table then holds the machine frame that the final table gives its page,
    moved root tables included; and no other page changes.  The exception is
    a guest whose first-level tables fill whole batches and whose last page is
    not such a table: the code then maps a region of no page, which fails, and
    the restore with it. *)
Theorem pae_fixup_restores d a :
  pt_levels = 3 -> pae_extended_cr3 = false -> flush_ok = true -> 0 < p2m_size ->
  (forall m i, mmu_ok m i = true) -> grants guest_width populate -> guest_ok d -> grants_ok 0 d ->
  (forall k, (k < length (highs all 0 d))%nat -> answered k) ->
  if last_batch_empty (length (l1_frames all 0 d)) d then pae_fixup d a = None
  else exists d' a', pae_fixup d a = Some (d', a') /\ fixed_up d d'.
Proof.
  intros Hlv Hcr Hfl Hsz Hmmu Hg Hok Hgr Ha. unfold pae_fixup. replace (pt_levels =? 3) with true by lia. rewrite Hcr, Hfl. cbn [negb andb]. fold all.
  destruct (first_pass_spec all 0 0 d) as (d1 & E1 & R); [lia|unfold all; lia|apply Hok|done|done|intros; apply Ha; lia|].
  rewrite E1. cbn [mbind option_bind]. pose proof (pass_ok_relocated d d1 Hok R) as Hpo.
  assert (exists n, all = S n) as [n En] by (unfold all; destruct (Z.to_nat p2m_size) eqn:?; [lia|eauto]).
  assert (second_pass all 0 [] d1 a =
    if last_batch_empty (length (l1_frames all 0 d)) d then None else uncanon_region (l1_frames all 0 d1) d1 a) as ->.
  { rewrite En in Hpo |- * at 1. rewrite second_pass_spec; [|lia|unfold all in En; lia|cbn; unfold MAX_BATCH_SIZE; lia|done|done].
    rewrite <- En. cbn [app]. rewrite (l1_frames_relocated d d1 R). unfold last_batch_empty. by rewrite (is_l1_relocated d d1 R). }
  destruct (last_batch_empty _ d); [done|]. destruct Hpo as [P N Rg V].
  destruct (uncanon_region_spec (l1_frames all 0 d1) d1 a Hg P N Rg) as (d' & a' & E2 & C).
  exists d', a'. rewrite E2. split; [done|]. by apply (fixed_up_passes d d1 d').
Qed.

End Relocate.

(** A guest of three pages: its root table above 4 GB, a first-level table
    whose first entry names that root, and a data page. *)
Definition demo_answer (k : nat) : bool * option (Z * list Z) :=
  if decide (k = 0%nat) then (true, Some (0x300, replicate page_bytes 9)) else (false, None).
Definition demo_dom : rdom :=
  RDom (P2MState [0x200000; 0x100; 0x101] (replicate MAX_BATCH_SIZE 0)) 3
    [XEN_DOMCTL_PFINFO_L3TAB; XEN_DOMCTL_PFINFO_L1TAB; 0]
    {[0x200000 := replicate page_bytes 5; 0x100 := 1 :: replicate (page_bytes - 1) 0; 0x101 := replicate page_bytes 7]} [].

Lemma three_cases j : 0 <= j < 3 -> j = 0 \/ j = 1 \/ j = 2.
Proof. lia. Qed.

Lemma demo_granted k m page : granted demo_answer k m page -> k = 0%nat /\ m = 0x300 /\ page = replicate page_bytes 9.
Proof. unfold granted, demo_answer. case_decide; cbn [snd]; intros; simplify_eq; auto. Qed.

Lemma demo_grants_ok : grants_ok 3 demo_answer 0 demo_dom.
Proof.
  split.
  - intros k m page _ (-> & -> & ->)%demo_granted. split; [unfold LIMIT; lia|apply length_replicate].
  - intros k m page j _ (-> & -> & ->)%demo_granted Hj. destruct (three_cases j Hj) as [->|[->| ->]]; discriminate.
  - intros k1 k2 m1 m2 p1 p2 _ Hk (-> & _)%demo_granted (-> & _)%demo_granted. lia.
Qed.

Lemma demo_guest_ok : guest_ok 4 3 3 demo_dom.
Proof.
  split.
  - split; [done|..].
    + intros j Hj. destruct (three_cases j Hj) as [->|[->| ->]]; intros Hl; try discriminate. split; [done|vm_compute; done].
    + intros j j' Hj Hj'. destruct (three_cases j Hj) as [->|[->| ->]], (three_cases j' Hj') as [->|[->| ->]]; intros _; vm_compute; congruence.
  - split; [done|apply length_replicate|]. intros p Hp. right. unfold frame_ok. change (MADDR_BITS_X86 4 - PAGE_SHIFT) with 32.
    destruct (three_cases p Hp) as [->|[->| ->]]; vm_compute; split; congruence.
  - intros j Hj. destruct (three_cases j Hj) as [->|[->| ->]]; intros Hl; try discriminate. split; [done|].
    assert (forallb (fun x => pte_pfn 4 x <? 3) (entries_at 3 demo_dom (p2m_get (rp2m demo_dom) 1)) = true) as Hall
      by (vm_compute; done).
    rewrite forallb_forall in Hall. apply Forall_forall. intros pte Hel%list_elem_of_In _. specialize (Hall pte Hel). cbn beta in Hall. lia.
Qed.

Lemma pae_grants : grants 4 demo_populate.
Proof.
  intros a ps Hps. eexists _, a. split; [apply NoDup_seqZ|]. split; [done|].
  split; [rewrite length_seqZ; lia|].
  apply Forall_forall. intros p Hp%elem_of_seqZ. unfold frame_ok, MAX_BATCH_SIZE in *.
  change (MADDR_BITS_X86 4 - PAGE_SHIFT) with 32. lia.
Qed.

Lemma pae_fixup_restores_witness :
  exists d' a', pae_fixup 4 3 3 false demo_answer (fun _ _ => true) demo_populate (fun l => bool_decide (l <> [])) true demo_dom tt = Some (d', a') /\
    p2m_get (rp2m d') 0 <= LIMIT.
Proof.
  pose proof (pae_fixup_restores 4 3 3 false demo_answer (fun _ _ => true) demo_populate (fun l => bool_decide (l <> [])) true
    (fun _ => eq_refl) demo_dom tt eq_refl eq_refl eq_refl ltac:(lia) (fun _ _ => eq_refl) pae_grants demo_guest_ok demo_grants_ok) as H.
  change (last_batch_empty _ _ _) with false in H. cbv iota in H.
  destruct H as (d' & a' & E & F).
  - intros k Hk. assert (k = 0%nat) as -> by (vm_compute in Hk; lia). split; [done|]. eexists. reflexivity.
  - exists d', a'. split; [exact E|]. apply (fu_roots _ _ _ _ _ F 0); [lia|reflexivity].
Defined.

End Relocate.
