(* ===== verification/Resume.v ===== *)
(** Resuming a guest on the source after a migration that failed.

    Models tools/libxc/xc_resume.c ([pv_guest_width], [modify_returncode],
    [xc_domain_resume_cooperative], [xc_domain_resume_any],
    [xc_domain_resume]) and [libxl_domain_resume] (tools/libxl/libxl.c), on a
    domain with CPU contexts, memory and a run state.  The tools have 64-bit
    words.  [None] is an access outside of a mapping. *)

From S2P Require Import Prelude PageTable P2mList Vcpu Handshake.

Module Resume.
Import PageTable P2mList Vcpu.

(** ** The domain and the answers to the requests *)

Record dominfo := DomInfo { di_hvm : bool; max_vcpu_id : Z; shared_info_frame : Z }.

(** The contexts of the CPUs that are initialised, the frames, whether the
    domain runs, and whether the store knows that it was resumed. *)
Record rstate := RState { ctxts : gmap Z (list Z); rmem : gmap Z (list Z); running : bool; introduced : bool }.

(** Whether a request is granted, or the result of its call: the domain's
    information, the parameter [HVM_PARAM_CALLBACK_IRQ] (0 when it cannot be
    read), the capabilities of the hypervisor, the address size in bits, CPU
    contexts, mappings, [XEN_DOMCTL_resumedomain], [libxl__domain_is_hvm] and
    [xs_resume_domain]. *)
Record answers := Answers {
  a_info : option dominfo; a_irq : Z; a_caps : option (list Z); a_address_size : option Z;
  a_get_rc : Z -> Z; a_set_rc : Z -> Z; a_map : list Z -> bool; a_resume_rc : Z;
  a_is_hvm : Z; a_xs : bool
}.

Definition ERROR_NI : Z := -4.

Section Resume.
Context (E : answers).

Definition xc_vcpu_getcontext (i : Z) (d : rstate) : Z * list Z :=
  match ctxts d !! i with Some c => (a_get_rc E i, c) | None => (-1, []) end.

(** Without a context ([NULL]) the call is refused before it reaches the
    hypervisor. *)
Definition xc_vcpu_setcontext (i : Z) (c : option (list Z)) (d : rstate) : Z * rstate :=
  match c with
  | None => (-1, d)
  | Some c =>
      if a_set_rc E i =? 0 then (0, RState (<[i := c]> (ctxts d)) (rmem d) (running d) (introduced d)) else (a_set_rc E i, d)
  end.

(** [XEN_DOMCTL_resumedomain]. *)
Definition resumedomain (d : rstate) : Z * rstate :=
  if a_resume_rc E =? 0 then (0, RState (ctxts d) (rmem d) true (introduced d)) else (a_resume_rc E, d).

Definition pv_guest_width : Z := match a_address_size E with None => -1 | Some size => size / 8 end.

(** [strstr]. *)
Fixpoint strstr (s pat : list Z) : bool :=
  bool_decide (take (length pat) s = pat) || match s with [] => false | _ :: s => strstr s pat end.
Definition x86_64 : list Z := [120; 56; 54; 95; 54; 52].

(** The width to use, or the result with which the function ends. *)
Definition returncode_width (info : dominfo) : Z + Z :=
  if di_hvm info then
    if a_irq E =? 0 then inr 0
    else match a_caps E with None => inr (-1) | Some caps => inl (if strstr caps x86_64 then 8 else 4) end
  else if pv_guest_width <? 0 then inr (-1) else inl pv_guest_width.

Definition modify_returncode (d : rstate) : Z * rstate :=
  match a_info E with
  | None => (-1, d)
  | Some info =>
      match returncode_width info with
      | inr rc => (rc, d)
      | inl guest_width =>
          let '(rc, ctxt) := xc_vcpu_getcontext 0 d in
          if negb (rc =? 0) then (rc, d) else xc_vcpu_setcontext 0 (Some (SET_FIELD guest_width ctxt Eax 1)) d
      end
  end.

Definition xc_domain_resume_cooperative (d : rstate) : Z * rstate :=
  let '(rc, d) := modify_returncode d in
  if negb (rc =? 0) then (rc, d) else resumedomain d.

(** ** Resuming a guest that cannot handle the return code *)

(** Mapped frames are the guest's memory: a word is read from the frame it
    lies in at the time of the access. *)
Definition view_word (d : rstate) (frames : list Z) (k : Z) : option Z :=
  f ← frames !! Z.to_nat (k / 512);
  page ← rmem d !! f;
  Some (word_at 8 page (Z.to_nat (k mod 512))).
Definition view_words (d : rstate) (frames : list Z) (n : Z) : option (list Z) := mapM (view_word d frames) (seqZ 0 n).

(** Mapping frames; a mapping of length 0 is refused. *)
Definition map_frames (d : rstate) (frames : list Z) : bool :=
  negb (bool_decide (frames = [])) && a_map E frames && forallb (fun f => bool_decide (is_Some (rmem d !! f))) frames.

(** [P2M_FLL_ENTRIES] and [P2M_FL_ENTRIES] as the [int] that is passed. *)
Definition fll_entries (p2m_size : Z) : Z := s32 (u64 (p2m_size + FPP 8 * FPP 8 - 1) / (FPP 8 * FPP 8)).
Definition fl_entries (p2m_size : Z) : Z := s32 (u64 (p2m_size + FPP 8 - 1) / FPP 8).

(** The mappings down to the guest's table; the inner [None]: [goto out]. *)
Definition map_list (d : rstate) (frames : list Z) (n : Z) : option (option (list Z)) :=
  if n <? 0 then Some None
  else fs ← view_words d frames n; Some (if map_frames d fs then Some fs else None).

Definition map_guest_p2m (d : rstate) (info : dominfo) : option (option (list Z)) :=
  let shinfo := [shared_info_frame info] in
  if negb (map_frames d shinfo) then Some None
  else
    p2m_size ← view_word d shinfo (3088 / 8);
    fll ← view_word d shinfo (3096 / 8);
    if negb (map_frames d [fll]) then Some None
    else
      r ← map_list d [fll] (fll_entries p2m_size);
      match r with
      | None => Some None
      | Some p2m_frame_list => map_list d p2m_frame_list (fl_entries p2m_size)
      end.

(** [start_info->field = p2m[start_info->field]], the field at word [w]. *)
Definition from_pfn (p2m : list Z) (mfn w : Z) (d : rstate) : option rstate :=
  pfn ← view_word d [mfn] w;
  m ← view_word d p2m pfn;
  page ← rmem d !! mfn;
  Some (RState (ctxts d) (<[mfn := write_at page (Z.to_nat (8 * w)) (le_bytes 8 m)]> (rmem d)) (running d) (introduced d)).

Definition W_STORE : Z := 56 / 8.
Definition W_CONSOLE : Z := 72 / 8.

(** [for ( i = 1; i <= info.max_vcpu_id; i++ )]. *)
Fixpoint reset_vcpus (n : nat) (i : Z) (d : rstate) : rstate :=
  match n with
  | O => d
  | S n => reset_vcpus n (i + 1) (xc_vcpu_setcontext i None d).2
  end.

Definition xc_domain_resume_any (d : rstate) : option (Z * rstate) :=
  match a_info E with
  | None => Some (-1, d)
  | Some info =>
      if di_hvm info then Some (-1, d)
      else if negb (pv_guest_width =? 8) then Some (-1, d)
      else
        r ← map_guest_p2m d info;
        match r with
        | None => Some (-1, d)
        | Some p2m =>
            let '(rc, ctxt) := xc_vcpu_getcontext 0 d in
            if negb (rc =? 0) then Some (-1, d)
            else
              let mfn := GET_FIELD 8 ctxt Edx in
              if negb (map_frames d [mfn]) then Some (-1, d)
              else
                d ← from_pfn p2m mfn W_STORE d;
                d ← from_pfn p2m mfn W_CONSOLE d;
                Some (resumedomain (reset_vcpus (Z.to_nat (max_vcpu_id info)) 1 d))
        end
  end.

Definition xc_domain_resume (fast : bool) (d : rstate) : option (Z * rstate) :=
  if fast then Some (xc_domain_resume_cooperative d) else xc_domain_resume_any d.

(** [libxl_domain_resume]: what it returns, and the [rc] that it computed. *)
Definition libxl_domain_resume (d : rstate) : option (Z * Z * rstate) :=
  if truthy (a_is_hvm E) then Some (0, ERROR_NI, d)
  else
    '(rc, d) ← xc_domain_resume false d;
    if truthy rc then Some (0, Handshake.ERROR_FAIL, d)
    else if negb (a_xs E) then Some (0, Handshake.ERROR_FAIL, d)
    else Some (0, 0, RState (ctxts d) (rmem d) (running d) true).

End Resume.

(** ** A guest that handles the return code *)

Definition coop_granted (E : answers) (d : rstate) : Prop :=
  exists info, a_info E = Some info /\ a_resume_rc E = 0 /\
    match returncode_width E info with
    | inr rc => rc = 0
    | inl _ => is_Some (ctxts d !! 0) /\ a_get_rc E 0 = 0 /\ a_set_rc E 0 = 0
    end.

Lemma resumedomain_spec E d :
  let '(rc, d') := resumedomain E d in
  rc = a_resume_rc E /\ running d' = running d || (rc =? 0) /\ ctxts d' = ctxts d /\ rmem d' = rmem d /\ introduced d' = introduced d.
Proof.
  unfold resumedomain. destruct (Z.eqb_spec (a_resume_rc E) 0) as [->|H]; cbn.
  - by rewrite orb_true_r.
  - rewrite (proj2 (Z.eqb_neq _ _)) by done. by rewrite orb_false_r.
Qed.

(** What setting the return code does to the domain. *)
Lemma modify_returncode_spec E d :
  let '(rc, d') := modify_returncode E d in
  running d' = running d /\ rmem d' = rmem d /\ introduced d' = introduced d /\
  (forall i, i <> 0 -> ctxts d' !! i = ctxts d !! i) /\
  (a_resume_rc E = 0 -> (rc = 0 <-> coop_granted E d)) /\
  (rc = 0 -> forall info, a_info E = Some info ->
     match returncode_width E info with
     | inr _ => ctxts d' = ctxts d
     | inl gw => exists c, ctxts d !! 0 = Some c /\ ctxts d' !! 0 = Some (SET_FIELD gw c Eax 1)
     end).
Proof.
  unfold modify_returncode, coop_granted. destruct (a_info E) as [info|] eqn:Ei; [|split_and!; try done; naive_solver].
  destruct (returncode_width E info) as [gw|rc] eqn:Ew.
  2: { split_and!; try done; [|intros; simplify_eq; by rewrite Ew]. intros Hr. split; [intros ->; exists info; by rewrite Ew|].
       intros (i' & [= <-] & _ & H). by rewrite Ew in H. }
  unfold xc_vcpu_getcontext, xc_vcpu_setcontext. destruct (ctxts d !! 0) as [c|] eqn:Ec; cbn [fst snd].
  2: { cbn. split_and!; try done. intros _. split; [done|]. intros (i' & [= <-] & _ & H). rewrite Ew in H. by destruct H as [[? ?] _]. }
  destruct (Z.eqb_spec (a_get_rc E 0) 0) as [Hg|Hg]; cbn [negb].
  2: { split_and!; try done. intros _. split; [done|]. intros (i' & [= <-] & _ & H). rewrite Ew in H. by destruct H as (_ & ? & _). }
  destruct (Z.eqb_spec (a_set_rc E 0) 0) as [Hs|Hs].
  2: { split_and!; try done. intros _. split; [done|]. intros (i' & [= <-] & _ & H). rewrite Ew in H. by destruct H as (_ & _ & ?). }
  cbn. split_and!; try done.
  - intros i Hi. by rewrite lookup_insert_ne.
  - intros Hr. split; [|done]. intros _. exists info. rewrite Ew. split_and!; eauto.
  - intros _ i' [= <-]. rewrite Ew. exists c. by rewrite lookup_insert_eq.
Qed.

(** Resuming a guest by the return code of its suspend call succeeds
    exactly when every request is granted, and only then starts the domain.
    It changes nothing but the context of CPU 0, where register eax becomes 1
    and every other field stays; an HVM guest without the drivers that wait
    for a return code keeps its contexts. *)
Theorem cooperative_resume E d :
  let '(rc, d') := xc_domain_resume_cooperative E d in
  (rc = 0 <-> coop_granted E d) /\
  running d' = running d || (rc =? 0) /\ rmem d' = rmem d /\ introduced d' = introduced d /\
  (forall i, i <> 0 -> ctxts d' !! i = ctxts d !! i) /\
  (rc = 0 -> forall info, a_info E = Some info ->
     match returncode_width E info with
     | inr _ => ctxts d' = ctxts d
     | inl gw => exists c c', ctxts d !! 0 = Some c /\ ctxts d' !! 0 = Some c' /\
         (sized (layout_of gw) c -> GET_FIELD gw c' Eax = 1 /\
            forall f, valid_field f -> f <> Eax -> GET_FIELD gw c' f = GET_FIELD gw c f)
     end).
Proof.
  unfold xc_domain_resume_cooperative. pose proof (modify_returncode_spec E d) as H.
  destruct (modify_returncode E d) as [rc d1]. destruct H as (Hr & Hm & Hi & Hc & Hg & Hx).
  destruct (Z.eqb_spec rc 0) as [->|Hrc]; cbn [negb].
  - pose proof (resumedomain_spec E d1) as H. destruct (resumedomain E d1) as [rc2 d2].
    destruct H as (-> & R & C & M & I). rewrite R, C, M, I, Hr. split_and!; try done.
    + split; [intros Hz; by apply Hg|]. intros (info & _ & ? & _). done.
    + intros _ info Ei. specialize (Hx eq_refl info Ei). destruct (returncode_width E info) as [gw|]; [|done].
      destruct Hx as (c & Hc0 & Hc1). exists c, (SET_FIELD gw c Eax 1). split_and!; try done. intros Hsz.
      pose proof (layout_of_wf gw) as WL. split.
      * unfold GET_FIELD, SET_FIELD. rewrite get_set_eq by done. apply Z.mod_small. unfold layout_of. destruct (gw =? 8); cbn; lia.
      * intros f Hf Hne. by apply get_set_ne.
  - rewrite Hr, (proj2 (Z.eqb_neq _ _)) by done. rewrite orb_false_r. split_and!; try done.
    split; [done|]. intros Hco. apply Hg; [by destruct Hco as (? & _ & ? & _)|done].
Qed.

(** ** A guest whose environment is reset *)

(** Memory: frames are pages of bytes. *)
Definition mem_ok (d : rstate) : Prop := forall f page, rmem d !! f = Some page -> length page = Z.to_nat PAGE_SIZE /\ Forall is_byte page.

Lemma view_word_range d frames k v : mem_ok d -> view_word d frames k = Some v -> 0 <= v < 2 ^ 64.
Proof.
  intros Hm. unfold view_word. intros E. apply bind_Some in E as (f & _ & E). apply bind_Some in E as (page & Ep & [= <-]).
  destruct (Hm f page Ep) as [Hl Hb]. unfold word_at. set (bs := take 8 _).
  assert (Forall is_byte bs) as Hbs by (by apply Forall_take, Forall_drop). pose proof (le_val_range bs Hbs) as Hr.
  assert (length bs = 8%nat) as H8.
  { unfold bs. rewrite length_take, length_drop, Hl. change (Z.to_nat PAGE_SIZE) with 4096%nat.
    assert (0 <= k mod 512 < 512) by (apply Z.mod_pos_bound; lia). lia. }
  rewrite H8 in Hr. exact Hr.
Qed.

(** A word in a frame other than the one that is written. *)
Lemma view_word_other d d' frames mfn k :
  (forall f, f <> mfn -> rmem d' !! f = rmem d !! f) -> mfn ∉ frames -> view_word d' frames k = view_word d frames k.
Proof.
  intros Ho Hn. unfold view_word. destruct (frames !! _) as [f|] eqn:Ef; [|done]. cbn.
  rewrite Ho; [done|]. intros ->. by apply list_elem_of_lookup_2 in Ef.
Qed.

(** Replacing one field of the start-info page. *)
Lemma from_pfn_spec p2m mfn w d page m :
  0 <= w < 512 -> rmem d !! mfn = Some page -> length page = Z.to_nat PAGE_SIZE ->
  view_word d p2m (word_at 8 page (Z.to_nat w)) = Some m -> 0 <= m < 2 ^ 64 ->
  exists page', from_pfn p2m mfn w d = Some (RState (ctxts d) (<[mfn := page']> (rmem d)) (running d) (introduced d)) /\
    length page' = length page /\
    forall k, (k < 512)%nat -> word_at 8 page' k = if decide (Z.of_nat k = w) then m else word_at 8 page k.
Proof.
  intros Hw Hp Hl Hv Hm. change (Z.to_nat PAGE_SIZE) with 4096%nat in Hl.
  exists (write_at page (Z.to_nat (8 * w)) (le_bytes 8 m)). split_and!.
  - assert (view_word d [mfn] w = Some (word_at 8 page (Z.to_nat w))) as E0.
    { unfold view_word. rewrite Z.div_small, Z.mod_small by lia. change ([mfn] !! Z.to_nat 0) with (Some mfn). cbn [mbind option_bind]. by rewrite Hp. }
    unfold from_pfn. rewrite E0. cbn [mbind option_bind]. rewrite Hv. cbn [mbind option_bind]. by rewrite Hp.
  - apply write_at_length. rewrite le_bytes_length. lia.
  - intros k Hk. replace (Z.to_nat (8 * w)) with (8 * Z.to_nat w)%nat by lia. case_decide as Ek.
    + replace k with (Z.to_nat w) by lia. rewrite word_at_write_same by lia. by apply Z.mod_small.
    + destruct (decide (k < Z.to_nat w)%nat); [apply word_at_write_out|apply word_at_write_above]; lia.
Qed.

(** The loop that is to reset the other CPUs changes nothing. *)
Lemma reset_vcpus_same E n : forall i d, reset_vcpus E n i d = d.
Proof. induction n as [|n IH]; intros i d; [done|]. apply IH. Qed.

(** A guest that [xc_domain_resume_any] can resume: its start-info page, and
    the frames [p2m] that hold its table. *)
Record suspended_guest (E : answers) (d : rstate) (info : dominfo) (p2m : list Z) (c : list Z) (page : list Z) : Prop := {
  sg_mem : mem_ok d;
  sg_info : a_info E = Some info;
  sg_pv : di_hvm info = false;
  sg_width : a_address_size E = Some 64;
  sg_table : map_guest_p2m E d info = Some (Some p2m);
  sg_ctxt : ctxts d !! 0 = Some c;
  sg_get : a_get_rc E 0 = 0;
  sg_map : a_map E [GET_FIELD 8 c Edx] = true;
  sg_page : rmem d !! GET_FIELD 8 c Edx = Some page;
  sg_apart : GET_FIELD 8 c Edx ∉ p2m
}.

(** Resuming a guest by resetting its environment: the page numbers that
    the guest left in its start-info page for the store and the console become
    the machine frames that its own table gives them; every other word of that
    page and every other page stay.  The domain then runs if the hypervisor
    accepts it, and the hypervisor's answer is the result.  No CPU is reset:
    the calls that are to reset the CPUs other than 0 have no effect. *)
Theorem resume_restores_guest E d info p2m c page store_mfn console_mfn :
  suspended_guest E d info p2m c page ->
  view_word d p2m (word_at 8 page 7) = Some store_mfn -> view_word d p2m (word_at 8 page 9) = Some console_mfn ->
  exists d' page', xc_domain_resume_any E d = Some (a_resume_rc E, d') /\
    rmem d' = <[GET_FIELD 8 c Edx := page']> (rmem d) /\
    word_at 8 page' 7 = store_mfn /\ word_at 8 page' 9 = console_mfn /\
    (forall k, (k < 512)%nat -> k <> 7%nat -> k <> 9%nat -> word_at 8 page' k = word_at 8 page k) /\
    ctxts d' = ctxts d /\ running d' = running d || (a_resume_rc E =? 0) /\ introduced d' = introduced d.
Proof.
  intros [Hm Hi Hpv Hw Ht Hc Hg Hmap Hp Hap] Hs Hk. destruct (Hm _ _ Hp) as [Hl _].
  set (mfn := GET_FIELD 8 c Edx) in *. unfold xc_domain_resume_any. rewrite Hi, Hpv. unfold pv_guest_width. rewrite Hw.
  change (negb (64 / 8 =? 8)) with false. cbv iota. rewrite Ht. cbn [mbind option_bind].
  unfold xc_vcpu_getcontext. rewrite Hc, Hg. cbn [Z.eqb negb]. fold mfn.
  assert (map_frames E d [mfn] = true) as ->.
  { unfold map_frames. cbn [forallb]. rewrite Hmap, bool_decide_eq_false_2, bool_decide_eq_true_2 by (done || rewrite Hp; eauto). done. }
  cbn [negb]. destruct (from_pfn_spec p2m mfn W_STORE d page store_mfn) as (page1 & -> & Hl1 & Hw1); try done.
  { by eapply view_word_range. }
  cbn [mbind option_bind]. set (d1 := RState _ _ _ _).
  assert (forall k, view_word d1 p2m k = view_word d p2m k) as Hvw.
  { intros k. apply (view_word_other d d1 p2m mfn); [|done]. intros f Hf. cbn. by rewrite lookup_insert_ne. }
  destruct (from_pfn_spec p2m mfn W_CONSOLE d1 page1 console_mfn) as (page' & -> & Hl2 & Hw2); try done.
  { cbn. by rewrite lookup_insert_eq. } { congruence. } { rewrite Hvw. change (Z.to_nat W_CONSOLE) with 9%nat. rewrite Hw1 by lia. rewrite decide_False by done. exact Hk. }
  { by eapply view_word_range. }
  cbn [mbind option_bind]. set (d2 := RState _ _ _ _).
  rewrite reset_vcpus_same. pose proof (resumedomain_spec E d2) as H.
  destruct (resumedomain E _) as [rc d']. destruct H as (-> & R & C & M & I). exists d', page'.
  split; [done|]. rewrite M, R, I, C. cbn [rmem d2 d1 running introduced ctxts]. rewrite insert_insert_eq. split_and!; try done.
  - rewrite Hw2, Hw1 by lia. by rewrite decide_False, decide_True.
  - rewrite Hw2 by lia. by rewrite decide_True.
  - intros k Hk1 Hk2 Hk3. rewrite Hw2, Hw1 by done. change W_CONSOLE with 9. change W_STORE with 7. rewrite !decide_False by lia. done.
Qed.

(** ** The toolstack *)

Definition state_of (d : rstate) : Handshake.dom_state := if running d then Handshake.Running else Handshake.Suspended.

Lemma resume_any_running E d rc d' :
  xc_domain_resume_any E d = Some (rc, d') -> running d' = running d || (rc =? 0).
Proof.
  unfold xc_domain_resume_any. assert (running d || (-1 =? 0) = running d) as Hf by apply orb_false_r.
  assert (forall p2m mfn w d d', from_pfn p2m mfn w d = Some d' -> running d' = running d) as Hfp.
  { intros p2m mfn w d1 d2 H. unfold from_pfn in H. apply bind_Some in H as (? & _ & H). apply bind_Some in H as (? & _ & H).
    apply bind_Some in H as (? & _ & [= <-]). done. }
  destruct (a_info E) as [info|]; [|naive_solver]. destruct (di_hvm info); [naive_solver|]. destruct (negb _); [naive_solver|].
  intros H. apply bind_Some in H as (r & _ & H). destruct r as [p2m|]; [|naive_solver].
  destruct (xc_vcpu_getcontext E 0 d) as [rc0 c]. destruct (negb _); [naive_solver|]. destruct (negb _); [naive_solver|].
  apply bind_Some in H as (d1 & H1 & H). apply bind_Some in H as (d2 & H2 & [= H]).
  rewrite reset_vcpus_same in H. pose proof (resumedomain_spec E d2) as Hs. rewrite H in Hs. destruct Hs as (_ & -> & _).
  by rewrite (Hfp _ _ _ _ _ H2), (Hfp _ _ _ _ _ H1).
Qed.

(** [libxl_domain_resume] implements the operation that the handshake
    relies on: the domain runs afterwards or is as it was.  It returns 0
    whatever happened, although it computes an error; only the computed code
    tells that the domain runs and the store knows it.  An HVM guest, and any
    guest whose kind cannot be told, is never resumed. *)
Theorem resume_refines_handshake E d ret rc d' :
  libxl_domain_resume E d = Some (ret, rc, d') ->
  Handshake.opsem Handshake.Resume (state_of d) ret (state_of d') /\ ret = 0 /\
  (rc = 0 -> running d' = true /\ introduced d' = true) /\ (a_is_hvm E <> 0 -> d' = d /\ rc = ERROR_NI).
Proof.
  unfold libxl_domain_resume. destruct (truthy (a_is_hvm E)) eqn:Eh.
  { intros [= <- <- <-]. split_and!; try done. apply Handshake.op_resume_fail. }
  assert (~ a_is_hvm E <> 0) as Hh by (unfold truthy in Eh; lia).
  intros H. apply bind_Some in H as ([rc1 d1] & Hr & H). cbn [xc_domain_resume] in Hr. apply resume_any_running in Hr.
  assert (Handshake.opsem Handshake.Resume (state_of d) 0 (state_of d1)) as Hop.
  { unfold state_of. rewrite Hr. destruct (rc1 =? 0); rewrite ?orb_true_r, ?orb_false_r; constructor. }
  destruct (truthy rc1) eqn:Er; [injection H as <- <- <-; done|].
  destruct (a_xs E); injection H as <- <- <-; split_and!; try done.
  intros _. split; [|done]. cbn. rewrite Hr. unfold truthy in Er. destruct (rc1 =? 0); [apply orb_true_r|done].
Qed.

(** A guest of three pages: shared info in frame 10, the list of lists in 11,
    the list in 12, the table in 13 and start info in 20. *)
Definition demo_words (ws : list (Z * Z)) : list Z :=
  foldl (fun page wv => write_at page (Z.to_nat (8 * wv.1)) (le_bytes 8 wv.2)) (replicate (Z.to_nat PAGE_SIZE) 0) ws.
Definition demo_mem : gmap Z (list Z) :=
  {[10 := demo_words [(386, 3); (387, 11)]; 11 := demo_words [(0, 12)]; 12 := demo_words [(0, 13)];
    13 := demo_words [(0, 50); (1, 51); (2, 52)]; 20 := demo_words [(7, 1); (8, 99); (9, 2)]]}.
Definition demo_cpu0 : list Z := SET_FIELD 8 (replicate (Z.to_nat 5168) 3) Edx 20.
Definition demo_state : rstate := RState {[0 := demo_cpu0; 1 := replicate (Z.to_nat 5168) 4]} demo_mem false false.
Definition demo_answers : answers :=
  Answers (Some (DomInfo false 1 10)) 0 None (Some 64) (fun _ => 0) (fun _ => 0) (fun _ => true) 0 0 true.

Lemma demo_mem_ok : mem_ok demo_state.
Proof.
  intros f page H. assert (map_Forall (fun _ page => (length page =? Z.to_nat PAGE_SIZE)%nat && forallb (fun b => (0 <=? b) && (b <? 256)) page = true) demo_mem) as Hall.
  { unfold demo_mem. repeat (apply map_Forall_insert_2; [vm_compute; reflexivity|]). apply map_Forall_empty. }
  specialize (Hall f page H). cbn beta in Hall. apply andb_true_iff in Hall as [Hl Hb]. split; [by apply Nat.eqb_eq|].
  rewrite forallb_forall in Hb. apply Forall_forall. intros b Hin%list_elem_of_In. specialize (Hb b Hin). unfold is_byte. cbn beta in Hb. lia.
Qed.

Lemma demo_suspended : suspended_guest demo_answers demo_state (DomInfo false 1 10) [13] demo_cpu0 (demo_words [(7, 1); (8, 99); (9, 2)]).
Proof.
  assert (GET_FIELD 8 demo_cpu0 Edx = 20) as E by (vm_compute; reflexivity).
  split; rewrite ?E; [apply demo_mem_ok|vm_compute; reflexivity..|].
  rewrite list_elem_of_singleton. lia.
Qed.

Lemma resume_restores_guest_witness :
  exists d' page', xc_domain_resume_any demo_answers demo_state = Some (0, d') /\
    word_at 8 page' 7 = 51 /\ word_at 8 page' 9 = 52 /\ ctxts d' !! 1 = ctxts demo_state !! 1 /\ running d' = true.
Proof.
  destruct (resume_restores_guest demo_answers demo_state (DomInfo false 1 10) [13] demo_cpu0
              (demo_words [(7, 1); (8, 99); (9, 2)]) 51 52 demo_suspended)
    as (d' & page' & H & _ & H7 & H9 & _ & Hc & Hr & _); [vm_compute; reflexivity|vm_compute; reflexivity|].
  exists d', page'. split_and!; [exact H|exact H7|exact H9|by rewrite Hc|exact Hr].
Defined.

Lemma resume_refines_handshake_witness :
  exists ret rc d', libxl_domain_resume demo_answers demo_state = Some (ret, rc, d') /\
    Handshake.opsem Handshake.Resume Handshake.Suspended ret (state_of d') /\ rc = 0.
Proof.
  destruct (libxl_domain_resume demo_answers demo_state) as [[[ret rc] d']|] eqn:E; [|vm_compute in E; discriminate].
  exists ret, rc, d'. split; [reflexivity|]. split; [exact (proj1 (resume_refines_handshake _ _ _ _ _ E))|].
  vm_compute in E. congruence.
Defined.

End Resume.
