(* ===== verification/HvmContext.v ===== *)
(** The state of an HVM guest's emulated hardware, as the hypervisor saves and
    loads it for a migration.

    Models xen/common/hvm/save.c with the macros of xen/include/xen/hvm/save.h,
    xen/arch/x86/hvm/save.c, [simple_strtoll] (xen/common/vsprintf.c) and the
    requests [XEN_DOMCTL_gethvmcontext] and [XEN_DOMCTL_sethvmcontext]
    (xen/arch/x86/domctl.c).  Devices are handlers in a table; [DeviceLaws] is
    the contract between them and this file, which other files discharge for
    the devices they model.  [Bug] is a failed [BUG_ON] or [ASSERT]. *)

From S2P Require Import Prelude.

Module HvmContext.

(** ** The marshalling buffer *)

Record hctx := Hctx { cur : Z; hsize : Z; hdata : list Z }.

Definition sizeof_desc : Z := 8.
Definition EINVAL : Z := 22.
Definition EFAULT : Z := 14.
Definition ENOMEM : Z := 12.
Definition ENOSPC : Z := 28.

(** The bytes from position [p], the fields of the descriptor there, and the
    descriptor itself. *)
Definition bytes_at (h : hctx) (p : Z) (n : nat) : list Z := take n (drop (Z.to_nat p) (hdata h)).
Definition typecode_at (h : hctx) (p : Z) : Z := le_val (bytes_at h p 2).
Definition instance_at (h : hctx) (p : Z) : Z := le_val (bytes_at h (p + 2) 2).
Definition length_at (h : hctx) (p : Z) : Z := le_val (bytes_at h (p + 4) 4).
Definition hvm_save_descriptor (tc inst len : Z) : list Z := le_bytes 2 tc ++ le_bytes 2 inst ++ le_bytes 4 len.

(** [h->size - h->cur], of two [uint32_t]. *)
Definition room (h : hctx) : Z := u32 (hsize h - cur h).
Definition put (h : hctx) (src : list Z) : hctx :=
  Hctx (u32 (cur h + Z.of_nat (length src))) (hsize h) (write_at (hdata h) (Z.to_nat (cur h)) src).

Definition _hvm_init_entry (h : hctx) (tc inst len : Z) : Z * hctx :=
  if room h <? len + sizeof_desc then (-1, h) else (0, put h (hvm_save_descriptor tc inst len)).

Definition _hvm_write_entry (h : hctx) (src : list Z) : hctx := put h src.

Definition _hvm_check_entry (h : hctx) (type len : Z) (strict_length : bool) : Z * hctx :=
  if len + sizeof_desc >? room h then (-1, h)
  else if negb (type =? typecode_at h (cur h)) || (len <? length_at h (cur h)) ||
          (strict_length && negb (len =? length_at h (cur h)))
       then (-1, h)
       else (0, Hctx (u32 (cur h + sizeof_desc)) (hsize h) (hdata h)).

Inductive run (A : Type) := Ret (a : A) | Bug | Fuel.
Arguments Ret {A}. Arguments Bug {A}. Arguments Fuel {A}.

#[global] Instance run_bind : MBind run := fun A B f m =>
  match m with Ret a => f a | Bug => Bug | Fuel => Fuel end.

(** Into a block [dest] of the caller. *)
Definition _hvm_read_entry (h : hctx) (dest : list Z) (dest_len : Z) : run (hctx * list Z) :=
  let len := length_at h (cur h - sizeof_desc) in
  if len >? dest_len then Bug
  else Ret (Hctx (u32 (cur h + len)) (hsize h) (hdata h),
            write_at dest 0 (bytes_at h (cur h) (Z.to_nat len) ++ replicate (Z.to_nat (dest_len - len)) 0)).

(** A record type: its code, the length of its structure, and for a type with
    an older form the length of that and the function that converts it. *)
Record htype := HType { t_code : Z; t_len : Z; t_compat : option (Z * (list Z -> Z * list Z)) }.

Definition hvm_save_entry (t : htype) (inst : Z) (h : hctx) (src : list Z) : Z * hctx :=
  let '(r, h) := _hvm_init_entry h (t_code t) inst (t_len t) in
  if r =? 0 then (r, _hvm_write_entry h src) else (r, h).

Definition _hvm_load_entry (t : htype) (h : hctx) (dst : list Z) (strict : bool) : run (Z * hctx * list Z) :=
  let '(r, h1) := _hvm_check_entry h (t_code t) (t_len t) strict in
  if r =? 0 then '(h2, dst) ← _hvm_read_entry h1 dst (t_len t); Ret (r, h2, dst)
  else
    match t_compat t with
    | None => Ret (r, h, dst)
    | Some (clen, fix_compat) =>
        let '(r, h1) := _hvm_check_entry h (t_code t) clen strict in
        if r =? 0 then
          '(h2, dst) ← _hvm_read_entry h1 dst clen;
          let '(r, dst) := fix_compat dst in Ret (r, h2, dst)
        else Ret (r, h, dst)
    end.

Definition hvm_load_entry (t : htype) (h : hctx) (dst : list Z) : run (Z * hctx * list Z) := _hvm_load_entry t h dst true.
Definition hvm_load_entry_zeroextend (t : htype) (h : hctx) (dst : list Z) : run (Z * hctx * list Z) := _hvm_load_entry t h dst false.

Definition hvm_load_instance (h : hctx) : Z := instance_at h (cur h).

(** ** Domains and handlers *)

(** What save.c itself uses of a domain: [vdown] has, for every slot of
    [d->vcpu], whether the CPU exists and is down; [slept] lists the calls of
    [vcpu_sleep_nosync]; [dev] is the state of the devices. *)
Record hdom (S : Type) := HDom {
  is_dying : bool; tsc_khz : Z; vtsc : bool; rdtsc_exiting : bool; stdvga_cache : bool;
  vdown : list (option bool); slept : list nat; dev : S
}.
Arguments HDom {S}. Arguments is_dying {S}. Arguments tsc_khz {S}. Arguments vtsc {S}. Arguments rdtsc_exiting {S}.
Arguments stdvga_cache {S}. Arguments vdown {S}. Arguments slept {S}. Arguments dev {S}.

Definition set_dev {S} (d : hdom S) (s : S) : hdom S :=
  HDom (is_dying d) (tsc_khz d) (vtsc d) (rdtsc_exiting d) (stdvga_cache d) (vdown d) (slept d) s.
Definition set_down {S} (d : hdom S) (v : list (option bool)) (sl : list nat) : hdom S :=
  HDom (is_dying d) (tsc_khz d) (vtsc d) (rdtsc_exiting d) (stdvga_cache d) v sl (dev d).

(** The ids that [for_each_vcpu] visits. *)
Definition vcpu_ids {S} (d : hdom S) : list nat := filter (fun i => is_Some (mjoin (vdown d !! i))) (seq 0 (length (vdown d))).

(** [v = d->vcpu[vcpuid]], for an id in range. *)
Definition has_vcpu {S} (d : hdom S) (vcpuid : Z) : bool := bool_decide (is_Some (mjoin (vdown d !! Z.to_nat vcpuid))).

Inductive skind := HVMSR_PER_DOM | HVMSR_PER_VCPU.

#[global] Instance skind_eq_dec : EqDecision skind.
Proof. solve_decision. Defined.

Record handler (S : Type) := Handler {
  h_save : hdom S -> hctx -> run (Z * hctx * hdom S);
  h_load : hdom S -> hctx -> run (Z * hctx * hdom S);
  h_size : Z;
  h_kind : skind
}.
Arguments Handler {S}. Arguments h_save {S}. Arguments h_load {S}. Arguments h_size {S}. Arguments h_kind {S}.

Definition HVM_SAVE_CODE_MAX : Z := 16.
Definition HVM_FILE_MAGIC : Z := 0x54381286.
Definition HVM_FILE_VERSION : Z := 1.
Definition HEADER : htype := HType 1 24 None.
Definition END : htype := HType 0 0 None.

(** ** The version of the hypervisor *)

Definition isdigit (c : Z) : bool := (48 <=? c) && (c <=? 57).
Definition islower (c : Z) : bool := (97 <=? c) && (c <=? 122).
Definition isxdigit (c : Z) : bool := isdigit c || ((65 <=? c) && (c <=? 70)) || ((97 <=? c) && (c <=? 102)).
Definition toupper (c : Z) : Z := if islower c then c - 32 else c.

Fixpoint strtoull_loop (cp : list Z) (base result : Z) : Z :=
  match cp with
  | [] => result
  | c :: cp =>
      let value := if isdigit c then c - 48 else (if islower c then toupper c else c) - 65 + 10 in
      if isxdigit c && (value <? base) then strtoull_loop cp base (u64 (result * base + value)) else result
  end.

(** The only base used is 16. *)
Definition simple_strtoull (cp : list Z) : Z :=
  match cp with
  | c0 :: c1 :: rest => if (c0 =? 48) && (toupper c1 =? 88) then strtoull_loop rest 16 0 else strtoull_loop cp 16 0
  | _ => strtoull_loop cp 16 0
  end.
Definition simple_strtoll (cp : list Z) : Z :=
  match cp with
  | c :: rest => if c =? 45 then u64 (- simple_strtoull rest) else simple_strtoull cp
  | [] => 0
  end.

(** The rest of the string from the last [c] on. *)
Fixpoint strrchr (s : list Z) (c : Z) : option (list Z) :=
  match s with
  | [] => None
  | x :: s' => match strrchr s' c with Some r => Some r | None => if x =? c then Some s else None end
  end.

Definition changeset (xen_changeset : list Z) : Z :=
  match strrchr xen_changeset 58 with Some c => simple_strtoll c | None => 2 ^ 64 - 1 end.

(** ** Saving and loading a domain *)

Definition hvm_save_header (cs cpuid gtsc_khz : Z) : list Z :=
  le_bytes 4 HVM_FILE_MAGIC ++ le_bytes 4 HVM_FILE_VERSION ++ le_bytes 8 cs ++ le_bytes 4 cpuid ++ le_bytes 4 gtsc_khz.

Section Context.
Context {S : Type}.
Implicit Types d : hdom S.
(** [hvm_sr_handlers], the string of [xen_changeset] and the result of CPUID. *)
Context (hvm_sr_handlers : list (option (handler S))) (xen_changeset : list Z) (cpuid1_eax : Z).

(** Registration of a handler in a free slot. *)
Definition hvm_register_savevm (table : list (option (handler S))) (typecode : nat) (H : handler S) : run (list (option (handler S))) :=
  if negb (Z.of_nat typecode <=? HVM_SAVE_CODE_MAX) then Bug
  else match mjoin (table !! typecode) with Some _ => Bug | None => Ret (<[typecode := Some H]> table) end.

(** The space for the records of a slot. *)
Definition slot_size (d : hdom S) (slot : option (handler S)) : Z :=
  match slot with
  | None => 0
  | Some H => if decide (h_kind H = HVMSR_PER_VCPU) then Z.of_nat (length (vcpu_ids d)) * h_size H else h_size H
  end.
Definition hvm_save_size (d : hdom S) : Z :=
  foldl (fun sz slot => sz + slot_size d slot) (2 * sizeof_desc + t_len HEADER) hvm_sr_handlers.

(** The loop over the handlers. *)
Fixpoint save_loop (slots : list (option (handler S))) (h : hctx) (d : hdom S) : run (Z * hctx * hdom S) :=
  match slots with
  | [] => Ret (0, h, d)
  | None :: slots => save_loop slots h d
  | Some H :: slots =>
      '(r, h, d) ← h_save H d h;
      if negb (r =? 0) then Ret (- EFAULT, h, d) else save_loop slots h d
  end.

Definition hvm_save (d : hdom S) (h : hctx) : run (Z * hctx * hdom S) :=
  if is_dying d then Ret (- EINVAL, h, d)
  else
    let hdr := hvm_save_header (changeset xen_changeset) cpuid1_eax (tsc_khz d) in
    let '(r, h) := hvm_save_entry HEADER 0 h hdr in
    if negb (r =? 0) then Ret (- EFAULT, h, d)
    else
      '(r, h, d) ← save_loop hvm_sr_handlers h d;
      if negb (r =? 0) then Ret (r, h, d)
      else
        let '(r, h) := hvm_save_entry END 0 h [] in
        if negb (r =? 0) then Ret (- EFAULT, h, d)
        else if cur h <=? hsize h then Ret (0, h, d) else Bug.

(** One instance of a type, marshalled with all the others; [junk] is the
    contents of the block that [xmalloc_bytes] gave.  The bytes go to the
    caller. *)
Definition hvm_save_one (d : hdom S) (typecode instance : Z) (junk : Z -> list Z) : run (Z * list Z * hdom S) :=
  if is_dying d || (typecode >? HVM_SAVE_CODE_MAX) then Ret (- EINVAL, [], d)
  else
    match mjoin (hvm_sr_handlers !! Z.to_nat typecode) with
    | None => Ret (- EINVAL, [], d)
    | Some H =>
        if h_size H <? sizeof_desc then Ret (- EINVAL, [], d)
        else
          let sz := slot_size d (Some H) in
          if (instance + 1) * h_size H >? sz then Ret (- EINVAL, [], d)
          else
            '(r, h, d) ← h_save H d (Hctx 0 (u32 sz) (junk sz));
            if negb (r =? 0) then Ret (- EFAULT, [], d)
            else Ret (0, bytes_at h (instance * h_size H + sizeof_desc) (Z.to_nat (h_size H - sizeof_desc)), d)
    end.

(** [arch_hvm_load], on the bytes of the header. *)
Definition arch_hvm_load (d : hdom S) (hdr : list Z) : Z * hdom S :=
  if negb (le_val (take 4 hdr) =? HVM_FILE_MAGIC) then (-1, d)
  else if negb (le_val (take 4 (drop 4 hdr)) =? HVM_FILE_VERSION) then (-1, d)
  else
    let gtsc_khz := le_val (take 4 (drop 20 hdr)) in
    (0, HDom (is_dying d) (if truthy gtsc_khz then gtsc_khz else tsc_khz d) (vtsc d)
             (rdtsc_exiting d || vtsc d) false (vdown d) (slept d) (dev d)).

(** "Down all the vcpus": [vcpu_sleep_nosync] is called for those that were
    down already. *)
Definition down_vcpus (d : hdom S) : hdom S :=
  set_down d (map (option_map (fun _ => true)) (vdown d))
    (slept d ++ filter (fun i => mjoin (vdown d !! i) = Some true) (seq 0 (length (vdown d)))).

(** The [for ( ; ; )] loop. *)
Fixpoint load_loop (fuel : nat) (h : hctx) (d : hdom S) : run (Z * hctx * hdom S) :=
  match fuel with
  | O => Fuel
  | Datatypes.S fuel =>
      if room h <? sizeof_desc then Ret (-1, h, d)
      else
        let typecode := typecode_at h (cur h) in
        if typecode =? 0 then Ret (0, h, d)
        else if typecode >? HVM_SAVE_CODE_MAX then Ret (-1, h, d)
        else
          match mjoin (hvm_sr_handlers !! Z.to_nat typecode) with
          | None => Ret (-1, h, d)
          | Some H =>
              '(r, h, d) ← h_load H d h;
              if negb (r =? 0) then Ret (-1, h, d) else load_loop fuel h d
          end
  end.

(** [hdr] is the uninitialised local structure. *)
Definition hvm_load (fuel : nat) (hdr : list Z) (d : hdom S) (h : hctx) : run (Z * hctx * hdom S) :=
  if is_dying d then Ret (- EINVAL, h, d)
  else
    '(r, h, hdr) ← hvm_load_entry HEADER h hdr;
    if negb (r =? 0) then Ret (-1, h, d)
    else
      let '(r, d) := arch_hvm_load d hdr in
      if negb (r =? 0) then Ret (-1, h, d) else load_loop fuel h (down_vcpus d).

(** ** The requests of the toolstack *)

(** [XEN_DOMCTL_gethvmcontext] for an HVM domain, with a null buffer or one of
    [size] bytes: the result, the size reported and the bytes copied out. *)
Definition gethvmcontext (client : option Z) (alloc : option (Z -> list Z)) (copy_ok : bool) (d : hdom S)
  : run (Z * Z * list Z * hdom S) :=
  let c_size := u32 (hvm_save_size d) in
  match client with
  | None => Ret (0, c_size, [], d)
  | Some size =>
      if size <? c_size then Ret (- ENOSPC, size, [], d)
      else
        match alloc with
        | None => Ret (- ENOMEM, size, [], d)
        | Some junk =>
            '(r, h, d) ← hvm_save d (Hctx 0 c_size (junk c_size));
            if copy_ok then Ret (r, cur h, bytes_at h 0 (Z.to_nat c_size), d) else Ret (- EFAULT, cur h, [], d)
        end
  end.

(** [XEN_DOMCTL_sethvmcontext] with the bytes of the client. *)
Definition sethvmcontext (fuel : nat) (hdr : list Z) (buffer : list Z) (alloc copy_ok : bool) (d : hdom S) : run (Z * hdom S) :=
  if negb alloc then Ret (- ENOMEM, d)
  else if negb copy_ok then Ret (- EFAULT, d)
  else '(r, _, d) ← hvm_load fuel hdr d (Hctx 0 (Z.of_nat (length buffer)) buffer); Ret (r, d).

End Context.

(** ** The changeset in the header *)

Lemma strrchr_head s c r : strrchr s c = Some r -> exists r', r = c :: r'.
Proof.
  revert r. induction s as [|x s IH]; intros r; [done|]. cbn [strrchr]. destruct (strrchr s c); [apply IH|].
  destruct (Z.eqb_spec x c) as [->|]; [|done]. intros [= <-]. eauto.
Qed.

(** The number is read from the colon on, so that it is always zero. *)
Lemma changeset_zero s : is_Some (strrchr s 58) -> changeset s = 0.
Proof. unfold changeset. intros [r E]. rewrite E. destruct (strrchr_head _ _ _ E) as [r' ->]. by destruct r'. Qed.

(** ** Writing and reading at the cursor *)

(** The buffer holds the bytes it claims, and the cursor is inside. *)
Definition hok (h : hctx) : Prop := 0 <= cur h <= hsize h /\ hsize h < 2 ^ 32 /\ hsize h <= Z.of_nat (length (hdata h)).
Definition fits (h : hctx) (n : nat) : Prop := cur h + Z.of_nat n <= hsize h.
(** The next bytes are [bs]. *)
Definition next (h : hctx) (bs : list Z) : Prop := fits h (length bs) /\ bytes_at h (cur h) (length bs) = bs.
Definition advance (h : hctx) (n : nat) : hctx := Hctx (cur h + Z.of_nat n) (hsize h) (hdata h).

Lemma room_ok h : hok h -> room h = hsize h - cur h.
Proof. intros (? & ? & ?). apply u32_small. lia. Qed.

Lemma put_eq h bs : hok h -> fits h (length bs) -> put h bs = Hctx (cur h + Z.of_nat (length bs)) (hsize h) (write_at (hdata h) (Z.to_nat (cur h)) bs).
Proof. intros (? & ? & ?) Hf. unfold put, fits in *. rewrite u32_small by lia. done. Qed.

Lemma put_ok h bs : hok h -> fits h (length bs) -> hok (put h bs).
Proof.
  intros Hh Hf. rewrite put_eq by done. destruct Hh as (? & ? & ?). unfold fits, hok in *. cbn. rewrite write_at_length by lia. lia.
Qed.

Lemma put_put h a b : hok h -> fits h (length (a ++ b)) -> put (put h a) b = put h (a ++ b).
Proof.
  intros Hh Hf. rewrite length_app in Hf. unfold fits in *. pose proof Hh as (? & ? & ?).
  rewrite (put_eq h a), (put_eq h (a ++ b)) by (done || unfold fits; rewrite ?length_app; lia).
  rewrite put_eq; [|unfold hok; cbn; rewrite write_at_length by lia; lia|unfold fits; cbn; lia].
  cbn. rewrite length_app. f_equal; [lia|]. rewrite <- write_at_app by lia. f_equal. lia.
Qed.

Lemma put_fits h a n : hok h -> fits h (length a + n) -> fits (put h a) n.
Proof. intros Hh Hf. rewrite put_eq by (done || unfold fits in *; lia). unfold fits in *. cbn. lia. Qed.

Lemma fits_le h m n : fits h n -> (m <= n)%nat -> fits h m.
Proof. unfold fits. lia. Qed.

Lemma put_nil h : hok h -> put h [] = h.
Proof.
  intros Hh. rewrite put_eq by (done || unfold fits; cbn; destruct Hh; lia). rewrite write_at_nil. destruct h. cbn. f_equal. lia.
Qed.

(** What has been put is read back. *)
Lemma put_take h bs : hok h -> fits h (length bs) -> take (Z.to_nat (cur (put h bs))) (hdata (put h bs)) = take (Z.to_nat (cur h)) (hdata h) ++ bs.
Proof.
  intros Hh Hf. rewrite put_eq by done. cbn. destruct Hh as (? & ? & ?). unfold fits in *.
  replace (Z.to_nat (cur h + Z.of_nat (length bs))) with (Z.to_nat (cur h) + length bs)%nat by lia.
  apply write_at_prefix. lia.
Qed.

Lemma next_app h a b : hok h -> next h (a ++ b) -> next h a /\ next (advance h (length a)) b.
Proof.
  intros Hh [Hf Hb]. unfold next, fits, bytes_at, advance in *. cbn. rewrite length_app in *.
  assert (take (length a) (drop (Z.to_nat (cur h)) (hdata h)) = a) as Ha.
  { rewrite <- (take_app_length a b) at 2. rewrite <- Hb, take_take. f_equal. lia. }
  split; [split; [lia|done]|]. split; [lia|]. destruct Hh as [? _].
  rewrite <- (drop_app_length a b) at 2. rewrite <- Hb, skipn_firstn_comm, drop_drop. f_equal; [lia|]. f_equal. lia.
Qed.

Lemma advance_ok h n : hok h -> fits h n -> hok (advance h n).
Proof. unfold hok, fits, advance. cbn. lia. Qed.

Lemma advance_advance h a b : advance (advance h a) b = advance h (a + b).
Proof. unfold advance. cbn. f_equal. lia. Qed.

Lemma advance_0 h : advance h 0 = h.
Proof. destruct h. unfold advance. cbn. f_equal. lia. Qed.

(** ** Records *)

Record hrec := HRec { r_code : Z; r_inst : Z; r_data : list Z }.
Definition rec_len (r : hrec) : Z := Z.of_nat (length (r_data r)).
Definition rec_bytes (r : hrec) : list Z := hvm_save_descriptor (r_code r) (r_inst r) (rec_len r) ++ r_data r.
Definition recs_bytes (rs : list hrec) : list Z := rs ≫= rec_bytes.
Definition rec_ok (r : hrec) : Prop := 0 <= r_code r < 2 ^ 16 /\ 0 <= r_inst r < 2 ^ 16 /\ rec_len r < 2 ^ 32.

Lemma descriptor_length tc inst len : length (hvm_save_descriptor tc inst len) = 8%nat.
Proof. unfold hvm_save_descriptor. by rewrite !length_app, !le_bytes_length. Qed.

Lemma rec_bytes_length r : length (rec_bytes r) = (8 + length (r_data r))%nat.
Proof. unfold rec_bytes. by rewrite length_app, descriptor_length. Qed.

(** The descriptor of the record at the cursor. *)
Lemma next_descriptor h r : hok h -> next h (rec_bytes r) -> rec_ok r ->
  typecode_at h (cur h) = r_code r /\ instance_at h (cur h) = r_inst r /\ length_at h (cur h) = rec_len r.
Proof.
  intros Hh Hn (Hc & Hi & Hl). unfold rec_bytes, hvm_save_descriptor in Hn. rewrite <- !app_assoc in Hn.
  apply next_app in Hn as [[_ N1] Hn]; [|done]. apply next_app in Hn as [[_ N2] Hn].
  2: { apply advance_ok; [done|]. destruct Hn as [Hf _]. unfold fits, advance in *. cbn in *. lia. }
  apply next_app in Hn as [[_ N3] _].
  2: { destruct Hh as (? & ? & ?). destruct Hn as [Hf _]. unfold hok, fits, advance in *. cbn in *. lia. }
  unfold advance in *. cbn [cur hdata hsize] in *. rewrite !le_bytes_length in N1. rewrite !le_bytes_length in N2. rewrite !le_bytes_length in N3.
  unfold typecode_at, instance_at, length_at. unfold bytes_at in *. cbn [cur hdata] in *.
  change (Z.of_nat 2) with 2 in *. rewrite N1, N2. replace (cur h + 4) with (cur h + 2 + 2) by lia. rewrite N3.
  rewrite !le_val_bytes. unfold rec_len in *. split_and!; apply Z.mod_small; lia.
Qed.

Lemma init_entry_ok h tc inst len :
  hok h -> cur h + 8 + len <= hsize h -> _hvm_init_entry h tc inst len = (0, put h (hvm_save_descriptor tc inst len)).
Proof. intros Hh Hf. unfold _hvm_init_entry, sizeof_desc. rewrite room_ok by done. destruct (Z.ltb_spec (hsize h - cur h) (len + 8)); [lia|done]. Qed.

Lemma save_entry_ok t inst h src :
  hok h -> Z.of_nat (length src) = t_len t -> fits h (8 + length src) ->
  hvm_save_entry t inst h src = (0, put h (rec_bytes (HRec (t_code t) inst src))).
Proof.
  intros Hh Hl Hf. unfold hvm_save_entry. rewrite init_entry_ok by (done || unfold fits in Hf; lia). cbn [Z.eqb].
  unfold _hvm_write_entry, rec_bytes, rec_len. cbn [r_code r_inst r_data]. rewrite Hl, put_put; [done|done|].
  unfold fits in *. rewrite length_app, descriptor_length. lia.
Qed.

(** A record of the right type and length is read whole. *)
Lemma load_entry_ok t r h dst strict :
  hok h -> next h (rec_bytes r) -> rec_ok r -> r_code r = t_code t -> rec_len r = t_len t -> length dst = length (r_data r) ->
  _hvm_load_entry t h dst strict = Ret (0, advance h (length (rec_bytes r)), r_data r).
Proof.
  intros Hh Hn Hr Hc Hl Hd. destruct (next_descriptor h r Hh Hn Hr) as (Ec & Ei & El).
  pose proof Hn as [Hf _]. rewrite rec_bytes_length in Hf. pose proof Hh as (? & ? & ?).
  unfold _hvm_load_entry, _hvm_check_entry, sizeof_desc. rewrite room_ok by done.
  unfold fits in Hf. unfold rec_len in *. destruct (Z.gtb_spec (t_len t + 8) (hsize h - cur h)); [lia|].
  rewrite Ec, El, Hc, Hl, !Z.eqb_refl, Z.ltb_irrefl, andb_false_r. cbn [negb orb Z.eqb]. rewrite u32_small by lia.
  unfold _hvm_read_entry, sizeof_desc. cbn [cur hsize hdata]. replace (cur h + 8 - 8) with (cur h) by lia.
  change (length_at (Hctx (cur h + 8) (hsize h) (hdata h)) (cur h)) with (length_at h (cur h)).
  rewrite El, Hl. destruct (Z.gtb_spec (t_len t) (t_len t)); [lia|]. cbn [mbind run_bind].
  rewrite Z.sub_diag. cbn [Z.to_nat replicate]. rewrite app_nil_r, u32_small by lia.
  apply next_app in Hn as [_ [_ Hn]]; [|done]. rewrite descriptor_length in Hn. unfold advance in *. cbn [cur] in Hn.
  assert (bytes_at (Hctx (cur h + 8) (hsize h) (hdata h)) (cur h + 8) (Z.to_nat (t_len t)) = r_data r) as ->
    by (replace (Z.to_nat (t_len t)) with (length (r_data r)) by lia; exact Hn).
  rewrite write_at_all by done. rewrite rec_bytes_length. do 3 f_equal. f_equal. lia.
Qed.

(** ** What the devices promise *)

(** A device: its handlers, the records that saving writes and the state it
    leaves, and what loading a record does to a domain that accepts it. *)
Record device (S : Type) := Device {
  dv_handler : handler S;
  dv_records : hdom S -> list hrec;
  dv_after : hdom S -> hdom S;
  dv_accepts : hrec -> hdom S -> Prop;
  dv_apply : hrec -> hdom S -> hdom S
}.
Arguments Device {S}. Arguments dv_handler {S}. Arguments dv_records {S}. Arguments dv_after {S}.
Arguments dv_accepts {S}. Arguments dv_apply {S}.

(** A load that has succeeded has moved the cursor past a record. *)
Definition consumed (h h' : hctx) : Prop :=
  hok h' /\ cur h + sizeof_desc <= cur h' /\ hsize h' = hsize h /\ hdata h' = hdata h.

Lemma length_at_nonneg h p : Forall is_byte (hdata h) -> 0 <= length_at h p.
Proof.
  intros Hb. unfold length_at, bytes_at. apply le_val_range. by apply Forall_take, Forall_drop.
Qed.

Lemma check_entry_spec h type len strict :
  hok h -> 0 <= len -> let '(r, h1) := _hvm_check_entry h type len strict in
  (r = -1 /\ h1 = h) \/ (r = 0 /\ h1 = advance h 8 /\ length_at h (cur h) <= len /\ cur h + 8 + len <= hsize h).
Proof.
  intros Hh Hl. unfold _hvm_check_entry, sizeof_desc. rewrite room_ok by done. pose proof Hh as (? & ? & ?).
  destruct (Z.gtb_spec (len + 8) (hsize h - cur h)); [by left|]. destruct (_ || _) eqn:E; [by left|right].
  rewrite u32_small by lia. split_and!; [done|done| |lia]. apply orb_false_iff in E as [E _]. apply orb_false_iff in E as [_ E]. lia.
Qed.

Lemma read_entry_spec h dst len :
  hok h -> Forall is_byte (hdata h) -> length_at h (cur h) <= len -> cur h + 8 + len <= hsize h ->
  exists h' dst', _hvm_read_entry (advance h 8) dst len = Ret (h', dst') /\ consumed h h'.
Proof.
  intros Hh Hb Hl Hf. pose proof Hh as (? & ? & ?). unfold _hvm_read_entry, sizeof_desc, advance. cbn [cur hsize hdata].
  replace (cur h + Z.of_nat 8 - 8) with (cur h) by lia.
  change (length_at (Hctx (cur h + Z.of_nat 8) (hsize h) (hdata h)) (cur h)) with (length_at h (cur h)).
  pose proof (length_at_nonneg h (cur h) Hb). destruct (Z.gtb_spec (length_at h (cur h)) len); [lia|].
  eexists _, _. split; [done|]. rewrite u32_small by lia. unfold consumed, hok, sizeof_desc. cbn. split_and!; (done || lia).
Qed.

(** Reading a record never crashes. *)
Lemma load_entry_total t h dst strict :
  hok h -> Forall is_byte (hdata h) -> 0 <= t_len t -> (forall clen f, t_compat t = Some (clen, f) -> 0 <= clen) ->
  exists r h' dst', _hvm_load_entry t h dst strict = Ret (r, h', dst') /\ (r = 0 -> consumed h h').
Proof.
  intros Hh Hb Hl Hc. unfold _hvm_load_entry. pose proof (check_entry_spec h (t_code t) (t_len t) strict Hh Hl) as Hk.
  destruct (_hvm_check_entry h (t_code t) (t_len t) strict) as [r h1]. destruct Hk as [[-> ->]|(-> & -> & Hle & Hf)]; cbn [Z.eqb].
  - destruct (t_compat t) as [[clen f]|]; [|by do 3 eexists]. specialize (Hc clen f eq_refl).
    pose proof (check_entry_spec h (t_code t) clen strict Hh Hc) as Hk.
    destruct (_hvm_check_entry h (t_code t) clen strict) as [r h1]. destruct Hk as [[-> ->]|(-> & -> & Hle & Hf)]; cbn [Z.eqb]; [by do 3 eexists|].
    destruct (read_entry_spec h dst clen Hh Hb Hle Hf) as (h' & dst' & -> & Hcon). cbn. destruct (f dst') as [r' dst'']. do 3 eexists; split; [reflexivity|done].
  - destruct (read_entry_spec h dst (t_len t) Hh Hb Hle Hf) as (h' & dst' & -> & Hcon). cbn. do 3 eexists; split; [reflexivity|done].
Qed.

(** Loading never crashes and consumes at least a descriptor, whatever the
    bytes are. *)
Definition total_load {S} (H : handler S) : Prop :=
  forall d h, hok h -> Forall is_byte (hdata h) -> sizeof_desc <= hsize h - cur h -> exists r h' d',
    h_load H d h = Ret (r, h', d') /\ (r = 0 -> consumed h h').

(** Loading the state of an HVM guest ends with a result on every sequence of
    bytes: each record that a handler accepts takes at least the eight bytes of
    a descriptor, so that one turn of the loop for every eight bytes is
    enough. *)
Section Ends.
Context {S : Type} (tab : list (option (handler S))) (Htotal : forall i H, tab !! i = Some (Some H) -> total_load H).

Lemma load_loop_returns fuel : forall h d,
  hok h -> Forall is_byte (hdata h) -> hsize h - cur h < 8 * Z.of_nat fuel ->
  exists r h' d', load_loop tab fuel h d = Ret (r, h', d').
Proof.
  induction fuel as [|fuel IH]; intros h d Hh Hb Hf; [destruct Hh; lia|]. cbn [load_loop]. rewrite room_ok by done.
  unfold sizeof_desc. destruct (Z.ltb_spec (hsize h - cur h) 8); [eauto|]. destruct (_ =? 0); [eauto|]. destruct (_ >? _); [eauto|].
  destruct (tab !! Z.to_nat (typecode_at h (cur h))) as [[hd|]|] eqn:Ed; cbn; [|eauto|eauto].
  destruct (Htotal _ _ Ed d h Hh Hb ltac:(unfold sizeof_desc; lia)) as (r & h' & d' & -> & Hc). cbn.
  destruct (Z.eqb_spec r 0) as [Er|]; cbn [negb]; [|eauto]. destruct (Hc Er) as (Hh' & Hcur & Hs & Hd).
  apply IH; [done|congruence|]. unfold sizeof_desc in *. lia.
Qed.

Lemma load_returns fuel hdr d h :
  hok h -> Forall is_byte (hdata h) -> hsize h - cur h < 8 * Z.of_nat fuel ->
  exists r h' d', hvm_load tab fuel hdr d h = Ret (r, h', d').
Proof.
  intros Hh Hb Hf. unfold hvm_load. destruct (is_dying d); [eauto|].
  destruct (load_entry_total HEADER h hdr true Hh Hb) as (r & h1 & hdr' & E & Hc); [cbn; lia|done|].
  unfold hvm_load_entry. rewrite E. cbn [mbind run_bind]. destruct (Z.eqb_spec r 0) as [Er|]; cbn [negb]; [|eauto].
  destruct (arch_hvm_load d hdr') as [r2 d2]. destruct (r2 =? 0); cbn [negb]; [|eauto].
  destruct (Hc Er) as (Hh1 & Hcur & Hs & Hd). apply load_loop_returns; [done|congruence|]. unfold sizeof_desc in *. lia.
Qed.

End Ends.

Class DeviceLaws {S} (code : nat) (dv : device S) := {
  dl_code d : Forall (fun r => r_code r = Z.of_nat code /\ rec_ok r) (dv_records dv d);
  dl_size d : Z.of_nat (length (recs_bytes (dv_records dv d))) <= slot_size d (Some (dv_handler dv));
  dl_save d h : hok h -> fits h (length (recs_bytes (dv_records dv d))) ->
    h_save (dv_handler dv) d h = Ret (0, put h (recs_bytes (dv_records dv d)), dv_after dv d);
  dl_after d : vdown (dv_after dv d) = vdown d;
  dl_load d h r : hok h -> next h (rec_bytes r) -> r_code r = Z.of_nat code -> rec_ok r -> dv_accepts dv r d ->
    h_load (dv_handler dv) d h = Ret (0, advance h (length (rec_bytes r)), dv_apply dv r d);
  dl_total : total_load (dv_handler dv)
}.

Section Laws.
Context {S : Type} (devs : list (option (device S))) (xen_changeset : list Z) (cpuid1_eax : Z).
Context (laws : forall i dv, devs !! i = Some (Some dv) -> DeviceLaws i dv).
Context (Hmax : Z.of_nat (length devs) <= HVM_SAVE_CODE_MAX + 1) (Hend : mjoin (devs !! 0%nat) = None).
Implicit Types d : hdom S.

Definition table : list (option (handler S)) := map (option_map dv_handler) devs.

(** The records of the slots from [i] on, and the domain afterwards. *)
Fixpoint records_of (slots : list (option (device S))) (d : hdom S) : list hrec :=
  match slots with
  | [] => []
  | None :: slots => records_of slots d
  | Some dv :: slots => dv_records dv d ++ records_of slots (dv_after dv d)
  end.
Fixpoint after_of (slots : list (option (device S))) (d : hdom S) : hdom S :=
  match slots with
  | [] => d
  | None :: slots => after_of slots d
  | Some dv :: slots => after_of slots (dv_after dv d)
  end.

Definition header (d : hdom S) : hrec := HRec 1 0 (hvm_save_header (changeset xen_changeset) cpuid1_eax (tsc_khz d)).
Definition end_rec : hrec := HRec 0 0 [].
Definition image (d : hdom S) : list hrec := header d :: records_of devs d ++ [end_rec].

Lemma recs_bytes_app a b : recs_bytes (a ++ b) = recs_bytes a ++ recs_bytes b.
Proof. apply bind_app. Qed.

Lemma slot_size_vdown d d' o : vdown d' = vdown d -> slot_size (S:=S) d' o = slot_size d o.
Proof. intros E. unfold slot_size, vcpu_ids. by rewrite E. Qed.

Lemma foldl_size d (l : list (option (handler S))) z :
  foldl (fun sz slot => sz + slot_size d slot) z l = z + foldl (fun sz slot => sz + slot_size d slot) 0 l.
Proof. revert z. induction l as [|o l IH]; intros z; cbn; [lia|]. rewrite IH, (IH (0 + _)). lia. Qed.

Lemma records_size slots d :
  (forall dv, Some dv ∈ slots -> exists i, DeviceLaws i dv) ->
  Z.of_nat (length (recs_bytes (records_of slots d))) <=
  foldl (fun sz slot => sz + slot_size d slot) 0 (map (option_map dv_handler) slots).
Proof.
  revert d. induction slots as [|[dv|] slots IH]; intros d Hl; cbn [records_of map foldl option_map]; [done| |].
  - rewrite recs_bytes_app, length_app, foldl_size. destruct (Hl dv ltac:(by left)) as [i L].
    pose proof (dl_size d). specialize (IH (dv_after dv d) ltac:(intros; apply Hl; by right)).
    assert (forall l z, foldl (fun sz slot => sz + slot_size (dv_after dv d) slot) z l = foldl (fun sz slot => sz + slot_size d slot) z l) as Hs.
    { induction l as [|o l IHl]; intros z; [done|]. cbn. rewrite IHl. do 2 f_equal. apply slot_size_vdown, dl_after. }
    rewrite Hs in IH. lia.
  - cbn [slot_size]. apply IH. intros; apply Hl; by right.
Qed.

Lemma save_loop_spec slots : forall h d,
  (forall dv, Some dv ∈ slots -> exists i, DeviceLaws i dv) -> hok h -> fits h (length (recs_bytes (records_of slots d))) ->
  save_loop (map (option_map dv_handler) slots) h d = Ret (0, put h (recs_bytes (records_of slots d)), after_of slots d).
Proof.
  induction slots as [|[dv|] slots IH]; intros h d Hl Hh Hf; cbn [records_of map option_map save_loop after_of].
  - unfold recs_bytes. cbn. by rewrite put_nil.
  - cbn [records_of] in Hf. rewrite recs_bytes_app in *. destruct (Hl dv ltac:(by left)) as [i L].
    rewrite length_app in Hf. rewrite dl_save by (done || unfold fits in *; lia). cbn [mbind run_bind Z.eqb negb].
    rewrite IH, put_put; try done.
    + unfold fits in *. rewrite length_app. lia.
    + intros; apply Hl; by right.
    + apply put_ok; [done|]. unfold fits in *. lia.
    + rewrite put_eq by (done || unfold fits in *; lia). unfold fits in *. cbn. lia.
  - apply IH; try done. intros; apply Hl; by right.
Qed.

Lemma devs_laws dv : Some dv ∈ devs -> exists i, DeviceLaws i dv.
Proof. intros [i Hi]%list_elem_of_lookup. exists i. by apply laws. Qed.

Lemma hvm_save_header_length cs c t : length (hvm_save_header cs c t) = 24%nat.
Proof. unfold hvm_save_header. by rewrite !length_app, !le_bytes_length. Qed.

Lemma image_size d : Z.of_nat (length (recs_bytes (image d))) <= hvm_save_size table d.
Proof.
  unfold image, hvm_save_size, table. cbn [recs_bytes mbind list_bind]. fold (recs_bytes (records_of devs d ++ [end_rec])).
  rewrite recs_bytes_app, !length_app. unfold header. rewrite rec_bytes_length. cbn [r_data]. rewrite hvm_save_header_length.
  unfold recs_bytes at 2. cbn [mbind list_bind]. rewrite length_app, rec_bytes_length. cbn [r_data end_rec length].
  pose proof (records_size devs d devs_laws) as H.
  rewrite foldl_size. unfold sizeof_desc. cbn [t_len HEADER]. lia.
Qed.

(** Saving writes exactly the records and does not leave the buffer. *)
Lemma hvm_save_spec d h :
  is_dying d = false -> hok h -> fits h (length (recs_bytes (image d))) ->
  hvm_save table xen_changeset cpuid1_eax d h = Ret (0, put h (recs_bytes (image d)), after_of devs d).
Proof.
  intros Hd Hh Hf. unfold hvm_save. rewrite Hd.
  assert (recs_bytes (image d) = rec_bytes (header d) ++ recs_bytes (records_of devs d) ++ rec_bytes end_rec) as Ei.
  { unfold image. change (recs_bytes (header d :: ?l)) with (rec_bytes (header d) ++ recs_bytes l). by rewrite recs_bytes_app. }
  rewrite Ei in *. set (b := recs_bytes (records_of devs d)) in *. clear Ei.
  assert (length (rec_bytes (header d)) = (8 + 24)%nat) as La by (rewrite rec_bytes_length; cbn [header r_data]; by rewrite hvm_save_header_length).
  assert (length (rec_bytes end_rec) = 8%nat) as Lc by apply rec_bytes_length. rewrite !length_app in Hf.
  rewrite save_entry_ok; [|done|by rewrite hvm_save_header_length|rewrite hvm_save_header_length; eapply fits_le; [exact Hf|lia]].
  cbn [Z.eqb negb]. change (t_code HEADER) with 1. fold (header d).
  assert (hok (put h (rec_bytes (header d)))) as H1 by (apply put_ok; [done|eapply fits_le; [exact Hf|lia]]).
  pose proof (put_fits h (rec_bytes (header d)) (length b + 8) Hh ltac:(eapply fits_le; [exact Hf|lia])) as F1.
  unfold table. rewrite save_loop_spec; [|apply devs_laws|done|eapply fits_le; [exact F1|unfold b; lia]].
  cbn [mbind run_bind Z.eqb negb]. fold b.
  assert (hok (put (put h (rec_bytes (header d))) b)) as H2 by (apply put_ok; [done|eapply fits_le; [exact F1|lia]]).
  pose proof (put_fits _ b 8 H1 F1) as F2.
  rewrite save_entry_ok by done. cbn [Z.eqb negb]. change (t_code END) with 0. fold end_rec.
  pose proof (put_ok _ (rec_bytes end_rec) H2 F2) as [H3 _]. destruct (Z.leb_spec (cur (put (put (put h (rec_bytes (header d))) b) (rec_bytes end_rec))) (hsize (put (put (put h (rec_bytes (header d))) b) (rec_bytes end_rec)))); [|lia].
  rewrite (put_put h), put_put, <- app_assoc; try done.
  - rewrite !length_app. eapply fits_le; [exact Hf|lia].
  - rewrite !length_app. eapply fits_le; [exact Hf|lia].
Qed.

(** ** Loading *)

Definition device_of (r : hrec) : option (device S) := mjoin (devs !! Z.to_nat (r_code r)).
Definition apply_rec (r : hrec) (d : hdom S) : hdom S := match device_of r with Some dv => dv_apply dv r d | None => d end.
Definition apply_all (rs : list hrec) (d : hdom S) : hdom S := foldl (fun d r => apply_rec r d) d rs.

(** Every record finds a device that accepts it when its turn comes. *)
Fixpoint accepted (rs : list hrec) (d : hdom S) : Prop :=
  match rs with
  | [] => True
  | r :: rs => rec_ok r /\ (exists dv, device_of r = Some dv /\ dv_accepts dv r d) /\ accepted rs (apply_rec r d)
  end.

Lemma table_lookup i : mjoin (table !! i) = option_map dv_handler (mjoin (devs !! i)).
Proof. unfold table. rewrite list_lookup_fmap. by destruct (devs !! i) as [[dv|]|]. Qed.

Lemma device_of_laws r dv : 0 <= r_code r -> device_of r = Some dv -> 0 < r_code r <= HVM_SAVE_CODE_MAX /\ DeviceLaws (Z.to_nat (r_code r)) dv.
Proof.
  intros Hr. unfold device_of. destruct (devs !! Z.to_nat (r_code r)) as [o|] eqn:E; [|done]. cbn. intros ->. split; [|by apply laws].
  pose proof (lookup_lt_Some _ _ _ E). split; [|lia]. destruct (decide (r_code r = 0)) as [E0|]; [|lia].
  rewrite E0 in E. change (Z.to_nat 0) with 0%nat in E. by rewrite E in Hend.
Qed.

Lemma load_loop_spec rs : forall fuel h d,
  hok h -> next h (recs_bytes (rs ++ [end_rec])) -> accepted rs d -> (length rs < fuel)%nat ->
  load_loop table fuel h d = Ret (0, advance h (length (recs_bytes rs)), apply_all rs d).
Proof.
  induction rs as [|r rs IH]; intros [|fuel] h d Hh Hn Ha Hf; try (cbn in Hf; lia); cbn [load_loop app].
  - cbn [app] in Hn. change (recs_bytes [end_rec]) with (rec_bytes end_rec ++ []) in Hn. rewrite app_nil_r in Hn.
    destruct (next_descriptor h end_rec Hh Hn) as (-> & _ & _); [unfold rec_ok, rec_len, end_rec; cbn; lia|].
    rewrite room_ok by done. destruct Hn as [Hfit _]. unfold fits in Hfit. rewrite rec_bytes_length in Hfit. cbn in Hfit.
    unfold sizeof_desc. destruct (Z.ltb_spec (hsize h - cur h) 8); [lia|]. cbn. by rewrite advance_0.
  - destruct Ha as (Hr & (dv & Ed & Hac) & Ha).
    change (recs_bytes ((r :: rs) ++ [end_rec])) with (rec_bytes r ++ recs_bytes (rs ++ [end_rec])) in Hn.
    apply next_app in Hn as [Hn1 Hn2]; [|done].
    destruct (next_descriptor h r Hh Hn1 Hr) as (-> & _ & _). pose proof Hr as (Hrc & _).
    destruct (device_of_laws r dv ltac:(lia) Ed) as [Hc L].
    pose proof Hn1 as [Hfit _]. unfold fits in Hfit. rewrite rec_bytes_length in Hfit. rewrite room_ok by done. unfold sizeof_desc.
    destruct (Z.ltb_spec (hsize h - cur h) 8); [lia|]. destruct (Z.eqb_spec (r_code r) 0); [lia|].
    destruct (Z.gtb_spec (r_code r) HVM_SAVE_CODE_MAX); [lia|].
    rewrite table_lookup. unfold device_of in Ed. rewrite Ed. cbn [option_map].
    rewrite (dl_load d h r) by (done || lia). cbn [mbind run_bind Z.eqb negb].
    assert (apply_rec r d = dv_apply dv r d) as Eap by (unfold apply_rec, device_of; by rewrite Ed).
    rewrite <- Eap. rewrite IH; [|apply advance_ok; [done|apply Hn1]|done|done|cbn in Hf; lia].
    rewrite advance_advance. change (recs_bytes (r :: rs)) with (rec_bytes r ++ recs_bytes rs). by rewrite length_app.
Qed.

(** The domain that takes the records: the frequency of its time stamp
    counter is the saved one, and its CPUs are down. *)
Definition loaded_base (tsc : Z) (t : hdom S) : hdom S :=
  down_vcpus (HDom (is_dying t) (if truthy tsc then tsc else tsc_khz t) (vtsc t) (rdtsc_exiting t || vtsc t) false (vdown t) (slept t) (dev t)).

Lemma rec_bytes_positive r : (8 <= length (rec_bytes r))%nat.
Proof. rewrite rec_bytes_length. lia. Qed.

Lemma recs_count rs : (8 * length rs <= length (recs_bytes rs))%nat.
Proof.
  induction rs as [|r rs IH]; [done|]. change (recs_bytes (r :: rs)) with (rec_bytes r ++ recs_bytes rs).
  rewrite length_app. pose proof (rec_bytes_positive r). cbn [length]. lia.
Qed.

Lemma arch_hvm_load_header (t : hdom S) cs c tsc :
  0 <= tsc < 2 ^ 32 ->
  arch_hvm_load t (hvm_save_header cs c tsc) =
    (0, HDom (is_dying t) (if truthy tsc then tsc else tsc_khz t) (vtsc t) (rdtsc_exiting t || vtsc t) false (vdown t) (slept t) (dev t)).
Proof.
  intros Hts. unfold arch_hvm_load, hvm_save_header.
  rewrite (take_app_length' (le_bytes 4 HVM_FILE_MAGIC)) by (by rewrite le_bytes_length).
  rewrite (drop_app_length' (le_bytes 4 HVM_FILE_MAGIC)) by (by rewrite le_bytes_length).
  rewrite (take_app_length' (le_bytes 4 HVM_FILE_VERSION)) by (by rewrite le_bytes_length). rewrite !le_val_bytes.
  change (HVM_FILE_MAGIC mod 256 ^ Z.of_nat 4 =? HVM_FILE_MAGIC) with true.
  change (HVM_FILE_VERSION mod 256 ^ Z.of_nat 4 =? HVM_FILE_VERSION) with true. cbn [negb].
  rewrite !app_assoc, drop_app_length' by (by rewrite !length_app, !le_bytes_length).
  rewrite take_ge by (rewrite le_bytes_length; lia). rewrite le_val_bytes, Z.mod_small by lia. done.
Qed.

Lemma hvm_load_spec fuel hdr d t :
  length hdr = 24%nat -> is_dying t = false -> 0 <= tsc_khz d < 2 ^ 32 -> Z.of_nat (length (recs_bytes (image d))) < 2 ^ 32 ->
  accepted (records_of devs d) (loaded_base (tsc_khz d) t) -> Z.of_nat (length (recs_bytes (image d))) < 8 * Z.of_nat fuel ->
  exists h', hvm_load table fuel hdr t (Hctx 0 (Z.of_nat (length (recs_bytes (image d)))) (recs_bytes (image d))) =
    Ret (0, h', apply_all (records_of devs d) (loaded_base (tsc_khz d) t)).
Proof.
  intros Hh Ht Hts Hsz Hac Hf. set (h := Hctx _ _ _). assert (hok h) as Hok by (unfold hok, h; cbn [cur hsize hdata]; lia).
  assert (next h (recs_bytes (image d))) as Hn. { split; [unfold fits, h; cbn [cur hsize]; lia|]. unfold bytes_at, h. cbn [cur hdata]. by rewrite drop_0, take_ge. }
  unfold image in Hn. change (recs_bytes (header d :: ?l)) with (rec_bytes (header d) ++ recs_bytes l) in Hn.
  apply next_app in Hn as [Hn1 Hn2]; [|done]. unfold hvm_load. rewrite Ht.
  assert (length (r_data (header d)) = 24%nat) as Hl by apply hvm_save_header_length.
  unfold hvm_load_entry. rewrite (load_entry_ok HEADER (header d));
    [|done|exact Hn1|unfold rec_ok, rec_len; rewrite Hl; cbn; lia|done|unfold rec_len; by rewrite Hl|by rewrite Hl].
  cbn [mbind run_bind Z.eqb negb]. change (r_data (header d)) with (hvm_save_header (changeset xen_changeset) cpuid1_eax (tsc_khz d)).
  assert (arch_hvm_load t (hvm_save_header (changeset xen_changeset) cpuid1_eax (tsc_khz d)) =
    (0, HDom (is_dying t) (if truthy (tsc_khz d) then tsc_khz d else tsc_khz t) (vtsc t) (rdtsc_exiting t || vtsc t) false (vdown t) (slept t) (dev t))) as ->.
  { by apply arch_hvm_load_header. }
  cbn [Z.eqb negb]. eexists. apply load_loop_spec; [|exact Hn2|exact Hac|].
  - apply advance_ok; [done|apply Hn1].
  - pose proof (recs_count (image d)) as Hrc. unfold image in Hrc, Hf. cbn [length] in Hrc. rewrite length_app in Hrc. cbn [length] in Hrc. lia.
Qed.

(** The state that the hypervisor saves for an HVM guest is the state that
    loading restores: the request for the context succeeds in a buffer of the
    size that the hypervisor asked for, reports how much of it was used, and
    that much, given to a domain whose devices accept the records, is loaded
    record by record in the order in which it was saved. *)
Lemma context_roundtrip d t junk hdr :
  is_dying d = false -> is_dying t = false -> length hdr = 24%nat -> 0 <= tsc_khz d < 2 ^ 32 ->
  hvm_save_size table d < 2 ^ 32 -> (forall n, length (junk n) = Z.to_nat n) ->
  accepted (records_of devs d) (loaded_base (tsc_khz d) t) ->
  exists n bytes,
    gethvmcontext table xen_changeset cpuid1_eax (Some (hvm_save_size table d)) (Some junk) true d = Ret (0, n, bytes, after_of devs d) /\
    take (Z.to_nat n) bytes = recs_bytes (image d) /\
    sethvmcontext table (Z.to_nat (hvm_save_size table d)) hdr (take (Z.to_nat n) bytes) true true t =
      Ret (0, apply_all (records_of devs d) (loaded_base (tsc_khz d) t)).
Proof.
  intros Hd Ht Hh Hts Hsz Hj Hac. pose proof (image_size d) as Hi. pose proof (recs_count (image d)) as Hrc.
  assert (1 <= length (image d))%nat as Hone by (unfold image; cbn; lia).
  set (sz := hvm_save_size table d) in *. set (h := Hctx 0 sz (junk sz)).
  assert (hok h) as Hok by (unfold hok, h; cbn [cur hsize hdata]; rewrite Hj; lia).
  assert (fits h (length (recs_bytes (image d)))) as Hf by (unfold fits, h; cbn [cur hsize]; lia).
  unfold gethvmcontext. fold sz. rewrite u32_small by lia. destruct (Z.ltb_spec sz sz); [lia|]. fold h.
  rewrite hvm_save_spec by done. cbn [mbind run_bind]. rewrite put_eq by done. cbn [cur h].
  eexists _, _. split; [reflexivity|].
  assert (take (Z.to_nat (0 + Z.of_nat (length (recs_bytes (image d)))))
    (bytes_at (Hctx (0 + Z.of_nat (length (recs_bytes (image d)))) sz (write_at (junk sz) 0 (recs_bytes (image d)))) 0 (Z.to_nat sz)) = recs_bytes (image d)) as Et.
  { unfold bytes_at. cbn [hdata]. change (Z.to_nat 0) with 0%nat. rewrite drop_0, take_take, Z.add_0_l, Nat2Z.id, Nat.min_l by lia.
    apply take_write_at. rewrite Hj. lia. }
  cbn [hsize hdata h] in *. change (Z.to_nat 0) with 0%nat. rewrite Et. split; [done|]. unfold sethvmcontext. cbn [negb].
  destruct (hvm_load_spec (Z.to_nat sz) hdr d t) as [h' E]; try done; [lia|lia|]. rewrite E. done.
Qed.

End Laws.

End HvmContext.
