(* ===== verification/HvmHandler.v ===== *)
(** Handlers of emulated devices, and the contract they meet.

    The devices of an HVM guest save one record for the domain, or one for
    every virtual CPU, with [hvm_save_entry], and load it by reading a structure
    with [hvm_load_entry] and looking at it afterwards.  This file shows once
    that handlers of these two shapes satisfy [HvmContext.DeviceLaws]; the
    files of the devices show that their handlers have such a shape.
    [Component] is how a device finds its part of the state of a domain. *)

From S2P Require Import Prelude HvmContext.

Module HvmHandler.
Import HvmContext.

(** The part [T] of a larger state. *)
Class Component (S T : Type) := {
  sget : S -> T;
  sput : T -> S -> S;
  sget_sput t s : sget (sput t s) = t;
  sput_sput t u s : sput t (sput u s) = sput t s;
  sput_sget s : sput (sget s) s = s
}.

(** Two parts that do not overlap. *)
Class Disjoint (S T U : Type) `{Component S T, Component S U} := {
  sget_sput_ne (t : T) s : sget (T:=U) (sput t s) = sget s
}.

Definition dget {S T} `{Component S T} (d : hdom S) : T := sget (dev d).
Definition dput {S T} `{Component S T} (t : T) (d : hdom S) : hdom S := set_dev d (sput t (dev d)).

Lemma dget_dput {S T} `{Component S T} (t : T) (d : hdom S) : dget (dput t d) = t.
Proof. unfold dget, dput. apply sget_sput. Qed.

Lemma dget_dput_ne {S T U} `{Disjoint S T U} (t : T) (d : hdom S) : dget (T:=U) (dput t d) = dget d.
Proof. unfold dget, dput. apply sget_sput_ne. Qed.

Lemma dput_dget {S T} `{Component S T} (d : hdom S) : dput (dget d) d = d.
Proof. unfold dput, dget. rewrite sput_sget. by destruct d. Qed.

Lemma dput_vdown {S T} `{Component S T} (t : T) (d : hdom S) : vdown (dput t d) = vdown d.
Proof. done. Qed.

(** The size that [HVM_REGISTER_SAVE_RESTORE] registers for [num] records. *)
Definition reg_size (num : Z) (t : htype) : Z := num * (t_len t + sizeof_desc).

(** Types whose lengths make sense. *)
Definition htype_ok (t : htype) : Prop :=
  0 <= t_code t < 2 ^ 16 /\ 0 <= t_len t < 2 ^ 32 /\ (forall clen f, t_compat t = Some (clen, f) -> 0 <= clen).

Lemma le_bytes_mod n z : le_bytes n (z mod 256 ^ Z.of_nat n) = le_bytes n z.
Proof.
  rewrite <- le_val_bytes. pose proof (le_bytes_val (le_bytes n z) (le_bytes_bytes n z)) as H. by rewrite le_bytes_length in H.
Qed.

(** The instance of a record has sixteen bits. *)
Lemma rec_bytes_inst c i data : rec_bytes (HRec c (i mod 2 ^ 16) data) = rec_bytes (HRec c i data).
Proof. unfold rec_bytes, hvm_save_descriptor. cbn [r_code r_inst r_data]. change (2 ^ 16) with (256 ^ Z.of_nat 2). by rewrite le_bytes_mod. Qed.

Lemma recs_bytes_cons r rs : recs_bytes (r :: rs) = rec_bytes r ++ recs_bytes rs.
Proof. done. Qed.

(** ** A sequence of records, saved one after the other *)

(** [for] loops that stop at the first record that does not fit: [fail] is what
    the handler makes of the error. *)
Fixpoint save_each (t : htype) (fail : Z -> Z) (items : list (Z * list Z)) (h : hctx) : Z * hctx :=
  match items with
  | [] => (0, h)
  | (inst, data) :: items =>
      let '(r, h) := hvm_save_entry t inst h data in
      if negb (r =? 0) then (fail r, h) else save_each t fail items h
  end.

Definition item_recs (t : htype) (items : list (Z * list Z)) : list hrec :=
  map (fun '(inst, data) => HRec (t_code t) (inst mod 2 ^ 16) data) items.

Lemma item_recs_length t items :
  Forall (fun i => Z.of_nat (length i.2) = t_len t) items ->
  Z.of_nat (length (recs_bytes (item_recs t items))) = Z.of_nat (length items) * (t_len t + sizeof_desc).
Proof.
  unfold sizeof_desc. induction 1 as [|[i data] items Hi _ IH]; [done|]. cbn [item_recs map length] in *.
  rewrite recs_bytes_cons, length_app, rec_bytes_length. cbn [r_data]. cbn in Hi. fold (item_recs t items). lia.
Qed.

Lemma item_recs_ok t items :
  htype_ok t -> Forall (fun i => Z.of_nat (length i.2) = t_len t) items ->
  Forall (fun r => r_code r = t_code t /\ rec_ok r) (item_recs t items).
Proof.
  intros (Hc & Hl & _). induction 1 as [|[i data] items Hi _ IH]; [constructor|]. cbn [item_recs map]. constructor; [|done].
  cbn in Hi. pose proof (Z.mod_pos_bound i (2 ^ 16) ltac:(lia)). unfold rec_ok, rec_len. cbn [r_code r_inst r_data]. split; lia.
Qed.

Lemma save_each_ok t fail items : forall h,
  Forall (fun i => Z.of_nat (length i.2) = t_len t) items -> hok h -> fits h (length (recs_bytes (item_recs t items))) ->
  save_each t fail items h = (0, put h (recs_bytes (item_recs t items))).
Proof.
  induction items as [|[i data] items IH]; intros h Hi Hh Hf; cbn [save_each item_recs map] in *.
  - unfold recs_bytes. cbn. by rewrite put_nil.
  - inversion_clear Hi as [|? ? Hd Hi']. cbn in Hd. fold (item_recs t items) in *.
    rewrite recs_bytes_cons, rec_bytes_inst in *. rewrite length_app in Hf.
    rewrite save_entry_ok; [|done|done|eapply fits_le; [exact Hf|rewrite rec_bytes_length; cbn; lia]]. cbn [Z.eqb negb].
    rewrite IH, put_put; try done.
    + eapply fits_le; [exact Hf|rewrite length_app; lia].
    + apply put_ok; [done|]. eapply fits_le; [exact Hf|lia].
    + by apply put_fits.
Qed.

(** ** One structure of the domain *)

Section Shapes.
Context {S : Type}.
Implicit Types d : hdom S.

(** A handler that reads a structure into a block [init] and hands it to
    [post], which returns the result of the handler. *)
Definition load_one (t : htype) (strict : bool) (init : list Z) (post : list Z -> hdom S -> Z * hdom S) (d : hdom S) (h : hctx)
  : run (Z * hctx * hdom S) :=
  '(r, h, data) ← _hvm_load_entry t h init strict;
  if negb (r =? 0) then Ret (- EINVAL, h, d) else let '(rc, d) := post data d in Ret (rc, h, d).

Lemma load_one_ok t strict init post d h r :
  hok h -> next h (rec_bytes r) -> rec_ok r -> r_code r = t_code t -> rec_len r = t_len t -> Z.of_nat (length init) = t_len t ->
  load_one t strict init post d h =
    Ret ((post (r_data r) d).1, advance h (length (rec_bytes r)), (post (r_data r) d).2).
Proof.
  intros Hh Hn Hr Hc Hl Hi. unfold load_one. unfold rec_len in *. rewrite (load_entry_ok t r) by (done || unfold rec_len; lia).
  cbn [mbind run_bind Z.eqb negb]. by destruct (post (r_data r) d).
Qed.

Lemma load_one_total t strict init post d h :
  htype_ok t -> hok h -> Forall is_byte (hdata h) ->
  exists r h' d', load_one t strict init post d h = Ret (r, h', d') /\ (r = 0 -> consumed h h').
Proof.
  intros (Hc & Hl & Ht) Hh Hb. unfold load_one.
  destruct (load_entry_total t h init strict Hh Hb ltac:(lia) Ht) as (r & h' & data & -> & Hcon). cbn [mbind run_bind].
  destruct (Z.eqb_spec r 0) as [Er|]; cbn [negb].
  - destruct (post data d) as [rc d'] eqn:Ep. do 3 eexists. split; [reflexivity|]. auto.
  - do 3 eexists. split; [reflexivity|]. unfold EINVAL. lia.
Qed.

(** ** Devices with one kind of record *)

(** [items] are the records that the handler saves, with their instances;
    [pre] is what loading does with the instance before it reads the record,
    [post] what it does with the contents. *)
Record shape := Shape {
  sh_type : htype; sh_strict : bool; sh_num : Z; sh_kind : skind; sh_fail : Z -> Z;
  sh_items : hdom S -> list (Z * list Z);
  sh_after : hdom S -> hdom S;
  sh_pre : Z -> hdom S -> Z * hdom S;
  sh_init : Z -> hdom S -> list Z;
  sh_post : Z -> list Z -> hdom S -> Z * hdom S
}.

Definition shape_save (p : shape) (d : hdom S) (h : hctx) : run (Z * hctx * hdom S) :=
  let '(r, h) := save_each (sh_type p) (sh_fail p) (sh_items p d) h in Ret (r, h, sh_after p d).

Definition shape_load (p : shape) (d : hdom S) (h : hctx) : run (Z * hctx * hdom S) :=
  let inst := hvm_load_instance h in
  let '(rc, d) := sh_pre p inst d in
  if negb (rc =? 0) then Ret (rc, h, d)
  else load_one (sh_type p) (sh_strict p) (sh_init p inst d) (sh_post p inst) d h.

(** The handler of a device has the shape [p]. *)
Record has_shape (H : handler S) (p : shape) : Prop := {
  hs_save d h : h_save H d h = shape_save p d h;
  hs_load d h : h_load H d h = shape_load p d h;
  hs_size : h_size H = reg_size (sh_num p) (sh_type p);
  hs_kind : h_kind H = sh_kind p
}.

Definition shape_device (H : handler S) (p : shape) : device S :=
  Device H (fun d => item_recs (sh_type p) (sh_items p d)) (sh_after p)
    (fun r d => rec_len r = t_len (sh_type p) /\ (sh_pre p (r_inst r) d).1 = 0 /\
                (sh_post p (r_inst r) (r_data r) (sh_pre p (r_inst r) d).2).1 = 0)
    (fun r d => (sh_post p (r_inst r) (r_data r) (sh_pre p (r_inst r) d).2).2).

(** What makes such a device a good one. *)
Record shape_ok (p : shape) : Prop := {
  so_type : htype_ok (sh_type p);
  so_items d : Forall (fun i => Z.of_nat (length i.2) = t_len (sh_type p)) (sh_items p d);
  so_num d : Z.of_nat (length (sh_items p d)) <=
    match sh_kind p with HVMSR_PER_DOM => sh_num p | HVMSR_PER_VCPU => Z.of_nat (length (vcpu_ids d)) * sh_num p end;
  so_after d : vdown (sh_after p d) = vdown d;
  so_init i d : Z.of_nat (length (sh_init p i d)) = t_len (sh_type p)
}.

Lemma shape_laws H p : shape_ok p -> has_shape H p -> DeviceLaws (Z.to_nat (t_code (sh_type p))) (shape_device H p).
Proof.
  intros [Ht Hit Hn Ha Hin] [Hsv Hld Hsz Hk]. pose proof Ht as (Hc & Hl & _). split; cbn [shape_device dv_handler dv_records dv_after dv_accepts dv_apply].
  - intros d. rewrite Z2Nat.id by lia. by apply item_recs_ok.
  - intros d. rewrite item_recs_length by done. specialize (Hn d). unfold slot_size. rewrite Hk, Hsz.
    unfold reg_size, sizeof_desc. destruct (sh_kind p); case_decide; try done; nia.
  - intros d h Hh Hf. rewrite Hsv. unfold shape_save. by rewrite save_each_ok.
  - done.
  - intros d h r Hh Hnx Hco Hr (Hlen & Hpre & Hpost). rewrite Hld. unfold shape_load.
    destruct (next_descriptor h r Hh Hnx Hr) as (_ & Ei & _). unfold hvm_load_instance. rewrite Ei.
    destruct (sh_pre p (r_inst r) d) as [rc d1]. cbn [fst snd] in *. subst rc. cbn [Z.eqb negb].
    rewrite (load_one_ok _ _ _ _ _ _ r) by (done || lia || apply Hin). by rewrite Hpost.
  - intros d h Hh Hb _. rewrite Hld. unfold shape_load.
    destruct (sh_pre p (hvm_load_instance h) d) as [rc d1]. destruct (Z.eqb_spec rc 0); cbn [negb].
    + by apply load_one_total.
    + do 3 eexists. split; [reflexivity|]. lia.
Qed.

(** ** Loops over the virtual CPUs *)

(** [vcpuid >= d->max_vcpus || d->vcpu[vcpuid] == NULL]. *)
Definition no_vcpu (d : hdom S) (vcpuid : Z) : bool :=
  (vcpuid >=? Z.of_nat (length (vdown d))) || negb (has_vcpu d vcpuid).

Lemma vcpu_ids_elem d i : i ∈ vcpu_ids d <-> is_Some (mjoin (vdown d !! i)).
Proof.
  unfold vcpu_ids. rewrite list_elem_of_filter, elem_of_seq. split; [tauto|]. intros H. split; [done|].
  destruct (vdown d !! i) eqn:E; [apply lookup_lt_Some in E; lia|]. by destruct H.
Qed.

Lemma no_vcpu_false d i : i ∈ vcpu_ids d -> no_vcpu d (Z.of_nat i) = false.
Proof.
  intros Hi%vcpu_ids_elem. unfold no_vcpu, has_vcpu. rewrite Nat2Z.id, bool_decide_eq_true_2 by done.
  destruct (vdown d !! i) eqn:E; [apply lookup_lt_Some in E|by destruct Hi]. rewrite orb_false_r. lia.
Qed.

Lemma vcpu_ids_NoDup d : NoDup (vcpu_ids d).
Proof. apply NoDup_filter, NoDup_seq. Qed.

End Shapes.
Arguments shape : clear implicits.

(** ** Records one after the other *)

Lemma accepted_app {S} (devs : list (option (device S))) a b d :
  accepted devs a d -> accepted devs b (apply_all devs a d) -> accepted devs (a ++ b) d.
Proof. revert d. induction a as [|r a IH]; intros d; cbn [accepted app]; [done|]. intros (Hr & Hd & Ha) Hb. split_and!; try done. by apply IH. Qed.

Lemma apply_all_app {S} (devs : list (option (device S))) a b d : apply_all devs (a ++ b) d = apply_all devs b (apply_all devs a d).
Proof. apply foldl_app. Qed.

End HvmHandler.
