(* ===== verification/Layout.v ===== *)
(** Structures of C as fields of a block of bytes.

    A structure that is copied as a whole (into a record, over a descriptor) is
    a block; its members are fields with an offset and a size.  Assigning
    members one after the other and reading them back is independent of their
    order, and a structure all of whose bytes belong to members has no contents
    besides them. *)

From S2P Require Import Prelude.

Module Layout.

Record field := Field { f_off : nat; f_size : nat }.

#[export] Instance field_eq_dec : EqDecision field.
Proof. solve_decision. Defined.

(** The bytes of a member, its value, and an assignment to it. *)
Definition slice (f : field) (c : list Z) : list Z := take (f_size f) (drop (f_off f) c).
Definition fget (f : field) (c : list Z) : Z := le_val (slice f c).
Definition store (f : field) (bs c : list Z) : list Z := write_at c (f_off f) bs.
Definition fset (f : field) (z : Z) (c : list Z) : list Z := store f (le_bytes (f_size f) z) c.

(** [f = z], to be carried out by [assign]. *)
Definition num (f : field) (z : Z) : field * list Z := (f, le_bytes (f_size f) z).
Definition assign (l : list (field * list Z)) (c : list Z) : list Z := foldl (fun c '(f, bs) => store f bs c) c l.

Definition inside (n : nat) (f : field) : Prop := (f_off f + f_size f <= n)%nat.
Definition apart (f g : field) : Prop := (f_off f + f_size f <= f_off g \/ f_off g + f_size g <= f_off f)%nat.

#[export] Instance apart_dec f g : Decision (apart f g).
Proof. unfold apart. apply _. Defined.
#[export] Instance inside_dec n f : Decision (inside n f).
Proof. unfold inside. apply _. Defined.

Lemma apart_sym f g : apart f g -> apart g f.
Proof. unfold apart. lia. Qed.

Lemma slice_length f c : inside (length c) f -> length (slice f c) = f_size f.
Proof. unfold inside, slice. intros H. rewrite length_take, length_drop. lia. Qed.

Lemma slice_store_eq f bs c : inside (length c) f -> length bs = f_size f -> slice f (store f bs c) = bs.
Proof.
  unfold inside, slice, store, write_at. intros H Hl.
  rewrite drop_app_length' by (rewrite length_take; lia). by rewrite take_app_length'.
Qed.

Lemma slice_store_ne f g bs c : apart f g -> inside (length c) g -> length bs = f_size g -> slice f (store g bs c) = slice f c.
Proof.
  unfold apart, inside, slice, store, write_at. intros Ha H Hl. destruct Ha as [Ha|Ha].
  - rewrite take_drop_commute, take_app_le by (rewrite length_take; lia).
    by rewrite take_take, Nat.min_l, <- take_drop_commute by lia.
  - rewrite app_assoc, drop_app_ge by (rewrite length_app, length_take; lia). rewrite drop_drop. f_equal. f_equal.
    rewrite length_app, length_take. lia.
Qed.

Lemma store_length f bs c : inside (length c) f -> length bs = f_size f -> length (store f bs c) = length c.
Proof. unfold inside, store. intros H Hl. apply write_at_length. lia. Qed.

(** ** Sequences of assignments *)

(** The members fit in a block of [n] bytes and the bytes fit the members. *)
Definition fitting (n : nat) (l : list (field * list Z)) : Prop := Forall (fun p => inside n p.1 /\ length p.2 = f_size p.1) l.

Lemma assign_cons f bs l c : assign ((f, bs) :: l) c = assign l (store f bs c).
Proof. done. Qed.

Lemma assign_app l m c : assign (l ++ m) c = assign m (assign l c).
Proof. apply foldl_app. Qed.

Lemma block_assign_length l : forall c, fitting (length c) l -> length (assign l c) = length c.
Proof.
  induction l as [|[f bs] l IH]; intros c Hf; [done|]. apply Forall_cons in Hf as [[Hi Hl] Hf]. cbn [fst snd] in *.
  rewrite assign_cons. pose proof (store_length f bs c Hi Hl) as E. rewrite IH by (by rewrite E). done.
Qed.

Lemma slice_assign_ne f l : forall c, fitting (length c) l -> Forall (fun p => apart f p.1) l -> slice f (assign l c) = slice f c.
Proof.
  induction l as [|[g bs] l IH]; intros c Hf Ha; [done|]. apply Forall_cons in Hf as [[Hi Hl] Hf], Ha as [Hag Ha]. cbn [fst snd] in *.
  rewrite assign_cons, IH; [by apply slice_store_ne| |done]. by rewrite store_length.
Qed.

(** No two members overlap. *)
Fixpoint disjoint_fields (fs : list field) : Prop :=
  match fs with [] => True | f :: fs => Forall (apart f) fs /\ disjoint_fields fs end.

#[export] Instance disjoint_fields_dec fs : Decision (disjoint_fields fs).
Proof. induction fs; cbn; apply _. Defined.

Lemma disjoint_fields_app fs gs :
  disjoint_fields (fs ++ gs) <-> disjoint_fields fs /\ disjoint_fields gs /\ Forall (fun f => Forall (apart f) gs) fs.
Proof.
  induction fs as [|f fs IH]; cbn [app disjoint_fields].
  - split; [intros H; split_and!; [done|done|constructor]|tauto].
  - rewrite Forall_app, Forall_cons, IH. tauto.
Qed.

(** A member that was assigned has the value of its assignment. *)
Lemma slice_assign l : forall c f bs, fitting (length c) l -> disjoint_fields l.*1 -> (f, bs) ∈ l -> slice f (assign l c) = bs.
Proof.
  induction l as [|[g b] l IH]; intros c f bs Hf Hd Hin; [by apply not_elem_of_nil in Hin|].
  apply Forall_cons in Hf as [[Hi Hl] Hf]. cbn [fst snd fmap list_fmap disjoint_fields] in *. destruct Hd as [Ha Hd]. rewrite assign_cons.
  apply elem_of_cons in Hin as [[= -> ->]|Hin].
  - rewrite slice_assign_ne; [by apply slice_store_eq|by rewrite store_length|]. by rewrite Forall_fmap in Ha.
  - apply IH; try done. by rewrite store_length.
Qed.

(** ** Members that fill the structure *)

Fixpoint tiles (o n : nat) (fs : list field) : Prop :=
  match fs with [] => o = n | f :: fs => f_off f = o /\ tiles (o + f_size f) n fs end.

#[export] Instance tiles_dec o n fs : Decision (tiles o n fs).
Proof. revert o. induction fs; intros o; cbn; apply _. Defined.

Lemma tiles_slices fs : forall o c, tiles o (length c) fs -> drop o c = fs ≫= fun f => slice f c.
Proof.
  induction fs as [|f fs IH]; intros o c; cbn [tiles mbind list_bind].
  - intros ->. by rewrite drop_all.
  - intros [<- Ht]. fold (mbind (fun f => slice f c) fs). rewrite <- (IH _ _ Ht). unfold slice.
    rewrite <- drop_drop. by rewrite take_drop.
Qed.

Lemma bind_ext_elem {A B} (f g : A -> list B) l : (forall x, x ∈ l -> f x = g x) -> l ≫= f = l ≫= g.
Proof.
  induction l as [|x l IH]; intros H; [done|]. cbn [mbind list_bind]. fold (mbind f l) (mbind g l). f_equal; [apply H; by left|].
  apply IH. intros y Hy. apply H. by right.
Qed.

(** Concatenations of pieces of the same lengths agree piece by piece. *)
Lemma bind_eq_elem {A B} (f g : A -> list B) l : l ≫= f = l ≫= g -> (forall x, x ∈ l -> length (f x) = length (g x)) -> forall x, x ∈ l -> f x = g x.
Proof.
  induction l as [|y l IH]; intros E Hl x Hx; [by apply not_elem_of_nil in Hx|]. cbn [mbind list_bind] in E. fold (mbind f l) (mbind g l) in E.
  apply app_inj_1 in E as [E1 E2]; [|apply Hl; by left]. apply elem_of_cons in Hx as [->|Hx]; [done|]. apply IH; [done| |done]. intros z Hz. apply Hl. by right.
Qed.

(** Two blocks with the same members are equal. *)
Lemma block_ext fs c c' :
  tiles 0 (length c) fs -> length c' = length c -> (forall f, f ∈ fs -> slice f c = slice f c') -> c = c'.
Proof.
  intros Ht Hl Hs. pose proof (tiles_slices fs 0 c Ht) as E. rewrite <- Hl in Ht. pose proof (tiles_slices fs 0 c' Ht) as E'.
  rewrite drop_0 in E, E'. rewrite E, E'. by apply bind_ext_elem.
Qed.

(** Assigning every member leaves nothing of the old contents. *)
Lemma assign_all fs l c c' :
  tiles 0 (length c) fs -> length c' = length c -> fitting (length c) l -> disjoint_fields l.*1 -> (forall f, f ∈ fs -> f ∈ l.*1) ->
  assign l c = assign l c'.
Proof.
  intros Ht Hl Hf Hd Hc. assert (fitting (length c') l) as Hf' by (by rewrite Hl). apply (block_ext fs); rewrite ?block_assign_length; try done.
  intros f Hin. apply Hc, list_elem_of_fmap in Hin as ([g bs] & -> & Hin). cbn [fst]. by rewrite !(slice_assign l _ g bs).
Qed.

Lemma fget_num f z c : slice f c = le_bytes (f_size f) z -> fget f c = z mod 256 ^ Z.of_nat (f_size f).
Proof. intros E. unfold fget. by rewrite E, le_val_bytes. Qed.

Lemma store_same f c : inside (length c) f -> store f (slice f c) c = c.
Proof.
  unfold inside, store, slice, write_at. intros H. rewrite length_take, length_drop, Nat.min_l by lia.
  rewrite <- drop_drop, take_drop. apply take_drop.
Qed.

End Layout.
