(* ===== verification/HvmCpu.v ===== *)
(** The virtual CPUs of an HVM guest in its saved context.

    Models the handlers of types CPU and CPU_XSAVE (xen/arch/x86/hvm/hvm.c) on
    [struct hvm_hw_cpu] and [struct hvm_hw_cpu_xsave]
    (xen/include/public/arch-x86/hvm/save.h), with what [boot_vcpu] does for an
    HVM guest (xen/arch/x86/domain.c).  The parts of a CPU that differ between
    processors are reached through [hvm_funcs], here the class [HvmFuncs];
    [HvmFuncsLaws] is what a migration relies on, and is discharged for VMX in
    another file. *)

From S2P Require Import Prelude HvmContext HvmHandler Layout.

Module HvmCpu.
Import HvmContext HvmHandler Layout.

(** ** The structure *)

(** The registers of [struct cpu_user_regs], 64 bits wide. *)
Inductive ureg := eax | ebx | ecx | edx | ebp | esi | edi | esp | r8 | r9 | r10 | r11 | r12 | r13 | r14 | r15 | eip | eflags.
#[export] Instance ureg_eq_dec : EqDecision ureg.
Proof. solve_decision. Defined.

Definition all_uregs : list ureg :=
  [eax; ebx; ecx; edx; ebp; esi; edi; esp; r8; r9; r10; r11; r12; r13; r14; r15; eip; eflags].
Definition ureg_pos (r : ureg) : nat :=
  match r with
  | eax => 0 | ebx => 1 | ecx => 2 | edx => 3 | ebp => 4 | esi => 5 | edi => 6 | esp => 7 | r8 => 8 | r9 => 9 | r10 => 10 | r11 => 11
  | r12 => 12 | r13 => 13 | r14 => 14 | r15 => 15 | eip => 16 | eflags => 17
  end.

Inductive x86_segment :=
| x86_seg_cs | x86_seg_ss | x86_seg_ds | x86_seg_es | x86_seg_fs | x86_seg_gs | x86_seg_tr | x86_seg_ldtr | x86_seg_gdtr | x86_seg_idtr.
#[export] Instance x86_segment_eq_dec : EqDecision x86_segment.
Proof. solve_decision. Defined.

Record segment_register := Seg { sel : Z; attr : Z; limit : Z; base : Z }.

(** The place of a segment among the members of [hvm_hw_cpu]. *)
Definition seg_pos (s : x86_segment) : nat :=
  match s with
  | x86_seg_cs => 0 | x86_seg_ds => 1 | x86_seg_es => 2 | x86_seg_fs => 3 | x86_seg_gs => 4 | x86_seg_ss => 5
  | x86_seg_tr => 6 | x86_seg_ldtr => 7 | x86_seg_idtr => 8 | x86_seg_gdtr => 9
  end.
Definition is_table (s : x86_segment) : bool := match s with x86_seg_gdtr | x86_seg_idtr => true | _ => false end.

Definition c_fpu_regs : field := Field 0 512.
Definition c_reg (r : ureg) : field := Field (512 + 8 * ureg_pos r) 8.
Definition c_cr0 : field := Field 656 8.
Definition c_cr2 : field := Field 664 8.
Definition c_cr3 : field := Field 672 8.
Definition c_cr4 : field := Field 680 8.
(** [dr0] to [dr3], [dr6] and [dr7]. *)
Definition c_dr (k : nat) : field := Field (688 + 8 * (if decide (k < 6)%nat then k else k - 2)) 8.
Definition c_sel (s : x86_segment) : field := Field (736 + 4 * seg_pos s) 4.
Definition c_limit (s : x86_segment) : field := Field (768 + 4 * seg_pos s) 4.
Definition c_base (s : x86_segment) : field := Field (808 + 8 * seg_pos s) 8.
Definition c_arbytes (s : x86_segment) : field := Field (888 + 4 * seg_pos s) 4.
Definition c_sysenter_cs : field := Field 920 8.
Definition c_sysenter_esp : field := Field 928 8.
Definition c_sysenter_eip : field := Field 936 8.
Definition c_shadow_gs : field := Field 944 8.
Definition c_msr_flags : field := Field 952 8.
Definition c_msr_lstar : field := Field 960 8.
Definition c_msr_star : field := Field 968 8.
Definition c_msr_cstar : field := Field 976 8.
Definition c_msr_syscall_mask : field := Field 984 8.
Definition c_msr_efer : field := Field 992 8.
Definition c_msr_tsc_aux : field := Field 1000 8.
Definition c_tsc : field := Field 1008 8.
Definition c_pending_event : field := Field 1016 4.
Definition c_error_code : field := Field 1020 4.

Definition segments : list x86_segment :=
  [x86_seg_cs; x86_seg_ds; x86_seg_es; x86_seg_fs; x86_seg_gs; x86_seg_ss; x86_seg_tr; x86_seg_ldtr].
Definition debugregs : list nat := [0; 1; 2; 3; 6; 7]%nat.

(** The members in their order. *)
Definition hvm_hw_cpu : list field :=
  [c_fpu_regs] ++ map c_reg all_uregs ++ [c_cr0; c_cr2; c_cr3; c_cr4] ++ map c_dr debugregs ++
  map c_sel segments ++ map c_limit (segments ++ [x86_seg_idtr; x86_seg_gdtr]) ++ map c_base (segments ++ [x86_seg_idtr; x86_seg_gdtr]) ++
  map c_arbytes segments ++
  [c_sysenter_cs; c_sysenter_esp; c_sysenter_eip; c_shadow_gs; c_msr_flags; c_msr_lstar; c_msr_star; c_msr_cstar; c_msr_syscall_mask;
   c_msr_efer; c_msr_tsc_aux; c_tsc; c_pending_event; c_error_code].

(** The older structure, without [msr_tsc_aux]; converted in place. *)
Definition _hvm_hw_fix_cpu (c : list Z) : Z * list Z :=
  let c := fset c_error_code (fget (Field 1012 4) c) c in
  let c := fset c_pending_event (fget (Field 1008 4) c) c in
  let c := fset c_tsc (fget (Field 1000 8) c) c in
  (0, fset c_msr_tsc_aux 0 c).

Definition CPU : htype := HType 2 1024 (Some (1016, _hvm_hw_fix_cpu)).
Definition CPU_XSAVE_CODE : Z := 16.

(** ** What depends on the processor *)

(** The members that [hvm_funcs.save_cpu_ctxt] fills. *)
Definition arch_fields : list field :=
  [c_shadow_gs; c_msr_cstar; c_msr_flags; c_msr_lstar; c_msr_star; c_msr_syscall_mask; c_tsc; c_cr0; c_cr2; c_cr3; c_cr4; c_msr_efer;
   c_sysenter_cs; c_sysenter_esp; c_sysenter_eip; c_pending_event; c_error_code].

(** [hvm_funcs]: the first argument of saving and loading is the time stamp
    counter of the host at that moment; [set_info_guest] gets the debug
    register 7 and the flags. *)
Class HvmFuncs (V : Type) := {
  save_cpu_ctxt : Z -> V -> list (field * list Z);
  load_cpu_ctxt : Z -> list Z -> V -> Z * V;
  get_segment_register : x86_segment -> V -> segment_register * V;
  set_segment_register : x86_segment -> segment_register -> V -> V;
  set_info_guest : Z -> Z -> V -> V
}.

Record vcpu (V : Type) := Vcpu {
  is_initialised : bool; fpu_initialised : bool; fpu_ctxt : list Z; user_regs : ureg -> Z; debugreg : nat -> Z; vc_flags : Z;
  msr_tsc_aux : Z; xcr0 : Z; xcr0_accum : Z; xsave_area : list Z; vendor : V
}.
Arguments Vcpu {V}. Arguments is_initialised {V}. Arguments fpu_initialised {V}. Arguments fpu_ctxt {V}. Arguments user_regs {V}.
Arguments debugreg {V}. Arguments vc_flags {V}. Arguments msr_tsc_aux {V}. Arguments xcr0 {V}. Arguments xcr0_accum {V}.
Arguments xsave_area {V}. Arguments vendor {V}.

#[export] Instance vcpu_inhabited {V} `{!Inhabited V} : Inhabited (vcpu V) :=
  populate (Vcpu false false [] (fun _ => 0) (fun _ => 0) 0 0 0 0 [] inhabitant).

Definition with_vendor {V} (v : vcpu V) (w : V) : vcpu V :=
  Vcpu (is_initialised v) (fpu_initialised v) (fpu_ctxt v) (user_regs v) (debugreg v) (vc_flags v) (msr_tsc_aux v) (xcr0 v) (xcr0_accum v) (xsave_area v) w.

(** What the processor of the host can do; [xsave_cntxt_size] is the size of
    the area for XSAVE. *)
Record features := Features {
  has_nx : bool; has_syscall : bool; has_lmsl : bool; has_ffxsr : bool; has_smep : bool; has_fsgsbase : bool; has_xsave : bool;
  xsave_cntxt_size : nat; xfeature_mask : Z
}.

Definition X86_CR0_PE : Z := 0x1.
Definition X86_CR0_ET : Z := 0x10.
Definition X86_CR0_PG : Z := 0x80000000.
Definition HVM_CR0_GUEST_RESERVED_BITS : Z := not_w 64 0xe005003f.
Definition HVM_CR4_GUEST_RESERVED_BITS (ft : features) : Z :=
  not_w 64 (0x7ff .| (if has_smep ft then 0x100000 else 0) .| (if has_fsgsbase ft then 0x10000 else 0) .| (if has_xsave ft then 0x40000 else 0)).
Definition EFER_SCE : Z := 1.
Definition EFER_LME : Z := 0x100.
Definition EFER_LMA : Z := 0x400.
Definition EFER_NX : Z := 0x800.
Definition EFER_LMSLE : Z := 0x2000.
Definition EFER_FFXSE : Z := 0x4000.
Definition VGCF_I387_VALID : Z := 1.
Definition VGCF_online : Z := 32.
Definition XSTATE_FP_SSE : Z := 3.

Definition hvm_efer_valid (ft : features) (value validbits : Z) : bool :=
  negb (truthy (value .& not_w 64 validbits) || (negb (has_nx ft) && truthy (value .& EFER_NX)) ||
        (negb (has_syscall ft) && truthy (value .& EFER_SCE)) || (negb (has_lmsl ft) && truthy (value .& EFER_LMSLE)) ||
        (negb (has_ffxsr ft) && truthy (value .& EFER_FFXSE)) || ((value .& (EFER_LME .| EFER_LMA)) =? EFER_LMA)).

(** The checks of the control registers. *)
Definition bad_cr0 (c : list Z) : bool :=
  truthy (fget c_cr0 c .& HVM_CR0_GUEST_RESERVED_BITS) || negb (truthy (fget c_cr0 c .& X86_CR0_ET)) ||
  ((fget c_cr0 c .& (X86_CR0_PE .| X86_CR0_PG)) =? X86_CR0_PG).
Definition bad_cr4 (ft : features) (c : list Z) : bool := truthy (fget c_cr4 c .& HVM_CR4_GUEST_RESERVED_BITS ft).
Definition bad_efer (ft : features) (c : list Z) : bool :=
  negb (hvm_efer_valid ft (fget c_msr_efer c) (EFER_FFXSE .| EFER_LMSLE .| EFER_LME .| EFER_LMA .| EFER_NX .| EFER_SCE)).

(** [UNFOLD_ARBYTES], for the segments in the order of the source. *)
Definition unfold_one (c : list Z) (s : x86_segment) : list Z :=
  let r := fget (c_arbytes s) c in
  if truthy (r .& 0xf000) && negb (truthy (r .& 0xf00)) then fset (c_arbytes s) ((r .& 0xff) .| ((r .>> 4) .& 0xf00)) c else c.
Definition unfold_arbytes (c : list Z) : list Z := foldl unfold_one c segments.

(** ** Saving and loading one CPU *)

Section Cpu.
Context {V : Type} `{!HvmFuncs V, !Inhabited V}.
(** [seg0] is the uninitialised local [seg]. *)
Context (ft : features) (tsc_mode_pvrdtscp : bool) (incarnation : Z) (seg0 : segment_register).
Implicit Types v : vcpu V.

Definition hvm_msr_tsc_aux (v : vcpu V) : Z := if tsc_mode_pvrdtscp then u32 incarnation else u32 (msr_tsc_aux v).

(** The order in which the segments are saved and loaded. *)
Definition seg_order : list x86_segment :=
  [x86_seg_idtr; x86_seg_gdtr; x86_seg_cs; x86_seg_ds; x86_seg_es; x86_seg_ss; x86_seg_fs; x86_seg_gs; x86_seg_tr; x86_seg_ldtr].

Definition seg_assign (s : x86_segment) (r : segment_register) : list (field * list Z) :=
  if is_table s then [num (c_limit s) (limit r); num (c_base s) (base r)]
  else [num (c_sel s) (sel r); num (c_limit s) (limit r); num (c_base s) (base r); num (c_arbytes s) (attr r)].

Fixpoint save_segs (order : list x86_segment) (w : V) : list (field * list Z) * V :=
  match order with
  | [] => ([], w)
  | s :: order =>
      let '(r, w) := get_segment_register s w in
      let '(l, w) := save_segs order w in (seg_assign s r ++ l, w)
  end.

(** The descriptor tables come first and have neither selector nor attributes:
    they take what the local [seg] has. *)
Definition seg_of (c : list Z) (s : x86_segment) : segment_register :=
  if is_table s then Seg (sel seg0) (attr seg0) (fget (c_limit s) c) (fget (c_base s) c)
  else Seg (fget (c_sel s) c mod 2 ^ 16) (fget (c_arbytes s) c mod 2 ^ 16) (fget (c_limit s) c) (fget (c_base s) c).
Definition load_segs (order : list x86_segment) (c : list Z) (w : V) : V := foldl (fun w s => set_segment_register s (seg_of c s) w) w order.

(** The assignments to the local structure, and the CPU afterwards. *)
Definition cpu_assigns (now : Z) (v : vcpu V) : list (field * list Z) :=
  save_cpu_ctxt now (vendor v) ++ [num c_msr_tsc_aux (hvm_msr_tsc_aux v)] ++ (save_segs seg_order (vendor v)).1 ++
  [(c_fpu_regs, if fpu_initialised v then resize 512 0 (fpu_ctxt v) else replicate 512 0)] ++
  map (fun r => num (c_reg r) (user_regs v r)) all_uregs ++ map (fun k => num (c_dr k) (debugreg v k)) debugregs.
Definition save_vcpu (now : Z) (v : vcpu V) (ctxt : list Z) : list Z * vcpu V :=
  (assign (cpu_assigns now v) ctxt, with_vendor v (save_segs seg_order (vendor v)).2).

(** The structure goes into the CPU, after the part of the processor. *)
Definition load_vcpu (c : list Z) (w : V) (v : vcpu V) : vcpu V :=
  Vcpu true true (slice c_fpu_regs c)
    (fun r => if decide (r = eflags) then fget (c_reg eflags) c .| 2 else fget (c_reg r) c)
    (fun k => if decide (k ∈ debugregs) then fget (c_dr k) c else debugreg v k)
    VGCF_online (fget c_msr_tsc_aux c)
    (if has_xsave ft then XSTATE_FP_SSE else xcr0 v) (if has_xsave ft then XSTATE_FP_SSE else xcr0_accum v)
    (if has_xsave ft then write_at (write_at (xsave_area v) 0 (slice c_fpu_regs c)) 512 (le_bytes 8 XSTATE_FP_SSE) else xsave_area v)
    (load_segs seg_order c w).

(** ** The handlers *)

Context {S : Type} `{!Component S (list (vcpu V))}.
(** The time stamp counter of the host when a CPU is saved or loaded. *)
Context (clock : nat -> Z).
Implicit Types d : hdom S.

Definition cpu (d : hdom S) (i : nat) : vcpu V := (dget d : list (vcpu V)) !!! i.
Definition set_cpu (i : nat) (v : vcpu V) (d : hdom S) : hdom S := dput (<[i := v]> (dget d : list (vcpu V))) d.
Definition is_down (d : hdom S) (i : nat) : bool := bool_decide (mjoin (vdown d !! i) = Some true).
Definition set_is_down (i : nat) (b : bool) (d : hdom S) : hdom S := set_down d (<[i := Some b]> (vdown d)) (slept d).

(** [ctxt] is the local structure; it keeps its contents from one turn to the
    next. *)
Fixpoint save_cpus (ids : list nat) (ctxt : list Z) (d : hdom S) (h : hctx) : run (Z * hctx * hdom S) :=
  match ids with
  | [] => Ret (0, h, d)
  | i :: ids =>
      if is_down d i then save_cpus ids ctxt d h
      else
        let '(ctxt, v) := save_vcpu (clock i) (cpu d i) ctxt in
        let d := set_cpu i v d in
        let '(r, h) := hvm_save_entry CPU (Z.of_nat i) h ctxt in
        if negb (r =? 0) then Ret (1, h, d) else save_cpus ids ctxt d h
  end.
Definition hvm_save_cpu_ctxt (ctxt : list Z) (d : hdom S) (h : hctx) : run (Z * hctx * hdom S) := save_cpus (vcpu_ids d) ctxt d h.

(** [boot_vcpu] for a CPU of an HVM guest: [arch_set_info_guest] with the
    context the CPU has. *)
Definition boot_vcpu (i : nat) (d : hdom S) : hdom S :=
  let v := cpu d i in
  let regs := fun r => if decide (r = eflags) then user_regs v eflags .| 2 else user_regs v r in
  let v := Vcpu (is_initialised v) (truthy (vc_flags v .& VGCF_I387_VALID)) (fpu_ctxt v) regs (debugreg v) (vc_flags v) (msr_tsc_aux v)
             (xcr0 v) (xcr0_accum v) (xsave_area v) (set_info_guest (debugreg v 7) (regs eflags) (vendor v)) in
  set_is_down i (negb (truthy (vc_flags v .& VGCF_online))) (set_cpu i v d).

Definition hvm_load_cpu_ctxt (ctxt : list Z) (d : hdom S) (h : hctx) : run (Z * hctx * hdom S) :=
  let vcpuid := hvm_load_instance h in
  if no_vcpu d vcpuid then Ret (- EINVAL, h, d)
  else
    let i := Z.to_nat vcpuid in
    let d := if is_initialised (cpu d i) then d else boot_vcpu i d in
    '(r, h, c) ← hvm_load_entry CPU h ctxt;
    if negb (r =? 0) then Ret (- EINVAL, h, d)
    else if bad_cr0 c then Ret (- EINVAL, h, d)
    else if bad_cr4 ft c then Ret (- EINVAL, h, d)
    else if bad_efer ft c then Ret (- EINVAL, h, d)
    else
      let c := unfold_arbytes c in
      let '(rc, w) := load_cpu_ctxt (clock i) c (vendor (cpu d i)) in
      if rc <? 0 then Ret (- EINVAL, h, set_cpu i (with_vendor (cpu d i) w) d)
      else Ret (0, h, set_is_down i false (set_cpu i (load_vcpu c w (cpu d i)) d)).

(** ** The area of XSAVE *)

(** [beyond] is the memory behind the buffer. *)
Context (beyond : list Z).

Definition HVM_CPU_XSAVE_SIZE : Z := 3 * 8 + Z.of_nat (xsave_cntxt_size ft).

(** [hvm_hw_cpu_xsave], after the [memset]. *)
Definition xsave_bytes (v : vcpu V) : list Z :=
  le_bytes 8 (xfeature_mask ft) ++ le_bytes 8 (xcr0 v) ++ le_bytes 8 (xcr0_accum v) ++
  (if fpu_initialised v then resize (xsave_cntxt_size ft) 0 (xsave_area v) else replicate (xsave_cntxt_size ft) 0).

Fixpoint save_xsaves (ids : list nat) (d : hdom S) (h : hctx) : Z * hctx :=
  match ids with
  | [] => (0, h)
  | i :: ids =>
      let '(r, h) := _hvm_init_entry h CPU_XSAVE_CODE (Z.of_nat i) HVM_CPU_XSAVE_SIZE in
      if negb (r =? 0) then (1, h) else save_xsaves ids d (put h (xsave_bytes (cpu d i)))
  end.
Definition hvm_save_cpu_xsave_states (d : hdom S) (h : hctx) : run (Z * hctx * hdom S) :=
  if negb (has_xsave ft) then Ret (0, h, d)
  else let '(r, h) := save_xsaves (vcpu_ids d) d h in Ret (r, h, d).

Definition mem_at (h : hctx) (p : Z) (n : nat) : list Z := take n (drop (Z.to_nat p) (hdata h ++ beyond)).

Definition hvm_load_cpu_xsave_states (d : hdom S) (h : hctx) : run (Z * hctx * hdom S) :=
  let vcpuid := hvm_load_instance h in
  if no_vcpu d vcpuid then Ret (- EINVAL, h, d)
  else if negb (has_xsave ft) then Ret (- EINVAL, h, d)
  else if sizeof_desc >? room h then Ret (-1, h, d)
  else
    let len := length_at h (cur h) in
    if len + sizeof_desc >? room h then Ret (-1, h, d)
    else if negb (CPU_XSAVE_CODE =? typecode_at h (cur h)) || (len >? HVM_CPU_XSAVE_SIZE) then Ret (-1, h, d)
    else
      let p := u32 (cur h + sizeof_desc) in
      let h' := Hctx (u32 (p + len)) (hsize h) (hdata h) in
      let mask := le_val (mem_at h p 8) in
      if negb ((mask .& xfeature_mask ft) =? mask) then Ret (- EINVAL, h', d)
      else
        let i := Z.to_nat vcpuid in
        let v := cpu d i in
        Ret (0, h', set_cpu i (Vcpu (is_initialised v) (fpu_initialised v) (fpu_ctxt v) (user_regs v) (debugreg v) (vc_flags v) (msr_tsc_aux v)
               (le_val (mem_at h (p + 8) 8)) (le_val (mem_at h (p + 16) 8))
               (write_at (xsave_area v) 0 (mem_at h (p + 24) (xsave_cntxt_size ft))) (vendor v)) d).

End Cpu.

(** ** The members of the structure *)

Definition seg_fields (s : x86_segment) : list field :=
  if is_table s then [c_limit s; c_base s] else [c_sel s; c_limit s; c_base s; c_arbytes s].

(** In the order in which [hvm_save_cpu_ctxt] assigns them. *)
Definition cpu_fields : list field :=
  arch_fields ++ [c_msr_tsc_aux] ++ (seg_order ≫= seg_fields) ++ [c_fpu_regs] ++ map c_reg all_uregs ++ map c_dr debugregs.

Lemma hvm_hw_cpu_tiles : tiles 0 1024 hvm_hw_cpu.
Proof. vm_compute. repeat split. Qed.

Lemma cpu_fields_disjoint : disjoint_fields cpu_fields.
Proof. apply (bool_decide_unpack _). vm_compute. exact I. Qed.

Lemma cpu_fields_inside : Forall (inside 1024) cpu_fields.
Proof. apply (bool_decide_unpack _). vm_compute. exact I. Qed.

Lemma cpu_fields_all : forall f, f ∈ hvm_hw_cpu -> f ∈ cpu_fields.
Proof. apply Forall_forall, (bool_decide_unpack _). vm_compute. exact I. Qed.

(** ** What a migration relies on *)

(** [hf_ok] holds of the state of a guest that runs, [hf_fresh] of a CPU that
    has been created for the restore.  Loading what was saved, at any time,
    gives a CPU that saves the same: its time stamp counter goes on from the
    value it had. *)
Class HvmFuncsLaws (V : Type) `{!HvmFuncs V} := {
  hf_ok : V -> Prop;
  hf_fresh : V -> Prop;
  hf_fields now (w : V) : (save_cpu_ctxt now w).*1 = arch_fields;
  hf_sizes now (w : V) : Forall (fun p => length p.2 = f_size p.1) (save_cpu_ctxt now w);
  hf_info dr7 fl w : hf_fresh w -> hf_fresh (set_info_guest dr7 fl w);
  hf_attr s w : hf_ok w -> 0 <= attr (get_segment_register s w).1 < 2 ^ 12;
  hf_get_ok s w : hf_ok w -> hf_ok (get_segment_register s w).2;
  hf_restores now now' seg0 (v w : V) (c : list Z) :
    hf_ok v -> hf_fresh w ->
    (forall f bs, (f, bs) ∈ save_cpu_ctxt now v ++ (save_segs seg_order v).1 -> slice f c = bs) -> bad_cr0 c = false ->
    exists w', load_cpu_ctxt now' c w = (0, w') /\
      let w'' := load_segs seg0 seg_order c w' in
      hf_ok w'' /\ save_cpu_ctxt now' w'' = save_cpu_ctxt now v /\ (save_segs seg_order w'').1 = (save_segs seg_order v).1
}.

(** ** The record of a CPU *)

Section Record.
Context {V : Type} `{!HvmFuncs V, !HvmFuncsLaws V}.
Context (ft : features) (tsc_mode_pvrdtscp : bool) (incarnation : Z) (seg0 : segment_register).
Implicit Types v : vcpu V.

Abbreviation cpu_assigns := (cpu_assigns tsc_mode_pvrdtscp incarnation).

Lemma seg_assign_fields s r : (seg_assign s r).*1 = seg_fields s.
Proof. unfold seg_assign, seg_fields. by destruct (is_table s). Qed.

Lemma save_segs_fields order (w : V) : (save_segs order w).1.*1 = order ≫= seg_fields.
Proof.
  revert w. induction order as [|s order IH]; intros w; [done|]. cbn [save_segs mbind list_bind]. destruct (get_segment_register s w) as [r w1].
  specialize (IH w1). destruct (save_segs order w1) as [l w2]. cbn [fst] in *. rewrite fmap_app, seg_assign_fields. f_equal. exact IH.
Qed.

Lemma save_segs_sizes order (w : V) : Forall (fun p => length p.2 = f_size p.1) (save_segs order w).1.
Proof.
  revert w. induction order as [|s order IH]; intros w; [constructor|]. cbn [save_segs]. destruct (get_segment_register s w) as [r w1].
  specialize (IH w1). destruct (save_segs order w1) as [l w2]. cbn [fst] in *. apply Forall_app_2; [|done].
  unfold seg_assign. destruct (is_table s); repeat constructor; cbn [num fst snd]; apply le_bytes_length.
Qed.

Lemma map_num_fst {A} (f : A -> field) (g : A -> Z) l : (map (fun x => num (f x) (g x)) l).*1 = map f l.
Proof. induction l; cbn; [done|]. by f_equal. Qed.

Lemma map_num_sizes {A} (f : A -> field) (g : A -> Z) l : Forall (fun p => length p.2 = f_size p.1) (map (fun x => num (f x) (g x)) l).
Proof. induction l; cbn; constructor; [apply le_bytes_length|done]. Qed.

Lemma cpu_assigns_fields now v : (cpu_assigns now v).*1 = cpu_fields.
Proof.
  unfold HvmCpu.cpu_assigns, cpu_fields. rewrite !fmap_app, hf_fields, save_segs_fields, !map_num_fst. done.
Qed.

Lemma fpu_bytes_length v : length (if fpu_initialised v then resize 512 0 (fpu_ctxt v) else replicate 512 0) = 512%nat.
Proof. destruct (fpu_initialised v); [apply length_resize|apply length_replicate]. Qed.

Lemma cpu_assigns_fitting now v : fitting 1024 (cpu_assigns now v).
Proof.
  unfold fitting. apply Forall_and. split.
  - pose proof cpu_fields_inside as H. rewrite <- (cpu_assigns_fields now v) in H. by rewrite Forall_fmap in H.
  - unfold HvmCpu.cpu_assigns. repeat apply Forall_app_2; auto using hf_sizes, save_segs_sizes, map_num_sizes.
    repeat constructor. apply fpu_bytes_length.
Qed.

(** The record: nothing of what the local structure held before. *)
Definition cpu_bytes (now : Z) (v : vcpu V) : list Z := assign (cpu_assigns now v) (replicate 1024 0).

Lemma save_vcpu_bytes now v ctxt : length ctxt = 1024%nat -> (save_vcpu tsc_mode_pvrdtscp incarnation now v ctxt).1 = cpu_bytes now v.
Proof.
  intros Hl. unfold save_vcpu, cpu_bytes. cbn [fst]. apply (assign_all hvm_hw_cpu); rewrite ?Hl, ?length_replicate.
  - apply hvm_hw_cpu_tiles.
  - done.
  - apply cpu_assigns_fitting.
  - rewrite cpu_assigns_fields. apply cpu_fields_disjoint.
  - intros f Hf. rewrite cpu_assigns_fields. by apply cpu_fields_all.
Qed.

Lemma cpu_bytes_length now v : length (cpu_bytes now v) = 1024%nat.
Proof. unfold cpu_bytes. rewrite block_assign_length; rewrite length_replicate; [done|]. apply cpu_assigns_fitting. Qed.

Lemma cpu_bytes_slice now v f bs : (f, bs) ∈ cpu_assigns now v -> slice f (cpu_bytes now v) = bs.
Proof.
  intros Hin. apply slice_assign with (l := cpu_assigns now v); rewrite ?length_replicate; try done; [apply cpu_assigns_fitting|].
  rewrite cpu_assigns_fields. apply cpu_fields_disjoint.
Qed.

Lemma cpu_bytes_arch now v f bs : (f, bs) ∈ save_cpu_ctxt now (vendor v) ++ (save_segs seg_order (vendor v)).1 -> slice f (cpu_bytes now v) = bs.
Proof.
  intros [Hin|Hin]%elem_of_app; apply cpu_bytes_slice; unfold HvmCpu.cpu_assigns; rewrite !elem_of_app; auto.
Qed.

Lemma cpu_bytes_reg now v r : slice (c_reg r) (cpu_bytes now v) = le_bytes 8 (user_regs v r).
Proof.
  apply cpu_bytes_slice. unfold HvmCpu.cpu_assigns. rewrite !elem_of_app. do 4 right. left. apply list_elem_of_In, in_map_iff.
  exists r. split; [done|]. destruct r; cbn; tauto.
Qed.

Lemma cpu_bytes_dr now v k : k ∈ debugregs -> slice (c_dr k) (cpu_bytes now v) = le_bytes 8 (debugreg v k).
Proof.
  intros Hk. apply cpu_bytes_slice. unfold HvmCpu.cpu_assigns. rewrite !elem_of_app. do 5 right. apply list_elem_of_In, in_map_iff.
  exists k. split; [done|]. by apply list_elem_of_In.
Qed.

Lemma cpu_bytes_fpu now v : slice c_fpu_regs (cpu_bytes now v) = if fpu_initialised v then resize 512 0 (fpu_ctxt v) else replicate 512 0.
Proof. apply cpu_bytes_slice. unfold HvmCpu.cpu_assigns. rewrite !elem_of_app. do 3 right. left. by left. Qed.

Lemma cpu_bytes_aux now v : slice c_msr_tsc_aux (cpu_bytes now v) = le_bytes 8 (hvm_msr_tsc_aux tsc_mode_pvrdtscp incarnation v).
Proof. apply cpu_bytes_slice. unfold HvmCpu.cpu_assigns. rewrite !elem_of_app. right. left. by left. Qed.

(** ** A CPU after the migration *)

Lemma save_segs_attr order (w : V) s :
  hf_ok w -> s ∈ order -> is_table s = false -> exists a, 0 <= a < 2 ^ 12 /\ (c_arbytes s, le_bytes 4 a) ∈ (save_segs order w).1.
Proof.
  revert w. induction order as [|s' order IH]; intros w Hok Hin Ht; [by apply not_elem_of_nil in Hin|]. cbn [save_segs].
  pose proof (hf_attr s' w Hok) as Ha. pose proof (hf_get_ok s' w Hok) as Hok1. destruct (get_segment_register s' w) as [r w1]. cbn [fst snd] in *.
  destruct (decide (s = s')) as [<-|Hne].
  - exists (attr r). split; [done|]. destruct (save_segs order w1) as [l w2]. cbn [fst]. apply elem_of_app. left. unfold seg_assign. rewrite Ht.
    rewrite !elem_of_cons. do 3 right. by left.
  - apply elem_of_cons in Hin as [?|Hin]; [done|]. destruct (IH w1 Hok1 Hin Ht) as (a & Ha' & He). exists a. split; [done|].
    destruct (save_segs order w1) as [l w2]. cbn [fst] in *. apply elem_of_app. by right.
Qed.

(** Attributes that are in the present form already are left alone. *)
Lemma unfold_arbytes_same c : (forall s, s ∈ segments -> 0 <= fget (c_arbytes s) c < 2 ^ 12) -> unfold_arbytes c = c.
Proof.
  unfold unfold_arbytes. induction segments as [|s l IH]; intros H; [done|]. cbn [foldl].
  assert (unfold_one c s = c) as ->.
  { unfold unfold_one. assert (fget (c_arbytes s) c .& 0xf000 = 0) as ->; [|done]. specialize (H s ltac:(by left)).
    zbits. change 0xf000 with (15 .<< 12). rewrite Z.shiftl_spec by done. destruct (decide (i < 12)).
    - rewrite (Z.testbit_neg_r 15) by lia. apply andb_false_r.
    - rewrite (testbit_high _ 12) by lia. done. }
  apply IH. intros s' Hs'. apply H. by right.
Qed.

Lemma segments_in_order s : s ∈ segments -> s ∈ seg_order /\ is_table s = false.
Proof. revert s. apply Forall_forall, (bool_decide_unpack _). vm_compute. exact I. Qed.

Lemma cpu_bytes_unfold now v : hf_ok (vendor v) -> unfold_arbytes (cpu_bytes now v) = cpu_bytes now v.
Proof.
  intros Hok. apply unfold_arbytes_same. intros s Hs. destruct (segments_in_order s Hs) as [Hin Ht].
  destruct (save_segs_attr seg_order (vendor v) s Hok Hin Ht) as (a & Ha & He).
  assert (slice (c_arbytes s) (cpu_bytes now v) = le_bytes 4 a) as E by (apply cpu_bytes_arch, elem_of_app; by right).
  rewrite (fget_num _ a) by exact E. cbn [c_arbytes f_size]. rewrite Z.mod_small; lia.
Qed.

(** The widths of the members of [vcpu]. *)
Record vcpu_typed (v : vcpu V) : Prop := {
  vt_fpu : length (fpu_ctxt v) = 512%nat;
  vt_regs r : 0 <= user_regs v r < 2 ^ 64;
  vt_dr k : 0 <= debugreg v k < 2 ^ 64
}.

(** [u], at the time [now'], is the CPU that [v] was at the time [now]. *)
Record same_guest (now now' : Z) (v u : vcpu V) : Prop := {
  sg_regs r : user_regs u r = if decide (r = eflags) then user_regs v r .| 2 else user_regs v r;
  sg_dr k : k ∈ debugregs -> debugreg u k = debugreg v k;
  sg_fpu : fpu_initialised u = true /\ fpu_ctxt u = if fpu_initialised v then fpu_ctxt v else replicate 512 0;
  sg_aux : msr_tsc_aux u = hvm_msr_tsc_aux tsc_mode_pvrdtscp incarnation v;
  sg_arch : save_cpu_ctxt now' (vendor u) = save_cpu_ctxt now (vendor v);
  sg_segs : (save_segs seg_order (vendor u)).1 = (save_segs seg_order (vendor v)).1;
  sg_ok : hf_ok (vendor u)
}.

Lemma load_saved now now' v u :
  hf_ok (vendor v) -> vcpu_typed v -> hf_fresh (vendor u) -> bad_cr0 (cpu_bytes now v) = false ->
  exists w, load_cpu_ctxt now' (cpu_bytes now v) (vendor u) = (0, w) /\ same_guest now now' v (load_vcpu ft seg0 (cpu_bytes now v) w u).
Proof.
  intros Hok [Hf Hr Hd] Hu Hc0.
  destruct (hf_restores now now' seg0 (vendor v) (vendor u) (cpu_bytes now v) Hok Hu (cpu_bytes_arch now v) Hc0) as (w & Hl & Hok' & Ha & Hs).
  exists w. split; [done|]. split; cbn [load_vcpu user_regs debugreg fpu_initialised fpu_ctxt msr_tsc_aux vendor]; try done.
  - intros r. rewrite !(fget_num _ _ _ (cpu_bytes_reg now v _)). cbn [c_reg f_size]. rewrite !Z.mod_small by apply Hr.
    destruct (decide (r = eflags)) as [->|]; done.
  - intros k Hk. rewrite decide_True by done. rewrite (fget_num _ _ _ (cpu_bytes_dr now v k Hk)). cbn [c_dr f_size]. apply Z.mod_small, Hd.
  - split; [done|]. rewrite cpu_bytes_fpu. destruct (fpu_initialised v); [|done]. apply resize_all_alt. by rewrite Hf.
  - rewrite (fget_num _ _ _ (cpu_bytes_aux now v)). cbn [c_msr_tsc_aux f_size]. apply Z.mod_small. unfold hvm_msr_tsc_aux.
    pose proof (u32_range incarnation). pose proof (u32_range (msr_tsc_aux v)). destruct tsc_mode_pvrdtscp; lia.
Qed.

End Record.

(** A record of the older form gets the members it lacks: the last three are
    moved, from the end backwards, before they are overwritten. *)
Lemma copy_field f g c :
  Forall is_byte c -> inside (length c) f -> inside (length c) g -> f_size f = f_size g ->
  exists c', fset f (fget g c) c = c' /\ length c' = length c /\ Forall is_byte c' /\ slice f c' = slice g c /\
    forall k, apart k f -> slice k c' = slice k c.
Proof.
  intros Hb Hf Hg Hs. pose proof (slice_length g c Hg) as Hl. eexists. split; [reflexivity|]. unfold fset, fget.
  assert (Forall is_byte (slice g c)) as Hbs by (unfold slice; by apply Forall_take, Forall_drop).
  rewrite Hs, <- Hl, le_bytes_val by done. split_and!.
  - apply store_length; congruence.
  - unfold store, write_at. repeat apply Forall_app_2; [by apply Forall_take|done|by apply Forall_drop].
  - apply slice_store_eq; congruence.
  - intros k Hk. apply slice_store_ne; congruence.
Qed.

Lemma fix_cpu_spec c : length c = 1024%nat -> Forall is_byte c ->
  let c' := (_hvm_hw_fix_cpu c).2 in
  length c' = 1024%nat /\ take 1000 c' = take 1000 c /\ slice c_msr_tsc_aux c' = replicate 8 0 /\
  slice c_tsc c' = slice (Field 1000 8) c /\ slice c_pending_event c' = slice (Field 1008 4) c /\ slice c_error_code c' = slice (Field 1012 4) c.
Proof.
  intros Hl Hb. unfold _hvm_hw_fix_cpu. cbn [snd]. cbv zeta.
  assert (forall n f, length (n : list Z) = 1024%nat -> (f_off f + f_size f <= 1024)%nat -> inside (length n) f) as Hin by (intros n f ->; done).
  destruct (copy_field c_error_code (Field 1012 4) c) as (c1 & -> & L1 & B1 & E1 & N1); [done|by apply Hin; [|cbn; lia]..|done|]. rewrite Hl in L1.
  destruct (copy_field c_pending_event (Field 1008 4) c1) as (c2 & -> & L2 & B2 & E2 & N2); [done|by apply Hin; [|cbn; lia]..|done|]. rewrite L1 in L2.
  destruct (copy_field c_tsc (Field 1000 8) c2) as (c3 & -> & L3 & B3 & E3 & N3); [done|by apply Hin; [|cbn; lia]..|done|]. rewrite L2 in L3.
  unfold fset. set (c4 := store c_msr_tsc_aux _ c3).
  assert (forall k, apart k c_msr_tsc_aux -> slice k c4 = slice k c3) as N4.
  { intros k Hk. apply slice_store_ne; [done|apply Hin; [done|cbn; lia]|apply le_bytes_length]. }
  assert (forall f g, (f_off f + f_size f <=? f_off g)%nat || (f_off g + f_size g <=? f_off f)%nat = true -> apart f g) as Hap.
  { unfold apart. intros f g [?%Nat.leb_le|?%Nat.leb_le]%orb_prop; lia. }
  split_and!.
  - unfold c4. rewrite store_length; [done|apply Hin; [done|cbn; lia]|apply le_bytes_length].
  - change (take 1000 ?x) with (slice (Field 0 1000) x). by rewrite N4, N3, N2, N1 by (apply Hap; reflexivity).
  - apply slice_store_eq; [apply Hin; [done|cbn; lia]|done].
  - rewrite N4, E3, N2, N1 by (apply Hap; reflexivity). done.
  - rewrite N4, N3, E2, N1 by (apply Hap; reflexivity). done.
  - rewrite N4, N3, N2, E1 by (apply Hap; reflexivity). done.
Qed.

Lemma xsave_bytes_length {V} ft (v : vcpu V) : Z.of_nat (length (xsave_bytes ft v)) = HVM_CPU_XSAVE_SIZE ft.
Proof.
  unfold xsave_bytes, HVM_CPU_XSAVE_SIZE. rewrite !length_app, !le_bytes_length.
  destruct (fpu_initialised v); rewrite ?length_resize, ?length_replicate; lia.
Qed.

(** ** The device of type CPU *)

Section Devices.
Context {V : Type} `{!HvmFuncs V, !HvmFuncsLaws V, !Inhabited V}.
Context (ft : features) (tsc_mode_pvrdtscp : bool) (incarnation : Z) (seg0 : segment_register).
Context {S : Type} `{!Component S (list (vcpu V))}.
(** The counters when a CPU is saved, and when it is loaded. *)
Context (clock clock' : nat -> Z) (ctxt beyond : list Z) (Hctxt : length ctxt = 1024%nat).
Context (Hxs : Z.of_nat (xsave_cntxt_size ft) < 2 ^ 31).
Implicit Types d : hdom S.

Abbreviation cpu_bytes := (cpu_bytes tsc_mode_pvrdtscp incarnation).

Lemma cpu_set_eq i v d : (i < length (dget d : list (vcpu V)))%nat -> cpu (set_cpu i v d) i = v.
Proof. intros Hi. unfold cpu, set_cpu. rewrite dget_dput. by apply list_lookup_total_insert_eq. Qed.
Lemma cpu_set_ne i j v d : i <> j -> cpu (set_cpu i v d) j = cpu d j.
Proof. intros Hi. unfold cpu, set_cpu. rewrite dget_dput. by apply list_lookup_total_insert_ne. Qed.

(** The CPUs that have a record. *)
Definition running (d : hdom S) (ids : list nat) : list nat := filter (fun i => is_down d i = false) ids.

Definition cpu_items (d : hdom S) (ids : list nat) : list (Z * list Z) := map (fun i => (Z.of_nat i, cpu_bytes (clock i) (cpu d i))) (running d ids).
Fixpoint cpus_after (ids : list nat) (d : hdom S) : hdom S :=
  match ids with
  | [] => d
  | i :: ids => if is_down d i then cpus_after ids d
                else cpus_after ids (set_cpu i (with_vendor (cpu d i) (save_segs seg_order (vendor (cpu d i))).2) d)
  end.

Lemma cpus_after_vdown ids : forall d, vdown (cpus_after ids d) = vdown d.
Proof. induction ids as [|i ids IH]; intros d; [done|]. cbn [cpus_after]. destruct (is_down d i); by rewrite IH. Qed.

Lemma cpu_items_set i v d ids : i ∉ ids -> cpu_items (set_cpu i v d) ids = cpu_items d ids.
Proof.
  intros Hi. unfold cpu_items, running. change (is_down (set_cpu i v d)) with (is_down d). apply map_ext_in. intros j Hj%list_elem_of_In.
  apply list_elem_of_filter in Hj as [_ Hj]. rewrite cpu_set_ne; [done|]. by intros ->.
Qed.

Lemma cpu_items_cons i ids d :
  cpu_items d (i :: ids) = if is_down d i then cpu_items d ids else (Z.of_nat i, cpu_bytes (clock i) (cpu d i)) :: cpu_items d ids.
Proof. unfold cpu_items, running. rewrite filter_cons. destruct (is_down d i); [by rewrite decide_False|by rewrite decide_True]. Qed.

Lemma save_cpus_ok ids : forall c d h, NoDup ids -> length c = 1024%nat -> hok h -> fits h (length (recs_bytes (item_recs CPU (cpu_items d ids)))) ->
  save_cpus tsc_mode_pvrdtscp incarnation clock ids c d h = Ret (0, put h (recs_bytes (item_recs CPU (cpu_items d ids))), cpus_after ids d).
Proof.
  induction ids as [|i ids IH]; intros c d h Hnd Hc Hh Hf; cbn [save_cpus cpus_after].
  - unfold recs_bytes. cbn. by rewrite put_nil.
  - apply NoDup_cons in Hnd as [Hni Hnd]. rewrite cpu_items_cons in *.
    destruct (is_down d i) eqn:Ed; [by apply IH|]. cbn [map item_recs] in *. fold (item_recs CPU (cpu_items d ids)) in *. rewrite recs_bytes_cons, rec_bytes_inst, length_app in *.
    pose proof (save_vcpu_bytes tsc_mode_pvrdtscp incarnation (clock i) (cpu d i) c Hc) as Eb. unfold save_vcpu in *. cbn [fst] in Eb. rewrite Eb.
    pose proof (cpu_bytes_length tsc_mode_pvrdtscp incarnation (clock i) (cpu d i)) as Hlen.
    rewrite save_entry_ok; [|done|by rewrite Hlen|eapply fits_le; [exact Hf|rewrite rec_bytes_length; cbn [r_data]; lia]]. cbn [Z.eqb negb].
    set (d1 := set_cpu i _ d). assert (cpu_items d1 ids = cpu_items d ids) as Ei by (by apply cpu_items_set). rewrite IH; try done.
    + rewrite Ei, put_put; [done|done|]. rewrite length_app. exact Hf.
    + apply put_ok; [done|]. eapply fits_le; [exact Hf|]. cbn [t_code CPU]. lia.
    + rewrite Ei. by apply put_fits.
Qed.

Definition booted (i : nat) (d : hdom S) : hdom S := if is_initialised (cpu d i) then d else boot_vcpu i d.

(** What loading a record does. *)
Definition cpu_loads (r : hrec) (d : hdom S) : Z * V :=
  let i := Z.to_nat (r_inst r) in load_cpu_ctxt (clock' i) (unfold_arbytes (r_data r)) (vendor (cpu (booted i d) i)).
Definition cpu_accepts (r : hrec) (d : hdom S) : Prop :=
  rec_len r = 1024 /\ no_vcpu d (r_inst r) = false /\ bad_cr0 (r_data r) = false /\ bad_cr4 ft (r_data r) = false /\
  bad_efer ft (r_data r) = false /\ 0 <= (cpu_loads r d).1.
Definition cpu_apply (r : hrec) (d : hdom S) : hdom S :=
  let i := Z.to_nat (r_inst r) in
  set_is_down i false (set_cpu i (load_vcpu ft seg0 (unfold_arbytes (r_data r)) (cpu_loads r d).2 (cpu (booted i d) i)) (booted i d)).

Definition cpu_handler : handler S :=
  Handler (hvm_save_cpu_ctxt tsc_mode_pvrdtscp incarnation clock ctxt) (hvm_load_cpu_ctxt ft seg0 clock' ctxt) (reg_size 1 CPU) HVMSR_PER_VCPU.
Definition cpu_device : device S :=
  Device cpu_handler (fun d => item_recs CPU (cpu_items d (vcpu_ids d))) (fun d => cpus_after (vcpu_ids d) d) cpu_accepts cpu_apply.

Lemma cpu_items_sizes d ids : Forall (fun i => Z.of_nat (length i.2) = t_len CPU) (cpu_items d ids).
Proof. unfold cpu_items. induction (running d ids); cbn [map]; constructor; [|done]. cbn [snd]. by rewrite cpu_bytes_length. Qed.

Lemma cpu_type_ok : htype_ok CPU.
Proof. split_and!; cbn [CPU t_code t_len t_compat]; try lia. intros clen f [= <- _]. lia. Qed.

Lemma cpu_laws : DeviceLaws 2 cpu_device.
Proof.
  split; cbn [cpu_device dv_handler dv_records dv_after dv_accepts dv_apply].
  - intros d. change (Z.of_nat 2) with (t_code CPU). apply item_recs_ok; [exact cpu_type_ok|apply cpu_items_sizes].
  - intros d. rewrite item_recs_length by apply cpu_items_sizes. unfold slot_size. cbn [cpu_handler h_kind h_size]. rewrite decide_True by done.
    unfold cpu_items. rewrite length_map. unfold reg_size, sizeof_desc, running. pose proof (length_filter (fun i => is_down d i = false) (vcpu_ids d)).
    cbn [CPU t_len]. lia.
  - intros d h Hh Hf. apply save_cpus_ok; try done. apply vcpu_ids_NoDup.
  - intros d. apply cpus_after_vdown.
  - intros d h r Hh Hn Hc Hr (Hl & Hv & H0 & H4 & He & Hld). cbn [cpu_handler h_load]. unfold hvm_load_cpu_ctxt.
    destruct (next_descriptor h r Hh Hn Hr) as (_ & Ei & _). unfold hvm_load_instance. rewrite Ei, Hv. cbv zeta. fold (booted (Z.to_nat (r_inst r)) d).
    unfold hvm_load_entry. rewrite (load_entry_ok CPU r) by (done || (unfold rec_len in *; cbn; lia)). cbn [mbind run_bind Z.eqb negb].
    rewrite H0, H4, He. unfold cpu_apply. fold (cpu_loads r d). destruct (cpu_loads r d) as [rc w]. cbn [fst snd] in *.
    destruct (Z.ltb_spec rc 0); [lia|done].
  - intros d h Hh Hb _. cbn [cpu_handler h_load]. unfold hvm_load_cpu_ctxt. cbv zeta. destruct (no_vcpu d _); [do 3 eexists; split; [reflexivity|done]|].
    destruct cpu_type_ok as (_ & Hl & Ht). unfold hvm_load_entry.
    destruct (load_entry_total CPU h ctxt true Hh Hb ltac:(lia) Ht) as (r & h' & c & -> & Hcon). cbn [mbind run_bind].
    destruct (Z.eqb_spec r 0) as [Er|]; cbn [negb]; [|do 3 eexists; split; [reflexivity|done]].
    destruct (bad_cr0 c), (bad_cr4 ft c), (bad_efer ft c); try (do 3 eexists; split; [reflexivity|done]).
    destruct (load_cpu_ctxt _ _ _) as [rc w]. destruct (rc <? 0); do 3 eexists; (split; [reflexivity|]); [done|auto].
Qed.

(** ** The device of type CPU_XSAVE *)

Definition xsave_type : htype := HType CPU_XSAVE_CODE (HVM_CPU_XSAVE_SIZE ft) None.
Definition xsave_items (d : hdom S) (ids : list nat) : list (Z * list Z) := map (fun i => (Z.of_nat i, xsave_bytes ft (cpu d i))) ids.
Definition xsave_mask (bs : list Z) : Z := le_val (take 8 bs).
Definition xsave_accepts (r : hrec) (d : hdom S) : Prop :=
  rec_len r = HVM_CPU_XSAVE_SIZE ft /\ no_vcpu d (r_inst r) = false /\ has_xsave ft = true /\
  xsave_mask (r_data r) .& xfeature_mask ft = xsave_mask (r_data r).
Definition load_xsave (bs : list Z) (v : vcpu V) : vcpu V :=
  Vcpu (is_initialised v) (fpu_initialised v) (fpu_ctxt v) (user_regs v) (debugreg v) (vc_flags v) (msr_tsc_aux v)
    (le_val (take 8 (drop 8 bs))) (le_val (take 8 (drop 16 bs))) (write_at (xsave_area v) 0 (drop 24 bs)) (vendor v).
Definition xsave_apply (r : hrec) (d : hdom S) : hdom S :=
  let i := Z.to_nat (r_inst r) in set_cpu i (load_xsave (r_data r) (cpu d i)) d.

Definition xsave_handler : handler S :=
  Handler (hvm_save_cpu_xsave_states ft) (hvm_load_cpu_xsave_states ft beyond) (HVM_CPU_XSAVE_SIZE ft + sizeof_desc) HVMSR_PER_VCPU.
Definition xsave_device : device S :=
  Device xsave_handler (fun d => if has_xsave ft then item_recs xsave_type (xsave_items d (vcpu_ids d)) else []) (fun d => d) xsave_accepts xsave_apply.

Lemma xsave_items_sizes d ids : Forall (fun i => Z.of_nat (length i.2) = t_len xsave_type) (xsave_items d ids).
Proof. induction ids; cbn; constructor; [apply xsave_bytes_length|done]. Qed.

Lemma xsave_type_ok : htype_ok xsave_type.
Proof. unfold HVM_CPU_XSAVE_SIZE in *. split_and!; cbn [xsave_type t_code t_len t_compat]; unfold CPU_XSAVE_CODE, HVM_CPU_XSAVE_SIZE; try lia. done. Qed.

Lemma save_xsaves_each ids : forall d h, hok h -> fits h (length (recs_bytes (item_recs xsave_type (xsave_items d ids)))) ->
  save_xsaves ft ids d h = (0, put h (recs_bytes (item_recs xsave_type (xsave_items d ids)))).
Proof.
  induction ids as [|i ids IH]; intros d h Hh Hf; cbn [save_xsaves].
  - unfold recs_bytes. cbn. by rewrite put_nil.
  - cbn [xsave_items map item_recs] in *. fold (xsave_items d ids) in *. fold (item_recs xsave_type (xsave_items d ids)) in *.
    rewrite recs_bytes_cons, rec_bytes_inst, length_app in *. set (r := HRec _ _ _) in *.
    pose proof (xsave_bytes_length ft (cpu d i)) as Hl. assert (length (rec_bytes r) = (8 + length (xsave_bytes ft (cpu d i)))%nat) as Hr by apply rec_bytes_length.
    rewrite init_entry_ok by (done || (unfold fits in Hf; lia)). cbn [Z.eqb negb].
    assert (put (put h (hvm_save_descriptor CPU_XSAVE_CODE (Z.of_nat i) (HVM_CPU_XSAVE_SIZE ft))) (xsave_bytes ft (cpu d i)) = put h (rec_bytes r)) as ->.
    { rewrite put_put; [|done|rewrite length_app, descriptor_length; eapply fits_le; [exact Hf|lia]]. unfold r, rec_bytes, rec_len. cbn [r_code r_inst r_data]. by rewrite Hl. }
    rewrite IH, put_put; try done.
    + by rewrite length_app.
    + apply put_ok; [done|]. eapply fits_le; [exact Hf|lia].
    + by apply put_fits.
Qed.

(** Inside a record nothing of [beyond] is read. *)
Lemma mem_at_record h r o n :
  hok h -> next h (rec_bytes r) -> (o + n <= length (r_data r))%nat ->
  mem_at beyond h (cur h + 8 + Z.of_nat o) n = take n (drop o (r_data r)).
Proof.
  clear Hctxt Hxs.
  intros Hh Hn Ho. pose proof Hh as (Hc & _ & Hd). unfold rec_bytes in Hn. apply next_app in Hn as [_ [Hf Hb]]; [|done]. rewrite descriptor_length in *.
  unfold advance, fits, bytes_at in *. cbn [cur hsize hdata] in *. change (Z.of_nat 8) with 8 in *. unfold mem_at.
  rewrite drop_app_le, take_app_le by (rewrite ?length_drop; lia). rewrite <- Hb, skipn_firstn_comm, take_take, drop_drop.
  f_equal; [lia|]. f_equal. lia.
Qed.

Lemma xsave_laws : DeviceLaws 16 xsave_device.
Proof.
  split; cbn [xsave_device dv_handler dv_records dv_after dv_accepts dv_apply].
  - intros d. change (Z.of_nat 16) with (t_code xsave_type). destruct (has_xsave ft); [|constructor]. apply item_recs_ok; [exact xsave_type_ok|apply xsave_items_sizes].
  - intros d. unfold slot_size. cbn [xsave_handler h_kind h_size]. rewrite decide_True by done. unfold sizeof_desc, HVM_CPU_XSAVE_SIZE. destruct (has_xsave ft); [|cbn; lia].
    rewrite item_recs_length by apply xsave_items_sizes. unfold xsave_items. rewrite length_map. done.
  - intros d h Hh Hf. cbn [xsave_handler h_save]. unfold hvm_save_cpu_xsave_states. destruct (has_xsave ft); cbn [negb].
    + by rewrite save_xsaves_each.
    + unfold recs_bytes. cbn. by rewrite put_nil.
  - done.
  - intros d h r Hh Hn Hc Hr (Hl & Hv & Hx & Hm). cbn [xsave_handler h_load]. unfold hvm_load_cpu_xsave_states.
    destruct (next_descriptor h r Hh Hn Hr) as (Et & Ei & El). unfold hvm_load_instance. rewrite Ei, Hv, Hx, Et, El, Hc. cbn [negb].
    pose proof Hn as [Hf _]. unfold fits in Hf. rewrite rec_bytes_length in Hf. pose proof Hh as (? & ? & ?). unfold rec_len, HVM_CPU_XSAVE_SIZE in *.
    rewrite room_ok by done. unfold sizeof_desc. destruct (Z.gtb_spec 8 (hsize h - cur h)); [lia|]. cbv zeta.
    destruct (Z.gtb_spec (Z.of_nat (length (r_data r)) + 8) (hsize h - cur h)); [lia|]. unfold HVM_CPU_XSAVE_SIZE. rewrite Hl.
    change (CPU_XSAVE_CODE =? Z.of_nat 16) with true. cbn [negb orb]. destruct (Z.gtb_spec (3 * 8 + Z.of_nat (xsave_cntxt_size ft)) (3 * 8 + Z.of_nat (xsave_cntxt_size ft))); [lia|].
    rewrite (u32_small (cur h + 8)) by lia. rewrite (u32_small (cur h + 8 + _)) by lia.
    pose proof (fun o n => mem_at_record h r o n Hh Hn) as M. pose proof (M 0%nat 8%nat ltac:(lia)) as M0. pose proof (M 8%nat 8%nat ltac:(lia)) as M1.
    pose proof (M 16%nat 8%nat ltac:(lia)) as M2. pose proof (M 24%nat (xsave_cntxt_size ft) ltac:(lia)) as M3. cbn [Z.of_nat] in *.
    rewrite Z.add_0_r in M0. change (Z.of_nat 8) with 8 in *. change (Z.of_nat 16) with 16 in *. change (Z.of_nat 24) with 24 in *. rewrite M0, M1, M2, M3.
    rewrite drop_0. fold (xsave_mask (r_data r)). rewrite Hm, Z.eqb_refl. cbn [negb]. unfold xsave_apply, load_xsave, advance.
    rewrite (take_ge (drop 24 _)) by (rewrite length_drop; lia). rewrite rec_bytes_length. do 3 f_equal. f_equal. lia.
  - intros d h Hh Hb Hroom. cbn [xsave_handler h_load]. unfold hvm_load_cpu_xsave_states. cbv zeta.
    destruct (no_vcpu d _); [do 3 eexists; split; [reflexivity|done]|]. destruct (has_xsave ft); cbn [negb]; [|do 3 eexists; split; [reflexivity|done]].
    rewrite room_ok by done. destruct (_ >? _); [do 3 eexists; split; [reflexivity|done]|]. pose proof (length_at_nonneg h (cur h) Hb). pose proof Hh as (? & ? & ?).
    unfold sizeof_desc in *. destruct (Z.gtb_spec (length_at h (cur h) + 8) (hsize h - cur h)); [do 3 eexists; split; [reflexivity|done]|].
    destruct (_ || _); [do 3 eexists; split; [reflexivity|done]|]. rewrite !u32_small by (rewrite ?u32_small by lia; lia).
    destruct (negb _); do 3 eexists; (split; [reflexivity|]); [done|]. intros _. unfold consumed, hok, sizeof_desc. cbn. split_and!; (done || lia).
Qed.

End Devices.

End HvmCpu.
