(* ===== verification/Vmx.v ===== *)
(** The part of an HVM guest's CPU that VMX keeps.

    Models the functions of xen/arch/x86/hvm/vmx/vmx.c behind [hvm_funcs] that
    save and load a CPU: the control registers, model-specific registers and
    pending event, and the segment registers with the disguise they have while
    a guest in real mode runs in virtual-8086 mode.  They are an instance of
    the interface of [HvmCpu] and satisfy its laws.  The CPU is never the one
    that executes these functions: they are called on behalf of the toolstack.
    Shadow page tables are asked only whether a CR3 points to memory. *)

From S2P Require Import Prelude HvmContext HvmHandler Layout HvmCpu.

Module Vmx.
Import HvmContext Layout HvmCpu.

(** ** The control structure *)

Inductive vmcs_field :=
| GUEST_SELECTOR (s : x86_segment) | GUEST_LIMIT (s : x86_segment) | GUEST_BASE (s : x86_segment) | GUEST_AR_BYTES (s : x86_segment)
| GUEST_SYSENTER_CS | GUEST_SYSENTER_ESP | GUEST_SYSENTER_EIP | GUEST_DR7 | GUEST_CR0 | GUEST_CR4 | CR0_READ_SHADOW | CR4_READ_SHADOW
| VM_ENTRY_INTR_INFO | VM_ENTRY_EXCEPTION_ERROR_CODE | VM_ENTRY_CONTROLS | CPU_BASED_VM_EXEC_CONTROL | EXCEPTION_BITMAP | TSC_OFFSET
| GUEST_INTERRUPTIBILITY_INFO.

#[export] Instance vmcs_field_eq_dec : EqDecision vmcs_field.
Proof. solve_decision. Defined.

Definition width (f : vmcs_field) : Z :=
  match f with
  | GUEST_SELECTOR _ => 16
  | GUEST_LIMIT _ | GUEST_AR_BYTES _ | GUEST_SYSENTER_CS | VM_ENTRY_INTR_INFO | VM_ENTRY_EXCEPTION_ERROR_CODE | VM_ENTRY_CONTROLS
  | CPU_BASED_VM_EXEC_CONTROL | EXCEPTION_BITMAP | GUEST_INTERRUPTIBILITY_INFO => 32
  | _ => 64
  end.

Definition vmcs := vmcs_field -> Z.
Definition vmwrite (f : vmcs_field) (x : Z) (m : vmcs) : vmcs := fun g => if decide (g = f) then x mod 2 ^ width f else m g.

(** [v->arch.hvm_vmx] and what VMX uses of [v->arch.hvm_vcpu]. *)
Record vmx := VmxState {
  cs : vmcs;
  guest_cr0 : Z; guest_cr2 : Z; guest_cr3 : Z; guest_cr4 : Z; hw_cr0 : Z; hw_cr4 : Z; guest_efer : Z;
  lstar : Z; star : Z; syscall_mask : Z; msr_flags : Z; cstar : Z; shadow_gs : Z; cache_tsc_offset : Z;
  exec_control : Z; exception_bitmap : Z; debug_state_latch : bool;
  vmx_realmode : bool; vm86_segment_mask : Z; vm86_saved_seg : x86_segment -> segment_register;
  assert_failed : bool
}.

Definition with_cs (v : vmx) (m : vmcs) : vmx :=
  VmxState m (guest_cr0 v) (guest_cr2 v) (guest_cr3 v) (guest_cr4 v) (hw_cr0 v) (hw_cr4 v) (guest_efer v) (lstar v) (star v) (syscall_mask v)
    (msr_flags v) (cstar v) (shadow_gs v) (cache_tsc_offset v) (exec_control v) (exception_bitmap v) (debug_state_latch v) (vmx_realmode v)
    (vm86_segment_mask v) (vm86_saved_seg v) (assert_failed v).
Definition write (f : vmcs_field) (x : Z) (v : vmx) : vmx := with_cs v (vmwrite f x (cs v)).
Definition with_guest (v : vmx) (cr0 cr2 cr3 cr4 efer : Z) : vmx :=
  VmxState (cs v) cr0 cr2 cr3 cr4 (hw_cr0 v) (hw_cr4 v) efer (lstar v) (star v) (syscall_mask v)
    (msr_flags v) (cstar v) (shadow_gs v) (cache_tsc_offset v) (exec_control v) (exception_bitmap v) (debug_state_latch v) (vmx_realmode v)
    (vm86_segment_mask v) (vm86_saved_seg v) (assert_failed v).
(** What only the hypervisor sees. *)
Definition with_hw (v : vmx) (cr0 cr4 exec exc : Z) : vmx :=
  VmxState (cs v) (guest_cr0 v) (guest_cr2 v) (guest_cr3 v) (guest_cr4 v) cr0 cr4 (guest_efer v) (lstar v) (star v) (syscall_mask v)
    (msr_flags v) (cstar v) (shadow_gs v) (cache_tsc_offset v) exec exc (debug_state_latch v) (vmx_realmode v)
    (vm86_segment_mask v) (vm86_saved_seg v) (assert_failed v).
Definition with_msrs (v : vmx) (fl l s m c g : Z) : vmx :=
  VmxState (cs v) (guest_cr0 v) (guest_cr2 v) (guest_cr3 v) (guest_cr4 v) (hw_cr0 v) (hw_cr4 v) (guest_efer v) l s m
    fl c g (cache_tsc_offset v) (exec_control v) (exception_bitmap v) (debug_state_latch v) (vmx_realmode v)
    (vm86_segment_mask v) (vm86_saved_seg v) (assert_failed v).
Definition with_tsc (v : vmx) (off : Z) : vmx :=
  VmxState (cs v) (guest_cr0 v) (guest_cr2 v) (guest_cr3 v) (guest_cr4 v) (hw_cr0 v) (hw_cr4 v) (guest_efer v) (lstar v) (star v) (syscall_mask v)
    (msr_flags v) (cstar v) (shadow_gs v) off (exec_control v) (exception_bitmap v) (debug_state_latch v) (vmx_realmode v)
    (vm86_segment_mask v) (vm86_saved_seg v) (assert_failed v).
Definition with_vm86 (v : vmx) (realmode : bool) (mask : Z) (saved : x86_segment -> segment_register) : vmx :=
  VmxState (cs v) (guest_cr0 v) (guest_cr2 v) (guest_cr3 v) (guest_cr4 v) (hw_cr0 v) (hw_cr4 v) (guest_efer v) (lstar v) (star v) (syscall_mask v)
    (msr_flags v) (cstar v) (shadow_gs v) (cache_tsc_offset v) (exec_control v) (exception_bitmap v) (debug_state_latch v) realmode mask saved (assert_failed v).
(** An [ASSERT] of the hypervisor that does not hold. *)
Definition assert_fails (v : vmx) : vmx :=
  VmxState (cs v) (guest_cr0 v) (guest_cr2 v) (guest_cr3 v) (guest_cr4 v) (hw_cr0 v) (hw_cr4 v) (guest_efer v) (lstar v) (star v) (syscall_mask v)
    (msr_flags v) (cstar v) (shadow_gs v) (cache_tsc_offset v) (exec_control v) (exception_bitmap v) (debug_state_latch v) (vmx_realmode v)
    (vm86_segment_mask v) (vm86_saved_seg v) true.

Definition upd {A} (f : x86_segment -> A) (s : x86_segment) (a : A) : x86_segment -> A := fun s' => if decide (s' = s) then a else f s'.

(** Settings of the domain and of the host. *)
Record settings := Settings {
  unrestricted : bool; hap : bool; vm86_tss : Z; memory_event_cr3 : bool; mmu_cr4_features : Z; monitor_trap_flag : bool;
  debugger_attached : bool; cr3_is_ram : Z -> bool
}.

(** ** Segment registers *)

(** The place of a segment in the enumeration; [seg <= x86_seg_tr]. *)
Definition seg_idx (s : x86_segment) : Z :=
  match s with
  | x86_seg_cs => 0 | x86_seg_ss => 1 | x86_seg_ds => 2 | x86_seg_es => 3 | x86_seg_fs => 4 | x86_seg_gs => 5 | x86_seg_tr => 6
  | x86_seg_ldtr => 7 | x86_seg_gdtr => 8 | x86_seg_idtr => 9
  end.
Definition rm_cs_attr : Z := 0x9b.
Definition rm_ds_attr : Z := 0x93.
Definition vm86_ds_attr : Z := 0xf3.
Definition vm86_tr_attr : Z := 0x8b.

(** The form of the attributes in the structure and in the register. *)
Definition fold_attr (ar : Z) : Z :=
  let a := (ar .& 0xff) .| ((ar .>> 4) .& 0xf00) in if truthy (ar .& (1 .<< 16)) then Z.ldiff a 0x80 else a.
Definition present (r : segment_register) : bool := Z.testbit (attr r) 7.

Section Vmx.
Context (p : settings).

(** For a descriptor table the selector is not touched; its place holds 0. *)
Definition vmx_get_segment_register (s : x86_segment) (v : vmx) : segment_register * vmx :=
  let m := cs v in
  let reg :=
    if is_table s then Seg 0 0 (m (GUEST_LIMIT s)) (m (GUEST_BASE s))
    else Seg (m (GUEST_SELECTOR s)) (fold_attr (m (GUEST_AR_BYTES s))) (m (GUEST_LIMIT s)) (m (GUEST_BASE s)) in
  if vmx_realmode v && (seg_idx s <=? 6) && negb (Z.testbit (vm86_segment_mask v) (seg_idx s)) then
    let sreg := vm86_saved_seg v s in
    if decide (s = x86_seg_tr) then (sreg, v)
    else if negb (base reg =? base sreg) || bool_decide (s = x86_seg_ss) then
      let reg := Seg (sel reg) (if decide (s = x86_seg_cs) then rm_cs_attr else rm_ds_attr) (limit reg) (base reg) in
      (reg, with_vm86 v (vmx_realmode v) (vm86_segment_mask v) (upd (vm86_saved_seg v) s reg))
    else (Seg ((base sreg .>> 4) mod 2 ^ 16) (attr sreg) (limit sreg) (base sreg), v)
  else (reg, v).

(** A segment that virtual-8086 mode can stand for. *)
Definition fakeable (r : segment_register) : bool :=
  (base r <? 0x100000) && negb (truthy (base r .& 0xf)) && (limit r >=? 0xffff) && present r.

(** The disguise of a segment while the guest is in real mode, if it has one. *)
Definition disguise (s : x86_segment) (r : segment_register) : option segment_register :=
  if decide (s = x86_seg_tr) then if truthy (vm86_tss p) then Some (Seg 0 vm86_tr_attr 0xff (vm86_tss p)) else None
  else if fakeable r then Some (Seg (base r .>> 4) vm86_ds_attr 0xffff (base r)) else None.

(** What is written for [r]; [present] is that of the original register. *)
Definition ar_bytes (r : segment_register) (pr : bool) : Z :=
  let a := ((attr r .& 0xf00) .<< 4) .| (attr r .& 0xff) in
  let a := if pr then a else a .| (1 .<< 16) in
  if truthy (limit r .>> 20) then a .| (1 .<< 15) else a.

Definition write_segment (s : x86_segment) (r : segment_register) (pr : bool) (v : vmx) : vmx :=
  if is_table s then write (GUEST_BASE s) (base r) (write (GUEST_LIMIT s) (limit r) v)
  else
    let ar := ar_bytes r pr in
    write (GUEST_AR_BYTES s) (if decide (s = x86_seg_tr) then ar .| 2 else ar)
      (write (GUEST_BASE s) (base r) (write (GUEST_LIMIT s) (limit r) (write (GUEST_SELECTOR s) (sel r) v))).

Definition vmx_set_segment_register (s : x86_segment) (reg : segment_register) (v : vmx) : vmx :=
  if vmx_realmode v && (seg_idx s <=? 6) then
    let saved := upd (vm86_saved_seg v) s reg in
    match disguise s reg with
    | Some r => write_segment s r (present reg) (with_vm86 v (vmx_realmode v) (Z.ldiff (vm86_segment_mask v) (1 .<< seg_idx s)) saved)
    | None => write_segment s reg (present reg) (with_vm86 v (vmx_realmode v) (vm86_segment_mask v .| (1 .<< seg_idx s)) saved)
    end
  else write_segment s reg (present reg) v.

(** ** Control registers *)

Definition X86_CR0_TS : Z := 0x8.
Definition X86_CR0_NE : Z := 0x20.
Definition X86_CR0_WP : Z := 0x10000.
Definition X86_CR4_VME : Z := 0x1.
Definition X86_CR4_PSE : Z := 0x10.
Definition X86_CR4_PAE : Z := 0x20.
Definition CPU_BASED_CR3_LOAD_EXITING : Z := 0x8000.
Definition CPU_BASED_CR3_STORE_EXITING : Z := 0x10000.
Definition VM_ENTRY_IA32E_MODE : Z := 0x200.
(** [X86_CR4_VMXE], [X86_CR4_PAE] and [X86_CR4_MCE] of the host. *)
Definition HVM_CR4_HOST_MASK : Z := mmu_cr4_features p .& 0x2060.

(** The segments that are changed when real mode is entered or left. *)
Definition rm_segs : list x86_segment := [x86_seg_cs; x86_seg_ss; x86_seg_ds; x86_seg_es; x86_seg_fs; x86_seg_gs; x86_seg_tr].

Fixpoint read_segs (l : list x86_segment) (v : vmx) : list (x86_segment * segment_register) * vmx :=
  match l with
  | [] => ([], v)
  | s :: l => let '(r, v) := vmx_get_segment_register s v in let '(rs, v) := read_segs l v in ((s, r) :: rs, v)
  end.

Definition vmx_update_guest_cr4 (v : vmx) : vmx :=
  let hw := HVM_CR4_HOST_MASK in
  let hw := if hap p then Z.ldiff hw X86_CR4_PAE else hw in
  let hw := hw .| guest_cr4 v in
  let hw := if vmx_realmode v then hw .| X86_CR4_VME else hw in
  let hw := if hap p && negb (truthy (guest_cr0 v .& X86_CR0_PG)) then Z.ldiff (hw .| X86_CR4_PSE) X86_CR4_PAE else hw in
  write CR4_READ_SHADOW (guest_cr4 v) (write GUEST_CR4 hw (with_hw v (hw_cr0 v) hw (exec_control v) (exception_bitmap v))).

(** The interception of breakpoints for a debugger.  It asserts that the CPU is
    the current one, which it never is here. *)
Definition vmx_update_debug_state (v : vmx) : vmx :=
  let v := assert_fails v in
  let mask := if monitor_trap_flag p then 0x8 else 0x8 .| 0x2 in
  let exc := if debug_state_latch v then exception_bitmap v .| mask else Z.ldiff (exception_bitmap v) mask in
  write EXCEPTION_BITMAP exc (with_hw v (hw_cr0 v) (hw_cr4 v) (exec_control v) exc).

Definition vmx_switch_realmode (realmode : bool) (v : vmx) : vmx :=
  let '(regs, v) := read_segs rm_segs v in
  let v := with_vm86 v realmode (vm86_segment_mask v) (vm86_saved_seg v) in
  if realmode then
    let v := foldl (fun v '(s, r) => vmx_set_segment_register s r v) v regs in
    let hw := hw_cr4 v .| X86_CR4_VME in
    write EXCEPTION_BITMAP 0xffffffff (write GUEST_CR4 hw (with_hw v (hw_cr0 v) hw (exec_control v) 0xffffffff))
  else
    let v := foldl (fun v s => if Z.testbit (vm86_segment_mask v) (seg_idx s) then v else vmx_set_segment_register s (vm86_saved_seg v s) v) v rm_segs in
    let hw := Z.ldiff (hw_cr4 v) X86_CR4_VME .| (guest_cr4 v .& X86_CR4_VME) in
    let exc := 0x40040 .| (if hap p then 0 else 0x4000) .| 0x80 in
    vmx_update_debug_state (write EXCEPTION_BITMAP exc (write GUEST_CR4 hw (with_hw v (hw_cr0 v) hw (exec_control v) exc))).

Definition vmx_update_guest_cr0 (v : vmx) : vmx :=
  let mask := X86_CR0_NE .| (if unrestricted p then 0 else X86_CR0_PG .| X86_CR0_PE) .| (if hap p then 0 else X86_CR0_WP) in
  let v :=
    if hap p then
      let ex := Z.ldiff (exec_control v) (CPU_BASED_CR3_LOAD_EXITING .| CPU_BASED_CR3_STORE_EXITING) in
      let ex := if truthy (guest_cr0 v .& X86_CR0_PG) then ex else ex .| (CPU_BASED_CR3_LOAD_EXITING .| CPU_BASED_CR3_STORE_EXITING) in
      let ex := if memory_event_cr3 p then ex .| CPU_BASED_CR3_LOAD_EXITING else ex in
      vmx_update_guest_cr4 (write CPU_BASED_VM_EXEC_CONTROL ex (with_hw v (hw_cr0 v) (hw_cr4 v) ex (exception_bitmap v)))
    else v in
  let mask := if truthy (guest_cr0 v .& X86_CR0_TS) then mask else mask .| X86_CR0_TS in
  let realmode := negb (truthy (guest_cr0 v .& X86_CR0_PE)) in
  let v := if negb (unrestricted p) && negb (Bool.eqb realmode (vmx_realmode v)) then vmx_switch_realmode realmode v else v in
  let hw := guest_cr0 v .| mask in
  write CR0_READ_SHADOW (guest_cr0 v) (write GUEST_CR0 hw (with_hw v hw (hw_cr4 v) (exec_control v) (exception_bitmap v))).

Definition vmx_update_guest_efer (v : vmx) : vmx :=
  let e := cs v VM_ENTRY_CONTROLS in
  write VM_ENTRY_CONTROLS (if truthy (guest_efer v .& EFER_LMA) then e .| VM_ENTRY_IA32E_MODE else Z.ldiff e VM_ENTRY_IA32E_MODE) v.

(** ** Saving and loading *)

(** The fields of an event: its vector, type, reserved bits and validity. *)
Definition pending_vector (e : Z) : Z := e .& 0xff.
Definition pending_type (e : Z) : Z := (e .>> 8) .& 7.
Definition pending_reserved (e : Z) : Z := (e .>> 12) .& 0x7ffff.
Definition pending_valid (e : Z) : bool := Z.testbit e 31.

Definition hvm_event_needs_reinjection (type vector : Z) : bool :=
  if (type =? 0) || (type =? 2) then true else if type =? 3 then negb (vector =? 3) && negb (vector =? 4) else false.

(** The event that VM entry would inject, when it has to survive. *)
Definition pending_saved (v : vmx) : bool :=
  let ev := cs v VM_ENTRY_INTR_INFO in pending_valid ev && hvm_event_needs_reinjection (pending_type ev) (pending_vector ev).

(** [hvm_get_guest_tsc] and [hvm_set_guest_tsc], with the counter [now] that the
    offset is relative to. *)
Definition hvm_get_guest_tsc (now : Z) (v : vmx) : Z := u64 (now + cache_tsc_offset v).
Definition hvm_set_guest_tsc (now guest_tsc : Z) (v : vmx) : vmx :=
  let off := u64 (guest_tsc - now) in write TSC_OFFSET off (with_tsc v off).

Definition vmx_save_cpu_state (now : Z) (v : vmx) : list (field * list Z) :=
  [num c_shadow_gs (shadow_gs v); num c_msr_cstar (cstar v); num c_msr_flags (msr_flags v); num c_msr_lstar (lstar v);
   num c_msr_star (star v); num c_msr_syscall_mask (syscall_mask v); num c_tsc (hvm_get_guest_tsc now v)].
Definition vmx_vmcs_save (v : vmx) : list (field * list Z) :=
  [num c_cr0 (guest_cr0 v); num c_cr2 (guest_cr2 v); num c_cr3 (guest_cr3 v); num c_cr4 (guest_cr4 v); num c_msr_efer (guest_efer v);
   num c_sysenter_cs (cs v GUEST_SYSENTER_CS); num c_sysenter_esp (cs v GUEST_SYSENTER_ESP); num c_sysenter_eip (cs v GUEST_SYSENTER_EIP);
   num c_pending_event (if pending_saved v then cs v VM_ENTRY_INTR_INFO else 0);
   num c_error_code (if pending_saved v then cs v VM_ENTRY_EXCEPTION_ERROR_CODE else 0)].
Definition vmx_save_vmcs_ctxt (now : Z) (v : vmx) : list (field * list Z) := vmx_save_cpu_state now v ++ vmx_vmcs_save v.

Definition vmx_load_cpu_state (now : Z) (c : list Z) (v : vmx) : vmx :=
  hvm_set_guest_tsc now (fget c_tsc c)
    (with_msrs v (fget c_msr_flags c .& 7) (fget c_msr_lstar c) (fget c_msr_star c) (fget c_msr_syscall_mask c) (fget c_msr_cstar c) (fget c_shadow_gs c)).

(** With shadow page tables CR3 has to point to memory of the guest. *)
Definition vmx_restore_cr0_cr3 (cr0 cr3 : Z) (v : vmx) : Z * vmx :=
  if negb (hap p) && truthy (cr0 .& X86_CR0_PG) && negb (cr3_is_ram p cr3) then (- EINVAL, v)
  else (0, with_guest v (cr0 .| X86_CR0_ET) (guest_cr2 v) cr3 (guest_cr4 v) (guest_efer v)).

(** Once CR0 and CR3 are set. *)
Definition vmx_restore_rest (c : list Z) (v : vmx) : vmx :=
  let ev := fget c_pending_event c in
  let v := with_guest v (guest_cr0 v) (fget c_cr2 c) (guest_cr3 v) (fget c_cr4 c) (guest_efer v) in
  let v := vmx_update_guest_cr4 (vmx_update_guest_cr0 v) in
  let v := vmx_update_guest_efer (with_guest v (guest_cr0 v) (guest_cr2 v) (guest_cr3 v) (guest_cr4 v) (fget c_msr_efer c)) in
  let v := write GUEST_SYSENTER_CS (fget c_sysenter_cs c) v in
  let v := write GUEST_SYSENTER_ESP (fget c_sysenter_esp c) v in
  let v := write GUEST_SYSENTER_EIP (fget c_sysenter_eip c) v in
  let v := write GUEST_DR7 (fget (c_dr 7) c) v in
  if pending_valid ev && hvm_event_needs_reinjection (pending_type ev) (pending_vector ev)
  then write VM_ENTRY_EXCEPTION_ERROR_CODE (fget c_error_code c) (write VM_ENTRY_INTR_INFO ev v) else v.

Definition vmx_vmcs_restore (c : list Z) (v : vmx) : Z * vmx :=
  let ev := fget c_pending_event c in
  if pending_valid ev && ((pending_type ev =? 1) || (pending_type ev >? 6) || truthy (pending_reserved ev)) then (- EINVAL, v)
  else
    let '(rc, v) := vmx_restore_cr0_cr3 (fget c_cr0 c) (fget c_cr3 c) v in
    if truthy rc then (rc, v) else (0, vmx_restore_rest c v).

Definition vmx_load_vmcs_ctxt (now : Z) (c : list Z) (v : vmx) : Z * vmx :=
  let '(rc, v) := vmx_vmcs_restore c (vmx_load_cpu_state now c v) in if truthy rc then (- EINVAL, v) else (0, v).

(** Debug register 7, and the blocking by STI that would make VM entry fail. *)
Definition vmx_set_info_guest (dr7 fl : Z) (v : vmx) : vmx :=
  let v := write GUEST_DR7 dr7 v in
  let sh := cs v GUEST_INTERRUPTIBILITY_INFO in
  if debugger_attached p && Z.testbit fl 8 && Z.testbit sh 0 then write GUEST_INTERRUPTIBILITY_INFO (Z.ldiff sh 1) v else v.

#[export] Instance vmx_funcs : HvmFuncs vmx := {|
  save_cpu_ctxt := vmx_save_vmcs_ctxt; load_cpu_ctxt := vmx_load_vmcs_ctxt; get_segment_register := vmx_get_segment_register;
  set_segment_register := vmx_set_segment_register; set_info_guest := vmx_set_info_guest
|}.

(** ** The view of one segment *)

(** All that reading and writing a segment depends on. *)
Record view := View { vw_rm : bool; vw_mask : bool; vw_saved : segment_register; vw_sel : Z; vw_ar : Z; vw_limit : Z; vw_base : Z }.
Definition seg_view (s : x86_segment) (v : vmx) : view :=
  View (vmx_realmode v) (Z.testbit (vm86_segment_mask v) (seg_idx s)) (vm86_saved_seg v s)
    (cs v (GUEST_SELECTOR s)) (cs v (GUEST_AR_BYTES s)) (cs v (GUEST_LIMIT s)) (cs v (GUEST_BASE s)).

Definition adjusts (s : x86_segment) (w : view) : bool := vw_rm w && (seg_idx s <=? 6) && negb (vw_mask w).
Definition raw (s : x86_segment) (w : view) : segment_register :=
  if is_table s then Seg 0 0 (vw_limit w) (vw_base w) else Seg (vw_sel w) (fold_attr (vw_ar w)) (vw_limit w) (vw_base w).
Definition rm_attr (s : x86_segment) : Z := if decide (s = x86_seg_cs) then rm_cs_attr else rm_ds_attr.
Definition getf (s : x86_segment) (w : view) : segment_register :=
  if adjusts s w then
    if decide (s = x86_seg_tr) then vw_saved w
    else if negb (vw_base w =? base (vw_saved w)) || bool_decide (s = x86_seg_ss)
         then Seg (vw_sel w) (rm_attr s) (vw_limit w) (vw_base w)
         else Seg ((base (vw_saved w) .>> 4) mod 2 ^ 16) (attr (vw_saved w)) (limit (vw_saved w)) (base (vw_saved w))
  else raw s w.

Lemma low_not_table s : (seg_idx s <=? 6) = true -> is_table s = false.
Proof. by destruct s. Qed.

Lemma get_getf s v : (vmx_get_segment_register s v).1 = getf s (seg_view s v).
Proof.
  unfold vmx_get_segment_register, getf, adjusts, raw. cbn [vw_rm vw_mask vw_saved vw_sel vw_ar vw_limit vw_base seg_view].
  destruct (_ && _ && _) eqn:E; [|done]. apply andb_prop in E as [[_ E]%andb_prop _]. rewrite (low_not_table s E). cbn [sel attr limit base].
  destruct (decide (s = x86_seg_tr)); [done|]. by destruct (_ || _).
Qed.

(** Reading changes at most what is remembered of the segment itself. *)
Definition got (s : x86_segment) (w : view) : view :=
  if adjusts s w && negb (bool_decide (s = x86_seg_tr)) && (negb (vw_base w =? base (vw_saved w)) || bool_decide (s = x86_seg_ss))
  then View (vw_rm w) (vw_mask w) (getf s w) (vw_sel w) (vw_ar w) (vw_limit w) (vw_base w) else w.

Lemma get_view s v : seg_view s (vmx_get_segment_register s v).2 = got s (seg_view s v).
Proof.
  unfold vmx_get_segment_register, got, getf, adjusts. cbn [vw_rm vw_mask vw_saved vw_sel vw_ar vw_limit vw_base seg_view].
  destruct (_ && _ && _) eqn:E; cbn [andb snd]; [|done]. apply andb_prop in E as [[_ E]%andb_prop _]. rewrite (low_not_table s E). cbn [sel attr limit base].
  destruct (decide (s = x86_seg_tr)) as [->|Hne]; [done|]. rewrite (bool_decide_eq_false_2 (s = x86_seg_tr)) by done. cbn [negb andb].
  destruct (_ || _); [|done]. unfold seg_view, with_vm86, upd. cbn [cs vmx_realmode vm86_segment_mask vm86_saved_seg snd]. by rewrite decide_True.
Qed.

Lemma get_view_ne s s' v : s <> s' -> seg_view s (vmx_get_segment_register s' v).2 = seg_view s v.
Proof.
  intros Hne. unfold vmx_get_segment_register. destruct (_ && _ && _); [|done]. destruct (decide (s' = x86_seg_tr)); [done|].
  destruct (_ || _); [|done]. unfold seg_view, with_vm86, upd. cbn [cs vmx_realmode vm86_segment_mask vm86_saved_seg snd]. by rewrite decide_False.
Qed.

(** ** Writing a segment *)

Lemma vmwrite_eq f x m : vmwrite f x m f = x mod 2 ^ width f.
Proof. unfold vmwrite. by rewrite decide_True. Qed.
Lemma vmwrite_ne f g x m : g <> f -> vmwrite f x m g = m g.
Proof. intros H. unfold vmwrite. by rewrite decide_False. Qed.

(** What the fields of [s] hold after [write_segment]. *)
Definition written (s : x86_segment) (r : segment_register) (pr : bool) (w : view) : view :=
  if is_table s then View (vw_rm w) (vw_mask w) (vw_saved w) (vw_sel w) (vw_ar w) (limit r mod 2 ^ 32) (base r mod 2 ^ 64)
  else View (vw_rm w) (vw_mask w) (vw_saved w) (sel r mod 2 ^ 16)
         ((if decide (s = x86_seg_tr) then ar_bytes r pr .| 2 else ar_bytes r pr) mod 2 ^ 32) (limit r mod 2 ^ 32) (base r mod 2 ^ 64).

Definition seg_writes (s : x86_segment) (r : segment_register) (pr : bool) (m : vmcs) : vmcs :=
  if is_table s then vmwrite (GUEST_BASE s) (base r) (vmwrite (GUEST_LIMIT s) (limit r) m)
  else vmwrite (GUEST_AR_BYTES s) (if decide (s = x86_seg_tr) then ar_bytes r pr .| 2 else ar_bytes r pr)
         (vmwrite (GUEST_BASE s) (base r) (vmwrite (GUEST_LIMIT s) (limit r) (vmwrite (GUEST_SELECTOR s) (sel r) m))).

Lemma write_segment_cs s r pr v : write_segment s r pr v = with_cs v (seg_writes s r pr (cs v)).
Proof. unfold write_segment, seg_writes. by destruct (is_table s). Qed.

Lemma seg_view_cs s v m :
  seg_view s (with_cs v m) = View (vmx_realmode v) (Z.testbit (vm86_segment_mask v) (seg_idx s)) (vm86_saved_seg v s)
    (m (GUEST_SELECTOR s)) (m (GUEST_AR_BYTES s)) (m (GUEST_LIMIT s)) (m (GUEST_BASE s)).
Proof. reflexivity. Qed.

Lemma write_segment_view s r pr v : seg_view s (write_segment s r pr v) = written s r pr (seg_view s v).
Proof.
  rewrite write_segment_cs, seg_view_cs. unfold written, seg_view. cbn [vw_rm vw_mask vw_saved vw_sel vw_ar vw_limit vw_base].
  generalize (cs v). intros m. unfold seg_writes. destruct (is_table s); repeat (rewrite vmwrite_eq || rewrite vmwrite_ne by discriminate); reflexivity.
Qed.

Lemma write_segment_view_ne s s' r pr v : s <> s' -> seg_view s (write_segment s' r pr v) = seg_view s v.
Proof.
  intros Hne. rewrite write_segment_cs, seg_view_cs. unfold seg_view. generalize (cs v). intros m. unfold seg_writes.
  destruct (is_table s'); repeat (rewrite vmwrite_ne by congruence); reflexivity.
Qed.

Definition setv (s : x86_segment) (r : segment_register) (w : view) : view :=
  if vw_rm w && (seg_idx s <=? 6) then
    match disguise s r with
    | Some r' => written s r' (present r) (View (vw_rm w) false r (vw_sel w) (vw_ar w) (vw_limit w) (vw_base w))
    | None => written s r (present r) (View (vw_rm w) true r (vw_sel w) (vw_ar w) (vw_limit w) (vw_base w))
    end
  else written s r (present r) w.

Lemma seg_idx_nonneg s : 0 <= seg_idx s.
Proof. by destruct s. Qed.
Lemma seg_idx_inj s s' : seg_idx s = seg_idx s' -> s = s'.
Proof. by destruct s, s'. Qed.

Lemma mask_set m s s' b : Z.testbit (if b : bool then m .| (1 .<< seg_idx s) else Z.ldiff m (1 .<< seg_idx s)) (seg_idx s') =
  if decide (s = s') then b else Z.testbit m (seg_idx s').
Proof.
  pose proof (seg_idx_nonneg s). pose proof (seg_idx_nonneg s').
  assert (Z.testbit (1 .<< seg_idx s) (seg_idx s') = bool_decide (s = s')) as E.
  { rewrite testbit_pow2 by done. apply eq_true_iff_eq. rewrite Z.eqb_eq, bool_decide_eq_true. split; [intros ?; symmetry; by apply seg_idx_inj|by intros ->]. }
  destruct b; [rewrite Z.lor_spec|rewrite Z.ldiff_spec]; rewrite E; destruct (decide (s = s')) as [->|Hne];
    rewrite ?bool_decide_eq_true_2, ?(bool_decide_eq_false_2 _ Hne) by done; cbn [negb]; auto using orb_true_r, orb_false_r, andb_true_r, andb_false_r.
Qed.

Lemma set_view s r v : seg_view s (vmx_set_segment_register s r v) = setv s r (seg_view s v).
Proof.
  unfold vmx_set_segment_register, setv. cbn [vw_rm seg_view]. destruct (_ && _); [|apply write_segment_view].
  pose proof (mask_set (vm86_segment_mask v) s s true) as M1. pose proof (mask_set (vm86_segment_mask v) s s false) as M0. rewrite decide_True in M0, M1 by done.
  destruct (disguise s r); rewrite write_segment_view; f_equal; unfold seg_view, with_vm86, upd; cbn [cs vmx_realmode vm86_segment_mask vm86_saved_seg vw_sel vw_ar vw_limit vw_base];
    rewrite ?M0, ?M1, decide_True by done; done.
Qed.

Lemma set_view_ne s s' r v : s <> s' -> seg_view s (vmx_set_segment_register s' r v) = seg_view s v.
Proof.
  intros Hne. unfold vmx_set_segment_register. destruct (_ && _); [|by apply write_segment_view_ne].
  pose proof (mask_set (vm86_segment_mask v) s' s true) as M1. pose proof (mask_set (vm86_segment_mask v) s' s false) as M0. rewrite decide_False in M0, M1 by done.
  destruct (disguise s' r); rewrite write_segment_view_ne by done; unfold seg_view, with_vm86, upd; cbn [cs vmx_realmode vm86_segment_mask vm86_saved_seg];
    rewrite ?M0, ?M1, decide_False by done; done.
Qed.

(** ** Segments that survive *)

Definition seg_typed (r : segment_register) : Prop :=
  0 <= sel r < 2 ^ 16 /\ 0 <= attr r < 2 ^ 12 /\ 0 <= limit r < 2 ^ 32 /\ 0 <= base r < 2 ^ 64.

(** What VM entry demands: the granularity fits the limit, a task is busy. *)
Definition consistent (s : x86_segment) (r : segment_register) : Prop :=
  (2 ^ 20 <= limit r -> Z.testbit (attr r) 11 = true) /\ (s = x86_seg_tr -> Z.testbit (attr r) 1 = true).

(** The invariant of a segment.  While the guest is in real mode a segment has
    a disguise unless its mask bit is set; the processor then keeps selector,
    base and limit as virtual-8086 mode has them. *)
Record seg_ok (s : x86_segment) (w : view) : Prop := {
  so_limit : 0 <= vw_limit w < 2 ^ 32;
  so_base : 0 <= vw_base w < 2 ^ 64;
  so_sel : is_table s = false -> 0 <= vw_sel w < 2 ^ 16;
  so_raw : is_table s = false -> adjusts s w = false -> consistent s (raw s w);
  so_mask : vw_rm w && (seg_idx s <=? 6) = true -> adjusts s w = false -> s <> x86_seg_tr -> fakeable (raw s w) = false;
  so_vm86 : adjusts s w = true -> s <> x86_seg_tr ->
    vw_base w < 2 ^ 20 /\ vw_base w = 16 * vw_sel w /\ vw_limit w = 0xffff /\ fakeable (vw_saved w) = true /\ seg_typed (vw_saved w);
  so_tr : adjusts s w = true -> s = x86_seg_tr -> truthy (vm86_tss p) = true /\ seg_typed (vw_saved w)
}.

(** A register that reads back as it was written. *)
Definition stable (rm : bool) (s : x86_segment) (r : segment_register) : Prop :=
  0 <= limit r < 2 ^ 32 /\ 0 <= base r < 2 ^ 64 /\
  (is_table s = false -> seg_typed r /\
   if rm && (seg_idx s <=? 6) then
     if decide (s = x86_seg_tr) then truthy (vm86_tss p) = true \/ consistent s r
     else if fakeable r then sel r = base r .>> 4 /\ (s = x86_seg_ss -> limit r = 0xffff /\ attr r = rm_ds_attr)
     else consistent s r
   else consistent s r).

Lemma attr_folds g b a : 0 <= a < 4096 -> (g = true -> Z.testbit a 11 = true) -> (b = true -> Z.testbit a 1 = true) ->
  let x := ((a .& 0xf00) .<< 4) .| (a .& 0xff) in
  let x := if Z.testbit a 7 then x else x .| (1 .<< 16) in
  let x := if g : bool then x .| (1 .<< 15) else x in
  let x := if b : bool then x .| 2 else x in
  fold_attr x = a /\ 0 <= x < 2 ^ 32.
Proof.
  intros Ha Hg Hb. set (f := fun a => let x := ((a .& 0xf00) .<< 4) .| (a .& 0xff) in
    let x := if Z.testbit a 7 then x else x .| (1 .<< 16) in let x := if g : bool then x .| (1 .<< 15) else x in
    let x := if b : bool then x .| 2 else x in
    implb ((negb g || Z.testbit a 11) && (negb b || Z.testbit a 1)) ((fold_attr x =? a) && (0 <=? x) && (x <? 2 ^ 32))).
  assert (f a = true) as H by (apply (forallb_seqZ f 4096); [destruct g, b; vm_compute; reflexivity|done]).
  unfold f in H. cbv zeta in *. assert ((negb g || Z.testbit a 11) && (negb b || Z.testbit a 1) = true) as E.
  { apply andb_true_intro. split; apply orb_true_iff; destruct g, b; auto. }
  rewrite E in H. cbn [implb] in H. apply andb_prop in H as [[H1 H2]%andb_prop H3]. lia.
Qed.

(** Reading a consistent register that was written. *)
Lemma raw_written s r w : is_table s = false -> seg_typed r -> consistent s r -> raw s (written s r (present r) w) = r.
Proof.
  intros Ht (Hs & Ha & Hl & Hb) [Hg Htr]. unfold written, raw. rewrite Ht. cbn [vw_sel vw_ar vw_limit vw_base].
  destruct (attr_folds (truthy (limit r .>> 20)) (bool_decide (s = x86_seg_tr)) (attr r)) as [E Hx]; [lia| | |].
  - unfold truthy. rewrite Z.shiftr_div_pow2 by done. intros H. apply Hg. destruct (Z.eqb_spec (limit r / 2 ^ 20) 0); [done|]. zlia.
  - rewrite bool_decide_eq_true. exact Htr.
  - cbv zeta in E, Hx. unfold ar_bytes, present. rewrite !(Z.mod_small (sel r)), !(Z.mod_small (limit r)), !(Z.mod_small (base r)) by done.
    destruct r as [rs ra rl rb]. cbn [sel attr limit base] in *. f_equal.
    destruct (decide (s = x86_seg_tr)) as [->|Hne]; [rewrite bool_decide_eq_true_2 in E, Hx by done|rewrite bool_decide_eq_false_2 in E, Hx by done];
      rewrite Z.mod_small by exact Hx; exact E.
Qed.

Lemma fakeable_base r : fakeable r = true -> base r < 2 ^ 20 /\ base r .& 0xf = 0 /\ 0xffff <= limit r /\ present r = true.
Proof.
  unfold fakeable. intros [[[H1 H2]%andb_prop H3]%andb_prop H4]%andb_prop. unfold truthy in H2. rewrite negb_involutive in H2. split_and!; [lia|lia|lia|done].
Qed.

Lemma fakeable_sel r : fakeable r = true -> 0 <= base r -> base r = 16 * (base r .>> 4) /\ 0 <= base r .>> 4 < 2 ^ 16.
Proof.
  intros (H1 & H2 & _)%fakeable_base Hb. rewrite Z.shiftr_div_pow2 by done. change 0xf with (Z.ones 4) in H2. rewrite Z.land_ones in H2 by done. zlia.
Qed.

(** A table has only limit and base. *)
Definition seg_same (s : x86_segment) (r r' : segment_register) : Prop :=
  if is_table s then limit r = limit r' /\ base r = base r' else r = r'.

Lemma getf_setv s r w : stable (vw_rm w) s r -> seg_same s (getf s (setv s r w)) r.
Proof.
  intros (Hl & Hb & Hr). unfold seg_same, setv. destruct (is_table s) eqn:Et.
  { assert ((seg_idx s <=? 6) = false) as E by (by destruct s). rewrite E, andb_false_r. unfold getf, adjusts. rewrite E, andb_false_r. cbn [andb].
    unfold written, raw. rewrite Et. cbn [limit base vw_limit vw_base]. by rewrite !Z.mod_small. }
  destruct (Hr eq_refl) as [Hty Hst]. clear Hr. destruct (vw_rm w && (seg_idx s <=? 6)) eqn:Erm.
  2: { unfold getf, adjusts. assert (vw_rm (written s r (present r) w) = vw_rm w) as -> by (unfold written; by rewrite Et). rewrite Erm. cbn [andb]. by apply raw_written. }
  apply andb_prop in Erm as [Er Ei]. unfold disguise. destruct (decide (s = x86_seg_tr)) as [->|Hne].
  { destruct (truthy (vm86_tss p)).
    - unfold getf, adjusts, written. rewrite Et, Er. cbn [vw_rm vw_mask vw_saved seg_idx Z.leb andb negb]. done.
    - destruct Hst as [?|Hst]; [done|]. unfold getf, adjusts. unfold written at 1 2 3. rewrite Et. cbn [vw_rm vw_mask]. rewrite andb_false_r. by apply raw_written. }
  destruct (fakeable r) eqn:Ef.
  - destruct Hst as [Hs Hss]. destruct (fakeable_sel r Ef ltac:(lia)) as [E16 Hsel]. unfold getf, adjusts, written. rewrite Et, Er, Ei.
    cbn [vw_rm vw_mask vw_saved vw_sel vw_base vw_limit andb negb sel base limit]. rewrite decide_False by done. rewrite !(Z.mod_small (base r)) by done.
    rewrite Z.eqb_refl. cbn [negb orb]. case_bool_decide as E.
    + destruct (Hss E) as [El Ea]. subst s. destruct r as [rs ra rl rb]. cbn [sel attr limit base] in *. unfold rm_attr. rewrite decide_False by done.
      rewrite Z.mod_small by done. rewrite El, Ea, Hs. done.
    + destruct r as [rs ra rl rb]. cbn [sel attr limit base] in *. rewrite Z.mod_small by done. by rewrite Hs.
  - unfold getf, adjusts. unfold written at 1 2 3. rewrite Et. cbn [vw_rm vw_mask]. rewrite andb_false_r. by apply raw_written.
Qed.

Lemma fold_attr_range ar : 0 <= fold_attr ar < 2 ^ 12.
Proof.
  unfold fold_attr. cbv zeta. set (a := (ar .& 255) .| ((ar .>> 4) .& 3840)).
  assert (0 <= a < 2 ^ 12) as Ha.
  { unfold a. apply lor_range; [done| |apply land_range; lia]. pose proof (land_range ar 255 8 ltac:(lia) ltac:(lia)). lia. }
  destruct (truthy _); [|done]. apply bounded_of_bits; [done|apply Z.ldiff_nonneg; lia|]. intros i Hi. rewrite Z.ldiff_spec, (testbit_high a 12) by lia. done.
Qed.

Lemma getf_stable s w : seg_ok s w -> stable (vw_rm w) s (getf s w).
Proof.
  intros [Hl Hb Hs Hr Hm Hv Ht]. unfold stable, getf. pose proof (fold_attr_range (vw_ar w)) as Hfa.
  destruct (adjusts s w) eqn:Ea.
  - pose proof Ea as [[Erm Ei]%andb_prop _]%andb_prop. rewrite Erm, Ei. pose proof (low_not_table s Ei) as Et. specialize (Hs Et). cbn [andb].
    destruct (decide (s = x86_seg_tr)) as [->|Hne].
    + destruct (Ht eq_refl eq_refl) as (Htss & Hty). pose proof Hty as (_ & _ & ? & ?). split; [done|]. split; [done|]. intros _. split; [done|by left].
    + destruct (Hv eq_refl Hne) as (Hb20 & Hsel & Hlim & Hf & Hty). pose proof Hty as (? & ? & ? & ?). destruct (_ || _) eqn:Eor.
      * cbn [limit base sel attr]. split; [done|]. split; [done|]. intros _. split.
        { unfold seg_typed. cbn [limit base sel attr]. split_and!; try lia; unfold rm_attr; destruct (decide (s = x86_seg_cs)); unfold rm_cs_attr, rm_ds_attr; lia. }
        assert (fakeable (Seg (vw_sel w) (rm_attr s) (vw_limit w) (vw_base w)) = true) as ->.
        { unfold fakeable, present. cbn [base limit attr]. rewrite Hlim. destruct (Z.ltb_spec (vw_base w) 0x100000); [|lia].
          assert (vw_base w .& 15 = 0) as -> by (change 15 with (Z.ones 4); rewrite Z.land_ones by done; zlia).
          unfold rm_attr. by destruct (decide (s = x86_seg_cs)). }
        split; [rewrite Z.shiftr_div_pow2 by done; zlia|]. intros ->. rewrite Hlim. done.
      * apply orb_false_iff in Eor as [_ Ess]. apply bool_decide_eq_false in Ess. cbn [limit base sel attr]. split; [done|]. split; [done|]. intros _.
        destruct (fakeable_sel _ Hf ltac:(lia)) as [E16 Hrng]. rewrite (Z.mod_small (base (vw_saved w) .>> 4)) by done.
        split; [unfold seg_typed; cbn [limit base sel attr]; lia|].
        change (fakeable (Seg (base (vw_saved w) .>> 4) (attr (vw_saved w)) (limit (vw_saved w)) (base (vw_saved w)))) with (fakeable (vw_saved w)).
        rewrite Hf. done.
  - assert (limit (raw s w) = vw_limit w /\ base (raw s w) = vw_base w) as [El Eb] by (unfold raw; by destruct (is_table s)).
    rewrite El, Eb. split; [done|]. split; [done|]. intros Et. specialize (Hs Et). specialize (Hr Et eq_refl).
    split; [unfold seg_typed, raw; rewrite Et; cbn [limit base sel attr]; lia|].
    destruct (vw_rm w && (seg_idx s <=? 6)) eqn:Erm; [|done]. destruct (decide (s = x86_seg_tr)); [by right|]. by rewrite (Hm eq_refl eq_refl n).
Qed.

Lemma setv_ok s r w : stable (vw_rm w) s r -> seg_ok s (setv s r w).
Proof.
  intros (Hl & Hb & Hr). unfold setv. destruct (is_table s) eqn:Et.
  { assert ((seg_idx s <=? 6) = false) as E by (by destruct s). rewrite E, andb_false_r. unfold written. rewrite Et.
    split; cbn [vw_limit vw_base vw_rm]; rewrite ?Z.mod_small by done; rewrite ?Et; try done; unfold adjusts; cbn [vw_rm]; rewrite ?E, ?andb_false_r; done. }
  destruct (Hr eq_refl) as [Hty Hst]. clear Hr.
  assert (forall m sv, (vw_rm w && (seg_idx s <=? 6) = true -> m = true /\ (s <> x86_seg_tr -> fakeable r = false)) -> consistent s r ->
    seg_ok s (written s r (present r) (View (vw_rm w) m sv (vw_sel w) (vw_ar w) (vw_limit w) (vw_base w)))) as Hplain.
  { intros m sv Hm Hc. pose proof (raw_written s r (View (vw_rm w) m sv (vw_sel w) (vw_ar w) (vw_limit w) (vw_base w)) Et Hty Hc) as Eraw.
    set (w' := written s r (present r) _) in *.
    assert (adjusts s w' = false) as Ea.
    { unfold adjusts, w', written. rewrite Et. cbn [vw_rm vw_mask]. destruct (vw_rm w && (seg_idx s <=? 6)); [|done]. by destruct (Hm eq_refl) as [-> _]. }
    assert (vw_rm w' = vw_rm w /\ 0 <= vw_limit w' < 2 ^ 32 /\ 0 <= vw_base w' < 2 ^ 64 /\ 0 <= vw_sel w' < 2 ^ 16) as (Erm & H1 & H2 & H3).
    { unfold w', written. rewrite Et. cbn [vw_rm vw_limit vw_base vw_sel]. split; [done|]. split_and!; apply Z.mod_pos_bound; lia. }
    split; rewrite ?Eraw, ?Ea, ?Erm; try done. intros Hrm _. by apply Hm. }
  destruct (vw_rm w && (seg_idx s <=? 6)) eqn:Erm.
  2: { specialize (Hplain (vw_mask w) (vw_saved w) ltac:(done) Hst). by destruct w. }
  apply andb_prop in Erm as [Er Ei]. unfold disguise. destruct (decide (s = x86_seg_tr)) as [->|Hne].
  { destruct (truthy (vm86_tss p)) eqn:Etss.
    - unfold written. rewrite Et. split; cbn [vw_limit vw_base vw_sel vw_rm vw_saved limit base sel]; try (intros; apply Z.mod_pos_bound; lia); try done;
        try (apply Z.mod_pos_bound; lia); unfold adjusts; cbn [vw_rm vw_mask seg_idx]; rewrite Er; done.
    - destruct Hst as [?|Hst]; [done|]. by apply Hplain. }
  destruct (fakeable r) eqn:Ef; [|by apply Hplain].
  destruct (fakeable_sel r Ef ltac:(lia)) as [E16 Hsel]. destruct (fakeable_base r Ef) as (Hb20 & _). unfold written. rewrite Et.
  split; cbn [vw_limit vw_base vw_sel vw_rm vw_saved limit base sel]; unfold adjusts; cbn [vw_rm vw_mask]; rewrite ?Er, ?Ei, ?(Z.mod_small (base r)), ?(Z.mod_small (base r .>> 4)) by done;
    try done; try (apply Z.mod_pos_bound; lia); try lia.
Qed.

Lemma got_ok s w : seg_ok s w -> seg_ok s (got s w).
Proof.
  intros Hok. pose proof Hok as [Hl Hb Hs Hr Hm Hv Ht]. unfold got. destruct (adjusts s w) eqn:Ea; cbn [andb]; [|done].
  case_bool_decide as Etr; cbn [negb andb]; [done|]. destruct (_ || _) eqn:Eor; [|done].
  destruct (getf_stable s w Hok) as (_ & _ & Hst). pose proof Ea as [[Erm Ei]%andb_prop _]%andb_prop. destruct (Hst (low_not_table s Ei)) as [Hty _].
  unfold adjusts in Ea. split; cbn [vw_limit vw_base vw_sel vw_rm vw_saved]; unfold adjusts, raw; cbn [vw_rm vw_mask vw_sel vw_ar vw_limit vw_base]; rewrite ?Ea; try done.
  intros _ _. destruct (Hv eq_refl Etr) as (? & ? & Hlim & ? & ?). split_and!; try done. unfold getf, adjusts. rewrite Ea, decide_False, Eor by done.
  unfold fakeable, present. cbn [base limit attr]. rewrite Hlim. destruct (Z.ltb_spec (vw_base w) 0x100000); [|lia].
  assert (vw_base w .& 15 = 0) as -> by (change 15 with (Z.ones 4); rewrite Z.land_ones by done; zlia).
  unfold rm_attr. by destruct (decide (s = x86_seg_cs)).
Qed.

(** ** What is saved besides the segments *)

Record core := Core {
  k_cr0 : Z; k_cr2 : Z; k_cr3 : Z; k_cr4 : Z; k_efer : Z; k_lstar : Z; k_star : Z; k_mask : Z; k_flags : Z; k_cstar : Z; k_gs : Z; k_off : Z;
  k_scs : Z; k_sesp : Z; k_seip : Z; k_ev : Z; k_err : Z; k_fault : bool
}.
Definition core_of (v : vmx) : core :=
  Core (guest_cr0 v) (guest_cr2 v) (guest_cr3 v) (guest_cr4 v) (guest_efer v) (lstar v) (star v) (syscall_mask v) (msr_flags v) (cstar v) (shadow_gs v)
    (cache_tsc_offset v) (cs v GUEST_SYSENTER_CS) (cs v GUEST_SYSENTER_ESP) (cs v GUEST_SYSENTER_EIP) (cs v VM_ENTRY_INTR_INFO) (cs v VM_ENTRY_EXCEPTION_ERROR_CODE) (assert_failed v).

Definition is_core (f : vmcs_field) : bool :=
  match f with GUEST_SYSENTER_CS | GUEST_SYSENTER_ESP | GUEST_SYSENTER_EIP | VM_ENTRY_INTR_INFO | VM_ENTRY_EXCEPTION_ERROR_CODE => true | _ => false end.
Definition is_seg (f : vmcs_field) : bool :=
  match f with GUEST_SELECTOR _ | GUEST_LIMIT _ | GUEST_BASE _ | GUEST_AR_BYTES _ => true | _ => false end.

Definition event_kept (ev : Z) : bool := pending_valid ev && hvm_event_needs_reinjection (pending_type ev) (pending_vector ev).
Definition core_fields (now : Z) (k : core) : list (field * list Z) :=
  [num c_shadow_gs (k_gs k); num c_msr_cstar (k_cstar k); num c_msr_flags (k_flags k); num c_msr_lstar (k_lstar k);
   num c_msr_star (k_star k); num c_msr_syscall_mask (k_mask k); num c_tsc (u64 (now + k_off k));
   num c_cr0 (k_cr0 k); num c_cr2 (k_cr2 k); num c_cr3 (k_cr3 k); num c_cr4 (k_cr4 k); num c_msr_efer (k_efer k);
   num c_sysenter_cs (k_scs k); num c_sysenter_esp (k_sesp k); num c_sysenter_eip (k_seip k);
   num c_pending_event (if event_kept (k_ev k) then k_ev k else 0); num c_error_code (if event_kept (k_ev k) then k_err k else 0)].

Lemma save_core now v : vmx_save_vmcs_ctxt now v = core_fields now (core_of v).
Proof. reflexivity. Qed.

Lemma core_write f x v : is_core f = false -> core_of (write f x v) = core_of v.
Proof.
  intros Hf. assert (forall g, is_core g = true -> vmwrite f x (cs v) g = cs v g) as H by (intros g Hg; apply vmwrite_ne; congruence).
  unfold core_of. unfold write, with_cs. cbn. by rewrite !H.
Qed.

Lemma core_hw v a b c d : core_of (with_hw v a b c d) = core_of v.
Proof. reflexivity. Qed.

Lemma core_write_segment s r pr v : core_of (write_segment s r pr v) = core_of v.
Proof. unfold write_segment. destruct (is_table s); by rewrite !core_write. Qed.

Lemma core_set s r v : core_of (vmx_set_segment_register s r v) = core_of v.
Proof. unfold vmx_set_segment_register. destruct (_ && _); [destruct (disguise s r)|]; by rewrite core_write_segment. Qed.

Lemma core_get s v : core_of (vmx_get_segment_register s v).2 = core_of v.
Proof. unfold vmx_get_segment_register. repeat case_match; done. Qed.

Lemma rm_set s r v : vmx_realmode (vmx_set_segment_register s r v) = vmx_realmode v.
Proof.
  change (vmx_realmode ?x) with (vw_rm (seg_view s x)). rewrite set_view. unfold setv. destruct (_ && _); [destruct (disguise s r)|];
    unfold written; by destruct (is_table s).
Qed.

Lemma rm_get s v : vmx_realmode (vmx_get_segment_register s v).2 = vmx_realmode v.
Proof. change (vmx_realmode ?x) with (vw_rm (seg_view s x)). rewrite get_view. unfold got. by destruct (_ && _ && _). Qed.

(** Functions that leave the core, and real mode. *)
Lemma core_fold {A} (f : vmx -> A -> vmx) l : (forall v a, core_of (f v a) = core_of v /\ vmx_realmode (f v a) = vmx_realmode v) ->
  forall v, core_of (foldl f v l) = core_of v /\ vmx_realmode (foldl f v l) = vmx_realmode v.
Proof.
  intros Hf. induction l as [|a l IH]; intros v; [done|]. cbn [foldl]. destruct (IH (f v a)) as [-> ->]. apply Hf.
Qed.

Lemma core_read l : forall v, core_of (read_segs l v).2 = core_of v /\ vmx_realmode (read_segs l v).2 = vmx_realmode v.
Proof.
  induction l as [|s l IH]; intros v; [done|]. cbn [read_segs]. pose proof (core_get s v) as H1. pose proof (rm_get s v) as H2.
  destruct (vmx_get_segment_register s v) as [r v1]. cbn [snd] in *. destruct (IH v1) as [H3 H4]. destruct (read_segs l v1) as [rs v2]. cbn [snd] in *. by rewrite H3, H4.
Qed.

Lemma core_cr4 v : core_of (vmx_update_guest_cr4 v) = core_of v /\ vmx_realmode (vmx_update_guest_cr4 v) = vmx_realmode v.
Proof. unfold vmx_update_guest_cr4. split; [by rewrite !core_write|done]. Qed.

(** Real mode is entered without a failure. *)
Lemma core_switch v : core_of (vmx_switch_realmode true v) = core_of v /\ vmx_realmode (vmx_switch_realmode true v) = true.
Proof.
  unfold vmx_switch_realmode. destruct (core_read rm_segs v) as [H1 _]. destruct (read_segs rm_segs v) as [regs v1]. cbn [snd] in H1. cbv zeta.
  set (v2 := with_vm86 v1 true _ _). assert (core_of v2 = core_of v) as H2 by done. assert (vmx_realmode v2 = true) as H3 by done. clearbody v2.
  destruct (core_fold (fun v '(s, r) => vmx_set_segment_register s r v) regs ltac:(intros x [s r]; by rewrite core_set, rm_set) v2) as [H4 H5].
  set (v3 := foldl _ v2 regs) in *. clearbody v3. split; [rewrite !core_write by done; by rewrite <- H2|]. by rewrite <- H3.
Qed.

(** Leaving it for a CPU that is not the current one fails an assertion. *)
Lemma leave_realmode_asserts v : assert_failed (vmx_switch_realmode false v) = true.
Proof. unfold vmx_switch_realmode. destruct (read_segs rm_segs v) as [regs v1]. reflexivity. Qed.

Lemma core_cr0 v : vmx_realmode v = false -> core_of (vmx_update_guest_cr0 v) = core_of v /\
  vmx_realmode (vmx_update_guest_cr0 v) = if unrestricted p then vmx_realmode v else negb (truthy (guest_cr0 v .& X86_CR0_PE)).
Proof.
  intros Hrm. unfold vmx_update_guest_cr0. cbv zeta. set (v1 := if hap p then _ else v).
  assert (core_of v1 = core_of v /\ vmx_realmode v1 = vmx_realmode v) as [H1 H2].
  { unfold v1. destruct (hap p); [|done]. set (x := write _ _ _). destruct (core_cr4 x) as [-> ->]. unfold x. split; [by rewrite core_write|done]. }
  clearbody v1. assert (guest_cr0 v1 = guest_cr0 v) as H3 by (change (k_cr0 (core_of v1) = k_cr0 (core_of v)); by rewrite H1). rewrite H3.
  set (rm := negb (truthy (guest_cr0 v .& X86_CR0_PE))). set (v2 := if _ && _ then _ else v1).
  assert (core_of v2 = core_of v /\ vmx_realmode v2 = if unrestricted p then vmx_realmode v else rm) as [H4 H5].
  { unfold v2. destruct (unrestricted p); cbn [negb andb]; [done|]. destruct (Bool.eqb_spec rm (vmx_realmode v1)) as [E|]; cbn [negb]; [done|].
    destruct rm; [|congruence]. destruct (core_switch v1) as [-> ->]. done. }
  clearbody v2. split; [rewrite !core_write by done; by rewrite <- H4|]. by rewrite <- H5.
Qed.

(** ** The invariant, and what a fresh CPU is *)

Record core_ok (k : core) : Prop := {
  ko_cr0 : 0 <= k_cr0 k < 2 ^ 64; ko_cr2 : 0 <= k_cr2 k < 2 ^ 64; ko_cr3 : 0 <= k_cr3 k < 2 ^ 64; ko_cr4 : 0 <= k_cr4 k < 2 ^ 64;
  ko_efer : 0 <= k_efer k < 2 ^ 64; ko_lstar : 0 <= k_lstar k < 2 ^ 64; ko_star : 0 <= k_star k < 2 ^ 64; ko_mask : 0 <= k_mask k < 2 ^ 64;
  ko_flags : 0 <= k_flags k < 8; ko_cstar : 0 <= k_cstar k < 2 ^ 64; ko_gs : 0 <= k_gs k < 2 ^ 64;
  ko_scs : 0 <= k_scs k < 2 ^ 32; ko_sesp : 0 <= k_sesp k < 2 ^ 64; ko_seip : 0 <= k_seip k < 2 ^ 64;
  ko_ev : 0 <= k_ev k < 2 ^ 32; ko_err : 0 <= k_err k < 2 ^ 32;
  ko_ram : hap p = false -> truthy (k_cr0 k .& X86_CR0_PG) = true -> cr3_is_ram p (k_cr3 k) = true;
  ko_event : event_kept (k_ev k) = true -> pending_reserved (k_ev k) = 0;
  ko_fault : k_fault k = false
}.

Record vmx_ok (v : vmx) : Prop := {
  vk_mode : vmx_realmode v = if unrestricted p then false else negb (truthy (guest_cr0 v .& X86_CR0_PE));
  vk_core : core_ok (core_of v);
  vk_seg s : seg_ok s (seg_view s v)
}.

(** A CPU that was created in protected mode, with no event to inject. *)
Definition vmx_fresh (w : vmx) : Prop :=
  vmx_realmode w = false /\ event_kept (cs w VM_ENTRY_INTR_INFO) = false /\ 0 <= cs w VM_ENTRY_INTR_INFO < 2 ^ 32 /\
  0 <= cs w VM_ENTRY_EXCEPTION_ERROR_CODE < 2 ^ 32 /\ assert_failed w = false.

(** ** Sequences of segments *)

Lemma save_segs_views order : forall v, NoDup order -> (save_segs order v).1 = order ≫= fun s => seg_assign s (getf s (seg_view s v)).
Proof.
  induction order as [|s order IH]; intros v Hnd; [done|]. apply NoDup_cons in Hnd as [Hni Hnd]. cbn [save_segs mbind list_bind].
  pose proof (get_getf s v) as Hr. pose proof (fun s' H => get_view_ne s' s v H) as Hv. change (get_segment_register s v) with (vmx_get_segment_register s v) in *.
  destruct (vmx_get_segment_register s v) as [r v1]. cbn [fst snd] in *. specialize (IH v1 Hnd). destruct (save_segs order v1) as [l v2]. cbn [fst] in *.
  rewrite Hr, IH. f_equal. apply bind_ext_elem. intros s' Hs'. rewrite Hv; [done|]. by intros ->.
Qed.

Lemma load_segs_view seg0 c order : forall w s, NoDup order -> s ∈ order ->
  exists u, vw_rm u = vmx_realmode w /\ seg_view s (load_segs seg0 order c w) = setv s (seg_of seg0 c s) u.
Proof.
  unfold load_segs. induction order as [|s' order IH]; intros w s Hnd Hin; [by apply not_elem_of_nil in Hin|]. apply NoDup_cons in Hnd as [Hni Hnd].
  cbn [foldl]. change (set_segment_register s' (seg_of seg0 c s') w) with (vmx_set_segment_register s' (seg_of seg0 c s') w).
  destruct (decide (s = s')) as [->|Hne].
  - exists (seg_view s' w). split; [done|]. rewrite <- set_view. generalize (vmx_set_segment_register s' (seg_of seg0 c s') w). clear IH Hnd Hin.
    induction order as [|s order IH]; intros v; [done|]. apply not_elem_of_cons in Hni as [Hne Hni]. cbn [foldl].
    rewrite IH by done. change (set_segment_register s (seg_of seg0 c s) v) with (vmx_set_segment_register s (seg_of seg0 c s) v). by apply set_view_ne.
  - apply elem_of_cons in Hin as [?|Hin]; [done|]. destruct (IH (vmx_set_segment_register s' (seg_of seg0 c s') w) s Hnd Hin) as (u & Hu & E).
    exists u. split; [by rewrite Hu, rm_set|exact E].
Qed.

Lemma load_segs_core seg0 c order w : core_of (load_segs seg0 order c w) = core_of w /\ vmx_realmode (load_segs seg0 order c w) = vmx_realmode w.
Proof.
  unfold load_segs. apply (core_fold (fun v s => vmx_set_segment_register s (seg_of seg0 c s) v)). intros v s. by rewrite core_set, rm_set.
Qed.

Lemma seg_order_NoDup : NoDup seg_order.
Proof. apply (bool_decide_unpack _). vm_compute. exact I. Qed.
Lemma seg_order_all s : s ∈ seg_order.
Proof. destruct s; apply (bool_decide_unpack _); vm_compute; exact I. Qed.

Lemma seg_assign_same s r r' : seg_same s r r' -> seg_assign s r = seg_assign s r'.
Proof. unfold seg_same, seg_assign. destruct (is_table s); [by intros [-> ->]|by intros ->]. Qed.

Lemma seg_same_stable rm s r r' : seg_same s r r' -> stable rm s r' -> stable rm s r.
Proof. unfold seg_same, stable. destruct (is_table s) eqn:Et; [|by intros ->]. intros [-> ->] (? & ? & _). split; [done|]. split; [done|]. by intros. Qed.

(** The structure holds the segment that was saved. *)
Lemma seg_of_saved seg0 c s r :
  (forall f bs, (f, bs) ∈ seg_assign s r -> slice f c = bs) -> 0 <= limit r < 2 ^ 32 -> 0 <= base r < 2 ^ 64 -> (is_table s = false -> seg_typed r) ->
  seg_same s (seg_of seg0 c s) r.
Proof.
  intros Hc Hl Hb Hty. unfold seg_assign, seg_same, seg_of in *. destruct (is_table s); cbn [limit base].
  - rewrite (fget_num (c_limit s) (limit r)), (fget_num (c_base s) (base r)) by (apply Hc; set_solver). by rewrite !Z.mod_small.
  - destruct (Hty eq_refl) as (? & ? & ? & ?).
    rewrite (fget_num (c_sel s) (sel r)), (fget_num (c_arbytes s) (attr r)), (fget_num (c_limit s) (limit r)), (fget_num (c_base s) (base r)) by (apply Hc; set_solver).
    cbn [c_sel c_arbytes c_limit c_base f_size]. destruct r as [rs ra rl rb]. cbn [sel attr limit base] in *. f_equal; rewrite !Z.mod_small; try done; try lia; rewrite ?Z.mod_small; lia.
Qed.

(** ** Loading *)

(** What the core is after loading that of [v] at the time [now']. *)
Definition core_loaded (now now' : Z) (k w : core) : core :=
  Core (k_cr0 k) (k_cr2 k) (k_cr3 k) (k_cr4 k) (k_efer k) (k_lstar k) (k_star k) (k_mask k) (k_flags k) (k_cstar k) (k_gs k)
    (u64 (u64 (now + k_off k) - now')) (k_scs k) (k_sesp k) (k_seip k)
    (if event_kept (k_ev k) then k_ev k else k_ev w) (if event_kept (k_ev k) then k_err k else k_err w) (k_fault w).

Lemma event_kept_type ev : event_kept ev = true -> (pending_type ev =? 1) || (pending_type ev >? 6) = false.
Proof.
  unfold event_kept, hvm_event_needs_reinjection. intros [_ H]%andb_prop.
  destruct (Z.eqb_spec (pending_type ev) 0) as [->|]; [done|]. destruct (Z.eqb_spec (pending_type ev) 2) as [->|]; [done|].
  destruct (Z.eqb_spec (pending_type ev) 3) as [->|]; [done|]. done.
Qed.

Lemma vmwrite_word f x m : 0 <= x < 2 ^ width f -> vmwrite f x m f = x.
Proof. intros H. rewrite vmwrite_eq. by apply Z.mod_small. Qed.

(** A write to a field of the core. *)
Definition core_upd (f : vmcs_field) (x : Z) (k : core) : core :=
  let z g old := if decide (f = g) then x else old in
  Core (k_cr0 k) (k_cr2 k) (k_cr3 k) (k_cr4 k) (k_efer k) (k_lstar k) (k_star k) (k_mask k) (k_flags k) (k_cstar k) (k_gs k) (k_off k)
    (z GUEST_SYSENTER_CS (k_scs k)) (z GUEST_SYSENTER_ESP (k_sesp k)) (z GUEST_SYSENTER_EIP (k_seip k))
    (z VM_ENTRY_INTR_INFO (k_ev k)) (z VM_ENTRY_EXCEPTION_ERROR_CODE (k_err k)) (k_fault k).

Lemma core_write_upd f x v : 0 <= x < 2 ^ width f -> core_of (write f x v) = core_upd f x (core_of v).
Proof.
  intros Hx. assert (forall g, vmwrite f x (cs v) g = if decide (f = g) then x else cs v g) as H.
  { intros g. destruct (decide (f = g)) as [<-|]; [by apply vmwrite_word|by apply vmwrite_ne]. }
  unfold core_upd, core_of. unfold write, with_cs. cbn [cs guest_cr0 guest_cr2 guest_cr3 guest_cr4 guest_efer lstar star syscall_mask msr_flags cstar shadow_gs cache_tsc_offset
    k_cr0 k_cr2 k_cr3 k_cr4 k_efer k_lstar k_star k_mask k_flags k_cstar k_gs k_off k_scs k_sesp k_seip k_ev k_err k_fault]. by rewrite !H.
Qed.

Lemma core_guest v a b c d e : core_of (with_guest v a b c d e) =
  let k := core_of v in Core a b c d e (k_lstar k) (k_star k) (k_mask k) (k_flags k) (k_cstar k) (k_gs k) (k_off k) (k_scs k) (k_sesp k) (k_seip k) (k_ev k) (k_err k) (k_fault k).
Proof. reflexivity. Qed.

(** The last steps of loading, on a state [v] with the control registers set. *)
Lemma core_tail v cr2 cr4 efer scs sesp seip dr7 ev err k :
  core_of v = k -> 0 <= scs < 2 ^ 32 -> 0 <= sesp < 2 ^ 64 -> 0 <= seip < 2 ^ 64 -> 0 <= ev < 2 ^ 32 -> 0 <= err < 2 ^ 32 ->
  k_cr2 k = cr2 -> k_cr4 k = cr4 ->
  let u := vmx_update_guest_efer (with_guest v (guest_cr0 v) (guest_cr2 v) (guest_cr3 v) (guest_cr4 v) efer) in
  let u := write GUEST_DR7 dr7 (write GUEST_SYSENTER_EIP seip (write GUEST_SYSENTER_ESP sesp (write GUEST_SYSENTER_CS scs u))) in
  let u := if event_kept ev then write VM_ENTRY_EXCEPTION_ERROR_CODE err (write VM_ENTRY_INTR_INFO ev u) else u in
  core_of u = Core (k_cr0 k) cr2 (k_cr3 k) cr4 efer (k_lstar k) (k_star k) (k_mask k) (k_flags k) (k_cstar k) (k_gs k) (k_off k) scs sesp seip
    (if event_kept ev then ev else k_ev k) (if event_kept ev then err else k_err k) (k_fault k) /\ vmx_realmode u = vmx_realmode v.
Proof.
  intros <- Hscs Hsesp Hseip Hev Herr <- <-. cbv zeta. split; [|by destruct (event_kept ev)].
  unfold vmx_update_guest_efer. destruct (event_kept ev); [rewrite 2!core_write_upd by done|]; rewrite (core_write GUEST_DR7) by done; rewrite 3!core_write_upd by done;
    rewrite (core_write VM_ENTRY_CONTROLS), core_guest by done; reflexivity.
Qed.

Lemma lor_et x : truthy (x .& X86_CR0_ET) = true -> x .| X86_CR0_ET = x.
Proof.
  unfold truthy, X86_CR0_ET. change 0x10 with (1 .<< 4). intros H. apply Z.bits_inj'. intros i Hi. rewrite Z.lor_spec, testbit_pow2 by lia. destruct (Z.eqb_spec i 4) as [->|]; [|apply orb_false_r].
  destruct (Z.testbit x 4) eqn:E; [done|]. assert (x .& (1 .<< 4) = 0) as E0; [|by rewrite E0 in H]. apply Z.bits_inj'. intros j Hj.
  rewrite Z.land_spec, testbit_pow2, Z.bits_0 by lia. destruct (Z.eqb_spec j 4) as [->|]; [by rewrite E|apply andb_false_r].
Qed.

Lemma core_state now c w : core_of (vmx_load_cpu_state now c w) =
  let k := core_of w in
  Core (k_cr0 k) (k_cr2 k) (k_cr3 k) (k_cr4 k) (k_efer k) (fget c_msr_lstar c) (fget c_msr_star c) (fget c_msr_syscall_mask c) (fget c_msr_flags c .& 7)
    (fget c_msr_cstar c) (fget c_shadow_gs c) (u64 (fget c_tsc c - now)) (k_scs k) (k_sesp k) (k_seip k) (k_ev k) (k_err k) (k_fault k).
Proof. unfold vmx_load_cpu_state, hvm_set_guest_tsc. cbv zeta. rewrite core_write by done. reflexivity. Qed.

Lemma rm_state now c w : vmx_realmode (vmx_load_cpu_state now c w) = vmx_realmode w.
Proof. reflexivity. Qed.
Lemma rm_guest v a b c d e : vmx_realmode (with_guest v a b c d e) = vmx_realmode v.
Proof. reflexivity. Qed.

(** The members of the structure that hold a core. *)
Definition holds (now : Z) (k : core) (c : list Z) : Prop :=
  fget c_cr0 c = k_cr0 k /\ fget c_cr2 c = k_cr2 k /\ fget c_cr3 c = k_cr3 k /\ fget c_cr4 c = k_cr4 k /\ fget c_msr_efer c = k_efer k /\
  fget c_msr_lstar c = k_lstar k /\ fget c_msr_star c = k_star k /\ fget c_msr_syscall_mask c = k_mask k /\ fget c_msr_flags c = k_flags k /\
  fget c_msr_cstar c = k_cstar k /\ fget c_shadow_gs c = k_gs k /\ fget c_tsc c = u64 (now + k_off k) /\ fget c_sysenter_cs c = k_scs k /\
  fget c_sysenter_esp c = k_sesp k /\ fget c_sysenter_eip c = k_seip k /\
  fget c_pending_event c = (if event_kept (k_ev k) then k_ev k else 0) /\ fget c_error_code c = (if event_kept (k_ev k) then k_err k else 0).

Lemma saved_holds now k c : core_ok k -> (forall f bs, (f, bs) ∈ core_fields now k -> slice f c = bs) -> holds now k c.
Proof.
  intros Hk Hc. destruct Hk.
  assert (forall i f x, core_fields now k !! i = Some (num f x) -> 0 <= x < 256 ^ Z.of_nat (f_size f) -> fget f c = x) as G.
  { intros i f x Hi Hx. rewrite (fget_num f x); [by apply Z.mod_small|]. apply Hc. by apply (list_elem_of_lookup_2 _ i). }
  pose proof (u64_range (now + k_off k)). unfold holds. split_and!; [apply (G 7%nat)|apply (G 8%nat)|apply (G 9%nat)|apply (G 10%nat)|apply (G 11%nat)|apply (G 3%nat)|apply (G 4%nat)
    |apply (G 5%nat)|apply (G 2%nat)|apply (G 1%nat)|apply (G 0%nat)|apply (G 6%nat)|apply (G 12%nat)|apply (G 13%nat)|apply (G 14%nat)|apply (G 15%nat)|apply (G 16%nat)];
    try reflexivity; cbn [f_size c_cr0 c_cr2 c_cr3 c_cr4 c_msr_efer c_msr_lstar c_msr_star c_msr_syscall_mask c_msr_flags c_msr_cstar c_shadow_gs c_tsc c_sysenter_cs
      c_sysenter_esp c_sysenter_eip c_pending_event c_error_code]; try destruct (event_kept (k_ev k)); lia.
Qed.

Lemma core_rest now k c v :
  core_ok k -> holds now k c -> vmx_realmode v = false ->
  let k0 := core_of v in
  core_of (vmx_restore_rest c v) =
    Core (k_cr0 k0) (k_cr2 k) (k_cr3 k0) (k_cr4 k) (k_efer k) (k_lstar k0) (k_star k0) (k_mask k0) (k_flags k0) (k_cstar k0) (k_gs k0) (k_off k0)
      (k_scs k) (k_sesp k) (k_seip k) (if event_kept (k_ev k) then k_ev k else k_ev k0) (if event_kept (k_ev k) then k_err k else k_err k0) (k_fault k0) /\
  vmx_realmode (vmx_restore_rest c v) = if unrestricted p then false else negb (truthy (k_cr0 k0 .& X86_CR0_PE)).
Proof.
  intros Hk (_ & E2 & _ & E4 & Ee & _ & _ & _ & _ & _ & _ & _ & Esc & Ese & Esi & Epe & Eerr) Hrm. cbv zeta. unfold vmx_restore_rest. cbv zeta.
  rewrite E2, E4, Ee, Esc, Ese, Esi, Epe, Eerr. set (v0 := with_guest v _ _ _ _ _). pose proof (core_guest v (guest_cr0 v) (k_cr2 k) (guest_cr3 v) (k_cr4 k) (guest_efer v)) as Hv0.
  fold v0 in Hv0. assert (vmx_realmode v0 = false /\ guest_cr0 v0 = guest_cr0 v) as [Hrm0 Hcr0] by done. clearbody v0.
  destruct (core_cr0 v0 Hrm0) as [C1 R1]. destruct (core_cr4 (vmx_update_guest_cr0 v0)) as [C2 R2]. set (v1 := vmx_update_guest_cr4 _) in *. clearbody v1.
  rewrite C1, Hv0 in C2. rewrite R1, Hcr0, Hrm0 in R2. cbv zeta in C2.
  destruct (core_tail v1 (k_cr2 k) (k_cr4 k) (k_efer k) (k_scs k) (k_sesp k) (k_seip k) (fget (c_dr 7) c) (if event_kept (k_ev k) then k_ev k else 0)
    (if event_kept (k_ev k) then k_err k else 0) _ C2) as [C3 R3]; try (destruct Hk; done); try (destruct Hk, (event_kept (k_ev k)); lia).
  cbv zeta in C3, R3. split; [etransitivity; [exact C3|]|etransitivity; [exact R3|exact R2]].
  cbn [k_cr0 k_cr3 k_lstar k_star k_mask k_flags k_cstar k_gs k_off k_ev k_err k_fault]. destruct (event_kept (k_ev k)) eqn:Ek; [by rewrite Ek|done].
Qed.

(** An event that was saved passes the check. *)
Lemma event_accepted ev : event_kept ev = false \/ pending_reserved ev = 0 ->
  let e := if event_kept ev then ev else 0 in
  pending_valid e && ((pending_type e =? 1) || (pending_type e >? 6) || truthy (pending_reserved e)) = false.
Proof.
  intros Hor. cbv zeta. destruct (event_kept ev) eqn:Ek; [|done]. destruct Hor as [?|Hor]; [done|]. rewrite (event_kept_type ev Ek), Hor. apply andb_false_r.
Qed.

Lemma load_core now now' k w c :
  core_ok k -> vmx_fresh w -> holds now k c -> bad_cr0 c = false ->
  exists w', vmx_load_vmcs_ctxt now' c w = (0, w') /\ core_of w' = core_loaded now now' k (core_of w) /\
    vmx_realmode w' = if unrestricted p then false else negb (truthy (k_cr0 k .& X86_CR0_PE)).
Proof.
  intros Hk (Hrm & Hnev & Hev & Herr & _) Hh Hbad. pose proof Hh as (E0 & _ & E3 & _ & _ & El & Es & Em & Ef & Ec & Eg & Et & _ & _ & _ & Epe & _).
  assert (k_cr0 k .| X86_CR0_ET = k_cr0 k) as Eet.
  { apply lor_et. unfold bad_cr0 in Hbad. apply orb_false_iff in Hbad as [[_ H]%orb_false_iff _]. rewrite E0 in H. by apply negb_false_iff in H. }
  unfold vmx_load_vmcs_ctxt, vmx_vmcs_restore. pose proof (core_state now' c w) as Ecore. cbv zeta in Ecore.
  assert (vmx_realmode (vmx_load_cpu_state now' c w) = false) as Hrm1 by (by rewrite rm_state).
  revert Ecore Hrm1. generalize (vmx_load_cpu_state now' c w). intros w1 Ecore Hrm1. cbv zeta. rewrite Epe, event_accepted by (destruct (event_kept (k_ev k)) eqn:E; [right; by apply (ko_event k Hk)|by left]).
  unfold vmx_restore_cr0_cr3. rewrite E0, E3, Eet. assert (negb (hap p) && truthy (k_cr0 k .& X86_CR0_PG) && negb (cr3_is_ram p (k_cr3 k)) = false) as ->.
  { destruct (hap p) eqn:Eh; [done|]. cbn [negb andb]. destruct (truthy _) eqn:Epg; [|done]. by rewrite (ko_ram k Hk Eh Epg). }
  pose proof (core_guest w1 (k_cr0 k) (guest_cr2 w1) (k_cr3 k) (guest_cr4 w1) (guest_efer w1)) as Hg. 
  pose proof (rm_guest w1 (k_cr0 k) (guest_cr2 w1) (k_cr3 k) (guest_cr4 w1) (guest_efer w1)) as Hrm2. rewrite Hrm1 in Hrm2. revert Hg Hrm2.
  generalize (with_guest w1 (k_cr0 k) (guest_cr2 w1) (k_cr3 k) (guest_cr4 w1) (guest_efer w1)). intros w2 Hg Hrm2. destruct (core_rest now k c w2 Hk Hh Hrm2) as [C R]. rewrite Hg, Ecore in C. rewrite Hg in R.
  exists (vmx_restore_rest c w2). split; [reflexivity|]. split; [|exact R]. rewrite C. unfold core_loaded.
  cbn [k_cr0 k_cr2 k_cr3 k_cr4 k_efer k_lstar k_star k_mask k_flags k_cstar k_gs k_off k_scs k_sesp k_seip k_ev k_err k_fault].
  rewrite El, Es, Em, Ef, Ec, Eg, Et. change 7 with (Z.ones 3). rewrite Z.land_ones, Z.mod_small by (destruct Hk; lia). done.
Qed.

Lemma loaded_fields now now' k w : event_kept (k_ev w) = false -> core_fields now' (core_loaded now now' k w) = core_fields now k.
Proof.
  intros Hw. unfold core_fields, core_loaded. cbn [k_cr0 k_cr2 k_cr3 k_cr4 k_efer k_lstar k_star k_mask k_flags k_cstar k_gs k_off k_scs k_sesp k_seip k_ev k_err k_fault].
  assert (u64 (now' + u64 (u64 (now + k_off k) - now')) = u64 (now + k_off k)) as ->.
  { unfold u64. rewrite Zplus_mod_idemp_r. replace (now' + ((now + k_off k) mod 2 ^ 64 - now')) with ((now + k_off k) mod 2 ^ 64) by lia. by rewrite Z.mod_mod. }
  destruct (event_kept (k_ev k)) eqn:Ek; [by rewrite Ek|]. by rewrite Hw.
Qed.

Lemma loaded_ok now now' k w : core_ok k -> event_kept (k_ev w) = false -> 0 <= k_ev w < 2 ^ 32 -> 0 <= k_err w < 2 ^ 32 -> k_fault w = false -> core_ok (core_loaded now now' k w).
Proof.
  intros [] Hw He Hr Hf. split; cbn [core_loaded k_cr0 k_cr2 k_cr3 k_cr4 k_efer k_lstar k_star k_mask k_flags k_cstar k_gs k_off k_scs k_sesp k_seip k_ev k_err k_fault]; try done;
    destruct (event_kept (k_ev k)) eqn:Ek; try done; intros; [by apply ko_event0|congruence].
Qed.

Lemma guest_cr0_core v k : core_of v = k -> guest_cr0 v = k_cr0 k.
Proof. by intros <-. Qed.
Lemma event_core v k : core_of v = k -> cs v VM_ENTRY_INTR_INFO = k_ev k /\ cs v VM_ENTRY_EXCEPTION_ERROR_CODE = k_err k /\ assert_failed v = k_fault k.
Proof. by intros <-. Qed.

(** The laws of [HvmCpu]. *)
#[export] Program Instance vmx_laws : HvmFuncsLaws vmx := {| hf_ok := vmx_ok; hf_fresh := vmx_fresh |}.
Next Obligation. done. Qed.
Next Obligation. intros now w. repeat constructor; apply le_bytes_length. Qed.
Next Obligation.
  intros dr7 fl w (Hrm & Hf). assert (core_of (vmx_set_info_guest dr7 fl w) = core_of w /\ vmx_realmode (vmx_set_info_guest dr7 fl w) = vmx_realmode w) as [Hc Hr].
  { unfold vmx_set_info_guest. cbv zeta. destruct (_ && _); split; rewrite ?core_write by done; reflexivity. }
  unfold vmx_fresh. change (set_info_guest dr7 fl w) with (vmx_set_info_guest dr7 fl w).
  destruct (event_core _ _ Hc) as (-> & -> & ->). by rewrite Hr.
Qed.
Next Obligation.
  intros s w Hok. change (get_segment_register s w) with (vmx_get_segment_register s w). rewrite get_getf.
  destruct (getf_stable s _ (vk_seg w Hok s)) as (_ & _ & Hst). destruct (is_table s) eqn:Et.
  - assert ((seg_idx s <=? 6) = false) as E by (by destruct s). unfold getf, adjusts, raw. rewrite E, andb_false_r, Et. cbn. lia.
  - destruct (Hst eq_refl) as [(_ & ? & _) _]. lia.
Qed.
Next Obligation.
  intros s w Hok. change (get_segment_register s w) with (vmx_get_segment_register s w). pose proof Hok as [Hm Hc Hs]. split.
  - rewrite rm_get, Hm. by rewrite (guest_cr0_core _ _ (core_get s w)).
  - by rewrite core_get.
  - intros s'. destruct (decide (s' = s)) as [->|Hne]; [rewrite get_view; by apply got_ok|by rewrite get_view_ne].
Qed.
Next Obligation.
  intros now now' seg0 v w c [Hm Hk Hs] Hw Hc Hbad.
  assert (holds now (core_of v) c) as Hh by (apply saved_holds; [done|]; intros f bs Hin; apply Hc, elem_of_app; by left).
  destruct (load_core now now' (core_of v) w c Hk Hw Hh Hbad) as (w' & Hl & Cw & Rw). exists w'. split; [exact Hl|]. cbv zeta.
  destruct (load_segs_core seg0 c seg_order w') as [Cs Rs]. set (w'' := load_segs seg0 seg_order c w') in *.
  assert (vmx_realmode w' = vmx_realmode v) as Erm by (by rewrite Rw, Hm).
  assert (forall s, seg_same s (seg_of seg0 c s) (getf s (seg_view s v)) /\ stable (vmx_realmode w') s (seg_of seg0 c s)) as Hsame.
  { intros s. pose proof (getf_stable s _ (Hs s)) as Hst. pose proof Hst as (H1 & H2 & H3).
    assert (seg_same s (seg_of seg0 c s) (getf s (seg_view s v))) as E.
    { apply seg_of_saved; [|done|done|by intros [? _]%H3]. intros f bs Hin. apply Hc, elem_of_app. right. rewrite save_segs_views by apply seg_order_NoDup.
      apply list_elem_of_bind. exists s. split; [done|apply seg_order_all]. }
    split; [done|]. eapply seg_same_stable; [exact E|]. by rewrite Erm. }
  destruct Hw as (_ & Hev & Hr1 & Hr2 & Hwf). split; [|split].
  - split.
    + rewrite Rs, Rw. by rewrite (guest_cr0_core w'' _ (eq_trans Cs Cw)).
    + rewrite Cs, Cw. by apply loaded_ok.
    + intros s. destruct (load_segs_view seg0 c seg_order w' s seg_order_NoDup (seg_order_all s)) as (u & Hu & E). unfold w''. rewrite E. apply setv_ok. rewrite Hu. by apply Hsame.
  - etransitivity; [exact (save_core now' w'')|]. rewrite Cs, Cw. etransitivity; [by apply loaded_fields|]. symmetry. exact (save_core now v).
  - rewrite !save_segs_views by apply seg_order_NoDup. apply bind_ext_elem. intros s _.
    destruct (load_segs_view seg0 c seg_order w' s seg_order_NoDup (seg_order_all s)) as (u & Hu & E). unfold w''. rewrite E. destruct (Hsame s) as [Hsm Hst].
    rewrite (seg_assign_same s _ _ (getf_setv s _ u ltac:(by rewrite Hu))). by apply seg_assign_same.
Qed.

(** ** What is the same after loading *)

(** [u] at the time [now'] is, for the guest, the CPU that [v] was at the time
    [now]: control and model-specific registers, the time stamp counter, the
    event to inject and the segments, and no assertion has failed. *)
Record same_vmx (now now' : Z) (v u : vmx) : Prop := {
  sv_control : guest_cr0 u = guest_cr0 v /\ guest_cr2 u = guest_cr2 v /\ guest_cr3 u = guest_cr3 v /\ guest_cr4 u = guest_cr4 v /\ guest_efer u = guest_efer v;
  sv_msrs : lstar u = lstar v /\ star u = star v /\ syscall_mask u = syscall_mask v /\ msr_flags u = msr_flags v /\ cstar u = cstar v /\ shadow_gs u = shadow_gs v;
  sv_sysenter f : f ∈ [GUEST_SYSENTER_CS; GUEST_SYSENTER_ESP; GUEST_SYSENTER_EIP] -> cs u f = cs v f;
  sv_tsc : hvm_get_guest_tsc now' u = hvm_get_guest_tsc now v;
  sv_pending : pending_saved u = pending_saved v;
  sv_event : pending_saved v = true ->
    cs u VM_ENTRY_INTR_INFO = cs v VM_ENTRY_INTR_INFO /\ cs u VM_ENTRY_EXCEPTION_ERROR_CODE = cs v VM_ENTRY_EXCEPTION_ERROR_CODE;
  sv_segments s : seg_same s (vmx_get_segment_register s u).1 (vmx_get_segment_register s v).1;
  sv_mode : vmx_realmode u = vmx_realmode v;
  sv_asserts : assert_failed u = false
}.

Lemma num_inj f x y : num f x = num f y -> 0 <= x < 256 ^ Z.of_nat (f_size f) -> 0 <= y < 256 ^ Z.of_nat (f_size f) -> x = y.
Proof.
  unfold num. intros H Hx Hy. injection H as H. apply (f_equal le_val) in H. rewrite !le_val_bytes in H. by rewrite !Z.mod_small in H.
Qed.

(** Two cores that are saved as the same record. *)
Lemma core_fields_inj now now' k k' : core_ok k -> core_ok k' -> core_fields now' k' = core_fields now k ->
  [k_cr0 k'; k_cr2 k'; k_cr3 k'; k_cr4 k'; k_efer k'; k_lstar k'; k_star k'; k_mask k'; k_flags k'; k_cstar k'; k_gs k'; k_scs k'; k_sesp k'; k_seip k'] =
  [k_cr0 k; k_cr2 k; k_cr3 k; k_cr4 k; k_efer k; k_lstar k; k_star k; k_mask k; k_flags k; k_cstar k; k_gs k; k_scs k; k_sesp k; k_seip k] /\
  u64 (now' + k_off k') = u64 (now + k_off k) /\ event_kept (k_ev k') = event_kept (k_ev k) /\
  (event_kept (k_ev k) = true -> k_ev k' = k_ev k /\ k_err k' = k_err k).
Proof.
  intros Hk Hk' E.
  assert (forall i f x y, core_fields now' k' !! i = Some (num f x) -> core_fields now k !! i = Some (num f y) ->
    0 <= x < 256 ^ Z.of_nat (f_size f) -> 0 <= y < 256 ^ Z.of_nat (f_size f) -> x = y) as G.
  { intros i f x y Hx Hy. rewrite E, Hy in Hx. injection Hx as Hx. apply (num_inj f x y). unfold num. by rewrite Hx. }
  clear E. destruct Hk, Hk'. pose proof (u64_range (now + k_off k)). pose proof (u64_range (now' + k_off k')).
  assert (forall e x, 0 <= x < 2 ^ 32 -> 0 <= (if event_kept e then x else 0) < 2 ^ 32) as Hz by (intros e x ?; destruct (event_kept e); lia).
  assert ((if event_kept (k_ev k') then k_ev k' else 0) = (if event_kept (k_ev k) then k_ev k else 0)) as Eev by (by apply (G 15%nat c_pending_event); cbn [f_size c_pending_event]; auto).
  assert ((if event_kept (k_ev k') then k_err k' else 0) = (if event_kept (k_ev k) then k_err k else 0)) as Eerr by (by apply (G 16%nat c_error_code); cbn [f_size c_error_code]; auto).
  assert (event_kept (k_ev k') = event_kept (k_ev k)) as Eke.
  { destruct (event_kept (k_ev k')) eqn:E1, (event_kept (k_ev k)) eqn:E2; try done; [rewrite Eev in E1|rewrite <- Eev in E2]; done. }
  rewrite Eke in *. split; [|split; [by apply (G 6%nat c_tsc)|split; [done|intros Ht; rewrite Ht in *; done]]].
  rewrite (G 7%nat c_cr0 (k_cr0 k') (k_cr0 k)), (G 8%nat c_cr2 (k_cr2 k') (k_cr2 k)), (G 9%nat c_cr3 (k_cr3 k') (k_cr3 k)), (G 10%nat c_cr4 (k_cr4 k') (k_cr4 k)),
    (G 11%nat c_msr_efer (k_efer k') (k_efer k)), (G 3%nat c_msr_lstar (k_lstar k') (k_lstar k)), (G 4%nat c_msr_star (k_star k') (k_star k)),
    (G 5%nat c_msr_syscall_mask (k_mask k') (k_mask k)), (G 2%nat c_msr_flags (k_flags k') (k_flags k)), (G 1%nat c_msr_cstar (k_cstar k') (k_cstar k)),
    (G 0%nat c_shadow_gs (k_gs k') (k_gs k)), (G 12%nat c_sysenter_cs (k_scs k') (k_scs k)), (G 13%nat c_sysenter_esp (k_sesp k') (k_sesp k)),
    (G 14%nat c_sysenter_eip (k_seip k') (k_seip k)) by (reflexivity || (cbn [f_size c_cr0 c_cr2 c_cr3 c_cr4 c_msr_efer c_msr_lstar c_msr_star c_msr_syscall_mask
      c_msr_flags c_msr_cstar c_shadow_gs c_sysenter_cs c_sysenter_esp c_sysenter_eip]; lia)). done.
Qed.

Lemma seg_assign_inj s rm r r' : stable rm s r -> stable rm s r' -> seg_assign s r' = seg_assign s r -> seg_same s r' r.
Proof.
  intros (Hl & Hb & Ht) (Hl' & Hb' & Ht') E.
  assert (forall i f x y, seg_assign s r' !! i = Some (num f x) -> seg_assign s r !! i = Some (num f y) ->
    0 <= x < 256 ^ Z.of_nat (f_size f) -> 0 <= y < 256 ^ Z.of_nat (f_size f) -> x = y) as G.
  { intros i f x y Hx Hy. rewrite E, Hy in Hx. apply (num_inj f x y). symmetry. by apply (inj Some). }
  clear E. unfold seg_assign, seg_same in *. destruct (is_table s).
  - split; [by apply (G 0%nat (c_limit s))|by apply (G 1%nat (c_base s))].
  - destruct (Ht eq_refl) as [(? & ? & _) _], (Ht' eq_refl) as [(? & ? & _) _]. destruct r as [rs ra rl rb], r' as [rs' ra' rl' rb']. cbn [sel attr limit base] in *.
    f_equal; [apply (G 0%nat (c_sel s))|apply (G 3%nat (c_arbytes s))|apply (G 1%nat (c_limit s))|apply (G 2%nat (c_base s))]; try reflexivity;
      cbn [c_sel c_arbytes c_limit c_base f_size]; lia.
Qed.

(** A CPU whose record is that of [v] is the same CPU. *)
Lemma saved_same now now' v u : vmx_ok v -> vmx_ok u ->
  vmx_save_vmcs_ctxt now' u = vmx_save_vmcs_ctxt now v -> (save_segs seg_order u).1 = (save_segs seg_order v).1 -> same_vmx now now' v u.
Proof.
  intros [Hm Hk Hs] [Hm' Hk' Hs'] Ea Es. rewrite !save_core in Ea. destruct (core_fields_inj now now' _ _ Hk Hk' Ea) as (El & Et & Ep & Ee).
  assert (guest_cr0 u = guest_cr0 v) as E0 by (cbn in El; congruence). assert (vmx_realmode u = vmx_realmode v) as Erm by (by rewrite Hm, Hm', E0).
  split; try done; [cbn in El; naive_solver congruence|cbn in El; naive_solver congruence|..|by destruct Hk'].
  - intros f Hf. cbn in El. rewrite !elem_of_cons, elem_of_nil in Hf. destruct Hf as [->|[->|[->|[]]]]; congruence.
  - intros s. rewrite !get_getf. rewrite !save_segs_views in Es by apply seg_order_NoDup.
    pose proof (getf_stable s _ (Hs s)) as S1. pose proof (getf_stable s _ (Hs' s)) as S2. cbn [vw_rm seg_view] in S1, S2. rewrite Erm in S2.
    apply (seg_assign_inj s _ _ _ S1 S2). apply (bind_eq_elem _ _ _ Es); [|apply seg_order_all]. intros s' _. unfold seg_assign. by destruct (is_table s').
Qed.

End Vmx.

End Vmx.
