(* ===== verification/CpuMigrate.v ===== *)
(** The CPUs of an HVM guest survive a migration.

    Puts the handlers of [HvmCpu] into the table of [HvmContext] and follows
    the records of all CPUs from the source to the target.  The lemmas hold for
    every processor that satisfies the interface of [HvmCpu]; the result is
    about VMX, whose functions in [Vmx] satisfy it. *)

From S2P Require Import Prelude HvmContext HvmHandler Layout HvmCpu Vmx.

Module CpuMigrate.
Import HvmContext HvmHandler Layout HvmCpu.

Section Migrate.
Context {V : Type} `{!HvmFuncs V, !HvmFuncsLaws V, !Inhabited V}.
Context (ft : features) (tsc_mode_pvrdtscp : bool) (incarnation : Z) (seg0 : segment_register).
Context {S : Type} `{!Component S (list (vcpu V))}.
Context (clock clock' : nat -> Z) (ctxt beyond : list Z) (Hctxt : length ctxt = 1024%nat).
Context (Hxs : Z.of_nat (xsave_cntxt_size ft) < 2 ^ 31).
Implicit Types d t : hdom S.

Abbreviation cpu_bytes := (cpu_bytes tsc_mode_pvrdtscp incarnation).
Abbreviation cpu_device := (cpu_device ft tsc_mode_pvrdtscp incarnation seg0 clock clock' ctxt).
Abbreviation xsave_device := (xsave_device ft beyond).
Abbreviation same_guest := (same_guest tsc_mode_pvrdtscp incarnation).

(** [hvm_sr_handlers], with the two types of this file. *)
Definition cpu_devices : list (option (device S)) := [None; None; Some cpu_device] ++ replicate 13 None ++ [Some xsave_device].
Definition cpu_table : list (option (handler S)) := table cpu_devices.

Lemma cpu_devices_laws i dv : cpu_devices !! i = Some (Some dv) -> DeviceLaws i dv.
Proof.
  intros H. do 17 (destruct i as [|i]; [cbn in H; try discriminate H; injection H as <-; eauto using cpu_laws, xsave_laws|]). done.
Qed.

(** ** What a record changes *)

Definition present (t : hdom S) (i : nat) : Prop := i ∈ vcpu_ids t /\ (i < length (dget t : list (vcpu V)))%nat.

(** The target [t'] differs from [t] only in CPU [i]. *)
Record only (i : nat) (t t' : hdom S) : Prop := {
  on_cpu j : j <> i -> cpu t' j = cpu t j;
  on_down j : j <> i -> vdown t' !! j = vdown t !! j;
  on_present j : present t j -> present t' j
}.

Lemma only_refl i t : only i t t.
Proof. by split. Qed.

Lemma only_trans i t t' t'' : only i t t' -> only i t' t'' -> only i t t''.
Proof.
  intros [A1 A2 A3] [B1 B2 B3]. split; [|intros j Hj; by rewrite B2, A2|auto]. intros j Hj. by rewrite B1, A1.
Qed.

Lemma only_set_cpu i v t : only i t (set_cpu i v t).
Proof.
  split; [intros j Hj; by apply cpu_set_ne|done|]. intros j [Hj Hl]. split; [done|]. unfold set_cpu. rewrite dget_dput. by rewrite length_insert.
Qed.

Lemma only_set_down i b t : i ∈ vcpu_ids t -> only i t (set_is_down i b t).
Proof.
  intros Hi. split; [done|intros j Hj; cbn; by apply list_lookup_insert_ne|]. intros j [Hj Hl]. split; [|done]. rewrite vcpu_ids_elem in *. cbn [vdown set_is_down set_down].
  destruct (decide (j = i)) as [->|Hne]; [|by rewrite list_lookup_insert_ne].
  destruct (vdown t !! i) as [o|] eqn:E; [|by destruct Hj]. apply lookup_lt_Some in E. rewrite list_lookup_insert_eq by done. by eexists.
Qed.

Lemma only_booted i t : i ∈ vcpu_ids t -> only i t (booted i t).
Proof.
  intros Hi. unfold booted. destruct (is_initialised (cpu t i)); [apply only_refl|]. unfold boot_vcpu. cbv zeta.
  eapply only_trans; [apply only_set_cpu|]. by apply only_set_down.
Qed.

Lemma booted_cpu i t : present t i -> hf_fresh (vendor (cpu t i)) ->
  hf_fresh (vendor (cpu (booted i t) i)) /\ xsave_area (cpu (booted i t) i) = xsave_area (cpu t i).
Proof.
  intros [Hi Hl] Hf. unfold booted. destruct (is_initialised (cpu t i)); [done|]. unfold boot_vcpu. cbv zeta.
  change (cpu (set_is_down ?a ?b ?x) ?j) with (cpu x j). rewrite cpu_set_eq by done. cbn [vendor xsave_area]. split; [by apply hf_info|done].
Qed.

(** What the source has to be for a CPU to be accepted, and the target. *)
Record movable (now : Z) (v : vcpu V) : Prop := {
  mv_ok : hf_ok (vendor v);
  mv_typed : vcpu_typed v;
  mv_cr0 : bad_cr0 (cpu_bytes now v) = false;
  mv_cr4 : bad_cr4 ft (cpu_bytes now v) = false;
  mv_efer : bad_efer ft (cpu_bytes now v) = false
}.

Definition cpu_rec (i : nat) (v : vcpu V) : hrec := HRec 2 (Z.of_nat i mod 2 ^ 16) (cpu_bytes (clock i) v).

Lemma cpu_step i v t : Z.of_nat i < 2 ^ 16 -> movable (clock i) v -> present t i -> hf_fresh (vendor (cpu t i)) ->
  rec_ok (cpu_rec i v) /\ cpu_accepts ft clock' (cpu_rec i v) t /\
  let t' := cpu_apply ft seg0 clock' (cpu_rec i v) t in
  only i t t' /\ same_guest (clock i) (clock' i) v (cpu t' i) /\ vdown t' !! i = Some (Some false) /\
  (520 <= length (xsave_area (cpu t i)) -> length (xsave_area (cpu t' i)) = length (xsave_area (cpu t i)))%nat.
Proof.
  intros Hi16 [Hok Hty H0 H4 He] Hp Hf. pose proof Hp as [Hi Hl]. destruct (booted_cpu i t Hp Hf) as [Hfb Hxb].
  pose proof (only_booted i t Hi) as Hob. pose proof (on_present _ _ _ Hob i Hp) as [Hib Hlb].
  assert (r_inst (cpu_rec i v) = Z.of_nat i) as Einst by (cbn [cpu_rec r_inst]; apply Z.mod_small; lia).
  assert (Z.to_nat (r_inst (cpu_rec i v)) = i) as Ei by (rewrite Einst; lia).
  pose proof (cpu_bytes_length tsc_mode_pvrdtscp incarnation (clock i) v) as Hlen.
  destruct (load_saved ft tsc_mode_pvrdtscp incarnation seg0 (clock i) (clock' i) v (cpu (booted i t) i) Hok Hty Hfb H0) as (w & Hld & Hsg).
  assert (cpu_loads clock' (cpu_rec i v) t = (0, w)) as Eld.
  { unfold cpu_loads. rewrite Ei. cbn [cpu_rec r_data]. by rewrite cpu_bytes_unfold. }
  split; [unfold rec_ok, rec_len; cbn [cpu_rec r_code r_inst r_data]; rewrite Hlen; pose proof (Z.mod_pos_bound (Z.of_nat i) (2 ^ 16)); lia|].
  split; [unfold cpu_accepts; rewrite Eld, Einst; split_and!; try done; [unfold rec_len; cbn [cpu_rec r_data]; by rewrite Hlen|by apply no_vcpu_false]|]. cbv zeta.
  unfold cpu_apply. rewrite Eld, Ei. cbn [cpu_rec r_data snd]. rewrite cpu_bytes_unfold by done. set (u := load_vcpu _ _ _ w _) in *.
  pose proof (only_set_cpu i u (booted i t)) as Hoc. pose proof (on_present _ _ _ Hoc i ltac:(by split)) as [Hic _].
  split; [eapply only_trans; [exact Hob|]; eapply only_trans; [exact Hoc|by apply only_set_down]|]. change (cpu (set_is_down ?a ?b ?x) ?j) with (cpu x j). rewrite cpu_set_eq by done.
  split; [exact Hsg|]. split.
  - cbn [vdown set_is_down set_down]. apply vcpu_ids_elem in Hic. destruct (vdown (set_cpu i u (booted i t)) !! i) eqn:E; [|by destruct Hic].
    apply list_lookup_insert_eq. by apply lookup_lt_Some in E.
  - intros H520. unfold u. cbn [load_vcpu xsave_area]. rewrite Hxb. destruct (has_xsave ft); [|done].
    assert (length (slice c_fpu_regs (cpu_bytes (clock i) v)) = 512%nat) as H512 by (apply slice_length; unfold inside; rewrite Hlen; cbn; lia).
    rewrite !write_at_length; rewrite ?le_bytes_length, ?write_at_length, ?H512; lia.
Qed.

(** ** All CPUs *)

Lemma cpus_loaded (src : nat -> vcpu V) l : forall t, NoDup l ->
  (forall i, i ∈ l -> Z.of_nat i < 2 ^ 16 /\ movable (clock i) (src i) /\ present t i /\ hf_fresh (vendor (cpu t i))) ->
  let rs := map (fun i => cpu_rec i (src i)) l in
  accepted cpu_devices rs t /\
  let t' := apply_all cpu_devices rs t in
  (forall i, i ∈ l -> same_guest (clock i) (clock' i) (src i) (cpu t' i) /\ vdown t' !! i = Some (Some false)) /\
  (forall i, i ∉ l -> cpu t' i = cpu t i /\ vdown t' !! i = vdown t !! i) /\ (forall i, present t i -> present t' i) /\
  (forall i, 520 <= length (xsave_area (cpu t i)) -> length (xsave_area (cpu t' i)) = length (xsave_area (cpu t i)))%nat.
Proof.
  induction l as [|i l IH]; intros t Hnd Hl; cbn [map accepted apply_all foldl].
  - split; [done|]. cbv zeta. split_and!; try done. intros i Hi. by apply not_elem_of_nil in Hi.
  - apply NoDup_cons in Hnd as [Hni Hnd]. destruct (Hl i ltac:(by left)) as (H16 & Hm & Hp & Hf).
    destruct (cpu_step i (src i) t H16 Hm Hp Hf) as (Hr & Ha & [O1 O2 O3] & Hsg & Hdn & Hxl). set (t1 := cpu_apply _ _ _ _ t) in *.
    assert (apply_rec cpu_devices (cpu_rec i (src i)) t = t1) as Et by reflexivity. rewrite Et. clearbody t1.
    destruct (IH t1 Hnd) as (Hacc & H1 & H2 & H3 & H4).
    { intros j Hj. destruct (Hl j ltac:(by right)) as (? & ? & ? & ?). assert (j <> i) by (by intros ->). split_and!; try done; [by apply O3|by rewrite O1]. }
    split; [split_and!; try done; by exists cpu_device|]. fold (apply_all cpu_devices (map (fun i => cpu_rec i (src i)) l) t1). cbv zeta. set (t' := apply_all _ _ t1) in *. split_and!.
    + intros j [->|Hj]%elem_of_cons; [|by apply H1]. destruct (H2 i Hni) as [-> ->]. done.
    + intros j [Hne Hj]%not_elem_of_cons. destruct (H2 j Hj) as [-> ->]. by rewrite O1, O2.
    + auto.
    + intros j Hj. destruct (decide (j = i)) as [->|Hne]; [rewrite H4; rewrite Hxl; done|]. rewrite H4; by rewrite O1.
Qed.

Definition xsave_rec (i : nat) (v : vcpu V) : hrec := HRec 16 (Z.of_nat i mod 2 ^ 16) (xsave_bytes ft v).

Lemma xsave_step i v t : Z.of_nat i < 2 ^ 16 -> has_xsave ft = true -> 0 <= xfeature_mask ft < 2 ^ 64 -> present t i ->
  rec_ok (xsave_rec i v) /\ xsave_accepts ft (xsave_rec i v) t /\
  let t' := xsave_apply (xsave_rec i v) t in only i t t' /\ vdown t' = vdown t /\ cpu t' i = load_xsave (xsave_bytes ft v) (cpu t i).
Proof.
  intros Hi16 Hx Hm Hp. pose proof Hp as [Hi Hl]. pose proof (xsave_bytes_length ft v) as Hlen.
  assert (r_inst (xsave_rec i v) = Z.of_nat i) as Einst by (cbn [xsave_rec r_inst]; apply Z.mod_small; lia).
  split; [unfold rec_ok, rec_len; cbn [xsave_rec r_code r_inst r_data]; rewrite Hlen; pose proof (Z.mod_pos_bound (Z.of_nat i) (2 ^ 16)); unfold HVM_CPU_XSAVE_SIZE; lia|]. split.
  - unfold xsave_accepts. rewrite Einst. split_and!; try done; [by apply no_vcpu_false|]. cbn [xsave_rec r_data].
    assert (xsave_mask (xsave_bytes ft v) = xfeature_mask ft) as ->.
    { unfold xsave_mask, xsave_bytes. rewrite take_app_length' by (by rewrite le_bytes_length). rewrite le_val_bytes. by apply Z.mod_small. }
    apply Z.land_diag.
  - cbv zeta. unfold xsave_apply. rewrite Einst, Nat2Z.id. split; [apply only_set_cpu|]. split; [done|]. by rewrite cpu_set_eq.
Qed.

Lemma xsaves_loaded (src : nat -> vcpu V) l : forall t, NoDup l -> has_xsave ft = true -> 0 <= xfeature_mask ft < 2 ^ 64 ->
  (forall i, i ∈ l -> Z.of_nat i < 2 ^ 16 /\ present t i) ->
  let rs := map (fun i => xsave_rec i (src i)) l in
  accepted cpu_devices rs t /\
  let t' := apply_all cpu_devices rs t in
  (forall i, i ∈ l -> cpu t' i = load_xsave (xsave_bytes ft (src i)) (cpu t i)) /\ (forall i, i ∉ l -> cpu t' i = cpu t i) /\ vdown t' = vdown t.
Proof.
  induction l as [|i l IH]; intros t Hnd Hx Hm Hl; cbn [map accepted apply_all foldl].
  - split; [done|]. cbv zeta. split_and!; try done. intros i Hi. by apply not_elem_of_nil in Hi.
  - apply NoDup_cons in Hnd as [Hni Hnd]. destruct (Hl i ltac:(by left)) as (H16 & Hp).
    destruct (xsave_step i (src i) t H16 Hx Hm Hp) as (Hr & Ha & [O1 O2 O3] & Hdn & Hc). set (t1 := xsave_apply _ t) in *.
    assert (apply_rec cpu_devices (xsave_rec i (src i)) t = t1) as Et by reflexivity. rewrite Et. clearbody t1.
    destruct (IH t1 Hnd Hx Hm) as (Hacc & H1 & H2 & H3).
    { intros j Hj. destruct (Hl j ltac:(by right)). auto. }
    split; [split_and!; try done; by exists xsave_device|]. fold (apply_all cpu_devices (map (fun i => xsave_rec i (src i)) l) t1). cbv zeta. set (t' := apply_all _ _ t1) in *. split_and!.
    + intros j [->|Hj]%elem_of_cons; [by rewrite H2|]. rewrite H1 by done. rewrite O1; [done|]. by intros ->.
    + intros j [Hne Hj]%not_elem_of_cons. by rewrite H2, O1.
    + congruence.
Qed.

(** The area of XSAVE on the target. *)
Record xsave_typed (v : vcpu V) : Prop := {
  xt_xcr0 : 0 <= xcr0 v < 2 ^ 64; xt_accum : 0 <= xcr0_accum v < 2 ^ 64; xt_area : length (xsave_area v) = xsave_cntxt_size ft
}.
Definition same_xsave (v u : vcpu V) : Prop :=
  xcr0 u = xcr0 v /\ xcr0_accum u = xcr0_accum v /\
  xsave_area u = if fpu_initialised v then xsave_area v else replicate (xsave_cntxt_size ft) 0.

Lemma load_xsave_same v u : xsave_typed v -> length (xsave_area u) = xsave_cntxt_size ft -> same_xsave v (load_xsave (xsave_bytes ft v) u).
Proof.
  intros [H1 H2 H3] Hu. unfold same_xsave, load_xsave, xsave_bytes. cbn [xcr0 xcr0_accum xsave_area].
  assert (forall a b c (l : list Z), drop 24 (le_bytes 8 a ++ le_bytes 8 b ++ le_bytes 8 c ++ l) = l) as E24.
  { intros a b c l. rewrite !app_assoc. by rewrite drop_app_length' by (by rewrite !length_app, !le_bytes_length). }
  split_and!.
  - rewrite drop_app_length', take_app_length' by (by rewrite le_bytes_length). rewrite le_val_bytes. by apply Z.mod_small.
  - rewrite app_assoc, drop_app_length', take_app_length' by (rewrite ?length_app, ?le_bytes_length; done). rewrite le_val_bytes. by apply Z.mod_small.
  - rewrite E24, write_at_all by (destruct (fpu_initialised v); rewrite ?length_resize, ?length_replicate; done).
    destruct (fpu_initialised v); [|done]. apply resize_all_alt. by rewrite H3.
Qed.

Lemma load_xsave_guest now now' bs v u : same_guest now now' v u -> same_guest now now' v (load_xsave bs u).
Proof. by intros []. Qed.

(** ** The records of a guest *)

Lemma cpus_after_xsave ids : forall d i, xsave_bytes ft (cpu (cpus_after ids d) i) = xsave_bytes ft (cpu d i).
Proof.
  induction ids as [|j ids IH]; intros d i; [done|]. cbn [cpus_after]. destruct (is_down d j); [by apply IH|]. rewrite IH.
  destruct (decide (i = j)) as [->|Hne]; [|by rewrite cpu_set_ne]. unfold cpu, set_cpu. rewrite dget_dput.
  destruct (decide (j < length (dget d : list (vcpu V)))%nat); [by rewrite list_lookup_total_insert_eq|]. by rewrite list_insert_ge by lia.
Qed.

Lemma cpu_records d : records_of cpu_devices d =
  map (fun i => cpu_rec i (cpu d i)) (running d (vcpu_ids d)) ++ (if has_xsave ft then map (fun i => xsave_rec i (cpu d i)) (vcpu_ids d) else []).
Proof.
  unfold cpu_devices. cbn [records_of app replicate HvmCpu.cpu_device HvmCpu.xsave_device dv_records dv_after]. rewrite app_nil_r. f_equal.
  - unfold item_recs, cpu_items. by rewrite map_map.
  - destruct (has_xsave ft); [|done]. unfold item_recs, xsave_items. rewrite map_map.
    assert (vcpu_ids (cpus_after (vcpu_ids d) d) = vcpu_ids d) as -> by (unfold vcpu_ids; by rewrite cpus_after_vdown).
    apply map_ext. intros i. cbn [xsave_type t_code]. by rewrite cpus_after_xsave.
Qed.

(** A guest that can move, and a domain that can take it. *)
Record cpus_ok (d t : hdom S) : Prop := {
  co_id i : i ∈ vcpu_ids d -> Z.of_nat i < 2 ^ 16;
  co_movable i : i ∈ vcpu_ids d -> is_down d i = false -> movable (clock i) (cpu d i);
  co_xsave i : has_xsave ft = true -> i ∈ vcpu_ids d -> xsave_typed (cpu d i);
  co_present i : i ∈ vcpu_ids d -> present t i;
  co_fresh i : i ∈ vcpu_ids d -> hf_fresh (vendor (cpu t i));
  co_area i : i ∈ vcpu_ids d -> length (xsave_area (cpu t i)) = xsave_cntxt_size ft
}.

Lemma loaded_base_present tsc t i : present t i -> present (loaded_base tsc t) i.
Proof. intros [Hi Hl]. split; [|done]. rewrite vcpu_ids_elem in *. unfold loaded_base. cbn. rewrite list_lookup_fmap. destruct Hi as [b Hi]. destruct (vdown t !! i) as [[|]|]; by eexists. Qed.

Lemma running_spec d i : i ∈ running d (vcpu_ids d) <-> i ∈ vcpu_ids d /\ is_down d i = false.
Proof. unfold running. rewrite list_elem_of_filter. tauto. Qed.

(** The records are accepted, and what they make of the target. *)
Lemma cpus_taken d t : cpus_ok d t -> (has_xsave ft = true -> 576 <= xsave_cntxt_size ft)%nat -> (0 <= xfeature_mask ft < 2 ^ 64)%Z ->
  let b := loaded_base (tsc_khz d) t in
  accepted cpu_devices (records_of cpu_devices d) b /\
  forall i, i ∈ vcpu_ids d -> let t' := apply_all cpu_devices (records_of cpu_devices d) b in
    (is_down d i = false -> same_guest (clock i) (clock' i) (cpu d i) (cpu t' i)) /\ is_down t' i = is_down d i /\
      (has_xsave ft = true -> same_xsave (cpu d i) (cpu t' i)).
Proof.
  intros [Hid Hmv Hxt Hpr Hfr Har] Hsz Hmask b. rewrite cpu_records. set (l := running d (vcpu_ids d)).
  assert (forall i, i ∈ vcpu_ids d -> present b i) as Hpb by (intros; by apply loaded_base_present, Hpr).
  assert (forall i, i ∈ vcpu_ids d -> vdown b !! i = Some (Some true)) as Hdb.
  { intros i Hi. pose proof (Hpr i Hi) as [Ht _]. rewrite vcpu_ids_elem in Ht. unfold b, loaded_base. cbn. rewrite list_lookup_fmap.
    destruct (vdown t !! i) as [[x|]|]; cbn in *; try done; by destruct Ht. }
  destruct (cpus_loaded (cpu d) l b) as (Hacc & H1 & H2 & H3 & H4); [apply NoDup_filter, vcpu_ids_NoDup| |].
  { intros i [Hi Hdn]%running_spec. split_and!; [by apply Hid|by apply Hmv|by apply Hpb|by apply Hfr]. }
  set (rs := map _ l) in *. remember (apply_all cpu_devices rs b) as t1 eqn:Et1.
  assert (forall i, i ∈ vcpu_ids d -> (is_down d i = false -> same_guest (clock i) (clock' i) (cpu d i) (cpu t1 i)) /\ is_down t1 i = is_down d i) as Hone.
  { intros i Hi. unfold is_down at 2. destruct (is_down d i) eqn:Ed.
    - split; [done|]. destruct (H2 i) as [_ ->]; [intros Hr; apply running_spec in Hr as [_ Hr]; congruence|]. by rewrite Hdb.
    - destruct (H1 i) as [Hs ->]; [by apply running_spec|]. done. }
  destruct (has_xsave ft) eqn:Ex.
  - destruct (xsaves_loaded (cpu d) (vcpu_ids d) t1) as (Hacc2 & G1 & _ & G3); try done; [apply vcpu_ids_NoDup|intros i Hi; split; [by apply Hid|by apply H3, Hpb]|].
    rewrite apply_all_app, <- Et1. split; [apply accepted_app; [done|by rewrite <- Et1]|]. set (t2 := apply_all cpu_devices _ t1) in *. clearbody t2. intros i Hi. cbv zeta.
    rewrite G1 by done. destruct (Hone i Hi) as [O1 O2]. split_and!.
    + intros Hd. by apply load_xsave_guest, O1.
    + unfold is_down. rewrite G3. exact O2.
    + intros _. apply load_xsave_same; [by apply Hxt|]. rewrite H4; [by apply Har|]. change (cpu b i) with (cpu t i). rewrite Har by done. specialize (Hsz eq_refl). lia.
  - rewrite app_nil_r, <- Et1. split; [done|]. intros i Hi. cbv zeta. destruct (Hone i Hi). done.
Qed.

(** Every processor that meets [HvmFuncsLaws] lets the CPUs of a guest survive a
    migration: the CPUs that ran on the source run on the target and are saved
    there as they were on the source, the others stay down. *)
Lemma cpus_migrate xen_changeset cpuid1_eax d t junk hdr :
  is_dying d = false -> is_dying t = false -> length hdr = 24%nat -> 0 <= tsc_khz d < 2 ^ 32 -> (forall n, length (junk n) = Z.to_nat n) ->
  hvm_save_size cpu_table d < 2 ^ 32 -> (has_xsave ft = true -> 576 <= xsave_cntxt_size ft)%nat -> 0 <= xfeature_mask ft < 2 ^ 64 -> cpus_ok d t ->
  exists n bytes d' t',
    gethvmcontext cpu_table xen_changeset cpuid1_eax (Some (hvm_save_size cpu_table d)) (Some junk) true d = Ret (0, n, bytes, d') /\
    sethvmcontext cpu_table (Z.to_nat (hvm_save_size cpu_table d)) hdr (take (Z.to_nat n) bytes) true true t = Ret (0, t') /\
    forall i, i ∈ vcpu_ids d ->
      (is_down d i = false -> same_guest (clock i) (clock' i) (cpu d i) (cpu t' i)) /\ is_down t' i = is_down d i /\
      (has_xsave ft = true -> same_xsave (cpu d i) (cpu t' i)).
Proof.
  intros Hd Ht Hh Hts Hj Hsz Hx Hm Hok. destruct (cpus_taken d t Hok Hx Hm) as [Hacc Hres].
  destruct (context_roundtrip cpu_devices xen_changeset cpuid1_eax cpu_devices_laws ltac:(done) ltac:(done) d t junk hdr Hd Ht Hh Hts Hsz Hj Hacc)
    as (n & bytes & Hg & _ & Hs).
  exists n, bytes. do 2 eexists. split; [exact Hg|]. split; [exact Hs|]. exact Hres.
Qed.

End Migrate.

(** ** On VMX *)

Section OnVmx.
Context (p : Vmx.settings) `{!Inhabited Vmx.vmx}.
#[local] Instance p_funcs : HvmFuncs Vmx.vmx := Vmx.vmx_funcs p.
#[local] Instance p_laws : HvmFuncsLaws Vmx.vmx := Vmx.vmx_laws p.
Context (ft : features) (tsc_mode_pvrdtscp : bool) (incarnation : Z) (seg0 : segment_register).
Context {S : Type} `{!Component S (list (vcpu Vmx.vmx))}.
Context (clock clock' : nat -> Z) (ctxt beyond : list Z) (Hctxt : length ctxt = 1024%nat).
Context (Hxs : Z.of_nat (xsave_cntxt_size ft) < 2 ^ 31).
Abbreviation cpu_table := (cpu_table ft tsc_mode_pvrdtscp incarnation seg0 clock clock' ctxt beyond).

(** [u] at the time [now'] is the CPU that [v] was at the time [now].  One that
    has not used its FPU gets a state of zeroes that counts as used. *)
Record same_vcpu (now now' : Z) (v u : vcpu Vmx.vmx) : Prop := {
  sc_regs r : user_regs u r = if decide (r = eflags) then user_regs v r .| 2 else user_regs v r;
  sc_dr k : k ∈ debugregs -> debugreg u k = debugreg v k;
  sc_aux : msr_tsc_aux u = hvm_msr_tsc_aux tsc_mode_pvrdtscp incarnation v;
  sc_fpu : fpu_initialised v = true -> fpu_ctxt u = fpu_ctxt v;
  sc_fpu_unused : fpu_initialised v = false -> fpu_ctxt u = replicate 512 0;
  sc_fpu_flag : fpu_initialised u = true;
  sc_vmx : Vmx.same_vmx now now' (vendor v) (vendor u)
}.

Lemma same_guest_vcpu now now' v u : Vmx.vmx_ok p (vendor v) -> same_guest tsc_mode_pvrdtscp incarnation now now' v u -> same_vcpu now now' v u.
Proof.
  intros Hok [H1 H2 [H3 H3'] H4 H5 H6 H7]. split; try done; [by intros E; rewrite E in H3'|by intros E; rewrite E in H3'|].
  by apply (Vmx.saved_same p now now' (vendor v) (vendor u) Hok H7).
Qed.

(** C13. The CPUs of an HVM guest on VMX survive a migration.  The hypervisor of
    the source saves them in a buffer of the size that it asked for; what it
    wrote, loaded into a domain with as many new CPUs, is accepted when the
    saved CR0, CR4 and EFER are values that the target takes.  The CPUs that
    ran on the source run on the target, and the others stay down.  A CPU that
    ran has the general registers (with the bit of EFLAGS that is always set),
    debug registers, control registers, model-specific registers and segments
    of the source, the event that waits to be injected, and a time stamp
    counter that goes on from the saved value, and no assertion of vmx.c fails.
    The floating point state is that of the source if the CPU had used it, and
    zeroes otherwise.  With XSAVE both masks are those of the source, and the
    area is that of the source if the CPU had used its floating point unit, and
    zeroes otherwise. *)
Theorem vmx_cpus_migrate xen_changeset cpuid1_eax (d t : hdom S) junk hdr :
  is_dying d = false -> is_dying t = false -> length hdr = 24%nat -> 0 <= tsc_khz d < 2 ^ 32 -> (forall n, length (junk n) = Z.to_nat n) ->
  hvm_save_size cpu_table d < 2 ^ 32 -> (has_xsave ft = true -> 576 <= xsave_cntxt_size ft)%nat -> 0 <= xfeature_mask ft < 2 ^ 64 ->
  cpus_ok ft tsc_mode_pvrdtscp incarnation clock d t ->
  exists n bytes d' t',
    gethvmcontext cpu_table xen_changeset cpuid1_eax (Some (hvm_save_size cpu_table d)) (Some junk) true d = Ret (0, n, bytes, d') /\
    sethvmcontext cpu_table (Z.to_nat (hvm_save_size cpu_table d)) hdr (take (Z.to_nat n) bytes) true true t = Ret (0, t') /\
    forall i, i ∈ vcpu_ids d ->
      is_down t' i = is_down d i /\
      (is_down d i = false -> same_vcpu (clock i) (clock' i) (cpu d i) (cpu t' i)) /\
      (has_xsave ft = true -> same_xsave ft (cpu d i) (cpu t' i)).
Proof.
  intros Hd Ht Hh Hts Hj Hsz Hx Hm Hok.
  destruct (cpus_migrate ft tsc_mode_pvrdtscp incarnation seg0 clock clock' ctxt beyond Hctxt Hxs xen_changeset cpuid1_eax d t junk hdr Hd Ht Hh Hts Hj Hsz Hx Hm Hok)
    as (n & bytes & d' & t' & Hg & Hs & Hr).
  exists n, bytes, d', t'. split; [exact Hg|]. split; [exact Hs|]. intros i Hi. destruct (Hr i Hi) as (H1 & H2 & H3). split; [done|]. split; [|done].
  intros Hn. apply same_guest_vcpu; [|by apply H1]. exact (mv_ok _ _ _ _ _ (co_movable _ _ _ _ _ _ Hok i Hi Hn)).
Qed.

End OnVmx.

(** ** Short records of XSAVE *)

Section Short.
Context {V : Type} `{!HvmFuncs V, !Inhabited V} {S : Type} `{!Component S (list (vcpu V))} (ft : features) (beyond : list Z).

(** What is read behind a record that is not long enough. *)
Lemma mem_beyond pre r post o n :
  (8 + o <= length (rec_bytes r))%nat -> (length (r_data r) <= o + n)%nat ->
  let m := pre ++ rec_bytes r ++ post in
  mem_at beyond (Hctx (Z.of_nat (length pre)) (Z.of_nat (length m)) m) (Z.of_nat (length pre) + 8 + Z.of_nat o) n =
    drop o (r_data r) ++ take (o + n - length (r_data r)) (post ++ beyond).
Proof.
  intros H1 H2. rewrite rec_bytes_length in H1. cbv zeta. unfold mem_at. cbn [hdata]. replace (Z.to_nat _) with (length pre + (8 + o))%nat by lia. rewrite <- !app_assoc, drop_app_add.
  unfold rec_bytes. rewrite <- app_assoc. replace (8 + o)%nat with (length (hvm_save_descriptor (r_code r) (r_inst r) (rec_len r)) + o)%nat by (by rewrite descriptor_length).
  rewrite drop_app_add, drop_app_le by lia. rewrite firstn_app, length_drop, take_ge by (rewrite length_drop; lia). f_equal. f_equal. lia.
Qed.

(** C31. A record of the XSAVE area that is shorter than the area is not
    rejected.  Loading it returns success, and copies the size of the area all
    the same: the rest of the guest's area comes from the records that follow
    and then from the memory behind the buffer of the hypervisor, where the
    guest can read it. *)
Theorem xsave_short_record_leaks (d : hdom S) pre r post i :
  let m := pre ++ rec_bytes r ++ post in
  Z.of_nat (length m) < 2 ^ 32 -> rec_ok r -> r_code r = CPU_XSAVE_CODE -> r_inst r = Z.of_nat i -> present d i -> has_xsave ft = true ->
  (24 <= length (r_data r) < 24 + xsave_cntxt_size ft)%nat -> xsave_mask (r_data r) .& xfeature_mask ft = xsave_mask (r_data r) ->
  length (xsave_area (cpu d i)) = xsave_cntxt_size ft -> (xsave_cntxt_size ft <= length beyond)%nat ->
  exists h' d',
    hvm_load_cpu_xsave_states ft beyond d (Hctx (Z.of_nat (length pre)) (Z.of_nat (length m)) m) = Ret (0, h', d') /\
    cur h' = Z.of_nat (length pre + length (rec_bytes r)) /\
    xsave_area (cpu d' i) = drop 24 (r_data r) ++ take (24 + xsave_cntxt_size ft - length (r_data r)) (post ++ beyond).
Proof.
  intros m Hm Hr Hc Hi Hp Hx Hl Hmk Ha Hb. pose proof (rec_bytes_length r) as Hrl. assert (length m = length pre + (length (rec_bytes r) + length post))%nat as Hml by (unfold m; by rewrite !length_app).
  set (h := Hctx _ _ m). assert (hok h) as Hh by (unfold hok, h; cbn; lia).
  assert (next h (rec_bytes r)) as Hn.
  { split; [unfold fits, h; cbn; lia|]. unfold bytes_at, h, m. cbn. by rewrite Nat2Z.id, drop_app_length, take_app_length. }
  destruct (next_descriptor h r Hh Hn Hr) as (Et & Ei & El). pose proof Hp as [Hiv Hil]. unfold hvm_load_cpu_xsave_states, hvm_load_instance. cbv zeta.
  rewrite Ei, Hi, Et, El, Hc, Hx, no_vcpu_false, room_ok by done. cbn [negb]. change (CPU_XSAVE_CODE =? CPU_XSAVE_CODE) with true. cbn [negb orb].
  unfold rec_len, sizeof_desc, HVM_CPU_XSAVE_SIZE. change (cur h) with (Z.of_nat (length pre)). change (hsize h) with (Z.of_nat (length m)).
  destruct (Z.gtb_spec 8 (Z.of_nat (length m) - Z.of_nat (length pre))); [lia|].
  destruct (Z.gtb_spec (Z.of_nat (length (r_data r)) + 8) (Z.of_nat (length m) - Z.of_nat (length pre))); [lia|].
  destruct (Z.gtb_spec (Z.of_nat (length (r_data r))) (3 * 8 + Z.of_nat (xsave_cntxt_size ft))); [lia|].
  rewrite (u32_small (_ + 8)) by lia. rewrite (u32_small (_ + _ + _)) by lia. pose proof (mem_at_record beyond h r 0 8 Hh Hn ltac:(lia)) as M0. rewrite Z.add_0_r, drop_0 in M0.
  change (cur h) with (Z.of_nat (length pre)) in M0. rewrite M0. fold (xsave_mask (r_data r)). rewrite Hmk, Z.eqb_refl. cbn [negb]. do 2 eexists. split; [reflexivity|].
  split; [cbn [cur]; lia|]. rewrite Nat2Z.id, cpu_set_eq by done. cbn [xsave_area].
  pose proof (mem_beyond pre r post 24 (xsave_cntxt_size ft) ltac:(lia) ltac:(lia)) as M. cbv zeta in M. change (Z.of_nat 24) with 24 in M. unfold h, m in *. rewrite M.
  apply write_at_all. rewrite Ha, length_app, length_drop, length_take, length_app. lia.
Qed.

End Short.

(** ** A guest with two CPUs on VMX *)

#[local] Program Instance whole (T : Type) : Component T T := {| sget := id; sput t _ := t |}.
Solve All Obligations with done.

Definition host : Vmx.settings := Vmx.Settings false true 0 false 0x7ff true false (fun _ => true).
Definition host_features : features := Features true true false false false false true 576 7.
#[local] Instance host_funcs : HvmFuncs Vmx.vmx := Vmx.vmx_funcs host.
#[local] Instance host_laws : HvmFuncsLaws Vmx.vmx := Vmx.vmx_laws host.
#[local] Instance vmx_inhabited : Inhabited Vmx.vmx :=
  populate (Vmx.VmxState (fun _ => 0) 0 0 0 0 0 0 0 0 0 0 0 0 0 0 0 0 false false 0 (fun _ => Seg 0 0 0 0) false).

(** Long mode, with an interrupt that waits to be injected. *)
Definition running_vmcs : Vmx.vmcs := fun f =>
  match f with
  | Vmx.GUEST_SELECTOR _ => 0x18
  | Vmx.GUEST_LIMIT x86_seg_tr => 0x67
  | Vmx.GUEST_LIMIT _ => 0xffffffff
  | Vmx.GUEST_BASE x86_seg_tr => 0x7000
  | Vmx.GUEST_AR_BYTES x86_seg_cs => 0xa09b
  | Vmx.GUEST_AR_BYTES x86_seg_tr => 0x8b
  | Vmx.GUEST_AR_BYTES _ => 0xc093
  | Vmx.VM_ENTRY_INTR_INFO => 0x80000030
  | _ => 0
  end.
Definition running_vmx : Vmx.vmx :=
  Vmx.VmxState running_vmcs 0x80000011 0xdead 0x1000 0x20 0x80000031 0x2020 0x501 0 0 0 0 0 0 12345 0 0 false false 0 (fun _ => Seg 0 0 0 0) false.
Definition fresh_vmx : Vmx.vmx := inhabitant.

Definition some_vcpu (w : Vmx.vmx) : vcpu Vmx.vmx :=
  Vcpu true true (replicate 512 7) (fun r => if decide (r = eip) then 0x401000 else 2) (fun _ => 0) 0 0 7 7 (replicate 576 9) w.
Definition new_vcpu : vcpu Vmx.vmx := Vcpu false false (replicate 512 0) (fun _ => 0) (fun _ => 0) 0 0 0 0 (replicate 576 0) fresh_vmx.
Definition guest (down : list (option bool)) (vs : list (vcpu Vmx.vmx)) : hdom (list (vcpu Vmx.vmx)) := HDom false 2000000 false false false down [] vs.

Lemma running_vmx_ok : Vmx.vmx_ok host running_vmx.
Proof.
  split; [done| |].
  - split; cbn; try lia; done.
  - intros s. split; destruct s; cbn; try lia; try done; intros; split; intros; done.
Qed.

Lemma some_cpus_ok : cpus_ok host_features false 0 (fun _ => 1000)
  (guest [Some false; Some true] [some_vcpu running_vmx; some_vcpu fresh_vmx]) (guest [Some true; Some true] [new_vcpu; new_vcpu]).
Proof.
  assert (forall i, i ∈ [0; 1]%nat -> i = 0%nat \/ i = 1%nat) as E by (intros i; rewrite !elem_of_cons, elem_of_nil; tauto).
  split; change (vcpu_ids _) with [0; 1]%nat; intros i.
  - intros [->| ->]%E; done.
  - intros [->| ->]%E Hd; [|done]. split; [exact running_vmx_ok|split; [done|intros []; vm_compute; split; congruence|intros; vm_compute; split; congruence]|..]; vm_compute; reflexivity.
  - intros _ [->| ->]%E; split; try done; vm_compute; split; congruence.
  - intros [->| ->]%E; (split; [vm_compute; by repeat constructor|cbn; lia]).
  - intros [->| ->]%E; vm_compute; repeat split; congruence.
  - intros [->| ->]%E; reflexivity.
Qed.

Lemma vmx_cpus_migrate_witness :
  let tab := cpu_table host_features false 0 (Seg 0 0 0 0) (fun _ => 1000) (fun _ => 5) (replicate 1024 0) [] in
  let d := guest [Some false; Some true] [some_vcpu running_vmx; some_vcpu fresh_vmx] in let t := guest [Some true; Some true] [new_vcpu; new_vcpu] in
  exists n bytes d' t',
    gethvmcontext tab [49; 58; 50] 0x206d7 (Some (hvm_save_size tab d)) (Some (fun n => replicate (Z.to_nat n) 0)) true d = Ret (0, n, bytes, d') /\
    sethvmcontext tab (Z.to_nat (hvm_save_size tab d)) (replicate 24 0) (take (Z.to_nat n) bytes) true true t = Ret (0, t') /\
    user_regs (cpu t' 0) eip = 0x401000 /\ Vmx.guest_cr0 (vendor (cpu t' 0)) = 0x80000011 /\ Vmx.cs (vendor (cpu t' 0)) Vmx.VM_ENTRY_INTR_INFO = 0x80000030 /\ fpu_ctxt (cpu t' 0) = replicate 512 7 /\ xcr0 (cpu t' 0) = 7 /\ is_down t' 0 = false /\ is_down t' 1 = true.
Proof.
  intros tab d t.
  destruct (vmx_cpus_migrate host host_features false 0 (Seg 0 0 0 0) (fun _ => 1000) (fun _ => 5) (replicate 1024 0) [] (length_replicate 1024 0) eq_refl
    [49; 58; 50] 0x206d7 d t (fun n => replicate (Z.to_nat n) 0) (replicate 24 0)) as (n & bytes & d' & t' & Hg & Hs & Ht);
    [reflexivity|reflexivity|reflexivity|cbn; lia|intros; apply length_replicate|vm_compute; reflexivity|cbn; lia|cbn; lia|exact some_cpus_ok|].
  exists n, bytes, d', t'. split; [exact Hg|]. split; [exact Hs|].
  destruct (Ht 0%nat) as (D0 & S0 & X0); [by left|]. destruct (Ht 1%nat) as (D1 & _); [by right; left|].
  destruct (S0 eq_refl) as [R0 _ _ F0 _ _ [(C0 & _) _ _ _ _ E0 _ _ _]]. destruct (E0 eq_refl) as [E1 _]. destruct (X0 eq_refl) as (X & _). clear Hg Hs Ht S0 X0. rewrite (R0 eip), (F0 eq_refl), C0, E1, D0, D1, X. repeat split.
Defined.

Lemma xsave_short_record_leaks_witness :
  exists h' d',
    hvm_load_cpu_xsave_states host_features (replicate 600 66) (guest [Some true] [new_vcpu])
      (Hctx 0 32 (rec_bytes (HRec 16 0 (replicate 24 0)))) = Ret (0, h', d') /\ xsave_area (cpu d' 0) = replicate 576 66.
Proof.
  destruct (xsave_short_record_leaks host_features (replicate 600 66) (guest [Some true] [new_vcpu]) [] (HRec 16 0 (replicate 24 0)) [] 0)
    as (h' & d' & Hl & _ & Hx); [vm_compute; reflexivity|unfold rec_ok, rec_len; cbn; lia|reflexivity|reflexivity|split; [vm_compute; by repeat constructor|cbn; lia]|reflexivity|cbn; lia|reflexivity|reflexivity|cbn; lia|].
  exists h', d'. split; [exact Hl|]. rewrite Hx. reflexivity.
Defined.

End CpuMigrate.
