(* ===== verification/HvmIrq.v ===== *)
(** The virtual interrupt lines of an HVM guest.

    Models xen/arch/x86/hvm/irq.c and struct [hvm_irq]
    (xen/include/asm-x86/hvm/irq.h): the wires of PCI and ISA devices, the
    PCI-ISA router, the callback of the paravirtual drivers, and the counts of
    asserted wires that every operation maintains; and how the lines are saved
    and the counts rebuilt when a guest is migrated. *)

From S2P Require Import Prelude HvmContext HvmHandler.

Module HvmIrq.
Import HvmContext HvmHandler.

(** ** State *)

Definition VIOAPIC_NUM_PINS : Z := 48.
Definition NR_LINK : Z := 4.

Inductive via_kind := HVMIRQ_callback_none | HVMIRQ_callback_gsi | HVMIRQ_callback_pci_intx | HVMIRQ_callback_vector.

#[global] Instance via_kind_eq_dec : EqDecision via_kind.
Proof. solve_decision. Defined.

(** Pass-through state that the router updates. *)
Record dpci := Dpci { isairq_map : Z; link_cnt : list Z }.

(** [pci_intx] and [isa_irq] are bitmaps, [pci_link] the bytes of the route
    with their padding, [callback_via] the 32 bits of the union. *)
Record hvm_irq := HvmIrq {
  pci_intx : Z; isa_irq : Z; pci_link : list Z;
  callback_via_asserted : bool; callback_via_type : via_kind; callback_via : Z;
  pci_link_assert_count : list Z; gsi_assert_count : list Z;
  irq_dpci : option dpci
}.

(** What an operation tells the interrupt controllers, or the guest. *)
Inductive event := VioapicPositive (gsi : Z) | GuestPirq (pirq : Z) | VpicPositive (irq : Z) | VpicNegative (irq : Z).

Definition hvm_pci_intx_gsi (device intx : Z) : Z := (((device .<< 2) + (device .>> 3) + intx) .& 31) + 16.
Definition hvm_pci_intx_link (device intx : Z) : Z := (device + intx) .& 3.
Definition hvm_isa_irq_to_gsi (irq : Z) : Z := if irq =? 0 then 2 else irq.

Definition set_bit (m : Z) (k : Z) : Z := m .| (1 .<< k).
Definition clear_bit (m : Z) (k : Z) : Z := Z.ldiff m (1 .<< k).

(** An array of [u8]. *)
Definition count (t : list Z) (i : Z) : Z := t !!! Z.to_nat i.
(** A write outside a table corrupts it: nothing is left of it. *)
Definition tset (t : list Z) (i v : Z) : list Z := if (0 <=? i) && (i <? Z.of_nat (length t)) then <[Z.to_nat i := v]> t else [].
Definition tinc (t : list Z) (i : Z) : list Z := tset t i ((count t i + 1) mod 256).
Definition tdec (t : list Z) (i : Z) : list Z := tset t i ((count t i - 1) mod 256).

Definition with_pci (s : hvm_irq) (m : Z) : hvm_irq :=
  HvmIrq m (isa_irq s) (pci_link s) (callback_via_asserted s) (callback_via_type s) (callback_via s)
         (pci_link_assert_count s) (gsi_assert_count s) (irq_dpci s).
Definition with_isa (s : hvm_irq) (m : Z) : hvm_irq :=
  HvmIrq (pci_intx s) m (pci_link s) (callback_via_asserted s) (callback_via_type s) (callback_via s)
         (pci_link_assert_count s) (gsi_assert_count s) (irq_dpci s).
Definition with_link (s : hvm_irq) (l : list Z) : hvm_irq :=
  HvmIrq (pci_intx s) (isa_irq s) l (callback_via_asserted s) (callback_via_type s) (callback_via s)
         (pci_link_assert_count s) (gsi_assert_count s) (irq_dpci s).
Definition with_via (s : hvm_irq) (a : bool) (k : via_kind) (v : Z) : hvm_irq :=
  HvmIrq (pci_intx s) (isa_irq s) (pci_link s) a k v (pci_link_assert_count s) (gsi_assert_count s) (irq_dpci s).
Definition with_links (s : hvm_irq) (t : list Z) : hvm_irq :=
  HvmIrq (pci_intx s) (isa_irq s) (pci_link s) (callback_via_asserted s) (callback_via_type s) (callback_via s)
         t (gsi_assert_count s) (irq_dpci s).
Definition with_gsis (s : hvm_irq) (t : list Z) : hvm_irq :=
  HvmIrq (pci_intx s) (isa_irq s) (pci_link s) (callback_via_asserted s) (callback_via_type s) (callback_via s)
         (pci_link_assert_count s) t (irq_dpci s).
Definition with_dpci (s : hvm_irq) (p : option dpci) : hvm_irq :=
  HvmIrq (pci_intx s) (isa_irq s) (pci_link s) (callback_via_asserted s) (callback_via_type s) (callback_via s)
         (pci_link_assert_count s) (gsi_assert_count s) p.

Definition via_dev (s : hvm_irq) : Z := callback_via s mod 256.
Definition via_intx (s : hvm_irq) : Z := (callback_via s / 256) mod 256.

(** ** Operations *)

Section Operations.
(** The physical interrupt that the guest has mapped for a GSI, when it takes
    it as an event. *)
Context (use_pirq : Z -> option Z).

Definition assert_gsi (gsi : Z) : list event :=
  match use_pirq gsi with Some pirq => [GuestPirq pirq] | None => [VioapicPositive gsi] end.
Definition assert_irq (gsi pic_irq : Z) : list event := assert_gsi gsi ++ [VpicPositive pic_irq].
Definition deassert_irq (irq : Z) : list event :=
  match use_pirq irq with Some _ => [] | None => [VpicNegative irq] end.

Definition __hvm_pci_intx_assert (device intx : Z) (s : hvm_irq) : hvm_irq * list event :=
  let k := device * 4 + intx in
  if Z.testbit (pci_intx s) k then (s, [])
  else
    let s := with_pci s (set_bit (pci_intx s) k) in
    let gsi := hvm_pci_intx_gsi device intx in
    let ev1 := if count (gsi_assert_count s) gsi =? 0 then assert_gsi gsi else [] in
    let s := with_gsis s (tinc (gsi_assert_count s) gsi) in
    let link := hvm_pci_intx_link device intx in
    let isa := count (pci_link s) link in
    let first := count (pci_link_assert_count s) link =? 0 in
    let s := with_links s (tinc (pci_link_assert_count s) link) in
    if first && truthy isa then
      let ev2 := if count (gsi_assert_count s) isa =? 0 then assert_irq isa isa else [] in
      (with_gsis s (tinc (gsi_assert_count s) isa), ev1 ++ ev2)
    else (s, ev1).

Definition __hvm_pci_intx_deassert (device intx : Z) (s : hvm_irq) : hvm_irq * list event :=
  let k := device * 4 + intx in
  if negb (Z.testbit (pci_intx s) k) then (s, [])
  else
    let s := with_pci s (clear_bit (pci_intx s) k) in
    let gsi := hvm_pci_intx_gsi device intx in
    let s := with_gsis s (tdec (gsi_assert_count s) gsi) in
    let link := hvm_pci_intx_link device intx in
    let isa := count (pci_link s) link in
    let s := with_links s (tdec (pci_link_assert_count s) link) in
    if (count (pci_link_assert_count s) link =? 0) && truthy isa then
      let s := with_gsis s (tdec (gsi_assert_count s) isa) in
      (s, if count (gsi_assert_count s) isa =? 0 then deassert_irq isa else [])
    else (s, []).

Definition hvm_isa_irq_assert (irq : Z) (s : hvm_irq) : hvm_irq * list event :=
  let gsi := hvm_isa_irq_to_gsi irq in
  if Z.testbit (isa_irq s) irq then (s, [])
  else
    let s := with_isa s (set_bit (isa_irq s) irq) in
    (with_gsis s (tinc (gsi_assert_count s) gsi), if count (gsi_assert_count s) gsi =? 0 then assert_irq gsi irq else []).

Definition hvm_isa_irq_deassert (irq : Z) (s : hvm_irq) : hvm_irq * list event :=
  let gsi := hvm_isa_irq_to_gsi irq in
  if negb (Z.testbit (isa_irq s) irq) then (s, [])
  else
    let s := with_isa s (clear_bit (isa_irq s) irq) in
    let s := with_gsis s (tdec (gsi_assert_count s) gsi) in
    (s, if count (gsi_assert_count s) gsi =? 0 then deassert_irq irq else []).

(** [pending] is the guest's [evtchn_upcall_pending]. *)
Definition hvm_set_callback_irq_level (pending : bool) (s : hvm_irq) : hvm_irq * list event :=
  if bool_decide (callback_via_asserted s = pending) then (s, [])
  else
    let s := with_via s pending (callback_via_type s) (callback_via s) in
    match callback_via_type s with
    | HVMIRQ_callback_gsi =>
        let gsi := callback_via s in
        if pending then
          (with_gsis s (tinc (gsi_assert_count s) gsi),
           if count (gsi_assert_count s) gsi =? 0
           then VioapicPositive gsi :: (if gsi <=? 15 then [VpicPositive gsi] else []) else [])
        else
          let s := with_gsis s (tdec (gsi_assert_count s) gsi) in
          (s, if (count (gsi_assert_count s) gsi =? 0) && (gsi <=? 15) then [VpicNegative gsi] else [])
    | HVMIRQ_callback_pci_intx =>
        if pending then __hvm_pci_intx_assert (via_dev s) (via_intx s) s
        else __hvm_pci_intx_deassert (via_dev s) (via_intx s) s
    | _ => (s, [])
    end.

(** [pending] as before, for the first CPU. *)
Definition hvm_maybe_deassert_evtchn_irq (pending : bool) (s : hvm_irq) : hvm_irq * list event :=
  if callback_via_asserted s && negb pending then hvm_set_callback_irq_level pending s else (s, []).

(** What [hvm_assert_evtchn_irq] does for a CPU: defer to a tasklet, which
    calls it again, kick the CPU, or raise the callback. *)
Inductive evtchn_action := Deferred | Kicked | Raised.
Definition hvm_assert_evtchn_irq (in_irq pv_evtchn : bool) (vcpu_id : Z) (pending : bool) (s : hvm_irq) : evtchn_action * (hvm_irq * list event) :=
  if in_irq then (Deferred, (s, []))
  else if pv_evtchn then (Kicked, (s, []))
  else if vcpu_id =? 0 then (Raised, hvm_set_callback_irq_level pending s) else (Raised, (s, [])).

(** The fix-up of the pass-through map. *)
Definition dpci_fixup (old_isa_irq : Z) (s : hvm_irq) : hvm_irq :=
  match irq_dpci s with
  | None => s
  | Some p =>
      let m := if truthy old_isa_irq then clear_bit (isairq_map p) old_isa_irq else isairq_map p in
      let m := foldl (fun m i => if truthy (count (link_cnt p) i) && truthy (count (pci_link s) i)
                                 then set_bit m (count (pci_link s) i) else m) m (seqZ 0 NR_LINK) in
      with_dpci s (Some (Dpci m (link_cnt p)))
  end.

Definition hvm_set_pci_link_route (link isa : Z) (s : hvm_irq) : hvm_irq * list event :=
  let old_isa_irq := count (pci_link s) link in
  if old_isa_irq =? isa then (s, [])
  else
    let s := dpci_fixup old_isa_irq (with_link s (tset (pci_link s) link isa)) in
    if count (pci_link_assert_count s) link =? 0 then (s, [])
    else
      let '(s, ev1) :=
        if truthy old_isa_irq then
          let s := with_gsis s (tdec (gsi_assert_count s) old_isa_irq) in
          (s, if count (gsi_assert_count s) old_isa_irq =? 0 then [VpicNegative old_isa_irq] else [])
        else (s, []) in
      if truthy isa then
        (with_gsis s (tinc (gsi_assert_count s) isa),
         ev1 ++ (if count (gsi_assert_count s) isa =? 0 then [VioapicPositive isa; VpicPositive isa] else []))
      else (s, ev1).

(** The type of a callback, from bits 56 to 63 of the parameter. *)
Definition via_type_of (via : Z) : via_kind :=
  let t := ((via .>> 56) mod 256 + 1) mod 256 in
  if t =? 1 then (if via =? 0 then HVMIRQ_callback_none else HVMIRQ_callback_gsi)
  else if t =? 2 then HVMIRQ_callback_pci_intx
  else if t =? 3 then HVMIRQ_callback_vector
  else HVMIRQ_callback_none.

(** "Tear down old callback via." *)
Definition tear_down_via (s : hvm_irq) : hvm_irq * list event :=
  if callback_via_asserted s then
    match callback_via_type s with
    | HVMIRQ_callback_gsi =>
        let gsi := callback_via s in
        let s := with_gsis s (tdec (gsi_assert_count s) gsi) in
        (s, if (count (gsi_assert_count s) gsi =? 0) && (gsi <=? 15) then [VpicNegative gsi] else [])
    | HVMIRQ_callback_pci_intx => __hvm_pci_intx_deassert (via_dev s) (via_intx s) s
    | _ => (s, [])
    end
  else (s, []).

Definition hvm_set_callback_via (via : Z) (s : hvm_irq) : hvm_irq * list event :=
  let '(s, ev) := tear_down_via s in
  match via_type_of via with
  | HVMIRQ_callback_gsi =>
      let gsi := via mod 256 in
      if (gsi =? 0) || (gsi >=? VIOAPIC_NUM_PINS) then (with_via s (callback_via_asserted s) HVMIRQ_callback_none gsi, ev)
      else
        let s := with_via s (callback_via_asserted s) HVMIRQ_callback_gsi gsi in
        if callback_via_asserted s then
          (with_gsis s (tinc (gsi_assert_count s) gsi),
           ev ++ (if count (gsi_assert_count s) gsi =? 0
                  then VioapicPositive gsi :: (if gsi <=? 15 then [VpicPositive gsi] else []) else []))
        else (s, ev)
  | HVMIRQ_callback_pci_intx =>
      let pdev := ((via .>> 11) mod 256) .& 31 in
      let pintx := (via mod 256) .& 3 in
      let s := with_via s (callback_via_asserted s) HVMIRQ_callback_pci_intx
                 (callback_via s - callback_via s mod 65536 + pdev + 256 * pintx) in
      if callback_via_asserted s then
        let '(s, ev2) := __hvm_pci_intx_assert pdev pintx s in (s, ev ++ ev2)
      else (s, ev)
  | HVMIRQ_callback_vector => (with_via s (callback_via_asserted s) HVMIRQ_callback_vector (via mod 256), ev)
  | HVMIRQ_callback_none => (with_via s (callback_via_asserted s) HVMIRQ_callback_none (callback_via s), ev)
  end.

End Operations.

(** ** Rebuilding the counts from loaded lines *)

Definition zero_counts (s : hvm_irq) : hvm_irq :=
  with_gsis (with_links s (replicate (Z.to_nat NR_LINK) 0)) (replicate (Z.to_nat VIOAPIC_NUM_PINS) 0).

Definition recount_pci (s : hvm_irq) : hvm_irq :=
  foldl (fun s device => foldl (fun s intx =>
    if Z.testbit (pci_intx s) (device * 4 + intx) then
      let s := with_gsis s (tinc (gsi_assert_count s) (hvm_pci_intx_gsi device intx)) in
      with_links s (tinc (pci_link_assert_count s) (hvm_pci_intx_link device intx))
    else s) s (seqZ 0 4)) s (seqZ 0 32).

Definition recount_isa (s : hvm_irq) : hvm_irq :=
  foldl (fun s irq =>
    if Z.testbit (isa_irq s) irq then with_gsis s (tinc (gsi_assert_count s) (hvm_isa_irq_to_gsi irq)) else s) s (seqZ 0 16).

Definition recount_link (s : hvm_irq) : hvm_irq :=
  foldl (fun s link =>
    if truthy (count (pci_link_assert_count s) link) && truthy (count (pci_link s) link)
    then with_gsis s (tinc (gsi_assert_count s) (count (pci_link s) link)) else s) s (seqZ 0 4).

Definition routes_valid (s : hvm_irq) : bool := forallb (fun link => count (pci_link s) link <=? 15) (seqZ 0 4).

(** ** Counting wires *)

Definition cnt (P : Z -> bool) (n : Z) : Z := Z.of_nat (length (filter (fun k => P k = true) (seqZ 0 n))).

Lemma cnt_range P n : 0 <= n -> 0 <= cnt P n <= n.
Proof.
  intros Hn. unfold cnt. pose proof (length_filter (fun k => P k = true) (seqZ 0 n)) as H. rewrite length_seqZ in H. lia.
Qed.

Lemma cnt_ext P Q n : (forall k, 0 <= k < n -> P k = Q k) -> cnt P n = cnt Q n.
Proof.
  intros H. unfold cnt. f_equal. f_equal. assert (Forall (fun k => P k = Q k) (seqZ 0 n)) as Hf.
  { apply Forall_forall. intros k Hk%elem_of_seqZ. apply H. lia. }
  induction Hf as [|k l Hk _ IH]; [done|]. by rewrite !filter_cons, IH, Hk.
Qed.

(** Changing the predicate at one place. *)
Lemma cnt_change P Q n k :
  0 <= k < n -> (forall j, j <> k -> P j = Q j) -> cnt Q n = cnt P n + Z.b2z (Q k) - Z.b2z (P k).
Proof.
  intros Hk H. unfold cnt. assert (k ∈ seqZ 0 n) as Hin by (apply elem_of_seqZ; lia).
  pose proof (NoDup_seqZ 0 n) as Hnd. revert Hin Hnd. generalize (seqZ 0 n). intros l Hin Hnd.
  induction l as [|x l IH]; [by apply not_elem_of_nil in Hin|].
  apply NoDup_cons in Hnd as [Hx Hnd]. rewrite !filter_cons. apply elem_of_cons in Hin as [<-|Hin].
  - assert (filter (fun j => P j = true) l = filter (fun j => Q j = true) l) as ->.
    { clear IH Hnd. induction l as [|y l IHl]; [done|]. apply not_elem_of_cons in Hx as [Hy Hx].
      rewrite !filter_cons, (H y), IHl by done. done. }
    destruct (P k), (Q k); repeat case_decide; try done; cbn [length Z.b2z]; lia.
  - assert (x <> k) as Hne by (intros ->; done). rewrite (H x Hne). specialize (IH Hin Hnd).
    destruct (Q x); case_decide; try done; cbn [length]; lia.
Qed.

(** The wire numbers of a PCI line. *)
Definition kgsi (k : Z) : Z := hvm_pci_intx_gsi (k / 4) (k mod 4).
Definition klink (k : Z) : Z := hvm_pci_intx_link (k / 4) (k mod 4).

Definition route (s : hvm_irq) (l : Z) : Z := count (pci_link s) l.

(** Reference: how many wires assert a link and a GSI. *)
Definition link_active (m : Z) (l : Z) : Z := cnt (fun k => Z.testbit m k && (klink k =? l)) 128.
Definition pci_wires (m : Z) (g : Z) : Z := cnt (fun k => Z.testbit m k && (kgsi k =? g)) 128.
Definition isa_wires (m : Z) (g : Z) : Z := cnt (fun i => Z.testbit m i && (hvm_isa_irq_to_gsi i =? g)) 16.
Definition link_wires (m : Z) (rt : Z -> Z) (g : Z) : Z :=
  cnt (fun l => truthy (link_active m l) && (rt l =? g) && truthy g) 4.
Definition via_wire (s : hvm_irq) (g : Z) : Z :=
  Z.b2z (callback_via_asserted s && bool_decide (callback_via_type s = HVMIRQ_callback_gsi) && (callback_via s =? g)).
Definition wires (s : hvm_irq) (g : Z) : Z :=
  pci_wires (pci_intx s) g + isa_wires (isa_irq s) g + link_wires (pci_intx s) (route s) g + via_wire s g.

(** The invariant of the structure. *)
Record irq_ok (s : hvm_irq) : Prop := {
  io_gsis : length (gsi_assert_count s) = Z.to_nat VIOAPIC_NUM_PINS;
  io_links : length (pci_link_assert_count s) = Z.to_nat NR_LINK;
  io_route : length (pci_link s) = 8%nat;
  io_routes : forall l, 0 <= l < NR_LINK -> 0 <= route s l <= 15;
  io_link : forall l, 0 <= l < NR_LINK -> count (pci_link_assert_count s) l = link_active (pci_intx s) l;
  io_gsi : forall g, 0 <= g < VIOAPIC_NUM_PINS -> count (gsi_assert_count s) g = wires s g;
  io_via : match callback_via_type s with
           | HVMIRQ_callback_gsi => 0 < callback_via s < VIOAPIC_NUM_PINS
           | HVMIRQ_callback_pci_intx => 0 <= callback_via s /\ via_dev s <= 31 /\ via_intx s <= 3
           | _ => 0 <= callback_via s
           end
}.

Lemma wires_range s g : 0 <= wires s g <= 149.
Proof.
  unfold wires, pci_wires, isa_wires, link_wires, via_wire.
  pose proof (cnt_range (fun k => Z.testbit (pci_intx s) k && (kgsi k =? g)) 128).
  pose proof (cnt_range (fun i => Z.testbit (isa_irq s) i && (hvm_isa_irq_to_gsi i =? g)) 16).
  pose proof (cnt_range (fun l => truthy (link_active (pci_intx s) l) && (route s l =? g) && truthy g) 4).
  destruct (_ && _ && _); cbn [Z.b2z]; lia.
Qed.

Lemma link_active_range m l : 0 <= link_active m l <= 128.
Proof. apply cnt_range. lia. Qed.

Lemma count_tset t i v j : 0 <= i < Z.of_nat (length t) -> 0 <= j -> count (tset t i v) j = if decide (j = i) then v else count t j.
Proof.
  intros Hi Hj. unfold count, tset. destruct (Z.leb_spec 0 i), (Z.ltb_spec i (Z.of_nat (length t))); try lia. cbn [andb]. case_decide as E.
  - subst j. apply list_lookup_total_insert_eq. lia.
  - apply list_lookup_total_insert_ne. lia.
Qed.

Lemma length_tset t i v : 0 <= i < Z.of_nat (length t) -> length (tset t i v) = length t.
Proof. intros Hi. unfold tset. destruct (Z.leb_spec 0 i), (Z.ltb_spec i (Z.of_nat (length t))); try lia. apply length_insert. Qed.

Lemma kgsi_range k : 0 <= k < 128 -> 16 <= kgsi k < 48.
Proof.
  intros Hk. unfold kgsi, hvm_pci_intx_gsi. change 31 with (Z.ones 5). rewrite Z.land_ones by lia.
  pose proof (Z.mod_pos_bound ((k / 4) .<< 2 + (k / 4) .>> 3 + k mod 4) (2 ^ 5) ltac:(lia)). lia.
Qed.

Lemma klink_range k : 0 <= klink k < 4.
Proof. unfold klink, hvm_pci_intx_link. change 3 with (Z.ones 2). rewrite Z.land_ones by lia. apply Z.mod_pos_bound. lia. Qed.

Lemma set_bit_spec m k j : 0 <= k -> 0 <= j -> Z.testbit (set_bit m k) j = (j =? k) || Z.testbit m j.
Proof. intros. unfold set_bit. rewrite Z.lor_spec, testbit_pow2 by lia. apply orb_comm. Qed.

Lemma clear_bit_spec m k j : 0 <= k -> 0 <= j -> Z.testbit (clear_bit m k) j = negb (j =? k) && Z.testbit m j.
Proof. intros. unfold clear_bit. rewrite Z.ldiff_spec, testbit_pow2 by lia. apply andb_comm. Qed.

(** One PCI line changes. *)
Section Change.
Context (m m' k : Z) (Hk : 0 <= k < 128) (Hm : forall j, 0 <= j -> j <> k -> Z.testbit m' j = Z.testbit m j).

Lemma bits_off j : j <> k -> Z.testbit m j = Z.testbit m' j.
Proof. intros Hne. destruct (decide (0 <= j)); [by rewrite Hm|]. by rewrite !Z.testbit_neg_r by lia. Qed.

Lemma link_active_change l :
  link_active m' l = link_active m l + Z.b2z (Z.testbit m' k && (klink k =? l)) - Z.b2z (Z.testbit m k && (klink k =? l)).
Proof. apply (cnt_change (fun j => Z.testbit m j && (klink j =? l)) (fun j => Z.testbit m' j && (klink j =? l)) 128 k Hk). intros j Hj. by rewrite bits_off. Qed.

Lemma pci_wires_change g :
  pci_wires m' g = pci_wires m g + Z.b2z (Z.testbit m' k && (kgsi k =? g)) - Z.b2z (Z.testbit m k && (kgsi k =? g)).
Proof. apply (cnt_change (fun j => Z.testbit m j && (kgsi j =? g)) (fun j => Z.testbit m' j && (kgsi j =? g)) 128 k Hk). intros j Hj. by rewrite bits_off. Qed.

Lemma link_wires_change rt g :
  link_wires m' rt g = link_wires m rt g + Z.b2z (truthy (link_active m' (klink k)) && (rt (klink k) =? g) && truthy g)
                                         - Z.b2z (truthy (link_active m (klink k)) && (rt (klink k) =? g) && truthy g).
Proof.
  apply (cnt_change (fun l => truthy (link_active m l) && (rt l =? g) && truthy g)
                    (fun l => truthy (link_active m' l) && (rt l =? g) && truthy g) 4 (klink k) (klink_range k)).
  intros j Hj. do 2 f_equal. f_equal.
  rewrite link_active_change. destruct (Z.eqb_spec (klink k) j); [congruence|]. rewrite !andb_false_r. cbn. lia.
Qed.
End Change.

(** ** The operations keep the counts *)

Lemma tinc_count t i j :
  0 <= i < Z.of_nat (length t) -> 0 <= j -> 0 <= count t i < 255 -> count (tinc t i) j = count t j + Z.b2z (j =? i).
Proof.
  intros Hi Hj Hr. unfold tinc. rewrite count_tset by done. case_decide as E.
  - subst j. rewrite Z.eqb_refl, Z.mod_small by lia. done.
  - rewrite (proj2 (Z.eqb_neq j i)) by done. cbn. lia.
Qed.

Lemma tdec_count t i j :
  0 <= i < Z.of_nat (length t) -> 0 <= j -> 0 < count t i < 256 -> count (tdec t i) j = count t j - Z.b2z (j =? i).
Proof.
  intros Hi Hj Hr. unfold tdec. rewrite count_tset by done. case_decide as E.
  - subst j. rewrite Z.eqb_refl, Z.mod_small by lia. done.
  - rewrite (proj2 (Z.eqb_neq j i)) by done. cbn. lia.
Qed.

Lemma tinc_length t i : 0 <= i < Z.of_nat (length t) -> length (tinc t i) = length t.
Proof. apply length_tset. Qed.
Lemma tdec_length t i : 0 <= i < Z.of_nat (length t) -> length (tdec t i) = length t.
Proof. apply length_tset. Qed.

(** An index in a table that may have been written before. *)
Ltac in_table := repeat first [rewrite tinc_length by in_table | rewrite tdec_length by in_table]; lia.

Lemma line_index device intx : 0 <= device <= 31 -> 0 <= intx <= 3 ->
  let k := device * 4 + intx in
  0 <= k < 128 /\ hvm_pci_intx_gsi device intx = kgsi k /\ hvm_pci_intx_link device intx = klink k.
Proof.
  intros Hd Hi k. assert (k / 4 = device /\ k mod 4 = intx) as [E1 E2] by (unfold k; split; zlia).
  unfold kgsi, klink. rewrite E1, E2. unfold k. split; [lia|done].
Qed.

(** The parts of the count of a GSI. *)
Lemma wires_parts s g :
  0 <= pci_wires (pci_intx s) g /\ 0 <= isa_wires (isa_irq s) g /\ 0 <= link_wires (pci_intx s) (route s) g /\ 0 <= via_wire s g.
Proof.
  unfold pci_wires, isa_wires, link_wires. split_and!; try (apply cnt_range; lia). unfold via_wire. destruct (_ && _ && _); cbn; lia.
Qed.

(** A link that is routed to [isa] and asserted contributes to its count. *)
Lemma link_wires_pos m rt l : 0 <= l < 4 -> truthy (link_active m l) = true -> truthy (rt l) = true -> 0 < link_wires m rt (rt l).
Proof.
  intros Hl Ha Hr. unfold link_wires.
  set (P := fun j => truthy (link_active m j) && (rt j =? rt l) && truthy (rt l)).
  pose proof (cnt_change (fun j => negb (j =? l) && P j) P 4 l Hl) as H. cbn beta in H. rewrite H.
  - rewrite Z.eqb_refl. unfold P at 2. rewrite Ha, Hr, Z.eqb_refl. cbn.
    pose proof (cnt_range (fun j => negb (j =? l) && P j) 4 ltac:(lia)). lia.
  - intros j Hj. by rewrite (proj2 (Z.eqb_neq j l)).
Qed.

Ltac irq_fields := cbn [with_pci with_isa with_link with_via with_links with_gsis with_dpci pci_intx isa_irq pci_link
  callback_via_asserted callback_via_type callback_via pci_link_assert_count gsi_assert_count irq_dpci fst snd].
Ltac irq_fields_in H := cbn [with_pci with_isa with_link with_via with_links with_gsis with_dpci pci_intx isa_irq pci_link
  callback_via_asserted callback_via_type callback_via pci_link_assert_count gsi_assert_count irq_dpci fst snd] in H.

(** A PCI line [k] has changed, and the tables with it. *)
Lemma pci_change_ok s k m' lt t :
  irq_ok s -> 0 <= k < 128 -> (forall j, 0 <= j -> j <> k -> Z.testbit m' j = Z.testbit (pci_intx s) j) ->
  Z.testbit m' k = negb (Z.testbit (pci_intx s) k) ->
  let up := if Z.testbit m' k then 1 else -1 in
  let isa := route s (klink k) in
  let edge := count (pci_link_assert_count s) (klink k) =? (if Z.testbit m' k then 0 else 1) in
  length lt = 4%nat -> (forall l, 0 <= l < 4 -> count lt l = count (pci_link_assert_count s) l + up * Z.b2z (l =? klink k)) ->
  length t = 48%nat ->
  (forall g, 0 <= g < 48 -> count t g = count (gsi_assert_count s) g + up * Z.b2z (g =? kgsi k) + up * Z.b2z (edge && truthy isa && (g =? isa))) ->
  irq_ok (HvmIrq m' (isa_irq s) (pci_link s) (callback_via_asserted s) (callback_via_type s) (callback_via s) lt t (irq_dpci s)).
Proof.
  intros [Hg Hl Hr Hrs Hlc Hgc Hv] Hk Hm Hb up isa edge Hlt Hlt' Ht Ht'. pose proof (klink_range k) as Hkl.
  pose proof (link_active_change _ m' k Hk Hm) as Cl. pose proof (pci_wires_change _ m' k Hk Hm) as Cp.
  pose proof (link_wires_change _ m' k Hk Hm (route s)) as Cw. fold isa in Cw.
  assert (forall b, Z.b2z (Z.testbit m' k && b) - Z.b2z (Z.testbit (pci_intx s) k && b) = up * Z.b2z b) as Hup.
  { intros b. unfold up. rewrite Hb. destruct (Z.testbit (pci_intx s) k), b; cbn; lia. }
  assert (forall l, link_active m' l = link_active (pci_intx s) l + up * Z.b2z (klink k =? l)) as Cl'.
  { intros l. rewrite Cl, <- Hup. lia. }
  pose proof (Cl' (klink k)) as Cl0. rewrite Z.eqb_refl in Cl0. cbn [Z.b2z] in Cl0.
  pose proof (link_active_range (pci_intx s) (klink k)). pose proof (link_active_range m' (klink k)).
  unfold VIOAPIC_NUM_PINS, NR_LINK in *. pose proof (Hrs (klink k) Hkl) as Hisa. fold isa in Hisa.
  split; irq_fields; unfold VIOAPIC_NUM_PINS, NR_LINK; try done.
  - intros l Hl4. rewrite Hlt', Hlc, Cl' by lia. by rewrite (Z.eqb_sym l).
  - intros g Hg48. rewrite Ht', Hgc by lia. unfold wires. irq_fields. change (route (HvmIrq _ _ _ _ _ _ _ _ _)) with (route s).
    change (via_wire (HvmIrq _ _ _ _ _ _ _ _ _)) with (via_wire s).
    assert (pci_wires m' g = pci_wires (pci_intx s) g + up * Z.b2z (g =? kgsi k)) as ->.
    { rewrite Cp. specialize (Hup (kgsi k =? g)). rewrite (Z.eqb_sym g). lia. }
    rewrite Cw. unfold edge. rewrite (Hlc (klink k) Hkl), Cl0. clear Cl Cp Cw Cl' Hup Ht' Hlt' edge. unfold truthy, up in *.
    set (a := link_active (pci_intx s) (klink k)) in *. clearbody a.
    destruct (Z.testbit m' k); repeat (match goal with |- context [?x =? ?y] => destruct (Z.eqb_spec x y) end); cbn [negb andb Z.b2z]; lia.
Qed.

Section Preserve.
Context (use_pirq : Z -> option Z).

Lemma intx_assert_ok device intx s :
  0 <= device <= 31 -> 0 <= intx <= 3 -> irq_ok s -> irq_ok (__hvm_pci_intx_assert use_pirq device intx s).1.
Proof.
  intros Hd Hi Hok. unfold __hvm_pci_intx_assert. destruct (line_index device intx Hd Hi) as (Hk & -> & ->).
  set (k := device * 4 + intx) in *. destruct (Z.testbit (pci_intx s) k) eqn:Eb; [done|].
  pose proof (kgsi_range k Hk). pose proof (klink_range k) as Hkl. pose proof Hok as [Hg Hl _ Hrs Hlc Hgc _].
  unfold VIOAPIC_NUM_PINS, NR_LINK in *. set (isa := route s (klink k)). pose proof (Hrs (klink k) Hkl) as Hisa. fold isa in Hisa.
  pose proof (Hgc (kgsi k) ltac:(lia)). pose proof (Hgc isa ltac:(lia)). pose proof (wires_range s (kgsi k)). pose proof (wires_range s isa).
  pose proof (link_active_range (pci_intx s) (klink k)). pose proof (Hlc (klink k) Hkl).
  assert (forall g, 0 <= g < 48 -> count (tinc (gsi_assert_count s) (kgsi k)) g = count (gsi_assert_count s) g + Z.b2z (g =? kgsi k)) as T1
    by (intros g Hg48; apply tinc_count; lia).
  assert (Z.testbit (set_bit (pci_intx s) k) k = true) as Eb' by (rewrite set_bit_spec by lia; by rewrite Z.eqb_refl).
  irq_fields. change (count (pci_link s) (klink k)) with isa.
  assert (forall t, length t = 48%nat -> (forall g, 0 <= g < 48 -> count t g = count (gsi_assert_count s) g + Z.b2z (g =? kgsi k) +
      Z.b2z ((count (pci_link_assert_count s) (klink k) =? 0) && truthy isa && (g =? isa))) ->
    irq_ok (HvmIrq (set_bit (pci_intx s) k) (isa_irq s) (pci_link s) (callback_via_asserted s) (callback_via_type s) (callback_via s)
      (tinc (pci_link_assert_count s) (klink k)) t (irq_dpci s))) as Hfin.
  { intros t Ht Ht'. apply (pci_change_ok s k); rewrite ?Eb', ?Eb, ?tinc_length by in_table; try done.
    - intros j Hj Hne. rewrite set_bit_spec by lia. by rewrite (proj2 (Z.eqb_neq j k)).
    - intros l Hl4. rewrite tinc_count by lia. lia.
    - intros g Hg48. rewrite Ht' by done. fold isa. lia. }
  destruct (count (pci_link_assert_count s) (klink k) =? 0) eqn:E0, (truthy isa) eqn:E1; cbn [andb]; irq_fields;
    apply Hfin; irq_fields; rewrite ?tinc_length by in_table; try exact Hg; intros g Hg48; cbn [andb Z.b2z].
  2-4: rewrite T1 by lia; lia.
  rewrite tinc_count, T1; rewrite ?tinc_length by in_table; try lia. rewrite T1 by lia. rewrite (proj2 (Z.eqb_neq isa (kgsi k))) by lia. cbn. lia.
Qed.

Lemma intx_deassert_ok device intx s :
  0 <= device <= 31 -> 0 <= intx <= 3 -> irq_ok s -> irq_ok (__hvm_pci_intx_deassert use_pirq device intx s).1.
Proof.
  intros Hd Hi Hok. unfold __hvm_pci_intx_deassert. destruct (line_index device intx Hd Hi) as (Hk & -> & ->).
  set (k := device * 4 + intx) in *. destruct (Z.testbit (pci_intx s) k) eqn:Eb; cbn [negb]; [|done].
  pose proof (kgsi_range k Hk). pose proof (klink_range k) as Hkl. pose proof Hok as [Hg Hl _ Hrs Hlc Hgc _].
  unfold VIOAPIC_NUM_PINS, NR_LINK in *. set (isa := route s (klink k)). pose proof (Hrs (klink k) Hkl) as Hisa. fold isa in Hisa.
  pose proof (Hgc (kgsi k) ltac:(lia)). pose proof (Hgc isa ltac:(lia)). pose proof (wires_range s (kgsi k)). pose proof (wires_range s isa).
  pose proof (link_active_range (pci_intx s) (klink k)). pose proof (Hlc (klink k) Hkl).
  assert (Z.testbit (clear_bit (pci_intx s) k) k = false) as Eb' by (rewrite clear_bit_spec by lia; by rewrite Z.eqb_refl).
  assert (forall j, 0 <= j -> j <> k -> Z.testbit (clear_bit (pci_intx s) k) j = Z.testbit (pci_intx s) j) as Hm.
  { intros j Hj Hne. rewrite clear_bit_spec by lia. by rewrite (proj2 (Z.eqb_neq j k)). }
  assert (0 < count (gsi_assert_count s) (kgsi k)) as Pg.
  { pose proof (pci_wires_change _ _ k Hk Hm (kgsi k)) as Cp. rewrite Eb, Eb', Z.eqb_refl in Cp. cbn in Cp.
    pose proof (wires_parts s (kgsi k)). unfold wires in *.
    pose proof (cnt_range (fun j => Z.testbit (clear_bit (pci_intx s) k) j && (kgsi j =? kgsi k)) 128 ltac:(lia)). unfold pci_wires at 1 in Cp. lia. }
  assert (0 < link_active (pci_intx s) (klink k)) as Pl.
  { pose proof (link_active_change _ _ k Hk Hm (klink k)) as Cp. rewrite Eb, Eb', Z.eqb_refl in Cp. cbn in Cp.
    pose proof (link_active_range (clear_bit (pci_intx s) k) (klink k)). lia. }
  assert (truthy isa = true -> 0 < count (gsi_assert_count s) isa) as Pi.
  { intros Ht. pose proof (link_wires_pos (pci_intx s) (route s) (klink k) Hkl) as Hp. fold isa in Hp.
    pose proof (wires_parts s isa). unfold wires in *. unfold truthy in Hp at 1. destruct (Z.eqb_spec (link_active (pci_intx s) (klink k)) 0); [lia|].
    specialize (Hp eq_refl Ht). lia. }
  assert (forall g, 0 <= g < 48 -> count (tdec (gsi_assert_count s) (kgsi k)) g = count (gsi_assert_count s) g - Z.b2z (g =? kgsi k)) as T1
    by (intros g Hg48; apply tdec_count; lia).
  assert (forall l, 0 <= l < 4 -> count (tdec (pci_link_assert_count s) (klink k)) l = count (pci_link_assert_count s) l - Z.b2z (l =? klink k)) as T2
    by (intros l Hl4; apply tdec_count; lia).
  irq_fields. change (count (pci_link s) (klink k)) with isa.
  assert (forall t, length t = 48%nat -> (forall g, 0 <= g < 48 -> count t g = count (gsi_assert_count s) g - Z.b2z (g =? kgsi k) -
      Z.b2z ((count (pci_link_assert_count s) (klink k) =? 1) && truthy isa && (g =? isa))) ->
    irq_ok (HvmIrq (clear_bit (pci_intx s) k) (isa_irq s) (pci_link s) (callback_via_asserted s) (callback_via_type s) (callback_via s)
      (tdec (pci_link_assert_count s) (klink k)) t (irq_dpci s))) as Hfin.
  { intros t Ht Ht'. apply (pci_change_ok s k); rewrite ?Eb', ?Eb, ?tdec_length by in_table; done. }
  rewrite (T2 (klink k) Hkl), Z.eqb_refl. cbn [Z.b2z].
  replace (count (pci_link_assert_count s) (klink k) - 1 =? 0) with (count (pci_link_assert_count s) (klink k) =? 1) by lia.
  destruct (count (pci_link_assert_count s) (klink k) =? 1) eqn:E0, (truthy isa) eqn:E1; cbn [andb]; irq_fields;
    apply Hfin; irq_fields; rewrite ?tdec_length by in_table; try exact Hg; intros g Hg48; cbn [andb Z.b2z].
  2-4: rewrite T1 by lia; lia.
  specialize (Pi eq_refl). assert ((isa =? kgsi k) = false) as En by lia.
  rewrite tdec_count, T1; rewrite ?tdec_length by in_table; try lia. rewrite T1, En by lia. cbn. lia.
Qed.

(** An ISA line [i] has changed. *)
Lemma isa_change_ok s i m' t :
  irq_ok s -> 0 <= i <= 15 -> (forall j, 0 <= j -> j <> i -> Z.testbit m' j = Z.testbit (isa_irq s) j) -> length t = 48%nat ->
  (forall g, 0 <= g < 48 -> count t g = count (gsi_assert_count s) g +
     Z.b2z (Z.testbit m' i && (hvm_isa_irq_to_gsi i =? g)) - Z.b2z (Z.testbit (isa_irq s) i && (hvm_isa_irq_to_gsi i =? g))) ->
  irq_ok (HvmIrq (pci_intx s) m' (pci_link s) (callback_via_asserted s) (callback_via_type s) (callback_via s)
            (pci_link_assert_count s) t (irq_dpci s)).
Proof.
  intros [Hg Hl Hr Hrs Hlc Hgc Hv] Hi Hm Ht Ht'. unfold VIOAPIC_NUM_PINS, NR_LINK in *. split; irq_fields; unfold VIOAPIC_NUM_PINS, NR_LINK; try done.
  intros g Hg48. rewrite Ht', Hgc by lia. unfold wires. irq_fields.
  change (route (HvmIrq _ _ _ _ _ _ _ _ _)) with (route s). change (via_wire (HvmIrq _ _ _ _ _ _ _ _ _)) with (via_wire s).
  assert (isa_wires m' g = isa_wires (isa_irq s) g + Z.b2z (Z.testbit m' i && (hvm_isa_irq_to_gsi i =? g)) -
    Z.b2z (Z.testbit (isa_irq s) i && (hvm_isa_irq_to_gsi i =? g))) as ->; [|lia].
  apply (cnt_change (fun j => Z.testbit (isa_irq s) j && (hvm_isa_irq_to_gsi j =? g))
                    (fun j => Z.testbit m' j && (hvm_isa_irq_to_gsi j =? g)) 16 i ltac:(lia)).
  intros j Hj. f_equal. destruct (decide (0 <= j)); [by rewrite Hm|]. by rewrite !Z.testbit_neg_r by lia.
Qed.

Lemma isa_gsi_range irq : 0 <= irq <= 15 -> 0 < hvm_isa_irq_to_gsi irq <= 15.
Proof. intros H. unfold hvm_isa_irq_to_gsi. destruct (Z.eqb_spec irq 0); lia. Qed.

Lemma isa_assert_ok irq s : 0 <= irq <= 15 -> irq_ok s -> irq_ok (hvm_isa_irq_assert use_pirq irq s).1.
Proof.
  intros Hi Hok. unfold hvm_isa_irq_assert. destruct (Z.testbit (isa_irq s) irq) eqn:Eb; [done|].
  pose proof (isa_gsi_range irq Hi). pose proof Hok as [Hg _ _ _ _ Hgc _]. unfold VIOAPIC_NUM_PINS in *.
  pose proof (Hgc (hvm_isa_irq_to_gsi irq) ltac:(lia)). pose proof (wires_range s (hvm_isa_irq_to_gsi irq)).
  irq_fields. apply (isa_change_ok s irq); rewrite ?tinc_length by in_table; try done.
  - intros j Hj Hne. irq_fields. rewrite set_bit_spec by lia. by rewrite (proj2 (Z.eqb_neq j irq)).
  - intros g Hg48. irq_fields. rewrite Eb, set_bit_spec, Z.eqb_refl, tinc_count by lia. cbn [orb andb Z.b2z]. rewrite (Z.eqb_sym g). lia.
Qed.

Lemma isa_deassert_ok irq s : 0 <= irq <= 15 -> irq_ok s -> irq_ok (hvm_isa_irq_deassert use_pirq irq s).1.
Proof.
  intros Hi Hok. unfold hvm_isa_irq_deassert. destruct (Z.testbit (isa_irq s) irq) eqn:Eb; cbn [negb]; [|done].
  pose proof (isa_gsi_range irq Hi). pose proof Hok as [Hg _ _ _ _ Hgc _]. unfold VIOAPIC_NUM_PINS in *.
  pose proof (Hgc (hvm_isa_irq_to_gsi irq) ltac:(lia)) as Gg. pose proof (wires_range s (hvm_isa_irq_to_gsi irq)).
  assert (forall j, 0 <= j -> j <> irq -> Z.testbit (clear_bit (isa_irq s) irq) j = Z.testbit (isa_irq s) j) as Hm.
  { intros j Hj Hne. rewrite clear_bit_spec by lia. by rewrite (proj2 (Z.eqb_neq j irq)). }
  assert (Z.testbit (clear_bit (isa_irq s) irq) irq = false) as Eb' by (rewrite clear_bit_spec by lia; by rewrite Z.eqb_refl).
  assert (0 < wires s (hvm_isa_irq_to_gsi irq)) as Pg.
  { pose proof (cnt_change (fun j => Z.testbit (clear_bit (isa_irq s) irq) j && (hvm_isa_irq_to_gsi j =? hvm_isa_irq_to_gsi irq))
      (fun j => Z.testbit (isa_irq s) j && (hvm_isa_irq_to_gsi j =? hvm_isa_irq_to_gsi irq)) 16 irq ltac:(lia)) as Hc. cbn beta in Hc.
    rewrite Eb, Eb', Z.eqb_refl in Hc. cbn [andb Z.b2z] in Hc.
    pose proof (cnt_range (fun j => Z.testbit (clear_bit (isa_irq s) irq) j && (hvm_isa_irq_to_gsi j =? hvm_isa_irq_to_gsi irq)) 16 ltac:(lia)).
    pose proof (wires_parts s (hvm_isa_irq_to_gsi irq)). unfold wires. unfold isa_wires at 1. rewrite Hc; [lia|].
    intros j Hne. f_equal. destruct (decide (0 <= j)); [by rewrite Hm|]. by rewrite !Z.testbit_neg_r by lia. }
  irq_fields. apply (isa_change_ok s irq); rewrite ?tdec_length by in_table; try done.
  intros g Hg48. irq_fields. rewrite Eb, Eb', tdec_count by lia. cbn [orb andb Z.b2z]. rewrite (Z.eqb_sym g). lia.
Qed.

(** What the invariant asks of the callback. *)
Definition via_ok (k : via_kind) (v : Z) : Prop :=
  match k with
  | HVMIRQ_callback_gsi => 0 < v < VIOAPIC_NUM_PINS
  | HVMIRQ_callback_pci_intx => 0 <= v /\ v mod 256 <= 31 /\ (v / 256) mod 256 <= 3
  | _ => 0 <= v
  end.
Definition via_part (a : bool) (k : via_kind) (v g : Z) : Z := Z.b2z (a && bool_decide (k = HVMIRQ_callback_gsi) && (v =? g)).

(** The callback has changed. *)
Lemma via_change_ok s a k v t :
  irq_ok s -> via_ok k v -> length t = 48%nat ->
  (forall g, 0 <= g < 48 -> count t g = count (gsi_assert_count s) g + via_part a k v g - via_wire s g) ->
  irq_ok (HvmIrq (pci_intx s) (isa_irq s) (pci_link s) a k v (pci_link_assert_count s) t (irq_dpci s)).
Proof.
  intros [Hg Hl Hr Hrs Hlc Hgc Hv] Hk Ht Ht'. unfold VIOAPIC_NUM_PINS, NR_LINK in *. split; irq_fields; unfold VIOAPIC_NUM_PINS, NR_LINK; try done.
  intros g Hg48. rewrite Ht', Hgc by lia. unfold wires. irq_fields. change (route (HvmIrq _ _ _ _ _ _ _ _ _)) with (route s).
  change (via_wire (HvmIrq _ _ _ _ _ _ _ _ _) g) with (via_part a k v g). lia.
Qed.

Lemma via_kind_ok s : irq_ok s -> via_ok (callback_via_type s) (callback_via s).
Proof. intros [_ _ _ _ _ _ Hv]. unfold via_ok, via_dev, via_intx in *. by destruct (callback_via_type s). Qed.

Lemma via_irrelevant s a k v :
  irq_ok s -> via_ok k v -> callback_via_type s <> HVMIRQ_callback_gsi \/ callback_via_asserted s = false ->
  k <> HVMIRQ_callback_gsi \/ a = false -> irq_ok (with_via s a k v).
Proof.
  intros Hok Hv H1 H2. apply via_change_ok; [done|done|apply Hok|]. intros g _. unfold via_part, via_wire.
  assert (a && bool_decide (k = HVMIRQ_callback_gsi) = false) as ->
    by (destruct H2 as [H2| ->]; [by rewrite bool_decide_eq_false_2, andb_false_r|done]).
  assert (callback_via_asserted s && bool_decide (callback_via_type s = HVMIRQ_callback_gsi) = false) as ->
    by (destruct H1 as [H1| ->]; [by rewrite bool_decide_eq_false_2, andb_false_r|done]).
  cbn. lia.
Qed.

Lemma via_bounds s : irq_ok s -> callback_via_type s = HVMIRQ_callback_pci_intx -> 0 <= via_dev s <= 31 /\ 0 <= via_intx s <= 3.
Proof.
  intros [_ _ _ _ _ _ Hv] E. rewrite E in Hv. unfold via_dev, via_intx in *.
  pose proof (Z.mod_pos_bound (callback_via s) 256). pose proof (Z.mod_pos_bound (callback_via s / 256) 256). lia.
Qed.

Lemma callback_level_ok pending s : irq_ok s -> irq_ok (hvm_set_callback_irq_level use_pirq pending s).1.
Proof.
  intros Hok. unfold hvm_set_callback_irq_level. case_bool_decide as Ea; [done|]. irq_fields.
  assert (callback_via_asserted s = negb pending) as Ea' by (destruct (callback_via_asserted s), pending; done).
  pose proof (via_kind_ok s Hok) as Hk. pose proof Hok as [Hg _ _ _ _ Hgc _]. unfold VIOAPIC_NUM_PINS in *.
  destruct (callback_via_type s) eqn:Et.
  - irq_fields. rewrite <- Et. apply via_irrelevant; rewrite ?Et; try done; by left.
  - unfold via_ok, VIOAPIC_NUM_PINS in Hk. pose proof (Hgc (callback_via s) ltac:(lia)) as Gg. pose proof (wires_range s (callback_via s)).
    assert (forall g, via_wire s g = Z.b2z (negb pending && (callback_via s =? g))) as Hw.
    { intros g. unfold via_wire. rewrite Et, Ea', bool_decide_eq_true_2, andb_true_r by done. done. }
    destruct pending; irq_fields; rewrite ?Et; unfold with_gsis; irq_fields; apply (via_change_ok s); rewrite ?tinc_length, ?tdec_length by in_table; try done.
    + intros g Hg48. rewrite tinc_count, Hw by lia. unfold via_part. cbn [andb negb]. rewrite bool_decide_eq_true_2 by done. cbn [andb]. rewrite (Z.eqb_sym g). cbn [Z.b2z]. lia.
    + pose proof (wires_parts s (callback_via s)) as Hp. assert (0 < wires s (callback_via s)) as Pg.
      { unfold wires in *. rewrite (Hw (callback_via s)), Z.eqb_refl in *. cbn in *. lia. }
      intros g Hg48. rewrite tdec_count, Hw by lia. unfold via_part. cbn [andb negb]. rewrite (Z.eqb_sym g). cbn [Z.b2z]. lia.
  - assert (irq_ok (with_via s pending HVMIRQ_callback_pci_intx (callback_via s))) as Hok'
      by (apply via_irrelevant; rewrite ?Et; try done; by left).
    destruct (via_bounds _ Hok' eq_refl) as [H1 H2]. rewrite <- Et in *.
    destruct pending; [apply intx_assert_ok|apply intx_deassert_ok]; done.
  - irq_fields. rewrite <- Et. apply via_irrelevant; rewrite ?Et; try done; by left.
Qed.

(** The route of link [l] has changed. *)
Lemma route_change_ok s l isa t p :
  irq_ok s -> 0 <= l < 4 -> 0 <= isa <= 15 -> length t = 48%nat ->
  (forall g, 0 <= g < 48 -> count t g = count (gsi_assert_count s) g +
     Z.b2z (truthy (link_active (pci_intx s) l) && (isa =? g) && truthy g) -
     Z.b2z (truthy (link_active (pci_intx s) l) && (route s l =? g) && truthy g)) ->
  irq_ok (HvmIrq (pci_intx s) (isa_irq s) (tset (pci_link s) l isa) (callback_via_asserted s) (callback_via_type s) (callback_via s)
            (pci_link_assert_count s) t p).
Proof.
  intros [Hg Hl Hr Hrs Hlc Hgc Hv] Hl4 Hisa Ht Ht'. unfold VIOAPIC_NUM_PINS, NR_LINK in *.
  set (s' := HvmIrq _ _ _ _ _ _ _ _ _). assert (forall j, 0 <= j < 4 -> route s' j = if decide (j = l) then isa else route s j) as Hrt.
  { intros j Hj. unfold route, s'. irq_fields. apply count_tset; rewrite ?Hr; lia. }
  split; unfold VIOAPIC_NUM_PINS, NR_LINK; try done.
  - unfold s'. irq_fields. by rewrite length_tset by lia.
  - intros j Hj. rewrite Hrt by done. case_decide; auto.
  - intros g Hg48. change (gsi_assert_count s') with t. rewrite Ht', Hgc by lia. unfold wires.
    change (via_wire s' g) with (via_wire s g). change (pci_intx s') with (pci_intx s). change (isa_irq s') with (isa_irq s).
    assert (link_wires (pci_intx s) (route s') g = link_wires (pci_intx s) (route s) g +
      Z.b2z (truthy (link_active (pci_intx s) l) && (isa =? g) && truthy g) -
      Z.b2z (truthy (link_active (pci_intx s) l) && (route s l =? g) && truthy g)) as ->; [|lia].
    unfold link_wires. rewrite (cnt_ext _ (fun j => truthy (link_active (pci_intx s) j) && ((if decide (j = l) then isa else route s j) =? g) && truthy g))
      by (intros j Hj; by rewrite Hrt).
    rewrite (cnt_change (fun j => truthy (link_active (pci_intx s) j) && (route s j =? g) && truthy g) _ 4 l Hl4).
    + rewrite decide_True by done. done.
    + intros j Hj. by rewrite decide_False.
Qed.

Lemma set_route_ok link isa s : 0 <= link <= 3 -> 0 <= isa <= 15 -> irq_ok s -> irq_ok (hvm_set_pci_link_route link isa s).1.
Proof.
  intros Hl4 Hisa Hok. unfold hvm_set_pci_link_route. fold (route s link). destruct (Z.eqb_spec (route s link) isa); [done|].
  pose proof Hok as [Hg _ _ Hrs Hlc Hgc _]. unfold VIOAPIC_NUM_PINS, NR_LINK in *. pose proof (Hrs link ltac:(lia)) as Hold. set (old := route s link) in *.
  pose proof (Hlc link ltac:(lia)) as Hcl. pose proof (Hgc old ltac:(lia)) as Go. pose proof (Hgc isa ltac:(lia)) as Gi.
  pose proof (wires_range s old). pose proof (wires_range s isa).
  assert (exists p, dpci_fixup old (with_link s (tset (pci_link s) link isa)) = with_dpci (with_link s (tset (pci_link s) link isa)) p) as [p ->].
  { unfold dpci_fixup. destruct (irq_dpci _) as [q|] eqn:E; [eauto|]. exists None. by destruct s; cbn in *; rewrite E. }
  irq_fields. rewrite Hcl. destruct (Z.eqb_spec (link_active (pci_intx s) link) 0) as [E0|E0].
  { irq_fields. unfold with_dpci, with_link. irq_fields. apply (route_change_ok s); try done; [lia|]. intros g Hg48. rewrite E0. cbn. lia. }
  assert (truthy (link_active (pci_intx s) link) = true) as Ha by (unfold truthy; lia).
  assert (truthy old = true -> 0 < wires s old) as Po.
  { intros Ho. pose proof (link_wires_pos (pci_intx s) (route s) link ltac:(lia) Ha Ho). fold old in H1. pose proof (wires_parts s old). unfold wires. lia. }
  assert (forall t, length t = 48%nat -> (forall g, 0 <= g < 48 -> count t g = count (gsi_assert_count s) g +
      Z.b2z (truthy isa && (g =? isa)) - Z.b2z (truthy old && (g =? old))) ->
    irq_ok (HvmIrq (pci_intx s) (isa_irq s) (tset (pci_link s) link isa) (callback_via_asserted s) (callback_via_type s) (callback_via s)
      (pci_link_assert_count s) t p)) as Hfin.
  { intros t Ht Ht'. apply (route_change_ok s); try done; [lia|]. intros g Hg48. rewrite Ht', Ha by done. fold old. unfold truthy.
    repeat (match goal with |- context [?x =? ?y] => destruct (Z.eqb_spec x y) end); cbn; lia. }
  assert (truthy old = true -> forall g, 0 <= g < 48 -> count (tdec (gsi_assert_count s) old) g = count (gsi_assert_count s) g - Z.b2z (g =? old)) as T1
    by (intros Ho g Hg48; specialize (Po Ho); apply tdec_count; lia).
  destruct (truthy old) eqn:Eo, (truthy isa) eqn:Ei; irq_fields; unfold with_gsis, with_dpci, with_link; irq_fields; apply Hfin;
    rewrite ?tinc_length, ?tdec_length by in_table; try exact Hg; intros g Hg48; cbn [andb Z.b2z].
  - specialize (T1 eq_refl). rewrite tinc_count, T1; rewrite ?tdec_length by in_table; try lia. rewrite T1 by lia. destruct (Z.eqb_spec isa old); cbn; lia.
  - rewrite (T1 eq_refl) by lia. lia.
  - rewrite tinc_count by lia. lia.
  - lia.
Qed.

(** Once the old callback is torn down, the state is one without a callback. *)
Lemma tear_down_ok s v :
  irq_ok s -> 0 <= v -> irq_ok (with_via (tear_down_via use_pirq s).1 (callback_via_asserted (tear_down_via use_pirq s).1) HVMIRQ_callback_none v).
Proof.
  intros Hok Hv. pose proof (via_kind_ok s Hok) as Hk. pose proof Hok as [Hg _ _ _ _ Hgc _]. unfold VIOAPIC_NUM_PINS in *.
  unfold tear_down_via. destruct (callback_via_asserted s) eqn:Ea.
  2: { irq_fields. apply via_irrelevant; try done; [by right|by left]. }
  destruct (callback_via_type s) eqn:Et; irq_fields.
  - apply via_irrelevant; try done; [rewrite ?Et; by left|by left].
  - unfold via_ok, VIOAPIC_NUM_PINS in Hk. pose proof (Hgc (callback_via s) ltac:(lia)) as Gg. pose proof (wires_range s (callback_via s)).
    assert (forall g, via_wire s g = Z.b2z (callback_via s =? g)) as Hw.
    { intros g. unfold via_wire. rewrite Et, Ea, bool_decide_eq_true_2 by done. done. }
    assert (0 < wires s (callback_via s)) as Pg.
    { pose proof (wires_parts s (callback_via s)) as Hp. unfold wires. rewrite Hw, Z.eqb_refl in *. cbn in *. lia. }
    unfold with_via. irq_fields. apply (via_change_ok s); rewrite ?tdec_length by in_table; try done.
    intros g Hg48. rewrite tdec_count, Hw by lia. unfold via_part. rewrite bool_decide_eq_false_2, andb_false_r by done. cbn. rewrite (Z.eqb_sym g). lia.
  - destruct (via_bounds s Hok Et) as [H1 H2]. pose proof (intx_deassert_ok _ _ s H1 H2 Hok) as Hok'.
    apply via_irrelevant; try done; [|by left]. left. unfold __hvm_pci_intx_deassert. destruct (negb _); [irq_fields; by rewrite Et|].
    irq_fields. destruct (_ && _); irq_fields; by rewrite Et.
  - apply via_irrelevant; try done; [rewrite ?Et; by left|by left].
Qed.

Lemma callback_via_ok via s : irq_ok s -> irq_ok (hvm_set_callback_via use_pirq via s).1.
Proof.
  intros Hok. unfold hvm_set_callback_via. pose proof (fun v => tear_down_ok s v Hok) as Ht.
  assert (0 <= callback_via (tear_down_via use_pirq s).1) as Hcv.
  { assert (callback_via (tear_down_via use_pirq s).1 = callback_via s) as ->.
    { unfold tear_down_via. destruct (callback_via_asserted s); [|done]. destruct (callback_via_type s); try done.
      unfold __hvm_pci_intx_deassert. destruct (negb _); [done|]. irq_fields. destruct (_ && _); done. }
    pose proof (via_kind_ok s Hok) as Hk. unfold via_ok in Hk. destruct (callback_via_type s); lia. }
  destruct (tear_down_via use_pirq s) as [s1 ev]. cbn [fst] in *. set (s0 := with_via s1 (callback_via_asserted s1) HVMIRQ_callback_none (callback_via s1)).
  pose proof (Ht (callback_via s1) Hcv) as Hok0. fold s0 in Hok0.
  pose proof (Z.mod_pos_bound via 256 ltac:(lia)) as Hm. destruct (via_type_of via).
  - exact Hok0.
  - destruct ((via mod 256 =? 0) || (via mod 256 >=? VIOAPIC_NUM_PINS)) eqn:Er; [apply Ht; lia|]. irq_fields.
    apply orb_false_iff in Er as [Er0 Er1]. unfold VIOAPIC_NUM_PINS in *.
    pose proof Hok0 as [Hg _ _ _ _ Hgc _]. unfold VIOAPIC_NUM_PINS in *. pose proof (Hgc (via mod 256) ltac:(lia)) as Gg. pose proof (wires_range s0 (via mod 256)).
    assert (forall g, via_wire s0 g = 0) as Hw by (intros g; unfold via_wire, s0; irq_fields; by rewrite bool_decide_eq_false_2, andb_false_r).
    destruct (callback_via_asserted s1) eqn:Ea; irq_fields; unfold with_via, with_gsis; irq_fields.
    + change (length (gsi_assert_count s0)) with (length (gsi_assert_count s1)) in Hg. apply (via_change_ok s0); rewrite ?tinc_length by in_table; try done; [unfold via_ok, VIOAPIC_NUM_PINS; lia|].
      intros g Hg48. rewrite Hw. change (gsi_assert_count s0) with (gsi_assert_count s1) in *. rewrite tinc_count by lia.
      unfold via_part. rewrite bool_decide_eq_true_2 by done. cbn [andb]. rewrite (Z.eqb_sym g). lia.
    + apply (via_change_ok s0); try done; [unfold via_ok, VIOAPIC_NUM_PINS; lia|].
      intros g Hg48. rewrite Hw. unfold via_part. cbn. lia.
  - set (pdev := ((via .>> 11) mod 256) .& 31). set (pintx := (via mod 256) .& 3).
    assert (0 <= pdev <= 31) as H1 by (pose proof (land_range ((via .>> 11) mod 256) 31 5); unfold pdev; lia).
    assert (0 <= pintx <= 3) as H2 by (pose proof (land_range (via mod 256) 3 2); unfold pintx; lia).
    irq_fields. set (s2 := with_via s1 _ HVMIRQ_callback_pci_intx _).
    assert (irq_ok s2) as Hok2.
    { apply (via_irrelevant s0); [done| |by left|by left]. unfold via_ok.
      set (x := callback_via s1 - callback_via s1 mod 65536 + pdev + 256 * pintx).
      assert (x = pdev + 256 * (pintx + 256 * (callback_via s1 / 65536))) as Ex by (unfold x; zlia).
      assert (x mod 256 = pdev) as ->. { rewrite Ex, Z.mul_comm, Z.mod_add, Z.mod_small; lia. }
      assert ((x / 256) mod 256 = pintx) as ->. { rewrite Ex, (Z.mul_comm 256 (_ + _)), Z.div_add, Z.div_small, Z.add_0_l, Z.mul_comm, Z.mod_add, Z.mod_small; lia. }
      assert (0 <= callback_via s1 / 65536) by (apply Z.div_pos; lia). lia. }
    destruct (callback_via_asserted s1); [|done]. pose proof (intx_assert_ok pdev pintx s2 H1 H2 Hok2) as Hok3.
    destruct (__hvm_pci_intx_assert use_pirq pdev pintx s2) as [s3 ev3]. done.
  - apply (via_irrelevant s0); [done|unfold via_ok; lia|by left|by left].
Qed.

End Preserve.

(** ** Every reachable state has exact counts *)

Inductive irq_op :=
| PciAssert (device intx : Z) | PciDeassert (device intx : Z) | IsaAssert (irq : Z) | IsaDeassert (irq : Z)
| CallbackLevel (pending : bool) | SetRoute (link isa : Z) | SetVia (via : Z).

(** The ranges that the operations assert. *)
Definition valid_op (o : irq_op) : Prop :=
  match o with
  | PciAssert d i | PciDeassert d i => 0 <= d <= 31 /\ 0 <= i <= 3
  | IsaAssert i | IsaDeassert i => 0 <= i <= 15
  | SetRoute l i => 0 <= l <= 3 /\ 0 <= i <= 15
  | CallbackLevel _ | SetVia _ => True
  end.

Definition exec (use_pirq : Z -> option Z) (s : hvm_irq) (o : irq_op) : hvm_irq :=
  match o with
  | PciAssert d i => (__hvm_pci_intx_assert use_pirq d i s).1
  | PciDeassert d i => (__hvm_pci_intx_deassert use_pirq d i s).1
  | IsaAssert i => (hvm_isa_irq_assert use_pirq i s).1
  | IsaDeassert i => (hvm_isa_irq_deassert use_pirq i s).1
  | CallbackLevel b => (hvm_set_callback_irq_level use_pirq b s).1
  | SetRoute l i => (hvm_set_pci_link_route l i s).1
  | SetVia v => (hvm_set_callback_via use_pirq v s).1
  end.

(** The structure of a new domain. *)
Definition irq_reset : hvm_irq :=
  HvmIrq 0 0 (replicate 8 0) false HVMIRQ_callback_none 0 (replicate 4 0) (replicate 48 0) None.

Lemma cnt_none P n : (forall k, P k = false) -> cnt P n = 0.
Proof.
  intros H. unfold cnt. assert (filter (fun k => P k = true) (seqZ 0 n) = []) as ->; [|done].
  induction (seqZ 0 n) as [|k l IH]; [done|]. rewrite filter_cons, H, IH. done.
Qed.

Lemma exec_ok use_pirq o s : valid_op o -> irq_ok s -> irq_ok (exec use_pirq s o).
Proof.
  destruct o; cbn [valid_op exec]; intros Hv Hok; try destruct Hv;
    auto using intx_assert_ok, intx_deassert_ok, isa_assert_ok, isa_deassert_ok, callback_level_ok, set_route_ok, callback_via_ok.
Qed.

Lemma evtchn_ok use_pirq in_irq pv_evtchn vcpu_id pending s : irq_ok s ->
  irq_ok (hvm_maybe_deassert_evtchn_irq use_pirq pending s).1 /\
  irq_ok (hvm_assert_evtchn_irq use_pirq in_irq pv_evtchn vcpu_id pending s).2.1.
Proof.
  intros Hok. unfold hvm_maybe_deassert_evtchn_irq, hvm_assert_evtchn_irq. split.
  - destruct (_ && _); [by apply callback_level_ok|done].
  - destruct in_irq, pv_evtchn; try done. destruct (vcpu_id =? 0); [by apply callback_level_ok|done].
Qed.

Lemma count_replicate n g : 0 <= g < Z.of_nat n -> count (replicate n 0) g = 0.
Proof. intros H. unfold count. apply list_lookup_total_correct, lookup_replicate_2. lia. Qed.

Lemma reset_ok : irq_ok irq_reset.
Proof.
  assert (forall l, link_active 0 l = 0) as Hl by (intros l; apply cnt_none; intros k; by rewrite Z.testbit_0_l).
  split; try done; unfold VIOAPIC_NUM_PINS, NR_LINK.
  - intros l Hl4. unfold route, irq_reset. irq_fields. rewrite count_replicate; lia.
  - intros l Hl4. unfold irq_reset. irq_fields. rewrite count_replicate by lia. by rewrite Hl.
  - intros g Hg. unfold wires, irq_reset. irq_fields. rewrite count_replicate by lia.
    assert (pci_wires 0 g = 0) as -> by (apply cnt_none; intros k; by rewrite Z.testbit_0_l).
    assert (isa_wires 0 g = 0) as -> by (apply cnt_none; intros k; by rewrite Z.testbit_0_l).
    unfold link_wires. rewrite cnt_none; [done|]. intros k. by rewrite Hl.
Qed.

(** C26. Whatever sequence of interrupt operations devices, drivers and the
    guest perform from the reset of a domain, the counts that decide about
    interrupts are exact: the count of a PCI-ISA link is the number of
    asserted PCI lines on it, and the count of a GSI is the number of asserted
    PCI lines, ISA lines, routed links and callbacks that drive it.  No count
    ever leaves its eight bits, and nothing is written outside the three tables
    of the structure, which would corrupt them. *)
Theorem irq_counts_exact use_pirq ops :
  Forall valid_op ops ->
  let s := foldl (exec use_pirq) irq_reset ops in
  (forall l, 0 <= l < NR_LINK -> count (pci_link_assert_count s) l = link_active (pci_intx s) l) /\
  (forall g, 0 <= g < VIOAPIC_NUM_PINS -> count (gsi_assert_count s) g = wires s g /\ 0 <= wires s g < 256) /\
  length (gsi_assert_count s) = Z.to_nat VIOAPIC_NUM_PINS /\ length (pci_link_assert_count s) = Z.to_nat NR_LINK /\ length (pci_link s) = 8%nat.
Proof.
  intros Hops s. assert (irq_ok s) as [L1 L2 L3 _ Hl Hg _].
  { unfold s. generalize reset_ok. generalize irq_reset. induction Hops as [|o ops Ho _ IH]; intros s0 Hs; [done|].
    apply IH. by apply exec_ok. }
  split; [exact Hl|]. split; [|done]. intros g Hg48. split; [by apply Hg|]. pose proof (wires_range s g). lia.
Qed.

Lemma irq_counts_exact_witness :
  let s := foldl (exec (fun _ => None)) irq_reset [SetRoute 3 5; PciAssert 3 0; IsaAssert 5; SetVia 5; CallbackLevel true] in
  count (gsi_assert_count s) 5 = wires s 5 /\ wires s 5 = 3.
Proof.
  pose proof (irq_counts_exact (fun _ => None) [SetRoute 3 5; PciAssert 3 0; IsaAssert 5; SetVia 5; CallbackLevel true]) as H.
  cbv zeta in H. destruct H as (_ & H & _).
  - repeat constructor; cbn; lia.
  - split; [apply (H 5); unfold VIOAPIC_NUM_PINS; lia|vm_compute; reflexivity].
Defined.

(** ** Rebuilding the counts *)

(** Counting the places [idx k] for the [k] in [l] that satisfy [P]. *)
Definition tally (P : Z -> bool) (idx : Z -> Z) (l : list Z) (t : list Z) : list Z :=
  foldl (fun t k => if P k then tinc t (idx k) else t) t l.

Lemma tally_spec P idx l : forall t,
  (forall k, k ∈ l -> P k = true -> 0 <= idx k < Z.of_nat (length t)) ->
  (forall g, 0 <= g < Z.of_nat (length t) -> 0 <= count t g /\ count t g + Z.of_nat (length l) < 256) ->
  length (tally P idx l t) = length t /\
  forall g, 0 <= g < Z.of_nat (length t) ->
    count (tally P idx l t) g = count t g + Z.of_nat (length (filter (fun k => P k && (idx k =? g) = true) l)).
Proof.
  induction l as [|k l IH]; intros t Hi Hb; cbn [tally foldl]; [split; [done|intros; cbn; lia]|].
  set (t1 := if P k then tinc t (idx k) else t). fold (tally P idx l t1).
  assert (length t1 = length t) as L1 by (unfold t1; destruct (P k) eqn:E; [apply tinc_length, Hi; [by left|done]|done]).
  assert (forall g, 0 <= g < Z.of_nat (length t) -> count t1 g = count t g + Z.b2z (P k && (idx k =? g))) as C1.
  { intros g Hg. unfold t1. destruct (P k) eqn:E; [|cbn; lia]. specialize (Hi k ltac:(by left) E). pose proof (Hb (idx k) Hi) as Hbk. cbn [length] in Hbk.
    rewrite tinc_count by lia. rewrite (Z.eqb_sym g). done. }
  destruct (IH t1) as [L2 C2].
  - intros j Hj HP. rewrite L1. apply Hi; [by right|done].
  - intros g Hg. rewrite L1 in Hg. rewrite C1 by done. specialize (Hb g Hg). cbn [length] in Hb. destruct (P k && _); cbn; lia.
  - split; [congruence|]. intros g Hg. rewrite C2, C1 by (rewrite ?L1; done). rewrite filter_cons. destruct (P k && (idx k =? g)); case_decide; try done; cbn [length Z.b2z]; lia.
Qed.

Lemma foldl_nested {A B C} (f : C -> A -> B -> C) (la : list A) (lb : list B) c :
  foldl (fun c a => foldl (fun c b => f c a b) c lb) c la = foldl (fun c p => f c p.1 p.2) c (la ≫= fun a => (fun b => (a, b)) <$> lb).
Proof.
  revert c. induction la as [|a la IH]; intros c; [done|]. cbn [foldl mbind list_bind]. rewrite IH, foldl_app. f_equal.
  generalize lb c. clear. induction lb as [|b lb IHb]; intros c; [done|]. cbn. apply IHb.
Qed.

Lemma recount_pci_tally s :
  recount_pci s = with_links (with_gsis s (tally (Z.testbit (pci_intx s)) kgsi (seqZ 0 128) (gsi_assert_count s)))
                             (tally (Z.testbit (pci_intx s)) klink (seqZ 0 128) (pci_link_assert_count s)).
Proof.
  unfold recount_pci. rewrite foldl_nested.
  set (ps := seqZ 0 32 ≫= fun a => (fun b => (a, b)) <$> seqZ 0 4).
  assert ((fun p : Z * Z => p.1 * 4 + p.2) <$> ps = seqZ 0 128) as <- by (vm_compute; reflexivity).
  assert (Forall (fun p : Z * Z => 0 <= p.1 <= 31 /\ 0 <= p.2 <= 3) ps) as Hps.
  { apply Forall_forall. intros [a b] Hp. apply list_elem_of_bind in Hp as (a' & Hp & Ha%elem_of_seqZ).
    apply list_elem_of_fmap in Hp as (b' & [= -> ->] & Hb%elem_of_seqZ). cbn. lia. }
  generalize dependent s. clearbody ps. induction Hps as [|[dv ix] ps [Hd Hi] _ IH]; intros s; [by destruct s|].
  cbn [foldl fst snd fmap list_fmap tally] in *. destruct (line_index dv ix Hd Hi) as (_ & -> & ->).
  destruct (Z.testbit (pci_intx s) (dv * 4 + ix)); rewrite IH; irq_fields; done.
Qed.

Lemma recount_isa_tally s :
  recount_isa s = with_gsis s (tally (Z.testbit (isa_irq s)) hvm_isa_irq_to_gsi (seqZ 0 16) (gsi_assert_count s)).
Proof.
  unfold recount_isa. generalize (seqZ 0 16). intros l. revert s. induction l as [|k l IH]; intros s; [by destruct s|].
  cbn [foldl tally]. destruct (Z.testbit (isa_irq s) k); rewrite IH; done.
Qed.

Lemma recount_link_tally s :
  recount_link s = with_gsis s (tally (fun l => truthy (count (pci_link_assert_count s) l) && truthy (route s l)) (route s) (seqZ 0 4) (gsi_assert_count s)).
Proof.
  unfold recount_link. generalize (seqZ 0 4). intros l. revert s. induction l as [|k l IH]; intros s; [by destruct s|].
  cbn [foldl tally]. fold (route s k). destruct (truthy (count (pci_link_assert_count s) k) && truthy (route s k)); rewrite IH; done.
Qed.

(** What the three records restore, in the order in which they are loaded. *)
Definition load_pci (data : list Z) (s : hvm_irq) : hvm_irq := recount_pci (zero_counts (with_pci s (le_val data))).
Definition load_isa (data : list Z) (s : hvm_irq) : hvm_irq := recount_isa (with_isa s (le_val data)).
Definition load_link (data : list Z) (s : hvm_irq) : hvm_irq := recount_link (with_link s data).

(** Loading the lines leaves exact counts, provided that the records come in
    this order and that no callback is asserted. *)
Lemma load_counts_ok t pci isa link :
  callback_via_asserted t = false -> via_ok (callback_via_type t) (callback_via t) -> length link = 8%nat ->
  (forall l, 0 <= l < 4 -> 0 <= count link l <= 15) ->
  let t' := load_link link (load_isa isa (load_pci pci t)) in
  irq_ok t' /\ pci_intx t' = le_val pci /\ isa_irq t' = le_val isa /\ pci_link t' = link /\
  callback_via_asserted t' = false.
Proof.
  intros Ha Hv Hlen Hrt t'.
  set (m := le_val pci) in *. set (i := le_val isa) in *.
  destruct (tally_spec (Z.testbit m) klink (seqZ 0 128) (replicate 4 0)) as [Ll Cl].
  { intros k _ _. rewrite length_replicate. pose proof (klink_range k). lia. }
  { intros g Hg. rewrite length_replicate in Hg. rewrite count_replicate, length_seqZ by lia. lia. }
  destruct (tally_spec (Z.testbit m) kgsi (seqZ 0 128) (replicate 48 0)) as [L1 C1].
  { intros k Hk%elem_of_seqZ _. rewrite length_replicate. pose proof (kgsi_range k). lia. }
  { intros g Hg. rewrite length_replicate in Hg. rewrite count_replicate, length_seqZ by lia. lia. }
  set (lt := tally (Z.testbit m) klink (seqZ 0 128) (replicate 4 0)) in *.
  set (t1 := tally (Z.testbit m) kgsi (seqZ 0 128) (replicate 48 0)) in *. rewrite length_replicate in Ll, Cl, L1, C1.
  assert (forall g, 0 <= g < 48 -> count t1 g = pci_wires m g) as C1' by (intros g Hg; rewrite C1, count_replicate by lia; done).
  assert (forall l, 0 <= l < 4 -> count lt l = link_active m l) as Cl' by (intros l Hl; rewrite Cl, count_replicate by lia; done).
  destruct (tally_spec (Z.testbit i) hvm_isa_irq_to_gsi (seqZ 0 16) t1) as [L2 C2].
  { intros k Hk%elem_of_seqZ _. rewrite L1. pose proof (isa_gsi_range k ltac:(lia)). lia. }
  { intros g Hg. rewrite L1 in Hg. rewrite C1', length_seqZ by lia. pose proof (cnt_range (fun k => Z.testbit m k && (kgsi k =? g)) 128 ltac:(lia)). unfold pci_wires. lia. }
  set (t2 := tally (Z.testbit i) hvm_isa_irq_to_gsi (seqZ 0 16) t1) in *. rewrite L1 in L2, C2.
  assert (forall g, 0 <= g < 48 -> count t2 g = pci_wires m g + isa_wires i g) as C2' by (intros g Hg; rewrite C2, C1' by lia; done).
  set (P := fun l => truthy (count lt l) && truthy (count link l)).
  destruct (tally_spec P (count link) (seqZ 0 4) t2) as [L3 C3].
  { intros k Hk%elem_of_seqZ _. rewrite L2. pose proof (Hrt k ltac:(lia)). lia. }
  { intros g Hg. rewrite L2 in Hg. rewrite C2', length_seqZ by lia. unfold pci_wires, isa_wires.
    pose proof (cnt_range (fun k => Z.testbit m k && (kgsi k =? g)) 128 ltac:(lia)). pose proof (cnt_range (fun k => Z.testbit i k && (hvm_isa_irq_to_gsi k =? g)) 16 ltac:(lia)). lia. }
  set (t3 := tally P (count link) (seqZ 0 4) t2) in *. rewrite L2 in L3, C3.
  assert (t' = HvmIrq m i link (callback_via_asserted t) (callback_via_type t) (callback_via t) lt t3 (irq_dpci t)) as ->.
  { unfold t', load_link, load_isa, load_pci. rewrite recount_pci_tally, recount_isa_tally, recount_link_tally. reflexivity. }
  split_and!; try done. split; irq_fields; unfold VIOAPIC_NUM_PINS, NR_LINK; try done.
  intros g Hg. rewrite C3, C2' by lia. unfold wires, via_wire. irq_fields. rewrite Ha. cbn [andb Z.b2z].
  assert (link_wires m (count link) g = cnt (fun k => P k && (count link k =? g)) 4) as El.
  { apply cnt_ext. intros l Hl. unfold P. rewrite Cl' by lia.
    destruct (Z.eqb_spec (count link l) g) as [->|]; [|by rewrite !andb_false_r]. by rewrite !andb_true_r. }
  change (route (HvmIrq _ _ _ _ _ _ _ _ _)) with (count link). rewrite El. unfold cnt. lia.
Qed.

(** ** The types of the fields *)

(** What the declarations of [struct hvm_irq] say of its fields. *)
Record irq_typed (s : hvm_irq) : Prop := {
  it_pci : 0 <= pci_intx s < 2 ^ 128;
  it_isa : 0 <= isa_irq s < 2 ^ 64;
  it_link : Forall is_byte (pci_link s);
  it_via : 0 <= callback_via s < 2 ^ 32;
  it_links : Forall is_byte (pci_link_assert_count s);
  it_gsis : Forall is_byte (gsi_assert_count s)
}.

Create HintDb irqtype.

Lemma set_bit_range m k w : 0 <= m < 2 ^ w -> 0 <= k < w -> 0 <= set_bit m k < 2 ^ w.
Proof.
  intros Hm Hk. apply lor_range; [lia|done|]. rewrite Z.shiftl_1_l. pose proof (Z.pow_pos_nonneg 2 k).
  pose proof (Z.pow_lt_mono_r 2 k w). lia.
Qed.

Lemma clear_bit_range m k w : 0 <= m < 2 ^ w -> 0 <= k < w -> 0 <= clear_bit m k < 2 ^ w.
Proof.
  intros Hm Hk. apply bounded_of_bits; [lia| |].
  - unfold clear_bit. rewrite Z.ldiff_nonneg. lia.
  - intros i Hi. rewrite clear_bit_spec by lia. by rewrite (testbit_high m w), andb_false_r by lia.
Qed.

Lemma tset_u8 t i v : Forall is_byte t -> is_byte v -> Forall is_byte (tset t i v).
Proof. intros Hb Hv. unfold tset. destruct (_ && _); [by apply Forall_insert|constructor]. Qed.

Lemma tinc_u8 t i : Forall is_byte t -> Forall is_byte (tinc t i).
Proof. intros H. apply tset_u8; [done|]. apply Z.mod_pos_bound. lia. Qed.

Lemma tdec_u8 t i : Forall is_byte t -> Forall is_byte (tdec t i).
Proof. intros H. apply tset_u8; [done|]. apply Z.mod_pos_bound. lia. Qed.

Lemma typed_with_pci s m : irq_typed s -> 0 <= m < 2 ^ 128 -> irq_typed (with_pci s m).
Proof. intros [] ?. by split. Qed.
Lemma typed_with_isa s m : irq_typed s -> 0 <= m < 2 ^ 64 -> irq_typed (with_isa s m).
Proof. intros [] ?. by split. Qed.
Lemma typed_with_link s l : irq_typed s -> Forall is_byte l -> irq_typed (with_link s l).
Proof. intros [] ?. by split. Qed.
Lemma typed_with_via s a k v : irq_typed s -> 0 <= v < 2 ^ 32 -> irq_typed (with_via s a k v).
Proof. intros [] ?. by split. Qed.
Lemma typed_with_links s t : irq_typed s -> Forall is_byte t -> irq_typed (with_links s t).
Proof. intros [] ?. by split. Qed.
Lemma typed_with_gsis s t : irq_typed s -> Forall is_byte t -> irq_typed (with_gsis s t).
Proof. intros [] ?. by split. Qed.
Lemma typed_dpci_fixup o s : irq_typed s -> irq_typed (dpci_fixup o s).
Proof. intros []. unfold dpci_fixup. destruct (irq_dpci s); by split. Qed.

#[export] Hint Resolve typed_with_pci typed_with_isa typed_with_link typed_with_via typed_with_links typed_with_gsis
  typed_dpci_fixup tinc_u8 tdec_u8 tset_u8 set_bit_range clear_bit_range it_pci it_isa it_link it_via it_links it_gsis : irqtype.

(** Splits an operation at its tests and types what it leaves. *)
Ltac typed_op :=
  cbv zeta; repeat (match goal with |- irq_typed (fst (if ?b then _ else _)) => destruct b end);
  cbn [fst]; repeat first [assumption | apply typed_with_pci | apply typed_with_isa | apply typed_with_link | apply typed_with_via
    | apply typed_with_links | apply typed_with_gsis | apply typed_dpci_fixup | apply tinc_u8 | apply tdec_u8 | apply tset_u8];
  irq_fields; eauto with irqtype.

Lemma intx_assert_typed use_pirq device intx s :
  0 <= device <= 31 -> 0 <= intx <= 3 -> irq_typed s -> irq_typed (__hvm_pci_intx_assert use_pirq device intx s).1.
Proof. intros Hd Hi Hs. assert (0 <= device * 4 + intx < 128) by lia. unfold __hvm_pci_intx_assert. typed_op. Qed.

Lemma intx_deassert_typed use_pirq device intx s :
  0 <= device <= 31 -> 0 <= intx <= 3 -> irq_typed s -> irq_typed (__hvm_pci_intx_deassert use_pirq device intx s).1.
Proof. intros Hd Hi Hs. assert (0 <= device * 4 + intx < 128) by lia. unfold __hvm_pci_intx_deassert. typed_op. Qed.

#[export] Hint Resolve intx_assert_typed intx_deassert_typed : irqtype.

Lemma tear_down_typed use_pirq s : irq_ok s -> irq_typed s -> irq_typed (tear_down_via use_pirq s).1.
Proof.
  intros Hok Hs. unfold tear_down_via. destruct (callback_via_asserted s); [|done].
  destruct (callback_via_type s) eqn:Et; cbn [fst]; eauto with irqtype.
  destruct (via_bounds s Hok Et). eauto with irqtype.
Qed.

Lemma callback_via_typed use_pirq via s : irq_ok s -> irq_typed s -> irq_typed (hvm_set_callback_via use_pirq via s).1.
Proof.
  intros Hok Hs. pose proof (tear_down_typed use_pirq s Hok Hs) as Ht. unfold hvm_set_callback_via.
  destruct (tear_down_via use_pirq s) as [s1 ev]. cbn [fst] in Ht. pose proof (it_via s1 Ht).
  pose proof (Z.mod_pos_bound via 256 ltac:(lia)). assert (0 <= via mod 256 < 2 ^ 32) by lia.
  destruct (via_type_of via); [typed_op|typed_op| |typed_op].
  set (pdev := ((via .>> 11) mod 256) .& 31). set (pintx := (via mod 256) .& 3).
  assert (0 <= pdev <= 31) by (pose proof (land_range ((via .>> 11) mod 256) 31 5); unfold pdev; lia).
  assert (0 <= pintx <= 3) by (pose proof (land_range (via mod 256) 3 2); unfold pintx; lia).
  assert (0 <= callback_via s1 - callback_via s1 mod 65536 + pdev + 256 * pintx < 2 ^ 32) by zlia.
  set (s2 := with_via s1 _ HVMIRQ_callback_pci_intx _). assert (irq_typed s2) as Hs2 by (apply typed_with_via; done).
  destruct (callback_via_asserted s2); [|done]. pose proof (intx_assert_typed use_pirq pdev pintx s2) as Ha.
  destruct (__hvm_pci_intx_assert use_pirq pdev pintx s2). by apply Ha.
Qed.

Lemma exec_typed use_pirq o s : valid_op o -> irq_ok s -> irq_typed s -> irq_typed (exec use_pirq s o).
Proof.
  intros Hv Hok Hs. destruct o; cbn [valid_op exec] in *; try destruct Hv; eauto using callback_via_typed with irqtype.
  - assert (0 <= irq < 64) by lia. unfold hvm_isa_irq_assert. typed_op.
  - assert (0 <= irq < 64) by lia. unfold hvm_isa_irq_deassert. typed_op.
  - unfold hvm_set_callback_irq_level. irq_fields. case_bool_decide; [done|].
    assert (irq_typed (with_via s pending (callback_via_type s) (callback_via s))) as Hs1 by eauto with irqtype.
    destruct (callback_via_type s) eqn:Et; [done|destruct pending; cbn [fst]; eauto with irqtype| |done].
    destruct (via_bounds s Hok Et). destruct pending; apply intx_assert_typed || apply intx_deassert_typed; done.
  - assert (is_byte isa) by (unfold is_byte; lia). unfold hvm_set_pci_link_route. destruct (_ =? isa); [done|]. cbv zeta.
    set (s1 := dpci_fixup _ _). assert (irq_typed s1) as Hs1 by (unfold s1; eauto with irqtype). clearbody s1. destruct (_ =? 0); [done|].
    destruct (truthy (count (pci_link s) link)), (truthy isa); typed_op.
Qed.

(** ** The counts are a function of the lines *)

(** Equal apart from PCI lines and counts. *)
Record same_frame (s s' : hvm_irq) : Prop := {
  sf_isa : isa_irq s' = isa_irq s; sf_link : pci_link s' = pci_link s;
  sf_asserted : callback_via_asserted s' = callback_via_asserted s; sf_type : callback_via_type s' = callback_via_type s;
  sf_via : callback_via s' = callback_via s; sf_dpci : irq_dpci s' = irq_dpci s
}.

Lemma same_frame_trans a b c : same_frame a b -> same_frame b c -> same_frame a c.
Proof. intros [] []. split; congruence. Qed.

Lemma intx_assert_frame use_pirq device intx s :
  let s' := (__hvm_pci_intx_assert use_pirq device intx s).1 in
  same_frame s s' /\ pci_intx s' = set_bit (pci_intx s) (device * 4 + intx) \/
  s' = s /\ Z.testbit (pci_intx s) (device * 4 + intx) = true.
Proof.
  cbv zeta. unfold __hvm_pci_intx_assert. destruct (Z.testbit _ _) eqn:E; [by right|left].
  destruct (_ && _); done.
Qed.

Lemma intx_deassert_frame use_pirq device intx s :
  let s' := (__hvm_pci_intx_deassert use_pirq device intx s).1 in
  same_frame s s' /\ pci_intx s' = clear_bit (pci_intx s) (device * 4 + intx) \/
  s' = s /\ Z.testbit (pci_intx s) (device * 4 + intx) = false.
Proof.
  cbv zeta. unfold __hvm_pci_intx_deassert. destruct (Z.testbit _ _) eqn:E; cbn [negb]; [left|by right].
  irq_fields. destruct (_ && _); done.
Qed.

Lemma count_ext t t' : length t = length t' -> (forall g, 0 <= g < Z.of_nat (length t) -> count t g = count t' g) -> t = t'.
Proof.
  intros Hl Hc. apply (list_eq_same_length _ _ (length t)); [done|done|]. intros i x y Hi Hx Hy.
  specialize (Hc (Z.of_nat i) ltac:(lia)). unfold count in Hc. rewrite Nat2Z.id in Hc.
  rewrite (list_lookup_total_correct _ _ _ Hx), (list_lookup_total_correct _ _ _ Hy) in Hc. done.
Qed.

Lemma irq_ok_determined s s' : irq_ok s -> irq_ok s' -> same_frame s s' -> pci_intx s' = pci_intx s -> s' = s.
Proof.
  intros [G L _ _ Hl Hg _] [G' L' _ _ Hl' Hg' _] [E1 E2 E3 E4 E5 E6] Ep. unfold VIOAPIC_NUM_PINS, NR_LINK in *.
  assert (pci_link_assert_count s' = pci_link_assert_count s) as El.
  { apply count_ext; [congruence|]. intros l Hr. rewrite L' in Hr. rewrite Hl, Hl', Ep by lia. done. }
  assert (gsi_assert_count s' = gsi_assert_count s) as Eg.
  { apply count_ext; [congruence|]. intros g Hr. rewrite G' in Hr. rewrite Hg, Hg' by lia.
    unfold wires, via_wire, link_wires, route. by rewrite Ep, E1, E2, E3, E4, E5. }
  destruct s, s'; cbn in *; congruence.
Qed.

(** ** Saving and loading the lines *)

Definition PCI_IRQ : htype := HType 7 16 None.
Definition ISA_IRQ : htype := HType 8 8 None.
Definition PCI_LINK : htype := HType 9 8 None.

(** The eight bytes of [struct hvm_hw_pci_link]. *)
Definition link_bytes (s : hvm_irq) : list Z := resize 8 0 (pci_link s).

Section Migration.
(** The domain has the lines as a part of its state, and [deliver] does what
    the interrupt controllers and the guest do about events. *)
Context {S : Type} `{!Component S hvm_irq} (use_pirq : Z -> option Z) (deliver : list event -> S -> S).
Implicit Types d : hdom S.

Definition via_intx_asserted (s : hvm_irq) : bool :=
  callback_via_asserted s && bool_decide (callback_via_type s = HVMIRQ_callback_pci_intx).

Definition irq_save_pci (d : hdom S) (h : hctx) : run (Z * hctx * hdom S) :=
  let s := dget d in
  let pdev := via_dev s in
  let pintx := via_intx s in
  let asserted := via_intx_asserted s in
  let '(s1, ev1) := if asserted then __hvm_pci_intx_deassert use_pirq pdev pintx s else (s, []) in
  let '(rc, h) := hvm_save_entry PCI_IRQ 0 h (le_bytes 16 (pci_intx s1)) in
  let '(s2, ev2) := if asserted then __hvm_pci_intx_assert use_pirq pdev pintx s1 else (s1, []) in
  Ret (rc, h, set_dev d (deliver (ev1 ++ ev2) (sput s2 (dev d)))).

Definition irq_save_isa (d : hdom S) (h : hctx) : run (Z * hctx * hdom S) :=
  let '(rc, h) := hvm_save_entry ISA_IRQ 0 h (le_bytes 8 (isa_irq (dget d))) in Ret (rc, h, d).

Definition irq_save_link (d : hdom S) (h : hctx) : run (Z * hctx * hdom S) :=
  let '(rc, h) := hvm_save_entry PCI_LINK 0 h (link_bytes (dget d)) in Ret (rc, h, d).

Definition irq_load_pci (d : hdom S) (h : hctx) : run (Z * hctx * hdom S) :=
  '(r, h, data) ← hvm_load_entry PCI_IRQ h (le_bytes 16 (pci_intx (dget d)));
  if negb (r =? 0) then Ret (- EINVAL, h, d) else Ret (0, h, dput (load_pci data (dget d)) d).

Definition irq_load_isa (d : hdom S) (h : hctx) : run (Z * hctx * hdom S) :=
  '(r, h, data) ← hvm_load_entry ISA_IRQ h (le_bytes 8 (isa_irq (dget d)));
  if negb (r =? 0) then Ret (- EINVAL, h, d) else Ret (0, h, dput (load_isa data (dget d)) d).

Definition irq_load_link (d : hdom S) (h : hctx) : run (Z * hctx * hdom S) :=
  '(r, h, data) ← hvm_load_entry PCI_LINK h (link_bytes (dget d));
  if negb (r =? 0) then Ret (- EINVAL, h, d)
  else
    let d := dput (with_link (dget d) data) d in
    if negb (routes_valid (dget d)) then Ret (- EINVAL, h, d) else Ret (0, h, dput (recount_link (dget d)) d).

(** The lines without the callback, and the domain once they are saved. *)
Definition lines_saved (s : hvm_irq) : hvm_irq :=
  if via_intx_asserted s then (__hvm_pci_intx_deassert use_pirq (via_dev s) (via_intx s) s).1 else s.
Definition pci_saved (d : hdom S) : hdom S :=
  let s := dget d in
  let '(s1, ev1) := if via_intx_asserted s then __hvm_pci_intx_deassert use_pirq (via_dev s) (via_intx s) s else (s, []) in
  let '(s2, ev2) := if via_intx_asserted s then __hvm_pci_intx_assert use_pirq (via_dev s) (via_intx s) s1 else (s1, []) in
  set_dev d (deliver (ev1 ++ ev2) (sput s2 (dev d))).

Definition pci_shape : shape S :=
  Shape PCI_IRQ true 1 HVMSR_PER_DOM (fun r => r) (fun d => [(0, le_bytes 16 (pci_intx (lines_saved (dget d))))]) pci_saved
    (fun _ d => (0, d)) (fun _ d => le_bytes 16 (pci_intx (dget d))) (fun _ data d => (0, dput (load_pci data (dget d)) d)).
Definition isa_shape : shape S :=
  Shape ISA_IRQ true 1 HVMSR_PER_DOM (fun r => r) (fun d => [(0, le_bytes 8 (isa_irq (dget d)))]) (fun d => d)
    (fun _ d => (0, d)) (fun _ d => le_bytes 8 (isa_irq (dget d))) (fun _ data d => (0, dput (load_isa data (dget d)) d)).
Definition link_shape : shape S :=
  Shape PCI_LINK true 1 HVMSR_PER_DOM (fun r => r) (fun d => [(0, link_bytes (dget d))]) (fun d => d)
    (fun _ d => (0, d)) (fun _ d => link_bytes (dget d))
    (fun _ data d => let d := dput (with_link (dget d) data) d in
       if routes_valid (dget d) then (0, dput (recount_link (dget d)) d) else (- EINVAL, d)).

Definition pci_handler : handler S := Handler irq_save_pci irq_load_pci (reg_size 1 PCI_IRQ) HVMSR_PER_DOM.
Definition isa_handler : handler S := Handler irq_save_isa irq_load_isa (reg_size 1 ISA_IRQ) HVMSR_PER_DOM.
Definition link_handler : handler S := Handler irq_save_link irq_load_link (reg_size 1 PCI_LINK) HVMSR_PER_DOM.

Lemma irq_saves_one t h data d :
  (let '(rc, h) := hvm_save_entry t 0 h data in Ret (rc, h, d)) =
  (let '(r, h) := save_each t (fun r => r) [(0, data)] h in Ret (r, h, d)) :> run (Z * hctx * hdom S).
Proof.
  cbn [save_each]. destruct (hvm_save_entry t 0 h data) as [rc h']. destruct (Z.eqb_spec rc 0) as [->|]; done.
Qed.

#[export] Instance pci_laws : DeviceLaws 7 (shape_device pci_handler pci_shape).
Proof.
  apply (shape_laws pci_handler pci_shape).
  - split; cbn; try done; intros; unfold pci_saved; rewrite ?le_bytes_length; try done.
    + by repeat constructor; cbn; rewrite le_bytes_length.
    + destruct (if via_intx_asserted _ then _ else _) as [s1 ev1]. destruct (if via_intx_asserted _ then _ else _) as [s2 ev2]. done.
  - split; try done. intros d h. cbn [pci_handler h_save]. unfold irq_save_pci, shape_save.
    cbn [pci_shape sh_type sh_fail sh_items sh_after]. rewrite <- irq_saves_one. unfold pci_saved, lines_saved.
    destruct (via_intx_asserted (dget d)); [|by destruct (hvm_save_entry PCI_IRQ 0 h _)].
    destruct (__hvm_pci_intx_deassert use_pirq _ _ (dget d)) as [s1 ev1]. cbn [fst].
    destruct (__hvm_pci_intx_assert use_pirq _ _ s1) as [s2 ev2]. by destruct (hvm_save_entry PCI_IRQ 0 h _).
Qed.

#[export] Instance isa_laws : DeviceLaws 8 (shape_device isa_handler isa_shape).
Proof.
  apply (shape_laws isa_handler isa_shape).
  - split; cbn; try done; intros; rewrite ?le_bytes_length; try done. by repeat constructor; cbn; rewrite le_bytes_length.
  - split; try done. intros d h. apply irq_saves_one.
Qed.

#[export] Instance link_laws : DeviceLaws 9 (shape_device link_handler link_shape).
Proof.
  apply (shape_laws link_handler link_shape).
  - split; cbn; try done; intros; unfold link_bytes; rewrite ?length_resize; try done. by repeat constructor; cbn; rewrite length_resize.
  - split; try done; intros d h; [apply irq_saves_one|]. cbn [link_handler h_load]. unfold irq_load_link, shape_load, load_one.
    cbn [link_shape sh_type sh_strict sh_pre sh_init sh_post Z.eqb negb]. unfold hvm_load_entry.
    destruct (_hvm_load_entry PCI_LINK h (link_bytes (dget d)) true) as [[[r h'] data]| |]; try done. cbn [mbind run_bind].
    destruct (r =? 0); cbn [negb]; [|done]. by destruct (routes_valid _).
Qed.

(** ** What a migration does to the lines *)

(** The line of the callback, when it is one. *)
Definition via_line (s : hvm_irq) : Z := via_dev s * 4 + via_intx s.

Lemma via_intx_asserted_type s : via_intx_asserted s = true -> callback_via_type s = HVMIRQ_callback_pci_intx.
Proof. unfold via_intx_asserted. intros [_ H%bool_decide_eq_true]%andb_true_iff. done. Qed.

Lemma lines_saved_ok s : irq_ok s -> irq_ok (lines_saved s).
Proof.
  intros Hok. unfold lines_saved. destruct (via_intx_asserted s) eqn:E; [|done].
  destruct (via_bounds s Hok (via_intx_asserted_type s E)). by apply intx_deassert_ok.
Qed.

Lemma lines_saved_typed s : irq_ok s -> irq_typed s -> irq_typed (lines_saved s).
Proof.
  intros Hok Hs. unfold lines_saved. destruct (via_intx_asserted s) eqn:E; [|done].
  destruct (via_bounds s Hok (via_intx_asserted_type s E)). by apply intx_deassert_typed.
Qed.

(** The saved lines are the asserted ones without the callback's. *)
Lemma lines_saved_frame s : same_frame s (lines_saved s).
Proof.
  unfold lines_saved. destruct (via_intx_asserted s); [|done].
  destruct (intx_deassert_frame use_pirq (via_dev s) (via_intx s) s) as [[? _]|[-> _]]; done.
Qed.

Lemma lines_saved_bits s k : irq_ok s -> 0 <= k ->
  Z.testbit (pci_intx (lines_saved s)) k = Z.testbit (pci_intx s) k && negb (via_intx_asserted s && (k =? via_line s)).
Proof.
  intros Hok Hk. unfold lines_saved. destruct (via_intx_asserted s) eqn:Ea; [|by rewrite andb_true_r]. cbn [andb].
  destruct (via_bounds s Hok (via_intx_asserted_type s Ea)) as [H1 H2].
  destruct (intx_deassert_frame use_pirq (via_dev s) (via_intx s) s) as [[_ ->]|[-> E]].
  - rewrite clear_bit_spec by lia. by rewrite andb_comm.
  - unfold via_line. destruct (Z.eqb_spec k (via_dev s * 4 + via_intx s)) as [->|]; cbn; [by rewrite E|by rewrite andb_true_r].
Qed.

(** Saving puts the line of the callback back, so that the guest's lines are
    as they were. *)
Lemma pci_saved_same (deliver_irq : forall ev s, sget (T:=hvm_irq) (deliver ev s) = sget s) d :
  irq_ok (dget d) -> (via_intx_asserted (dget d) = true -> Z.testbit (pci_intx (dget d)) (via_line (dget d)) = true) ->
  dget (pci_saved d) = dget d.
Proof.
  intros Hok Hbit. unfold pci_saved. cbv zeta. set (s := dget d) in *. destruct (via_intx_asserted s) eqn:Ea.
  2: { unfold dget, set_dev. cbn [dev]. by rewrite deliver_irq, sget_sput. }
  specialize (Hbit eq_refl). destruct (via_bounds s Hok (via_intx_asserted_type s Ea)) as [H1 H2].
  pose proof (intx_deassert_ok use_pirq _ _ s H1 H2 Hok) as Hok1.
  pose proof (intx_deassert_frame use_pirq (via_dev s) (via_intx s) s) as [[F1 E1]|[_ E]]; [|unfold via_line in Hbit; congruence].
  destruct (__hvm_pci_intx_deassert use_pirq (via_dev s) (via_intx s) s) as [s1 ev1]. cbn [fst] in *.
  pose proof (intx_assert_ok use_pirq _ _ s1 H1 H2 Hok1) as Hok2.
  pose proof (intx_assert_frame use_pirq (via_dev s) (via_intx s) s1) as F2.
  destruct (__hvm_pci_intx_assert use_pirq (via_dev s) (via_intx s) s1) as [s2 ev2]. cbn [fst] in *.
  unfold dget at 1, set_dev. cbn [dev]. rewrite deliver_irq, sget_sput.
  destruct F2 as [[F2 E2]|[_ E]]; [|rewrite E1, clear_bit_spec, Z.eqb_refl in E by lia; done].
  apply irq_ok_determined; [done|done|by eapply same_frame_trans|]. rewrite E2, E1. apply Z.bits_inj'. intros k Hk.
  rewrite set_bit_spec, clear_bit_spec by lia. unfold via_line in Hbit. destruct (Z.eqb_spec k (via_dev s * 4 + via_intx s)) as [->|]; [done|done].
Qed.

Lemma link_bytes_ok s : length (pci_link s) = 8%nat -> link_bytes s = pci_link s.
Proof. intros H. unfold link_bytes. by apply resize_all_alt. Qed.

Lemma routes_valid_ok s : irq_ok s -> forall t, routes_valid (with_link t (link_bytes s)) = true.
Proof.
  intros Hok t. unfold routes_valid. apply forallb_forall. intros l Hl%list_elem_of_In%elem_of_seqZ. irq_fields.
  rewrite link_bytes_ok by apply Hok. destruct Hok as [_ _ _ Hr _ _ _]. specialize (Hr l). unfold route, NR_LINK in Hr. lia.
Qed.

(** Loading the three records of [s] into lines whose callback is quiet. *)
Lemma lines_restored s t :
  irq_ok s -> irq_typed s -> callback_via_asserted t = false -> via_ok (callback_via_type t) (callback_via t) ->
  let t' := load_link (link_bytes s) (load_isa (le_bytes 8 (isa_irq s)) (load_pci (le_bytes 16 (pci_intx (lines_saved s))) t)) in
  irq_ok t' /\ pci_intx t' = pci_intx (lines_saved s) /\ isa_irq t' = isa_irq s /\ pci_link t' = pci_link s /\
  callback_via_asserted t' = false.
Proof.
  intros Hok Hs Ha Hv. rewrite link_bytes_ok by apply Hok. pose proof (lines_saved_typed s Hok Hs) as [Hp _ _ _ _ _].
  pose proof Hs as [_ Hi _ _ _ _]. pose proof (io_route s Hok) as Hl.
  pose proof (load_counts_ok t (le_bytes 16 (pci_intx (lines_saved s))) (le_bytes 8 (isa_irq s)) (pci_link s) Ha Hv Hl (io_routes s Hok)) as H.
  rewrite !le_val_bytes in H. rewrite !Z.mod_small in H by (exact Hp || exact Hi). exact H.
Qed.

(** The counts of the target are those of the source, apart from the
    callback's share, which the target raises again by itself. *)
Lemma counts_restored s t' g :
  irq_ok s -> irq_ok t' -> pci_intx t' = pci_intx (lines_saved s) -> isa_irq t' = isa_irq s -> pci_link t' = pci_link s ->
  callback_via_asserted t' = false -> 0 <= g < VIOAPIC_NUM_PINS ->
  count (gsi_assert_count t') g = count (gsi_assert_count (lines_saved s)) g - via_wire s g.
Proof.
  intros Hok Hok' E1 E2 E3 E4 Hg. pose proof (lines_saved_ok s Hok) as Hok1. pose proof (lines_saved_frame s) as [F1 F2 F3 F4 F5 _].
  rewrite (io_gsi _ Hok' g Hg), (io_gsi _ Hok1 g Hg). unfold wires, via_wire, link_wires, route. rewrite E1, E2, E3, E4, F1, F2, F3, F4, F5. cbn [andb Z.b2z]. lia.
Qed.

End Migration.

End HvmIrq.
