(* ===== verification/Vpic.v ===== *)
(** The programmable interrupt controllers of an HVM guest.

    Models xen/arch/x86/hvm/vpic.c and [struct hvm_hw_vpic]
    (xen/include/public/arch-x86/hvm/save.h): the two cascaded 8259A, their
    registers as the guest programs them, the INT output that the hypervisor
    keeps up to date, and how they are saved and loaded.  A pointer to a
    controller is its index in [d->arch.hvm_domain.vpic]; [Bug] is a failed
    [BUG_ON] or [ASSERT], or an access outside of the array. *)

From S2P Require Import Prelude HvmContext HvmHandler.

Module Vpic.
Import HvmContext HvmHandler.

(** ** State *)

Record hvm_hw_vpic := Vpic {
  irr : Z; imr : Z; isr : Z; irq_base : Z; init_state : Z; priority_add : Z;
  readsel_isr : bool; poll : bool; auto_eoi : bool; rotate_on_auto_eoi : bool;
  special_fully_nested_mode : bool; special_mask_mode : bool; is_master : bool;
  elcr : Z; int_output : Z
}.

Definition vpic_zero : hvm_hw_vpic := Vpic 0 0 0 0 0 0 false false false false false false false 0 0.
#[global] Instance vpic_inhabited : Inhabited hvm_hw_vpic := populate vpic_zero.

Definition set_irr (v : hvm_hw_vpic) (x : Z) : hvm_hw_vpic :=
  Vpic x (imr v) (isr v) (irq_base v) (init_state v) (priority_add v) (readsel_isr v) (poll v) (auto_eoi v) (rotate_on_auto_eoi v) (special_fully_nested_mode v) (special_mask_mode v) (is_master v) (elcr v) (int_output v).
Definition set_imr (v : hvm_hw_vpic) (x : Z) : hvm_hw_vpic :=
  Vpic (irr v) x (isr v) (irq_base v) (init_state v) (priority_add v) (readsel_isr v) (poll v) (auto_eoi v) (rotate_on_auto_eoi v) (special_fully_nested_mode v) (special_mask_mode v) (is_master v) (elcr v) (int_output v).
Definition set_isr (v : hvm_hw_vpic) (x : Z) : hvm_hw_vpic :=
  Vpic (irr v) (imr v) x (irq_base v) (init_state v) (priority_add v) (readsel_isr v) (poll v) (auto_eoi v) (rotate_on_auto_eoi v) (special_fully_nested_mode v) (special_mask_mode v) (is_master v) (elcr v) (int_output v).
Definition set_irq_base (v : hvm_hw_vpic) (x : Z) : hvm_hw_vpic :=
  Vpic (irr v) (imr v) (isr v) x (init_state v) (priority_add v) (readsel_isr v) (poll v) (auto_eoi v) (rotate_on_auto_eoi v) (special_fully_nested_mode v) (special_mask_mode v) (is_master v) (elcr v) (int_output v).
Definition set_init_state (v : hvm_hw_vpic) (x : Z) : hvm_hw_vpic :=
  Vpic (irr v) (imr v) (isr v) (irq_base v) x (priority_add v) (readsel_isr v) (poll v) (auto_eoi v) (rotate_on_auto_eoi v) (special_fully_nested_mode v) (special_mask_mode v) (is_master v) (elcr v) (int_output v).
Definition set_priority_add (v : hvm_hw_vpic) (x : Z) : hvm_hw_vpic :=
  Vpic (irr v) (imr v) (isr v) (irq_base v) (init_state v) x (readsel_isr v) (poll v) (auto_eoi v) (rotate_on_auto_eoi v) (special_fully_nested_mode v) (special_mask_mode v) (is_master v) (elcr v) (int_output v).
Definition set_readsel_isr (v : hvm_hw_vpic) (x : bool) : hvm_hw_vpic :=
  Vpic (irr v) (imr v) (isr v) (irq_base v) (init_state v) (priority_add v) x (poll v) (auto_eoi v) (rotate_on_auto_eoi v) (special_fully_nested_mode v) (special_mask_mode v) (is_master v) (elcr v) (int_output v).
Definition set_poll (v : hvm_hw_vpic) (x : bool) : hvm_hw_vpic :=
  Vpic (irr v) (imr v) (isr v) (irq_base v) (init_state v) (priority_add v) (readsel_isr v) x (auto_eoi v) (rotate_on_auto_eoi v) (special_fully_nested_mode v) (special_mask_mode v) (is_master v) (elcr v) (int_output v).
Definition set_auto_eoi (v : hvm_hw_vpic) (x : bool) : hvm_hw_vpic :=
  Vpic (irr v) (imr v) (isr v) (irq_base v) (init_state v) (priority_add v) (readsel_isr v) (poll v) x (rotate_on_auto_eoi v) (special_fully_nested_mode v) (special_mask_mode v) (is_master v) (elcr v) (int_output v).
Definition set_rotate_on_auto_eoi (v : hvm_hw_vpic) (x : bool) : hvm_hw_vpic :=
  Vpic (irr v) (imr v) (isr v) (irq_base v) (init_state v) (priority_add v) (readsel_isr v) (poll v) (auto_eoi v) x (special_fully_nested_mode v) (special_mask_mode v) (is_master v) (elcr v) (int_output v).
Definition set_special_fully_nested_mode (v : hvm_hw_vpic) (x : bool) : hvm_hw_vpic :=
  Vpic (irr v) (imr v) (isr v) (irq_base v) (init_state v) (priority_add v) (readsel_isr v) (poll v) (auto_eoi v) (rotate_on_auto_eoi v) x (special_mask_mode v) (is_master v) (elcr v) (int_output v).
Definition set_special_mask_mode (v : hvm_hw_vpic) (x : bool) : hvm_hw_vpic :=
  Vpic (irr v) (imr v) (isr v) (irq_base v) (init_state v) (priority_add v) (readsel_isr v) (poll v) (auto_eoi v) (rotate_on_auto_eoi v) (special_fully_nested_mode v) x (is_master v) (elcr v) (int_output v).
Definition set_elcr (v : hvm_hw_vpic) (x : Z) : hvm_hw_vpic :=
  Vpic (irr v) (imr v) (isr v) (irq_base v) (init_state v) (priority_add v) (readsel_isr v) (poll v) (auto_eoi v) (rotate_on_auto_eoi v) (special_fully_nested_mode v) (special_mask_mode v) (is_master v) x (int_output v).
Definition set_int_output (v : hvm_hw_vpic) (x : Z) : hvm_hw_vpic :=
  Vpic (irr v) (imr v) (isr v) (irq_base v) (init_state v) (priority_add v) (readsel_isr v) (poll v) (auto_eoi v) (rotate_on_auto_eoi v) (special_fully_nested_mode v) (special_mask_mode v) (is_master v) (elcr v) x.

Ltac vpic_fields := cbn [set_irr set_imr set_isr set_irq_base set_init_state set_priority_add set_readsel_isr set_poll set_auto_eoi set_rotate_on_auto_eoi set_special_fully_nested_mode set_special_mask_mode set_elcr set_int_output irr imr isr irq_base init_state priority_add readsel_isr poll auto_eoi rotate_on_auto_eoi special_fully_nested_mode special_mask_mode is_master elcr int_output].

(** The two controllers, and what they ask of the rest of the hypervisor. *)
Abbreviation pics := (list hvm_hw_vpic).
Inductive effect := VcpuKick | DpciEoi (gsi : Z) | PtMayUnmask.

Definition VPIC_PRIO_NONE : Z := 8.

(** ** Priorities *)

(** [ror] on a byte, and [bsf] on a byte that is not zero. *)
Definition ror8 (m n : Z) : Z := ((m .>> (n mod 8)) .| (m .<< (8 - n mod 8))) .& 255.
Definition bsf8 (m : Z) : Z := default 8 (list_find (fun i => Z.testbit m i = true) (seqZ 0 8) ≫= fun p => Some p.2).

Definition vpic_get_priority (v : hvm_hw_vpic) (mask : Z) : Z :=
  if mask =? 0 then VPIC_PRIO_NONE else bsf8 (ror8 mask (priority_add v)).

Definition vpic_get_highest_priority_irq (v : hvm_hw_vpic) : Z :=
  let mask := irr v .& not_w 8 (imr v) in
  let priority := vpic_get_priority v mask in
  if priority =? VPIC_PRIO_NONE then -1
  else
    let irq := (priority + priority_add v) .& 7 in
    let mask := isr v in
    let mask := if special_fully_nested_mode v && is_master v && (irq =? 2) then mask .& not_w 8 (1 .<< 2) else mask in
    let mask := if special_mask_mode v then mask .& not_w 8 (imr v) else mask in
    let cur_priority := vpic_get_priority v mask in
    if priority <? cur_priority then irq else -1.

(** ** Operations *)

(** Reading and writing [vpic[i]]. *)
Definition vget (s : pics) (i : nat) : hvm_hw_vpic := s !!! i.
Definition vset (s : pics) (i : nat) (v : hvm_hw_vpic) : pics := <[i := v]> s.

(** [target] says whether some virtual CPU takes the interrupts of the
    controllers. *)
Section Operations.
Context (target : bool).

Fixpoint vpic_update_int_output (i : nat) (s : pics) : run (pics * list effect) :=
  let v := vget s i in
  let irq := vpic_get_highest_priority_irq v in
  if int_output v =? Z.b2z (irq >=? 0) then Ret (s, [])
  else
    let out := Z.b2z (int_output v =? 0) in
    let s := vset s i (set_int_output v out) in
    if truthy out then
      if is_master v then Ret (s, if target then [VcpuKick] else [])
      else match i with
           | O => Bug
           | Datatypes.S j => vpic_update_int_output j (vset s j (set_irr (vget s j) (irr (vget s j) .| (1 .<< 2))))
           end
    else if negb (is_master v) then
      match i with
      | O => Bug
      | Datatypes.S j => vpic_update_int_output j (vset s j (set_irr (vget s j) (irr (vget s j) .& not_w 8 (1 .<< 2))))
      end
    else Ret (s, []).

Definition __vpic_intack (i : nat) (irq : Z) (s : pics) : run (pics * list effect) :=
  let v := vget s i in
  let mask := (1 .<< irq) mod 256 in
  let v := if (elcr v .& mask) =? 0 then set_irr v (irr v .& not_w 8 mask) else v in
  let v := if negb (auto_eoi v) then set_isr v (isr v .| mask)
           else if rotate_on_auto_eoi v then set_priority_add v ((irq + 1) .& 7) else v in
  vpic_update_int_output i (vset s i v).

Definition vpic_intack (i : nat) (s : pics) : run (pics * list effect * Z) :=
  if int_output (vget s i) =? 0 then Ret (s, [], -1)
  else
    let irq := vpic_get_highest_priority_irq (vget s i) in
    if irq <? 0 then Bug
    else
      '(s, ev) ← __vpic_intack i irq s;
      if (irq =? 2) && is_master (vget s i) then
        let i := Datatypes.S i in
        if bool_decide (length s <= i)%nat then Bug
        else
          let irq := vpic_get_highest_priority_irq (vget s i) in
          if irq <? 0 then Bug
          else '(s, ev2) ← __vpic_intack i irq s; Ret (s, ev ++ ev2, irq + 8)
      else Ret (s, ev, irq).

(** ICW1, OCW3 and OCW2: a write to an even port.  The result tells which lines
    may have been unmasked, and the interrupt whose end was specified. *)
Definition icw1 (v : hvm_hw_vpic) (val : Z) : hvm_hw_vpic :=
  let v := set_irr v (irr v .& elcr v) in
  let v := set_isr (set_imr v 0) 0 in
  let v := set_rotate_on_auto_eoi (set_priority_add v 0) false in
  let v := set_poll (set_readsel_isr (set_special_mask_mode v false) false) false in
  let v := if negb (truthy (val .& 1)) then set_special_fully_nested_mode (set_auto_eoi v false) false else v in
  set_init_state v (((val .& 3) .<< 2) .| 1).

Definition ocw3 (v : hvm_hw_vpic) (val : Z) : hvm_hw_vpic :=
  let v := if truthy (val .& 4) then set_poll v true else v in
  let v := if truthy (val .& 2) then set_readsel_isr v (truthy (val .& 1)) else v in
  if truthy (val .& 64) then set_special_mask_mode v (truthy ((val .>> 5) .& 1)) else v.

(** Commands 0, 4, 1, 5, 3, 7, 6 (and 2, which does nothing). *)
Definition ocw2 (v : hvm_hw_vpic) (val : Z) : hvm_hw_vpic * option Z :=
  let cmd := val .>> 5 in
  if (cmd =? 0) || (cmd =? 4) then (set_rotate_on_auto_eoi v (truthy (cmd .>> 2)), None)
  else if (cmd =? 1) || (cmd =? 5) then
    let mask := isr v in
    let mask := if special_mask_mode v then mask .& not_w 8 (imr v) else mask in
    let priority := vpic_get_priority v mask in
    if priority =? VPIC_PRIO_NONE then (v, None)
    else
      let irq := (priority + priority_add v) .& 7 in
      let v := set_isr v (isr v .& not_w 8 (1 .<< irq)) in
      (if cmd =? 5 then set_priority_add v ((irq + 1) .& 7) else v, None)
  else if (cmd =? 3) || (cmd =? 7) then
    let irq := val .& 7 in
    let v := set_isr v (isr v .& not_w 8 (1 .<< irq)) in
    (if cmd =? 7 then set_priority_add v ((irq + 1) .& 7) else v, Some irq)
  else if cmd =? 6 then (set_priority_add v ((val + 1) .& 7), None)
  else (v, None).

(** ICW3 (or no ICW3 and straight on from ICW2); [init_state] has four bits. *)
Definition icw3 (v : hvm_hw_vpic) : hvm_hw_vpic :=
  let v := set_init_state v ((init_state v + 1) mod 16) in
  if (init_state v .& 4) =? 0 then set_init_state v 0 else v.

(** OCW1 and ICW2 to ICW4: a write to an odd port. *)
Definition odd_write (v : hvm_hw_vpic) (val : Z) : hvm_hw_vpic :=
  let x := init_state v .& 3 in
  if x =? 0 then set_imr v val
  else if x =? 1 then
    let v := set_init_state (set_irq_base v (val .& 0xf8)) ((init_state v + 1) mod 16) in
    if (init_state v .& 8) =? 0 then v else icw3 v
  else if x =? 2 then icw3 v
  else set_init_state (set_auto_eoi (set_special_fully_nested_mode v (truthy ((val .>> 4) .& 1))) (truthy ((val .>> 1) .& 1))) 0.

Definition vpic_ioport_write (i : nat) (addr val : Z) (s : pics) : run (pics * list effect) :=
  let v := vget s i in
  let even := (addr .& 1) =? 0 in
  let icw := even && truthy (val .& 0x10) in
  let unmasked :=
    if icw then imr v
    else if negb even && ((init_state v .& 3) =? 0) then imr v .& not_w 8 val else 0 in
  let '(v, eoi) :=
    if icw then (icw1 v val, None)
    else if even then if truthy (val .& 8) then (ocw3 v val, None) else ocw2 v val
    else (odd_write v val, None) in
  '(s, ev) ← vpic_update_int_output i (vset s i v);
  match eoi with
  | Some irq =>
      let n := if truthy (addr .>> 7) then irq .| 8 else irq in
      Ret (s, ev ++ [DpciEoi (if n =? 0 then 2 else n)])
  | None => Ret (s, ev ++ (if truthy unmasked then [PtMayUnmask] else []))
  end.

Definition vpic_ioport_read (i : nat) (addr : Z) (s : pics) : run (pics * list effect * Z) :=
  let v := vget s i in
  if poll v then
    '(s, ev, irq) ← vpic_intack i (vset s i (set_poll v false)); Ret (s, ev, irq)
  else if (addr .& 1) =? 0 then Ret (s, [], if readsel_isr v then isr v else irr v)
  else Ret (s, [], imr v).

(** Ports 0x20, 0x21, 0xa0 and 0xa1; [Some val] is a write.  The result is what
    a read returns. *)
Definition vpic_intercept_pic_io (dir_write : option Z) (port bytes : Z) (s : pics) : run (pics * list effect * option Z) :=
  if negb (bytes =? 1) then Ret (s, [], None)
  else
    let i := Z.to_nat (port .>> 7) in
    match dir_write with
    | Some val => '(s, ev) ← vpic_ioport_write i port (val mod 256) s; Ret (s, ev, None)
    | None => '(s, ev, val) ← vpic_ioport_read i port s; Ret (s, ev, Some (val mod 256))
    end.

Definition vpic_elcr_mask (v : hvm_hw_vpic) : Z := if is_master v then 0xf8 else 0xde.

(** Ports 0x4d0 and 0x4d1. *)
Definition vpic_intercept_elcr_io (dir_write : option Z) (port bytes : Z) (s : pics) : run (pics * list effect * option Z) :=
  if negb (bytes =? 1) then Bug
  else
    let i := Z.to_nat (port .& 1) in
    let v := vget s i in
    match dir_write with
    | Some val =>
        let data := val .& vpic_elcr_mask v in
        let data := if is_master v then data .| (1 .<< 2) else data in
        Ret (vset s i (set_elcr v (data mod 256)), [], None)
    | None => Ret (s, [], Some (elcr v .& vpic_elcr_mask v))
    end.

Definition vpic_reset : pics :=
  [set_elcr (Vpic 0 0 0 0 0 0 false false false false false false true 0 0) (1 .<< 2); vpic_zero].

Definition vpic_irq_positive_edge (irq : Z) (s : pics) : run (pics * list effect) :=
  let i := Z.to_nat (irq .>> 3) in
  let mask := 1 .<< (irq .& 7) in
  if negb (irq <=? 15) then Bug
  else if irq =? 2 then Ret (s, [])
  else
    let v := set_irr (vget s i) (irr (vget s i) .| mask) in
    if (imr v .& mask) =? 0 then vpic_update_int_output i (vset s i v) else Ret (vset s i v, []).

Definition vpic_irq_negative_edge (irq : Z) (s : pics) : run (pics * list effect) :=
  let i := Z.to_nat (irq .>> 3) in
  let mask := 1 .<< (irq .& 7) in
  if negb (irq <=? 15) then Bug
  else if irq =? 2 then Ret (s, [])
  else
    let v := set_irr (vget s i) (irr (vget s i) .& not_w 8 mask) in
    if (imr v .& mask) =? 0 then vpic_update_int_output i (vset s i v) else Ret (vset s i v, []).

(** [accept] is [vlapic_accept_pic_intr]; the result is the vector, or -1. *)
Definition vpic_ack_pending_irq (accept : bool) (s : pics) : run (pics * list effect * Z) :=
  if negb accept || (int_output (vget s 0) =? 0) then Ret (s, [], -1)
  else
    '(s, ev, irq) ← vpic_intack 0 s;
    if irq =? -1 then Ret (s, ev, -1)
    else Ret (s, ev, irq_base (vget s (Z.to_nat (irq .>> 3))) + (irq .& 7)).

End Operations.

(** ** Priorities, declaratively *)

(** The registers have eight bits, [init_state] four. *)
Record vok (v : hvm_hw_vpic) : Prop := {
  vo_irr : is_byte (irr v); vo_imr : is_byte (imr v); vo_isr : is_byte (isr v); vo_base : is_byte (irq_base v);
  vo_init : 0 <= init_state v < 16; vo_add : 0 <= priority_add v < 8; vo_elcr : is_byte (elcr v)
}.

(** A line's place in the rotation, the lines that ask for service and those
    that are being served and count, when [irq] is considered. *)
Definition prio (v : hvm_hw_vpic) (i : Z) : Z := (i - priority_add v) mod 8.
Definition requested (v : hvm_hw_vpic) (i : Z) : bool := Z.testbit (irr v) i && negb (Z.testbit (imr v) i).
Definition in_service (v : hvm_hw_vpic) (irq i : Z) : bool :=
  Z.testbit (isr v) i && negb (special_fully_nested_mode v && is_master v && (irq =? 2) && (i =? 2)) &&
  negb (special_mask_mode v && Z.testbit (imr v) i).

(** The line that the controller signals. *)
Definition selected (v : hvm_hw_vpic) (irq : Z) : Prop :=
  0 <= irq < 8 /\ requested v irq = true /\
  (forall j, 0 <= j < 8 -> requested v j = true -> prio v irq <= prio v j) /\
  (forall j, 0 <= j < 8 -> in_service v irq j = true -> prio v irq < prio v j).

(** The first line of a mask from [add] on, by trying all. *)
Definition first_line (mask add : Z) : Z :=
  default 8 (list_find (fun p => Z.testbit mask ((p + add) mod 8) = true) (seqZ 0 8) ≫= fun p => Some p.2).

Lemma ror_all : forallb (fun mask => forallb (fun add =>
    (if mask =? 0 then VPIC_PRIO_NONE else bsf8 (ror8 mask add)) =? first_line mask add) (seqZ 0 8)) (seqZ 0 256) = true.
Proof. vm_compute. reflexivity. Qed.

Lemma get_priority_first v mask :
  is_byte mask -> 0 <= priority_add v < 8 -> vpic_get_priority v mask = first_line mask (priority_add v).
Proof.
  intros Hm Ha. pose proof (forallb_seqZ _ 256 mask ror_all) as H. unfold is_byte in Hm. specialize (H Hm). cbv beta in H.
  pose proof (forallb_seqZ _ 8 _ H Ha) as H'. cbv beta in H'. unfold vpic_get_priority. lia.
Qed.

Lemma first_line_spec mask add : let p := first_line mask add in
  (0 <= p < 8 /\ Z.testbit mask ((p + add) mod 8) = true /\ forall q, 0 <= q < p -> Z.testbit mask ((q + add) mod 8) = false) \/
  (p = 8 /\ forall q, 0 <= q < 8 -> Z.testbit mask ((q + add) mod 8) = false).
Proof.
  cbv zeta. unfold first_line. destruct (list_find _ (seqZ 0 8)) as [[n p]|] eqn:E; cbn [mbind option_bind default].
  - left. apply list_find_Some in E as (Hp & Ht & Hq). apply lookup_seqZ in Hp as [Hp Hn]. cbn [snd from_option id].
    split_and!; [lia|lia|done|]. intros q Hr. specialize (Hq (Z.to_nat q) q). apply not_true_iff_false, Hq; [|lia].
    apply lookup_seqZ. lia.
  - right. split; [done|]. intros q Hr. apply list_find_None in E. rewrite Forall_forall in E. apply not_true_iff_false, E.
    apply elem_of_seqZ. lia.
Qed.

(** Priorities of a mask, in terms of its lines. *)
Lemma get_priority_spec v mask :
  is_byte mask -> 0 <= priority_add v < 8 -> let p := vpic_get_priority v mask in let irq := (p + priority_add v) .& 7 in
  (0 <= p < 8 /\ 0 <= irq < 8 /\ prio v irq = p /\ Z.testbit mask irq = true /\
     forall j, 0 <= j < 8 -> Z.testbit mask j = true -> p <= prio v j) \/
  (p = 8 /\ forall j, 0 <= j < 8 -> Z.testbit mask j = false).
Proof.
  intros Hm Ha. cbv zeta. rewrite get_priority_first by done. pose proof (first_line_spec mask (priority_add v)) as H. cbv zeta in H.
  set (p := first_line mask (priority_add v)) in *. clearbody p. change 7 with (Z.ones 3). rewrite Z.land_ones by lia. change (2 ^ 3) with 8.
  assert (forall j, 0 <= j < 8 -> (prio v j + priority_add v) mod 8 = j) as Hj by (intros j Hr; unfold prio; zlia).
  assert (forall j, 0 <= prio v j < 8) as Hr by (intros j; apply Z.mod_pos_bound; lia).
  destruct H as [(Hp & Ht & Hq)|[-> Hq]]; [left|right]; split_and!; try done; try lia; try (apply Z.mod_pos_bound; lia).
  - unfold prio. zlia.
  - intros j Hj8 Hb. destruct (decide (p <= prio v j)); [done|]. rewrite <- (Hj j Hj8), Hq in Hb; [done|]. specialize (Hr j). lia.
  - intros j Hj8. rewrite <- (Hj j Hj8). by apply Hq.
Qed.

Lemma land_byte a b : is_byte a -> is_byte (a .& b).
Proof. unfold is_byte. intros H. rewrite Z.land_comm. change 256 with (2 ^ 8). by apply land_range. Qed.

Lemma lor_byte a b : is_byte a -> is_byte b -> is_byte (a .| b).
Proof. unfold is_byte. change 256 with (2 ^ 8). intros. apply lor_range; lia. Qed.

Lemma requested_mask v i : 0 <= i < 8 -> Z.testbit (irr v .& not_w 8 (imr v)) i = requested v i.
Proof. intros Hi. rewrite Z.land_spec, testbit_not_w by lia. unfold requested. f_equal. destruct (Z.ltb_spec i 8); [|lia]. by destruct (Z.testbit (imr v) i). Qed.

(** The mask of the lines in service. *)
Definition service_mask (v : hvm_hw_vpic) (irq : Z) : Z :=
  let mask := isr v in
  let mask := if special_fully_nested_mode v && is_master v && (irq =? 2) then mask .& not_w 8 (1 .<< 2) else mask in
  if special_mask_mode v then mask .& not_w 8 (imr v) else mask.

Lemma service_mask_spec v irq i : vok v -> 0 <= i < 8 -> Z.testbit (service_mask v irq) i = in_service v irq i.
Proof.
  intros Hv Hi. unfold service_mask, in_service. cbv zeta.
  destruct (special_fully_nested_mode v && is_master v && (irq =? 2)), (special_mask_mode v); cbn [andb negb];
    rewrite ?Z.land_spec, ?testbit_not_w, ?testbit_pow2 by lia; destruct (Z.ltb_spec i 8); try lia;
    destruct (Z.testbit (isr v) i), (Z.testbit (imr v) i), (i =? 2); done.
Qed.

Lemma service_mask_byte v irq : vok v -> is_byte (service_mask v irq).
Proof. intros [_ _ H _ _ _ _]. unfold service_mask. cbv zeta. destruct (_ && _ && _), (special_mask_mode v); auto using land_byte. Qed.

(** The optimised search finds the selected line, or there is none. *)
Lemma highest_selected v : vok v ->
  let irq := vpic_get_highest_priority_irq v in
  (0 <= irq /\ selected v irq) \/ (irq = -1 /\ forall i, ~ selected v i).
Proof.
  intros Hv. cbv zeta. pose proof Hv as [Hirr Himr Hisr _ _ Ha _]. unfold vpic_get_highest_priority_irq. cbv zeta.
  pose proof (get_priority_spec v (irr v .& not_w 8 (imr v)) (land_byte _ _ Hirr) Ha) as H. cbv zeta in H.
  set (p := vpic_get_priority v (irr v .& not_w 8 (imr v))) in *. set (irq := (p + priority_add v) .& 7) in *.
  change (if special_mask_mode v then _ else _) with (service_mask v irq).
  destruct H as [(Hp & Hi & Ep & Hb & Hmin)|[-> Hn]].
  2: { right. split; [done|]. intros i (Hi & Hr & _). rewrite <- requested_mask, Hn in Hr by done. done. }
  unfold VPIC_PRIO_NONE. destruct (Z.eqb_spec p 8); [lia|].
  pose proof (get_priority_spec v (service_mask v irq) (service_mask_byte v irq Hv) Ha) as H. cbv zeta in H.
  set (c := vpic_get_priority v (service_mask v irq)) in *.
  rewrite requested_mask in Hb by done.
  assert (forall j, 0 <= j < 8 -> requested v j = true -> p <= prio v j) as Hmin' by (intros j Hj Hr; apply Hmin; [done|by rewrite requested_mask]).
  destruct (Z.ltb_spec p c).
  - left. split; [lia|]. split_and!; try done; [lia|lia|by rewrite Ep|]. intros j Hj Hs. rewrite <- service_mask_spec in Hs by done.
    rewrite Ep. destruct H as [(_ & _ & _ & _ & Hc)|[_ Hc]]; [specialize (Hc j Hj Hs); lia|]. rewrite Hc in Hs; done.
  - right. split; [done|]. intros i (Hi8 & Hr & Hle & Hlt). destruct H as [(Hc8 & Hk & Ek & Hs & _)|[Ec _]]; [|lia].
    assert (prio v i = prio v irq) as Epi by (specialize (Hle irq Hi Hb); specialize (Hmin' i Hi8 Hr); lia).
    assert (i = irq) as -> by (unfold prio in Epi; zlia).
    rewrite service_mask_spec in Hs by done. specialize (Hlt _ Hk Hs). lia.
Qed.

(** ** The INT outputs are exact *)

Definition signals (v : hvm_hw_vpic) : Z := Z.b2z (vpic_get_highest_priority_irq v >=? 0).
Definition flag (x : Z) : Prop := x = 0 \/ x = 1.

(** The invariant: [pics_but i] leaves out that the output of controller [i]
    is up to date. *)
Record pair_ok (m sl : hvm_hw_vpic) : Prop := {
  po_m : vok m; po_s : vok sl; po_master : is_master m = true; po_slave : is_master sl = false;
  po_level : Z.testbit (elcr m) 2 = true;
  po_out_m : flag (int_output m); po_out_s : flag (int_output sl);
  po_link : Z.testbit (irr m) 2 = truthy (int_output sl)
}.
Definition pics_but (i : option nat) (s : pics) : Prop :=
  exists m sl, s = [m; sl] /\ pair_ok m sl /\
    (i <> Some 0%nat -> int_output m = signals m) /\ (i <> Some 1%nat -> int_output sl = signals sl).
Definition pics_ok (s : pics) : Prop := pics_but None s.

Lemma signals_flag v : flag (signals v).
Proof. unfold signals, flag. destruct (_ >=? 0); auto. Qed.

Lemma signals_out v x : signals (set_int_output v x) = signals v.
Proof. done. Qed.

Lemma set_int_output_ok v x : vok v -> vok (set_int_output v x).
Proof. by intros []. Qed.

Lemma set_irr_ok v x : vok v -> is_byte x -> vok (set_irr v x).
Proof. by intros []. Qed.

Section Invariant.
Context (target : bool).
Abbreviation update := (vpic_update_int_output target).

(** The master takes its output to the right level. *)
Lemma update_master m sl : is_master m = true -> flag (int_output m) ->
  exists ev, update 0 [m; sl] = Ret ([set_int_output m (signals m); sl], ev).
Proof.
  intros Hm Hf. cbn [vpic_update_int_output vget vset]. change (Z.b2z (vpic_get_highest_priority_irq m >=? 0)) with (signals m).
  cbn. fold (signals m). destruct (Z.eqb_spec (int_output m) (signals m)) as [E|E].
  - eexists. do 3 f_equal. rewrite <- E. by destruct m.
  - rewrite Hm. cbn [negb]. pose proof (signals_flag m) as Hs. unfold flag in *.
    assert (Z.b2z (int_output m =? 0) = signals m) as -> by (destruct Hf as [Hf|Hf], Hs as [Hs|Hs]; rewrite Hf, Hs in *; done).
    destruct (truthy (signals m)); eauto.
Qed.

(** The slave does so too, and tells the master. *)
Lemma update_slave m sl :
  is_master sl = false -> is_master m = true -> flag (int_output sl) -> flag (int_output m) ->
  Z.testbit (irr m) 2 = truthy (int_output sl) -> int_output m = signals m ->
  exists m' ev, update 1 [m; sl] = Ret ([set_int_output m' (signals m'); set_int_output sl (signals sl)], ev) /\
    m' = if signals sl =? int_output sl then m
         else set_irr m (if truthy (signals sl) then irr m .| (1 .<< 2) else irr m .& not_w 8 (1 .<< 2)).
Proof.
  intros Hs Hm Hf Hfm Hl Hout. pose proof (signals_flag sl) as Hsg. unfold flag in Hf, Hsg.
  change (update 1 [m; sl]) with
    (if int_output sl =? signals sl then Ret ([m; sl], [])
     else let out := Z.b2z (int_output sl =? 0) in
          let v' := set_int_output sl out in
          if truthy out then if is_master sl then Ret ([m; v'], if target then [VcpuKick] else [])
            else update 0 [set_irr m (irr m .| (1 .<< 2)); v']
          else if negb (is_master sl) then update 0 [set_irr m (irr m .& not_w 8 (1 .<< 2)); v'] else Ret ([m; v'], [])).
  rewrite (Z.eqb_sym (signals sl)). destruct (Z.eqb_spec (int_output sl) (signals sl)) as [E|E].
  - exists m, []. split; [|done]. rewrite <- E, <- Hout. by destruct m, sl.
  - rewrite Hs. cbn [negb]. cbv zeta.
    assert (Z.b2z (int_output sl =? 0) = signals sl) as -> by (destruct Hf as [Hf|Hf], Hsg as [Hsg|Hsg]; rewrite Hf, Hsg in *; done).
    destruct (truthy (signals sl)).
    + destruct (update_master (set_irr m (irr m .| (1 .<< 2))) (set_int_output sl (signals sl)) Hm Hfm) as [ev Hu]. rewrite Hu. eauto.
    + destruct (update_master (set_irr m (irr m .& not_w 8 (1 .<< 2))) (set_int_output sl (signals sl)) Hm Hfm) as [ev Hu]. rewrite Hu. eauto.
Qed.

Lemma update_restores i s : (i < 2)%nat -> pics_but (Some i) s -> exists s' ev, update i s = Ret (s', ev) /\ pics_ok s'.
Proof.
  intros Hi (m & sl & -> & [Om Os Hm Hs He Fm Fs Hl] & E0 & E1). destruct i as [|[|i]]; [| |lia].
  - destruct (update_master m sl Hm Fm) as [ev Hu]. do 2 eexists. split; [exact Hu|]. do 2 eexists. split; [done|].
    split; [|split; intros _; [by rewrite signals_out|by apply E1]].
    split; try done; [by apply set_int_output_ok|apply signals_flag].
  - destruct (update_slave m sl Hs Hm Fs Fm Hl (E0 ltac:(done))) as (m' & ev & Hu & Em'). do 2 eexists. split; [exact Hu|].
    do 2 eexists. split; [done|]. split; [|split; intros _; by rewrite signals_out].
    pose proof (signals_flag sl) as Hsg. pose proof (vo_irr m Om).
    assert (vok m' /\ is_master m' = true /\ elcr m' = elcr m /\ Z.testbit (irr m') 2 = truthy (signals sl)) as (V & M & E & B).
    { subst m'. destruct (Z.eqb_spec (signals sl) (int_output sl)) as [->|]; [done|]. destruct Hsg as [-> | ->]; cbn [truthy Z.eqb negb];
        (split_and!; [apply set_irr_ok; [done|]|done|done|]); vpic_fields.
      - by apply land_byte.
      - by rewrite Z.land_spec, testbit_not_w, testbit_pow2, andb_false_r by lia.
      - by apply lor_byte.
      - by rewrite Z.lor_spec, testbit_pow2, orb_true_r by lia. }
    split; vpic_fields; try done; [by apply set_int_output_ok|by apply set_int_output_ok|by rewrite E|apply signals_flag].
Qed.

(** What an operation may do to controller [i] before it updates the output. *)
Record keeps (i : nat) (v v' : hvm_hw_vpic) : Prop := {
  kp_ok : vok v'; kp_out : int_output v' = int_output v; kp_master : is_master v' = is_master v;
  kp_link : i = 0%nat -> Z.testbit (irr v') 2 = Z.testbit (irr v) 2;
  kp_level : i = 0%nat -> Z.testbit (elcr v) 2 = true -> Z.testbit (elcr v') 2 = true
}.

Ltac pair_index :=
  repeat match goal with
  | H : context [vget [?a; ?b] 0] |- _ => change (vget [a; b] 0) with a in H
  | H : context [vget [?a; ?b] 1] |- _ => change (vget [a; b] 1) with b in H
  | |- context [vset [?a; ?b] 0 ?c] => change (vset [a; b] 0 c) with [c; b]
  | |- context [vset [?a; ?b] 1 ?c] => change (vset [a; b] 1 c) with [a; c]
  | H : context [vset [?a; ?b] 0 ?c] |- _ => change (vset [a; b] 0 c) with [c; b] in H
  | H : context [vset [?a; ?b] 1 ?c] |- _ => change (vset [a; b] 1 c) with [a; c] in H
  end.

Lemma keeps_but i s v' : (i < 2)%nat -> pics_ok s -> keeps i (vget s i) v' -> pics_but (Some i) (vset s i v').
Proof.
  intros Hi (m & sl & -> & [Om Os Hm Hs He Fm Fs Hl] & E0 & E1) [Kv Ko Km Kl Ke]. destruct i as [|[|i]]; [| |lia]; pair_index.
  - exists v', sl. split; [done|]. split; [|split; [done|intros _; by apply E1]].
    split; rewrite ?Ko, ?Km; try done; [by apply Ke|by rewrite Kl].
  - exists m, v'. split; [done|]. split; [|split; [intros _; by apply E0|done]]. split; rewrite ?Ko, ?Km; done.
Qed.

(** Changes after which the output is brought up to date, and changes that
    the output does not depend on. *)
Lemma change_update i s v' :
  (i < 2)%nat -> pics_ok s -> keeps i (vget s i) v' -> exists s' ev, update i (vset s i v') = Ret (s', ev) /\ pics_ok s'.
Proof. intros. apply update_restores; [done|]. by apply keeps_but. Qed.

Lemma change_silent i s v' :
  (i < 2)%nat -> pics_ok s -> keeps i (vget s i) v' -> signals v' = signals (vget s i) -> pics_ok (vset s i v').
Proof.
  intros Hi Hok Hk Hs. pose proof (keeps_but i s v' Hi Hok Hk) as (m & sl & E & P & E0 & E1).
  destruct Hok as (m0 & sl0 & -> & _ & F0 & F1). destruct Hk as [_ Ko _ _ _].
  exists m, sl. split; [done|]. split; [done|]. destruct i as [|[|i]]; [| |lia]; pair_index; injection E as <- <-;
    split; intros _; rewrite ?Ko, ?Hs; auto.
Qed.

(** ** The operations *)

Lemma pics_vok s i : (i < 2)%nat -> pics_ok s -> vok (vget s i).
Proof. intros Hi (m & sl & -> & [] & _). destruct i as [|[|i]]; [done|done|lia]. Qed.

Lemma pics_signals s i : (i < 2)%nat -> pics_ok s -> int_output (vget s i) = signals (vget s i).
Proof. intros Hi (m & sl & -> & _ & E0 & E1). destruct i as [|[|i]]; [by apply E0|by apply E1|lia]. Qed.

Lemma bit_byte k : 0 <= k < 8 -> is_byte (1 .<< k).
Proof. intros Hk. unfold is_byte. rewrite Z.shiftl_1_l. pose proof (Z.pow_pos_nonneg 2 k). pose proof (Z.pow_lt_mono_r 2 k 8). lia. Qed.

Lemma edge_mask v k b : 0 <= k < 8 -> vok v -> (imr v .& (1 .<< k)) <> 0 ->
  signals (set_irr v (if b : bool then irr v .| (1 .<< k) else irr v .& not_w 8 (1 .<< k))) = signals v.
Proof.
  intros Hk Hv Hm. assert (Z.testbit (imr v) k = true) as Hb.
  { apply not_false_iff_true. intros E. apply Hm. apply Z.bits_inj'. intros j Hj. rewrite Z.land_spec, testbit_pow2, Z.testbit_0_l by lia.
    destruct (Z.eqb_spec j k) as [->|]; [by rewrite E|by rewrite andb_false_r]. }
  set (v' := set_irr v _).
  assert (irr v' .& not_w 8 (imr v') = irr v .& not_w 8 (imr v)) as E.
  { unfold v'. vpic_fields. apply Z.bits_inj'. intros j Hj. rewrite !Z.land_spec, testbit_not_w by lia.
    destruct (decide (j < 8)) as [Hj8|]; [|destruct (Z.ltb_spec j 8); [lia|]].
    2: { pose proof (vo_imr v Hv) as Hi. unfold is_byte in Hi. rewrite (testbit_high (imr v) 8 j) by lia. by rewrite !andb_false_r. }
    destruct (Z.ltb_spec j 8); [|lia]. destruct b; rewrite ?Z.lor_spec, ?Z.land_spec, ?testbit_not_w, ?testbit_pow2 by lia;
      (destruct (Z.eqb_spec j k) as [->|]; [rewrite Hb; cbn; by rewrite !andb_false_r|]);
      destruct (Z.ltb_spec j 8); try lia; destruct (Z.testbit (irr v) j), (Z.testbit (imr v) j); done. }
  unfold signals, vpic_get_highest_priority_irq. rewrite E. done.
Qed.

Lemma irq_index irq : 0 <= irq <= 15 -> (Z.to_nat (irq .>> 3) < 2)%nat /\ 0 <= irq .& 7 < 8 /\ (Z.to_nat (irq .>> 3) = 0%nat -> irq .& 7 = irq).
Proof.
  intros Hr. rewrite Z.shiftr_div_pow2 by lia. change 7 with (Z.ones 3). rewrite Z.land_ones by lia. change (2 ^ 3) with 8.
  split; [|split]; zlia.
Qed.

(** Raising or lowering a line other than that of the cascade. *)
Lemma edge_keeps s irq (b : bool) : 0 <= irq <= 15 -> irq <> 2 -> pics_ok s ->
  let i := Z.to_nat (irq .>> 3) in let mask := 1 .<< (irq .& 7) in
  keeps i (vget s i) (set_irr (vget s i) (if b then irr (vget s i) .| mask else irr (vget s i) .& not_w 8 mask)).
Proof.
  intros Hr Hne Hok i mask. destruct (irq_index irq Hr) as (Hi & Hk & H0). fold i in Hi, H0. pose proof (pics_vok s i Hi Hok) as Hv.
  pose proof (bit_byte _ Hk). split; try done; vpic_fields.
  - apply set_irr_ok; [done|]. destruct b; [apply lor_byte|apply land_byte]; try done; apply Hv.
  - intros E. specialize (H0 E). unfold mask. rewrite H0. destruct b; rewrite ?Z.lor_spec, ?Z.land_spec, ?testbit_not_w, ?testbit_pow2 by lia;
      destruct (Z.eqb_spec 2 irq); try lia; cbn; by rewrite ?orb_false_r, ?andb_true_r.
Qed.

Lemma edge_ok irq s : 0 <= irq <= 15 -> pics_ok s ->
  (exists s' ev, vpic_irq_positive_edge target irq s = Ret (s', ev) /\ pics_ok s') /\
  (exists s' ev, vpic_irq_negative_edge target irq s = Ret (s', ev) /\ pics_ok s').
Proof.
  intros Hr Hok. destruct (irq_index irq Hr) as (Hi & Hk & _). pose proof (pics_vok s _ Hi Hok) as Hv.
  unfold vpic_irq_positive_edge, vpic_irq_negative_edge. destruct (Z.leb_spec irq 15); [|lia]. cbn [negb].
  destruct (Z.eqb_spec irq 2) as [->|Hne]; [split; eauto|]. vpic_fields.
  pose proof (edge_keeps s irq true Hr Hne Hok) as K1. pose proof (edge_keeps s irq false Hr Hne Hok) as K2. cbv zeta in K1, K2.
  destruct (Z.eqb_spec (imr (vget s (Z.to_nat (irq .>> 3))) .& (1 .<< (irq .& 7))) 0) as [E|E].
  - split; by apply change_update.
  - split; do 2 eexists; (split; [reflexivity|]); apply change_silent; try done.
    + by apply (edge_mask _ (irq .& 7) true).
    + by apply (edge_mask _ (irq .& 7) false).
Qed.

Lemma and7 x : 0 <= x .& 7 < 8.
Proof. change 7 with (Z.ones 3). rewrite Z.land_ones by lia. by apply Z.mod_pos_bound. Qed.

Lemma keeps_same_irr i v v' : vok v' -> int_output v' = int_output v -> is_master v' = is_master v -> irr v' = irr v -> elcr v' = elcr v -> keeps i v v'.
Proof. intros V O M I E. split; try done; intros _; by rewrite ?I, ?E. Qed.

Lemma intack_keeps s i : (i < 2)%nat -> pics_ok s -> forall irq, 0 <= irq < 8 ->
  let v := vget s i in let mask := (1 .<< irq) mod 256 in
  let v1 := if (elcr v .& mask) =? 0 then set_irr v (irr v .& not_w 8 mask) else v in
  keeps i v (if negb (auto_eoi v1) then set_isr v1 (isr v1 .| mask)
             else if rotate_on_auto_eoi v1 then set_priority_add v1 ((irq + 1) .& 7) else v1).
Proof.
  intros Hi Hok irq Hr v mask v1. pose proof (pics_vok s i Hi Hok) as Hv. fold v in Hv. pose proof (bit_byte irq Hr) as Hb.
  assert (mask = 1 .<< irq) as Em by (apply Z.mod_small; exact Hb).
  assert (keeps i v v1) as K1.
  { unfold v1. destruct (Z.eqb_spec (elcr v .& mask) 0) as [E|E]; [|by apply keeps_same_irr]. split; try done; vpic_fields.
    - apply set_irr_ok; [done|]. apply land_byte, Hv.
    - intros ->. rewrite Em in *. rewrite Z.land_spec, testbit_not_w, testbit_pow2 by lia. destruct (Z.eqb_spec 2 irq) as [<-|]; [|by rewrite andb_true_r].
      exfalso. destruct Hok as (m & sl & -> & [_ _ _ _ He _ _ _] & _). apply (f_equal (fun z => Z.testbit z 2)) in E.
      rewrite Z.land_spec, testbit_pow2, Z.testbit_0_l in E by lia. unfold v in E. pair_index. rewrite He in E. done. }
  destruct K1 as [[] KO KM KI KE]. clearbody v1.
  destruct (negb (auto_eoi v1)); [|destruct (rotate_on_auto_eoi v1); [|by split]]; (split; [by split; vpic_fields; auto using lor_byte, and7; rewrite ?Em; apply lor_byte || apply and7| | | |]; done).
Qed.

(** Acknowledging the selected line, without and with the cascade. *)
Lemma ack_one i s irq : (i < 2)%nat -> pics_ok s -> 0 <= irq < 8 -> exists s' ev, __vpic_intack target i irq s = Ret (s', ev) /\ pics_ok s'.
Proof. intros Hi Hok Hr. unfold __vpic_intack. apply change_update; [done|done|]. by apply intack_keeps. Qed.

Lemma ack_master s irq s' ev : pics_ok s -> 0 <= irq < 8 -> __vpic_intack target 0 irq s = Ret (s', ev) ->
  vget s' 1 = vget s 1 /\ is_master (vget s' 0) = true.
Proof.
  intros Hok Hr. pose proof (intack_keeps s 0 ltac:(lia) Hok irq Hr) as K. cbv zeta in K. unfold __vpic_intack.
  destruct Hok as (m & sl & -> & [_ _ Hm _ _ Fm _ _] & _). pair_index. change (vget [m; sl] 0) with m. cbv zeta.
  set (v := if negb _ then _ else _) in *. pair_index. destruct K as [_ KO KM _ _].
  destruct (update_master v sl) as [ev' Hu]; [congruence|by rewrite KO|]. rewrite Hu. intros [= <- <-]. split; [done|]. change (is_master v = true). congruence.
Qed.

Lemma signals_selected v : vok v -> signals v <> 0 -> exists irq, vpic_get_highest_priority_irq v = irq /\ 0 <= irq /\ selected v irq.
Proof.
  intros Hv Hs. eexists. split; [reflexivity|]. destruct (highest_selected v Hv) as [H|[E _]]; [done|]. exfalso. apply Hs. unfold signals. by rewrite E.
Qed.

(** The interrupt that an acknowledge cycle returns. *)
Definition acknowledged (i : nat) (s : pics) (irq : Z) : Prop :=
  exists l, selected (vget s i) l /\
    if (l =? 2) && bool_decide (i = 0%nat) then exists k, selected (vget s 1) k /\ irq = k + 8 else irq = l.

Lemma intack_ok i s : (i < 2)%nat -> pics_ok s ->
  exists s' ev irq, vpic_intack target i s = Ret (s', ev, irq) /\ pics_ok s' /\
    if int_output (vget s i) =? 0 then irq = -1 /\ s' = s else acknowledged i s irq.
Proof.
  intros Hi Hok. unfold vpic_intack. pose proof (pics_signals s i Hi Hok) as Hsig. pose proof (pics_vok s i Hi Hok) as Hv.
  destruct (Z.eqb_spec (int_output (vget s i)) 0) as [E0|E0]; [eauto 10|].
  destruct (signals_selected _ Hv ltac:(congruence)) as (irq & -> & Hp & Hsel). pose proof Hsel as (Hr & Hreq & _).
  destruct (Z.ltb_spec irq 0); [lia|]. destruct (ack_one i s irq Hi Hok Hr) as (s1 & ev1 & Ha & Hok1). rewrite Ha. cbn [mbind run_bind].
  assert (is_master (vget s1 i) = bool_decide (i = 0%nat)) as ->.
  { destruct Hok1 as (m & sl & -> & [_ _ Hm Hs _ _ _ _] & _). destruct i as [|[|i]]; [done|done|lia]. }
  destruct ((irq =? 2) && bool_decide (i = 0%nat)) eqn:Ec.
  2: { do 3 eexists. split; [reflexivity|]. split; [done|]. exists irq. by rewrite Ec. }
  apply andb_true_iff in Ec as [Ei E]. apply bool_decide_eq_true in E as ->. apply Z.eqb_eq in Ei as ->.
  destruct (ack_master s 2 s1 ev1 Hok Hr Ha) as [Es _]. rewrite Es.
  assert (length s1 = 2%nat) as -> by (by destruct Hok1 as (m & sl & -> & _)). cbn [Nat.leb]. rewrite bool_decide_eq_false_2 by lia.
  assert (signals (vget s 1) <> 0) as Hs1.
  { rewrite <- (pics_signals s 1 ltac:(lia) Hok). destruct Hok as (m & sl & -> & [_ _ _ _ _ _ _ Hl] & _).
    unfold requested in Hreq. apply andb_true_iff in Hreq as [Hreq _]. pair_index. rewrite Hl in Hreq. change (vget [m; sl] 1) with sl.
    unfold truthy in Hreq. destruct (Z.eqb_spec (int_output sl) 0); done. }
  destruct (signals_selected _ (pics_vok s 1 ltac:(lia) Hok) Hs1) as (k & -> & Hk & Hselk). pose proof Hselk as (Hkr & _).
  destruct (Z.ltb_spec k 0); [lia|]. destruct (ack_one 1 s1 k ltac:(lia) Hok1 Hkr) as (s2 & ev2 & -> & Hok2). cbn [mbind run_bind].
  do 3 eexists. split; [reflexivity|]. split; [done|]. exists 2. split; [done|].
  rewrite bool_decide_eq_true_2 by done. cbn [Z.eqb Pos.eqb andb]. eauto.
Qed.

(** Writes to the registers. *)
Lemma icw1_keeps i s val : (i < 2)%nat -> pics_ok s -> keeps i (vget s i) (icw1 (vget s i) val).
Proof.
  intros Hi Hok. pose proof (pics_vok s i Hi Hok) as []. unfold icw1. cbv zeta.
  assert (0 <= ((val .& 3) .<< 2) .| 1 < 16) as Hinit.
  { apply (lor_range _ _ 4); [lia| |lia]. rewrite Z.shiftl_mul_pow2 by lia. pose proof (land_range val 3 2 ltac:(lia) ltac:(lia)). lia. }
  split; destruct (negb (truthy (val .& 1))); vpic_fields; try done;
    try (split; vpic_fields; unfold is_byte; try lia; try done; by apply land_byte).
  all: intros ->; destruct Hok as (m & sl & -> & [_ _ _ _ He _ _ _] & _); change (vget [m; sl] 0) with m; by rewrite Z.land_spec, He, andb_true_r.
Qed.

Lemma ocw3_keeps i v val : vok v -> keeps i v (ocw3 v val).
Proof.
  intros []. unfold ocw3. cbv zeta. apply keeps_same_irr; repeat case_match; try done; by split.
Qed.

Lemma ocw2_keeps i v val : vok v -> keeps i v (ocw2 v val).1.
Proof.
  intros Hv. pose proof Hv as []. unfold ocw2. cbv zeta.
  apply keeps_same_irr; repeat (match goal with |- context [if ?b then _ else _] => destruct b end); try done;
    split; vpic_fields; try done; try (by apply land_byte); apply and7.
Qed.

Lemma odd_write_keeps i v val : vok v -> is_byte val -> keeps i v (odd_write v val).
Proof.
  intros Hv Hb. pose proof Hv as []. unfold odd_write, icw3. cbv zeta.
  apply keeps_same_irr; repeat (match goal with |- context [if ?b then _ else _] => destruct b end); try done;
    split; vpic_fields; try done; try lia; try (apply Z.mod_pos_bound; lia); by apply land_byte.
Qed.

Lemma ioport_write_ok i addr val s : (i < 2)%nat -> is_byte val -> pics_ok s ->
  exists s' ev, vpic_ioport_write target i addr val s = Ret (s', ev) /\ pics_ok s'.
Proof.
  intros Hi Hb Hok. unfold vpic_ioport_write. cbv zeta. pose proof (pics_vok s i Hi Hok) as Hv.
  match goal with |- context [let '(v, eoi) := ?x in _] => set (w := x); assert (keeps i (vget s i) w.1) as K end.
  { unfold w. destruct (((addr .& 1) =? 0) && truthy (val .& 16)); [by apply icw1_keeps|]. destruct ((addr .& 1) =? 0); [|by apply odd_write_keeps].
    destruct (truthy (val .& 8)); [by apply ocw3_keeps|by apply ocw2_keeps]. }
  destruct w as [v eoi]. cbn [fst] in K. destruct (change_update i s v Hi Hok K) as (s' & ev & -> & Hok'). cbn [mbind run_bind].
  destruct eoi; eauto.
Qed.

Lemma ioport_read_ok i addr s : (i < 2)%nat -> pics_ok s ->
  exists s' ev x, vpic_ioport_read target i addr s = Ret (s', ev, x) /\ pics_ok s'.
Proof.
  intros Hi Hok. unfold vpic_ioport_read. cbv zeta. destruct (poll (vget s i)); [|destruct (_ =? 0); eauto].
  assert (pics_ok (vset s i (set_poll (vget s i) false))) as Hok1.
  { apply change_silent; try done. pose proof (pics_vok s i Hi Hok) as []. by apply keeps_same_irr. }
  destruct (intack_ok i _ Hi Hok1) as (s' & ev & irq & -> & Hok' & _). cbn. eauto.
Qed.

Lemma elcr_ok dir i bytes s : pics_ok s -> bytes = 1 -> 0 <= i ->
  exists s' ev x, vpic_intercept_elcr_io dir i bytes s = Ret (s', ev, x) /\ pics_ok s'.
Proof.
  intros Hok -> Hi0. unfold vpic_intercept_elcr_io. cbn [Z.eqb Pos.eqb negb]. cbv zeta. destruct dir as [val|]; [|eauto].
  pose proof (land_range i 1 1 ltac:(lia) ltac:(lia)) as Hi. assert (Z.to_nat (i .& 1) < 2)%nat as Hi2 by lia.
  pose proof (pics_vok s _ Hi2 Hok) as Hv. do 3 eexists. split; [reflexivity|]. apply change_silent; try done.
  pose proof Hv as []. split; vpic_fields; try done.
  - split; vpic_fields; try done. apply Z.mod_pos_bound. lia.
  - intros -> _. destruct Hok as (m & sl & -> & [_ _ Hm _ _ _ _ _] & _). change (vget [m; sl] 0) with m. rewrite Hm.
    change 256 with (2 ^ 8). rewrite Z.mod_pow2_bits_low, Z.lor_spec, testbit_pow2 by lia. by rewrite orb_true_r.
Qed.

Lemma pic_io_ok dir port bytes s : pics_ok s -> 0 <= port < 256 ->
  exists s' ev x, vpic_intercept_pic_io target dir port bytes s = Ret (s', ev, x) /\ pics_ok s'.
Proof.
  intros Hok Hp. unfold vpic_intercept_pic_io. destruct (bytes =? 1); cbn [negb]; [|eauto]. cbv zeta.
  assert (Z.to_nat (port .>> 7) < 2)%nat as Hi by (rewrite Z.shiftr_div_pow2 by lia; change (2 ^ 7) with 128; zlia).
  destruct dir as [val|].
  - destruct (ioport_write_ok _ port (val mod 256) s Hi ltac:(apply Z.mod_pos_bound; lia) Hok) as (s' & ev & -> & H). cbn. eauto.
  - destruct (ioport_read_ok _ port s Hi Hok) as (s' & ev & x & -> & H). cbn. eauto.
Qed.

Lemma ack_pending_ok accept s : pics_ok s -> exists s' ev x, vpic_ack_pending_irq target accept s = Ret (s', ev, x) /\ pics_ok s'.
Proof.
  intros Hok. unfold vpic_ack_pending_irq. destruct (_ || _); [eauto|].
  destruct (intack_ok 0 s ltac:(lia) Hok) as (s' & ev & irq & -> & Hok' & _). cbn. destruct (irq =? -1); eauto.
Qed.

End Invariant.

Lemma vpic_reset_ok : pics_ok vpic_reset.
Proof. do 2 eexists. split; [reflexivity|]. split; [|split; intros _; vm_compute; reflexivity]. split; try (by vm_compute); try (by left); split; vm_compute; split; congruence. Qed.

(** ** Everything that can happen to the controllers *)

Inductive pic_op :=
| Positive (irq : Z) | Negative (irq : Z) | PicIo (write : option Z) (port bytes : Z) | ElcrIo (write : option Z) (port : Z) | Ack (accept : bool).

(** The lines exist, and the ports are those that [vpic_init] registers. *)
Definition valid_pic_op (o : pic_op) : Prop :=
  match o with
  | Positive irq | Negative irq => 0 <= irq <= 15
  | PicIo _ port _ => port ∈ [0x20; 0x21; 0xa0; 0xa1]
  | ElcrIo _ port => port ∈ [0x4d0; 0x4d1]
  | Ack _ => True
  end.

Definition pic_exec (target : bool) (o : pic_op) (s : pics) : run pics :=
  match o with
  | Positive irq => '(s, _) ← vpic_irq_positive_edge target irq s; Ret s
  | Negative irq => '(s, _) ← vpic_irq_negative_edge target irq s; Ret s
  | PicIo w port bytes => '(s, _, _) ← vpic_intercept_pic_io target w port bytes s; Ret s
  | ElcrIo w port => '(s, _, _) ← vpic_intercept_elcr_io w port 1 s; Ret s
  | Ack accept => '(s, _, _) ← vpic_ack_pending_irq target accept s; Ret s
  end.

Fixpoint pic_trace (target : bool) (ops : list pic_op) (s : pics) : run pics :=
  match ops with [] => Ret s | o :: ops => s ← pic_exec target o s; pic_trace target ops s end.

Lemma pic_exec_ok target o s : valid_pic_op o -> pics_ok s -> exists s', pic_exec target o s = Ret s' /\ pics_ok s'.
Proof.
  intros Hv Hok. destruct o; cbn [valid_pic_op pic_exec] in *.
  - destruct (edge_ok target irq s Hv Hok) as [(s' & ev & -> & H) _]. cbn. eauto.
  - destruct (edge_ok target irq s Hv Hok) as [_ (s' & ev & -> & H)]. cbn. eauto.
  - assert (0 <= port < 256) as Hp by (set_unfold; lia).
    destruct (pic_io_ok target write port bytes s Hok Hp) as (s' & ev & x & -> & H). cbn. eauto.
  - assert (0 <= port) as Hp by (set_unfold; lia). destruct (elcr_ok write port 1 s Hok eq_refl Hp) as (s' & ev & x & -> & H). cbn. eauto.
  - destruct (ack_pending_ok target accept s Hok) as (s' & ev & x & -> & H). cbn. eauto.
Qed.

(** C28. Whatever devices and the guest do to the interrupt controllers after a
    reset, the hypervisor's [BUG_ON]s cannot be reached: each INT output is
    raised exactly when the controller has a line to serve, the slave's output
    is the cascade line of the master, and an acknowledge cycle finds the line
    that the output announced. *)
Theorem vpic_never_bugs target ops :
  Forall valid_pic_op ops ->
  exists m sl, pic_trace target ops vpic_reset = Ret [m; sl] /\
    int_output m = signals m /\ int_output sl = signals sl /\ Z.testbit (irr m) 2 = truthy (int_output sl).
Proof.
  intros Hops. assert (exists s, pic_trace target ops vpic_reset = Ret s /\ pics_ok s) as (s & -> & (m & sl & -> & [_ _ _ _ _ _ _ Hl] & E0 & E1)).
  { generalize vpic_reset_ok. generalize vpic_reset. induction Hops as [|o ops Ho _ IH]; intros s Hok; [eauto|].
    cbn [pic_trace]. destruct (pic_exec_ok target o s Ho Hok) as (s' & -> & Hok'). by apply IH. }
  exists m, sl. split; [done|]. split; [by apply E0|]. split; [by apply E1|done].
Qed.

Lemma vpic_never_bugs_witness :
  exists m sl, pic_trace true [PicIo (Some 0x11) 0x20 1; PicIo (Some 0x20) 0x21 1; PicIo (Some 4) 0x21 1; PicIo (Some 1) 0x21 1;
                               Positive 10; PicIo None 0x20 1; Ack true] vpic_reset = Ret [m; sl] /\
    int_output m = signals m /\ int_output sl = signals sl /\ Z.testbit (irr m) 2 = truthy (int_output sl).
Proof.
  apply vpic_never_bugs. repeat constructor; cbn; try lia; set_solver by lia.
Defined.

(** C29. An acknowledge cycle of the master returns the interrupt of the highest
    priority that is requested, not masked and not blocked by one in service,
    through the cascade if that is where it comes from; nothing when the
    output is low.  The search by rotation and bit scan that the hypervisor
    performs is the declarative rule of the 8259A. *)
Theorem vpic_intack_selects target s :
  pics_ok s ->
  exists s' ev irq, vpic_intack target 0 s = Ret (s', ev, irq) /\ pics_ok s' /\
    if int_output (vget s 0) =? 0 then irq = -1 /\ s' = s else acknowledged 0 s irq.
Proof. intros Hok. apply intack_ok; [lia|done]. Qed.

Lemma vpic_intack_selects_witness :
  exists s, pic_trace true [PicIo (Some 0x68) 0x20 1; Positive 12; Positive 14] vpic_reset = Ret s /\
  exists s' ev irq, vpic_intack true 0 s = Ret (s', ev, irq) /\ pics_ok s' /\
    if int_output (vget s 0) =? 0 then irq = -1 /\ s' = s else acknowledged 0 s irq.
Proof.
  eexists. split; [vm_compute; reflexivity|]. apply vpic_intack_selects.
  do 2 eexists. split; [reflexivity|]. split; [|split; intros _; vm_compute; reflexivity].
  split; try (by vm_compute); try (by left); try (by right); split; vm_compute; split; congruence.
Defined.

(** ** Saving and loading *)

Definition PIC : htype := HType 3 8 None.

(** The layout of the structure; bit 7 of the sixth byte is padding. *)
Definition vpic_bytes (v : hvm_hw_vpic) : list Z :=
  [irr v mod 256; imr v mod 256; isr v mod 256; irq_base v mod 256; init_state v mod 16 + 16 * (priority_add v mod 16);
   Z.b2z (readsel_isr v) + 2 * Z.b2z (poll v) + 4 * Z.b2z (auto_eoi v) + 8 * Z.b2z (rotate_on_auto_eoi v) +
     16 * Z.b2z (special_fully_nested_mode v) + 32 * Z.b2z (special_mask_mode v) + 64 * Z.b2z (is_master v);
   elcr v mod 256; int_output v mod 256].
Definition vpic_of_bytes (bs : list Z) : hvm_hw_vpic :=
  let b := fun i => bs !!! i in
  let f := fun k => Z.testbit (b 5%nat) k in
  Vpic (b 0%nat) (b 1%nat) (b 2%nat) (b 3%nat) (b 4%nat mod 16) (b 4%nat / 16) (f 0) (f 1) (f 2) (f 3) (f 4) (f 5) (f 6) (b 6%nat) (b 7%nat).

Lemma vpic_of_bytes_bytes v : vok v -> is_byte (int_output v) -> vpic_of_bytes (vpic_bytes v) = v.
Proof.
  intros [H1 H2 H3 H4 H5 H6 H7] H8. unfold is_byte in *. destruct v as [a b c e f g r1 r2 r3 r4 r5 r6 r7 el io]. cbn in H1, H2, H3, H4, H5, H6, H7, H8.
  unfold vpic_of_bytes, vpic_bytes. vpic_fields. cbn [lookup_total list_lookup_total].
  rewrite !(Z.mod_small _ 256), (Z.mod_small f 16), (Z.mod_small g 16) by lia.
  f_equal; try zlia; by destruct r1, r2, r3, r4, r5, r6, r7.
Qed.

Section Migration.
Context {S : Type} `{!Component S (list hvm_hw_vpic)}.
Implicit Types d : hdom S.
Abbreviation controllers d := (dget (T := list hvm_hw_vpic) d).

Definition vpic_save (d : hdom S) (h : hctx) : run (Z * hctx * hdom S) :=
  let '(r, h) := hvm_save_entry PIC 0 h (vpic_bytes (vget (controllers d) 0)) in
  if negb (r =? 0) then Ret (1, h, d)
  else
    let '(r, h) := hvm_save_entry PIC 1 h (vpic_bytes (vget (controllers d) 1)) in
    if negb (r =? 0) then Ret (1, h, d) else Ret (0, h, d).

Definition vpic_load (d : hdom S) (h : hctx) : run (Z * hctx * hdom S) :=
  let inst := hvm_load_instance h in
  if inst >? 1 then Ret (- EINVAL, h, d)
  else
    '(r, h, data) ← hvm_load_entry PIC h (vpic_bytes (vget (controllers d) (Z.to_nat inst)));
    if negb (r =? 0) then Ret (- EINVAL, h, d)
    else Ret (0, h, dput (vset (controllers d) (Z.to_nat inst) (vpic_of_bytes data)) d).

Definition pic_shape : shape S :=
  Shape PIC true 2 HVMSR_PER_DOM (fun _ => 1)
    (fun d => [(0, vpic_bytes (vget (controllers d) 0)); (1, vpic_bytes (vget (controllers d) 1))]) (fun d => d)
    (fun inst d => if inst >? 1 then (- EINVAL, d) else (0, d)) (fun inst d => vpic_bytes (vget (controllers d) (Z.to_nat inst)))
    (fun inst data d => (0, dput (vset (controllers d) (Z.to_nat inst) (vpic_of_bytes data)) d)).

Definition pic_handler : handler S := Handler vpic_save vpic_load (reg_size 2 PIC) HVMSR_PER_DOM.

Lemma pic_has_shape : has_shape pic_handler pic_shape.
Proof.
  split; try done; intros d h; cbn [pic_handler h_save h_load].
  - unfold vpic_save, shape_save. cbn [pic_shape sh_type sh_fail sh_items sh_after save_each].
    destruct (hvm_save_entry PIC 0 h _) as [r h1]. destruct (negb (r =? 0)); [done|].
    destruct (hvm_save_entry PIC 1 h1 _) as [r2 h2]. by destruct (negb (r2 =? 0)).
  - unfold vpic_load, shape_load. cbn [pic_shape sh_pre]. destruct (hvm_load_instance h >? 1); done.
Qed.

#[export] Instance pic_laws : DeviceLaws 3 (shape_device pic_handler pic_shape).
Proof.
  apply (shape_laws pic_handler pic_shape); [|exact pic_has_shape]. split; try done. intros d. by repeat constructor.
Qed.

(** Loading what was saved restores both controllers. *)
Lemma pics_restored s t : pics_ok s -> length t = 2%nat ->
  vset (vset t 0 (vpic_of_bytes (vpic_bytes (vget s 0)))) 1 (vpic_of_bytes (vpic_bytes (vget s 1))) = s.
Proof.
  intros Hok Ht. destruct Hok as (m & sl & -> & [Om Os _ _ _ Fm Fs _] & _). destruct t as [|a [|b [|]]]; try done.
  change (vget [m; sl] 0) with m. change (vget [m; sl] 1) with sl.
  rewrite !vpic_of_bytes_bytes; try done; unfold is_byte, flag in *; lia.
Qed.

(** ** Records that were not saved by a hypervisor *)

(** A master with its output raised and nothing to serve, and a first
    controller that claims to be the slave. *)
Definition stale_output : list Z := [0; 0; 0; 0; 0; 0x40; 4; 1].
Definition no_master : list Z := [1; 0; 0; 0; 0; 0; 4; 0].

(** Loading trusts the record of a controller.  A record whose INT output
    does not follow from its other fields is accepted, and the next interrupt
    acknowledge of the guest reaches a [BUG_ON], which stops the host; a first
    record without the mark of the master is accepted too, and the next edge
    updates a controller in front of the array. *)
Theorem vpic_load_unchecked target d h data :
  data = stale_output \/ data = no_master ->
  hok h -> next h (rec_bytes (HRec 3 0 data)) -> length (controllers d) = 2%nat ->
  exists h' d', vpic_load d h = Ret (0, h', d') /\
    (data = stale_output -> vpic_ack_pending_irq target true (controllers d') = Bug) /\
    (data = no_master -> vpic_irq_positive_edge target 4 (controllers d') = Bug).
Proof.
  intros Hdata Hh Hn Hlen.
  assert (length data = 8%nat) as Hl by (destruct Hdata as [-> | ->]; done).
  pose proof (hs_load _ _ pic_has_shape d h) as Hs. cbn [pic_handler h_load] in Hs. rewrite Hs. clear Hs. unfold shape_load.
  destruct (next_descriptor h _ Hh Hn) as (_ & Ei & _); [unfold rec_ok, rec_len; cbn [r_code r_inst r_data]; lia|].
  unfold hvm_load_instance. rewrite Ei. cbn [pic_shape sh_pre sh_type sh_strict sh_init sh_post r_inst Z.gtb Z.compare Z.eqb negb].
  rewrite (load_one_ok _ _ _ _ _ _ (HRec 3 0 data)); try done;
    [|unfold rec_ok, rec_len; cbn [r_code r_inst r_data]; lia|unfold rec_len; cbn [r_data]; by rewrite Hl].
  do 2 eexists. split; [reflexivity|]. cbn [fst snd r_data]. rewrite dget_dput. destruct (controllers d) as [|a [|b [|]]]; try done.
  split; intros ->; destruct target; vm_compute; reflexivity.
Qed.

End Migration.

#[local] Instance self_component T : Component T T.
Proof. by exists (fun s => s) (fun t _ => t). Defined.

Lemma vpic_load_unchecked_witness :
  let d := HDom false 0 false false false [] [] vpic_reset in
  let h := Hctx 0 16 (rec_bytes (HRec 3 0 stale_output)) in
  exists h' d', vpic_load d h = Ret (0, h', d') /\
    (stale_output = stale_output -> vpic_ack_pending_irq true true (dget d') = Bug) /\
    (stale_output = no_master -> vpic_irq_positive_edge true 4 (dget d') = Bug).
Proof.
  intros d h. apply (vpic_load_unchecked true d h stale_output); [by left| | |reflexivity].
  - unfold hok, h. cbn [cur hsize hdata]. rewrite rec_bytes_length. cbn. lia.
  - split; [unfold fits, h; rewrite rec_bytes_length; cbn; lia|]. unfold bytes_at, h. cbn [cur hdata]. by rewrite drop_0, firstn_all.
Defined.

End Vpic.
