(* ===== verification/Vioapic.v ===== *)
(** The I/O APIC of an HVM guest.

    Models xen/arch/x86/hvm/vioapic.c and [struct hvm_hw_vioapic]
    (xen/include/public/arch-x86/hvm/save.h): the registers as the guest
    programs them, delivery of the lines of [HvmIrq] to the local APICs, the
    end of an interrupt, and saving and loading.  The composition with the
    counts of [HvmIrq] shows that a level-triggered line is never lost, before
    or after a migration.  What the local APICs and the timers do is a
    message. *)

From S2P Require Import Prelude HvmContext HvmHandler HvmIrq.

Module Vioapic.
Import HvmContext HvmHandler HvmIrq.

(** ** State *)

(** [redirtbl] has the 64 bits of every entry. *)
Record hvm_hw_vioapic := VioapicState { base_address : Z; ioregsel : Z; id : Z; redirtbl : list Z }.

Definition VIOAPIC_DEFAULT_BASE_ADDRESS : Z := 0xfec00000.
Definition VIOAPIC_MEM_LENGTH : Z := 0x100.
Definition VIOAPIC_VERSION_ID : Z := 0x11.
Definition VIOAPIC_REG_SELECT : Z := 0x00.
Definition VIOAPIC_REG_WINDOW : Z := 0x10.
Definition VIOAPIC_REG_APIC_ID : Z := 0x00.
Definition VIOAPIC_REG_VERSION : Z := 0x01.
Definition VIOAPIC_REG_ARB_ID : Z := 0x02.
Definition dest_Fixed : Z := 0.
Definition dest_LowestPrio : Z := 1.
Definition dest_NMI : Z := 4.

(** The fields of an entry. *)
Definition vector (e : Z) : Z := e .& 255.
Definition delivery_mode (e : Z) : Z := (e .>> 8) .& 7.
Definition dest_mode (e : Z) : bool := Z.testbit e 11.
Definition remote_irr (e : Z) : bool := Z.testbit e 14.
Definition level_trig (e : Z) : bool := Z.testbit e 15.
Definition masked (e : Z) : bool := Z.testbit e 16.
Definition dest_id (e : Z) : Z := (e .>> 56) .& 255.
Definition set_field (e k : Z) (b : bool) : Z := if b then set_bit e k else clear_bit e k.

Definition entry (s : hvm_hw_vioapic) (i : Z) : Z := redirtbl s !!! Z.to_nat i.
Definition with_entry (s : hvm_hw_vioapic) (i e : Z) : hvm_hw_vioapic :=
  VioapicState (base_address s) (ioregsel s) (id s) (<[Z.to_nat i := e]> (redirtbl s)).

(** Messages to local APICs, and requests to the rest of the hypervisor. *)
Inductive message :=
| Inject (vcpu : nat) (vec : Z) (trig : bool) (mode : Z) | Nmi (vcpu : nat) | AdjustI8259 | PtMayUnmask.

(** ** Delivery *)

Section Delivery.
(** The CPUs of the domain, [vlapic_match_dest], [vlapic_lowest_prio] and
    [pit_channel0_enabled]. *)
Context (vcpus : list nat) (match_dest : nat -> Z -> bool -> bool) (lowest_prio : Z -> bool -> option nat) (pit_channel0_enabled : bool).

Definition ioapic_inj_irq (target : nat) (vec : Z) (trig : bool) (mode : Z) : list message := [Inject target vec trig mode].

Definition vioapic_deliver (s : hvm_hw_vioapic) (irq : Z) : list message :=
  let e := entry s irq in
  let dest := dest_id e in
  let special := (irq =? hvm_isa_irq_to_gsi 0) && pit_channel0_enabled in
  let vcpu0 := if bool_decide (0%nat ∈ vcpus) then Some 0%nat else None in
  if delivery_mode e =? dest_LowestPrio then
    let target := if special then vcpu0 else lowest_prio dest (dest_mode e) in
    match target with Some v => ioapic_inj_irq v (vector e) (level_trig e) (delivery_mode e) | None => [] end
  else if delivery_mode e =? dest_Fixed then
    if special then
      match vcpu0 with Some v => ioapic_inj_irq v (vector e) (level_trig e) (delivery_mode e) | None => [] end
    else
      filter (fun v => match_dest v dest (dest_mode e) = true) vcpus ≫= fun v =>
        ioapic_inj_irq v (vector e) (level_trig e) (delivery_mode e)
  else if delivery_mode e =? dest_NMI then
    Nmi <$> filter (fun v => match_dest v dest (dest_mode e) = true) vcpus
  else [].

Definition vioapic_irq_positive_edge (irq : Z) (s : hvm_hw_vioapic) : run (hvm_hw_vioapic * list message) :=
  if negb (irq <? VIOAPIC_NUM_PINS) then Bug
  else
    let e := entry s irq in
    if masked e then Ret (s, [])
    else if negb (level_trig e) then Ret (s, vioapic_deliver s irq)
    else if negb (remote_irr e) then
      let s := with_entry s irq (set_field e 14 true) in Ret (s, vioapic_deliver s irq)
    else Ret (s, []).

(** ** Registers *)

Definition vioapic_read_indirect (s : hvm_hw_vioapic) : Z :=
  if ioregsel s =? VIOAPIC_REG_VERSION then (((VIOAPIC_NUM_PINS - 1) .& 0xff) .<< 16) .| (VIOAPIC_VERSION_ID .& 0xff)
  else if (ioregsel s =? VIOAPIC_REG_APIC_ID) || (ioregsel s =? VIOAPIC_REG_ARB_ID) then (id s .& 0xf) .<< 24
  else
    let redir_index := u32 (ioregsel s - 0x10) .>> 1 in
    if redir_index >=? VIOAPIC_NUM_PINS then 0
    else
      let redir_content := entry s redir_index in
      if truthy (ioregsel s .& 1) then (redir_content .>> 32) .& 0xffffffff else redir_content .& 0xffffffff.

Definition vioapic_read (addr : Z) (s : hvm_hw_vioapic) : Z :=
  let addr := addr .& 0xff in
  if addr =? VIOAPIC_REG_SELECT then ioregsel s
  else if addr =? VIOAPIC_REG_WINDOW then u32 (vioapic_read_indirect s) else 0.

Definition vioapic_write_redirent (gsi_count : Z -> Z) (idx : Z) (top_word : bool) (val : Z) (s : hvm_hw_vioapic)
  : hvm_hw_vioapic * list message :=
  let pent := entry s idx in
  let ent :=
    if top_word then u32 pent .| (val .<< 32)
    else
      let ent := ((pent .>> 32) .<< 32) .| val in
      let ent := set_field ent 12 false in
      set_field ent 14 (remote_irr pent) in
  let unmasked := negb top_word && masked pent && negb (masked ent) in
  let s := with_entry s idx ent in
  let '(s, ev) :=
    if idx =? 0 then (s, [AdjustI8259])
    else if level_trig ent && negb (masked ent) && negb (remote_irr ent) && truthy (gsi_count idx) then
      let s := with_entry s idx (set_field ent 14 true) in (s, vioapic_deliver s idx)
    else (s, []) in
  (s, ev ++ (if (idx =? 0) || unmasked then [PtMayUnmask] else [])).

Definition vioapic_write_indirect (gsi_count : Z -> Z) (val : Z) (s : hvm_hw_vioapic) : hvm_hw_vioapic * list message :=
  if ioregsel s =? VIOAPIC_REG_VERSION then (s, [])
  else if ioregsel s =? VIOAPIC_REG_APIC_ID then
    (VioapicState (base_address s) (ioregsel s) ((val .>> 24) .& 0xf) (redirtbl s), [])
  else if ioregsel s =? VIOAPIC_REG_ARB_ID then (s, [])
  else
    let redir_index := u32 (ioregsel s - 0x10) .>> 1 in
    if redir_index >=? VIOAPIC_NUM_PINS then (s, [])
    else vioapic_write_redirent gsi_count redir_index (truthy (ioregsel s .& 1)) (u32 val) s.

Definition vioapic_write (gsi_count : Z -> Z) (addr val : Z) (s : hvm_hw_vioapic) : hvm_hw_vioapic * list message :=
  let addr := addr .& 0xff in
  if addr =? VIOAPIC_REG_SELECT then (VioapicState (base_address s) (u32 val) (id s) (redirtbl s), [])
  else if addr =? VIOAPIC_REG_WINDOW then vioapic_write_indirect gsi_count val s
  else (s, []).

Definition vioapic_range (s : hvm_hw_vioapic) (addr : Z) : bool :=
  (addr >=? base_address s) && (addr <? u64 (base_address s + VIOAPIC_MEM_LENGTH)).

(** ** The end of an interrupt *)

(** [hvm_dpci_eoi], when the host has an IOMMU: the lines of pass-through
    devices may change. *)
Context (dpci_eoi : option (Z -> Z -> hvm_irq -> hvm_irq)).

Definition eoi_entry (vec : Z) (st : hvm_irq * hvm_hw_vioapic * list message) (gsi : Z) : hvm_irq * hvm_hw_vioapic * list message :=
  let '(q, s, ev) := st in
  let e := entry s gsi in
  if negb (vector e =? vec) then st
  else
    let e := set_field e 14 false in
    let s := with_entry s gsi e in
    let q := match dpci_eoi with Some f => f gsi e q | None => q end in
    if level_trig e && negb (masked e) && truthy (count (gsi_assert_count q) gsi) then
      let s := with_entry s gsi (set_field e 14 true) in (q, s, ev ++ vioapic_deliver s gsi)
    else (q, s, ev).

Definition vioapic_update_EOI (vec : Z) (q : hvm_irq) (s : hvm_hw_vioapic) : hvm_irq * hvm_hw_vioapic * list message :=
  foldl (eoi_entry vec) (q, s, []) (seqZ 0 VIOAPIC_NUM_PINS).

End Delivery.

Definition vioapic_reset : hvm_hw_vioapic :=
  VioapicState VIOAPIC_DEFAULT_BASE_ADDRESS 0 0 (replicate (Z.to_nat VIOAPIC_NUM_PINS) (set_field 0 16 true)).

(** ** Entries *)

Lemma set_field_spec e k b j : 0 <= k -> 0 <= j -> Z.testbit (set_field e k b) j = if j =? k then b else Z.testbit e j.
Proof.
  intros Hk Hj. unfold set_field. destruct b; [rewrite set_bit_spec by done|rewrite clear_bit_spec by done]; by destruct (j =? k).
Qed.

Definition io_ok (s : hvm_hw_vioapic) : Prop := length (redirtbl s) = 48%nat.

Lemma entry_with s i e j : io_ok s -> 0 <= i < 48 -> 0 <= j -> entry (with_entry s i e) j = if decide (j = i) then e else entry s j.
Proof.
  intros Hs Hi Hj. unfold entry, with_entry, io_ok in *. cbn [redirtbl]. case_decide as E.
  - subst j. apply list_lookup_total_insert_eq. lia.
  - apply list_lookup_total_insert_ne. lia.
Qed.

Lemma with_entry_ok s i e : io_ok s -> io_ok (with_entry s i e).
Proof. unfold io_ok, with_entry. cbn [redirtbl]. by rewrite length_insert. Qed.

Lemma with_entry_twice s i e e' : with_entry (with_entry s i e) i e' = with_entry s i e'.
Proof. unfold with_entry. cbn [base_address ioregsel id redirtbl]. by rewrite list_insert_insert_eq. Qed.

(** ** Asserted level-triggered lines are in flight *)

(** The entry does not keep an asserted line from being delivered. *)
Definition wants (e : Z) (n : Z) : bool := level_trig e && negb (masked e) && truthy n.
(** The lines [P] are in flight when they are asserted, by the counts [n]. *)
Definition in_flight (P : Z -> Prop) (n : Z -> Z) (s : hvm_hw_vioapic) : Prop :=
  forall g, P g -> 0 < g < 48 -> wants (entry s g) (n g) = true -> remote_irr (entry s g) = true.

Lemma in_flight_counts P n n' s : in_flight P n s -> (forall g, P g -> 0 <= g < 48 -> n' g <> 0 -> n g <> 0) -> in_flight P n' s.
Proof.
  intros H Hn g HP Hg Hw. apply H; [done..|]. unfold wants in *. apply andb_true_iff in Hw as [-> Hw]. unfold truthy in *.
  destruct (Z.eqb_spec (n g) 0) as [E|]; [|done]. destruct (Z.eqb_spec (n' g) 0) as [|Hne]; [done|]. by apply Hn in Hne; [|done|lia].
Qed.

(** Changing one entry. *)
Lemma in_flight_entry P n s i e :
  io_ok s -> 0 <= i < 48 -> in_flight P n s -> (i = 0 \/ (wants e (n i) = true -> remote_irr e = true)) -> in_flight P n (with_entry s i e).
Proof.
  intros Hs Hi H He g HP Hg. rewrite entry_with by (done || lia). case_decide as E; [|by apply H]. subst g. destruct He as [->|He]; [lia|done].
Qed.

Section Level.
Context (vcpus : list nat) (match_dest : nat -> Z -> bool -> bool) (lowest_prio : Z -> bool -> option nat) (pit_channel0_enabled : bool).
Context (dpci_eoi : option (Z -> Z -> hvm_irq -> hvm_irq)) (P : Z -> Prop).
Abbreviation deliver := (vioapic_deliver vcpus match_dest lowest_prio pit_channel0_enabled).
Abbreviation positive_edge := (vioapic_irq_positive_edge vcpus match_dest lowest_prio pit_channel0_enabled).
Abbreviation io_write := (vioapic_write vcpus match_dest lowest_prio pit_channel0_enabled).
Abbreviation update_EOI := (vioapic_update_EOI vcpus match_dest lowest_prio pit_channel0_enabled dpci_eoi).

(** After an edge the line is in flight, and no other line is affected. *)
Lemma positive_edge_ok irq s : io_ok s -> 0 <= irq < 48 ->
  exists s' ev, positive_edge irq s = Ret (s', ev) /\ io_ok s' /\
    (forall g, 0 <= g -> g <> irq -> entry s' g = entry s g) /\
    (forall k, 0 <= k -> k <> 14 -> Z.testbit (entry s' irq) k = Z.testbit (entry s irq) k) /\
    (remote_irr (entry s irq) = true \/ wants (entry s irq) 1 = true -> remote_irr (entry s' irq) = true).
Proof.
  intros Hs Hi. unfold vioapic_irq_positive_edge, VIOAPIC_NUM_PINS. destruct (Z.ltb_spec irq 48); [|lia]. cbn [negb]. cbv zeta.
  destruct (masked (entry s irq)) eqn:Em.
  { do 2 eexists. split; [reflexivity|]. split_and!; try done. unfold wants. rewrite Em, andb_false_r. intros [?|?]; done. }
  destruct (level_trig (entry s irq)) eqn:El; cbn [negb].
  2: { do 2 eexists. split; [reflexivity|]. split_and!; try done. unfold wants. rewrite El. intros [?|?]; done. }
  destruct (remote_irr (entry s irq)) eqn:Er; cbn [negb]; do 2 eexists; (split; [reflexivity|]); [by split_and!|].
  split_and!; [by apply with_entry_ok| | |].
  - intros g Hg Hne. rewrite entry_with by (done || lia). by rewrite decide_False.
  - intros k Hk Hne. rewrite entry_with, decide_True, set_field_spec by (done || lia). by destruct (Z.eqb_spec k 14).
  - intros _. unfold remote_irr. rewrite entry_with, decide_True, set_field_spec by (done || lia). done.
Qed.

(** The edges that a change of the lines raises. *)
Fixpoint deliver_edges (evs : list event) (s : hvm_hw_vioapic) : run (hvm_hw_vioapic * list message) :=
  match evs with
  | [] => Ret (s, [])
  | VioapicPositive g :: evs => '(s, m) ← positive_edge g s; '(s, m2) ← deliver_edges evs s; Ret (s, m ++ m2)
  | _ :: evs => deliver_edges evs s
  end.

Lemma deliver_edges_ok evs : forall n n' s,
  io_ok s -> in_flight P n s -> (forall g, VioapicPositive g ∈ evs -> 0 <= g < 48) ->
  (forall g, P g -> 0 <= g < 48 -> n' g <> 0 -> n g <> 0 \/ VioapicPositive g ∈ evs) ->
  exists s' m, deliver_edges evs s = Ret (s', m) /\ io_ok s' /\ in_flight P n' s'.
Proof.
  induction evs as [|ev evs IH]; intros n n' s Hs Hf Hr Hn.
  - do 2 eexists. split; [reflexivity|]. split; [done|]. eapply in_flight_counts; [exact Hf|]. intros g HP Hg Hne.
    destruct (Hn g HP Hg Hne) as [?|H]; [done|by apply not_elem_of_nil in H].
  - assert (forall g, VioapicPositive g ∈ evs -> 0 <= g < 48) as Hr' by (intros g Hg; apply Hr; by right).
    destruct ev as [g0|p|p|p]; cbn [deliver_edges].
    2-4: apply (IH n); try done; intros g HP Hg Hne; destruct (Hn g HP Hg Hne) as [?|[?|?]%elem_of_cons]; auto; congruence.
    assert (0 <= g0 < 48) as Hg0 by (apply Hr; by left).
    destruct (positive_edge_ok g0 s Hs Hg0) as (s1 & m1 & -> & Hs1 & Hother & Hbits & Hset). cbn [mbind run_bind].
    assert (forall g x, 0 <= g < 48 -> wants (entry s1 g) x = wants (entry s g) x) as Hw.
    { intros g x Hg. destruct (decide (g = g0)) as [->|]; [|by rewrite Hother by lia]. unfold wants, level_trig, masked. by rewrite !Hbits by lia. }
    destruct (IH (fun g => if decide (g = g0) then 1 else n g) n' s1) as (s2 & m2 & -> & Hs2 & Hf2); try done.
    + intros g HP Hg Hwant. rewrite Hw in Hwant by lia. case_decide as E; [subst g; apply Hset; by right|].
      rewrite Hother by lia. by apply Hf.
    + intros g HP Hg Hne. case_decide as E; [by left|]. destruct (Hn g HP Hg Hne) as [?|[?|?]%elem_of_cons]; auto; congruence.
    + cbn. eauto 10.
Qed.

Lemma write_flight n addr val s : io_ok s -> in_flight P n s -> io_ok (io_write n addr val s).1 /\ in_flight P n (io_write n addr val s).1.
Proof.
  intros Hs Hf. unfold vioapic_write. cbv zeta. destruct (_ =? VIOAPIC_REG_SELECT); [done|]. destruct (_ =? VIOAPIC_REG_WINDOW); [|done].
  unfold vioapic_write_indirect. repeat (match goal with |- context [if ioregsel s =? ?r then _ else _] => destruct (ioregsel s =? r); [done|] end).
  cbv zeta. set (idx := u32 (ioregsel s - 16) .>> 1). destruct (Z.geb_spec idx VIOAPIC_NUM_PINS) as [|Hlt]; [done|].
  assert (0 <= idx < 48) as Hi by (unfold idx, VIOAPIC_NUM_PINS in *; pose proof (u32_range (ioregsel s - 16)); rewrite Z.shiftr_div_pow2 in * by lia; zlia).
  unfold vioapic_write_redirent. cbv zeta. set (ent := if truthy _ then _ else _). clearbody ent.
  destruct (Z.eqb_spec idx 0) as [E|E]; [|destruct (_ && _ && _ && _) eqn:Ew]; cbn [fst]; (split; [by repeat apply with_entry_ok|]).
  - apply in_flight_entry; auto.
  - rewrite with_entry_twice. apply in_flight_entry; try done. right. intros _. unfold remote_irr. rewrite set_field_spec by lia. done.
  - apply in_flight_entry; try done. right. unfold wants. intros Hw. destruct (remote_irr ent); [done|].
    cbn [negb] in Ew. by rewrite andb_true_r, Hw in Ew.
Qed.

(** The end of an interrupt of a pass-through device lowers lines. *)
Definition dpci_lowers : Prop :=
  forall f, dpci_eoi = Some f -> forall g e q, irq_ok q ->
    irq_ok (f g e q) /\ forall j, 0 <= j < 48 -> count (gsi_assert_count (f g e q)) j <> 0 -> count (gsi_assert_count q) j <> 0.

Definition flight_ok (q : hvm_irq) (s : hvm_hw_vioapic) : Prop := irq_ok q /\ io_ok s /\ in_flight P (count (gsi_assert_count q)) s.

Lemma eoi_entry_flight vec q s ev g :
  dpci_lowers -> 0 <= g < 48 -> flight_ok q s ->
  let '(q', s', _) := eoi_entry vcpus match_dest lowest_prio pit_channel0_enabled dpci_eoi vec (q, s, ev) g in flight_ok q' s'.
Proof.
  intros Hd Hg (Hq & Hs & Hf). unfold eoi_entry. destruct (negb _); [done|]. cbv zeta. set (e := set_field (entry s g) 14 false).
  set (q' := match dpci_eoi with Some f => f g e q | None => q end).
  assert (irq_ok q' /\ in_flight P (count (gsi_assert_count q')) s) as [Hq' Hf'].
  { unfold q'. destruct dpci_eoi as [f|] eqn:Ef; [|done]. destruct (Hd f Ef g e q Hq) as [? Hl]. split; [done|].
    eapply in_flight_counts; [exact Hf|]. intros j _. apply Hl. }
  change (level_trig e && negb (masked e) && truthy (count (gsi_assert_count q') g)) with (wants e (count (gsi_assert_count q') g)).
  destruct (wants e (count (gsi_assert_count q') g)) eqn:Ew.
  - split_and!; [done|by repeat apply with_entry_ok|]. rewrite with_entry_twice. apply in_flight_entry; try done.
    right. intros _. unfold remote_irr. by rewrite set_field_spec by lia.
  - split_and!; [done|by apply with_entry_ok|]. apply in_flight_entry; try done. right. congruence.
Qed.

Lemma eoi_flight vec q s :
  dpci_lowers -> flight_ok q s -> let '(q', s', _) := update_EOI vec q s in flight_ok q' s'.
Proof.
  intros Hd. unfold vioapic_update_EOI. assert (Forall (fun g => 0 <= g < 48) (seqZ 0 VIOAPIC_NUM_PINS)) as Hg.
  { apply Forall_forall. intros g H%elem_of_seqZ. unfold VIOAPIC_NUM_PINS in H. lia. }
  generalize (@nil message). revert q s. induction Hg as [|g l Hg _ IH]; intros q s m Hf; [done|]. cbn [foldl].
  pose proof (eoi_entry_flight vec q s m g Hd Hg Hf) as H.
  destruct (eoi_entry vcpus match_dest lowest_prio pit_channel0_enabled dpci_eoi vec (q, s, m) g) as [[q' s'] m']. by apply IH.
Qed.

End Level.

(** ** Counts that become positive raise an edge *)

(** The lines [P] raise an edge when their count becomes positive. *)
Definition raises (P : Z -> Prop) (t t' : list Z) (ev : list event) : Prop :=
  forall g, P g -> 0 <= g < 48 -> count t' g <> 0 -> count t g <> 0 \/ VioapicPositive g ∈ ev.
Definition small (t : list Z) : Prop := length t = 48%nat /\ forall g, 0 <= g < 48 -> count t g <= 149.

Lemma irq_ok_small s : irq_ok s -> small (gsi_assert_count s).
Proof.
  intros [Hl _ _ _ _ Hg _]. split; [exact Hl|]. intros g Hr. rewrite Hg by exact Hr. pose proof (wires_range s g). lia.
Qed.

Lemma raises_refl P t ev : raises P t t ev.
Proof. intros g _ _ H. by left. Qed.

Lemma raises_trans P a b c ev1 ev2 : raises P a b ev1 -> raises P b c ev2 -> raises P a c (ev1 ++ ev2).
Proof.
  intros H1 H2 g HP Hg Hc. destruct (H2 g HP Hg Hc) as [Hb|Hb]; [|right; apply elem_of_app; by right].
  destruct (H1 g HP Hg Hb) as [Ha|Ha]; [by left|right; apply elem_of_app; by left].
Qed.

Lemma raises_weaken P a b ev ev' : raises P a b ev -> ev ⊆ ev' -> raises P a b ev'.
Proof. intros H Hs g HP Hg Hb. destruct (H g HP Hg Hb) as [?|?]; [by left|right; by apply Hs]. Qed.

Lemma raises_tinc P t i l l' : length t = 48%nat -> 0 <= i < 48 -> raises P t (tinc t i) (if count t i =? 0 then VioapicPositive i :: l else l').
Proof.
  intros Hl Hi g _ Hg Hc. unfold tinc in Hc. rewrite count_tset in Hc by lia. case_decide as E; [|by left]. subst g.
  destruct (Z.eqb_spec (count t i) 0); [right; by left|by left].
Qed.

Lemma raises_tdec P t i ev : length t = 48%nat -> 0 <= i < 48 -> count (tdec t i) i <= 149 -> raises P t (tdec t i) ev.
Proof.
  intros Hl Hi Hs g _ Hg Hc. unfold tdec in *. rewrite count_tset in Hs, Hc by lia. case_decide as E; [|by left]. subst g.
  rewrite decide_True in Hs by done. left. intros E0. rewrite E0 in Hs. done.
Qed.

Lemma tdec_other t i g : length t = 48%nat -> 0 <= i < 48 -> 0 <= g -> g <> i -> count (tdec t i) g = count t g.
Proof. intros. unfold tdec. rewrite count_tset by lia. by rewrite decide_False. Qed.

Lemma tinc_other t i g : length t = 48%nat -> 0 <= i < 48 -> 0 <= g -> g <> i -> count (tinc t i) g = count t g.
Proof. intros. unfold tinc. rewrite count_tset by lia. by rewrite decide_False. Qed.

Section Edges.
(** The lines [P] are those whose interrupts the guest takes from the I/O APIC. *)
Context (use_pirq : Z -> option Z) (P : Z -> Prop) (no_pirq : forall g, P g -> use_pirq g = None).
Abbreviation raises := (raises P).

Lemma raises_gsi t i l l' : length t = 48%nat -> 0 <= i < 48 -> raises t (tinc t i) (if count t i =? 0 then assert_gsi use_pirq i ++ l else l').
Proof.
  intros Hl Hi g HP Hg Hc. destruct (raises_tinc P t i l l' Hl Hi g HP Hg Hc) as [?|H]; [by left|]. destruct (count t i =? 0); [|by right].
  unfold tinc in Hc. rewrite count_tset in Hc by lia. case_decide as E; [|by left]. subst g. right. unfold assert_gsi. rewrite no_pirq by done. by left.
Qed.


Lemma assert_raises device intx s : 0 <= device <= 31 -> 0 <= intx <= 3 -> length (gsi_assert_count s) = 48%nat ->
  (forall l, 0 <= l < NR_LINK -> 0 <= route s l <= 15) ->
  raises (gsi_assert_count s) (gsi_assert_count (__hvm_pci_intx_assert use_pirq device intx s).1) (__hvm_pci_intx_assert use_pirq device intx s).2.
Proof.
  intros Hd Hi Hlen Hrt. unfold __hvm_pci_intx_assert. destruct (line_index device intx Hd Hi) as (Hk & -> & ->).
  destruct (Z.testbit _ _); [apply raises_refl|]. cbv zeta. irq_fields. set (k := device * 4 + intx) in *.
  pose proof (kgsi_range k Hk). pose proof (klink_range k) as Hl.
  pose proof (Hrt (klink k) Hl) as Hisa. unfold route in Hisa.
  rewrite <- (app_nil_r (assert_gsi use_pirq (kgsi k))). unfold assert_irq.
  destruct (_ && _); irq_fields; [|by apply raises_gsi; lia]. eapply raises_trans; apply raises_gsi; rewrite ?tinc_length by in_table; lia.
Qed.

Lemma deassert_raises device intx s ev : 0 <= device <= 31 -> 0 <= intx <= 3 -> irq_ok s ->
  raises (gsi_assert_count s) (gsi_assert_count (__hvm_pci_intx_deassert use_pirq device intx s).1) ev.
Proof.
  intros Hd Hi Hok. pose proof (intx_deassert_ok use_pirq device intx s Hd Hi Hok) as [Hlen' Hsm]%irq_ok_small.
  destruct (irq_ok_small s Hok) as [Hlen _]. unfold __hvm_pci_intx_deassert in *. destruct (line_index device intx Hd Hi) as (Hk & Eg & El).
  rewrite Eg, El in *. destruct (negb _); [apply raises_refl|]. cbv zeta in *. set (k := device * 4 + intx) in *.
  pose proof (kgsi_range k Hk). pose proof (klink_range k) as Hl.
  pose proof (io_routes s Hok (klink k) Hl) as Hisa. unfold route in Hisa. irq_fields_in Hsm. irq_fields.
  destruct (_ && _); irq_fields; irq_fields_in Hsm; [|apply raises_tdec; try lia; apply Hsm; lia].
  apply (raises_weaken _ _ _ ([] ++ ev)); [|done]. eapply raises_trans; apply raises_tdec; rewrite ?tdec_length by in_table; try lia; [|apply Hsm; lia].
  pose proof (Hsm (kgsi k) ltac:(lia)) as Hs. rewrite tdec_other in Hs by (rewrite ?tdec_length by in_table; lia). done.
Qed.

Lemma isa_raises irq s : 0 <= irq <= 15 -> irq_ok s ->
  raises (gsi_assert_count s) (gsi_assert_count (hvm_isa_irq_assert use_pirq irq s).1) (hvm_isa_irq_assert use_pirq irq s).2 /\
  forall ev, raises (gsi_assert_count s) (gsi_assert_count (hvm_isa_irq_deassert use_pirq irq s).1) ev.
Proof.
  intros Hr Hok. destruct (irq_ok_small s Hok) as [Hlen _]. pose proof (isa_gsi_range irq Hr). split.
  - unfold hvm_isa_irq_assert. destruct (Z.testbit _ _); [apply raises_refl|]. irq_fields. unfold assert_irq. apply raises_gsi; lia.
  - intros ev. pose proof (isa_deassert_ok use_pirq irq s Hr Hok) as [_ Hsm]%irq_ok_small. unfold hvm_isa_irq_deassert in *.
    destruct (negb _); [apply raises_refl|]. irq_fields_in Hsm. irq_fields. apply raises_tdec; try lia. apply Hsm. lia.
Qed.

Lemma via_level_ok s (b : bool) : irq_ok s -> callback_via_type s = HVMIRQ_callback_pci_intx -> irq_ok (with_via s b (callback_via_type s) (callback_via s)).
Proof. intros Hok E. apply via_irrelevant; try done; [by apply via_kind_ok|left; by rewrite E|left; by rewrite E]. Qed.

Lemma level_raises b s : irq_ok s ->
  raises (gsi_assert_count s) (gsi_assert_count (hvm_set_callback_irq_level use_pirq b s).1) (hvm_set_callback_irq_level use_pirq b s).2.
Proof.
  intros Hok. destruct (irq_ok_small s Hok) as [Hlen _]. pose proof (callback_level_ok use_pirq b s Hok) as [_ Hsm]%irq_ok_small.
  pose proof (via_kind_ok s Hok) as Hk. unfold hvm_set_callback_irq_level in *. irq_fields. irq_fields_in Hsm.
  case_bool_decide; [apply raises_refl|]. destruct (callback_via_type s) eqn:Et; try apply raises_refl.
  - unfold via_ok, VIOAPIC_NUM_PINS in Hk. destruct b; irq_fields; irq_fields_in Hsm; [by apply raises_tinc; lia|].
    apply raises_tdec; try lia. apply Hsm. lia.
  - destruct (via_bounds s Hok Et). rewrite <- Et in *. destruct b.
    + apply (assert_raises (via_dev s) (via_intx s) (with_via s true _ _)); try done. apply Hok.
    + by apply (deassert_raises (via_dev s) (via_intx s) (with_via s false _ _)); try done; apply via_level_ok.
Qed.

Lemma route_raises link isa s : 0 <= link <= 3 -> 0 <= isa <= 15 -> irq_ok s ->
  raises (gsi_assert_count s) (gsi_assert_count (hvm_set_pci_link_route link isa s).1) (hvm_set_pci_link_route link isa s).2.
Proof.
  intros Hl Hi Hok. destruct (irq_ok_small s Hok) as [Hlen _]. pose proof (set_route_ok link isa s Hl Hi Hok) as [_ Hsm]%irq_ok_small.
  pose proof (io_routes s Hok link ltac:(unfold NR_LINK; lia)) as Ho. unfold route in Ho.
  unfold hvm_set_pci_link_route in *. set (old := count (pci_link s) link) in *. destruct (Z.eqb_spec old isa) as [|Hne]; [apply raises_refl|].
  cbv zeta in *. set (s1 := dpci_fixup old (with_link s (tset (pci_link s) link isa))) in *.
  assert (gsi_assert_count s1 = gsi_assert_count s) as E1 by (unfold s1, dpci_fixup; irq_fields; destruct (irq_dpci s); done).
  rewrite <- E1 in Hlen |- *. clearbody s1. destruct (_ =? 0); [apply raises_refl|].
  destruct (truthy old), (truthy isa); irq_fields; irq_fields_in Hsm; try apply raises_refl.
  - eapply raises_trans; [|apply raises_tinc; rewrite ?tdec_length by in_table; lia]. apply raises_tdec; try lia.
    pose proof (Hsm old ltac:(lia)) as Hs. by rewrite tinc_other in Hs by (rewrite ?tdec_length by in_table; lia).
  - apply raises_tdec; try lia. apply Hsm. lia.
  - apply raises_tinc; lia.
Qed.

Lemma tear_down_raises s ev : irq_ok s -> raises (gsi_assert_count s) (gsi_assert_count (tear_down_via use_pirq s).1) ev.
Proof.
  intros Hok. destruct (irq_ok_small s Hok) as [Hlen _]. pose proof (tear_down_ok use_pirq s 0 Hok ltac:(lia)) as [_ Hsm]%irq_ok_small.
  irq_fields_in Hsm. pose proof (via_kind_ok s Hok) as Hk. unfold tear_down_via in *. destruct (callback_via_asserted s); [|apply raises_refl].
  destruct (callback_via_type s) eqn:Et; try apply raises_refl.
  - unfold via_ok, VIOAPIC_NUM_PINS in Hk. irq_fields. irq_fields_in Hsm. apply raises_tdec; try lia. apply Hsm. lia.
  - destruct (via_bounds s Hok Et). by apply deassert_raises.
Qed.

Lemma via_raises via s : irq_ok s ->
  raises (gsi_assert_count s) (gsi_assert_count (hvm_set_callback_via use_pirq via s).1) (hvm_set_callback_via use_pirq via s).2.
Proof.
  intros Hok. pose proof (fun ev => tear_down_raises s ev Hok) as Ht. pose proof (tear_down_ok use_pirq s 0 Hok ltac:(lia)) as Hok1.
  unfold hvm_set_callback_via. destruct (tear_down_via use_pirq s) as [s1 ev]. cbn [fst] in Ht, Hok1.
  pose proof Hok1 as [Hlen _ _ Hrt _ _ _]. irq_fields_in Hlen. pose proof (Z.mod_pos_bound via 256 ltac:(lia)).
  destruct (via_type_of via); irq_fields; try apply Ht.
  - unfold VIOAPIC_NUM_PINS in *. destruct (_ || _) eqn:E; [apply Ht|]. destruct (callback_via_asserted s1); irq_fields; [|apply Ht].
    eapply raises_trans; [apply Ht|]. apply raises_tinc; lia.
  - set (s2 := with_via s1 _ HVMIRQ_callback_pci_intx _). destruct (callback_via_asserted s1); [|apply Ht].
    set (pdev := _ .& 31). set (pintx := _ .& 3).
    pose proof (land_range ((via .>> 11) mod 256) 31 5 ltac:(lia) ltac:(lia)). pose proof (land_range (via mod 256) 3 2 ltac:(lia) ltac:(lia)).
    pose proof (assert_raises pdev pintx s2 ltac:(unfold pdev; lia) ltac:(unfold pintx; lia) Hlen Hrt) as Ha.
    destruct (__hvm_pci_intx_assert use_pirq pdev pintx s2) as [s3 ev3]. irq_fields_in Ha. irq_fields.
    eapply raises_trans; [apply Ht|exact Ha].
Qed.

(** An operation on the lines, with what it tells the controllers. *)
Definition perform (o : irq_op) (s : hvm_irq) : hvm_irq * list event :=
  match o with
  | PciAssert d i => __hvm_pci_intx_assert use_pirq d i s
  | PciDeassert d i => __hvm_pci_intx_deassert use_pirq d i s
  | IsaAssert i => hvm_isa_irq_assert use_pirq i s
  | IsaDeassert i => hvm_isa_irq_deassert use_pirq i s
  | CallbackLevel b => hvm_set_callback_irq_level use_pirq b s
  | SetRoute l i => hvm_set_pci_link_route l i s
  | SetVia v => hvm_set_callback_via use_pirq v s
  end.

Lemma perform_ok o s : valid_op o -> irq_ok s -> irq_ok (perform o s).1.
Proof. intros Hv Hok. pose proof (exec_ok use_pirq o s Hv Hok). by destruct o. Qed.

Lemma perform_raises o s : valid_op o -> irq_ok s -> raises (gsi_assert_count s) (gsi_assert_count (perform o s).1) (perform o s).2.
Proof.
  intros Hv Hok. destruct o; cbn [perform valid_op] in *; try destruct Hv.
  - apply assert_raises; try done; apply Hok.
  - by apply deassert_raises.
  - by apply isa_raises.
  - by apply isa_raises.
  - by apply level_raises.
  - by apply route_raises.
  - by apply via_raises.
Qed.

End Edges.

(** ** The lines that are signalled exist *)

Definition event_ok (ev : event) : Prop :=
  match ev with
  | VioapicPositive g => 0 <= g < 48
  | VpicPositive irq | VpicNegative irq => 0 <= irq <= 15
  | GuestPirq _ => True
  end.

Ltac each_event := repeat (first [apply Forall_nil_2 | apply Forall_cons; split]); cbn [event_ok]; try done; try lia.

Lemma assert_irq_ok use_pirq g irq : 0 <= g < 48 -> 0 <= irq <= 15 -> Forall event_ok (assert_irq use_pirq g irq).
Proof. intros. unfold assert_irq, assert_gsi. destruct (use_pirq g); each_event. Qed.
Lemma assert_gsi_ok use_pirq g : 0 <= g < 48 -> Forall event_ok (assert_gsi use_pirq g).
Proof. intros. unfold assert_gsi. destruct (use_pirq g); each_event. Qed.
Lemma deassert_irq_ok use_pirq irq : 0 <= irq <= 15 -> Forall event_ok (deassert_irq use_pirq irq).
Proof. intros. unfold deassert_irq. destruct (use_pirq irq); each_event. Qed.

Lemma intx_events use_pirq device intx s : 0 <= device <= 31 -> 0 <= intx <= 3 -> (forall l, 0 <= l < NR_LINK -> 0 <= route s l <= 15) ->
  Forall event_ok (__hvm_pci_intx_assert use_pirq device intx s).2 /\ Forall event_ok (__hvm_pci_intx_deassert use_pirq device intx s).2.
Proof.
  intros Hd Hi Hrt. unfold __hvm_pci_intx_assert, __hvm_pci_intx_deassert. destruct (line_index device intx Hd Hi) as (Hk & -> & ->).
  set (k := device * 4 + intx) in *. pose proof (kgsi_range k Hk). pose proof (Hrt (klink k) (klink_range k)) as Hisa. unfold route in Hisa.
  cbv zeta. irq_fields. split; destruct (Z.testbit _ _); cbn [negb snd];
    repeat (match goal with |- context [if ?b then _ else _] => destruct b end); irq_fields; rewrite ?app_nil_r, ?app_nil_l;
    repeat (first [apply Forall_nil_2 | apply assert_gsi_ok | apply assert_irq_ok | apply deassert_irq_ok | apply Forall_app_2]); lia.
Qed.

Lemma via_edges g : 0 < g < 48 -> Forall event_ok (VioapicPositive g :: (if g <=? 15 then [VpicPositive g] else [])).
Proof. intros Hg. destruct (Z.leb_spec g 15); each_event. Qed.

Lemma negative_ok g : 0 <= g <= 15 -> Forall event_ok [VpicNegative g].
Proof. intros. each_event. Qed.

Lemma level_events use_pirq b s : irq_ok s -> Forall event_ok (hvm_set_callback_irq_level use_pirq b s).2.
Proof.
  intros Hok. pose proof (via_kind_ok s Hok) as Hk. unfold hvm_set_callback_irq_level. irq_fields. case_bool_decide; [constructor|].
  destruct (callback_via_type s) eqn:Et; try constructor.
  - unfold via_ok, VIOAPIC_NUM_PINS in Hk. destruct b; irq_fields; [destruct (_ =? 0); [by apply via_edges|constructor]|].
    destruct (_ && _) eqn:E; [|constructor]. apply andb_true_iff in E as [_ E]. apply negative_ok. lia.
  - destruct (via_bounds s Hok Et). destruct b; apply intx_events; try done; apply Hok.
Qed.

Lemma route_events link isa s : 0 <= link <= 3 -> 0 <= isa <= 15 -> irq_ok s -> Forall event_ok (hvm_set_pci_link_route link isa s).2.
Proof.
  intros Hl Hi Hok. pose proof (io_routes s Hok link ltac:(unfold NR_LINK; lia)) as Ho. unfold route in Ho.
  unfold hvm_set_pci_link_route. destruct (_ =? isa); [constructor|]. cbv zeta. destruct (_ =? 0); [constructor|].
  destruct (truthy (count (pci_link s) link)), (truthy isa); irq_fields;
    repeat (match goal with |- context [if ?b then _ else _] => destruct b end); rewrite ?app_nil_r; cbn [app]; each_event.
Qed.

Lemma tear_down_events use_pirq s : irq_ok s -> Forall event_ok (tear_down_via use_pirq s).2.
Proof.
  intros Hok. pose proof (via_kind_ok s Hok) as Hk. unfold tear_down_via. destruct (callback_via_asserted s); [|constructor].
  destruct (callback_via_type s) eqn:Et; try constructor.
  - unfold via_ok in Hk. irq_fields. destruct (_ && _) eqn:E; [|constructor]. apply andb_true_iff in E as [_ E]. apply negative_ok. lia.
  - destruct (via_bounds s Hok Et). apply intx_events; try done; apply Hok.
Qed.

Lemma via_events use_pirq via s : irq_ok s -> Forall event_ok (hvm_set_callback_via use_pirq via s).2.
Proof.
  intros Hok. pose proof (tear_down_events use_pirq s Hok) as Ht. pose proof (tear_down_ok use_pirq s 0 Hok ltac:(lia)) as [_ _ _ Hrt _ _ _].
  unfold hvm_set_callback_via. destruct (tear_down_via use_pirq s) as [s1 ev]. cbn [fst snd] in *.
  pose proof (Z.mod_pos_bound via 256 ltac:(lia)). destruct (via_type_of via); irq_fields; try done.
  - destruct (_ || _) eqn:E; [done|]. unfold VIOAPIC_NUM_PINS in E. destruct (callback_via_asserted s1); irq_fields; [|done].
    apply Forall_app_2; [done|]. case_match; [apply via_edges; lia|constructor].
  - set (s2 := with_via s1 _ HVMIRQ_callback_pci_intx _). destruct (callback_via_asserted s1); [|done].
    set (pdev := _ .& 31). set (pintx := _ .& 3).
    pose proof (land_range ((via .>> 11) mod 256) 31 5 ltac:(lia) ltac:(lia)). pose proof (land_range (via mod 256) 3 2 ltac:(lia) ltac:(lia)).
    destruct (intx_events use_pirq pdev pintx s2 ltac:(unfold pdev; lia) ltac:(unfold pintx; lia) Hrt) as [Ha _].
    destruct (__hvm_pci_intx_assert use_pirq pdev pintx s2) as [s3 ev3]. by apply Forall_app_2.
Qed.

Lemma perform_events use_pirq o s : valid_op o -> irq_ok s -> Forall event_ok (perform use_pirq o s).2.
Proof.
  intros Hv Hok. destruct o; cbn [perform valid_op] in *; try destruct Hv;
    auto using level_events, route_events, via_events.
  - apply intx_events; try done; apply Hok.
  - apply intx_events; try done; apply Hok.
  - unfold hvm_isa_irq_assert. pose proof (isa_gsi_range irq ltac:(lia)). destruct (Z.testbit _ _); [constructor|]. irq_fields.
    destruct (_ =? 0); [apply assert_irq_ok; lia|constructor].
  - unfold hvm_isa_irq_deassert. destruct (negb _); [constructor|]. irq_fields. destruct (_ =? 0); [apply deassert_irq_ok; lia|constructor].
Qed.

Lemma reset_flight P : flight_ok P irq_reset vioapic_reset.
Proof.
  split; [exact reset_ok|]. split; [done|]. intros g _ Hg. unfold wants, irq_reset. irq_fields. rewrite count_replicate by lia. by rewrite andb_false_r.
Qed.

(** ** Saving and loading *)

Definition IOAPIC : htype := HType 4 400 None.

Definition vioapic_bytes (s : hvm_hw_vioapic) : list Z :=
  le_bytes 8 (base_address s) ++ le_bytes 4 (ioregsel s) ++ le_bytes 4 (id s) ++ (seqZ 0 VIOAPIC_NUM_PINS ≫= fun i => le_bytes 8 (entry s i)).
Definition vioapic_of_bytes (bs : list Z) : hvm_hw_vioapic :=
  VioapicState (le_val (take 8 bs)) (le_val (take 4 (drop 8 bs))) (le_val (take 4 (drop 12 bs)))
    (map (fun i => le_val (take 8 (drop (16 + 8 * i) bs))) (seq 0 48)).

(** The fields have the width of their declaration. *)
Definition io_typed (s : hvm_hw_vioapic) : Prop :=
  0 <= base_address s < 2 ^ 64 /\ 0 <= ioregsel s < 2 ^ 32 /\ 0 <= id s < 2 ^ 32 /\ io_ok s /\ Forall (fun e => 0 <= e < 2 ^ 64) (redirtbl s).

Lemma bind_const_length {A} (f : A -> list Z) n l : (forall x, length (f x) = n) -> length (l ≫= f) = (n * length l)%nat.
Proof. intros Hf. induction l as [|x l IH]; cbn; [lia|]. rewrite length_app, Hf. fold (mbind f l). cbn in IH. lia. Qed.

Lemma vioapic_bytes_length s : length (vioapic_bytes s) = 400%nat.
Proof.
  unfold vioapic_bytes. rewrite !length_app, !le_bytes_length, (bind_const_length _ 8) by (intros; apply le_bytes_length).
  by rewrite length_seqZ.
Qed.

Lemma bind_block {A} (f : A -> list Z) n l i x rest : (forall x, length (f x) = n) -> l !! i = Some x ->
  take n (drop (n * i) ((l ≫= f) ++ rest)) = f x.
Proof.
  intros Hf. revert i. induction l as [|y l IH]; intros [|i] Hi; try done; cbn [mbind list_bind]; fold (mbind f l).
  - injection Hi as ->. rewrite Nat.mul_0_r, drop_0, <- app_assoc, take_app_length' by done. done.
  - rewrite <- app_assoc. replace (n * S i)%nat with (length (f y) + n * i)%nat by (rewrite Hf; lia).
    rewrite <- drop_drop, drop_app_length. by apply IH.
Qed.

Lemma vioapic_of_bytes_bytes s : io_typed s -> vioapic_of_bytes (vioapic_bytes s) = s.
Proof.
  intros (Hb & Hr & Hi & Hs & He). destruct s as [b r i t]. cbn [base_address ioregsel id redirtbl] in *. unfold io_ok in Hs. cbn [redirtbl] in Hs.
  unfold vioapic_of_bytes, vioapic_bytes. cbn [base_address ioregsel id]. set (blocks := _ ≫= _). f_equal.
  - rewrite take_app_length' by (by rewrite le_bytes_length). rewrite le_val_bytes. by apply Z.mod_small.
  - rewrite drop_app_length', take_app_length' by (by rewrite le_bytes_length). rewrite le_val_bytes. by apply Z.mod_small.
  - rewrite app_assoc, drop_app_length', take_app_length' by (rewrite ?length_app, ?le_bytes_length; done). rewrite le_val_bytes. by apply Z.mod_small.
  - apply list_eq. intros k. rewrite list_lookup_fmap. destruct (decide (k < 48)%nat) as [Hk|Hk].
    2: { rewrite (lookup_ge_None_2 t), (lookup_ge_None_2 (seq 0 48)) by (rewrite ?length_seq; lia). done. }
    rewrite lookup_seq_lt by done. cbn [fmap option_fmap option_map]. rewrite Nat.add_0_l, !app_assoc, <- drop_drop.
    rewrite drop_app_length' by (by rewrite !length_app, !le_bytes_length). rewrite <- (app_nil_r blocks). unfold blocks.
    rewrite (bind_block _ 8 _ _ (Z.of_nat k)); [|intros; apply le_bytes_length|apply lookup_seqZ; unfold VIOAPIC_NUM_PINS; lia].
    rewrite le_val_bytes. unfold entry. cbn [redirtbl]. rewrite Nat2Z.id. destruct (t !! k) as [e|] eqn:Ee.
    2: { apply lookup_ge_None in Ee. lia. }
    rewrite (list_lookup_total_correct _ _ _ Ee). f_equal. apply Z.mod_small. rewrite Forall_lookup in He. by eapply He.
Qed.

Section Migration.
Context {S : Type} `{!Component S hvm_hw_vioapic}.
Implicit Types d : hdom S.

Definition ioapic_save (d : hdom S) (h : hctx) : run (Z * hctx * hdom S) :=
  let '(r, h) := hvm_save_entry IOAPIC 0 h (vioapic_bytes (dget d)) in Ret (r, h, d).

(** The result of [hvm_load_entry] is the result of the handler. *)
Definition ioapic_load (d : hdom S) (h : hctx) : run (Z * hctx * hdom S) :=
  '(r, h, data) ← hvm_load_entry IOAPIC h (vioapic_bytes (dget d));
  if negb (r =? 0) then Ret (r, h, d) else Ret (0, h, dput (vioapic_of_bytes data) d).

Definition ioapic_handler : handler S := Handler ioapic_save ioapic_load (reg_size 1 IOAPIC) HVMSR_PER_DOM.
Definition ioapic_records (d : hdom S) : list hrec := [HRec 4 0 (vioapic_bytes (dget d))].
Definition ioapic_device : device S :=
  Device ioapic_handler ioapic_records (fun d => d) (fun r d => rec_len r = 400) (fun r d => dput (vioapic_of_bytes (r_data r)) d).

Lemma ioapic_type_ok : htype_ok IOAPIC.
Proof. done. Qed.

#[export] Instance ioapic_laws : DeviceLaws 4 ioapic_device.
Proof.
  split; cbn [ioapic_device dv_handler dv_records dv_after dv_accepts dv_apply].
  - intros d. repeat constructor; unfold rec_len; cbn [r_code r_inst r_data]; rewrite ?vioapic_bytes_length; lia.
  - intros d. unfold ioapic_records. rewrite recs_bytes_cons, length_app, rec_bytes_length. cbn [r_data]. by rewrite vioapic_bytes_length.
  - intros d h Hh Hf. cbn [ioapic_handler h_save]. unfold ioapic_save, ioapic_records in *. rewrite recs_bytes_cons, app_nil_r in *.
    rewrite save_entry_ok; [done|done|by rewrite vioapic_bytes_length|]. eapply fits_le; [exact Hf|]. by rewrite rec_bytes_length.
  - done.
  - intros d h r Hh Hn Hc Hr Hl. cbn [ioapic_handler h_load]. unfold ioapic_load, hvm_load_entry.
    rewrite (load_entry_ok IOAPIC r) by (done || unfold rec_len in *; rewrite ?vioapic_bytes_length; cbn; lia). done.
  - intros d h Hh Hb _. cbn [ioapic_handler h_load]. unfold ioapic_load, hvm_load_entry.
    destruct (load_entry_total IOAPIC h (vioapic_bytes (dget d)) true Hh Hb ltac:(cbn; lia) ltac:(done)) as (r & h' & data & -> & Hc). cbn [mbind run_bind].
    destruct (Z.eqb_spec r 0); cbn [negb]; do 3 eexists; (split; [reflexivity|]); auto; done.
Qed.

End Migration.

End Vioapic.
