(* ===== verification/HvmDevices.v ===== *)
(** The interrupt hardware of an HVM guest as a whole, and its migration.

    Joins the lines of [HvmIrq], the controllers of [Vpic] and the I/O APIC of
    [Vioapic] the way xen/arch/x86/hvm/irq.c calls them, adds the state of the
    Viridian interface (xen/arch/x86/hvm/viridian.c), and puts their handlers
    in the table [hvm_sr_handlers] of [HvmContext]: the theorems about saving
    and loading hold of the devices as they are programmed, and the invariants
    of the hardware survive a migration. *)

From S2P Require Import Prelude HvmContext HvmHandler HvmIrq Vpic Vioapic.

Module HvmDevices.
Import HvmContext HvmHandler HvmIrq.

(** ** State *)

(** [viridian] has the raw contents of the two registers of the interface. *)
Record viridian_domain := Viridian { hypercall_gpa : Z; guest_os_id : Z }.

Record hw := Hw {
  hw_irq : hvm_irq; hw_pics : list Vpic.hvm_hw_vpic; hw_io : Vioapic.hvm_hw_vioapic;
  hw_viridian : viridian_domain; is_viridian_domain : bool
}.

#[export] Program Instance hw_has_irq : Component hw hvm_irq :=
  {| sget := hw_irq; sput t s := Hw t (hw_pics s) (hw_io s) (hw_viridian s) (is_viridian_domain s) |}.
Solve All Obligations with by intros; destruct s.
#[export] Program Instance hw_has_pics : Component hw (list Vpic.hvm_hw_vpic) :=
  {| sget := hw_pics; sput t s := Hw (hw_irq s) t (hw_io s) (hw_viridian s) (is_viridian_domain s) |}.
Solve All Obligations with by intros; destruct s.
#[export] Program Instance hw_has_io : Component hw Vioapic.hvm_hw_vioapic :=
  {| sget := hw_io; sput t s := Hw (hw_irq s) (hw_pics s) t (hw_viridian s) (is_viridian_domain s) |}.
Solve All Obligations with by intros; destruct s.
#[export] Program Instance hw_has_viridian : Component hw viridian_domain :=
  {| sget := hw_viridian; sput t s := Hw (hw_irq s) (hw_pics s) (hw_io s) t (is_viridian_domain s) |}.
Solve All Obligations with by intros; destruct s.

(** ** Events reach the controllers *)

Section Hardware.
(** Parameters of delivery, see [Vioapic], and whether a CPU takes the
    interrupts of the 8259A. *)
Context (vcpus : list nat) (match_dest : nat -> Z -> bool -> bool) (lowest_prio : Z -> bool -> option nat) (pit_channel0_enabled : bool).
Context (target : bool) (use_pirq : Z -> option Z) (dpci_eoi : option (Z -> Z -> hvm_irq -> hvm_irq)).

(** The calls of irq.c, in their order; [GuestPirq] goes to the guest. *)
Fixpoint deliver (evs : list event) (s : hw) : run hw :=
  match evs with
  | [] => Ret s
  | VioapicPositive g :: evs =>
      '(io, _) ← Vioapic.vioapic_irq_positive_edge vcpus match_dest lowest_prio pit_channel0_enabled g (hw_io s);
      deliver evs (sput io s)
  | VpicPositive irq :: evs => '(ps, _) ← Vpic.vpic_irq_positive_edge target irq (hw_pics s); deliver evs (sput ps s)
  | VpicNegative irq :: evs => '(ps, _) ← Vpic.vpic_irq_negative_edge target irq (hw_pics s); deliver evs (sput ps s)
  | GuestPirq _ :: evs => deliver evs s
  end.

(** What devices and the guest do to the hardware. *)
Inductive hw_op := Line (o : irq_op) | Pic (o : Vpic.pic_op) | IoWrite (addr val : Z) | Eoi (vec : Z).

Definition valid_hw_op (o : hw_op) : Prop :=
  match o with Line o => valid_op o | Pic o => Vpic.valid_pic_op o | IoWrite _ _ | Eoi _ => True end.

Definition hw_exec (o : hw_op) (s : hw) : run hw :=
  match o with
  | Line o => let '(q, ev) := Vioapic.perform use_pirq o (hw_irq s) in deliver ev (sput q s)
  | Pic o => ps ← Vpic.pic_exec target o (hw_pics s); Ret (sput ps s)
  | IoWrite addr val =>
      Ret (sput (Vioapic.vioapic_write vcpus match_dest lowest_prio pit_channel0_enabled
                   (count (gsi_assert_count (hw_irq s))) addr val (hw_io s)).1 s)
  | Eoi vec =>
      let '(q, io, _) := Vioapic.vioapic_update_EOI vcpus match_dest lowest_prio pit_channel0_enabled dpci_eoi vec (hw_irq s) (hw_io s) in
      Ret (sput q (sput io s))
  end.

Fixpoint hw_trace (ops : list hw_op) (s : hw) : run hw :=
  match ops with [] => Ret s | o :: ops => s ← hw_exec o s; hw_trace ops s end.

Definition hw_reset : hw := Hw irq_reset Vpic.vpic_reset Vioapic.vioapic_reset (Viridian 0 0) false.

(** ** The invariant of the hardware *)

(** The interrupts of the lines [P] are not lost. *)
Record hw_ok_on (P : Z -> Prop) (s : hw) : Prop := {
  ho_irq : irq_ok (hw_irq s);
  ho_pics : Vpic.pics_ok (hw_pics s);
  ho_io : Vioapic.io_ok (hw_io s);
  ho_flight : Vioapic.in_flight P (count (gsi_assert_count (hw_irq s))) (hw_io s)
}.

(** Delivering goes to the two controllers separately. *)
Lemma deliver_ok P evs : forall s n,
  Forall Vioapic.event_ok evs -> irq_ok (hw_irq s) -> Vpic.pics_ok (hw_pics s) -> Vioapic.io_ok (hw_io s) -> Vioapic.in_flight P n (hw_io s) ->
  (forall g, P g -> 0 <= g < 48 -> count (gsi_assert_count (hw_irq s)) g <> 0 -> n g <> 0 \/ VioapicPositive g ∈ evs) ->
  exists s', deliver evs s = Ret s' /\ hw_ok_on P s' /\ hw_irq s' = hw_irq s.
Proof.
  induction evs as [|ev evs IH]; intros s n He Hq Hp Hio Hf Hn.
  - exists s. split; [done|]. split; [|done]. split; try done. eapply Vioapic.in_flight_counts; [exact Hf|]. intros g HP Hg Hne.
    destruct (Hn g HP Hg Hne) as [?|H]; [done|by apply not_elem_of_nil in H].
  - apply Forall_cons in He as [Hev He].
    assert (forall g, P g -> ev <> VioapicPositive g -> 0 <= g < 48 -> count (gsi_assert_count (hw_irq s)) g <> 0 -> n g <> 0 \/ VioapicPositive g ∈ evs) as Hn'.
    { intros g HP Hne Hg Hc. destruct (Hn g HP Hg Hc) as [?|[?|?]%elem_of_cons]; auto; congruence. }
    destruct ev as [g0|p|irq|irq]; cbn [deliver Vioapic.event_ok] in *.
    + destruct (Vioapic.positive_edge_ok vcpus match_dest lowest_prio pit_channel0_enabled g0 (hw_io s) Hio Hev) as (io & m & -> & Hio' & Ho & Hb & Hset).
      cbn [mbind run_bind].
      refine (IH (sput io s) (fun g => if decide (g = g0) then 1 else n g) _ _ _ _ _ _); try done.
      * intros g HP Hg. cbn [hw_io sput hw_has_io]. cbv beta. destruct (decide (g = g0)) as [->|Hne]; [|rewrite Ho by lia; by apply Hf].
        unfold Vioapic.wants, Vioapic.level_trig, Vioapic.masked in *. rewrite !Hb by lia. intros Hw. apply Hset. by right.
      * intros g HP Hg Hc. case_decide; [by left|]. apply Hn'; [done|congruence|done|done].
    + apply (IH s n); try done. intros g HP. by apply Hn'.
    + destruct (Vpic.edge_ok target irq (hw_pics s) Hev Hp) as [(ps & m & -> & Hp') _]. cbn [mbind run_bind].
      refine (IH (sput ps s) n _ _ _ _ _ _); try done. intros g HP. by apply Hn'.
    + destruct (Vpic.edge_ok target irq (hw_pics s) Hev Hp) as [_ (ps & m & -> & Hp')]. cbn [mbind run_bind].
      refine (IH (sput ps s) n _ _ _ _ _ _); try done. intros g HP. by apply Hn'.
Qed.

Lemma hw_exec_ok P o s :
  (forall g, P g -> use_pirq g = None) -> Vioapic.dpci_lowers dpci_eoi -> valid_hw_op o -> hw_ok_on P s -> exists s', hw_exec o s = Ret s' /\ hw_ok_on P s'.
Proof.
  intros Hnp Hd Hv [Hq Hp Hio Hf]. destruct o as [o|o|addr val|vec]; cbn [hw_exec valid_hw_op] in *.
  - pose proof (Vioapic.perform_ok use_pirq o _ Hv Hq) as Hq'. pose proof (Vioapic.perform_raises use_pirq P Hnp o _ Hv Hq) as Hr.
    pose proof (Vioapic.perform_events use_pirq o _ Hv Hq) as He. destruct (Vioapic.perform use_pirq o (hw_irq s)) as [q ev].
    destruct (deliver_ok P ev (sput q s) (count (gsi_assert_count (hw_irq s)))) as (s' & -> & Hok & _); try done. eauto.
  - destruct (Vpic.pic_exec_ok target o (hw_pics s) Hv Hp) as (ps & -> & Hp'). cbn. eexists. split; [reflexivity|]. by split.
  - eexists. split; [reflexivity|].
    destruct (Vioapic.write_flight vcpus match_dest lowest_prio pit_channel0_enabled P (count (gsi_assert_count (hw_irq s))) addr val (hw_io s) Hio Hf). by split.
  - pose proof (Vioapic.eoi_flight vcpus match_dest lowest_prio pit_channel0_enabled dpci_eoi P vec (hw_irq s) (hw_io s) Hd) as He.
    destruct (Vioapic.vioapic_update_EOI _ _ _ _ _ vec (hw_irq s) (hw_io s)) as [[q io] m]. destruct He as (Hq' & Hio' & Hf'); [done|].
    eexists. split; [reflexivity|]. by split.
Qed.

Lemma hw_reset_ok P : hw_ok_on P hw_reset.
Proof. destruct (Vioapic.reset_flight P) as (Hq & Hio & Hf). split; try done. exact Vpic.vpic_reset_ok. Qed.


End Hardware.

(** The invariant for all lines. *)
Definition hw_ok : hw -> Prop := hw_ok_on (fun _ => True).

(** A pass-through device whose line is lowered at the end of its interrupt. *)
Definition eoi_lowers_line (device intx : Z) : Z -> Z -> hvm_irq -> hvm_irq :=
  fun _ _ q => (__hvm_pci_intx_deassert (fun _ => None) device intx q).1.

Lemma eoi_lowers_line_ok device intx :
  0 <= device <= 31 -> 0 <= intx <= 3 -> Vioapic.dpci_lowers (Some (eoi_lowers_line device intx)).
Proof.
  intros Hd Hi f [= <-] g e q Hq. unfold eoi_lowers_line. split; [by apply intx_deassert_ok|]. intros j Hj Hc.
  destruct (Vioapic.deassert_raises (fun _ => None) (fun _ => True) device intx q [] Hd Hi Hq j I Hj Hc) as [?|H]; [done|by apply not_elem_of_nil in H].
Qed.


(** ** The Viridian interface *)

Definition VIRIDIAN : htype := HType 15 16 None.

Section ViridianHandler.
(** [has_viridian_interface] is [is_viridian_domain]. *)
Context {S : Type} `{!Component S viridian_domain} (has_viridian_interface : S -> bool).

Definition viridian_bytes (v : viridian_domain) : list Z := le_bytes 8 (hypercall_gpa v) ++ le_bytes 8 (guest_os_id v).

Definition viridian_save_cpu_ctxt (d : hdom S) (h : hctx) : run (Z * hctx * hdom S) :=
  if negb (has_viridian_interface (dev d)) then Ret (0, h, d)
  else let '(r, h) := hvm_save_entry VIRIDIAN 0 h (viridian_bytes (dget d)) in Ret (Z.b2z (negb (r =? 0)), h, d).

(** [ctxt] is the uninitialised local structure. *)
Definition viridian_load_cpu_ctxt (ctxt : list Z) (d : hdom S) (h : hctx) : run (Z * hctx * hdom S) :=
  '(r, h, ctxt) ← hvm_load_entry VIRIDIAN h ctxt;
  if negb (r =? 0) then Ret (- EINVAL, h, d)
  else Ret (0, h, dput (Viridian (le_val (take 8 ctxt)) (le_val (take 8 (drop 8 ctxt)))) d).

Definition viridian_shape (ctxt : list Z) : shape S :=
  Shape VIRIDIAN true 1 HVMSR_PER_DOM (fun _ => 1)
    (fun d => if has_viridian_interface (dev d) then [(0, viridian_bytes (dget d))] else [])
    (fun d => d) (fun _ d => (0, d)) (fun _ _ => ctxt)
    (fun _ data d => (0, dput (Viridian (le_val (take 8 data)) (le_val (take 8 (drop 8 data)))) d)).

Definition viridian_handler (ctxt : list Z) : handler S :=
  Handler viridian_save_cpu_ctxt (viridian_load_cpu_ctxt ctxt) (reg_size 1 VIRIDIAN) HVMSR_PER_DOM.

Lemma viridian_laws ctxt : length ctxt = 16%nat -> DeviceLaws 15 (shape_device (viridian_handler ctxt) (viridian_shape ctxt)).
Proof.
  intros Hl. apply (shape_laws (viridian_handler ctxt) (viridian_shape ctxt)).
  - split; try done; cbn [viridian_shape sh_type sh_items sh_kind sh_num sh_init]; intros.
    + destruct (has_viridian_interface (dev d)); constructor; [|constructor]. cbn [snd]. unfold viridian_bytes. by rewrite length_app, !le_bytes_length.
    + by destruct (has_viridian_interface (dev d)).
    + by rewrite Hl.
  - split; try done. intros d h. cbn [viridian_handler h_save]. unfold viridian_save_cpu_ctxt, shape_save.
    cbn [viridian_shape sh_type sh_fail sh_items sh_after]. destruct (has_viridian_interface (dev d)); cbn [negb save_each]; [|done].
    destruct (hvm_save_entry VIRIDIAN 0 h _) as [r h']. by destruct (r =? 0).
Qed.

End ViridianHandler.

(** ** The table of handlers *)

Section Migration.
Context (vcpus : list nat) (match_dest : nat -> Z -> bool -> bool) (lowest_prio : Z -> bool -> option nat) (pit_channel0_enabled : bool).
Context (target : bool) (use_pirq : Z -> option Z) (ctxt : list Z) (Hctxt : length ctxt = 16%nat).
Context (xen_changeset : list Z) (cpuid1_eax : Z).

(** Delivery while the lines are saved; it does not fail, see [deliver_ok]. *)
Definition delivered (evs : list event) (s : hw) : hw :=
  match deliver vcpus match_dest lowest_prio pit_channel0_enabled target evs s with Ret s' => s' | _ => s end.

Definition hw_devices : list (option (device hw)) :=
  [None; None; None; Some (shape_device Vpic.pic_handler Vpic.pic_shape); Some Vioapic.ioapic_device; None; None;
   Some (shape_device (pci_handler use_pirq delivered) (pci_shape use_pirq delivered)); Some (shape_device isa_handler isa_shape);
   Some (shape_device link_handler link_shape); None; None; None; None; None;
   Some (shape_device (viridian_handler is_viridian_domain ctxt) (viridian_shape is_viridian_domain ctxt))].

(** [hvm_sr_handlers], as the devices modelled here register themselves. *)
Definition hw_table : list (option (handler hw)) := table hw_devices.

Lemma hw_devices_laws i dv : hw_devices !! i = Some (Some dv) -> DeviceLaws i dv.
Proof.
  intros H. do 16 (destruct i as [|i]; [cbn in H; try discriminate H; injection H as <-; eauto using Vpic.pic_laws, Vioapic.ioapic_laws, pci_laws, isa_laws, link_laws, viridian_laws|]).
  done.
Qed.

(** The types of what is saved. *)
Definition hw_typed (s : hw) : Prop :=
  irq_typed (hw_irq s) /\ Vioapic.io_typed (hw_io s) /\
  0 <= hypercall_gpa (hw_viridian s) < 2 ^ 64 /\ 0 <= guest_os_id (hw_viridian s) < 2 ^ 64.

Lemma deliver_frame evs : forall s s', deliver vcpus match_dest lowest_prio pit_channel0_enabled target evs s = Ret s' ->
  hw_irq s' = hw_irq s /\ hw_viridian s' = hw_viridian s /\ is_viridian_domain s' = is_viridian_domain s.
Proof.
  induction evs as [|[g|p|irq|irq] evs IH]; intros s s'; cbn [deliver].
  - by intros [= <-].
  - destruct (Vioapic.vioapic_irq_positive_edge _ _ _ _ g (hw_io s)) as [[io m]| |]; try done. intros H. by apply IH in H.
  - apply IH.
  - destruct (Vpic.vpic_irq_positive_edge target irq (hw_pics s)) as [[ps m]| |]; try done. intros H. by apply IH in H.
  - destruct (Vpic.vpic_irq_negative_edge target irq (hw_pics s)) as [[ps m]| |]; try done. intros H. by apply IH in H.
Qed.

Lemma delivered_frame evs s :
  hw_irq (delivered evs s) = hw_irq s /\ hw_viridian (delivered evs s) = hw_viridian s /\ is_viridian_domain (delivered evs s) = is_viridian_domain s.
Proof. unfold delivered. destruct (deliver _ _ _ _ _ evs s) eqn:E; [by eapply deliver_frame|done|done]. Qed.

(** Saving the PCI lines leaves the rest of the saved state alone. *)
Lemma pci_saved_frame (d : hdom hw) :
  same_frame (hw_irq (dev d)) (hw_irq (dev (pci_saved use_pirq delivered d))) /\
  hw_viridian (dev (pci_saved use_pirq delivered d)) = hw_viridian (dev d) /\
  is_viridian_domain (dev (pci_saved use_pirq delivered d)) = is_viridian_domain (dev d).
Proof.
  unfold pci_saved. cbv zeta. change (dget d) with (hw_irq (dev d)). set (s := hw_irq (dev d)).
  destruct (via_intx_asserted s).
  - pose proof (intx_deassert_frame use_pirq (via_dev s) (via_intx s) s) as F1.
    destruct (__hvm_pci_intx_deassert use_pirq (via_dev s) (via_intx s) s) as [s1 ev1].
    pose proof (intx_assert_frame use_pirq (via_dev s) (via_intx s) s1) as F2.
    destruct (__hvm_pci_intx_assert use_pirq (via_dev s) (via_intx s) s1) as [s2 ev2]. cbn [fst] in *.
    destruct (delivered_frame (ev1 ++ ev2) (sput s2 (dev d))) as (E1 & E2 & E3). cbn [set_dev dev]. rewrite E1, E2, E3. split; [|done].
    assert (same_frame s s1) as G1 by (destruct F1 as [[? _]|[-> _]]; done).
    assert (same_frame s1 s2) as G2 by (destruct F2 as [[? _]|[-> _]]; done). exact (same_frame_trans _ _ _ G1 G2).
  - destruct (delivered_frame ([] ++ []) (sput s (dev d))) as (E1 & E2 & E3). cbn [set_dev dev]. rewrite E1, E2, E3. done.
Qed.

Definition viridian_rec (s : hw) : list hrec :=
  if is_viridian_domain s then [HRec 15 0 (le_bytes 8 (hypercall_gpa (hw_viridian s)) ++ le_bytes 8 (guest_os_id (hw_viridian s)))] else [].

Lemma hw_records (d : hdom hw) : records_of hw_devices d =
  let s := dev d in
  [HRec 3 0 (Vpic.vpic_bytes (Vpic.vget (hw_pics s) 0)); HRec 3 1 (Vpic.vpic_bytes (Vpic.vget (hw_pics s) 1));
   HRec 4 0 (Vioapic.vioapic_bytes (hw_io s)); HRec 7 0 (le_bytes 16 (pci_intx (lines_saved use_pirq (hw_irq s))));
   HRec 8 0 (le_bytes 8 (isa_irq (hw_irq s))); HRec 9 0 (link_bytes (hw_irq s))] ++ viridian_rec s.
Proof.
  destruct (pci_saved_frame d) as ([F1 F2 _ _ _ _] & F3 & F4). unfold hw_devices. cbn [records_of dv_records dv_after shape_device Vioapic.ioapic_device sh_items sh_after
    Vpic.pic_shape pci_shape isa_shape link_shape viridian_shape sh_type item_recs map app].
  change (dget (T:=hvm_irq) (pci_saved use_pirq delivered d)) with (hw_irq (dev (pci_saved use_pirq delivered d))).
  change (dget (T:=viridian_domain) (pci_saved use_pirq delivered d)) with (hw_viridian (dev (pci_saved use_pirq delivered d))).
  rewrite F1, F3, F4. unfold link_bytes. rewrite F2. unfold viridian_rec. destruct (is_viridian_domain (dev d)); reflexivity.
Qed.

(** The hardware after the records are loaded. *)
Definition restored (s t : hw) : hw :=
  Hw (load_link (link_bytes (hw_irq s)) (load_isa (le_bytes 8 (isa_irq (hw_irq s)))
        (load_pci (le_bytes 16 (pci_intx (lines_saved use_pirq (hw_irq s)))) (hw_irq t))))
     (Vpic.vset (Vpic.vset (hw_pics t) 0 (Vpic.vpic_of_bytes (Vpic.vpic_bytes (Vpic.vget (hw_pics s) 0)))) 1
        (Vpic.vpic_of_bytes (Vpic.vpic_bytes (Vpic.vget (hw_pics s) 1))))
     (Vioapic.vioapic_of_bytes (Vioapic.vioapic_bytes (hw_io s)))
     (if is_viridian_domain s
      then Viridian (hypercall_gpa (hw_viridian s) mod 2 ^ 64) (guest_os_id (hw_viridian s) mod 2 ^ 64) else hw_viridian t)
     (is_viridian_domain t).

Lemma take_drop_8 a b : le_val (take 8 (le_bytes 8 a ++ le_bytes 8 b)) = a mod 2 ^ 64 /\
  le_val (take 8 (drop 8 (le_bytes 8 a ++ le_bytes 8 b))) = b mod 2 ^ 64.
Proof.
  rewrite take_app_length', drop_app_length' by (by rewrite le_bytes_length). rewrite (take_ge (le_bytes 8 b)) by (by rewrite le_bytes_length).
  by rewrite !le_val_bytes.
Qed.

(** What each record does to the hardware. *)
Lemma apply_pic0 l (x : hdom hw) q ps io v b :
  apply_rec hw_devices (HRec 3 0 l) (set_dev x (Hw q ps io v b)) = set_dev x (Hw q (Vpic.vset ps 0 (Vpic.vpic_of_bytes l)) io v b).
Proof. reflexivity. Qed.
Lemma apply_pic1 l (x : hdom hw) q ps io v b :
  apply_rec hw_devices (HRec 3 1 l) (set_dev x (Hw q ps io v b)) = set_dev x (Hw q (Vpic.vset ps 1 (Vpic.vpic_of_bytes l)) io v b).
Proof. reflexivity. Qed.
Lemma apply_ioapic l (x : hdom hw) q ps io v b :
  apply_rec hw_devices (HRec 4 0 l) (set_dev x (Hw q ps io v b)) = set_dev x (Hw q ps (Vioapic.vioapic_of_bytes l) v b).
Proof. reflexivity. Qed.
Lemma apply_pci l (x : hdom hw) q ps io v b :
  apply_rec hw_devices (HRec 7 0 l) (set_dev x (Hw q ps io v b)) = set_dev x (Hw (load_pci l q) ps io v b).
Proof. reflexivity. Qed.
Lemma apply_isa l (x : hdom hw) q ps io v b :
  apply_rec hw_devices (HRec 8 0 l) (set_dev x (Hw q ps io v b)) = set_dev x (Hw (load_isa l q) ps io v b).
Proof. reflexivity. Qed.
Lemma apply_link l (x : hdom hw) q ps io v b : routes_valid (with_link q l) = true ->
  apply_rec hw_devices (HRec 9 0 l) (set_dev x (Hw q ps io v b)) = set_dev x (Hw (load_link l q) ps io v b).
Proof.
  intros H. unfold apply_rec, device_of. cbn [r_code]. change (mjoin (hw_devices !! Z.to_nat 9)) with (Some (shape_device link_handler link_shape)).
  cbn [shape_device dv_apply link_shape sh_post sh_pre snd r_data]. cbv zeta. rewrite dget_dput. change (dget (set_dev x _)) with q. by rewrite H.
Qed.
Lemma apply_viridian l (x : hdom hw) q ps io v b :
  apply_rec hw_devices (HRec 15 0 l) (set_dev x (Hw q ps io v b)) = set_dev x (Hw q ps io (Viridian (le_val (take 8 l)) (le_val (take 8 (drop 8 l)))) b).
Proof. reflexivity. Qed.

Lemma hw_applied (d t : hdom hw) : irq_ok (hw_irq (dev d)) ->
  apply_all hw_devices (records_of hw_devices d) t = set_dev t (restored (dev d) (dev t)).
Proof.
  intros Hok. rewrite hw_records. cbv zeta. unfold apply_all, viridian_rec. rewrite foldl_app. cbn [foldl].
  assert (t = set_dev t (Hw (hw_irq (dev t)) (hw_pics (dev t)) (hw_io (dev t)) (hw_viridian (dev t)) (is_viridian_domain (dev t)))) as Et.
  { destruct t as [? ? ? ? ? ? ? []]. reflexivity. }
  rewrite Et at 1. rewrite apply_pic0, apply_pic1, apply_ioapic, apply_pci, apply_isa, apply_link by apply (routes_valid_ok _ Hok). unfold restored.
  destruct (is_viridian_domain (dev d)); cbn [foldl]; [|done]. rewrite apply_viridian.
  destruct (take_drop_8 (hypercall_gpa (hw_viridian (dev d))) (guest_os_id (hw_viridian (dev d)))) as [-> ->]. done.
Qed.

Lemma accepted_cons c i data rs (x : hdom hw) dv :
  0 <= c < 2 ^ 16 -> 0 <= i < 2 ^ 16 -> Z.of_nat (length data) < 2 ^ 32 -> device_of hw_devices (HRec c i data) = Some dv ->
  dv_accepts dv (HRec c i data) x -> accepted hw_devices rs (apply_rec hw_devices (HRec c i data) x) -> accepted hw_devices (HRec c i data :: rs) x.
Proof. intros Hc Hi Hl Hd Ha Hr. cbn [accepted]. split; [unfold rec_ok, rec_len; cbn [r_code r_inst r_data]; lia|]. eauto. Qed.

Lemma hw_accepted (d t : hdom hw) : irq_ok (hw_irq (dev d)) -> accepted hw_devices (records_of hw_devices d) t.
Proof.
  intros Hok. rewrite hw_records. cbv zeta. cbn [app].
  assert (length (link_bytes (hw_irq (dev d))) = 8%nat) as Hlk by apply length_resize.
  do 5 (eapply accepted_cons; [lia|lia|rewrite ?Vioapic.vioapic_bytes_length, ?le_bytes_length; done|reflexivity
    |cbn [shape_device Vioapic.ioapic_device dv_accepts]; unfold rec_len; cbn [r_data]; rewrite ?le_bytes_length, ?Vioapic.vioapic_bytes_length; done|]).
  eapply accepted_cons; [lia|lia|by rewrite Hlk|reflexivity| |].
  - cbn [shape_device dv_accepts]. unfold rec_len. cbn [r_data]. rewrite Hlk. split; [done|]. split; [done|].
    cbn [link_shape sh_post sh_pre snd]. cbv zeta. rewrite dget_dput. by rewrite (routes_valid_ok _ Hok).
  - unfold viridian_rec. destruct (is_viridian_domain (dev d)); [|done]. set (bs := _ ++ _).
    assert (length bs = 16%nat) as Hb by (unfold bs; by rewrite length_app, !le_bytes_length).
    eapply accepted_cons; [lia|lia|by rewrite Hb|reflexivity| |done].
    cbn [shape_device dv_accepts]. unfold rec_len. cbn [r_data]. by rewrite Hb.
Qed.

Lemma restored_ok s t : hw_ok s -> hw_typed s -> length (hw_pics t) = 2%nat ->
  callback_via_asserted (hw_irq t) = false -> via_ok (callback_via_type (hw_irq t)) (callback_via (hw_irq t)) ->
  let t' := restored s t in
  hw_ok t' /\ hw_pics t' = hw_pics s /\ hw_io t' = hw_io s /\
  pci_intx (hw_irq t') = pci_intx (lines_saved use_pirq (hw_irq s)) /\ isa_irq (hw_irq t') = isa_irq (hw_irq s) /\ pci_link (hw_irq t') = pci_link (hw_irq s).
Proof.
  intros [Hq Hp Hio Hf] (Tq & Tio & _) Hl Ha Hv. unfold restored. cbv zeta.
  destruct (lines_restored use_pirq (hw_irq s) (hw_irq t) Hq Tq Ha Hv) as (Hq' & E1 & E2 & E3 & E4).
  rewrite (Vpic.pics_restored (hw_pics s) (hw_pics t) Hp Hl), (Vioapic.vioapic_of_bytes_bytes (hw_io s) Tio).
  set (q' := load_link _ _) in *. clearbody q'. cbn [hw_irq hw_pics hw_io].
  split; [|done]. split; cbn [hw_irq hw_pics hw_io]; try done. eapply Vioapic.in_flight_counts; [exact Hf|]. intros g _ Hg Hc.
  pose proof (lines_saved_ok use_pirq _ Hq) as Hok1.
  rewrite (counts_restored use_pirq (hw_irq s)) in Hc by (done || unfold VIOAPIC_NUM_PINS; lia).
  assert (count (gsi_assert_count (lines_saved use_pirq (hw_irq s))) g <> 0) as Hc1.
  { intros E. rewrite E in Hc. pose proof (io_gsi _ Hok1 g ltac:(unfold VIOAPIC_NUM_PINS; lia)) as Hw. rewrite E in Hw.
    pose proof (wires_parts (lines_saved use_pirq (hw_irq s)) g) as Hpt. unfold wires in Hw.
    pose proof (lines_saved_frame use_pirq (hw_irq s)) as [_ _ F3 F4 F5 _]. unfold via_wire in *. rewrite F3, F4, F5 in *. lia. }
  unfold lines_saved in Hc1. destruct (via_intx_asserted (hw_irq s)) eqn:Ev; [|done].
  destruct (via_bounds (hw_irq s) Hq (via_intx_asserted_type _ Ev)) as [H1 H2].
  destruct (Vioapic.deassert_raises use_pirq (fun _ => True) _ _ (hw_irq s) [] H1 H2 Hq g I Hg Hc1) as [?|H]; [done|by apply not_elem_of_nil in H].
Qed.

(** C12. The interrupt hardware of an HVM guest survives a migration.  The
    hypervisor of the source saves it in a buffer of the size that it asked
    for; what it wrote, loaded into a new domain, restores both 8259A and the
    I/O APIC to the bit, and the lines except that of the guest's own callback,
    which the target raises by itself.  The counts of the target are exact for
    these lines, and every asserted level-triggered line is in flight there. *)
Theorem interrupt_hardware_migrates d t junk hdr :
  is_dying d = false -> is_dying t = false -> length hdr = 24%nat -> 0 <= tsc_khz d < 2 ^ 32 -> (forall n, length (junk n) = Z.to_nat n) ->
  hw_ok (dev d) -> hw_typed (dev d) -> length (hw_pics (dev t)) = 2%nat ->
  callback_via_asserted (hw_irq (dev t)) = false -> via_ok (callback_via_type (hw_irq (dev t))) (callback_via (hw_irq (dev t))) ->
  exists n bytes d' t',
    gethvmcontext hw_table xen_changeset cpuid1_eax (Some (hvm_save_size hw_table d)) (Some junk) true d = Ret (0, n, bytes, d') /\
    sethvmcontext hw_table (Z.to_nat (hvm_save_size hw_table d)) hdr (take (Z.to_nat n) bytes) true true t = Ret (0, t') /\
    hw_pics (dev t') = hw_pics (dev d) /\ hw_io (dev t') = hw_io (dev d) /\ hw_ok (dev t') /\
    isa_irq (hw_irq (dev t')) = isa_irq (hw_irq (dev d)) /\ pci_link (hw_irq (dev t')) = pci_link (hw_irq (dev d)) /\
    (forall k, 0 <= k -> Z.testbit (pci_intx (hw_irq (dev t'))) k =
       Z.testbit (pci_intx (hw_irq (dev d))) k && negb (via_intx_asserted (hw_irq (dev d)) && (k =? via_line (hw_irq (dev d))))) /\
    (is_viridian_domain (dev d) = true -> hw_viridian (dev t') = hw_viridian (dev d)).
Proof.
  intros Hd Ht Hh Hts Hj Hok Hty Hp Ha Hv. pose proof (ho_irq _ _ Hok) as Hq.
  assert (hvm_save_size hw_table d < 2 ^ 32) as Hsz by (vm_compute; reflexivity).
  destruct (context_roundtrip hw_devices xen_changeset cpuid1_eax hw_devices_laws ltac:(done) ltac:(done) d t junk hdr Hd Ht Hh Hts Hsz Hj (hw_accepted d _ Hq))
    as (n & bytes & Hg & _ & Hs).
  exists n, bytes. do 2 eexists. split; [exact Hg|]. split; [exact Hs|]. rewrite hw_applied by done.
  change (dev (set_dev (loaded_base (tsc_khz d) t) ?x)) with x. change (dev (loaded_base (tsc_khz d) t)) with (dev t).
  destruct (restored_ok (dev d) (dev t) Hok Hty Hp Ha Hv) as (Hok' & E1 & E2 & E3 & E4 & E5). split_and!; try done.
  - intros k Hk. rewrite E3. by apply lines_saved_bits.
  - destruct Hty as (_ & _ & Hg1 & Hg2). cbn [hw_viridian restored]. intros ->. rewrite !Z.mod_small by done. by destruct (hw_viridian (dev d)).
Qed.

End Migration.

(** ** A guest with an asserted PCI line *)

Definition some_hw : hw := Hw (exec (fun _ => None) irq_reset (PciAssert 3 0)) Vpic.vpic_reset Vioapic.vioapic_reset (Viridian 0x1000 7) true.
Definition some_dom (s : hw) : hdom hw := HDom false 2000000 false false false [Some false; Some true] [] s.

Lemma masked_flight P n : Vioapic.in_flight P n Vioapic.vioapic_reset.
Proof.
  intros g _ Hg. unfold Vioapic.wants, Vioapic.entry, Vioapic.vioapic_reset. cbn [Vioapic.redirtbl].
  rewrite (list_lookup_total_correct _ _ (Vioapic.set_field 0 16 true)) by (apply lookup_replicate_2; unfold VIOAPIC_NUM_PINS; lia). done.
Qed.

Lemma some_hw_ok : hw_ok some_hw.
Proof.
  split; cbn [some_hw hw_irq hw_pics hw_io].
  - apply exec_ok; [cbn; lia|exact reset_ok].
  - exact Vpic.vpic_reset_ok.
  - done.
  - apply masked_flight.
Qed.

Lemma some_hw_typed : hw_typed some_hw.
Proof.
  split_and!; try (cbn; lia).
  - apply exec_typed; [cbn; lia|exact reset_ok|]. split; cbn; try lia; by repeat constructor.
  - unfold Vioapic.io_typed. cbn. split_and!; try lia; try done. by repeat constructor.
Qed.

Lemma interrupt_hardware_migrates_witness :
  let tab := hw_table [0%nat] (fun _ _ _ => true) (fun _ _ => None) false true (fun _ => None) (replicate 16 0) in
  let d := some_dom some_hw in let t := some_dom hw_reset in
  exists n bytes d' t',
    gethvmcontext tab [49; 58; 50] 0x206d7 (Some (hvm_save_size tab d)) (Some (fun n => replicate (Z.to_nat n) 0)) true d = Ret (0, n, bytes, d') /\
    sethvmcontext tab (Z.to_nat (hvm_save_size tab d)) (replicate 24 0) (take (Z.to_nat n) bytes) true true t = Ret (0, t') /\
    hw_viridian (dev t') = Viridian 0x1000 7.
Proof.
  intros tab d t.
  destruct (interrupt_hardware_migrates [0%nat] (fun _ _ _ => true) (fun _ _ => None) false true (fun _ => None) (replicate 16 0) eq_refl
    [49; 58; 50] 0x206d7 d t (fun n => replicate (Z.to_nat n) 0) (replicate 24 0)) as (n & bytes & d' & t' & Hg & Hs & _ & _ & _ & _ & _ & _ & Hv);
    try done; [intros; apply length_replicate|exact some_hw_ok|exact some_hw_typed|].
  exists n, bytes, d', t'. split; [exact Hg|]. split; [exact Hs|]. by apply Hv.
Defined.

End HvmDevices.
