(* ===== verification/Vpt.v ===== *)
(** Virtual platform timers of an HVM guest.

    Models xen/arch/x86/hvm/vpt.c: guest time, the lists of timers of the
    virtual CPUs, ticks that were missed while a CPU did not run, and the
    interrupts that timers raise.  The timers of a domain are numbered: the
    PIT, the RTC and three of the HPET ([PTSRC_isa]), then one for the local
    APIC of every CPU ([PTSRC_lapic]).  The clock stands still during an
    operation; [now] is its value.  Whether an interrupt is masked, and the
    vector it has, depends on the interrupt controllers and is a parameter. *)

From S2P Require Import Prelude.

Module Vpt.

(** ** State *)

Inductive pt_source := PTSRC_isa | PTSRC_lapic.
Inductive timer_mode := delay_for_missed_ticks | no_delay_for_missed_ticks | no_missed_ticks_pending | one_missed_tick_pending.
#[export] Instance pt_source_eq_dec : EqDecision pt_source.
Proof. solve_decision. Defined.
#[export] Instance timer_mode_eq_dec : EqDecision timer_mode.
Proof. solve_decision. Defined.

Definition s64 (z : Z) : Z := (z + 2 ^ 63) mod 2 ^ 64 - 2 ^ 63.
Definition HPET_TIMER_NUM : nat := 3.

Section Vpt.
(** What a timer calls when its interrupt was taken. *)
Context {C : Type}.

(** [timer] is when the timer goes off, if it is set. *)
Record periodic_time := PT {
  on_list : bool; one_shot : bool; do_not_freeze : bool; irq_issued : bool; source : pt_source; pt_irq : Z; pt_vcpu : option nat;
  pending_intr_nr : Z; period : Z; scheduled : Z; last_plt_gtime : Z; timer : option Z; cb : option C
}.

(** [v->arch.hvm_vcpu]; [stime_offset] as 64 bits without sign. *)
Record tcpu := Tcpu { tm_list : list nat; stime_offset : Z; guest_time : Z }.

(** [struct pl_time] with the parameters of the domain.  [list_fault] is set when
    the links of the lists have been corrupted. *)
Record pl_time := PL {
  pl_mode : timer_mode; vpt_align : bool; pl_stime_offset : Z; last_guest_time : Z; tcpus : list tcpu; pts : list periodic_time;
  list_fault : bool
}.
Implicit Types (p : periodic_time) (c : tcpu) (m : pl_time).

#[export] Instance periodic_time_inhabited : Inhabited periodic_time := populate (PT false false false false PTSRC_isa 0 None 0 0 0 0 None None).
#[export] Instance tcpu_inhabited : Inhabited tcpu := populate (Tcpu [] 0 0).

Definition pt m (k : nat) : periodic_time := pts m !!! k.
Definition tc m (i : nat) : tcpu := tcpus m !!! i.

Definition with_pts m (l : list periodic_time) : pl_time := PL (pl_mode m) (vpt_align m) (pl_stime_offset m) (last_guest_time m) (tcpus m) l (list_fault m).
Definition with_tcpus m (l : list tcpu) : pl_time := PL (pl_mode m) (vpt_align m) (pl_stime_offset m) (last_guest_time m) l (pts m) (list_fault m).
Definition upd_pt (k : nat) (f : periodic_time -> periodic_time) m : pl_time := with_pts m (alter f k (pts m)).
Definition upd_tc (i : nat) (f : tcpu -> tcpu) m : pl_time := with_tcpus m (alter f i (tcpus m)).

Definition set_on_list (b : bool) p : periodic_time :=
  PT b (one_shot p) (do_not_freeze p) (irq_issued p) (source p) (pt_irq p) (pt_vcpu p) (pending_intr_nr p) (period p) (scheduled p) (last_plt_gtime p) (timer p) (cb p).
Definition set_issued (b : bool) p : periodic_time :=
  PT (on_list p) (one_shot p) (do_not_freeze p) b (source p) (pt_irq p) (pt_vcpu p) (pending_intr_nr p) (period p) (scheduled p) (last_plt_gtime p) (timer p) (cb p).
Definition set_vcpu (v : option nat) p : periodic_time :=
  PT (on_list p) (one_shot p) (do_not_freeze p) (irq_issued p) (source p) (pt_irq p) v (pending_intr_nr p) (period p) (scheduled p) (last_plt_gtime p) (timer p) (cb p).
Definition set_pending (n : Z) p : periodic_time :=
  PT (on_list p) (one_shot p) (do_not_freeze p) (irq_issued p) (source p) (pt_irq p) (pt_vcpu p) n (period p) (scheduled p) (last_plt_gtime p) (timer p) (cb p).
Definition set_gtime (t : Z) p : periodic_time :=
  PT (on_list p) (one_shot p) (do_not_freeze p) (irq_issued p) (source p) (pt_irq p) (pt_vcpu p) (pending_intr_nr p) (period p) (scheduled p) t (timer p) (cb p).
Definition set_timer (t : option Z) p : periodic_time :=
  PT (on_list p) (one_shot p) (do_not_freeze p) (irq_issued p) (source p) (pt_irq p) (pt_vcpu p) (pending_intr_nr p) (period p) (scheduled p) (last_plt_gtime p) t (cb p).

(** ** Lists *)

(** Whether a timer is in one of the lists.  To link one that is, or to unlink
    one that is not, corrupts the lists ([list_del] asserts that the neighbours
    of the entry point to it). *)
Definition listed (k : nat) m : bool := bool_decide (k ∈ mjoin (map tm_list (tcpus m))).
Definition with_fault m (b : bool) : pl_time :=
  PL (pl_mode m) (vpt_align m) (pl_stime_offset m) (last_guest_time m) (tcpus m) (pts m) (list_fault m || b).

Definition list_add (k i : nat) m : pl_time :=
  upd_tc i (fun c => Tcpu (k :: tm_list c) (stime_offset c) (guest_time c)) (with_fault m (listed k m)).
(** An entry is unlinked from the list it is in. *)
Definition list_del (k : nat) m : pl_time :=
  with_tcpus (with_fault m (negb (listed k m)))
    (map (fun c => Tcpu (filter (fun j => j <> k) (tm_list c)) (stime_offset c) (guest_time c)) (tcpus m)).

(** ** Guest time *)

Definition hvm_init_guest_time (now : Z) m : pl_time := PL (pl_mode m) (vpt_align m) (u64 (- u64 now)) 0 (tcpus m) (pts m) (list_fault m).

Definition hvm_get_guest_time (now : Z) (i : nat) m : Z * pl_time :=
  let t := u64 (now + pl_stime_offset m) in
  let t := if s64 (t - last_guest_time m) >? 0 then t else u64 (last_guest_time m + 1) in
  (u64 (t + stime_offset (tc m i)), PL (pl_mode m) (vpt_align m) (pl_stime_offset m) t (tcpus m) (pts m) (list_fault m)).

Definition hvm_set_guest_time (now : Z) (i : nat) (t : Z) m : pl_time :=
  let '(g, m) := hvm_get_guest_time now i m in
  upd_tc i (fun c => Tcpu (tm_list c) (u64 (stime_offset c + (t - g))) (guest_time c)) m.

(** ** Ticks *)

Definition pt_process_missed_ticks (now : Z) (md : timer_mode) p : periodic_time :=
  if one_shot p then p
  else
    let missed := now - scheduled p in
    if missed <=? 0 then p
    else
      let missed := Z.quot missed (period p) + 1 in
      PT (on_list p) (one_shot p) (if decide (md = no_missed_ticks_pending) then negb (truthy (pending_intr_nr p)) else do_not_freeze p)
        (irq_issued p) (source p) (pt_irq p) (pt_vcpu p)
        (if decide (md = no_missed_ticks_pending) then pending_intr_nr p else u32 (pending_intr_nr p + missed))
        (period p) (s64 (scheduled p + missed * period p)) (last_plt_gtime p) (timer p) (cb p).

Definition pt_freeze_time (now : Z) (i : nat) m : pl_time :=
  if decide (pl_mode m = delay_for_missed_ticks) then
    let '(g, m) := hvm_get_guest_time now i m in upd_tc i (fun c => Tcpu (tm_list c) (stime_offset c) g) m
  else m.

Definition pt_thaw_time (now : Z) (i : nat) m : pl_time :=
  if decide (pl_mode m = delay_for_missed_ticks) then
    if guest_time (tc m i) =? 0 then m
    else
      let m := hvm_set_guest_time now i (guest_time (tc m i)) m in
      upd_tc i (fun c => Tcpu (tm_list c) (stime_offset c) 0) m
  else m.

(** The CPU leaves the processor; it is not saved when it is blocked. *)
Definition pt_save_timer (now : Z) (blocked : bool) (i : nat) m : pl_time :=
  if blocked then m
  else pt_freeze_time now i
         (foldl (fun m k => if do_not_freeze (pt m k) then m else upd_pt k (set_timer None) m) m (tm_list (tc m i))).

Definition pt_restore_timer (now : Z) (i : nat) m : pl_time :=
  pt_thaw_time now i
    (foldl (fun m k =>
       if pending_intr_nr (pt m k) =? 0
       then upd_pt k (fun p => let p := pt_process_missed_ticks now (pl_mode m) p in set_timer (Some (scheduled p)) p) m
       else m) m (tm_list (tc m i))).

(** The timer goes off. *)
Definition pt_timer_fn (k : nat) m : pl_time :=
  upd_pt k (fun p =>
    PT (on_list p) (one_shot p) false (irq_issued p) (source p) (pt_irq p) (pt_vcpu p)
      (u32 (pending_intr_nr p + 1)) (period p) (s64 (scheduled p + period p)) (last_plt_gtime p) None (cb p)) m.

(** ** Interrupts *)

Inductive intsrc := hvm_intsrc_pic | hvm_intsrc_lapic | hvm_intsrc_vector.
Definition UINT64_MAX : Z := 2 ^ 64 - 1.

Section Irq.
Context (pt_irq_masked : periodic_time -> bool) (pt_irq_vector : periodic_time -> intsrc -> Z).

(** The loop over the list: the state, the lag of the earliest timer and it. *)
Definition update_step (a : pl_time * Z * option nat) (k : nat) : pl_time * Z * option nat :=
  let '(m, max_lag, earliest) := a in
  let p := pt m k in
  if truthy (pending_intr_nr p) then
    if pt_irq_masked p then (upd_pt k (set_on_list false) (list_del k m), max_lag, earliest)
    else if u64 (last_plt_gtime p + period p) <? max_lag then (m, u64 (last_plt_gtime p + period p), Some k)
    else a
  else a.

(** The result is the timer whose interrupt is raised. *)
Definition pt_update_irq (i : nat) m : option nat * pl_time :=
  let '(m, _, earliest) := foldl update_step (m, UINT64_MAX, None) (tm_list (tc m i)) in
  match earliest with None => (None, m) | Some k => (Some k, upd_pt k (set_issued true) m) end.

Definition is_pt_irq (i : nat) (src : intsrc) (vec : Z) m : option nat :=
  snd <$> list_find (fun k => let p := pt m k in truthy (pending_intr_nr p) && irq_issued p && (vec =? pt_irq_vector p src) = true) (tm_list (tc m i)).

Definition intr_post_step (now : Z) (i k : nat) m : pl_time :=
  let p := pt m k in
  if one_shot p then
    let m := if on_list p then list_del k m else m in
    upd_pt k (fun p => set_pending 0 (set_on_list false p)) m
  else if decide (pl_mode m = one_missed_tick_pending \/ pl_mode m = no_missed_ticks_pending) then
    let '(g, m) := hvm_get_guest_time now i m in
    upd_pt k (fun p =>
      let p := set_pending 0 (pt_process_missed_ticks now (pl_mode m) (set_gtime g p)) in set_timer (Some (scheduled p)) p) m
  else
    upd_pt k (fun p =>
      let p := set_pending (u32 (pending_intr_nr p - 1)) (set_gtime (u64 (last_plt_gtime p + period p)) p) in
      if pending_intr_nr p =? 0 then
        let p := pt_process_missed_ticks now (pl_mode m) p in
        if pending_intr_nr p =? 0 then set_timer (Some (scheduled p)) p else p
      else p) m.

(** The interrupt was taken.  The result is what to call, with the CPU. *)
Definition pt_intr_post (now : Z) (i : nat) (src : intsrc) (vec : Z) m : option C * pl_time :=
  match src with
  | hvm_intsrc_vector => (None, m)
  | _ =>
      match is_pt_irq i src vec m with
      | None => (None, m)
      | Some k =>
          let m := intr_post_step now i k (upd_pt k (set_issued false) m) in
          let m :=
            if decide (pl_mode m = delay_for_missed_ticks) then
              let '(g, m) := hvm_get_guest_time now i m in
              if g <? last_plt_gtime (pt m k) then hvm_set_guest_time now i (last_plt_gtime (pt m k)) m else m
            else m in
          (cb (pt m k), m)
      end
  end.

End Irq.

(** ** Creation and destruction *)

Definition destroy_periodic_time (k : nat) m : pl_time :=
  match pt_vcpu (pt m k) with
  | None => m
  | Some _ =>
      let m := if on_list (pt m k) then list_del k m else m in
      upd_pt k (fun p => set_timer None (set_pending 0 (set_on_list false p))) m
  end.

Definition align_timer (firsttick period : Z) : Z :=
  if period =? 0 then firsttick else s64 (firsttick + (period - 1) - u64 (firsttick - 1) mod period).

Definition min_period (period : Z) : Z := if (period <? 100000) && truthy period then 100000 else period.

Definition first_tick (now delta : Z) m (s : pt_source) (period : Z) : Z :=
  let t := s64 (now + delta) in
  if period =? 0 then t
  else if vpt_align m then align_timer t period
  else if decide (s = PTSRC_lapic) then s64 (t + (delta .>> 1)) else t.

Definition create_periodic_time (now : Z) (i k : nat) (delta period irq : Z) (call : option C) m : pl_time :=
  let m := destroy_periodic_time k m in
  let period := min_period period in
  let '(g, m) := hvm_get_guest_time now i m in
  let m := upd_pt k (fun p =>
    let t := first_tick now delta m (source p) period in
    PT true (period =? 0) false false (source p) irq (Some i) 0 period t g (Some t) call) m in
  list_add k i m.

Definition pt_adjust_vcpu (k i : nat) m : pl_time :=
  match pt_vcpu (pt m k) with
  | None => m
  | Some _ =>
      let was := on_list (pt m k) in
      let m := upd_pt k (set_on_list false) (if was then list_del k m else m) in
      let m := upd_pt k (set_vcpu (Some i)) m in
      if was then list_add k i (upd_pt k (set_on_list true) m) else m
  end.

Definition global_timers : list nat := seq 0 (2 + HPET_TIMER_NUM).
Definition lapic_timer (i : nat) : nat := (2 + HPET_TIMER_NUM + i)%nat.

Definition pt_adjust_global_vcpu_target (v : option nat) m : pl_time :=
  match v with None => m | Some i => foldl (fun m k => pt_adjust_vcpu k i m) m global_timers end.

Definition pt_resume (k : nat) m : pl_time :=
  match pt_vcpu (pt m k) with
  | None => m
  | Some i =>
      if truthy (pending_intr_nr (pt m k)) && negb (on_list (pt m k)) then list_add k i (upd_pt k (set_on_list true) m) else m
  end.

Definition pt_may_unmask_irq (domain : bool) (vlapic_pt : option nat) m : pl_time :=
  let m := if domain then foldl (fun m k => pt_resume k m) m global_timers else m in
  match vlapic_pt with None => m | Some k => pt_resume k m end.

(** ** Sequences of operations *)

(** [Fire] is the timer going off.  Interrupt controllers as they are at that
    moment decide about masks and vectors. *)
Inductive vpt_op :=
| Fire (k : nat)
| Save (now : Z) (blocked : bool) (i : nat)
| Restore (now : Z) (i : nat)
| Update (masked : periodic_time -> bool) (i : nat)
| Post (now : Z) (vector : periodic_time -> intsrc -> Z) (i : nat) (src : intsrc) (vec : Z)
| Create (now : Z) (i k : nat) (delta period irq : Z) (call : option C)
| Destroy (k : nat)
| Retarget (v : option nat)
| Unmask (domain : bool) (vlapic_pt : option nat).

Definition vpt_exec (o : vpt_op) m : pl_time :=
  match o with
  | Fire k => pt_timer_fn k m
  | Save now blocked i => pt_save_timer now blocked i m
  | Restore now i => pt_restore_timer now i m
  | Update masked i => (pt_update_irq masked i m).2
  | Post now vector i src vec => (pt_intr_post vector now i src vec m).2
  | Create now i k delta period irq call => create_periodic_time now i k delta period irq call m
  | Destroy k => destroy_periodic_time k m
  | Retarget v => pt_adjust_global_vcpu_target v m
  | Unmask domain k => pt_may_unmask_irq domain k m
  end.
Definition vpt_trace (ops : list vpt_op) m : pl_time := foldl (fun m o => vpt_exec o m) m ops.

(** CPUs and timers that exist. *)
Definition valid_vpt_op (m : pl_time) (o : vpt_op) : Prop :=
  match o with
  | Create _ i k _ period _ _ => (i < length (tcpus m))%nat /\ (k < length (pts m))%nat /\ 0 <= period < 2 ^ 64
  | Retarget (Some i) => (i < length (tcpus m))%nat
  | _ => True
  end.

(** ** The lists are exact *)

Record link := Link { l_on : bool; l_cpu : option nat; l_shot : bool; l_period : Z }.
Definition link_of p : link := Link (on_list p) (pt_vcpu p) (one_shot p) (period p).

(** What concerns the lists. *)
Definition lists m : list (list nat) := map tm_list (tcpus m).
Definition links m : list link := map link_of (pts m).

Record linked (ls : list (list nat)) (ks : list link) : Prop := {
  ln_nodup i l : ls !! i = Some l -> NoDup l;
  ln_elem i l k : ls !! i = Some l -> (k ∈ l <-> exists x, ks !! k = Some x /\ l_on x = true /\ l_cpu x = Some i);
  ln_cpu k x i : ks !! k = Some x -> l_cpu x = Some i -> (i < length ls)%nat;
  ln_none k x : ks !! k = Some x -> l_cpu x = None -> l_on x = false;
  ln_period k x : ks !! k = Some x -> is_Some (l_cpu x) -> if l_shot x then l_period x = 0 else 100000 <= l_period x < 2 ^ 64;
  ln_nonneg k x : ks !! k = Some x -> 0 <= l_period x
}.

(** A timer is in the list of the CPU it belongs to, once, exactly when it is
    marked as listed; periods are at least 0.1 ms. *)
Definition vpt_ok m : Prop := linked (lists m) (links m).

Lemma map_alter_same {A B} (g : A -> B) (f : A -> A) (k : nat) l : (forall x, g (f x) = g x) -> map g (alter f k l) = map g l.
Proof. intros H. revert k. induction l as [|x l IH]; intros [|k]; cbn; [done|done|by rewrite H|]. f_equal. apply IH. Qed.

Lemma map_alter {A B} (g : A -> B) (f : A -> A) (h : B -> B) (k : nat) l : (forall x, g (f x) = h (g x)) -> map g (alter f k l) = alter h k (map g l).
Proof. intros H. revert k. induction l as [|x l IH]; intros [|k]; cbn; [done|done|by rewrite H|]. f_equal. apply IH. Qed.

Lemma links_upd k f m : (forall p, link_of (f p) = link_of p) -> links (upd_pt k f m) = links m.
Proof. apply map_alter_same. Qed.
Lemma lists_upd_tc i f m : (forall c, tm_list (f c) = tm_list c) -> lists (upd_tc i f m) = lists m.
Proof. apply map_alter_same. Qed.

Definition unlink (k : nat) (x : list (list nat) * list link) : list (list nat) * list link :=
  (map (filter (fun j => j <> k)) x.1, alter (fun y => Link false (l_cpu y) (l_shot y) (l_period y)) k x.2).

Lemma unlink_linked k ls ks : linked ls ks -> let '(ls', ks') := unlink k (ls, ks) in linked ls' ks'.
Proof.
  intros [H1 H2 H3 H4 H5 H6]. unfold unlink. cbn [fst snd].
  assert (forall j x, alter (fun y => Link false (l_cpu y) (l_shot y) (l_period y)) k ks !! j = Some x ->
    exists y, ks !! j = Some y /\ l_cpu x = l_cpu y /\ l_shot x = l_shot y /\ l_period x = l_period y /\ l_on x = if decide (j = k) then false else l_on y) as Hx.
  { intros j x Hj. destruct (decide (j = k)) as [->|Hne].
    - rewrite list_lookup_alter_eq in Hj. destruct (ks !! k) as [y|]; [|done]. injection Hj as <-. by exists y.
    - rewrite list_lookup_alter_ne in Hj by done. by exists x. }
  split.
  - intros i l Hi. rewrite list_lookup_fmap in Hi. destruct (ls !! i) as [l0|] eqn:E; [|done]. injection Hi as <-. apply NoDup_filter. by eapply H1.
  - intros i l j Hi. rewrite list_lookup_fmap in Hi. destruct (ls !! i) as [l0|] eqn:E; [|done]. injection Hi as <-. rewrite list_elem_of_filter, (H2 i l0 j E). split.
    + intros [Hne (x & Hx1 & Hx2)]. exists x. by rewrite list_lookup_alter_ne.
    + intros (x & Hx1 & Hx2 & Hx3). destruct (Hx j x Hx1) as (y & Hy & E1 & _ & _ & E2). rewrite E2 in Hx2. destruct (decide (j = k)); [done|].
      split; [done|]. exists y. by rewrite <- E1.
  - intros j x i Hj Hc. destruct (Hx j x Hj) as (y & Hy & E1 & _). rewrite length_map. eapply H3; [done|congruence].
  - intros j x Hj Hc. destruct (Hx j x Hj) as (y & Hy & E1 & _ & _ & E2). rewrite E2. destruct (decide (j = k)); [done|]. eapply H4; [done|congruence].
  - intros j x Hj Hc. destruct (Hx j x Hj) as (y & Hy & E1 & E3 & E4 & _). rewrite E3, E4. eapply H5; [done|congruence].
  - intros j x Hj. destruct (Hx j x Hj) as (y & Hy & _ & _ & E4 & _). rewrite E4. by eapply H6.
Qed.

Definition period_ok (x : link) : Prop := if l_shot x then l_period x = 0 else 100000 <= l_period x < 2 ^ 64.

Lemma period_nonneg x : period_ok x -> 0 <= l_period x.
Proof. unfold period_ok. destruct (l_shot x); lia. Qed.

Lemma off_linked ls ks k x y : linked ls ks -> ks !! k = Some x -> l_on x = false -> l_on y = false -> (forall i, l_cpu y = Some i -> (i < length ls)%nat) -> period_ok y ->
  linked ls (<[k := y]> ks).
Proof.
  intros [H1 H2 H3 H4 H5 H6] Hk Hx Hy Hi Hp. pose proof (lookup_lt_Some _ _ _ Hk) as Hlt. split.
  - done.
  - intros i l j Hl. rewrite (H2 i l j Hl). destruct (decide (j = k)) as [->|Hne]; [|by rewrite list_lookup_insert_ne].
    rewrite list_lookup_insert_eq by done. split; intros (z & [= <-] & Hz & _) || (intros (z & Hz1 & Hz & _)); congruence.
  - intros j z i Hj. destruct (decide (j = k)) as [->|Hne]; [|rewrite list_lookup_insert_ne in Hj by done; by apply (H3 j)].
    rewrite list_lookup_insert_eq in Hj by done. injection Hj as <-. apply Hi.
  - intros j z Hj. destruct (decide (j = k)) as [->|Hne]; [|rewrite list_lookup_insert_ne in Hj by done; by apply (H4 j)].
    rewrite list_lookup_insert_eq in Hj by done. by injection Hj as <-.
  - intros j z Hj. destruct (decide (j = k)) as [->|Hne]; [|rewrite list_lookup_insert_ne in Hj by done; by apply (H5 j)].
    rewrite list_lookup_insert_eq in Hj by done. injection Hj as <-. done.
  - intros j z Hj. destruct (decide (j = k)) as [->|Hne]; [|rewrite list_lookup_insert_ne in Hj by done; by apply (H6 j)].
    rewrite list_lookup_insert_eq in Hj by done. injection Hj as <-. by apply period_nonneg.
Qed.

Lemma on_linked ls ks k x y i : linked ls ks -> ks !! k = Some x -> l_on x = false -> l_on y = true -> l_cpu y = Some i -> (i < length ls)%nat -> period_ok y ->
  linked (alter (cons k) i ls) (<[k := y]> ks).
Proof.
  intros [H1 H2 H3 H4 H5 H6] Hk Hx Hy Hc Hi Hp. pose proof (lookup_lt_Some _ _ _ Hk) as Hlt.
  assert (forall i l, ls !! i = Some l -> k ∉ l) as Hout.
  { intros i' l Hl (z & Hz & Ho & _)%(H2 i' l k Hl). congruence. }
  assert (forall j z, <[k:=y]> ks !! j = Some z -> (j = k /\ z = y) \/ (j <> k /\ ks !! j = Some z)) as Hz.
  { intros j z Hj. destruct (decide (j = k)) as [->|Hne]; [left|right; by rewrite list_lookup_insert_ne in Hj].
    rewrite list_lookup_insert_eq in Hj by done. by injection Hj as <-. }
  split.
  - intros i' l Hl. destruct (decide (i' = i)) as [->|Hne]; [|rewrite list_lookup_alter_ne in Hl by done; by eapply H1].
    rewrite list_lookup_alter_eq in Hl. destruct (ls !! i) as [l0|] eqn:E; [|done]. injection Hl as <-. constructor; [by eapply Hout|by eapply H1].
  - intros i' l j Hl. assert (exists l0, ls !! i' = Some l0 /\ l = if decide (i' = i) then k :: l0 else l0) as (l0 & El & ->).
    { destruct (decide (i' = i)) as [->|Hne]; [|rewrite list_lookup_alter_ne in Hl by done; by exists l].
      rewrite list_lookup_alter_eq in Hl. destruct (ls !! i) as [l0|]; [|done]. injection Hl as <-. by exists l0. }
    destruct (decide (j = k)) as [->|Hne].
    + rewrite list_lookup_insert_eq by done. pose proof (Hout i' l0 El). split.
      * destruct (decide (i' = i)) as [->|]; [|done]. intros _. by exists y.
      * intros (z & [= <-] & _ & Hcz). assert (i' = i) as -> by congruence. rewrite decide_True by done. by left.
    + rewrite list_lookup_insert_ne by done. rewrite <- (H2 i' l0 j El). destruct (decide (i' = i)); [|done]. rewrite elem_of_cons. tauto.
  - intros j z i' Hj. rewrite length_alter. destruct (Hz j z Hj) as [[-> ->]|[_ Hj']]; [intros; congruence|by apply (H3 j)].
  - intros j z Hj. destruct (Hz j z Hj) as [[-> ->]|[_ Hj']]; [congruence|by apply (H4 j)].
  - intros j z Hj. destruct (Hz j z Hj) as [[-> ->]|[_ Hj']]; [done|by apply (H5 j)].
  - intros j z Hj. destruct (Hz j z Hj) as [[-> ->]|[_ Hj']]; [by apply period_nonneg|by apply (H6 j)].
Qed.

(** ** Operations that leave the lists alone *)

Record same_lists m m' : Prop := {
  sl_lists : lists m' = lists m; sl_links : links m' = links m; sl_mode : pl_mode m' = pl_mode m; sl_fault : list_fault m' = list_fault m
}.
#[local] Hint Constructors same_lists : core.

Lemma same_lists_refl m : same_lists m m.
Proof. done. Qed.
Lemma same_lists_trans m1 m2 m3 : same_lists m1 m2 -> same_lists m2 m3 -> same_lists m1 m3.
Proof. intros [] []. split; congruence. Qed.
Lemma same_lists_ok m m' : same_lists m m' -> vpt_ok m -> vpt_ok m'.
Proof. intros [E1 E2 _ _]. unfold vpt_ok. by rewrite E1, E2. Qed.

Lemma same_upd k f m : (forall p, link_of (f p) = link_of p) -> same_lists m (upd_pt k f m).
Proof. intros H. split; [done|by apply links_upd|done|done]. Qed.
Lemma same_upd_tc i f m : (forall c, tm_list (f c) = tm_list c) -> same_lists m (upd_tc i f m).
Proof. intros H. split; [by apply lists_upd_tc|done..]. Qed.
Lemma same_get_time now i m : same_lists m (hvm_get_guest_time now i m).2.
Proof. done. Qed.
Lemma same_set_time now i t m : same_lists m (hvm_set_guest_time now i t m).
Proof. unfold hvm_set_guest_time, hvm_get_guest_time. eapply same_lists_trans; [|by apply same_upd_tc]. done. Qed.
Lemma same_freeze now i m : same_lists m (pt_freeze_time now i m).
Proof. unfold pt_freeze_time, hvm_get_guest_time. case_decide; [|done]. eapply same_lists_trans; [|by apply same_upd_tc]. done. Qed.
Lemma same_thaw now i m : same_lists m (pt_thaw_time now i m).
Proof.
  unfold pt_thaw_time. case_decide; [|done]. destruct (_ =? 0); [done|]. eapply same_lists_trans; [apply same_set_time|by apply same_upd_tc].
Qed.
Lemma link_missed now md p : link_of (pt_process_missed_ticks now md p) = link_of p.
Proof. unfold pt_process_missed_ticks. destruct (one_shot p) eqn:E; [done|]. destruct (_ <=? 0); [done|]. unfold link_of. cbn. by rewrite E. Qed.

Lemma same_foldl (f : pl_time -> nat -> pl_time) l : (forall m k, same_lists m (f m k)) -> forall m, same_lists m (foldl f m l).
Proof. intros H. induction l as [|k l IH]; intros m; [done|]. cbn. eapply same_lists_trans; [apply H|apply IH]. Qed.

Lemma same_save now b i m : same_lists m (pt_save_timer now b i m).
Proof.
  unfold pt_save_timer. destruct b; [done|]. eapply same_lists_trans; [|apply same_freeze]. apply same_foldl. intros m' k. destruct (do_not_freeze _); [done|by apply same_upd].
Qed.
Lemma same_restore now i m : same_lists m (pt_restore_timer now i m).
Proof.
  unfold pt_restore_timer. eapply same_lists_trans; [|apply same_thaw]. apply same_foldl. intros m' k. destruct (_ =? 0); [|done]. apply same_upd.
  intros p. change (link_of (set_timer ?t ?q)) with (link_of q). apply link_missed.
Qed.
Lemma same_fire k m : same_lists m (pt_timer_fn k m).
Proof. by apply same_upd. Qed.

(** ** Operations on the lists *)

Lemma links_lookup m k : links m !! k = link_of <$> pts m !! k.
Proof. unfold links. by rewrite list_lookup_fmap. Qed.
Lemma pt_lookup m k p : pts m !! k = Some p -> pt m k = p.
Proof. apply list_lookup_total_correct. Qed.
Lemma pt_absent m k : pts m !! k = None -> pt m k = inhabitant.
Proof. intros H. unfold pt. by rewrite list_lookup_total_alt, H. Qed.

(** Being listed is what [on_list] says. *)
Lemma listed_spec k m : vpt_ok m -> listed k m = on_list (pt m k).
Proof.
  intros [_ H2 H3 H4 _ _]. unfold listed. fold (lists m). destruct (pts m !! k) as [p|] eqn:Ep.
  - rewrite (pt_lookup _ _ _ Ep). assert (links m !! k = Some (link_of p)) as El by (by rewrite links_lookup, Ep). destruct (on_list p) eqn:Eo.
    + apply bool_decide_eq_true_2. destruct (pt_vcpu p) as [i|] eqn:Ec; [|pose proof (H4 k _ El Ec) as H; cbn in H; congruence].
      destruct (lists m !! i) as [l|] eqn:Ei; [|apply lookup_ge_None in Ei; pose proof (H3 k _ i El Ec); lia].
      apply list_elem_of_join. exists l. split; [|by eapply list_elem_of_lookup_2]. apply (H2 i l k Ei). by exists (link_of p).
    + apply bool_decide_eq_false_2. intros Hin. apply list_elem_of_join in Hin as (l & Hk & Hin). apply list_elem_of_lookup in Hin. destruct Hin as [i Hi]. destruct (proj1 (H2 i l k Hi) Hk) as (x & Hx & Ho & _).
      rewrite El in Hx. injection Hx as <-. cbn in Ho. congruence.
  - rewrite (pt_absent _ _ Ep). apply bool_decide_eq_false_2. intros Hin. apply list_elem_of_join in Hin as (l & Hk & Hin). apply list_elem_of_lookup in Hin. destruct Hin as [i Hi].
    destruct (proj1 (H2 i l k Hi) Hk) as (x & Hx & _). by rewrite links_lookup, Ep in Hx.
Qed.

Lemma del_fault k m : vpt_ok m -> on_list (pt m k) = true -> list_fault (list_del k m) = list_fault m.
Proof. intros Hok Ho. cbn [list_del with_tcpus with_fault list_fault]. by rewrite (listed_spec k m Hok), Ho, orb_false_r. Qed.
Lemma add_fault k i f m : vpt_ok m -> on_list (pt m k) = false -> list_fault (list_add k i (upd_pt k f m)) = list_fault m.
Proof.
  intros Hok Ho. change (list_fault m || listed k m = list_fault m).
  by rewrite (listed_spec k m Hok), Ho, orb_false_r.
Qed.

Lemma unlink_model k f m : (forall p, link_of (f p) = let x := link_of p in Link false (l_cpu x) (l_shot x) (l_period x)) ->
  (lists (upd_pt k f (list_del k m)), links (upd_pt k f (list_del k m))) = unlink k (lists m, links m).
Proof.
  intros Hf. unfold unlink, lists, links. cbn [fst snd upd_pt list_del with_pts with_tcpus with_fault tcpus pts]. rewrite !map_map. f_equal.
  apply map_alter. exact Hf.
Qed.

Lemma unlink_ok k f m : (forall p, link_of (f p) = let x := link_of p in Link false (l_cpu x) (l_shot x) (l_period x)) ->
  vpt_ok m -> vpt_ok (upd_pt k f (list_del k m)).
Proof. intros Hf Hok. pose proof (unlink_linked k _ _ Hok) as H. rewrite <- (unlink_model k f m Hf) in H. exact H. Qed.

(** A timer that may be listed becomes one that is not. *)
Lemma take_off k f m : (forall p, link_of (f p) = let x := link_of p in Link false (l_cpu x) (l_shot x) (l_period x)) -> vpt_ok m ->
  let m' := upd_pt k f (if on_list (pt m k) then list_del k m else m) in
  vpt_ok m' /\ length (tcpus m') = length (tcpus m) /\ pts m' = alter f k (pts m) /\ pl_mode m' = pl_mode m /\ list_fault m' = list_fault m.
Proof.
  intros Hf Hok. destruct (on_list (pt m k)) eqn:E; cbv zeta.
  - split; [by apply unlink_ok|]. split; [cbn; by rewrite length_map|]. split_and!; try done. exact (del_fault k m Hok E).
  - split; [|done]. eapply same_lists_ok; [|exact Hok]. split; [done| |done|done]. unfold links. cbn [upd_pt with_pts pts].
    apply list_eq. intros j. rewrite !list_lookup_fmap. destruct (decide (j = k)) as [->|Hne]; [|by rewrite list_lookup_alter_ne].
    rewrite list_lookup_alter_eq. destruct (pts m !! k) as [p|] eqn:Ep; [|done]. rewrite (pt_lookup _ _ _ Ep) in E. cbn. rewrite Hf. unfold link_of. cbn. by rewrite E.
Qed.

Lemma put_on k i f m p : vpt_ok m -> pts m !! k = Some p -> on_list p = false -> (i < length (tcpus m))%nat ->
  on_list (f p) = true -> pt_vcpu (f p) = Some i -> period_ok (link_of (f p)) -> vpt_ok (list_add k i (upd_pt k f m)).
Proof.
  intros Hok Hp Hoff Hi Hon Hv Hpd. unfold vpt_ok, list_add.
  assert (lists (upd_tc i (fun c => Tcpu (k :: tm_list c) (stime_offset c) (guest_time c)) (with_fault (upd_pt k f m) (listed k (upd_pt k f m)))) = alter (cons k) i (lists m)) as ->.
  { unfold lists. cbn [upd_tc upd_pt with_tcpus with_pts with_fault tcpus]. by apply map_alter. }
  assert (links (upd_tc i (fun c => Tcpu (k :: tm_list c) (stime_offset c) (guest_time c)) (with_fault (upd_pt k f m) (listed k (upd_pt k f m)))) = <[k := link_of (f p)]> (links m)) as ->.
  { unfold links. cbn [upd_tc upd_pt with_tcpus with_pts with_fault pts]. apply list_eq. intros j. rewrite list_lookup_fmap. destruct (decide (j = k)) as [->|Hne].
    - rewrite list_lookup_alter_eq, Hp, list_lookup_insert_eq; [done|]. rewrite length_map. by eapply lookup_lt_Some.
    - by rewrite list_lookup_alter_ne, list_lookup_insert_ne, list_lookup_fmap by done. }
  eapply on_linked with (x := link_of p); try done; [by rewrite links_lookup, Hp|]. unfold lists. by rewrite length_map.
Qed.

(** The lists are exact, and the numbers of CPUs and timers and the mode are
    those of [m]. *)
Record kept m m' : Prop := {
  kp_ok : vpt_ok m -> vpt_ok m'; kp_cpus : length (tcpus m') = length (tcpus m); kp_pts : length (pts m') = length (pts m); kp_mode : pl_mode m' = pl_mode m;
  kp_fault : vpt_ok m -> list_fault m' = list_fault m
}.

Lemma kept_refl m : kept m m.
Proof. done. Qed.
Lemma kept_trans m1 m2 m3 : kept m1 m2 -> kept m2 m3 -> kept m1 m3.
Proof. intros [] []. split; [auto|congruence..|]. intros H. etransitivity; eauto. Qed.
Lemma kept_same m m' : same_lists m m' -> kept m m'.
Proof.
  intros H. pose proof H as [H1 H2 H3 H4]. split; [by apply same_lists_ok| | |done|done].
  - apply (f_equal length) in H1. unfold lists in H1. by rewrite !length_map in H1.
  - apply (f_equal length) in H2. unfold links in H2. by rewrite !length_map in H2.
Qed.
Lemma kept_foldl {A} (f : pl_time -> A -> pl_time) m0 l :
  (forall m k, k ∈ l -> kept m0 m -> vpt_ok m -> kept m (f m k)) -> forall m, kept m0 m -> vpt_ok m -> kept m (foldl f m l).
Proof.
  induction l as [|k l IH]; intros H m Hm Hok; [done|]. cbn. pose proof (H m k ltac:(by left) Hm Hok) as K. eapply kept_trans; [exact K|].
  apply IH; [|by eapply kept_trans|by apply K]. intros m' j Hj. apply H. by right.
Qed.

Lemma destroy_off k m : vpt_ok m -> kept m (destroy_periodic_time k m) /\ forall p, pts (destroy_periodic_time k m) !! k = Some p -> on_list p = false.
Proof.
  intros Hok. unfold destroy_periodic_time. destruct (pt_vcpu (pt m k)) as [i|] eqn:E.
  - destruct (take_off k (fun p => set_timer None (set_pending 0 (set_on_list false p))) m ltac:(done) Hok) as (H1 & H2 & H3 & H4 & H5). cbv zeta in *. split.
    + split; [done|done|by rewrite H3, length_alter|done|done].
    + intros p. rewrite H3, list_lookup_alter_eq. destruct (pts m !! k); [|done]. by intros [= <-].
  - split; [done|]. intros p Hp. rewrite (pt_lookup _ _ _ Hp) in E. eapply (ln_none _ _ Hok k (link_of p)); [by rewrite links_lookup, Hp|done].
Qed.

Lemma min_period_ok y x : 0 <= x < 2 ^ 64 -> l_shot y = (min_period x =? 0) -> l_period y = min_period x -> period_ok y.
Proof.
  intros Hx E1 E2. unfold period_ok. rewrite E1, E2. unfold min_period, truthy. destruct (Z.ltb_spec x 100000); cbn [andb]; destruct (Z.eqb_spec x 0) as [->|]; cbn; try lia.
Qed.

Lemma create_ok now i k delta per irq call m : valid_vpt_op m (Create now i k delta per irq call) ->
  vpt_ok m -> kept m (create_periodic_time now i k delta per irq call m).
Proof.
  intros (Hi & Hk & Hp) Hok. unfold create_periodic_time. destruct (destroy_off k m Hok) as [Kd Hoff]. set (m1 := destroy_periodic_time k m) in *.
  unfold hvm_get_guest_time. set (g := u64 _). set (m2 := PL _ _ _ _ _ _ _). pose proof Kd as [K1 K2 K3 K4 K5].
  assert (kept m m2) as K by (eapply kept_trans; [exact Kd|by apply kept_same]).
  destruct (pts m1 !! k) as [p|] eqn:Ep; [|apply lookup_ge_None in Ep; lia]. split.
  - intros _. eapply put_on; [by apply K|exact Ep|by apply Hoff|change (tcpus m2) with (tcpus m1); lia|done|done|]. by eapply min_period_ok.
  - cbn. rewrite length_alter. apply K2.
  - cbn. rewrite length_alter. apply K3.
  - apply K4.
  - intros _. rewrite add_fault; [by apply K|by apply K|]. change (pt m2 k) with (pt m1 k). rewrite (pt_lookup _ _ _ Ep). by apply Hoff.
Qed.

Lemma resume_ok k m : vpt_ok m -> kept m (pt_resume k m).
Proof.
  intros Hok. unfold pt_resume. destruct (pt_vcpu (pt m k)) as [i|] eqn:E; [|done]. destruct (truthy _); cbn [andb]; [|done].
  destruct (on_list (pt m k)) eqn:Eo; [done|]. cbn [negb]. destruct (pts m !! k) as [p|] eqn:Ep; [|by rewrite pt_absent in E].
  rewrite (pt_lookup _ _ _ Ep) in *. assert (links m !! k = Some (link_of p)) as El by (by rewrite links_lookup, Ep).
  split; [intros _|cbn; by rewrite length_alter|cbn; by rewrite length_alter|done|intros _; by rewrite add_fault by (done || by rewrite (pt_lookup _ _ _ Ep))].
  eapply put_on; try done.
  - pose proof (ln_cpu _ _ Hok k _ i El E) as H. unfold lists in H. by rewrite length_map in H.
  - pose proof (ln_period _ _ Hok k _ El) as H. apply H. by exists i.
Qed.

Lemma adjust_ok k i m : (i < length (tcpus m))%nat -> vpt_ok m -> kept m (pt_adjust_vcpu k i m).
Proof.
  intros Hi Hok. unfold pt_adjust_vcpu. destruct (pt_vcpu (pt m k)) as [i0|] eqn:E; [|done].
  destruct (pts m !! k) as [p|] eqn:Ep; [|by rewrite pt_absent in E]. rewrite (pt_lookup _ _ _ Ep) in *.
  assert (links m !! k = Some (link_of p)) as El by (by rewrite links_lookup, Ep).
  pose proof (ln_period _ _ Hok k _ El ltac:(by exists i0)) as Hpd.
  destruct (take_off k (set_on_list false) m ltac:(done) Hok) as (H1 & H2 & H3 & H4 & H5). rewrite (pt_lookup _ _ _ Ep) in *. cbv zeta in *.
  set (m1 := upd_pt k (set_on_list false) _) in *.
  assert (pts m1 !! k = Some (set_on_list false p)) as Ep1 by (by rewrite H3, list_lookup_alter_eq, Ep). clearbody m1.
  assert (vpt_ok (upd_pt k (set_vcpu (Some i)) m1)) as Hok2.
  { assert (links (upd_pt k (set_vcpu (Some i)) m1) = <[k := Link false (Some i) (one_shot p) (period p)]> (links m1)) as El2.
    { unfold links. cbn [upd_pt with_pts pts]. apply list_eq. intros j. rewrite list_lookup_fmap. destruct (decide (j = k)) as [->|Hne].
      - rewrite list_lookup_alter_eq, Ep1, list_lookup_insert_eq; [done|]. rewrite length_map. by eapply lookup_lt_Some.
      - by rewrite list_lookup_alter_ne, list_lookup_insert_ne, list_lookup_fmap by done. }
    unfold vpt_ok. rewrite El2. eapply off_linked with (x := link_of (set_on_list false p)); try done; [by rewrite links_lookup, Ep1|].
    intros i' [= <-]. change (lists (upd_pt k (set_vcpu (Some i)) m1)) with (lists m1). unfold lists. rewrite length_map. lia. }
  assert (pts (upd_pt k (set_vcpu (Some i)) m1) !! k = Some (set_vcpu (Some i) (set_on_list false p))) as Ep2.
  { cbn [upd_pt with_pts pts]. by rewrite list_lookup_alter_eq, Ep1. }
  destruct (on_list p).
  - split; [intros _|cbn; by rewrite length_alter, H2|cbn; rewrite !length_alter; by rewrite H3, length_alter|done|intros _; by rewrite add_fault by (done || by rewrite (pt_lookup _ _ _ Ep2))].
    eapply put_on; [exact Hok2|exact Ep2|done|cbn; lia|done|done|done].
  - split; [done|done|cbn; by rewrite length_alter, H3, length_alter|done|done].
Qed.

Lemma unmask_ok b k m : vpt_ok m -> kept m (pt_may_unmask_irq b k m).
Proof.
  intros Hok. unfold pt_may_unmask_irq.
  assert (kept m (if b then foldl (fun m k => pt_resume k m) m global_timers else m)) as K.
  { destruct b; [|done]. apply (kept_foldl _ m); [|done|done]. intros m' j _ _. apply resume_ok. }
  destruct k as [k|]; [|done]. eapply kept_trans; [exact K|]. apply resume_ok. by apply K.
Qed.

Lemma retarget_ok v m : valid_vpt_op m (Retarget v) -> vpt_ok m -> kept m (pt_adjust_global_vcpu_target v m).
Proof.
  intros Hv Hok. destruct v as [i|]; [|done]. apply (kept_foldl _ m); [|done|done]. intros m' k _ [_ Hc _ _ _] Hok'. apply adjust_ok; [|done]. rewrite Hc. exact Hv.
Qed.

(** Timers that the loop has not reached are still in their list. *)
Lemma update_steps_ok masked l : forall a, NoDup l -> (forall k, k ∈ l -> on_list (pt a.1.1 k) = true) -> vpt_ok a.1.1 ->
  kept a.1.1 (foldl (update_step masked) a l).1.1.
Proof.
  induction l as [|k l IH]; intros [[m lag] e] Hnd Hl Hok; [done|]. cbn [foldl]. apply NoDup_cons in Hnd as [Hk Hnd]. cbn [fst] in *.
  assert (kept m (update_step masked (m, lag, e) k).1.1 /\ forall j, j <> k -> on_list (pt (update_step masked (m, lag, e) k).1.1 j) = on_list (pt m j)) as [K Hj].
  { unfold update_step. destruct (truthy _); [|done]. destruct (masked _); [|by destruct (_ <? _)]. cbn [fst]. split.
    - split; [intros _; by apply unlink_ok|cbn; by rewrite length_map|cbn; by rewrite length_alter|done|]. intros _. apply (del_fault k m Hok). apply Hl. by left.
    - intros j Hj. unfold pt, upd_pt, list_del. cbn [pts with_pts with_tcpus with_fault]. by rewrite list_lookup_total_alter_ne. }
  eapply kept_trans; [exact K|]. apply IH; [done| |by apply K]. intros j Hin. rewrite Hj; [apply Hl; by right|]. by intros ->.
Qed.

Lemma update_loop_ok masked i m : vpt_ok m -> kept m (foldl (update_step masked) (m, UINT64_MAX, None) (tm_list (tc m i))).1.1.
Proof.
  intros Hok. destruct (lists m !! i) as [l|] eqn:Ei.
  - assert (tm_list (tc m i) = l) as ->.
    { unfold lists in Ei. rewrite list_lookup_fmap in Ei. unfold tc. destruct (tcpus m !! i) as [c|] eqn:Ec; [|done]. injection Ei as <-.
      by rewrite (list_lookup_total_correct _ _ _ Ec). }
    apply (update_steps_ok masked l (m, UINT64_MAX, None)); [by eapply ln_nodup| |done]. intros k (x & Hx & Ho & _)%(ln_elem _ _ Hok i l k Ei). cbn [fst]. rewrite links_lookup in Hx.
    destruct (pts m !! k) as [p|] eqn:Ep; [|done]. injection Hx as <-. by rewrite (pt_lookup _ _ _ Ep).
  - assert (tm_list (tc m i) = []) as ->; [|done]. unfold lists in Ei. rewrite list_lookup_fmap in Ei. unfold tc. rewrite list_lookup_total_alt.
    by destruct (tcpus m !! i).
Qed.

Lemma update_ok masked i m : vpt_ok m -> kept m (pt_update_irq masked i m).2.
Proof.
  intros Hok. unfold pt_update_irq. pose proof (update_loop_ok masked i m Hok) as K.
  destruct (foldl _ _ _) as [[m' lag] [k|]]; cbn [fst snd] in *; [|done]. eapply kept_trans; [exact K|]. by apply kept_same, same_upd.
Qed.

Lemma post_step_ok now i k m : vpt_ok m -> kept m (intr_post_step now i k m).
Proof.
  intros Hok. unfold intr_post_step. destruct (one_shot (pt m k)).
  - destruct (take_off k (fun p => set_pending 0 (set_on_list false p)) m ltac:(done) Hok) as (H1 & H2 & H3 & H4 & H5). cbv zeta in *.
    split; [done|done|by rewrite H3, length_alter|done|done].
  - case_decide.
    + unfold hvm_get_guest_time. apply kept_same. eapply same_lists_trans; [|apply same_upd]; [done|]. intros p.
      cbn zeta. change (link_of (set_timer ?t ?q)) with (link_of q). change (link_of (set_pending ?t ?q)) with (link_of q). by rewrite link_missed.
    + apply kept_same, same_upd. intros p. cbv zeta. destruct (_ =? 0); [|done].
      match goal with |- context [pt_process_missed_ticks ?a ?b ?q] => pose proof (link_missed a b q) as E end.
      destruct (_ =? 0); [|exact E]. change (link_of (set_timer ?t ?q)) with (link_of q). exact E.
Qed.

Lemma post_ok vector now i src vec m : vpt_ok m -> kept m (pt_intr_post vector now i src vec m).2.
Proof.
  intros Hok. unfold pt_intr_post. destruct src; [| |done]; (destruct (is_pt_irq _ _ _ _ _) as [k|]; [|done]); cbn [snd].
  all: assert (kept m (upd_pt k (set_issued false) m)) as K1 by (by apply kept_same, same_upd).
  all: pose proof (post_step_ok now i k _ (kp_ok _ _ K1 Hok)) as K2; set (m2 := intr_post_step _ _ _ _) in *; clearbody m2.
  all: eapply kept_trans; [exact K1|]; eapply kept_trans; [exact K2|]; apply kept_same; case_decide; [|done]; unfold hvm_get_guest_time at 1.
  all: destruct (_ <? _); [|done]; eapply same_lists_trans; [|apply same_set_time]; done.
Qed.

Lemma vpt_exec_ok o m : valid_vpt_op m o -> vpt_ok m -> kept m (vpt_exec o m).
Proof.
  intros Hv Hok. destruct o; cbn [vpt_exec].
  - apply kept_same, same_fire.
  - apply kept_same, same_save.
  - apply kept_same, same_restore.
  - by apply update_ok.
  - by apply post_ok.
  - by apply create_ok.
  - by apply destroy_off.
  - by apply retarget_ok.
  - by apply unmask_ok.
Qed.

Lemma valid_kept m m' o : kept m m' -> valid_vpt_op m o -> valid_vpt_op m' o.
Proof. intros [_ H1 H2 _ _]. destruct o as [| | | | | | |[i|]|]; cbn; rewrite ?H1, ?H2; auto. Qed.

Lemma vpt_trace_ok ops : forall m, Forall (valid_vpt_op m) ops -> vpt_ok m -> kept m (vpt_trace ops m).
Proof.
  induction ops as [|o ops IH]; intros m Hv Hok; [done|]. inversion_clear Hv as [|? ? Ho Hs]. pose proof (vpt_exec_ok o m Ho Hok) as K.
  eapply kept_trans; [exact K|]. apply IH; [|by apply K]. eapply Forall_impl; [exact Hs|]. intros o'. by apply valid_kept.
Qed.

(** C20. The lists of the virtual timers are exact.  Whatever timers are created,
    fired, suspended while their interrupt is masked, resumed, moved to another
    CPU or destroyed, a timer is in the list of the CPU it belongs to, and once,
    exactly when it is marked as listed, and in no other list; no operation
    links a timer that is linked or unlinks one that is not, either of which
    would corrupt the lists; and the period that ticks are divided by is never
    below 0.1 ms. *)
Theorem timer_lists_exact ops m : Forall (valid_vpt_op m) ops -> vpt_ok m ->
  let m' := vpt_trace ops m in
  (forall i k, (i < length (tcpus m))%nat -> (k ∈ tm_list (tc m' i) <-> exists p, pts m' !! k = Some p /\ on_list p = true /\ pt_vcpu p = Some i)) /\
  (forall i, (i < length (tcpus m))%nat -> NoDup (tm_list (tc m' i))) /\
  (forall k p i, pts m' !! k = Some p -> pt_vcpu p = Some i -> one_shot p = false -> 100000 <= period p < 2 ^ 64) /\
  list_fault m' = list_fault m.
Proof.
  intros Hv Hok. destruct (vpt_trace_ok ops m Hv Hok) as [K1 K2 _ _ K5]. destruct (K1 Hok) as [H1 H2 H3 H4 H5 _]. cbv zeta. set (m' := vpt_trace ops m) in *. clearbody m'.
  assert (forall i, (i < length (tcpus m))%nat -> lists m' !! i = Some (tm_list (tc m' i))) as Hl.
  { intros i Hi. unfold lists, tc. rewrite list_lookup_fmap. destruct (tcpus m' !! i) as [c|] eqn:E; [|apply lookup_ge_None in E; lia].
    by rewrite (list_lookup_total_correct _ _ _ E). }
  split_and!.
  - intros i k Hi. rewrite (H2 i _ k (Hl i Hi)). setoid_rewrite links_lookup. split.
    + intros (x & Hx & Ho & Hc). destruct (pts m' !! k) as [p|]; [|done]. injection Hx as <-. by exists p.
    + intros (p & -> & Ho & Hc). by exists (link_of p).
  - intros i Hi. by eapply H1, Hl.
  - intros k p i Hp Hc Hs. specialize (H5 k (link_of p)). cbn in H5. rewrite Hs in H5. apply H5; [by rewrite links_lookup, Hp|]. by exists i.
  - by apply K5.
Qed.

(** ** No tick is lost *)

(** The ticks that an operation adds to timer [k], and the interrupts of it
    that were taken. *)
Definition missed_ticks (now : Z) p : Z :=
  if one_shot p then 0 else if now - scheduled p <=? 0 then 0 else Z.quot (now - scheduled p) (period p) + 1.

Definition taken (k : nat) (o : vpt_op) m : bool :=
  match o with
  | Post _ _ _ hvm_intsrc_vector _ => false
  | Post _ vector i src vec => bool_decide (is_pt_irq vector i src vec m = Some k)
  | _ => false
  end.
Definition ticks (k : nat) (o : vpt_op) m : Z :=
  match o with
  | Fire j => if decide (j = k) then 1 else 0
  | Restore now i => if decide (k ∈ tm_list (tc m i)) then if pending_intr_nr (pt m k) =? 0 then missed_ticks now (pt m k) else 0 else 0
  | Post now _ _ _ _ => if taken k o m then if u32 (pending_intr_nr (pt m k) - 1) =? 0 then missed_ticks now (pt m k) else 0 else 0
  | _ => 0
  end.

(** Over a sequence. *)
Fixpoint total (f : vpt_op -> pl_time -> Z) (ops : list vpt_op) m : Z :=
  match ops with [] => 0 | o :: ops => f o m + total f ops (vpt_exec o m) end.
Definition all_ticks (k : nat) := total (ticks k).
Definition all_taken (k : nat) := total (fun o m => Z.b2z (taken k o m)).

(** Modes in which ticks accumulate. *)
Definition accumulates (md : timer_mode) : Prop := md = delay_for_missed_ticks \/ md = no_delay_for_missed_ticks.
(** The timer is neither created anew nor destroyed. *)
Definition leaves (k : nat) (o : vpt_op) : Prop := match o with Create _ _ j _ _ _ _ | Destroy j => j <> k | _ => True end.

Record tick := Tick { tk_shot : bool; tk_pending : Z; tk_period : Z; tk_sched : Z; tk_gtime : Z }.
Definition tick_of p : tick := Tick (one_shot p) (pending_intr_nr p) (period p) (scheduled p) (last_plt_gtime p).
Definition tick_at m (k : nat) : option tick := tick_of <$> pts m !! k.

Lemma tick_upd_same j f m k : (forall p, tick_of (f p) = tick_of p) -> tick_at (upd_pt j f m) k = tick_at m k.
Proof.
  intros H. unfold tick_at. cbn [upd_pt with_pts pts]. destruct (decide (j = k)) as [->|Hne]; [|by rewrite list_lookup_alter_ne].
  rewrite list_lookup_alter_eq. destruct (pts m !! k); [|done]. cbn. by rewrite H.
Qed.
Lemma tick_upd_ne j f m k : j <> k -> tick_at (upd_pt j f m) k = tick_at m k.
Proof. intros H. unfold tick_at. cbn [upd_pt with_pts pts]. by rewrite list_lookup_alter_ne. Qed.
Lemma tick_upd_eq f m k : tick_at (upd_pt k f m) k = (fun p => tick_of (f p)) <$> pts m !! k.
Proof. unfold tick_at. cbn [upd_pt with_pts pts]. rewrite list_lookup_alter_eq. by destruct (pts m !! k). Qed.

Lemma tick_foldl {A} (f : pl_time -> A -> pl_time) l k : (forall m x, tick_at (f m x) k = tick_at m k) -> forall m, tick_at (foldl f m l) k = tick_at m k.
Proof. intros H. induction l as [|x l IH]; intros m; [done|]. cbn. by rewrite IH, H. Qed.

Lemma tick_set_time now i t m k : tick_at (hvm_set_guest_time now i t m) k = tick_at m k.
Proof. done. Qed.
Lemma tick_save now b i m k : tick_at (pt_save_timer now b i m) k = tick_at m k.
Proof.
  unfold pt_save_timer. destruct b; [done|]. transitivity (tick_at (foldl (fun m k => if do_not_freeze (pt m k) then m else upd_pt k (set_timer None) m) m (tm_list (tc m i))) k).
  - unfold pt_freeze_time. by case_decide.
  - apply tick_foldl. intros m' j. destruct (do_not_freeze _); [done|by apply tick_upd_same].
Qed.
Lemma tick_update masked i m k : tick_at (pt_update_irq masked i m).2 k = tick_at m k.
Proof.
  unfold pt_update_irq. assert (forall l a, tick_at (foldl (update_step masked) a l).1.1 k = tick_at a.1.1 k) as H.
  { induction l as [|j l IH]; intros [[m' lag] e]; [done|]. cbn [foldl]. rewrite IH. unfold update_step. destruct (truthy _); [|done].
    destruct (masked _); [cbn [fst]; by rewrite tick_upd_same|by destruct (_ <? _)]. }
  specialize (H (tm_list (tc m i)) (m, UINT64_MAX, None)). destruct (foldl _ _ _) as [[m' lag] [j|]]; cbn [fst snd] in *; [|done]. by rewrite tick_upd_same.
Qed.
Lemma tick_list_del j m k : tick_at (list_del j m) k = tick_at m k.
Proof. done. Qed.
Lemma tick_adjust j i m k : tick_at (pt_adjust_vcpu j i m) k = tick_at m k.
Proof.
  unfold pt_adjust_vcpu. destruct (pt_vcpu _); [|done]. cbv zeta. destruct (on_list _).
  - change (tick_at (list_add j i ?x) k) with (tick_at x k). by rewrite !tick_upd_same.
  - by rewrite !tick_upd_same.
Qed.
Lemma tick_resume j m k : tick_at (pt_resume j m) k = tick_at m k.
Proof.
  unfold pt_resume. destruct (pt_vcpu _); [|done]. destruct (_ && _); [|done]. change (tick_at (list_add j ?i ?x) k) with (tick_at x k). by rewrite tick_upd_same.
Qed.
Lemma tick_unmask b v m k : tick_at (pt_may_unmask_irq b v m) k = tick_at m k.
Proof.
  unfold pt_may_unmask_irq. assert (tick_at (if b then foldl (fun m k => pt_resume k m) m global_timers else m) k = tick_at m k) as H.
  { destruct b; [|done]. apply tick_foldl. intros. apply tick_resume. }
  destruct v; [rewrite tick_resume|]; exact H.
Qed.
Lemma tick_destroy j m k : j <> k -> tick_at (destroy_periodic_time j m) k = tick_at m k.
Proof. intros Hj. unfold destroy_periodic_time. destruct (pt_vcpu _); [|done]. rewrite tick_upd_ne by done. by destruct (on_list _). Qed.
Lemma tick_create now i j delta per irq call m k : j <> k -> tick_at (create_periodic_time now i j delta per irq call m) k = tick_at m k.
Proof.
  intros Hj. unfold create_periodic_time, hvm_get_guest_time. change (tick_at (list_add j i ?x) k) with (tick_at x k). rewrite tick_upd_ne by done.
  etransitivity; [|by apply (tick_destroy j)]. done.
Qed.

(** The state of the ticks of a timer after [t] more ticks of which [d] were
    taken. *)
Definition moved (t d : Z) (x : tick) : tick :=
  Tick (tk_shot x) (tk_pending x + t - d) (tk_period x) (tk_sched x + t * tk_period x) (u64 (tk_gtime x + d * tk_period x)).

Record tick_ok (x : tick) : Prop := {
  to_shot : tk_shot x = false; to_period : 0 < tk_period x; to_pending : 0 <= tk_pending x < 2 ^ 32; to_sched : - 2 ^ 63 <= tk_sched x;
  to_gtime : 0 <= tk_gtime x < 2 ^ 64
}.
(** There is room for [t] more ticks. *)
Definition room_for (t : Z) (x : tick) : Prop := tk_pending x + t < 2 ^ 32 /\ tk_sched x + t * tk_period x < 2 ^ 63.

Lemma s64_small z : - 2 ^ 63 <= z < 2 ^ 63 -> s64 z = z.
Proof. intros H. unfold s64. rewrite Z.mod_small; lia. Qed.

Lemma moved_0 x : tick_ok x -> moved 0 0 x = x.
Proof. intros []. destruct x. unfold moved. cbn in *. rewrite u64_small by lia. f_equal; lia. Qed.

Lemma moved_moved t d t' d' x : moved t' d' (moved t d x) = moved (t + t') (d + d') x.
Proof.
  unfold moved. cbn. f_equal; try lia. unfold u64. rewrite Zplus_mod_idemp_l. f_equal. lia.
Qed.

Lemma moved_ok t d x : 0 <= t -> 0 <= d <= tk_pending x + t -> tick_ok x -> room_for t x -> tick_ok (moved t d x).
Proof. intros Ht Hd [] [R1 R2]. split; cbn; try done; first [lia|nia|apply u64_range]. Qed.

Lemma missed_nonneg now p : 0 <= period p -> 0 <= missed_ticks now p.
Proof.
  intros Hp. unfold missed_ticks. destruct (one_shot p); [done|]. destruct (Z.leb_spec (now - scheduled p) 0); [done|].
  destruct (decide (period p = 0)) as [->|]; [rewrite Z.quot_0_r_ext; lia|]. pose proof (Z.quot_pos (now - scheduled p) (period p)). lia.
Qed.

Lemma process_moves now md p : accumulates md -> tick_ok (tick_of p) -> room_for (missed_ticks now p) (tick_of p) ->
  tick_of (pt_process_missed_ticks now md p) = moved (missed_ticks now p) 0 (tick_of p).
Proof.
  intros Ha Hok [R1 R2]. pose proof (missed_nonneg now p ltac:(destruct Hok as [_ Hok _ _ _]; cbn in Hok; lia)) as Hn. destruct Hok as [Hs Hp Hpd Hsc Hg]. cbn in *.
  assert (md <> no_missed_ticks_pending) as Hmd by (by destruct Ha as [-> | ->]). unfold pt_process_missed_ticks, missed_ticks in *. rewrite Hs in *.
  destruct (Z.leb_spec (now - scheduled p) 0).
  - unfold moved. cbn. rewrite u64_small by lia. unfold tick_of. rewrite Hs. f_equal; lia.
  - unfold moved, tick_of. cbn [one_shot pending_intr_nr period scheduled last_plt_gtime tk_shot tk_pending tk_period tk_sched tk_gtime].
    rewrite !decide_False by done. rewrite u32_small, s64_small, u64_small by nia. rewrite Hs. f_equal; lia.
Qed.

Lemma list_nodup i m : vpt_ok m -> NoDup (tm_list (tc m i)).
Proof.
  intros [H1 _ _ _ _ _]. unfold tc. destruct (tcpus m !! i) as [c|] eqn:E.
  - rewrite (list_lookup_total_correct _ _ _ E). eapply H1. unfold lists. by rewrite list_lookup_fmap, E.
  - rewrite list_lookup_total_alt, E. constructor.
Qed.

Lemma tick_pts m k x : tick_at m k = Some x -> exists p, pts m !! k = Some p /\ pt m k = p /\ tick_of p = x.
Proof. unfold tick_at. destruct (pts m !! k) as [p|] eqn:E; [|done]. intros [= <-]. exists p. split; [done|]. split; [by apply pt_lookup|done]. Qed.

Definition restore_step (now : Z) m (k : nat) : pl_time :=
  if pending_intr_nr (pt m k) =? 0
  then upd_pt k (fun p => let p := pt_process_missed_ticks now (pl_mode m) p in set_timer (Some (scheduled p)) p) m else m.

Lemma restore_steps now l k : forall m, k ∉ l -> tick_at (foldl (restore_step now) m l) k = tick_at m k.
Proof.
  induction l as [|j l IH]; intros m Hk; [done|]. apply not_elem_of_cons in Hk as [Hne Hk]. cbn [foldl]. rewrite IH by done.
  unfold restore_step. destruct (_ =? 0); [|done]. by apply tick_upd_ne.
Qed.

Lemma restore_ticks now l k x : forall m, NoDup l -> k ∈ l -> accumulates (pl_mode m) -> tick_at m k = Some x -> tick_ok x ->
  let t := if tk_pending x =? 0 then missed_ticks now (pt m k) else 0 in
  room_for t x -> tick_at (foldl (restore_step now) m l) k = Some (moved t 0 x).
Proof.
  induction l as [|j l IH]; intros m Hnd Hk Ha Hx Hok t Hr; [by apply not_elem_of_nil in Hk|]. apply NoDup_cons in Hnd as [Hj Hnd]. cbn [foldl].
  destruct (tick_pts _ _ _ Hx) as (p & Ep & Et & Ex). destruct (decide (k = j)) as [<-|Hne].
  - rewrite restore_steps by done. unfold restore_step. subst t. rewrite Et in *. rewrite <- Ex in *. change (tk_pending (tick_of p)) with (pending_intr_nr p) in *.
    destruct (pending_intr_nr p =? 0); [|by rewrite moved_0].
    rewrite tick_upd_eq, Ep. cbn [fmap option_fmap option_map]. cbv zeta. change (tick_of (set_timer ?a ?q)) with (tick_of q). by rewrite process_moves.
  - apply elem_of_cons in Hk as [?|Hk]; [done|]. assert (pt (restore_step now m j) k = pt m k) as Ep'.
    { unfold restore_step. destruct (pending_intr_nr (pt m j) =? 0); [|reflexivity]. unfold pt. cbn [upd_pt with_pts pts]. rewrite !list_lookup_total_alt. by rewrite list_lookup_alter_ne. }
    subst t. rewrite <- Ep' in *. apply IH; try done.
    + unfold restore_step. destruct (pending_intr_nr (pt m j) =? 0); exact Ha.
    + unfold restore_step. destruct (pending_intr_nr (pt m j) =? 0); [|done]. by rewrite tick_upd_ne.
Qed.

Lemma is_pt_irq_pending vector i src vec m k : is_pt_irq vector i src vec m = Some k -> pending_intr_nr (pt m k) <> 0.
Proof.
  unfold is_pt_irq. destruct (list_find _ _) as [[n j]|] eqn:E; [|done]. cbn. intros [= <-]. apply list_find_Some in E as (_ & H & _).
  apply andb_prop in H as [[H _]%andb_prop _]. unfold truthy in H. destruct (Z.eqb_spec (pending_intr_nr (pt m j)) 0); done.
Qed.

Lemma post_step_ne now i j m k : j <> k -> tick_at (intr_post_step now i j m) k = tick_at m k.
Proof.
  intros Hj. unfold intr_post_step. destruct (one_shot _).
  - rewrite tick_upd_ne by done. by destruct (on_list _).
  - case_decide; [unfold hvm_get_guest_time; by rewrite tick_upd_ne|by apply tick_upd_ne].
Qed.

Lemma post_step_eq now i m k x : accumulates (pl_mode m) -> tick_at m k = Some x -> tick_ok x -> tk_pending x <> 0 ->
  let t := if u32 (tk_pending x - 1) =? 0 then missed_ticks now (pt m k) else 0 in
  room_for t x -> tick_at (intr_post_step now i k m) k = Some (moved t 1 x).
Proof.
  intros Ha Hx Hok Hpd t Hr. destruct (tick_pts _ _ _ Hx) as (p & Ep & Et & Ex). unfold intr_post_step. subst t. rewrite Et in *. rewrite <- Ex in *.
  pose proof Hok as [Hs Hp Hpn Hsc Hg]. change (tk_shot (tick_of p)) with (one_shot p) in Hs. rewrite Hs.
  rewrite decide_False by (destruct Ha as [-> | ->]; by intros [|]). change (tk_pending (tick_of p)) with (pending_intr_nr p) in *. change (tk_period (tick_of p)) with (period p) in *.
  rewrite tick_upd_eq, Ep. cbn [fmap option_fmap option_map]. f_equal. cbv zeta. set (q := set_pending _ _).
  assert (tick_of q = moved 0 1 (tick_of p)) as Eq.
  { unfold moved, q, tick_of. cbn. rewrite Hs, u32_small by lia. f_equal; first [lia|f_equal; lia]. }
  change (pending_intr_nr q) with (u32 (pending_intr_nr p - 1)). destruct (u32 (pending_intr_nr p - 1) =? 0) eqn:E0; [|exact Eq].
  assert (tick_ok (tick_of q)) as Hokq by (rewrite Eq; apply moved_ok; try done; [cbn; lia|split; cbn; [lia|destruct Hr; pose proof (missed_nonneg now p ltac:(lia)); cbn in *; nia]]).
  assert (missed_ticks now q = missed_ticks now p) as Em by done.
  assert (tick_of (pt_process_missed_ticks now (pl_mode m) q) = moved (missed_ticks now p) 1 (tick_of p)) as E.
  { rewrite process_moves, Em, Eq, moved_moved; [done|done|done|]. rewrite Em, Eq. destruct Hr. split; cbn in *; lia. }
  destruct (pending_intr_nr (pt_process_missed_ticks now (pl_mode m) q) =? 0); [change (tick_of (set_timer ?a ?y)) with (tick_of y)|]; exact E.
Qed.

Lemma post_ticks vector now i src vec m k x : accumulates (pl_mode m) -> tick_at m k = Some x -> tick_ok x ->
  let o := Post now vector i src vec in room_for (ticks k o m) x ->
  tick_at (vpt_exec o m) k = Some (moved (ticks k o m) (Z.b2z (taken k o m)) x) /\ (taken k o m = true -> 0 < tk_pending x).
Proof.
  intros Ha Hx Hok o Hr. destruct (tick_pts _ _ _ Hx) as (p & Ep & Et & Ex).
  assert (forall m', tick_at (if decide (pl_mode m' = delay_for_missed_ticks) then let '(g, m1) := hvm_get_guest_time now i m' in
     if g <? last_plt_gtime (pt m1 k) then hvm_set_guest_time now i (last_plt_gtime (pt m1 k)) m1 else m1 else m') k = tick_at m' k) as Ht.
  { intros m'. case_decide; [|done]. unfold hvm_get_guest_time at 1. by destruct (_ <? _). }
  assert (forall j m', tick_at (if decide (pl_mode m' = delay_for_missed_ticks) then let '(g, m1) := hvm_get_guest_time now i m' in
     if g <? last_plt_gtime (pt m1 j) then hvm_set_guest_time now i (last_plt_gtime (pt m1 j)) m1 else m1 else m') k = tick_at m' k) as Htj.
  { intros j m'. case_decide; [|done]. unfold hvm_get_guest_time at 1. by destruct (_ <? _). }
  subst o. cbn [vpt_exec]. unfold ticks, taken, pt_intr_post in *. destruct src; [| |cbn; by rewrite moved_0].
  all: destruct (is_pt_irq vector i _ vec m) as [j|] eqn:Ej; [|rewrite bool_decide_eq_false_2 by done; cbn; by rewrite moved_0].
  all: cbn [snd]; rewrite Htj; destruct (decide (j = k)) as [->|Hne].
  2,4: rewrite bool_decide_eq_false_2 by congruence; cbn [Z.b2z]; rewrite post_step_ne, tick_upd_ne by done; by rewrite moved_0.
  all: rewrite bool_decide_eq_true_2 in * by done; cbn [Z.b2z]; pose proof (is_pt_irq_pending _ _ _ _ _ _ Ej) as Hpd; rewrite Et in *; rewrite <- Ex in *.
  all: pose proof (to_pending _ Hok) as Hpn; change (tk_pending (tick_of p)) with (pending_intr_nr p) in *; split; [|intros _; lia].
  all: assert (pts (upd_pt k (set_issued false) m) !! k = Some (set_issued false p)) as Ep1 by (cbn [upd_pt with_pts pts]; by rewrite list_lookup_alter_eq, Ep).
  all: pose proof (post_step_eq now i (upd_pt k (set_issued false) m) k (tick_of p) Ha) as H; cbv zeta in H; rewrite (pt_lookup _ _ _ Ep1) in H; apply H; try done.
  all: unfold tick_at; by rewrite Ep1.
Qed.

Lemma ticks_nonneg k o m : vpt_ok m -> 0 <= ticks k o m.
Proof.
  intros Hok. assert (forall now, 0 <= missed_ticks now (pt m k)) as H.
  { intros now. apply missed_nonneg. destruct (pts m !! k) as [p|] eqn:E; [|by rewrite pt_absent]. rewrite (pt_lookup _ _ _ E).
    apply (ln_nonneg _ _ Hok k (link_of p)). by rewrite links_lookup, E. }
  destruct o; cbn [ticks]; try done; repeat case_match; (done || apply H).
Qed.

Lemma fire_ticks j m k x : tick_at m k = Some x -> tick_ok x -> room_for (ticks k (Fire j) m) x -> tick_at (pt_timer_fn j m) k = Some (moved (ticks k (Fire j) m) 0 x).
Proof.
  intros Hx Hok Hr. destruct (tick_pts _ _ _ Hx) as (p & Ep & _ & Ex). unfold pt_timer_fn. cbn [ticks] in *. destruct (decide (j = k)) as [->|Hne]; [|rewrite tick_upd_ne by done; by rewrite moved_0].
  rewrite tick_upd_eq, Ep. cbn [fmap option_fmap option_map]. f_equal. rewrite <- Ex in *. destruct Hok as [Hs Hp Hpd Hsc Hg], Hr as [R1 R2]. unfold moved, tick_of. cbn in *.
  rewrite u32_small, s64_small, u64_small by lia. f_equal; lia.
Qed.

Lemma exec_ticks k o m x : vpt_ok m -> accumulates (pl_mode m) -> leaves k o -> tick_at m k = Some x -> tick_ok x -> room_for (ticks k o m) x ->
  tick_at (vpt_exec o m) k = Some (moved (ticks k o m) (Z.b2z (taken k o m)) x) /\ (taken k o m = true -> 0 < tk_pending x).
Proof.
  intros Hv Ha Hl Hx Hok Hr. assert (Some x = Some (moved 0 0 x)) as E0 by (by rewrite moved_0).
  destruct o; cbn [leaves vpt_exec taken] in *; [| | |idtac| |idtac..].
  5: by apply post_ticks.
  all: cbn [Z.b2z]; split; [|done].
  - by apply fire_ticks.
  - by rewrite tick_save, Hx.
  - transitivity (tick_at (foldl (restore_step now) m (tm_list (tc m i))) k).
    { unfold pt_restore_timer. unfold pt_thaw_time. case_decide; [|done]. by destruct (_ =? 0). }
    destruct (tick_pts _ _ _ Hx) as (p & _ & Et & Ex). cbn [ticks] in *. destruct (decide (k ∈ tm_list (tc m i))) as [Hin|Hout].
    + rewrite Et in *. rewrite <- Ex in *. change (tk_pending (tick_of p)) with (pending_intr_nr p) in *.
      pose proof (restore_ticks now (tm_list (tc m i)) k (tick_of p) m (list_nodup i m Hv) Hin Ha Hx Hok) as H. cbv zeta in H. rewrite Et in H. by apply H.
    + rewrite restore_steps by done. by rewrite Hx.
  - by rewrite tick_update, Hx.
  - by rewrite tick_create, Hx.
  - by rewrite tick_destroy, Hx.
  - destruct v as [i|]; cbn [pt_adjust_global_vcpu_target ticks]; [|by rewrite Hx]. rewrite tick_foldl; [by rewrite Hx|]. intros. apply tick_adjust.
  - by rewrite tick_unmask, Hx.
Qed.

Lemma total_nonneg k ops : forall m, Forall (valid_vpt_op m) ops -> vpt_ok m -> 0 <= all_ticks k ops m.
Proof.
  unfold all_ticks. induction ops as [|o ops IH]; intros m Hv Hok; [done|]. inversion_clear Hv as [|? ? Ho Hs]. cbn [total]. pose proof (vpt_exec_ok o m Ho Hok) as K.
  pose proof (ticks_nonneg k o m Hok). enough (0 <= total (ticks k) ops (vpt_exec o m)) by lia. apply IH; [|by apply K].
  eapply Forall_impl; [exact Hs|]. intros o'. by apply valid_kept.
Qed.

Lemma trace_ticks k ops : forall m x, Forall (valid_vpt_op m) ops -> Forall (leaves k) ops -> vpt_ok m -> accumulates (pl_mode m) ->
  tick_at m k = Some x -> tick_ok x -> room_for (all_ticks k ops m) x ->
  tick_at (vpt_trace ops m) k = Some (moved (all_ticks k ops m) (all_taken k ops m) x) /\ 0 <= all_taken k ops m <= tk_pending x + all_ticks k ops m.
Proof.
  unfold all_taken. induction ops as [|o ops IH]; intros m x Hv Hl Hok Ha Hx Hxo Hr.
  - cbn. rewrite moved_0 by done. pose proof (to_pending _ Hxo). split; [done|lia].
  - pose proof (total_nonneg k (o :: ops) m Hv Hok) as _. inversion_clear Hv as [|? ? Ho Hs]. inversion_clear Hl as [|? ? Lo Ls]. unfold all_ticks in *. cbn [total vpt_trace foldl] in *.
    pose proof (vpt_exec_ok o m Ho Hok) as K. pose proof (ticks_nonneg k o m Hok) as Hn.
    assert (Forall (valid_vpt_op (vpt_exec o m)) ops) as Hs' by (eapply Forall_impl; [exact Hs|]; intros o'; by apply valid_kept).
    pose proof (total_nonneg k ops (vpt_exec o m) Hs' (kp_ok _ _ K Hok)) as Hn'. unfold all_ticks in Hn'. pose proof (to_period _ Hxo) as Hper. destruct Hr as [R1 R2].
    assert (room_for (ticks k o m) x) as Hr1 by (split; [lia|nia]).
    destruct (exec_ticks k o m x Hok Ha Lo Hx Hxo Hr1) as [Hx1 Htk].
    assert (0 <= Z.b2z (taken k o m) <= tk_pending x + ticks k o m) as Hb.
    { pose proof (to_pending _ Hxo). destruct (taken k o m); cbn; [specialize (Htk eq_refl)|]; lia. }
    destruct (IH (vpt_exec o m) (moved (ticks k o m) (Z.b2z (taken k o m)) x)) as [E1 E2]; try done.
    + by apply K.
    + by rewrite (kp_mode _ _ K).
    + by apply moved_ok.
    + split; cbn [moved tk_pending tk_sched tk_period]; [lia|nia].
    + fold (vpt_trace ops (vpt_exec o m)). rewrite E1, moved_moved. split; [done|]. cbn [moved tk_pending] in E2. lia.
Qed.

(** C19. No tick of a virtual timer is lost or invented.  In the modes that
    deliver missed ticks, over any sequence of operations on the timers of a
    domain (CPUs that stop and go on, interrupts that are masked, other timers
    that come and go), the periods that have passed for a periodic timer are the
    interrupts the guest took and those that are still pending; the time that
    the guest has seen for its last tick has advanced by one period for every
    interrupt it took. *)
Theorem ticks_conserved k ops m p : Forall (valid_vpt_op m) ops -> Forall (leaves k) ops -> vpt_ok m -> accumulates (pl_mode m) ->
  pts m !! k = Some p -> tick_ok (tick_of p) -> room_for (all_ticks k ops m) (tick_of p) ->
  exists p', pts (vpt_trace ops m) !! k = Some p' /\ period p' = period p /\
    scheduled p' = scheduled p + all_ticks k ops m * period p /\
    pending_intr_nr p' + all_taken k ops m = pending_intr_nr p + all_ticks k ops m /\ 0 <= pending_intr_nr p' /\
    last_plt_gtime p' = u64 (last_plt_gtime p + all_taken k ops m * period p).
Proof.
  intros Hv Hl Hok Ha Hp Hpo Hr. assert (tick_at m k = Some (tick_of p)) as Hx by (unfold tick_at; by rewrite Hp).
  destruct (trace_ticks k ops m _ Hv Hl Hok Ha Hx Hpo Hr) as [E Hb]. destruct (tick_pts _ _ _ E) as (p' & Ep & _ & Et). exists p'. split; [exact Ep|].
  unfold moved, tick_of in Et. injection Et as E1 E2 E3 E4 E5. cbn in *. rewrite E2, E3, E4, E5. split_and!; (done || lia).
Qed.

(** ** The earliest timer *)

Section Earliest.
Context (masked : periodic_time -> bool).

Definition live m k : bool := truthy (pending_intr_nr (pt m k)) && negb (masked (pt m k)).
Definition suspended m k : bool := truthy (pending_intr_nr (pt m k)) && masked (pt m k).
Definition due m k : Z := u64 (last_plt_gtime (pt m k) + period (pt m k)).

Lemma pt_upd_other j f m k : j <> k -> pt (upd_pt j f m) k = pt m k.
Proof. intros H. unfold pt. cbn [upd_pt with_pts pts]. rewrite !list_lookup_total_alt. by rewrite list_lookup_alter_ne. Qed.

Lemma tm_list_del k m i : tm_list (tc (list_del k m) i) = filter (fun j => j <> k) (tm_list (tc m i)).
Proof. unfold tc, list_del. cbn [tcpus with_tcpus]. rewrite !list_lookup_total_alt, list_lookup_fmap. by destruct (tcpus m !! i). Qed.

(** What the loop over [l] finds, from the candidate [e] of the timers before. *)
Record found m (l : list nat) (i : nat) (mx : Z) (e : option nat) (r : pl_time * Z * option nat) : Prop := {
  fo_pt k : k ∉ l -> pt r.1.1 k = pt m k;
  fo_list : tm_list (tc r.1.1 i) = filter (fun k => ~ (k ∈ l /\ suspended m k = true)) (tm_list (tc m i));
  fo_le : r.1.2 <= mx;
  fo_min k : k ∈ l -> live m k = true -> r.1.2 <= due m k;
  fo_best : (r.2 = e /\ r.1.2 = mx) \/ exists k, r.2 = Some k /\ k ∈ l /\ live m k = true /\ r.1.2 = due m k
}.

Lemma update_found i l : NoDup l -> forall m mx e, found m l i mx e (foldl (update_step masked) (m, mx, e) l).
Proof.
  induction 1 as [|k l Hk _ IH]; intros m mx e; cbn [foldl].
  { split; cbn [fst snd]; try done; [|by intros k Hk%not_elem_of_nil|by left]. symmetry. apply filter_keeps_all. intros k _ [Hk%not_elem_of_nil _]. done. }
  assert (exists m1 mx1 e1, update_step masked (m, mx, e) k = (m1, mx1, e1) /\ (forall j, j <> k -> pt m1 j = pt m j) /\
    tm_list (tc m1 i) = filter (fun j => ~ (j = k /\ suspended m k = true)) (tm_list (tc m i)) /\ mx1 <= mx /\ (live m k = true -> mx1 <= due m k) /\
    ((e1 = e /\ mx1 = mx) \/ e1 = Some k /\ live m k = true /\ mx1 = due m k)) as (m1 & mx1 & e1 & -> & P1 & P2 & P3 & P4 & P5).
  { unfold update_step, live, suspended, due. assert (forall b : bool, b = false -> tm_list (tc m i) = filter (fun j => ~ (j = k /\ b = true)) (tm_list (tc m i))) as Hn.
    { intros b ->. symmetry. apply filter_keeps_all. intros j _ [_ ?]. done. }
    destruct (truthy _); cbn [andb]; [destruct (masked (pt m k)); cbn [negb]|].
    - do 3 eexists. split; [reflexivity|]. split_and!; [intros j Hj; by rewrite pt_upd_other| |done|done|by left].
      change (tm_list (tc (upd_pt k ?f ?x) i)) with (tm_list (tc x i)). rewrite tm_list_del. apply filter_ext_in. intros j _. tauto.
    - destruct (Z.ltb_spec (u64 (last_plt_gtime (pt m k) + period (pt m k))) mx); do 3 eexists; (split; [reflexivity|]); split_and!; try done; try lia; try (by apply Hn); [by right|by left].
    - do 3 eexists. split; [reflexivity|]. split_and!; try done; [by apply Hn|by left]. }
  destruct (IH m1 mx1 e1) as [I1 I2 I3 I4 I5]. set (r := foldl _ _ l) in *. clearbody r.
  assert (forall j, j ∈ l -> pt m1 j = pt m j) as Hl by (intros j Hj; apply P1; by intros ->).
  split.
  - intros j [Hj Hjl]%not_elem_of_cons. rewrite I1 by done. by apply P1.
  - rewrite I2, P2, list_filter_filter. apply filter_ext_in. intros j _. rewrite elem_of_cons. unfold suspended in *. split.
    + intros [A B] [[->|Hj] D]; [by apply B|]. apply A. split; [done|]. by rewrite Hl.
    + intros A. split; [intros [Hj D]; apply A; split; [by right|]; by rewrite <- Hl|intros [-> D]; apply A; split; [by left|done]].
  - lia.
  - intros j [->|Hj]%elem_of_cons Hlv; [specialize (P4 Hlv); lia|]. specialize (I4 j Hj). unfold live, due in *. rewrite Hl in I4 by done. auto.
  - destruct I5 as [[E1 E2]|(j & E1 & Hj & Hlv & E2)].
    + destruct P5 as [[-> ->]|(-> & Hlv & ->)]; [by left|]. right. exists k. rewrite E1, E2. split_and!; try done. by left.
    + right. exists j. unfold live, due in *. rewrite Hl in Hlv, E2 by done. split_and!; try done. by right.
Qed.

End Earliest.

Lemma listed_exists i k m : vpt_ok m -> k ∈ tm_list (tc m i) -> (k < length (pts m))%nat.
Proof.
  intros [_ H _ _ _ _] Hk. destruct (tcpus m !! i) as [c|] eqn:E; unfold tc in Hk; rewrite list_lookup_total_alt, E in Hk; [|by apply not_elem_of_nil in Hk].
  destruct (H i (tm_list c) k) as [H1 _]; [unfold lists; by rewrite list_lookup_fmap, E|]. destruct (H1 Hk) as (x & Hx & _). rewrite links_lookup in Hx.
  destruct (pts m !! k) eqn:Ep; [by eapply lookup_lt_Some|done].
Qed.

(** When timers of a CPU have ticks to deliver the interrupt of the earliest
    is raised.  Of the timers in the list that are pending and not masked it is
    one whose next tick is due first in guest time, and there is none only when
    no such timer is due before the end of time; exactly the pending timers that
    are masked are taken off the list. *)
Theorem earliest_timer_first masked i m : vpt_ok m ->
  let r := pt_update_irq masked i m in
  match r.1 with
  | Some k => k ∈ tm_list (tc m i) /\ live masked m k = true /\ (forall j, j ∈ tm_list (tc m i) -> live masked m j = true -> due m k <= due m j) /\
              irq_issued (pt r.2 k) = true
  | None => forall j, j ∈ tm_list (tc m i) -> live masked m j = true -> due m j = UINT64_MAX
  end /\ tm_list (tc r.2 i) = filter (fun k => suspended masked m k = false) (tm_list (tc m i)).
Proof.
  intros Hok. unfold pt_update_irq. destruct (update_found masked i (tm_list (tc m i)) (list_nodup i m Hok) m UINT64_MAX None) as [I1 I2 I3 I4 I5].
  destruct (foldl _ _ _) as [[m' mx] e] eqn:Ef. cbn [fst snd] in *.
  assert (tm_list (tc m' i) = filter (fun k => suspended masked m k = false) (tm_list (tc m i))) as E.
  { rewrite I2. apply filter_ext_in. intros k Hk. destruct (suspended masked m k); intuition congruence. }
  destruct e as [k|]; cbn [fst snd]; (split; [|exact E]).
  - destruct I5 as [[? _]|(j & [= <-] & Hj & Hlv & E2)]; [done|]. split; [done|]. split; [done|]. split; [intros j Hj' Hlj; rewrite <- E2; by apply I4|].
    unfold pt. cbn [upd_pt with_pts pts]. pose proof (update_loop_ok masked i m Hok) as [_ _ K _ _].
    destruct (lookup_lt_is_Some_2 (pts m') k) as [p Hp]; [by rewrite Ef in K; cbn [fst] in K; rewrite K; apply (listed_exists i)|].
    erewrite list_lookup_total_correct; [|by rewrite list_lookup_alter_eq, Hp]. done.
  - intros j Hj Hlj. destruct I5 as [[_ ->]|(k & ? & _)]; [|done]. specialize (I4 j Hj Hlj). pose proof (u64_range (last_plt_gtime (pt m j) + period (pt m j))). unfold due, UINT64_MAX in *. lia.
Qed.

(** ** One timer *)

Lemma pt_upd_eq k f m : (k < length (pts m))%nat -> pt (upd_pt k f m) k = f (pt m k).
Proof.
  intros Hk. destruct (lookup_lt_is_Some_2 (pts m) k Hk) as [p Hp]. unfold pt. cbn [upd_pt with_pts pts]. rewrite (list_lookup_total_correct _ _ _ Hp).
  apply list_lookup_total_correct. by rewrite list_lookup_alter_eq, Hp.
Qed.
Lemma length_upd_pt k f m : length (pts (upd_pt k f m)) = length (pts m).
Proof. apply length_alter. Qed.

Lemma destroy_other k k' m : k <> k' -> pt (destroy_periodic_time k m) k' = pt m k'.
Proof. intros H. unfold destroy_periodic_time. destruct (pt_vcpu _); [|done]. rewrite pt_upd_other by done. by destruct (on_list _). Qed.
Lemma destroy_length k m : length (pts (destroy_periodic_time k m)) = length (pts m).
Proof. unfold destroy_periodic_time. destruct (pt_vcpu _); [|done]. rewrite length_upd_pt. by destruct (on_list _). Qed.

Lemma create_other now i k k' delta per irq call m : k <> k' -> pt (create_periodic_time now i k delta per irq call m) k' = pt m k'.
Proof.
  intros H. unfold create_periodic_time, hvm_get_guest_time. change (pt (list_add k i ?x) k') with (pt x k'). rewrite pt_upd_other by done.
  exact (destroy_other k k' m H).
Qed.

(** What destroying a timer leaves. *)
Lemma destroy_source k m : source (pt (destroy_periodic_time k m) k) = source (pt m k).
Proof.
  unfold destroy_periodic_time. destruct (pt_vcpu (pt m k)); [|done]. cbv zeta. destruct (decide (k < length (pts m))%nat) as [Hk|Hk].
  - rewrite pt_upd_eq by (by destruct (on_list _)). by destruct (on_list _).
  - unfold pt. cbn [upd_pt with_pts pts]. rewrite !list_lookup_total_alt. rewrite list_lookup_alter_eq.
    assert (pts (if on_list (pt m k) then list_del k m else m) = pts m) as E by (by destruct (on_list _)). unfold pt in E. rewrite list_lookup_total_alt in E. rewrite E.
    by rewrite (lookup_ge_None_2 (pts m) k) by lia.
Qed.
Lemma destroy_align k m : vpt_align (destroy_periodic_time k m) = vpt_align m.
Proof. unfold destroy_periodic_time. destruct (pt_vcpu _); [|done]. cbv zeta. by destruct (on_list _). Qed.

(** The timer that is created, and when it goes off. *)
Lemma create_timer now i k delta per irq call m : (k < length (pts m))%nat ->
  let p := pt (create_periodic_time now i k delta per irq call m) k in
  on_list p = true /\ pt_vcpu p = Some i /\ pt_irq p = irq /\ period p = min_period per /\ one_shot p = (min_period per =? 0) /\
  cb p = call /\ source p = source (pt m k) /\ pending_intr_nr p = 0 /\ irq_issued p = false /\
  scheduled p = first_tick now delta m (source (pt m k)) (min_period per) /\ timer p = Some (scheduled p).
Proof.
  intros Hk. unfold create_periodic_time, hvm_get_guest_time. cbv zeta. change (pt (list_add k i ?x) k) with (pt x k).
  rewrite pt_upd_eq by (cbn [pts]; by rewrite destroy_length). change (pt (PL _ _ _ _ _ (pts ?x) _) k) with (pt x k).
  cbn [on_list pt_vcpu pt_irq period one_shot cb source pending_intr_nr irq_issued scheduled timer]. rewrite destroy_source. split_and!; try done.
  unfold first_tick. cbn [vpt_align]. by rewrite destroy_align.
Qed.

(** A first tick depends on the machine only by whether it aligns timers. *)
Lemma first_tick_align now delta m m' src per : vpt_align m' = vpt_align m -> first_tick now delta m' src per = first_tick now delta m src per.
Proof. intros E. unfold first_tick. by rewrite E. Qed.
Lemma create_align now i k delta per irq call m : vpt_align (create_periodic_time now i k delta per irq call m) = vpt_align m.
Proof. exact (destroy_align k m). Qed.

Lemma adjust_other k k' i m : k <> k' -> pt (pt_adjust_vcpu k i m) k' = pt m k'.
Proof.
  intros H. unfold pt_adjust_vcpu. destruct (pt_vcpu _); [|done]. cbv zeta. destruct (on_list _).
  - change (pt (list_add k i ?x) k') with (pt x k'). by rewrite !pt_upd_other.
  - by rewrite !pt_upd_other.
Qed.

(** ** The guest's clock *)

(** While no clock wraps, time does not stand still for a guest: every reading
    is later than the one before, however little the host's clock moved. *)
Lemma guest_time_increases now i m : 0 <= last_guest_time m < 2 ^ 63 - 1 -> 0 <= u64 (now + pl_stime_offset m) < 2 ^ 63 ->
  last_guest_time m < last_guest_time (hvm_get_guest_time now i m).2 < 2 ^ 63.
Proof.
  intros Hl Hn. unfold hvm_get_guest_time. cbn. set (t := u64 (now + _)) in *. rewrite s64_small by lia.
  destruct (Z.gtb_spec (t - last_guest_time m) 0); [lia|]. rewrite u64_small; lia.
Qed.

(** A timer that has processed its missed ticks is due in the future, at most a
    period ahead. *)
Lemma process_catches_up now md p : one_shot p = false -> 0 < period p -> scheduled p < now -> - 2 ^ 63 <= scheduled p -> now + period p < 2 ^ 63 ->
  now < scheduled (pt_process_missed_ticks now md p) <= now + period p.
Proof.
  intros Hs Hp Hn H1 H2. unfold pt_process_missed_ticks. rewrite Hs. destruct (Z.leb_spec (now - scheduled p) 0); [lia|]. cbn [scheduled].
  pose proof (Z.quot_rem' (now - scheduled p) (period p)). pose proof (Z.rem_bound_pos (now - scheduled p) (period p) ltac:(lia) ltac:(lia)).
  rewrite s64_small; nia.
Qed.

(** ** Readings of the clock *)

(** All that the guest's time depends on. *)
Definition clock m : Z * Z * list Z := (pl_stime_offset m, last_guest_time m, map stime_offset (tcpus m)).
Definition reading (now : Z) (i : nat) m : Z := (hvm_get_guest_time now i m).1.

Lemma tc_offset m i : stime_offset (tc m i) = default 0 (map stime_offset (tcpus m) !! i).
Proof. unfold tc. rewrite list_lookup_total_alt, list_lookup_fmap. by destruct (tcpus m !! i). Qed.

Lemma clock_reading now i m m' : clock m' = clock m ->
  reading now i m' = reading now i m /\ clock (hvm_get_guest_time now i m').2 = clock (hvm_get_guest_time now i m).2.
Proof.
  unfold clock, reading, hvm_get_guest_time. intros [= E1 E2 E3]. cbn [fst snd pl_stime_offset last_guest_time tcpus]. by rewrite !tc_offset, E1, E2, E3.
Qed.

Lemma clock_del k m : clock (list_del k m) = clock m.
Proof. unfold clock, list_del. cbn [tcpus with_tcpus with_fault pl_stime_offset last_guest_time]. by rewrite map_map. Qed.
Lemma clock_add k i m : clock (list_add k i m) = clock m.
Proof. unfold clock, list_add. cbn [tcpus upd_tc with_tcpus with_fault pl_stime_offset last_guest_time]. by rewrite map_alter_same. Qed.
Lemma clock_destroy k m : clock (destroy_periodic_time k m) = clock m.
Proof. unfold destroy_periodic_time. destruct (pt_vcpu _); [|done]. cbv zeta. destruct (on_list _); [exact (clock_del k m)|done]. Qed.
(** Creating a timer reads the clock once. *)
Lemma clock_create now i k delta per irq call m :
  clock (create_periodic_time now i k delta per irq call m) = clock (hvm_get_guest_time now i m).2.
Proof.
  destruct (clock_reading now i m _ (clock_destroy k m)) as [_ E]. unfold create_periodic_time. cbv zeta.
  destruct (hvm_get_guest_time now i (destroy_periodic_time k m)) as [g m1]. cbn [snd] in E. rewrite clock_add. exact E.
Qed.

(** The clock does not wrap in the next [j] readings at the time [now]. *)
Definition steady (now j : Z) m : Prop := 0 <= last_guest_time m < 2 ^ 63 - j /\ u64 (now + pl_stime_offset m) < 2 ^ 63 - j.

Lemma clock_steady now j m m' : clock m' = clock m -> steady now j m -> steady now j m'.
Proof. unfold clock, steady. intros [= -> -> _]. done. Qed.

(** Two readings at the same time of the host differ by one, whichever CPU
    makes them. *)
Lemma reading_next_all now i j m : 0 < j -> steady now j m ->
  let m' := (hvm_get_guest_time now i m).2 in steady now (j - 1) m' /\ forall v, reading now v m' = u64 (reading now v m + 1).
Proof.
  intros Hj [Hl Hx]. pose proof (u64_range (now + pl_stime_offset m)) as Hr. cbv zeta. unfold steady, reading, hvm_get_guest_time.
  cbn [fst snd pl_stime_offset last_guest_time]. set (x := u64 (now + pl_stime_offset m)) in *. clearbody x.
  rewrite (s64_small (x - last_guest_time m)) by lia. set (t := if _ >? 0 then _ else _).
  assert (x <= t /\ 0 <= t < 2 ^ 63 - (j - 1)) as [Ht1 Ht2].
  { unfold t. destruct (Z.gtb_spec (x - last_guest_time m) 0); [lia|]. rewrite u64_small by lia. lia. }
  clearbody t. rewrite (s64_small (x - t)) by lia. destruct (Z.gtb_spec (x - t) 0); [lia|]. split; [lia|]. intros v. change (tc (PL _ _ _ _ (tcpus m) _ _) v) with (tc m v).
  rewrite (u64_small (t + 1)) by lia. unfold u64. rewrite Zplus_mod_idemp_l. f_equal. lia.
Qed.
Lemma reading_next now i j m : 0 < j -> steady now j m ->
  let m' := (hvm_get_guest_time now i m).2 in steady now (j - 1) m' /\ reading now i m' = u64 (reading now i m + 1).
Proof. intros Hj Hs. destruct (reading_next_all now i j m Hj Hs) as [H1 H2]. split; [exact H1|apply H2]. Qed.

(** [m'] is [m] after [c] readings of the clock at [now]. *)
Definition ticked (now c : Z) m m' : Prop :=
  vpt_align m' = vpt_align m /\
  forall j, c <= j -> steady now j m -> steady now (j - c) m' /\ forall v, reading now v m' = u64 (reading now v m + c).

Lemma u64_small_reading now v m : u64 (reading now v m + 0) = reading now v m.
Proof. rewrite Z.add_0_r. unfold reading, hvm_get_guest_time. cbn [fst]. by apply u64_small, u64_range. Qed.

Lemma ticked_same now m m' : vpt_align m' = vpt_align m -> clock m' = clock m -> ticked now 0 m m'.
Proof.
  intros Ea Ec. split; [done|]. intros j _ Hs. rewrite Z.sub_0_r. split; [by apply (clock_steady now j m)|]. intros v.
  rewrite u64_small_reading. apply (clock_reading now v m m' Ec).
Qed.
Lemma ticked_read now i m m' : vpt_align m' = vpt_align m -> clock m' = clock (hvm_get_guest_time now i m).2 -> ticked now 1 m m'.
Proof.
  intros Ea Ec. split; [done|]. intros j Hj Hs. destruct (reading_next_all now i j m ltac:(lia) Hs) as [H1 H2].
  split; [by apply (clock_steady now (j - 1) _ _ Ec)|]. intros v. rewrite <- H2. apply (clock_reading now v _ _ Ec).
Qed.
Lemma ticked_trans now a b m m' m'' : 0 <= a -> 0 <= b -> ticked now a m m' -> ticked now b m' m'' -> ticked now (a + b) m m''.
Proof.
  intros Ha Hb [A1 A2] [B1 B2]. split; [congruence|]. intros j Hj Hs. destruct (A2 j ltac:(lia) Hs) as [S1 R1]. destruct (B2 (j - a) ltac:(lia) S1) as [S2 R2].
  split; [by replace (j - (a + b)) with (j - a - b) by lia|]. intros v. rewrite R2, R1. unfold u64. rewrite Zplus_mod_idemp_l. f_equal. lia.
Qed.
(** Creating a timer reads the clock once, moving one does not. *)
Lemma ticked_create now i k delta per irq call m : ticked now 1 m (create_periodic_time now i k delta per irq call m).
Proof. apply (ticked_read now i); [apply create_align|apply clock_create]. Qed.
Lemma ticked_adjust now k i m : ticked now 0 m (pt_adjust_vcpu k i m).
Proof.
  apply ticked_same; unfold pt_adjust_vcpu; (destruct (pt_vcpu _); [|done]); cbv zeta; destruct (on_list _); try done.
  rewrite clock_add. exact (clock_del k m).
Qed.
Lemma ticked_retarget now v m : ticked now 0 m (pt_adjust_global_vcpu_target v m).
Proof.
  destruct v as [v|]; cbn [pt_adjust_global_vcpu_target]; [|by apply ticked_same]. generalize global_timers. intros l. revert m.
  induction l as [|k l IH]; intros m; cbn [foldl]; [by apply ticked_same|].
  exact (ticked_trans now 0 0 _ _ _ ltac:(lia) ltac:(lia) (ticked_adjust now k v m) (IH _)).
Qed.

(** ** A new domain *)

Definition no_timer (s : pt_source) : periodic_time := PT false false false false s 0 None 0 0 0 0 None None.
Definition vpt_init (md : timer_mode) (align : bool) (now : Z) (n : nat) : pl_time :=
  hvm_init_guest_time now (PL md align 0 0 (replicate n (Tcpu [] 0 0)) (replicate (2 + HPET_TIMER_NUM) (no_timer PTSRC_isa) ++ replicate n (no_timer PTSRC_lapic)) false).

Lemma vpt_init_ok md align now n : vpt_ok (vpt_init md align now n).
Proof.
  assert (forall i l, lists (vpt_init md align now n) !! i = Some l -> l = []) as Hl.
  { intros i l H. unfold lists in H. rewrite list_lookup_fmap in H. cbn [vpt_init hvm_init_guest_time tcpus] in H.
    destruct (replicate n (Tcpu [] 0 0) !! i) eqn:E; [|done]. apply lookup_replicate in E as [-> _]. by injection H as <-. }
  assert (forall k x, links (vpt_init md align now n) !! k = Some x -> x = Link false None false 0) as Hk.
  { intros k x H. rewrite links_lookup in H. cbn [vpt_init hvm_init_guest_time pts] in H. destruct ((_ ++ _) !! k) as [p|] eqn:E; [|done]. injection H as <-.
    apply lookup_app_Some in E as [E|[_ E]]; apply lookup_replicate in E as [-> _]; done. }
  split.
  - intros i l H. rewrite (Hl i l H). constructor.
  - intros i l k H. rewrite (Hl i l H). split; [by intros ?%not_elem_of_nil|]. intros (x & Hx & Ho & _). by rewrite (Hk k x Hx) in Ho.
  - intros k x i H. by rewrite (Hk k x H).
  - intros k x H. by rewrite (Hk k x H).
  - intros k x H. rewrite (Hk k x H). by intros [].
  - intros k x H. by rewrite (Hk k x H).
Qed.

(** ** Timers that are off *)

(** Neither listed nor pending nor set.  A structure that was never created is
    [idle] when it is off. *)
Definition off p : Prop := on_list p = false /\ pending_intr_nr p = 0 /\ timer p = None.
Definition idle p : Prop := pt_vcpu p = None -> off p.

(** An operation that starts nothing. *)
Record quiet p p' : Prop := { qu_off : off p -> off p'; qu_vcpu : pt_vcpu p' = None -> pt_vcpu p = None }.

Lemma quiet_refl p : quiet p p.
Proof. done. Qed.
Lemma quiet_trans p1 p2 p3 : quiet p1 p2 -> quiet p2 p3 -> quiet p1 p3.
Proof. intros [] []. split; auto. Qed.
Lemma quiet_idle p p' : quiet p p' -> idle p -> idle p'.
Proof. intros [H1 H2] H E. auto. Qed.

Lemma quiet_upd j f m k : (j = k -> quiet (pt m k) (f (pt m k))) -> quiet (pt m k) (pt (upd_pt j f m) k).
Proof.
  intros H. destruct (decide (j = k)) as [->|Hne]; [|by rewrite pt_upd_other]. destruct (decide (k < length (pts m))%nat); [rewrite pt_upd_eq by done; auto|].
  rewrite !pt_absent by (apply lookup_ge_None_2; rewrite ?length_upd_pt; lia). done.
Qed.

Lemma quiet_foldl {A} (f : pl_time -> A -> pl_time) l k : (forall m x, quiet (pt m k) (pt (f m x) k)) -> forall m, quiet (pt m k) (pt (foldl f m l) k).
Proof. intros H. induction l as [|x l IH]; intros m; [done|]. cbn. eapply quiet_trans; [apply H|apply IH]. Qed.

Lemma listed_on i k m : vpt_ok m -> k ∈ tm_list (tc m i) -> on_list (pt m k) = true.
Proof.
  intros [_ H _ _ _ _] Hk. destruct (tcpus m !! i) as [c|] eqn:E; unfold tc in Hk; rewrite list_lookup_total_alt, E in Hk; [|by apply not_elem_of_nil in Hk].
  destruct (H i (tm_list c) k) as [H1 _]; [unfold lists; by rewrite list_lookup_fmap, E|]. destruct (H1 Hk) as (x & Hx & Ho & _). rewrite links_lookup in Hx.
  destruct (pts m !! k) as [p|] eqn:Ep; [|done]. injection Hx as <-. by rewrite (pt_lookup _ _ _ Ep).
Qed.

(** What touches the listed timers only, and leaves their CPU, is quiet. *)
Lemma quiet_listed i m m' k : vpt_ok m -> (k ∉ tm_list (tc m i) -> pt m' k = pt m k) -> pt_vcpu (pt m' k) = pt_vcpu (pt m k) -> quiet (pt m k) (pt m' k).
Proof.
  intros Hok Hpt Hv. split; [|by rewrite Hv]. intros Hoff. rewrite Hpt; [done|]. intros Hk. destruct Hoff as [Ho _]. by rewrite (listed_on i k m Hok Hk) in Ho.
Qed.

Lemma same_vcpu m m' k : same_lists m m' -> pt_vcpu (pt m' k) = pt_vcpu (pt m k).
Proof.
  intros [_ E _]. assert (links m' !! k = links m !! k) as El by (by rewrite E). rewrite !links_lookup in El. unfold pt. rewrite !list_lookup_total_alt.
  destruct (pts m' !! k), (pts m !! k); cbn in *; try done. by injection El.
Qed.

Lemma restore_other now k l : forall m, k ∉ l -> pt (foldl (restore_step now) m l) k = pt m k.
Proof.
  induction l as [|j l IH]; intros m Hk; [done|]. apply not_elem_of_cons in Hk as [Hne Hk]. cbn [foldl]. rewrite IH by done.
  unfold restore_step. destruct (_ =? 0); [|done]. by apply pt_upd_other.
Qed.

Lemma quiet_restore now i m k : vpt_ok m -> quiet (pt m k) (pt (pt_restore_timer now i m) k).
Proof.
  intros Hok. apply (quiet_listed i); [done| |apply same_vcpu, same_restore]. intros Hk. unfold pt_restore_timer. fold (restore_step now).
  transitivity (pt (foldl (restore_step now) m (tm_list (tc m i))) k); [unfold pt_thaw_time; case_decide; [by destruct (_ =? 0)|done]|].
  by apply restore_other.
Qed.

Lemma quiet_save now b i m k : quiet (pt m k) (pt (pt_save_timer now b i m) k).
Proof.
  unfold pt_save_timer. destruct b; [done|]. set (m1 := foldl _ _ _). assert (quiet (pt m k) (pt m1 k)) as H.
  { apply quiet_foldl. intros m' j. destruct (do_not_freeze _); [done|]. apply quiet_upd. intros _. split; [|done]. intros (? & ? & ?). done. }
  clearbody m1. unfold pt_freeze_time. by case_decide.
Qed.

Lemma quiet_update masked i m k : quiet (pt m k) (pt (pt_update_irq masked i m).2 k).
Proof.
  assert (forall f m, (f = set_on_list false \/ f = set_issued true) -> forall j, quiet (pt m k) (pt (upd_pt j f m) k)) as Hf.
  { intros f m' Hf j. apply quiet_upd. intros _. split; [|by destruct Hf as [-> | ->]]. intros (? & ? & ?). by destruct Hf as [-> | ->]. }
  assert (forall l a, quiet (pt a.1.1 k) (pt (foldl (update_step masked) a l).1.1 k)) as H.
  { induction l as [|j l IH]; intros [[m' lag] e]; [done|]. cbn [foldl]. eapply quiet_trans; [|apply IH]. unfold update_step. destruct (truthy _); [|done].
    destruct (masked _); [|by destruct (_ <? _)]. apply (Hf _ (list_del j m')). by left. }
  unfold pt_update_irq. specialize (H (tm_list (tc m i)) (m, UINT64_MAX, None)). destruct (foldl _ _ _) as [[m' lag] [j|]]; cbn [fst snd] in *; [|done].
  eapply quiet_trans; [exact H|]. apply Hf. by right.
Qed.

Lemma post_step_other now i j m k : j <> k -> pt (intr_post_step now i j m) k = pt m k.
Proof.
  intros Hj. unfold intr_post_step. destruct (one_shot _).
  - rewrite pt_upd_other by done. by destruct (on_list _).
  - case_decide; [unfold hvm_get_guest_time; by rewrite pt_upd_other|by apply pt_upd_other].
Qed.

Lemma vcpu_upd f m k : (forall p, pt_vcpu (f p) = pt_vcpu p) -> pt_vcpu (pt (upd_pt k f m) k) = pt_vcpu (pt m k).
Proof.
  intros H. destruct (decide (k < length (pts m))%nat); [by rewrite pt_upd_eq|]. by rewrite !pt_absent by (apply lookup_ge_None_2; rewrite ?length_upd_pt; lia).
Qed.

Lemma vcpu_missed now md p : pt_vcpu (pt_process_missed_ticks now md p) = pt_vcpu p.
Proof. pose proof (link_missed now md p) as H. by injection H. Qed.

Lemma post_step_vcpu now i k m : pt_vcpu (pt (intr_post_step now i k m) k) = pt_vcpu (pt m k).
Proof.
  unfold intr_post_step. destruct (one_shot _).
  - rewrite vcpu_upd by done. by destruct (on_list _).
  - case_decide.
    + unfold hvm_get_guest_time. rewrite vcpu_upd; [done|]. intros p. cbv zeta. cbn [pt_vcpu set_timer set_pending]. by rewrite vcpu_missed.
    + apply vcpu_upd. intros p. cbv zeta. destruct (_ =? 0); [|done]. destruct (_ =? 0); cbn [pt_vcpu set_timer]; by rewrite vcpu_missed.
Qed.

Lemma quiet_post vector now i src vec m k : quiet (pt m k) (pt (pt_intr_post vector now i src vec m).2 k).
Proof.
  unfold pt_intr_post. destruct src; [| |done]; (destruct (is_pt_irq vector i _ vec m) as [j|] eqn:E; [|done]); cbn [snd]; apply is_pt_irq_pending in E.
  all: set (m1 := intr_post_step _ _ _ _); assert (quiet (pt m k) (pt m1 k)) as H by
    (subst m1; destruct (decide (j = k)) as [->|Hne]; [|by rewrite post_step_other, pt_upd_other];
     split; [by intros (_ & ? & _)|by rewrite post_step_vcpu, vcpu_upd]).
  all: clearbody m1; case_decide; [|done]; unfold hvm_get_guest_time at 1; by destruct (_ <? _).
Qed.

Lemma quiet_destroy j m k : quiet (pt m k) (pt (destroy_periodic_time j m) k).
Proof.
  destruct (decide (j = k)) as [->|Hne]; [|by rewrite destroy_other]. unfold destroy_periodic_time. destruct (pt_vcpu _) as [i|] eqn:E; [|done].
  set (m1 := if on_list _ then _ else m). assert (pt m1 k = pt m k) as E1 by (unfold m1; by destruct (on_list _)). rewrite <- E1. apply quiet_upd. intros _. by split.
Qed.

Lemma quiet_adjust j i m k : quiet (pt m k) (pt (pt_adjust_vcpu j i m) k).
Proof.
  destruct (decide (j = k)) as [->|Hne]; [|by rewrite adjust_other]. unfold pt_adjust_vcpu. destruct (pt_vcpu _) as [i0|] eqn:E; [|done]. cbv zeta.
  set (m1 := if on_list _ then list_del k m else m). assert (pt m1 k = pt m k /\ length (pts m1) = length (pts m)) as [E1 El] by (unfold m1; by destruct (on_list _)). clearbody m1.
  destruct (decide (k < length (pts m))%nat) as [Hk|]; [|by rewrite pt_absent in E by (apply lookup_ge_None_2; lia)].
  destruct (on_list (pt m k)) eqn:Eo.
  - change (pt (list_add k i ?x) k) with (pt x k). rewrite !pt_upd_eq by (rewrite ?length_upd_pt; lia). split; [intros (? & _); congruence|done].
  - rewrite !pt_upd_eq by (rewrite ?length_upd_pt; lia). rewrite E1. split; [|done]. intros (? & ? & ?). done.
Qed.

Lemma quiet_resume j m k : quiet (pt m k) (pt (pt_resume j m) k).
Proof.
  unfold pt_resume. destruct (pt_vcpu (pt m j)) eqn:E; [|done]. destruct (truthy _) eqn:Ep; cbn [andb]; [|done]. destruct (negb _); [|done].
  change (pt (list_add j ?i ?x) k) with (pt x k). apply quiet_upd. intros ->. split; [|done]. intros (_ & Ho & _). by rewrite Ho in Ep.
Qed.

(** Operations other than starting it, or its going off, leave a timer off. *)
Definition starts (k : nat) (o : vpt_op) : Prop := match o with Fire j | Create _ _ j _ _ _ _ => j = k | _ => False end.

Lemma quiet_exec k o m : vpt_ok m -> ~ starts k o -> quiet (pt m k) (pt (vpt_exec o m) k).
Proof.
  intros Hok Hs. destruct o; cbn [vpt_exec starts] in *.
  - unfold pt_timer_fn. by rewrite pt_upd_other.
  - apply quiet_save.
  - by apply quiet_restore.
  - apply quiet_update.
  - apply quiet_post.
  - by rewrite create_other.
  - apply quiet_destroy.
  - destruct v as [i|]; [|done]. apply quiet_foldl. intros. apply quiet_adjust.
  - unfold pt_may_unmask_irq. assert (quiet (pt m k) (pt (if domain then foldl (fun m k => pt_resume k m) m global_timers else m) k)) as H.
    { destruct domain; [|done]. apply quiet_foldl. intros. apply quiet_resume. }
    destruct vlapic_pt; [|done]. eapply quiet_trans; [exact H|apply quiet_resume].
Qed.

(** A timer that was idle is off after it was destroyed. *)
Lemma destroy_makes_off k m : (k < length (pts m))%nat -> idle (pt m k) -> off (pt (destroy_periodic_time k m) k).
Proof.
  intros Hk Hi. unfold destroy_periodic_time. destruct (pt_vcpu (pt m k)) as [i|] eqn:E; [|by apply Hi].
  rewrite pt_upd_eq by (by destruct (on_list _)). done.
Qed.

(** Clearing the structure of a timer that is off leaves the lists exact. *)
Lemma clear_ok s k m : off (pt m k) -> vpt_ok m -> kept m (upd_pt k (fun _ => no_timer s) m).
Proof.
  intros [Ho _] Hok. split; [intros _|done|cbn; by rewrite length_alter|done|done]. destruct (pts m !! k) as [p|] eqn:Ep.
  - rewrite (pt_lookup _ _ _ Ep) in Ho. assert (links (upd_pt k (fun _ => no_timer s) m) = <[k := link_of (no_timer s)]> (links m)) as El.
    { unfold links. cbn [upd_pt with_pts pts]. apply list_eq. intros j. rewrite list_lookup_fmap. destruct (decide (j = k)) as [->|Hne].
      - rewrite list_lookup_alter_eq, Ep, list_lookup_insert_eq; [done|]. rewrite length_map. by eapply lookup_lt_Some.
      - by rewrite list_lookup_alter_ne, list_lookup_insert_ne, list_lookup_fmap by done. }
    unfold vpt_ok. rewrite El. pose proof (links_lookup m k) as Ex. rewrite Ep in Ex. pose proof (lookup_lt_Some _ _ _ Ex) as Hlt.
    change (lists (upd_pt k _ m)) with (lists m). destruct Hok as [H1 H2 H3 H4 H5 H6].
    assert (forall j z, <[k:=link_of (no_timer s)]> (links m) !! j = Some z -> (j = k /\ z = link_of (no_timer s)) \/ (j <> k /\ links m !! j = Some z)) as Hz.
    { intros j z Hj. destruct (decide (j = k)) as [->|Hne]; [left|right; by rewrite list_lookup_insert_ne in Hj]. rewrite list_lookup_insert_eq in Hj by done. by injection Hj as <-. }
    split; [exact H1| | | | |].
    + intros i l j Hl. rewrite (H2 i l j Hl). destruct (decide (j = k)) as [->|Hne]; [|by rewrite list_lookup_insert_ne].
      rewrite list_lookup_insert_eq by done. split; [|intros (z & [= <-] & Hz' & _); done]. intros (z & Hz1 & Hz2 & _). rewrite Ex in Hz1. injection Hz1 as <-. cbn in Hz2. congruence.
    + intros j z i Hj Hc. destruct (Hz j z Hj) as [[_ ->]|[_ Hj']]; [done|by eapply H3].
    + intros j z Hj Hc. destruct (Hz j z Hj) as [[_ ->]|[_ Hj']]; [done|by eapply H4].
    + intros j z Hj Hc. destruct (Hz j z Hj) as [[_ ->]|[_ Hj']]; [by destruct Hc|by eapply H5].
    + intros j z Hj. destruct (Hz j z Hj) as [[_ ->]|[_ Hj']]; [done|by eapply H6].
  - eapply same_lists_ok; [|exact Hok]. split; [done| |done|done]. unfold links. cbn [upd_pt with_pts pts]. f_equal. apply list_eq. intros j.
    destruct (decide (j = k)) as [->|Hne]; [|by rewrite list_lookup_alter_ne]. by rewrite list_lookup_alter_eq, Ep.
Qed.

End Vpt.
Arguments periodic_time : clear implicits.
Arguments pl_time : clear implicits.

(** ** A guest whose CPU does not run for a while *)

Definition tick_ops : list (vpt_op (C:=unit)) :=
  [Create 1000 0 5 1000000 1000000 0x30 None; Fire 5; Update (fun _ => false) 0; Save 2500000 false 0; Restore 9000000 0;
   Post 9000000 (fun p _ => pt_irq p) 0 hvm_intsrc_lapic 0x30; Restore 9500000 0].
Definition some_timers : pl_time unit := vpt_init no_delay_for_missed_ticks false 0 1.

Lemma timer_lists_exact_witness : tm_list (tc (vpt_trace tick_ops some_timers) 0) = [5%nat] /\
  5%nat ∈ tm_list (tc (vpt_trace tick_ops some_timers) 0) /\ list_fault (vpt_trace tick_ops some_timers) = false.
Proof.
  destruct (timer_lists_exact tick_ops some_timers) as (H & _ & _ & Hf).
  - repeat constructor; cbn; lia.
  - apply vpt_init_ok.
  - split; [vm_compute; reflexivity|]. split; [|exact Hf]. apply H; [cbn; lia|]. vm_compute. eexists. split; [reflexivity|]. split; reflexivity.
Defined.

(** The timer is pending when its CPU comes back, and not masked. *)
Lemma earliest_timer_first_witness :
  let m := vpt_trace [Create 1000 0 5 1000000 1000000 0x30 None; Fire 5] some_timers in
  (pt_update_irq (fun _ => false) 0 m).1 = Some 5%nat /\ irq_issued (pt (pt_update_irq (fun _ => false) 0 m).2 5) = true.
Proof.
  intros m. assert (vpt_ok m) as Hok.
  { apply (kp_ok _ _ (vpt_trace_ok [Create 1000 0 5 1000000 1000000 0x30 None; Fire 5] some_timers ltac:(repeat constructor; cbn; lia) ltac:(apply vpt_init_ok))), vpt_init_ok. }
  destruct (earliest_timer_first (fun _ => false) 0 m Hok) as [H _]. assert ((pt_update_irq (fun _ => false) 0 m).1 = Some 5%nat) as E by (vm_compute; reflexivity).
  rewrite E in H. split; [exact E|]. apply H.
Defined.

Lemma ticks_conserved_witness :
  let m := vpt_trace [Create 1000 0 5 1000000 1000000 0x30 None] some_timers in
  let ops := tail tick_ops in
  all_ticks 5 ops m = 8 /\ all_taken 5 ops m = 1 /\ exists p', pts (vpt_trace ops m) !! 5%nat = Some p' /\ pending_intr_nr p' = 7.
Proof.
  cbv zeta. set (m := vpt_trace _ some_timers). set (ops := tail tick_ops).
  assert (all_ticks 5 ops m = 8) as E1 by (vm_compute; reflexivity). assert (all_taken 5 ops m = 1) as E2 by (vm_compute; reflexivity).
  split; [exact E1|]. split; [exact E2|]. destruct (pts m !! 5%nat) as [p|] eqn:Ep; [|vm_compute in Ep; discriminate Ep].
  assert (tick_of p = Tick false 0 1000000 1501000 1000) as Et by (vm_compute in Ep; injection Ep as <-; vm_compute; reflexivity).
  destruct (ticks_conserved 5 ops m p) as (p' & Hp' & _ & _ & H & _).
  - repeat constructor; cbn; lia.
  - repeat constructor; cbn; lia.
  - apply (kp_ok _ _ (vpt_trace_ok [Create 1000 0 5 1000000 1000000 0x30 None] some_timers ltac:(repeat constructor; cbn; lia) ltac:(apply vpt_init_ok))), vpt_init_ok.
  - by right.
  - exact Ep.
  - rewrite Et. split; cbn [tk_shot tk_period tk_pending tk_sched tk_gtime]; first [reflexivity|lia].
  - rewrite E1, Et. split; cbn [tk_shot tk_period tk_pending tk_sched tk_gtime]; lia.
  - exists p'. split; [exact Hp'|]. rewrite E1, E2 in H. assert (pending_intr_nr p = 0) as E0 by (injection Et; done). lia.
Defined.

End Vpt.
