(* ===== verification/Vlapic.v ===== *)
(** The local APIC of one virtual CPU.

    Models the part of xen/arch/x86/hvm/vlapic.c that works on one APIC: the
    page of registers, the bitmaps of requested and serviced vectors,
    priorities, acknowledgement and end of interrupt, and what the guest reads.
    An APIC is shown to behave as a stack of nested interrupts.  Delivery
    between the APICs of a domain, the register writes and the timer are in
    another file. *)

From Stdlib Require Import Sorted.
From S2P Require Import Prelude HvmContext.

Module Vlapic.
Import HvmContext.

(** ** Registers *)

Definition APIC_ID : Z := 0x20.
Definition APIC_LVR : Z := 0x30.
Definition APIC_TASKPRI : Z := 0x80.
Definition APIC_PROCPRI : Z := 0xA0.
Definition APIC_EOI : Z := 0xB0.
Definition APIC_LDR : Z := 0xD0.
Definition APIC_DFR : Z := 0xE0.
Definition APIC_SPIV : Z := 0xF0.
Definition APIC_ISR : Z := 0x100.
Definition APIC_TMR : Z := 0x180.
Definition APIC_IRR : Z := 0x200.
Definition APIC_ESR : Z := 0x280.
Definition APIC_ICR : Z := 0x300.
Definition APIC_ICR2 : Z := 0x310.
Definition APIC_LVTT : Z := 0x320.
Definition APIC_LVTTHMR : Z := 0x330.
Definition APIC_LVTPC : Z := 0x340.
Definition APIC_LVT0 : Z := 0x350.
Definition APIC_LVT1 : Z := 0x360.
Definition APIC_LVTERR : Z := 0x370.
Definition APIC_TMICT : Z := 0x380.
Definition APIC_TMCCT : Z := 0x390.
Definition APIC_TDCR : Z := 0x3E0.
Definition APIC_SELF_IPI : Z := 0x3F0.

Definition APIC_LVT_MASKED : Z := 1 .<< 16.
Definition APIC_LVT_LEVEL_TRIGGER : Z := 1 .<< 15.
Definition APIC_LVT_REMOTE_IRR : Z := 1 .<< 14.
Definition APIC_INPUT_POLARITY : Z := 1 .<< 13.
Definition APIC_SEND_PENDING : Z := 1 .<< 12.
Definition APIC_MODE_MASK : Z := 0x700.
Definition APIC_VECTOR_MASK : Z := 0xff.
Definition APIC_TIMER_MODE_MASK : Z := 3 .<< 17.
Definition APIC_TIMER_MODE_ONESHOT : Z := 0.
Definition APIC_TIMER_MODE_PERIODIC : Z := 1 .<< 17.
Definition APIC_TIMER_MODE_TSC_DEADLINE : Z := 2 .<< 17.
Definition APIC_DFR_CLUSTER : Z := 0x0fffffff.
Definition APIC_DFR_FLAT : Z := 0xffffffff.
Definition VLAPIC_VERSION : Z := 0x00050014.
Definition VLAPIC_LVT_NUM : nat := 6.
Definition APIC_BUS_CYCLE_NS : Z := 10.
Definition VLAPIC_HW_DISABLED : Z := 1.
Definition VLAPIC_SW_DISABLED : Z := 2.
Definition MSR_IA32_APICBASE_BSP : Z := 1 .<< 8.
Definition MSR_IA32_APICBASE_EXTD : Z := 1 .<< 10.
Definition MSR_IA32_APICBASE_ENABLE : Z := 1 .<< 11.
(** [0xfffff << 12] as an [int], extended to 64 bits. *)
Definition MSR_IA32_APICBASE_BASE : Z := not_w 64 0xfff.
Definition MSR_IA32_APICBASE_MSR : Z := 0x800.
Definition APIC_DEFAULT_PHYS_BASE : Z := 0xfee00000.

Record hvm_hw_lapic := HwLapic { apic_base_msr : Z; disabled : Z; timer_divisor : Z; tdt_msr : Z }.

(** [regs] is the page of registers in words; [init_sipi] is the CPU that an
    INIT or STARTUP of this one waits for, with the command. *)
Record vlapic := VL { hw : hvm_hw_lapic; regs : list Z; timer_last_update : Z; init_sipi : option (nat * Z) }.
#[export] Instance vlapic_inhabited : Inhabited vlapic := populate (VL (HwLapic 0 0 0 0) [] 0 None).

Definition PAGE_WORDS : nat := 1024.
(** [struct hvm_hw_lapic_regs]. *)
Definition SAVED_WORDS : nat := 256.

Definition with_regs (l : vlapic) (r : list Z) : vlapic := VL (hw l) r (timer_last_update l) (init_sipi l).
Definition with_hw (l : vlapic) (h : hvm_hw_lapic) : vlapic := VL h (regs l) (timer_last_update l) (init_sipi l).
Definition with_update (l : vlapic) (t : Z) : vlapic := VL (hw l) (regs l) t (init_sipi l).
Definition with_sipi (l : vlapic) (t : option (nat * Z)) : vlapic := VL (hw l) (regs l) (timer_last_update l) t.
Definition set_disabled (l : vlapic) (x : Z) : vlapic := with_hw l (HwLapic (apic_base_msr (hw l)) x (timer_divisor (hw l)) (tdt_msr (hw l))).
Definition set_divisor (l : vlapic) (x : Z) : vlapic := with_hw l (HwLapic (apic_base_msr (hw l)) (disabled (hw l)) x (tdt_msr (hw l))).
Definition set_tdt (l : vlapic) (x : Z) : vlapic := with_hw l (HwLapic (apic_base_msr (hw l)) (disabled (hw l)) (timer_divisor (hw l)) x).
Definition set_base (l : vlapic) (x : Z) : vlapic := with_hw l (HwLapic x (disabled (hw l)) (timer_divisor (hw l)) (tdt_msr (hw l))).

Definition vlapic_get_reg (l : vlapic) (reg : Z) : Z := regs l !!! Z.to_nat (reg / 4).
Definition vlapic_set_reg (reg val : Z) (l : vlapic) : vlapic := with_regs l (<[Z.to_nat (reg / 4) := u32 val]> (regs l)).

Definition vlapic_sw_disabled (l : vlapic) : bool := truthy (disabled (hw l) .& VLAPIC_SW_DISABLED).
Definition vlapic_hw_disabled (l : vlapic) : bool := truthy (disabled (hw l) .& VLAPIC_HW_DISABLED).
Definition vlapic_enabled (l : vlapic) : bool := negb (truthy (disabled (hw l))).
Definition vlapic_x2apic_mode (l : vlapic) : bool := truthy (apic_base_msr (hw l) .& MSR_IA32_APICBASE_EXTD).
Definition vlapic_base_address (l : vlapic) : Z := apic_base_msr (hw l) .& MSR_IA32_APICBASE_BASE.
Definition GET_xAPIC_ID (x : Z) : Z := (x .>> 24) .& 0xff.
Definition VLAPIC_ID (l : vlapic) : Z := GET_xAPIC_ID (vlapic_get_reg l APIC_ID).

Definition timer_mode_bits (l : vlapic) : Z := vlapic_get_reg l APIC_LVTT .& APIC_TIMER_MODE_MASK.
Definition vlapic_lvtt_period (l : vlapic) : bool := timer_mode_bits l =? APIC_TIMER_MODE_PERIODIC.
Definition vlapic_lvtt_oneshot (l : vlapic) : bool := timer_mode_bits l =? APIC_TIMER_MODE_ONESHOT.
Definition vlapic_lvtt_tdt (l : vlapic) : bool := timer_mode_bits l =? APIC_TIMER_MODE_TSC_DEADLINE.

(** ** Bitmaps of vectors *)

Definition VEC_POS (v : Z) : Z := v mod 32.
Definition REG_POS (v : Z) : Z := (v / 32) * 0x10.
Definition vlapic_test_vector (v bitmap : Z) (l : vlapic) : bool := Z.testbit (vlapic_get_reg l (bitmap + REG_POS v)) (VEC_POS v).
Definition vlapic_set_vector (v bitmap : Z) (l : vlapic) : vlapic :=
  let r := bitmap + REG_POS v in vlapic_set_reg r (vlapic_get_reg l r .| (1 .<< VEC_POS v)) l.
Definition vlapic_clear_vector (v bitmap : Z) (l : vlapic) : vlapic :=
  let r := bitmap + REG_POS v in vlapic_set_reg r (Z.ldiff (vlapic_get_reg l r) (1 .<< VEC_POS v)) l.

Definition fls (x : Z) : Z := if x =? 0 then 0 else Z.log2 x + 1.

(** The loop goes down from word [n]. *)
Fixpoint highest_word (word : nat -> Z) (n : nat) : nat :=
  match n with O => O | S n => if word n =? 0 then highest_word word n else n end.
Definition vlapic_find_highest_vector (bitmap : Z) (l : vlapic) : Z :=
  let word n := vlapic_get_reg l (bitmap + 16 * Z.of_nat n) in
  let n := highest_word word 8 in (fls (word n) - 1) + Z.of_nat n * 32.

Definition vlapic_find_highest_irr (l : vlapic) : Z := vlapic_find_highest_vector APIC_IRR l.
Definition vlapic_find_highest_isr (l : vlapic) : Z := vlapic_find_highest_vector APIC_ISR l.

(** The result says whether the vector was not requested before. *)
Definition vlapic_set_irq (vec : Z) (trig : bool) (l : vlapic) : bool * vlapic :=
  let ret := negb (vlapic_test_vector vec APIC_IRR l) in
  let l := vlapic_set_vector vec APIC_IRR l in
  (ret, if trig then vlapic_set_vector vec APIC_TMR l else l).

(** ** Priorities *)

Definition vlapic_get_ppr (l : vlapic) : Z :=
  let tpr := vlapic_get_reg l APIC_TASKPRI in
  let isr := vlapic_find_highest_isr l in
  let isrv := if isr =? -1 then 0 else isr in
  if (tpr .& 0xf0) >=? (isrv .& 0xf0) then tpr .& 0xff else isrv .& 0xf0.

(** The vector that the CPU would take, or -1. *)
Definition vlapic_has_pending_irq (l : vlapic) : Z :=
  if negb (vlapic_enabled l) then -1
  else
    let irr := vlapic_find_highest_irr l in
    if irr =? -1 then -1
    else
      let isr := vlapic_find_highest_isr l in
      let isr := if isr =? -1 then 0 else isr in
      if (isr .& 0xf0) >=? (irr .& 0xf0) then -1 else irr.

Definition vlapic_ack_pending_irq (vector : Z) (l : vlapic) : vlapic :=
  vlapic_clear_vector vector APIC_IRR (vlapic_set_vector vector APIC_ISR l).

(** The vector whose service ends, and whether the I/O APIC is told. *)
Definition vlapic_EOI_set (l : vlapic) : option (Z * bool) * vlapic :=
  let vector := vlapic_find_highest_isr l in
  if vector =? -1 then (None, l)
  else
    let l := vlapic_clear_vector vector APIC_ISR l in
    let level := vlapic_test_vector vector APIC_TMR l in
    (Some (vector, level), vlapic_clear_vector vector APIC_TMR l).

Definition is_vlapic_lvtpc_enabled (l : vlapic) : bool := vlapic_enabled l && negb (truthy (vlapic_get_reg l APIC_LVTPC .& APIC_LVT_MASKED)).

(** ** Destinations *)

Definition vlapic_match_logical_addr (mda : Z) (l : vlapic) : bool :=
  if vlapic_x2apic_mode l then truthy (vlapic_get_reg l APIC_LDR .& mda)
  else
    let logical_id := GET_xAPIC_ID (vlapic_get_reg l APIC_LDR) in
    let dfr := vlapic_get_reg l APIC_DFR in
    if dfr =? APIC_DFR_FLAT then truthy (logical_id .& mda)
    else if dfr =? APIC_DFR_CLUSTER then ((logical_id .>> 4) =? (mda .>> 4)) && truthy (logical_id .& mda .& 0xf)
    else false.

Definition APIC_DEST_NOSHORT : Z := 0.
Definition APIC_DEST_SELF : Z := 0x40000.
Definition APIC_DEST_ALLINC : Z := 0x80000.
Definition APIC_DEST_ALLBUT : Z := 0xc0000.

(** [self] says whether target and source are the same; [dest] has 8 bits. *)
Definition vlapic_match_dest (target : vlapic) (self : bool) (short_hand dest : Z) (dest_mode : bool) : bool :=
  let dest := dest mod 2 ^ 8 in
  if short_hand =? APIC_DEST_NOSHORT then
    if dest_mode then vlapic_match_logical_addr dest target else (dest =? 0xff) || (dest =? VLAPIC_ID target)
  else if short_hand =? APIC_DEST_SELF then self
  else if short_hand =? APIC_DEST_ALLINC then true
  else if short_hand =? APIC_DEST_ALLBUT then negb self
  else false.

(** ** Timer registers *)

Definition vlapic_set_tdcr (val : Z) (l : vlapic) : vlapic :=
  let val := val .& 0xb in
  let l := vlapic_set_reg APIC_TDCR val l in
  let val := ((val .& 3) .| ((val .& 8) .>> 1)) + 1 in
  set_divisor l (1 .<< (val .& 7)).

(** At the guest's time [gtime]; a divisor of zero is a fault of the host. *)
Definition vlapic_get_tmcct (gtime : Z) (l : vlapic) : run Z :=
  let tmict := vlapic_get_reg l APIC_TMICT in
  let div := u32 (APIC_BUS_CYCLE_NS * timer_divisor (hw l)) in
  if div =? 0 then Bug
  else
    let passed := u64 (gtime - timer_last_update l) / div in
    if tmict =? 0 then Ret 0
    else
      let passed := if vlapic_lvtt_period l then passed mod tmict else passed in
      Ret (if passed <? tmict then tmict - passed else 0).

(** ** Reading *)

(** A load from the page of registers; one from behind it is a fault. *)
Definition word_at (l : vlapic) (offset : Z) : run Z :=
  if offset <? 4 * Z.of_nat PAGE_WORDS then Ret (vlapic_get_reg l offset) else Bug.

Definition vlapic_read_aligned (gtime offset : Z) (l : vlapic) : run Z :=
  if offset =? APIC_PROCPRI then Ret (vlapic_get_ppr l)
  else if offset =? APIC_TMCCT then
    if negb (vlapic_lvtt_oneshot l) && negb (vlapic_lvtt_period l) then Ret 0 else vlapic_get_tmcct gtime l
  else if (offset =? APIC_TMICT) && negb (vlapic_lvtt_oneshot l) && negb (vlapic_lvtt_period l) then Ret 0
  else word_at l offset.

(** The result, or [None] when the domain is crashed. *)
Definition vlapic_read (gtime address len : Z) (l : vlapic) : run (option Z) :=
  let offset := u32 (address - vlapic_base_address l) in
  if offset >? APIC_TDCR + 3 then Ret (Some 0)
  else
    let alignment := offset .& 3 in
    tmp ← vlapic_read_aligned gtime (offset - alignment) l;
    Ret (if len =? 1 then Some ((tmp .>> (8 * alignment)) .& 0xff)
         else if len =? 2 then if alignment =? 3 then None else Some ((tmp .>> (8 * alignment)) .& 0xffff)
         else if len =? 4 then if negb (alignment =? 0) then None else Some tmp
         else None).

(** [None] is a general protection fault. *)
Definition hvm_x2apic_msr_read (gtime msr : Z) (l : vlapic) : run (option Z) :=
  let offset := u32 ((msr - MSR_IA32_APICBASE_MSR) .<< 4) in
  if negb (vlapic_x2apic_mode l) then Ret None
  else
    low ← vlapic_read_aligned gtime offset l;
    high ← (if offset =? APIC_ICR then vlapic_read_aligned gtime APIC_ICR2 l else Ret 0);
    Ret (Some ((high .<< 32) .| low)).

(** ** Reset *)

Definition clear_bitmaps (l : vlapic) : vlapic :=
  foldl (fun l i => vlapic_set_reg (APIC_TMR + 16 * i) 0 (vlapic_set_reg (APIC_ISR + 16 * i) 0 (vlapic_set_reg (APIC_IRR + 16 * i) 0 l))) l (seqZ 0 8).
Definition mask_lvts (f : Z -> Z) (l : vlapic) : vlapic :=
  foldl (fun l i => vlapic_set_reg (APIC_LVTT + 16 * i) (f (vlapic_get_reg l (APIC_LVTT + 16 * i))) l) l (seqZ 0 (Z.of_nat VLAPIC_LVT_NUM)).

(** [vlapic_reset] for CPU [vcpu_id], except that its timer is destroyed. *)
Definition reset_regs (vcpu_id : Z) (l : vlapic) : vlapic :=
  let l := vlapic_set_reg APIC_ID ((vcpu_id * 2) .<< 24) l in
  let l := vlapic_set_reg APIC_LVR VLAPIC_VERSION l in
  let l := clear_bitmaps l in
  let l := vlapic_set_reg APIC_ICR 0 l in
  let l := vlapic_set_reg APIC_ICR2 0 l in
  let l := vlapic_set_reg APIC_LDR 0 l in
  let l := vlapic_set_reg APIC_TASKPRI 0 l in
  let l := vlapic_set_reg APIC_TMICT 0 l in
  let l := vlapic_set_reg APIC_TMCCT 0 l in
  let l := vlapic_set_tdcr 0 l in
  let l := vlapic_set_reg APIC_DFR 0xffffffff l in
  let l := mask_lvts (fun _ => APIC_LVT_MASKED) l in
  let l := vlapic_set_reg APIC_SPIV 0xff l in
  set_disabled l (disabled (hw l) .| VLAPIC_SW_DISABLED).

(** ** The page of registers *)

Record wf (l : vlapic) : Prop := { wf_len : length (regs l) = PAGE_WORDS; wf_words : Forall (fun w => 0 <= w < 2 ^ 32) (regs l) }.

Lemma set_reg_wf reg val l : wf l -> wf (vlapic_set_reg reg val l).
Proof. intros [H1 H2]. split; cbn; [by rewrite length_insert|]. apply Forall_insert; [done|apply u32_range]. Qed.

Lemma get_reg_range reg l : wf l -> 0 <= reg < 4 * Z.of_nat PAGE_WORDS -> 0 <= vlapic_get_reg l reg < 2 ^ 32.
Proof.
  intros [H1 H2] Hr. unfold vlapic_get_reg. destruct (lookup_lt_is_Some_2 (regs l) (Z.to_nat (reg / 4))) as [w Hw]; [rewrite H1; unfold PAGE_WORDS in *; zlia|].
  rewrite (list_lookup_total_correct _ _ _ Hw). exact (Forall_lookup_1 _ _ _ _ H2 Hw).
Qed.

Lemma get_set_reg_eq reg val l : wf l -> 0 <= reg < 4 * Z.of_nat PAGE_WORDS -> vlapic_get_reg (vlapic_set_reg reg val l) reg = u32 val.
Proof.
  intros [H1 _] Hr. unfold vlapic_get_reg, vlapic_set_reg. cbn [regs with_regs]. apply list_lookup_total_insert_eq. rewrite H1. unfold PAGE_WORDS in *. zlia.
Qed.

Lemma get_set_reg_ne reg reg' val l : 0 <= reg / 4 -> 0 <= reg' / 4 -> reg / 4 <> reg' / 4 -> vlapic_get_reg (vlapic_set_reg reg val l) reg' = vlapic_get_reg l reg'.
Proof. intros H1 H2 Hne. unfold vlapic_get_reg, vlapic_set_reg. cbn [regs with_regs]. apply list_lookup_total_insert_ne. lia. Qed.

(** ** Vectors *)

Definition bitmap (b : Z) : Prop := b = APIC_ISR \/ b = APIC_TMR \/ b = APIC_IRR.
Definition is_vector (v : Z) : Prop := 0 <= v < 256.

Lemma vector_reg b v : bitmap b -> is_vector v -> 0 <= b + REG_POS v < 4 * Z.of_nat PAGE_WORDS.
Proof. unfold bitmap, is_vector, REG_POS, APIC_ISR, APIC_TMR, APIC_IRR, PAGE_WORDS. intros [-> |[-> | ->]]; zlia. Qed.

Lemma vector_same_reg b b' v v' : bitmap b -> bitmap b' -> is_vector v -> is_vector v' ->
  (b + REG_POS v) / 4 = (b' + REG_POS v') / 4 -> b = b' /\ v / 32 = v' / 32.
Proof. unfold bitmap, is_vector, REG_POS, APIC_ISR, APIC_TMR, APIC_IRR. intros [-> |[-> | ->]] [-> |[-> | ->]] Hv Hv'; zlia. Qed.

Lemma test_update b b' v v' (f : Z -> Z) (g : bool -> bool) l : wf l -> bitmap b -> bitmap b' -> is_vector v -> is_vector v' ->
  (forall w i, 0 <= w < 2 ^ 32 -> 0 <= i < 32 -> Z.testbit (f w) i = if i =? VEC_POS v' then g (Z.testbit w i) else Z.testbit w i) ->
  let r := b' + REG_POS v' in
  vlapic_test_vector v b (vlapic_set_reg r (f (vlapic_get_reg l r)) l) =
    if decide (b = b' /\ v = v') then g (vlapic_test_vector v b l) else vlapic_test_vector v b l.
Proof.
  intros Hl Hb Hb' Hv Hv' Hf r. pose proof (vector_reg b' v' Hb' Hv') as Hr'. pose proof (vector_reg b v Hb Hv) as Hr. unfold vlapic_test_vector.
  assert (0 <= VEC_POS v < 32) as Hp by (unfold VEC_POS; apply Z.mod_pos_bound; lia).
  destruct (decide ((b + REG_POS v) / 4 = (b' + REG_POS v') / 4)) as [E|Hne].
  - destruct (vector_same_reg b b' v v' Hb Hb' Hv Hv' E) as [-> Ed]. assert (b' + REG_POS v = r) as -> by (unfold r, REG_POS; by rewrite Ed).
    rewrite get_set_reg_eq by done. unfold u32. rewrite Z.mod_pow2_bits_low by lia. rewrite Hf by (done || by apply get_reg_range).
    destruct (Z.eqb_spec (VEC_POS v) (VEC_POS v')) as [Ev|Ev].
    + rewrite decide_True; [done|]. split; [done|]. unfold VEC_POS in Ev. zlia.
    + rewrite decide_False; [done|]. by intros [_ ->].
  - rewrite get_set_reg_ne by (unfold r; zlia). rewrite decide_False; [done|]. by intros [-> ->].
Qed.

Lemma test_set_vector b b' v v' l : wf l -> bitmap b -> bitmap b' -> is_vector v -> is_vector v' ->
  vlapic_test_vector v b (vlapic_set_vector v' b' l) = if decide (b = b' /\ v = v') then true else vlapic_test_vector v b l.
Proof.
  intros Hl Hb Hb' Hv Hv'. apply (test_update b b' v v' (fun w => w .| (1 .<< VEC_POS v')) (fun _ => true)); try done.
  intros w i Hw Hi. rewrite Z.lor_spec, testbit_pow2 by (unfold VEC_POS; zlia). destruct (i =? VEC_POS v'); [apply orb_true_r|apply orb_false_r].
Qed.

Lemma test_clear_vector b b' v v' l : wf l -> bitmap b -> bitmap b' -> is_vector v -> is_vector v' ->
  vlapic_test_vector v b (vlapic_clear_vector v' b' l) = if decide (b = b' /\ v = v') then false else vlapic_test_vector v b l.
Proof.
  intros Hl Hb Hb' Hv Hv'. apply (test_update b b' v v' (fun w => Z.ldiff w (1 .<< VEC_POS v')) (fun _ => false)); try done.
  intros w i Hw Hi. rewrite Z.ldiff_spec, testbit_pow2 by (unfold VEC_POS; zlia). destruct (i =? VEC_POS v'); [apply andb_false_r|apply andb_true_r].
Qed.

Lemma set_vector_wf v b l : wf l -> wf (vlapic_set_vector v b l).
Proof. apply set_reg_wf. Qed.
Lemma clear_vector_wf v b l : wf l -> wf (vlapic_clear_vector v b l).
Proof. apply set_reg_wf. Qed.

(** ** The highest vector *)

Lemma highest_word_spec word n : let h := highest_word word n in
  ((0 < n)%nat -> (h < n)%nat) /\ (forall j, (h < j < n)%nat -> word j = 0) /\ ((0 < h)%nat -> word h <> 0).
Proof.
  induction n as [|n (IH1 & IH2 & IH3)]; cbn [highest_word]; [split_and!; intros; lia|]. destruct (Z.eqb_spec (word n) 0) as [E|E].
  - split_and!; [intros _; destruct n; [cbn; lia|specialize (IH1 ltac:(lia)); lia]| |done].
    intros j Hj. destruct (decide (j = n)) as [->|]; [done|]. apply IH2. lia.
  - split_and!; [lia|intros; lia|done].
Qed.

(** A vector that is set while no higher one is. *)
Definition is_highest (P : Z -> bool) (v : Z) : Prop :=
  (v = -1 /\ forall u, is_vector u -> P u = false) \/ (is_vector v /\ P v = true /\ forall u, is_vector u -> v < u -> P u = false).

Lemma is_highest_unique P v v' : is_highest P v -> is_highest P v' -> v = v'.
Proof.
  intros [[-> H]|(Hv & H1 & H2)] [[-> H']|(Hv' & H1' & H2')]; [done|rewrite H in H1' by done; done|rewrite H' in H1 by done; done|].
  destruct (Z.lt_trichotomy v v') as [?|[?|?]]; [rewrite H2 in H1' by done; done|done|rewrite H2' in H1 by done; done].
Qed.

Lemma is_highest_ext P Q v : (forall u, is_vector u -> P u = Q u) -> is_highest P v -> is_highest Q v.
Proof.
  intros E [[-> H]|(Hv & H1 & H2)]; [left|right]; split_and!; try done; intros; rewrite <- E; auto.
Qed.

Lemma find_highest_spec b l : wf l -> bitmap b -> is_highest (fun v => vlapic_test_vector v b l) (vlapic_find_highest_vector b l).
Proof.
  intros Hl Hb. unfold vlapic_find_highest_vector. set (word := fun n => vlapic_get_reg l (b + 16 * Z.of_nat n)).
  destruct (highest_word_spec word 8) as (H1 & H2 & H3). set (n := highest_word word 8) in *. clearbody n. specialize (H1 ltac:(lia)).
  assert (forall u, is_vector u -> vlapic_test_vector u b l = Z.testbit (word (Z.to_nat (u / 32))) (u mod 32)) as Ht.
  { intros u Hu. unfold vlapic_test_vector, word, REG_POS, VEC_POS, is_vector in *. do 2 f_equal. rewrite Z2Nat.id by zlia. lia. }
  assert (0 <= word n < 2 ^ 32) as Hw.
  { apply get_reg_range; [done|]. unfold bitmap, APIC_ISR, APIC_TMR, APIC_IRR, PAGE_WORDS in *. lia. }
  assert (forall u, is_vector u -> (n < Z.to_nat (u / 32))%nat -> vlapic_test_vector u b l = false) as Hhi.
  { intros u Hu Hn. rewrite Ht, H2 by (done || unfold is_vector in *; zlia). apply Z.testbit_0_l. }
  change (vlapic_get_reg l (b + 16 * Z.of_nat n)) with (word n). unfold fls. destruct (Z.eqb_spec (word n) 0) as [E|E].
  - assert (n = 0)%nat as -> by (destruct n; [done|]; exact (False_ind _ (H3 ltac:(lia) E))). left.
    split; [lia|]. intros u Hu.
    destruct (decide (Z.to_nat (u / 32) = 0%nat)) as [E0|]; [rewrite Ht, E0, E by done; apply Z.testbit_0_l|apply Hhi; [done|lia]].
  - right. pose proof (Z.log2_spec (word n) ltac:(lia)) as [L1 L2]. pose proof (Z.log2_nonneg (word n)) as L0.
    assert (Z.log2 (word n) < 32) as L3 by (apply Z.log2_lt_pow2; lia). set (k := Z.log2 (word n)) in *.
    assert (Z.to_nat ((k + 1 - 1 + Z.of_nat n * 32) / 32) = n) as En by zlia. assert ((k + 1 - 1 + Z.of_nat n * 32) mod 32 = k) as Ek by zlia.
    assert (is_vector (k + 1 - 1 + Z.of_nat n * 32)) as Hv by (unfold is_vector; lia).
    split_and!; [done|rewrite Ht, En, Ek by done; apply Z.bit_log2; lia|].
    intros u Hu Hlt. destruct (decide (Z.to_nat (u / 32) = n)) as [E0|]; [|apply Hhi; [done|unfold is_vector in *; zlia]].
    rewrite Ht, E0 by done. apply Z.bits_above_log2; [lia|]. unfold is_vector in *. fold k. zlia.
Qed.

(** ** Nested interrupts *)

(** What the manual promises: vectors are requested, with or without the level
    flag; the interrupts in service form a stack in which each has a higher
    priority class than the one it interrupted. *)
Record nested := Nested { requested : Z -> bool; level : Z -> bool; service : list Z }.
Definition class (v : Z) : Z := v .& 0xf0.
Definition on (P : Z -> bool) (v : Z) (b : bool) : Z -> bool := fun u => if decide (u = v) then b else P u.

(** The highest of the 256 vectors with the property. *)
Definition top_vector (P : Z -> bool) : Z := match list_find (fun v => P v = true) (reverse (seqZ 0 256)) with Some (_, v) => v | None => -1 end.

Inductive lapic_op := Request (v : Z) (trig : bool) | Take | Eoi.
Inductive outcome := Fresh (b : bool) | Taken (v : Z) | Ended (x : option (Z * bool)).

Definition nested_pending (s : nested) : Z :=
  let v := top_vector (requested s) in
  if v =? -1 then -1 else if class (default 0 (head (service s))) >=? class v then -1 else v.

Definition nested_exec (o : lapic_op) (s : nested) : outcome * nested :=
  match o with
  | Request v trig =>
      (Fresh (negb (requested s v)), Nested (on (requested s) v true) (if trig then on (level s) v true else level s) (service s))
  | Take =>
      let v := nested_pending s in
      (Taken v, if v =? -1 then s else Nested (on (requested s) v false) (level s) (v :: service s))
  | Eoi =>
      match service s with
      | [] => (Ended None, s)
      | v :: rest => (Ended (Some (v, level s v)), Nested (requested s) (on (level s) v false) rest)
      end
  end.

(** The CPU takes what is pending. *)
Definition lapic_exec (o : lapic_op) (l : vlapic) : outcome * vlapic :=
  match o with
  | Request v trig => let '(b, l) := vlapic_set_irq v trig l in (Fresh b, l)
  | Take => let v := vlapic_has_pending_irq l in (Taken v, if v =? -1 then l else vlapic_ack_pending_irq v l)
  | Eoi => let '(x, l) := vlapic_EOI_set l in (Ended x, l)
  end.

Fixpoint outcomes {T} (exec : lapic_op -> T -> outcome * T) (ops : list lapic_op) (s : T) : list outcome * T :=
  match ops with
  | [] => ([], s)
  | o :: ops => let '(r, s) := exec o s in let '(rs, s) := outcomes exec ops s in (r :: rs, s)
  end.

Definition valid_lapic_op (o : lapic_op) : Prop := match o with Request v _ => is_vector v | _ => True end.

Record sim (l : vlapic) (s : nested) : Prop := {
  sm_wf : wf l;
  sm_on : vlapic_enabled l = true;
  sm_irr v : is_vector v -> vlapic_test_vector v APIC_IRR l = requested s v;
  sm_tmr v : is_vector v -> vlapic_test_vector v APIC_TMR l = level s v;
  sm_isr v : is_vector v -> vlapic_test_vector v APIC_ISR l = bool_decide (v ∈ service s);
  sm_vec : Forall (fun v => is_vector v /\ 0 < class v) (service s);
  sm_nest : StronglySorted (fun a b => class b < class a) (service s)
}.

Lemma top_vector_spec P : is_highest P (top_vector P).
Proof.
  unfold top_vector. destruct (list_find _ _) as [[i v]|] eqn:E.
  - apply list_find_Some in E as (Hi & Hp & Hlt). right.
    assert (v ∈ seqZ 0 256) as Hv by (apply elem_of_reverse; by eapply list_elem_of_lookup_2). apply elem_of_seqZ in Hv. unfold is_vector. split_and!; [lia|lia|done|].
    intros u Hu Hlt'. assert (Z.of_nat i = 255 - v) as Ei.
    { assert (i < 256)%nat by (apply lookup_lt_Some in Hi; rewrite length_reverse, length_seqZ in Hi; lia).
      rewrite reverse_lookup in Hi by (rewrite length_seqZ; lia). rewrite length_seqZ in Hi. apply lookup_seqZ in Hi as [-> _]. lia. }
    destruct (P u) eqn:Eu; [|done]. exfalso. apply (Hlt (Z.to_nat (255 - u)) u); [|lia|done].
    rewrite reverse_lookup by (rewrite length_seqZ; lia). rewrite length_seqZ. apply lookup_seqZ. lia.
  - apply list_find_None in E. left. split; [done|]. intros u Hu. rewrite Forall_forall in E. specialize (E u).
    destruct (P u); [|done]. exfalso. apply E; [|done]. apply elem_of_reverse, elem_of_seqZ. unfold is_vector in Hu. lia.
Qed.

Lemma class_div v : is_vector v -> class v = 16 * (v / 16).
Proof.
  intros Hv. apply Z.eqb_eq. apply (forallb_seqZ (fun v => class v =? 16 * (v / 16)) 256); [vm_compute; reflexivity|exact Hv].
Qed.

Lemma class_mono u v : is_vector u -> is_vector v -> u <= v -> class u <= class v.
Proof. intros Hu Hv Hle. rewrite !class_div by done. zlia. Qed.

Lemma bitmap_isr : bitmap APIC_ISR. Proof. by left. Qed.
Lemma bitmap_tmr : bitmap APIC_TMR. Proof. by right; left. Qed.
Lemma bitmap_irr : bitmap APIC_IRR. Proof. by right; right. Qed.
#[local] Hint Resolve bitmap_isr bitmap_tmr bitmap_irr set_vector_wf clear_vector_wf : core.

Lemma isr_top l s : sim l s -> vlapic_find_highest_isr l = default (-1) (head (service s)).
Proof.
  intros Hs. apply (is_highest_unique (fun v => bool_decide (v ∈ service s))).
  - eapply is_highest_ext; [|apply find_highest_spec; [apply Hs|auto]]. intros u Hu. by apply (sm_isr _ _ Hs).
  - pose proof (sm_vec _ _ Hs) as Hv. pose proof (sm_nest _ _ Hs) as Hn. destruct (service s) as [|v rest]; cbn [head default from_option id].
    + left. split; [done|]. intros u _. by apply bool_decide_eq_false_2, not_elem_of_nil.
    + right. inversion_clear Hv as [|? ? [Hv1 _] Hr]. inversion_clear Hn as [|? ? _ Hc]. split_and!; [done|apply bool_decide_eq_true_2; by left|].
      intros u Hu Hlt. apply bool_decide_eq_false_2. intros [->|Hin]%elem_of_cons; [cbn in Hlt; lia|]. rewrite Forall_forall in Hc. specialize (Hc u Hin).
      cbn in Hlt. pose proof (class_mono v u Hv1 Hu). lia.
Qed.

Lemma irr_top l s : sim l s -> vlapic_find_highest_irr l = top_vector (requested s).
Proof.
  intros Hs. apply (is_highest_unique (requested s)); [|apply top_vector_spec]. eapply is_highest_ext; [|apply find_highest_spec; [apply Hs|auto]].
  intros u Hu. by apply (sm_irr _ _ Hs).
Qed.

Lemma pending_top l s : sim l s -> vlapic_has_pending_irq l = nested_pending s.
Proof.
  intros Hs. unfold vlapic_has_pending_irq, nested_pending. rewrite (sm_on _ _ Hs), (isr_top l s Hs), (irr_top l s Hs). cbn [negb]. fold class.
  destruct (_ =? -1); [done|]. pose proof (sm_vec _ _ Hs) as Hv. destruct (service s) as [|v rest]; cbn [head default from_option]; [done|].
  inversion_clear Hv as [|? ? [Hv1 _] _]. unfold is_vector in Hv1. unfold id. destruct (Z.eqb_spec v (-1)); [lia|reflexivity].
Qed.

Lemma pending_range s : nested_pending s = -1 \/ is_vector (nested_pending s) /\ class (default 0 (head (service s))) < class (nested_pending s).
Proof.
  unfold nested_pending. destruct (top_vector_spec (requested s)) as [[-> _]|(Hv & _ & _)]; [by left|].
  destruct (_ =? -1); [by left|]. destruct (Z.geb_spec (class (default 0 (head (service s)))) (class (top_vector (requested s)))); [by left|right; split; [done|lia]].
Qed.

Lemma request_sim v trig l s : is_vector v -> sim l s ->
  (lapic_exec (Request v trig) l).1 = (nested_exec (Request v trig) s).1 /\ sim (lapic_exec (Request v trig) l).2 (nested_exec (Request v trig) s).2.
Proof.
  intros Hv Hs. destruct Hs as [Hw Ho Hi Ht Hsv Hvec Hn]. cbn [lapic_exec vlapic_set_irq nested_exec fst snd]. split; [by rewrite Hi|].
  assert (wf (vlapic_set_vector v APIC_IRR l)) as Hw1 by auto.
  split; cbn [requested level service]; [by destruct trig; auto|by destruct trig|intros u Hu|intros u Hu|intros u Hu|done|done].
  - destruct trig; rewrite ?(test_set_vector APIC_IRR APIC_TMR) by auto; rewrite ?(decide_False (P := APIC_IRR = APIC_TMR /\ _)) by (by intros [? _]);
      rewrite test_set_vector by auto; unfold on; rewrite <- Hi by done; repeat case_decide; (done || tauto).
  - destruct trig; [rewrite (test_set_vector APIC_TMR APIC_TMR) by auto; unfold on|]; rewrite (test_set_vector APIC_TMR APIC_IRR) by auto;
      rewrite (decide_False (P := APIC_TMR = APIC_IRR /\ _)) by (by intros [? _]); rewrite <- Ht by done; repeat case_decide; (done || tauto).
  - destruct trig; rewrite ?(test_set_vector APIC_ISR APIC_TMR) by auto; rewrite ?(decide_False (P := APIC_ISR = APIC_TMR /\ _)) by (by intros [? _]);
      rewrite test_set_vector by auto; rewrite decide_False by (by intros [? _]); by apply Hsv.
Qed.

Lemma take_sim l s : sim l s -> (lapic_exec Take l).1 = (nested_exec Take s).1 /\ sim (lapic_exec Take l).2 (nested_exec Take s).2.
Proof.
  intros Hs. cbn [lapic_exec nested_exec fst snd]. rewrite (pending_top l s Hs). split; [done|]. destruct (pending_range s) as [->|[Hv Hc]]; [done|].
  set (v := nested_pending s) in *. clearbody v. destruct (Z.eqb_spec v (-1)) as [->|_]; [done|]. destruct Hs as [Hw Ho Hi Ht Hsv Hvec Hn]. unfold vlapic_ack_pending_irq.
  assert (wf (vlapic_set_vector v APIC_ISR l)) as Hw1 by auto.
  assert (0 <= class (default 0 (head (service s)))) as H0.
  { inversion Hvec as [|x ? [? ?] ?]; cbn; [done|lia]. }
  split; cbn [requested level service]; [auto|done|intros u Hu|intros u Hu|intros u Hu| |].
  - rewrite test_clear_vector, test_set_vector by auto. rewrite (decide_False (P := APIC_IRR = APIC_ISR /\ _)) by (by intros [? _]).
    unfold on. rewrite <- Hi by done. repeat case_decide; (done || tauto).
  - rewrite test_clear_vector, test_set_vector by auto. rewrite !decide_False by (by intros [? _]). by apply Ht.
  - rewrite test_clear_vector, test_set_vector by auto. rewrite decide_False by (by intros [? _]). destruct (decide (APIC_ISR = APIC_ISR /\ u = v)) as [[_ ->]|Hne].
    + symmetry. apply bool_decide_eq_true_2. by left.
    + rewrite Hsv by done. apply bool_decide_ext. rewrite elem_of_cons. tauto.
  - constructor; [split; [done|lia]|done].
  - constructor; [done|]. destruct (service s) as [|x rest]; [done|]. cbn in Hc. inversion_clear Hn as [|? ? _ Hr]. constructor; [done|].
    eapply Forall_impl; [exact Hr|]. intros y Hy. cbn in Hy. lia.
Qed.

Lemma eoi_sim l s : sim l s -> (lapic_exec Eoi l).1 = (nested_exec Eoi s).1 /\ sim (lapic_exec Eoi l).2 (nested_exec Eoi s).2.
Proof.
  intros Hs. cbn [lapic_exec nested_exec]. unfold vlapic_EOI_set. rewrite (isr_top l s Hs). pose proof Hs as [Hw Ho Hi Ht Hsv Hvec Hn].
  destruct (service s) as [|v rest] eqn:E; cbn [head default from_option]; [done|]. unfold id.
  inversion_clear Hvec as [|? ? [Hv Hc] Hvr]. inversion_clear Hn as [|? ? Hnr Hlt]. destruct (Z.eqb_spec v (-1)) as [->|_]; [by destruct Hv|].
  assert (wf (vlapic_clear_vector v APIC_ISR l)) as Hw1 by auto. cbn [fst snd]. split.
  - do 3 f_equal. rewrite test_clear_vector by auto. rewrite decide_False by (by intros [? _]). by apply Ht.
  - split; cbn [requested level service]; [auto|done|intros u Hu|intros u Hu|intros u Hu|done|done].
    + rewrite !test_clear_vector by auto. rewrite !decide_False by (by intros [? _]). by apply Hi.
    + rewrite !test_clear_vector by auto. rewrite (decide_False (P := APIC_TMR = APIC_ISR /\ _)) by (by intros [? _]). unfold on. rewrite <- Ht by done.
      repeat case_decide; (done || tauto).
    + rewrite !test_clear_vector by auto. rewrite (decide_False (P := APIC_ISR = APIC_TMR /\ _)) by (by intros [? _]). rewrite Hsv by done.
      destruct (decide (APIC_ISR = APIC_ISR /\ u = v)) as [[_ ->]|Hne].
      * symmetry. apply bool_decide_eq_false_2. intros Hin. rewrite Forall_forall in Hlt. specialize (Hlt v Hin). lia.
      * apply bool_decide_ext. rewrite elem_of_cons. tauto.
Qed.

(** C17. A local APIC behaves as a stack of nested interrupts.  Whatever vectors
    devices request and however the guest takes interrupts and signals their
    end, the bitmaps of the register page implement the specification: the CPU
    takes the highest requested vector, and only when its priority class is
    above that of the interrupt in service; the end of an interrupt ends the
    innermost one, and reports it to the I/O APIC exactly when it was requested
    as a level interrupt. *)
Theorem lapic_refines_nested ops l s : Forall valid_lapic_op ops -> sim l s ->
  (outcomes lapic_exec ops l).1 = (outcomes nested_exec ops s).1 /\ sim (outcomes lapic_exec ops l).2 (outcomes nested_exec ops s).2.
Proof.
  revert l s. induction ops as [|o ops IH]; intros l s Hv Hs; [done|]. inversion_clear Hv as [|? ? Ho Hv']. cbn [outcomes].
  assert ((lapic_exec o l).1 = (nested_exec o s).1 /\ sim (lapic_exec o l).2 (nested_exec o s).2) as [E Hs'].
  { destruct o; [by apply request_sim|by apply take_sim|by apply eoi_sim]. }
  destruct (lapic_exec o l) as [r l'], (nested_exec o s) as [r' s']. cbn [fst snd] in *. subst r'. specialize (IH l' s' Hv' Hs').
  destruct (outcomes lapic_exec ops l') as [rs l''], (outcomes nested_exec ops s') as [rs' s'']. cbn [fst snd] in *. destruct IH as [-> ?]. done.
Qed.

(** ** Reading registers *)

Lemma tdcr_divisor val l : exists k, 0 <= k <= 7 /\ timer_divisor (hw (vlapic_set_tdcr val l)) = 2 ^ k.
Proof.
  cbn [vlapic_set_tdcr set_divisor with_hw hw timer_divisor]. set (v := _ .& 7). exists v.
  assert (0 <= v < 2 ^ 3) by (apply land_range; lia). split; [lia|]. apply Z.shiftl_1_l.
Qed.

(** The current count is between zero and the initial count, and the division
    that computes it is safe, for every divisor that a guest can select. *)
Lemma tmcct_bounds gtime l k : wf l -> 0 <= k <= 7 -> timer_divisor (hw l) = 2 ^ k ->
  exists n, vlapic_get_tmcct gtime l = Ret n /\ 0 <= n <= vlapic_get_reg l APIC_TMICT.
Proof.
  intros Hl Hk Hd. pose proof (get_reg_range APIC_TMICT l Hl ltac:(unfold APIC_TMICT, PAGE_WORDS; lia)) as Hr. unfold vlapic_get_tmcct. rewrite Hd.
  assert (1 <= 2 ^ k <= 2 ^ 7) as Hp by (split; [apply Z.pow_le_mono_r with (b := 0); lia|apply Z.pow_le_mono_r; lia]).
  rewrite u32_small by (unfold APIC_BUS_CYCLE_NS; lia). unfold APIC_BUS_CYCLE_NS. destruct (Z.eqb_spec (10 * 2 ^ k) 0); [lia|]. set (t := vlapic_get_reg l APIC_TMICT) in *.
  destruct (Z.eqb_spec t 0) as [->|]; [by exists 0|]. eexists. split; [reflexivity|].
  pose proof (u64_range (gtime - timer_last_update l)) as Hu. pose proof (Z.div_pos (u64 (gtime - timer_last_update l)) (10 * 2 ^ k)).
  destruct (vlapic_lvtt_period l).
  - pose proof (Z.mod_pos_bound (u64 (gtime - timer_last_update l) / (10 * 2 ^ k)) t). destruct (Z.ltb_spec (u64 (gtime - timer_last_update l) / (10 * 2 ^ k) mod t) t); lia.
  - destruct (Z.ltb_spec (u64 (gtime - timer_last_update l) / (10 * 2 ^ k)) t); lia.
Qed.

(** A divisor of zero, which only a loaded record can bring, is a fault. *)
Lemma zero_divisor_faults gtime l : timer_divisor (hw l) = 0 -> vlapic_get_tmcct gtime l = Bug.
Proof. intros Hd. unfold vlapic_get_tmcct. by rewrite Hd. Qed.

(** Loads from the page do not fault while the divisor is not zero. *)
Lemma read_returns gtime off l k : wf l -> 0 <= k <= 7 -> timer_divisor (hw l) = 2 ^ k -> off < 4096 ->
  exists x, vlapic_read_aligned gtime off l = Ret x.
Proof.
  intros Hwf Hk Hd Ho. unfold vlapic_read_aligned, word_at, PAGE_WORDS. destruct (_ =? _); [by eexists|]. destruct (_ =? _).
  - destruct (_ && _); [by eexists|]. destruct (tmcct_bounds gtime l k Hwf Hk Hd) as (x & Hx & _). by exists x.
  - destruct (_ && _); [by eexists|]. destruct (Z.ltb_spec off (4 * Z.of_nat 1024)); [by eexists|lia].
Qed.

Lemma x2apic_offset msr : 0x800 <= msr < 0xc00 -> u32 ((msr - MSR_IA32_APICBASE_MSR) .<< 4) = 16 * (msr - 0x800).
Proof. intros Hm. rewrite Z.shiftl_mul_pow2 by lia. unfold MSR_IA32_APICBASE_MSR. rewrite u32_small by lia. lia. Qed.

(** In x2APIC mode a guest can read memory of the hypervisor.  The MSRs from
    0x900 to 0xbff are passed on as register offsets behind the page of
    registers, which is not checked. *)
Theorem x2apic_reads_beyond gtime msr l : vlapic_x2apic_mode l = true -> 0x900 <= msr < 0xc00 -> hvm_x2apic_msr_read gtime msr l = Bug.
Proof.
  intros Hx Hm. unfold hvm_x2apic_msr_read. rewrite Hx, x2apic_offset by lia. cbn [negb]. set (o := 16 * (msr - 2048)). assert (4096 <= o < 16384) as Ho by (unfold o; lia). clearbody o.
  unfold vlapic_read_aligned, APIC_PROCPRI, APIC_TMCCT, APIC_TMICT. destruct (Z.eqb_spec o 160); [lia|]. destruct (Z.eqb_spec o 912); [lia|]. destruct (Z.eqb_spec o 896); [lia|].
  cbn [andb]. unfold word_at, PAGE_WORDS. destruct (Z.ltb_spec o (4 * Z.of_nat 1024)); [lia|]. reflexivity.
Qed.

(** ** A new APIC *)

Definition blank : vlapic := VL (HwLapic 0 0 0 0) (replicate PAGE_WORDS 0) 0 None.
Definition enabled_lapic : vlapic := set_disabled (reset_regs 0 blank) 0.
Definition idle : nested := Nested (fun _ => false) (fun _ => false) [].

Lemma enabled_lapic_sim : sim enabled_lapic idle.
Proof.
  assert (forall b, bitmap b -> forall v, is_vector v -> vlapic_test_vector v b enabled_lapic = false) as H.
  { assert (forallb (fun b => forallb (fun v => negb (vlapic_test_vector v b enabled_lapic)) (seqZ 0 256)) [APIC_ISR; APIC_TMR; APIC_IRR] = true) as Hc by (vm_compute; reflexivity).
    cbn [forallb] in Hc. rewrite !andb_true_iff in Hc. destruct Hc as (H1 & H2 & H3 & _).
    intros b [-> |[-> | ->]] v Hv; apply negb_true_iff; [apply (forallb_seqZ _ 256 v H1 Hv)|apply (forallb_seqZ _ 256 v H2 Hv)|apply (forallb_seqZ _ 256 v H3 Hv)]. }
  split; cbn [requested level service idle]; [split; [vm_compute; reflexivity|]|reflexivity|intros v; apply H; auto|intros v; apply H; auto| |constructor|constructor].
  - apply (bool_decide_unpack _). vm_compute. exact I.
  - intros v Hv. rewrite H by auto. symmetry. apply bool_decide_eq_false_2, not_elem_of_nil.
Qed.

Lemma lapic_refines_nested_witness :
  (outcomes lapic_exec [Request 0x31 true; Take; Request 0x41 false; Take; Request 0x45 false; Take; Eoi; Take; Eoi; Eoi] enabled_lapic).1 =
    [Fresh true; Taken 0x31; Fresh true; Taken 0x41; Fresh true; Taken (-1); Ended (Some (0x41, false)); Taken 0x45; Ended (Some (0x45, false)); Ended (Some (0x31, true))].
Proof.
  destruct (lapic_refines_nested [Request 0x31 true; Take; Request 0x41 false; Take; Request 0x45 false; Take; Eoi; Take; Eoi; Eoi] enabled_lapic idle) as [-> _].
  - repeat constructor; cbn; unfold is_vector; lia.
  - exact enabled_lapic_sim.
  - vm_compute. reflexivity.
Defined.

Lemma x2apic_reads_beyond_witness :
  hvm_x2apic_msr_read 0 0xa00 (set_base enabled_lapic (MSR_IA32_APICBASE_ENABLE .| MSR_IA32_APICBASE_EXTD)) = Bug.
Proof.
  apply x2apic_reads_beyond; [reflexivity|lia].
Defined.

End Vlapic.
