(* ===== verification/Lapics.v ===== *)
(** The local APICs of a domain.

    Models the rest of xen/arch/x86/hvm/vlapic.c: delivery of interrupts and of
    messages between CPUs, what the guest writes to the registers and MSRs, the
    timer of an APIC on the virtual platform timers of [Vpt], the CPU that takes
    the interrupts of the 8259A, and the handlers of types LAPIC and LAPIC_REGS.
    What goes to the rest of the hypervisor (kicks of CPUs, the I/O APIC, resets
    of CPUs) is listed in [out]. *)

From S2P Require Import Prelude HvmContext HvmHandler HvmIrq Vpic Vioapic Vpt Vlapic.

Module Lapics.
Import HvmContext HvmHandler Vlapic.

(** ** State *)

Inductive lapic_cb := PtCb (i : nat) | TdtCb (i : nat).
Inductive event :=
| Kick (i : nat) | UpdateEoi (vec : Z) | MsiEoi (vec : Z) | Crash | Down (i : nat) | Pause (i : nat) | Unpause (i : nat) | MsrChanged (i : nat)
| IsaPulse (irq : Z) | VcpuReset (i : nat) | ResetState (i : nat) (cs : Z).

(** [redir0] is the first entry of the I/O APIC; [vinit] and [nmi] are
    [is_initialised] and [nmi_pending] of the CPUs. *)
Record lapics := LS {
  vl : list vlapic; plt : Vpt.pl_time lapic_cb; i8259_target : option nat; round_robin_prev_vcpu : nat; redir0 : Z;
  vinit : list bool; nmi : list bool; out : list event
}.
Implicit Types w : lapics.

Definition X86EMUL_OKAY : Z := 0.
Definition X86EMUL_UNHANDLEABLE : Z := 1.
Definition X86EMUL_RETRY : Z := 3.
Definition APIC_INT_LEVELTRIG : Z := 0x8000.
Definition APIC_INT_ASSERT : Z := 0x4000.
Definition APIC_DM_FIXED : Z := 0.
Definition APIC_DM_LOWEST : Z := 0x100.
Definition APIC_DM_SMI : Z := 0x200.
Definition APIC_DM_REMRD : Z := 0x300.
Definition APIC_DM_NMI : Z := 0x400.
Definition APIC_DM_INIT : Z := 0x500.
Definition APIC_DM_STARTUP : Z := 0x600.
Definition APIC_DM_EXTINT : Z := 0x700.
Definition APIC_SHORT_MASK : Z := 0xc0000.
Definition APIC_DEST_MASK : Z := 0x800.
Definition APIC_LDR_MASK : Z := 0xff .<< 24.
Definition APIC_SPIV_APIC_ENABLED : Z := 1 .<< 8.
Definition dest_ExtINT : Z := 7.

Definition LVT_MASK : Z := APIC_LVT_MASKED .| APIC_SEND_PENDING .| APIC_VECTOR_MASK.
Definition LINT_MASK : Z := LVT_MASK .| APIC_MODE_MASK .| APIC_INPUT_POLARITY .| APIC_LVT_REMOTE_IRR .| APIC_LVT_LEVEL_TRIGGER.
Definition vlapic_lvt_mask (i : Z) : Z :=
  if i =? 0 then LVT_MASK .| APIC_TIMER_MODE_MASK
  else if (i =? 1) || (i =? 2) then LVT_MASK .| APIC_MODE_MASK
  else if (i =? 3) || (i =? 4) then LINT_MASK else LVT_MASK.

Definition lget w (i : nat) : vlapic := vl w !!! i.
Definition upd_l (i : nat) (f : vlapic -> vlapic) w : lapics :=
  LS (alter f i (vl w)) (plt w) (i8259_target w) (round_robin_prev_vcpu w) (redir0 w) (vinit w) (nmi w) (out w).
Definition with_plt w (p : Vpt.pl_time lapic_cb) : lapics :=
  LS (vl w) p (i8259_target w) (round_robin_prev_vcpu w) (redir0 w) (vinit w) (nmi w) (out w).
Definition with_target w (t : option nat) : lapics :=
  LS (vl w) (plt w) t (round_robin_prev_vcpu w) (redir0 w) (vinit w) (nmi w) (out w).
Definition with_prev w (n : nat) : lapics := LS (vl w) (plt w) (i8259_target w) n (redir0 w) (vinit w) (nmi w) (out w).
Definition with_init w (l : list bool) : lapics := LS (vl w) (plt w) (i8259_target w) (round_robin_prev_vcpu w) (redir0 w) l (nmi w) (out w).
Definition with_nmi w (l : list bool) : lapics := LS (vl w) (plt w) (i8259_target w) (round_robin_prev_vcpu w) (redir0 w) (vinit w) l (out w).
Definition emit (e : event) w : lapics := LS (vl w) (plt w) (i8259_target w) (round_robin_prev_vcpu w) (redir0 w) (vinit w) (nmi w) (out w ++ [e]).
Definition pt_id (i : nat) : nat := Vpt.lapic_timer i.
Definition set_pt_irq (i : nat) (irq : Z) w : lapics :=
  with_plt w (Vpt.upd_pt (pt_id i) (fun p => Vpt.PT (Vpt.on_list p) (Vpt.one_shot p) (Vpt.do_not_freeze p) (Vpt.irq_issued p) (Vpt.source p) irq (Vpt.pt_vcpu p)
    (Vpt.pending_intr_nr p) (Vpt.period p) (Vpt.scheduled p) (Vpt.last_plt_gtime p) (Vpt.timer p) (Vpt.cb p)) (plt w)).

Definition set_pt_source (i : nat) w : lapics :=
  with_plt w (Vpt.upd_pt (pt_id i) (fun p => Vpt.PT (Vpt.on_list p) (Vpt.one_shot p) (Vpt.do_not_freeze p) (Vpt.irq_issued p) Vpt.PTSRC_lapic (Vpt.pt_irq p) (Vpt.pt_vcpu p)
    (Vpt.pending_intr_nr p) (Vpt.period p) (Vpt.scheduled p) (Vpt.last_plt_gtime p) (Vpt.timer p) (Vpt.cb p)) (plt w)).

Section Domain.
(** The CPUs in the order of their numbers; the guest's time stamp counter,
    its offset and its conversion to guest time; the host's time; and the CPU
    that runs. *)
Context (ids : list nat) (guest_tsc tsc_offset : nat -> Z) (gtsc_to_gtime : Z -> Z) (now : Z) (current : nat).

(** ** Delivery *)

Definition vlapic_schedule_init_sipi_tasklet (target : nat) (icr : Z) w : Z * lapics :=
  match init_sipi (lget w current) with
  | Some _ => (X86EMUL_UNHANDLEABLE, w)
  | None => (X86EMUL_RETRY, upd_l current (fun l => with_sipi l (Some (target, icr))) (emit (Pause current) w))
  end.

Definition vlapic_accept_irq (v : nat) (icr_low : Z) w : Z * lapics :=
  let vector := icr_low mod 2 ^ 8 in
  let mode := icr_low .& APIC_MODE_MASK in
  if (mode =? APIC_DM_FIXED) || (mode =? APIC_DM_LOWEST) then
    (X86EMUL_OKAY,
     if vlapic_enabled (lget w v) then
       let fresh := negb (vlapic_test_vector vector APIC_IRR (lget w v)) in
       let w := upd_l v (vlapic_set_vector vector APIC_IRR) w in
       if fresh then emit (Kick v) w else w
     else w)
  else if (mode =? APIC_DM_REMRD) || (mode =? APIC_DM_SMI) then (X86EMUL_OKAY, w)
  else if mode =? APIC_DM_NMI then
    (X86EMUL_OKAY, if (nmi w !!! v : bool) then w else emit (Kick v) (with_nmi w (<[v := true]> (nmi w))))
  else if mode =? APIC_DM_INIT then
    if (icr_low .& (APIC_INT_LEVELTRIG .| APIC_INT_ASSERT)) =? APIC_INT_LEVELTRIG then (X86EMUL_OKAY, w)
    else if negb (vinit w !!! v) then (X86EMUL_OKAY, w)
    else vlapic_schedule_init_sipi_tasklet v icr_low (emit (Down v) w)
  else if mode =? APIC_DM_STARTUP then
    if (vinit w !!! v : bool) then (X86EMUL_OKAY, w) else vlapic_schedule_init_sipi_tasklet v icr_low w
  else (X86EMUL_OKAY, emit Crash w).

(** [next_in_list], and from the last CPU back to the first, up to [old]. *)
Definition cycle (old : nat) : list nat := filter (fun i => (old < i)%nat) ids ++ filter (fun i => (i <= old)%nat) ids.

Definition prio_step (source : option nat) (short_hand dest : Z) (dest_mode : bool) w (a : option nat * Z) (v : nat) : option nat * Z :=
  let l := lget w v in
  if vlapic_match_dest l (bool_decide (source = Some v)) short_hand dest dest_mode && vlapic_enabled l && (vlapic_get_ppr l <? a.2)
  then (Some v, vlapic_get_ppr l) else a.

Definition vlapic_lowest_prio (source : option nat) (short_hand dest : Z) (dest_mode : bool) w : option nat * lapics :=
  let old := round_robin_prev_vcpu w in
  if decide (old ∈ ids) then
    let target := (foldl (prio_step source short_hand dest dest_mode w) (None, 2 ^ 32 - 1) (cycle old)).1 in
    (target, match target with Some v => with_prev w v | None => w end)
  else (None, w).

Fixpoint ipi_each (source : nat) (short_hand dest : Z) (dest_mode : bool) (icr_low : Z) (vs : list nat) w : Z * lapics :=
  match vs with
  | [] => (X86EMUL_OKAY, w)
  | v :: vs =>
      if vlapic_match_dest (lget w v) (bool_decide (v = source)) short_hand dest dest_mode then
        let '(rc, w) := vlapic_accept_irq v icr_low w in
        if rc =? X86EMUL_OKAY then ipi_each source short_hand dest dest_mode icr_low vs w else (rc, w)
      else ipi_each source short_hand dest dest_mode icr_low vs w
  end.

Definition vlapic_ipi (i : nat) (icr_low icr_high : Z) w : Z * lapics :=
  let short_hand := icr_low .& APIC_SHORT_MASK in
  let dest_mode := truthy (icr_low .& APIC_DEST_MASK) in
  let dest := if vlapic_x2apic_mode (lget w i) then icr_high else (icr_high .>> 24) .& 0xff in
  if (icr_low .& APIC_MODE_MASK) =? APIC_DM_LOWEST then
    let '(target, w) := vlapic_lowest_prio (Some i) short_hand dest dest_mode w in
    match target with Some v => vlapic_accept_irq v icr_low w | None => (X86EMUL_OKAY, w) end
  else ipi_each i short_hand dest dest_mode icr_low ids w.

Definition EOI_write (i : nat) w : lapics :=
  let '(x, l) := vlapic_EOI_set (lget w i) in
  let w := upd_l i (fun _ => l) w in
  match x with
  | None => w
  | Some (vec, level) => emit (MsiEoi vec) (if level then emit (UpdateEoi vec) w else w)
  end.

(** ** The 8259A *)

Definition __vlapic_accept_pic_intr (v : nat) w : bool :=
  let l := lget w v in
  let lvt0 := vlapic_get_reg l APIC_LVT0 in
  ((Vioapic.delivery_mode (redir0 w) =? dest_ExtINT) && negb (Vioapic.masked (redir0 w)) && (Vioapic.dest_id (redir0 w) =? VLAPIC_ID l) && vlapic_enabled l) ||
  ((lvt0 .& (APIC_MODE_MASK .| APIC_LVT_MASKED)) =? APIC_DM_EXTINT) || vlapic_hw_disabled l.

Definition vlapic_accept_pic_intr (v : nat) w : bool := bool_decide (i8259_target w = Some v) && __vlapic_accept_pic_intr v w.

Definition vlapic_adjust_i8259_target w : lapics :=
  let v := match list_find (fun v => __vlapic_accept_pic_intr v w = true) ids with
           | Some (_, v) => Some v
           | None => if decide (0%nat ∈ ids) then Some 0%nat else None
           end in
  if decide (i8259_target w = v) then w
  else let w := with_target w v in with_plt w (Vpt.pt_adjust_global_vcpu_target v (plt w)).

(** ** The timer *)

Definition arm (v i : nat) (delta period : Z) (call : option lapic_cb) w : lapics :=
  let w := with_plt w (Vpt.create_periodic_time now v (pt_id i) delta period (Vpt.pt_irq (Vpt.pt (plt w) (pt_id i))) call (plt w)) in
  upd_l i (fun l => with_update l (Vpt.s64 (Vpt.last_plt_gtime (Vpt.pt (plt w) (pt_id i))))) w.

Definition disarm (i : nat) w : lapics := with_plt w (Vpt.destroy_periodic_time (pt_id i) (plt w)).

Definition timer_period (l : vlapic) (count : Z) : Z := u64 (APIC_BUS_CYCLE_NS * u32 count * timer_divisor (hw l)).

Definition vlapic_tdt_msr_get (i : nat) w : Z := if vlapic_lvtt_tdt (lget w i) then tdt_msr (hw (lget w i)) else 0.

Definition vlapic_tdt_msr_set (i : nat) (value : Z) w : lapics :=
  if negb (vlapic_lvtt_tdt (lget w i)) then w
  else
    let tsc := guest_tsc i in
    let '(gtime, p) := Vpt.hvm_get_guest_time now i (plt w) in
    let w := with_plt w p in
    if value >? tsc then
      let delta := gtsc_to_gtime (u64 (value - tsc_offset i)) in
      let delta := Z.max (Vpt.s64 (delta - gtime)) 0 in
      arm i i delta 0 (Some (TdtCb i)) (upd_l i (fun l => set_tdt l value) w)
    else
      let w := upd_l i (fun l => set_tdt l 0) w in
      if value >? 0 then arm i i 0 0 (Some (TdtCb i)) w else disarm i w.

(** What a timer calls when its interrupt was taken by CPU [v]. *)
Definition run_cb (c : lapic_cb) (v : nat) w : lapics :=
  let '(gtime, p) := Vpt.hvm_get_guest_time now v (plt w) in
  let w := with_plt w p in
  match c with
  | PtCb i => upd_l i (fun l => with_update l (Vpt.s64 gtime)) w
  | TdtCb i => upd_l v (fun l => set_tdt l 0) (upd_l i (fun l => with_update l (Vpt.s64 gtime)) w)
  end.

(** ** Writing *)

Definition icr_write (v : nat) (val : Z) w : Z * lapics :=
  let val := Z.ldiff val (1 .<< 12) in
  let '(rc, w) := vlapic_ipi v (u32 val) (vlapic_get_reg (lget w v) APIC_ICR2) w in
  (rc, if rc =? X86EMUL_OKAY then upd_l v (vlapic_set_reg APIC_ICR val) w else w).

Definition lvt_write (v : nat) (offset val : Z) w : lapics :=
  let val := if vlapic_sw_disabled (lget w v) then val .| APIC_LVT_MASKED else val in
  let val := val .& vlapic_lvt_mask ((offset - APIC_LVTT) .>> 4) in
  let w := upd_l v (vlapic_set_reg offset val) w in
  let w := if offset =? APIC_LVT0 then
             let w := vlapic_adjust_i8259_target w in with_plt w (Vpt.pt_may_unmask_irq true None (plt w))
           else w in
  if (offset =? APIC_LVTT) && negb (truthy (val .& APIC_LVT_MASKED)) then with_plt w (Vpt.pt_may_unmask_irq false (Some (pt_id v)) (plt w)) else w.

Definition lvtt_write (v : nat) (val : Z) w : lapics :=
  let w := if negb ((vlapic_get_reg (lget w v) APIC_LVTT .& APIC_TIMER_MODE_MASK) =? (val .& APIC_TIMER_MODE_MASK)) then
             upd_l v (fun l => set_tdt (vlapic_set_reg APIC_TMCCT 0 (vlapic_set_reg APIC_TMICT 0 l)) 0) (disarm v w)
           else w in
  lvt_write v APIC_LVTT val (set_pt_irq v (val .& APIC_VECTOR_MASK) w).

Definition spiv_write (v : nat) (val : Z) w : lapics :=
  let w := upd_l v (vlapic_set_reg APIC_SPIV (val .& 0x3ff)) w in
  if negb (truthy (val .& APIC_SPIV_APIC_ENABLED)) then
    upd_l v (fun l => mask_lvts (fun x => x .| APIC_LVT_MASKED) (set_disabled l (disabled (hw l) .| VLAPIC_SW_DISABLED))) w
  else
    let w := upd_l v (fun l => set_disabled l (Z.ldiff (disabled (hw l)) VLAPIC_SW_DISABLED)) w in
    with_plt w (Vpt.pt_may_unmask_irq true (Some (pt_id v)) (plt w)).

Definition tmict_write (v : nat) (val : Z) w : lapics :=
  if negb (vlapic_lvtt_oneshot (lget w v)) && negb (vlapic_lvtt_period (lget w v)) then w
  else
    let w := upd_l v (vlapic_set_reg APIC_TMICT val) w in
    if val =? 0 then disarm v w
    else
      let period := timer_period (lget w v) val in
      arm current v period (if vlapic_lvtt_period (lget w v) then period else 0) (if vlapic_lvtt_period (lget w v) then Some (PtCb v) else None) w.

Definition vlapic_reg_write (v : nat) (offset val : Z) w : Z * lapics :=
  let x2 := vlapic_x2apic_mode (lget w v) in
  let set r x := (X86EMUL_OKAY, upd_l v (vlapic_set_reg r x) w) in
  if offset =? APIC_ID then if negb x2 then set APIC_ID val else (X86EMUL_UNHANDLEABLE, w)
  else if offset =? APIC_TASKPRI then set APIC_TASKPRI (val .& 0xff)
  else if offset =? APIC_EOI then (X86EMUL_OKAY, EOI_write v w)
  else if offset =? APIC_LDR then if negb x2 then set APIC_LDR (val .& APIC_LDR_MASK) else (X86EMUL_UNHANDLEABLE, w)
  else if offset =? APIC_DFR then if negb x2 then set APIC_DFR (val .| 0x0fffffff) else (X86EMUL_UNHANDLEABLE, w)
  else if offset =? APIC_SPIV then (X86EMUL_OKAY, spiv_write v val w)
  else if offset =? APIC_ESR then (if x2 && truthy val then X86EMUL_UNHANDLEABLE else X86EMUL_OKAY, w)
  else if offset =? APIC_SELF_IPI then
    if x2 then (X86EMUL_OKAY, (icr_write v (0x40000 .| (val .& 0xff)) w).2) else (X86EMUL_UNHANDLEABLE, w)
  else if offset =? APIC_ICR then icr_write v val w
  else if offset =? APIC_ICR2 then set APIC_ICR2 (if x2 then val else val .& 0xff000000)
  else if offset =? APIC_LVTT then (X86EMUL_OKAY, lvtt_write v val w)
  else if (offset =? APIC_LVTTHMR) || (offset =? APIC_LVTPC) || (offset =? APIC_LVT0) || (offset =? APIC_LVT1) || (offset =? APIC_LVTERR) then
    (X86EMUL_OKAY, lvt_write v offset val w)
  else if offset =? APIC_TMICT then (X86EMUL_OKAY, tmict_write v val w)
  else if offset =? APIC_TDCR then (X86EMUL_OKAY, upd_l v (vlapic_set_tdcr (val .& 0xb)) w)
  else (X86EMUL_OKAY, w).

(** Reading the current count reads the guest's time, after which it is [p]. *)
Definition time_read (v : nat) (offset : Z) (p : Vpt.pl_time lapic_cb) w : lapics :=
  if (offset =? APIC_TMCCT) && (vlapic_lvtt_oneshot (lget w v) || vlapic_lvtt_period (lget w v)) then with_plt w p else w.

Definition vlapic_write (v : nat) (address len val : Z) w : run (Z * lapics) :=
  let offset := u32 (address - vlapic_base_address (lget w v)) in
  let val := u32 val in
  let alignment := offset .& 3 in
  if negb (len =? 4) then
    let '(gtime, p) := Vpt.hvm_get_guest_time now current (plt w) in
    tmp ← vlapic_read_aligned gtime (offset - alignment) (lget w v);
    let w := time_read v (offset - alignment) p w in
    if len =? 1 then
      let m := 0xff .<< (8 * alignment) in Ret (vlapic_reg_write v (offset - alignment) (Z.ldiff tmp m .| ((val .& 0xff) .<< (8 * alignment))) w)
    else if len =? 2 then
      if truthy (alignment .& 1) then Ret (X86EMUL_OKAY, emit Crash w)
      else
        let m := 0xffff .<< (8 * alignment) in Ret (vlapic_reg_write v (offset - alignment) (Z.ldiff tmp m .| ((val .& 0xffff) .<< (8 * alignment))) w)
    else Ret (X86EMUL_OKAY, emit Crash w)
  else if negb (alignment =? 0) then Ret (X86EMUL_OKAY, emit Crash w)
  else Ret (vlapic_reg_write v offset val w).

(** The result says whether the guest gets a fault. *)
Definition hvm_x2apic_msr_write (v : nat) (msr msr_content : Z) w : bool * lapics :=
  let offset := u32 ((msr - MSR_IA32_APICBASE_MSR) .<< 4) in
  if negb (vlapic_x2apic_mode (lget w v)) then (true, w)
  else
    let '(fault, w) :=
      if offset =? APIC_ICR then let '(rc, w) := vlapic_reg_write v APIC_ICR2 (u32 (msr_content .>> 32)) w in (truthy rc, w) else (false, w) in
    if fault : bool then (true, w)
    else
      let '(rc, w) := vlapic_reg_write v offset (u32 msr_content) w in
      (negb (rc =? X86EMUL_OKAY) && negb (rc =? X86EMUL_RETRY), w).

Definition vlapic_range (v : nat) (addr : Z) w : bool :=
  negb (vlapic_hw_disabled (lget w v)) && (u64 (addr - vlapic_base_address (lget w v)) <? 4096).

(** ** Reset, INIT and STARTUP *)

Definition vlapic_reset (i : nat) w : lapics := disarm i (upd_l i (reset_regs (Z.of_nat i)) w).

Definition vlapic_msr_set (i : nat) (value : Z) w : lapics :=
  let w :=
    if truthy (Z.lxor (apic_base_msr (hw (lget w i))) value .& MSR_IA32_APICBASE_ENABLE) then
      if truthy (value .& MSR_IA32_APICBASE_ENABLE) then
        let w := vlapic_reset i w in
        let w := upd_l i (fun l => set_disabled l (Z.ldiff (disabled (hw l)) VLAPIC_HW_DISABLED)) w in
        with_plt w (Vpt.pt_may_unmask_irq true (Some (pt_id i)) (plt w))
      else
        let w := upd_l i (fun l => set_disabled l (disabled (hw l) .| VLAPIC_HW_DISABLED)) w in
        with_plt w (Vpt.pt_may_unmask_irq true None (plt w))
    else w in
  let w := upd_l i (fun l => set_base l value) w in
  let w := if vlapic_x2apic_mode (lget w i) then
             upd_l i (fun l => let id := vlapic_get_reg l APIC_ID in
                               vlapic_set_reg APIC_LDR ((Z.ldiff id 0xf .<< 16) .| (1 .<< (id .& 0xf))) l) w
           else w in
  emit (MsrChanged i) w.

(** The deferred work of an INIT or STARTUP that CPU [origin] sent. *)
Definition vlapic_init_sipi_action (origin : nat) w : run lapics :=
  match init_sipi (lget w origin) with
  | None => Bug
  | Some (target, icr) =>
      let done w := upd_l origin (fun l => with_sipi l None) w in
      if (icr .& APIC_MODE_MASK) =? APIC_DM_INIT then
        let w := emit (VcpuReset target) (emit (Pause target) w) in
        let w := vlapic_reset target (with_init w (<[target := false]> (vinit w))) in
        Ret (emit (Unpause origin) (done (emit (Unpause target) w)))
      else if (icr .& APIC_MODE_MASK) =? APIC_DM_STARTUP then
        let w := emit (ResetState target ((icr .& 0xff) .<< 8)) (emit (Pause target) w) in
        let w := with_init w (<[target := true]> (vinit w)) in
        Ret (emit (Unpause origin) (done (emit (Unpause target) w)))
      else Bug
  end.

(** [page] is whether a page for the registers was found and mapped. *)
Definition vlapic_init (page : bool) (i : nat) w : Z * lapics :=
  let w := set_pt_source i w in
  if negb page then (- ENOMEM, w)
  else
    let w := upd_l i (fun l => with_regs l (replicate PAGE_WORDS 0)) w in
    let w := vlapic_reset i w in
    (0, upd_l i (fun l => set_base l (MSR_IA32_APICBASE_ENABLE .| APIC_DEFAULT_PHYS_BASE .| (if decide (i = 0%nat) then MSR_IA32_APICBASE_BSP else 0))) w).

(** The page of registers is freed. *)
Definition vlapic_destroy (i : nat) w : lapics := upd_l i (fun l => with_regs l []) (disarm i (upd_l i (fun l => with_sipi l None) w)).

(** ** Interrupts of the timers *)

(** With the interrupt controllers [vpic] and [vioapic] as they are; a timer
    that is asked about belongs to a CPU. *)
Section Controllers.
Context (vpic : list Vpic.hvm_hw_vpic) (vioapic : Vioapic.hvm_hw_vioapic).

Definition pt_irq_vector (p : Vpt.periodic_time lapic_cb) (src : Vpt.intsrc) : Z :=
  match Vpt.source p with
  | Vpt.PTSRC_lapic => Vpt.pt_irq p
  | Vpt.PTSRC_isa =>
      let isa_irq := Vpt.pt_irq p in
      match src with
      | Vpt.hvm_intsrc_pic => Vpic.irq_base (vpic !!! Z.to_nat (isa_irq .>> 3)) + (isa_irq .& 7)
      | _ => Vioapic.vector (Vioapic.entry vioapic (HvmIrq.hvm_isa_irq_to_gsi isa_irq))
      end
  end.

Definition pt_irq_masked w (p : Vpt.periodic_time lapic_cb) : bool :=
  let v := default 0%nat (Vpt.pt_vcpu p) in
  match Vpt.source p with
  | Vpt.PTSRC_lapic => negb (vlapic_enabled (lget w v)) || truthy (vlapic_get_reg (lget w v) APIC_LVTT .& APIC_LVT_MASKED)
  | Vpt.PTSRC_isa =>
      let isa_irq := Vpt.pt_irq p in
      let pic_imr := Vpic.imr (vpic !!! Z.to_nat (isa_irq .>> 3)) in
      (truthy (pic_imr .& (1 .<< (isa_irq .& 7))) || negb (vlapic_accept_pic_intr v w)) &&
        Vioapic.masked (Vioapic.entry vioapic (HvmIrq.hvm_isa_irq_to_gsi isa_irq))
  end.

(** [pt_update_irq] with the interrupt that it raises. *)
Definition update_irq (v : nat) w : lapics :=
  let '(earliest, p) := Vpt.pt_update_irq (pt_irq_masked w) v (plt w) in
  let w := with_plt w p in
  match earliest with
  | None => w
  | Some k =>
      let irq := Vpt.pt_irq (Vpt.pt p k) in
      match Vpt.source (Vpt.pt p k) with
      | Vpt.PTSRC_lapic => upd_l v (fun l => (vlapic_set_irq irq false l).2) w
      | Vpt.PTSRC_isa => emit (IsaPulse irq) w
      end
  end.

(** [pt_intr_post] with what it calls. *)
Definition intr_post (v : nat) (src : Vpt.intsrc) (vec : Z) w : lapics :=
  let '(c, p) := Vpt.pt_intr_post pt_irq_vector now v src vec (plt w) in
  let w := with_plt w p in
  match c with None => w | Some c => run_cb c v w end.
End Controllers.

(** ** After a restore *)

Definition lapic_rearm (s : nat) w : lapics :=
  let w := set_pt_irq s (vlapic_get_reg (lget w s) APIC_LVTT .& APIC_VECTOR_MASK) w in
  if vlapic_lvtt_tdt (lget w s) then
    let tdt := vlapic_tdt_msr_get s w in if truthy tdt then vlapic_tdt_msr_set s tdt w else w
  else
    let tmict := vlapic_get_reg (lget w s) APIC_TMICT in
    if tmict =? 0 then w
    else
      let period := timer_period (lget w s) tmict in
      arm s s period (if vlapic_lvtt_period (lget w s) then period else 0) (if vlapic_lvtt_period (lget w s) then Some (PtCb s) else None) w.

End Domain.

(** ** What the guest and the devices do *)

(** On CPU [v], which is the current one; [Fire] is the timer of an APIC that
    goes off. *)
Inductive lop :=
| Write (address len val : Z) | X2Write (msr content : Z) | BaseWrite (value : Z) | TdtWrite (value : Z)
| Read (address len : Z) | X2Read (msr : Z) | Tasklet | Irq (vec : Z) (trig : bool) | TakeIrq | Init (page : bool)
| Fire (i : nat) | SaveTimers (blocked : bool) | RestoreTimers
| UpdateIrq (vpic : list Vpic.hvm_hw_vpic) (vioapic : Vioapic.hvm_hw_vioapic)
| IntrPost (vpic : list Vpic.hvm_hw_vpic) (vioapic : Vioapic.hvm_hw_vioapic) (src : Vpt.intsrc) (vec : Z).

Section Exec.
Context (ids : list nat) (guest_tsc tsc_offset : nat -> Z) (gtsc_to_gtime : Z -> Z).

(** The MSRs that [hvm_msr_read_intercept] and [hvm_msr_write_intercept] hand to
    the APIC. *)
Definition x2apic_msr (msr : Z) : bool := (MSR_IA32_APICBASE_MSR <=? msr) && (msr <=? MSR_IA32_APICBASE_MSR + 0x3ff).

Definition lexec (now : Z) (v : nat) (o : lop) w : run lapics :=
  match o with
  | Write address len val =>
      if vlapic_range v address w then '(_, w) ← vlapic_write ids now v v address len val w; Ret w else Ret w
  | X2Write msr content => Ret (if x2apic_msr msr then (hvm_x2apic_msr_write ids now v v msr content w).2 else w)
  | BaseWrite value => Ret (vlapic_msr_set v value w)
  | TdtWrite value => Ret (vlapic_tdt_msr_set guest_tsc tsc_offset gtsc_to_gtime now v value w)
  | Read address len =>
      if vlapic_range v address w then
        let '(g, p) := Vpt.hvm_get_guest_time now v (plt w) in
        let offset := u32 (address - vlapic_base_address (lget w v)) in
        x ← vlapic_read g address len (lget w v);
        let w := time_read v (offset - (offset .& 3)) p w in
        Ret (match x with Some _ => w | None => emit Crash w end)
      else Ret w
  | X2Read msr =>
      if x2apic_msr msr then
        let '(g, p) := Vpt.hvm_get_guest_time now v (plt w) in
        x ← hvm_x2apic_msr_read g msr (lget w v);
        Ret (match x with Some _ => time_read v (u32 ((msr - MSR_IA32_APICBASE_MSR) .<< 4)) p w | None => w end)
      else Ret w
  | Tasklet => match init_sipi (lget w v) with None => Ret w | Some _ => vlapic_init_sipi_action v w end
  | Irq vec trig => Ret (upd_l v (fun l => (vlapic_set_irq (vec mod 2 ^ 8) trig l).2) w)
  | TakeIrq => let x := vlapic_has_pending_irq (lget w v) in Ret (if x =? -1 then w else upd_l v (vlapic_ack_pending_irq x) w)
  | Init page => Ret (vlapic_init page v w).2
  | Fire i => Ret (with_plt w (Vpt.pt_timer_fn (pt_id i) (plt w)))
  | SaveTimers blocked => Ret (with_plt w (Vpt.pt_save_timer now blocked v (plt w)))
  | RestoreTimers => Ret (with_plt w (Vpt.pt_restore_timer now v (plt w)))
  | UpdateIrq vpic vioapic => Ret (update_irq vpic vioapic v w)
  | IntrPost vpic vioapic src vec => Ret (intr_post now vpic vioapic v src vec w)
  end.

Fixpoint ltrace (ops : list (Z * nat * lop)) w : run lapics :=
  match ops with [] => Ret w | (now, v, o) :: ops => w ← lexec now v o w; ltrace ops w end.

(** ** The invariant *)

Record lapic_ok (l : vlapic) : Prop := {
  lo_wf : wf l;
  lo_div : exists k, 0 <= k <= 7 /\ timer_divisor (hw l) = 2 ^ k;
  lo_sipi t icr : init_sipi l = Some (t, icr) -> icr .& APIC_MODE_MASK = APIC_DM_INIT \/ icr .& APIC_MODE_MASK = APIC_DM_STARTUP
}.

(** For [n] CPUs. *)
Record lapics_ok (n : nat) w : Prop := {
  ls_len : length (vl w) = n;
  ls_each : Forall lapic_ok (vl w);
  ls_vpt : Vpt.vpt_ok (plt w);
  ls_cpus : length (Vpt.tcpus (plt w)) = n;
  ls_pts : length (Vpt.pts (plt w)) = (5 + n)%nat
}.

Lemma set_reg_ok r x l : lapic_ok l -> lapic_ok (vlapic_set_reg r x l).
Proof. intros []. split; [by apply set_reg_wf|done|done]. Qed.
Lemma upd_hw_ok h l : lapic_ok l -> timer_divisor h = timer_divisor (hw l) -> lapic_ok (with_hw l h).
Proof. intros [H1 H2 H3] E. split; cbn; [by destruct H1|by rewrite E|done]. Qed.
Lemma with_update_ok t l : lapic_ok l -> lapic_ok (with_update l t).
Proof. intros [H1 H2 H3]. split; cbn; [by destruct H1|done|done]. Qed.
Lemma with_sipi_ok t l : lapic_ok l -> (forall v icr, t = Some (v, icr) -> icr .& APIC_MODE_MASK = APIC_DM_INIT \/ icr .& APIC_MODE_MASK = APIC_DM_STARTUP) ->
  lapic_ok (with_sipi l t).
Proof. intros [H1 H2 H3] H. split; cbn; [by destruct H1|done|done]. Qed.
Lemma set_tdcr_ok x l : lapic_ok l -> lapic_ok (vlapic_set_tdcr x l).
Proof. intros [H1 H2 H3]. split; [|apply tdcr_divisor|done]. destruct (set_reg_wf APIC_TDCR (x .& 0xb) l H1). by split. Qed.
Lemma foldl_ok {A} (f : vlapic -> A -> vlapic) xs : (forall l x, lapic_ok l -> lapic_ok (f l x)) -> forall l, lapic_ok l -> lapic_ok (foldl f l xs).
Proof. intros H. induction xs as [|x xs IH]; intros l Hl; [done|]. cbn. auto. Qed.
Lemma mask_lvts_ok f l : lapic_ok l -> lapic_ok (mask_lvts f l).
Proof. apply foldl_ok. intros. by apply set_reg_ok. Qed.
Lemma clear_bitmaps_ok l : lapic_ok l -> lapic_ok (clear_bitmaps l).
Proof. apply foldl_ok. intros. by do 3 apply set_reg_ok. Qed.
#[local] Hint Resolve set_reg_ok with_update_ok set_tdcr_ok mask_lvts_ok clear_bitmaps_ok : core.
Lemma set_disabled_ok x l : lapic_ok l -> lapic_ok (set_disabled l x).
Proof. intros. by apply upd_hw_ok. Qed.
Lemma set_tdt_ok x l : lapic_ok l -> lapic_ok (set_tdt l x).
Proof. intros. by apply upd_hw_ok. Qed.
Lemma set_base_ok x l : lapic_ok l -> lapic_ok (set_base l x).
Proof. intros. by apply upd_hw_ok. Qed.
#[local] Hint Resolve set_disabled_ok set_tdt_ok set_base_ok : core.
Lemma reset_regs_ok i l : lapic_ok l -> lapic_ok (reset_regs i l).
Proof. intros Hl. unfold reset_regs. cbv zeta. apply set_disabled_ok. auto 20. Qed.
#[local] Hint Resolve reset_regs_ok : core.

Lemma upd_l_ok n i f w : (forall l, lapic_ok l -> lapic_ok (f l)) -> lapics_ok n w -> lapics_ok n (upd_l i f w).
Proof.
  intros Hf [H1 H2 H3 H4 H5]. split; cbn; [by rewrite length_alter| |done..]. apply Forall_alter; [done|]. intros x Hx. apply Hf.
Qed.
Lemma emit_ok n e w : lapics_ok n w -> lapics_ok n (emit e w).
Proof. by intros []. Qed.
Lemma plt_ok n p w : lapics_ok n w -> Vpt.kept (plt w) p -> lapics_ok n (with_plt w p).
Proof. intros [H1 H2 H3 H4 H5] [K1 K2 K3 _]. split; cbn; [done|done|auto|by rewrite K2|by rewrite K3]. Qed.
Lemma lget_ok n i w : lapics_ok n w -> (i < n)%nat -> lapic_ok (lget w i).
Proof.
  intros [H1 H2 _ _ _] Hi. destruct (lookup_lt_is_Some_2 (vl w) i) as [l Hl]; [lia|]. unfold lget. rewrite (list_lookup_total_correct _ _ _ Hl). by eapply Forall_lookup_1.
Qed.
#[local] Hint Resolve upd_l_ok emit_ok plt_ok : core.

Lemma get_time_ok n now i w : lapics_ok n w -> lapics_ok n (with_plt w (Vpt.hvm_get_guest_time now i (plt w)).2).
Proof. intros Hw. apply plt_ok; [done|]. apply Vpt.kept_same, Vpt.same_get_time. Qed.
Lemma may_unmask_ok n b k w : lapics_ok n w -> lapics_ok n (with_plt w (Vpt.pt_may_unmask_irq b k (plt w))).
Proof. intros Hw. apply plt_ok; [done|]. apply Vpt.unmask_ok. apply Hw. Qed.
Lemma disarm_ok n i w : lapics_ok n w -> lapics_ok n (disarm i w).
Proof. intros Hw. apply plt_ok; [done|]. apply Vpt.destroy_off. apply Hw. Qed.
Lemma pt_irq_ok n i x w : lapics_ok n w -> lapics_ok n (set_pt_irq i x w).
Proof. intros Hw. apply plt_ok; [done|]. by apply Vpt.kept_same, Vpt.same_upd. Qed.
Lemma arm_ok n now v i delta period call w : lapics_ok n w -> (v < n)%nat -> (i < n)%nat -> 0 <= period < 2 ^ 64 -> lapics_ok n (arm now v i delta period call w).
Proof.
  intros Hw Hv Hi Hp. unfold arm. apply upd_l_ok; [intros; by apply with_update_ok|]. apply plt_ok; [done|]. apply Vpt.create_ok; [|apply Hw].
  cbn. rewrite (ls_cpus _ _ Hw), (ls_pts _ _ Hw). unfold pt_id, Vpt.lapic_timer, Vpt.HPET_TIMER_NUM. split_and!; lia.
Qed.
#[local] Hint Resolve get_time_ok may_unmask_ok disarm_ok pt_irq_ok arm_ok : core.

Lemma period_range (b : bool) l c : 0 <= (if b then timer_period l c else 0) < 2 ^ 64.
Proof. unfold timer_period. pose proof (u64_range (APIC_BUS_CYCLE_NS * u32 c * timer_divisor (hw l))). destruct b; lia. Qed.

(** ** It is preserved *)

Context (n : nat) (Hids : forall i, i ∈ ids -> (i < n)%nat).
Abbreviation ok := (lapics_ok n).

Lemma schedule_ok cur t icr w : icr .& APIC_MODE_MASK = APIC_DM_INIT \/ icr .& APIC_MODE_MASK = APIC_DM_STARTUP -> ok w ->
  ok (vlapic_schedule_init_sipi_tasklet cur t icr w).2.
Proof.
  intros Hm Hw. unfold vlapic_schedule_init_sipi_tasklet. destruct (init_sipi _); [done|]. cbn [snd]. apply upd_l_ok; [|by apply emit_ok].
  intros l Hl. apply with_sipi_ok; [done|]. by intros v c [= -> ->].
Qed.

Lemma set_vector_ok v b l : lapic_ok l -> lapic_ok (vlapic_set_vector v b l).
Proof. apply set_reg_ok. Qed.
Lemma clear_vector_ok v b l : lapic_ok l -> lapic_ok (vlapic_clear_vector v b l).
Proof. apply set_reg_ok. Qed.
#[local] Hint Resolve set_vector_ok clear_vector_ok : core.

Lemma accept_ok cur v icr w : ok w -> ok (vlapic_accept_irq cur v icr w).2.
Proof.
  intros Hw. unfold vlapic_accept_irq. cbv zeta. destruct (_ || _).
  { cbn [snd]. destruct (vlapic_enabled _); [|done]. destruct (negb _); [apply emit_ok|]; apply upd_l_ok; auto. }
  destruct (_ || _); [done|]. destruct (_ =? APIC_DM_NMI).
  { cbn [snd]. destruct (_ !!! _); [done|]. by destruct Hw. }
  destruct (Z.eqb_spec (icr .& APIC_MODE_MASK) APIC_DM_INIT) as [E|_].
  { destruct (_ =? APIC_INT_LEVELTRIG); [done|]. destruct (negb _); [done|]. apply schedule_ok; [by left|by apply emit_ok]. }
  destruct (Z.eqb_spec (icr .& APIC_MODE_MASK) APIC_DM_STARTUP) as [E|_].
  { destruct (_ !!! _); [done|]. apply schedule_ok; [by right|done]. }
  by apply emit_ok.
Qed.

Lemma lowest_prio_ok src sh dest dm w : ok w -> ok (vlapic_lowest_prio ids src sh dest dm w).2.
Proof. intros Hw. unfold vlapic_lowest_prio. case_decide; [|done]. cbn [snd]. destruct (foldl _ _ _).1; [by destruct Hw|done]. Qed.

Lemma ipi_each_ok cur src sh dest dm icr vs : forall w, ok w -> ok (ipi_each cur src sh dest dm icr vs w).2.
Proof.
  induction vs as [|v vs IH]; intros w Hw; [done|]. cbn [ipi_each]. destruct (vlapic_match_dest _ _ _ _ _); [|auto].
  pose proof (accept_ok cur v icr w Hw) as H. destruct (vlapic_accept_irq _ _ _ _) as [rc w1]. destruct (_ =? _); auto.
Qed.

Lemma ipi_ok cur i lo hi w : ok w -> ok (vlapic_ipi ids cur i lo hi w).2.
Proof.
  intros Hw. unfold vlapic_ipi. cbv zeta. destruct (_ =? APIC_DM_LOWEST); [|by apply ipi_each_ok].
  match goal with |- context [vlapic_lowest_prio ids ?a ?b ?c ?d w] => pose proof (lowest_prio_ok a b c d w Hw) as H; destruct (vlapic_lowest_prio ids a b c d w) as [[v|] w1] end;
    [by apply accept_ok|done].
Qed.

Lemma eoi_ok v w : ok w -> (v < n)%nat -> ok (EOI_write v w).
Proof.
  intros Hw Hv. unfold EOI_write, vlapic_EOI_set. pose proof (lget_ok n v w Hw Hv) as Hl. destruct (_ =? -1); [by apply upd_l_ok|].
  apply emit_ok. assert (ok (upd_l v (fun _ => vlapic_clear_vector (vlapic_find_highest_isr (lget w v)) APIC_TMR (vlapic_clear_vector (vlapic_find_highest_isr (lget w v)) APIC_ISR (lget w v))) w)) by (apply upd_l_ok; auto).
  destruct (vlapic_test_vector _ _ _); auto.
Qed.

Lemma adjust_target_ok w : ok w -> ok (vlapic_adjust_i8259_target ids w).
Proof.
  intros Hw. unfold vlapic_adjust_i8259_target. cbv zeta. set (v := match list_find _ _ with Some _ => _ | None => _ end).
  assert (forall i, v = Some i -> (i < n)%nat) as Hv.
  { unfold v. destruct (list_find _ _) as [[k i]|] eqn:E; intros j Hj.
    - injection Hj as <-. apply list_find_Some in E as (E & _). by eapply Hids, list_elem_of_lookup_2.
    - destruct (decide (0%nat ∈ ids)); [|done]. injection Hj as <-. by apply Hids. }
  clearbody v. case_decide; [done|]. apply (plt_ok n _ (with_target w v)); [by destruct Hw|]. apply Vpt.retarget_ok; [|apply Hw].
  destruct v as [i|]; [|done]. cbn. rewrite (ls_cpus _ _ Hw). by apply Hv.
Qed.

Lemma tdt_set_ok now v x w : ok w -> (v < n)%nat -> ok (vlapic_tdt_msr_set guest_tsc tsc_offset gtsc_to_gtime now v x w).
Proof.
  intros Hw Hv. unfold vlapic_tdt_msr_set. destruct (negb _); [done|]. pose proof (get_time_ok n now v w Hw) as Hw1. destruct (Vpt.hvm_get_guest_time now v (plt w)) as [g p]. cbn [snd] in Hw1.
  destruct (_ >? _); [apply arm_ok; auto; lia|]. destruct (_ >? _); [apply arm_ok; auto; lia|]. auto.
Qed.

Lemma lvt_ok v off x w : ok w -> ok (lvt_write ids v off x w).
Proof.
  intros Hw. unfold lvt_write. cbv zeta. set (y := _ .& vlapic_lvt_mask _). set (w1 := upd_l v (vlapic_set_reg off y) w).
  assert (ok w1) as H1 by (apply upd_l_ok; auto). clearbody w1.
  assert (ok (if off =? APIC_LVT0 then with_plt (vlapic_adjust_i8259_target ids w1) (Vpt.pt_may_unmask_irq true None (plt (vlapic_adjust_i8259_target ids w1))) else w1)) as H2.
  { destruct (_ =? _); [|done]. apply may_unmask_ok. by apply adjust_target_ok. }
  destruct (_ && _); [by apply may_unmask_ok|done].
Qed.

Lemma icr_ok cur v x w : ok w -> ok (icr_write ids cur v x w).2.
Proof.
  intros Hw. unfold icr_write. cbv zeta. match goal with |- context [vlapic_ipi ids cur v ?a ?b w] => pose proof (ipi_ok cur v a b w Hw) as H; destruct (vlapic_ipi ids cur v a b w) as [rc w1] end.
  cbn [snd] in *. destruct (_ =? _); auto.
Qed.

Lemma lvtt_ok v x w : ok w -> ok (lvtt_write ids v x w).
Proof. intros Hw. unfold lvtt_write. apply lvt_ok, pt_irq_ok. destruct (negb _); [|done]. apply upd_l_ok; [|by apply disarm_ok]. auto. Qed.

Lemma spiv_ok v x w : ok w -> ok (spiv_write v x w).
Proof. intros Hw. unfold spiv_write. destruct (negb _); [apply upd_l_ok; auto|]. apply may_unmask_ok. auto. Qed.

Lemma tmict_ok now cur v x w : ok w -> (cur < n)%nat -> (v < n)%nat -> ok (tmict_write now cur v x w).
Proof.
  intros Hw Hc Hv. unfold tmict_write. destruct (_ && _); [done|]. cbv zeta. destruct (_ =? 0); [auto|]. apply arm_ok; auto. apply period_range.
Qed.
#[local] Hint Resolve eoi_ok icr_ok lvtt_ok lvt_ok spiv_ok tmict_ok : core.

Lemma reg_write_ok now cur v off x w : ok w -> (cur < n)%nat -> (v < n)%nat -> ok (vlapic_reg_write ids now cur v off x w).2.
Proof.
  intros Hw Hc Hv. unfold vlapic_reg_write. cbv zeta.
  repeat match goal with |- ok (if ?b then _ else _).2 => destruct b end; cbn [snd]; auto.
Qed.

Lemma time_read_ok now v off w : ok w -> ok (time_read v off (Vpt.hvm_get_guest_time now v (plt w)).2 w).
Proof. intros Hw. unfold time_read. destruct (_ && _); auto. Qed.

Lemma page_read g off l : lapic_ok l -> off < 4096 -> exists x, vlapic_read_aligned g off l = Ret x.
Proof. intros [Hwf (k & Hk & Hd) _]. by apply (read_returns g off l k). Qed.

Lemma aligned_below off : 0 <= off -> off - (off .& 3) <= off.
Proof. intros H. pose proof (land_range off 3 2 ltac:(lia) ltac:(lia)). lia. Qed.

(** An address that the APIC claims is one of its page. *)
Lemma range_offset v a w : vlapic_range v a w = true -> 0 <= u32 (a - vlapic_base_address (lget w v)) < 4096.
Proof.
  unfold vlapic_range. intros [_ H%Z.ltb_lt]%andb_true_iff. set (x := a - _) in *. clearbody x. unfold u64 in H. unfold u32.
  rewrite <- (Z.mod_mod_divide x (2 ^ 64) (2 ^ 32)) by (exists (2 ^ 32); reflexivity). pose proof (Z.mod_pos_bound x (2 ^ 64)). rewrite (Z.mod_small (x mod _)); lia.
Qed.

Lemma write_ok now v a len x w : ok w -> (v < n)%nat -> vlapic_range v a w = true -> exists r, vlapic_write ids now v v a len x w = Ret r /\ ok r.2.
Proof.
  intros Hw Hv Hr%range_offset. unfold vlapic_write. cbv zeta. set (off := u32 _). set (al := off .& 3). destruct (negb (len =? 4)).
  2: { destruct (negb _); eexists; (split; [reflexivity|]); [by apply emit_ok|by apply reg_write_ok]. }
  pose proof (time_read_ok now v (off - al) w Hw) as Ht. destruct (Vpt.hvm_get_guest_time now v (plt w)) as [g p]. cbn [snd] in Ht.
  destruct (page_read g (off - al) (lget w v) (lget_ok n v w Hw Hv)) as [y ->]; [pose proof (aligned_below off); unfold al; lia|]. cbn [mbind run_bind].
  destruct (len =? 1); [|destruct (len =? 2); [destruct (truthy _)|]]; eexists; (split; [reflexivity|]); try (by apply reg_write_ok); by apply emit_ok.
Qed.

Lemma x2write_ok now v msr x w : ok w -> (v < n)%nat -> ok (hvm_x2apic_msr_write ids now v v msr x w).2.
Proof.
  intros Hw Hv. unfold hvm_x2apic_msr_write. destruct (negb _); [done|].
  set (q := if _ =? APIC_ICR then _ else _). assert (ok q.2) as Hq.
  { unfold q. destruct (_ =? APIC_ICR); [|done]. pose proof (reg_write_ok now v v APIC_ICR2 (u32 (x .>> 32)) w Hw Hv Hv). by destruct (vlapic_reg_write _ _ _ _ _ _ _). }
  clearbody q. destruct q as [[] w1]; [done|]. cbn [snd] in Hq. set (r := u32 (_ .<< 4)). pose proof (reg_write_ok now v v r (u32 x) w1 Hq Hv Hv).
  by destruct (vlapic_reg_write _ _ _ _ _ _ _).
Qed.

Lemma lapic_reset_ok v w : ok w -> ok (vlapic_reset v w).
Proof. intros Hw. unfold vlapic_reset. auto. Qed.
#[local] Hint Resolve lapic_reset_ok : core.

Lemma base_write_ok v x w : ok w -> ok (vlapic_msr_set v x w).
Proof.
  intros Hw. unfold vlapic_msr_set. apply emit_ok. set (w1 := if truthy (Z.lxor _ _ .& _) then _ else w).
  assert (ok w1) as H1 by (unfold w1; destruct (truthy _); [|done]; destruct (truthy _); apply may_unmask_ok; auto). clearbody w1.
  assert (ok (upd_l v (fun l => set_base l x) w1)) by auto. destruct (vlapic_x2apic_mode _); auto.
Qed.

Lemma with_init_ok l w : ok w -> ok (with_init w l).
Proof. by intros []. Qed.

Lemma tasklet_ok v w t : ok w -> (v < n)%nat -> init_sipi (lget w v) = Some t -> exists w', vlapic_init_sipi_action v w = Ret w' /\ ok w'.
Proof.
  intros Hw Hv E. destruct t as [t icr]. unfold vlapic_init_sipi_action. rewrite E. cbv zeta.
  assert (forall w, ok w -> ok (emit (Unpause v) (upd_l v (fun l => with_sipi l None) (emit (Unpause t) w)))) as Hend.
  { intros w1 H1. apply emit_ok, upd_l_ok; [|by apply emit_ok]. intros l Hl. by apply with_sipi_ok. }
  destruct (lo_sipi _ (lget_ok n v w Hw Hv) t icr E) as [Em|Em]; rewrite Em; cbn [Z.eqb]; eexists; (split; [reflexivity|]); apply Hend.
  - apply lapic_reset_ok, with_init_ok; auto.
  - apply with_init_ok; auto.
Qed.

Lemma cb_ok now c v w : ok w -> ok (run_cb now c v w).
Proof.
  intros Hw. unfold run_cb. pose proof (get_time_ok n now v w Hw) as Hw1. destruct (Vpt.hvm_get_guest_time now v (plt w)) as [g p]. cbn [snd] in Hw1.
  destruct c; auto.
Qed.

Lemma init_ok page v w : ok w -> ok (vlapic_init page v w).2.
Proof.
  intros Hw. unfold vlapic_init. cbv zeta. assert (ok (set_pt_source v w)) as H1 by (apply plt_ok; [done|]; by apply Vpt.kept_same, Vpt.same_upd).
  destruct (negb page); [done|]. cbn [snd]. apply upd_l_ok; [auto|]. apply lapic_reset_ok, upd_l_ok; [|done].
  intros l [_ H2 H3]. split; [|done|done]. split; [reflexivity|apply Forall_replicate; lia].
Qed.
#[local] Hint Resolve x2write_ok base_write_ok tdt_set_ok cb_ok init_ok : core.

Lemma set_irq_ok vec trig l : lapic_ok l -> lapic_ok (vlapic_set_irq vec trig l).2.
Proof. intros Hl. unfold vlapic_set_irq. destruct trig; cbn; auto. Qed.
#[local] Hint Resolve set_irq_ok : core.

Lemma update_irq_ok vpic vioapic v w : ok w -> ok (update_irq vpic vioapic v w).
Proof.
  intros Hw. unfold update_irq. pose proof (Vpt.update_ok (pt_irq_masked vpic vioapic w) v (plt w) (ls_vpt _ _ Hw)) as K.
  destruct (Vpt.pt_update_irq _ v (plt w)) as [e p]. cbn [snd] in K. destruct e as [k|]; [|by apply plt_ok]. destruct (Vpt.source _); [apply emit_ok|apply upd_l_ok; auto]; by apply plt_ok.
Qed.

Lemma intr_post_ok now vpic vioapic v src vec w : ok w -> ok (intr_post now vpic vioapic v src vec w).
Proof.
  intros Hw. unfold intr_post. pose proof (Vpt.post_ok (pt_irq_vector vpic vioapic) now v src vec (plt w) (ls_vpt _ _ Hw)) as K.
  destruct (Vpt.pt_intr_post _ now v src vec (plt w)) as [c p]. cbn [snd] in K. pose proof (plt_ok n p w Hw K). destruct c; auto.
Qed.
#[local] Hint Resolve update_irq_ok intr_post_ok : core.

Lemma timers_ok p w : ok w -> Vpt.same_lists (plt w) p -> ok (with_plt w p).
Proof. intros Hw Hs. apply plt_ok; [done|]. by apply Vpt.kept_same. Qed.

Lemma read_ok now v a len w : ok w -> (v < n)%nat -> exists w', lexec now v (Read a len) w = Ret w' /\ ok w'.
Proof.
  intros Hw Hv. cbn [lexec]. destruct (vlapic_range _ _ _) eqn:Hr; [|by eauto]. apply range_offset in Hr. cbv zeta. set (off := u32 _) in *.
  pose proof (time_read_ok now v (off - (off .& 3)) w Hw) as Ht. destruct (Vpt.hvm_get_guest_time now v (plt w)) as [g p]. cbn [snd] in Ht.
  assert (exists x, vlapic_read g a len (lget w v) = Ret x) as [x ->].
  { unfold vlapic_read. cbv zeta. destruct (_ >? _); [by eexists|]. fold off.
    destruct (page_read g (off - (off .& 3)) (lget w v) (lget_ok n v w Hw Hv)) as [y ->]; [pose proof (aligned_below off); lia|]. cbn [mbind run_bind]. by eexists. }
  cbn [mbind run_bind]. eexists. split; [reflexivity|]. destruct x; auto.
Qed.

(** The read that no check stops: of a word behind the page. *)
Definition reads_behind (v : nat) (o : lop) w : bool :=
  match o with X2Read msr => vlapic_x2apic_mode (lget w v) && (0x900 <=? msr) && (msr <=? 0xbff) | _ => false end.

Lemma behind_faults now v o w : reads_behind v o w = true -> lexec now v o w = Bug.
Proof.
  destruct o; try discriminate. cbn [reads_behind lexec]. intros [[Hx H1%Z.leb_le]%andb_true_iff H2%Z.leb_le]%andb_true_iff.
  assert (x2apic_msr msr = true) as -> by (apply andb_true_iff; unfold MSR_IA32_APICBASE_MSR; split; apply Z.leb_le; lia).
  destruct (Vpt.hvm_get_guest_time now v (plt w)) as [g p]. rewrite x2apic_reads_beyond by (done || lia). done.
Qed.

Lemma x2read_ok now v msr w : ok w -> (v < n)%nat -> reads_behind v (X2Read msr) w = false -> exists w', lexec now v (X2Read msr) w = Ret w' /\ ok w'.
Proof.
  intros Hw Hv Hb. cbn [lexec]. destruct (x2apic_msr msr) eqn:Em; [|by eauto]. unfold x2apic_msr, MSR_IA32_APICBASE_MSR in Em. apply andb_true_iff in Em as [M1%Z.leb_le M2%Z.leb_le].
  set (off := u32 _). pose proof (time_read_ok now v off w Hw) as Ht. assert (off = 16 * (msr - 0x800)) as Eo by (apply x2apic_offset; lia).
  destruct (Vpt.hvm_get_guest_time now v (plt w)) as [g p]. cbn [snd] in Ht.
  assert (exists x, hvm_x2apic_msr_read g msr (lget w v) = Ret x) as [x ->].
  { unfold hvm_x2apic_msr_read. cbv zeta. fold off. cbn [reads_behind] in Hb. destruct (vlapic_x2apic_mode _); [|by eexists]. cbn [negb]. pose proof (lget_ok n v w Hw Hv) as Hl.
    destruct (page_read g off _ Hl) as [y ->]; [destruct (Z.leb_spec 0x900 msr); [|lia]; destruct (Z.leb_spec msr 0xbff); [done|lia]|].
    cbn [mbind run_bind]. destruct (_ =? _); cbn [mbind run_bind]; [|by eexists]. destruct (page_read g APIC_ICR2 _ Hl) as [z ->]; [unfold APIC_ICR2; lia|]. by eexists. }
  cbn [mbind run_bind]. eexists. split; [reflexivity|]. by destruct x.
Qed.

Lemma lexec_ok now v o w : ok w -> (v < n)%nat -> reads_behind v o w = false -> exists w', lexec now v o w = Ret w' /\ ok w'.
Proof.
  intros Hw Hv Hb. destruct o; try (by apply read_ok); try (by apply x2read_ok); cbn [lexec]; try (by eauto).
  - destruct (vlapic_range _ _ _) eqn:Hr; [|by eauto]. destruct (write_ok now v address len val w Hw Hv Hr) as ([rc w'] & -> & H). cbn [mbind run_bind]. by eauto.
  - eexists. split; [reflexivity|]. destruct (x2apic_msr _); [by apply x2write_ok|done].
  - destruct (init_sipi _) eqn:E; [|by eauto]. by eapply tasklet_ok.
  - eexists. split; [reflexivity|]. destruct (_ =? _); [done|]. apply upd_l_ok; [|done]. intros l Hl. unfold vlapic_ack_pending_irq. auto.
  - eexists. split; [reflexivity|]. apply timers_ok; [done|apply Vpt.same_fire].
  - eexists. split; [reflexivity|]. apply timers_ok; [done|apply Vpt.same_save].
  - eexists. split; [reflexivity|]. apply timers_ok; [done|apply Vpt.same_restore].
Qed.


End Exec.

(** ** Who gets an interrupt *)

Section Delivery.
Context (ids : list nat) (current : nat).

Definition hit (source : option nat) (short_hand dest : Z) (dest_mode : bool) w (v : nat) : bool :=
  vlapic_match_dest (lget w v) (bool_decide (source = Some v)) short_hand dest dest_mode && vlapic_enabled (lget w v).

Lemma ppr_range l : 0 <= vlapic_get_ppr l < 2 ^ 32 - 1.
Proof.
  unfold vlapic_get_ppr. cbv zeta. assert (forall x, 0 <= x .& 0xff < 2 ^ 8) as H1 by (intros; apply land_range; lia).
  assert (forall x, 0 <= x .& 0xf0 < 2 ^ 8) as H2 by (intros; apply land_range; lia).
  pose proof (H1 (vlapic_get_reg l APIC_TASKPRI)). pose proof (H2 (if vlapic_find_highest_isr l =? -1 then 0 else vlapic_find_highest_isr l)).
  destruct (_ >=? _); lia.
Qed.

Lemma elem_of_cycle old i : i ∈ cycle ids old <-> i ∈ ids.
Proof. unfold cycle. rewrite elem_of_app, !list_elem_of_filter. split; [tauto|]. intros H. destruct (decide (old < i)%nat); [tauto|]. right. split; [lia|done]. Qed.

(** Of the CPUs [vs], which come after those with the best one [a]. *)
Definition best (P : nat -> bool) (f : nat -> Z) (vs : list nat) (a : option nat) : Prop :=
  match a with
  | None => Forall (fun i => P i = false) vs
  | Some v => exists l1 l2, vs = l1 ++ v :: l2 /\ P v = true /\ Forall (fun i => P i = true -> f v <= f i) vs /\ Forall (fun i => P i = true -> f v < f i) l1
  end.

Definition best_val (f : nat -> Z) (a : option nat) : Z := match a with Some v => f v | None => 2 ^ 32 - 1 end.

Lemma best_snoc P f vs a v : (forall i, f i < 2 ^ 32 - 1) -> best P f vs a ->
  best P f (vs ++ [v]) (if P v && (f v <? best_val f a) then Some v else a).
Proof.
  intros Hf Ha. destruct (P v) eqn:Ev; cbn [andb].
  - destruct (Z.ltb_spec (f v) (best_val f a)) as [Hlt|Hle].
    + exists vs, []. split; [reflexivity|]. split; [exact Ev|]. assert (Forall (fun i => P i = true -> f v < f i) vs) as Hall.
      { destruct a as [u|]; cbn in *.
        - destruct Ha as (l1 & l2 & -> & _ & H & _). eapply Forall_impl; [exact H|]. intros i Hi Hp. specialize (Hi Hp). lia.
        - eapply Forall_impl; [exact Ha|]. cbn. congruence. }
      split; [|done]. apply Forall_app. split; [|by constructor]. eapply Forall_impl; [exact Hall|]. intros i Hi Hp. specialize (Hi Hp). lia.
    + destruct a as [u|]; cbn in *; [|specialize (Hf v); lia]. destruct Ha as (l1 & l2 & -> & Hp & H & H1). exists l1, (l2 ++ [v]).
      split_and!; [by rewrite <- app_assoc|done| |done]. apply Forall_app. split; [done|]. by constructor.
  - destruct a as [u|]; cbn in *.
    + destruct Ha as (l1 & l2 & -> & Hp & H & H1). exists l1, (l2 ++ [v]). split_and!; [by rewrite <- app_assoc|done| |done]. apply Forall_app. split; [done|].
      constructor; [congruence|constructor].
    + apply Forall_app. split; [done|]. by constructor.
Qed.

Lemma prio_fold source sh dest dm w vs :
  let r := foldl (prio_step source sh dest dm w) (None, 2 ^ 32 - 1) vs in
  best (hit source sh dest dm w) (fun i => vlapic_get_ppr (lget w i)) vs r.1 /\ r.2 = best_val (fun i => vlapic_get_ppr (lget w i)) r.1.
Proof.
  induction vs as [|v vs [IH1 IH2]] using rev_ind; [split; [constructor|done]|]. rewrite foldl_app. cbn [foldl].
  set (a := foldl _ _ vs) in *. clearbody a. cbv zeta.
  assert (prio_step source sh dest dm w a v = if hit source sh dest dm w v && (vlapic_get_ppr (lget w v) <? a.2) then (Some v, vlapic_get_ppr (lget w v)) else a) as -> by reflexivity. rewrite IH2.
  pose proof (best_snoc _ _ vs a.1 v (fun i => proj2 (ppr_range (lget w i))) IH1) as H. destruct (_ && _); cbn [fst snd]; [done|]. by split.
Qed.


(** ** Messages between CPUs *)

(** What is left of [w] is as before. *)
Record rest_same w w' : Prop := { rs_plt : plt w' = plt w; rs_prev : round_robin_prev_vcpu w' = round_robin_prev_vcpu w; rs_nmi : nmi w' = nmi w; rs_init : vinit w' = vinit w; rs_len : length (vl w') = length (vl w) }.

Lemma lget_upd_eq i f w : (i < length (vl w))%nat -> lget (upd_l i f w) i = f (lget w i).
Proof.
  intros Hi. destruct (lookup_lt_is_Some_2 (vl w) i Hi) as [l Hl]. unfold lget. cbn [vl upd_l]. rewrite (list_lookup_total_correct _ _ _ Hl).
  apply list_lookup_total_correct. by rewrite list_lookup_alter_eq, Hl.
Qed.
Lemma lget_upd_ne i j f w : i <> j -> lget (upd_l i f w) j = lget w j.
Proof. intros H. unfold lget. cbn [vl upd_l]. rewrite !list_lookup_total_alt. by rewrite list_lookup_alter_ne. Qed.

Section Fixed.
Context (source : nat) (sh dest : Z) (dm : bool) (icr : Z) (Hfixed : icr .& APIC_MODE_MASK = APIC_DM_FIXED).
Let vec := icr mod 2 ^ 8.
Abbreviation hits := (hit (Some source) sh dest dm).
Definition fresh_hit w v : bool := hits w v && negb (vlapic_test_vector vec APIC_IRR (lget w v)).

Lemma accept_fixed v w : vlapic_accept_irq current v icr w =
  (X86EMUL_OKAY, if vlapic_enabled (lget w v) then let w' := upd_l v (vlapic_set_vector vec APIC_IRR) w in
                   if negb (vlapic_test_vector vec APIC_IRR (lget w v)) then emit (Kick v) w' else w' else w).
Proof. unfold vlapic_accept_irq. cbv zeta. rewrite Hfixed. reflexivity. Qed.

(** One CPU of the loop. *)
Definition fixed_step (v : nat) w : lapics :=
  if hits w v then let w' := upd_l v (vlapic_set_vector vec APIC_IRR) w in if fresh_hit w v then emit (Kick v) w' else w' else w.

Lemma ipi_each_fixed vs : forall w, ipi_each current source sh dest dm icr vs w = (X86EMUL_OKAY, foldl (fun w v => fixed_step v w) w vs).
Proof.
  induction vs as [|v vs IH]; intros w; [done|]. cbn [ipi_each foldl]. unfold fixed_step at 2, fresh_hit, hit.
  replace (bool_decide (Some source = Some v)) with (bool_decide (v = source)) by (apply bool_decide_ext; split; [by intros ->|by intros [= ->]]).
  destruct (vlapic_match_dest _ _ _ _ _); cbn [andb]; [|apply IH]. rewrite accept_fixed. cbn [Z.eqb]. rewrite IH. by destruct (vlapic_enabled _).
Qed.

Lemma fixed_step_spec v w : (v < length (vl w))%nat ->
  rest_same w (fixed_step v w) /\ out (fixed_step v w) = out w ++ (if fresh_hit w v then [Kick v] else []) /\
  (forall i, lget (fixed_step v w) i = if decide (i = v) then if hits w v then vlapic_set_vector vec APIC_IRR (lget w v) else lget w v else lget w i).
Proof.
  intros Hv. unfold fixed_step. assert (forall i, lget (upd_l v (vlapic_set_vector vec APIC_IRR) w) i = if decide (i = v) then vlapic_set_vector vec APIC_IRR (lget w v) else lget w i) as Hl.
  { intros i. case_decide as E; [subst; by apply lget_upd_eq|by apply lget_upd_ne]. }
  unfold fresh_hit. destruct (hits w v); cbn [andb].
  - cbv zeta. destruct (negb _); (split; [split; cbn; try done; apply length_alter|]); (split; [by cbn; rewrite ?app_nil_r|]); exact Hl.
  - split; [done|]. split; [by rewrite app_nil_r|]. intros i. by case_decide; subst.
Qed.

Lemma fixed_fold vs : NoDup vs -> forall w, (forall i, i ∈ vs -> (i < length (vl w))%nat) ->
  let w' := foldl (fun w v => fixed_step v w) w vs in
  rest_same w w' /\ out w' = out w ++ (Kick <$> filter (fun v => fresh_hit w v = true) vs) /\
  (forall i, lget w' i = if decide (i ∈ vs) then if hits w i then vlapic_set_vector vec APIC_IRR (lget w i) else lget w i else lget w i).
Proof.
  induction 1 as [|v vs Hnin _ IH]; intros w Hlt; cbn [foldl].
  { split; [done|]. split; [by rewrite app_nil_r|]. intros i. rewrite decide_False; [done|apply not_elem_of_nil]. }
  destruct (fixed_step_spec v w) as (S1 & S2 & S3); [apply Hlt; by left|]. set (w1 := fixed_step v w) in *. clearbody w1.
  assert (forall i, i <> v -> lget w1 i = lget w i) as Hne by (intros i Hi; rewrite S3; by rewrite decide_False).
  destruct (IH w1) as (I1 & I2 & I3); [intros i Hi; rewrite (rs_len _ _ S1); apply Hlt; by right|].
  assert (forall i, i <> v -> hits w1 i = hits w i /\ fresh_hit w1 i = fresh_hit w i) as Hh by (intros i Hi; unfold fresh_hit, hit; by rewrite Hne).
  split; [destruct S1, I1; split; congruence|]. split.
  - rewrite I2, S2, <- app_assoc. f_equal. rewrite filter_cons. assert (filter (fun v => fresh_hit w1 v = true) vs = filter (fun v => fresh_hit w v = true) vs) as ->.
    { apply filter_ext_in. intros u Hu. destruct (Hh u) as [_ ->]; [by intros ->|done]. }
    destruct (fresh_hit w v); [by rewrite decide_True|by rewrite decide_False].
  - intros i. rewrite I3. destruct (decide (i = v)) as [->|Hi].
    + rewrite decide_False by done. rewrite decide_True by (by left). rewrite S3. by rewrite decide_True.
    + destruct (Hh i Hi) as [-> _]. rewrite (Hne i Hi). destruct (decide (i ∈ vs)); [rewrite decide_True by (by right)|rewrite decide_False by (rewrite elem_of_cons; tauto)]; done.
Qed.
End Fixed.

(** C18. A fixed interrupt reaches exactly its destination.  The vector is
    requested in every enabled APIC of the domain that the destination matches
    and in no other, nothing else changes, and exactly the CPUs where it was not
    requested before are kicked, in the order of their numbers. *)
Theorem fixed_ipi_reaches i lo hi w : NoDup ids -> (forall v, v ∈ ids -> (v < length (vl w))%nat) -> lo .& APIC_MODE_MASK = APIC_DM_FIXED ->
  let r := vlapic_ipi ids current i lo hi w in
  let dest := if vlapic_x2apic_mode (lget w i) then hi else (hi .>> 24) .& 0xff in
  let reached v := hit (Some i) (lo .& APIC_SHORT_MASK) dest (truthy (lo .& APIC_DEST_MASK)) w v in
  r.1 = X86EMUL_OKAY /\ rest_same w r.2 /\
  (forall v, lget r.2 v = if decide (v ∈ ids) then if reached v then vlapic_set_vector (lo mod 2 ^ 8) APIC_IRR (lget w v) else lget w v else lget w v) /\
  out r.2 = out w ++ (Kick <$> filter (fun v => reached v && negb (vlapic_test_vector (lo mod 2 ^ 8) APIC_IRR (lget w v)) = true) ids).
Proof.
  intros Hnd Hlt Hm. unfold vlapic_ipi. cbv zeta. rewrite Hm. cbn [Z.eqb APIC_DM_FIXED APIC_DM_LOWEST]. rewrite ipi_each_fixed by done. cbn [fst snd].
  match goal with |- context [fixed_step _ ?sh ?d ?dm _] => destruct (fixed_fold i sh d dm lo ids Hnd w Hlt) as (H1 & H2 & H3) end.
  split_and!; [done|exact H1|exact H3|exact H2].
Qed.

End Delivery.


(** ** A new domain *)

(** Initialising an APIC establishes the invariant for it. *)
Lemma reset_establishes i l : wf l -> init_sipi l = None -> lapic_ok (reset_regs i l).
Proof.
  intros Hw Hs. unfold reset_regs. cbv zeta.
  assert (forall r x l, wf l /\ init_sipi l = None -> wf (vlapic_set_reg r x l) /\ init_sipi (vlapic_set_reg r x l) = None) as H1
    by (intros r x l1 [? ?]; split; [by apply set_reg_wf|done]).
  assert (forall l, wf l /\ init_sipi l = None -> wf (clear_bitmaps l) /\ init_sipi (clear_bitmaps l) = None) as H2.
  { unfold clear_bitmaps. generalize (seqZ 0 8). intros xs. induction xs as [|x xs IH]; intros l1 Hl; [done|]. cbn [foldl]. apply IH. auto. }
  assert (forall x l, wf l /\ init_sipi l = None -> lapic_ok (vlapic_set_tdcr x l)) as H3.
  { intros x l1 Hl. split; [destruct (H1 APIC_TDCR (x .& 0xb) l1 Hl) as [[] _]; by split|apply tdcr_divisor|]. destruct Hl as [_ Hn]. cbn. by rewrite Hn. }
  apply set_disabled_ok, set_reg_ok, mask_lvts_ok, set_reg_ok, H3. auto 20.
Qed.

Definition new_lapic (i : nat) : vlapic :=
  set_base (set_disabled (reset_regs (Z.of_nat i) blank) 0) (MSR_IA32_APICBASE_ENABLE .| APIC_DEFAULT_PHYS_BASE).

(** Three CPUs, the first of which runs. *)
Definition new_domain : lapics :=
  LS (new_lapic <$> [0; 1; 2]%nat) (Vpt.vpt_init Vpt.delay_for_missed_ticks false 1000 3) (Some 0%nat) 0 0 [true; false; false] [false; false; false] [].

Lemma new_domain_ok : lapics_ok 3 new_domain.
Proof.
  assert (forall i, lapic_ok (new_lapic i)) as H.
  { intros i. apply set_base_ok, set_disabled_ok, reset_establishes; [|done]. split; [reflexivity|apply Forall_replicate; lia]. }
  split; [done|apply Forall_fmap, Forall_true; exact H|apply Vpt.vpt_init_ok|done..].
Qed.

Lemma three_cpus i : i ∈ [0; 1; 2]%nat -> (i < 3)%nat.
Proof. rewrite !elem_of_cons, elem_of_nil. lia. Qed.

(** A periodic timer is programmed, read and reprogrammed, another CPU is
    started, and the timer interrupts the first one. *)
Definition boot_ops : list (Z * nat * lop) :=
  [(1000, 0%nat, Write (APIC_DEFAULT_PHYS_BASE + APIC_LVTT) 4 0x20031); (1001, 0%nat, Write (APIC_DEFAULT_PHYS_BASE + APIC_TMICT) 4 500000);
   (5001, 0%nat, Read (APIC_DEFAULT_PHYS_BASE + APIC_TMCCT) 4); (5002, 0%nat, Write (APIC_DEFAULT_PHYS_BASE + APIC_TDCR) 1 0xb);
   (5003, 0%nat, Read (APIC_DEFAULT_PHYS_BASE + APIC_TMCCT) 4); (5004, 0%nat, Write (APIC_DEFAULT_PHYS_BASE + APIC_ICR) 4 0xc4610);
   (5005, 0%nat, Tasklet); (5006, 1%nat, Init true); (9000000, 0%nat, Fire 0);
   (9000001, 0%nat, UpdateIrq [Vpic.vpic_zero; Vpic.vpic_zero] (Vioapic.VioapicState 0 0 0 (replicate 48 0))); (9000002, 0%nat, TakeIrq);
   (9000003, 0%nat, IntrPost [Vpic.vpic_zero; Vpic.vpic_zero] (Vioapic.VioapicState 0 0 0 (replicate 48 0)) Vpt.hvm_intsrc_lapic 0x31)].


(** CPU 1 has a lower priority than CPU 2, and neither is the sender. *)
Definition busy_domain : lapics := upd_l 2 (vlapic_set_reg APIC_TASKPRI 0x40) new_domain.


Lemma fixed_ipi_reaches_witness :
  lget (vlapic_ipi [0; 1; 2]%nat 0 0 0xc0031 0 new_domain).2 2 = vlapic_set_vector 0x31 APIC_IRR (lget new_domain 2) /\
  lget (vlapic_ipi [0; 1; 2]%nat 0 0 0xc0031 0 new_domain).2 0 = lget new_domain 0.
Proof.
  destruct (fixed_ipi_reaches [0; 1; 2]%nat 0 0 0xc0031 0 new_domain) as (_ & _ & H & _).
  - apply (bool_decide_unpack _). vm_compute. exact I.
  - exact three_cpus.
  - reflexivity.
  - split; [rewrite (H 2%nat)|rewrite (H 0%nat)]; vm_compute; reflexivity.
Defined.

(** ** STARTUP in x2APIC mode *)

(** A STARTUP is handed to one CPU at a time, and its sender is told to repeat
    the command.  A write to the MSR reports success to the guest instead: of
    two CPUs that a broadcast STARTUP should start, only the first starts,
    while the same write to memory asks for the instruction to be repeated. *)
Definition x2_domain : lapics := upd_l 0 (fun l => set_base l (apic_base_msr (hw l) .| MSR_IA32_APICBASE_EXTD)) new_domain.

Lemma x2apic_startup_reaches_one :
  (hvm_x2apic_msr_write [0; 1; 2]%nat 1000 0 0 0x830 0xc4610 x2_domain).1 = false /\
  (exists w', vlapic_init_sipi_action 0 (hvm_x2apic_msr_write [0; 1; 2]%nat 1000 0 0 0x830 0xc4610 x2_domain).2 = Ret w' /\ vinit w' = [true; true; false]) /\
  (exists w', vlapic_write [0; 1; 2]%nat 1000 0 0 (APIC_DEFAULT_PHYS_BASE + APIC_ICR) 4 0xc4610 new_domain = Ret (X86EMUL_RETRY, w')).
Proof.
  split_and!; [vm_compute; reflexivity| |].
  - eexists. split; [vm_compute; reflexivity|reflexivity].
  - eexists. vm_compute. reflexivity.
Qed.

End Lapics.
