(* ===== verification/LapicMigrate.v ===== *)
(** The local APICs of a guest survive a migration.

    Models the handlers of types LAPIC and LAPIC_REGS of
    xen/arch/x86/hvm/vlapic.c, shows that they meet the contract of
    [HvmContext], and follows the state of all APICs, with their timers, from
    the source to the target. *)

From S2P Require Import Prelude HvmContext HvmHandler Vioapic Vpt Vlapic Lapics.

Module LapicMigrate.
Import HvmContext HvmHandler Vlapic Lapics.

Definition LAPIC : htype := HType 5 24 None.
Definition LAPIC_REGS : htype := HType 6 1024 None.

(** ** Structures as bytes *)

Definition hw_lapic_bytes (h : hvm_hw_lapic) : list Z :=
  le_bytes 8 (apic_base_msr h) ++ le_bytes 4 (disabled h) ++ le_bytes 4 (timer_divisor h) ++ le_bytes 8 (tdt_msr h).
Definition hw_lapic_of (bs : list Z) : hvm_hw_lapic :=
  HwLapic (le_val (take 8 bs)) (le_val (take 4 (drop 8 bs))) (le_val (take 4 (drop 12 bs))) (le_val (take 8 (drop 16 bs))).

(** The part of the page that is [struct hvm_hw_lapic_regs]. *)
Definition saved_words (l : vlapic) : list Z := take SAVED_WORDS (regs l).
(** Exactly [SAVED_WORDS] words are copied. *)
Definition words_bytes (ws : list Z) : list Z := resize SAVED_WORDS 0 ws ≫= le_bytes 4.
Definition words_of (bs : list Z) : list Z := map (fun k => le_val (take 4 (drop (4 * k) bs))) (seq 0 SAVED_WORDS).
Definition with_saved (ws : list Z) (l : vlapic) : vlapic := with_regs l (ws ++ drop SAVED_WORDS (regs l)).

Record hw_typed (h : hvm_hw_lapic) : Prop := {
  ht_base : 0 <= apic_base_msr h < 2 ^ 64; ht_disabled : 0 <= disabled h < 2 ^ 32; ht_divisor : 0 <= timer_divisor h < 2 ^ 32; ht_tdt : 0 <= tdt_msr h < 2 ^ 64
}.

Lemma hw_lapic_bytes_length h : length (hw_lapic_bytes h) = 24%nat.
Proof. unfold hw_lapic_bytes. by rewrite !length_app, !le_bytes_length. Qed.

Lemma hw_lapic_of_bytes h : hw_typed h -> hw_lapic_of (hw_lapic_bytes h) = h.
Proof.
  intros [H1 H2 H3 H4]. destruct h as [a b c e]. cbn [apic_base_msr disabled timer_divisor tdt_msr] in *. unfold hw_lapic_of, hw_lapic_bytes. cbn [apic_base_msr disabled timer_divisor tdt_msr]. f_equal.
  - rewrite take_app_length' by (by rewrite le_bytes_length). rewrite le_val_bytes. by apply Z.mod_small.
  - rewrite drop_app_length', take_app_length' by (by rewrite le_bytes_length). rewrite le_val_bytes. by apply Z.mod_small.
  - rewrite app_assoc, drop_app_length', take_app_length' by (rewrite ?length_app, ?le_bytes_length; done). rewrite le_val_bytes. by apply Z.mod_small.
  - rewrite !app_assoc, drop_app_length', take_ge by (rewrite ?length_app, ?le_bytes_length; done). rewrite le_val_bytes. by apply Z.mod_small.
Qed.

Lemma words_bytes_length ws : length (words_bytes ws) = 1024%nat.
Proof. unfold words_bytes. rewrite (Vioapic.bind_const_length _ 4) by (intros; apply le_bytes_length). by rewrite length_resize. Qed.

Lemma words_of_length bs : length (words_of bs) = SAVED_WORDS.
Proof. unfold words_of. by rewrite length_map, length_seq. Qed.

Lemma words_of_bytes ws : length ws = SAVED_WORDS -> Forall (fun x => 0 <= x < 2 ^ 32) ws -> words_of (words_bytes ws) = ws.
Proof.
  intros Hl Hw. unfold words_of, words_bytes. rewrite resize_all_alt by done. apply list_eq. intros k. rewrite list_lookup_fmap.
  destruct (decide (k < SAVED_WORDS)%nat) as [Hk|Hk].
  2: { rewrite (lookup_ge_None_2 ws), (lookup_ge_None_2 (seq 0 SAVED_WORDS)) by (rewrite ?length_seq; lia). done. }
  rewrite lookup_seq_lt by done. cbn [fmap option_fmap option_map]. rewrite Nat.add_0_l. destruct (lookup_lt_is_Some_2 ws k) as [x Hx]; [lia|].
  rewrite <- (app_nil_r (ws ≫= le_bytes 4)), (Vioapic.bind_block _ 4 _ _ x); [|intros; apply le_bytes_length|done]. rewrite le_val_bytes, Hx. f_equal.
  apply Z.mod_small. exact (Forall_lookup_1 _ _ _ _ Hw Hx).
Qed.

(** ** The handlers *)

Section Handlers.
Context {S : Type} `{!Component S lapics}.
Context (guest_tsc tsc_offset : nat -> Z) (gtsc_to_gtime : Z -> Z) (now : Z).
Implicit Types d : hdom S.

Definition hidden_items d : list (Z * list Z) := map (fun i => (Z.of_nat i, hw_lapic_bytes (hw (lget (dget d) i)))) (vcpu_ids d).
Definition regs_items d : list (Z * list Z) := map (fun i => (Z.of_nat i, words_bytes (saved_words (lget (dget d) i)))) (vcpu_ids d).

Definition lapic_save_hidden (d : hdom S) (h : hctx) : run (Z * hctx * hdom S) :=
  let '(rc, h) := save_each LAPIC (fun rc => rc) (hidden_items d) h in Ret (rc, h, d).

Definition lapic_save_regs (d : hdom S) (h : hctx) : run (Z * hctx * hdom S) :=
  let '(rc, h) := save_each LAPIC_REGS (fun rc => rc) (regs_items d) h in Ret (rc, h, d).

(** What a record that was read changes. *)
Definition put_hidden (i : nat) (h : hvm_hw_lapic) (w : lapics) : lapics := emit (MsrChanged i) (upd_l i (fun l => with_hw l h) w).
Definition put_regs (ids : list nat) (i : nat) (ws : list Z) (w : lapics) : lapics :=
  lapic_rearm guest_tsc tsc_offset gtsc_to_gtime now i (vlapic_adjust_i8259_target ids (upd_l i (with_saved ws) w)).

Definition lapic_load_hidden (d : hdom S) (h : hctx) : run (Z * hctx * hdom S) :=
  let vcpuid := hvm_load_instance h in
  if no_vcpu d vcpuid then Ret (- EINVAL, h, d)
  else
    '(r, h, data) ← hvm_load_entry_zeroextend LAPIC h (hw_lapic_bytes (hw (lget (dget d) (Z.to_nat vcpuid))));
    if negb (r =? 0) then Ret (- EINVAL, h, d) else Ret (0, h, dput (put_hidden (Z.to_nat vcpuid) (hw_lapic_of data) (dget d)) d).

Definition lapic_load_regs (d : hdom S) (h : hctx) : run (Z * hctx * hdom S) :=
  let vcpuid := hvm_load_instance h in
  if no_vcpu d vcpuid then Ret (- EINVAL, h, d)
  else
    '(r, h, data) ← hvm_load_entry LAPIC_REGS h (words_bytes (saved_words (lget (dget d) (Z.to_nat vcpuid))));
    if negb (r =? 0) then Ret (- EINVAL, h, d) else Ret (0, h, dput (put_regs (vcpu_ids d) (Z.to_nat vcpuid) (words_of data) (dget d)) d).

Definition hidden_handler : handler S := Handler lapic_save_hidden lapic_load_hidden (reg_size 1 LAPIC) HVMSR_PER_VCPU.
Definition regs_handler : handler S := Handler lapic_save_regs lapic_load_regs (reg_size 1 LAPIC_REGS) HVMSR_PER_VCPU.

Definition need_vcpu (i : Z) (d : hdom S) : Z * hdom S := (if no_vcpu d i then - EINVAL else 0, d).

Definition hidden_shape : shape S :=
  Shape LAPIC false 1 HVMSR_PER_VCPU (fun rc => rc) hidden_items (fun d => d) need_vcpu (fun i d => hw_lapic_bytes (hw (lget (dget d) (Z.to_nat i))))
    (fun i data d => (0, dput (put_hidden (Z.to_nat i) (hw_lapic_of data) (dget d)) d)).
Definition regs_shape : shape S :=
  Shape LAPIC_REGS true 1 HVMSR_PER_VCPU (fun rc => rc) regs_items (fun d => d) need_vcpu (fun i d => words_bytes (saved_words (lget (dget d) (Z.to_nat i))))
    (fun i data d => (0, dput (put_regs (vcpu_ids d) (Z.to_nat i) (words_of data) (dget d)) d)).

Definition hidden_device : device S := shape_device hidden_handler hidden_shape.
Definition regs_device : device S := shape_device regs_handler regs_shape.

Lemma items_length (f : nat -> list Z) (n : Z) (l : list nat) : (forall i, Z.of_nat (length (f i)) = n) ->
  Forall (fun x => Z.of_nat (length x.2) = n) (map (fun i => (Z.of_nat i, f i)) l).
Proof. intros H. induction l as [|i l IH]; constructor; [apply H|exact IH]. Qed.

#[export] Instance hidden_laws : DeviceLaws 5 hidden_device.
Proof.
  apply (shape_laws hidden_handler hidden_shape).
  - split; try done; cbn [hidden_shape sh_type sh_items sh_kind sh_num sh_init]; intros.
    + unfold hidden_items. apply items_length. intros. by rewrite hw_lapic_bytes_length.
    + unfold hidden_items. rewrite length_map. lia.
  - split; try done. intros d h. cbn [hidden_handler h_load]. unfold lapic_load_hidden, shape_load. cbn [hidden_shape sh_pre sh_type sh_strict sh_init sh_post need_vcpu].
    by destruct (no_vcpu d _).
Qed.

#[export] Instance regs_laws : DeviceLaws 6 regs_device.
Proof.
  apply (shape_laws regs_handler regs_shape).
  - split; try done; cbn [regs_shape sh_type sh_items sh_kind sh_num sh_init]; intros.
    + unfold regs_items. apply items_length. intros. by rewrite words_bytes_length.
    + unfold regs_items. rewrite length_map. lia.
    + by rewrite words_bytes_length.
  - split; try done. intros d h. cbn [regs_handler h_load]. unfold lapic_load_regs, shape_load. cbn [regs_shape sh_pre sh_type sh_strict sh_init sh_post need_vcpu].
    by destruct (no_vcpu d _).
Qed.

(** [hvm_sr_handlers], with the two types of this file. *)
Definition lapic_devices : list (option (device S)) := replicate 5 None ++ [Some hidden_device; Some regs_device].
Definition lapic_table : list (option (handler S)) := table lapic_devices.

Lemma lapic_devices_laws i dv : lapic_devices !! i = Some (Some dv) -> DeviceLaws i dv.
Proof.
  intros H. do 7 (destruct i as [|i]; [cbn in H; try discriminate H; injection H as <-; eauto using hidden_laws, regs_laws|]). done.
Qed.

End Handlers.

(** ** What loading changes *)

Lemma retarget_other {C} v i (m : Vpt.pl_time C) : Vpt.pt (Vpt.pt_adjust_global_vcpu_target v m) (pt_id i) = Vpt.pt m (pt_id i).
Proof.
  destruct v as [v|]; [|done]. cbn [Vpt.pt_adjust_global_vcpu_target]. assert (Forall (fun k => k <> pt_id i) Vpt.global_timers) as H.
  { apply Forall_forall. intros k Hk. apply elem_of_seq in Hk. unfold pt_id, Vpt.lapic_timer. lia. }
  revert m. induction H as [|k l Hk _ IH]; intros m; [done|]. cbn [foldl]. by rewrite IH, Vpt.adjust_other.
Qed.

Section Loaded.
Context (guest_tsc tsc_offset : nat -> Z) (gtsc_to_gtime : Z -> Z) (now : Z).
Implicit Types (w : lapics) (l : vlapic).

Abbreviation tm w i := (Vpt.pt (plt w) (pt_id i)).

(** Whether the timer is armed after a restore. *)
Definition rearms l : bool := if vlapic_lvtt_tdt l then truthy (tdt_msr (hw l)) else truthy (vlapic_get_reg l APIC_TMICT).

(** How long after the restore it goes off, where the guest's time is [g]: a
    timer that counts down restarts with its whole count, a deadline is left
    at the guest's time it stands for, and one that has passed is due now. *)
Definition delay l (i : nat) (g : Z) : Z :=
  if vlapic_lvtt_tdt l then
    if tdt_msr (hw l) <=? guest_tsc i then 0 else Z.max (Vpt.s64 (gtsc_to_gtime (u64 (tdt_msr (hw l) - tsc_offset i)) - g)) 0
  else timer_period l (vlapic_get_reg l APIC_TMICT).

(** Timer [p] is the one of APIC [l], armed on CPU [i] of the machine [m], whose
    clock was read less than [k] times before. *)
Record rearmed (m : Vpt.pl_time lapic_cb) (k : Z) l (i : nat) (p : Vpt.periodic_time lapic_cb) : Prop := {
  ra_list : Vpt.on_list p = true;
  ra_vcpu : Vpt.pt_vcpu p = Some i;
  ra_period : Vpt.period p = Vpt.min_period (if vlapic_lvtt_period l then timer_period l (vlapic_get_reg l APIC_TMICT) else 0);
  ra_cb : Vpt.cb p = if vlapic_lvtt_tdt l then Some (TdtCb i) else if vlapic_lvtt_period l then Some (PtCb i) else None;
  ra_due : exists c, 0 <= c < k /\
    Vpt.scheduled p = Vpt.first_tick now (delay l i (u64 (Vpt.reading now i m + c))) m (Vpt.source (Vpt.pt m (pt_id i))) (Vpt.period p);
  ra_timer : Vpt.timer p = Some (Vpt.scheduled p)
}.

(** The state [w] holds the APIC [l] of the source as that of CPU [i] of a
    domain whose timers were [m]. *)
Record restored (m : Vpt.pl_time lapic_cb) (k : Z) l (i : nat) w : Prop := {
  rd_base : apic_base_msr (hw (lget w i)) = apic_base_msr (hw l);
  rd_disabled : disabled (hw (lget w i)) = disabled (hw l);
  rd_divisor : timer_divisor (hw (lget w i)) = timer_divisor (hw l);
  rd_tdt : tdt_msr (hw (lget w i)) = if vlapic_lvtt_tdt l && truthy (tdt_msr (hw l)) && (tdt_msr (hw l) <=? guest_tsc i) then 0 else tdt_msr (hw l);
  rd_regs : saved_words (lget w i) = saved_words l;
  rd_irq : Vpt.pt_irq (tm w i) = vlapic_get_reg l APIC_LVTT .& APIC_VECTOR_MASK;
  rd_timer : rearms l = true -> rearmed m k l i (tm w i)
}.

(** Registers below [SAVED_WORDS] depend on the saved part only. *)
Lemma saved_reg l l' reg : saved_words l' = saved_words l -> 0 <= reg < 1024 -> vlapic_get_reg l' reg = vlapic_get_reg l reg.
Proof.
  intros E Hr. unfold vlapic_get_reg. rewrite !list_lookup_total_alt. f_equal.
  rewrite <- (lookup_take_lt (regs l') SAVED_WORDS), <- (lookup_take_lt (regs l) SAVED_WORDS) by (unfold SAVED_WORDS; zlia). unfold saved_words in E. by rewrite E.
Qed.

Lemma vl_adjust ids w : vl (vlapic_adjust_i8259_target ids w) = vl w.
Proof. unfold vlapic_adjust_i8259_target. cbv zeta. by case_decide. Qed.
Lemma tm_adjust ids w i : tm (vlapic_adjust_i8259_target ids w) i = tm w i.
Proof. unfold vlapic_adjust_i8259_target. cbv zeta. case_decide; [done|]. apply retarget_other. Qed.

Lemma ticked_adjust_target ids w : Vpt.ticked now 0 (plt w) (plt (vlapic_adjust_i8259_target ids w)).
Proof. unfold vlapic_adjust_i8259_target. cbv zeta. case_decide; [by apply Vpt.ticked_same|]. exact (Vpt.ticked_retarget now _ (plt w)). Qed.

Lemma pt_id_ne i j : i <> j -> pt_id i <> pt_id j.
Proof. unfold pt_id, Vpt.lapic_timer. lia. Qed.

(** Arming the timer of [i] changes nothing else, of APIC [i] only the time of
    the last update. *)
Lemma arm_other v i delta per call w j : i <> j -> lget (arm now v i delta per call w) j = lget w j /\ tm (arm now v i delta per call w) j = tm w j.
Proof. intros H. unfold arm. cbv zeta. rewrite lget_upd_ne by done. split; [done|]. cbn [plt upd_l with_plt]. apply Vpt.create_other. by apply pt_id_ne. Qed.

Lemma arm_self v i delta per call w : (i < length (vl w))%nat -> (pt_id i < length (Vpt.pts (plt w)))%nat ->
  let w' := arm now v i delta per call w in
  hw (lget w' i) = hw (lget w i) /\ regs (lget w' i) = regs (lget w i) /\
  Vpt.on_list (tm w' i) = true /\ Vpt.pt_vcpu (tm w' i) = Some v /\ Vpt.pt_irq (tm w' i) = Vpt.pt_irq (tm w i) /\
  Vpt.period (tm w' i) = Vpt.min_period per /\ Vpt.cb (tm w' i) = call /\
  Vpt.scheduled (tm w' i) = Vpt.first_tick now delta (plt w) (Vpt.source (tm w i)) (Vpt.min_period per) /\
  Vpt.timer (tm w' i) = Some (Vpt.scheduled (tm w' i)) /\ Vpt.ticked now 1 (plt w) (plt w').
Proof.
  intros Hi Hk. unfold arm. cbv zeta. rewrite lget_upd_eq by done. cbn [hw regs with_update lget with_plt vl plt upd_l]. split; [done|]. split; [done|].
  destruct (Vpt.create_timer now v (pt_id i) delta per (Vpt.pt_irq (tm w i)) call (plt w) Hk) as (? & ? & ? & ? & _ & ? & _ & _ & _ & ? & ?).
  split_and!; try done. apply Vpt.ticked_create.
Qed.

Lemma set_irq_spec i x w : (pt_id i < length (Vpt.pts (plt w)))%nat ->
  vl (set_pt_irq i x w) = vl w /\ Vpt.pt_irq (tm (set_pt_irq i x w) i) = x /\ length (Vpt.pts (plt (set_pt_irq i x w))) = length (Vpt.pts (plt w)) /\
  Vpt.source (tm (set_pt_irq i x w) i) = Vpt.source (tm w i) /\ Vpt.ticked now 0 (plt w) (plt (set_pt_irq i x w)) /\
  (forall j, i <> j -> tm (set_pt_irq i x w) j = tm w j).
Proof.
  intros Hk. unfold set_pt_irq. cbn [with_plt vl plt]. split; [done|]. split; [by rewrite Vpt.pt_upd_eq|]. split; [apply Vpt.length_upd_pt|].
  split; [by rewrite Vpt.pt_upd_eq|]. split; [by apply Vpt.ticked_same|].
  intros j Hj. apply Vpt.pt_upd_other. by apply pt_id_ne.
Qed.

(** Programming a deadline. *)
Lemma tdt_set_spec i x w : (i < length (vl w))%nat -> (pt_id i < length (Vpt.pts (plt w)))%nat -> vlapic_lvtt_tdt (lget w i) = true -> 0 < x ->
  let w' := vlapic_tdt_msr_set guest_tsc tsc_offset gtsc_to_gtime now i x w in
  let delta := if x <=? guest_tsc i then 0 else Z.max (Vpt.s64 (gtsc_to_gtime (u64 (x - tsc_offset i)) - Vpt.reading now i (plt w))) 0 in
  (forall j, i <> j -> lget w' j = lget w j /\ tm w' j = tm w j) /\
  hw (lget w' i) = hw (set_tdt (lget w i) (if x <=? guest_tsc i then 0 else x)) /\ regs (lget w' i) = regs (lget w i) /\
  Vpt.on_list (tm w' i) = true /\ Vpt.pt_vcpu (tm w' i) = Some i /\ Vpt.pt_irq (tm w' i) = Vpt.pt_irq (tm w i) /\
  Vpt.period (tm w' i) = Vpt.min_period 0 /\ Vpt.cb (tm w' i) = Some (TdtCb i) /\
  Vpt.scheduled (tm w' i) = Vpt.first_tick now delta (plt w) (Vpt.source (tm w i)) (Vpt.min_period 0) /\
  Vpt.timer (tm w' i) = Some (Vpt.scheduled (tm w' i)) /\ Vpt.ticked now 2 (plt w) (plt w').
Proof.
  intros Hi Hk Ht Hx. unfold vlapic_tdt_msr_set. rewrite Ht. cbn [negb].
  assert (Vpt.ticked now 1 (plt w) (Vpt.hvm_get_guest_time now i (plt w)).2) as Hr by (by apply (Vpt.ticked_read now i)).
  assert (Vpt.pts (Vpt.hvm_get_guest_time now i (plt w)).2 = Vpt.pts (plt w)) as Ep by done.
  unfold Vpt.reading. destruct (Vpt.hvm_get_guest_time now i (plt w)) as [g p]. cbn [snd fst] in *.
  assert (forall j, Vpt.pt p (pt_id j) = tm w j) as Et by (intros j; unfold Vpt.pt; by rewrite Ep).
  assert (forall y delta, let w1 := upd_l i (fun l => set_tdt l y) (with_plt w p) in let w' := arm now i i delta 0 (Some (TdtCb i)) w1 in
    (forall j, i <> j -> lget w' j = lget w j /\ tm w' j = tm w j) /\ hw (lget w' i) = hw (set_tdt (lget w i) y) /\ regs (lget w' i) = regs (lget w i) /\
    Vpt.on_list (tm w' i) = true /\ Vpt.pt_vcpu (tm w' i) = Some i /\ Vpt.pt_irq (tm w' i) = Vpt.pt_irq (tm w i) /\
    Vpt.period (tm w' i) = Vpt.min_period 0 /\ Vpt.cb (tm w' i) = Some (TdtCb i) /\
    Vpt.scheduled (tm w' i) = Vpt.first_tick now delta (plt w) (Vpt.source (tm w i)) (Vpt.min_period 0) /\
    Vpt.timer (tm w' i) = Some (Vpt.scheduled (tm w' i)) /\ Vpt.ticked now 2 (plt w) (plt w')) as H.
  { intros y delta w1 w'. assert (i < length (vl w1))%nat as Hi1 by (unfold w1; cbn [vl upd_l with_plt]; by rewrite length_alter).
    destruct (arm_self i i delta 0 (Some (TdtCb i)) w1 Hi1 ltac:(unfold w1; cbn [plt upd_l with_plt]; by rewrite Ep)) as (H1 & H2 & H3 & H4 & H5 & H6 & H7 & H8 & H9 & H10). fold w' in H1, H2, H3, H4, H5, H6, H7, H8, H9, H10.
    assert (lget w1 i = set_tdt (lget w i) y) as E by (unfold w1; by rewrite lget_upd_eq). rewrite E in H1, H2. change (tm w1 i) with (Vpt.pt p (pt_id i)) in H5, H8. rewrite Et in H5, H8. split; [|split_and!; try done].
    - intros j Hj. unfold w'. destruct (arm_other i i delta 0 (Some (TdtCb i)) w1 j Hj) as [-> ->]. split; [unfold w1; by rewrite lget_upd_ne|exact (Et j)].
    - exact (Vpt.ticked_trans now 1 1 _ _ _ ltac:(lia) ltac:(lia) Hr H10). }
  destruct (Z.gtb_spec x (guest_tsc i)); destruct (Z.leb_spec x (guest_tsc i)); try lia.
  - apply H.
  - destruct (Z.gtb_spec x 0); [|lia]. apply (H 0 0).
Qed.

Lemma rearm_spec i w : (i < length (vl w))%nat -> (pt_id i < length (Vpt.pts (plt w)))%nat -> 0 <= tdt_msr (hw (lget w i)) ->
  let w' := lapic_rearm guest_tsc tsc_offset gtsc_to_gtime now i w in
  (forall j, i <> j -> lget w' j = lget w j /\ tm w' j = tm w j) /\ (Vpt.steady now 1 (plt w) -> restored (plt w) 1 (lget w i) i w') /\
  exists c, 0 <= c <= 2 /\ Vpt.ticked now c (plt w) (plt w').
Proof.
  intros Hi Hk Ht. unfold lapic_rearm. destruct (set_irq_spec i (vlapic_get_reg (lget w i) APIC_LVTT .& APIC_VECTOR_MASK) w Hk) as (Ev & Ei & Ek & Es & Er & Eo).
  set (w0 := set_pt_irq i _ w) in *. clearbody w0. assert (forall j, lget w0 j = lget w j) as El by (intros j; unfold lget; by rewrite Ev).
  assert (i < length (vl w0))%nat as Hi0 by (by rewrite Ev). rewrite El. set (l := lget w i) in *. cbv zeta.
  assert (forall delta per, Vpt.first_tick now delta (plt w0) (Vpt.source (tm w0 i)) per = Vpt.first_tick now delta (plt w) (Vpt.source (tm w i)) per) as Ef
    by (intros; rewrite Es; apply Vpt.first_tick_align, Er).
  assert (Vpt.steady now 1 (plt w) -> Vpt.reading now i (plt w0) = u64 (Vpt.reading now i (plt w) + 0)) as Eg by (intros Hs; by apply (proj2 Er 1)).
  destruct (vlapic_lvtt_tdt l) eqn:Etdt.
  - unfold vlapic_tdt_msr_get. rewrite El. fold l. rewrite Etdt. destruct (truthy (tdt_msr (hw l))) eqn:Ez.
    + assert (0 < tdt_msr (hw l)) as Hpos by (unfold truthy in Ez; destruct (Z.eqb_spec (tdt_msr (hw l)) 0); [done|lia]).
      destruct (tdt_set_spec i (tdt_msr (hw l)) w0 Hi0 ltac:(by rewrite Ek) ltac:(by rewrite El) Hpos) as (H0 & H1 & H2 & H3 & H4 & H5 & H6 & H7 & H8 & H9 & H10).
      set (w' := vlapic_tdt_msr_set _ _ _ _ _ _ w0) in *. clearbody w'. rewrite El in H1, H2. fold l in H1, H2.
      split; [intros j Hj; destruct (H0 j Hj) as [-> ->]; rewrite El, Eo; done|].
      assert (vlapic_lvtt_period l = false) as Ep by (unfold vlapic_lvtt_tdt, vlapic_lvtt_period in *; apply Z.eqb_eq in Etdt; rewrite Etdt; reflexivity).
      split; [|exists 2; split; [lia|exact (Vpt.ticked_trans now 0 2 _ _ _ ltac:(lia) ltac:(lia) Er H10)]]. intros Hs.
      split; rewrite ?H1; try done; [rewrite Etdt, Ez; done|unfold saved_words; by rewrite H2|by rewrite H5|]. intros _. split; rewrite ?Etdt, ?Ep; try done.
      exists 0. split; [lia|]. unfold delay. by rewrite Etdt, <- (Eg Hs), H8, H6, Ef.
    + split; [intros j Hj; by rewrite El, Eo|]. split; [|exists 0; split; [lia|done]]. intros _. split; rewrite ?El; try done; [by rewrite Ez, andb_false_r|]. unfold rearms. by rewrite Etdt, Ez.
  - destruct (Z.eqb_spec (vlapic_get_reg l APIC_TMICT) 0) as [Ez|Ez].
    + split; [intros j Hj; by rewrite El, Eo|]. split; [|exists 0; split; [lia|done]]. intros _. split; rewrite ?El; try done; [by rewrite Etdt|]. unfold rearms. by rewrite Etdt, Ez.
    + set (per := if vlapic_lvtt_period l then _ else 0). set (call := if vlapic_lvtt_period l then Some _ else None).
      destruct (arm_self i i (timer_period l (vlapic_get_reg l APIC_TMICT)) per call w0 Hi0 ltac:(by rewrite Ek)) as (H1 & H2 & H3 & H4 & H5 & H6 & H7 & H8 & H9 & H10).
      pose proof (arm_other i i (timer_period l (vlapic_get_reg l APIC_TMICT)) per call w0) as H0. set (w' := arm _ _ _ _ _ _ w0) in *. clearbody w'. rewrite El in H1, H2. fold l in H1, H2.
      split; [intros j Hj; destruct (H0 j Hj) as [-> ->]; rewrite El, Eo; done|].
      split; [|exists 1; split; [lia|exact (Vpt.ticked_trans now 0 1 _ _ _ ltac:(lia) ltac:(lia) Er H10)]]. intros Hs.
      split; rewrite ?H1; try done; [by rewrite Etdt|unfold saved_words; by rewrite H2|by rewrite H5|]. intros _. split; rewrite ?Etdt; try done.
      exists 0. split; [lia|]. unfold delay. by rewrite Etdt, H8, H6, Ef.
Qed.

(** [restored] with respect to an earlier state of the timers. *)
Lemma restored_since m0 c k0 m k l i w : 0 <= c -> c + k <= k0 -> Vpt.ticked now c m0 m -> Vpt.steady now c m0 -> Vpt.source (Vpt.pt m (pt_id i)) = Vpt.source (Vpt.pt m0 (pt_id i)) ->
  restored m k l i w -> restored m0 k0 l i w.
Proof.
  intros Hc Hk [Ha Hr] Hs Es []. split; try done. intros Hre. destruct (rd_timer0 Hre) as [? ? ? ? (c1 & Hc1 & E) ?]. split; try done.
  exists (c + c1). split; [lia|]. rewrite E, (proj2 (Hr c ltac:(lia) Hs)), Es. rewrite (Vpt.first_tick_align _ _ _ _ _ _ Ha). f_equal. f_equal.
  unfold u64. rewrite Zplus_mod_idemp_l. f_equal. lia.
Qed.

Lemma restored_ext m k l l' i w : hw l' = hw l -> saved_words l' = saved_words l -> restored m k l' i w -> restored m k l i w.
Proof.
  intros Eh Er. assert (vlapic_get_reg l' APIC_LVTT = vlapic_get_reg l APIC_LVTT) as E1 by (apply saved_reg; [done|unfold APIC_LVTT; lia]).
  assert (vlapic_get_reg l' APIC_TMICT = vlapic_get_reg l APIC_TMICT) as E2 by (apply saved_reg; [done|unfold APIC_TMICT; lia]).
  intros [H1 H2 H3 H4 H5 H6 H7]. assert (forall g, delay l' i g = delay l i g) as Ed.
  { intros g. unfold delay, vlapic_lvtt_tdt, timer_mode_bits, timer_period. by rewrite Eh, E1, E2. }
  assert (rearms l = true -> rearmed m k l i (tm w i)) as H7'.
  { intros Hre. destruct H7 as [A1 A2 A3 A4 (c & Hc & A5) A6].
    - unfold rearms, vlapic_lvtt_tdt, timer_mode_bits in *. by rewrite Eh, E1, E2.
    - unfold vlapic_lvtt_tdt, vlapic_lvtt_period, timer_mode_bits, timer_period in *. rewrite ?Eh, ?E1, ?E2 in *. rewrite Ed in A5. split; try done. by exists c. }
  clear H7 Ed. unfold vlapic_lvtt_tdt, timer_mode_bits in *. rewrite ?Eh, ?E1, ?E2, ?Er in *. by split.
Qed.

Lemma restored_frame m k l i w w' : lget w' i = lget w i -> tm w' i = tm w i -> restored m k l i w -> restored m k l i w'.
Proof. intros E1 E2 []. split; rewrite ?E1, ?E2; done. Qed.


Context (n : nat) (ids : list nat) (Hids : forall i, i ∈ ids -> (i < n)%nat).
(** The APICs of the source. *)
Context (src : nat -> vlapic).

Lemma with_saved_ok ws l : length ws = SAVED_WORDS -> Forall (fun x => 0 <= x < 2 ^ 32) ws -> lapic_ok l -> lapic_ok (with_saved ws l).
Proof.
  intros Hl Hw [[H1 H2] H3 H4]. split; [|done|done]. split; cbn [regs with_saved with_regs].
  - rewrite length_app, length_drop, Hl, H1. reflexivity.
  - apply Forall_app. split; [done|by apply Forall_drop].
Qed.

Lemma saved_words_ok l : wf l -> length (saved_words l) = SAVED_WORDS /\ Forall (fun x => 0 <= x < 2 ^ 32) (saved_words l).
Proof. intros [H1 H2]. unfold saved_words. split; [rewrite length_take, H1; reflexivity|by apply Forall_take]. Qed.

Lemma put_regs_spec i ws w : lapics_ok n w -> (i < n)%nat -> length ws = SAVED_WORDS -> Forall (fun x => 0 <= x < 2 ^ 32) ws -> 0 <= tdt_msr (hw (lget w i)) ->
  let w' := put_regs guest_tsc tsc_offset gtsc_to_gtime now ids i ws w in
  lapics_ok n w' /\ (forall j, i <> j -> lget w' j = lget w j /\ tm w' j = tm w j) /\ (Vpt.steady now 1 (plt w) -> restored (plt w) 1 (with_saved ws (lget w i)) i w') /\
  exists c, 0 <= c <= 2 /\ Vpt.ticked now c (plt w) (plt w').
Proof.
  intros Hw Hi Hl Hr Ht. unfold put_regs. set (w1 := upd_l i (with_saved ws) w). set (w2 := vlapic_adjust_i8259_target ids w1).
  assert (lapics_ok n w1) as Hw1 by (apply upd_l_ok; [intros; by apply with_saved_ok|done]).
  assert (lapics_ok n w2) as Hw2 by (apply adjust_target_ok; [exact Hids|done]).
  assert (forall j, lget w2 j = lget w1 j) as El by (intros j; unfold lget, w2; by rewrite vl_adjust).
  assert (lget w1 i = with_saved ws (lget w i)) as E1 by (apply lget_upd_eq; rewrite (ls_len _ _ Hw); lia).
  destruct (rearm_spec i w2) as (Ho & Hre & c & Hc & Htk); [rewrite (ls_len _ _ Hw2); lia|rewrite (ls_pts _ _ Hw2); unfold pt_id, Vpt.lapic_timer, Vpt.HPET_TIMER_NUM; lia|by rewrite El, E1|].
  rewrite El, E1 in Hre. pose proof (ticked_adjust_target ids w1) as Ht2. fold w2 in Ht2. change (plt w1) with (plt w) in Ht2.
  split; [|split; [|split]].
  - unfold lapic_rearm. cbv zeta. destruct (vlapic_lvtt_tdt _).
    + destruct (truthy _); [apply (tdt_set_ok guest_tsc tsc_offset gtsc_to_gtime n)|]; try done; by apply pt_irq_ok.
    + destruct (_ =? 0); [by apply pt_irq_ok|]. apply arm_ok; try done; [by apply pt_irq_ok|apply period_range].
  - intros j Hj. destruct (Ho j Hj) as [-> ->]. rewrite El. unfold w1, w2. rewrite lget_upd_ne by done. split; [done|]. rewrite tm_adjust. done.
  - intros Hs. apply (restored_since (plt w) 0 1 (plt w2) 1); try done; [|unfold w2; by rewrite tm_adjust|].
    + destruct Hs. split; lia.
    + apply Hre. by apply (proj2 Ht2 1).
  - exists c. split; [done|]. exact (Vpt.ticked_trans now 0 c _ _ _ ltac:(lia) ltac:(lia) Ht2 Htk).
Qed.

Definition hidden_all (l : list nat) w : lapics := foldl (fun w i => put_hidden i (hw (src i)) w) w l.
Definition regs_all (l : list nat) w : lapics := foldl (fun w i => put_regs guest_tsc tsc_offset gtsc_to_gtime now ids i (saved_words (src i)) w) w l.

Lemma hidden_all_spec (l : list nat) : forall w, lapics_ok n w -> (forall i, i ∈ l -> (i < n)%nat /\ lapic_ok (src i)) ->
  lapics_ok n (hidden_all l w) /\ forall i, hw (lget (hidden_all l w) i) = if decide (i ∈ l) then hw (src i) else hw (lget w i).
Proof using Type.
  clear Hids ids guest_tsc tsc_offset gtsc_to_gtime now. induction l as [|k l IH]; intros w Hw Hl; cbn [hidden_all foldl].
  { split; [done|]. intros i. rewrite decide_False; [done|apply not_elem_of_nil]. }
  destruct (Hl k) as [Hk Hs]; [by left|]. fold (hidden_all l (put_hidden k (hw (src k)) w)). set (w1 := put_hidden k (hw (src k)) w).
  assert (lapics_ok n w1) as Hw1.
  { apply emit_ok, upd_l_ok; [|done]. intros l0 [A1 A2 A3]. split; [by destruct A1|apply Hs|done]. }
  destruct (IH w1 Hw1) as [I1 I2]; [intros i Hi; apply Hl; by right|]. split; [done|]. intros i. rewrite I2.
  assert (hw (lget w1 i) = if decide (i = k) then hw (src k) else hw (lget w i)) as ->.
  { unfold w1, put_hidden. change (lget (emit ?e ?x) i) with (lget x i). case_decide as E; [subst; rewrite lget_upd_eq; [done|rewrite (ls_len _ _ Hw); lia]|by rewrite lget_upd_ne]. }
  destruct (decide (i ∈ l)); [by rewrite decide_True by (by right)|]. case_decide as E; [subst; by rewrite decide_True by (by left)|].
  rewrite decide_False; [done|]. rewrite elem_of_cons. tauto.
Qed.

Lemma hidden_all_plt (l : list nat) : forall w, plt (hidden_all l w) = plt w.
Proof using Type. clear Hids ids guest_tsc tsc_offset gtsc_to_gtime now n. induction l as [|k l IH]; intros w; [done|]. cbn [hidden_all foldl]. exact (IH (put_hidden k (hw (src k)) w)). Qed.

(** Loading the registers of one APIC after the other; [m0] is the state before
    the first, [c] readings of the clock ago. *)
Lemma regs_all_spec m0 (k0 : Z) (l : list nat) : NoDup l -> forall w c, lapics_ok n w ->
  0 <= c -> c + 2 * Z.of_nat (length l) <= k0 -> Vpt.ticked now c m0 (plt w) -> Vpt.steady now k0 m0 ->
  (forall i, i ∈ l -> (i < n)%nat /\ lapic_ok (src i) /\ hw_typed (hw (src i)) /\ hw (lget w i) = hw (src i) /\ Vpt.source (tm w i) = Vpt.source (Vpt.pt m0 (pt_id i))) ->
  lapics_ok n (regs_all l w) /\ (forall i, i ∈ l -> restored m0 k0 (src i) i (regs_all l w)) /\
  (forall i, i ∉ l -> lget (regs_all l w) i = lget w i /\ tm (regs_all l w) i = tm w i).
Proof using Type Hids.
  induction 1 as [|k l Hk _ IH]; intros w c Hw Hc Hck Htk Hst Hl; cbn [regs_all foldl].
  { split; [done|]. split; [|done]. intros i Hi. by apply not_elem_of_nil in Hi. }
  cbn [length] in Hck. destruct (Hl k) as (Hkn & Hs & Ht & Eh & Esrc); [by left|]. fold (regs_all l (put_regs guest_tsc tsc_offset gtsc_to_gtime now ids k (saved_words (src k)) w)).
  destruct (saved_words_ok (src k) (lo_wf _ Hs)) as [S1 S2].
  destruct (put_regs_spec k (saved_words (src k)) w Hw Hkn S1 S2) as (P1 & P2 & P3 & c1 & Hc1 & P4); [rewrite Eh; apply Ht|].
  set (w1 := put_regs _ _ _ _ _ _ _ w) in *. clearbody w1.
  assert (Vpt.steady now 1 (plt w)) as Hs1 by (destruct (proj2 Htk k0 ltac:(lia) Hst) as [[? ?] _]; split; lia).
  destruct (IH w1 (c + c1) P1) as (I1 & I2 & I3); [lia|lia|apply (Vpt.ticked_trans now c c1 _ (plt w)); (done || lia)|done| |].
  { intros i Hi. destruct (Hl i) as (? & ? & ? & ? & ?); [by right|]. destruct (P2 i) as [-> ->]; [intros ->; done|]. done. }
  split; [done|]. split.
  - intros i [->|Hi]%elem_of_cons; [|by apply I2]. destruct (I3 k Hk) as [E1 E2]. apply (restored_frame _ _ _ _ w1); [done|done|].
    apply (restored_since m0 c k0 (plt w) 1); try done; [lia|destruct Hst; split; lia|].
    apply (restored_ext _ _ _ (with_saved (saved_words (src k)) (lget w k))); [exact Eh| |by apply P3].
    unfold saved_words at 1. cbn [regs with_saved with_regs]. by rewrite take_app_length' by done.
  - intros i [Hne Hi]%not_elem_of_cons. destruct (I3 i Hi) as [-> ->]. apply P2. done.
Qed.

End Loaded.

(** ** The records of a guest *)

Section Migrate.
Context {S : Type} `{!Component S lapics}.
Context (guest_tsc tsc_offset : nat -> Z) (gtsc_to_gtime : Z -> Z) (now : Z).
Implicit Types d t : hdom S.

Abbreviation devs := (lapic_devices guest_tsc tsc_offset gtsc_to_gtime now).
Abbreviation tab := (lapic_table guest_tsc tsc_offset gtsc_to_gtime now).

Definition hidden_rec (src : nat -> vlapic) (i : nat) : hrec := HRec 5 (Z.of_nat i mod 2 ^ 16) (hw_lapic_bytes (hw (src i))).
Definition regs_rec (src : nat -> vlapic) (i : nat) : hrec := HRec 6 (Z.of_nat i mod 2 ^ 16) (words_bytes (saved_words (src i))).

Lemma lapic_records d : records_of devs d = map (hidden_rec (lget (dget d))) (vcpu_ids d) ++ map (regs_rec (lget (dget d))) (vcpu_ids d).
Proof.
  unfold lapic_devices. cbn [records_of app replicate hidden_device regs_device shape_device dv_records dv_after hidden_shape regs_shape sh_type sh_items sh_after].
  rewrite app_nil_r. unfold item_recs, hidden_items, regs_items. by rewrite !map_map.
Qed.

(** Records that are accepted one after the other act on the APICs alone. *)
Lemma accept_each (mk : nat -> hrec) (f : nat -> lapics -> lapics) l : forall t, Forall (fun i => Z.of_nat i < 2 ^ 16 /\ i ∈ vcpu_ids t) l ->
  (forall i t', i ∈ l -> Z.of_nat i < 2 ^ 16 -> i ∈ vcpu_ids t' -> vcpu_ids t' = vcpu_ids t -> rec_ok (mk i) /\
     (exists dv, device_of devs (mk i) = Some dv /\ dv_accepts dv (mk i) t') /\ apply_rec devs (mk i) t' = dput (f i (dget t')) t') ->
  accepted devs (map mk l) t /\ apply_all devs (map mk l) t = dput (foldl (fun w i => f i w) (dget t) l) t.
Proof.
  induction l as [|i l IH]; intros t Hl Hmk; cbn [map accepted apply_all foldl]; [split; [done|by rewrite dput_dget]|].
  inversion_clear Hl as [|? ? [H16 Hi] Hl']. destruct (Hmk i t ltac:(by left) H16 Hi eq_refl) as (Hr & Ha & E). rewrite E.
  destruct (IH (dput (f i (dget t)) t) Hl') as [I1 I2]; [intros j t' ? ? ? ?; apply Hmk; (done || by right)|]. split; [done|]. fold (apply_all devs (map mk l) (dput (f i (dget t)) t)).
  rewrite I2, dget_dput. unfold dput. cbn [set_dev dev]. by rewrite sput_sput.
Qed.

Lemma inst_id i : Z.of_nat i < 2 ^ 16 -> Z.of_nat i mod 2 ^ 16 = Z.of_nat i.
Proof. intros. apply Z.mod_small. lia. Qed.

Lemma hidden_taken src l t : Forall (fun i => Z.of_nat i < 2 ^ 16 /\ i ∈ vcpu_ids t) l -> (forall i, i ∈ l -> hw_typed (hw (src i))) ->
  accepted devs (map (hidden_rec src) l) t /\ apply_all devs (map (hidden_rec src) l) t = dput (hidden_all src l (dget t)) t.
Proof.
  intros Hl Ht. apply accept_each; [done|]. intros i t' Hil H16 Hi _. unfold hidden_rec. rewrite inst_id by done. split; [unfold rec_ok, rec_len; cbn [r_code r_inst r_data]; rewrite hw_lapic_bytes_length; lia|].
  split.
  - eexists. split; [reflexivity|]. cbn [dv_accepts shape_device r_inst r_data hidden_shape sh_type sh_pre sh_post need_vcpu fst snd hidden_device].
    split; [unfold rec_len; cbn [r_data]; by rewrite hw_lapic_bytes_length|]. by rewrite no_vcpu_false.
  - change (apply_rec devs (HRec 5 (Z.of_nat i) (hw_lapic_bytes (hw (src i)))) t')
      with (dput (put_hidden (Z.to_nat (Z.of_nat i)) (hw_lapic_of (hw_lapic_bytes (hw (src i)))) (dget t')) t').
    by rewrite Nat2Z.id, hw_lapic_of_bytes by auto.
Qed.

Lemma regs_taken src l t : Forall (fun i => Z.of_nat i < 2 ^ 16 /\ i ∈ vcpu_ids t) l -> (forall i, i ∈ l -> lapic_ok (src i)) ->
  accepted devs (map (regs_rec src) l) t /\
  apply_all devs (map (regs_rec src) l) t = dput (regs_all guest_tsc tsc_offset gtsc_to_gtime now (vcpu_ids t) src l (dget t)) t.
Proof.
  intros Hl Ht. apply (accept_each _ (fun i w => put_regs guest_tsc tsc_offset gtsc_to_gtime now (vcpu_ids t) i (saved_words (src i)) w)); [done|]. intros i t' Hil H16 Hi Ev. unfold regs_rec. rewrite inst_id by done.
  split; [unfold rec_ok, rec_len; cbn [r_code r_inst r_data]; rewrite words_bytes_length; lia|].
  split.
  - eexists. split; [reflexivity|]. cbn [dv_accepts shape_device r_inst r_data regs_shape sh_type sh_pre sh_post need_vcpu fst snd regs_device].
    split; [unfold rec_len; cbn [r_data]; by rewrite words_bytes_length|]. by rewrite no_vcpu_false.
  - destruct (saved_words_ok (src i)) as [S1 S2]; [by apply Ht|]. change (apply_rec devs (HRec 6 (Z.of_nat i) (words_bytes (saved_words (src i)))) t')
      with (dput (put_regs guest_tsc tsc_offset gtsc_to_gtime now (vcpu_ids t') (Z.to_nat (Z.of_nat i)) (words_of (words_bytes (saved_words (src i)))) (dget t')) t').
    by rewrite Nat2Z.id, words_of_bytes, Ev.
Qed.

(** A guest that can move, and a domain of [n] CPUs that can take it. *)
Record lapics_movable (n : nat) (d t : hdom S) : Prop := {
  lm_id i : i ∈ vcpu_ids d -> Z.of_nat i < 2 ^ 16 /\ i ∈ vcpu_ids t;
  lm_src i : i ∈ vcpu_ids d -> lapic_ok (lget (dget d) i) /\ hw_typed (hw (lget (dget d) i));
  lm_ids i : i ∈ vcpu_ids t -> (i < n)%nat;
  lm_target : lapics_ok n (dget t);
  lm_clock : Vpt.steady now (2 * Z.of_nat (length (vcpu_ids d))) (plt (dget t))
}.

(** How often loading reads the clock at most. *)
Abbreviation reads d := (2 * Z.of_nat (length (vcpu_ids d))).

Lemma loaded_base_ids tsc t : vcpu_ids (loaded_base tsc t) = vcpu_ids t.
Proof.
  unfold vcpu_ids, loaded_base. cbn. rewrite length_map. generalize (seq 0 (length (vdown t))). intros l.
  induction l as [|i l IH]; [done|]. rewrite !filter_cons, IH. rewrite list_lookup_fmap. destruct (vdown t !! i) as [[b|]|]; reflexivity.
Qed.

Lemma lapics_taken n d t : lapics_movable n d t ->
  let b := loaded_base (tsc_khz d) t in
  accepted devs (records_of devs d) b /\ let t' := apply_all devs (records_of devs d) b in
  lapics_ok n (dget t') /\ forall i, i ∈ vcpu_ids d -> restored guest_tsc tsc_offset gtsc_to_gtime now (plt (dget t)) (reads d) (lget (dget d) i) i (dget t').
Proof.
  intros [Hid Hsrc Hin Ht Hck] b. rewrite lapic_records, apply_all_app. set (src := lget (dget d)). set (l := vcpu_ids d) in *.
  assert (forall x : hdom S, vcpu_ids x = vcpu_ids b -> Forall (fun i => Z.of_nat i < 2 ^ 16 /\ i ∈ vcpu_ids x) l) as Hl.
  { intros x ->. apply Forall_forall. intros i Hi. unfold b. rewrite loaded_base_ids. by apply Hid. }
  destruct (hidden_taken src l b (Hl b eq_refl)) as [A1 E1]; [intros i Hi; by apply Hsrc|]. rewrite E1. set (t1 := dput (hidden_all src l (dget b)) b).
  destruct (regs_taken src l t1 (Hl t1 eq_refl)) as [A2 E2]; [intros i Hi; by apply Hsrc|]. rewrite E2. split; [apply accepted_app; [done|by rewrite E1]|].
  cbv zeta. rewrite dget_dput. unfold t1 at 2 4. rewrite dget_dput. change (dget b) with (dget t).
  destruct (hidden_all_spec n src l (dget t) Ht) as [H1 H2]; [intros i Hi; split; [apply Hin; by apply Hid|by apply Hsrc]|].
  assert (vcpu_ids t1 = vcpu_ids t) as -> by apply loaded_base_ids.
  destruct (regs_all_spec guest_tsc tsc_offset gtsc_to_gtime now n (vcpu_ids t) Hin src (plt (dget t)) (reads d) l (vcpu_ids_NoDup d) (hidden_all src l (dget t)) 0 H1) as (R1 & R2 & _); [lia|unfold l; lia| |done| |done].
  - apply Vpt.ticked_same; by rewrite hidden_all_plt.
  - intros i Hi. rewrite H2, decide_True, hidden_all_plt by done. destruct (Hsrc i Hi). split_and!; try done. apply Hin. by apply Hid.
Qed.

(** C14. The local APICs of a guest survive a migration.  The hypervisor of the
    source saves them in a buffer of the size that it asked for; what it wrote,
    loaded into a domain with those CPUs, is accepted, and every APIC has the
    registers, the base, the divisor and the flags of the source.  A timer that
    is programmed runs again, on its CPU, with the vector, the period and the
    callback that follow from the registers, and is set to go off at a known
    time: a one-shot or periodic timer after its whole initial count (not the
    rest of it), by the rule for first ticks of [create_periodic_time]; a
    deadline that has passed at once, with its register cleared; any other
    deadline when the guest's time, read while loading, reaches it.  The
    invariant under which APICs never fault holds.  No reading of the guest's
    clock while loading wraps. *)
Theorem lapics_migrate n xen_changeset cpuid1_eax d t junk hdr :
  is_dying d = false -> is_dying t = false -> length hdr = 24%nat -> 0 <= tsc_khz d < 2 ^ 32 -> (forall n, length (junk n) = Z.to_nat n) ->
  hvm_save_size tab d < 2 ^ 32 -> lapics_movable n d t ->
  exists len bytes d' t',
    gethvmcontext tab xen_changeset cpuid1_eax (Some (hvm_save_size tab d)) (Some junk) true d = Ret (0, len, bytes, d') /\
    sethvmcontext tab (Z.to_nat (hvm_save_size tab d)) hdr (take (Z.to_nat len) bytes) true true t = Ret (0, t') /\
    lapics_ok n (dget t') /\ forall i, i ∈ vcpu_ids d -> restored guest_tsc tsc_offset gtsc_to_gtime now (plt (dget t)) (reads d) (lget (dget d) i) i (dget t').
Proof.
  intros Hd Ht Hh Hts Hj Hsz Hm. destruct (lapics_taken n d t Hm) as [Hacc Hres].
  destruct (context_roundtrip devs xen_changeset cpuid1_eax (lapic_devices_laws guest_tsc tsc_offset gtsc_to_gtime now) ltac:(done) ltac:(done) d t junk hdr Hd Ht Hh Hts Hsz Hj Hacc)
    as (len & bytes & Hg & _ & Hs).
  exists len, bytes. do 2 eexists. split; [exact Hg|]. split; [exact Hs|]. exact Hres.
Qed.

End Migrate.

(** ** A guest with a periodic timer *)

#[local] Program Instance only_lapics : Component lapics lapics := {| sget := id; sput t _ := t |}.
Solve All Obligations with done.

(** CPU 0 has a periodic timer, CPU 1 a deadline that has passed and CPU 2 one
    that has not. *)
Definition ticking : lapics :=
  upd_l 2 (fun l => set_tdt (vlapic_set_reg APIC_LVTT 0x40033 l) 9000)
    (upd_l 1 (fun l => set_tdt (vlapic_set_reg APIC_LVTT 0x40032 l) 300)
      (upd_l 0 (fun l => vlapic_set_reg APIC_TMICT 500000 (vlapic_set_reg APIC_LVTT 0x20031 l)) new_domain)).
Definition guest (w : lapics) : hdom lapics := HDom false 2000000 false false false [Some false; Some true; Some true] [] w.

Lemma ticking_movable : lapics_movable 7000 3 (guest ticking) (guest new_domain).
Proof.
  assert (lapics_ok 3 ticking) as Hok
    by (do 2 (apply upd_l_ok; [intros; apply upd_hw_ok; [by apply set_reg_ok|done]|]); apply upd_l_ok; [intros; by do 2 apply set_reg_ok|exact new_domain_ok]).
  assert (forall w, vcpu_ids (guest w) = [0; 1; 2]%nat) as Hv by (intros; vm_compute; reflexivity).
  split; rewrite ?Hv; [intros i Hi; split; [pose proof (three_cpus i Hi); lia|exact Hi]|intros i Hi|exact three_cpus|exact new_domain_ok|vm_compute; repeat split; discriminate].
  split; [apply (lget_ok 3); [exact Hok|by apply three_cpus]|].
  rewrite !elem_of_cons, elem_of_nil in Hi. destruct Hi as [->|[->|[->|[]]]]; (split; vm_compute; (split; [discriminate|reflexivity])).
Qed.

Lemma lapics_migrate_witness :
  let tab := lapic_table (fun _ => 400) (fun _ => 0) (fun x => x) 7000 in
  exists len bytes d' t',
    gethvmcontext tab [49; 58; 50] 0x206d7 (Some (hvm_save_size tab (guest ticking))) (Some (fun n => replicate (Z.to_nat n) 0)) true (guest ticking) = Ret (0, len, bytes, d') /\
    sethvmcontext tab (Z.to_nat (hvm_save_size tab (guest ticking))) (replicate 24 0) (take (Z.to_nat len) bytes) true true (guest new_domain) = Ret (0, t') /\
    Vpt.period (Vpt.pt (plt (dget t')) (pt_id 0)) = 10000000 /\ Vpt.pt_irq (Vpt.pt (plt (dget t')) (pt_id 0)) = 0x31 /\
    Vpt.timer (Vpt.pt (plt (dget t')) (pt_id 0)) = Some 15007000 /\ Vpt.timer (Vpt.pt (plt (dget t')) (pt_id 1)) = Some 7000.
Proof.
  intros tab.
  destruct (lapics_migrate (fun _ => 400) (fun _ => 0) (fun x => x) 7000 3 [49; 58; 50] 0x206d7 (guest ticking) (guest new_domain) (fun n => replicate (Z.to_nat n) 0) (replicate 24 0))
    as (len & bytes & d' & t' & Hg & Hs & _ & Ht);
    [reflexivity|reflexivity|reflexivity|cbn; lia|intros; apply length_replicate|vm_compute; reflexivity|exact ticking_movable|].
  exists len, bytes, d', t'. split; [exact Hg|]. split; [exact Hs|].
  destruct (Ht 0%nat) as [_ _ _ _ _ Hi Hp]; [apply (bool_decide_unpack _); vm_compute; exact I|].
  destruct Hp as [_ _ Hp _ (c & _ & Hd) Hm]; [vm_compute; reflexivity|]. rewrite Hm, Hd, Hp, Hi. split; [vm_compute; reflexivity|]. split; [vm_compute; reflexivity|].
  destruct (Ht 1%nat) as [_ _ _ _ _ _ Hp1]; [apply (bool_decide_unpack _); vm_compute; exact I|].
  destruct Hp1 as [_ _ Hp1 _ (c1 & _ & Hd1) Hm1]; [vm_compute; reflexivity|]. rewrite Hm1, Hd1, Hp1. split; vm_compute; reflexivity.
Defined.

(** ** A record with a divisor of zero *)

Section Unchecked.
Context {S : Type} `{!Component S lapics}.

(** The divisor of a loaded APIC is not checked.  A record of type LAPIC
    with a divisor of zero, which no guest can program, is accepted, and when
    the restored guest then reads the current count of its timer the hypervisor
    divides by zero. *)
Theorem loaded_divisor_faults (d : hdom S) h r i gtime :
  hok h -> next h (rec_bytes r) -> rec_ok r -> r_code r = 5 -> r_inst r = Z.of_nat i -> rec_len r = 24 ->
  i ∈ vcpu_ids d -> (i < length (vl (dget d)))%nat -> timer_divisor (hw_lapic_of (r_data r)) = 0 -> vlapic_lvtt_oneshot (lget (dget d) i) = true ->
  exists d', lapic_load_hidden d h = Ret (0, advance h (length (rec_bytes r)), d') /\
    vlapic_read_aligned gtime APIC_TMCCT (lget (dget d') i) = Bug.
Proof.
  intros Hh Hn Hr Hc Hi Hl Hv Hlen Hd Ho. destruct (next_descriptor h r Hh Hn Hr) as (_ & Ei & _).
  unfold lapic_load_hidden, hvm_load_instance. rewrite Ei, Hi. cbv zeta. rewrite no_vcpu_false, Nat2Z.id by done.
  unfold hvm_load_entry_zeroextend. rewrite (load_entry_ok LAPIC r) by (done || (rewrite hw_lapic_bytes_length; unfold rec_len in Hl; lia)). cbn [mbind run_bind Z.eqb negb].
  eexists. split; [reflexivity|]. rewrite dget_dput. unfold put_hidden. change (lget (emit ?e ?x) i) with (lget x i). rewrite lget_upd_eq by done.
  unfold vlapic_read_aligned. cbn [Z.eqb]. change (vlapic_lvtt_oneshot (with_hw ?l _)) with (vlapic_lvtt_oneshot l). rewrite Ho. cbn [negb andb].
  change (APIC_TMCCT =? APIC_PROCPRI) with false. change (APIC_TMCCT =? APIC_TMCCT) with true. cbn iota. by apply zero_divisor_faults.
Qed.

End Unchecked.

Lemma loaded_divisor_faults_witness :
  let r := HRec 5 1 (hw_lapic_bytes (HwLapic 0xfee00800 0 0 0)) in
  exists d', lapic_load_hidden (guest new_domain) (Hctx 0 32 (rec_bytes r)) = Ret (0, advance (Hctx 0 32 (rec_bytes r)) 32, d') /\
    vlapic_read_aligned 99 APIC_TMCCT (lget (dget d') 1) = Bug.
Proof.
  intros r. destruct (loaded_divisor_faults (guest new_domain) (Hctx 0 32 (rec_bytes r)) r 1 99) as (d' & H1 & H2);
    [vm_compute; repeat split; (congruence || discriminate)|split; [vm_compute; repeat split; discriminate|vm_compute; reflexivity]|vm_compute; repeat split; discriminate|reflexivity|reflexivity|reflexivity
    |apply (bool_decide_unpack _); vm_compute; exact I|vm_compute; repeat constructor|reflexivity|vm_compute; reflexivity|].
  exists d'. split; [exact H1|exact H2].
Defined.

End LapicMigrate.
