(* ===== verification/PmTimer.v ===== *)
(** The ACPI power management timer of an HVM guest.

    Models xen/arch/x86/hvm/pmtimer.c: the counter that follows the guest's
    time, the status and enable registers with their interrupt, the callback
    that notices when the counter's highest bit changes, and the handlers of
    type PMTIMER.  The guest's time is an argument, as read from [Vpt]. *)

From S2P Require Import Prelude HvmContext HvmHandler.

Module PmTimer.
Import HvmContext HvmHandler.

Definition TMR_STS : Z := 1 .<< 0.
Definition GBL_STS : Z := 1 .<< 5.
Definition PWRBTN_STS : Z := 1 .<< 8.
Definition SLPBTN_STS : Z := 1 .<< 9.
Definition SCI_MASK : Z := TMR_STS .| PWRBTN_STS .| SLPBTN_STS .| GBL_STS.
Definition TMR_VAL_MASK : Z := 0xffffffff.
Definition TMR_VAL_MSB : Z := 0x80000000.
Definition FREQUENCE_PMTIMER : Z := 3579545.
Definition SYSTEM_TIME_HZ : Z := 1000000000.
Definition PM1a_STS_ADDR_V0 : Z := 0x1f40.
Definition PM1a_STS_ADDR_V1 : Z := 0xb000.

(** [struct hvm_hw_pmtimer]. *)
Record hvm_hw_pmtimer := HwPmt { tmr_val : Z; pm1a_sts : Z; pm1a_en : Z }.

(** [sci] is the level of the line [SCI_IRQ], [wake] when the callback runs,
    [version] the parameter that selects the ports. *)
Record PMTState := PMT { pm : hvm_hw_pmtimer; last_gtime : Z; not_accounted : Z; scale : Z; wake : option Z; sci : bool; version : Z }.
Implicit Types s : PMTState.

Definition with_pm s (p : hvm_hw_pmtimer) : PMTState := PMT p (last_gtime s) (not_accounted s) (scale s) (wake s) (sci s) (version s).
Definition set_sts s (x : Z) : PMTState := with_pm s (HwPmt (tmr_val (pm s)) x (pm1a_en (pm s))).
Definition set_en s (x : Z) : PMTState := with_pm s (HwPmt (tmr_val (pm s)) (pm1a_sts (pm s)) x).
Definition with_sci s (b : bool) : PMTState := PMT (pm s) (last_gtime s) (not_accounted s) (scale s) (wake s) b (version s).
Definition with_wake s (t : option Z) : PMTState := PMT (pm s) (last_gtime s) (not_accounted s) (scale s) t (sci s) (version s).

(** ** The interrupt *)

Definition pmt_update_sci s : PMTState := with_sci s (truthy (pm1a_en (pm s) .& pm1a_sts (pm s) .& SCI_MASK)).

Definition hvm_acpi_power_button s : PMTState := pmt_update_sci (set_sts s (pm1a_sts (pm s) .| PWRBTN_STS)).
Definition hvm_acpi_sleep_button s : PMTState := pmt_update_sci (set_sts s (pm1a_sts (pm s) .| SLPBTN_STS)).

(** ** The counter *)

Definition pmt_update_time (curr_gtime : Z) s : PMTState :=
  let msb := tmr_val (pm s) .& TMR_VAL_MSB in
  let tmp := u64 (u64 (curr_gtime - last_gtime s) * scale s + not_accounted s) in
  let tmr_val := u32 (tmr_val (pm s) + (tmp .>> 32)) .& TMR_VAL_MASK in
  let s := PMT (HwPmt tmr_val (pm1a_sts (pm s)) (pm1a_en (pm s))) curr_gtime (u32 tmp) (scale s) (wake s) (sci s) (version s) in
  if negb ((tmr_val .& TMR_VAL_MSB) =? msb) then pmt_update_sci (set_sts s (pm1a_sts (pm s) .| TMR_STS)) else s.

Definition pmt_cycles_until_flip s : Z := u32 (TMR_VAL_MSB - (tmr_val (pm s) .& (TMR_VAL_MSB - 1))).
Definition time_until_flip (cycles : Z) : Z := u64 (u64 (1000000000 .<< 23) / FREQUENCE_PMTIMER * cycles) .>> 23.

Definition pmt_timer_callback (gtime now : Z) s : PMTState :=
  let s := pmt_update_time gtime s in
  with_wake s (Some (now + time_until_flip (pmt_cycles_until_flip s) + 1000000)).

(** ** Ports *)

Definition evt_base s : Z := if version s =? 0 then PM1a_STS_ADDR_V0 else PM1a_STS_ADDR_V1.

Definition write_byte (addr byte : Z) s : PMTState :=
  if addr =? 0 then set_sts s (Z.ldiff (pm1a_sts (pm s)) byte)
  else if addr =? 1 then set_sts s (Z.ldiff (pm1a_sts (pm s)) (byte .<< 8))
  else if addr =? 2 then set_en s ((pm1a_en (pm s) .& 0xff00) .| byte)
  else if addr =? 3 then set_en s ((pm1a_en (pm s) .& 0xff) .| (byte .<< 8))
  else s.

(** One byte at a time. *)
Fixpoint write_bytes (bytes : nat) (addr data : Z) s : PMTState :=
  match bytes with O => s | S n => write_bytes n (u32 (addr + 1)) (data .>> 8) (write_byte addr (data .& 0xff) s) end.

Definition evt_write (port : Z) (bytes : nat) (val : Z) s : PMTState :=
  pmt_update_sci (write_bytes bytes (u32 (port - evt_base s)) (u32 val) s).

Definition evt_read (port : Z) (bytes : nat) s : Z :=
  let data := (pm1a_sts (pm s) .| u32 (pm1a_en (pm s) .<< 16)) .>> (8 * u32 (port - evt_base s)) in
  if (bytes =? 1)%nat then data .& 0xff else if (bytes =? 2)%nat then data .& 0xffff else data.

(** [handle_pmt_io] for reads; [busy] when another CPU holds the lock. *)
Definition pmt_read (gtime : Z) (busy : bool) (bytes : nat) s : option Z * PMTState :=
  if negb (bytes =? 4)%nat then (None, s)
  else if busy then (Some (tmr_val (pm s)), s)
  else let s := pmt_update_time gtime s in (Some (tmr_val (pm s)), s).

(** ** Life *)

(** The result and the state; the ports are relocated with the version. *)
Definition pmtimer_change_ioport (v : Z) s : Z * PMTState :=
  if v =? version s then (0, s)
  else if negb (Z.lxor v (version s) =? 1) then (- EINVAL, s)
  else (0, PMT (pm s) (last_gtime s) (not_accounted s) (scale s) (wake s) (sci s) v).

Definition pmtimer_init (gtime now : Z) s : PMTState :=
  pmt_timer_callback gtime now
    (PMT (pm s) (last_gtime s) 0 (u64 (FREQUENCE_PMTIMER .<< 32) / SYSTEM_TIME_HZ) (wake s) (sci s) (version s)).
Definition pmtimer_deinit s : PMTState := with_wake s None.
Definition pmtimer_reset s : PMTState := with_pm s (HwPmt 0 (pm1a_sts (pm s)) (pm1a_en (pm s))).

(** What the save handler does to the registers; [guest_time] is the time at
    which the CPU left the processor. *)
Definition saved_pm (guest_time : Z) s : hvm_hw_pmtimer :=
  let msb := tmr_val (pm s) .& TMR_VAL_MSB in
  let x := u32 (u64 (u64 (guest_time - last_gtime s) * scale s) .>> 32) in
  let tmr := if x <? 1 .<< 31 then u32 (tmr_val (pm s) + x) else tmr_val (pm s) in
  HwPmt tmr (if negb ((tmr .& TMR_VAL_MSB) =? msb) then pm1a_sts (pm s) .| TMR_STS else pm1a_sts (pm s)) (pm1a_en (pm s)).

(** What loading does with registers that were read. *)
Definition loaded_pm (gtime : Z) (p : hvm_hw_pmtimer) s : PMTState :=
  pmt_update_sci (PMT p gtime 0 (scale s) (wake s) (sci s) (version s)).

(** ** Types *)

Record pmt_ok s : Prop := {
  po_val : 0 <= tmr_val (pm s) < 2 ^ 32; po_sts : 0 <= pm1a_sts (pm s) < 2 ^ 16; po_en : 0 <= pm1a_en (pm s) < 2 ^ 16;
  po_acc : 0 <= not_accounted s < 2 ^ 32
}.

Definition total s : Z := tmr_val (pm s) * 2 ^ 32 + not_accounted s.
Definition sci_exact s : Prop := sci s = truthy (pm1a_en (pm s) .& pm1a_sts (pm s) .& SCI_MASK).

Lemma msb_div x : x .& TMR_VAL_MSB = 2 ^ 31 * ((x / 2 ^ 31) mod 2).
Proof.
  rewrite <- (Z.testbit_spec' x 31) by lia. change TMR_VAL_MSB with (2 ^ 31). apply Z.bits_inj'. intros i Hi. rewrite Z.land_spec, Z.pow2_bits_eqb by lia.
  destruct (Z.testbit x 31) eqn:E; cbn [Z.b2z]; rewrite ?Z.mul_1_r, ?Z.mul_0_r, ?Z.pow2_bits_eqb, ?Z.bits_0 by lia.
  all: destruct (Z.eqb_spec 31 i) as [<-|]; by rewrite ?E, ?andb_false_r.
Qed.

Lemma val_mask x : u32 x .& TMR_VAL_MASK = u32 x.
Proof. change TMR_VAL_MASK with (Z.ones 32). rewrite Z.land_ones by lia. pose proof (u32_range x). by apply Z.mod_small. Qed.

Lemma lor_range16 a b : 0 <= a < 2 ^ 16 -> 0 <= b < 2 ^ 16 -> 0 <= a .| b < 2 ^ 16.
Proof. intros. apply lor_range; (done || lia). Qed.

Lemma ldiff_range16 a b : 0 <= a < 2 ^ 16 -> 0 <= Z.ldiff a b < 2 ^ 16.
Proof.
  intros Ha. apply bounded_of_bits; [lia|apply Z.ldiff_nonneg; lia|]. intros i Hi. rewrite Z.ldiff_spec by lia. by rewrite (testbit_high a 16) by lia.
Qed.

(** ** Operations *)

(** The timer's callback, a read of the counter, the buttons, a write to the
    registers and a change of the ports. *)
Inductive pmt_op :=
| Tick (gtime now : Z) | ReadTimer (gtime : Z) (busy : bool) (bytes : nat) | PowerButton | SleepButton
| EvtWrite (port : Z) (bytes : nat) (val : Z) | ChangePorts (v : Z).

Definition pmt_exec (o : pmt_op) s : PMTState :=
  match o with
  | Tick gtime now => pmt_timer_callback gtime now s
  | ReadTimer gtime busy bytes => (pmt_read gtime busy bytes s).2
  | PowerButton => hvm_acpi_power_button s
  | SleepButton => hvm_acpi_sleep_button s
  | EvtWrite port bytes val => evt_write port bytes val s
  | ChangePorts v => (pmtimer_change_ioport v s).2
  end.
Definition pmt_trace (ops : list pmt_op) s : PMTState := foldl (fun s o => pmt_exec o s) s ops.

(** The counter, the remainder and the time are those of [s]. *)
Record same_count s s' : Prop := { sc_val : tmr_val (pm s') = tmr_val (pm s); sc_acc : not_accounted s' = not_accounted s; sc_last : last_gtime s' = last_gtime s; sc_scale : scale s' = scale s }.

Lemma same_count_trans s1 s2 s3 : same_count s1 s2 -> same_count s2 s3 -> same_count s1 s3.
Proof. intros [] []. split; congruence. Qed.

Lemma write_byte_spec addr byte s : 0 <= byte < 2 ^ 8 -> pmt_ok s -> same_count s (write_byte addr byte s) /\ pmt_ok (write_byte addr byte s).
Proof.
  intros Hb [H1 H2 H3 H4]. assert (0 <= byte .<< 8 < 2 ^ 16) by (rewrite Z.shiftl_mul_pow2 by lia; lia).
  unfold write_byte. repeat case_match; (split; [done|]); split; cbn; try done.
  1, 2: by apply ldiff_range16.
  all: apply lor_range16; try lia; apply land_range; lia.
Qed.

Lemma write_bytes_spec bytes : forall addr data s, pmt_ok s -> same_count s (write_bytes bytes addr data s) /\ pmt_ok (write_bytes bytes addr data s).
Proof.
  induction bytes as [|n IH]; intros addr data s Hs; [done|]. cbn [write_bytes].
  destruct (write_byte_spec addr (data .& 0xff) s) as [A B]; [apply land_range; lia|done|]. destruct (IH (u32 (addr + 1)) (data .>> 8) _ B) as [C D].
  split; [by eapply same_count_trans|done].
Qed.

(** The counter and its remainder after the time was updated. *)
Lemma update_spec g s : pmt_ok s ->
  let s' := pmt_update_time g s in
  let tmp := u64 (u64 (g - last_gtime s) * scale s + not_accounted s) in
  pmt_ok s' /\ last_gtime s' = g /\ scale s' = scale s /\ not_accounted s' = tmp mod 2 ^ 32 /\ tmr_val (pm s') = (tmr_val (pm s) + tmp / 2 ^ 32) mod 2 ^ 32 /\
  (sci_exact s -> sci_exact s') /\
  (tmr_val (pm s') / 2 ^ 31 mod 2 <> tmr_val (pm s) / 2 ^ 31 mod 2 -> Z.testbit (pm1a_sts (pm s')) 0 = true).
Proof.
  intros [H1 H2 H3 H4]. unfold pmt_update_time. cbv zeta. set (tmp := u64 (u64 (g - last_gtime s) * scale s + not_accounted s)). rewrite val_mask, Z.shiftr_div_pow2 by lia.
  set (v := u32 _). assert (0 <= v < 2 ^ 32) as Hv by apply u32_range. rewrite !msb_div.
  pose proof (lor_range16 (pm1a_sts (pm s)) TMR_STS H2 ltac:(by vm_compute)) as Hor.
  pose proof (u32_range tmp). destruct (Z.eqb_spec (2 ^ 31 * (v / 2 ^ 31 mod 2)) (2 ^ 31 * (tmr_val (pm s) / 2 ^ 31 mod 2))) as [E|E]; cbn [negb pm pmt_update_sci with_sci set_sts with_pm tmr_val pm1a_sts pm1a_en last_gtime scale not_accounted].
  - split_and!; try done. intros Hne. lia.
  - split_and!; try done. intros _. rewrite Z.lor_spec. by rewrite orb_true_r.
Qed.

(** The status and the line, without the time. *)
Lemma exec_spec o s : pmt_ok s ->
  pmt_ok (pmt_exec o s) /\ scale (pmt_exec o s) = scale s /\
  total (pmt_exec o s) mod 2 ^ 64 = (total s + scale s * (last_gtime (pmt_exec o s) - last_gtime s)) mod 2 ^ 64 /\ (sci_exact s -> sci_exact (pmt_exec o s)).
Proof.
  intros Hs.
  assert (forall s', same_count s s' -> total s' mod 2 ^ 64 = (total s + scale s * (last_gtime s' - last_gtime s)) mod 2 ^ 64) as Hsame.
  { intros s' [A B C D]. unfold total. rewrite A, B, C. f_equal. lia. }
  assert (forall g, let s' := pmt_update_time g s in
    pmt_ok s' /\ scale s' = scale s /\ total s' mod 2 ^ 64 = (total s + scale s * (last_gtime s' - last_gtime s)) mod 2 ^ 64 /\ (sci_exact s -> sci_exact s')) as Hup.
  { intros g s'. destruct (update_spec g s Hs) as (A & B & C & D & E & F & _). fold s' in A, B, C, D, E, F. split; [done|]. split; [done|]. split; [|done].
    unfold total. rewrite B, D, E. set (tmp := u64 (u64 (g - last_gtime s) * scale s + not_accounted s)) in *. set (v := tmr_val (pm s)).
    replace ((v + tmp / 2 ^ 32) mod 2 ^ 32 * 2 ^ 32 + tmp mod 2 ^ 32) with (v * 2 ^ 32 + tmp + - ((v + tmp / 2 ^ 32) / 2 ^ 32) * 2 ^ 64) by zlia.
    rewrite Z.mod_add by lia. unfold tmp, u64. rewrite Zplus_mod_idemp_r. rewrite <- Z.add_assoc. rewrite <- (Zplus_mod_idemp_r _ (v * 2 ^ 32)), <- (Zplus_mod_idemp_l _ (not_accounted s)), Zmult_mod_idemp_l, Zplus_mod_idemp_l, Zplus_mod_idemp_r.
    f_equal. lia. }
  assert (0 <= pm1a_sts (pm s) .| PWRBTN_STS < 2 ^ 16) by (apply lor_range16; [apply Hs|by vm_compute]).
  assert (0 <= pm1a_sts (pm s) .| SLPBTN_STS < 2 ^ 16) by (apply lor_range16; [apply Hs|by vm_compute]).
  assert (pmt_ok s /\ scale s = scale s /\ total s mod 2 ^ 64 = (total s + scale s * (last_gtime s - last_gtime s)) mod 2 ^ 64 /\ (sci_exact s -> sci_exact s)) as Hid.
  { split_and!; try done. by apply Hsame. }
  destruct o as [g now|g busy bytes| | |port bytes val|v]; cbn [pmt_exec].
  - destruct (Hup g) as ([] & ? & ? & ?). split; [by split|]. done.
  - unfold pmt_read. destruct (negb _); [exact Hid|]. destruct busy; [exact Hid|]. exact (Hup g).
  - split; [by destruct Hs|]. split; [done|]. split; [by apply Hsame|done].
  - split; [by destruct Hs|]. split; [done|]. split; [by apply Hsame|done].
  - destruct (write_bytes_spec bytes (u32 (port - evt_base s)) (u32 val) s Hs) as [A B]. unfold evt_write. split; [by destruct B|]. split; [apply A|]. split; [|done].
    apply Hsame. by destruct A.
  - unfold pmtimer_change_ioport. destruct (_ =? version s); [exact Hid|]. destruct (negb _); [exact Hid|]. split; [by destruct Hs|]. split; [done|]. split; [by apply Hsame|done].
Qed.

(** C24. The ACPI timer counts the guest's time exactly.  However often it is
    read and its callback runs, and whatever is written to its registers, the
    counter is the number of ticks of the guest's time since the start, without
    drift: what an update does not account for is kept for the next.  The
    interrupt line is always that of the status and enable registers. *)
Theorem pm_timer_exact ops s : pmt_ok s -> sci_exact s ->
  let s' := pmt_trace ops s in
  tmr_val (pm s') = ((total s + scale s * (last_gtime s' - last_gtime s)) / 2 ^ 32) mod 2 ^ 32 /\ sci_exact s'.
Proof.
  intros Hs He. assert (pmt_ok (pmt_trace ops s) /\ scale (pmt_trace ops s) = scale s /\
    total (pmt_trace ops s) mod 2 ^ 64 = (total s + scale s * (last_gtime (pmt_trace ops s) - last_gtime s)) mod 2 ^ 64 /\ sci_exact (pmt_trace ops s)) as ([A1 _ _ A4] & _ & B & C).
  { induction ops as [|o ops IH] using rev_ind; [split_and!; try done; f_equal; cbn; lia|]. unfold pmt_trace in *. rewrite foldl_app. cbn [foldl].
    destruct IH as (I1 & I2 & I3 & I4). set (s1 := foldl _ s ops) in *. destruct (exec_spec o s1 I1) as (X1 & X2 & X3 & X4). split_and!; [done|congruence| |auto].
    rewrite X3, <- Zplus_mod_idemp_l, I3, Zplus_mod_idemp_l, I2. f_equal. lia. }
  cbv zeta. set (s' := pmt_trace ops s) in *. split; [|done]. clearbody s'. set (x := total s + scale s * (last_gtime s' - last_gtime s)) in *. clearbody x. unfold total in B.
  rewrite Z.mod_small in B by lia. zlia.
Qed.

(** ** Changes of the highest bit *)

Definition pmt_scale : Z := u64 (FREQUENCE_PMTIMER .<< 32) / SYSTEM_TIME_HZ.

Lemma cycles_spec s : pmt_ok s -> pmt_cycles_until_flip s = 2 ^ 31 - tmr_val (pm s) mod 2 ^ 31.
Proof.
  intros [H _ _ _]. unfold pmt_cycles_until_flip. change (TMR_VAL_MSB - 1) with (Z.ones 31). rewrite Z.land_ones by lia. unfold TMR_VAL_MSB. apply u32_small. zlia.
Qed.

(** From [c] ticks before a change until it is noticed. *)
Lemma ticks_until c d acc : 1 <= c <= 2 ^ 31 -> 0 <= d <= 500000000000 -> 0 <= acc < 2 ^ 32 ->
  let e := time_until_flip c + 1000000 + d in
  e * pmt_scale + acc < 2 ^ 64 /\ c <= (e * pmt_scale + acc) / 2 ^ 32 < c + 2 ^ 31.
Proof.
  intros Hc Hd Ha. cbv zeta. unfold time_until_flip. change (u64 (1000000000 .<< 23) / FREQUENCE_PMTIMER) with 2343484437. change pmt_scale with 15374028.
  rewrite u64_small by lia. rewrite Z.shiftr_div_pow2 by lia. zlia.
Qed.

(** No change of the counter's highest bit goes unnoticed.  After the
    callback has run, the time it asks to be woken at is after the next change
    and, if it is woken up to 500 seconds late, before the one after that, so
    that the status bit is set. *)
Theorem pmt_wakes_after_flip g now d s : pmt_ok s -> scale s = pmt_scale -> 0 <= d <= 500000000000 ->
  let s1 := pmt_timer_callback g now s in
  exists t, wake s1 = Some (now + t) /\ Z.testbit (pm1a_sts (pm (pmt_update_time (g + t + d) s1))) 0 = true.
Proof.
  intros Hs Hsc Hd. unfold pmt_timer_callback. destruct (update_spec g s Hs) as (H1 & H2 & H3 & _). set (s0 := pmt_update_time g s) in *. clearbody s0. cbv zeta.
  set (t := time_until_flip (pmt_cycles_until_flip s0) + 1000000). exists t. split; [cbn [wake with_wake]; f_equal; unfold t; lia|].
  assert (pmt_ok (with_wake s0 (Some (now + time_until_flip (pmt_cycles_until_flip s0) + 1000000)))) as Hw by (by destruct H1).
  destruct (update_spec (g + t + d) _ Hw) as (_ & _ & _ & _ & E & _ & F). apply F. rewrite E. cbn [with_wake pm last_gtime scale not_accounted].
  rewrite H2, H3, Hsc. pose proof H1 as [V _ _ A]. unfold t. rewrite (cycles_spec s0 H1). set (c := 2 ^ 31 - tmr_val (pm s0) mod 2 ^ 31).
  assert (1 <= c <= 2 ^ 31) as Hc by (unfold c; zlia). destruct (ticks_until c d (not_accounted s0) Hc Hd A) as [B1 B2].
  assert (0 <= time_until_flip c) as Ht by (unfold time_until_flip; apply Z.shiftr_nonneg, u64_range).
  assert (0 <= pmt_scale < 2 ^ 24) as Hp by (by vm_compute). set (e := time_until_flip c + 1000000 + d) in *.
  replace (g + (time_until_flip c + 1000000) + d - g) with e by (unfold e; lia). assert (0 <= e) by (unfold e; lia). assert (e < 2 ^ 64) by (unfold pmt_scale in *; vm_compute (u64 _ / _) in B1; lia).
  rewrite (u64_small e) by lia. rewrite u64_small by lia. unfold c in *. set (n := (e * pmt_scale + not_accounted s0) / 2 ^ 32) in *. clearbody n. zlia.
Qed.

(** ** Migration *)

Definition PMTIMER : htype := HType 13 8 None.
Definition pmt_bytes (p : hvm_hw_pmtimer) : list Z := le_bytes 4 (tmr_val p) ++ le_bytes 2 (pm1a_sts p) ++ le_bytes 2 (pm1a_en p).
Definition pmt_of_bytes (bs : list Z) : hvm_hw_pmtimer := HwPmt (le_val (take 4 bs)) (le_val (take 2 (drop 4 bs))) (le_val (take 2 (drop 6 bs))).

Lemma pmt_bytes_length p : length (pmt_bytes p) = 8%nat.
Proof. unfold pmt_bytes. by rewrite !length_app, !le_bytes_length. Qed.

Lemma pmt_of_bytes_bytes p : 0 <= tmr_val p < 2 ^ 32 -> 0 <= pm1a_sts p < 2 ^ 16 -> 0 <= pm1a_en p < 2 ^ 16 -> pmt_of_bytes (pmt_bytes p) = p.
Proof.
  intros H1 H2 H3. destruct p as [a b c]. cbn [tmr_val pm1a_sts pm1a_en] in *. unfold pmt_of_bytes, pmt_bytes. cbn [tmr_val pm1a_sts pm1a_en]. f_equal.
  - rewrite take_app_length' by (by rewrite le_bytes_length). rewrite le_val_bytes. by apply Z.mod_small.
  - rewrite drop_app_length', take_app_length' by (by rewrite le_bytes_length). rewrite le_val_bytes. by apply Z.mod_small.
  - rewrite app_assoc, drop_app_length', take_ge by (rewrite ?length_app, ?le_bytes_length; done). rewrite le_val_bytes. by apply Z.mod_small.
Qed.

Section Migration.
Context {S : Type} `{!Component S PMTState}.
(** The time at which the CPU of the timer left the processor, on the source,
    and its guest's time on the target. *)
Context (guest_time gtime : Z).
Implicit Types d : hdom S.

Definition after_save d : hdom S := dput (with_pm (dget d) (saved_pm guest_time (dget d))) d.

Definition pmtimer_save (d : hdom S) (h : hctx) : run (Z * hctx * hdom S) :=
  let p := saved_pm guest_time (dget d) in
  let '(rc, h) := hvm_save_entry PMTIMER 0 h (pmt_bytes p) in
  Ret (rc, h, dput (with_pm (dget d) p) d).

Definition pmtimer_load (d : hdom S) (h : hctx) : run (Z * hctx * hdom S) :=
  '(r, h, data) ← hvm_load_entry PMTIMER h (pmt_bytes (pm (dget d)));
  if negb (r =? 0) then Ret (- EINVAL, h, d) else Ret (0, h, dput (loaded_pm gtime (pmt_of_bytes data) (dget d)) d).

Definition pmtimer_handler : handler S := Handler pmtimer_save pmtimer_load (reg_size 1 PMTIMER) HVMSR_PER_DOM.

Definition pmtimer_shape : shape S :=
  Shape PMTIMER true 1 HVMSR_PER_DOM (fun rc => rc) (fun d => [(0, pmt_bytes (saved_pm guest_time (dget d)))]) after_save
    (fun _ d => (0, d)) (fun _ d => pmt_bytes (pm (dget d))) (fun _ data d => (0, dput (loaded_pm gtime (pmt_of_bytes data) (dget d)) d)).
Definition pmtimer_device : device S := shape_device pmtimer_handler pmtimer_shape.

#[export] Instance pmtimer_laws : DeviceLaws 13 pmtimer_device.
Proof.
  apply (shape_laws pmtimer_handler pmtimer_shape).
  - split; try done; cbn [pmtimer_shape sh_type sh_items sh_kind sh_num sh_init]; intros.
    constructor; [|constructor]. cbn [snd]. by rewrite pmt_bytes_length.
  - split; try done. intros d h. cbn [pmtimer_handler h_save]. unfold pmtimer_save, shape_save. cbn [pmtimer_shape sh_type sh_fail sh_items sh_after save_each].
    destruct (hvm_save_entry PMTIMER 0 h _) as [r h']. by destruct (r =? 0) eqn:E; cbn [negb]; [apply Z.eqb_eq in E as ->|].
Qed.

(** The registers that are saved have their width. *)
Lemma saved_typed s : pmt_ok s -> let p := saved_pm guest_time s in 0 <= tmr_val p < 2 ^ 32 /\ 0 <= pm1a_sts p < 2 ^ 16 /\ 0 <= pm1a_en p < 2 ^ 16.
Proof.
  intros [H1 H2 H3 _]. unfold saved_pm. cbv zeta. cbn [tmr_val pm1a_sts pm1a_en]. split_and!; try lia.
  1, 2: destruct (_ <? _); [apply u32_range|lia].
  1, 2: destruct (negb _); [|lia]; apply (lor_range16 (pm1a_sts (pm s)) TMR_STS); [done|by vm_compute].
Qed.

(** When the CPU left the processor after the last update, and less than half
    a turn of the counter after it, the saved counter is that of this moment. *)
Lemma saved_exact s : pmt_ok s -> 0 <= guest_time - last_gtime s -> 0 <= scale s -> (guest_time - last_gtime s) * scale s < 2 ^ 63 ->
  tmr_val (saved_pm guest_time s) = (tmr_val (pm s) + (guest_time - last_gtime s) * scale s / 2 ^ 32) mod 2 ^ 32.
Proof.
  intros Hs Hg Hsc Hb. unfold saved_pm. cbv zeta. cbn [tmr_val]. assert (scale s = 0 \/ guest_time - last_gtime s < 2 ^ 64) as [E|E] by nia.
  - rewrite E, !Z.mul_0_r. cbn. unfold u32. f_equal.
  - rewrite (u64_small (guest_time - _)) by lia. set (q := (guest_time - last_gtime s) * scale s) in *. assert (0 <= q) by (unfold q; nia). clearbody q.
    rewrite u64_small by lia. rewrite Z.shiftr_div_pow2 by lia. rewrite (u32_small (_ / _)) by zlia.
    destruct (Z.ltb_spec (q / 2 ^ 32) (1 .<< 31)); [done|]. change (1 .<< 31) with (2 ^ 31) in *. zlia.
Qed.

(** [hvm_sr_handlers], with the type of this file. *)
Definition pmt_devices : list (option (device S)) := replicate 13 None ++ [Some pmtimer_device].
Definition pmt_table : list (option (handler S)) := table pmt_devices.

Lemma pmt_devices_laws i dv : pmt_devices !! i = Some (Some dv) -> DeviceLaws i dv.
Proof. intros H. do 14 (destruct i as [|i]; [cbn in H; try discriminate H; injection H as <-; eauto using pmtimer_laws|]). done. Qed.

(** The timer goes on, on the target, with the counter, the status and the
    enabled events that the source saved, and the line of the interrupt is that
    of these registers. *)
Theorem pmtimer_migrates xen_changeset cpuid1_eax (d t : hdom S) junk hdr :
  is_dying d = false -> is_dying t = false -> length hdr = 24%nat -> 0 <= tsc_khz d < 2 ^ 32 -> (forall n, length (junk n) = Z.to_nat n) ->
  hvm_save_size pmt_table d < 2 ^ 32 -> pmt_ok (dget d) ->
  exists len bytes d' t',
    gethvmcontext pmt_table xen_changeset cpuid1_eax (Some (hvm_save_size pmt_table d)) (Some junk) true d = Ret (0, len, bytes, d') /\
    sethvmcontext pmt_table (Z.to_nat (hvm_save_size pmt_table d)) hdr (take (Z.to_nat len) bytes) true true t = Ret (0, t') /\
    pm (dget t') = saved_pm guest_time (dget d) /\ last_gtime (dget t') = gtime /\ not_accounted (dget t') = 0 /\ sci_exact (dget t').
Proof.
  intros Hd Ht Hh Hts Hj Hsz Hok. destruct (saved_typed (dget d) Hok) as (T1 & T2 & T3).
  assert (records_of pmt_devices d = [HRec 13 0 (pmt_bytes (saved_pm guest_time (dget d)))]) as E by reflexivity.
  assert (accepted pmt_devices (records_of pmt_devices d) (loaded_base (tsc_khz d) t)) as Hacc.
  { rewrite E. split; [unfold rec_ok, rec_len; cbn [r_code r_inst r_data]; rewrite pmt_bytes_length; lia|]. split; [|done]. eexists. split; [reflexivity|].
    cbn [dv_accepts pmtimer_device shape_device]. split; [unfold rec_len; cbn [r_data]; by rewrite pmt_bytes_length|done]. }
  destruct (context_roundtrip pmt_devices xen_changeset cpuid1_eax pmt_devices_laws ltac:(done) ltac:(done) d t junk hdr Hd Ht Hh Hts Hsz Hj Hacc) as (len & bytes & Hg & _ & Hs).
  exists len, bytes. do 2 eexists. split; [exact Hg|]. split; [exact Hs|]. rewrite E.
  change (apply_all pmt_devices [HRec 13 0 (pmt_bytes (saved_pm guest_time (dget d)))] (loaded_base (tsc_khz d) t))
    with (dput (loaded_pm gtime (pmt_of_bytes (pmt_bytes (saved_pm guest_time (dget d)))) (dget t)) (loaded_base (tsc_khz d) t)).
  rewrite dget_dput, pmt_of_bytes_bytes by done. done.
Qed.

End Migration.

(** ** Examples *)

Definition new_pmt : PMTState := pmtimer_init 5000 1000 (PMT (HwPmt 0 0 0x101) 0 0 0 None false 0).

Lemma new_pmt_ok : pmt_ok new_pmt /\ sci_exact new_pmt /\ scale new_pmt = pmt_scale.
Proof. split; [split; vm_compute; (split; [discriminate|reflexivity])|split; vm_compute; reflexivity]. Qed.

Lemma pm_timer_exact_witness :
  tmr_val (pm (pmt_trace [ReadTimer 1000005000 false 4; PowerButton; Tick 700000005000 1000; EvtWrite 0x1f40 2 1] new_pmt)) = 2505681402 /\
  sci_exact (pmt_trace [ReadTimer 1000005000 false 4; PowerButton; Tick 700000005000 1000; EvtWrite 0x1f40 2 1] new_pmt).
Proof.
  destruct (pm_timer_exact [ReadTimer 1000005000 false 4; PowerButton; Tick 700000005000 1000; EvtWrite 0x1f40 2 1] new_pmt (proj1 new_pmt_ok) (proj1 (proj2 new_pmt_ok))) as [E H].
  split; [rewrite E; vm_compute; reflexivity|exact H].
Defined.

Lemma pmt_wakes_after_flip_witness :
  exists t, wake (pmt_timer_callback 6000 2000 new_pmt) = Some (2000 + t) /\ Z.testbit (pm1a_sts (pm (pmt_update_time (6000 + t + 1000) (pmt_timer_callback 6000 2000 new_pmt)))) 0 = true.
Proof. apply (pmt_wakes_after_flip 6000 2000 1000 new_pmt (proj1 new_pmt_ok) (proj2 (proj2 new_pmt_ok))). lia. Defined.

(** The time at which a CPU left the processor is recorded in one of the four
    timer modes only; it is 0 in the others.  The check of the save handler that
    the counter goes forward looks at 32 bits of the difference: after 1000
    seconds the counter is moved on by 715 million ticks, 200 seconds. *)
Lemma pmtimer_save_jumps : let s := pmt_update_time 1000000000000 new_pmt in
  tmr_val (pm s) = 3579544834 /\ tmr_val (saved_pm 0 s) = 3579544834 + 715422461.
Proof. split; vm_compute; reflexivity. Qed.

End PmTimer.
