(* ===== verification/Pit.v ===== *)
(** The programmable interval timer 8254 of an HVM guest.

    Models xen/arch/x86/hvm/i8254.c for HVM guests: the three channels with
    their modes, latches and byte order, the interrupt of channel 0 on the
    virtual platform timers of [Vpt], the speaker port, and the handlers of type
    PIT.  The target CPU of the interrupts is a parameter.  A division by zero,
    a quotient that does not fit its register and a read outside the three
    channels are faults of the host; a write outside them leaves no channels. *)

From S2P Require Import Prelude HvmContext HvmHandler Vioapic Vpt.

Module Pit.
Import HvmContext HvmHandler.

Definition RW_STATE_LSB : Z := 1.
Definition RW_STATE_MSB : Z := 2.
Definition RW_STATE_WORD0 : Z := 3.
Definition RW_STATE_WORD1 : Z := 4.
Definition PIT_FREQ : Z := 1193182.
Definition PIT_BASE : Z := 0x40.
Definition SYSTEM_TIME_HZ : Z := 1000000000.
Definition DIV_ROUND (x y : Z) : Z := u64 (x + y / 2) / y.

Record hvm_hw_pit_channel := Chan {
  count : Z; latched_count : Z; count_latched : Z; status_latched : Z; status : Z; read_state : Z; write_state : Z;
  write_latch : Z; rw_mode : Z; mode : Z; bcd : Z; gate : Z
}.
#[export] Instance chan_inhabited : Inhabited hvm_hw_pit_channel := populate (Chan 0 0 0 0 0 0 0 0 0 0 0 0).
Implicit Types c : hvm_hw_pit_channel.

(** [pt0] is the first timer of [plt]; its callback is [pit_time_fired] with
    the load time of channel 0. *)
Record PITState := PIT { channels : list hvm_hw_pit_channel; speaker_data_on : Z; pad0 : Z; count_load_time : list Z; plt : Vpt.pl_time unit }.
Implicit Types s : PITState.

Definition chan s (i : nat) : hvm_hw_pit_channel := channels s !!! i.
Definition load_time s (i : nat) : Z := count_load_time s !!! i.
(** A write outside the arrays corrupts the structure: nothing is left of them.
    A function that only reads checks the channel first, with [has_channel]. *)
Definition has_channel s (i : nat) : bool := bool_decide (i < length (channels s))%nat && bool_decide (i < length (count_load_time s))%nat.
Definition upd_chan (i : nat) (f : hvm_hw_pit_channel -> hvm_hw_pit_channel) s : PITState :=
  PIT (if decide (i < length (channels s))%nat then alter f i (channels s) else []) (speaker_data_on s) (pad0 s) (count_load_time s) (plt s).
Definition set_load_time (i : nat) (t : Z) s : PITState :=
  PIT (channels s) (speaker_data_on s) (pad0 s) (if decide (i < length (count_load_time s))%nat then <[i := t]> (count_load_time s) else []) (plt s).
Definition with_plt s (p : Vpt.pl_time unit) : PITState := PIT (channels s) (speaker_data_on s) (pad0 s) (count_load_time s) p.
Definition with_speaker s (x : Z) : PITState := PIT (channels s) x (pad0 s) (count_load_time s) (plt s).

Definition set_count (x : Z) c : hvm_hw_pit_channel := Chan x (latched_count c) (count_latched c) (status_latched c) (status c) (read_state c) (write_state c) (write_latch c) (rw_mode c) (mode c) (bcd c) (gate c).
Definition set_latched (x l : Z) c : hvm_hw_pit_channel := Chan (count c) x l (status_latched c) (status c) (read_state c) (write_state c) (write_latch c) (rw_mode c) (mode c) (bcd c) (gate c).
Definition set_count_latched (l : Z) c : hvm_hw_pit_channel := set_latched (latched_count c) l c.
Definition set_status (x l : Z) c : hvm_hw_pit_channel := Chan (count c) (latched_count c) (count_latched c) l x (read_state c) (write_state c) (write_latch c) (rw_mode c) (mode c) (bcd c) (gate c).
Definition set_read (x : Z) c : hvm_hw_pit_channel := Chan (count c) (latched_count c) (count_latched c) (status_latched c) (status c) x (write_state c) (write_latch c) (rw_mode c) (mode c) (bcd c) (gate c).
Definition set_write (x l : Z) c : hvm_hw_pit_channel := Chan (count c) (latched_count c) (count_latched c) (status_latched c) (status c) (read_state c) x l (rw_mode c) (mode c) (bcd c) (gate c).
Definition set_mode (rw m b : Z) c : hvm_hw_pit_channel := Chan (count c) (latched_count c) (count_latched c) (status_latched c) (status c) rw rw (write_latch c) rw m b (gate c).
Definition set_gate (g : Z) c : hvm_hw_pit_channel := Chan (count c) (latched_count c) (count_latched c) (status_latched c) (status c) (read_state c) (write_state c) (write_latch c) (rw_mode c) (mode c) (bcd c) g.
Definition reset_chan (g : Z) c : hvm_hw_pit_channel := Chan (count c) (latched_count c) (count_latched c) (status_latched c) (status c) (read_state c) (write_state c) (write_latch c) (rw_mode c) 0xff (bcd c) g.

(** [mul] and [div] of the processor: a quotient of more than 64 bits and a
    divisor of zero are faults. *)
Definition muldiv64 (a b c : Z) : run Z := if (c =? 0) || (a * b / c >=? 2 ^ 64) then Bug else Ret (a * b / c).
Definition mod_run (a b : Z) : run Z := if b =? 0 then Bug else Ret (a mod b).

Section Pit.
(** The host's time and the CPU that takes the interrupts. *)
Context (now : Z) (target : option nat).

Definition get_guest_time s : Z * PITState := let '(g, p) := Vpt.hvm_get_guest_time now (default 0%nat target) (plt s) in (g, with_plt s p).

Definition elapsed (channel : nat) s : run (Z * PITState) :=
  if negb (has_channel s channel) then Bug else
  let '(g, s) := get_guest_time s in
  d ← muldiv64 (u64 (g - load_time s channel)) PIT_FREQ SYSTEM_TIME_HZ; Ret (d, s).

(** The [int] that is returned, as 32 bits. *)
Definition pit_get_count (channel : nat) s : run (Z * PITState) :=
  '(d, s) ← elapsed channel s;
  let c := chan s channel in
  if (mode c =? 0) || (mode c =? 1) || (mode c =? 4) || (mode c =? 5) then Ret (u64 (count c - d) .& 0xffff, s)
  else if mode c =? 3 then r ← mod_run (u64 (2 * d)) (count c); Ret (u32 (count c - r), s)
  else r ← mod_run d (count c); Ret (u32 (count c - r), s).

Definition pit_get_out (channel : nat) s : run (bool * PITState) :=
  '(d, s) ← elapsed channel s;
  let c := chan s channel in
  if mode c =? 1 then Ret (d <? count c, s)
  else if mode c =? 2 then r ← mod_run d (count c); Ret ((r =? 0) && negb (d =? 0), s)
  else if mode c =? 3 then r ← mod_run d (count c); Ret (r <? (u32 (count c + 1) .>> 1), s)
  else if (mode c =? 4) || (mode c =? 5) then Ret (d =? count c, s)
  else Ret (d >=? count c, s).

Definition pit_set_gate (channel : nat) (val : Z) s : PITState :=
  let c := chan s channel in
  let s := if (mode c =? 1) || (mode c =? 5) || (mode c =? 2) || (mode c =? 3) then
             if gate c <? val then let '(g, s) := get_guest_time s in set_load_time channel (Vpt.s64 g) s else s
           else s in
  upd_chan channel (set_gate val) s.

(** The channel starts to count now. *)
Definition stamp (channel : nat) s : PITState :=
  match target with
  | None => set_load_time channel 0 s
  | Some _ => let '(g, s) := get_guest_time s in set_load_time channel (Vpt.s64 g) s
  end.

(** The timer of channel 0, by its mode [m]. *)
Definition program (v : nat) (m period : Z) s : PITState :=
  if (m =? 2) || (m =? 3) then with_plt s (Vpt.create_periodic_time now v 0 period period 0 (Some tt) (plt s))
  else if (m =? 1) || (m =? 4) then with_plt s (Vpt.create_periodic_time now v 0 period 0 0 (Some tt) (plt s))
  else with_plt s (Vpt.destroy_periodic_time 0 (plt s)).

(** [val] is an [int]. *)
Definition pit_load_count (channel : nat) (val : Z) s : PITState :=
  let val := if val =? 0 then 0x10000 else val in
  let s := upd_chan channel (set_count (u32 val)) (stamp channel s) in
  let period := u32 (DIV_ROUND (u64 (val * SYSTEM_TIME_HZ)) PIT_FREQ) in
  match target with
  | None => s
  | Some v => if negb (channel =? 0)%nat then s else program v (mode (chan s channel)) period s
  end.

Definition pit_latch_count (channel : nat) s : run PITState :=
  if negb (has_channel s channel) then Bug else
  if count_latched (chan s channel) =? 0 then
    '(n, s) ← pit_get_count channel s;
    Ret (upd_chan channel (fun c => set_latched (n mod 2 ^ 16) (rw_mode c) c) s)
  else Ret s.

Definition pit_latch_status (channel : nat) s : run PITState :=
  if negb (has_channel s channel) then Bug else
  if status_latched (chan s channel) =? 0 then
    '(o, s) ← pit_get_out channel s;
    Ret (upd_chan channel (fun c => set_status (((Z.b2z o .<< 7) .| (rw_mode c .<< 4) .| (mode c .<< 1) .| bcd c) mod 2 ^ 8) 1 c) s)
  else Ret s.

(** One channel of a read-back command. *)
Definition read_back (val : Z) (channel : nat) s : run PITState :=
  if truthy (val .& (2 .<< Z.of_nat channel)) then
    s ← (if negb (truthy (val .& 0x20)) then pit_latch_count channel s else Ret s);
    if negb (truthy (val .& 0x10)) then pit_latch_status channel s else Ret s
  else Ret s.

Definition pit_ioport_write (addr val : Z) s : run PITState :=
  let val := val .& 0xff in
  let addr := addr .& 3 in
  if addr =? 3 then
    if val .>> 6 =? 3 then s ← read_back val 0 s; s ← read_back val 1 s; read_back val 2 s
    else
      let channel := Z.to_nat (val .>> 6) in
      let access := (val .>> 4) .& 3 in
      if access =? 0 then pit_latch_count channel s
      else
        let m := (val .>> 1) .& 7 in
        Ret (upd_chan channel (set_mode access (if m >? 5 then m - 4 else m) (val .& 1)) s)
  else
    let channel := Z.to_nat addr in
    if negb (has_channel s channel) then Bug else
    let c := chan s channel in
    Ret (if write_state c =? RW_STATE_MSB then pit_load_count channel (val .<< 8) s
         else if write_state c =? RW_STATE_WORD0 then upd_chan channel (set_write RW_STATE_WORD1 val) s
         else if write_state c =? RW_STATE_WORD1 then
           upd_chan channel (fun c => set_write RW_STATE_WORD0 (write_latch c) c) (pit_load_count channel (write_latch c .| (val .<< 8)) s)
         else pit_load_count channel val s).

Definition pit_ioport_read (addr : Z) s : run (Z * PITState) :=
  let channel := Z.to_nat (addr .& 3) in
  if negb (has_channel s channel) then Bug else
  let c := chan s channel in
  if negb (status_latched c =? 0) then Ret (status c, upd_chan channel (fun c => set_status (status c) 0 c) s)
  else if negb (count_latched c =? 0) then
    Ret (if count_latched c =? RW_STATE_MSB then (latched_count c .>> 8, upd_chan channel (set_count_latched 0) s)
         else if count_latched c =? RW_STATE_WORD0 then (latched_count c .& 0xff, upd_chan channel (set_count_latched RW_STATE_MSB) s)
         else (latched_count c .& 0xff, upd_chan channel (set_count_latched 0) s))
  else
    '(n, s) ← pit_get_count channel s;
    Ret (if read_state c =? RW_STATE_MSB then ((n .>> 8) .& 0xff, s)
         else if read_state c =? RW_STATE_WORD0 then (n .& 0xff, upd_chan channel (set_read RW_STATE_WORD1) s)
         else if read_state c =? RW_STATE_WORD1 then ((n .>> 8) .& 0xff, upd_chan channel (set_read RW_STATE_WORD0) s)
         else (n .& 0xff, s)).

Definition pit_stop_channel0_irq s : PITState := with_plt s (Vpt.destroy_periodic_time 0 (plt s)).

(** ** Ports *)

Definition handle_pit_write (port bytes val : Z) s : run PITState := if negb (bytes =? 1) then Ret s else pit_ioport_write port val s.

Definition handle_pit_read (port bytes : Z) s : run (option Z * PITState) :=
  if negb (bytes =? 1) then Ret (None, s)
  else if negb (port .& 3 =? 3) then '(r, s) ← pit_ioport_read port s; Ret (Some r, s)
  else Ret (None, s).

Definition speaker_ioport_write (val : Z) s : PITState := pit_set_gate 2 (val .& 1) (with_speaker s ((val .>> 1) .& 1)).

Definition speaker_ioport_read s : run (Z * PITState) :=
  let refresh_clock := (u32 now .>> 14) .& 1 in
  '(o, s') ← pit_get_out 2 s;
  Ret ((speaker_data_on s .<< 1) .| gate (chan s 2) .| (Z.b2z o .<< 5) .| (refresh_clock .<< 4), s').

(** [BUG_ON(bytes != 1)]. *)
Definition handle_speaker_write (bytes val : Z) s : run PITState := if negb (bytes =? 1) then Bug else Ret (speaker_ioport_write val s).
Definition handle_speaker_read (bytes : Z) s : run (Z * PITState) := if negb (bytes =? 1) then Bug else speaker_ioport_read s.

(** The callback of the timer, called for CPU [v]. *)
Definition pit_time_fired (v : nat) s : PITState :=
  let '(g, p) := Vpt.hvm_get_guest_time now v (plt s) in set_load_time 0 (Vpt.s64 g) (with_plt s p).

(** ** Reset and load *)

Definition reset_one (s : PITState) (i : nat) : PITState := pit_load_count i 0 (upd_chan i (reset_chan (if decide (i = 2%nat) then 0 else 1)) s).

Definition pit_reset s : PITState :=
  let p := Vpt.destroy_periodic_time 0 (plt s) in
  let p := Vpt.upd_pt 0 (fun t => Vpt.PT (Vpt.on_list t) (Vpt.one_shot t) (Vpt.do_not_freeze t) (Vpt.irq_issued t) Vpt.PTSRC_isa (Vpt.pt_irq t) (Vpt.pt_vcpu t)
    (Vpt.pending_intr_nr t) (Vpt.period t) (Vpt.scheduled t) (Vpt.last_plt_gtime t) (Vpt.timer t) (Vpt.cb t)) p in
  foldl reset_one (with_plt s p) (seq 0 3).

Definition pit_deinit s : PITState := with_plt s (Vpt.destroy_periodic_time 0 (plt s)).

(** After the structure [cs], [sp], [pad] was read; the time is that of CPU 0. *)
Definition pit_loaded (cs : list hvm_hw_pit_channel) (sp pad : Z) s : PITState :=
  let s := PIT cs sp pad (count_load_time s) (plt s) in
  let '(g, p) := Vpt.hvm_get_guest_time now 0 (plt s) in
  let s := with_plt s (Vpt.upd_pt 0 (Vpt.set_gtime g) p) in
  foldl (fun s i => pit_load_count i (s32 (count (chan s i))) s) s (seq 0 3).

End Pit.

(** ** Types *)

Definition byte_ok (x : Z) : Prop := 0 <= x < 2 ^ 8.
Record chan_typed c : Prop := {
  ct_count : 0 <= count c < 2 ^ 32; ct_latched : 0 <= latched_count c < 2 ^ 16; ct_cl : byte_ok (count_latched c); ct_sl : byte_ok (status_latched c);
  ct_status : byte_ok (status c); ct_rs : byte_ok (read_state c); ct_ws : byte_ok (write_state c); ct_wl : byte_ok (write_latch c);
  ct_rw : byte_ok (rw_mode c); ct_mode : byte_ok (mode c); ct_bcd : byte_ok (bcd c); ct_gate : byte_ok (gate c)
}.

(** For [n] CPUs. *)
Record pit_typed (n : nat) s : Prop := {
  pt_len : length (channels s) = 3%nat; pt_each : Forall chan_typed (channels s); pt_times : length (count_load_time s) = 3%nat;
  pt_vpt : Vpt.vpt_ok (plt s); pt_cpus : length (Vpt.tcpus (plt s)) = n; pt_pts : (0 < length (Vpt.pts (plt s)))%nat
}.

(** The counts that a counter is taken modulo are not zero. *)
Definition counting s : Prop := forall i, (i < 3)%nat -> 0 < count (chan s i).
Definition pit_ok (n : nat) s : Prop := pit_typed n s /\ counting s.

Lemma chan_upd_eq i f s : (i < length (channels s))%nat -> chan (upd_chan i f s) i = f (chan s i).
Proof.
  intros Hi. destruct (lookup_lt_is_Some_2 (channels s) i Hi) as [c Hc]. unfold chan. cbn [channels upd_chan]. rewrite decide_True by done. rewrite (list_lookup_total_correct _ _ _ Hc).
  apply list_lookup_total_correct. by rewrite list_lookup_alter_eq, Hc.
Qed.
Lemma chan_upd_ne i j f s : (i < length (channels s))%nat -> i <> j -> chan (upd_chan i f s) j = chan s j.
Proof. intros Hi H. unfold chan. cbn [channels upd_chan]. rewrite decide_True by done. rewrite !list_lookup_total_alt. by rewrite list_lookup_alter_ne. Qed.
Lemma chan_ok n i s : pit_typed n s -> (i < 3)%nat -> chan_typed (chan s i).
Proof.
  intros [H1 H2 _ _ _ _] Hi. destruct (lookup_lt_is_Some_2 (channels s) i) as [c Hc]; [lia|]. unfold chan. rewrite (list_lookup_total_correct _ _ _ Hc). by eapply Forall_lookup_1.
Qed.

Lemma has_channel_ok n i s : pit_typed n s -> (i < 3)%nat -> has_channel s i = true.
Proof. intros [H1 _ H3 _ _ _] Hi. unfold has_channel. by rewrite H1, H3, !bool_decide_eq_true_2. Qed.

Lemma upd_chan_typed n i f s : (i < 3)%nat -> (forall c, chan_typed c -> chan_typed (f c)) -> pit_typed n s -> pit_typed n (upd_chan i f s).
Proof. intros Hi Hf [H1 H2 H3 H4 H5 H6]. split; cbn; rewrite ?decide_True by lia; [by rewrite length_alter| |done..]. apply Forall_alter; [done|]. auto. Qed.
Lemma upd_chan_ok n i f s : (i < 3)%nat -> (forall c, chan_typed c -> chan_typed (f c) /\ count (f c) = count c) -> pit_ok n s -> pit_ok n (upd_chan i f s).
Proof.
  intros Hi Hf [H1 H2]. split; [apply upd_chan_typed; [done| |done]; intros c Hc; by apply Hf|]. intros j Hj. pose proof (H2 j Hj). destruct (decide (i = j)) as [->|Hne].
  - rewrite chan_upd_eq by (rewrite (pt_len _ _ H1); lia). destruct (Hf _ (chan_ok n j s H1 Hj)) as [_ E]. by rewrite E.
  - by rewrite chan_upd_ne by (rewrite ?(pt_len _ _ H1); lia).
Qed.

Lemma with_plt_typed n p s : pit_typed n s -> Vpt.kept (plt s) p -> pit_typed n (with_plt s p).
Proof. intros [H1 H2 H3 H4 H5 H6] [K1 K2 K3 _ _]. split; cbn; [done..|auto|by rewrite K2|by rewrite K3]. Qed.
Lemma load_time_typed n i t s : (i < 3)%nat -> pit_typed n s -> pit_typed n (set_load_time i t s).
Proof. intros Hi [H1 H2 H3 H4 H5 H6]. split; cbn; try done. rewrite decide_True by lia. by rewrite length_insert. Qed.

Section Ok.
Context (n : nat) (now : Z) (target : option nat) (Ht : forall v, target = Some v -> (v < n)%nat).

Lemma get_time_typed s : pit_typed n s -> pit_typed n (get_guest_time now target s).2.
Proof.
  intros Hs. unfold get_guest_time. pose proof (Vpt.same_get_time now (default 0%nat target) (plt s)) as K. destruct (Vpt.hvm_get_guest_time _ _ _) as [g p].
  apply with_plt_typed; [done|]. by apply Vpt.kept_same.
Qed.

Lemma elapsed_returns i s : (i < 3)%nat -> pit_typed n s -> exists d, elapsed now target i s = Ret (d, (get_guest_time now target s).2) /\ 0 <= d < 2 ^ 64.
Proof.
  intros Hi Hs. unfold elapsed. rewrite (has_channel_ok n i s Hs Hi). cbn [negb]. destruct (get_guest_time now target s) as [g s1]. cbn [snd]. pose proof (u64_range (g - load_time s1 i)) as Hu. unfold muldiv64, PIT_FREQ, SYSTEM_TIME_HZ.
  set (x := u64 (g - load_time s1 i)) in *. clearbody x. assert (0 <= x * 1193182 / 1000000000 < 2 ^ 64) as Hx by zlia.
  destruct (Z.geb_spec (x * 1193182 / 1000000000) (2 ^ 64)); [lia|]. cbn. by eexists.
Qed.

Lemma mod_returns a b : 0 < b -> mod_run a b = Ret (a mod b).
Proof. intros H. unfold mod_run. by destruct (Z.eqb_spec b 0); [lia|]. Qed.

Lemma get_count_returns i s : (i < 3)%nat -> pit_ok n s -> exists x, pit_get_count now target i s = Ret (x, (get_guest_time now target s).2).
Proof.
  intros Hi [Hs Hc]. unfold pit_get_count. destruct (elapsed_returns i s Hi Hs) as (d & -> & _). cbn [mbind run_bind]. change (chan (get_guest_time now target s).2 i) with (chan s i).
  pose proof (Hc i Hi). destruct (_ || _); [by eexists|]. destruct (_ =? 3); rewrite mod_returns by done; cbn [mbind run_bind]; by eexists.
Qed.

Lemma get_out_returns i s : (i < 3)%nat -> pit_ok n s -> exists x, pit_get_out now target i s = Ret (x, (get_guest_time now target s).2).
Proof.
  intros Hi [Hs Hc]. unfold pit_get_out. destruct (elapsed_returns i s Hi Hs) as (d & -> & _). cbn [mbind run_bind]. change (chan (get_guest_time now target s).2 i) with (chan s i).
  pose proof (Hc i Hi). destruct (_ =? 1); [by eexists|]. destruct (_ =? 2); [rewrite mod_returns by done; by eexists|].
  destruct (_ =? 3); [rewrite mod_returns by done; by eexists|]. destruct (_ || _); by eexists.
Qed.

Lemma pit_get_time_ok s : pit_ok n s -> pit_ok n (get_guest_time now target s).2.
Proof. intros [H1 H2]. split; [by apply get_time_typed|exact H2]. Qed.

Lemma stamp_typed i s : (i < 3)%nat -> pit_typed n s -> pit_typed n (stamp now target i s) /\ channels (stamp now target i s) = channels s.
Proof.
  intros Hi Hs. pose proof (get_time_typed s Hs) as G. assert (channels (get_guest_time now target s).2 = channels s) as E by (unfold get_guest_time; by destruct (Vpt.hvm_get_guest_time _ _ _)).
  unfold stamp. destruct (get_guest_time now target s) as [g s1]. cbn [snd] in *. destruct target; (split; [by apply load_time_typed|done]).
Qed.

Lemma program_typed v m period s : (v < n)%nat -> 0 <= period < 2 ^ 32 -> pit_typed n s -> pit_typed n (program now v m period s) /\ channels (program now v m period s) = channels s.
Proof.
  intros Hv Hp Hs. assert (forall per, 0 <= per < 2 ^ 32 -> Vpt.kept (plt s) (Vpt.create_periodic_time now v 0 period per 0 (Some tt) (plt s))) as Hcr.
  { intros per Hper. apply Vpt.create_ok; [|apply Hs]. cbn. rewrite (pt_cpus _ _ Hs). split_and!; [done|apply Hs|lia|lia]. }
  unfold program. destruct (_ || _); [|destruct (_ || _)]; (split; [apply with_plt_typed; [done|]|done]); [by apply Hcr|apply Hcr; lia|apply Vpt.destroy_off, Hs].
Qed.

(** Loading a count makes the channel count, whatever the count is. *)
Lemma load_count_typed i val s : (i < 3)%nat -> - 2 ^ 31 <= val < 2 ^ 31 -> pit_typed n s ->
  let s' := pit_load_count now target i val s in
  pit_typed n s' /\ (forall j, (j < 3)%nat -> j <> i -> chan s' j = chan s j) /\ chan s' i = set_count (u32 (if val =? 0 then 0x10000 else val)) (chan s i) /\ 0 < count (chan s' i).
Proof.
  intros Hi Hv Hs. unfold pit_load_count. cbv zeta. set (x := if val =? 0 then 0x10000 else val).
  assert (0 < u32 x < 2 ^ 32) as Hx by (unfold x, u32; destruct (Z.eqb_spec val 0); zlia).
  destruct (stamp_typed i s Hi Hs) as [H1 E1]. set (s2 := upd_chan i (set_count (u32 x)) (stamp now target i s)).
  assert (pit_typed n s2) as H2 by (apply upd_chan_typed; [done|intros c []; split; cbn; try done; lia|done]).
  assert (forall j, j <> i -> chan s2 j = chan s j) as Hne by (intros j Hj; unfold s2; rewrite chan_upd_ne by (rewrite ?(pt_len _ _ H1); lia || done); unfold chan; by rewrite E1).
  assert (chan s2 i = set_count (u32 x) (chan s i)) as Heq by (unfold s2; rewrite chan_upd_eq by (rewrite (pt_len _ _ H1); lia); unfold chan; by rewrite E1).
  clearbody s2. set (period := u32 _). assert (0 <= period < 2 ^ 32) as Hp by apply u32_range.
  assert (forall s3, pit_typed n s3 -> channels s3 = channels s2 -> pit_typed n s3 /\ (forall j, (j < 3)%nat -> j <> i -> chan s3 j = chan s j) /\
    chan s3 i = set_count (u32 x) (chan s i) /\ 0 < count (chan s3 i)) as Hend.
  { intros s3 H3 E3. assert (forall j, chan s3 j = chan s2 j) as Ej by (intros j; unfold chan; by rewrite E3). rewrite !Ej, Heq.
    split_and!; [done|intros; rewrite Ej; by apply Hne|done|cbn; lia]. }
  destruct target as [v|] eqn:Et; [|by apply Hend]. destruct (negb _); [by apply Hend|]. destruct (program_typed v (mode (chan s2 i)) period s2) as [P1 P2]; try done; [by apply Ht|]. by apply Hend.
Qed.

Lemma load_count_ok i val s : (i < 3)%nat -> - 2 ^ 31 <= val < 2 ^ 31 -> pit_ok n s -> pit_ok n (pit_load_count now target i val s).
Proof.
  intros Hi Hv [Hs Hc]. destruct (load_count_typed i val s Hi Hv Hs) as (H1 & H2 & _ & H4). split; [done|]. intros j Hj.
  destruct (decide (j = i)) as [->|Hne]; [done|]. rewrite H2 by done. by apply Hc.
Qed.

Lemma latch_count_ok i s : (i < 3)%nat -> pit_ok n s -> exists s', pit_latch_count now target i s = Ret s' /\ pit_ok n s'.
Proof.
  intros Hi Hs. pose proof Hs as [Hty _]. unfold pit_latch_count. rewrite (has_channel_ok n i s Hty Hi). cbn [negb]. destruct (_ =? 0); [|by eauto]. destruct (get_count_returns i s Hi Hs) as [x ->]. cbn [mbind run_bind]. eexists. split; [reflexivity|].
  apply upd_chan_ok; [done| |by apply pit_get_time_ok]. intros c []. split; [|done]. split; cbn; try done. apply Z.mod_pos_bound. lia.
Qed.

Lemma latch_status_ok i s : (i < 3)%nat -> pit_ok n s -> exists s', pit_latch_status now target i s = Ret s' /\ pit_ok n s'.
Proof.
  intros Hi Hs. pose proof Hs as [Hty _]. unfold pit_latch_status. rewrite (has_channel_ok n i s Hty Hi). cbn [negb]. destruct (_ =? 0); [|by eauto]. destruct (get_out_returns i s Hi Hs) as [x ->]. cbn [mbind run_bind]. eexists. split; [reflexivity|].
  apply upd_chan_ok; [done| |by apply pit_get_time_ok]. intros c []. split; [|done]. split; cbn [set_status status status_latched count latched_count count_latched read_state write_state write_latch rw_mode mode bcd gate]; try done.
  apply Z.mod_pos_bound. lia.
Qed.

Lemma read_back_ok val i s : (i < 3)%nat -> pit_ok n s -> exists s', read_back now target val i s = Ret s' /\ pit_ok n s'.
Proof.
  intros Hi Hs. unfold read_back. destruct (truthy _); [|by eauto].
  assert (exists s1, (if negb (truthy (val .& 0x20)) then pit_latch_count now target i s else Ret s) = Ret s1 /\ pit_ok n s1) as (s1 & -> & H1)
    by (destruct (negb _); [by apply latch_count_ok|by eauto]). cbn [mbind run_bind]. destruct (negb _); [by apply latch_status_ok|by eauto].
Qed.

Lemma byte_range x : byte_ok (x .& 0xff).
Proof. unfold byte_ok. apply land_range; lia. Qed.

Lemma shift8 v : byte_ok v -> 0 <= v .<< 8 < 2 ^ 16.
Proof. unfold byte_ok. intros H. rewrite Z.shiftl_mul_pow2 by lia. lia. Qed.

Lemma pit_ioport_write_ok addr val s : pit_ok n s -> exists s', pit_ioport_write now target addr val s = Ret s' /\ pit_ok n s'.
Proof.
  intros Hs. unfold pit_ioport_write. cbv zeta. pose proof (byte_range val) as Hb. set (v := val .& 0xff) in *. clearbody v. set (a := addr .& 3).
  assert (0 <= a < 2 ^ 2) as Ha by (apply land_range; lia). clearbody a. assert (0 <= v .>> 6 < 4) as H6 by (rewrite Z.shiftr_div_pow2 by lia; unfold byte_ok in Hb; zlia).
  destruct (Z.eqb_spec a 3) as [->|Hne].
  - destruct (Z.eqb_spec (v .>> 6) 3).
    + destruct (read_back_ok v 0 s ltac:(lia) Hs) as (s1 & -> & H1). cbn [mbind run_bind]. destruct (read_back_ok v 1 s1 ltac:(lia) H1) as (s2 & -> & H2). cbn [mbind run_bind].
      apply read_back_ok; [lia|done].
    + destruct (_ =? 0); [apply latch_count_ok; [lia|done]|]. eexists. split; [reflexivity|]. apply upd_chan_ok; [lia| |done].
      intros c []. assert (byte_ok ((v .>> 4) .& 3)) by (apply land_range; lia). assert (0 <= (v .>> 1) .& 7 < 2 ^ 3) as H7 by (apply land_range; lia).
      assert (byte_ok (v .& 1)) by (apply land_range; lia). split; [|done]. split; cbn; try done. destruct (Z.gtb_spec ((v .>> 1) .& 7) 5); unfold byte_ok; lia.
  - assert (Z.to_nat a < 3)%nat as Hi by lia. set (i := Z.to_nat a) in *. pose proof (shift8 v Hb) as H8. pose proof Hs as [Hty _].
    rewrite (has_channel_ok n i s Hty Hi). cbn [negb]. eexists. split; [reflexivity|].
    pose proof (ct_wl _ (chan_ok n i s Hty Hi)) as Hwl. unfold byte_ok in Hb, Hwl.
    destruct (_ =? RW_STATE_MSB); [apply load_count_ok; (done || lia)|]. destruct (_ =? RW_STATE_WORD0).
    { apply upd_chan_ok; [done| |done]. intros c []. split; [|done]. split; cbn; done. }
    destruct (_ =? RW_STATE_WORD1); [|apply load_count_ok; (done || lia)].
    apply upd_chan_ok; [done|intros c []; split; [|done]; split; cbn; done|]. apply load_count_ok; [done| |done].
    pose proof (lor_range (write_latch (chan s i)) (v .<< 8) 16). lia.
Qed.

Lemma pit_ioport_read_ok addr s : addr .& 3 <> 3 -> pit_ok n s -> exists x s', pit_ioport_read now target addr s = Ret (x, s') /\ pit_ok n s' /\ 0 <= x < 2 ^ 8.
Proof.
  intros Hne Hs. unfold pit_ioport_read. cbv zeta. assert (0 <= addr .& 3 < 2 ^ 2) as Ha by (apply land_range; lia). assert (Z.to_nat (addr .& 3) < 3)%nat as Hi by lia.
  set (i := Z.to_nat (addr .& 3)) in *. pose proof Hs as [Hty _]. rewrite (has_channel_ok n i s Hty Hi). cbn [negb].
  pose proof (chan_ok n i s Hty Hi) as [C1 C2 C3 C4 C5 C6 C7 C8 C9 C10 C11 C12].
  destruct (negb _). { do 2 eexists. split; [reflexivity|]. split; [|exact C5]. apply upd_chan_ok; [done| |done]. intros c []. split; [|done]. by split. }
  assert (forall x, 0 <= x < 2 ^ 8 -> pit_ok n (upd_chan i (set_count_latched x) s)) as Hcl.
  { intros x Hx. apply upd_chan_ok; [done| |done]. intros c []. split; [|done]. by split. }
  assert (0 <= latched_count (chan s i) .>> 8 < 2 ^ 8) as Hsh by (rewrite Z.shiftr_div_pow2 by lia; zlia). pose proof (byte_range (latched_count (chan s i))) as Hlo.
  destruct (negb _).
  { destruct (_ =? RW_STATE_MSB); [|destruct (_ =? RW_STATE_WORD0)]; (do 2 eexists; split; [reflexivity|]); (split; [apply Hcl; unfold RW_STATE_MSB; lia|done]). }
  destruct (get_count_returns i s Hi Hs) as [x ->]. cbn [mbind run_bind]. pose proof (pit_get_time_ok s Hs) as Hg. pose proof (byte_range x) as Hx1. pose proof (byte_range (x .>> 8)) as Hx2.
  assert (forall y, 0 <= y < 2 ^ 8 -> pit_ok n (upd_chan i (set_read y) (get_guest_time now target s).2)) as Hrd.
  { intros y Hy. apply upd_chan_ok; [done| |done]. intros c []. split; [|done]. by split. }
  destruct (_ =? RW_STATE_MSB); [|destruct (_ =? RW_STATE_WORD0); [|destruct (_ =? RW_STATE_WORD1)]]; (do 2 eexists; split; [reflexivity|]); (split; [|done]); try done;
    apply Hrd; unfold RW_STATE_WORD0, RW_STATE_WORD1; lia.
Qed.

Lemma set_gate_ok i val s : (i < 3)%nat -> byte_ok val -> pit_ok n s -> pit_ok n (pit_set_gate now target i val s).
Proof.
  intros Hi Hv Hs. unfold pit_set_gate. cbv zeta. apply upd_chan_ok; [done|intros c []; split; [|done]; by split|]. destruct (_ || _); [|done]. destruct (_ <? _); [|done].
  pose proof (pit_get_time_ok s Hs) as [G1 G2]. destruct (get_guest_time now target s) as [g s1]. split; [by apply load_time_typed|exact G2].
Qed.

Lemma fired_ok v s : pit_ok n s -> pit_ok n (pit_time_fired now v s).
Proof.
  intros [H1 H2]. unfold pit_time_fired. pose proof (Vpt.same_get_time now v (plt s)) as K. destruct (Vpt.hvm_get_guest_time now v (plt s)) as [g p].
  split; [|exact H2]. apply load_time_typed; [lia|]. apply with_plt_typed; [done|]. by apply Vpt.kept_same.
Qed.

Lemma stop_ok s : pit_ok n s -> pit_ok n (pit_stop_channel0_irq s).
Proof. intros [H1 H2]. split; [|exact H2]. apply with_plt_typed; [done|]. apply Vpt.destroy_off, H1. Qed.

(** The three channels are loaded one after the other. *)
Lemma load_all_ok (f : PITState -> nat -> PITState) s :
  (forall s i, (i < 3)%nat -> pit_typed n s -> pit_typed n (f s i) /\ 0 < count (chan (f s i) i) /\ forall j, (j < 3)%nat -> j <> i -> chan (f s i) j = chan s j) ->
  pit_typed n s -> pit_ok n (foldl f s (seq 0 3)).
Proof.
  intros Hf Hs. cbn [seq foldl]. destruct (Hf s 0%nat ltac:(lia) Hs) as (A1 & A2 & A3). set (s1 := f s 0%nat) in *. destruct (Hf s1 1%nat ltac:(lia) A1) as (B1 & B2 & B3).
  set (s2 := f s1 1%nat) in *. destruct (Hf s2 2%nat ltac:(lia) B1) as (C1 & C2 & C3). split; [done|]. intros i Hi.
  destruct i as [|[|[|i]]]; [rewrite C3, B3 by lia; done|rewrite C3 by lia; done|done|lia].
Qed.

Lemma pit_loaded_ok cs sp pad s : length cs = 3%nat -> Forall chan_typed cs -> pit_typed n s -> pit_ok n (pit_loaded now target cs sp pad s).
Proof.
  intros Hl Hc Hs. unfold pit_loaded. cbn [plt]. pose proof (Vpt.same_get_time now 0 (plt s)) as K. destruct (Vpt.hvm_get_guest_time now 0 (plt s)) as [g p]. cbn [snd] in K.
  apply load_all_ok.
  - intros s1 i Hi H1. destruct (load_count_typed i (s32 (count (chan s1 i))) s1 Hi (s32_range _) H1) as (A & B & _ & D). done.
  - apply with_plt_typed; [by destruct Hs|]. cbn [plt]. eapply Vpt.kept_trans; [by apply Vpt.kept_same|]. by apply Vpt.kept_same, Vpt.same_upd.
Qed.

Lemma pit_reset_ok s : pit_typed n s -> pit_ok n (pit_reset now target s).
Proof.
  intros Hs. unfold pit_reset. cbv zeta. apply load_all_ok.
  - intros s1 i Hi H1. unfold reset_one. set (s2 := upd_chan i _ s1). assert (pit_typed n s2) as H2.
    { apply upd_chan_typed; [done| |done]. intros c []. split; cbn; try done; unfold byte_ok; try lia. case_decide; lia. }
    destruct (load_count_typed i 0 s2 Hi ltac:(lia) H2) as (A & B & _ & D). split_and!; [done|done|]. intros j Hj Hne. rewrite B by done. unfold s2. by rewrite chan_upd_ne by (rewrite ?(pt_len _ _ H1); lia).
  - apply with_plt_typed; [done|]. destruct (Vpt.destroy_off 0 (plt s) (pt_vpt _ _ Hs)) as [K _]. eapply Vpt.kept_trans; [exact K|]. by apply Vpt.kept_same, Vpt.same_upd.
Qed.

End Ok.

(** ** Sequences of accesses *)

(** Accesses of the guest to the ports, the callback of the timer for a CPU,
    the end of the interrupt, a reset and a structure that is loaded. *)
Inductive pit_op :=
| PitWrite (port bytes val : Z) | PitRead (port bytes : Z) | SpeakerWrite (val : Z) | SpeakerRead | Fired (v : nat) | StopIrq | Reset
| Load (cs : list hvm_hw_pit_channel) (sp pad : Z).

Definition pit_exec (now : Z) (target : option nat) (o : pit_op) s : run PITState :=
  match o with
  | PitWrite port bytes val => handle_pit_write now target port bytes val s
  | PitRead port bytes => '(_, s) ← handle_pit_read now target port bytes s; Ret s
  | SpeakerWrite val => handle_speaker_write now target 1 val s
  | SpeakerRead => '(_, s) ← handle_speaker_read now target 1 s; Ret s
  | Fired v => Ret (pit_time_fired now v s)
  | StopIrq => Ret (pit_stop_channel0_irq s)
  | Reset => Ret (pit_reset now target s)
  | Load cs sp pad => Ret (pit_loaded now target cs sp pad s)
  end.

Fixpoint pit_trace (ops : list (Z * option nat * pit_op)) s : run PITState :=
  match ops with [] => Ret s | (now, target, o) :: ops => s ← pit_exec now target o s; pit_trace ops s end.

(** The target CPU exists; a structure has the declared widths, nothing else. *)
Definition valid_pit (n : nat) (x : Z * option nat * pit_op) : Prop :=
  (forall v, x.1.2 = Some v -> (v < n)%nat) /\ match x.2 with Load cs _ _ => length cs = 3%nat /\ Forall chan_typed cs | _ => True end.

Lemma pit_exec_ok n now target o s : valid_pit n (now, target, o) -> pit_ok n s -> exists s', pit_exec now target o s = Ret s' /\ pit_ok n s'.
Proof.
  intros [Ht Hv] Hs. cbn [fst snd] in *. destruct o as [port bytes val|port bytes|val| |v| | |cs sp pad]; cbn [pit_exec].
  - unfold handle_pit_write. destruct (negb _); [by eauto|]. by apply pit_ioport_write_ok.
  - unfold handle_pit_read. destruct (negb (bytes =? 1)); [by eauto|]. destruct (Z.eqb_spec (port .& 3) 3) as [E|E]; cbn [negb mbind run_bind]; [by eauto|].
    destruct (pit_ioport_read_ok n now target port s E Hs) as (x & s' & -> & H & _). cbn [mbind run_bind]. by eauto.
  - cbn. eexists. split; [reflexivity|]. unfold speaker_ioport_write. apply set_gate_ok; [lia|unfold byte_ok; apply land_range; lia|]. destruct Hs as [[] H2]. by split.
  - cbn [handle_speaker_read Z.eqb negb]. unfold handle_speaker_read, speaker_ioport_read. cbn [Z.eqb Pos.eqb negb]. destruct (get_out_returns n now target 2 s ltac:(lia) Hs) as [x ->]. cbn [mbind run_bind].
    eexists. split; [reflexivity|]. by apply pit_get_time_ok.
  - eexists. split; [reflexivity|]. by apply fired_ok.
  - eexists. split; [reflexivity|]. by apply stop_ok.
  - eexists. split; [reflexivity|]. apply pit_reset_ok; [done|apply Hs].
  - destruct Hv. eexists. split; [reflexivity|]. apply pit_loaded_ok; try done. apply Hs.
Qed.

(** C21. The interval timer never faults the host.  Whatever the guest writes to
    its ports and reads from them (the port of the speaker in accesses of one
    byte, as it is registered), whenever its timer fires, and whatever structure
    of three channels a migration loads into it, a count of zero included, no
    counter is taken modulo zero, no channel outside the three is read or
    written, and the fields keep their widths. *)
Theorem pit_never_faults n ops s : Forall (valid_pit n) ops -> pit_ok n s -> exists s', pit_trace ops s = Ret s' /\ pit_ok n s'.
Proof.
  intros Hops. revert s. induction Hops as [|[[now target] o] ops Hv _ IH]; intros s Hs; cbn [pit_trace]; [by eauto|].
  destruct (pit_exec_ok n now target o s Hv Hs) as (s1 & -> & H1). cbn [mbind run_bind]. by apply IH.
Qed.

(** ** A latched count *)

(** A count that is latched is read as it was.  In the mode that reads two
    bytes, the two reads after a latch command give the low and the high byte of
    the count at the time of the command, however much later they come, and
    after them the channel is as before, not latched. *)
Theorem pit_latch_reads_count n now target now1 target1 now2 target2 (i : nat) s :
  pit_ok n s -> (i < 3)%nat -> count_latched (chan s i) = 0 -> status_latched (chan s i) = 0 -> rw_mode (chan s i) = RW_STATE_WORD0 ->
  exists x lo hi s1 s2 s3,
    pit_get_count now target i s = Ret (x, (get_guest_time now target s).2) /\
    pit_ioport_write now target 3 (Z.of_nat i .<< 6) s = Ret s1 /\
    pit_ioport_read now1 target1 (Z.of_nat i) s1 = Ret (lo, s2) /\ pit_ioport_read now2 target2 (Z.of_nat i) s2 = Ret (hi, s3) /\
    lo + 256 * hi = x mod 2 ^ 16 /\ count_latched (chan s3 i) = 0 /\ plt s3 = plt (get_guest_time now target s).2.
Proof.
  intros Hs Hi Hcl Hsl Hrw. destruct (get_count_returns n now target i s Hi Hs) as [x Hx]. exists x. set (s0 := (get_guest_time now target s).2) in *.
  assert (length (channels s0) = 3%nat /\ length (count_load_time s0) = 3%nat) as [Hl Ht0] by (split; apply Hs). assert (chan s0 i = chan s i) as E0 by done.
  set (y := x mod 2 ^ 16). set (s1 := upd_chan i (fun c => set_latched y (rw_mode c) c) s0).
  assert (chan s1 i = set_latched y RW_STATE_WORD0 (chan s i)) as E1 by (unfold s1; rewrite chan_upd_eq by lia; by rewrite E0, Hrw).
  set (s2 := upd_chan i (set_count_latched RW_STATE_MSB) s1). assert (length (channels s1) = 3%nat) as Hl1 by (unfold s1; cbn [upd_chan channels]; rewrite decide_True by lia; by rewrite length_alter).
  assert (chan s2 i = set_latched y RW_STATE_MSB (chan s i)) as E2 by (unfold s2; rewrite chan_upd_eq by lia; by rewrite E1).
  assert (length (channels s2) = 3%nat) as Hl2 by (unfold s2; cbn [upd_chan channels]; rewrite decide_True by lia; by rewrite length_alter).
  assert (forall s', length (channels s') = 3%nat -> length (count_load_time s') = 3%nat -> has_channel s' i = true) as Hhc
    by (intros s' L1 L2; unfold has_channel; by rewrite L1, L2, !bool_decide_eq_true_2).
  assert (Z.of_nat i .& 3 = Z.of_nat i) as Ei by (change 3 with (Z.ones 2); rewrite Z.land_ones by lia; apply Z.mod_small; lia).
  exists (y .& 0xff), (y .>> 8), s1, s2, (upd_chan i (set_count_latched 0) s2). split; [done|]. split; [|split; [|split; [|split; [|split]]]].
  - unfold pit_ioport_write. cbv zeta. assert (Z.of_nat i .<< 6 .& 0xff = Z.of_nat i .<< 6 /\ (Z.of_nat i .<< 6) .>> 6 = Z.of_nat i /\ ((Z.of_nat i .<< 6) .>> 4) .& 3 = 0) as (-> & -> & ->)
      by (destruct i as [|[|[|i]]]; [done|done|done|lia]).
    change (3 .& 3 =? 3) with true. cbn iota. destruct (Z.eqb_spec (Z.of_nat i) 3); [lia|]. rewrite Nat2Z.id. cbn [Z.eqb]. unfold pit_latch_count. rewrite Hhc by apply Hs. rewrite Hcl, Hx. done.
  - unfold pit_ioport_read. cbv zeta. rewrite Ei, Nat2Z.id, Hhc, E1 by done. cbn [status_latched count_latched set_latched latched_count]. rewrite Hsl. done.
  - unfold pit_ioport_read. cbv zeta. rewrite Ei, Nat2Z.id, Hhc, E2 by done. cbn [status_latched count_latched set_latched latched_count]. rewrite Hsl. done.
  - change 0xff with (Z.ones 8). rewrite Z.land_ones, Z.shiftr_div_pow2 by lia. pose proof (Z.div_mod y (2 ^ 8) ltac:(lia)). lia.
  - rewrite chan_upd_eq by lia. done.
  - done.
Qed.

(** ** Migration *)

Definition PIT_type : htype := HType 10 56 None.

Definition chan_bytes c : list Z :=
  le_bytes 4 (count c) ++ le_bytes 2 (latched_count c) ++
  [count_latched c; status_latched c; status c; read_state c; write_state c; write_latch c; rw_mode c; mode c; bcd c; gate c].
Definition chan_of (bs : list Z) : hvm_hw_pit_channel :=
  let b k := drop 6 bs !!! k in
  Chan (le_val (take 4 bs)) (le_val (take 2 (drop 4 bs))) (b 0%nat) (b 1%nat) (b 2%nat) (b 3%nat) (b 4%nat) (b 5%nat) (b 6%nat) (b 7%nat) (b 8%nat) (b 9%nat).

Definition pit_bytes s : list Z := (seq 0 3 ≫= fun i => chan_bytes (chan s i)) ++ le_bytes 4 (speaker_data_on s) ++ le_bytes 4 (pad0 s).
Definition chans_of (bs : list Z) : list hvm_hw_pit_channel := map (fun i => chan_of (take 16 (drop (16 * i) bs))) (seq 0 3).
Definition speaker_of (bs : list Z) : Z := le_val (take 4 (drop 48 bs)).
Definition pad_of (bs : list Z) : Z := le_val (take 4 (drop 52 bs)).

Lemma chan_bytes_length c : length (chan_bytes c) = 16%nat.
Proof. unfold chan_bytes. by rewrite !length_app, !le_bytes_length. Qed.

Lemma chans_bytes_length s : length (seq 0 3 ≫= fun i => chan_bytes (chan s i)) = 48%nat.
Proof. by rewrite (Vioapic.bind_const_length _ 16) by (intros; apply chan_bytes_length). Qed.

Lemma pit_bytes_length s : length (pit_bytes s) = 56%nat.
Proof. unfold pit_bytes. by rewrite !length_app, !le_bytes_length, chans_bytes_length. Qed.

Lemma chan_of_bytes c : chan_typed c -> chan_of (chan_bytes c) = c.
Proof.
  intros [H1 H2 _ _ _ _ _ _ _ _ _ _]. destruct c. cbn [count latched_count] in *. unfold chan_of, chan_bytes. cbn [count latched_count count_latched status_latched status read_state write_state write_latch rw_mode mode bcd gate].
  set (tl := [_; _; _; _; _; _; _; _; _; _]). assert (forall x y, drop 6 (le_bytes 4 x ++ le_bytes 2 y ++ tl) = tl) as E.
  { intros x y. rewrite app_assoc. by rewrite drop_app_length' by (by rewrite length_app, !le_bytes_length). }
  rewrite E. unfold tl. cbv zeta. f_equal.
  - rewrite take_app_length' by (by rewrite le_bytes_length). rewrite le_val_bytes. by apply Z.mod_small.
  - rewrite drop_app_length', take_app_length' by (by rewrite le_bytes_length). rewrite le_val_bytes. by apply Z.mod_small.
Qed.

Record pit_saved_typed s : Prop := { ps_speaker : 0 <= speaker_data_on s < 2 ^ 32; ps_pad : 0 <= pad0 s < 2 ^ 32 }.

Lemma chans_of_bytes n s : pit_typed n s -> chans_of (pit_bytes s) = channels s.
Proof.
  intros Hs. pose proof Hs as [H1 _ _ _ _ _]. unfold chans_of, pit_bytes. apply list_eq. intros k. rewrite list_lookup_fmap. destruct (decide (k < 3)%nat) as [Hk|Hk].
  2: { rewrite (lookup_ge_None_2 (channels s)), (lookup_ge_None_2 (seq 0 3)) by (rewrite ?length_seq; lia). done. }
  rewrite lookup_seq_lt by done. cbn [fmap option_fmap option_map]. rewrite Nat.add_0_l.
  rewrite (Vioapic.bind_block _ 16 _ _ k); [|intros; apply chan_bytes_length|apply lookup_seq_lt; done]. rewrite chan_of_bytes by (by eapply chan_ok).
  unfold chan. destruct (lookup_lt_is_Some_2 (channels s) k) as [c Hc]; [lia|]. by rewrite (list_lookup_total_correct _ _ _ Hc).
Qed.

Lemma rest_of_bytes s : pit_saved_typed s -> speaker_of (pit_bytes s) = speaker_data_on s /\ pad_of (pit_bytes s) = pad0 s.
Proof.
  intros [H1 H2]. unfold speaker_of, pad_of, pit_bytes. split.
  - rewrite drop_app_length', take_app_length' by (rewrite ?chans_bytes_length, ?le_bytes_length; done). rewrite le_val_bytes. by apply Z.mod_small.
  - rewrite app_assoc, drop_app_length', take_ge by (rewrite ?length_app, ?chans_bytes_length, ?le_bytes_length; done). rewrite le_val_bytes. by apply Z.mod_small.
Qed.

(** What the timer of channel 0 is after a load, by the mode [m] and the count. *)
Definition timer_period (cnt : Z) : Z := u32 (DIV_ROUND (u64 (s32 cnt * SYSTEM_TIME_HZ)) PIT_FREQ).
Definition timer_runs (v : nat) (m cnt : Z) s : Prop :=
  m = 1 \/ m = 2 \/ m = 3 \/ m = 4 ->
  let p := Vpt.pt (plt s) 0 in
  Vpt.on_list p = true /\ Vpt.pt_vcpu p = Some v /\ Vpt.pt_irq p = 0 /\ is_Some (Vpt.timer p) /\ Vpt.cb p = Some tt /\
  Vpt.period p = if (m =? 2) || (m =? 3) then Vpt.min_period (timer_period cnt) else 0.

Section Loaded.
Context (n : nat) (now : Z) (target : option nat) (Ht : forall v, target = Some v -> (v < n)%nat).

Lemma stamp_pts i s : Vpt.pts (plt (stamp now target i s)) = Vpt.pts (plt s).
Proof. clear Ht. unfold stamp. destruct target; [|done]. unfold get_guest_time. by destruct (Vpt.hvm_get_guest_time _ _ _) eqn:E; injection E as _ <-. Qed.

Lemma load_other_pts i val s : i <> 0%nat -> Vpt.pts (plt (pit_load_count now target i val s)) = Vpt.pts (plt s).
Proof.
  clear Ht. intros Hi. pose proof (stamp_pts i s) as P. unfold pit_load_count. cbv zeta. set (s1 := stamp now target i s) in *. clearbody s1.
  destruct (Nat.eqb_spec i 0); [done|]. by destruct target.
Qed.

Lemma load_zero_timer v val s : target = Some v -> pit_typed n s -> - 2 ^ 31 <= val < 2 ^ 31 -> val <> 0 ->
  let s' := pit_load_count now target 0 val s in
  let m := mode (chan s 0) in
  m = 1 \/ m = 2 \/ m = 3 \/ m = 4 ->
  let p := Vpt.pt (plt s') 0 in
  Vpt.on_list p = true /\ Vpt.pt_vcpu p = Some v /\ Vpt.pt_irq p = 0 /\ is_Some (Vpt.timer p) /\ Vpt.cb p = Some tt /\
  Vpt.period p = if (m =? 2) || (m =? 3) then Vpt.min_period (u32 (DIV_ROUND (u64 (val * SYSTEM_TIME_HZ)) PIT_FREQ)) else 0.
Proof.
  intros Et Hs Hv Hnz. cbv zeta. unfold pit_load_count. cbv zeta. destruct (Z.eqb_spec val 0); [done|]. set (s2 := upd_chan 0 _ _).
  destruct (stamp_typed n now target Ht 0 s ltac:(lia) Hs) as [H1 E1].
  assert (mode (chan s2 0) = mode (chan s 0)) as Em by (unfold s2; rewrite chan_upd_eq by (rewrite (pt_len _ _ H1); lia); cbn [mode set_count]; unfold chan; by rewrite E1).
  assert (0 < length (Vpt.pts (plt s2)))%nat as Hk by (unfold s2; cbn [plt upd_chan]; rewrite stamp_pts; apply Hs). clearbody s2. rewrite Et. cbn [negb Nat.eqb]. rewrite Em. set (period := u32 _).
  intros Hm. unfold program. destruct (Z.eqb_spec (mode (chan s 0)) 2); [|destruct (Z.eqb_spec (mode (chan s 0)) 3)]; cbn [orb].
  1, 2: destruct (Vpt.create_timer now v 0 period period 0 (Some tt) (plt s2) Hk) as (? & ? & ? & ? & _ & ? & _ & _ & _ & _ & Et'); done.
  assert ((mode (chan s 0) =? 1) || (mode (chan s 0) =? 4) = true) as -> by (destruct Hm as [-> |[? |[? | ->]]]; done).
  destruct (Vpt.create_timer now v 0 period 0 0 (Some tt) (plt s2) Hk) as (? & ? & ? & ? & _ & ? & _ & _ & _ & _ & Et'). done.
Qed.

Lemma s32_u32 x : 0 <= x < 2 ^ 32 -> u32 (s32 x) = x.
Proof. intros H. unfold u32, s32. zlia. Qed.

Lemma set_same c : 0 < count c < 2 ^ 32 -> set_count (u32 (if s32 (count c) =? 0 then 0x10000 else s32 (count c))) c = c.
Proof.
  intros Hc. destruct (Z.eqb_spec (s32 (count c)) 0) as [E|_]; [unfold s32 in E; zlia|]. rewrite s32_u32 by lia. by destruct c.
Qed.

(** Loading the channels of a timer that counts gives those channels. *)
Lemma loaded_spec cs sp pad s : length cs = 3%nat -> Forall (fun c => chan_typed c /\ 0 < count c) cs -> pit_typed n s ->
  let s' := pit_loaded now target cs sp pad s in
  channels s' = cs /\ speaker_data_on s' = sp /\ pad0 s' = pad /\ forall v, target = Some v -> timer_runs v (mode (cs !!! 0%nat)) (count (cs !!! 0%nat)) s'.
Proof.
  intros Hl Hc Hs. unfold pit_loaded. cbn [plt]. pose proof (Vpt.same_get_time now 0 (plt s)) as K. destruct (Vpt.hvm_get_guest_time now 0 (plt s)) as [g p]. cbn [snd] in K.
  set (s0 := with_plt _ _). assert (pit_typed n s0) as H0.
  { apply with_plt_typed.
    - destruct Hs. split; try done. eapply Forall_impl; [exact Hc|]. by intros c [? ?].
    - cbn [plt]. eapply Vpt.kept_trans; [by apply Vpt.kept_same|]. by apply Vpt.kept_same, Vpt.same_upd. }
  assert (forall i, chan s0 i = cs !!! i) as E0 by done. assert (speaker_data_on s0 = sp /\ pad0 s0 = pad) as [Esp Epad] by done. clearbody s0. clear K.
  assert (forall i, (i < 3)%nat -> 0 < count (cs !!! i) < 2 ^ 32) as Hcnt.
  { intros i Hi. destruct (lookup_lt_is_Some_2 cs i) as [c Hci]; [lia|]. rewrite (list_lookup_total_correct _ _ _ Hci). destruct (Forall_lookup_1 _ _ _ _ Hc Hci) as [[] ?]. lia. }
  assert (forall s i, (i < 3)%nat -> pit_typed n s -> (forall j, (j < 3)%nat -> chan s j = cs !!! j) ->
    let s' := pit_load_count now target i (s32 (count (chan s i))) s in pit_typed n s' /\ (forall j, (j < 3)%nat -> chan s' j = cs !!! j) /\ speaker_data_on s' = speaker_data_on s /\ pad0 s' = pad0 s) as Hstep.
  { intros s1 i Hi H1 Ec. destruct (load_count_typed n now target Ht i (s32 (count (chan s1 i))) s1 Hi (s32_range _) H1) as (A & B & D & _). cbv zeta. split; [done|]. split.
    - intros j Hj. destruct (decide (j = i)) as [->|Hne]; [|rewrite B by done; by apply Ec]. rewrite D, Ec by done. apply set_same. by apply Hcnt.
    - unfold pit_load_count, program, stamp, get_guest_time. cbv zeta. destruct target as [v|]; [|done]. destruct (Vpt.hvm_get_guest_time _ _ _) as [g' p']. by repeat case_match. }
  cbn [seq foldl]. destruct (Hstep s0 0%nat ltac:(lia) H0 ltac:(done)) as (A1 & A2 & A3 & A4).
  assert (forall v, target = Some v -> timer_runs v (mode (cs !!! 0%nat)) (count (cs !!! 0%nat)) (pit_load_count now target 0 (s32 (count (chan s0 0))) s0)) as Ht0.
  { intros v Et Hm. pose proof (Hcnt 0%nat ltac:(lia)). pose proof (load_zero_timer v (s32 (count (chan s0 0))) s0 Et H0 (s32_range _) ltac:(rewrite E0; unfold s32; zlia)) as T. rewrite E0 in T |- *. exact (T Hm). }
  set (s1 := pit_load_count now target 0 _ s0) in *. clearbody s1. destruct (Hstep s1 1%nat ltac:(lia) A1 A2) as (B1 & B2 & B3 & B4).
  pose proof (load_other_pts 1 (s32 (count (chan s1 1))) s1 ltac:(done)) as P1. set (s2 := pit_load_count now target 1 _ s1) in *. clearbody s2. destruct (Hstep s2 2%nat ltac:(lia) B1 B2) as (C1 & C2 & C3 & C4).
  pose proof (load_other_pts 2 (s32 (count (chan s2 2))) s2 ltac:(done)) as P2. set (s3 := pit_load_count now target 2 _ s2) in *. clearbody s3. split_and!; [|congruence|congruence|].
  - apply list_eq_same_length with (n := 3%nat); [done|apply C1|]. intros i x y Hi Hx Hy. apply list_lookup_total_correct in Hx, Hy. specialize (C2 i Hi). unfold chan in C2. congruence.
  - intros v Et. specialize (Ht0 v Et). unfold timer_runs, Vpt.pt in *. by rewrite P2, P1.
Qed.

End Loaded.

Section Migration.
Context {S : Type} `{!Component S PITState} (now : Z) (target : option nat).
Implicit Types d : hdom S.

Definition pit_save (d : hdom S) (h : hctx) : run (Z * hctx * hdom S) :=
  let '(rc, h) := hvm_save_entry PIT_type 0 h (pit_bytes (dget d)) in Ret (rc, h, d).

Definition pit_put (bs : list Z) (s : PITState) : PITState := pit_loaded now target (chans_of bs) (speaker_of bs) (pad_of bs) s.

Definition pit_load (d : hdom S) (h : hctx) : run (Z * hctx * hdom S) :=
  '(r, h, data) ← hvm_load_entry PIT_type h (pit_bytes (dget d));
  if negb (r =? 0) then Ret (1, h, d) else Ret (0, h, dput (pit_put data (dget d)) d).

Definition pit_handler : handler S := Handler pit_save pit_load (reg_size 1 PIT_type) HVMSR_PER_DOM.
Definition pit_device : device S :=
  Device pit_handler (fun d => [HRec 10 0 (pit_bytes (dget d))]) (fun d => d) (fun r d => rec_len r = 56) (fun r d => dput (pit_put (r_data r) (dget d)) d).

#[export] Instance pit_laws : DeviceLaws 10 pit_device.
Proof.
  split; cbn [pit_device dv_handler dv_records dv_after dv_accepts dv_apply].
  - intros d. repeat constructor; unfold rec_len; cbn [r_code r_inst r_data]; rewrite ?pit_bytes_length; lia.
  - intros d. rewrite recs_bytes_cons, length_app, rec_bytes_length. cbn [r_data]. by rewrite pit_bytes_length.
  - intros d h Hh Hf. cbn [pit_handler h_save]. unfold pit_save. rewrite recs_bytes_cons, app_nil_r in *.
    rewrite save_entry_ok; [done|done|by rewrite pit_bytes_length|]. eapply fits_le; [exact Hf|]. by rewrite rec_bytes_length.
  - done.
  - intros d h r Hh Hn Hc Hr Hl. cbn [pit_handler h_load]. unfold pit_load, hvm_load_entry.
    rewrite (load_entry_ok PIT_type r) by (done || unfold rec_len in *; rewrite ?pit_bytes_length; cbn; lia). done.
  - intros d h Hh Hb _. cbn [pit_handler h_load]. unfold pit_load, hvm_load_entry.
    destruct (load_entry_total PIT_type h (pit_bytes (dget d)) true Hh Hb ltac:(cbn; lia) ltac:(done)) as (r & h' & data & -> & Hc). cbn [mbind run_bind].
    destruct (Z.eqb_spec r 0); cbn [negb]; do 3 eexists; (split; [reflexivity|]); auto; done.
Qed.

(** [hvm_sr_handlers], with the type of this file. *)
Definition pit_devices : list (option (device S)) := replicate 10 None ++ [Some pit_device].
Definition pit_table : list (option (handler S)) := table pit_devices.

Lemma pit_devices_laws i dv : pit_devices !! i = Some (Some dv) -> DeviceLaws i dv.
Proof. intros H. do 11 (destruct i as [|i]; [cbn in H; try discriminate H; injection H as <-; eauto using pit_laws|]). done. Qed.

(** The timer goes on, on the target, with the channels and the speaker of the
    source; the interrupt of channel 0 is on again in the modes that have one,
    with the period of the count. *)
Theorem pit_migrates n xen_changeset cpuid1_eax (d t : hdom S) junk hdr :
  (forall v, target = Some v -> (v < n)%nat) ->
  is_dying d = false -> is_dying t = false -> length hdr = 24%nat -> 0 <= tsc_khz d < 2 ^ 32 -> (forall n, length (junk n) = Z.to_nat n) ->
  hvm_save_size pit_table d < 2 ^ 32 -> pit_ok n (dget d) -> pit_saved_typed (dget d) -> pit_typed n (dget t) ->
  exists len bytes d' t',
    gethvmcontext pit_table xen_changeset cpuid1_eax (Some (hvm_save_size pit_table d)) (Some junk) true d = Ret (0, len, bytes, d') /\
    sethvmcontext pit_table (Z.to_nat (hvm_save_size pit_table d)) hdr (take (Z.to_nat len) bytes) true true t = Ret (0, t') /\
    channels (dget t') = channels (dget d) /\ speaker_data_on (dget t') = speaker_data_on (dget d) /\ pit_ok n (dget t') /\
    forall v, target = Some v -> timer_runs v (mode (chan (dget d) 0)) (count (chan (dget d) 0)) (dget t').
Proof.
  intros Htg Hd Ht Hh Hts Hj Hsz [Hok Hcnt] Hsv Htt.
  assert (accepted pit_devices (records_of pit_devices d) (loaded_base (tsc_khz d) t)) as Hacc.
  { split; [unfold rec_ok, rec_len; cbn [r_code r_inst r_data]; rewrite pit_bytes_length; lia|]. split; [|done]. eexists. split; [reflexivity|].
    cbn [dv_accepts pit_device]. unfold rec_len. cbn [r_data]. by rewrite pit_bytes_length. }
  destruct (context_roundtrip pit_devices xen_changeset cpuid1_eax pit_devices_laws ltac:(done) ltac:(done) d t junk hdr Hd Ht Hh Hts Hsz Hj Hacc) as (len & bytes & Hg & _ & Hs).
  exists len, bytes. do 2 eexists. split; [exact Hg|]. split; [exact Hs|].
  change (apply_all pit_devices (records_of pit_devices d) (loaded_base (tsc_khz d) t)) with (dput (pit_put (pit_bytes (dget d)) (dget t)) (loaded_base (tsc_khz d) t)).
  rewrite dget_dput. unfold pit_put. rewrite (chans_of_bytes n) by done. destruct (rest_of_bytes (dget d) Hsv) as [-> ->].
  assert (Forall (fun c => chan_typed c /\ 0 < count c) (channels (dget d))) as Hcs.
  { apply Forall_lookup. intros i c Hc. split; [exact (Forall_lookup_1 _ _ _ _ (pt_each _ _ Hok) Hc)|]. specialize (Hcnt i). unfold chan in Hcnt. rewrite (list_lookup_total_correct _ _ _ Hc) in Hcnt.
    apply Hcnt. apply lookup_lt_Some in Hc. rewrite (pt_len _ _ Hok) in Hc. lia. }
  destruct (loaded_spec n now target Htg (channels (dget d)) (speaker_data_on (dget d)) (pad0 (dget d)) (dget t) (pt_len _ _ Hok) Hcs Htt) as (A & B & _ & C).
  split_and!; [done|done|apply pit_loaded_ok; try done; [apply Hok|apply Hok]|exact C].
Qed.

End Migration.

(** ** Examples *)

Definition blank_pit : PITState := PIT (replicate 3 inhabitant) 0 0 [0; 0; 0] (Vpt.vpt_init Vpt.delay_for_missed_ticks false 1000 1).

Lemma blank_typed : pit_typed 1 blank_pit.
Proof.
  split; [done| |done|apply Vpt.vpt_init_ok|done|cbn; lia]. apply Forall_replicate. split; unfold byte_ok; vm_compute; (split; [discriminate|reflexivity]).
Qed.

Lemma cpu_zero v : Some 0%nat = Some v -> (v < 1)%nat.
Proof. intros [= <-]. lia. Qed.

Definition new_pit : PITState := pit_reset 1000 (Some 0%nat) blank_pit.

Lemma new_pit_ok : pit_ok 1 new_pit.
Proof. apply pit_reset_ok; [exact cpu_zero|exact blank_typed]. Qed.

(** Channel 0 is programmed for 100 Hz and read while it counts; a structure
    with a count of zero is loaded and read. *)
Definition pit_ops : list (Z * option nat * pit_op) :=
  [(2000, Some 0%nat, PitWrite 0x43 1 0x34); (3000, Some 0%nat, PitWrite 0x40 1 0x9c); (4000, Some 0%nat, PitWrite 0x40 1 0x2e); (5000000, Some 0%nat, PitRead 0x40 1);
   (5001000, Some 0%nat, PitWrite 0x43 1 0xee); (5002000, Some 0%nat, SpeakerWrite 3); (5003000, Some 0%nat, SpeakerRead);
   (6000000, Some 0%nat, Load (replicate 3 (Chan 0 0 0 0 0 3 3 0 3 2 0 1)) 0 0); (6001000, Some 0%nat, PitRead 0x40 1); (6002000, Some 0%nat, Reset)].

Lemma pit_never_faults_witness : exists s', pit_trace pit_ops new_pit = Ret s' /\ pit_ok 1 s'.
Proof.
  apply (pit_never_faults 1 pit_ops new_pit); [|exact new_pit_ok]. repeat (constructor; [split; [exact cpu_zero|cbn; try exact I]|]); [|constructor].
  split; [reflexivity|]. repeat constructor; unfold byte_ok; cbn; lia.
Defined.

Lemma pit_latch_reads_count_witness : exists s lo hi s1 s2 s3,
  pit_trace (take 3 pit_ops) new_pit = Ret s /\ pit_ioport_write 5000000 (Some 0%nat) 3 0 s = Ret s1 /\
  pit_ioport_read 9000000 (Some 0%nat) 0 s1 = Ret (lo, s2) /\ pit_ioport_read 9900000 (Some 0%nat) 0 s2 = Ret (hi, s3) /\ lo + 256 * hi = 5971.
Proof.
  assert (exists s, pit_trace (take 3 pit_ops) new_pit = Ret s /\ pit_ok 1 s) as (s & Es & Hs).
  { cbn [take pit_ops pit_trace]. destruct (pit_exec_ok 1 2000 (Some 0%nat) (PitWrite 0x43 1 0x34) new_pit (conj cpu_zero I) new_pit_ok) as (s1 & -> & H1). cbn [mbind run_bind].
    destruct (pit_exec_ok 1 3000 (Some 0%nat) (PitWrite 0x40 1 0x9c) s1 (conj cpu_zero I) H1) as (s2 & -> & H2). cbn [mbind run_bind].
    destruct (pit_exec_ok 1 4000 (Some 0%nat) (PitWrite 0x40 1 0x2e) s2 (conj cpu_zero I) H2) as (s3 & -> & H3). by eauto. }
  assert (count_latched (chan s 0) = 0 /\ status_latched (chan s 0) = 0 /\ rw_mode (chan s 0) = RW_STATE_WORD0 /\ exists s', pit_get_count 5000000 (Some 0%nat) 0 s = Ret (5971, s')) as (A & B & D & s' & E).
  { vm_compute in Es. injection Es as <-. split_and!; try (vm_compute; reflexivity). eexists. vm_compute. reflexivity. }
  destruct (pit_latch_reads_count 1 5000000 (Some 0%nat) 9000000 (Some 0%nat) 9900000 (Some 0%nat) 0 s Hs ltac:(lia) A B D) as (x & lo & hi & s1 & s2 & s3 & Hx & H1 & H2 & H3 & Hsum & _ & _).
  exists s, lo, hi, s1, s2, s3. split_and!; [exact Es|exact H1|exact H2|exact H3|]. rewrite E in Hx. injection Hx as <- _. exact Hsum.
Defined.

End Pit.
