(* ===== verification/Hpet.v ===== *)
(** The high precision event timer of an HVM guest.

    Models xen/arch/x86/hvm/hpet.c: the main counter that follows the guest's
    time, three comparators in one-shot and periodic mode with 32 and 64 bits,
    their interrupts on the virtual platform timers of [Vpt] (numbers 2 to 4,
    after those of the PIT and the RTC), the accesses of the guest to the
    registers, reset, and the handlers of type HPET.  [domain_crash] is a flag:
    a domain that has it does not go on, and what happens between the crash and
    [hpet_deinit], as the CPUs leave the processor, is not part of a trace. *)

From S2P Require Import Prelude HvmContext HvmHandler Vioapic Vpt.

Module Hpet.
Import HvmContext HvmHandler.

Definition HPET_BASE_ADDRESS : Z := 0xfed00000.
Definition HPET_MMAP_SIZE : Z := 1024.
Definition S_TO_NS : Z := 1000000000.
Definition S_TO_FS : Z := 1000000000000000.
Definition STIME_PER_HPET_TICK : Z := 16.
Definition HPET_ID : Z := 0x000.
Definition HPET_CFG : Z := 0x010.
Definition HPET_STATUS : Z := 0x020.
Definition HPET_COUNTER : Z := 0x0f0.
Definition HPET_T0_CFG : Z := 0x100.
Definition HPET_T0_CMP : Z := 0x108.
Definition HPET_T0_ROUTE : Z := 0x110.
Definition HPET_T1_CFG : Z := 0x120.
Definition HPET_T1_CMP : Z := 0x128.
Definition HPET_T1_ROUTE : Z := 0x130.
Definition HPET_T2_CFG : Z := 0x140.
Definition HPET_T2_CMP : Z := 0x148.
Definition HPET_T2_ROUTE : Z := 0x150.
Definition HPET_CFG_ENABLE : Z := 0x001.
Definition HPET_CFG_LEGACY : Z := 0x002.
Definition HPET_TN_INT_TYPE_LEVEL : Z := 0x002.
Definition HPET_TN_ENABLE : Z := 0x004.
Definition HPET_TN_PERIODIC : Z := 0x008.
Definition HPET_TN_PERIODIC_CAP : Z := 0x010.
Definition HPET_TN_SIZE_CAP : Z := 0x020.
Definition HPET_TN_SETVAL : Z := 0x040.
Definition HPET_TN_32BIT : Z := 0x100.
Definition HPET_TN_INT_ROUTE_MASK : Z := 0x3e00.
Definition HPET_TN_INT_ROUTE_SHIFT : Z := 9.
Definition HPET_TN_INT_ROUTE_CAP : Z := 0x00f00000 .<< 32.

(** Entry [tn] of the arrays [timers], [period] and [comparator64]. *)
Record hpet_timer := HT { tconfig : Z; cmp : Z; fsb : Z; tperiod : Z; comparator64 : Z }.
#[export] Instance hpet_timer_inhabited : Inhabited hpet_timer := populate (HT 0 0 0 0 0).
Implicit Types t : hpet_timer.

(** [pt] are the timers 2 to 4 of [plt]. *)
Record HPETState := HPET {
  capability : Z; config : Z; isr : Z; mc64 : Z; timers : list hpet_timer;
  stime_freq : Z; hpet_to_ns_scale : Z; hpet_to_ns_limit : Z; mc_offset : Z; plt : Vpt.pl_time unit; crashed : bool
}.
Implicit Types h : HPETState.

Definition set_tconfig (x : Z) t : hpet_timer := HT x (cmp t) (fsb t) (tperiod t) (comparator64 t).
Definition set_cmp (x : Z) t : hpet_timer := HT (tconfig t) x (fsb t) (tperiod t) (comparator64 t).
Definition set_fsb (x : Z) t : hpet_timer := HT (tconfig t) (cmp t) x (tperiod t) (comparator64 t).
Definition set_period (x : Z) t : hpet_timer := HT (tconfig t) (cmp t) (fsb t) x (comparator64 t).
Definition set_comparator (x : Z) t : hpet_timer := HT (tconfig t) (cmp t) (fsb t) (tperiod t) x.

Definition tmr h (tn : nat) : hpet_timer := timers h !!! tn.
Definition with_timers h (l : list hpet_timer) : HPETState :=
  HPET (capability h) (config h) (isr h) (mc64 h) l (stime_freq h) (hpet_to_ns_scale h) (hpet_to_ns_limit h) (mc_offset h) (plt h) (crashed h).
Definition upd_t (tn : nat) (f : hpet_timer -> hpet_timer) h : HPETState := with_timers h (alter f tn (timers h)).
Definition with_plt h (p : Vpt.pl_time unit) : HPETState :=
  HPET (capability h) (config h) (isr h) (mc64 h) (timers h) (stime_freq h) (hpet_to_ns_scale h) (hpet_to_ns_limit h) (mc_offset h) p (crashed h).
Definition with_counter h (cfg mc off : Z) : HPETState :=
  HPET (capability h) cfg (isr h) mc (timers h) (stime_freq h) (hpet_to_ns_scale h) (hpet_to_ns_limit h) off (plt h) (crashed h).
Definition domain_crash h : HPETState :=
  HPET (capability h) (config h) (isr h) (mc64 h) (timers h) (stime_freq h) (hpet_to_ns_scale h) (hpet_to_ns_limit h) (mc_offset h) (plt h) true.

Definition timer_enabled t : bool := truthy (tconfig t .& HPET_TN_ENABLE).
Definition timer_is_periodic t : bool := truthy (tconfig t .& HPET_TN_PERIODIC).
Definition timer_is_32bit t : bool := truthy (tconfig t .& HPET_TN_32BIT).
Definition timer_level t : bool := truthy (tconfig t .& HPET_TN_INT_TYPE_LEVEL).
Definition timer_int_route t : Z := (tconfig t .& HPET_TN_INT_ROUTE_MASK) .>> HPET_TN_INT_ROUTE_SHIFT.
Definition hpet_enabled h : bool := truthy (config h .& HPET_CFG_ENABLE).
Definition hpet_legacy h : bool := truthy (config h .& HPET_CFG_LEGACY).

Definition hpet_tick_to_ns h (tick : Z) : Z := (if tick >? hpet_to_ns_limit h then 2 ^ 64 - 1 else u64 (tick * hpet_to_ns_scale h)) .>> 10.
Definition HPET_TINY_TIME_SPAN h : Z := (stime_freq h .>> 10) / STIME_PER_HPET_TICK.

(** The number of the platform timer of [tn]. *)
Definition slot (tn : nat) : nat := (2 + tn)%nat.

Section Hpet.
(** The host's time and the CPU that takes the interrupts. *)
Context (now : Z) (v : nat).

(** ** Counter and comparators *)

Definition guest_time_hpet h : Z * HPETState :=
  let '(g, p) := Vpt.hvm_get_guest_time now v (plt h) in (g / STIME_PER_HPET_TICK, with_plt h p).

Definition hpet_read_maincounter h : Z * HPETState :=
  if hpet_enabled h then let '(g, h) := guest_time_hpet h in (u64 (g + mc_offset h), h) else (mc64 h, h).

(** The comparator moved by the periods that have elapsed. *)
Definition caught_up (mc : Z) t : Z :=
  let elapsed := u64 (mc + tperiod t - 1 - comparator64 t) in u64 (comparator64 t + elapsed / tperiod t * tperiod t).

Definition hpet_get_comparator (tn : nat) h : Z * HPETState :=
  let t := tmr h tn in
  let '(comparator, h) :=
    if timer_is_periodic t && truthy (tperiod t) then
      let '(mc, h) := hpet_read_maincounter h in (caught_up mc t, upd_t tn (set_comparator (caught_up mc t)) h)
    else (comparator64 t, h) in
  let comparator := if timer_is_32bit t then u32 comparator else comparator in
  (comparator, upd_t tn (set_cmp comparator) h).

(** ** Reads *)

Definition hpet_read64 (addr : Z) h : Z * HPETState :=
  let addr := Z.ldiff addr 7 in
  if addr =? HPET_ID then (capability h, h)
  else if addr =? HPET_CFG then (config h, h)
  else if addr =? HPET_STATUS then (isr h, h)
  else if addr =? HPET_COUNTER then hpet_read_maincounter h
  else if (addr =? HPET_T0_CFG) || (addr =? HPET_T1_CFG) || (addr =? HPET_T2_CFG) then (tconfig (tmr h (Z.to_nat ((addr - HPET_T0_CFG) .>> 5))), h)
  else if (addr =? HPET_T0_CMP) || (addr =? HPET_T1_CMP) || (addr =? HPET_T2_CMP) then hpet_get_comparator (Z.to_nat ((addr - HPET_T0_CMP) .>> 5)) h
  else if (addr =? HPET_T0_ROUTE) || (addr =? HPET_T1_ROUTE) || (addr =? HPET_T2_ROUTE) then (fsb (tmr h (Z.to_nat ((addr - HPET_T0_ROUTE) .>> 5))), h)
  else (0, h).

(** True for an access that is refused. *)
Definition hpet_check_access_length (addr len : Z) : bool := truthy (addr .& u64 (len - 1)) || (len >? 8).

Definition hpet_read (addr length : Z) h : Z * HPETState :=
  let addr := addr .& (HPET_MMAP_SIZE - 1) in
  if hpet_check_access_length addr length then (2 ^ 64 - 1, h)
  else
    let '(val, h) := hpet_read64 addr h in
    (if length =? 8 then val else (val .>> ((addr .& 7) * 8)) .& (u64 (1 .<< (length * 8)) - 1), h).

(** ** Timers *)

Definition hpet_stop_timer (tn : nat) h : HPETState :=
  (hpet_get_comparator tn (with_plt h (Vpt.destroy_periodic_time (slot tn) (plt h)))).2.

(** Time values in the past. *)
Definition until h (b32 : bool) (diff : Z) : Z :=
  if Vpt.s64 diff <? 0 then if b32 && (u64 (- diff) >? HPET_TINY_TIME_SPAN h) then u32 diff else 0 else diff.

Definition timer_irq h (tn : nat) : Z :=
  if (tn <=? 1)%nat && hpet_legacy h then if (tn =? 0)%nat then 0 else 8 else timer_int_route (tmr h tn).

Definition hpet_set_timer (tn : nat) h : HPETState :=
  let h := if (tn =? 0)%nat && hpet_legacy h then with_plt h (Vpt.destroy_periodic_time 0 (plt h)) else h in
  if negb (timer_enabled (tmr h tn)) then h
  else
    let '(tn_cmp, h) := hpet_get_comparator tn h in
    let '(cur_tick, h) := hpet_read_maincounter h in
    let t := tmr h tn in
    let b32 := timer_is_32bit t in
    let tn_cmp := if b32 then u32 tn_cmp else tn_cmp in
    let cur_tick := if b32 then u32 cur_tick else cur_tick in
    let diff := until h b32 (u64 (tn_cmp - cur_tick)) in
    with_plt h (Vpt.create_periodic_time now v (slot tn) (hpet_tick_to_ns h diff)
      (if timer_is_periodic t then hpet_tick_to_ns h (tperiod t) else 0) (timer_irq h tn) None (plt h)).

(** ** Writes *)

Definition hpet_fixup_reg (new old mask : Z) : Z := (new .& mask) .| Z.ldiff old mask.

(** The timers that are enabled, as bits. *)
Definition enabled_timers h : Z :=
  foldl (fun m i => if timer_enabled (tmr h i) then Z.setbit m (Z.of_nat i) else m) 0 (seq 0 Vpt.HPET_TIMER_NUM).

(** The cases of the [switch]: the state, the timers to stop and to start. *)
Definition write_cfg (new_val old_val : Z) h : HPETState * Z * Z :=
  let h := with_counter h (hpet_fixup_reg new_val old_val 0x3) (mc64 h) (mc_offset h) in
  if negb (truthy (old_val .& HPET_CFG_ENABLE)) && truthy (new_val .& HPET_CFG_ENABLE) then
    let '(g, h) := guest_time_hpet h in
    let h := with_counter h (config h) (mc64 h) (u64 (mc64 h - g)) in
    let h := with_timers h (map (fun t => set_comparator (if truthy (tconfig t .& HPET_TN_32BIT) then u32 (cmp t) else cmp t) t) (timers h)) in
    (h, 0, enabled_timers h)
  else if truthy (old_val .& HPET_CFG_ENABLE) && negb (truthy (new_val .& HPET_CFG_ENABLE)) then
    let '(g, h) := guest_time_hpet h in
    let h := with_counter h (config h) (u64 (mc_offset h + g)) (mc_offset h) in
    (h, enabled_timers h, 0)
  else (h, 0, 0).

Definition write_counter (new_val : Z) h : HPETState * Z * Z :=
  let h := with_counter h (config h) new_val (mc_offset h) in
  if hpet_enabled h then (h, enabled_timers h, enabled_timers h) else (h, 0, 0).

Definition write_tn_cfg (tn : nat) (new_val old_val : Z) h : HPETState * Z * Z :=
  let h := upd_t tn (set_tconfig (hpet_fixup_reg new_val old_val 0x3f4e)) h in
  let bit := Z.setbit 0 (Z.of_nat tn) in
  if timer_level (tmr h tn) then (domain_crash h, 0, 0)
  else
    let h := if truthy (new_val .& HPET_TN_32BIT) then upd_t tn (fun t => set_period (u32 (tperiod t)) (set_cmp (u32 (cmp t)) t)) h else h in
    if hpet_enabled h then
      if truthy (new_val .& HPET_TN_ENABLE) then
        if truthy (Z.lxor new_val old_val .& HPET_TN_PERIODIC) then (h, bit, bit)
        else if truthy (new_val .& HPET_TN_32BIT) && negb (truthy (old_val .& HPET_TN_32BIT)) then (h, bit, bit)
        else if negb (truthy (old_val .& HPET_TN_ENABLE)) then (h, 0, bit)
        else (h, 0, 0)
      else if truthy (old_val .& HPET_TN_ENABLE) then (h, bit, 0)
      else (h, 0, 0)
    else (h, 0, 0).

(** The period that is set, within its bounds. *)
Definition clamp_period h (b32 : bool) (new_val : Z) : Z :=
  (if hpet_tick_to_ns h new_val <? 100000 then (100000 .<< 10) / hpet_to_ns_scale h else new_val) .& ((if b32 then 2 ^ 32 - 1 else 2 ^ 64 - 1) .>> 1).

Definition write_tn_cmp (tn : nat) (new_val : Z) h : HPETState * Z * Z :=
  let b32 := timer_is_32bit (tmr h tn) in
  let new_val := if b32 then u32 new_val else new_val in
  let h := upd_t tn (set_cmp new_val) h in
  let t := tmr h tn in
  let '(new_val, h) :=
    if truthy (tconfig t .& HPET_TN_SETVAL) then (new_val, upd_t tn (set_tconfig (Z.ldiff (tconfig t) HPET_TN_SETVAL)) h)
    else if timer_is_periodic t then let p := clamp_period h b32 new_val in (p, upd_t tn (set_period p) h)
    else (new_val, h) in
  let h := upd_t tn (set_comparator new_val) h in
  let bit := Z.setbit 0 (Z.of_nat tn) in
  if hpet_enabled h && timer_enabled (tmr h tn) then (h, bit, bit) else (h, 0, 0).

Definition write_reg (addr new_val old_val : Z) h : HPETState * Z * Z :=
  let reg := Z.ldiff addr 7 in
  if reg =? HPET_CFG then write_cfg new_val old_val h
  else if reg =? HPET_COUNTER then write_counter new_val h
  else if (reg =? HPET_T0_CFG) || (reg =? HPET_T1_CFG) || (reg =? HPET_T2_CFG) then write_tn_cfg (Z.to_nat ((addr - HPET_T0_CFG) .>> 5)) new_val old_val h
  else if (reg =? HPET_T0_CMP) || (reg =? HPET_T1_CMP) || (reg =? HPET_T2_CMP) then write_tn_cmp (Z.to_nat ((addr - HPET_T0_CMP) .>> 5)) new_val h
  else if (reg =? HPET_T0_ROUTE) || (reg =? HPET_T1_ROUTE) || (reg =? HPET_T2_ROUTE) then (upd_t (Z.to_nat ((addr - HPET_T0_ROUTE) .>> 5)) (set_fsb new_val) h, 0, 0)
  else (h, 0, 0).

(** The bits of a mask, the lowest first. *)
Definition set_bits (mask : Z) : list nat := filter (fun i => Z.testbit mask (Z.of_nat i) = true) (seq 0 64).

Definition hpet_write (addr length val : Z) h : HPETState :=
  let addr := addr .& (HPET_MMAP_SIZE - 1) in
  if hpet_check_access_length addr length then h
  else
    let '(old_val, h) := hpet_read64 addr h in
    let new_val :=
      if length =? 8 then val
      else hpet_fixup_reg (u64 (val .<< ((addr .& 7) * 8))) old_val (u64 ((u64 (1 .<< (length * 8)) - 1) .<< ((addr .& 7) * 8))) in
    let '(h, stop_timers, start_timers) := write_reg addr new_val old_val h in
    let h := foldl (fun h i => hpet_stop_timer i h) h (set_bits stop_timers) in
    foldl (fun h i => hpet_set_timer i h) h (set_bits start_timers).

Definition hpet_range (hpet_param addr : Z) : bool :=
  truthy hpet_param && (addr >=? HPET_BASE_ADDRESS) && (addr <? HPET_BASE_ADDRESS + HPET_MMAP_SIZE).

(** ** Life *)

Definition new_timer : hpet_timer := HT (HPET_TN_INT_ROUTE_CAP .| HPET_TN_SIZE_CAP .| HPET_TN_PERIODIC_CAP) (2 ^ 64 - 1) 0 0 0.

(** [memset] clears the platform timers with the rest. *)
Definition hpet_init h : HPETState :=
  let scale := u64 ((S_TO_NS * STIME_PER_HPET_TICK) .<< 10) / S_TO_NS in
  HPET (0x8086A201 .| u64 ((S_TO_FS * STIME_PER_HPET_TICK / S_TO_NS) .<< 32)) 0 0 0 (replicate Vpt.HPET_TIMER_NUM new_timer)
    S_TO_NS scale ((2 ^ 64 - 1) / scale) 0
    (foldl (fun p i => Vpt.upd_pt (slot i) (fun _ => Vpt.no_timer Vpt.PTSRC_isa) p) (plt h) (seq 0 Vpt.HPET_TIMER_NUM)) (crashed h).

Definition hpet_deinit h : HPETState :=
  if hpet_enabled h then foldl (fun h i => if timer_enabled (tmr h i) then hpet_stop_timer i h else h) h (seq 0 Vpt.HPET_TIMER_NUM) else h.

Definition hpet_reset h : HPETState := hpet_init (hpet_deinit h).

(** What saving does before the registers are copied. *)
Definition settle_counter h : HPETState :=
  let '(g, h) := guest_time_hpet h in with_counter h (config h) (u64 (mc_offset h + g)) (mc_offset h).

(** Registers that were read: [ts] are the timers of the record, whose [cmp] is
    the comparator with 64 bits. *)
Definition hpet_loaded (cap cfg st mc : Z) (ts : list hpet_timer) h : HPETState :=
  let load t := let t := set_comparator (cmp t) t in if timer_is_32bit t then set_cmp (u32 (cmp t)) t else t in
  let h := HPET cap cfg st mc (map load ts) (stime_freq h) (hpet_to_ns_scale h) (hpet_to_ns_limit h) (mc_offset h) (plt h) (crashed h) in
  let '(g, h) := guest_time_hpet h in
  let h := with_counter h (config h) (mc64 h) (u64 (mc64 h - g)) in
  if hpet_enabled h then foldl (fun h i => if timer_enabled (tmr h i) then hpet_set_timer i h else h) h (seq 0 Vpt.HPET_TIMER_NUM) else h.

End Hpet.

(** ** Bits *)

Lemma truthy_bit x k : 0 <= k -> truthy (x .& 2 ^ k) = Z.testbit x k.
Proof.
  intros Hk. unfold truthy. assert (x .& 2 ^ k = if Z.testbit x k then 2 ^ k else 0) as ->.
  { apply Z.bits_inj'. intros i Hi. rewrite Z.land_spec, Z.pow2_bits_eqb by lia. destruct (Z.eqb_spec k i) as [->|]; [destruct (Z.testbit x i) eqn:E|destruct (Z.testbit x k)];
      rewrite ?andb_false_r, ?andb_true_r, ?Z.bits_0, ?Z.pow2_bits_eqb, ?Z.eqb_refl by lia; try done. symmetry. by apply Z.eqb_neq. }
  destruct (Z.testbit x k); [|done]. destruct (Z.eqb_spec (2 ^ k) 0); [lia|done].
Qed.

Lemma fixup_bit new old mask k : 0 <= k -> Z.testbit (hpet_fixup_reg new old mask) k = if Z.testbit mask k then Z.testbit new k else Z.testbit old k.
Proof.
  intros Hk. unfold hpet_fixup_reg. rewrite Z.lor_spec, Z.land_spec, Z.ldiff_spec. destruct (Z.testbit mask k), (Z.testbit new k), (Z.testbit old k); done.
Qed.

Lemma fixup_range new old mask : 0 <= new < 2 ^ 64 -> 0 <= old < 2 ^ 64 -> 0 <= mask -> 0 <= hpet_fixup_reg new old mask < 2 ^ 64.
Proof.
  intros Hn Ho Hm. apply bounded_of_bits; [lia| |].
  - unfold hpet_fixup_reg. apply Z.lor_nonneg. split; [apply Z.land_nonneg; lia|apply Z.ldiff_nonneg; lia].
  - intros i Hi. rewrite fixup_bit by lia. rewrite (testbit_high new 64), (testbit_high old 64) by lia. by destruct (Z.testbit mask i).
Qed.

Lemma enabled_bit t : timer_enabled t = Z.testbit (tconfig t) 2.
Proof. exact (truthy_bit (tconfig t) 2 ltac:(lia)). Qed.
Lemma hpet_enabled_bit h : hpet_enabled h = Z.testbit (config h) 0.
Proof. exact (truthy_bit (config h) 0 ltac:(lia)). Qed.

Lemma set_bits_spec mask i : i ∈ set_bits mask <-> (i < 64)%nat /\ Z.testbit mask (Z.of_nat i) = true.
Proof. unfold set_bits. rewrite list_elem_of_filter, elem_of_seq. split; intros; split; try lia; tauto. Qed.
Lemma set_bits_0 : set_bits 0 = [].
Proof. reflexivity. Qed.

Lemma setbit_spec m i j : 0 <= m -> Z.testbit (Z.setbit m (Z.of_nat i)) (Z.of_nat j) = (bool_decide (i = j)) || Z.testbit m (Z.of_nat j).
Proof.
  intros Hm. rewrite Z.setbit_eqb by lia. f_equal. destruct (Z.eqb_spec (Z.of_nat i) (Z.of_nat j)); [rewrite bool_decide_eq_true_2 by lia|rewrite bool_decide_eq_false_2 by lia]; done.
Qed.

Lemma set_bits_one tn i : (tn < 3)%nat -> i ∈ set_bits (Z.setbit 0 (Z.of_nat tn)) <-> i = tn.
Proof.
  intros Ht. rewrite set_bits_spec, setbit_spec, Z.testbit_0_l, orb_false_r by lia. rewrite bool_decide_eq_true. split; [intros [_ ->]; done|intros ->; split; [lia|done]].
Qed.

Lemma set_bits_enabled h i : i ∈ set_bits (enabled_timers h) <-> (i < 3)%nat /\ timer_enabled (tmr h i) = true.
Proof.
  rewrite set_bits_spec. unfold enabled_timers. cbn [seq foldl Vpt.HPET_TIMER_NUM].
  destruct i as [|[|[|i]]]; destruct (timer_enabled (tmr h 0)) eqn:E0, (timer_enabled (tmr h 1)) eqn:E1, (timer_enabled (tmr h 2)) eqn:E2;
    (split; [intros [H1 H2]|intros [H1 H2]]); (try (split; [lia|])); try done; try lia.
  all: exfalso; cbn [Z.setbit Z.lor] in H2.
  all: match type of H2 with Z.testbit ?m _ = true => rewrite (testbit_high m 3) in H2; [discriminate|vm_compute; split; congruence|lia] end.
Qed.

(** ** Registers of one timer *)

Lemma tmr_upd_eq tn f h : (tn < length (timers h))%nat -> tmr (upd_t tn f h) tn = f (tmr h tn).
Proof.
  intros Hi. destruct (lookup_lt_is_Some_2 (timers h) tn Hi) as [t Ht]. unfold tmr. cbn [timers upd_t with_timers]. rewrite (list_lookup_total_correct _ _ _ Ht).
  apply list_lookup_total_correct. by rewrite list_lookup_alter_eq, Ht.
Qed.
Lemma tmr_upd_ne tn j f h : tn <> j -> tmr (upd_t tn f h) j = tmr h j.
Proof. intros H. unfold tmr. cbn [timers upd_t with_timers]. rewrite !list_lookup_total_alt. by rewrite list_lookup_alter_ne. Qed.

(** ** The invariant *)

Definition r64 (x : Z) : Prop := 0 <= x < 2 ^ 64.
Record timer_typed t : Prop := { tt_config : r64 (tconfig t); tt_cmp : r64 (cmp t); tt_fsb : r64 (fsb t); tt_period : r64 (tperiod t); tt_comp : r64 (comparator64 t) }.

(** For [n] CPUs: the registers have their width, the lists of platform timers
    are exact, and a platform timer that was never created is off. *)
Record hpet_typed (n : nat) h : Prop := {
  ht_cap : r64 (capability h); ht_config : r64 (config h); ht_isr : r64 (isr h); ht_mc : r64 (mc64 h);
  ht_len : length (timers h) = 3%nat; ht_each : Forall timer_typed (timers h);
  ht_vpt : Vpt.vpt_ok (plt h); ht_cpus : length (Vpt.tcpus (plt h)) = n; ht_pts : length (Vpt.pts (plt h)) = (5 + n)%nat;
  ht_idle tn : (tn < 3)%nat -> Vpt.idle (Vpt.pt (plt h) (slot tn))
}.

Definition running h (tn : nat) : bool := hpet_enabled h && timer_enabled (tmr h tn).
Definition silent h : Prop := forall tn, (tn < 3)%nat -> running h tn = false -> Vpt.off (Vpt.pt (plt h) (slot tn)).
Definition hpet_ok (n : nat) h : Prop := hpet_typed n h /\ silent h.

(** What reading does: comparators move, and guest time with them. *)
Record calm h h' : Prop := {
  ca_cap : capability h' = capability h; ca_config : config h' = config h; ca_isr : isr h' = isr h; ca_mc : mc64 h' = mc64 h; ca_off : mc_offset h' = mc_offset h;
  ca_crashed : crashed h' = crashed h; ca_scale : hpet_to_ns_scale h' = hpet_to_ns_scale h; ca_limit : hpet_to_ns_limit h' = hpet_to_ns_limit h;
  ca_timers : Forall2 (fun t t' => tconfig t' = tconfig t /\ fsb t' = fsb t /\ tperiod t' = tperiod t /\ (timer_typed t -> timer_typed t')) (timers h) (timers h');
  ca_plt : Vpt.same_lists (plt h) (plt h'); ca_pts : Vpt.pts (plt h') = Vpt.pts (plt h);
  ca_freq : stime_freq h' = stime_freq h; ca_align : Vpt.vpt_align (plt h') = Vpt.vpt_align (plt h)
}.

Lemma calm_refl h : calm h h.
Proof. split; try done. apply Forall_Forall2_diag, Forall_true. done. Qed.
Lemma calm_trans h1 h2 h3 : calm h1 h2 -> calm h2 h3 -> calm h1 h3.
Proof.
  intros [A1 A2 A3 A4 A5 A6 A7 A8 A9 A10 A11 A12 A13] [B1 B2 B3 B4 B5 B6 B7 B8 B9 B10 B11 B12 B13]. split; try congruence; [|by eapply Vpt.same_lists_trans].
  revert B9. generalize (timers h3). induction A9 as [|t1 t2 l1 l2 (? & ? & ? & ?) _ IH]; intros l3 B; inversion_clear B as [|? t3 ? ? (? & ? & ? & ?)]; constructor; [|auto].
  split_and!; try congruence. auto.
Qed.

Lemma calm_tmr h h' tn : calm h h' -> tconfig (tmr h' tn) = tconfig (tmr h tn) /\ fsb (tmr h' tn) = fsb (tmr h tn) /\ tperiod (tmr h' tn) = tperiod (tmr h tn).
Proof.
  intros H. pose proof (ca_timers _ _ H) as F. unfold tmr. rewrite !list_lookup_total_alt. destruct (timers h !! tn) as [t|] eqn:E.
  - destruct (Forall2_lookup_l _ _ _ _ _ F E) as (t' & -> & ? & ? & ? & _). done.
  - apply lookup_ge_None in E. rewrite (Forall2_length _ _ _ F) in E. by rewrite (lookup_ge_None_2 _ _ E).
Qed.
Lemma calm_running h h' tn : calm h h' -> running h' tn = running h tn.
Proof. intros H. unfold running, hpet_enabled, timer_enabled. by rewrite (ca_config _ _ H), (proj1 (calm_tmr h h' tn H)). Qed.

Lemma calm_typed n h h' : calm h h' -> hpet_typed n h -> hpet_typed n h'.
Proof.
  intros [A1 A2 A3 A4 A5 A6 A7 A8 A9 A10 A11 _ _] [B1 B2 B3 B4 B5 B6 B7 B8 B9 B10]. split; rewrite ?A1, ?A2, ?A3, ?A4, ?A11; try done.
  - by rewrite <- (Forall2_length _ _ _ A9).
  - clear B5. induction A9 as [|t t' l l' (_ & _ & _ & Ht) _ IH]; [constructor|]. inversion_clear B6. constructor; auto.
  - by eapply Vpt.same_lists_ok.
  - destruct (Vpt.kept_same _ _ A10) as [_ -> _ _]. done.
  - intros tn Ht. unfold Vpt.pt. rewrite A11. by apply B10.
Qed.
Lemma calm_silent h h' : calm h h' -> silent h -> silent h'.
Proof. intros H Hs tn Ht. rewrite (calm_running h h') by done. unfold Vpt.pt. rewrite (ca_pts _ _ H). by apply Hs. Qed.
Lemma calm_ok n h h' : calm h h' -> hpet_ok n h -> hpet_ok n h'.
Proof. intros H [H1 H2]. split; [by eapply calm_typed|by eapply calm_silent]. Qed.

Lemma tmr_typed n h tn : hpet_typed n h -> (tn < 3)%nat -> timer_typed (tmr h tn).
Proof.
  intros H Ht. destruct (lookup_lt_is_Some_2 (timers h) tn) as [t E]; [rewrite (ht_len _ _ H); lia|]. unfold tmr. rewrite (list_lookup_total_correct _ _ _ E).
  exact (Forall_lookup_1 _ _ _ _ (ht_each _ _ H) E).
Qed.

Lemma calm_upd_t tn f h : (forall t, tmr h tn = t -> tconfig (f t) = tconfig t /\ fsb (f t) = fsb t /\ tperiod (f t) = tperiod t /\ (timer_typed t -> timer_typed (f t))) -> calm h (upd_t tn f h).
Proof.
  intros Hf. split; try done. cbn [timers upd_t with_timers]. unfold tmr in Hf. revert tn Hf. generalize (timers h) as l. induction l as [|t l IH]; intros [|tn] Hf; cbn; constructor; try done.
  - by apply Hf.
  - apply Forall_Forall2_diag, Forall_true. done.
  - apply IH. exact Hf.
Qed.

Lemma r64_u32 x : r64 (u32 x).
Proof. pose proof (u32_range x). unfold r64. lia. Qed.

Section Ok.
Context (n : nat) (now : Z) (v : nat) (Hv : (v < n)%nat).

Lemma calm_time h : calm h (guest_time_hpet now v h).2.
Proof. clear Hv. unfold guest_time_hpet. destruct (Vpt.hvm_get_guest_time now v (plt h)) as [g p] eqn:E. injection E as _ <-. split; try done. apply Forall_Forall2_diag, Forall_true. done. Qed.

Lemma counter_spec h : hpet_typed n h -> calm h (hpet_read_maincounter now v h).2 /\ r64 (hpet_read_maincounter now v h).1.
Proof.
  clear Hv. intros Hh. unfold hpet_read_maincounter. destruct (hpet_enabled h); [|split; [apply calm_refl|apply Hh]]. pose proof (calm_time h) as K.
  destruct (guest_time_hpet now v h) as [g h']. split; [exact K|]. apply u64_range.
Qed.

Lemma comparator_spec tn h : hpet_typed n h -> (tn < 3)%nat -> calm h (hpet_get_comparator now v tn h).2 /\ r64 (hpet_get_comparator now v tn h).1.
Proof.
  clear Hv. intros Hh Ht. unfold hpet_get_comparator. pose proof (tmr_typed n h tn Hh Ht) as Tt. set (t := tmr h tn) in *.
  assert (exists c h', (if timer_is_periodic t && truthy (tperiod t) then let '(mc, h) := hpet_read_maincounter now v h in (caught_up mc t, upd_t tn (set_comparator (caught_up mc t)) h)
    else (comparator64 t, h)) = (c, h') /\ calm h h' /\ r64 c) as (c & h' & -> & Hc & Hr).
  { destruct (_ && _).
    - pose proof (counter_spec h Hh) as [K _]. destruct (hpet_read_maincounter now v h) as [mc h1]. cbn [fst snd] in *. do 2 eexists. split; [reflexivity|].
      assert (r64 (caught_up mc t)) as Ha by apply u64_range. split; [|done]. eapply calm_trans; [exact K|]. apply calm_upd_t. intros t0 _. split_and!; try done. intros []. by split.
    - do 2 eexists. split; [reflexivity|]. split; [apply calm_refl|apply Tt]. }
  cbn [fst snd]. assert (r64 (if timer_is_32bit t then u32 c else c)) as Hr' by (destruct (timer_is_32bit t); [apply r64_u32|done]). split; [|done].
  eapply calm_trans; [exact Hc|]. apply calm_upd_t. intros t0 _. split_and!; try done. intros []. by split.
Qed.

Lemma read64_spec addr h : hpet_typed n h -> calm h (hpet_read64 now v addr h).2 /\ r64 (hpet_read64 now v addr h).1.
Proof.
  clear Hv. intros Hh. unfold hpet_read64. cbv zeta. set (a := Z.ldiff addr 7). clearbody a. pose proof Hh as [H1 H2 H3 H4 _ _ _ _ _ _].
  assert (forall x, r64 x -> calm h (x, h).2 /\ r64 (x, h).1) as Hx by (intros x Hx; split; [apply calm_refl|done]).
  destruct (a =? HPET_ID); [by apply Hx|]. destruct (a =? HPET_CFG); [by apply Hx|]. destruct (a =? HPET_STATUS); [by apply Hx|]. destruct (a =? HPET_COUNTER); [by apply counter_spec|].
  assert (forall b c d e, (a =? b) || (a =? c) || (a =? d) = true -> b = e -> c = e + 32 -> d = e + 64 -> (Z.to_nat ((a - e) .>> 5) < 3)%nat) as Hi.
  { intros b c d e Ha -> -> ->. rewrite Z.shiftr_div_pow2 by lia. apply orb_prop in Ha as [[Ha|Ha]%orb_prop|Ha]; apply Z.eqb_eq in Ha; subst a; zlia. }
  destruct ((a =? HPET_T0_CFG) || _ || _) eqn:E1; [apply Hx, (tmr_typed n); [done|by eapply Hi]|].
  destruct ((a =? HPET_T0_CMP) || _ || _) eqn:E2; [apply comparator_spec; [done|by eapply Hi]|].
  destruct ((a =? HPET_T0_ROUTE) || _ || _) eqn:E3; [apply Hx, (tmr_typed n); [done|by eapply Hi]|]. apply Hx. unfold r64. lia.
Qed.

Lemma hpet_read_ok addr length h : hpet_ok n h -> hpet_ok n (hpet_read now v addr length h).2.
Proof.
  clear Hv. intros Hh. unfold hpet_read. cbv zeta. destruct (hpet_check_access_length _ _); [done|]. destruct (read64_spec (addr .& (HPET_MMAP_SIZE - 1)) h (proj1 Hh)) as [K _].
  destruct (hpet_read64 _ _ _ _) as [x h']. by eapply calm_ok.
Qed.

(** ** Stopping and starting *)

Lemma tick_to_ns_range h x : 0 <= hpet_tick_to_ns h x < 2 ^ 54.
Proof.
  clear Hv. unfold hpet_tick_to_ns. pose proof (u64_range (x * hpet_to_ns_scale h)). rewrite Z.shiftr_div_pow2 by lia. destruct (_ >? _); zlia.
Qed.

Lemma slot_lt h tn : hpet_typed n h -> (tn < 3)%nat -> (slot tn < length (Vpt.pts (plt h)))%nat.
Proof. clear Hv. intros H Ht. pose proof (ht_pts _ _ H). unfold slot. lia. Qed.

(** Another state of the platform timers. *)
Lemma plt_typed h p : hpet_typed n h -> Vpt.kept (plt h) p -> (forall tn, (tn < 3)%nat -> Vpt.idle (Vpt.pt p (slot tn))) -> hpet_typed n (with_plt h p).
Proof. clear Hv. intros [] [K1 K2 K3 _] Hi. split; cbn; try done; [auto|by rewrite K2|by rewrite K3]. Qed.

Record stopped (tn : nat) h h' : Prop := {
  sp_typed : hpet_typed n h'; sp_config : config h' = config h; sp_tconfig i : tconfig (tmr h' i) = tconfig (tmr h i); sp_crashed : crashed h' = crashed h;
  sp_off : Vpt.off (Vpt.pt (plt h') (slot tn)); sp_other k : k <> slot tn -> Vpt.pt (plt h') k = Vpt.pt (plt h) k
}.

Lemma stop_spec tn h : (tn < 3)%nat -> hpet_typed n h -> stopped tn h (hpet_stop_timer now v tn h).
Proof.
  intros Ht Hh. unfold hpet_stop_timer. set (h1 := with_plt h _). assert (hpet_typed n h1) as H1.
  { apply plt_typed; [done|by apply Vpt.destroy_off, Hh|]. intros i Hi. eapply Vpt.quiet_idle; [apply Vpt.quiet_destroy|by apply Hh]. }
  destruct (comparator_spec tn h1 H1 Ht) as [K _]. pose proof (ca_pts _ _ K) as Ep. split.
  - by eapply calm_typed.
  - by rewrite (ca_config _ _ K).
  - intros i. by rewrite (proj1 (calm_tmr _ _ i K)).
  - by rewrite (ca_crashed _ _ K).
  - unfold Vpt.pt. rewrite Ep. apply Vpt.destroy_makes_off; [by apply slot_lt|by apply Hh].
  - intros k Hk. unfold Vpt.pt. rewrite Ep. by apply Vpt.destroy_other.
Qed.

(** After the loop over the timers to stop. *)
Lemma stop_all l : forall h, (forall i, i ∈ l -> (i < 3)%nat) -> hpet_typed n h ->
  let h' := foldl (fun h i => hpet_stop_timer now v i h) h l in
  hpet_typed n h' /\ config h' = config h /\ (forall i, tconfig (tmr h' i) = tconfig (tmr h i)) /\ crashed h' = crashed h /\
  (forall tn, (tn < 3)%nat -> tn ∈ l \/ Vpt.off (Vpt.pt (plt h) (slot tn)) -> Vpt.off (Vpt.pt (plt h') (slot tn))).
Proof.
  induction l as [|i l IH]; intros h Hl Hh; cbn [foldl].
  { split_and!; try done. by intros tn _ [?%not_elem_of_nil|?]. }
  destruct (stop_spec i h (Hl i ltac:(by left)) Hh) as [S1 S2 S3 S4 S5 S6]. set (h1 := hpet_stop_timer now v i h) in *. clearbody h1.
  destruct (IH h1 ltac:(intros j Hj; apply Hl; by right) S1) as (I1 & I2 & I3 & I4 & I5). split_and!; try done; [congruence| |congruence|].
  - intros j. by rewrite I3.
  - intros tn Ht H. apply I5; [done|]. destruct (decide (tn = i)) as [->|Hne]; [by right|]. rewrite S6 by (unfold slot; lia). destruct H as [[?|?]%elem_of_cons|?]; [done|auto..].
Qed.

Record started (tn : nat) h h' : Prop := {
  st_typed : hpet_typed n h'; st_config : config h' = config h; st_tconfig i : tconfig (tmr h' i) = tconfig (tmr h i); st_crashed : crashed h' = crashed h;
  st_other j : (j < 3)%nat -> j <> tn \/ timer_enabled (tmr h tn) = false -> Vpt.pt (plt h') (slot j) = Vpt.pt (plt h) (slot j)
}.

Lemma start_spec tn h : (tn < 3)%nat -> hpet_typed n h -> started tn h (hpet_set_timer now v tn h).
Proof.
  intros Ht Hh. unfold hpet_set_timer. set (h1 := if (tn =? 0)%nat && hpet_legacy h then _ else h).
  assert (hpet_typed n h1 /\ timers h1 = timers h /\ config h1 = config h /\ crashed h1 = crashed h /\ forall j, Vpt.pt (plt h1) (slot j) = Vpt.pt (plt h) (slot j)) as (H1 & Et & Ec & Ecr & Ep).
  { unfold h1. destruct (_ && _); [|done]. split_and!; try done.
    - apply plt_typed; [done|by apply Vpt.destroy_off, Hh|]. intros i Hi. eapply Vpt.quiet_idle; [apply Vpt.quiet_destroy|by apply Hh].
    - intros j. by apply Vpt.destroy_other. }
  clearbody h1. assert (forall i, tmr h1 i = tmr h i) as Etm by (intros i; unfold tmr; by rewrite Et). destruct (timer_enabled (tmr h1 tn)) eqn:En; cbn [negb].
  2: { split; try done. intros i. by rewrite Etm. }
  rewrite Etm in En. destruct (comparator_spec tn h1 H1 Ht) as [K1 _]. destruct (hpet_get_comparator now v tn h1) as [c h2]. cbn [snd] in K1. pose proof (calm_typed n _ _ K1 H1) as H2.
  destruct (counter_spec h2 H2) as [K2 _]. destruct (hpet_read_maincounter now v h2) as [mc h3]. cbn [snd] in K2. pose proof (calm_typed n _ _ K2 H2) as H3. pose proof (calm_trans _ _ _ K1 K2) as K.
  set (delta := hpet_tick_to_ns _ _). set (per := if timer_is_periodic _ then _ else _). assert (0 <= per < 2 ^ 64) as Hp.
  { unfold per. destruct (timer_is_periodic _); [pose proof (tick_to_ns_range h3 (tperiod (tmr h3 tn)))|]; lia. }
  clearbody delta per. pose proof (slot_lt h3 tn H3 Ht) as Hs.
  assert (Vpt.kept (plt h3) (Vpt.create_periodic_time now v (slot tn) delta per (timer_irq h3 tn) None (plt h3))) as Kc.
  { apply Vpt.create_ok; [|apply H3]. cbn. rewrite (ht_cpus _ _ H3). done. }
  split.
  - apply plt_typed; [done|done|]. intros j Hj. destruct (decide (j = tn)) as [->|Hne].
    + destruct (Vpt.create_timer now v (slot tn) delta per (timer_irq h3 tn) None (plt h3) Hs) as (_ & E & _). intros E'. congruence.
    + rewrite Vpt.create_other by (unfold slot; lia). by apply H3.
  - cbn. by rewrite (ca_config _ _ K).
  - intros i. change (tconfig (tmr h3 i) = tconfig (tmr h i)). by rewrite (proj1 (calm_tmr _ _ i K)), Etm.
  - cbn. by rewrite (ca_crashed _ _ K).
  - intros j Hj [Hne|E]; [|congruence]. cbn [plt with_plt]. rewrite Vpt.create_other by (unfold slot; lia). rewrite <- Ep. unfold Vpt.pt. by rewrite (ca_pts _ _ K).
Qed.

Lemma start_all l : forall h, (forall i, i ∈ l -> (i < 3)%nat) -> hpet_typed n h -> (l <> [] -> hpet_enabled h = true) ->
  let h' := foldl (fun h i => hpet_set_timer now v i h) h l in
  hpet_typed n h' /\ crashed h' = crashed h /\ (silent h -> silent h').
Proof.
  induction l as [|i l IH]; intros h Hl Hh He; cbn [foldl]; [done|]. pose proof (Hl i ltac:(by left)) as Hi. specialize (He ltac:(done)).
  destruct (start_spec i h Hi Hh) as [S1 S2 S3 S4 S5]. set (h1 := hpet_set_timer now v i h) in *. clearbody h1.
  destruct (IH h1 ltac:(intros j Hj; apply Hl; by right) S1) as (I1 & I2 & I3); [intros _; unfold hpet_enabled; by rewrite S2|].
  split_and!; [done|congruence|]. intros Hs. apply I3. intros tn Ht. assert (running h1 tn = running h tn) as -> by (unfold running, hpet_enabled, timer_enabled; by rewrite S2, S3).
  intros Hr. rewrite S5; [by apply Hs|done|]. destruct (decide (tn = i)) as [->|]; [right|by left]. unfold running in Hr. by rewrite He in Hr.
Qed.

End Ok.

(** ** Writes keep the invariant *)

Lemma ldiff7 a : Z.ldiff a 7 = 8 * (a / 8).
Proof. change 7 with (Z.ones 3). rewrite Z.ldiff_ones_r, Z.shiftl_mul_pow2, Z.shiftr_div_pow2 by lia. change (2 ^ 3) with 8. lia. Qed.

(** The timer of a register is the same with and without the low bits. *)
Lemma reg_index b c d addr : (Z.ldiff addr 7 =? b) || (Z.ldiff addr 7 =? c) || (Z.ldiff addr 7 =? d) = true -> c = b + 32 -> d = b + 64 ->
  Z.to_nat ((addr - b) .>> 5) = Z.to_nat ((Z.ldiff addr 7 - b) .>> 5) /\ (Z.to_nat ((addr - b) .>> 5) < 3)%nat.
Proof.
  intros H -> ->. rewrite !Z.shiftr_div_pow2 by lia. rewrite ldiff7 in *. apply orb_prop in H as [[H|H]%orb_prop|H]; apply Z.eqb_eq in H; split; zlia.
Qed.

(** What a case of the [switch] leaves to do. *)
Record written (n : nat) (r : HPETState * Z * Z) : Prop := {
  wr_typed : hpet_typed n r.1.1; wr_stop i : i ∈ set_bits r.1.2 -> (i < 3)%nat; wr_start i : i ∈ set_bits r.2 -> (i < 3)%nat;
  wr_enabled : set_bits r.2 <> [] -> hpet_enabled r.1.1 = true;
  wr_off : crashed r.1.1 = true \/ forall tn, (tn < 3)%nat -> running r.1.1 tn = false -> Vpt.off (Vpt.pt (plt r.1.1) (slot tn)) \/ tn ∈ set_bits r.1.2
}.

Lemma written_silent n h : hpet_typed n h -> silent h -> written n (h, 0, 0).
Proof. intros H Hs. split; cbn [fst snd]; rewrite ?set_bits_0; try done; [by intros i ?%not_elem_of_nil..|]. right. intros tn Ht Hr. left. by apply Hs. Qed.

Lemma upd_typed n tn f h : (forall t, timer_typed t -> timer_typed (f t)) -> hpet_typed n h -> hpet_typed n (upd_t tn f h).
Proof. intros Hf []. split; cbn; try done; [by rewrite length_alter|]. apply Forall_alter; [done|]. auto. Qed.

Lemma counter_typed n h cfg mc off : hpet_typed n h -> r64 cfg -> r64 mc -> hpet_typed n (with_counter h cfg mc off).
Proof. intros [] ? ?. by split. Qed.

(** A change of registers that leaves the timers that run. *)
Lemma silent_same h h' : silent h -> plt h' = plt h -> (forall tn, (tn < 3)%nat -> running h' tn = running h tn) -> silent h'.
Proof. intros Hs Ep Hr tn Ht. rewrite Hr, Ep by done. by apply Hs. Qed.

Lemma running_off h tn : hpet_enabled h = false -> running h tn = false.
Proof. unfold running. by intros ->. Qed.

Section Write.
Context (n : nat) (now : Z) (v : nat) (Hv : (v < n)%nat).
Implicit Types (new old : Z).

Lemma write_cfg_spec new h : r64 new -> hpet_ok n h -> written n (write_cfg now v new (config h) h).
Proof.
  clear Hv. intros Hn [Hh Hs]. unfold write_cfg. set (cfg := hpet_fixup_reg new (config h) 0x3). set (h0 := with_counter h cfg (mc64 h) (mc_offset h)).
  assert (r64 cfg) as Hcfg by (apply fixup_range; [done|apply Hh|lia]). assert (hpet_typed n h0) as H0 by (apply counter_typed; [done|done|apply Hh]).
  assert (Z.testbit cfg 0 = Z.testbit new 0) as Eb by (unfold cfg; by rewrite fixup_bit).
  assert (hpet_enabled h0 = Z.testbit new 0) as E0 by (rewrite hpet_enabled_bit; exact Eb).
  pose proof (calm_time now v h0) as K. change (truthy (?x .& HPET_CFG_ENABLE)) with (truthy (x .& 2 ^ 0)). rewrite !truthy_bit by lia.
  pose proof (hpet_enabled_bit h) as Eo. destruct (guest_time_hpet now v h0) as [g h1]. cbn [snd] in K. pose proof (calm_typed n _ _ K H0) as H1.
  assert (forall tn, timer_enabled (tmr h1 tn) = timer_enabled (tmr h tn)) as Et by (intros tn; unfold timer_enabled; by rewrite (proj1 (calm_tmr _ _ tn K))).
  assert (forall tn, Vpt.pt (plt h1) tn = Vpt.pt (plt h) tn) as Ep by (intros tn; unfold Vpt.pt; by rewrite (ca_pts _ _ K)).
  assert (hpet_enabled h1 = Z.testbit new 0) as E1 by (unfold hpet_enabled; rewrite (ca_config _ _ K); exact E0).
  destruct (Z.testbit (config h) 0) eqn:Eold, (Z.testbit new 0) eqn:Enew; cbn [negb andb].
  - apply written_silent; [done|]. eapply silent_same; [exact Hs|done|]. intros tn _. unfold running. rewrite Eo, E0. done.
  - split; cbn [fst snd]; [by apply counter_typed; [done|apply H1|apply u64_range]| | |by rewrite set_bits_0|].
    + intros i Hi. apply set_bits_enabled in Hi. tauto.
    + intros i Hi. by rewrite set_bits_0 in Hi; apply not_elem_of_nil in Hi.
    + right. intros tn Ht _. destruct (timer_enabled (tmr h tn)) eqn:E; [right; apply set_bits_enabled; split; [done|]; change (timer_enabled (tmr h1 tn) = true); by rewrite Et|left].
      cbn [plt with_counter]. rewrite Ep. apply Hs; [done|]. unfold running. by rewrite E, andb_false_r.
  - set (h2 := with_counter h1 _ _ _). set (f := fun t => set_comparator _ t).
    assert (hpet_typed n (with_timers h2 (map f (timers h2)))) as H2.
    { assert (hpet_typed n h2) as [] by (apply counter_typed; [done|apply H1|apply H1]). split; try done; cbn [timers with_timers]; [by rewrite length_map|].
      apply Forall_map. eapply Forall_impl; [eassumption|]. intros t []. unfold f. split; cbn; try done. destruct (truthy _); [apply r64_u32|done]. }
    assert (hpet_enabled (with_timers h2 (map f (timers h2))) = true) as E2 by (transitivity (hpet_enabled h1); done).
    split; cbn [fst snd]; [done| | |done|].
    + intros i Hi. by rewrite set_bits_0 in Hi; apply not_elem_of_nil in Hi.
    + intros i Hi. apply set_bits_enabled in Hi. tauto.
    + right. intros tn Ht _. left. cbn [plt with_timers with_counter h2]. rewrite Ep. apply Hs; [done|]. apply running_off. by rewrite Eo.
  - apply written_silent; [done|]. eapply silent_same; [exact Hs|done|]. intros tn _. rewrite !running_off; congruence.
Qed.

Lemma write_counter_spec new h : r64 new -> hpet_ok n h -> written n (write_counter new h).
Proof.
  clear Hv. intros Hn [Hh Hs]. unfold write_counter. set (h0 := with_counter h _ _ _). assert (hpet_typed n h0) as H0 by (apply counter_typed; [done|apply Hh|done]).
  assert (silent h0) as Hs0 by exact Hs. destruct (hpet_enabled h0) eqn:E; [|by apply written_silent].
  split; cbn [fst snd]; try done; [intros i Hi; apply set_bits_enabled in Hi; tauto..|]. right. intros tn Ht Hr. left. by apply Hs0.
Qed.

(** The registers of timer [tn] changed. *)
Lemma running_upd tn f h i : (tn < 3)%nat -> hpet_typed n h ->
  running (upd_t tn f h) i = if decide (i = tn) then hpet_enabled h && timer_enabled (f (tmr h tn)) else running h i.
Proof.
  clear Hv. intros Ht Hh. unfold running. change (hpet_enabled (upd_t tn f h)) with (hpet_enabled h). case_decide as E; [subst i; rewrite tmr_upd_eq by (rewrite (ht_len _ _ Hh); lia); done|].
  by rewrite tmr_upd_ne by done.
Qed.

Lemma one_bit tn i : (tn < 3)%nat -> i ∈ set_bits (Z.setbit 0 (Z.of_nat tn)) -> (i < 3)%nat.
Proof. clear Hv. intros Ht Hi%set_bits_one; lia. Qed.

Lemma write_tn_cfg_spec tn new h : (tn < 3)%nat -> r64 new -> hpet_ok n h -> written n (write_tn_cfg tn new (tconfig (tmr h tn)) h).
Proof.
  clear Hv. intros Ht Hn [Hh Hs]. unfold write_tn_cfg. set (old := tconfig (tmr h tn)). set (cfg := hpet_fixup_reg new old 0x3f4e). set (h0 := upd_t tn (set_tconfig cfg) h).
  assert (r64 cfg) as Hcfg by (apply fixup_range; [done|apply (tmr_typed n); done|lia]).
  assert (hpet_typed n h0) as H0 by (apply upd_typed; [intros t []; by split|done]).
  assert (forall i, running h0 i = if decide (i = tn) then hpet_enabled h && Z.testbit new 2 else running h i) as R0.
  { intros i. unfold h0. rewrite running_upd by done. case_decide; [|done]. rewrite enabled_bit. cbn [tconfig set_tconfig]. unfold cfg. by rewrite fixup_bit. }
  destruct (timer_level (tmr h0 tn)).
  { split; cbn [fst snd]; rewrite ?set_bits_0; try done; [destruct H0; by split|by intros i ?%not_elem_of_nil..|by left]. }
  set (h1 := if truthy (new .& HPET_TN_32BIT) then _ else h0). cbv zeta.
  assert (hpet_typed n h1 /\ (forall i, running h1 i = running h0 i) /\ plt h1 = plt h /\ config h1 = config h) as (H1 & R1 & P1 & C1).
  { unfold h1. destruct (truthy _); [|done]. split_and!; try done.
    - apply upd_typed; [|done]. intros t []. split; cbn; try done; apply r64_u32.
    - intros i. rewrite running_upd by done. case_decide; [subst i; unfold running; done|done]. }
  clearbody h1. assert (hpet_enabled h1 = hpet_enabled h) as E1 by (unfold hpet_enabled; by rewrite C1). rewrite E1. change (?x .& HPET_TN_ENABLE) with (x .& 2 ^ 2). rewrite !truthy_bit by lia.
  assert (forall i, (i < 3)%nat -> i <> tn -> running h1 i = false -> Vpt.off (Vpt.pt (plt h1) (slot i))) as Ho.
  { intros i Hi Hne. rewrite R1, R0, P1, decide_False by done. by apply Hs. }
  assert (running h1 tn = hpet_enabled h && Z.testbit new 2) as Rt by (by rewrite R1, R0, decide_True).
  assert (running h tn = hpet_enabled h && Z.testbit old 2) as Ro by (unfold running, old; by rewrite enabled_bit).
  assert (forall a b, (a = 0 \/ a = Z.setbit 0 (Z.of_nat tn)) -> (b = 0 \/ b = Z.setbit 0 (Z.of_nat tn)) -> (b = 0 \/ hpet_enabled h = true) ->
    (running h1 tn = false -> Vpt.off (Vpt.pt (plt h1) (slot tn)) \/ a = Z.setbit 0 (Z.of_nat tn)) -> written n (h1, a, b)) as Hend.
  { intros a b Ha Hb Hbe Htn. assert (forall c, (c = 0 \/ c = Z.setbit 0 (Z.of_nat tn)) -> forall i, i ∈ set_bits c -> (i < 3)%nat) as Hc.
    { intros c [-> | ->] i Hi; [by rewrite set_bits_0 in Hi; apply not_elem_of_nil in Hi|by eapply one_bit]. }
    split; cbn [fst snd]; [done|by apply Hc|by apply Hc| |].
    - intros Hne. rewrite E1. destruct Hbe as [-> |]; [by rewrite set_bits_0 in Hne|done].
    - right. intros i Hi Hr. destruct (decide (i = tn)) as [->|Hne]; [|left; by apply Ho]. destruct (Htn Hr) as [?| ->]; [by left|right]. by apply set_bits_one. }
  destruct (hpet_enabled h) eqn:Eh.
  - cbn [andb] in *. destruct (Z.testbit new 2) eqn:En.
    + destruct (truthy _); [apply Hend; try (by right); intros; congruence|]. destruct (_ && _); [apply Hend; try (by right); intros; congruence|].
      destruct (negb _); apply Hend; try (by right); try (by left); intros; congruence.
    + destruct (Z.testbit old 2) eqn:Eo; apply Hend; try (by right); try (by left). intros _. left. rewrite P1. by apply Hs.
  - apply Hend; try (by left). intros _. left. rewrite P1. apply Hs; [done|]. by apply running_off.
Qed.

Lemma clamp_range h b x : r64 (clamp_period h b x).
Proof. clear Hv. unfold clamp_period, r64. apply land_range; [lia|]. rewrite Z.shiftr_div_pow2 by lia. destruct b; zlia. Qed.

Lemma write_tn_cmp_spec tn new h : (tn < 3)%nat -> r64 new -> hpet_ok n h -> written n (write_tn_cmp tn new h).
Proof.
  clear Hv. intros Ht Hn [Hh Hs]. unfold write_tn_cmp. set (b := timer_is_32bit (tmr h tn)). set (x := if b then u32 new else new).
  assert (r64 x) as Hx by (unfold x; destruct b; [apply r64_u32|done]). cbv zeta. set (h0 := upd_t tn (set_cmp x) h).
  assert (hpet_typed n h0) as H0 by (apply upd_typed; [intros t []; by split|done]).
  assert (forall i, running h0 i = running h i) as R0 by (intros i; unfold h0; rewrite running_upd by done; case_decide; [subst i|]; done).
  assert (exists y h1, (if truthy (tconfig (tmr h0 tn) .& HPET_TN_SETVAL) then (x, upd_t tn (set_tconfig (Z.ldiff (tconfig (tmr h0 tn)) HPET_TN_SETVAL)) h0)
    else if timer_is_periodic (tmr h0 tn) then (clamp_period h0 b x, upd_t tn (set_period (clamp_period h0 b x)) h0) else (x, h0)) = (y, h1) /\
    hpet_typed n h1 /\ r64 y /\ (forall i, running h1 i = running h i) /\ plt h1 = plt h /\ config h1 = config h) as (y & h1 & -> & H1 & Hy & R1 & P1 & C1).
  { pose proof (tmr_typed n h0 tn H0 Ht) as [Tc _ _ _ _]. destruct (truthy _); [|destruct (timer_is_periodic _)].
    - do 2 eexists. split; [reflexivity|]. split_and!; try done.
      + apply upd_typed; [|done]. intros t []. split; cbn; try done. apply bounded_of_bits; [lia|apply Z.ldiff_nonneg; unfold r64 in Tc; lia|].
        intros i Hi. rewrite Z.ldiff_spec, (testbit_high _ 64) by (done || lia). done.
      + intros i. rewrite running_upd by done. case_decide; [subst i|by rewrite R0]. rewrite <- R0. unfold running. rewrite !enabled_bit. cbn [tconfig set_tconfig].
        rewrite Z.ldiff_spec. change (Z.testbit HPET_TN_SETVAL 2) with false. cbn [negb]. by rewrite andb_true_r.
    - do 2 eexists. split; [reflexivity|]. pose proof (clamp_range h0 b x). split_and!; try done; [apply upd_typed; [intros t []; by split|done]|].
      intros i. rewrite running_upd by done. case_decide; [subst i; rewrite <- R0|by rewrite R0]. done.
    - by do 2 eexists. }
  set (h2 := upd_t tn (set_comparator y) h1). assert (hpet_typed n h2) as H2 by (apply upd_typed; [intros t []; by split|done]).
  assert (forall i, running h2 i = running h i) as R2 by (intros i; unfold h2; rewrite running_upd by done; case_decide; [subst i; rewrite <- R1|by rewrite R1]; done).
  assert (silent h2) as S2 by (eapply silent_same; [exact Hs|exact P1|intros; by apply R2]).
  fold (running h2 tn). destruct (running h2 tn) eqn:Er; [|by apply written_silent].
  split; cbn [fst snd]; [done|intros i; by apply one_bit|intros i; by apply one_bit|intros _; unfold running in Er; by apply andb_prop in Er as [? _]|].
  right. intros i Hi Hr. left. by apply S2.
Qed.

Lemma write_reg_spec addr new old h : r64 new -> hpet_ok n h -> (Z.ldiff addr 7 = HPET_CFG -> old = config h) ->
  ((Z.ldiff addr 7 =? HPET_T0_CFG) || (Z.ldiff addr 7 =? HPET_T1_CFG) || (Z.ldiff addr 7 =? HPET_T2_CFG) = true -> old = tconfig (tmr h (Z.to_nat ((addr - HPET_T0_CFG) .>> 5)))) ->
  written n (write_reg now v addr new old h).
Proof.
  clear Hv. intros Hn Hh E1 E2. unfold write_reg. cbv zeta. destruct (Z.eqb_spec (Z.ldiff addr 7) HPET_CFG) as [E|_]; [rewrite E1 by done; by apply write_cfg_spec|].
  destruct (_ =? HPET_COUNTER); [by apply write_counter_spec|].
  destruct ((Z.ldiff addr 7 =? HPET_T0_CFG) || _ || _) eqn:Ec. { rewrite E2 by done. apply write_tn_cfg_spec; [|done..]. by destruct (reg_index _ _ _ _ Ec ltac:(done) ltac:(done)). }
  destruct ((Z.ldiff addr 7 =? HPET_T0_CMP) || _ || _) eqn:Em. { apply write_tn_cmp_spec; [|done..]. by destruct (reg_index _ _ _ _ Em ltac:(done) ltac:(done)). }
  destruct ((Z.ldiff addr 7 =? HPET_T0_ROUTE) || _ || _) eqn:Er; [|by apply written_silent; apply Hh]. destruct (reg_index _ _ _ _ Er ltac:(done) ltac:(done)) as [_ Ht].
  destruct Hh as [Hh Hs]. apply written_silent; [apply upd_typed; [intros t []; by split|done]|]. eapply silent_same; [exact Hs|done|]. intros i _. rewrite running_upd by done. case_decide; [subst i|]; done.
Qed.

Lemma hpet_write_ok addr length val h : r64 val -> hpet_ok n h ->
  let h' := hpet_write now v addr length val h in hpet_typed n h' /\ (crashed h' = true \/ silent h').
Proof.
  intros Hval Hok. unfold hpet_write. cbv zeta. set (a := addr .& _). destruct (hpet_check_access_length a length); [split; [apply Hok|right; apply Hok]|].
  destruct (read64_spec n now v a h (proj1 Hok)) as [K Hr]. assert (Z.ldiff a 7 = HPET_CFG -> (hpet_read64 now v a h).1 = config h) as O1 by (intros E; unfold hpet_read64; by rewrite E).
  assert ((Z.ldiff a 7 =? HPET_T0_CFG) || (Z.ldiff a 7 =? HPET_T1_CFG) || (Z.ldiff a 7 =? HPET_T2_CFG) = true ->
    (hpet_read64 now v a h).1 = tconfig (tmr h (Z.to_nat ((a - HPET_T0_CFG) .>> 5)))) as O2.
  { intros E. destruct (reg_index _ _ _ _ E ltac:(done) ltac:(done)) as [-> _]. unfold hpet_read64. cbv zeta. rewrite E.
    apply orb_prop in E as [[E|E]%orb_prop|E]; apply Z.eqb_eq in E; by rewrite E. }
  destruct (hpet_read64 now v a h) as [old h1]. cbn [fst snd] in *. pose proof (calm_ok n _ _ K Hok) as H1. set (new := if length =? 8 then val else _).
  assert (r64 new) as Hnew. { unfold new. destruct (length =? 8); [done|]. apply fixup_range; [apply u64_range|done|apply u64_range]. }
  clearbody new. destruct (write_reg_spec a new old h1 Hnew H1) as [W1 W2 W3 W4 W5].
  { intros E. by rewrite (ca_config _ _ K), O1. } { intros E. by rewrite (proj1 (calm_tmr _ _ _ K)), O2. }
  destruct (write_reg now v a new old h1) as [[h2 stop] start]. cbn [fst snd] in *.
  destruct (stop_all n now v Hv (set_bits stop) h2 W2 W1) as (A1 & A2 & A3 & A4 & A5). set (h3 := foldl _ h2 _) in *. clearbody h3.
  destruct (start_all n now v Hv (set_bits start) h3 W3 A1) as (B1 & B2 & B3). { intros Hne. unfold hpet_enabled. rewrite A2. by apply W4. }
  split; [done|]. destruct W5 as [Hc|Ho]; [left; by rewrite B2, A4|right]. apply B3. intros tn Ht Hrun. apply A5; [done|].
  destruct (Ho tn Ht) as [?|?]; [|by right|by left]. unfold running, hpet_enabled, timer_enabled in *. by rewrite A2, A3 in Hrun.
Qed.

End Write.

(** ** Reset and other operations keep the invariant *)

Lemma deinit_loop n now v l : (v < n)%nat -> forall h, (forall i, i ∈ l -> (i < 3)%nat) -> hpet_typed n h ->
  let h' := foldl (fun h i => if timer_enabled (tmr h i) then hpet_stop_timer now v i h else h) h l in
  hpet_typed n h' /\ (forall i, tconfig (tmr h' i) = tconfig (tmr h i)) /\
  (forall tn, (tn < 3)%nat -> timer_enabled (tmr h tn) = false -> Vpt.pt (plt h') (slot tn) = Vpt.pt (plt h) (slot tn)) /\
  (forall tn, (tn < 3)%nat -> (tn ∈ l /\ timer_enabled (tmr h tn) = true) \/ Vpt.off (Vpt.pt (plt h) (slot tn)) -> Vpt.off (Vpt.pt (plt h') (slot tn))).
Proof.
  intros Hv. induction l as [|i l IH]; intros h Hl Hh; cbn [foldl].
  { split_and!; try done. by intros tn _ [[?%not_elem_of_nil _]|?]. }
  set (h1 := if timer_enabled (tmr h i) then _ else h). pose proof (Hl i ltac:(by left)) as Hi.
  assert (hpet_typed n h1 /\ (forall j, tconfig (tmr h1 j) = tconfig (tmr h j)) /\ (forall tn, (tn < 3)%nat -> tn <> i \/ timer_enabled (tmr h tn) = false -> Vpt.pt (plt h1) (slot tn) = Vpt.pt (plt h) (slot tn)) /\
    (timer_enabled (tmr h i) = true -> Vpt.off (Vpt.pt (plt h1) (slot i)))) as (A1 & A2 & A3 & A4).
  { unfold h1. destruct (timer_enabled (tmr h i)) eqn:E; [|done]. destruct (stop_spec n now v i h Hi Hh) as [S1 S2 S3 S4 S5 S6]. split_and!; try done.
    intros tn _ [Hne|E']; apply S6; [unfold slot; lia|]. intros Heq. assert (tn = i) as -> by (unfold slot in Heq; lia). congruence. }
  clearbody h1. destruct (IH h1 ltac:(intros j Hj; apply Hl; by right) A1) as (I1 & I2 & I3 & I4).
  assert (forall tn, timer_enabled (tmr h1 tn) = timer_enabled (tmr h tn)) as Et by (intros tn; unfold timer_enabled; by rewrite A2).
  split_and!; [done|intros j; by rewrite I2| |].
  - intros tn Ht E. rewrite I3 by (done || by rewrite Et). apply A3; [done|by right].
  - intros tn Ht H. apply I4; [done|]. rewrite Et. destruct (decide (tn = i)) as [->|Hne].
    + destruct (timer_enabled (tmr h i)) eqn:E; [right; by apply A4|]. right. rewrite A3 by (done || by right). destruct H as [[_ ?]|?]; done.
    + destruct H as [[[?|?]%elem_of_cons ?]|?]; [done|by left|right; rewrite A3 by (done || by left); done].
Qed.

Lemma deinit_off n now v h : (v < n)%nat -> hpet_ok n h -> hpet_typed n (hpet_deinit now v h) /\ forall tn, (tn < 3)%nat -> Vpt.off (Vpt.pt (plt (hpet_deinit now v h)) (slot tn)).
Proof.
  intros Hv [Hh Hs]. unfold hpet_deinit. destruct (hpet_enabled h) eqn:E.
  - destruct (deinit_loop n now v (seq 0 Vpt.HPET_TIMER_NUM) Hv h) as (A1 & _ & _ & A4); [intros i Hi%elem_of_seq; unfold Vpt.HPET_TIMER_NUM in Hi; lia|done|].
    split; [done|]. intros tn Ht. apply A4; [done|]. destruct (timer_enabled (tmr h tn)) eqn:Et; [left; split; [apply elem_of_seq; unfold Vpt.HPET_TIMER_NUM; lia|done]|right].
    apply Hs; [done|]. unfold running. by rewrite Et, andb_false_r.
  - split; [done|]. intros tn Ht. apply Hs; [done|]. by apply running_off.
Qed.

Lemma new_timer_typed : timer_typed new_timer.
Proof. split; unfold r64; vm_compute; (split; [discriminate|reflexivity]). Qed.

(** Clearing the structure loses no timer that is still listed. *)
Lemma hpet_init_ok n h : hpet_typed n h -> (forall tn, (tn < 3)%nat -> Vpt.off (Vpt.pt (plt h) (slot tn))) -> hpet_ok n (hpet_init h).
Proof.
  intros Hh Ho. unfold hpet_init. cbv zeta. set (clr := fun k (p : Vpt.pl_time unit) => Vpt.upd_pt k (fun _ => Vpt.no_timer Vpt.PTSRC_isa) p). change (foldl _ (plt h) _) with (clr 4%nat (clr 3%nat (clr 2%nat (plt h)))).
  set (p0 := plt h) in *. set (p1 := clr 2%nat p0). set (p2 := clr 3%nat p1). set (p3 := clr 4%nat p2).
  assert (Vpt.kept p0 p1) as K1 by (apply Vpt.clear_ok; [apply (Ho 0%nat); lia|apply Hh]).
  assert (Vpt.kept p1 p2) as K2 by (apply Vpt.clear_ok; [unfold p1, clr; rewrite Vpt.pt_upd_other by lia; apply (Ho 1%nat); lia|apply K1, Hh]).
  assert (Vpt.kept p2 p3) as K3 by (apply Vpt.clear_ok; [unfold p2, p1, clr; rewrite !Vpt.pt_upd_other by lia; apply (Ho 2%nat); lia|apply K2, K1, Hh]).
  pose proof (Vpt.kept_trans _ _ _ (Vpt.kept_trans _ _ _ K1 K2) K3) as [Kok Kc Kp _]. pose proof (ht_pts _ _ Hh) as Hp. pose proof (Vpt.kp_pts _ _ K2) as Kp2.
  assert (forall tn, (tn < 3)%nat -> Vpt.pt p3 (slot tn) = Vpt.no_timer Vpt.PTSRC_isa) as En.
  { intros tn Ht. unfold slot. destruct tn as [|[|[|tn]]]; [| | |lia]; cbn [Nat.add]; unfold p3, p2, p1, clr; rewrite ?Vpt.pt_upd_other by lia; rewrite Vpt.pt_upd_eq; try done; rewrite ?Vpt.length_upd_pt; unfold p0; lia. }
  clearbody p3. split; [split; cbn [capability config isr mc64 timers plt]; try (unfold r64; vm_compute; split; [discriminate|reflexivity])|].
  - done.
  - apply Forall_replicate, new_timer_typed.
  - by apply Kok, Hh.
  - rewrite Kc. apply Hh.
  - rewrite Kp. apply Hh.
  - intros tn Ht. rewrite En by done. by intros _.
  - intros tn Ht _. cbn [plt]. rewrite En by done. done.
Qed.

Lemma hpet_reset_ok n now v h : (v < n)%nat -> hpet_ok n h -> hpet_ok n (hpet_reset now v h).
Proof. intros Hv Hh. destruct (deinit_off n now v h Hv Hh) as [H1 H2]. by apply hpet_init_ok. Qed.

Lemma settle_ok n now v h : hpet_ok n h -> hpet_ok n (settle_counter now v h).
Proof.
  intros Hh. unfold settle_counter. pose proof (calm_time now v h) as K. destruct (guest_time_hpet now v h) as [g h1]. cbn [snd] in K. apply (calm_ok n) in K as [H1 S1]; [|done].
  split; [apply counter_typed; [done|apply H1|apply u64_range]|exact S1].
Qed.

(** ** Sequences of operations *)

(** An operation on the platform timers, of another device or the scheduler; the
    function of a timer runs only when the timer is set. *)
Definition timer_exec (o : Vpt.vpt_op (C:=unit)) (p : Vpt.pl_time unit) : Vpt.pl_time unit :=
  match o with
  | Vpt.Fire k => match Vpt.timer (Vpt.pt p k) with Some _ => Vpt.vpt_exec o p | None => p end
  | _ => Vpt.vpt_exec o p
  end.

Inductive hpet_op := Read (addr length : Z) | Write (addr length val : Z) | Reset | SaveState | Timer (o : Vpt.vpt_op (C:=unit)).

Definition hpet_exec (now : Z) (v : nat) (o : hpet_op) h : HPETState :=
  match o with
  | Read addr length => (hpet_read now v addr length h).2
  | Write addr length val => hpet_write now v addr length val h
  | Reset => hpet_reset now v h
  | SaveState => settle_counter now v h
  | Timer o => with_plt h (timer_exec o (plt h))
  end.

(** A domain that is crashed does not go on. *)
Fixpoint hpet_trace (ops : list (Z * nat * hpet_op)) h : HPETState :=
  match ops with [] => h | (now, v, o) :: ops => if crashed h then h else hpet_trace ops (hpet_exec now v o h) end.

(** The CPUs exist, and no one else creates a timer in a slot of the HPET. *)
Definition valid_hpet (n : nat) (x : Z * nat * hpet_op) : Prop :=
  (x.1.2 < n)%nat /\
  match x.2 with
  | Write _ _ val => r64 val
  | Timer (Vpt.Create _ i k _ period _ _) => (i < n)%nat /\ (k < 2 \/ 5 <= k < 5 + n)%nat /\ 0 <= period < 2 ^ 64
  | Timer (Vpt.Retarget (Some i)) => (i < n)%nat
  | _ => True
  end.

Lemma timer_exec_ok n now v o h : valid_hpet n (now, v, Timer o) -> hpet_ok n h -> hpet_ok n (with_plt h (timer_exec o (plt h))).
Proof.
  intros [_ Hv] [Hh Hs]. cbn [fst snd] in Hv. set (p := plt h) in *. assert (Vpt.valid_vpt_op p o) as Hvo.
  { destruct o as [| | | | | | |[i|]|]; cbn in *; try done; unfold p; rewrite ?(ht_cpus _ _ Hh), ?(ht_pts _ _ Hh); [|done]. split_and!; (tauto || lia). }
  assert (forall tn, (tn < 3)%nat -> Vpt.idle (Vpt.pt (timer_exec o p) (slot tn)) /\ (Vpt.off (Vpt.pt p (slot tn)) -> Vpt.off (Vpt.pt (timer_exec o p) (slot tn)))) as Hq.
  { intros tn Ht. pose proof (ht_idle _ _ Hh tn Ht) as Hi. assert (o = Vpt.Fire (slot tn) \/ o <> Vpt.Fire (slot tn)) as [->|Hne].
    { destruct o as [k| | | | | | | |]; try (by right). destruct (decide (k = slot tn)) as [->|Hk]; [by left|right]. by intros [= ?]. }
    - cbn [timer_exec]. destruct (Vpt.timer (Vpt.pt p (slot tn))) as [t|] eqn:Et; [|done]. split; [|intros (_ & _ & ?); congruence].
      intros E. cbn [Vpt.vpt_exec] in E. unfold Vpt.pt_timer_fn in E. rewrite Vpt.pt_upd_eq in E by (apply (slot_lt n); done). destruct (Hi E) as (_ & _ & ?). unfold p in Et. congruence.
    - assert (~ Vpt.starts (slot tn) o) as Hns. { destruct o; cbn in *; try tauto; [intros ->; by apply Hne|]. unfold slot. lia. }
      assert (Vpt.quiet (Vpt.pt p (slot tn)) (Vpt.pt (timer_exec o p) (slot tn))) as Q.
      { assert (Vpt.quiet (Vpt.pt p (slot tn)) (Vpt.pt (Vpt.vpt_exec o p) (slot tn))) as Q by (apply Vpt.quiet_exec; [apply Hh|done]). destruct o; try exact Q. cbn [timer_exec]. by destruct (Vpt.timer _). }
      split; [by eapply Vpt.quiet_idle|apply Q]. }
  assert (Vpt.kept p (timer_exec o p)) as K.
  { pose proof (Vpt.vpt_exec_ok o p Hvo (ht_vpt _ _ Hh)) as K. destruct o; try exact K. cbn [timer_exec]. by destruct (Vpt.timer _). }
  split; [apply plt_typed; [done|done|]; intros tn Ht; by apply Hq|]. intros tn Ht Hr. apply Hq; [done|]. by apply Hs.
Qed.

Lemma hpet_exec_ok n now v o h : valid_hpet n (now, v, o) -> hpet_ok n h -> hpet_typed n (hpet_exec now v o h) /\ (crashed (hpet_exec now v o h) = true \/ silent (hpet_exec now v o h)).
Proof.
  intros Hv Hh. pose proof Hv as [Hlt Hval]. cbn [fst snd] in *. assert (forall h', hpet_ok n h' -> hpet_typed n h' /\ (crashed h' = true \/ silent h')) as Hw by (intros h' []; auto).
  destruct o; cbn [hpet_exec]; [apply Hw; by apply hpet_read_ok|by apply hpet_write_ok|apply Hw; by apply hpet_reset_ok|apply Hw; by apply settle_ok|apply Hw; by eapply timer_exec_ok].
Qed.

Lemma hpet_trace_ok n ops h : Forall (valid_hpet n) ops -> hpet_ok n h ->
  hpet_typed n (hpet_trace ops h) /\ (crashed (hpet_trace ops h) = true \/ silent (hpet_trace ops h)).
Proof.
  intros Hops [Hh Hs]. assert (hpet_typed n h /\ (crashed h = true \/ silent h)) as H by auto. clear Hh Hs.
  revert h H. induction Hops as [|[[now v] o] ops Hv _ IH]; intros h [Hh Hs]; [done|]. cbn [hpet_trace]. destruct (crashed h) eqn:Ec; [auto|]. destruct Hs as [?|Hs]; [congruence|].
  apply IH. by apply hpet_exec_ok.
Qed.

(** C22. A timer of the HPET that is switched off makes no interrupt.  After any
    sequence of accesses of the guest to the registers, of any width and at any
    address, of resets, of the timers going off and of what the scheduler and
    other devices do with the platform timers, unless the domain was crashed, a
    timer that is disabled, or any timer while the HPET is halted, is in no list,
    has no tick pending and is not set; so a reset, which clears the structures,
    never clears one that is still in a list, and the lists stay exact. *)
Theorem hpet_silent_unless_enabled n ops h : Forall (valid_hpet n) ops -> hpet_ok n h ->
  let h' := hpet_trace ops h in
  Vpt.vpt_ok (plt h') /\
  (crashed h' = true \/
   forall tn, (tn < 3)%nat -> hpet_enabled h' = false \/ timer_enabled (tmr h' tn) = false ->
     let p := Vpt.pt (plt h') (slot tn) in Vpt.on_list p = false /\ Vpt.pending_intr_nr p = 0 /\ Vpt.timer p = None).
Proof.
  intros Hops Hh. cbv zeta. destruct (hpet_trace_ok n ops h Hops Hh) as [H1 H2].
  split; [apply H1|]. destruct H2 as [?|H2]; [by left|right]. intros tn Ht Hd. apply (H2 tn Ht). unfold running. destruct Hd as [-> | ->]; [done|]. by rewrite andb_false_r.
Qed.

(** ** A timer that is left behind *)

Lemma level_write_state now v tn h : (tn < 3)%nat -> length (timers h) = 3%nat ->
  exists new, hpet_write now v (HPET_BASE_ADDRESS + HPET_T0_CFG + 32 * Z.of_nat tn) 4 HPET_TN_INT_TYPE_LEVEL h =
    domain_crash (upd_t tn (set_tconfig (hpet_fixup_reg new (tconfig (tmr h tn)) 0x3f4e)) h) /\ Z.testbit new 2 = false.
Proof.
  intros Ht Hl. exists (hpet_fixup_reg 2 (tconfig (tmr h tn)) (2 ^ 32 - 1)).
  split; [|rewrite fixup_bit by lia; change (Z.testbit (2 ^ 32 - 1) 2) with true; done].
  unfold hpet_write. cbv zeta. set (a := (HPET_BASE_ADDRESS + _ + _) .& _). assert (a = HPET_T0_CFG + 32 * Z.of_nat tn) as Ea.
  { unfold a. destruct tn as [|[|[|tn]]]; [vm_compute; reflexivity..|lia]. }
  rewrite Ea. assert (hpet_check_access_length (HPET_T0_CFG + 32 * Z.of_nat tn) 4 = false) as -> by (destruct tn as [|[|[|tn]]]; [vm_compute; reflexivity..|lia]).
  assert (hpet_read64 now v (HPET_T0_CFG + 32 * Z.of_nat tn) h = (tconfig (tmr h tn), h)) as -> by (destruct tn as [|[|[|tn]]]; [reflexivity..|lia]).
  cbn [Z.eqb Pos.eqb]. assert ((HPET_T0_CFG + 32 * Z.of_nat tn) .& 7 = 0) as -> by (destruct tn as [|[|[|tn]]]; [reflexivity..|lia]).
  change (u64 (HPET_TN_INT_TYPE_LEVEL .<< (0 * 8))) with 2. change (u64 ((u64 (1 .<< (4 * 8)) - 1) .<< (0 * 8))) with (2 ^ 32 - 1).
  set (old := tconfig (tmr h tn)). set (new := hpet_fixup_reg 2 old (2 ^ 32 - 1)).
  assert (write_reg now v (HPET_T0_CFG + 32 * Z.of_nat tn) new old h = write_tn_cfg tn new old h) as -> by (destruct tn as [|[|[|tn]]]; [reflexivity..|lia]).
  unfold write_tn_cfg. set (h0 := upd_t tn _ h). assert (timer_level (tmr h0 tn) = true) as ->; [|done].
  unfold h0. rewrite tmr_upd_eq by lia. unfold timer_level. cbn [tconfig set_tconfig]. change HPET_TN_INT_TYPE_LEVEL with (2 ^ 1). rewrite truthy_bit, !fixup_bit by lia.
  change (Z.testbit 0x3f4e 1) with true. unfold new. rewrite fixup_bit by lia. change (Z.testbit (2 ^ 32 - 1) 1) with true. done.
Qed.

(** C23. A guest can leave a timer behind that outlives it.  It asks for level
    interrupts on a timer that is set, without the bit that enables the timer:
    the domain is crashed, but the timer is not stopped, and when the domain is
    destroyed [hpet_deinit] passes it by, since its configuration says that it is
    disabled.  It is still set, in the structure of a domain that is freed.  (This
    is about the write and [hpet_deinit]: between them [pt_save_timer] stops the
    timer when the CPU that has it leaves the processor without being blocked,
    so the guest makes the write on another CPU while that one is halted.) *)
Theorem level_write_leaks_timer n now v now' v' tn h at_time :
  hpet_ok n h -> (v' < n)%nat -> (tn < 3)%nat -> Vpt.timer (Vpt.pt (plt h) (slot tn)) = Some at_time ->
  let h1 := hpet_write now v (HPET_BASE_ADDRESS + HPET_T0_CFG + 32 * Z.of_nat tn) 4 HPET_TN_INT_TYPE_LEVEL h in
  crashed h1 = true /\ Vpt.timer (Vpt.pt (plt (hpet_deinit now' v' h1)) (slot tn)) = Some at_time.
Proof.
  intros [Hh Hs] Hv Ht Hset. cbv zeta. destruct (level_write_state now v tn h Ht (ht_len _ _ Hh)) as (new & -> & Hb). set (h0 := upd_t tn _ h). split; [done|].
  assert (hpet_typed n h0) as H0.
  { apply upd_typed; [|done]. intros t []. split; try done. cbn [tconfig set_tconfig]. pose proof (tmr_typed n h tn Hh Ht) as [Tc _ _ _ _]. 
    unfold r64. apply bounded_of_bits; [lia| |].
    - apply Z.bits_iff_nonneg_ex. exists 64. intros i Hi. rewrite fixup_bit by lia. rewrite (testbit_high (tconfig (tmr h tn)) 64) by (done || lia).
      destruct (Z.testbit 0x3f4e i) eqn:E; [|done]. rewrite (testbit_high 0x3f4e 14) in E by lia. done.
    - intros i Hi. rewrite fixup_bit by lia. rewrite (testbit_high 0x3f4e 14), (testbit_high (tconfig (tmr h tn)) 64) by (done || lia). done. }
  unfold hpet_deinit. destruct (hpet_enabled _); [|exact Hset].
  destruct (deinit_loop n now' v' (seq 0 Vpt.HPET_TIMER_NUM) Hv (domain_crash h0)) as (_ & _ & A3 & _).
  { intros i Hi%elem_of_seq. unfold Vpt.HPET_TIMER_NUM in Hi. lia. } { destruct H0. by split. }
  rewrite A3; [exact Hset|done|]. change (timer_enabled (tmr h0 tn) = false). unfold h0. rewrite tmr_upd_eq by (rewrite (ht_len _ _ Hh); lia).
  rewrite enabled_bit. cbn [tconfig set_tconfig]. rewrite fixup_bit by lia. exact Hb.
Qed.

(** ** The comparator of a periodic timer *)

(** The comparator is moved to the first tick of its period that the counter has
    not passed.  One that is more than a period ahead, as a guest can set it, is
    moved too, back to within a period of the counter: its interrupt comes early. *)
Theorem comparator_within_period mc t : 0 < tperiod t -> 0 <= mc -> mc + tperiod t <= 2 ^ 64 -> r64 (comparator64 t) ->
  mc <= caught_up mc t < mc + tperiod t /\
  (comparator64 t < mc + tperiod t -> (caught_up mc t - comparator64 t) mod tperiod t = 0 /\ (mc <= comparator64 t -> caught_up mc t = comparator64 t)) /\
  (mc + tperiod t <= comparator64 t -> caught_up mc t < comparator64 t).
Proof.
  unfold r64, caught_up. generalize (tperiod t) as p, (comparator64 t) as c. intros p c Hp Hm Hw Hc. set (e := u64 (mc + p - 1 - c)).
  pose proof (Z.div_mod e p ltac:(lia)) as Hd. pose proof (Z.mod_pos_bound e p ltac:(lia)) as Hr. assert (e / p * p = e - e mod p) as -> by lia.
  destruct (Z.lt_ge_cases c (mc + p)) as [Hlt|Hge].
  - assert (e = mc + p - 1 - c) as Ee by (unfold e; rewrite u64_small; lia). rewrite u64_small by lia. split; [lia|]. split; [|lia]. intros _.
    assert (c + (e - e mod p) - c = e / p * p) as -> by lia. rewrite Z.mod_mul by lia. split; [done|]. intros Hle. rewrite (Z.mod_small e p) by lia. lia.
  - assert (e = mc + p - 1 - c + 2 ^ 64) as Ee by (unfold e, u64; rewrite <- (Z.mod_add _ 1) by lia; rewrite Z.mod_small; lia).
    assert (u64 (c + (e - e mod p)) = mc + p - 1 - e mod p) as -> by (unfold u64; replace (c + (e - e mod p)) with (mc + p - 1 - e mod p + 1 * 2 ^ 64) by lia; rewrite Z.mod_add, Z.mod_small; lia).
    lia.
Qed.

(** ** Migration *)

Definition HPET_type : htype := HType 12 1048 None.

(** [struct hvm_hw_hpet] as words of 64 bits. *)
Definition hpet_words h : list Z :=
  [capability h; 0; config h; 0; isr h] ++ replicate 25 0 ++ [mc64 h; 0] ++
  (seq 0 3 ≫= fun i => let t := tmr h i in [tconfig t; comparator64 t; fsb t; 0]) ++ replicate 84 0 ++ map (fun i => tperiod (tmr h i)) (seq 0 3).
Definition hpet_bytes h : list Z := hpet_words h ≫= le_bytes 8.

Definition word (bs : list Z) (k : nat) : Z := le_val (take 8 (drop (8 * k) bs)).
Definition rec_timers (bs : list Z) : list hpet_timer :=
  map (fun i => HT (word bs (32 + 4 * i)) (word bs (33 + 4 * i)) (word bs (34 + 4 * i)) (word bs (128 + i)) 0) (seq 0 3).

Lemma hpet_bytes_length h : length (hpet_bytes h) = 1048%nat.
Proof. unfold hpet_bytes. by rewrite (Vioapic.bind_const_length _ 8) by (intros; apply le_bytes_length). Qed.

Lemma word_bytes h k x : hpet_words h !! k = Some x -> r64 x -> word (hpet_bytes h) k = x.
Proof.
  intros Hk Hx. unfold word, hpet_bytes. rewrite <- (app_nil_r (hpet_words h ≫= le_bytes 8)). rewrite (Vioapic.bind_block _ 8 _ _ x) by (done || intros; apply le_bytes_length).
  rewrite le_val_bytes. by apply Z.mod_small.
Qed.

(** The timers of the record: the comparator in the place of the register. *)
Definition saved_timer t : hpet_timer := HT (tconfig t) (comparator64 t) (fsb t) (tperiod t) 0.

Lemma rec_of_bytes n h : hpet_typed n h ->
  word (hpet_bytes h) 0 = capability h /\ word (hpet_bytes h) 2 = config h /\ word (hpet_bytes h) 4 = isr h /\ word (hpet_bytes h) 30 = mc64 h /\
  rec_timers (hpet_bytes h) = map saved_timer (timers h).
Proof.
  intros Hh. pose proof Hh as [H1 H2 H3 H4 H5 H6 _ _ _ _]. split_and!; [by apply word_bytes..|].
  assert (timers h = [tmr h 0; tmr h 1; tmr h 2]) as E. { unfold tmr. destruct (timers h) as [|a [|b [|c [|]]]]; done. }
  rewrite E. unfold rec_timers. cbn [seq map Nat.add Nat.mul].
  assert (forall i, (i < 3)%nat -> timer_typed (tmr h i)) as T by (intros; by apply (tmr_typed n)). pose proof (T 0%nat ltac:(lia)) as []. pose proof (T 1%nat ltac:(lia)) as []. pose proof (T 2%nat ltac:(lia)) as [].
  unfold saved_timer. repeat f_equal; by apply word_bytes.
Qed.

(** Registers that starting a timer does not change. *)
Record same_regs h h' : Prop := {
  sr_cap : capability h' = capability h; sr_config : config h' = config h; sr_isr : isr h' = isr h; sr_mc : mc64 h' = mc64 h; sr_off : mc_offset h' = mc_offset h;
  sr_scale : hpet_to_ns_scale h' = hpet_to_ns_scale h; sr_limit : hpet_to_ns_limit h' = hpet_to_ns_limit h;
  sr_timers i : tconfig (tmr h' i) = tconfig (tmr h i) /\ fsb (tmr h' i) = fsb (tmr h i) /\ tperiod (tmr h' i) = tperiod (tmr h i);
  sr_freq : stime_freq h' = stime_freq h; sr_align : Vpt.vpt_align (plt h') = Vpt.vpt_align (plt h)
}.

Lemma same_regs_refl h : same_regs h h.
Proof. done. Qed.
Lemma same_regs_trans h1 h2 h3 : same_regs h1 h2 -> same_regs h2 h3 -> same_regs h1 h3.
Proof.
  intros [A1 A2 A3 A4 A5 A6 A7 A8 A9 A10] [B1 B2 B3 B4 B5 B6 B7 B8 B9 B10]. split; try congruence. intros i. destruct (A8 i) as (? & ? & ?), (B8 i) as (? & ? & ?). split_and!; congruence.
Qed.
Lemma calm_regs h h' : calm h h' -> same_regs h h'.
Proof. intros K. pose proof K as [A1 A2 A3 A4 A5 A6 A7 A8 A9 A10 A11 A12 A13]. split; try done. intros i. by apply calm_tmr. Qed.

(** The platform timer of [tn] runs on CPU [v], as the registers of [h] say. *)
Record runs (v tn : nat) h (p : Vpt.periodic_time unit) : Prop := {
  rn_list : Vpt.on_list p = true; rn_vcpu : Vpt.pt_vcpu p = Some v; rn_irq : Vpt.pt_irq p = timer_irq h tn; rn_set : is_Some (Vpt.timer p);
  rn_period : Vpt.period p = if timer_is_periodic (tmr h tn) then Vpt.min_period (hpet_tick_to_ns h (tperiod (tmr h tn))) else 0
}.

Lemma runs_regs v tn h h' p : same_regs h h' -> runs v tn h' p -> runs v tn h p.
Proof.
  intros [A1 A2 A3 A4 A5 A6 A7 A8 _ _] [R1 R2 R3 R4 R5]. destruct (A8 tn) as (E1 & E2 & E3). split; try done.
  - rewrite R3. unfold timer_irq, hpet_legacy, timer_int_route. by rewrite A2, E1.
  - rewrite R5. unfold timer_is_periodic, hpet_tick_to_ns. by rewrite E1, E3, A6, A7.
Qed.

Section Loaded.
Context (n : nat) (now : Z) (v : nat) (Hv : (v < n)%nat).

Lemma start_regs tn h : (tn < 3)%nat -> hpet_typed n h -> same_regs h (hpet_set_timer now v tn h) /\
  (timer_enabled (tmr h tn) = true -> runs v tn h (Vpt.pt (plt (hpet_set_timer now v tn h)) (slot tn))).
Proof.
  intros Ht Hh. unfold hpet_set_timer. set (h1 := if (tn =? 0)%nat && hpet_legacy h then _ else h).
  assert (hpet_typed n h1 /\ same_regs h h1) as (H1 & K1).
  { unfold h1. destruct (_ && _); [|done]. split; [|split; try done; apply Vpt.destroy_align]. apply plt_typed; [done|by apply Vpt.destroy_off, Hh|]. intros i Hi. eapply Vpt.quiet_idle; [apply Vpt.quiet_destroy|by apply Hh]. }
  clearbody h1. assert (timer_enabled (tmr h1 tn) = timer_enabled (tmr h tn)) as Een by (unfold timer_enabled; by rewrite (proj1 (sr_timers _ _ K1 tn))).
  destruct (timer_enabled (tmr h1 tn)) eqn:En; cbn [negb]; [|split; [done|congruence]].
  destruct (comparator_spec n now v tn h1 H1 Ht) as [K2 _]. destruct (hpet_get_comparator now v tn h1) as [c h2]. cbn [snd] in K2. pose proof (calm_typed n _ _ K2 H1) as H2.
  destruct (counter_spec n now v h2 H2) as [K3 _]. destruct (hpet_read_maincounter now v h2) as [mc h3]. cbn [snd] in K3. pose proof (calm_typed n _ _ K3 H2) as H3.
  assert (same_regs h h3) as K by (eapply same_regs_trans; [exact K1|]; apply calm_regs; by eapply calm_trans).
  set (delta := hpet_tick_to_ns _ _). clearbody delta. set (per := if timer_is_periodic _ then _ else _). pose proof (slot_lt n h3 tn H3 Ht) as Hs.
  split; [eapply same_regs_trans; [exact K|]; split; try done; apply Vpt.create_align|]. intros _. apply (runs_regs v tn h h3); [done|]. cbn [plt with_plt].
  destruct (Vpt.create_timer now v (slot tn) delta per (timer_irq h3 tn) None (plt h3) Hs) as (A1 & A2 & A3 & A4 & _ & _ & _ & _ & _ & _ & A7). split; try done. rewrite A4. unfold per. by destruct (timer_is_periodic _).
Qed.

(** The loop of [hpet_load] over the timers. *)
Lemma restart_loop_spec l : forall h, NoDup l -> (forall i, i ∈ l -> (i < 3)%nat) -> hpet_typed n h ->
  let h' := foldl (fun h i => if timer_enabled (tmr h i) then hpet_set_timer now v i h else h) h l in
  hpet_typed n h' /\ same_regs h h' /\ (forall tn, tn ∈ l -> timer_enabled (tmr h tn) = true -> runs v tn h (Vpt.pt (plt h') (slot tn))) /\
  (forall tn, (tn < 3)%nat -> tn ∉ l \/ timer_enabled (tmr h tn) = false -> Vpt.pt (plt h') (slot tn) = Vpt.pt (plt h) (slot tn)).
Proof.
  induction l as [|i l IH]; intros h Hnd Hl Hh; cbn [foldl]; [split_and!; try done; by intros tn ?%not_elem_of_nil|].
  apply NoDup_cons in Hnd as [Hi Hnd]. pose proof (Hl i ltac:(by left)) as Hi3. set (h1 := if timer_enabled (tmr h i) then _ else h).
  assert (hpet_typed n h1 /\ same_regs h h1 /\ (timer_enabled (tmr h i) = true -> runs v i h (Vpt.pt (plt h1) (slot i))) /\
    forall tn, (tn < 3)%nat -> tn <> i \/ timer_enabled (tmr h tn) = false -> Vpt.pt (plt h1) (slot tn) = Vpt.pt (plt h) (slot tn)) as (A1 & A2 & A3 & A4).
  { unfold h1. destruct (timer_enabled (tmr h i)) eqn:E; [|done]. destruct (start_spec n now v Hv i h Hi3 Hh) as [S1 _ _ _ S5]. destruct (start_regs i h Hi3 Hh) as [R1 R2].
    split_and!; [done|done|intros _; by apply R2|]. intros tn Ht [Hne|E']; apply S5; try done; [by left|]. destruct (decide (tn = i)) as [->|]; [congruence|by left]. }
  clearbody h1. destruct (IH h1 Hnd ltac:(intros j Hj; apply Hl; by right) A1) as (I1 & I2 & I3 & I4).
  assert (forall tn, timer_enabled (tmr h1 tn) = timer_enabled (tmr h tn)) as Et by (intros tn; unfold timer_enabled; by rewrite (proj1 (sr_timers _ _ A2 tn))).
  split_and!; [done|by eapply same_regs_trans| |].
  - intros tn [->|Htn]%elem_of_cons En; [rewrite I4 by (done || by left); by apply A3|]. apply (runs_regs v tn h h1); [done|]. apply I3; [done|]. by rewrite Et.
  - intros tn Ht Hcase. rewrite I4; [apply A4; [done|]|done|].
    + destruct Hcase as [Hn|?]; [left; intros ->; apply Hn; by left|by right].
    + rewrite Et. destruct Hcase as [Hn|?]; [left; intros Hin; apply Hn; by right|by right].
Qed.

Definition load_time h : Z := Vpt.reading now v (plt h).

(** ** When the timers go off *)

(** A reading of the counter from the guest's time [g] on, up to [j] nanoseconds
    later. *)
Definition seen h (g j c : Z) : Prop := exists k, 0 <= k <= j /\ c = u64 ((g + k) / STIME_PER_HPET_TICK + mc_offset h).
Definition width_of t (x : Z) : Z := if timer_is_32bit t then u32 x else x.
(** The comparator when the counter is [mc]. *)
Definition comparator_at (mc : Z) t : Z := if timer_is_periodic t && truthy (tperiod t) then caught_up mc t else comparator64 t.

(** [t'] is the timer [t] with its comparator as of the count [c]. *)
Definition moved (c : Z) t t' : Prop := comparator64 t' = comparator_at c t /\ cmp t' = width_of t (comparator64 t').
(** The platform timer [p] goes off when the counter, now at [c], reaches the
    comparator. *)
Definition due_at (c : Z) (tn : nat) h (p : Vpt.periodic_time unit) : Prop :=
  let t := tmr h tn in
  Vpt.timer p = Some (Vpt.scheduled p) /\
  Vpt.scheduled p = Vpt.first_tick now (hpet_tick_to_ns h (until h (timer_is_32bit t) (u64 (width_of t (cmp t) - width_of t c)))) (plt h) (Vpt.source p) (Vpt.period p).
(** Both, for counts seen while the timer was started. *)
Definition restarted (g j : Z) (tn : nat) t h p : Prop :=
  exists c1 c2, seen h g j c1 /\ seen h g j c2 /\ moved c1 t (tmr h tn) /\ due_at c2 tn h p.

Lemma seen_weaken h h' g g' j j' c : mc_offset h' = mc_offset h -> g' <= g -> g + j <= g' + j' -> seen h g j c -> seen h' g' j' c.
Proof. intros E H1 H2 (k & Hk & ->). exists (g + k - g'). split; [lia|]. rewrite E. do 3 f_equal. lia. Qed.

Lemma restarted_regs g j g' j' tn t h h' p : same_regs h h' -> tmr h' tn = tmr h tn -> g' <= g -> g + j <= g' + j' -> restarted g j tn t h p -> restarted g' j' tn t h' p.
Proof.
  intros [A1 A2 A3 A4 A5 A6 A7 A8 A9 A10] Et H1 H2 (c1 & c2 & S1 & S2 & M & D1 & D2). exists c1, c2.
  split; [by apply (seen_weaken h h' g g' j j')|]. split; [by apply (seen_weaken h h' g g' j j')|]. rewrite Et. split; [done|]. unfold due_at. rewrite Et. split; [done|].
  rewrite (Vpt.first_tick_align _ _ (plt h) (plt h')) by done. rewrite D2. unfold until, hpet_tick_to_ns, HPET_TINY_TIME_SPAN. by rewrite A6, A7, A9.
Qed.

Lemma counter_reads h : hpet_enabled h = true ->
  hpet_read_maincounter now v h = (u64 (load_time h / STIME_PER_HPET_TICK + mc_offset h), with_plt h (Vpt.hvm_get_guest_time now v (plt h)).2).
Proof.
  intros He. unfold hpet_read_maincounter, guest_time_hpet, load_time, Vpt.reading. rewrite He. by destruct (Vpt.hvm_get_guest_time now v (plt h)).
Qed.

(** Reading the comparator: its value, and the clock is read at most once. *)
Lemma comparator_reads tn h j : (tn < length (timers h))%nat -> hpet_enabled h = true -> Vpt.steady now (j + 1) (plt h) -> 0 <= j -> 0 <= load_time h < 2 ^ 64 - 1 ->
  let r := hpet_get_comparator now v tn h in
  let c := comparator_at (u64 (load_time h / STIME_PER_HPET_TICK + mc_offset h)) (tmr h tn) in
  r.1 = width_of (tmr h tn) c /\ moved (u64 (load_time h / STIME_PER_HPET_TICK + mc_offset h)) (tmr h tn) (tmr r.2 tn) /\ (forall i, i <> tn -> tmr r.2 i = tmr h i) /\
  Vpt.steady now j (plt r.2) /\ load_time h <= load_time r.2 <= load_time h + 1.
Proof.
  intros Ht He Hs Hj Hg. unfold hpet_get_comparator, moved, comparator_at, width_of. rewrite (counter_reads h He). set (mc := u64 (_ + mc_offset h)).
  assert (forall f x i, i <> tn -> tmr (upd_t tn f x) i = tmr x i) as Hne by (intros; by apply tmr_upd_ne).
  assert (forall x, (tn < length (timers x))%nat -> forall f, tmr (upd_t tn f x) tn = f (tmr x tn)) as Heq by (intros; by apply tmr_upd_eq).
  destruct (Vpt.reading_next now v (j + 1) (plt h) ltac:(lia) Hs) as [N1 N2]. replace (j + 1 - 1) with j in N1 by lia.
  destruct (timer_is_periodic (tmr h tn) && truthy (tperiod (tmr h tn))); cbv beta iota zeta; cbn [fst snd]; (split; [done|]).
  - split; [rewrite !Heq by (cbn; rewrite ?length_alter; done); done|]. split; [intros i Hi; by rewrite !Hne|]. split; [exact N1|].
    change (load_time (upd_t _ _ _)) with (Vpt.reading now v (Vpt.hvm_get_guest_time now v (plt h)).2). rewrite N2. unfold load_time in *. rewrite u64_small; lia.
  - split; [rewrite !Heq by done; done|]. split; [intros i Hi; by rewrite Hne|]. split; [destruct Hs as [[? ?] ?]; split; cbn; lia|]. change (load_time (upd_t _ _ _)) with (load_time h). lia.
Qed.

(** Starting a timer that is enabled. *)
Lemma start_exact tn h j : (tn < 3)%nat -> hpet_typed n h -> hpet_enabled h = true -> timer_enabled (tmr h tn) = true ->
  Vpt.steady now (j + 3) (plt h) -> 0 <= j -> 0 <= load_time h < 2 ^ 64 - 3 ->
  let h' := hpet_set_timer now v tn h in
  restarted (load_time h) 1 tn (tmr h tn) h' (Vpt.pt (plt h') (slot tn)) /\ (forall i, i <> tn -> tmr h' i = tmr h i) /\
  Vpt.steady now j (plt h') /\ load_time h <= load_time h' <= load_time h + 3.
Proof.
  intros Ht Hh He Hen Hs Hj Hg. cbv zeta. pose proof (start_regs tn h Ht Hh) as [Kr _]. unfold hpet_set_timer in *. set (h1 := if (tn =? 0)%nat && hpet_legacy h then _ else h) in *.
  assert (hpet_typed n h1 /\ timers h1 = timers h /\ hpet_enabled h1 = true /\ mc_offset h1 = mc_offset h /\ Vpt.clock (plt h1) = Vpt.clock (plt h)) as (H1 & Et & He1 & Eo & Ec).
  { unfold h1. destruct (_ && _); [|done]. split_and!; try done; [|apply Vpt.clock_destroy].
    apply plt_typed; [done|by apply Vpt.destroy_off, Hh|]. intros i Hi. eapply Vpt.quiet_idle; [apply Vpt.quiet_destroy|by apply Hh]. }
  clearbody h1. assert (forall i, tmr h1 i = tmr h i) as Etm by (intros i; unfold tmr; by rewrite Et). rewrite !Etm, Hen in *. cbn [negb] in *.
  assert (load_time h1 = load_time h) as Eg by (apply (Vpt.clock_reading now v _ _ Ec)). pose proof (Vpt.clock_steady now (j + 3) _ _ Ec Hs) as Hs1. rewrite <- Eg in Hg |- *.
  destruct (comparator_reads tn h1 (j + 2)) as (C1 & C2 & C3 & C4 & C5); [rewrite (ht_len _ _ H1); lia|done|by replace (j + 2 + 1) with (j + 3) by lia|lia|lia|].
  destruct (comparator_spec n now v tn h1 H1 Ht) as [K2 _]. destruct (hpet_get_comparator now v tn h1) as [tc h2]. cbn [fst snd] in *. pose proof (calm_typed n _ _ K2 H1) as H2.
  assert (hpet_enabled h2 = true) as He2 by (unfold hpet_enabled; by rewrite (ca_config _ _ K2)). rewrite (counter_reads h2 He2) in *.
  destruct (Vpt.reading_next now v (j + 2) (plt h2) ltac:(lia) C4) as [N1 N2]. replace (j + 2 - 1) with (j + 1) in N1 by lia.
  pose proof (calm_regs _ _ K2) as [R1 R2 R3 R4 R5 R6 R7 R8 R9 R10]. destruct (R8 tn) as (T1 & T2 & T3).
  set (h3 := with_plt h2 _) in *. change (tmr h3 tn) with (tmr h2 tn) in *. pose proof (slot_lt n h2 tn H2 Ht) as Hsl.
  set (mc2 := u64 (load_time h2 / STIME_PER_HPET_TICK + mc_offset h2)) in *. set (delta := hpet_tick_to_ns h3 _) in *. set (per := if timer_is_periodic _ then _ else _) in *.
  set (p' := Vpt.create_periodic_time now v (slot tn) delta per (timer_irq h3 tn) None (plt h3)) in *.
  pose proof (Vpt.clock_create now v (slot tn) delta per (timer_irq h3 tn) None (plt h3)) as Ecr. fold p' in Ecr.
  destruct (Vpt.reading_next now v (j + 1) (plt h3) ltac:(lia) N1) as [M1 M2]. replace (j + 1 - 1) with j in M1 by lia.
  assert (load_time h3 = load_time h2 + 1) as G3 by (unfold load_time in *; cbn [plt with_plt h3]; rewrite N2, u64_small; lia).
  assert (Vpt.reading now v p' = load_time h2 + 2) as G4.
  { rewrite (proj1 (Vpt.clock_reading now v _ _ Ecr)), M2. change (Vpt.reading now v (plt h3)) with (load_time h3). rewrite G3, u64_small; lia. }
  split_and!.
  - exists (u64 (load_time h1 / STIME_PER_HPET_TICK + mc_offset h1)), mc2. split_and!.
    + exists 0. split; [lia|]. cbn [mc_offset with_plt h3]. by rewrite R5, Z.add_0_r.
    + exists (load_time h2 - load_time h1). split; [lia|]. unfold mc2. cbn [mc_offset with_plt h3]. do 3 f_equal. lia.
    + rewrite <- (Etm tn); exact C2.
    + destruct (Vpt.create_timer now v (slot tn) delta per (timer_irq h3 tn) None (plt h3) Hsl) as (_ & _ & _ & A4 & _ & _ & A7 & _ & _ & A10 & A11). unfold due_at. cbv zeta.
      change (plt (with_plt h3 p')) with p'. change (tmr (with_plt h3 p') tn) with (tmr h2 tn). split; [exact A11|]. fold p' in A4, A7, A10. rewrite A4, A7, A10.
      rewrite (Vpt.first_tick_align _ _ (plt h3) p') by apply Vpt.create_align. f_equal. unfold delta. destruct C2 as [Cc Cm].
      assert (timer_is_32bit (tmr h2 tn) = timer_is_32bit (tmr h1 tn)) as E32 by (unfold timer_is_32bit; by rewrite T1).
      unfold width_of in *. rewrite E32 in *. rewrite Cm, C1, Cc. by destruct (timer_is_32bit (tmr h1 tn)).
  - intros i Hi. change (tmr (with_plt h3 p') i) with (tmr h2 i). rewrite C3 by done. apply Etm.
  - by apply (Vpt.clock_steady now j _ _ Ecr).
  - change (load_time (with_plt h3 p')) with (Vpt.reading now v p'). lia.
  - change (load_time (with_plt h3 p')) with (Vpt.reading now v p'). lia.
Qed.

(** The loop of [hpet_load]: at most three readings for a timer. *)
Lemma restart_loop_exact l : forall h j, NoDup l -> (forall i, i ∈ l -> (i < 3)%nat) -> hpet_typed n h -> hpet_enabled h = true ->
  Vpt.steady now (j + 3 * Z.of_nat (length l)) (plt h) -> 0 <= j -> 0 <= load_time h < 2 ^ 64 - 3 * Z.of_nat (length l) ->
  let h' := foldl (fun h i => if timer_enabled (tmr h i) then hpet_set_timer now v i h else h) h l in
  (forall tn, tn ∈ l -> timer_enabled (tmr h tn) = true ->
     restarted (load_time h) (3 * Z.of_nat (length l)) tn (tmr h tn) h' (Vpt.pt (plt h') (slot tn))) /\
  (forall tn, tn ∉ l \/ timer_enabled (tmr h tn) = false -> tmr h' tn = tmr h tn).
Proof.
  induction l as [|i l IH]; intros h j Hnd Hl Hh He Hs Hj Hg; cbn [foldl]; [split; [by intros tn ?%not_elem_of_nil|done]|].
  apply NoDup_cons in Hnd as [Hi Hnd]. pose proof (Hl i ltac:(by left)) as Hi3. cbn [length] in *. set (h1 := if timer_enabled (tmr h i) then _ else h).
  assert (hpet_typed n h1 /\ same_regs h h1 /\ (timer_enabled (tmr h i) = true -> restarted (load_time h) 1 i (tmr h i) h1 (Vpt.pt (plt h1) (slot i))) /\
    (forall tn, tn <> i \/ timer_enabled (tmr h tn) = false -> tmr h1 tn = tmr h tn) /\
    Vpt.steady now (j + 3 * Z.of_nat (length l)) (plt h1) /\ load_time h <= load_time h1 <= load_time h + 3) as (A1 & A2 & A3 & A4 & A5 & A6).
  { unfold h1. destruct (timer_enabled (tmr h i)) eqn:E.
    - destruct (start_exact i h (j + 3 * Z.of_nat (length l)) Hi3 Hh He E) as (X1 & X2 & X3 & X4); [by replace (j + 3 * Z.of_nat (length l) + 3) with (j + 3 * Z.of_nat (S (length l))) by lia|lia|lia|].
      destruct (start_regs i h Hi3 Hh) as [R1 _]. split_and!; try done; try lia; [by apply (start_spec n now v Hv i h Hi3 Hh)|]. intros tn [Hne|E']; [by apply X2|]. apply X2. intros ->. congruence.
    - split_and!; try done; try lia. destruct Hs as [[? ?] ?]. split; lia. }
  clearbody h1. assert (hpet_enabled h1 = true) as He1 by (unfold hpet_enabled; by rewrite (sr_config _ _ A2)).
  destruct (IH h1 j Hnd ltac:(intros k Hk; apply Hl; by right) A1 He1 A5 Hj ltac:(lia)) as [I1 I2]. destruct (restart_loop_spec l h1 Hnd ltac:(intros k Hk; apply Hl; by right) A1) as (_ & I3 & _ & I4).
  assert (forall tn, timer_enabled (tmr h1 tn) = timer_enabled (tmr h tn)) as Ete by (intros tn; unfold timer_enabled; by rewrite (proj1 (sr_timers _ _ A2 tn))).
  set (h' := foldl _ h1 l) in *. clearbody h'. split.
  - intros tn [->|Htn]%elem_of_cons En.
    + rewrite I4 by (done || by left). eapply restarted_regs; [exact I3|apply I2; by left|reflexivity| |by apply A3]. lia.
    + assert (tn <> i) by (by intros ->). rewrite <- (A4 tn) by (by left). eapply restarted_regs; [apply same_regs_refl|reflexivity| | |apply I1; [done|by rewrite Ete]]; lia.
  - intros tn Hcase. rewrite I2, A4; [done| |].
    + destruct Hcase as [Hn|?]; [left; intros ->; apply Hn; by left|by right].
    + rewrite Ete. destruct Hcase as [Hn|?]; [left; intros Hin; apply Hn; by right|by right].
Qed.

(** What the registers of the record become. *)
Lemma loaded_hpet_spec cap cfg st mc ts h : hpet_typed n h -> r64 cap -> r64 cfg -> r64 st -> r64 mc -> length ts = 3%nat -> Forall timer_typed ts ->
  let h' := hpet_loaded now v cap cfg st mc ts h in
  hpet_typed n h' /\ capability h' = cap /\ config h' = cfg /\ isr h' = st /\ mc64 h' = mc /\ mc_offset h' = u64 (mc - load_time h / STIME_PER_HPET_TICK) /\
  (forall i, tconfig (tmr h' i) = tconfig (ts !!! i) /\ fsb (tmr h' i) = fsb (ts !!! i) /\ tperiod (tmr h' i) = tperiod (ts !!! i)) /\
  (forall tn, (tn < 3)%nat -> running h' tn = true -> runs v tn h' (Vpt.pt (plt h') (slot tn))) /\
  (forall tn, (tn < 3)%nat -> running h' tn = false -> Vpt.pt (plt h') (slot tn) = Vpt.pt (plt h) (slot tn)).
Proof.
  intros Hh Hcap Hcfg Hst Hmc Hl Hts. unfold hpet_loaded. cbv zeta. set (f := fun t : hpet_timer => if timer_is_32bit _ then _ else _). set (h0 := HPET cap cfg st mc (map f ts) _ _ _ _ _ _).
  assert (forall t, tconfig (f t) = tconfig t /\ fsb (f t) = fsb t /\ tperiod (f t) = tperiod t /\ (timer_typed t -> timer_typed (f t))) as Hf.
  { intros t. unfold f. destruct (timer_is_32bit _); split_and!; try done; intros []; split; try done. cbn. apply r64_u32. }
  assert (hpet_typed n h0) as H0.
  { destruct Hh. split; try done; cbn [timers h0]; [by rewrite length_map|]. apply Forall_map. eapply Forall_impl; [exact Hts|]. intros t Ht. by apply Hf. }
  pose proof (calm_time now v h0) as K. assert ((guest_time_hpet now v h0).1 = load_time h / STIME_PER_HPET_TICK) as Eg by done. destruct (guest_time_hpet now v h0) as [g h1]. cbn [fst snd] in *.
  pose proof (calm_typed n _ _ K H0) as H1. pose proof (calm_regs _ _ K) as [C1 C2 C3 C4 C5 C6 C7 C8 C9 C10]. pose proof (ca_pts _ _ K) as Ep.
  set (h2 := with_counter h1 _ _ _). assert (hpet_typed n h2) as H2 by (apply counter_typed; [done|apply H1|apply H1]).
  assert (forall i, tconfig (tmr h2 i) = tconfig (ts !!! i) /\ fsb (tmr h2 i) = fsb (ts !!! i) /\ tperiod (tmr h2 i) = tperiod (ts !!! i)) as Hti.
  { intros i. change (tmr h2 i) with (tmr h1 i). destruct (C8 i) as (-> & -> & ->). unfold tmr. cbn [timers h0]. rewrite !list_lookup_total_alt, list_lookup_fmap.
    destruct (ts !! i) as [t|]; [|done]. cbn. destruct (Hf t) as (? & ? & ? & _). done. }
  assert (capability h2 = cap /\ config h2 = cfg /\ isr h2 = st /\ mc64 h2 = mc /\ mc_offset h2 = u64 (mc - load_time h / STIME_PER_HPET_TICK)) as (D1 & D2 & D3 & D4 & D5).
  { subst h2. cbn [capability config isr mc64 mc_offset with_counter]. rewrite C1, C2, C3, C4, Eg. done. }
  assert (forall k, Vpt.pt (plt h2) k = Vpt.pt (plt h) k) as Ept by (intros k; unfold Vpt.pt; cbn [plt with_counter h2]; by rewrite Ep). clearbody h2.
  destruct (hpet_enabled h2) eqn:En.
  - destruct (restart_loop_spec (seq 0 Vpt.HPET_TIMER_NUM) h2 (NoDup_seq _ _)) as (L1 & L2 & L3 & L4); [intros i Hi%elem_of_seq; unfold Vpt.HPET_TIMER_NUM in Hi; lia|done|].
    set (h3 := foldl _ h2 _) in *. clearbody h3. pose proof L2 as [E1 E2 E3 E4 E5 E6 E7 E8 E9 E10].
    assert (forall tn, running h3 tn = timer_enabled (tmr h2 tn)) as Er by (intros tn; unfold running, hpet_enabled, timer_enabled in *; rewrite E2, En; cbn [andb]; by rewrite (proj1 (E8 tn))).
    split_and!; try congruence.
    + intros i. destruct (E8 i) as (-> & -> & ->). apply Hti.
    + intros tn Ht. rewrite Er. intros Hr. apply (runs_regs v tn h3 h2); [|by apply L3; [apply elem_of_seq; unfold Vpt.HPET_TIMER_NUM; lia|]].
      split; try congruence. intros i. destruct (E8 i) as (? & ? & ?). done.
    + intros tn Ht. rewrite Er. intros Hr. rewrite L4 by (done || by right). apply Ept.
  - split_and!; try done; intros tn Ht Hr; unfold running in Hr; by rewrite En in Hr || apply Ept.
Qed.

(** The comparators after a load, and when the timers go off: the ten readings of
    the clock that a load makes are less than a tick apart. *)
Lemma loaded_exact cap cfg st mc ts h : hpet_typed n h -> r64 cap -> r64 cfg -> r64 st -> r64 mc -> length ts = 3%nat -> Forall timer_typed ts ->
  Vpt.steady now 10 (plt h) -> 0 <= load_time h < 2 ^ 64 - 10 ->
  let h' := hpet_loaded now v cap cfg st mc ts h in
  forall tn, (tn < 3)%nat ->
  let t := set_comparator (cmp (ts !!! tn)) (ts !!! tn) in
  (running h' tn = true -> restarted (load_time h) 10 tn t h' (Vpt.pt (plt h') (slot tn))) /\
  (running h' tn = false -> comparator64 (tmr h' tn) = comparator64 t /\ cmp (tmr h' tn) = width_of t (comparator64 t)).
Proof.
  intros Hh Hcap Hcfg Hst Hmc Hl Hts Hsd Hg h' tn Htn t. destruct (loaded_hpet_spec cap cfg st mc ts h Hh Hcap Hcfg Hst Hmc Hl Hts) as (_ & _ & Ecfg & _ & _ & _ & Etc & _ & _). fold h' in Ecfg, Etc.
  revert Ecfg Etc. subst h'. unfold hpet_loaded. cbv zeta. set (f := fun t : hpet_timer => if timer_is_32bit _ then _ else _). set (h0 := HPET cap cfg st mc (map f ts) _ _ _ _ _ _).
  assert (forall x, timer_typed x -> timer_typed (f x)) as Hf.
  { intros x. unfold f. destruct (timer_is_32bit _); intros []; split; try done. cbn. apply r64_u32. }
  assert (hpet_typed n h0) as H0.
  { destruct Hh. split; try done; cbn [timers h0]; [by rewrite length_map|]. apply Forall_map. eapply Forall_impl; [exact Hts|]. intros x Hx. by apply Hf. }
  unfold guest_time_hpet. destruct (Vpt.reading_next now v 10 (plt h) ltac:(lia) Hsd) as [N1 N2].
  pose proof (calm_time now v h0) as K. unfold guest_time_hpet in K. change (plt h0) with (plt h) in *.
  destruct (Vpt.hvm_get_guest_time now v (plt h)) as [g p1]. cbn [snd] in K, N1, N2. cbv beta iota.
  pose proof (calm_typed n _ _ K H0) as H1. set (h2 := with_counter (with_plt h0 p1) _ _ _). assert (hpet_typed n h2) as H2 by (apply counter_typed; [done|apply H1|apply H1]).
  assert (tmr h2 tn = f (ts !!! tn)) as Et.
  { change (tmr h2 tn) with (map f ts !!! tn). destruct (lookup_lt_is_Some_2 ts tn) as [x Hx]; [lia|]. rewrite (list_lookup_total_correct _ _ _ Hx).
    apply list_lookup_total_correct. by rewrite list_lookup_fmap, Hx. }
  assert (timer_is_32bit (f (ts !!! tn)) = timer_is_32bit t /\ timer_is_periodic (f (ts !!! tn)) = timer_is_periodic t /\ tperiod (f (ts !!! tn)) = tperiod t /\
    comparator64 (f (ts !!! tn)) = comparator64 t /\ cmp (f (ts !!! tn)) = width_of t (comparator64 t) /\ timer_enabled (f (ts !!! tn)) = timer_enabled t) as (F1 & F2 & F3 & F4 & F5 & F6).
  { unfold f, width_of. fold t. by destruct (timer_is_32bit t) eqn:E. }
  assert (load_time h2 = load_time h + 1) as Eg by (change (load_time h2) with (Vpt.reading now v p1); rewrite N2; change (Vpt.reading now v (plt h)) with (load_time h); rewrite u64_small; lia).
  assert (Vpt.steady now 9 (plt h2)) as S2 by exact N1. clearbody h2. intros Ecfg Etc. destruct (hpet_enabled h2) eqn:En.
  - destruct (restart_loop_exact (seq 0 Vpt.HPET_TIMER_NUM) h2 0 (NoDup_seq _ _)) as [L1 L2]; [intros i Hi%elem_of_seq; unfold Vpt.HPET_TIMER_NUM in Hi; lia|done|done|exact S2|lia|rewrite Eg; cbn [seq length Vpt.HPET_TIMER_NUM]; lia|].
    destruct (restart_loop_spec (seq 0 Vpt.HPET_TIMER_NUM) h2 (NoDup_seq _ _)) as (_ & [_ E2 _ _ _ _ _ _ _ _] & _); [intros i Hi%elem_of_seq; unfold Vpt.HPET_TIMER_NUM in Hi; lia|done|].
    change (3 * Z.of_nat (length (seq 0 Vpt.HPET_TIMER_NUM))) with 9 in *. set (h3 := foldl _ h2 _) in *. clearbody h3.
    assert (running h3 tn = timer_enabled (tmr h2 tn)) as Hrun.
    { unfold running, hpet_enabled in *. rewrite E2, En. cbn [andb]. rewrite Et, F6. unfold timer_enabled. by rewrite (proj1 (Etc tn)). }
    assert (tn ∈ seq 0 Vpt.HPET_TIMER_NUM) as Hin by (apply elem_of_seq; unfold Vpt.HPET_TIMER_NUM; lia).
    assert (timer_enabled (tmr h2 tn) = true -> restarted (load_time h) 10 tn t h3 (Vpt.pt (plt h3) (slot tn))) as Hre.
    { intros Hte. destruct (L1 tn Hin Hte) as (c1 & c2 & X1 & X2 & [X3 X3'] & X4). exists c1, c2. split; [apply (seen_weaken h3 h3 (load_time h2) (load_time h) 9 10); (done || lia)|].
      split; [apply (seen_weaken h3 h3 (load_time h2) (load_time h) 9 10); (done || lia)|]. split; [|done]. rewrite Et in X3, X3'. unfold moved, comparator_at, width_of in *.
      rewrite F1 in X3'. rewrite F2, F3, F4 in X3. split; [|done]. rewrite X3. unfold caught_up. by rewrite F3, F4. }
    rewrite Hrun. split; [exact Hre|]. intros Hr. rewrite (L2 tn) by (by right). by rewrite Et.
  - unfold running. rewrite En, Et. split; [done|]. intros _. done.
Qed.

End Loaded.

(** A record of the right type and length is found whole behind its descriptor. *)
Lemma check_entry_ok r x : hok x -> next x (rec_bytes r) -> rec_ok r ->
  _hvm_check_entry x (r_code r) (rec_len r) true = (0, advance x 8) /\ bytes_at (advance x 8) (cur (advance x 8)) (length (r_data r)) = r_data r /\
  cur x + 8 + rec_len r <= hsize x.
Proof.
  intros Hh Hn Hr. destruct (next_descriptor x r Hh Hn Hr) as (Ec & Ei & El). pose proof Hn as [Hf _]. rewrite rec_bytes_length in Hf. pose proof Hh as (? & ? & ?).
  unfold fits in Hf. unfold rec_len in *. split_and!; [| |lia].
  - unfold _hvm_check_entry, sizeof_desc. rewrite room_ok by done. destruct (Z.gtb_spec (Z.of_nat (length (r_data r)) + 8) (hsize x - cur x)); [lia|].
    rewrite Ec, El, !Z.eqb_refl, Z.ltb_irrefl. cbn [negb orb andb]. rewrite u32_small by lia. done.
  - apply next_app in Hn as [_ [_ Hn]]; [|done]. rewrite descriptor_length in Hn. exact Hn.
Qed.

Section Migration.
Context {S : Type} `{!Component S HPETState}.
(** The host's time and the CPU that takes the interrupts, on the source and on
    the target. *)
Context (now : Z) (v : nat) (now' : Z) (v' : nat).
Implicit Types d : hdom S.

Definition after_save d : hdom S := dput (settle_counter now v (dget d)) d.

(** The record is built in the buffer, after its descriptor. *)
Definition hpet_save (d : hdom S) (h : hctx) : run (Z * hctx * hdom S) :=
  let s := settle_counter now v (dget d) in
  let '(rc, h) := _hvm_init_entry h 12 0 1048 in
  let h := if rc =? 0 then put h (hpet_bytes s) else h in
  Ret (rc, h, dput s d).

Definition hpet_put (bs : list Z) (s : HPETState) : HPETState := hpet_loaded now' v' (word bs 0) (word bs 2) (word bs 4) (word bs 30) (rec_timers bs) s.

Definition hpet_load (d : hdom S) (h : hctx) : run (Z * hctx * hdom S) :=
  let '(r, h) := _hvm_check_entry h 12 1048 true in
  if negb (r =? 0) then Ret (- EINVAL, h, d)
  else Ret (0, Hctx (u32 (cur h + 1048)) (hsize h) (hdata h), dput (hpet_put (bytes_at h (cur h) 1048) (dget d)) d).

Definition hpet_handler : handler S := Handler hpet_save hpet_load (reg_size 1 HPET_type) HVMSR_PER_DOM.
Definition hpet_device : device S :=
  Device hpet_handler (fun d => [HRec 12 0 (hpet_bytes (settle_counter now v (dget d)))]) after_save (fun r d => rec_len r = 1048)
    (fun r d => dput (hpet_put (r_data r) (dget d)) d).

#[export] Instance hpet_laws : DeviceLaws 12 hpet_device.
Proof.
  split; cbn [hpet_device dv_handler dv_records dv_after dv_accepts dv_apply].
  - intros d. repeat constructor; unfold rec_len; cbn [r_code r_inst r_data]; rewrite ?hpet_bytes_length; lia.
  - intros d. rewrite recs_bytes_cons, length_app, rec_bytes_length. cbn [r_data]. by rewrite hpet_bytes_length.
  - intros d h Hh Hf. cbn [hpet_handler h_save]. unfold hpet_save. rewrite recs_bytes_cons, app_nil_r in *. set (bs := hpet_bytes _) in *.
    assert (length bs = 1048%nat) as Hl by apply hpet_bytes_length. rewrite rec_bytes_length in Hf. cbn [r_data] in Hf.
    pose proof (save_entry_ok HPET_type 0 h bs Hh ltac:(by rewrite Hl) Hf) as E. unfold hvm_save_entry in E. cbn [t_code t_len HPET_type] in E.
    destruct (_hvm_init_entry h 12 0 1048) as [rc h1]. destruct (rc =? 0) eqn:Erc; [|injection E as -> _; done]. apply Z.eqb_eq in Erc as ->. unfold _hvm_write_entry in E. apply (f_equal snd) in E. change (snd (0, ?x)) with x in E. by rewrite E.
  - done.
  - intros d h r Hh Hn Hc Hr Hl. cbn [hpet_handler h_load]. unfold hpet_load. destruct (check_entry_ok r h Hh Hn Hr) as (E1 & E2 & E3). pose proof Hh as (? & ? & ?).
    rewrite Hl in E1, E3. change (Z.of_nat 12) with 12 in Hc. rewrite Hc in E1. rewrite E1. cbn [Z.eqb negb]. unfold rec_len in Hl. assert (length (r_data r) = 1048%nat) as Hl' by lia. rewrite Hl' in E2. rewrite E2.
    rewrite rec_bytes_length, Hl'. unfold advance. cbn [cur hsize hdata]. rewrite u32_small by lia. by replace (cur h + Z.of_nat 8 + 1048) with (cur h + Z.of_nat (8 + 1048)) by lia.
  - intros d h Hh Hb _. cbn [hpet_handler h_load]. unfold hpet_load. pose proof (check_entry_spec h 12 1048 true Hh ltac:(lia)) as Hk. destruct (_hvm_check_entry h 12 1048 true) as [r h1].
    destruct Hk as [[-> ->]|(-> & -> & Hle & Hf)]; cbn [Z.eqb negb]; do 3 eexists; (split; [reflexivity|]); [done|]. intros _. pose proof Hh as (? & ? & ?).
    unfold consumed, hok, sizeof_desc, advance. cbn [cur hsize hdata]. rewrite u32_small by lia. split_and!; (done || lia).
Qed.

(** [hvm_sr_handlers], with the type of this file. *)
Definition hpet_devices : list (option (device S)) := replicate 12 None ++ [Some hpet_device].
Definition hpet_table : list (option (handler S)) := table hpet_devices.

Lemma hpet_devices_laws i dv : hpet_devices !! i = Some (Some dv) -> DeviceLaws i dv.
Proof. intros H. do 13 (destruct i as [|i]; [cbn in H; try discriminate H; injection H as <-; eauto using hpet_laws|]). done. Qed.

(** The value of the counter at [now2] on CPU [v2]. *)
Definition counter_at (now2 : Z) (v2 : nat) h : Z := (hpet_read_maincounter now2 v2 h).1.
Definition ticks_at (now2 : Z) (v2 : nat) h : Z := load_time now2 v2 h / STIME_PER_HPET_TICK.
(** A count that is read while the counter goes on from [mc], within a tick. *)
Definition within_tick (mc c : Z) : Prop := c = mc \/ c = u64 (mc + 1).

Lemma seen_within h g c mc : 0 <= mc < 2 ^ 64 -> mc_offset h = u64 (mc - g / STIME_PER_HPET_TICK) -> seen h g 10 c -> within_tick mc c.
Proof.
  intros Hm E (k & Hk & ->). rewrite E. unfold within_tick, STIME_PER_HPET_TICK. set (e := (g + k) / 16 - g / 16). assert (e = 0 \/ e = 1) as He by (unfold e; zlia).
  assert (u64 ((g + k) / 16 + u64 (mc - g / 16)) = u64 (mc + e)) as -> by (unfold u64; rewrite Zplus_mod_idemp_r; f_equal; unfold e; lia).
  destruct He as [-> | ->]; [left; rewrite Z.add_0_r; by apply u64_small|by right].
Qed.

(** The platform timer of [i] runs as the registers say, from the count that the
    comparator and the deadline were computed with, within a tick of [mc]. *)
Definition goes_on (mc : Z) (i : nat) (s s' : HPETState) : Prop :=
  let p := Vpt.pt (plt s') (slot i) in
  runs v' i s' p /\ exists c1 c2, within_tick mc c1 /\ within_tick mc c2 /\ moved c1 (tmr s i) (tmr s' i) /\ due_at now' c2 i s' p.


End Migration.

(** ** A guest with a periodic timer *)

Definition blank_hpet : HPETState := HPET 0 0 0 0 (replicate 3 inhabitant) 0 0 0 0 (Vpt.vpt_init Vpt.no_delay_for_missed_ticks false 1000 1) false.
Definition new_hpet : HPETState := hpet_init blank_hpet.

Lemma blank_slots tn : (tn < 3)%nat -> Vpt.pt (plt blank_hpet) (slot tn) = Vpt.no_timer Vpt.PTSRC_isa.
Proof. intros Ht. destruct tn as [|[|[|tn]]]; [reflexivity..|lia]. Qed.

Lemma new_hpet_ok : hpet_ok 1 new_hpet.
Proof.
  apply hpet_init_ok; [|intros tn Ht; by rewrite blank_slots].
  split; try (unfold r64; cbn; lia); try done; [|apply Vpt.vpt_init_ok|intros tn Ht; by rewrite blank_slots].
  apply Forall_replicate. split; unfold r64; cbn; lia.
Qed.

(** Timer 0 is periodic, with 32 bits, on line 20; it goes off, is disabled, and
    the HPET is reset. *)
Definition hpet_ops : list (Z * nat * hpet_op) :=
  [(2000, 0%nat, Write 0x100 4 0x290c); (3000, 0%nat, Write 0x108 4 100000); (4000, 0%nat, Write 0x010 4 1); (5000, 0%nat, Timer (Vpt.Fire 2));
   (6000, 0%nat, Read 0x0f0 8); (7000, 0%nat, Write 0x100 4 0x2908); (8000, 0%nat, Reset)].

Lemma hpet_ops_valid : Forall (valid_hpet 1) hpet_ops.
Proof. repeat (constructor; [split; [cbn; lia|cbn; try exact I; unfold r64; lia]|]). constructor. Qed.

Definition ticking : HPETState := hpet_trace (take 3 hpet_ops) new_hpet.

Lemma ticking_ok : hpet_ok 1 ticking.
Proof.
  destruct (hpet_trace_ok 1 (take 3 hpet_ops) new_hpet) as [H1 H2]; [apply Forall_take, hpet_ops_valid|apply new_hpet_ok|]. unfold ticking.
  split; [exact H1|]. destruct H2 as [H2|H2]; [|exact H2]. vm_compute in H2. discriminate H2.
Qed.

Lemma hpet_silent_unless_enabled_witness :
  let h' := hpet_trace (take 6 hpet_ops) new_hpet in
  Vpt.on_list (Vpt.pt (plt ticking) 2) = true /\ hpet_enabled h' = true /\ Vpt.on_list (Vpt.pt (plt h') 2) = false /\ Vpt.pending_intr_nr (Vpt.pt (plt h') 2) = 0 /\ Vpt.timer (Vpt.pt (plt h') 2) = None.
Proof.
  intros h'. destruct (hpet_silent_unless_enabled 1 (take 6 hpet_ops) new_hpet) as [_ [H|H]]; [apply Forall_take, hpet_ops_valid|apply new_hpet_ok|vm_compute in H; discriminate H|].
  split; [vm_compute; reflexivity|]. split; [vm_compute; reflexivity|]. apply (H 0%nat); [lia|]. right. vm_compute. reflexivity.
Defined.

(** The line is that of the route, which can be any of 32; interrupts of platform
    timers go to lines of the ISA bus, of which there are 16. *)
Lemma hpet_line_beyond_isa : Vpt.pt_irq (Vpt.pt (plt ticking) 2) = 20 /\ Vpt.source (Vpt.pt (plt ticking) 2) = Vpt.PTSRC_isa.
Proof. split; vm_compute; reflexivity. Qed.

Lemma level_write_leaks_timer_witness :
  let h1 := hpet_write 6000 0 0xfed00100 4 2 ticking in
  crashed h1 = true /\ Vpt.timer (Vpt.pt (plt (hpet_deinit 7000 0 h1)) 2) = Some 778144.
Proof. apply (level_write_leaks_timer 1 6000 0 7000 0 0 ticking 778144); [exact ticking_ok|lia|lia|vm_compute; reflexivity]. Defined.

(** A timer whose comparator is ten periods ahead. *)
Lemma comparator_within_period_witness : let t := HT 0x30c 0 0 1000 12345 in 2000 <= caught_up 2000 t < 3000 /\ caught_up 2000 t < comparator64 t.
Proof.
  intros t. destruct (comparator_within_period 2000 t) as (H1 & _ & H3); [cbn; lia|lia|cbn; lia|unfold r64; cbn; lia|]. split; [exact H1|]. apply H3. cbn. lia.
Defined.

#[local] Program Instance only_hpet : Component HPETState HPETState := {| sget := id; sput h _ := h |}.
Solve All Obligations with done.

Definition guest h : hdom HPETState := HDom false 2000000 false false false [Some false] [] h.


(** A halted HPET has no such luck: what is saved as the counter is what it would
    be had it run on.  A guest that has never enabled it finds the time since its
    start, in ticks, in place of 0. *)
Lemma halted_counter_jumps : hpet_enabled new_hpet = false /\ mc64 new_hpet = 0 /\ mc64 (settle_counter 20000000 0 new_hpet) = 1249937.
Proof. split_and!; vm_compute; reflexivity. Qed.

End Hpet.
