(* ===== verification/HvmLoad.v ===== *)
(** Loading the state of an HVM guest with all the handlers that are modelled.

    Puts the devices of the other files in one table, in the slots in which
    [HVM_REGISTER_SAVE_RESTORE] puts them (xen/common/hvm/save.c), and shows
    that the loop of [hvm_load] ends with them on every sequence of bytes. *)

From S2P Require Import Prelude HvmContext HvmHandler HvmCpu Vmx CpuMigrate HvmIrq Vpic Vioapic HvmDevices Lapics LapicMigrate PmTimer Pit Hpet.

Module HvmLoad.
Import HvmContext HvmHandler.

Section Table.
Context {S : Type}.
Context `{!Component S (list Vpic.hvm_hw_vpic), !Component S Vioapic.hvm_hw_vioapic, !Component S Lapics.lapics, !Component S HvmIrq.hvm_irq}.
Context `{!Component S Pit.PITState, !Component S Hpet.HPETState, !Component S PmTimer.PMTState, !Component S HvmDevices.viridian_domain}.

(** What the handlers take from elsewhere: the host's time, the CPUs that take
    the interrupts of the HPET and of the PIT, the counters of the CPUs and
    their scales, delivery while the lines are saved, whether the guest has the
    Viridian interface, and the local structure of its handler. *)
Record host := Host {
  h_now : Z; h_vcpu : nat; h_target : option nat; h_guest_tsc : nat -> Z; h_tsc_offset : nat -> Z; h_gtsc_to_gtime : Z -> Z; h_guest_time : Z;
  h_use_pirq : Z -> option Z; h_deliver : list HvmIrq.event -> S -> S; h_viridian : S -> bool; h_ctxt : list Z
}.
(** The four types that are not in the table below. *)
Record others := Others { o_cpu : option (handler S); o_rtc : option (handler S); o_mtrr : option (handler S); o_xsave : option (handler S) }.

(** [hvm_sr_handlers], by type code; there is no handler of the types END and
    HEADER. *)
Definition full_table (e : host) (o : others) : list (option (handler S)) :=
  [None; None; o_cpu o;
   Some Vpic.pic_handler;
   Some Vioapic.ioapic_handler;
   Some LapicMigrate.hidden_handler;
   Some (LapicMigrate.regs_handler (h_guest_tsc e) (h_tsc_offset e) (h_gtsc_to_gtime e) (h_now e));
   Some (HvmIrq.pci_handler (h_use_pirq e) (h_deliver e));
   Some HvmIrq.isa_handler;
   Some HvmIrq.link_handler;
   Some (Pit.pit_handler (h_now e) (h_target e));
   o_rtc o;
   Some (Hpet.hpet_handler (h_now e) (h_vcpu e) (h_now e) (h_vcpu e));
   Some (PmTimer.pmtimer_handler (h_guest_time e) (h_guest_time e));
   o_mtrr o;
   Some (HvmDevices.viridian_handler (h_viridian e) (h_ctxt e));
   o_xsave o].

Definition total_slot (o : option (handler S)) : Prop := forall H, o = Some H -> total_load H.
Record others_total (o : others) : Prop := {
  ot_cpu : total_slot (o_cpu o); ot_rtc : total_slot (o_rtc o); ot_mtrr : total_slot (o_mtrr o); ot_xsave : total_slot (o_xsave o)
}.

Lemma laws_total {code} {dv : device S} : DeviceLaws code dv -> total_slot (Some (dv_handler dv)).
Proof. intros L H [= <-]. apply dl_total. Qed.

Lemma full_table_total e o : length (h_ctxt e) = 16%nat -> others_total o -> Forall total_slot (full_table e o).
Proof.
  intros Hc [H1 H2 H3 H4]. repeat constructor; try done.
  - exact (laws_total Vpic.pic_laws).
  - exact (laws_total Vioapic.ioapic_laws).
  - exact (laws_total LapicMigrate.hidden_laws).
  - exact (laws_total (LapicMigrate.regs_laws _ _ _ _)).
  - exact (laws_total (HvmIrq.pci_laws _ _)).
  - exact (laws_total HvmIrq.isa_laws).
  - exact (laws_total HvmIrq.link_laws).
  - exact (laws_total (Pit.pit_laws _ _)).
  - exact (laws_total (Hpet.hpet_laws _ _ _ _)).
  - exact (laws_total (PmTimer.pmtimer_laws _ _)).
  - exact (laws_total (HvmDevices.viridian_laws _ _ Hc)).
Qed.

(** C30. Loading the state of an HVM guest ends with a result, success or an
    error, on every sequence of bytes that the toolstack may hand over, when
    the records of the two 8259As, the I/O APIC, the local APICs (both types),
    the lines and links of PCI and ISA, the PIT, the HPET, the PM timer and the
    Viridian interface go to their handlers: each record that is accepted takes
    at least the eight bytes of a descriptor, so that one turn of the loop for
    every eight bytes is enough.  Nothing is claimed of the other four types:
    the handlers of CPU, RTC, MTRR and XSAVE are any handlers, or none, that
    return and, when they accept a record, move past it. *)
Theorem hvm_load_terminates e o fuel hdr (d : hdom S) h :
  length (h_ctxt e) = 16%nat -> others_total o ->
  hok h -> Forall is_byte (hdata h) -> hsize h - cur h < 8 * Z.of_nat fuel ->
  exists r h' d', hvm_load (full_table e o) fuel hdr d h = Ret (r, h', d').
Proof.
  intros Hc Ho. apply load_returns. intros i H Hi.
  exact (Forall_lookup_1 _ _ _ _ (full_table_total e o Hc Ho) Hi H eq_refl).
Qed.

End Table.
Arguments host : clear implicits.
Arguments Host {S}.
Arguments others : clear implicits.
Arguments Others {S}.

(** ** A machine with all of them *)

Record machine := Machine {
  m_hw : HvmDevices.hw; m_lapics : Lapics.lapics; m_pit : Pit.PITState; m_hpet : Hpet.HPETState; m_pmt : PmTimer.PMTState; m_cpus : list (HvmCpu.vcpu Vmx.vmx)
}.

#[local] Existing Instances HvmDevices.hw_has_irq HvmDevices.hw_has_pics HvmDevices.hw_has_io HvmDevices.hw_has_viridian.

(** A part of the interrupt hardware is one of the machine. *)
#[local] Program Instance hw_part {T} `{!Component HvmDevices.hw T} : Component machine T :=
  {| sget m := sget (m_hw m); sput t m := Machine (sput t (m_hw m)) (m_lapics m) (m_pit m) (m_hpet m) (m_pmt m) (m_cpus m) |}.
Next Obligation. intros. cbn. apply sget_sput. Qed.
Next Obligation. intros. cbn. by rewrite sput_sput. Qed.
Next Obligation. intros T C [? ? ? ? ? ?]. cbn. by rewrite sput_sget. Qed.
#[local] Program Instance lapics_part : Component machine Lapics.lapics :=
  {| sget := m_lapics; sput t m := Machine (m_hw m) t (m_pit m) (m_hpet m) (m_pmt m) (m_cpus m) |}.
Solve All Obligations with by intros; destruct s.
#[local] Program Instance pit_part : Component machine Pit.PITState :=
  {| sget := m_pit; sput t m := Machine (m_hw m) (m_lapics m) t (m_hpet m) (m_pmt m) (m_cpus m) |}.
Solve All Obligations with by intros; destruct s.
#[local] Program Instance hpet_part : Component machine Hpet.HPETState :=
  {| sget := m_hpet; sput t m := Machine (m_hw m) (m_lapics m) (m_pit m) t (m_pmt m) (m_cpus m) |}.
Solve All Obligations with by intros; destruct s.
#[local] Program Instance pmt_part : Component machine PmTimer.PMTState :=
  {| sget := m_pmt; sput t m := Machine (m_hw m) (m_lapics m) (m_pit m) (m_hpet m) t (m_cpus m) |}.
Solve All Obligations with by intros; destruct s.
#[local] Program Instance cpus_part : Component machine (list (HvmCpu.vcpu Vmx.vmx)) :=
  {| sget := m_cpus; sput t m := Machine (m_hw m) (m_lapics m) (m_pit m) (m_hpet m) (m_pmt m) t |}.
Solve All Obligations with by intros; destruct s.

#[local] Instance machine_funcs : HvmCpu.HvmFuncs Vmx.vmx := Vmx.vmx_funcs CpuMigrate.host.
#[local] Instance machine_laws : HvmCpu.HvmFuncsLaws Vmx.vmx := Vmx.vmx_laws CpuMigrate.host.
#[local] Instance machine_inhabited : Inhabited Vmx.vmx := populate CpuMigrate.fresh_vmx.

(** The handlers of CPU and XSAVE return as well. *)
Definition machine_others : others machine :=
  Others (Some (HvmCpu.cpu_handler CpuMigrate.host_features false 0 (HvmCpu.Seg 0 0 0 0) (fun _ => 1000) (fun _ => 5) (replicate 1024 0))) None None
    (Some (HvmCpu.xsave_handler (V:=Vmx.vmx) CpuMigrate.host_features [])).

Lemma machine_others_total : others_total machine_others.
Proof.
  split; try done.
  - exact (laws_total (HvmCpu.cpu_laws CpuMigrate.host_features false 0 (HvmCpu.Seg 0 0 0 0) (fun _ => 1000) (fun _ => 5) (replicate 1024 0) (length_replicate 1024 0))).
  - exact (laws_total (HvmCpu.xsave_laws (V:=Vmx.vmx) CpuMigrate.host_features (replicate 1024 0) [] (length_replicate 1024 0) eq_refl)).
Qed.

Definition some_machine : machine :=
  Machine HvmDevices.hw_reset Lapics.new_domain Pit.new_pit Hpet.new_hpet PmTimer.new_pmt [CpuMigrate.new_vcpu; CpuMigrate.new_vcpu; CpuMigrate.new_vcpu].
Definition some_host : host machine :=
  Host 7000 0 (Some 0%nat) (fun _ => 400) (fun _ => 0) (fun x => x) 9000 (fun _ => None) (fun _ m => m) (fun _ => false) (replicate 16 0).

Lemma hvm_load_terminates_witness :
  exists r h' d', hvm_load (full_table some_host machine_others) 9 (replicate 24 0)
    (HDom false 2000000 false false false [Some true; Some true; Some true] [] some_machine) (Hctx 0 64 (replicate 64 7)) = Ret (r, h', d').
Proof.
  apply hvm_load_terminates; [reflexivity|exact machine_others_total|split; [cbn; lia|split; cbn; lia]|by repeat constructor|cbn; lia].
Defined.

End HvmLoad.
